(* ===== verification/_CoqProject ===== *)
-Q . S2P
Prelude.v
NsidManager.v
TzShim.v
NsidMap.v
LogRaw.v
TestFramework.v
TestProg.v
PsaStorage.v
StorageTactics.v
ItsTests.v
SecureClient2.v
ItsProofs.v
PsNsTests.v
PsSTests.v
PsSProofs.v
PsNsProofs.v
NvCounters.v
PsRollbackTests.v
PsRollbackProofs.v
NsidTests.v
NsidTestProofs.v
Qcbor.v
CborRef.v
QcborProofs.v
AttestDecode.v
AttestTests.v
AttestProofs.v
AttestTestProofs.v
Erpc.v
ErpcClient.v
ErpcServer.v
ErpcRef.v
ErpcServerProofs.v
ErpcProofs.v
Cmsis.v
OsWrapperApi.v
OsWrapper.v
OsKernelRef.v
OsWrapperProofs.v
Mailbox.v
MainNs.v
HostMain.v
RtxOs.v
RtxConfig.v
RtxConfigProofs.v
RtxLib.v
RtxEvr.v
BuildConfig.v
MultiCore.v
MultiCoreRef.v
MultiCoreProofs.v
Fair.v
Ffm.v
IpcTests.v
IpcSuites.v
SpmRules.v
FfmRef.v
IpcProofs.v
SfnTests.v
Regression.v
IrqTests.v
IrqSuite.v
Fwu.v
FwuTests.v
FwuRef.v
FwuRules.v
FwuProofs.v
