(* ===== verification/Prelude.v ===== *)
(** * Verification of the TF-M test repository

    tf-m-tests holds the non-secure application that drives Trusted Firmware-M
    on a device (app_broker, lib), the regression tests that run on both sides
    (tests_reg), and the programs that run the PSA client API from a host over
    eRPC (erpc).  The secure services that the tests call, the RTX kernel,
    QCBOR, t_cose and eRPC are not in the repository: each is a class of
    operations with the laws that its documentation states, and each class has
    a reference instance that meets its laws, on which the theorems are
    evaluated.  File names below are relative to src/.

    ** How the program fits together

    [main] (MainNs) starts the platform and the kernel and creates the test
    thread and the mailbox thread.  The threads use the wrapper of the RTOS
    (OsWrapperApi, OsWrapper) over CMSIS-RTOS2 (Cmsis), which RTX implements as
    it is configured (RtxOs, RtxConfig, RtxLib).  On every switch the kernel
    calls the TrustZone shim (TzShim), which finds the client ID of the thread
    in the table of the NSID manager (NsidManager), where the creation of the
    thread put the ID of its name (NsidMap).  The test thread runs the tables of
    suites (Regression) with the framework (TestFramework): registration, the
    tests in order, the verdicts, the log through the formatter (LogRaw).  A
    test is a program (TestProg) that calls a service: ITS and PS (PsaStorage,
    ItsTests, PsNsTests, PsSTests), PS with simulated NV counters (NvCounters,
    PsRollbackTests), another partition (SecureClient2), or attestation
    (AttestTests) whose tokens are decoded (AttestDecode) by functions over the
    maps of CBOR (Qcbor), or firmware update (FwuTests), or the test partitions
    of the SPM (IpcTests, SfnTests, IrqTests), whose code answers it over the
    framework (Ffm).  On two cores the calls go through the mailbox (Mailbox);
    the multi-core suite (MultiCore) makes many threads call through it at once.
    From a host they go through the shims of eRPC (ErpcClient, Erpc,
    ErpcServer), started by HostMain.

    ** The files

    - Prelude: machine integers ([wrapu], [wraps]), bytes and C strings, the
      monad [M] of state and undefined behaviour, hint databases, lemmas.
    - NsidManager: lib/nsid_manager/tfm_nsid_manager.c; the state is the array
      of entries; invariant, refinement of a finite map of bounded size.
    - TzShim: lib/nsid_manager/tz_shim_layer.c, over the class [NsClientExt].
    - NsidMap: app_broker/tfm_nsid_map_table.c.
    - LogRaw: lib/log/tfm_log_raw.c; [render] is the reference of the formatter.
    - TestFramework: tests_reg/test/framework/test_framework.c and
      test_framework_helpers.c; [exec_tests] and [exec_suites] are the reference
      semantics of a suite and of a table of suites.
    - TestProg: the C functions of type TEST_FUN as programs [P W A], their
      weakest precondition [wp], and [ends_passed], what a pass implies.
    - PsaStorage, StorageTactics: the interface of ITS and PS, its contract
      [StorageLaws], a reference service; the automation that runs a test.
    - ItsTests, ItsProofs: tests_reg/test/secure_fw/suites/its (its_tests_common.c
      and the three suites).
    - PsNsTests, PsNsProofs: suites/ps/non_secure, and the threads of its tests,
      suites/ps/non_secure/ns_test_helpers.c; PsSTests, PsSProofs:
      suites/ps/secure (interface and reliability).
    - NvCounters: suites/ps/secure/nv_counters/test_ps_nv_counters.c;
      PsRollbackTests, PsRollbackProofs: ps_rollback_protection_testsuite.c and
      the test service suites/ps/service.
    - SecureClient2: secure_fw/common_test_services/tfm_secure_client_2.
    - NsidTests, NsidTestProofs: suites/nsid/non_secure (nsid_testsuite.c,
      nsid_svc_handler.c), the tests of the extension under the shim.
    - Regression: ns_regression/non_secure_suites.c,
      secure_regression/secure_suites.c, tests_reg/test_app.c and
      tfm_secure_client_service.c.
    - Qcbor, CborRef, QcborProofs: suites/attestation/ext/qcbor_util; the CBOR
      trees, a decoder that meets the laws, what the functions find.
    - AttestDecode, AttestProofs: attest_token_decode*.c and .h; AttestTests,
      AttestTestProofs: attest_token_test.c and the attestation suites.
    - Erpc, ErpcClient, ErpcServer: erpc/generated_files, erpc/client/
      erpc_client_wrapper.c, erpc/server/erpc_server_wrapper.c; ErpcRef is a
      reference library; ErpcServerProofs, ErpcProofs.
    - Cmsis: lib/ext/CMSIS/RTOS2/Include/cmsis_os2.h; OsWrapperApi:
      lib/os_wrapper; OsWrapper: app_broker/os_wrapper_cmsis_rtos_v2.c;
      OsKernelRef: a reference kernel; OsWrapperProofs.
    - Mailbox: lib/multi_core/tfm_ns_mailbox_rtos_api.c.
    - MultiCore: lib/multi_core/tfm_ns_mailbox_test.c and
      suites/multi_core/non_secure; MultiCoreRef: the laws of
      the store and of the kernel that it uses, and a world that meets them;
      MultiCoreProofs: every schedule of its threads.
    - Ffm: the Firmware Framework as its clients and partitions use it, with the
      abstract state of connections and messages and the laws of each
      operation; FfmRef: a framework that meets them.
    - IpcTests: suites/spm/ipc/service and suites/spm/common/service, the
      service partition, the client partition and what they share; IpcSuites:
      suites/spm/common/suites and the two IPC suites; SpmRules: rules for both;
      IpcProofs.
    - SfnTests: suites/spm/sfn, the partition and both suites.
    - IrqTests: suites/spm/irq/service, the partitions for first and second
      level interrupt handling; Fair: schedules of a thread and an interrupt
      source, and that what moves under a fair one makes progress; IrqSuite: their
      entry points, irq_test.c and suites/spm/irq/non_secure.
    - Fwu: the PSA Firmware Update API as its clients use it, with the abstract
      state of the components, the image format of MCUboot and the laws of each
      operation; FwuRef: a service that meets them.  FwuTests:
      suites/fwu/mcuboot; FwuRules: what the images of the tests say, and rules;
      FwuProofs.
    - MainNs: app_broker/main_ns.c.  HostMain: erpc/host_example/main.c,
      erpc/tfm_reg_tests/main_host.c, erpc_client_start.c,
      erpc_server_start.c, erpc_app.c.
    - RtxOs, RtxConfig, RtxConfigProofs, RtxLib: lib/ext/CMSIS/RTOS2/RTX, the
      headers rtx_os.h and RTX_Config.h, rtx_lib.c, RTX_Config.c.
    - RtxEvr: rtx_evr.h of the same directory, the 172 events of the recorder
      with the preprocessor conditions that generate each of them.
    - BuildConfig: tests_psa_arch/spe/config/config_test_psa_api.h and the two
      erpc_config.h, as programs of preprocessor directives.

    ** How the code is represented

    Stateful C functions are functions of an explicit state: the monad [M] of
    Prelude, programs [P] for tests, the monads of Erpc and OsWrapper for code
    with memory.  [None] is undefined behaviour of C (an access out of an
    array, a signed overflow, a NULL dereference), so a theorem that ends in
    [Some] also says that there is none.  Integers are [Z] with [wrapu] and
    [wraps] where the code truncates.  Line numbers that the tests report are
    part of the model, since [TEST_FAIL] logs them.  A configuration macro is
    a parameter, a flag, or fixed as the header of its file says.

    ** What the theorems show

    - The framework: the verdict of a suite and of a run is that of its tests,
      whatever the 32-bit counters do; what it does with malformed suites.
    - The storage suites pass on every service that meets the PSA contract
      ([StorageLaws]), without undefined behaviour, and leave only the
      write-once assets; the threads of the PS tests run as the kernel chooses,
      between the semaphore operations of both.  The two regression runs pass
      their storage suites, and report no error exactly when the other suites
      that are switched on pass in the states in which the run reaches them.
      [its_test_005_detects] is the converse: what a pass says of any service.
      The NV counters refine a map of counters, and the rollback suite passes on
      a service that follows the table of its head.
    - The NSID table refines a bounded map; a thread enters the secure side
      under the ID of its name, through the wrapper, the shim and the table, with
      a token of its own because the shim numbers the threads; the NSID suite
      passes over a conforming extension and gives the thread its ID back.
    - The formatter prints what the reference renders, for well-typed arguments,
      and the numbers it prints read back as the arguments.
    - CBOR: the map functions return exactly the items of the tree, end on any
      input, and are misled only by empty containers; the decoder's getters
      return the claims of the token, and the token test accepts exactly the
      tokens that [decode_test_verdict] describes.
    - eRPC: a remote call is the call itself; the server's shims return the
      blocks that they allocate; what a hostile request does; failing transport.
    - The wrapper keeps the promises of its interface, errors included; the slots of
      the mailbox are never given twice, a wake is not lost, the loops of the
      message queue end exactly when there is room.
    - RTX: every accepted configuration gives the kernel pools and regions of
      the sizes it is told; each thread has its space of the C library, unless
      two threads interrupt each other.
    - The threads of the multi-core tests pass under every schedule, and every
      schedule can be continued to one that ends the test.
    - The IPC and SFN suites pass together with the code of the partitions that
      they call, on every framework that meets its laws, and leave no connection
      open; the partition counts the connections of one run and hangs in a
      second one.
    - The interrupt services, however the interrupts of the timer fall between
      the steps of the thread, never panic, reply after ten interrupts with
      everything switched off, and reply under every fair schedule, from any
      state they can be in; their suite passes under every fair schedule.
    - The firmware update suites pass on every service that meets its laws, with
      one image or several, and leave every component READY under the version
      that ran; they skip themselves where the component is not READY.  Two of
      their checks cannot fail, and one test fails after major version 255.
    - The headers of preprocessor options: which events of RTX a build records,
      that the macros of the header call their functions with arguments of their
      types, and which values the PSA test configuration gives its options.
    - The start: the order of [main], and how each program of the host ends, with
      the two inputs on which it is undefined.

    ** Loops and fuel

    Loops with a counter are structural on the number of iterations left, which
    the code's own bound gives ([for_range], [test_loop], the table searches).
    The format loop and the digit loops of LogRaw take the length of the format
    and the largest number of digits.  The functions over CBOR maps take fuel:
    [map_functions_terminate] shows that more than the bytes left in the input
    is enough, so fuel never decides a result.  The retry loops of the mailbox
    may run for ever, and say so ([GoesOn]): the theorem says when some number
    of attempts is enough.  The users of the mailbox lock and the interrupted
    [__user_perthread_libspace] are step relations.  The threads of the
    multi-core tests run under a schedule, a list of the threads that move; the
    threads of the interrupt tests under one of steps and interrupts, which is
    fair when both occur in any N consecutive moves; that the services reply on it
    is proved.  The test and the helper of a threaded PS test move as the kernel
    dispatches them; a thread that waits for a semaphore does not move.  The entry
    point of a partition serves messages for ever; the model has one turn of its loop, and
    a request is one turn of the partition that it goes to.

    ** Not modelled

    The IPC tests of the builds with TFM_IPC_ISOLATION options, which end in a
    fault of the memory protection; the main loop of the IPC model of
    SecureClient2 and its memory test; [dump_token] of the token test, which
    only logs.  The restart of test 007 of the firmware update suites is [None]
    in the model, so their theorem is on the builds without that test.

    Left out: the crypto, t_cose and QCBOR suites, whose results are those of
    third-party algorithms; the floating-point suites (assembler); the platform
    and bootloader suites (hardware); syscalls_stub.c (empty bodies); build
    files, documents, vendored binaries. *)

From stdpp Require Export base gmap strings list fin_maps.
From Stdlib Require Export ZArith Lia.
From Stdlib Require Import Ascii.

#[global] Set Default Goal Selector "!".

(** ** Hint databases *)

(** [tfm] holds the resolution lemmas of the components, [tfm_simpl] the
    rewriting equations of their definitions. *)
Create HintDb tfm.
Create Rewrite HintDb tfm_simpl.

Declare Scope tfm_scope.
Delimit Scope tfm_scope with tfm.

Local Open Scope Z_scope.

(** ** Machine integers *)

(** Conversion of a mathematical integer to [uintN_t] and to [intN_t]. *)
Definition wrapu (w : Z) (z : Z) : Z := z mod 2 ^ w.
Definition wraps (w : Z) (z : Z) : Z :=
  let u := z mod 2 ^ w in if u <? 2 ^ (w - 1) then u else u - 2 ^ w.

Abbreviation u8 := (wrapu 8).
Abbreviation u32 := (wrapu 32).
Abbreviation i32 := (wraps 32).

Definition UINT32_MAX : Z := 2 ^ 32 - 1.
Definition INT32_MAX : Z := 2 ^ 31 - 1.
Definition INT32_MIN : Z := - 2 ^ 31.

Lemma wrapu_small w z : 0 <= z < 2 ^ w -> wrapu w z = z.
Proof. intros H. unfold wrapu. by apply Z.mod_small. Qed.

Lemma wrapu_range w z : 0 <= w -> 0 <= wrapu w z < 2 ^ w.
Proof. intros H. apply Z.mod_pos_bound. by apply Z.pow_pos_nonneg. Qed.

Lemma wraps_small w z : 0 < w -> - 2 ^ (w - 1) <= z < 2 ^ (w - 1) -> wraps w z = z.
Proof.
  intros Hw H. unfold wraps.
  assert (2 ^ w = 2 * 2 ^ (w - 1)) as Hp.
  { rewrite <- Z.pow_succ_r by lia. f_equal. lia. }
  destruct (decide (0 <= z)) as [Hz | Hz].
  - rewrite Z.mod_small by lia. destruct (Z.ltb_spec z (2 ^ (w - 1))); lia.
  - assert (z mod 2 ^ w = z + 2 ^ w) as ->.
    { symmetry. apply Z.mod_unique with (-1); lia. }
    destruct (Z.ltb_spec (z + 2 ^ w) (2 ^ (w - 1))); lia.
Qed.

(** ** Bytes and C strings *)

Definition bytes_of_string (s : string) : list Z :=
  (fun c => Z.of_nat (nat_of_ascii c)) <$> String.list_ascii_of_string s.

(** A string literal used as an array initialiser: the characters and the
    terminating NUL. *)
Definition cstr (s : string) : list Z := bytes_of_string s ++ [0].

Definition sizeof (l : list Z) : Z := Z.of_nat (length l).

(** [memcpy (buf + i, bs, length bs)]; the callers keep the write in range. *)
Definition splice (i : nat) (bs buf : list Z) : list Z :=
  take i buf ++ bs ++ drop (i + length bs) buf.

Lemma splice_length i bs buf :
  (i + length bs <= length buf)%nat -> length (splice i bs buf) = length buf.
Proof.
  intros H. unfold splice. rewrite !length_app, length_take, length_drop. lia.
Qed.

Lemma splice_nil i buf : splice i [] buf = buf.
Proof. unfold splice. simpl. rewrite Nat.add_0_r. apply take_drop. Qed.

(** Two adjacent writes are one. *)
Lemma splice_app i a b buf :
  (i + length a + length b <= length buf)%nat ->
  splice (i + length a) b (splice i a buf) = splice i (a ++ b) buf.
Proof.
  intros H. unfold splice.
  assert (length (take i buf ++ a) = i + length a)%nat as Hl
    by (rewrite length_app, length_take; lia).
  rewrite (app_assoc (take i buf) a), take_app_length' by done.
  rewrite (drop_app_ge (take i buf ++ a)) by (rewrite Hl; lia).
  rewrite Hl, drop_drop, length_app, <- !app_assoc. do 4 f_equal. lia.
Qed.

Lemma splice_0 bs buf : splice 0 bs buf = bs ++ drop (length bs) buf.
Proof. done. Qed.

(** [memcmp (a, b, n)]: zero when the first [n] bytes agree, otherwise the
    sign of the first difference. *)
Fixpoint memcmp_list (a b : list Z) : Z :=
  match a, b with
  | x :: a', y :: b' => if x =? y then memcmp_list a' b' else x - y
  | [], [] => 0
  | [], _ :: _ => -1
  | _ :: _, [] => 1
  end.

Definition memcmp (a b : list Z) (n : Z) : Z :=
  memcmp_list (take (Z.to_nat n) a) (take (Z.to_nat n) b).

Lemma memcmp_list_0 a b : memcmp_list a b = 0 <-> a = b.
Proof.
  revert b. induction a as [|x a IH]; intros [|y b]; simpl; try done.
  destruct (Z.eqb_spec x y) as [->|Hne].
  - rewrite IH. naive_solver.
  - split; [lia | naive_solver].
Qed.

Lemma memcmp_refl a n : memcmp a a n = 0.
Proof. by apply memcmp_list_0. Qed.

(** The representation in memory of an unsigned integer of [n] bytes,
    little-endian as on the Arm targets. *)
Fixpoint le_bytes (n : nat) (z : Z) : list Z :=
  match n with
  | O => []
  | S n => z mod 256 :: le_bytes n (z / 256)
  end.

Fixpoint le_value (bs : list Z) : Z :=
  match bs with
  | [] => 0
  | b :: bs => b + 256 * le_value bs
  end.

Lemma le_bytes_length n z : length (le_bytes n z) = n.
Proof. revert z. induction n as [|n IH]; intros z; simpl; [done | by rewrite IH]. Qed.

Lemma le_value_bytes n z : 0 <= z < 256 ^ Z.of_nat n -> le_value (le_bytes n z) = z.
Proof.
  revert z. induction n as [|n IH]; intros z Hz; simpl.
  - change (256 ^ Z.of_nat 0) with 1 in Hz. lia.
  - rewrite Nat2Z.inj_succ, Z.pow_succ_r in Hz by lia.
    rewrite IH by (split; [apply Z.div_pos | apply Z.div_lt_upper_bound]; lia).
    pose proof (Z.div_mod z 256 ltac:(lia)). lia.
Qed.

(** ** Effects *)

(** A C function over the global state [S]: it returns a result and the next
    state, or [None] when the execution is undefined. *)
Definition M (S A : Type) : Type := S -> option (A * S).

#[export] Instance M_ret S : MRet (M S) := fun A a s => Some (a, s).
#[export] Instance M_bind S : MBind (M S) :=
  fun A B f m s => match m s with Some (a, s') => f a s' | None => None end.

Definition undefined {S A} : M S A := fun _ => None.
Definition get {S} : M S S := fun s => Some (s, s).
Definition put {S} (s : S) : M S unit := fun _ => Some (tt, s).
Definition modify {S} (f : S -> S) : M S unit := fun s => Some (tt, f s).

(** Dereferences a pointer: NULL is undefined. *)
Definition deref {S A} (p : option A) : M S A :=
  match p with Some a => mret a | None => undefined end.

Section monad_laws.
  Context {S : Type}.

Lemma M_bind_ret {A B} (a : A) (f : A -> M S B) : (mret a ≫= f) = f a.
Proof. done. Qed.

Lemma M_bind_assoc {A B C} (m : M S A) (f : A -> M S B) (g : B -> M S C) s :
  ((m ≫= f) ≫= g) s = (m ≫= fun a => f a ≫= g) s.
Proof. unfold mbind, M_bind. by destruct (m s) as [[a s']|]. Qed.

Lemma M_bind_Some {A B} (m : M S A) (f : A -> M S B) s a s' :
  m s = Some (a, s') -> (m ≫= f) s = f a s'.
Proof. intros H. unfold mbind, M_bind. by rewrite H. Qed.

Lemma M_bind_inv {A B} (m : M S A) (f : A -> M S B) s r :
  (m ≫= f) s = Some r -> exists a s', m s = Some (a, s') /\ f a s' = Some r.
Proof. unfold mbind, M_bind. destruct (m s) as [[a s']|]; [eauto | done]. Qed.
End monad_laws.

(** ** Linear search *)

(** The source's search loops: index of the first element that satisfies
    [p]. *)
Fixpoint find_index {A} (p : A -> bool) (l : list A) : option nat :=
  match l with
  | [] => None
  | x :: l' => if p x then Some 0%nat else S <$> find_index p l'
  end.

Section find_index.
Context {A : Type} (p : A -> bool).
Implicit Types l : list A.

Lemma find_index_None l : find_index p l = None <-> Forall (fun x => p x = false) l.
Proof.
  induction l as [|x l IH]; simpl; [by split|].
  rewrite Forall_cons. destruct (p x); [naive_solver|].
  rewrite fmap_None, IH. naive_solver.
Qed.

Lemma find_index_Some l i :
  find_index p l = Some i ->
  exists l1 x l2, l = l1 ++ x :: l2 /\ length l1 = i /\ p x = true /\
    Forall (fun x => p x = false) l1.
Proof.
  revert i. induction l as [|x l IH]; intros i; simpl; [done|].
  destruct (p x) eqn:Hx.
  - intros [= <-]. exists [], x, l. repeat split; auto.
  - rewrite fmap_Some. intros (j & Hj & ->).
    destruct (IH j Hj) as (l1 & y & l2 & -> & <- & Hy & Hl1).
    exists (x :: l1), y, l2. repeat split; auto.
Qed.

Lemma find_index_app l1 x l2 :
  Forall (fun x => p x = false) l1 -> p x = true ->
  find_index p (l1 ++ x :: l2) = Some (length l1).
Proof.
  intros Hl1 Hx. induction Hl1 as [|y l1 Hy Hl1 IH]; simpl; [by rewrite Hx|].
  by rewrite Hy, IH.
Qed.
End find_index.

Lemma insert_app_cons {A} (l1 l2 : list A) x y :
  <[length l1 := y]> (l1 ++ x :: l2) = l1 ++ y :: l2.
Proof. induction l1 as [|z l1 IH]; simpl; [done | by rewrite IH]. Qed.

Lemma shiftr_bounds x k : 0 <= x -> 0 <= k -> 0 <= Z.shiftr x k <= x.
Proof.
  intros Hx Hk. rewrite Z.shiftr_div_pow2 by done.
  pose proof (Z.pow_pos_nonneg 2 k). split; [apply Z.div_pos; lia|].
  apply Z.div_le_upper_bound; nia.
Qed.

Lemma take_sizeof n (l : list Z) :
  0 <= n <= sizeof l -> sizeof (take (Z.to_nat n) l) = n.
Proof. unfold sizeof. intros H. rewrite length_take. lia. Qed.

Lemma memcmp_prefix n a b :
  take (Z.to_nat n) a = take (Z.to_nat n) b -> memcmp a b n = 0.
Proof. intros H. unfold memcmp. by apply memcmp_list_0. Qed.

#[export] Hint Rewrite wrapu_small wraps_small using lia : tfm_simpl.
#[export] Hint Resolve wrapu_range memcmp_refl : tfm.

(** ** Tactics *)

(** Case analysis on the boolean tests of the source, with their meaning. *)
Ltac case_Z :=
  match goal with
  | |- context [?x =? ?y] => destruct (Z.eqb_spec x y)
  | |- context [?x <? ?y] => destruct (Z.ltb_spec x y)
  | |- context [?x <=? ?y] => destruct (Z.leb_spec x y)
  | |- context [?x >=? ?y] => rewrite (Z.geb_leb x y)
  | |- context [?x >? ?y] => rewrite (Z.gtb_ltb x y)
  | |- context [negb ?b] => destruct b eqn:?
  end; simplify_eq/=.

(** Reduces a bind on a known result, and nothing else. *)
Ltac bind_step :=
  match goal with
  | |- context [@mbind option _ ?A ?B ?f (Some ?x)] =>
      change (@mbind option _ A B f (Some x)) with (f x); cbv beta iota
  end.
