(* ===== verification/NsidManager.v ===== *)
(** * Non-secure client ID manager: lib/nsid_manager/tfm_nsid_manager.c

    The static table [test_ns_token_table] that maps the token of a
    non-secure thread to its client ID (NSID), its four operations, the
    table's invariant and its refinement of a finite map of bounded size. *)

From S2P Require Import Prelude.
Local Open Scope Z_scope.

(** Constants of tfm_ns_client_ext.h, which is not part of the repository. *)
Class NsClientExtConsts := {
  TFM_NS_CLIENT_INVALID_TOKEN : Z;
  TFM_NS_CLIENT_ERR_SUCCESS : Z;
}.

Definition TFM_DEFAULT_NSID : Z := -1.
Definition TFM_INVALID_NSID_MIN : Z := 0.

Definition NSID_MGR_ERR_SUCCESS : Z := 0.
Definition NSID_MGR_ERR_INVALID_NSID : Z := 1.
Definition NSID_MGR_ERR_INVALID_TOKEN : Z := 2.
Definition NSID_MGR_ERR_NO_FREE_ENTRY : Z := 3.

Definition THREAD_NUM_MAX : nat := 10.

Record nsid_token_pair := Pair { token : Z; nsid : Z }.

Section operations.
  Context {NC : NsClientExtConsts}.
  Implicit Types t : list nsid_token_pair.

  (** [static struct nsid_token_pair test_ns_token_table[THREAD_NUM_MAX]],
      zero-initialised as every object with static storage. *)
Definition test_ns_token_table : list nsid_token_pair :=
    replicate THREAD_NUM_MAX (Pair 0 0).

Definition free_entry : nsid_token_pair :=
    Pair TFM_NS_CLIENT_INVALID_TOKEN TFM_INVALID_NSID_MIN.

  (** One assignment of both fields per index. *)
Definition nsid_mgr_init t : list nsid_token_pair * Z :=
    (foldl (fun t i => <[i := free_entry]> t) t (seq 0 THREAD_NUM_MAX),
     NSID_MGR_ERR_SUCCESS).

Definition has_token (tok : Z) (e : nsid_token_pair) : bool := token e =? tok.

Definition nsid_mgr_add_entry (id tok : Z) t : list nsid_token_pair * Z :=
    if id >=? TFM_INVALID_NSID_MIN then (t, NSID_MGR_ERR_INVALID_NSID)
    else if tok =? TFM_NS_CLIENT_INVALID_TOKEN then (t, NSID_MGR_ERR_INVALID_TOKEN)
    else match find_index (has_token TFM_NS_CLIENT_INVALID_TOKEN) t with
         | Some i => (<[i := Pair tok id]> t, NSID_MGR_ERR_SUCCESS)
         | None => (t, NSID_MGR_ERR_NO_FREE_ENTRY)
         end.

Definition nsid_mgr_remove_entry (tok : Z) t : list nsid_token_pair * Z :=
    if tok =? TFM_NS_CLIENT_INVALID_TOKEN then (t, NSID_MGR_ERR_INVALID_TOKEN)
    else match find_index (has_token tok) t with
         | Some i => (<[i := free_entry]> t, NSID_MGR_ERR_SUCCESS)
         | None => (t, NSID_MGR_ERR_INVALID_TOKEN)
         end.

Definition nsid_mgr_query_nsid (tok : Z) t : Z :=
    if tok =? TFM_NS_CLIENT_INVALID_TOKEN then TFM_INVALID_NSID_MIN
    else match find_index (has_token tok) t with
         | Some i => default TFM_INVALID_NSID_MIN (nsid <$> t !! i)
         | None => TFM_INVALID_NSID_MIN
         end.
End operations.

(** ** Abstract specification: a finite map of at most [THREAD_NUM_MAX]
    entries *)

Inductive op :=
  | OpAdd (id tok : Z)
  | OpRemove (tok : Z)
  | OpQuery (tok : Z).

Section specification.
  Context {NC : NsClientExtConsts}.
  Implicit Types (t : list nsid_token_pair) (m : gmap Z Z).

  (** The entries in use, in table order, and the map they stand for: an
      entry shadows the later ones with the same token. *)
Definition live (e : nsid_token_pair) : Prop := token e <> TFM_NS_CLIENT_INVALID_TOKEN.
#[export] Instance live_dec e : Decision (live e).
Proof. unfold live. apply _. Defined.

Definition entries t : list (Z * Z) :=
    (fun e => (token e, nsid e)) <$> filter live t.
Definition view t : gmap Z Z := list_to_map (entries t).

Definition run_op (o : op) t : list nsid_token_pair * Z :=
    match o with
    | OpAdd id tok => nsid_mgr_add_entry id tok t
    | OpRemove tok => nsid_mgr_remove_entry tok t
    | OpQuery tok => (t, nsid_mgr_query_nsid tok t)
    end.

Definition spec_op (o : op) m : gmap Z Z * Z :=
    match o with
    | OpAdd id tok =>
        if id >=? 0 then (m, NSID_MGR_ERR_INVALID_NSID)
        else if tok =? TFM_NS_CLIENT_INVALID_TOKEN then (m, NSID_MGR_ERR_INVALID_TOKEN)
        else if decide (size m < THREAD_NUM_MAX)%nat
             then (<[tok := id]> m, NSID_MGR_ERR_SUCCESS)
             else (m, NSID_MGR_ERR_NO_FREE_ENTRY)
    | OpRemove tok =>
        match m !! tok with
        | Some _ => (delete tok m, NSID_MGR_ERR_SUCCESS)
        | None => (m, NSID_MGR_ERR_INVALID_TOKEN)
        end
    | OpQuery tok => (m, default 0 (m !! tok))
    end.

  (** What the manager asks of its client: a token is registered at most
      once at a time (tfm_nsid_manager.h: "called once a new token has been
      successfully assigned"). *)
Definition op_allowed (o : op) m : Prop :=
    match o with OpAdd _ tok => m !! tok = None | _ => True end.

Fixpoint run (os : list op) t : list nsid_token_pair * list Z :=
    match os with
    | [] => (t, [])
    | o :: os => let '(t', r) := run_op o t in
                 let '(t'', rs) := run os t' in (t'', r :: rs)
    end.

Fixpoint spec_run (os : list op) m : gmap Z Z * list Z :=
    match os with
    | [] => (m, [])
    | o :: os => let '(m', r) := spec_op o m in
                 let '(m'', rs) := spec_run os m' in (m'', r :: rs)
    end.

Fixpoint ops_allowed (os : list op) m : Prop :=
    match os with
    | [] => True
    | o :: os => op_allowed o m /\ ops_allowed os (spec_op o m).1
    end.

  (** The invariant of the table: its size, tokens in use are distinct, a
      used entry holds a (negative) client ID and a free one the invalid
      client ID. *)
Record wf t : Prop := {
    wf_length : length t = THREAD_NUM_MAX;
    wf_NoDup : NoDup (entries t).*1;
    wf_nsid : Forall (fun e => if decide (live e) then nsid e < 0 else nsid e = 0) t;
  }.
End specification.

(** ** Lemmas *)

Section lemmas.
  Context {NC : NsClientExtConsts}.
  Implicit Types (t : list nsid_token_pair) (m : gmap Z Z).

Lemma free_entry_not_live : ~ live free_entry.
Proof. unfold live, free_entry. simpl. tauto. Qed.

Lemma entries_app t1 t2 : entries (t1 ++ t2) = entries t1 ++ entries t2.
Proof. unfold entries. by rewrite filter_app, fmap_app. Qed.

Lemma entries_cons_live e t : live e -> entries (e :: t) = (token e, nsid e) :: entries t.
Proof. intros H. unfold entries. by rewrite filter_cons_True. Qed.

Lemma entries_cons_free e t : ~ live e -> entries (e :: t) = entries t.
Proof. intros H. unfold entries. by rewrite filter_cons_False. Qed.

Lemma has_token_spec tok e : has_token tok e = true <-> token e = tok.
Proof. unfold has_token. apply Z.eqb_eq. Qed.

Lemma no_token_entries tok t :
    tok <> TFM_NS_CLIENT_INVALID_TOKEN ->
    Forall (fun e => has_token tok e = false) t <-> tok ∉ (entries t).*1.
Proof.
  intros Htok. induction t as [|e t IH]; [split; [intros _; apply not_elem_of_nil | constructor]|].
  rewrite Forall_cons, IH. unfold has_token. rewrite Z.eqb_neq.
    destruct (decide (live e)) as [He|He].
    - rewrite entries_cons_live, fmap_cons, not_elem_of_cons by done. simpl. naive_solver.
    - rewrite entries_cons_free by done. unfold live in He. apply dec_stable in He.
      split; [tauto | intros Ht; split; [congruence | done]].
Qed.

Lemma view_lookup_None tok t :
    view t !! tok = None <-> tok ∉ (entries t).*1.
Proof. unfold view. by rewrite not_elem_of_list_to_map. Qed.

Lemma view_app t1 t2 : view (t1 ++ t2) = view t1 ∪ view t2.
Proof. unfold view. by rewrite entries_app, list_to_map_app. Qed.

Lemma view_cons_live e t : live e -> view (e :: t) = <[token e := nsid e]> (view t).
Proof. intros H. unfold view. by rewrite entries_cons_live. Qed.

Lemma view_cons_free e t : ~ live e -> view (e :: t) = view t.
Proof. intros H. unfold view. by rewrite entries_cons_free. Qed.

Lemma view_size t : NoDup (entries t).*1 -> size (view t) = length (entries t).
Proof. intros H. unfold view. by rewrite map_size_list_to_map. Qed.

(** The table split at the entry a search stops at. *)
Lemma scan_split tok t i :
    find_index (has_token tok) t = Some i ->
    exists t1 e t2, t = t1 ++ e :: t2 /\ length t1 = i /\ token e = tok /\
      Forall (fun e => has_token tok e = false) t1.
Proof.
  intros (t1 & e & t2 & Ht & Hi & He & Hf)%find_index_Some.
    exists t1, e, t2. by rewrite <- has_token_spec.
Qed.

Lemma entries_full t :
    Forall (fun e => has_token TFM_NS_CLIENT_INVALID_TOKEN e = false) t ->
    length (entries t) = length t.
Proof.
  unfold has_token. induction 1 as [|e t He Ht IH]; [done|].
  rewrite Z.eqb_neq in He. rewrite entries_cons_live by done. simpl. by rewrite IH.
Qed.
End lemmas.

(** ** The operations on the entries *)

Section operation_lemmas.
  Context {NC : NsClientExtConsts}.
  Implicit Types (t : list nsid_token_pair) (m : gmap Z Z).

Lemma init_table t :
  length t = THREAD_NUM_MAX ->
  (nsid_mgr_init t).1 = replicate THREAD_NUM_MAX free_entry.
Proof.
  intros Hlen. unfold nsid_mgr_init, THREAD_NUM_MAX in *. simpl.
  do 10 (destruct t as [|? t]; [done|]). by destruct t.
Qed.

Lemma view_replicate_free n : view (replicate n free_entry) = ∅.
Proof.
  induction n as [|n IH]; [done|]. simpl.
  rewrite view_cons_free; [done | apply free_entry_not_live].
Qed.

Lemma add_ok id tok t i :
  id < 0 -> tok <> TFM_NS_CLIENT_INVALID_TOKEN ->
  find_index (has_token TFM_NS_CLIENT_INVALID_TOKEN) t = Some i ->
  nsid_mgr_add_entry id tok t = (<[i := Pair tok id]> t, NSID_MGR_ERR_SUCCESS).
Proof.
  intros Hid Htok Hi. unfold nsid_mgr_add_entry, TFM_INVALID_NSID_MIN.
  repeat case_Z; try lia. by rewrite Hi.
Qed.

Lemma view_add id tok t1 e t2 :
  ~ live e -> tok <> TFM_NS_CLIENT_INVALID_TOKEN ->
  view (t1 ++ e :: t2) !! tok = None ->
  view (t1 ++ (Pair tok id :: t2)) = <[tok := id]> (view (t1 ++ e :: t2)).
Proof.
  intros He Htok. rewrite !view_app, (view_cons_free e) by done.
  rewrite lookup_union_None. intros [H1 H2].
  rewrite (view_cons_live (Pair tok id)) by done. simpl.
  by rewrite <- insert_union_r.
Qed.

Lemma view_remove t1 e t2 :
  live e -> token e ∉ (entries t1).*1 -> token e ∉ (entries t2).*1 ->
  view (t1 ++ free_entry :: t2) = delete (token e) (view (t1 ++ e :: t2)).
Proof.
  intros He H1%view_lookup_None H2%view_lookup_None.
  rewrite !view_app, (view_cons_free free_entry), (view_cons_live e) by
    (done || apply free_entry_not_live).
  rewrite delete_union, delete_insert_id by done. by rewrite delete_id.
Qed.

Lemma entries_NoDup_split t1 e t2 :
  live e -> NoDup (entries (t1 ++ e :: t2)).*1 ->
  (token e ∉ (entries t1).*1) /\ (token e ∉ (entries t2).*1) /\
  NoDup (entries (t1 ++ free_entry :: t2)).*1.
Proof.
  intros He. rewrite !entries_app, (entries_cons_live e) by done.
  rewrite (entries_cons_free free_entry) by apply free_entry_not_live.
  rewrite !fmap_app, fmap_cons, !NoDup_app, NoDup_cons. simpl.
  intros (H1 & H12 & He2 & H2). split_and!; auto.
  - intros Hin. by destruct (H12 _ Hin); left.
  - intros x Hx Hin. by destruct (H12 _ Hx); right.
Qed.
End operation_lemmas.

(** ** Invariant *)

Section invariant.
  Context {NC : NsClientExtConsts}.
  Implicit Types (t : list nsid_token_pair) (m : gmap Z Z).

Lemma wf_init t : length t = THREAD_NUM_MAX -> wf (nsid_mgr_init t).1.
Proof.
  intros Hlen. rewrite init_table by done.
  assert (entries (replicate THREAD_NUM_MAX free_entry) = []) as He.
  { unfold entries. simpl. by rewrite !filter_cons_False by apply free_entry_not_live. }
  split.
  - apply length_replicate.
  - rewrite He. constructor.
  - apply Forall_replicate. case_decide as Hl; [|done].
    by destruct free_entry_not_live.
Qed.

Lemma wf_insert_free t1 e t2 :
  wf (t1 ++ e :: t2) -> live e -> wf (t1 ++ free_entry :: t2).
Proof.
  intros [Hlen Hnd Hns] He. split.
  - by rewrite length_app in *.
  - by apply (entries_NoDup_split t1 e t2).
  - apply Forall_app in Hns as [H1 H2]. apply Forall_app. split; [done|].
    apply Forall_cons in H2 as [_ H2]. constructor; [|done].
    case_decide as Hl; [|done]. by destruct free_entry_not_live.
Qed.

Lemma wf_insert_pair t1 e t2 id tok :
  wf (t1 ++ e :: t2) -> ~ live e -> id < 0 -> tok <> TFM_NS_CLIENT_INVALID_TOKEN ->
  view (t1 ++ e :: t2) !! tok = None ->
  wf (t1 ++ (Pair tok id :: t2)).
Proof.
  intros [Hlen Hnd Hns] He Hid Htok Hfresh%view_lookup_None. split.
  - by rewrite length_app in *.
  - rewrite entries_app, entries_cons_free in Hnd, Hfresh by done.
    rewrite entries_app, entries_cons_live by done.
    rewrite fmap_app, fmap_cons. simpl.
    rewrite fmap_app, not_elem_of_app in Hfresh. rewrite fmap_app in Hnd.
    rewrite <- Permutation_middle.
    constructor; [rewrite not_elem_of_app|]; tauto.
  - apply Forall_app in Hns as [H1 H2]. apply Forall_app. split; [done|].
    apply Forall_cons in H2 as [_ H2]. constructor; [|done].
    case_decide as Hl; [done|]. by destruct Hl.
Qed.

(** Every operation either leaves the table as it is or rewrites one entry. *)
Lemma add_cases id tok t t' r :
  nsid_mgr_add_entry id tok t = (t', r) ->
  (t' = t /\ r <> NSID_MGR_ERR_SUCCESS) \/
  (exists t1 e t2, t = t1 ++ e :: t2 /\ t' = t1 ++ (Pair tok id :: t2) /\ ~ live e /\
     id < 0 /\ tok <> TFM_NS_CLIENT_INVALID_TOKEN /\ r = NSID_MGR_ERR_SUCCESS).
Proof.
  unfold nsid_mgr_add_entry, TFM_INVALID_NSID_MIN. repeat case_Z; try (by left; naive_solver).
  destruct (find_index _ t) eqn:Hi; intros [= <- <-]; [right | by left].
  apply scan_split in Hi as (t1 & e & t2 & -> & <- & He & _).
  exists t1, e, t2. rewrite insert_app_cons. split_and!; auto.
Qed.

Lemma remove_cases tok t t' r :
  nsid_mgr_remove_entry tok t = (t', r) ->
  (t' = t /\ r = NSID_MGR_ERR_INVALID_TOKEN /\
     (tok = TFM_NS_CLIENT_INVALID_TOKEN \/ view t !! tok = None)) \/
  (exists t1 e t2, t = t1 ++ e :: t2 /\ t' = t1 ++ free_entry :: t2 /\ live e /\
     token e = tok /\ r = NSID_MGR_ERR_SUCCESS).
Proof.
  unfold nsid_mgr_remove_entry. case_Z; [left; naive_solver|].
  destruct (find_index _ t) eqn:Hi; intros [= <- <-]; [right | left].
  - apply scan_split in Hi as (t1 & e & t2 & -> & <- & He & _).
    exists t1, e, t2. rewrite insert_app_cons. split_and!; auto.
    unfold live. congruence.
  - split_and!; [done..|right]. apply view_lookup_None, no_token_entries; [done|].
    by apply find_index_None.
Qed.

Lemma wf_run_op o t : wf t -> op_allowed o (view t) -> wf (run_op o t).1.
Proof.
  intros Hwf Ho. destruct o as [id tok|tok|tok]; simpl in *; [| |done].
  - destruct (nsid_mgr_add_entry id tok t) as [t' r] eqn:H.
    apply add_cases in H as [[-> _] | (t1 & e & t2 & -> & -> & He & Hid & Htok & _)];
      [done | simpl]. by apply wf_insert_pair with e.
  - destruct (nsid_mgr_remove_entry tok t) as [t' r] eqn:H.
    apply remove_cases in H as [[-> _] | (t1 & e & t2 & -> & -> & He & _)];
      [done | simpl]. by apply wf_insert_free with e.
Qed.

Lemma query_view tok t :
  tok <> TFM_NS_CLIENT_INVALID_TOKEN ->
  nsid_mgr_query_nsid tok t = default 0 (view t !! tok).
Proof.
  intros Htok. unfold nsid_mgr_query_nsid. case_Z.
  destruct (find_index _ t) eqn:Hi.
  - apply scan_split in Hi as (t1 & e & t2 & -> & <- & He & H1).
    rewrite list_lookup_middle by done. simpl.
    apply no_token_entries, view_lookup_None in H1; [|done].
    rewrite view_app, lookup_union_r by done.
    rewrite view_cons_live by (unfold live; congruence).
    by rewrite <- He, lookup_insert_eq.
  - apply find_index_None, no_token_entries, view_lookup_None in Hi; [|done].
    by rewrite Hi.
Qed.

Lemma view_invalid t : view t !! TFM_NS_CLIENT_INVALID_TOKEN = None.
Proof.
  apply view_lookup_None. induction t as [|e t IH]; [apply not_elem_of_nil|].
  destruct (decide (live e)).
  - rewrite entries_cons_live, fmap_cons, not_elem_of_cons by done. simpl.
    unfold live in *. naive_solver.
  - by rewrite entries_cons_free.
Qed.

(** A free entry exists exactly when the map is below its capacity. *)
Lemma free_iff_room t :
  wf t ->
  find_index (has_token TFM_NS_CLIENT_INVALID_TOKEN) t = None <->
  (THREAD_NUM_MAX <= size (view t))%nat.
Proof.
  intros [Hlen Hnd Hns]. rewrite view_size, find_index_None by done. split.
  - intros Hf. by rewrite entries_full, Hlen.
  - intros Hsz. rewrite <- Hlen in Hsz. clear Hlen Hnd Hns.
    induction t as [|e t IH]; [constructor|].
    assert (forall t, length (entries t) <= length t)%nat as Hle.
    { clear. intros t. unfold entries. rewrite length_fmap. apply length_filter. }
    destruct (decide (live e)) as [He|He].
    + rewrite entries_cons_live in Hsz by done. simpl in Hsz.
      constructor; [by apply Z.eqb_neq | apply IH; lia].
    + rewrite entries_cons_free in Hsz by done. simpl in Hsz.
      specialize (Hle t). lia.
Qed.

Lemma step_refines o t :
  wf t -> op_allowed o (view t) ->
  (run_op o t).2 = (spec_op o (view t)).2 /\ view (run_op o t).1 = (spec_op o (view t)).1.
Proof.
  intros Hwf Ho. destruct o as [id tok|tok|tok]; simpl in *.
  - unfold nsid_mgr_add_entry, TFM_INVALID_NSID_MIN. repeat case_Z; try done.
    destruct (find_index _ t) as [i|] eqn:Hi.
    + rewrite decide_True.
      2: { apply Nat.nle_gt. rewrite <- free_iff_room by done. by rewrite Hi. }
      apply scan_split in Hi as (t1 & e & t2 & -> & <- & He & H1).
      rewrite insert_app_cons. simpl. split; [done|]. apply view_add; [|done..].
      unfold live. tauto.
    + apply free_iff_room in Hi; [|done]. by rewrite decide_False by lia.
  - destruct (nsid_mgr_remove_entry tok t) as [t' r] eqn:H.
    apply remove_cases in H as
      [(-> & -> & [->|Hv]) | (t1 & e & t2 & -> & -> & He & <- & ->)]; simpl.
    + by rewrite view_invalid.
    + by rewrite Hv.
    + destruct (entries_NoDup_split t1 e t2 He (wf_NoDup _ Hwf)) as (H1 & H2 & _).
      assert (view (t1 ++ e :: t2) !! token e = Some (nsid e)) as ->.
      { apply view_lookup_None in H1.
        rewrite view_app, lookup_union_r, view_cons_live by done. apply lookup_insert_eq. }
      split; [done | by apply view_remove].
  - split; [|done]. destruct (decide (tok = TFM_NS_CLIENT_INVALID_TOKEN)) as [->|Hn].
    + rewrite view_invalid. unfold nsid_mgr_query_nsid. by rewrite Z.eqb_refl.
    + by apply query_view.
Qed.
End invariant.

(** ** Properties *)

Section properties.
  Context {NC : NsClientExtConsts}.
  Implicit Types (t : list nsid_token_pair) (m : gmap Z Z).

Lemma run_refines os t :
  wf t -> ops_allowed os (view t) ->
  (run os t).2 = (spec_run os (view t)).2 /\
  view (run os t).1 = (spec_run os (view t)).1 /\ wf (run os t).1.
Proof.
  revert t. induction os as [|o os IH]; intros t Hwf Hos; simpl in *; [done|].
  destruct Hos as [Ho Hos]. destruct (step_refines o t Hwf Ho) as [Hr Hv].
  pose proof (wf_run_op o t Hwf Ho) as Hwf'.
  destruct (run_op o t) as [t' r], (spec_op o (view t)) as [m' r']. simpl in *. subst.
  specialize (IH t' Hwf' Hos) as (IHr & IHv & IHwf).
  destruct (run os t') as [t'' rs], (spec_run os (view t')) as [m'' rs'].
  simpl in *. by subst.
Qed.

(** C8. Refinement of the NSID manager: from the initialised table, any
    sequence of add, remove and query calls in which a token is not
    registered twice returns, call by call, exactly what a finite map of at
    most [THREAD_NUM_MAX] tokens returns (error codes included), the table
    stands for that map at the end, and the table's invariant holds. *)
Theorem nsid_mgr_refines_map os t0 :
  length t0 = THREAD_NUM_MAX -> ops_allowed os ∅ ->
  let t := (nsid_mgr_init t0).1 in
  (run os t).2 = (spec_run os ∅).2 /\
  view (run os t).1 = (spec_run os ∅).1 /\ wf (run os t).1.
Proof.
  intros Hlen Hos. cbv zeta. pose proof (wf_init t0 Hlen) as Hwf.
  rewrite init_table in * by done.
  rewrite <- (view_replicate_free THREAD_NUM_MAX) in Hos |- *.
  by apply run_refines.
Qed.

(** Capacity: under the invariant the table never holds more than
    [THREAD_NUM_MAX] tokens, and an add with a valid client ID and token is
    refused, with [NSID_MGR_ERR_NO_FREE_ENTRY] and the table unchanged,
    exactly when it holds that many. *)
Theorem nsid_mgr_capacity t id tok :
  wf t -> id < 0 -> tok <> TFM_NS_CLIENT_INVALID_TOKEN ->
  (size (view t) <= THREAD_NUM_MAX)%nat /\
  (nsid_mgr_add_entry id tok t = (t, NSID_MGR_ERR_NO_FREE_ENTRY) <->
   size (view t) = THREAD_NUM_MAX).
Proof.
  intros Hwf Hid Htok.
  assert (size (view t) <= THREAD_NUM_MAX)%nat as Hle.
  { destruct Hwf as [Hlen Hnd _]. rewrite view_size, <- Hlen by done.
    unfold entries. rewrite length_fmap. apply length_filter. }
  split; [done|]. pose proof (free_iff_room t Hwf) as Hroom.
  unfold nsid_mgr_add_entry, TFM_INVALID_NSID_MIN.
  repeat case_Z; try lia. destruct (find_index _ t) as [i|].
  - split; [intros [=] | intros Hsz]. destruct Hroom as [_ Hroom].
    by specialize (Hroom ltac:(lia)).
  - split; [intros _; destruct Hroom as [Hroom _]; specialize (Hroom eq_refl); lia | done].
Qed.

(** Isolation: whatever the table holds (duplicates included), adding or
    removing one token changes the answer for no other token, and an add that
    reports success on an unregistered token is read back by the query. *)
Theorem nsid_mgr_isolation t id tok tok' t' r :
  tok' <> tok -> r = NSID_MGR_ERR_SUCCESS ->
  (nsid_mgr_add_entry id tok t = (t', r) ->
     nsid_mgr_query_nsid tok' t' = nsid_mgr_query_nsid tok' t /\
     (view t !! tok = None -> nsid_mgr_query_nsid tok t' = id)) /\
  (nsid_mgr_remove_entry tok t = (t', r) ->
     nsid_mgr_query_nsid tok' t' = nsid_mgr_query_nsid tok' t).
Proof.
  intros Hne ->.
  assert (forall t t', view t' !! tok' = view t !! tok' ->
    nsid_mgr_query_nsid tok' t' = nsid_mgr_query_nsid tok' t) as Hq.
  { intros u u' Hv. destruct (decide (tok' = TFM_NS_CLIENT_INVALID_TOKEN)) as [->|Hn].
    - unfold nsid_mgr_query_nsid. by rewrite Z.eqb_refl.
    - by rewrite !query_view, Hv. }
  split; intros H.
  - apply add_cases in H as [[_ Hr] | (t1 & e & t2 & -> & -> & He & Hid & Htok & _)];
      [done|]. split.
    + apply Hq. rewrite !view_app, (view_cons_live (Pair tok id)), (view_cons_free e) by done.
      by rewrite !lookup_union, lookup_insert_ne.
    + intros Hfresh. rewrite query_view, (view_add id tok t1 e t2) by done.
      by rewrite lookup_insert_eq.
  - apply remove_cases in H as
      [(_ & Hr & _) | (t1 & e & t2 & -> & -> & He & <- & _)]; [done|].
    apply Hq. rewrite !view_app, (view_cons_live e), (view_cons_free free_entry) by
      (done || apply free_entry_not_live).
    by rewrite !lookup_union, lookup_insert_ne.
Qed.
End properties.

(** ** Witnesses *)

(** The value TF-M's tfm_ns_client_ext.h documents for an invalid token. *)
#[local] Instance example_consts : NsClientExtConsts :=
  {| TFM_NS_CLIENT_INVALID_TOKEN := 2 ^ 32 - 1; TFM_NS_CLIENT_ERR_SUCCESS := 0 |}.

Definition example_ops : list op :=
  [OpAdd (-2) 7; OpAdd (-3) 8; OpAdd 1 9; OpRemove 7; OpQuery 7; OpQuery 8].

Lemma nsid_mgr_refines_map_witness :
  (run example_ops (nsid_mgr_init test_ns_token_table).1).2 = [0; 0; 1; 0; 0; -3].
Proof.
  destruct (nsid_mgr_refines_map example_ops test_ns_token_table) as [-> _];
    [reflexivity | vm_compute; tauto | reflexivity].
Defined.

Lemma nsid_mgr_capacity_witness :
  nsid_mgr_add_entry (-2) 7 (replicate 10 free_entry) <>
  (replicate 10 free_entry, NSID_MGR_ERR_NO_FREE_ENTRY).
Proof.
  destruct (nsid_mgr_capacity (replicate 10 free_entry) (-2) 7) as [_ [Hc _]].
  - apply (wf_init test_ns_token_table). reflexivity.
  - lia.
  - done.
  - intros H. specialize (Hc H). by vm_compute in Hc.
Defined.

Lemma nsid_mgr_isolation_witness :
  nsid_mgr_query_nsid 8 (nsid_mgr_add_entry (-2) 7 (replicate 10 free_entry)).1 = 0.
Proof.
  destruct (nsid_mgr_isolation (replicate 10 free_entry) (-2) 7 8
    (nsid_mgr_add_entry (-2) 7 (replicate 10 free_entry)).1 0) as [H _];
    [lia | reflexivity |].
  destruct H as [-> _]; reflexivity.
Defined.
