(* ===== verification/TzShim.v ===== *)
(** * The TrustZone context shim: lib/nsid_manager/tz_shim_layer.c

    The RTOS calls [TZ_*] around the creation, the end and every switch of a
    non-secure thread; the shim turns the calls into calls of the non-secure
    client extension, which is not part of the repository (class
    [NsClientExt]), and keeps the token/NSID table of [NsidManager].  Modelled
    with TFM_NS_MANAGE_NSID and TEST_NS_MANAGE_NSID defined; without the first
    every function returns 1. *)

From S2P Require Import Prelude NsidManager.
Local Open Scope Z_scope.

Definition NSID_MGR_THREAD_ID_MAX : Z := 255.
Definition NSID_MGR_GROUP_ID_DEFAULT : Z := 0.

Class NsClientExt (E : Type) := {
  tfm_nsce_init : Z -> E -> Z * E;
  tfm_nsce_acquire_ctx : Z -> Z -> E -> Z * E;
  tfm_nsce_release_ctx : Z -> E -> Z * E;
  tfm_nsce_load_ctx : Z -> Z -> E -> Z * E;
  tfm_nsce_save_ctx : Z -> E -> Z * E;
}.

(** The static variables of the shim and of the manager, and the extension. *)
Record tz_state (E : Type) := mkTz {
  table : list nsid_token_pair;
  nsid_mgr_thread_id : Z;
  current_active_token : Z;
  ext : E;
}.
Arguments mkTz {E} _ _ _ _.
Arguments table {E} _.
Arguments nsid_mgr_thread_id {E} _.
Arguments current_active_token {E} _.
Arguments ext {E} _.

Section shim.
  Context {NC : NsClientExtConsts} {E : Type} {NE : NsClientExt E}.
  Implicit Types s : tz_state E.

(** Values of the static variables at reset. *)
Definition tz_reset (e : E) : tz_state E := mkTz test_ns_token_table 1 0 e.

Definition set_active (tok : Z) s : tz_state E :=
  mkTz (table s) (nsid_mgr_thread_id s) tok (ext s).

(** [if (current_active_token != INVALID) current_active_token = INVALID;] *)
Definition clear_active s : tz_state E :=
  if negb (current_active_token s =? TFM_NS_CLIENT_INVALID_TOKEN)
  then set_active TFM_NS_CLIENT_INVALID_TOKEN s else s.

Definition TZ_InitContextSystem_S s : Z * tz_state E :=
  let '(r, e) := tfm_nsce_init 0 (ext s) in
  let s := mkTz (table s) (nsid_mgr_thread_id s) (current_active_token s) e in
  if r =? 0 then (0, s)
  else
    let '(t, err) := nsid_mgr_init (table s) in
    let s := mkTz t (nsid_mgr_thread_id s) (current_active_token s) (ext s) in
    if err =? NSID_MGR_ERR_SUCCESS then (1, set_active TFM_NS_CLIENT_INVALID_TOKEN s)
    else (0, s).

Definition TZ_AllocModuleContext_S (module : Z) s : Z * tz_state E :=
  let nsid := i32 module in
  if nsid_mgr_thread_id s >=? NSID_MGR_THREAD_ID_MAX then (0, s)
  else
    let '(token, e) :=
      tfm_nsce_acquire_ctx NSID_MGR_GROUP_ID_DEFAULT (nsid_mgr_thread_id s) (ext s) in
    let s := mkTz (table s) (u8 (nsid_mgr_thread_id s + 1)) (current_active_token s) e in
    let '(t, err) := nsid_mgr_add_entry nsid token (table s) in
    let s := mkTz t (nsid_mgr_thread_id s) (current_active_token s) (ext s) in
    if err =? NSID_MGR_ERR_SUCCESS then (token, s) else (0, s).

Definition TZ_FreeModuleContext_S (id : Z) s : Z * tz_state E :=
  let token := u32 id in
  let '(t, err) := nsid_mgr_remove_entry token (table s) in
  let s := mkTz t (nsid_mgr_thread_id s) (current_active_token s) (ext s) in
  if negb (err =? NSID_MGR_ERR_SUCCESS) then (0, s)
  else
    let '(r, e) := tfm_nsce_release_ctx token (ext s) in
    let s := mkTz (table s) (nsid_mgr_thread_id s) (current_active_token s) e in
    if r =? TFM_NS_CLIENT_ERR_SUCCESS then (1, clear_active s) else (0, s).

Definition TZ_LoadContext_S (id : Z) s : Z * tz_state E :=
  let token := u32 id in
  let nsid := nsid_mgr_query_nsid token (table s) in
  if nsid >=? TFM_INVALID_NSID_MIN then (0, s)
  else
    let '(r, e) := tfm_nsce_load_ctx token nsid (ext s) in
    let s := mkTz (table s) (nsid_mgr_thread_id s) (current_active_token s) e in
    if r =? TFM_NS_CLIENT_ERR_SUCCESS then (1, set_active token s) else (0, s).

Definition TZ_StoreContext_S (id : Z) s : Z * tz_state E :=
  let token := u32 id in
  let '(r, e) := tfm_nsce_save_ctx token (ext s) in
  let s := mkTz (table s) (nsid_mgr_thread_id s) (current_active_token s) e in
  if r =? TFM_NS_CLIENT_ERR_SUCCESS then (1, clear_active s) else (0, s).

(** ** Sequences of calls *)

Inductive tz_op :=
  | Alloc (module : Z)
  | Free (id : Z)
  | Load (id : Z)
  | Store (id : Z).

Definition tz_step (o : tz_op) s : Z * tz_state E :=
  match o with
  | Alloc module => TZ_AllocModuleContext_S module s
  | Free id => TZ_FreeModuleContext_S id s
  | Load id => TZ_LoadContext_S id s
  | Store id => TZ_StoreContext_S id s
  end.

Fixpoint tz_run (os : list tz_op) s : tz_state E :=
  match os with
  | [] => s
  | o :: os => tz_run os (tz_step o s).2
  end.

(** The thread IDs passed to [tfm_nsce_acquire_ctx] along a run. *)
Fixpoint acquired (os : list tz_op) s : list Z :=
  match os with
  | [] => []
  | o :: os =>
      match o with
      | Alloc _ => if nsid_mgr_thread_id s >=? NSID_MGR_THREAD_ID_MAX then []
                   else [nsid_mgr_thread_id s]
      | _ => []
      end ++ acquired os (tz_step o s).2
  end.
End shim.

(** The token of a context as nsid_testsuite.c makes it: the thread ID, the
    group ID and the index of the context, a byte each. *)
Definition MAKE_NS_CLIENT_TOKEN (tid gid idx : Z) : Z :=
  Z.land (Z.lor (Z.lor (Z.land (u32 tid) 255) (Z.shiftl (Z.land (u32 gid) 255) 8)) (Z.shiftl (Z.land (u32 idx) 255) 16))
    (2 ^ 24 - 1).

Lemma token_thread_id t g i : 0 <= t < 256 -> Z.land (MAKE_NS_CLIENT_TOKEN t g i) 255 = t.
Proof.
  intros Ht. unfold MAKE_NS_CLIENT_TOKEN, wrapu. change 255 with (Z.ones 8). apply Z.bits_inj'. intros n Hn.
  rewrite !Z.land_spec, !Z.lor_spec, !Z.land_spec, !Z.shiftl_spec, !Z.land_spec by lia.
  change (2 ^ 24 - 1) with (Z.ones 24). rewrite !Z.testbit_ones by lia.
  destruct (Z.ltb_spec n 8) as [Hn8|Hn8].
  - rewrite !(Z.testbit_neg_r _ (n - _)) by lia.
    rewrite Z.mod_pow2_bits_low by lia. rewrite (proj2 (Z.leb_le 0 n)), (proj2 (Z.ltb_lt n 24)) by lia.
    by rewrite !andb_false_l, !orb_false_r, !andb_true_r.
  - rewrite !andb_false_r. rewrite <- (Z.mod_small t (2 ^ 8)) by lia. by rewrite Z.mod_pow2_bits_high by lia.
Qed.

Lemma token_range t g i : 0 <= MAKE_NS_CLIENT_TOKEN t g i < 2 ^ 32.
Proof.
  unfold MAKE_NS_CLIENT_TOKEN. change (2 ^ 24 - 1) with (Z.ones 24). rewrite Z.land_ones by lia.
  set (x := Z.lor _ _). pose proof (Z.mod_pos_bound x (2 ^ 24) ltac:(lia)). lia.
Qed.

(** What is documented of the extension: the token that it gives out is made of
    the thread ID that it is asked for, unless it is the invalid one; it may be
    asked for the same one again.  It holds a token from then until a release. *)
Class NsClientExtLaws {NC : NsClientExtConsts} (E : Type) {NE : NsClientExt E} := {
  held : E -> Z -> Prop;
  invalid_token_range : 0 <= TFM_NS_CLIENT_INVALID_TOKEN < 2 ^ 32;
  acquire_token g t e tok e' : 0 <= g < 256 -> 0 <= t < 256 -> tfm_nsce_acquire_ctx g t e = (tok, e') ->
    (tok = TFM_NS_CLIENT_INVALID_TOKEN \/ exists idx, tok = MAKE_NS_CLIENT_TOKEN t g idx) /\
    (forall x, held e' x <-> held e x \/ (x = tok /\ tok <> TFM_NS_CLIENT_INVALID_TOKEN));
}.

Section proofs.
  Context {NC : NsClientExtConsts} {E : Type} {NE : NsClientExt E}.
  Context {NL : NsClientExtLaws E}.
  Implicit Types s : tz_state E.

(** The invariant: a well-formed table, a counter that stays within its 8
    bits, and every registered token made of a thread ID below the counter. *)
Record tz_wf s : Prop := {
  tz_table : wf (table s);
  tz_counter : 1 <= nsid_mgr_thread_id s <= NSID_MGR_THREAD_ID_MAX;
  tz_ids tok : is_Some (view (table s) !! tok) -> Z.land tok 255 < nsid_mgr_thread_id s;
}.

Lemma view_add_entry n tok t :
  wf t -> view t !! tok = None ->
  wf (nsid_mgr_add_entry n tok t).1 /\
  ((nsid_mgr_add_entry n tok t).2 = NSID_MGR_ERR_SUCCESS /\ n < 0 /\
     tok <> TFM_NS_CLIENT_INVALID_TOKEN /\
     view (nsid_mgr_add_entry n tok t).1 = <[tok := n]> (view t) \/
   (nsid_mgr_add_entry n tok t).2 <> NSID_MGR_ERR_SUCCESS /\
     (nsid_mgr_add_entry n tok t).1 = t).
Proof.
  intros Hwf Hfresh. split; [by apply (wf_run_op (OpAdd n tok))|].
  destruct (nsid_mgr_add_entry n tok t) as [t' r] eqn:H. simpl.
  apply add_cases in H as [[-> Hr] | (t1 & e & t2 & -> & -> & He & Hn & Htok & ->)];
    [by right|]. left. split_and!; [done..|]. by apply view_add.
Qed.

Lemma view_remove_entry tok t :
  wf t ->
  wf (nsid_mgr_remove_entry tok t).1 /\
  view (nsid_mgr_remove_entry tok t).1 = delete tok (view t).
Proof.
  intros Hwf. split; [by apply (wf_run_op (OpRemove tok))|].
  destruct (step_refines (OpRemove tok) t Hwf I) as [_ Hv]. simpl in Hv. rewrite Hv.
  destruct (view t !! tok) eqn:Ht; [done|]. simpl. by rewrite delete_id.
Qed.
Lemma clear_active_fields s :
  table (clear_active s) = table s /\ nsid_mgr_thread_id (clear_active s) = nsid_mgr_thread_id s /\
  ext (clear_active s) = ext s.
Proof. unfold clear_active. by destruct (negb _). Qed.

(** What the shim gets for its thread ID is not in the table. *)
Lemma acquired_token s tok e : 0 <= nsid_mgr_thread_id s < 256 ->
  tfm_nsce_acquire_ctx NSID_MGR_GROUP_ID_DEFAULT (nsid_mgr_thread_id s) (ext s) = (tok, e) ->
  0 <= tok < 2 ^ 32 /\ (tok <> TFM_NS_CLIENT_INVALID_TOKEN -> Z.land tok 255 = nsid_mgr_thread_id s).
Proof.
  intros Hid Hacq. destruct (acquire_token NSID_MGR_GROUP_ID_DEFAULT _ _ _ _ ltac:(unfold NSID_MGR_GROUP_ID_DEFAULT; lia) Hid Hacq)
    as [[->|[idx ->]] _]; (split; [apply invalid_token_range || apply token_range|]); [done|].
  intros _. by apply token_thread_id.
Qed.

Lemma acquired_unregistered s tok e : 0 <= nsid_mgr_thread_id s < 256 ->
  (forall x, is_Some (view (table s) !! x) -> Z.land x 255 < nsid_mgr_thread_id s) ->
  tfm_nsce_acquire_ctx NSID_MGR_GROUP_ID_DEFAULT (nsid_mgr_thread_id s) (ext s) = (tok, e) ->
  view (table s) !! tok = None.
Proof.
  intros Hid Hids Hacq. destruct (acquired_token _ _ _ Hid Hacq) as [_ Hnew].
  destruct (decide (tok = TFM_NS_CLIENT_INVALID_TOKEN)) as [->|Hne]; [apply view_invalid|].
  apply eq_None_not_Some. intros Hin%Hids. rewrite Hnew in Hin by done. lia.
Qed.

(** One call: the invariant is kept; every registered token but one that the
    call frees keeps its client ID. *)
Lemma tz_alloc_spec module s tok s' :
  tz_wf s -> TZ_AllocModuleContext_S module s = (tok, s') ->
  tz_wf s' /\
  nsid_mgr_thread_id s' = Z.min NSID_MGR_THREAD_ID_MAX (nsid_mgr_thread_id s + 1) /\
  (forall x n, view (table s) !! x = Some n -> view (table s') !! x = Some n) /\
  (tok <> 0 -> i32 module < 0 /\ view (table s') !! tok = Some (i32 module) /\
               tok <> TFM_NS_CLIENT_INVALID_TOKEN /\ 0 <= tok < 2 ^ 32).
Proof.
  intros [Hwf Hcnt Hids] H. unfold TZ_AllocModuleContext_S in H.
  rewrite Z.geb_leb in H. destruct (Z.leb_spec NSID_MGR_THREAD_ID_MAX (nsid_mgr_thread_id s)).
  { injection H as <- <-. split_and!; [done | lia | done | done]. }
  destruct (tfm_nsce_acquire_ctx _ _ _) as [token e] eqn:Hacq.
  assert (0 <= nsid_mgr_thread_id s < 256) as Hid by (unfold NSID_MGR_THREAD_ID_MAX in *; lia).
  destruct (acquired_token _ _ _ Hid Hacq) as [Hrange Hnew].
  pose proof (acquired_unregistered _ _ _ Hid Hids Hacq) as Hnone.
  destruct (view_add_entry (i32 module) token (table s) Hwf Hnone) as [Hwf' Hcases].
  cbn [table ext nsid_mgr_thread_id current_active_token] in H.
  destruct (nsid_mgr_add_entry (i32 module) token (table s)) as [t err]. simpl in Hwf', Hcases.
  rewrite wrapu_small in H by (unfold NSID_MGR_THREAD_ID_MAX in *; lia).
  assert (s' = mkTz t (nsid_mgr_thread_id s + 1) (current_active_token s) e) as ->
    by (destruct (err =? _); by injection H).
  unfold NSID_MGR_THREAD_ID_MAX in *.
  split_and!; [split; cbn [table ext nsid_mgr_thread_id] | cbn; lia | | ].
  - done.
  - unfold NSID_MGR_THREAD_ID_MAX. lia.
  - intros x. destruct Hcases as [(_ & _ & Htok & ->)|(_ & ->)]; [|intros Hx; specialize (Hids x Hx); lia].
    rewrite lookup_insert_is_Some. intros [<-|[_ Hx]]; [rewrite Hnew by done | specialize (Hids x Hx)]; lia.
  - cbn [table]. intros x n Hx. destruct Hcases as [(_ & _ & _ & ->)|(_ & ->)]; [|done].
    rewrite lookup_insert_ne; [done | congruence].
  - cbn [table]. destruct Hcases as [(-> & Hn & Htok & ->)|(Herr & ->)].
    + injection H as <-. intros _. by rewrite lookup_insert_eq.
    + apply Z.eqb_neq in Herr. rewrite Herr in H. by injection H as <-.
Qed.

Lemma tz_free_spec id s :
  tz_wf s ->
  let s' := (TZ_FreeModuleContext_S id s).2 in
  tz_wf s' /\ nsid_mgr_thread_id s' = nsid_mgr_thread_id s /\
  view (table s') = delete (u32 id) (view (table s)).
Proof.
  intros [Hwf Hcnt Hids]. unfold TZ_FreeModuleContext_S.
  destruct (view_remove_entry (u32 id) (table s) Hwf) as [Hwf' Hv].
  destruct (nsid_mgr_remove_entry (u32 id) (table s)) as [t err]. simpl in Hwf', Hv.
  assert (forall x, is_Some (view t !! x) -> Z.land x 255 < nsid_mgr_thread_id s) as Hx.
  { intros x. rewrite Hv, lookup_delete_is_Some. naive_solver. }
  destruct (negb _); [split_and!; [by split | done | done]|].
  cbn [table ext nsid_mgr_thread_id current_active_token].
  destruct (tfm_nsce_release_ctx _ _) as [r e]. destruct (r =? _); cbn [snd].
  - destruct (clear_active_fields (mkTz t (nsid_mgr_thread_id s) (current_active_token s) e))
      as (Ht & Hn & _).
    split_and!; [split; by rewrite ?Ht, ?Hn | by rewrite Hn | by rewrite Ht].
  - split_and!; [by split | done | done].
Qed.

Lemma tz_same_tables s s' :
  table s' = table s -> nsid_mgr_thread_id s' = nsid_mgr_thread_id s -> tz_wf s -> tz_wf s'.
Proof. intros Ht Hn [Hwf Hcnt Hids]. split; by rewrite ?Ht, ?Hn. Qed.

Lemma tz_load_spec id s :
  tz_wf s ->
  let s' := (TZ_LoadContext_S id s).2 in
  tz_wf s' /\ nsid_mgr_thread_id s' = nsid_mgr_thread_id s /\ table s' = table s.
Proof.
  intros Hwf. unfold TZ_LoadContext_S. destruct (_ >=? _); [done|].
  destruct (tfm_nsce_load_ctx _ _ _) as [r e].
  destruct (r =? _); (split_and!; [by apply (tz_same_tables s) | done | done]).
Qed.

Lemma tz_store_spec id s :
  tz_wf s ->
  let s' := (TZ_StoreContext_S id s).2 in
  tz_wf s' /\ nsid_mgr_thread_id s' = nsid_mgr_thread_id s /\ table s' = table s.
Proof.
  intros Hwf. unfold TZ_StoreContext_S. destruct (tfm_nsce_save_ctx _ _) as [r e]. cbv zeta.
  destruct (r =? _); cbn [snd];
    [|split_and!; [by apply (tz_same_tables s) | done | done]].
  destruct (clear_active_fields (mkTz (table s) (nsid_mgr_thread_id s) (current_active_token s) e))
    as (Ht & Hn & _).
  split_and!; [apply (tz_same_tables s); rewrite ?Ht, ?Hn; done | by rewrite Hn | by rewrite Ht].
Qed.

Lemma tz_step_wf o s : tz_wf s -> tz_wf (tz_step o s).2.
Proof.
  intros Hwf. destruct o as [module|id|id|id]; cbn [tz_step].
  - destruct (TZ_AllocModuleContext_S module s) as [tok s'] eqn:H. by eapply tz_alloc_spec.
  - by apply tz_free_spec.
  - by apply tz_load_spec.
  - by apply tz_store_spec.
Qed.

Lemma tz_run_wf os s : tz_wf s -> tz_wf (tz_run os s).
Proof. revert s. induction os as [|o os IH]; intros s H; [done | by apply IH, tz_step_wf]. Qed.

(** [o] does not end the thread of [tok]. *)
Definition keeps (tok : Z) (o : tz_op) : Prop :=
  match o with Free id => u32 id <> tok | _ => True end.

Lemma tz_step_keeps o s tok n :
  tz_wf s -> keeps tok o -> view (table s) !! tok = Some n ->
  view (table (tz_step o s).2) !! tok = Some n.
Proof.
  intros Hwf Hk Hv. destruct o as [module|id|id|id]; cbn [tz_step keeps] in *.
  - destruct (TZ_AllocModuleContext_S module s) as [t s'] eqn:H.
    apply tz_alloc_spec in H as (_ & _ & Hkeep & _); auto.
  - destruct (tz_free_spec id s Hwf) as (_ & _ & ->). by rewrite lookup_delete_ne.
  - by destruct (tz_load_spec id s Hwf) as (_ & _ & ->).
  - by destruct (tz_store_spec id s Hwf) as (_ & _ & ->).
Qed.

Lemma tz_run_keeps os s tok n :
  tz_wf s -> Forall (keeps tok) os -> view (table s) !! tok = Some n ->
  view (table (tz_run os s)) !! tok = Some n.
Proof.
  intros Hwf Hk. revert s Hwf. induction Hk as [|o os Ho Hos IH]; intros s Hwf Hv; [done|].
  apply IH; [by apply tz_step_wf | by apply tz_step_keeps].
Qed.

Lemma tz_init_wf e s : TZ_InitContextSystem_S (tz_reset e) = (1, s) -> tz_wf s.
Proof.
  unfold TZ_InitContextSystem_S. destruct (tfm_nsce_init _ _) as [r e1].
  destruct (r =? 0); [done|].
  pose proof (wf_init test_ns_token_table (length_replicate _ _)) as Hwf.
  pose proof (init_table test_ns_token_table (length_replicate _ _)) as Ht.
  cbn [table nsid_mgr_thread_id current_active_token ext tz_reset].
  destruct (nsid_mgr_init test_ns_token_table) as [t err]. cbn [fst] in Hwf, Ht.
  assert (view t = ∅) as Hv by (rewrite Ht; apply view_replicate_free).
  destruct (err =? _); [|done]. intros [= <-]. split; [done | done |].
  intros tok. cbn [table set_active]. rewrite Hv, lookup_empty. by intros [? ?].
Qed.

(** Loading a registered token. *)
Lemma tz_load_view tok n s :
  0 <= tok < 2 ^ 32 -> tok <> TFM_NS_CLIENT_INVALID_TOKEN -> n < 0 -> view (table s) !! tok = Some n ->
  TZ_LoadContext_S tok s =
    let '(r, e) := tfm_nsce_load_ctx tok n (ext s) in
    let s' := mkTz (table s) (nsid_mgr_thread_id s) (current_active_token s) e in
    if r =? TFM_NS_CLIENT_ERR_SUCCESS then (1, set_active tok s') else (0, s').
Proof.
  intros Hrange Hne Hneg Hv. unfold TZ_LoadContext_S. rewrite (wrapu_small 32 tok Hrange), query_view, Hv by done.
  change (default 0 (Some n)) with n. unfold TFM_INVALID_NSID_MIN. rewrite Z.geb_leb.
  destruct (Z.leb_spec 0 n); [lia|done].
Qed.

(** ** Properties *)

(** C23. A thread runs under its own client ID: after initialisation and any
    calls, if a thread is created with module ID [module] (its NSID) and the
    call returns the token [tok], then after any further calls that do not end
    that thread, loading [tok] makes the non-secure client extension load
    exactly that NSID, which is negative; the call reports the extension's
    verdict and, on success, [tok] is the active token. *)
Theorem tz_load_own_nsid e s0 os module tok s1 os' :
  TZ_InitContextSystem_S (tz_reset e) = (1, s0) ->
  TZ_AllocModuleContext_S module (tz_run os s0) = (tok, s1) -> tok <> 0 ->
  Forall (keeps tok) os' ->
  let s := tz_run os' s1 in
  let load := tfm_nsce_load_ctx tok (i32 module) (ext s) in
  i32 module < 0 /\ ext (TZ_LoadContext_S tok s).2 = load.2 /\
  (load.1 = TFM_NS_CLIENT_ERR_SUCCESS ->
     (TZ_LoadContext_S tok s).1 = 1 /\ current_active_token (TZ_LoadContext_S tok s).2 = tok) /\
  (load.1 <> TFM_NS_CLIENT_ERR_SUCCESS -> (TZ_LoadContext_S tok s).1 = 0).
Proof.
  intros Hinit Hal Htok Hk s load.
  pose proof (tz_run_wf os s0 (tz_init_wf _ _ Hinit)) as Hwf0.
  destruct (tz_alloc_spec _ _ _ _ Hwf0 Hal) as (Hwf1 & _ & _ & Hnew).
  destruct (Hnew Htok) as (Hneg & Hview & Hne & Hrange).
  pose proof (tz_run_keeps os' s1 tok (i32 module) Hwf1 Hk Hview) as Hv. fold s in Hv.
  rewrite (tz_load_view tok (i32 module) s Hrange Hne Hneg Hv). fold load. destruct load as [r e'].
  cbn [fst snd]. split; [done|].
  destruct (Z.eqb_spec r TFM_NS_CLIENT_ERR_SUCCESS); (split_and!; intros; first [congruence | done]).
Qed.

(** Thread IDs are never reused: along any calls after initialisation, the
    IDs passed to [tfm_nsce_acquire_ctx] are 1, 2, 3, ... without repetition,
    the 8-bit counter never wraps, and at most 254 contexts are ever acquired,
    however many are freed: the next creation is refused. *)
Theorem tz_thread_ids_unique e s0 os :
  TZ_InitContextSystem_S (tz_reset e) = (1, s0) ->
  exists n, acquired os s0 = seqZ 1 n /\ 0 <= n <= 254 /\
    nsid_mgr_thread_id (tz_run os s0) = n + 1 /\
    (n = 254 -> forall module, (TZ_AllocModuleContext_S module (tz_run os s0)).1 = 0).
Proof.
  intros Hinit. pose proof (tz_init_wf _ _ Hinit) as Hwf.
  assert (nsid_mgr_thread_id s0 = 1) as Hone.
  { revert Hinit. unfold TZ_InitContextSystem_S. destruct (tfm_nsce_init _ _) as [r e1].
    destruct (r =? 0); [done|]. destruct (nsid_mgr_init _) as [t err].
    destruct (err =? _); [|done]. by intros [= <-]. }
  assert (forall os s, tz_wf s -> exists n,
    acquired os s = seqZ (nsid_mgr_thread_id s) n /\ 0 <= n /\
    nsid_mgr_thread_id s + n <= 255 /\
    nsid_mgr_thread_id (tz_run os s) = nsid_mgr_thread_id s + n) as Hgen.
  { clear -NL. intros os. induction os as [|o os IH]; intros s Hwf.
    - exists 0. pose proof (tz_counter _ Hwf). unfold NSID_MGR_THREAD_ID_MAX in *.
      split_and!; [done | done | lia | simpl; lia].
    - destruct (IH _ (tz_step_wf o s Hwf)) as (n & Hacq & Hn & Hle & Hid).
      cbn [acquired tz_run]. rewrite Hacq, Hid.
      destruct o as [module|id|id|id]; cbn [tz_step] in *.
      + destruct (TZ_AllocModuleContext_S module s) as [tok s'] eqn:Hal.
        apply tz_alloc_spec in Hal as (_ & Hs' & _ & _); [|done]. cbn [snd] in *.
        pose proof (tz_counter _ Hwf). unfold NSID_MGR_THREAD_ID_MAX in *. rewrite Z.geb_leb.
        destruct (Z.leb_spec 255 (nsid_mgr_thread_id s)).
        * exists n. rewrite Hs' in *. replace (Z.min _ _) with (nsid_mgr_thread_id s) in * by lia.
          by split_and!.
        * exists (n + 1). rewrite Hs' in *.
          replace (Z.min _ _) with (nsid_mgr_thread_id s + 1) in * by lia.
          split_and!; [|lia..]. rewrite (seqZ_cons _ (n + 1)) by lia.
          by replace (Z.pred (n + 1)) with n by lia.
      + destruct (tz_free_spec id s Hwf) as (_ & Hs' & _). rewrite Hs' in *. by exists n.
      + destruct (tz_load_spec id s Hwf) as (_ & Hs' & _). rewrite Hs' in *. by exists n.
      + destruct (tz_store_spec id s Hwf) as (_ & Hs' & _). rewrite Hs' in *. by exists n. }
  destruct (Hgen os s0 Hwf) as (n & Hacq & Hn & Hle & Hid). rewrite Hone in *. exists n.
  split_and!; [done | done | lia | lia |]. intros -> module.
  unfold TZ_AllocModuleContext_S. by rewrite Hid.
Qed.

(** A creation that finds the table full leaks its context: the call
    returns 0, but the context acquired for it stays held by the extension
    under a token that is in no table entry, so that no later call of
    [TZ_FreeModuleContext_S] can release it. *)
Theorem tz_alloc_leak module s tok e' :
  tz_wf s -> i32 module < 0 -> nsid_mgr_thread_id s < NSID_MGR_THREAD_ID_MAX ->
  size (view (table s)) = THREAD_NUM_MAX ->
  tfm_nsce_acquire_ctx NSID_MGR_GROUP_ID_DEFAULT (nsid_mgr_thread_id s) (ext s) = (tok, e') ->
  tok <> TFM_NS_CLIENT_INVALID_TOKEN ->
  let s' := (TZ_AllocModuleContext_S module s).2 in
  (TZ_AllocModuleContext_S module s).1 = 0 /\ held (ext s') tok /\
  view (table s') !! tok = None /\
  TZ_FreeModuleContext_S tok s' = (0, s').
Proof.
  intros Hwf Hneg Hcnt Hfull Hacq Htok s'.
  pose proof (tz_counter _ Hwf). assert (0 <= nsid_mgr_thread_id s < 256) as Hid by (unfold NSID_MGR_THREAD_ID_MAX in *; lia).
  destruct (acquired_token _ _ _ Hid Hacq) as [Hrange _].
  destruct (acquire_token NSID_MGR_GROUP_ID_DEFAULT _ _ _ _ ltac:(unfold NSID_MGR_GROUP_ID_DEFAULT; lia) Hid Hacq) as [_ Hheld'].
  pose proof (acquired_unregistered _ _ _ Hid (tz_ids _ Hwf) Hacq) as Hnone.
  assert (nsid_mgr_add_entry (i32 module) tok (table s) = (table s, NSID_MGR_ERR_NO_FREE_ENTRY))
    as Hadd.
  { unfold nsid_mgr_add_entry, TFM_INVALID_NSID_MIN.
    destruct (Z.geb_spec (i32 module) 0), (Z.eqb_spec tok TFM_NS_CLIENT_INVALID_TOKEN); try lia.
    rewrite (proj2 (free_iff_room _ (tz_table _ Hwf))) by lia. done. }
  assert (TZ_AllocModuleContext_S module s =
    (0, mkTz (table s) (u8 (nsid_mgr_thread_id s + 1)) (current_active_token s) e')) as Hal.
  { unfold TZ_AllocModuleContext_S. rewrite Z.geb_leb.
    destruct (Z.leb_spec NSID_MGR_THREAD_ID_MAX (nsid_mgr_thread_id s)); [lia|].
    rewrite Hacq. cbn [table ext nsid_mgr_thread_id current_active_token]. by rewrite Hadd. }
  unfold s'. rewrite Hal. cbn [fst snd ext table].
  split_and!; [done | apply Hheld'; auto | done |].
  unfold TZ_FreeModuleContext_S. rewrite (wrapu_small 32 tok Hrange). cbn [table].
  destruct (nsid_mgr_remove_entry tok (table s)) as [t err] eqn:Hrm.
  apply remove_cases in Hrm as [(-> & -> & _)|(t1 & e & t2 & Ht & _ & He & <- & _)]; [done|].
  exfalso. rewrite Ht, view_app, view_cons_live in Hnone by done.
  apply lookup_union_None in Hnone as [_ Hnone]. by rewrite lookup_insert_eq in Hnone.
Qed.
End proofs.

(** ** Witnesses: an extension whose tokens are the thread IDs *)

Definition ref_nce_consts : NsClientExtConsts :=
  {| TFM_NS_CLIENT_INVALID_TOKEN := 2 ^ 32 - 1; TFM_NS_CLIENT_ERR_SUCCESS := 0 |}.

(** The state is the list of the tokens held; the one context has index 0.  A
    thread ID that is in use gets its token again. *)
Definition ref_nce : NsClientExt (list Z) := {|
  tfm_nsce_init _ e := (1, []);
  tfm_nsce_acquire_ctx g t e := let tok := MAKE_NS_CLIENT_TOKEN t g 0 in (tok, if decide (tok ∈ e) then e else tok :: e);
  tfm_nsce_release_ctx tok e := if decide (tok ∈ e) then (0, filter (fun x => x <> tok) e) else (1, e);
  tfm_nsce_load_ctx tok _ e := (if decide (tok ∈ e) then 0 else 1, e);
  tfm_nsce_save_ctx tok e := (if decide (tok ∈ e) then 0 else 1, e);
|}.

Definition ref_nce_laws : @NsClientExtLaws ref_nce_consts (list Z) ref_nce.
Proof.
  refine (@Build_NsClientExtLaws ref_nce_consts (list Z) ref_nce (fun e x => x ∈ e) _ _).
  - by split.
  - intros g t e tok e' _ _ [= <- <-]. split; [right; by exists 0|]. intros x.
    assert (MAKE_NS_CLIENT_TOKEN t g 0 <> 2 ^ 32 - 1) as Hne.
    { unfold MAKE_NS_CLIENT_TOKEN. change (2 ^ 24 - 1) with (Z.ones 24). rewrite Z.land_ones by lia.
      set (y := Z.lor _ _). pose proof (Z.mod_pos_bound y (2 ^ 24) ltac:(lia)). lia. }
    cbn [TFM_NS_CLIENT_INVALID_TOKEN ref_nce_consts]. case_decide; [|rewrite elem_of_cons]; naive_solver.
Defined.

(** Two threads, -2 and -3, the first ended before the second is loaded. *)
Lemma tz_load_own_nsid_witness :
  let s0 := (@TZ_InitContextSystem_S ref_nce_consts _ ref_nce (tz_reset [])).2 in
  let s1 := @tz_run ref_nce_consts _ ref_nce [Alloc (2 ^ 32 - 2)] s0 in
  let s2 := (@TZ_AllocModuleContext_S ref_nce_consts _ ref_nce (2 ^ 32 - 3) s1).2 in
  let s3 := @tz_run ref_nce_consts _ ref_nce [Load 1; Store 1; Free 1] s2 in
  (@TZ_LoadContext_S ref_nce_consts _ ref_nce 2 s3).1 = 1 /\ i32 (2 ^ 32 - 3) = -3.
Proof.
  intros s0 s1 s2 s3. split; [|done].
  destruct (@tz_load_own_nsid ref_nce_consts _ ref_nce ref_nce_laws [] s0
    [Alloc (2 ^ 32 - 2)] (2 ^ 32 - 3) 2 s2 [Load 1; Store 1; Free 1]) as (_ & _ & H & _).
  - vm_compute. reflexivity.
  - vm_compute. reflexivity.
  - done.
  - repeat constructor. done.
  - apply H. vm_compute. reflexivity.
Defined.

Lemma tz_thread_ids_unique_witness :
  @acquired ref_nce_consts _ ref_nce [Alloc (2 ^ 32 - 2); Free 1; Alloc (2 ^ 32 - 3)]
    (@TZ_InitContextSystem_S ref_nce_consts _ ref_nce (tz_reset [])).2 = [1; 2].
Proof.
  destruct (@tz_thread_ids_unique ref_nce_consts _ ref_nce ref_nce_laws []
    (@TZ_InitContextSystem_S ref_nce_consts _ ref_nce (tz_reset [])).2
    [Alloc (2 ^ 32 - 2); Free 1; Alloc (2 ^ 32 - 3)]) as (n & -> & _ & Hn & _).
  - vm_compute. reflexivity.
  - assert (n + 1 = 3) as Hn3 by (rewrite <- Hn; vm_compute; reflexivity).
    assert (n = 2) as -> by lia. reflexivity.
Defined.

(** The eleventh creation. *)
Definition full_tz : tz_state (list Z) :=
  @tz_run ref_nce_consts _ ref_nce (replicate 10 (Alloc (2 ^ 32 - 2)))
    (@TZ_InitContextSystem_S ref_nce_consts _ ref_nce (tz_reset [])).2.

Lemma tz_alloc_leak_witness :
  (@TZ_AllocModuleContext_S ref_nce_consts _ ref_nce (2 ^ 32 - 2) full_tz).1 = 0 /\
  11 ∈ ext (@TZ_AllocModuleContext_S ref_nce_consts _ ref_nce (2 ^ 32 - 2) full_tz).2.
Proof.
  destruct (@tz_alloc_leak ref_nce_consts _ ref_nce ref_nce_laws (2 ^ 32 - 2) full_tz 11
    (11 :: ext full_tz)) as (H & Hh & _).
  - apply (tz_run_wf (NL := ref_nce_laws)), (tz_init_wf (NE := ref_nce) []). vm_compute. reflexivity.
  - done.
  - vm_compute. reflexivity.
  - vm_compute. reflexivity.
  - vm_compute. reflexivity.
  - done.
  - split; [exact H | exact Hh].
Defined.
