(* ===== verification/NsidMap.v ===== *)
(** * Thread names and client IDs: app_broker/tfm_nsid_map_table.c

    The static table of the test threads' client IDs, its string comparison
    and its lookup. *)

From S2P Require Import Prelude NsidManager.
Local Open Scope Z_scope.

Record thread_test_nsid_pair := mkPair { t_name : string; t_nsid : Z }.

(** Without PSA_API_TEST_NS. *)
Definition test_ns_nsid_table : list thread_test_nsid_pair :=
  [mkPair "Thread_A" (-2); mkPair "Thread_B" (-3); mkPair "Thread_C" (-4);
   mkPair "Thread_D" (-5); mkPair "seq_task" (-6); mkPair "mid_task" (-7);
   mkPair "pri_task" (-8)].

(** The loop of [str_cmp] from index [i], over the memory at the two pointers;
    reading past the end is undefined.  [fuel] bounds the iterations. *)
Fixpoint str_cmp_loop (fuel : nat) (a b : list Z) (i : nat) : option Z :=
  match fuel with
  | O => None
  | S fuel =>
      x ← a !! i;
      y ← b !! i;
      if negb (x =? 0) || negb (y =? 0) then
        if negb (x =? y) then Some 1 else str_cmp_loop fuel a b (S i)
      else Some 0
  end.

Definition str_cmp (a b : list Z) : option Z :=
  str_cmp_loop (S (length a)) a b 0.

(** The loop of [nsid_mgr_get_thread_nsid]. *)
Fixpoint nsid_search (table : list thread_test_nsid_pair) (name : list Z) : option Z :=
  match table with
  | [] => Some TFM_DEFAULT_NSID
  | e :: table =>
      r ← str_cmp (cstr (t_name e)) name;
      if r =? 0 then Some (t_nsid e) else nsid_search table name
  end.

Definition nsid_mgr_get_thread_nsid (name : option (list Z)) : option Z :=
  match name with
  | None => Some TFM_DEFAULT_NSID
  | Some name => nsid_search test_ns_nsid_table name
  end.

(** ** Specification *)

(** The client ID of a thread name. *)
Definition thread_nsid (name : string) : Z :=
  match find (fun e => String.eqb (t_name e) name) test_ns_nsid_table with
  | Some e => t_nsid e
  | None => TFM_DEFAULT_NSID
  end.

(** No NUL inside the string. *)
Definition is_cstring (s : string) : Prop := 0 ∉ bytes_of_string s.

Lemma str_cmp_loop_spec fuel pre s t ra rb :
  0 ∉ s -> 0 ∉ t -> (length s < fuel)%nat ->
  str_cmp_loop fuel (pre ++ s ++ 0 :: ra) (pre ++ t ++ 0 :: rb) (length pre) =
    Some (if decide (s = t) then 0 else 1).
Proof.
  revert pre s t. induction fuel as [|fuel IH]; intros pre s t Hs Ht Hf; [lia|].
  cbn [str_cmp_loop].
  assert (forall x s' r, x :: s' ++ 0 :: r = (x :: s') ++ 0 :: r) as Hcons by done.
  destruct s as [|x s], t as [|y t]; cbn [app];
    rewrite !list_lookup_middle by done; cbn [mbind option_bind].
  - done.
  - rewrite not_elem_of_cons in Ht. destruct (Z.eqb_spec y 0), (Z.eqb_spec 0 y);
      first [lia | done].
  - rewrite not_elem_of_cons in Hs. destruct (Z.eqb_spec x 0); first [lia | done].
  - rewrite not_elem_of_cons in Hs, Ht. destruct Hs as [Hx Hs], Ht as [Hy Ht].
    destruct (Z.eqb_spec x 0); [congruence|]. cbn [negb orb].
    destruct (Z.eqb_spec x y) as [->|Hne]; cbn [negb].
    + specialize (IH (pre ++ [y]) s t Hs Ht). rewrite length_app, <- !app_assoc in IH.
      simpl in IH, Hf. rewrite Nat.add_1_r in IH. rewrite IH by lia.
      destruct (decide (s = t)), (decide (y :: s = y :: t)); congruence.
    + destruct (decide (x :: s = y :: t)); congruence.
Qed.

Lemma bytes_of_string_inj s t : bytes_of_string s = bytes_of_string t -> s = t.
Proof.
  unfold bytes_of_string. intros H.
  assert (Inj (=) (=) (fun c => Z.of_nat (Ascii.nat_of_ascii c))) as Hi.
  { intros c d Hcd. apply Nat2Z.inj in Hcd.
    by rewrite <- (Ascii.ascii_nat_embedding c), Hcd, Ascii.ascii_nat_embedding. }
  apply (inj (fmap _)) in H.
  by rewrite <- (String.string_of_list_ascii_of_string s), H,
    String.string_of_list_ascii_of_string.
Qed.

(** [str_cmp] on two C strings, whatever follows them in memory. *)
Lemma str_cmp_spec s t ra rb :
  is_cstring s -> is_cstring t ->
  str_cmp (cstr s ++ ra) (cstr t ++ rb) = Some (if decide (s = t) then 0 else 1).
Proof.
  intros Hs Ht. unfold str_cmp, cstr. rewrite <- !app_assoc.
  etrans; [apply (str_cmp_loop_spec _ [] (bytes_of_string s) (bytes_of_string t) ra rb);
    [done | done | rewrite !length_app; simpl; lia]|].
  destruct (decide (s = t)) as [->|Hne]; [by rewrite decide_True|].
  rewrite decide_False; [done|]. intros H. by apply Hne, bytes_of_string_inj.
Qed.

Lemma nsid_search_spec table s ra :
  Forall (fun e => is_cstring (t_name e)) table -> is_cstring s ->
  nsid_search table (cstr s ++ ra) =
    Some (match find (fun e => String.eqb (t_name e) s) table with
          | Some e => t_nsid e
          | None => TFM_DEFAULT_NSID
          end).
Proof.
  intros Ht Hs. induction Ht as [|e table He Ht IH]; [done|]. cbn [nsid_search find].
  rewrite <- (app_nil_r (cstr (t_name e))), str_cmp_spec by done. cbn [mbind option_bind].
  destruct (String.eqb_spec (t_name e) s) as [->|Hne].
  - by rewrite decide_True.
  - by rewrite decide_False.
Qed.

(** ** Properties *)

Lemma get_thread_nsid_name s ra :
  is_cstring s -> nsid_mgr_get_thread_nsid (Some (cstr s ++ ra)) = Some (thread_nsid s).
Proof.
  intros Hs. apply nsid_search_spec; [|done].
  repeat (apply Forall_cons; split; [unfold is_cstring; by apply (bool_decide_unpack _)|]).
  by apply Forall_nil.
Qed.

(** Only the default client ID is shared by several names. *)
Lemma thread_nsid_inj s s' :
  thread_nsid s' = thread_nsid s -> thread_nsid s <> TFM_DEFAULT_NSID -> s' = s.
Proof.
  unfold thread_nsid. cbn [find test_ns_nsid_table t_name].
  repeat match goal with
    |- context [String.eqb ?a ?b] => destruct (String.eqb_spec a b); subst
  end; cbn [t_nsid]; try done.
Qed.

(** The lookup is exact: for every thread name, with anything after it in
    memory, [nsid_mgr_get_thread_nsid] terminates without reading past either
    string and returns the client ID of the table's entry of that very name,
    or the default one (which it also returns for NULL); the IDs it returns
    are negative, and only the default one is shared by several names. *)
Theorem get_thread_nsid_exact s ra :
  is_cstring s ->
  nsid_mgr_get_thread_nsid (Some (cstr s ++ ra)) = Some (thread_nsid s) /\
  nsid_mgr_get_thread_nsid None = Some TFM_DEFAULT_NSID /\
  thread_nsid s < 0 /\
  (forall s', thread_nsid s' = thread_nsid s -> thread_nsid s <> TFM_DEFAULT_NSID -> s' = s).
Proof.
  intros Hs. split_and!.
  - by apply get_thread_nsid_name.
  - done.
  - unfold thread_nsid, test_ns_nsid_table. cbn [find t_name].
    repeat match goal with |- context [String.eqb ?a ?b] => destruct (String.eqb a b) end; done.
  - intros s'. apply thread_nsid_inj.
Qed.

Lemma get_thread_nsid_exact_witness :
  nsid_mgr_get_thread_nsid (Some (cstr "Thread_B" ++ [65; 66])) = Some (-3).
Proof.
  destruct (get_thread_nsid_exact "Thread_B" [65; 66]) as [H _];
    [unfold is_cstring; by apply (bool_decide_unpack _) | exact H].
Defined.
