(* ===== verification/LogRaw.v ===== *)
(** * Raw logging: lib/log/tfm_log_raw.c

    The buffered [printf] of the test application: the 32-byte print buffer
    and its flush, the decimal and hexadecimal converters with their local
    digit arrays, the format interpreter, and a reference rendering the
    formatter is proved to implement.  Undefined behaviour of C (a write out of an
    array, a missing or ill-typed variadic argument, a signed overflow) is
    the outcome [None]. *)

From S2P Require Import Prelude.
Local Open Scope Z_scope.

Definition PRINT_BUFF_SIZE : nat := 32.
Definition NUM_BUFF_SIZE : nat := 12.

Record formatted_buffer_t := mkbuf { pos : nat; buf : list Z }.

Definition hex_digits_lo : list Z := bytes_of_string "0123456789abcdef".
Definition hex_digits_up : list Z := bytes_of_string "0123456789ABCDEF".

Definition chr (c : string) : Z := default 0 (head (bytes_of_string c)).

(** [stdio_output_string] of uart_stdout.h: outputs a byte string on the
    serial port and returns the number of bytes output.  The port's state is
    a parameter. *)
Class Uart (U : Type) := {
  stdio_output_string : list Z -> U -> Z * U;
  uart_trace : U -> list Z;
}.

(** The documented behaviour of [stdio_output_string]. *)
Class UartLaws (U : Type) `{Uart U} : Prop := {
  uart_output l u : uart_trace (stdio_output_string l u).2 = uart_trace u ++ l;
  uart_count l u : (stdio_output_string l u).1 = Z.of_nat (length l);
}.

(** A variadic argument: a word of an integer conversion or a string
    (without its NUL). *)
Inductive va_arg := VaInt (z : Z) | VaStr (s : list Z).

Section printf.
  Context {U : Type} {HU : Uart U}.

(** The state the functions thread: the print buffer and the port. *)
Abbreviation st := (formatted_buffer_t * U)%type.

Definition _tfm_flush_formatted_buffer (s : st) (data : Z) : option st :=
  let '(pb, u) := s in
  if decide (pos pb < length (buf pb))%nat then
    let buf' := <[pos pb := u8 data]> (buf pb) in
    let pos' := S (pos pb) in
    if decide (PRINT_BUFF_SIZE <= pos')%nat then
      Some (mkbuf 0 buf', (stdio_output_string (take PRINT_BUFF_SIZE buf') u).2)
    else Some (mkbuf pos' buf', u)
  else None.

(** [while ( *str) { flush ( *str++); count++; }]: the list is the memory
    from [str] on, up to the terminating NUL. *)
Fixpoint _tfm_string_output (s : st) (str : list Z) : option (Z * st) :=
  match str with
  | [] => Some (0, s)
  | c :: str' =>
      if c =? 0 then Some (0, s)
      else s' ← _tfm_flush_formatted_buffer s c;
           '(count, s'') ← _tfm_string_output s' str';
           Some (count + 1, s'')
  end.

(** [do { num_buff[k++] = digit (number); number /= base; } while (number);]
    with [num_buff] of [NUM_BUFF_SIZE] bytes: writing past it is undefined. *)
Fixpoint do_digits (base : Z) (digit : Z -> Z) (fuel : nat)
    (num_buff : list Z) (k : nat) (number : Z) : option (list Z * nat) :=
  match fuel with
  | O => None
  | S fuel =>
      if decide (k < length num_buff)%nat then
        let num_buff' := <[k := digit (number mod base)]> num_buff in
        let number' := number / base in
        if number' =? 0 then Some (num_buff', S k)
        else do_digits base digit fuel num_buff' (S k) number'
      else None
  end.

(** [while (k) { flush (num_buff[--k]); count++; }] *)
Fixpoint while_digits (s : st) (num_buff : list Z) (k : nat) : option (Z * st) :=
  match k with
  | O => Some (0, s)
  | S k =>
      d ← num_buff !! k;
      s' ← _tfm_flush_formatted_buffer s d;
      '(count, s'') ← while_digits s' num_buff k;
      Some (count + 1, s'')
  end.

Definition num_fuel : nat := S NUM_BUFF_SIZE.

Definition _tfm_dec_num_output (s : st) (num : Z) (sign : Z) : option (Z * st) :=
  let num_buff := replicate NUM_BUFF_SIZE 0 in
  let digits s number count :=
    '(num_buff', k) ← do_digits 10 (fun d => u8 (chr "0" + d)) num_fuel num_buff 0 number;
    '(n, s') ← while_digits s num_buff' k;
    Some (count + n, s') in
  if (sign =? chr "d") && (num <? 0) then
    s' ← _tfm_flush_formatted_buffer s (chr "-");
    if num =? INT32_MIN then None (* [-num] overflows [int32_t] *)
    else digits s' (u32 (- num)) 1
  else digits s (u32 num) 0.

Definition _tfm_hex_num_output (s : st) (num : Z) (hex_digits : list Z) : option (Z * st) :=
  '(num_buff, k) ←
    do_digits 16 (fun d => default 0 (hex_digits !! Z.to_nat d)) num_fuel
      (replicate NUM_BUFF_SIZE 0) 0 num;
  while_digits s num_buff k.

(** [va_arg (ap, int32_t)], [va_arg (ap, uint32_t)] and [va_arg (ap, char * )]. *)
Definition va_int32 (ap : list va_arg) : option (Z * list va_arg) :=
  match ap with VaInt z :: ap => Some (i32 z, ap) | _ => None end.
Definition va_uint32 (ap : list va_arg) : option (Z * list va_arg) :=
  match ap with VaInt z :: ap => Some (u32 z, ap) | _ => None end.
Definition va_str (ap : list va_arg) : option (list Z * list va_arg) :=
  match ap with VaStr s :: ap => Some (s, ap) | _ => None end.

(** The conversion selected by the character after [%]: [None] for the
    [default] label, which does not consume the character. *)
Definition convert (c : Z) (s : st) (ap : list va_arg) :
    option (option (Z * st * list va_arg)) :=
  if (c =? chr "d") || (c =? chr "i") then Some (
    '(v, ap) ← va_int32 ap;
    '(n, s) ← _tfm_dec_num_output s v (chr "d"); Some (n, s, ap))
  else if c =? chr "u" then Some (
    '(v, ap) ← va_int32 ap;
    '(n, s) ← _tfm_dec_num_output s v (chr "u"); Some (n, s, ap))
  else if c =? chr "x" then Some (
    '(v, ap) ← va_uint32 ap;
    '(n, s) ← _tfm_hex_num_output s v hex_digits_lo; Some (n, s, ap))
  else if c =? chr "X" then Some (
    '(v, ap) ← va_uint32 ap;
    '(n, s) ← _tfm_hex_num_output s v hex_digits_up; Some (n, s, ap))
  else if c =? chr "p" then Some (
    '(n0, s) ← _tfm_string_output s (bytes_of_string "0x");
    '(v, ap) ← va_uint32 ap;
    '(n, s) ← _tfm_hex_num_output s v hex_digits_lo; Some (n0 + n, s, ap))
  else if c =? chr "s" then Some (
    '(v, ap) ← va_str ap;
    '(n, s) ← _tfm_string_output s v; Some (n, s, ap))
  else if c =? chr "c" then Some (
    '(v, ap) ← va_int32 ap;
    s ← _tfm_flush_formatted_buffer s (u8 v); Some (1, s, ap))
  else if c =? chr "%" then Some (
    s ← _tfm_flush_formatted_buffer s (chr "%"); Some (1, s, ap))
  else None.

(** The [while ( *fmt)] loop; [fmt] is the format up to its NUL, so the
    character after a final [%] is the NUL. *)
Fixpoint format_loop (fuel : nat) (fmt : list Z) (s : st) (ap : list va_arg) :
    option (Z * st) :=
  match fuel with
  | O => None
  | S fuel =>
      match fmt with
      | [] => Some (0, s)
      | c :: fmt' =>
          if c =? 0 then Some (0, s)
          else if c =? chr "%" then
            match convert (default 0 (head fmt')) s ap with
            | Some r =>
                '(n, s', ap') ← r;
                '(m, s'') ← format_loop fuel (tail fmt') s' ap';
                Some (n + m, s'')
            | None =>
                '(n, s') ← _tfm_string_output s (bytes_of_string "[Unsupported Tag]");
                '(m, s'') ← format_loop fuel fmt' s' ap;
                Some (n + m, s'')
            end
          else
            s' ← _tfm_flush_formatted_buffer s c;
            '(m, s'') ← format_loop fuel fmt' s' ap;
            Some (m + 1, s'')
      end
  end.

(** [outputbuf] is an uninitialised local but for [pos]: [junk] is its
    content. *)
Definition _tfm_log_vprintf (junk : list Z) (fmt : list Z) (ap : list va_arg) (u : U) :
    option (Z * U) :=
  '(count, (pb, u)) ← format_loop (S (length fmt)) fmt (mkbuf 0 junk, u) ap;
  if decide (pos pb = 0%nat) then Some (count, u)
  else let '(n, u') := stdio_output_string (take (pos pb) (buf pb)) u in
       Some (count + n, u').

Definition tfm_log_printf (junk : list Z) (fmt : list Z) (ap : list va_arg) (u : U) :
    option (Z * U) :=
  _tfm_log_vprintf junk fmt ap u.
End printf.

(** ** Reference rendering *)

(** Digits of [n], least significant first; [numeral] puts them in print
    order, and [numeral_value] reads a numeral back. *)
Fixpoint digits_lsb (fuel : nat) (base n : Z) : list Z :=
  match fuel with
  | O => []
  | S fuel => n mod base :: (if n / base =? 0 then [] else digits_lsb fuel base (n / base))
  end.

Definition numeral (base n : Z) : list Z := reverse (digits_lsb NUM_BUFF_SIZE base n).

Definition numeral_value (base : Z) (ds : list Z) : Z :=
  foldl (fun acc d => acc * base + d) 0 ds.

(** Reads a text of digits back, independently of how they are computed. *)
Definition digit_value (c : Z) : option Z :=
  if (chr "0" <=? c) && (c <=? chr "9") then Some (c - chr "0")
  else if (chr "a" <=? c) && (c <=? chr "f") then Some (c - chr "a" + 10)
  else if (chr "A" <=? c) && (c <=? chr "F") then Some (c - chr "A" + 10)
  else None.

Definition read_digit (base : Z) (acc : option Z) (c : Z) : option Z :=
  a ← acc; d ← digit_value c; if d <? base then Some (a * base + d) else None.
Definition read_number (base : Z) (text : list Z) : option Z :=
  match text with [] => None | _ => foldl (read_digit base) (Some 0) text end.
Definition read_signed (text : list Z) : option Z :=
  match text with
  | c :: ds => if c =? chr "-" then Z.opp <$> read_number 10 ds else read_number 10 text
  | [] => None
  end.

Definition dec_char (d : Z) : Z := u8 (chr "0" + d).
Definition hex_char (hex_digits : list Z) (d : Z) : Z := default 0 (hex_digits !! Z.to_nat d).

Definition render_signed (v : Z) : option (list Z) :=
  if v =? INT32_MIN then None
  else if v <? 0 then Some (chr "-" :: (dec_char <$> numeral 10 (- v)))
  else Some (dec_char <$> numeral 10 v).

Fixpoint until_nul (s : list Z) : list Z :=
  match s with [] => [] | c :: s => if c =? 0 then [] else u8 c :: until_nul s end.

Definition unsupported_tag : list Z := bytes_of_string "[Unsupported Tag]".

(** What a supported conversion prints for its argument. *)
Definition render_conv (c : Z) (ap : list va_arg) : option (option (list Z * list va_arg)) :=
  if (c =? chr "d") || (c =? chr "i") then Some (
    match ap with VaInt z :: ap => ds ← render_signed (i32 z); Some (ds, ap) | _ => None end)
  else if c =? chr "u" then Some (
    match ap with VaInt z :: ap => Some (dec_char <$> numeral 10 (u32 z), ap) | _ => None end)
  else if c =? chr "x" then Some (
    match ap with
    | VaInt z :: ap => Some (hex_char hex_digits_lo <$> numeral 16 (u32 z), ap) | _ => None end)
  else if c =? chr "X" then Some (
    match ap with
    | VaInt z :: ap => Some (hex_char hex_digits_up <$> numeral 16 (u32 z), ap) | _ => None end)
  else if c =? chr "p" then Some (
    match ap with
    | VaInt z :: ap =>
        Some (bytes_of_string "0x" ++ (hex_char hex_digits_lo <$> numeral 16 (u32 z)), ap)
    | _ => None end)
  else if c =? chr "s" then Some (
    match ap with VaStr s :: ap => Some (until_nul s, ap) | _ => None end)
  else if c =? chr "c" then Some (
    match ap with VaInt z :: ap => Some ([u8 z], ap) | _ => None end)
  else if c =? chr "%" then Some (Some ([chr "%"], ap))
  else None.

(** The text a format and its arguments stand for; [None] when an argument
    is missing, has the wrong type or is [INT32_MIN] under [%d]. *)
Fixpoint render (fmt : list Z) (ap : list va_arg) : option (list Z) :=
  match fmt with
  | [] => Some []
  | c :: fmt =>
      if c =? 0 then Some []
      else if c =? chr "%" then
        match fmt with
        | k :: fmt' =>
            match render_conv k ap with
            | Some r => '(ds, ap') ← r; app ds <$> render fmt' ap'
            | None => app unsupported_tag <$> render fmt ap
            end
        | [] => Some unsupported_tag
        end
      else cons (u8 c) <$> render fmt ap
  end.

(** ** Numerals *)

Lemma digits_lsb_range fuel base n :
  0 < base -> Forall (fun d => 0 <= d < base) (digits_lsb fuel base n).
Proof.
  intros Hb. revert n. induction fuel as [|fuel IH]; intros n; simpl; constructor.
  - by apply Z.mod_pos_bound.
  - by case_Z.
Qed.

Lemma numeral_value_snoc base ds d :
  numeral_value base (ds ++ [d]) = numeral_value base ds * base + d.
Proof. unfold numeral_value. by rewrite foldl_app. Qed.

Lemma digits_lsb_value fuel base n :
  2 <= base -> 0 <= n < base ^ Z.of_nat fuel ->
  numeral_value base (reverse (digits_lsb fuel base n)) = n.
Proof.
  intros Hb. revert n. induction fuel as [|fuel IH]; intros n Hn; simpl.
  { rewrite Z.pow_0_r in Hn. change (0 = n). lia. }
  rewrite reverse_cons, numeral_value_snoc.
  pose proof (Z.div_mod n base ltac:(lia)) as Hdm.
  case_Z; [change (numeral_value base (reverse [])) with 0; nia|].
  rewrite IH; [lia|]. split; [apply Z.div_pos; lia|].
  apply Z.div_lt_upper_bound; [lia|].
  rewrite Nat2Z.inj_succ, Z.pow_succ_r in Hn by lia. lia.
Qed.

Lemma digits_lsb_length fuel base n j :
  2 <= base -> 0 <= n < base ^ Z.of_nat j -> (1 <= j)%nat ->
  (length (digits_lsb fuel base n) <= j)%nat.
Proof.
  intros Hb. revert n j. induction fuel as [|fuel IH]; intros n j Hn Hj; simpl; [lia|].
  case_Z; [simpl; lia|]. destruct j as [|j]; [lia|].
  rewrite Nat2Z.inj_succ, Z.pow_succ_r in Hn by lia.
  assert (0 <= n / base < base ^ Z.of_nat j) as Hn'.
  { split; [apply Z.div_pos; lia | apply Z.div_lt_upper_bound; lia]. }
  destruct j as [|j]; [simpl in Hn'; lia|]. specialize (IH _ (S j) Hn'). lia.
Qed.

Lemma digits_lsb_nonempty fuel base n : (0 < fuel)%nat -> digits_lsb fuel base n <> [].
Proof. destruct fuel; [lia | done]. Qed.

(** The last digit computed is not zero, unless it is the only one. *)
Lemma digits_lsb_last fuel base n d :
  2 <= base -> 0 <= n < base ^ Z.of_nat fuel ->
  last (digits_lsb fuel base n) = Some d -> d = 0 -> n = 0.
Proof.
  intros Hb. revert n. induction fuel as [|fuel IH]; intros n Hn; simpl; [done|].
  pose proof (Z.div_mod n base ltac:(lia)) as Hdm.
  case_Z; [intros [= <-]; nia|].
  rewrite Nat2Z.inj_succ, Z.pow_succ_r in Hn by lia.
  assert (0 <= n / base < base ^ Z.of_nat fuel) as Hn'.
  { split; [apply Z.div_pos; lia | apply Z.div_lt_upper_bound; lia]. }
  destruct (digits_lsb fuel base (n / base)) as [|d' ds] eqn:Hds.
  { destruct fuel; [simpl in Hn'; lia | done]. }
  intros Hlast Hd. change (last (n mod base :: d' :: ds)) with (last (d' :: ds)) in Hlast.
  rewrite <- Hds in Hlast. by specialize (IH _ Hn' Hlast Hd).
Qed.

Lemma pow_10_12 n : 0 <= n < 2 ^ 32 -> 0 <= n < 10 ^ Z.of_nat NUM_BUFF_SIZE.
Proof. unfold NUM_BUFF_SIZE. change (10 ^ Z.of_nat 12) with 1000000000000. lia. Qed.

Lemma pow_16_12 n : 0 <= n < 2 ^ 32 -> 0 <= n < 16 ^ Z.of_nat NUM_BUFF_SIZE.
Proof. unfold NUM_BUFF_SIZE. change (16 ^ Z.of_nat 12) with 281474976710656. lia. Qed.

(** ** The print buffer *)

Section buffer.
  Context {U : Type} {HU : Uart U} {HL : UartLaws U}.
  Implicit Types s : formatted_buffer_t * U.

(** The buffer is full-sized and its write position is inside it. *)
Definition buf_inv s : Prop := length (buf s.1) = PRINT_BUFF_SIZE /\ (pos s.1 < PRINT_BUFF_SIZE)%nat.

(** Everything output so far: on the port, then pending in the buffer. *)
Definition printed s : list Z := uart_trace s.2 ++ take (pos s.1) (buf s.1).

(** [s'] is [s] after [bs] has been printed. *)
Definition emits s (bs : list Z) s' : Prop :=
  buf_inv s' /\ printed s' = printed s ++ bs /\
  pos s'.1 = ((pos s.1 + length bs) mod PRINT_BUFF_SIZE)%nat.

Lemma emits_nil s : buf_inv s -> emits s [] s.
Proof.
  intros [Hl Hp]. unfold emits. rewrite app_nil_r, Nat.add_0_r.
  by rewrite Nat.mod_small.
Qed.

Lemma emits_app s1 bs1 s2 bs2 s3 :
  emits s1 bs1 s2 -> emits s2 bs2 s3 -> emits s1 (bs1 ++ bs2) s3.
Proof.
  intros (_ & Hp1 & Hq1) (Hi & Hp2 & Hq2). split_and!; [done| |].
  - by rewrite Hp2, Hp1, app_assoc.
  - rewrite Hq2, Hq1, length_app. rewrite Nat.Div0.add_mod_idemp_l. f_equal. lia.
Qed.

Lemma flush_emits s d :
  buf_inv s -> exists s', _tfm_flush_formatted_buffer s d = Some s' /\ emits s [u8 d] s'.
Proof.
  destruct s as [[p b] u]. unfold buf_inv, PRINT_BUFF_SIZE. simpl. intros [Hl Hp].
  assert (length (<[p := u8 d]> b) = 32%nat) as Hl' by (by rewrite length_insert).
  assert (take (S p) (<[p := u8 d]> b) = take p b ++ [u8 d]) as Htake.
  { rewrite (take_S_r _ _ (u8 d)) by (apply list_lookup_insert_eq; lia).
    by rewrite take_insert_ge by lia. }
  rewrite decide_True by lia.
  unfold emits, buf_inv, printed, PRINT_BUFF_SIZE. case_decide as Hfull.
  - eexists. split; [done|]. simpl. assert (p = 31)%nat as -> by lia.
    rewrite uart_output, app_nil_r, Htake, app_assoc. split_and!; try done; lia.
  - eexists. split; [done|]. simpl fst. simpl snd. simpl pos. simpl buf.
    rewrite Htake, app_assoc. simpl length. split_and!; try done; [lia|].
    rewrite Nat.mod_small; lia.
Qed.

(** Compositional form used on every output loop. *)
Definition outputs (r : option (Z * (formatted_buffer_t * U))) s bs : Prop :=
  exists s', r = Some (Z.of_nat (length bs), s') /\ emits s bs s'.

Lemma outputs_intro n s bs s' :
  n = Z.of_nat (length bs) -> emits s bs s' -> outputs (Some (n, s')) s bs.
Proof. intros -> He. by exists s'. Qed.

Lemma string_outputs str s :
  buf_inv s -> outputs (_tfm_string_output s str) s (until_nul str).
Proof.
  revert s. induction str as [|c str IH]; intros s Hs; simpl.
  - exists s. split; [done | by apply emits_nil].
  - case_Z; [exists s; split; [done | by apply emits_nil]|].
    destruct (flush_emits s c Hs) as (s1 & -> & He1). simpl.
    destruct (IH s1 ltac:(by destruct He1)) as (s2 & -> & He2). simpl.
    apply outputs_intro; [simpl; lia | by apply (emits_app s [_] s1)].
Qed.

Lemma while_digits_outputs nb k s :
  buf_inv s -> (k <= length nb)%nat -> Forall (fun d => u8 d = d) nb ->
  outputs (while_digits s nb k) s (reverse (take k nb)).
Proof.
  revert s. induction k as [|k IH]; intros s Hs Hk Hnb; simpl.
  - exists s. split; [done | by apply emits_nil].
  - destruct (lookup_lt_is_Some_2 nb k) as [d Hd]; [lia|]. rewrite Hd. simpl.
    destruct (flush_emits s d Hs) as (s1 & -> & He1). simpl.
    destruct (IH s1 ltac:(by destruct He1) ltac:(lia) Hnb) as (s2 & -> & He2). simpl.
    rewrite (take_S_r _ _ _ Hd), reverse_snoc.
    rewrite Forall_lookup in Hnb. rewrite (Hnb _ _ Hd) in He1.
    apply outputs_intro; [simpl; lia | by apply (emits_app s [_] s1)].
Qed.

(** The digit loop stays inside [num_buff] and leaves the digits in its first
    cells. *)
Lemma do_digits_spec base digit j fuel nb k n :
  2 <= base -> 0 <= n < base ^ Z.of_nat j -> (1 <= j <= fuel)%nat -> (k + j <= length nb)%nat ->
  exists nb', do_digits base digit fuel nb k n =
      Some (nb', (k + length (digits_lsb j base n))%nat) /\
    take (k + length (digits_lsb j base n)) nb' = take k nb ++ (digit <$> digits_lsb j base n) /\
    length nb' = length nb /\
    (forall P : Z -> Prop, Forall P nb -> Forall P (digit <$> digits_lsb j base n) -> Forall P nb').
Proof.
  intros Hb. revert j nb k n. induction fuel as [|fuel IH]; intros j nb k n Hn Hj Hk; [lia|].
  destruct j as [|j]; [lia|]. simpl. rewrite decide_True by lia.
  set (nb1 := <[k := digit (n mod base)]> nb).
  assert (take (S k) nb1 = take k nb ++ [digit (n mod base)]) as Htake.
  { unfold nb1. rewrite (take_S_r _ _ (digit (n mod base))) by (apply list_lookup_insert_eq; lia).
    by rewrite take_insert_ge by lia. }
  assert (length nb1 = length nb) as Hlen by apply length_insert.
  case_Z.
  - exists nb1. rewrite Nat.add_1_r. split_and!; [done..|].
    intros P Hnb Hds. apply Forall_insert; [done|]. by apply Forall_cons in Hds as [? _].
  - rewrite Nat2Z.inj_succ, Z.pow_succ_r in Hn by lia.
    assert (0 <= n / base < base ^ Z.of_nat j) as Hn'.
    { split; [apply Z.div_pos; lia | apply Z.div_lt_upper_bound; lia]. }
    destruct j as [|j]; [simpl in Hn'; lia|].
    destruct (IH (S j) nb1 (S k) (n / base) Hn' ltac:(lia) ltac:(lia))
      as (nb' & -> & Ht & Hl & HP).
    exists nb'. rewrite <- Nat.add_succ_comm. split_and!; [done| | congruence |].
    + rewrite Ht, Htake, <- app_assoc. done.
    + intros P Hnb Hds. apply Forall_cons in Hds as [Hd Hds]. apply HP; [|done].
      by apply Forall_insert.
Qed.

Lemma number_outputs base digit n s :
  buf_inv s -> 2 <= base -> 0 <= n < base ^ Z.of_nat NUM_BUFF_SIZE ->
  (forall d, u8 (digit d) = digit d) ->
  exists nb k, do_digits base digit num_fuel (replicate NUM_BUFF_SIZE 0) 0 n = Some (nb, k) /\
    outputs (while_digits s nb k) s (digit <$> numeral base n).
Proof.
  intros Hs Hb Hn Hd.
  destruct (do_digits_spec base digit NUM_BUFF_SIZE num_fuel (replicate NUM_BUFF_SIZE 0) 0 n)
    as (nb & Hdo & Htake & Hlen & HP); [done..|unfold num_fuel, NUM_BUFF_SIZE; lia|by rewrite length_replicate|].
  rewrite Nat.add_0_l in Hdo, Htake. rewrite take_0, app_nil_l in Htake.
  exists nb. eexists. split; [exact Hdo|].
  unfold numeral. rewrite fmap_reverse, <- Htake.
  apply while_digits_outputs; [done| |].
  - rewrite Hlen, length_replicate.
    by apply digits_lsb_length; [..|unfold NUM_BUFF_SIZE; lia].
  - apply HP; [by apply Forall_replicate|].
    apply Forall_fmap, Forall_true. intros d. apply Hd.
Qed.
End buffer.

(** ** Conversions *)

Lemma u8_idem z : u8 (u8 z) = u8 z.
Proof. unfold wrapu. by rewrite Z.mod_mod. Qed.

Lemma u8_hex_digit hd d :
  Forall (fun c => u8 c = c) hd -> u8 (hex_char hd d) = hex_char hd d.
Proof.
  intros Hhd. unfold hex_char. destruct (hd !! Z.to_nat d) eqn:Hc; [|done].
  simpl. rewrite Forall_lookup in Hhd. eauto.
Qed.

Lemma hex_digits_bytes :
  Forall (fun c => u8 c = c) hex_digits_lo /\ Forall (fun c => u8 c = c) hex_digits_up.
Proof. split; repeat constructor. Qed.

Lemma i32_range z : - 2 ^ 31 <= i32 z < 2 ^ 31.
Proof.
  unfold wraps. pose proof (Z.mod_pos_bound z (2 ^ 32)) as Hm. simpl.
  case_Z; lia.
Qed.

Lemma u32_i32 z : u32 (i32 z) = u32 z.
Proof.
  unfold wraps, wrapu. case_Z; [by rewrite Z.mod_mod|].
  rewrite Zminus_mod, Z_mod_same_full, Z.sub_0_r, !Z.mod_mod by lia. done.
Qed.

Lemma u8_i32 z : u8 (i32 z) = u8 z.
Proof.
  unfold wraps, wrapu. change (2 ^ 32) with (2 ^ 8 * 2 ^ 24).
  assert ((z mod (2 ^ 8 * 2 ^ 24)) mod 2 ^ 8 = z mod 2 ^ 8) as Hm.
  { rewrite Z.rem_mul_r by lia. rewrite Z.mul_comm, Z_mod_plus_full. by rewrite Z.mod_mod. }
  case_Z; [done|]. rewrite <- Hm. rewrite (Z.mul_comm (2 ^ 8)).
  by rewrite <- Z.add_opp_r, <- Z.mul_opp_l, Z_mod_plus_full.
Qed.

Section conversions.
  Context {U : Type} {HU : Uart U} {HL : UartLaws U}.
  Implicit Types s : formatted_buffer_t * U.

Lemma dec_unsigned_outputs s z sign :
  buf_inv s -> (sign =? chr "d") && (z <? 0) = false ->
  outputs (_tfm_dec_num_output s z sign) s (dec_char <$> numeral 10 (u32 z)).
Proof.
  intros Hs Hsign. unfold _tfm_dec_num_output. rewrite Hsign.
  destruct (number_outputs 10 dec_char (u32 z) s) as (nb & k & Hdo & s' & Hw & He);
    [done | lia | apply pow_10_12, wrapu_range; lia | intros d; apply u8_idem |].
  unfold dec_char in Hdo. rewrite Hdo. simpl. rewrite Hw. simpl.
  by apply outputs_intro.
Qed.

Lemma dec_signed_outputs s z bs :
  buf_inv s -> INT32_MIN <= z <= INT32_MAX -> render_signed z = Some bs ->
  outputs (_tfm_dec_num_output s z (chr "d")) s bs.
Proof.
  unfold render_signed, INT32_MIN, INT32_MAX. intros Hs Hz.
  destruct (Z.eqb_spec z (- 2 ^ 31)) as [|Hmin]; [done|].
  destruct (Z.ltb_spec z 0) as [Hneg|Hpos]; intros [= <-].
  - unfold _tfm_dec_num_output, INT32_MIN.
    rewrite Z.eqb_refl, (proj2 (Z.ltb_lt z 0) Hneg). simpl andb. cbv iota.
    destruct (flush_emits s (chr "-") Hs) as (s1 & -> & He1). cbv zeta. bind_step.
    rewrite (proj2 (Z.eqb_neq z _) Hmin). rewrite wrapu_small by lia.
    destruct (number_outputs 10 dec_char (- z) s1) as (nb & k & Hdo & s' & Hw & He);
      [by destruct He1 | lia | apply pow_10_12; lia | intros d; apply u8_idem |].
    unfold dec_char in Hdo. rewrite Hdo. simpl. rewrite Hw. simpl.
    apply outputs_intro; [simpl; lia | by apply (emits_app s [_] s1)].
  - rewrite <- (wrapu_small 32 z) at 2 by lia.
    apply dec_unsigned_outputs; [done|].
    rewrite (proj2 (Z.ltb_ge z 0) Hpos). apply andb_false_r.
Qed.

Lemma hex_outputs s z hd :
  buf_inv s -> Forall (fun c => u8 c = c) hd ->
  outputs (_tfm_hex_num_output s (u32 z) hd) s (hex_char hd <$> numeral 16 (u32 z)).
Proof.
  intros Hs Hhd. unfold _tfm_hex_num_output.
  destruct (number_outputs 16 (hex_char hd) (u32 z) s) as (nb & k & Hdo & s' & Hw & He);
    [done | lia | apply pow_16_12, wrapu_range; lia | intros d; by apply u8_hex_digit |].
  unfold hex_char in Hdo. rewrite Hdo. simpl. rewrite Hw. by exists s'.
Qed.

(** A conversion that has a rendering prints it and consumes the same
    arguments; one that is unsupported is so on both sides. *)
Lemma convert_outputs c s ap :
  buf_inv s ->
  match render_conv c ap with
  | None => convert c s ap = None
  | Some r => forall bs ap', r = Some (bs, ap') ->
      exists s', convert c s ap = Some (Some (Z.of_nat (length bs), s', ap')) /\ emits s bs s'
  end.
Proof.
  intros Hs. unfold render_conv, convert.
  destruct ((c =? chr "d") || (c =? chr "i")); [|destruct (c =? chr "u"); [|
    destruct (c =? chr "x"); [|destruct (c =? chr "X"); [|destruct (c =? chr "p"); [|
    destruct (c =? chr "s"); [|destruct (c =? chr "c"); [|destruct (c =? chr "%"); [|done]]]]]]]];
    intros bs ap' Hr; try (destruct ap as [|[z|str] ap]; simplify_eq; []);
    cbv [va_int32 va_uint32 va_str]; repeat bind_step.
  - apply bind_Some in Hr as (ds & Hds & [= <- <-]).
    destruct (dec_signed_outputs s (i32 z) ds Hs) as (s' & -> & He); [|eauto..].
    pose proof (i32_range z). unfold INT32_MIN, INT32_MAX. lia.
  - destruct (dec_unsigned_outputs s (i32 z) (chr "u") Hs eq_refl) as (s' & -> & He).
    rewrite u32_i32 in *. eauto.
  - destruct (hex_outputs s z hex_digits_lo Hs) as (s' & -> & He);
      [apply hex_digits_bytes | eauto].
  - destruct (hex_outputs s z hex_digits_up Hs) as (s' & -> & He);
      [apply hex_digits_bytes | eauto].
  - destruct (string_outputs (bytes_of_string "0x") s Hs) as (s1 & -> & He1).
    repeat bind_step.
    destruct (hex_outputs s1 z hex_digits_lo) as (s' & -> & He);
      [by destruct He1 | apply hex_digits_bytes|]. bind_step. exists s'. split.
    + by rewrite <- Nat2Z.inj_add, <- length_app.
    + by apply (emits_app s (until_nul (bytes_of_string "0x")) s1).
  - destruct (string_outputs str s Hs) as (s' & -> & He). eauto.
  - destruct (flush_emits s (u8 (i32 z)) Hs) as (s' & -> & He). bind_step.
    exists s'. split; [done|]. by rewrite u8_idem, u8_i32 in He.
  - destruct (flush_emits s (chr "%") Hs) as (s' & -> & He). bind_step.
    injection Hr as <- <-. eauto.
Qed.
End conversions.

(** ** Properties *)

Section properties.
  Context {U : Type} {HU : Uart U} {HL : UartLaws U}.
  Implicit Types (s : formatted_buffer_t * U) (u : U).

Lemma format_loop_outputs fuel fmt s ap out :
  buf_inv s -> (length fmt < fuel)%nat -> render fmt ap = Some out ->
  outputs (format_loop fuel fmt s ap) s out.
Proof.
  revert fmt s ap out. induction fuel as [|fuel IH]; intros fmt s ap out Hs Hf Hr; [lia|].
  destruct fmt as [|c fmt]; cbn [format_loop render length] in *.
  { simplify_eq. apply outputs_intro; [done | by apply emits_nil]. }
  destruct (c =? 0). { simplify_eq. apply outputs_intro; [done | by apply emits_nil]. }
  destruct (c =? chr "%").
  - pose proof (convert_outputs (default 0 (head fmt)) s ap Hs) as Hconv.
    destruct fmt as [|k fmt]; cbn [head default tail] in *.
    { injection Hr as <-. change (convert 0 s ap) with (None : option (option (Z * (formatted_buffer_t * U) * list va_arg))).
      cbv iota.
      destruct (string_outputs unsupported_tag s Hs) as (s1 & Hs1 & He1).
      unfold unsupported_tag in Hs1. rewrite Hs1. bind_step.
      destruct (IH [] s1 ap [] ltac:(by destruct He1) ltac:(simpl in *; lia) eq_refl)
        as (s2 & -> & He2). bind_step.
      apply outputs_intro; [done|]. rewrite <- (app_nil_r unsupported_tag).
      by apply (emits_app s unsupported_tag s1). }
    cbn [id] in *. destruct (render_conv k ap) as [r|].
    + apply bind_Some in Hr as ([ds ap'] & -> & (out' & Hr & ->)%fmap_Some).
      destruct (Hconv ds ap' eq_refl) as (s1 & -> & He1). bind_step.
      destruct (IH fmt s1 ap' out' ltac:(by destruct He1) ltac:(simpl in *; lia) Hr)
        as (s2 & -> & He2). bind_step.
      apply outputs_intro; [rewrite length_app; lia | by apply (emits_app s ds s1)].
    + rewrite Hconv. apply fmap_Some in Hr as (out' & Hr & ->).
      destruct (string_outputs unsupported_tag s Hs) as (s1 & Hs1 & He1).
      unfold unsupported_tag in Hs1. rewrite Hs1. bind_step.
      destruct (IH (k :: fmt) s1 ap out' ltac:(by destruct He1) ltac:(simpl in *; lia) Hr)
        as (s2 & -> & He2). bind_step.
      apply outputs_intro; [|by apply (emits_app s unsupported_tag s1)].
      rewrite length_app, Nat2Z.inj_add. reflexivity.
  - apply fmap_Some in Hr as (out' & Hr & ->).
    destruct (flush_emits s c Hs) as (s1 & -> & He1). bind_step.
    destruct (IH fmt s1 ap out' ltac:(by destruct He1) ltac:(simpl in *; lia) Hr)
      as (s2 & -> & He2). bind_step.
    apply outputs_intro; [simpl; lia | by apply (emits_app s [_] s1)].
Qed.

Lemma printf_outputs junk fmt ap out u :
  length junk = PRINT_BUFF_SIZE -> render fmt ap = Some out ->
  exists n u', tfm_log_printf junk fmt ap u = Some (n, u') /\
    uart_trace u' = uart_trace u ++ out.
Proof.
  intros Hjunk Hr. unfold tfm_log_printf, _tfm_log_vprintf.
  destruct (format_loop_outputs (S (length fmt)) fmt (mkbuf 0 junk, u) ap out)
    as ([pb u1] & -> & _ & Hp & _); [split; simpl; unfold PRINT_BUFF_SIZE in *; lia | lia | done |].
  bind_step. unfold printed in Hp. simpl in Hp. rewrite take_0, app_nil_r in Hp.
  case_decide as Hz.
  - rewrite Hz, take_0, app_nil_r in Hp. eauto.
  - pose proof (uart_output (take (pos pb) (buf pb)) u1) as Ho.
    destruct (stdio_output_string _ u1) as [n u']. simpl in Ho.
    exists (Z.of_nat (length out) + n), u'. by rewrite Ho.
Qed.

(** C7. Formatting is correct and total: whatever the uninitialised print
    buffer holds and however the text falls on its 32-byte boundary, a call
    whose format and arguments have a rendering terminates without undefined
    behaviour and the port has output exactly that rendering. *)
Theorem tfm_log_printf_output junk fmt ap out u :
  length junk = PRINT_BUFF_SIZE -> render fmt ap = Some out ->
  exists n u', tfm_log_printf junk fmt ap u = Some (n, u') /\
    uart_trace u' = uart_trace u ++ out.
Proof. apply printf_outputs. Qed.

(** The returned count: it is not the number of characters printed but
    that number plus its remainder modulo the buffer size, because the last
    flush adds the characters it outputs a second time. *)
Theorem tfm_log_printf_count junk fmt ap out u :
  length junk = PRINT_BUFF_SIZE -> render fmt ap = Some out ->
  exists u', tfm_log_printf junk fmt ap u =
    Some (Z.of_nat (length out + length out mod PRINT_BUFF_SIZE), u').
Proof.
  intros Hjunk Hr. unfold tfm_log_printf, _tfm_log_vprintf.
  destruct (format_loop_outputs (S (length fmt)) fmt (mkbuf 0 junk, u) ap out)
    as ([pb u1] & -> & [Hl Hlt] & _ & Hq); [split; simpl; unfold PRINT_BUFF_SIZE in *; lia | lia | done |].
  bind_step. simpl pos in Hq, Hlt. rewrite Nat.add_0_l in Hq. rewrite <- Hq.
  case_decide as Hz.
  - rewrite Hz, Nat.add_0_r. eauto.
  - pose proof (uart_count (take (pos pb) (buf pb)) u1) as Hc.
    destruct (stdio_output_string _ u1) as [n u']. simpl in Hc, Hl.
    exists u'. rewrite Hc, length_take. do 2 f_equal. lia.
Qed.
End properties.

(** One [%d] conversion, unfolded. *)
Lemma format_loop_d {U} `{HU : Uart U} fuel fmt (s : formatted_buffer_t * U) ap :
  format_loop (S fuel) (chr "%" :: chr "d" :: fmt) s ap =
  ('(n, s', ap') ← ('(v, ap) ← va_int32 ap;
      '(n, s) ← _tfm_dec_num_output s v (chr "d"); Some (n, s, ap));
   '(m, s'') ← format_loop fuel fmt s' ap'; Some (n + m, s'')).
Proof. reflexivity. Qed.

Lemma render_d fmt z ap :
  render (chr "%" :: chr "d" :: fmt) (VaInt z :: ap) =
  (ds ← render_signed (i32 z); app ds <$> render fmt ap).
Proof.
  cbn [render]. replace (chr "%" =? 0) with false by reflexivity.
  replace (chr "%" =? chr "%") with true by reflexivity. unfold render_conv.
  replace ((chr "d" =? chr "d") || (chr "d" =? chr "i")) with true by reflexivity.
  cbv iota. by destruct (render_signed (i32 z)).
Qed.

Lemma dec_int_min_undefined {U} `{HU : Uart U} (s : formatted_buffer_t * U) :
  _tfm_dec_num_output s INT32_MIN (chr "d") = None.
Proof.
  unfold _tfm_dec_num_output. cbv zeta.
  replace ((chr "d" =? chr "d") && (INT32_MIN <? 0)) with true by reflexivity.
  by destruct (_tfm_flush_formatted_buffer _ _).
Qed.

(** [%d] of [INT32_MIN]: its negation overflows [int32_t]. *)
Lemma printf_d_min {U} `{HU : Uart U, !UartLaws U} junk z (u : U) :
  i32 z = INT32_MIN -> tfm_log_printf junk (bytes_of_string "%d") [VaInt z] u = None.
Proof.
  intros Hz. change (bytes_of_string "%d") with [chr "%"; chr "d"]. unfold tfm_log_printf, _tfm_log_vprintf.
  change (length [chr "%"; chr "d"]) with 2%nat. rewrite format_loop_d.
  unfold va_int32. bind_step. by rewrite Hz, dec_int_min_undefined.
Qed.

(** ** Numbers read back *)

Lemma read_number_fold base (char : Z -> Z) ds a :
  Forall (fun d => d < base /\ digit_value (char d) = Some d) ds ->
  foldl (read_digit base) (Some a) (char <$> ds) = Some (foldl (fun acc d => acc * base + d) a ds).
Proof.
  intros Hds. revert a. induction Hds as [|d ds [Hd Hc] Hds IH]; intros a; [done|]. cbn [fmap list_fmap foldl].
  unfold read_digit at 2. cbn. rewrite Hc. cbn. rewrite (proj2 (Z.ltb_lt d base) Hd). apply IH.
Qed.

Lemma numeral_facts base n j : 2 <= base -> 0 <= n < base ^ Z.of_nat j -> (1 <= j <= NUM_BUFF_SIZE)%nat ->
  numeral_value base (numeral base n) = n /\ (1 <= length (numeral base n) <= j)%nat /\
  Forall (fun d => 0 <= d < base) (numeral base n) /\ (head (numeral base n) = Some 0 -> n = 0).
Proof.
  intros Hb Hn Hj. unfold numeral.
  assert (0 <= n < base ^ Z.of_nat NUM_BUFF_SIZE) as Hn'.
  { split; [lia|]. eapply Z.lt_le_trans; [apply Hn|]. apply Z.pow_le_mono_r; lia. }
  rewrite length_reverse, head_reverse. split_and!.
  - by apply digits_lsb_value.
  - pose proof (digits_lsb_nonempty NUM_BUFF_SIZE base n ltac:(unfold NUM_BUFF_SIZE; lia)).
    destruct (digits_lsb NUM_BUFF_SIZE base n); [done | cbn; lia].
  - by apply digits_lsb_length; [..|lia].
  - apply Forall_reverse, digits_lsb_range. lia.
  - intros H0. by apply (digits_lsb_last NUM_BUFF_SIZE base n 0).
Qed.

(** The text of a numeral: it is read back as the number, by a reader of its
    base, it has a digit at least and [j] at most, and no zero in front. *)
Definition text_of (base n : Z) (j : nat) (text : list Z) : Prop :=
  read_number base text = Some n /\ (1 <= length text <= j)%nat /\ (head text = Some (chr "0") -> n = 0).

Lemma numeral_text base (char : Z -> Z) n j : 2 <= base -> 0 <= n < base ^ Z.of_nat j -> (1 <= j <= NUM_BUFF_SIZE)%nat ->
  (forall d, 0 <= d < base -> digit_value (char d) = Some d) -> text_of base n j (char <$> numeral base n).
Proof.
  intros Hb Hn Hj Hc. destruct (numeral_facts base n j Hb Hn Hj) as (Hv & Hl & Hr & H0).
  unfold text_of. rewrite length_fmap. split_and!; [ | lia | lia |].
  - assert (foldl (read_digit base) (Some 0) (char <$> numeral base n) = Some n) as Hf.
    { rewrite read_number_fold; [exact (f_equal Some Hv)|]. eapply Forall_impl; [exact Hr|].
      intros x [Hx1 Hx2]. split; [lia | by apply Hc]. }
    unfold read_number. by destruct (numeral base n); [cbn in Hl; lia|].
  - destruct (numeral base n) as [|d ds] eqn:E; [done|]. cbn. intros [= Hd]. apply H0. cbn.
    apply Forall_cons in Hr as [Hr _]. pose proof (Hc d Hr) as Hdv. rewrite Hd in Hdv. by injection Hdv as <-.
Qed.

Lemma small_cases (P : Z -> Prop) (n : nat) : (forall k, (k < n)%nat -> P (Z.of_nat k)) -> forall d, 0 <= d < Z.of_nat n -> P d.
Proof. intros H d Hd. rewrite <- (Z2Nat.id d) by lia. apply H. lia. Qed.

Lemma dec_char_value d : 0 <= d < 10 -> digit_value (dec_char d) = Some d.
Proof. apply (small_cases (fun d => digit_value (dec_char d) = Some d) 10). intros k Hk. do 10 (destruct k as [|k]; [reflexivity|]). lia. Qed.
Lemma hex_lo_value d : 0 <= d < 16 -> digit_value (hex_char hex_digits_lo d) = Some d.
Proof. apply (small_cases (fun d => digit_value (hex_char hex_digits_lo d) = Some d) 16). intros k Hk. do 16 (destruct k as [|k]; [reflexivity|]). lia. Qed.
Lemma hex_up_value d : 0 <= d < 16 -> digit_value (hex_char hex_digits_up d) = Some d.
Proof. apply (small_cases (fun d => digit_value (hex_char hex_digits_up d) = Some d) 16). intros k Hk. do 16 (destruct k as [|k]; [reflexivity|]). lia. Qed.

Lemma dec_text n : 0 <= n < 2 ^ 32 -> text_of 10 n 10 (dec_char <$> numeral 10 n).
Proof. intros Hn. apply numeral_text; [lia | lia | unfold NUM_BUFF_SIZE; lia | apply dec_char_value]. Qed.

Lemma render_one k z text : render_conv (chr k) [VaInt z] = Some (Some (text, [])) -> render [chr "%"; chr k] [VaInt z] = Some text.
Proof. intros H. cbn [render]. replace (chr "%" =? 0) with false by done. rewrite Z.eqb_refl, H. cbn. by rewrite app_nil_r. Qed.

Lemma render_signed_reads v : INT32_MIN < v <= INT32_MAX ->
  exists text, render_signed v = Some text /\ read_signed text = Some v /\ (length text <= 11)%nat.
Proof.
  unfold INT32_MIN, INT32_MAX. intros Hv. unfold render_signed. rewrite (proj2 (Z.eqb_neq v INT32_MIN)) by (unfold INT32_MIN; lia).
  destruct (Z.ltb_spec v 0) as [Hneg|Hpos].
  - destruct (dec_text (- v) ltac:(lia)) as (Hr & Hl & _). eexists. split; [done|].
    unfold read_signed. rewrite Z.eqb_refl, Hr. cbn [fmap option_fmap option_map length]. split; [by rewrite Z.opp_involutive | lia].
  - destruct (dec_text v ltac:(lia)) as (Hr & Hl & _). eexists. split; [done|]. split; [|lia].
    unfold read_signed. destruct (dec_char <$> numeral 10 v) as [|c ds] eqn:E; [done|].
    destruct (Z.eqb_spec c (chr "-")) as [->|]; [|done].
    unfold read_number in Hr. cbn [foldl] in Hr. change (read_digit 10 (Some 0) (chr "-")) with (@None Z) in Hr.
    assert (forall l, foldl (read_digit 10) None l = None) as Hn by (by induction l). by rewrite Hn in Hr.
Qed.

(** C40. Numbers are printed so that they read back: [%u], [%x] and [%X] of any
    32-bit word, whatever the print buffer holds, output a text of at most ten
    or eight digits, without a zero in front, whose value in the base is the
    word; [%d] outputs a text that reads back as the signed value, for every
    value but INT32_MIN, on which it is undefined. *)
Theorem printf_numbers_read_back {U} `{HU : Uart U, !UartLaws U} junk z (u : U) :
  length junk = PRINT_BUFF_SIZE ->
  let prints conv (good : list Z -> Prop) := exists n u' text,
    tfm_log_printf junk (bytes_of_string conv) [VaInt z] u = Some (n, u') /\ uart_trace u' = uart_trace u ++ text /\ good text in
  prints "%u" (text_of 10 (u32 z) 10) /\ prints "%x" (text_of 16 (u32 z) 8) /\ prints "%X" (text_of 16 (u32 z) 8) /\
  (if i32 z =? INT32_MIN then tfm_log_printf junk (bytes_of_string "%d") [VaInt z] u = None
   else prints "%d" (fun text => read_signed text = Some (i32 z) /\ (length text <= 11)%nat)).
Proof.
  intros Hjunk prints.
  assert (forall k text (good : list Z -> Prop), render_conv (chr k) [VaInt z] = Some (Some (text, [])) -> good text ->
    exists n u' text', tfm_log_printf junk [chr "%"; chr k] [VaInt z] u = Some (n, u') /\
      uart_trace u' = uart_trace u ++ text' /\ good text') as Hone.
  { intros k text good Hr Hg. destruct (printf_outputs junk _ _ text u Hjunk (render_one k z text Hr)) as (n & u' & Hp & Ht). eauto 6. }
  pose proof (wrapu_range 32 z ltac:(lia)) as Hz. split_and!.
  - apply (Hone "u" _ (text_of 10 (u32 z) 10) eq_refl). by apply dec_text.
  - apply (Hone "x" _ (text_of 16 (u32 z) 8) eq_refl).
    apply numeral_text; [lia | lia | unfold NUM_BUFF_SIZE; lia | apply hex_lo_value].
  - apply (Hone "X" _ (text_of 16 (u32 z) 8) eq_refl).
    apply numeral_text; [lia | lia | unfold NUM_BUFF_SIZE; lia | apply hex_up_value].
  - destruct (Z.eqb_spec (i32 z) INT32_MIN) as [Hm|Hm].
    + by apply printf_d_min.
    + pose proof (i32_range z). destruct (render_signed_reads (i32 z)) as (text & Hs & Hr & Hl); [unfold INT32_MIN, INT32_MAX in *; lia|].
      eapply (Hone "d" text); [|by split]. unfold render_conv.
      replace ((chr "d" =? chr "d") || (chr "d" =? chr "i")) with true by reflexivity. by rewrite Hs.
Qed.

(** ** Witnesses *)

#[local] Instance example_uart : Uart (list Z) :=
  {| stdio_output_string l u := (Z.of_nat (length l), u ++ l); uart_trace u := u |}.
#[local] Instance example_uart_laws : UartLaws (list Z).
Proof. by split. Qed.

Definition example_fmt : list Z :=
  bytes_of_string "Number of failed tests: %d of %u (0x%X) %c%s".
Definition example_args : list va_arg :=
  [VaInt (-3); VaInt 45; VaInt 48879; VaInt 33; VaStr (bytes_of_string "end")].

Lemma tfm_log_printf_output_witness :
  exists n u', tfm_log_printf (replicate 32 170) example_fmt example_args [] = Some (n, u') /\
    u' = bytes_of_string "Number of failed tests: -3 of 45 (0xBEEF) !end".
Proof.
  destruct (tfm_log_printf_output (replicate 32 170) example_fmt example_args
    (bytes_of_string "Number of failed tests: -3 of 45 (0xBEEF) !end") [])
    as (n & u' & H & Hu'); [reflexivity | vm_compute; reflexivity |].
  exists n, u'. split; [exact H | exact Hu'].
Defined.

Lemma tfm_log_printf_count_witness :
  exists u', tfm_log_printf (replicate 32 170) (bytes_of_string "A") [] [] = Some (2, u').
Proof.
  apply (tfm_log_printf_count (replicate 32 170) (bytes_of_string "A") []
    (bytes_of_string "A") []); [reflexivity | vm_compute; reflexivity].
Defined.

Lemma printf_numbers_read_back_witness : exists n u' text,
  tfm_log_printf (replicate 32 170) (bytes_of_string "%u") [VaInt (-1)] [] = Some (n, u') /\
  u' = text /\ text_of 10 4294967295 10 text.
Proof.
  destruct (printf_numbers_read_back (replicate 32 170) (-1) [] eq_refl) as [H _]. exact H.
Defined.


