(* ===== verification/TestFramework.v ===== *)
(** * The test framework: tests_reg/test/framework

    [test_result_t], [test_t], [test_suite_t] and the runner of
    test_framework.c: registration, execution of a suite, execution of the
    list of suites, and the log they write (test_framework_helpers.c). *)

From S2P Require Import Prelude LogRaw.
Local Open Scope Z_scope.

(** ** Data *)

Inductive test_suite_err_t :=
  | TEST_SUITE_ERR_NO_ERROR
  | TEST_SUITE_ERR_INVALID_DATA
  | TEST_SUITE_ERR_INVALID_TEST_DATA
  | TEST_SUITE_ERR_TEST_FAILED.

Inductive test_status_t := TEST_PASSED | TEST_FAILED | TEST_SKIPPED.

#[export] Instance test_status_eq_dec : EqDecision test_status_t.
Proof. solve_decision. Defined.
#[export] Instance test_suite_err_eq_dec : EqDecision test_suite_err_t.
Proof. solve_decision. Defined.

Record test_result_t := mkResult {
  val : test_status_t;
  info_msg : option string;
  filename : option string;
  line : Z;
}.

(** [struct test_result_t ret = {0}] *)
Definition zero_result : test_result_t := mkResult TEST_PASSED None None 0.

Definition set_val (v : test_status_t) (r : test_result_t) : test_result_t :=
  mkResult v (info_msg r) (filename r) (line r).

(** A call of [TEST_LOG]: the format and its arguments, rendered by the
    functions of [LogRaw]. *)
Definition log_event : Type := string * list va_arg.

Definition crlf : string := String (Ascii.ascii_of_nat 13) (String (Ascii.ascii_of_nat 10) "").

Definition arg_str (s : string) : va_arg := VaStr (bytes_of_string s).

Inductive serial_color_t :=
  | DEFAULT | BLACK | RED | GREEN | YELLOW | BLUE | MAGENTA | CYAN | WHITE.

Definition color_value (c : serial_color_t) : Z :=
  match c with
  | DEFAULT => 0 | BLACK => 30 | RED => 31 | GREEN => 32 | YELLOW => 33
  | BLUE => 34 | MAGENTA => 35 | CYAN => 36 | WHITE => 37
  end.

(** [set_test_failed] with a non-null result, as [TEST_FAIL] calls it. *)
Definition fail_result (msg file : string) (ln : Z) : test_result_t :=
  mkResult TEST_FAILED (Some msg) (Some file) ln.

Definition test_err_to_str (err : test_suite_err_t) : string :=
  match err with
  | TEST_SUITE_ERR_NO_ERROR => "TEST_SUITE_ERR_NO_ERROR"
  | TEST_SUITE_ERR_INVALID_DATA => "TEST_SUITE_ERR_INVALID_DATA"
  | TEST_SUITE_ERR_INVALID_TEST_DATA => "TEST_SUITE_ERR_INVALID_TEST_DATA"
  | TEST_SUITE_ERR_TEST_FAILED => "TEST_SUITE_ERR_TEST_FAILED"
  end.

Section framework.
  (** The world the tests run in (the services under test). *)
  Context {W : Type}.

(** A test reads and writes the result and the world and logs; [None] is
    undefined behaviour of the test. *)
Definition TEST_FUN : Type :=
  test_result_t -> W -> option (test_result_t * W * list log_event).

Record test_t := mkTest {
  test : option TEST_FUN;
  name : option string;
  desc : option string;
}.

(** The fields of [struct test_suite_t] a registration function sets, and the
    suite with its (constant) registration function. *)
Record suite_fields := mkFields {
  test_list : list test_t;
  list_size : Z;
  suite_name : option string;
  suite_val : test_status_t;
}.

Definition TESTSUITE_REG : Type := suite_fields -> W -> option (suite_fields * W).

Record test_suite_t := mkSuite { freg : option TESTSUITE_REG; fields : suite_fields }.

Definition set_suite_val (v : test_status_t) (ts : test_suite_t) : test_suite_t :=
  mkSuite (freg ts)
    (mkFields (test_list (fields ts)) (list_size (fields ts)) (suite_name (fields ts)) v).

(** ** Operations *)

Abbreviation T := (M (W * list log_event)).

Definition TEST_LOG (fmt : string) (args : list va_arg) : T unit :=
  modify (fun '(w, l) => (w, l ++ [(fmt, args)])).

Definition printf_set_color (color_id : serial_color_t) : T unit :=
  TEST_LOG (String (Ascii.ascii_of_nat 27) "[%dm") [VaInt (color_value color_id)].

Definition test_failed (ret : test_result_t) (nm : string) : T unit :=
  printf_set_color RED;;
  match info_msg ret with
  | Some msg =>
      TEST_LOG "  %s" [arg_str msg];;
      match filename ret with
      | Some file => TEST_LOG (" (Failed at %s:%d)" +:+ crlf) [arg_str file; VaInt (line ret)]
      | None => mret tt
      end
  | None =>
      match filename ret with
      | Some file => TEST_LOG ("  Failed at %s:%d" +:+ crlf) [arg_str file; VaInt (line ret)]
      | None => mret tt
      end
  end;;
  TEST_LOG ("  TEST: %s - FAILED!" +:+ crlf) [arg_str nm].

Definition print_error (err_msg : string) : T unit :=
  printf_set_color RED;; TEST_LOG ("Error ( %s )" +:+ crlf) [arg_str err_msg].

Definition set_testsuite (nm : string) (tests : list test_t) (size : Z)
    (p_ts : option suite_fields) : T (test_suite_err_t * option suite_fields) :=
  match p_ts with
  | None => print_error "TEST_SUITE_ERR_INVALID_DATA!";; mret (TEST_SUITE_ERR_INVALID_DATA, None)
  | Some ts =>
      mret (TEST_SUITE_ERR_NO_ERROR, Some (mkFields tests size (Some nm) (suite_val ts)))
  end.

Definition set_test_failed (msg file : string) (ln : Z) (ret : option test_result_t) :
    T (option test_result_t) :=
  match ret with
  | None => print_error "TEST_SUITE_ERR_INVALID_TEST_DATA!";; mret None
  | Some _ => mret (Some (fail_result msg file ln))
  end.

(** Calls the test and appends what it logged. *)
Definition call_test (f : TEST_FUN) (ret : test_result_t) : T test_result_t :=
  fun '(w, l) => match f ret w with
                 | Some (ret', w', l') => Some (ret', (w', l ++ l'))
                 | None => None
                 end.

Definition call_freg (f : TESTSUITE_REG) (fs : suite_fields) : T suite_fields :=
  fun '(w, l) => match f fs w with
                 | Some (fs', w') => Some (fs', (w', l))
                 | None => None
                 end.

(** The loop of [run_testsuite]: [n] iterations left, [p_test] the rest of
    the array (reading past it is undefined).  [inl] is the early return. *)
Fixpoint test_loop (n : nat) (p_test : list test_t) (ret : test_result_t)
    (failed_tests skipped_tests : Z) : T (test_suite_err_t + Z * Z) :=
  match n, p_test with
  | O, _ => mret (inr (failed_tests, skipped_tests))
  | S _, [] => undefined
  | S n, t :: p_test =>
      match test t, name t with
      | Some f, Some nm =>
          printf_set_color DEFAULT;;
          description ← deref (desc t);
          TEST_LOG ("> Executing '%s' " +:+ crlf +:+ "  Description: '%s'" +:+ crlf)
            [arg_str nm; arg_str description];;
          ret ← call_test f (set_val TEST_PASSED ret);
          match val ret with
          | TEST_FAILED =>
              test_failed ret nm;;
              test_loop n p_test ret (u32 (failed_tests + 1)) skipped_tests
          | TEST_SKIPPED =>
              printf_set_color DEFAULT;;
              TEST_LOG ("  TEST: %s - SKIPPED!" +:+ crlf) [arg_str nm];;
              test_loop n p_test ret failed_tests (u32 (skipped_tests + 1))
          | TEST_PASSED =>
              printf_set_color GREEN;;
              TEST_LOG ("  TEST: %s - PASSED!" +:+ crlf) [arg_str nm];;
              test_loop n p_test ret failed_tests skipped_tests
          end
      | _, _ =>
          print_error "TEST_SUITE_ERR_INVALID_TEST_DATA!";;
          mret (inl TEST_SUITE_ERR_INVALID_TEST_DATA)
      end
  end.

Definition run_testsuite (test_suite : option test_suite_t) :
    T (test_suite_err_t * option test_suite_t) :=
  match test_suite with
  | Some (mkSuite (Some reg) fs) =>
      fs ← call_freg reg fs;
      let ts := mkSuite (Some reg) fs in
      match suite_name fs with
      | Some nm =>
          if list_size fs =? 0 then
            print_error "TEST_SUITE_ERR_INVALID_DATA!";;
            mret (TEST_SUITE_ERR_INVALID_DATA, Some ts)
          else
            printf_set_color YELLOW;;
            TEST_LOG ("Running Test Suite %s..." +:+ crlf) [arg_str nm];;
            r ← test_loop (Z.to_nat (list_size fs)) (test_list fs) zero_result 0 0;
            match r with
            | inl err => mret (err, Some ts)
            | inr (failed_tests, skipped_tests) =>
                (if failed_tests =? 0 then mret tt else
                   printf_set_color DEFAULT;;
                   TEST_LOG ("Number of failed tests: %d of %d" +:+ crlf)
                     [VaInt failed_tests; VaInt (list_size fs)]);;
                (if skipped_tests =? 0 then mret tt else
                   printf_set_color DEFAULT;;
                   TEST_LOG ("Number of skipped tests: %d of %d" +:+ crlf)
                     [VaInt skipped_tests; VaInt (list_size fs)]);;
                (if failed_tests =? 0 then
                   printf_set_color GREEN;; TEST_LOG ("TESTSUITE PASSED!" +:+ crlf) []
                 else
                   printf_set_color RED;; TEST_LOG ("TESTSUITE FAILED!" +:+ crlf) []);;
                let v := if failed_tests =? 0 then TEST_PASSED else TEST_FAILED in
                mret (TEST_SUITE_ERR_NO_ERROR, Some (set_suite_val v ts))
            end
      | None =>
          print_error "TEST_SUITE_ERR_INVALID_DATA!";;
          mret (TEST_SUITE_ERR_INVALID_DATA, Some ts)
      end
  | ts => print_error "TEST_SUITE_ERR_INVALID_DATA!";; mret (TEST_SUITE_ERR_INVALID_DATA, ts)
  end.

(** First loop of [run_test]: executes the suites up to the sentinel whose
    [freg] is NULL (running off the array is undefined); [false] is the
    early return. *)
Fixpoint run_suites (test_suites : list test_suite_t) :
    T (test_suite_err_t * bool * list test_suite_t) :=
  match test_suites with
  | [] => undefined
  | ts :: rest =>
      match freg ts with
      | None => mret (TEST_SUITE_ERR_NO_ERROR, true, test_suites)
      | Some _ =>
          '(retval, ts') ← run_testsuite (Some ts);
          ts' ← deref ts';
          match retval with
          | TEST_SUITE_ERR_NO_ERROR =>
              '(retval, go, rest') ← run_suites rest;
              mret (retval, go, ts' :: rest')
          | _ => mret (retval, false, ts' :: rest)
          end
      end
  end.

(** Second loop: the summary. *)
Fixpoint summary (test_suites : list test_suite_t) (retval : test_suite_err_t) :
    T test_suite_err_t :=
  match test_suites with
  | [] => undefined
  | ts :: rest =>
      match freg ts with
      | None => mret retval
      | Some _ =>
          printf_set_color DEFAULT;;
          nm ← deref (suite_name (fields ts));
          TEST_LOG "Test suite '%s' has" [arg_str nm];;
          match suite_val (fields ts) with
          | TEST_PASSED =>
              printf_set_color GREEN;; TEST_LOG (" PASSED" +:+ crlf) [];; summary rest retval
          | _ =>
              printf_set_color RED;; TEST_LOG (" FAILED" +:+ crlf) [];;
              summary rest TEST_SUITE_ERR_TEST_FAILED
          end
      end
  end.

Definition run_test (suite_type : string) (test_suites : list test_suite_t) :
    T (test_suite_err_t * list test_suite_t) :=
  printf_set_color YELLOW;;
  TEST_LOG (crlf +:+ "#### Execute test suites for the %s area ####" +:+ crlf)
    [arg_str suite_type];;
  '(retval, go, test_suites) ← run_suites test_suites;
  if negb go then mret (retval, test_suites)
  else
    printf_set_color YELLOW;;
    TEST_LOG (crlf +:+ "*** %s test suites summary ***" +:+ crlf) [arg_str suite_type];;
    retval ← summary test_suites retval;
    printf_set_color YELLOW;;
    TEST_LOG (crlf +:+ "*** End of %s test suites ***" +:+ crlf) [arg_str suite_type];;
    printf_set_color DEFAULT;;
    mret (retval, test_suites).
End framework.

Arguments test_t : clear implicits.
Arguments suite_fields : clear implicits.
Arguments test_suite_t : clear implicits.
Arguments TEST_FUN : clear implicits.
Arguments TESTSUITE_REG : clear implicits.

(** ** Reference semantics of a suite *)

Section reference.
  Context {W : Type}.

(** Runs the tests in order, the result structure and the world threaded
    through; returns the statuses. *)
Fixpoint exec_tests (tests : list (test_t W)) (ret : test_result_t) (w : W) :
    option (list test_status_t * test_result_t * W) :=
  match tests with
  | [] => Some ([], ret, w)
  | t :: tests =>
      f ← test t;
      '(ret, w, _) ← f (set_val TEST_PASSED ret) w;
      '(vs, ret', w') ← exec_tests tests ret w;
      Some (val ret :: vs, ret', w')
  end.

(** The entry of a test array the runner accepts. *)
Definition test_valid (t : test_t W) : Prop :=
  is_Some (test t) /\ is_Some (name t) /\ is_Some (desc t).

Definition verdict (vs : list test_status_t) : test_status_t :=
  if decide (TEST_FAILED ∈ vs) then TEST_FAILED else TEST_PASSED.

Definition count_status (v : test_status_t) (vs : list test_status_t) : Z :=
  Z.of_nat (length (filter (fun x => x = v) vs)).

(** A suite as registered: a name and an array of [list_size] valid tests. *)
Record registers (reg : TESTSUITE_REG W) (fs fs' : suite_fields W) (w w' : W) : Prop := {
  reg_call : reg fs w = Some (fs', w');
  reg_name : is_Some (suite_name fs');
  reg_size : 0 < list_size fs' < 2 ^ 32;
  reg_list : list_size fs' <= Z.of_nat (length (test_list fs'));
  reg_tests : Forall test_valid (take (Z.to_nat (list_size fs')) (test_list fs'));
}.
End reference.

(** ** Lemmas on logging *)

Section logging.
  Context {W : Type}.
  Implicit Types (w : W) (l : list log_event).

(** [quiet m]: [m] only appends to the log. *)
Definition quiet (m : M (W * list log_event) unit) : Prop :=
  forall w l, exists l', m (w, l) = Some (tt, (w, l ++ l')).

Lemma quiet_ret : quiet (mret tt).
Proof. intros w l. exists []. by rewrite app_nil_r. Qed.

Lemma quiet_log fmt args : quiet (TEST_LOG fmt args).
Proof. intros w l. by exists [(fmt, args)]. Qed.

Lemma quiet_color c : quiet (printf_set_color c).
Proof. apply quiet_log. Qed.

Lemma quiet_then (m1 m2 : M (W * list log_event) unit) :
  quiet m1 -> quiet m2 -> quiet (m1;; m2).
Proof.
  intros H1 H2 w l. destruct (H1 w l) as [l1 E1]. destruct (H2 w (l ++ l1)) as [l2 E2].
  exists (l1 ++ l2). rewrite (M_bind_Some _ _ _ _ _ E1), E2. by rewrite app_assoc.
Qed.

Lemma quiet_if (b : bool) (m1 m2 : M (W * list log_event) unit) :
  quiet m1 -> quiet m2 -> quiet (if b then m1 else m2).
Proof. by destruct b. Qed.

Lemma quiet_test_failed ret nm : quiet (test_failed ret nm).
Proof.
  unfold test_failed. apply quiet_then; [apply quiet_color|].
  destruct (info_msg ret), (filename ret);
    repeat (apply quiet_then || apply quiet_log || apply quiet_ret).
Qed.

(** A quiet prefix disappears from a statement about the final log. *)
Lemma quiet_step {B} m (k : M (W * list log_event) B) w l :
  quiet m -> exists l', (m;; k) (w, l) = k (w, l ++ l').
Proof.
  intros H. destruct (H w l) as [l' E]. exists l'. by rewrite (M_bind_Some _ _ _ _ _ E).
Qed.

Lemma call_test_Some {B} (f : TEST_FUN W) ret (k : test_result_t -> M _ B) w l ret' w' l' :
  f ret w = Some (ret', w', l') ->
  (call_test f ret ≫= k) (w, l) = k ret' (w', l ++ l').
Proof. intros H. apply M_bind_Some. unfold call_test. by rewrite H. Qed.
End logging.

Lemma TEST_LOG_then {W B} fmt args (k : M (W * list log_event) B) w l :
  (TEST_LOG fmt args;; k) (w, l) = k (w, l ++ [(fmt, args)]).
Proof. done. Qed.

Lemma color_then {W B} c (k : M (W * list log_event) B) w l :
  (printf_set_color c;; k) (w, l) = k (w, l ++ [(String (Ascii.ascii_of_nat 27) "[%dm", [VaInt (color_value c)])]).
Proof. done. Qed.

#[export] Hint Resolve quiet_ret quiet_log quiet_color quiet_then quiet_if
  quiet_test_failed : tfm.

(** Steps over a statement that only logs. *)
Ltac log_step :=
  match goal with
  | |- context [(?m ≫= (fun _ => ?k)) (?w, ?l)] =>
      let l' := fresh "l" in let E := fresh "E" in
      destruct (quiet_step m k w l) as [l' E];
      [solve [auto 8 with tfm] | rewrite E; clear E]
  end.

(** ** The suite runner implements the reference semantics *)

Section runner.
  Context {W : Type}.
  Implicit Types (w : W) (l : list log_event) (tests : list (test_t W)).

Lemma count_status_cons v x vs :
  count_status v (x :: vs) = (if decide (x = v) then 1 else 0) + count_status v vs.
Proof.
  unfold count_status. rewrite filter_cons. case_decide; [|lia].
  rewrite length_cons. lia.
Qed.

Lemma count_status_range v vs : 0 <= count_status v vs <= Z.of_nat (length vs).
Proof.
  unfold count_status. pose proof (length_filter (fun x => x = v) vs). lia.
Qed.

Lemma count_failed_0 vs : count_status TEST_FAILED vs = 0 <-> TEST_FAILED ∉ vs.
Proof.
  induction vs as [|v vs IH]; [by split; [intros _; apply not_elem_of_nil|]|].
  rewrite count_status_cons, not_elem_of_cons.
  pose proof (count_status_range TEST_FAILED vs). case_decide; [naive_solver lia|].
  rewrite Z.add_0_l, IH. naive_solver.
Qed.

Lemma exec_tests_length tests ret w vs ret' w' :
  exec_tests tests ret w = Some (vs, ret', w') -> length vs = length tests.
Proof.
  revert ret w vs. induction tests as [|t tests IH]; intros ret w vs; simpl.
  - by intros [= <- _ _].
  - intros (f & _ & ([[r1 w1] l1] & _ & ([[vs1 r2] w2] & Hex & [= <- -> ->])%bind_Some)%bind_Some)%bind_Some.
    simpl. f_equal. by eapply IH.
Qed.

Lemma test_loop_exec n tests ret failed skipped w l vs ret' w' :
  Forall test_valid (take n tests) -> (n <= length tests)%nat ->
  exec_tests (take n tests) ret w = Some (vs, ret', w') ->
  0 <= failed -> failed + Z.of_nat n < 2 ^ 32 ->
  0 <= skipped -> skipped + Z.of_nat n < 2 ^ 32 ->
  exists l', test_loop n tests ret failed skipped (w, l) =
    Some (inr (failed + count_status TEST_FAILED vs, skipped + count_status TEST_SKIPPED vs),
          (w', l')).
Proof.
  revert tests ret failed skipped w l vs.
  induction n as [|n IH]; intros tests ret failed skipped w l vs Hval Hlen Hex Hf Hf' Hs Hs'.
  { injection Hex as <- <- <-. exists l. cbn. by rewrite !Z.add_0_r. }
  destruct tests as [|t tests]; [simpl in Hlen; lia|]. simpl in Hlen, Hex.
  apply Forall_cons in Hval as ((Ht & [nm Hnm] & [ds Hds]) & Hval).
  apply bind_Some in Hex as (f & Hft & Hex).
  apply bind_Some in Hex as ([[ret1 w1] l1] & Hrun & Hex).
  apply bind_Some in Hex as ([[vs1 r2] w2] & Hex & [= <- -> ->]).
  cbn [test_loop]. rewrite Hft, Hnm, Hds. log_step.
  change (deref (Some ds)) with (@mret (M (W * list log_event)) _ _ ds).
  rewrite M_bind_ret. log_step.
  rewrite (call_test_Some _ _ _ _ _ _ _ _ Hrun). rewrite !count_status_cons.
  pose proof (wrapu_small 32 (failed + 1) ltac:(lia)) as Ef.
  pose proof (wrapu_small 32 (skipped + 1) ltac:(lia)) as Es.
  destruct (val ret1); repeat log_step; rewrite ?Ef, ?Es;
    (edestruct (IH tests ret1) as [l' ->]; [done | lia | exact Hex | lia..|]);
    exists l'; do 4 f_equal; simpl; lia.
Qed.
End runner.

(** ** Running the list of suites *)

Section run.
  Context {W : Type}.
  Implicit Types (w : W) (l : list log_event).

Lemma verdict_failed_count vs :
  verdict vs = if count_status TEST_FAILED vs =? 0 then TEST_PASSED else TEST_FAILED.
Proof.
  unfold verdict. pose proof (count_failed_0 vs) as H.
  case_decide as Hin; destruct (Z.eqb_spec (count_status TEST_FAILED vs) 0); naive_solver.
Qed.

(** Reference: registers and executes the suites in order; the result is the
    verdict of each. *)
Fixpoint exec_suites (suites : list (test_suite_t W)) (w : W) :
    option (list test_status_t * W) :=
  match suites with
  | [] => Some ([], w)
  | ts :: suites =>
      reg ← freg ts;
      '(fs, w) ← reg (fields ts) w;
      '(vs, _, w) ← exec_tests (take (Z.to_nat (list_size fs)) (test_list fs)) zero_result w;
      '(rs, w) ← exec_suites suites w;
      Some (verdict vs :: rs, w)
  end.

(** Every suite registers correctly in the world it is reached in. *)
Fixpoint suites_ok (suites : list (test_suite_t W)) (w : W) : Prop :=
  match suites with
  | [] => True
  | ts :: suites =>
      exists reg fs w1 vs ret w2, freg ts = Some reg /\ registers reg (fields ts) fs w w1 /\
        exec_tests (take (Z.to_nat (list_size fs)) (test_list fs)) zero_result w1 =
          Some (vs, ret, w2) /\ suites_ok suites w2
  end.

Definition sentinel : test_suite_t W := mkSuite None (mkFields [] 0 None TEST_PASSED).

Lemma run_testsuite_exec reg fs fs' w w1 vs ret w2 l :
  registers reg fs fs' w w1 ->
  exec_tests (take (Z.to_nat (list_size fs')) (test_list fs')) zero_result w1 =
    Some (vs, ret, w2) ->
  exists l', run_testsuite (Some (mkSuite (Some reg) fs)) (w, l) =
    Some ((TEST_SUITE_ERR_NO_ERROR,
           Some (set_suite_val (verdict vs) (mkSuite (Some reg) fs'))), (w2, l')).
Proof.
  intros [Hreg [nm Hnm] Hsz Hlen Htests] Hex. unfold run_testsuite.
  erewrite M_bind_Some by (unfold call_freg; by rewrite Hreg).
  cbv zeta. rewrite Hnm. destruct (Z.eqb_spec (list_size fs') 0); [lia|].
  repeat log_step.
  edestruct (test_loop_exec (Z.to_nat (list_size fs')) (test_list fs') zero_result 0 0 w1)
    as [l' Hloop]; [done | lia | exact Hex | lia..|].
  erewrite M_bind_Some by exact Hloop. rewrite !Z.add_0_l, verdict_failed_count.
  repeat log_step. by eexists.
Qed.

Lemma exec_suites_cons ts suites w rs w' :
  exec_suites (ts :: suites) w = Some (rs, w') ->
  exists reg fs w1 vs ret w2 rs', freg ts = Some reg /\ reg (fields ts) w = Some (fs, w1) /\
    exec_tests (take (Z.to_nat (list_size fs)) (test_list fs)) zero_result w1 =
      Some (vs, ret, w2) /\
    exec_suites suites w2 = Some (rs', w') /\ rs = verdict vs :: rs'.
Proof.
  simpl. intros (reg & Hreg & ([fs w1] & Hf & ([[vs ret] w2] & He & ([rs' w3] & Hs & [= <- ->])
    %bind_Some)%bind_Some)%bind_Some)%bind_Some.
  naive_solver.
Qed.

(** The suites after the run: the registered fields and the verdicts. *)
Definition ran (suites suites' : list (test_suite_t W)) (rs : list test_status_t) : Prop :=
  exists done_suites, suites' = done_suites ++ [sentinel] /\
    Forall2 (fun ts v => is_Some (freg ts) /\ is_Some (suite_name (fields ts)) /\
                         suite_val (fields ts) = v) done_suites rs.

Lemma run_suites_exec suites w l rs w' :
  suites_ok suites w -> exec_suites suites w = Some (rs, w') ->
  exists suites' l', run_suites (suites ++ [sentinel]) (w, l) =
    Some ((TEST_SUITE_ERR_NO_ERROR, true, suites'), (w', l')) /\ ran suites suites' rs.
Proof.
  revert w l rs. induction suites as [|ts suites IH]; intros w l rs Hok Hex.
  { injection Hex as <- <-. exists [sentinel], l. split; [done|].
    exists []. by split. }
  destruct Hok as (reg & fs & w1 & vs & ret & w2 & Hfreg & Hregs & Hvs & Hok).
  apply exec_suites_cons in Hex as
    (reg' & fs' & w1' & vs' & ret' & w2' & rs' & Hfreg' & Hreg' & Hvs' & Hex & ->).
  rewrite Hfreg in Hfreg'. injection Hfreg' as <-.
  rewrite (reg_call _ _ _ _ _ Hregs) in Hreg'. injection Hreg' as <- <-.
  rewrite Hvs in Hvs'. injection Hvs' as <- <- <-.
  destruct ts as [fr fl]. simpl in Hfreg. subst fr.
  destruct (run_testsuite_exec reg fl fs w w1 vs ret w2 l Hregs Hvs) as [l1 Hrun].
  destruct (IH w2 l1 rs' Hok Hex) as (suites' & l2 & Hrest & done_suites & -> & Hdone).
  simpl app. cbn [run_suites freg]. rewrite (M_bind_Some _ _ _ _ _ Hrun). cbv beta iota.
  set (ts' := set_suite_val (verdict vs) (mkSuite (Some reg) fs)).
  rewrite (M_bind_Some (deref (Some ts')) _ _ ts' (w2, l1) eq_refl). cbv iota.
  rewrite (M_bind_Some _ _ _ _ _ Hrest).
  exists (ts' :: done_suites ++ [sentinel]), l2. split; [done|].
  exists (ts' :: done_suites). split; [done|]. constructor; [|done].
  split_and!; [done | exact (reg_name _ _ _ _ _ Hregs) | done].
Qed.

Lemma summary_exec done_suites rs retval w l :
  Forall2 (fun ts v => is_Some (freg ts) /\ is_Some (suite_name (fields ts)) /\
                       suite_val (fields ts) = v) done_suites rs ->
  exists l', summary (done_suites ++ [sentinel]) retval (w, l) =
    Some (if decide (Forall (eq TEST_PASSED) rs) then retval
          else TEST_SUITE_ERR_TEST_FAILED, (w, l')).
Proof.
  intros H. revert retval l.
  induction H as [|ts v done_suites rs ([reg Hreg] & [nm Hnm] & Hv) H IH];
    intros retval l.
  { exists l. by rewrite decide_True. }
  simpl app. cbn [summary]. rewrite Hreg, Hnm. log_step.
  change (deref (Some nm)) with (@mret (M (W * list log_event)) _ _ nm).
  rewrite M_bind_ret. log_step. rewrite Hv. destruct v; repeat log_step.
  - destruct (IH retval ((((l ++ l0) ++ l1) ++ l2) ++ l3)) as [l' ->]. exists l'.
    do 2 f_equal. destruct (decide (Forall _ rs)), (decide (Forall _ (_ :: rs))) as [Hf|Hf];
      rewrite ?Forall_cons in *; naive_solver.
  - edestruct (IH TEST_SUITE_ERR_TEST_FAILED) as [l' ->]. exists l'.
    rewrite (decide_False (P := Forall _ (_ :: rs))) by (rewrite Forall_cons; naive_solver).
    by destruct (decide (Forall _ rs)).
  - edestruct (IH TEST_SUITE_ERR_TEST_FAILED) as [l' ->]. exists l'.
    rewrite (decide_False (P := Forall _ (_ :: rs))) by (rewrite Forall_cons; naive_solver).
    by destruct (decide (Forall _ rs)).
Qed.
End run.

(** ** Properties *)

Section properties.
  Context {W : Type}.
  Implicit Types (w : W) (l : list log_event).

Lemma run_test_exec area suites w l rs w' :
  suites_ok suites w -> exec_suites suites w = Some (rs, w') ->
  exists suites' l', run_test area (suites ++ [sentinel]) (w, l) =
    Some ((if decide (Forall (eq TEST_PASSED) rs) then TEST_SUITE_ERR_NO_ERROR
           else TEST_SUITE_ERR_TEST_FAILED, suites'), (w', l')) /\ ran suites suites' rs.
Proof.
  intros Hok Hex. unfold run_test. repeat log_step.
  edestruct (run_suites_exec suites w) as (suites' & lr & Hrun & Hran); [done..|].
  erewrite M_bind_Some by exact Hrun. cbv beta iota. cbn [negb].
  repeat log_step. destruct Hran as (ds & -> & Hds).
  edestruct (summary_exec ds rs TEST_SUITE_ERR_NO_ERROR w') as [ls Hsum]; [done|].
  erewrite M_bind_Some by exact Hsum. repeat log_step.
  do 2 eexists. split; [done|]. by exists ds.
Qed.

(** C26. Suite verdict: a registered suite of valid tests runs its first
    [list_size] tests in order, each exactly once, in the world the previous
    one left, and ends with [TEST_SUITE_ERR_NO_ERROR]; it is marked
    [TEST_FAILED] exactly when one of its tests ended with [TEST_FAILED]
    (skipped tests do not count), whatever the 32-bit counters do. *)
Theorem run_testsuite_verdict reg fs fs' w w1 vs ret w2 l :
  registers reg fs fs' w w1 ->
  exec_tests (take (Z.to_nat (list_size fs')) (test_list fs')) zero_result w1 =
    Some (vs, ret, w2) ->
  exists ts' l', run_testsuite (Some (mkSuite (Some reg) fs)) (w, l) =
      Some ((TEST_SUITE_ERR_NO_ERROR, Some ts'), (w2, l')) /\
    (suite_val (fields ts') = TEST_FAILED <-> TEST_FAILED ∈ vs) /\
    (suite_val (fields ts') = TEST_PASSED <-> TEST_FAILED ∉ vs) /\
    length vs = Z.to_nat (list_size fs').
Proof.
  intros Hreg Hex. destruct (run_testsuite_exec reg fs fs' w w1 vs ret w2 l Hreg Hex)
    as [l' ->]. do 2 eexists. split; [done|]. simpl. unfold verdict.
  rewrite (exec_tests_length _ _ _ _ _ _ Hex), length_take.
  pose proof (reg_list _ _ _ _ _ Hreg).
  split_and!; [case_decide; naive_solver..|lia].
Qed.

(** C1. Result of the whole run: over a table of suites that register
    correctly, terminated by the NULL entry, [run_test] executes every suite in
    order and returns [TEST_SUITE_ERR_NO_ERROR] if every suite passed and
    [TEST_SUITE_ERR_TEST_FAILED] otherwise. *)
Theorem run_test_result area suites w l rs w' :
  suites_ok suites w -> exec_suites suites w = Some (rs, w') ->
  exists suites' l', run_test area (suites ++ [sentinel]) (w, l) =
    Some ((if decide (Forall (eq TEST_PASSED) rs) then TEST_SUITE_ERR_NO_ERROR
           else TEST_SUITE_ERR_TEST_FAILED, suites'), (w', l')) /\ ran suites suites' rs.
Proof. apply run_test_exec. Qed.

Lemma test_loop_invalid good bad rest n ret failed skipped w l vs ret' w' :
  Forall test_valid good -> (length good < n)%nat ->
  test bad = None \/ name bad = None ->
  exec_tests good ret w = Some (vs, ret', w') ->
  exists l', test_loop n (good ++ bad :: rest) ret failed skipped (w, l) =
    Some (inl TEST_SUITE_ERR_INVALID_TEST_DATA, (w', l')).
Proof.
  revert n ret failed skipped w l vs.
  induction good as [|t good IH]; intros n ret failed skipped w l vs Hval Hlen Hbad Hex;
    (destruct n as [|n]; [simpl in Hlen; lia|]); simpl app; cbn [test_loop].
  - injection Hex as <- <- <-. unfold print_error.
    destruct (test bad) as [f|], (name bad) as [nm|]; try (by destruct Hbad);
      (log_step; by eexists).
  - apply Forall_cons in Hval as ((Ht & [nm Hnm] & [ds Hds]) & Hval).
    apply bind_Some in Hex as (f & Hft & Hex).
    apply bind_Some in Hex as ([[ret1 w1] l1] & Hrun & Hex).
    apply bind_Some in Hex as ([[vs1 r2] w2] & Hex & [= <- -> ->]).
    rewrite Hft, Hnm, Hds. log_step.
    change (deref (Some ds)) with (@mret (M (W * list log_event)) _ _ ds).
    rewrite M_bind_ret. log_step.
    rewrite (call_test_Some _ _ _ _ _ _ _ _ Hrun). simpl in Hlen.
    destruct (val ret1); repeat log_step; (eapply IH; [done | lia | done | exact Hex]).
Qed.

(** Error paths of the suite runner: a NULL suite or registration function,
    or a registration that leaves no name or no tests, is
    [TEST_SUITE_ERR_INVALID_DATA] with no test run; at an entry with a NULL
    test function or name the runner stops with
    [TEST_SUITE_ERR_INVALID_TEST_DATA] after exactly the tests before it, and
    leaves the suite's verdict unset. *)
Theorem run_testsuite_errors reg fs fs' w w1 l :
  reg fs w = Some (fs', w1) ->
  (exists l', run_testsuite (None : option (test_suite_t W)) (w, l) =
     Some ((TEST_SUITE_ERR_INVALID_DATA, None), (w, l'))) /\
  (exists l', run_testsuite (Some (mkSuite None fs)) (w, l) =
     Some ((TEST_SUITE_ERR_INVALID_DATA, Some (mkSuite None fs)), (w, l'))) /\
  (suite_name fs' = None \/ list_size fs' = 0 ->
   exists l', run_testsuite (Some (mkSuite (Some reg) fs)) (w, l) =
     Some ((TEST_SUITE_ERR_INVALID_DATA, Some (mkSuite (Some reg) fs')), (w1, l'))) /\
  (forall good bad rest vs ret w2,
     test_list fs' = good ++ bad :: rest -> Forall test_valid good ->
     Z.of_nat (length good) < list_size fs' -> is_Some (suite_name fs') ->
     test bad = None \/ name bad = None ->
     exec_tests good zero_result w1 = Some (vs, ret, w2) ->
     exists l', run_testsuite (Some (mkSuite (Some reg) fs)) (w, l) =
       Some ((TEST_SUITE_ERR_INVALID_TEST_DATA, Some (mkSuite (Some reg) fs')), (w2, l'))).
Proof.
  intros Hreg.
  assert (call_freg reg fs (w, l) = Some (fs', (w1, l))) as Hcall
    by (unfold call_freg; by rewrite Hreg).
  unfold run_testsuite, print_error. split_and!.
  - log_step. by eexists.
  - log_step. by eexists.
  - intros Hinv. rewrite (M_bind_Some _ _ _ _ _ Hcall). cbv zeta.
    destruct (suite_name fs'); [|log_step; by eexists].
    destruct Hinv as [|Hz]; [done|]. rewrite Hz. simpl. log_step. by eexists.
  - intros good bad rest vs ret w2 Hlist Hval Hlen [nm Hnm] Hbad Hex.
    rewrite (M_bind_Some _ _ _ _ _ Hcall). cbv zeta. rewrite Hnm, Hlist.
    destruct (Z.eqb_spec (list_size fs') 0); [lia|]. repeat log_step.
    edestruct (test_loop_invalid good bad rest (Z.to_nat (list_size fs')))
      as [l' Hloop]; [done | lia | done | exact Hex |].
    erewrite M_bind_Some by exact Hloop. by eexists.
Qed.

(** An error ends the whole run: [run_test] returns the error of the first
    suite that reports one, and no later suite is registered or run (the
    world is the one that suite left). *)
Theorem run_test_stops_on_error area suites ts rest w l rs w' err ts' w2 :
  suites_ok suites w -> exec_suites suites w = Some (rs, w') ->
  is_Some (freg ts) -> err <> TEST_SUITE_ERR_NO_ERROR ->
  (forall l, exists l', run_testsuite (Some ts) (w', l) = Some ((err, Some ts'), (w2, l'))) ->
  exists suites' l', run_test area (suites ++ ts :: rest) (w, l) =
    Some ((err, suites'), (w2, l')).
Proof.
  intros Hok Hex [reg Hreg] Herr Hts. unfold run_test. repeat log_step.
  assert (forall l0, exists suites' l', run_suites (suites ++ ts :: rest) (w, l0) =
    Some ((err, false, suites'), (w2, l'))) as Hrun.
  { clear -Hok Hex Hreg Herr Hts. revert w rs Hok Hex.
    induction suites as [|ts0 suites IH]; intros w rs Hok Hex l0.
    - injection Hex as <- <-. destruct (Hts l0) as [l' Hrun]. simpl app. cbn [run_suites].
      rewrite Hreg, (M_bind_Some _ _ _ _ _ Hrun). destruct err; [done|..]; by do 2 eexists.
    - destruct Hok as (reg0 & fs & w1 & vs & ret & w3 & Hfreg & Hregs & Hvs & Hok).
      apply exec_suites_cons in Hex as
        (reg' & fs' & w1' & vs' & ret' & w3' & rs' & Hfreg' & Hreg' & Hvs' & Hex & ->).
      rewrite Hfreg in Hfreg'. injection Hfreg' as <-.
      rewrite (reg_call _ _ _ _ _ Hregs) in Hreg'. injection Hreg' as <- <-.
      rewrite Hvs in Hvs'. injection Hvs' as <- <- <-.
      destruct ts0 as [fr fl]. simpl in Hfreg. subst fr.
      destruct (run_testsuite_exec reg0 fl fs w w1 vs ret w3 l0 Hregs Hvs) as [l3 Hrun].
      destruct (IH w3 rs' Hok Hex l3) as (suites' & l4 & Hrest).
      simpl app. cbn [run_suites freg]. rewrite (M_bind_Some _ _ _ _ _ Hrun). cbv beta iota.
      erewrite (M_bind_Some (deref (Some _))) by reflexivity. cbv iota.
      rewrite (M_bind_Some _ _ _ _ _ Hrest). by do 2 eexists. }
  edestruct Hrun as (suites' & l' & Hr). erewrite M_bind_Some by exact Hr.
  by do 2 eexists.
Qed.
End properties.

(** Only [ret.val] is reset before a test, so the other fields survive. *)
Definition silent_failure {W} : TEST_FUN W := fun ret w => Some (set_val TEST_FAILED ret, w, []).
Definition reported_failure {W} (msg file : string) (ln : Z) : TEST_FUN W :=
  fun ret w => Some (fail_result msg file ln, w, []).

Lemma snoc3 {A} (l : list A) a b c : ((l ++ [a]) ++ [b]) ++ [c] = l ++ [a; b; c].
Proof. by rewrite <- !app_assoc. Qed.

(** Stale diagnostics: when a test fails by storing [TEST_FAILED] in
    [ret->val] without a message, after an earlier test of the suite failed with one,
    the runner reports the second failure with the message, file and line of
    the first. *)
Theorem stale_failure_message {W} n1 n2 d1 d2 msg file ln (w : W) l :
  exists pre, test_loop 2
      [mkTest (Some (reported_failure msg file ln)) (Some n1) (Some d1);
       mkTest (Some silent_failure) (Some n2) (Some d2)] zero_result 0 0 (w, l) =
    Some (inr (2, 0), (w, pre ++
      [("  %s", [arg_str msg]);
       (" (Failed at %s:%d)" +:+ crlf, [arg_str file; VaInt ln]);
       ("  TEST: %s - FAILED!" +:+ crlf, [arg_str n2])])).
Proof.
  cbn [test_loop test name desc deref]. unfold test_failed.
  repeat first
    [ rewrite M_bind_ret | rewrite M_bind_assoc | rewrite TEST_LOG_then | rewrite color_then
    | erewrite call_test_Some by reflexivity
    | progress cbn [val info_msg filename fail_result set_val reported_failure line] ].
  eexists. unfold mret, M_ret. rewrite snoc3. reflexivity.
Qed.

(** ** Witnesses *)

(** A suite of three tests over a counter: the second fails, the third is
    skipped. *)
Definition example_tests : list (test_t nat) :=
  [mkTest (Some (fun r w => Some (set_val TEST_PASSED r, S w, []))) (Some "T1") (Some "counts");
   mkTest (Some (fun r w => Some (fail_result "bad" "t.c" 7, S w, [("note", [])])))
     (Some "T2") (Some "fails");
   mkTest (Some (fun r w => Some (set_val TEST_SKIPPED r, S w, []))) (Some "T3") (Some "skips")].

Definition example_reg (n : Z) (tests : list (test_t nat)) : TESTSUITE_REG nat :=
  fun fs w => Some (mkFields tests n (Some "Suite") (suite_val fs), w).

Definition example_fields : suite_fields nat := mkFields [] 0 None TEST_PASSED.

Lemma example_registers n tests w :
  0 < n < 2 ^ 32 -> n <= Z.of_nat (length tests) ->
  Forall test_valid (take (Z.to_nat n) tests) ->
  registers (example_reg n tests) example_fields
    (mkFields tests n (Some "Suite") TEST_PASSED) w w.
Proof. intros Hn Hl Ht. split; [done | simpl; eauto..]. Qed.

Lemma example_tests_valid n : Forall test_valid (take n example_tests).
Proof. apply Forall_take. repeat constructor; by eexists. Qed.

Lemma run_testsuite_verdict_witness :
  exists ts' l', run_testsuite (Some (mkSuite (Some (example_reg 3 example_tests)) example_fields))
      (0%nat, []) = Some ((TEST_SUITE_ERR_NO_ERROR, Some ts'), (3%nat, l')) /\
    suite_val (fields ts') = TEST_FAILED.
Proof.
  destruct (run_testsuite_verdict (example_reg 3 example_tests) example_fields
    (mkFields example_tests 3 (Some "Suite") TEST_PASSED) 0%nat 0%nat
    [TEST_PASSED; TEST_FAILED; TEST_SKIPPED]
    (mkResult TEST_SKIPPED (Some "bad") (Some "t.c") 7) 3%nat [])
    as (ts' & l' & Hrun & Hfail & _).
  - apply example_registers; [done | done | apply example_tests_valid].
  - reflexivity.
  - exists ts', l'. split; [exact Hrun|]. apply Hfail. vm_compute. right. left.
Defined.

Definition example_suites : list (test_suite_t nat) :=
  [mkSuite (Some (example_reg 1 example_tests)) example_fields;
   mkSuite (Some (example_reg 3 example_tests)) example_fields].

Lemma example_suites_ok : suites_ok example_suites 0%nat.
Proof.
  exists (example_reg 1 example_tests), (mkFields example_tests 1 (Some "Suite") TEST_PASSED),
    0%nat, [TEST_PASSED], zero_result, 1%nat. split_and!; [done | | done |].
  { apply example_registers; [done | by compute | apply example_tests_valid]. }
  exists (example_reg 3 example_tests), (mkFields example_tests 3 (Some "Suite") TEST_PASSED),
    1%nat, [TEST_PASSED; TEST_FAILED; TEST_SKIPPED],
    (mkResult TEST_SKIPPED (Some "bad") (Some "t.c") 7), 4%nat.
  split_and!; [done | | done | done].
  apply example_registers; [done | by compute | apply example_tests_valid].
Defined.

Lemma run_test_result_witness :
  exists suites' l', run_test "Non-secure" (example_suites ++ [sentinel]) (0%nat, []) =
    Some ((TEST_SUITE_ERR_TEST_FAILED, suites'), (4%nat, l')).
Proof.
  destruct (run_test_result "Non-secure" example_suites 0%nat [] [TEST_PASSED; TEST_FAILED] 4%nat)
    as (suites' & l' & H & _); [apply example_suites_ok | reflexivity |].
  exists suites', l'. exact H.
Defined.

Definition bad_tests : list (test_t nat) := take 1 example_tests ++ [mkTest None None None].

Lemma run_testsuite_errors_witness :
  exists l', run_testsuite (Some (mkSuite (Some (example_reg 2 bad_tests)) example_fields))
      (0%nat, []) =
    Some ((TEST_SUITE_ERR_INVALID_TEST_DATA,
           Some (mkSuite (Some (example_reg 2 bad_tests))
                  (mkFields bad_tests 2 (Some "Suite") TEST_PASSED))), (1%nat, l')).
Proof.
  destruct (run_testsuite_errors (example_reg 2 bad_tests) example_fields
    (mkFields bad_tests 2 (Some "Suite") TEST_PASSED) 0%nat 0%nat [] eq_refl)
    as (_ & _ & _ & H).
  apply (H (take 1 example_tests) (mkTest None None None) [] [TEST_PASSED] zero_result 1%nat);
    [done | apply example_tests_valid | done | by eexists | by left | reflexivity].
Defined.

Lemma run_test_stops_on_error_witness :
  exists suites' l',
    run_test "Non-secure"
      (example_suites ++ mkSuite (Some (example_reg 0 [])) example_fields :: example_suites)
      (0%nat, []) = Some ((TEST_SUITE_ERR_INVALID_DATA, suites'), (4%nat, l')).
Proof.
  apply (run_test_stops_on_error "Non-secure" example_suites
    (mkSuite (Some (example_reg 0 [])) example_fields) example_suites 0%nat []
    [TEST_PASSED; TEST_FAILED] 4%nat TEST_SUITE_ERR_INVALID_DATA
    (mkSuite (Some (example_reg 0 [])) (mkFields [] 0 (Some "Suite") TEST_PASSED)) 4%nat);
    [apply example_suites_ok | reflexivity | by eexists | done |].
  intros l. unfold run_testsuite, print_error. cbn [fields freg]. eexists. vm_compute. reflexivity.
Defined.
