(* ===== verification/TestProg.v ===== *)
(** * Test programs

    The C functions of type [TEST_FUN] as programs: statements that may end
    the function ([return]), undefined behaviour, the result structure
    [*ret], the world of the services under test and the log.  [as_test]
    turns a program into a test of the framework; [wp] is its weakest
    precondition for the executions that reach their end. *)

From S2P Require Import Prelude LogRaw TestFramework.
Local Open Scope Z_scope.

(** ** Programs *)

(** [Returned]: the C function has returned. *)
Inductive flow (A : Type) := Continue (a : A) | Returned.
Arguments Continue {A} _.
Arguments Returned {A}.

Record tstate (W : Type) := mkT {
  t_ret : test_result_t;
  t_world : W;
  t_log : list log_event;
}.
Arguments mkT {W} _ _ _.
Arguments t_ret {W} _.
Arguments t_world {W} _.
Arguments t_log {W} _.

Definition P (W A : Type) : Type := tstate W -> option (flow A * tstate W).

#[export] Instance P_ret W : MRet (P W) := fun A a s => Some (Continue a, s).
#[export] Instance P_bind W : MBind (P W) := fun A B f m s =>
  match m s with
  | Some (Continue a, s') => f a s'
  | Some (Returned, s') => Some (Returned, s')
  | None => None
  end.

(** The escapes [\r] and [\n]. *)
Definition cr : string := String (Ascii.ascii_of_nat 13) "".
Definition lf : string := String (Ascii.ascii_of_nat 10) "".

Section programs.
Context {W : Type}.

Definition p_undefined {A} : P W A := fun _ => None.
Definition return_ {A} : P W A := fun s => Some (Returned, s).

(** A call into the world; [None] is undefined behaviour. *)
Definition call {A} (f : W -> option (A * W)) : P W A := fun s =>
  match f (t_world s) with
  | Some (a, w') => Some (Continue a, mkT (t_ret s) w' (t_log s))
  | None => None
  end.

Definition set_ret (f : test_result_t -> test_result_t) : P W unit := fun s =>
  Some (Continue tt, mkT (f (t_ret s)) (t_world s) (t_log s)).

(** [ret->val = v] *)
Definition ret_val (v : test_status_t) : P W unit := set_ret (set_val v).

Definition test_log (fmt : string) (args : list va_arg) : P W unit := fun s =>
  Some (Continue tt, mkT (t_ret s) (t_world s) (t_log s ++ [(fmt, args)])).

(** The macro [TEST_FAIL(info_msg)] at line [ln] of [file]. *)
Definition TEST_FAIL (file : string) (ln : Z) (msg : string) : P W unit :=
  set_ret (fun _ => fail_result msg file ln).

(** [if (c) { TEST_FAIL(msg); return; }] *)
Definition fail_if (file : string) (ln : Z) (c : bool) (msg : string) : P W unit :=
  if c then (TEST_FAIL file ln msg;; return_) else mret tt.

(** [memcmp(a + i, b + j, n)]; reading past either array is undefined. *)
Definition c_memcmp (a : list Z) (i : Z) (b : list Z) (j : Z) (n : Z) : P W Z :=
  if (0 <=? i) && (0 <=? j) && (i + n <=? sizeof a) && (j + n <=? sizeof b)
  then mret (memcmp (drop (Z.to_nat i) a) (drop (Z.to_nat j) b) n)
  else p_undefined.

(** [memcpy(dst, src, n)] over whole arrays *)
Definition c_memcpy (dst src : list Z) (n : Z) : P W (list Z) :=
  if (n <=? sizeof dst) && (n <=? sizeof src)
  then mret (splice 0 (take (Z.to_nat n) src) dst)
  else p_undefined.

(** [for (i = lo; i < hi; i++)], the variables the body changes threaded
    through as [a]. *)
Fixpoint for_each {A} (l : list Z) (body : Z -> A -> P W A) (a : A) : P W A :=
  match l with
  | [] => mret a
  | i :: l => a ← body i a; for_each l body a
  end.

Definition for_range {A} (lo hi : Z) (body : Z -> A -> P W A) (a : A) : P W A :=
  for_each (seqZ lo (hi - lo)) body a.

(** A test as the framework calls it. *)
Definition as_test (p : P W unit) : TEST_FUN W := fun ret w =>
  match p (mkT ret w []) with
  | Some (_, s) => Some (t_ret s, t_world s, t_log s)
  | None => None
  end.

(** An entry of a test array, and the registration of an array:
    [set_testsuite(nm, tests, list_size, p_test_suite)] with [list_size] the
    number of its elements and a suite that is not NULL. *)
Definition TEST (p : P W unit) (nm ds : string) : test_t W :=
  mkTest (Some (as_test p)) (Some nm) (Some ds).

Definition register (nm : string) (tests : list (test_t W)) : TESTSUITE_REG W :=
  fun fs w => Some (mkFields tests (Z.of_nat (length tests)) (Some nm) (suite_val fs), w).

(** A call of a function of type [TEST_FUN] on the same [ret]. *)
Definition call_body (p : P W unit) : P W unit := fun s =>
  match p s with Some (_, s') => Some (Continue tt, s') | None => None end.
End programs.

(** ** Weakest preconditions *)

Section wp.
Context {W : Type}.

(** [m] is defined from [s], does not return early and establishes [Q]. *)
Definition wp {A} (m : P W A) (Q : A -> tstate W -> Prop) (s : tstate W) : Prop :=
  match m s with Some (Continue a, s') => Q a s' | _ => False end.

Lemma wp_ret {A} (a : A) Q s : Q a s -> wp (mret a) Q s.
Proof. done. Qed.

Lemma wp_bind {A B} (m : P W A) (k : A -> P W B) Q s :
  wp m (fun a => wp (k a) Q) s -> wp (m ≫= k) Q s.
Proof. unfold wp, mbind, P_bind. destruct (m s) as [[[a|] s']|]; done. Qed.

Lemma wp_mono {A} (m : P W A) (Q Q' : A -> tstate W -> Prop) s :
  wp m Q s -> (forall a s', Q a s' -> Q' a s') -> wp m Q' s.
Proof. unfold wp. destruct (m s) as [[[a|] s']|]; auto. Qed.

Lemma wp_call {A} (f : W -> option (A * W)) a w' Q s :
  f (t_world s) = Some (a, w') -> Q a (mkT (t_ret s) w' (t_log s)) -> wp (call f) Q s.
Proof. unfold wp, call. by intros ->. Qed.

Lemma wp_fail_if file ln c msg Q s :
  c = false -> Q tt s -> wp (fail_if file ln c msg) Q s.
Proof. by intros ->. Qed.

Lemma wp_set_ret f Q s :
  Q tt (mkT (f (t_ret s)) (t_world s) (t_log s)) -> wp (set_ret f) Q s.
Proof. done. Qed.

Lemma wp_ret_val v Q s :
  Q tt (mkT (set_val v (t_ret s)) (t_world s) (t_log s)) -> wp (ret_val v) Q s.
Proof. done. Qed.

Lemma wp_test_log fmt args Q s :
  Q tt (mkT (t_ret s) (t_world s) (t_log s ++ [(fmt, args)])) -> wp (test_log fmt args) Q s.
Proof. done. Qed.

Lemma wp_memcmp a i b j n Q s :
  0 <= i -> 0 <= j -> i + n <= sizeof a -> j + n <= sizeof b ->
  Q (memcmp (drop (Z.to_nat i) a) (drop (Z.to_nat j) b) n) s ->
  wp (c_memcmp a i b j n) Q s.
Proof.
  intros Hi Hj Ha Hb HQ. unfold c_memcmp.
  rewrite (proj2 (Z.leb_le _ _) Hi), (proj2 (Z.leb_le _ _) Hj),
    (proj2 (Z.leb_le _ _) Ha), (proj2 (Z.leb_le _ _) Hb). exact HQ.
Qed.

Lemma wp_memcpy dst src n Q s :
  n <= sizeof dst -> n <= sizeof src ->
  Q (splice 0 (take (Z.to_nat n) src) dst) s -> wp (c_memcpy dst src n) Q s.
Proof.
  intros Hd Hs HQ. unfold c_memcpy.
  by rewrite (proj2 (Z.leb_le _ _) Hd), (proj2 (Z.leb_le _ _) Hs).
Qed.

Lemma wp_call_body p Q s : wp p Q s -> wp (call_body p) Q s.
Proof. unfold wp, call_body. destruct (p s) as [[[[]|] s']|]; done. Qed.

(** Loop rule: [I i] holds before the iteration of index [i]. *)
Lemma wp_for_range {A} (I : Z -> A -> tstate W -> Prop) lo hi body (a : A) Q s :
  lo <= hi -> I lo a s ->
  (forall i a s, lo <= i < hi -> I i a s -> wp (body i a) (I (i + 1)) s) ->
  (forall a s, I hi a s -> Q a s) ->
  wp (for_range lo hi body a) Q s.
Proof.
  intros Hle Hlo Hbody HQ. unfold for_range.
  remember (Z.to_nat (hi - lo)) as n eqn:Hn.
  revert lo a s Hle Hlo Hbody Hn. induction n as [|n IH]; intros lo a s Hle Hlo Hbody Hn.
  - rewrite seqZ_nil by lia. apply wp_ret, HQ. by replace hi with lo by lia.
  - rewrite seqZ_cons by lia. cbn [for_each]. apply wp_bind.
    eapply wp_mono; [apply Hbody; [lia | exact Hlo]|].
    intros a' s' HI. replace (Z.pred (hi - lo)) with (hi - Z.succ lo) by lia.
    apply IH; [lia | by rewrite <- Z.add_1_r | intros; apply Hbody; [lia | done] | lia].
Qed.

(** A body with a proved precondition is a test that passes. *)
Lemma wp_as_test p (Q : W -> Prop) ret w :
  wp p (fun _ s => val (t_ret s) = TEST_PASSED /\ Q (t_world s)) (mkT ret w []) ->
  exists ret' w' l, as_test p ret w = Some (ret', w', l) /\ val ret' = TEST_PASSED /\ Q w'.
Proof.
  unfold wp, as_test. destruct (p _) as [[[a|] s']|]; [|done|done].
  intros [Hv HQ]. eauto 10.
Qed.
End wp.

(** ** Suites of tests *)

Section suites.
Context {W : Type}.

(** The tests, run in order from a world in [I], all pass and end in [J].  The
    framework sets [ret->val] to TEST_PASSED before each test. *)
Inductive all_pass : list (test_t W) -> (W -> Prop) -> (W -> Prop) -> Prop :=
  | all_pass_nil I : all_pass [] I I
  | all_pass_preset t p ts (I I' J : W -> Prop) :
      test t = Some (as_test p) -> test_valid t ->
      (forall ret w, val ret = TEST_PASSED -> I w -> exists ret' w' l, as_test p ret w = Some (ret', w', l) /\
         val ret' = TEST_PASSED /\ I' w') ->
      all_pass ts I' J -> all_pass (t :: ts) I J.

(** A test that passes whatever [ret->val] is. *)
Lemma all_pass_cons t p ts (I I' J : W -> Prop) :
  test t = Some (as_test p) -> test_valid t ->
  (forall ret w, I w -> exists ret' w' l, as_test p ret w = Some (ret', w', l) /\
     val ret' = TEST_PASSED /\ I' w') ->
  all_pass ts I' J -> all_pass (t :: ts) I J.
Proof. intros Ht Hv Hp. by eapply all_pass_preset; eauto. Qed.

Lemma TEST_valid (p : P W unit) nm ds : test_valid (TEST p nm ds).
Proof. split_and!; by eexists. Qed.

Lemma all_pass_valid ts (I J : W -> Prop) : all_pass ts I J -> Forall test_valid ts.
Proof. induction 1; by constructor. Qed.

Lemma all_pass_app ts ts' (I I' J : W -> Prop) : all_pass ts I I' -> all_pass ts' I' J -> all_pass (ts ++ ts') I J.
Proof. intros H. induction H; [done|]. intros. simpl. eapply all_pass_preset; eauto. Qed.

(** The names and descriptions do not matter. *)
Lemma all_pass_rename ts ts' (I J : W -> Prop) :
  Forall2 (fun t t' => test t = test t' /\ test_valid t') ts ts' ->
  all_pass ts I J -> all_pass ts' I J.
Proof.
  intros Hf H. revert ts' Hf. induction H as [I|t p ts I I' J Ht Hv Hp H IH]; intros ts' Hf.
  - apply Forall2_nil_inv_l in Hf as ->. constructor.
  - apply Forall2_cons_inv_l in Hf as (t' & ts'' & [Ht' Hv'] & Hf & ->).
    eapply all_pass_preset; [by rewrite <- Ht' | done | exact Hp | by apply IH].
Qed.

Lemma all_pass_exec ts I J ret w :
  all_pass ts I J -> I w ->
  exists ret' w', exec_tests ts ret w = Some (replicate (length ts) TEST_PASSED, ret', w') /\ J w'.
Proof.
  intros H. revert ret w. induction H as [I|t p ts I I' J Ht Hv Hp Hts IH]; intros ret w HI.
  { by exists ret, w. }
  destruct (Hp (set_val TEST_PASSED ret) w eq_refl HI) as (ret1 & w1 & l & Hrun & Hval & HI').
  destruct (IH ret1 w1 HI') as (ret2 & w2 & Hex & HJ).
  exists ret2, w2. split; [|done]. cbn [exec_tests]. rewrite Ht. cbn [mbind option_bind].
  rewrite Hrun. cbn [mbind option_bind]. rewrite Hex, <- Hval. reflexivity.
Qed.

(** A registered suite whose tests all pass is run to the verdict PASSED. *)
Lemma all_pass_run nm ts I J fs w l :
  all_pass ts I J -> I w -> ts <> [] -> Z.of_nat (length ts) < 2 ^ 32 ->
  exists ts' w' l', run_testsuite (Some (mkSuite (Some (register nm ts)) fs)) (w, l) =
      Some ((TEST_SUITE_ERR_NO_ERROR, Some ts'), (w', l')) /\
    suite_val (fields ts') = TEST_PASSED /\ J w'.
Proof.
  intros Hall HI Hne Hlen.
  destruct (all_pass_exec ts I J zero_result w Hall HI) as (ret' & w' & Hex & HJ).
  assert (0 < Z.of_nat (length ts)) by (destruct ts; [done | simpl; lia]).
  edestruct (run_testsuite_exec (register nm ts) fs) as [l' Hrun].
  - split; [done | by eexists | simpl; lia | simpl; lia |].
    apply Forall_take. by eapply all_pass_valid.
  - cbn [list_size test_list]. rewrite Nat2Z.id, firstn_all. exact Hex.
  - do 3 eexists. split; [exact Hrun|]. split; [|done]. simpl. unfold verdict.
    rewrite decide_False; [done|]. intros Hin%elem_of_replicate. naive_solver.
Qed.
End suites.

(** ** What a passing verdict shows *)

Section verdict.
Context {W : Type}.

(** [p] ends, from [s], with [ret->val = TEST_PASSED]. *)
Definition ends_passed {A} (p : P W A) (s : tstate W) : Prop :=
  exists f s', p s = Some (f, s') /\ val (t_ret s') = TEST_PASSED.

Lemma ends_passed_test p ret w :
  (exists ret' w' l, as_test p ret w = Some (ret', w', l) /\ val ret' = TEST_PASSED) <->
  ends_passed p (mkT ret w []).
Proof.
  unfold as_test, ends_passed. split.
  - intros (ret' & w' & l & H & Hv). destruct (p _) as [[f s']|]; [|done].
    simplify_eq. eauto.
  - intros (f & s' & -> & Hv). eauto 10.
Qed.

(** A check that is written before the end of a passing test has succeeded. *)
Lemma ends_passed_fail_if {A} file ln c msg (k : unit -> P W A) s :
  ends_passed (fail_if file ln c msg ≫= k) s -> c = false /\ ends_passed (k tt) s.
Proof.
  intros (f & s' & H & Hv). destruct c; [|split; [done | by exists f, s']].
  injection H as <- <-. done.
Qed.

Lemma ends_passed_call {A B} (g : W -> option (A * W)) (k : A -> P W B) s :
  ends_passed (call g ≫= k) s ->
  exists a w', g (t_world s) = Some (a, w') /\ ends_passed (k a) (mkT (t_ret s) w' (t_log s)).
Proof.
  intros (f & s' & H & Hv). unfold mbind, P_bind, call in H.
  destruct (g (t_world s)) as [[a w']|]; [|done]. exists a, w'. split; [done|]. by exists f, s'.
Qed.

Lemma ends_passed_memcmp {B} a i b j n (k : Z -> P W B) s :
  ends_passed (c_memcmp a i b j n ≫= k) s ->
  i + n <= sizeof a /\ j + n <= sizeof b /\
  ends_passed (k (memcmp (drop (Z.to_nat i) a) (drop (Z.to_nat j) b) n)) s.
Proof.
  unfold c_memcmp. intros (f & s' & H & Hv).
  destruct (0 <=? i), (0 <=? j), (Z.leb_spec (i + n) (sizeof a)),
    (Z.leb_spec (j + n) (sizeof b)); simpl andb in H; try discriminate H.
  split_and!; [done..|]. by exists f, s'.
Qed.
End verdict.

(** Steps over an entry of a suite with the lemma on its body. *)
Ltac next_test lem :=
  eapply all_pass_cons; [reflexivity | apply TEST_valid | lem | ].

(** Runs the next statement of a [wp] goal whose statement is not a call. *)
Ltac wp_step :=
  first
    [ apply wp_bind
    | apply wp_fail_if; [try reflexivity|]
    | apply wp_ret_val
    | apply wp_test_log
    | apply wp_ret ].
