(* ===== verification/PsaStorage.v ===== *)
(** * The storage services the tests call

    psa_its_* and psa_ps_* are services of TF-M, outside the repository: the
    class [StorageService] is their interface as the tests see it, and
    [StorageLaws] the contract the PSA Storage API documents for it.  The file
    also holds the calls as statements of test programs (with the caller's
    buffers), their weakest preconditions under the contract, and a reference
    implementation that satisfies it. *)

From S2P Require Import Prelude LogRaw TestFramework TestProg.
Local Open Scope Z_scope.

(** ** Interface *)

(** Constants of psa/error.h and psa/storage_common.h. *)
Class PsaConsts := {
  PSA_SUCCESS : Z;
  PSA_ERROR_PROGRAMMER_ERROR : Z;
  PSA_ERROR_INVALID_ARGUMENT : Z;
  PSA_ERROR_DOES_NOT_EXIST : Z;
  PSA_ERROR_NOT_PERMITTED : Z;
  PSA_ERROR_NOT_SUPPORTED : Z;
  PSA_ERROR_INSUFFICIENT_STORAGE : Z;
  PSA_ERROR_GENERIC_ERROR : Z;
  PSA_STORAGE_FLAG_NONE : Z;
  PSA_STORAGE_FLAG_WRITE_ONCE : Z;
}.

Class PsaConstsLaws {PC : PsaConsts} := {
  psa_status_NoDup : NoDup [PSA_SUCCESS; PSA_ERROR_PROGRAMMER_ERROR;
    PSA_ERROR_INVALID_ARGUMENT; PSA_ERROR_DOES_NOT_EXIST; PSA_ERROR_NOT_PERMITTED;
    PSA_ERROR_NOT_SUPPORTED; PSA_ERROR_INSUFFICIENT_STORAGE; PSA_ERROR_GENERIC_ERROR];
  psa_flag_none : PSA_STORAGE_FLAG_NONE = 0;
  psa_flag_write_once : PSA_STORAGE_FLAG_WRITE_ONCE = 1;
}.

Record psa_storage_info_t := mkInfo {
  info_capacity : Z;
  info_size : Z;
  info_flags : Z;
}.

(** [struct psa_storage_info_t info = {0}] *)
Definition zero_info : psa_storage_info_t := mkInfo 0 0 0.

(** The four calls.  A data argument is the bytes at the pointer ([None] for
    NULL); an output argument is a flag that says whether its pointer is not
    NULL, and the result holds what the service stored through it. *)
Class StorageService (V : Type) := {
  svc_set : Z -> Z -> option (list Z) -> Z -> V -> Z * V;
  svc_get : Z -> Z -> Z -> bool -> bool -> V -> (Z * list Z * option Z) * V;
  svc_get_info : Z -> bool -> V -> (Z * option psa_storage_info_t) * V;
  svc_remove : Z -> V -> Z * V;
}.

(** ** The calls as statements of a test *)

(** [psa_ps_get_support] *)
Class SupportService (V : Type) := { svc_get_support : V -> Z * V }.

(** The world of a storage test: the service, and the static variables
    [read_asset_data] and [read_asset_data_len] of the suite's file. *)
Record storage_world (V : Type) := mkWorld {
  w_svc : V;
  read_asset_data : list Z;
  read_asset_data_len : Z;
}.
Arguments mkWorld {V} _ _ _.
Arguments w_svc {V} _.
Arguments read_asset_data {V} _.
Arguments read_asset_data_len {V} _.

Section calls.
  Context {V : Type} {SS : StorageService V}.
  Abbreviation W := (storage_world V).

Definition svc_call {A} (f : V -> A * V) : P W A :=
  call (fun w => let '(a, v) := f (w_svc w) in
                 Some (a, mkWorld v (read_asset_data w) (read_asset_data_len w))).

(** Reads and writes of the static variables. *)
Definition get_statics : P W (list Z * Z) :=
  call (fun w => Some ((read_asset_data w, read_asset_data_len w), w)).
Definition put_statics (buf : list Z) (len : Z) : P W unit :=
  call (fun w => Some (tt, mkWorld (w_svc w) buf len)).

(** [set(uid, len, data, flags)]: the service may read [len] bytes, so [data]
    has at least as many. *)
Definition storage_set (uid len : Z) (data : option (list Z)) (fl : Z) : P W Z :=
  match data with
  | None => svc_call (svc_set uid len None fl)
  | Some d => if len <=? sizeof d then svc_call (svc_set uid len (Some (take (Z.to_nat len) d)) fl)
              else p_undefined
  end.

(** [get(uid, offset, size, buf + pos, &len)]: returns the status and the new
    contents of [buf] and [len]; [buf] has room for [size] bytes at [pos], and
    the service writes no more than [size]. *)
Definition storage_get (uid offset sz : Z) (buf : list Z) (pos len : Z) :
    P W (Z * list Z * Z) :=
  if (0 <=? pos) && (pos + sz <=? sizeof buf) then
    '(status, out, len') ← svc_call (svc_get uid offset sz true true);
    if sizeof out <=? sz then mret (status, splice (Z.to_nat pos) out buf, default len len')
    else p_undefined
  else p_undefined.

(** [get(uid, offset, size, NULL, &len)] *)
Definition storage_get_null_data (uid offset sz len : Z) : P W (Z * Z) :=
  '(status, _, len') ← svc_call (svc_get uid offset sz false true);
  mret (status, default len len').

(** [get(uid, offset, size, buf + pos, NULL)] *)
Definition storage_get_null_len (uid offset sz : Z) (buf : list Z) (pos : Z) :
    P W (Z * list Z) :=
  if (0 <=? pos) && (pos + sz <=? sizeof buf) then
    '(status, out, _) ← svc_call (svc_get uid offset sz true false);
    if sizeof out <=? sz then mret (status, splice (Z.to_nat pos) out buf) else p_undefined
  else p_undefined.

(** [get_info(uid, &info)] *)
Definition storage_get_info (uid : Z) (info : psa_storage_info_t) :
    P W (Z * psa_storage_info_t) :=
  '(status, info') ← svc_call (svc_get_info uid true);
  mret (status, default info info').

(** [get_info(uid, NULL)] *)
Definition storage_get_info_null (uid : Z) : P W Z :=
  '(status, _) ← svc_call (svc_get_info uid false);
  mret status.

Definition storage_remove (uid : Z) : P W Z := svc_call (svc_remove uid).
End calls.

(** ** Contract *)

(** Data and creation flags. *)
Abbreviation asset := (list Z * Z)%type.

(** The assets of every client: the key is the client ID and the UID. *)
Abbreviation assets_map := (gmap (Z * Z) asset).

Section contract.
  Context {PC : PsaConsts}.
  (** The largest asset, how many assets the store holds, and the flags it
      supports. *)
  Variables (MAX_ASSET_SIZE : Z) (NUM_ASSETS : nat) (supported : Z -> bool).
  Implicit Types (m : assets_map) (c uid : Z).

Definition when (P : Prop) {D : Decision P} (e : Z) : list Z :=
  if decide P then [e] else [].

Definition write_once (a : asset) : bool := negb (Z.land a.2 PSA_STORAGE_FLAG_WRITE_ONCE =? 0).

Definition is_write_once m (k : Z * Z) : bool :=
  match m !! k with Some a => write_once a | None => false end.

(** There is room for the asset [k]. *)
Definition fits m (k : Z * Z) : Prop := (size ({[k]} ∪ dom m : gset (Z * Z)) <= NUM_ASSETS)%nat.
#[export] Instance fits_dec m k : Decision (fits m k).
Proof. unfold fits. apply _. Defined.

(** The errors that apply to a call; with none it succeeds, otherwise it
    returns one of them and has no effect. *)
Definition set_errors m c uid len (data : option (list Z)) fl : list Z :=
  when (data = None /\ len <> 0) PSA_ERROR_PROGRAMMER_ERROR ++
  when (supported fl = false) PSA_ERROR_NOT_SUPPORTED ++
  when (MAX_ASSET_SIZE < len) PSA_ERROR_INVALID_ARGUMENT ++
  if decide (uid = 0) then [PSA_ERROR_INVALID_ARGUMENT]
  else when (is_write_once m (c, uid) = true) PSA_ERROR_NOT_PERMITTED ++
       when (~ fits m (c, uid)) PSA_ERROR_INSUFFICIENT_STORAGE.

(** Errors of a call on an existing asset. *)
Definition lookup_errors m c uid (errs : asset -> list Z) : list Z :=
  if decide (uid = 0) then [PSA_ERROR_INVALID_ARGUMENT]
  else match m !! (c, uid) with
       | Some a => errs a
       | None => [PSA_ERROR_DOES_NOT_EXIST]
       end.

Definition get_errors m c uid offset sz (data len : bool) : list Z :=
  when (data = false /\ sz <> 0) PSA_ERROR_PROGRAMMER_ERROR ++
  when (len = false) PSA_ERROR_INVALID_ARGUMENT ++
  lookup_errors m c uid (fun a => when (sizeof a.1 < offset) PSA_ERROR_INVALID_ARGUMENT).

Definition get_info_errors m c uid (info : bool) : list Z :=
  when (info = false) PSA_ERROR_INVALID_ARGUMENT ++ lookup_errors m c uid (fun _ => []).

Definition remove_errors m c uid : list Z :=
  lookup_errors m c uid (fun a => when (write_once a = true) PSA_ERROR_NOT_PERMITTED).

(** [outcome errs st ok ko] *)
Definition outcome (errs : list Z) (st : Z) (ok ko : Prop) : Prop :=
  (errs = [] /\ st = PSA_SUCCESS /\ ok) \/ (st ∈ errs /\ ko).

Class StorageLaws (V : Type) {SS : StorageService V} := {
  assets : V -> assets_map;
  caller : V -> Z;
  law_set uid len data fl v st v' :
    svc_set uid len data fl v = (st, v') -> caller v' = caller v /\
    outcome (set_errors (assets v) (caller v) uid len data fl) st
      (assets v' = <[(caller v, uid) := (default [] data, fl)]> (assets v))
      (assets v' = assets v);
  law_get uid offset sz data len v st out n v' :
    0 <= offset -> 0 <= sz ->
    svc_get uid offset sz data len v = ((st, out, n), v') ->
    caller v' = caller v /\ assets v' = assets v /\
    outcome (get_errors (assets v) (caller v) uid offset sz data len) st
      (exists a, assets v !! (caller v, uid) = Some a /\
         out = take (Z.to_nat sz) (drop (Z.to_nat offset) a.1) /\ n = Some (sizeof out))
      (out = [] /\ n = None);
  law_get_info uid info v st i v' :
    svc_get_info uid info v = ((st, i), v') -> caller v' = caller v /\ assets v' = assets v /\
    outcome (get_info_errors (assets v) (caller v) uid info) st
      (exists a, assets v !! (caller v, uid) = Some a /\
         i = Some (mkInfo (sizeof a.1) (sizeof a.1) a.2))
      (i = None);
  law_remove uid v st v' :
    svc_remove uid v = (st, v') -> caller v' = caller v /\
    outcome (remove_errors (assets v) (caller v) uid) st
      (assets v' = delete (caller v, uid) (assets v))
      (assets v' = assets v);
}.
End contract.

Arguments StorageLaws {PC} MAX_ASSET_SIZE NUM_ASSETS supported V {SS}.
Arguments assets {PC MAX_ASSET_SIZE NUM_ASSETS supported V SS StorageLaws} _.
Arguments caller {PC MAX_ASSET_SIZE NUM_ASSETS supported V SS StorageLaws} _.
Arguments law_set {PC MAX_ASSET_SIZE NUM_ASSETS supported V SS StorageLaws}.
Arguments law_get {PC MAX_ASSET_SIZE NUM_ASSETS supported V SS StorageLaws}.
Arguments law_get_info {PC MAX_ASSET_SIZE NUM_ASSETS supported V SS StorageLaws}.
Arguments law_remove {PC MAX_ASSET_SIZE NUM_ASSETS supported V SS StorageLaws}.

(** The service changes neither the assets nor the calling client. *)
Definition keeps {PC : PsaConsts} {MAX_ASSET_SIZE NUM_ASSETS supported} {V : Type}
    {SS : StorageService V} {SL : StorageLaws MAX_ASSET_SIZE NUM_ASSETS supported V}
    (v v' : V) : Prop :=
  caller v' = caller v /\ assets v' = assets v.

(** TF-M's implementation of [psa_ps_get_support]: no optional feature. *)
Class SupportLaws {PC : PsaConsts} {MAX_ASSET_SIZE NUM_ASSETS supported} (V : Type)
    {SS : StorageService V} {SL : StorageLaws MAX_ASSET_SIZE NUM_ASSETS supported V}
    {PSS : SupportService V} := {
  law_get_support v : exists v', svc_get_support v = (0, v') /\ keeps v v';
}.

(** ** Weakest preconditions of the calls *)

Section rules.
  Context {PC : PsaConsts} {PL : PsaConstsLaws}.
  Context {MAX_ASSET_SIZE : Z} {NUM_ASSETS : nat} {supported : Z -> bool}.
  Context {V : Type} {SS : StorageService V}.
  Context {SL : StorageLaws MAX_ASSET_SIZE NUM_ASSETS supported V}.
  Implicit Types (m : assets_map) (c uid : Z).
  Abbreviation W := (storage_world V).
  Abbreviation set_errors := (set_errors MAX_ASSET_SIZE NUM_ASSETS supported).
  Abbreviation fits := (fits NUM_ASSETS).

(** The abstract state of a test: the calling client, the assets, and the
    static variables. *)
Record at_state c m (buf : list Z) (n : Z) (s : tstate W) : Prop := {
  st_caller : caller (w_svc (t_world s)) = c;
  st_assets : assets (w_svc (t_world s)) = m;
  st_buf : read_asset_data (t_world s) = buf;
  st_len : read_asset_data_len (t_world s) = n;
}.

(** The errors are exactly [e]. *)
Definition only (e : Z) (errs : list Z) : Prop := errs <> [] /\ Forall (eq e) errs.

(** Evaluates a list of errors whose conditions are decided by hypotheses. *)
Ltac errs :=
  unfold only, set_errors, get_errors, get_info_errors, remove_errors, lookup_errors, when;
  repeat match goal with
  | |- context [decide ?P] =>
      first [ rewrite (decide_False (P := P)) by (intros ?; first [congruence | lia | tauto])
            | rewrite (decide_True (P := P)) by first [done | congruence | lia | tauto | by split | split; [done | lia] ] ]
  end;
  simpl app; try (split; [done | repeat constructor]); try done.

Lemma set_errors_nil m c uid len data fl :
  (data = None -> len = 0) -> uid <> 0 -> supported fl = true ->
  is_write_once m (c, uid) = false -> len <= MAX_ASSET_SIZE -> fits m (c, uid) ->
  set_errors m c uid len data fl = [].
Proof. intros. errs. Qed.

Lemma set_only_uid m c len d fl :
  supported fl = true -> len <= MAX_ASSET_SIZE ->
  only PSA_ERROR_INVALID_ARGUMENT (set_errors m c 0 len (Some d) fl).
Proof. intros. errs. Qed.

Lemma set_only_flags m c uid len d fl :
  uid <> 0 -> supported fl = false -> is_write_once m (c, uid) = false ->
  len <= MAX_ASSET_SIZE -> fits m (c, uid) ->
  only PSA_ERROR_NOT_SUPPORTED (set_errors m c uid len (Some d) fl).
Proof. intros. errs. Qed.

Lemma set_only_write_once m c uid len d fl :
  uid <> 0 -> supported fl = true -> is_write_once m (c, uid) = true ->
  len <= MAX_ASSET_SIZE -> fits m (c, uid) ->
  only PSA_ERROR_NOT_PERMITTED (set_errors m c uid len (Some d) fl).
Proof. intros. errs. Qed.

Lemma set_only_size m c uid len d fl :
  uid <> 0 -> supported fl = true -> is_write_once m (c, uid) = false ->
  MAX_ASSET_SIZE < len -> fits m (c, uid) ->
  only PSA_ERROR_INVALID_ARGUMENT (set_errors m c uid len (Some d) fl).
Proof. intros. errs. Qed.

Lemma set_only_null m c uid len fl :
  uid <> 0 -> supported fl = true -> is_write_once m (c, uid) = false ->
  0 < len <= MAX_ASSET_SIZE -> fits m (c, uid) ->
  only PSA_ERROR_PROGRAMMER_ERROR (set_errors m c uid len None fl).
Proof. intros. errs. Qed.

Lemma get_info_only_uid m c : only PSA_ERROR_INVALID_ARGUMENT (get_info_errors m c 0 true).
Proof. errs. Qed.

Lemma get_info_only_missing m c uid :
  uid <> 0 -> m !! (c, uid) = None ->
  only PSA_ERROR_DOES_NOT_EXIST (get_info_errors m c uid true).
Proof. intros Hu Hm. errs. rewrite Hm. errs. Qed.

Lemma get_info_only_null m c uid a :
  uid <> 0 -> m !! (c, uid) = Some a ->
  only PSA_ERROR_INVALID_ARGUMENT (get_info_errors m c uid false).
Proof. intros Hu Hm. errs. rewrite Hm. errs. Qed.

Lemma get_only_missing m c uid offset sz :
  uid <> 0 -> m !! (c, uid) = None ->
  only PSA_ERROR_DOES_NOT_EXIST (get_errors m c uid offset sz true true).
Proof. intros Hu Hm. errs. rewrite Hm. errs. Qed.

Lemma get_only_uid m c offset sz :
  only PSA_ERROR_INVALID_ARGUMENT (get_errors m c 0 offset sz true true).
Proof. errs. Qed.

Lemma get_only_offset m c uid offset sz a :
  uid <> 0 -> m !! (c, uid) = Some a -> sizeof a.1 < offset ->
  only PSA_ERROR_INVALID_ARGUMENT (get_errors m c uid offset sz true true).
Proof. intros Hu Hm Ho. errs. rewrite Hm. errs. Qed.

Lemma get_only_null_len m c uid offset sz a :
  uid <> 0 -> m !! (c, uid) = Some a -> offset <= sizeof a.1 ->
  only PSA_ERROR_INVALID_ARGUMENT (get_errors m c uid offset sz true false).
Proof. intros Hu Hm Ho. errs. rewrite Hm. errs. Qed.

Lemma get_only_null_data m c uid offset sz a :
  uid <> 0 -> m !! (c, uid) = Some a -> offset <= sizeof a.1 -> sz <> 0 ->
  only PSA_ERROR_PROGRAMMER_ERROR (get_errors m c uid offset sz false true).
Proof. intros Hu Hm Ho Hz. errs. rewrite Hm. errs. Qed.

Lemma remove_only_uid m c : only PSA_ERROR_INVALID_ARGUMENT (remove_errors m c 0).
Proof. errs. Qed.

Lemma remove_only_missing m c uid :
  uid <> 0 -> m !! (c, uid) = None -> only PSA_ERROR_DOES_NOT_EXIST (remove_errors m c uid).
Proof. intros Hu Hm. errs. rewrite Hm. errs. Qed.

Lemma remove_only_write_once m c uid a :
  uid <> 0 -> m !! (c, uid) = Some a -> write_once a = true ->
  only PSA_ERROR_NOT_PERMITTED (remove_errors m c uid).
Proof. intros Hu Hm Hw. errs. rewrite Hm. errs. Qed.

Lemma outcome_ok errs st ok ko : errs = [] -> outcome errs st ok ko -> st = PSA_SUCCESS /\ ok.
Proof. intros -> [(_ & ? & ?)|[H _]]; [done|]. by apply elem_of_nil in H. Qed.

Lemma outcome_err e errs st ok ko : only e errs -> outcome errs st ok ko -> st = e /\ ko.
Proof.
  intros [Hne Hall] [(-> & _)|[H ?]]; [done|]. rewrite Forall_forall in Hall. naive_solver.
Qed.

Lemma wp_svc_call {A} (f : V -> A * V) (Q : A -> tstate W -> Prop) s :
  (forall a v, f (w_svc (t_world s)) = (a, v) ->
     Q a (mkT (t_ret s) (mkWorld v (read_asset_data (t_world s)) (read_asset_data_len (t_world s)))
            (t_log s))) ->
  wp (svc_call f) Q s.
Proof.
  intros H. unfold wp, svc_call, call. destruct (f (w_svc (t_world s))) as [a v] eqn:E.
  by apply H.
Qed.

Lemma wp_svc_keeps {A} (f : V -> A * V) a v' c m b n (Q : A -> tstate W -> Prop) s :
  at_state c m b n s -> f (w_svc (t_world s)) = (a, v') -> keeps (w_svc (t_world s)) v' ->
  (forall s', at_state c m b n s' -> Q a s') ->
  wp (svc_call f) Q s.
Proof.
  intros [<- <- <- <-] Hf [Hc Hm] HQ. apply wp_svc_call. rewrite Hf. intros ? ? [= <- <-].
  by apply HQ.
Qed.

Lemma wp_set_gen c m b n uid len d fl (Q : Z -> tstate W -> Prop) s :
  at_state c m b n s ->
  (forall st v, caller v = c ->
     outcome (set_errors m c uid len d fl) st (assets v = <[(c, uid) := (default [] d, fl)]> m)
       (assets v = m) ->
     Q st (mkT (t_ret s) (mkWorld v b n) (t_log s))) ->
  wp (svc_call (svc_set uid len d fl)) Q s.
Proof.
  intros [<- <- <- <-] H. apply wp_svc_call. intros st v Hset.
  pose proof (law_set _ _ _ _ _ _ _ Hset) as [Hc Ho]. auto.
Qed.

Lemma wp_set_ok c m b n uid len d fl (Q : Z -> tstate W -> Prop) s :
  at_state c m b n s -> len <= sizeof d ->
  set_errors m c uid len (Some (take (Z.to_nat len) d)) fl = [] ->
  (forall s', at_state c (<[(c, uid) := (take (Z.to_nat len) d, fl)]> m) b n s' ->
     Q PSA_SUCCESS s') ->
  wp (storage_set uid len (Some d) fl) Q s.
Proof.
  intros Hs Hl He H. unfold storage_set. rewrite (proj2 (Z.leb_le _ _) Hl).
  eapply wp_set_gen; [done|]. intros st v Hc [-> Hv]%outcome_ok; [|done]. apply H. done.
Qed.

Lemma wp_set_null_ok c m b n uid fl (Q : Z -> tstate W -> Prop) s :
  at_state c m b n s -> set_errors m c uid 0 None fl = [] ->
  (forall s', at_state c (<[(c, uid) := ([], fl)]> m) b n s' -> Q PSA_SUCCESS s') ->
  wp (storage_set uid 0 None fl) Q s.
Proof.
  intros Hs He H. eapply wp_set_gen; [done|].
  intros st v Hc [-> Hv]%outcome_ok; [|done]. apply H. done.
Qed.

Lemma wp_set_err e c m b n uid len d fl (Q : Z -> tstate W -> Prop) s :
  at_state c m b n s -> from_option (fun d => len <= sizeof d) True d ->
  only e (set_errors m c uid len (take (Z.to_nat len) <$> d) fl) ->
  (forall s', at_state c m b n s' -> Q e s') ->
  wp (storage_set uid len d fl) Q s.
Proof.
  intros Hs Hl He H. destruct d as [d|]; simpl in Hl, He; unfold storage_set;
    [rewrite (proj2 (Z.leb_le _ _) Hl)|];
    (eapply wp_set_gen; [done|]; intros st v Hc Ho;
     apply (outcome_err e) in Ho as [-> Hv]; [|done]; apply H; done).
Qed.

Lemma wp_get_gen c m b n uid offset sz pd pl (Q : _ -> tstate W -> Prop) s :
  at_state c m b n s -> 0 <= offset -> 0 <= sz ->
  (forall st out k v, caller v = c -> assets v = m ->
     outcome (get_errors m c uid offset sz pd pl) st
      (exists a, m !! (c, uid) = Some a /\
         out = take (Z.to_nat sz) (drop (Z.to_nat offset) a.1) /\ k = Some (sizeof out))
      (out = [] /\ k = None) ->
     Q (st, out, k) (mkT (t_ret s) (mkWorld v b n) (t_log s))) ->
  wp (svc_call (svc_get uid offset sz pd pl)) Q s.
Proof.
  intros [<- <- <- <-] Ho Hz H. apply wp_svc_call. intros [[st out] k] v Hget.
  pose proof (law_get _ _ _ _ _ _ _ _ _ _ Ho Hz Hget) as (Hc & Hm & Hout). auto.
Qed.

Definition slice (offset sz : Z) (d : list Z) : list Z :=
  take (Z.to_nat sz) (drop (Z.to_nat offset) d).

Lemma slice_size offset sz d : 0 <= sz -> sizeof (slice offset sz d) <= sz.
Proof. intros H. unfold slice, sizeof. rewrite length_take. lia. Qed.

Lemma get_errors_nil m c uid offset sz pd a :
  (pd = false -> sz = 0) -> uid <> 0 -> m !! (c, uid) = Some a -> offset <= sizeof a.1 ->
  get_errors m c uid offset sz pd true = [].
Proof. intros Hpd Hu Ha Ho. errs. rewrite Ha. errs. Qed.

Lemma wp_get_ok c m b n uid offset sz buf pos len a (Q : _ -> tstate W -> Prop) s :
  at_state c m b n s -> uid <> 0 -> m !! (c, uid) = Some a ->
  0 <= offset <= sizeof a.1 -> 0 <= sz -> 0 <= pos -> pos + sz <= sizeof buf ->
  (forall s', at_state c m b n s' ->
     Q (PSA_SUCCESS, splice (Z.to_nat pos) (slice offset sz a.1) buf,
        sizeof (slice offset sz a.1)) s') ->
  wp (storage_get uid offset sz buf pos len) Q s.
Proof.
  intros Hs Hu Ha Ho Hz Hp Hb H. unfold storage_get.
  rewrite (proj2 (Z.leb_le _ _) Hp), (proj2 (Z.leb_le _ _) Hb). simpl andb. cbv iota.
  apply wp_bind. eapply wp_get_gen; [done | lia | done |].
  intros st out k v Hc Hm [-> (a' & Ha' & -> & ->)]%outcome_ok;
    [|eapply get_errors_nil; [done | done | exact Ha | lia]].
  simplify_eq. cbv beta iota. fold (slice offset sz a.1).
  rewrite (proj2 (Z.leb_le _ _) (slice_size _ _ _ Hz)). apply wp_ret, H. done.
Qed.

Lemma wp_get_err e c m b n uid offset sz buf pos len (Q : _ -> tstate W -> Prop) s :
  at_state c m b n s -> only e (get_errors m c uid offset sz true true) ->
  0 <= offset -> 0 <= sz -> 0 <= pos -> pos + sz <= sizeof buf ->
  (forall s', at_state c m b n s' -> Q (e, buf, len) s') ->
  wp (storage_get uid offset sz buf pos len) Q s.
Proof.
  intros Hs He Ho Hz Hp Hb H. unfold storage_get.
  rewrite (proj2 (Z.leb_le _ _) Hp), (proj2 (Z.leb_le _ _) Hb). simpl andb. cbv iota.
  apply wp_bind. eapply wp_get_gen; [done | lia | done |].
  intros st out k v Hc Hm Hout. apply (outcome_err e) in Hout as (-> & -> & ->); [|done].
  cbv beta iota. change (sizeof []) with 0.
  rewrite (proj2 (Z.leb_le _ _) Hz), splice_nil. apply wp_ret, H. done.
Qed.

Lemma wp_get_null_data_ok c m b n uid offset len a (Q : _ -> tstate W -> Prop) s :
  at_state c m b n s -> uid <> 0 -> m !! (c, uid) = Some a -> 0 <= offset <= sizeof a.1 ->
  (forall s', at_state c m b n s' -> Q (PSA_SUCCESS, 0) s') ->
  wp (storage_get_null_data uid offset 0 len) Q s.
Proof.
  intros Hs Hu Ha Ho H. apply wp_bind. eapply wp_get_gen; [done | lia | done |].
  intros st out k v Hc Hm [-> (a' & Ha' & -> & ->)]%outcome_ok;
    [|eapply get_errors_nil; [done | done | exact Ha | lia]].
  apply wp_ret, H. done.
Qed.

Lemma wp_get_null_data_err e c m b n uid offset sz len (Q : _ -> tstate W -> Prop) s :
  at_state c m b n s -> only e (get_errors m c uid offset sz false true) ->
  0 <= offset -> 0 <= sz ->
  (forall s', at_state c m b n s' -> Q (e, len) s') ->
  wp (storage_get_null_data uid offset sz len) Q s.
Proof.
  intros Hs He Ho Hz H. apply wp_bind. eapply wp_get_gen; [done | lia | done |].
  intros st out k v Hc Hm Hout. apply (outcome_err e) in Hout as (-> & -> & ->); [|done].
  apply wp_ret, H. done.
Qed.

Lemma wp_get_null_len_err e c m b n uid offset sz buf pos (Q : _ -> tstate W -> Prop) s :
  at_state c m b n s -> only e (get_errors m c uid offset sz true false) ->
  0 <= offset -> 0 <= sz -> 0 <= pos -> pos + sz <= sizeof buf ->
  (forall s', at_state c m b n s' -> Q (e, buf) s') ->
  wp (storage_get_null_len uid offset sz buf pos) Q s.
Proof.
  intros Hs He Ho Hz Hp Hb H. unfold storage_get_null_len.
  rewrite (proj2 (Z.leb_le _ _) Hp), (proj2 (Z.leb_le _ _) Hb). simpl andb. cbv iota.
  apply wp_bind. eapply wp_get_gen; [done | lia | done |].
  intros st out k v Hc Hm Hout. apply (outcome_err e) in Hout as (-> & -> & ->); [|done].
  cbv beta iota. change (sizeof []) with 0.
  rewrite (proj2 (Z.leb_le _ _) Hz), splice_nil. apply wp_ret, H. done.
Qed.

Lemma wp_get_info_ok c m b n uid info a (Q : _ -> tstate W -> Prop) s :
  at_state c m b n s -> uid <> 0 -> m !! (c, uid) = Some a ->
  (forall s', at_state c m b n s' ->
     Q (PSA_SUCCESS, mkInfo (sizeof a.1) (sizeof a.1) a.2) s') ->
  wp (storage_get_info uid info) Q s.
Proof.
  intros [<- <- <- <-] Hu Ha H. apply wp_bind, wp_svc_call. intros [st i] v Hg.
  pose proof (law_get_info _ _ _ _ _ _ Hg) as (Hc & Hm & Ho).
  apply outcome_ok in Ho as (-> & a' & Ha' & ->).
  - simplify_eq. apply wp_ret, H. done.
  - errs. by rewrite Ha.
Qed.

Lemma wp_get_info_err e c m b n uid info (Q : _ -> tstate W -> Prop) s :
  at_state c m b n s -> only e (get_info_errors m c uid true) ->
  (forall s', at_state c m b n s' -> Q (e, info) s') ->
  wp (storage_get_info uid info) Q s.
Proof.
  intros [<- <- <- <-] He H. apply wp_bind, wp_svc_call. intros [st i] v Hg.
  pose proof (law_get_info _ _ _ _ _ _ Hg) as (Hc & Hm & Ho).
  apply (outcome_err e) in Ho as (-> & ->); [|done]. apply wp_ret, H. done.
Qed.

Lemma wp_get_info_null_err c m b n uid a (Q : _ -> tstate W -> Prop) s :
  at_state c m b n s -> uid <> 0 -> m !! (c, uid) = Some a ->
  (forall s', at_state c m b n s' -> Q PSA_ERROR_INVALID_ARGUMENT s') ->
  wp (storage_get_info_null uid) Q s.
Proof.
  intros [<- <- <- <-] Hu Ha H. apply wp_bind, wp_svc_call. intros [st i] v Hg.
  pose proof (law_get_info _ _ _ _ _ _ Hg) as (Hc & Hm & Ho).
  apply (outcome_err PSA_ERROR_INVALID_ARGUMENT) in Ho as (-> & ->);
    [|by eapply get_info_only_null].
  apply wp_ret, H. done.
Qed.

Lemma wp_get_support {PSS : SupportService V} {PSL : SupportLaws V} c m b n
    (Q : Z -> tstate W -> Prop) s :
  at_state c m b n s -> (forall s', at_state c m b n s' -> Q 0 s') ->
  wp (svc_call svc_get_support) Q s.
Proof.
  intros Hs HQ. destruct (law_get_support (w_svc (t_world s))) as (v' & Hv & Hk).
  by eapply wp_svc_keeps.
Qed.

Lemma wp_remove_ok c m b n uid a (Q : Z -> tstate W -> Prop) s :
  at_state c m b n s -> uid <> 0 -> m !! (c, uid) = Some a -> write_once a = false ->
  (forall s', at_state c (delete (c, uid) m) b n s' -> Q PSA_SUCCESS s') ->
  wp (storage_remove uid) Q s.
Proof.
  intros [<- <- <- <-] Hu Ha Hw H. apply wp_svc_call. intros st v Hg.
  pose proof (law_remove _ _ _ _ Hg) as (Hc & Ho). apply outcome_ok in Ho as (-> & Hv).
  - apply H. done.
  - errs. rewrite Ha. errs.
Qed.

Lemma wp_remove_err e c m b n uid (Q : Z -> tstate W -> Prop) s :
  at_state c m b n s -> only e (remove_errors m c uid) ->
  (forall s', at_state c m b n s' -> Q e s') ->
  wp (storage_remove uid) Q s.
Proof.
  intros [<- <- <- <-] He H. apply wp_svc_call. intros st v Hg.
  pose proof (law_remove _ _ _ _ Hg) as (Hc & Ho).
  apply (outcome_err e) in Ho as (-> & Hv); [|done]. apply H. done.
Qed.
End rules.

(** ** A reference implementation *)

(** The values of the PSA specifications. *)
Definition psa_consts : PsaConsts :=
  {| PSA_SUCCESS := 0; PSA_ERROR_PROGRAMMER_ERROR := -129;
     PSA_ERROR_INVALID_ARGUMENT := -135; PSA_ERROR_DOES_NOT_EXIST := -140;
     PSA_ERROR_NOT_PERMITTED := -133; PSA_ERROR_NOT_SUPPORTED := -134;
     PSA_ERROR_INSUFFICIENT_STORAGE := -142; PSA_ERROR_GENERIC_ERROR := -132;
     PSA_STORAGE_FLAG_NONE := 0; PSA_STORAGE_FLAG_WRITE_ONCE := 1 |}.

Definition psa_consts_laws : @PsaConstsLaws psa_consts.
Proof.
  split; [|done..]. by apply (bool_decide_unpack _).
Defined.

Section reference.
  Context {PC : PsaConsts}.
  Variables (MAX_ASSET_SIZE : Z) (NUM_ASSETS : nat) (supported : Z -> bool).

(** The calling client and the assets. *)
Definition ref_state : Type := Z * assets_map.

(** Returns the first error that applies. *)
Definition ref_service : StorageService ref_state := {|
  svc_set uid len data fl v :=
    match set_errors MAX_ASSET_SIZE NUM_ASSETS supported v.2 v.1 uid len data fl with
    | [] => (PSA_SUCCESS, (v.1, <[(v.1, uid) := (default [] data, fl)]> v.2))
    | e :: _ => (e, v)
    end;
  svc_get uid offset sz data len v :=
    match get_errors v.2 v.1 uid offset sz data len, v.2 !! (v.1, uid) with
    | [], Some a => ((PSA_SUCCESS, slice offset sz a.1, Some (sizeof (slice offset sz a.1))), v)
    | e :: _, _ => ((e, [], None), v)
    | [], None => ((PSA_ERROR_DOES_NOT_EXIST, [], None), v)
    end;
  svc_get_info uid info v :=
    match get_info_errors v.2 v.1 uid info, v.2 !! (v.1, uid) with
    | [], Some a => ((PSA_SUCCESS, Some (mkInfo (sizeof a.1) (sizeof a.1) a.2)), v)
    | e :: _, _ => ((e, None), v)
    | [], None => ((PSA_ERROR_DOES_NOT_EXIST, None), v)
    end;
  svc_remove uid v :=
    match remove_errors v.2 v.1 uid with
    | [] => (PSA_SUCCESS, (v.1, delete (v.1, uid) v.2))
    | e :: _ => (e, v)
    end;
|}.

Lemma lookup_errors_exists m c uid errs :
  lookup_errors m c uid errs = [] -> is_Some (m !! (c, uid)).
Proof.
  unfold lookup_errors. case_decide; [done|]. destruct (m !! (c, uid)); [by eexists | done].
Qed.

Lemma outcome_error errs e rest st (ok ko : Prop) :
  errs = e :: rest -> st = e -> ko -> outcome errs st ok ko.
Proof. intros -> -> H. right. split; [left | done]. Qed.

#[export] Instance ref_laws :
  StorageLaws MAX_ASSET_SIZE NUM_ASSETS supported ref_state (SS := ref_service).
Proof.
  refine {| assets := snd; caller := fst |}.
  - intros uid len data fl v st v' H. simpl in H.
    destruct (set_errors _ _ _ _ _ _ _ _ _) as [|e rest] eqn:He; simplify_eq; split; try done.
    + by left.
    + by eapply outcome_error.
  - intros uid offset sz data len v st out n v' Ho Hz H. simpl in H.
    destruct (get_errors _ _ _ _ _ _ _) as [|e rest] eqn:He.
    + destruct (v.2 !! (v.1, uid)) as [a|] eqn:Ha; simplify_eq; split_and!; try done.
      * left. split_and!; eauto.
      * unfold get_errors in He. apply app_nil in He as [_ [_ He]%app_nil].
        apply lookup_errors_exists in He. rewrite Ha in He. by destruct He.
    + simplify_eq. split_and!; try done. by eapply outcome_error.
  - intros uid info v st i v' H. simpl in H.
    destruct (get_info_errors _ _ _ _) as [|e rest] eqn:He.
    + destruct (v.2 !! (v.1, uid)) as [a|] eqn:Ha; simplify_eq; split_and!; try done.
      * left. split_and!; eauto.
      * apply app_nil in He as [_ He]. apply lookup_errors_exists in He.
        rewrite Ha in He. by destruct He.
    + simplify_eq. split_and!; try done. by eapply outcome_error.
  - intros uid v st v' H. simpl in H.
    destruct (remove_errors _ _ _) as [|e rest] eqn:He; simplify_eq; split; try done.
    + by left.
    + by eapply outcome_error.
Defined.

Definition ref_support : SupportService ref_state := {| svc_get_support v := (0, v) |}.

Lemma ref_support_laws : SupportLaws ref_state (SL := ref_laws) (PSS := ref_support).
Proof. split. intros v. by exists v. Defined.
End reference.

(** Supports no flags but [PSA_STORAGE_FLAG_WRITE_ONCE]. *)
Definition no_extra_flags {PC : PsaConsts} (fl : Z) : bool :=
  (fl =? PSA_STORAGE_FLAG_NONE) || (fl =? PSA_STORAGE_FLAG_WRITE_ONCE).
