(* ===== verification/StorageTactics.v ===== *)
(** * Symbolic execution of the storage tests

    Side conditions of the rules of [PsaStorage] as lemmas, and the tactics
    that run a storage test against a service that satisfies the contract. *)

From S2P Require Import Prelude LogRaw TestFramework TestProg PsaStorage.
Local Open Scope Z_scope.

Section side_conditions.
  Context {PC : PsaConsts} {PL : PsaConstsLaws} (NUM_ASSETS : nat).
  Implicit Types (m : assets_map) (c u : Z) (us : list Z).

(** The client [c] may create the assets [us] on top of [m]. *)
Definition room us c m : Prop :=
  (size (list_to_set (fmap (pair c) us) ∪ dom m : gset (Z * Z)) <= NUM_ASSETS)%nat.

Lemma room_mono us c m m' :
  (dom m' : gset (Z * Z)) ⊆ list_to_set (fmap (pair c) us) ∪ dom m -> room us c m -> room us c m'.
Proof.
  unfold room. intros Hsub Hr. etrans; [|exact Hr]. apply subseteq_size. set_solver.
Qed.

Lemma room_uid us c u : u ∈ us -> (c, u) ∈ (list_to_set (fmap (pair c) us) : gset (Z * Z)).
Proof. intros Hu. rewrite elem_of_list_to_set, list_elem_of_fmap. eauto. Qed.

Lemma room_insert us c u a m : u ∈ us -> room us c m -> room us c (<[(c, u) := a]> m).
Proof.
  intros Hu. apply room_mono. rewrite dom_insert. pose proof (room_uid us c u Hu). set_solver.
Qed.

Lemma room_delete us c k m : room us c m -> room us c (delete k m).
Proof. apply room_mono. rewrite dom_delete. set_solver. Qed.

Lemma room_fits us c u m : u ∈ us -> room us c m -> fits NUM_ASSETS m (c, u).
Proof.
  unfold room, fits. intros Hu Hr. etrans; [|exact Hr]. apply subseteq_size.
  pose proof (room_uid us c u Hu). set_solver.
Qed.

(** There is room for [k] more assets, of any client. *)
Definition free (k : nat) m : Prop := (size m + k <= NUM_ASSETS)%nat.

Lemma size_list_to_set_le (l : list (Z * Z)) :
  (size (list_to_set l : gset (Z * Z)) <= length l)%nat.
Proof.
  induction l as [|x l IH]; [done|]. rewrite list_to_set_cons, length_cons.
  rewrite size_union_alt, size_singleton.
  assert (size (list_to_set l ∖ {[x]} : gset (Z * Z)) <= size (list_to_set l : gset (Z * Z)))%nat
    by (apply subseteq_size; set_solver).
  lia.
Qed.

Lemma free_room us c m : free (length us) m -> room us c m.
Proof.
  unfold free, room. rewrite union_comm_L, size_union_alt, size_dom.
  assert (size (list_to_set (pair c <$> us) ∖ dom m : gset (Z * Z)) <=
    size (list_to_set (pair c <$> us) : gset (Z * Z)))%nat
    by (apply subseteq_size; set_solver).
  pose proof (size_list_to_set_le (pair c <$> us)) as H'. rewrite length_fmap in H'. lia.
Qed.

Lemma free_insert k key a m : free (S k) m -> free k (<[key := a]> m).
Proof. unfold free. rewrite map_size_insert. destruct (m !! key); simpl; lia. Qed.

Lemma free_overwrite k key a m : is_Some (m !! key) -> free k m -> free k (<[key := a]> m).
Proof. unfold free. rewrite map_size_insert. by intros [? ->]. Qed.

Lemma free_le k k' m : (k' <= k)%nat -> free k m -> free k' m.
Proof. unfold free. lia. Qed.

Lemma write_once_none d : write_once (d, PSA_STORAGE_FLAG_NONE) = false.
Proof. unfold write_once. simpl. by rewrite psa_flag_none. Qed.

Lemma write_once_once d : write_once (d, PSA_STORAGE_FLAG_WRITE_ONCE) = true.
Proof. unfold write_once. simpl. by rewrite psa_flag_write_once. Qed.

Lemma is_write_once_missing m k : m !! k = None -> is_write_once m k = false.
Proof. unfold is_write_once. by intros ->. Qed.

Lemma is_write_once_eq m k a b :
  m !! k = Some a -> write_once a = b -> is_write_once m k = b.
Proof. unfold is_write_once. by intros ->. Qed.

Lemma psa_status_ne (i j : nat) x y :
  [PSA_SUCCESS; PSA_ERROR_PROGRAMMER_ERROR; PSA_ERROR_INVALID_ARGUMENT;
   PSA_ERROR_DOES_NOT_EXIST; PSA_ERROR_NOT_PERMITTED; PSA_ERROR_NOT_SUPPORTED;
   PSA_ERROR_INSUFFICIENT_STORAGE; PSA_ERROR_GENERIC_ERROR] !! i = Some x ->
  [PSA_SUCCESS; PSA_ERROR_PROGRAMMER_ERROR; PSA_ERROR_INVALID_ARGUMENT;
   PSA_ERROR_DOES_NOT_EXIST; PSA_ERROR_NOT_PERMITTED; PSA_ERROR_NOT_SUPPORTED;
   PSA_ERROR_INSUFFICIENT_STORAGE; PSA_ERROR_GENERIC_ERROR] !! j = Some y ->
  i <> j -> (x =? y) = false.
Proof.
  intros Hi Hj Hne. apply Z.eqb_neq. intros ->.
  apply Hne. eapply NoDup_lookup; [apply psa_status_NoDup | done | done].
Qed.

Lemma not_permitted_not_success : (PSA_ERROR_NOT_PERMITTED =? PSA_SUCCESS) = false.
Proof. by apply (psa_status_ne 4 0). Qed.
End side_conditions.

(** Reading the next byte extends the part of the buffer that is read. *)
Lemma read_next_byte pos k (d buf : list Z) :
  0 <= pos -> 0 <= k < sizeof d -> pos + sizeof d <= sizeof buf ->
  splice (Z.to_nat (pos + k)) (slice k 1 d) (splice (Z.to_nat pos) (take (Z.to_nat k) d) buf) =
  splice (Z.to_nat pos) (take (Z.to_nat (k + 1)) d) buf.
Proof.
  unfold sizeof. intros Hp Hk Hb.
  assert (length (take (Z.to_nat k) d) = Z.to_nat k) as Hl by (rewrite length_take; lia).
  replace (Z.to_nat (pos + k)) with (Z.to_nat pos + length (take (Z.to_nat k) d))%nat
    by (rewrite Hl; lia).
  assert (length (slice k 1 d) <= 1)%nat by (unfold slice; rewrite length_take; lia).
  rewrite splice_app by lia. f_equal. unfold slice.
  replace (Z.to_nat (k + 1)) with (Z.to_nat k + Z.to_nat 1)%nat by lia.
  apply take_take_drop.
Qed.

Lemma slice_all n d : 0 <= n <= sizeof d -> slice 0 n (take (Z.to_nat n) d) = take (Z.to_nat n) d.
Proof. intros Hn. unfold slice. by rewrite drop_0, take_idemp. Qed.

(** What is read back over a cleared buffer is what was written. *)
Lemma memcmp_read_back n (d buf : list Z) :
  0 <= n <= sizeof d ->
  memcmp (splice 0 (slice 0 n (take (Z.to_nat n) d)) buf) d n = 0.
Proof.
  intros Hn. apply memcmp_prefix. unfold slice. rewrite drop_0, take_idemp, splice_0.
  rewrite take_app_length'; [done|]. rewrite length_take. unfold sizeof in Hn. lia.
Qed.

Lemma neqb_refl x : negb (x =? x) = false.
Proof. by rewrite Z.eqb_refl. Qed.

Section passes.
  Context {PC : PsaConsts} {MAX_ASSET_SIZE : Z} {NUM_ASSETS : nat} {supported : Z -> bool}.
  Context {V : Type} {SS : StorageService V}.
  Context {SL : StorageLaws MAX_ASSET_SIZE NUM_ASSETS supported V}.

(** Run by client [c] on the assets [m], the test is defined, passes and
    leaves the assets [m']. *)
Definition passes (c : Z) (p : P (storage_world V) unit) (m m' : assets_map) : Prop :=
  forall b n s, at_state c m b n s ->
    wp p (fun _ s' => val (t_ret s') = TEST_PASSED /\ exists b' n', at_state c m' b' n' s') s.

Lemma at_state_world c m b n (s s' : tstate (storage_world V)) :
  t_world s' = t_world s -> at_state c m b n s -> at_state c m b n s'.
Proof. intros Hw []. split; by rewrite Hw. Qed.

Lemma wp_log_state c m b n fmt args Q (s : tstate (storage_world V)) :
  at_state c m b n s -> (forall s', at_state c m b n s' -> Q tt s') ->
  wp (test_log fmt args) Q s.
Proof. intros Hs HQ. apply wp_test_log, HQ. by apply (at_state_world _ _ _ _ s). Qed.

Lemma wp_get_statics_state c m b n Q (s : tstate (storage_world V)) :
  at_state c m b n s -> (forall s', at_state c m b n s' -> Q (b, n) s') ->
  wp get_statics Q s.
Proof.
  intros Hs HQ. eapply wp_call; [done|]. destruct s as [r [v b' n'] l], Hs. simpl in *.
  subst. by apply HQ.
Qed.

Lemma wp_put_statics_state c m b n b' n' Q (s : tstate (storage_world V)) :
  at_state c m b n s -> (forall s', at_state c m b' n' s' -> Q tt s') ->
  wp (put_statics b' n') Q s.
Proof. intros [] HQ. eapply wp_call; [done|]. by apply HQ. Qed.

Lemma wp_passed c m m' b n (s : tstate (storage_world V)) :
  at_state c m b n s -> m = m' ->
  wp (ret_val TEST_PASSED)
    (fun _ s' => val (t_ret s') = TEST_PASSED /\ exists b' n', at_state c m' b' n' s') s.
Proof.
  intros Hs <-. apply wp_ret_val. split; [done|]. exists b, n. by apply (at_state_world _ _ _ _ s).
Qed.

(** Reading an asset byte by byte fills the buffer with it. *)
Lemma wp_partial_gets c m b n uid d fl hi pos buf len file ln msg Q (s : tstate (storage_world V)) :
  at_state c m b n s -> uid <> 0 -> m !! (c, uid) = Some (d, fl) ->
  hi = sizeof d -> 0 <= pos -> pos + sizeof d <= sizeof buf -> sizeof d < 2 ^ 32 ->
  (forall o l s', at_state c m b n s' -> Q (o, splice (Z.to_nat pos) d buf, l) s') ->
  wp (for_range 0 hi (fun i '(offset, read_data, read_data_len) =>
        '(status, read_data, read_data_len) ←
          storage_get uid offset 1 read_data (pos + i) read_data_len;
        fail_if file ln (negb (status =? PSA_SUCCESS)) msg;;
        mret (u32 (offset + 1), read_data, read_data_len)) (0, buf, len)) Q s.
Proof.
  intros Hs Hu Hm -> Hp Hb Hd HQ. assert (0 <= sizeof d) by (unfold sizeof; lia).
  eapply (wp_for_range (fun k '(o, rd, _) s =>
    o = k /\ rd = splice (Z.to_nat pos) (take (Z.to_nat k) d) buf /\ at_state c m b n s)); [done | | |].
  - split_and!; [done | | done]. by rewrite take_0, splice_nil.
  - clear s Hs. intros k [[o rd] l] s Hk (-> & -> & Hs). apply wp_bind.
    eapply wp_get_ok; [done | done | exact Hm | cbn [fst]; lia | lia | lia | |].
    { unfold sizeof in *. rewrite splice_length; [lia|]. rewrite length_take. lia. }
    intros s' Hs'. apply wp_bind, wp_fail_if; [apply neqb_refl|]. apply wp_ret.
    split_and!; [rewrite wrapu_small; lia | by apply read_next_byte | done].
  - intros [[o rd] l] s' (-> & -> & Hs'). rewrite take_ge by (unfold sizeof; lia). by apply HQ.
Qed.
End passes.

(** ** What a passing test shows of the service *)

Section detection.
  Context {PC : PsaConsts} {V : Type} {SS : StorageService V}.
  Abbreviation W := (storage_world V).
  Implicit Types (s : tstate W).

Lemma ends_passed_svc {A B} (f : V -> A * V) (k : A -> P W B) s :
  ends_passed (svc_call f ≫= k) s ->
  exists a v s', f (w_svc (t_world s)) = (a, v) /\ w_svc (t_world s') = v /\ ends_passed (k a) s'.
Proof.
  unfold svc_call. intros (a & w' & H & He)%ends_passed_call.
  destruct (f (w_svc (t_world s))) as [a' v] eqn:Hf. injection H as <- <-.
  by exists a', v, (mkT (t_ret s) (mkWorld v (read_asset_data (t_world s))
    (read_asset_data_len (t_world s))) (t_log s)).
Qed.

Lemma ends_passed_status {B} file ln st msg (k : unit -> P W B) s e :
  ends_passed (fail_if file ln (negb (st =? e)) msg ≫= k) s -> st = e /\ ends_passed (k tt) s.
Proof. intros [Hc He]%ends_passed_fail_if. split; [|done]. by apply negb_false_iff, Z.eqb_eq in Hc. Qed.

Lemma ends_passed_set {B} uid len d fl (k : Z -> P W B) s :
  ends_passed (storage_set uid len (Some d) fl ≫= k) s ->
  exists st v s', svc_set uid len (Some (take (Z.to_nat len) d)) fl (w_svc (t_world s)) = (st, v) /\
    w_svc (t_world s') = v /\ ends_passed (k st) s'.
Proof.
  unfold storage_set. destruct (len <=? sizeof d); [apply ends_passed_svc|].
  by intros (? & ? & [=] & _).
Qed.

Lemma ends_passed_get {B} uid offset sz buf pos len (k : _ -> P W B) s :
  ends_passed (storage_get uid offset sz buf pos len ≫= k) s ->
  exists st out n v s', svc_get uid offset sz true true (w_svc (t_world s)) = ((st, out, n), v) /\
    sizeof out <= sz /\ w_svc (t_world s') = v /\
    ends_passed (k (st, splice (Z.to_nat pos) out buf, default len n)) s'.
Proof.
  unfold storage_get. destruct (_ && _); [|by intros (? & ? & [=] & _)].
  intros (f & s' & H & Hv). unfold svc_call, call, mbind, P_bind in H.
  destruct (svc_get _ _ _ _ _ _) as [[[st out] n] v]. cbv beta iota in H.
  destruct (Z.leb_spec (sizeof out) sz); [|done].
  exists st, out, n, v, (mkT (t_ret s) (mkWorld v (read_asset_data (t_world s))
    (read_asset_data_len (t_world s))) (t_log s)).
  split_and!; [done.. | by exists f, s'].
Qed.
End detection.

Section detection_calls.
  Context {PC : PsaConsts} {V : Type} {SS : StorageService V}.
  Implicit Types (s : tstate (storage_world V)).

Lemma ends_passed_get_info {B} uid info (k : _ -> P (storage_world V) B) s :
  ends_passed (storage_get_info uid info ≫= k) s ->
  exists st i v s', svc_get_info uid true (w_svc (t_world s)) = ((st, i), v) /\
    w_svc (t_world s') = v /\ ends_passed (k (st, default info i)) s'.
Proof.
  unfold storage_get_info, svc_call, call. intros (f & s' & H & Hv).
  unfold mbind, P_bind in H.
  destruct (svc_get_info _ _ _) as [[st i] v]. cbv beta iota in H.
  exists st, i, v, (mkT (t_ret s) (mkWorld v (read_asset_data (t_world s))
    (read_asset_data_len (t_world s))) (t_log s)).
  split_and!; [done.. | by exists f, s'].
Qed.

Lemma ends_passed_memcpy {B} dst src n (k : _ -> P (storage_world V) B) s :
  ends_passed (c_memcpy dst src n ≫= k) s ->
  ends_passed (k (splice 0 (take (Z.to_nat n) src) dst)) s.
Proof. unfold c_memcpy. destruct (_ && _); [done|]. by intros (? & ? & [=] & _). Qed.

(** A comparison of the whole of two arrays of the same size. *)
Lemma ends_passed_memcmp_eq {B} file ln msg a i b j n (k : unit -> P (storage_world V) B) s :
  ends_passed (r ← c_memcmp a i b j n; fail_if file ln (negb (r =? 0)) msg ≫= k) s ->
  take (Z.to_nat n) (drop (Z.to_nat i) a) = take (Z.to_nat n) (drop (Z.to_nat j) b) /\
  ends_passed (k tt) s.
Proof.
  intros (_ & _ & H)%ends_passed_memcmp. apply ends_passed_status in H as [H He].
  split; [|done]. by apply memcmp_list_0.
Qed.
End detection_calls.

(** Steps over a statement of a test known to have passed. *)
Ltac passed_step H :=
  cbv beta iota zeta in H;
  lazymatch type of H with
  | ends_passed (storage_set _ _ _ _ ≫= _) _ =>
      let s := fresh "s" in let Hv := fresh "Hv" in let Hc := fresh "Hc" in
      apply ends_passed_set in H as (? & ? & s & Hc & Hv & H); rewrite <- Hv in *
  | ends_passed (storage_get _ _ _ _ _ _ ≫= _) _ =>
      let s := fresh "s" in let Hv := fresh "Hv" in let Hc := fresh "Hc" in
      let Hn := fresh "Hn" in
      apply ends_passed_get in H as (? & ? & ? & ? & s & Hc & Hn & Hv & H); rewrite <- Hv in *
  | ends_passed (storage_get_info _ _ ≫= _) _ =>
      let s := fresh "s" in let Hv := fresh "Hv" in let Hc := fresh "Hc" in
      apply ends_passed_get_info in H as (? & ? & ? & s & Hc & Hv & H); rewrite <- Hv in *
  | ends_passed (storage_remove _ ≫= _) _ =>
      let s := fresh "s" in let Hv := fresh "Hv" in let Hc := fresh "Hc" in
      apply ends_passed_svc in H as (? & ? & s & Hc & Hv & H); rewrite <- Hv in *
  | ends_passed (c_memcpy _ _ _ ≫= _) _ => apply ends_passed_memcpy in H
  | ends_passed (c_memcmp _ _ _ _ _ ≫= _) _ =>
      let Hm := fresh "Hm" in apply ends_passed_memcmp_eq in H as [Hm H]
  | ends_passed (fail_if _ _ (negb (_ =? _)) _ ≫= _) _ =>
      let He := fresh "He" in apply ends_passed_status in H as [He H]; try subst
  end.

(** A buffer filled with [x] shows how much of it was written, when the
    expected data does not contain [x]. *)
Lemma read_exact n (out d tail : list Z) x :
  (length out <= n)%nat -> take n (out ++ tail) = d -> length d = n -> x ∉ d ->
  ((length out < n)%nat -> head tail = Some x) -> out = d.
Proof.
  intros Hle Htake Hlen Hx Htail. destruct (decide (length out < n)%nat) as [Hlt|Hge].
  - exfalso. apply Hx. rewrite <- Htake.
    destruct tail as [|y tail]; [by specialize (Htail Hlt)|].
    injection (Htail Hlt) as ->. rewrite take_app_ge by lia. apply elem_of_app. right.
    replace (n - length out)%nat with (S (n - length out - 1)) by lia. simpl. left.
  - rewrite <- Htake, take_app_length'; [done | lia].
Qed.

Ltac uid_in := by apply (bool_decide_unpack _).
Ltac room_tac :=
  repeat first [ eassumption | apply room_insert; [uid_in|] | apply room_delete ].

(** [m !! k = ...] for [m] made of insertions and deletions *)
Ltac lookup_tac :=
  repeat first
    [ eassumption
    | apply lookup_insert_eq
    | apply lookup_delete_eq
    | rewrite lookup_insert_ne by congruence
    | rewrite lookup_delete_ne by congruence ].

Ltac once_tac :=
  first
    [ eassumption
    | apply is_write_once_missing; solve [lookup_tac]
    | eapply is_write_once_eq;
      [solve [lookup_tac] | first [apply write_once_none | apply write_once_once]] ].

(** [a <= b] between closed sizes, or below a bound in a hypothesis *)
Ltac size_tac :=
  first
    [ by vm_compute
    | match goal with
      | H : ?n <= ?M |- _ <= ?M => etrans; [|exact H]; by vm_compute
      | |- _ < _ <= _ => split; [by vm_compute | size_tac]
      | |- _ <= _ <= _ => split; [by vm_compute | size_tac]
      end
    | lia ].

Ltac side :=
  lazymatch goal with
  | |- fits _ _ _ =>
      match goal with
      | H : room _ ?us _ _ |- fits _ _ _ => apply (room_fits _ us); [uid_in | room_tac]
      end
  | |- is_write_once _ _ = _ => once_tac
  | |- _ !! _ = _ => solve [lookup_tac]
  | |- _ <= _ => size_tac
  | |- _ < _ => size_tac
  | |- _ <= _ <= _ => size_tac
  | |- _ < _ <= _ => size_tac
  | |- _ = _ => first [eassumption | reflexivity]
  | |- _ <> _ => first [assumption | discriminate]
  | |- _ => done
  end.

(** Errors: the one lemma of [PsaStorage] that applies. *)
Ltac only_tac :=
  first
    [ apply set_only_uid; side
    | apply set_only_flags; side
    | apply set_only_write_once; side
    | apply set_only_size; side
    | apply set_only_null; side
    | apply get_info_only_uid
    | apply get_info_only_missing; side
    | apply get_only_uid
    | apply get_only_missing; side
    | eapply get_only_offset; side
    | eapply get_only_null_len; side
    | eapply get_only_null_data; side
    | apply remove_only_uid
    | apply remove_only_missing; side
    | eapply remove_only_write_once; [side | side | apply write_once_once] ].

Ltac check_tac :=
  first [ apply neqb_refl | vm_compute; reflexivity | rewrite psa_flag_none; reflexivity ].

Ltac state_step H :=
  let s := fresh "s" in let Hs := fresh "Hs" in
  eapply H; [eassumption | intros s Hs].

(** One service call, on success or on its error. *)
Ltac svc_step :=
  let s := fresh "s" in let Hs := fresh "Hs" in
  lazymatch goal with
  | |- wp (storage_set _ _ None _) _ _ =>
      first
        [ eapply wp_set_null_ok; [eassumption | apply set_errors_nil; side | intros s Hs]
        | eapply wp_set_err; [eassumption | exact I | only_tac | intros s Hs] ]
  | |- wp (storage_set _ _ _ _) _ _ =>
      first
        [ eapply wp_set_ok; [eassumption | size_tac | apply set_errors_nil; side | intros s Hs]
        | eapply wp_set_err; [eassumption | cbn [from_option]; size_tac
                             | cbn [fmap option_fmap option_map]; only_tac | intros s Hs] ]
  | |- wp (storage_get _ _ _ _ _ _) _ _ =>
      first
        [ eapply wp_get_ok; [eassumption | side | side | side.. | intros s Hs]
        | eapply wp_get_err; [eassumption | only_tac | side.. | intros s Hs] ]
  | |- wp (storage_get_null_data _ _ _ _) _ _ =>
      first
        [ eapply wp_get_null_data_ok; [eassumption | side | side | side | intros s Hs]
        | eapply wp_get_null_data_err; [eassumption | only_tac | side.. | intros s Hs] ]
  | |- wp (storage_get_null_len _ _ _ _ _) _ _ =>
      eapply wp_get_null_len_err; [eassumption | only_tac | side.. | intros s Hs]
  | |- wp (storage_get_info _ _) _ _ =>
      first
        [ eapply wp_get_info_ok; [eassumption | side | side | intros s Hs]
        | eapply wp_get_info_err; [eassumption | only_tac | intros s Hs] ]
  | |- wp (storage_get_info_null _) _ _ =>
      eapply wp_get_info_null_err; [eassumption | side | side | intros s Hs]
  | |- wp (svc_call svc_get_support) _ _ => eapply wp_get_support; [eassumption | intros s Hs]
  | |- wp (storage_remove _) _ _ =>
      first
        [ eapply wp_remove_ok; [eassumption | side | side | apply write_once_none | intros s Hs]
        | eapply wp_remove_err; [eassumption | only_tac | intros s Hs] ]
  end.

(** One statement. *)
Ltac stmt :=
  cbv beta iota zeta;
  lazymatch goal with
  | |- wp (_ ≫= _) _ _ => apply wp_bind
  | |- wp (fail_if _ _ _ _) _ _ => apply wp_fail_if; [check_tac|]
  | |- wp (c_memcmp _ _ _ _ _) _ _ => apply wp_memcmp; [size_tac..|]
  | |- wp (c_memcpy _ _ _) _ _ => apply wp_memcpy; [size_tac..|]
  | |- wp (mret _) _ _ => apply wp_ret
  | |- wp (test_log _ _) _ _ => state_step wp_log_state
  | |- wp get_statics _ _ => state_step wp_get_statics_state
  | |- wp (put_statics _ _) _ _ => state_step wp_put_statics_state
  | |- wp (ret_val TEST_PASSED) _ _ => eapply wp_passed; [eassumption|]
  | |- wp _ _ _ => svc_step
  end.

(** The worlds where client [c] runs and the assets are [m]. *)
Definition in_world {PC : PsaConsts} {MAX_ASSET_SIZE NUM_ASSETS supported}
    {V : Type} {SS : StorageService V} {SL : StorageLaws MAX_ASSET_SIZE NUM_ASSETS supported V}
    (c : Z) (m : assets_map) (w : storage_world V) : Prop :=
  caller (w_svc w) = c /\ assets (w_svc w) = m.

Lemma passes_test {PC : PsaConsts} {MAX_ASSET_SIZE NUM_ASSETS supported}
    {V : Type} {SS : StorageService V} {SL : StorageLaws MAX_ASSET_SIZE NUM_ASSETS supported V}
    (c : Z) (p : P (storage_world V) unit) (m m' : assets_map) :
  passes c p m m' ->
  forall ret w, in_world c m w -> exists ret' w' l, as_test p ret w = Some (ret', w', l) /\
    val ret' = TEST_PASSED /\ in_world c m' w'.
Proof.
  intros Hp ret w [Hc Hm]. apply (wp_as_test p (in_world c m')).
  eapply wp_mono; [by eapply (Hp (read_asset_data w) (read_asset_data_len w))|].
  intros _ s [Hv (b & n & [])]. by split.
Qed.

(** The final assets are the expected ones. *)
Ltac map_tac :=
  repeat first
    [ reflexivity
    | rewrite insert_insert_eq
    | rewrite delete_insert_eq
    | rewrite delete_id by lookup_tac
    | rewrite delete_insert_ne by congruence ].

(** One cycle of a test over the asset sizes: it reads back, through the static
    variables, an asset of [sz] of the bytes [wd]; [Hwd] is the size of [wd]. *)
Ltac asset_cycle_tac us wd sz Hwd :=
  pose proof Hwd;
  set (data := wd) in *;
  assert (sizeof (take (Z.to_nat sz) data) = sz) as Hsize by (apply take_sizeof; lia);
  do 5 stmt;
  eapply wp_set_ok; [eassumption | lia | apply set_errors_nil;
    [done | assumption | done | side | lia | by apply (room_fits _ us)] | intros ? ?];
  do 3 stmt; eapply wp_get_info_ok; [eassumption | assumption | side | intros ? ?];
  do 3 stmt; apply wp_fail_if; [cbn [info_size fst]; by rewrite Hsize, Z.eqb_refl|];
  do 5 stmt;
  eapply wp_get_ok; [eassumption | assumption | side | cbn [fst]; lia | lia | lia
    | unfold sizeof; rewrite length_replicate; lia | intros ? ?];
  cbn [fst]; do 5 stmt;
  apply wp_memcmp; [lia | lia | rewrite slice_all by lia; unfold sizeof in *;
    rewrite splice_length; rewrite length_replicate; lia | lia |];
  change (Z.to_nat 0) with 0%nat; rewrite !drop_0, memcmp_read_back by lia;
  do 4 stmt.
