(* ===== verification/ItsTests.v ===== *)
(** * Internal Trusted Storage tests: tests_reg/test/secure_fw/suites/its

    The test programs of its_tests_common.c, of the non-secure, secure and
    reliability suites, and the suites' test tables and registration. *)

From S2P Require Import Prelude LogRaw TestFramework TestProg PsaStorage.
Local Open Scope Z_scope.

(** ** its_tests_common.h *)

Definition WRITE_ONCE_UID : Z := 1.
Definition TEST_UID_1 : Z := 2.
Definition TEST_UID_2 : Z := 3.
Definition TEST_UID_3 : Z := 4.
Definition INVALID_UID : Z := 0.
Definition INVALID_FLAG : Z := u32 (Z.shiftl 1 31).

Definition WRITE_ONCE_DATA : string := "THE_FIVE_BOXING_WIZARDS_JUMP_QUICKLY".
Definition WRITE_ONCE_DATA_SIZE : Z := sizeof (cstr WRITE_ONCE_DATA) - 1.
Definition WRITE_ONCE_READ_DATA : string := "############################################".
Definition WRITE_ONCE_RESULT_DATA : string := "####" +:+ WRITE_ONCE_DATA +:+ "####".
Definition WRITE_DATA : string := "THEQUICKBROWNFOXJUMPSOVERALAZYDOG".
Definition WRITE_DATA_SIZE : Z := sizeof (cstr WRITE_DATA) - 1.
Definition READ_DATA : string := "_________________________________________".
Definition RESULT_DATA : string := "____" +:+ WRITE_DATA +:+ "____".
Definition OFFSET_READ_DATA : string := "HEQUICKBROWNFOXJUMPSOVERALAZYDOG".
Definition OFFSET_RESULT_DATA : string := "____" +:+ OFFSET_READ_DATA +:+ "_____".
Definition HALF_PADDING_SIZE : Z := 4.

(** its_tests_common.c *)
Definition TEST_019_CYCLES : Z := 3.

(** psa_its_s_interface_testsuite.c *)
Definition TEST_UID_ACCESS_CONTROL : Z := 42.

(** psa_its_s_reliability_testsuite.c, whose other macros have the values
    above *)
Definition TEST_UID : Z := 2.
Definition LOOP_ITERATIONS_001 : Z := 15.
Definition LOOP_ITERATIONS_002 : Z := 15.

Section tests.
  Context {PC : PsaConsts} {V : Type} {SS : StorageService V}.
  (** [__FILE__]; the values of variables without an initialiser; and
      ITS_MAX_ASSET_SIZE of the configuration. *)
  Variables (__FILE__ : string) (uninit_data : Z -> Z) (ITS_MAX_ASSET_SIZE : Z).
  Abbreviation W := (storage_world V).
  Abbreviation FAIL_IF := (fail_if __FILE__).

(** The ITS interface. *)
Abbreviation psa_its_set := storage_set.
Abbreviation psa_its_get := storage_get.
Abbreviation psa_its_get_null_data := storage_get_null_data.
Abbreviation psa_its_get_null_len := storage_get_null_len.
Abbreviation psa_its_get_info := storage_get_info.
Abbreviation psa_its_get_info_null := storage_get_info_null.
Abbreviation psa_its_remove := storage_remove.

(** An array without an initialiser. *)
Definition uninit_array (n : Z) : list Z := uninit_data <$> seqZ 0 n.

(** [static const uint8_t write_asset_data[ITS_MAX_ASSET_SIZE] = {0xBF}] *)
Definition write_asset_data : list Z := 191 :: replicate (Z.to_nat (ITS_MAX_ASSET_SIZE - 1)) 0.

(** ** its_tests_common.c *)

Definition tfm_its_test_common_001 : P W unit :=
  let uid_1 := TEST_UID_1 in
  let uid_2 := TEST_UID_2 in
  let flags := PSA_STORAGE_FLAG_NONE in
  let data_len := 0 in
  let write_data := [0] in
  let write_data_2 := cstr "TWO" in
  let read_data_2 := uninit_array (sizeof write_data_2 + 1) in
  let read_data_length := uninit_data 0 in
  status ← psa_its_set uid_1 data_len (Some write_data) flags;
  FAIL_IF 34 (negb (status =? PSA_SUCCESS))
    "Set should not fail with valid UID";;
  status ← psa_its_set uid_1 data_len (Some write_data) flags;
  FAIL_IF 41 (negb (status =? PSA_SUCCESS))
    "Set should not fail the second time with valid UID";;
  status ← psa_its_set uid_2 0 None PSA_STORAGE_FLAG_NONE;
  FAIL_IF 48 (negb (status =? PSA_SUCCESS))
    "Set should not fail with size 0";;
  status ←
    psa_its_set uid_2 (sizeof write_data_2) (Some write_data_2) PSA_STORAGE_FLAG_NONE;
  FAIL_IF 55 (negb (status =? PSA_SUCCESS))
    "Set should not fail when setting the asset a second time.";;
  '(status, read_data_2, read_data_length) ←
    psa_its_get uid_2 0 (sizeof read_data_2) read_data_2 0 read_data_length;
  FAIL_IF 62 (negb (read_data_length =? sizeof write_data_2))
    "Wrong asset size is returned.";;
  comp_result ← c_memcmp read_data_2 0 write_data_2 0 read_data_length;
  FAIL_IF 67 (negb (comp_result =? 0))
    "Wrong asset data is get.";;
  status ← psa_its_set INVALID_UID data_len (Some write_data) flags;
  FAIL_IF 74 (negb (status =? PSA_ERROR_INVALID_ARGUMENT))
    "Set should not succeed with an invalid UID.";;
  status ← psa_its_remove uid_1;
  FAIL_IF 81 (negb (status =? PSA_SUCCESS))
    "Remove should not fail with valid UID: uid_1.";;
  status ← psa_its_remove uid_2;
  FAIL_IF 86 (negb (status =? PSA_SUCCESS))
    "Remove should not fail with valid UID: uid_2.";;
  ret_val TEST_PASSED.

(** The note of test 002, a single string literal over three lines. *)
Definition write_once_note : string :=
  "Note: The UID in this test has already been created with" +:+ crlf +:+
  "the PSA_STORAGE_FLAG_WRITE_ONCE flag in a previous test" +:+ crlf +:+
  "run. Wipe the storage area to run the full test." +:+ crlf.

Definition tfm_its_test_common_002 : P W unit :=
  let uid := TEST_UID_2 in
  let flags := PSA_STORAGE_FLAG_NONE in
  let data_len := WRITE_DATA_SIZE in
  let write_data := cstr WRITE_DATA in
  let info := zero_info in
  status ← psa_its_set WRITE_ONCE_UID data_len (Some write_data) flags;
  (if status =? PSA_SUCCESS then
     status ← psa_its_set WRITE_ONCE_UID WRITE_ONCE_DATA_SIZE
       (Some (cstr WRITE_ONCE_DATA)) PSA_STORAGE_FLAG_WRITE_ONCE;
     FAIL_IF 113 (negb (status =? PSA_SUCCESS))
       "Set should not fail with valid flags (existing UID)";;
     '(status, info) ← psa_its_get_info WRITE_ONCE_UID info;
     FAIL_IF 119 (negb (status =? PSA_SUCCESS)) "Failed to get info.";;
     FAIL_IF 125 (negb (info_flags info =? PSA_STORAGE_FLAG_WRITE_ONCE))
       "Failed to return most recent flag set."
   else if status =? PSA_ERROR_NOT_PERMITTED then
     test_log write_once_note []
   else
     TEST_FAIL __FILE__ 138 "Set should not fail with no flags";; return_);;
  status ← psa_its_set uid data_len (Some write_data) INVALID_FLAG;
  FAIL_IF 145 (negb (status =? PSA_ERROR_NOT_SUPPORTED))
    "Set should not succeed with invalid flags";;
  ret_val TEST_PASSED.

Definition tfm_its_test_common_003 : P W unit :=
  let uid := TEST_UID_3 in
  let flags := PSA_STORAGE_FLAG_NONE in
  let data_len := 0 in
  status ← psa_its_set uid data_len None flags;
  FAIL_IF 162 (negb (status =? PSA_SUCCESS))
    "Set should succeed with NULL data pointer and zero length";;
  ret_val TEST_PASSED.

Definition tfm_its_test_common_004 : P W unit :=
  let uid := WRITE_ONCE_UID in
  let flags := PSA_STORAGE_FLAG_NONE in
  let write_len := WRITE_DATA_SIZE in
  let read_len := WRITE_ONCE_DATA_SIZE in
  let offset := 0 in
  let write_data := cstr WRITE_DATA in
  let read_data := cstr WRITE_ONCE_READ_DATA in
  let read_data_length := 0 in
  status ← psa_its_set uid write_len (Some write_data) flags;
  FAIL_IF 185 (negb (status =? PSA_ERROR_NOT_PERMITTED))
    "Set should not rewrite a write once UID";;
  '(status, read_data, read_data_length) ←
    psa_its_get uid offset read_len read_data HALF_PADDING_SIZE read_data_length;
  FAIL_IF 193 (negb (status =? PSA_SUCCESS))
    "Get should not fail";;
  comp_result ← c_memcmp read_data 0 (cstr WRITE_ONCE_RESULT_DATA) 0 (sizeof read_data);
  FAIL_IF 200 (negb (comp_result =? 0))
    "Write once data should not have changed";;
  FAIL_IF 206 (negb (read_data_length =? read_len))
    "Write once data length should not have changed";;
  ret_val TEST_PASSED.

Definition tfm_its_test_common_005 : P W unit :=
  let uid := TEST_UID_2 in
  let flags := PSA_STORAGE_FLAG_NONE in
  let data_len := WRITE_DATA_SIZE in
  let offset := 0 in
  let write_data := cstr WRITE_DATA in
  let read_data := cstr READ_DATA in
  let p_read_data := 0 in
  let read_data_length := 0 in
  status ← psa_its_set uid data_len (Some write_data) flags;
  FAIL_IF 228 (negb (status =? PSA_SUCCESS))
    "Set should not fail";;
  '(status, read_data, read_data_length) ←
    psa_its_get uid offset data_len read_data HALF_PADDING_SIZE read_data_length;
  FAIL_IF 236 (negb (status =? PSA_SUCCESS))
    "Get should not fail";;
  comp_result ← c_memcmp read_data 0 (cstr RESULT_DATA) 0 (sizeof read_data);
  FAIL_IF 243 (negb (comp_result =? 0))
    "Read data should be equal to result data";;
  FAIL_IF 249 (negb (read_data_length =? data_len))
    "Read data length should be equal to requested data length";;
  read_data ← c_memcpy read_data (cstr READ_DATA) (sizeof read_data);
  let offset := 2 in
  let data_len := u32 (data_len - (u32 (offset + 2))) in
  '(status, read_data, read_data_length) ←
    psa_its_get uid offset data_len read_data HALF_PADDING_SIZE read_data_length;
  FAIL_IF 263 (negb (status =? PSA_SUCCESS))
    "Get should not fail";;
  comp_result ← c_memcmp read_data p_read_data (cstr "____") 0 HALF_PADDING_SIZE;
  FAIL_IF 270 (negb (comp_result =? 0))
    "Read data contains illegal pre-data";;
  let p_read_data := p_read_data + HALF_PADDING_SIZE in
  comp_result ← c_memcmp read_data p_read_data write_data offset data_len;
  FAIL_IF 278 (negb (comp_result =? 0))
    "Read data incorrect";;
  let p_read_data := p_read_data + data_len in
  comp_result ← c_memcmp read_data p_read_data (cstr "____") 0 HALF_PADDING_SIZE;
  FAIL_IF 286 (negb (comp_result =? 0))
    "Read data contains illegal post-data";;
  status ← psa_its_remove uid;
  FAIL_IF 293 (negb (status =? PSA_SUCCESS))
    "Remove should not fail with valid UID";;
  ret_val TEST_PASSED.

Definition tfm_its_test_common_006 : P W unit :=
  let uid := TEST_UID_3 in
  let flags := PSA_STORAGE_FLAG_NONE in
  let write_len := WRITE_DATA_SIZE in
  let read_len := 0 in
  let offset := 0 in
  let write_data := cstr WRITE_DATA in
  let read_data := cstr READ_DATA in
  let read_data_length := 1 in
  status ← psa_its_set uid write_len (Some write_data) flags;
  FAIL_IF 315 (negb (status =? PSA_SUCCESS))
    "Set should not fail";;
  '(status, read_data, read_data_length) ←
    psa_its_get uid offset read_len read_data HALF_PADDING_SIZE read_data_length;
  FAIL_IF 323 (negb (status =? PSA_SUCCESS))
    "Get should not fail with zero data len";;
  comp_result ← c_memcmp read_data 0 (cstr READ_DATA) 0 (sizeof read_data);
  FAIL_IF 330 (negb (comp_result =? 0))
    "Read data should be equal to original read data";;
  FAIL_IF 336 (negb (read_data_length =? 0))
    "Read data length should be equal to zero";;
  let offset := 5 in
  let read_data_length := 1 in
  '(status, read_data, read_data_length) ←
    psa_its_get uid offset read_len read_data HALF_PADDING_SIZE read_data_length;
  FAIL_IF 347 (negb (status =? PSA_SUCCESS))
    "Get should not fail";;
  comp_result ← c_memcmp read_data 0 (cstr READ_DATA) 0 (sizeof read_data);
  FAIL_IF 354 (negb (comp_result =? 0))
    "Read data should be equal to original read data";;
  FAIL_IF 360 (negb (read_data_length =? 0))
    "Read data length should be equal to zero";;
  status ← psa_its_remove uid;
  FAIL_IF 367 (negb (status =? PSA_SUCCESS))
    "Remove should not fail with valid UID";;
  ret_val TEST_PASSED.

Definition tfm_its_test_common_007 : P W unit :=
  let uid := TEST_UID_1 in
  let data_len := 1 in
  let offset := 0 in
  let read_data := cstr READ_DATA in
  let read_data_length := 0 in
  '(status, read_data, read_data_length) ←
    psa_its_get uid offset data_len read_data HALF_PADDING_SIZE read_data_length;
  FAIL_IF 388 (negb (status =? PSA_ERROR_DOES_NOT_EXIST))
    "Get succeeded with non-existant UID";;
  comp_result ← c_memcmp read_data 0 (cstr READ_DATA) 0 (sizeof read_data);
  FAIL_IF 395 (negb (comp_result =? 0))
    "Read data not equal to original read data";;
  '(status, read_data, read_data_length) ←
    psa_its_get INVALID_UID offset data_len read_data HALF_PADDING_SIZE read_data_length;
  FAIL_IF 403 (negb (status =? PSA_ERROR_INVALID_ARGUMENT))
    "Get succeeded with invalid UID";;
  comp_result ← c_memcmp read_data 0 (cstr READ_DATA) 0 (sizeof read_data);
  FAIL_IF 410 (negb (comp_result =? 0))
    "Read data not equal to original read data";;
  ret_val TEST_PASSED.

Definition tfm_its_test_common_008 : P W unit :=
  let uid := TEST_UID_2 in
  let flags := PSA_STORAGE_FLAG_NONE in
  let write_len := WRITE_DATA_SIZE in
  let read_len := uninit_data 0 in
  let offset := uninit_data 0 in
  let write_data := cstr WRITE_DATA in
  let read_data := cstr READ_DATA in
  let read_data_length := 0 in
  status ← psa_its_set uid write_len (Some write_data) flags;
  FAIL_IF 432 (negb (status =? PSA_SUCCESS))
    "Set should not fail";;
  let read_len := 1 in
  let offset := u32 (write_len + 1) in
  '(status, read_data, read_data_length) ←
    psa_its_get uid offset read_len read_data HALF_PADDING_SIZE read_data_length;
  FAIL_IF 443 (negb (status =? PSA_ERROR_INVALID_ARGUMENT))
    "Get should not succeed with offset too large";;
  comp_result ← c_memcmp read_data 0 (cstr READ_DATA) 0 (sizeof read_data);
  FAIL_IF 450 (negb (comp_result =? 0))
    "Read data should be equal to original read data";;
  let read_len := u32 (write_len + 1) in
  let offset := 0 in
  '(status, read_data, read_data_length) ←
    psa_its_get uid offset read_len read_data HALF_PADDING_SIZE read_data_length;
  FAIL_IF 461 (negb (status =? PSA_SUCCESS))
    "Get should succeed with data length larger than UID's length";;
  FAIL_IF 467 (negb (read_data_length =? write_len))
    "Read data length should be equal to UID's length";;
  comp_result ← c_memcmp read_data 0 (cstr RESULT_DATA) 0 (sizeof read_data);
  FAIL_IF 474 (negb (comp_result =? 0))
    "Read data should be equal to newly read data";;
  read_data ← c_memcpy read_data (cstr READ_DATA) (sizeof read_data);
  let read_len := write_len in
  let offset := 1 in
  '(status, read_data, read_data_length) ←
    psa_its_get uid offset read_len read_data HALF_PADDING_SIZE read_data_length;
  FAIL_IF 490 (negb (status =? PSA_SUCCESS))
    "Get should succeed with offset + data length too large, but individually valid";;
  FAIL_IF 496 (negb (read_data_length =? u32 (write_len - offset)))
    "Read data length should be equal to the UID's remaining size starting from offset";;
  comp_result ← c_memcmp read_data 0 (cstr OFFSET_RESULT_DATA) 0 (sizeof read_data);
  FAIL_IF 504 (negb (comp_result =? 0))
    "Read data should be equal to newly read data starting at offset";;
  status ← psa_its_remove uid;
  FAIL_IF 512 (negb (status =? PSA_SUCCESS))
    "Remove should not fail with valid UID";;
  ret_val TEST_PASSED.

Definition tfm_its_test_common_009 : P W unit :=
  let uid := TEST_UID_3 in
  let flags := PSA_STORAGE_FLAG_NONE in
  let data_len := WRITE_DATA_SIZE in
  let offset := 0 in
  let write_data := cstr WRITE_DATA in
  let read_data_length := 0 in
  status ← psa_its_set uid data_len (Some write_data) flags;
  FAIL_IF 531 (negb (status =? PSA_SUCCESS))
    "Set should not fail";;
  '(status, read_data_length) ← psa_its_get_null_data uid offset 0 read_data_length;
  FAIL_IF 538 (negb (status =? PSA_SUCCESS))
    "Get should succeed with NULL data pointer and zero length";;
  FAIL_IF 544 (negb (read_data_length =? 0))
    "Read data length should be 0 with NULL data pointer and zero length";;
  status ← psa_its_remove uid;
  FAIL_IF 552 (negb (status =? PSA_SUCCESS))
    "Remove should not fail with valid UID";;
  ret_val TEST_PASSED.

Definition tfm_its_test_common_010 : P W unit :=
  let uid := WRITE_ONCE_UID in
  let info := zero_info in
  '(status, info) ← psa_its_get_info uid info;
  FAIL_IF 568 (negb (status =? PSA_SUCCESS))
    "Get info should not fail for write once UID";;
  FAIL_IF 574 (negb (info_size info =? WRITE_ONCE_DATA_SIZE))
    "Size incorrect for write once UID";;
  FAIL_IF 579 (negb (info_capacity info =? WRITE_ONCE_DATA_SIZE))
    "Capacity incorrect for write once UID";;
  FAIL_IF 584 (negb (info_flags info =? PSA_STORAGE_FLAG_WRITE_ONCE))
    "Flags incorrect for write once UID";;
  ret_val TEST_PASSED.

Definition tfm_its_test_common_011 : P W unit :=
  let uid := TEST_UID_1 in
  let info := zero_info in
  let flags := PSA_STORAGE_FLAG_NONE in
  let data_len := WRITE_DATA_SIZE in
  let write_data := cstr WRITE_DATA in
  status ← psa_its_set uid data_len (Some write_data) flags;
  FAIL_IF 602 (negb (status =? PSA_SUCCESS))
    "Set should not fail";;
  '(status, info) ← psa_its_get_info uid info;
  FAIL_IF 609 (negb (status =? PSA_SUCCESS))
    "Get info should not fail with valid UID";;
  FAIL_IF 615 (negb (info_size info =? data_len))
    "Size incorrect for valid UID";;
  FAIL_IF 620 (negb (info_capacity info =? data_len))
    "Capacity incorrect for valid UID";;
  FAIL_IF 625 (negb (info_flags info =? flags))
    "Flags incorrect for valid UID";;
  status ← psa_its_remove uid;
  FAIL_IF 632 (negb (status =? PSA_SUCCESS))
    "Remove should not fail with valid UID";;
  ret_val TEST_PASSED.

Definition tfm_its_test_common_012 : P W unit :=
  let uid := TEST_UID_2 in
  let info := zero_info in
  '(status, info) ← psa_its_get_info uid info;
  FAIL_IF 648 (negb (status =? PSA_ERROR_DOES_NOT_EXIST))
    "Get info should not succeed with unset UID";;
  FAIL_IF 654 (negb (info_size info =? 0))
    "Size should not have changed";;
  '(status, info) ← psa_its_get_info INVALID_UID info;
  FAIL_IF 661 (negb (status =? PSA_ERROR_INVALID_ARGUMENT))
    "Get info should not succeed with invalid UID";;
  FAIL_IF 667 (negb (info_size info =? 0))
    "Size should not have changed";;
  FAIL_IF 672 (negb (info_capacity info =? 0))
    "Capacity should not have changed";;
  FAIL_IF 677 (negb (info_flags info =? PSA_STORAGE_FLAG_NONE))
    "Flags should not have changed";;
  ret_val TEST_PASSED.

Definition tfm_its_test_common_013 : P W unit :=
  let uid := TEST_UID_1 in
  let info := zero_info in
  let flags := PSA_STORAGE_FLAG_NONE in
  let data_len := WRITE_DATA_SIZE in
  let offset := 0 in
  let write_data := cstr WRITE_DATA in
  let read_data := cstr READ_DATA in
  let read_data_length := 0 in
  status ← psa_its_set uid data_len (Some write_data) flags;
  FAIL_IF 698 (negb (status =? PSA_SUCCESS))
    "Set should not fail";;
  status ← psa_its_remove uid;
  FAIL_IF 705 (negb (status =? PSA_SUCCESS))
    "Remove should not fail with valid UID";;
  '(status, info) ← psa_its_get_info uid info;
  FAIL_IF 712 (negb (status =? PSA_ERROR_DOES_NOT_EXIST))
    "Get info should not succeed with removed UID";;
  '(status, read_data, read_data_length) ←
    psa_its_get uid offset data_len read_data 0 read_data_length;
  FAIL_IF 719 (negb (status =? PSA_ERROR_DOES_NOT_EXIST))
    "Get should not succeed with removed UID";;
  status ← psa_its_remove uid;
  FAIL_IF 726 (negb (status =? PSA_ERROR_DOES_NOT_EXIST))
    "Remove should not succeed with removed UID";;
  ret_val TEST_PASSED.

Definition tfm_its_test_common_014 : P W unit :=
  let uid := WRITE_ONCE_UID in
  status ← psa_its_remove uid;
  FAIL_IF 741 (negb (status =? PSA_ERROR_NOT_PERMITTED))
    "Remove should not succeed with write once UID";;
  ret_val TEST_PASSED.

Definition tfm_its_test_common_015 : P W unit :=
  let uid := INVALID_UID in
  status ← psa_its_remove uid;
  FAIL_IF 756 (negb (status =? PSA_ERROR_INVALID_ARGUMENT))
    "Remove should not succeed with invalid UID";;
  ret_val TEST_PASSED.

Definition tfm_its_test_common_016 : P W unit :=
  let uid_1 := TEST_UID_2 in
  let uid_2 := TEST_UID_3 in
  let flags := PSA_STORAGE_FLAG_NONE in
  let data_len_2 := WRITE_DATA_SIZE in
  let offset := 0 in
  let write_data_1 := cstr "UID 1 DATA" in
  let write_data_2 := cstr WRITE_DATA in
  let read_data := cstr READ_DATA in
  let read_data_length := 0 in
  status ← psa_its_set uid_1 (sizeof write_data_1) (Some write_data_1) flags;
  FAIL_IF 780 (negb (status =? PSA_SUCCESS))
    "Set should not fail for UID 1";;
  status ← psa_its_set uid_2 data_len_2 (Some write_data_2) flags;
  FAIL_IF 787 (negb (status =? PSA_SUCCESS))
    "Set should not fail for UID 2";;
  status ← psa_its_remove uid_1;
  FAIL_IF 796 (negb (status =? PSA_SUCCESS))
    "Remove should not fail for UID 1";;
  '(status, read_data, read_data_length) ←
    psa_its_get uid_2 offset data_len_2 read_data HALF_PADDING_SIZE read_data_length;
  FAIL_IF 806 (negb (status =? PSA_SUCCESS))
    "Get should not fail for UID 2";;
  comp_result ← c_memcmp read_data 0 (cstr RESULT_DATA) 0 (sizeof read_data);
  FAIL_IF 812 (negb (comp_result =? 0))
    "Read buffer has incorrect data";;
  FAIL_IF 817 (negb (read_data_length =? WRITE_DATA_SIZE))
    "Read data length should be equal to result data length";;
  status ← psa_its_remove uid_2;
  FAIL_IF 824 (negb (status =? PSA_SUCCESS))
    "Remove should not fail for UID 2";;
  ret_val TEST_PASSED.

Definition tfm_its_test_common_017 : P W unit :=
  let uid := TEST_UID_1 in
  let flags := PSA_STORAGE_FLAG_NONE in
  let data_len := WRITE_DATA_SIZE in
  let write_data := cstr WRITE_DATA in
  let read_data := cstr READ_DATA in
  let read_data_length := 0 in
  status ← psa_its_set uid data_len (Some write_data) flags;
  FAIL_IF 846 (negb (status =? PSA_SUCCESS)) "Set should not fail";;
  '(read_data, read_data_length) ←
    for_range 0 data_len (fun offset '(read_data, read_data_length) =>
      '(status, read_data, read_data_length) ←
        psa_its_get uid offset 1 read_data (HALF_PADDING_SIZE + offset) read_data_length;
      FAIL_IF 856 (negb (status =? PSA_SUCCESS)) "Get should not fail for partial read";;
      mret (read_data, read_data_length)) (read_data, read_data_length);
  comp_result ← c_memcmp read_data 0 (cstr RESULT_DATA) 0 (sizeof read_data);
  FAIL_IF 863 (negb (comp_result =? 0)) "Read buffer has incorrect data";;
  status ← psa_its_remove uid;
  FAIL_IF 870 (negb (status =? PSA_SUCCESS)) "Remove should not fail";;
  ret_val TEST_PASSED.

Definition tfm_its_test_common_018 : P W unit :=
  let uid := TEST_UID_2 in
  let flags := PSA_STORAGE_FLAG_NONE in
  let offset := 0 in
  let write_data_1 := cstr "ONE" in
  let write_data_2 := cstr "TWO" in
  let write_data_3 := cstr "THREE" in
  let read_data := cstr READ_DATA in
  let read_data_length := 0 in
  status ← psa_its_set uid (sizeof write_data_1) (Some write_data_1) flags;
  FAIL_IF 893 (negb (status =? PSA_SUCCESS))
    "First set should not fail";;
  status ← psa_its_set uid (sizeof write_data_2) (Some write_data_2) flags;
  FAIL_IF 900 (negb (status =? PSA_SUCCESS))
    "Second set should not fail";;
  status ← psa_its_set uid (sizeof write_data_3) (Some write_data_3) flags;
  FAIL_IF 907 (negb (status =? PSA_SUCCESS))
    "Third set should not fail";;
  '(status, read_data, read_data_length) ←
    psa_its_get uid offset (sizeof write_data_3) read_data 0 read_data_length;
  FAIL_IF 914 (negb (status =? PSA_SUCCESS))
    "Get should not fail";;
  comp_result ← c_memcmp read_data 0 write_data_3 0 (sizeof write_data_3);
  FAIL_IF 921 (negb (comp_result =? 0))
    "Read buffer has incorrect data";;
  FAIL_IF 926 (negb (read_data_length =? sizeof write_data_3))
    "Read data length should be equal to result data length";;
  status ← psa_its_remove uid;
  FAIL_IF 933 (negb (status =? PSA_SUCCESS))
    "Remove should not fail";;
  ret_val TEST_PASSED.

(** The body of the loop of test 019. *)
Definition test_019_cycle (uid data_size read_data_length : Z) : P W Z :=
  let info := zero_info in
  '(_, len) ← get_statics;
  put_statics (replicate (Z.to_nat ITS_MAX_ASSET_SIZE) 0) len;;
  status ← psa_its_set uid data_size (Some write_asset_data) PSA_STORAGE_FLAG_NONE;
  FAIL_IF 969 (negb (status =? PSA_SUCCESS)) "Set should not fail with valid UID";;
  '(status, info) ← psa_its_get_info uid info;
  FAIL_IF 976 (negb (status =? PSA_SUCCESS)) "Get info should not fail with valid UID";;
  FAIL_IF 982 (negb (info_size info =? data_size)) "Size incorrect for valid UID";;
  FAIL_IF 987 (negb (info_flags info =? PSA_STORAGE_FLAG_NONE))
    "Flags incorrect for valid UID";;
  '(read_asset_data, len) ← get_statics;
  '(status, read_asset_data, read_data_length) ←
    psa_its_get uid 0 data_size read_asset_data 0 read_data_length;
  put_statics read_asset_data len;;
  FAIL_IF 995 (negb (status =? PSA_SUCCESS)) "Get should not fail with valid UID";;
  comp_result ← c_memcmp read_asset_data 0 write_asset_data 0 data_size;
  FAIL_IF 1002 (negb (comp_result =? 0)) "Read data should be equal to original write data";;
  FAIL_IF 1007 (negb (read_data_length =? data_size))
    "Read data length should be equal to result data length";;
  status ← psa_its_remove uid;
  FAIL_IF 1014 (negb (status =? PSA_SUCCESS)) "Remove should not fail with valid UID";;
  mret read_data_length.

Definition tfm_its_test_common_019 : P W unit :=
  let test_uid := [TEST_UID_1; TEST_UID_2; TEST_UID_3] in
  let test_asset_sizes := [Z.shiftr ITS_MAX_ASSET_SIZE 2; Z.shiftr ITS_MAX_ASSET_SIZE 1;
                           ITS_MAX_ASSET_SIZE] in
  let read_data_length := 0 in
  for_range 0 TEST_019_CYCLES (fun cycle read_data_length =>
    test_019_cycle (nth (Z.to_nat cycle) test_uid 0) (nth (Z.to_nat cycle) test_asset_sizes 0)
      read_data_length) read_data_length;;
  ret_val TEST_PASSED.

Definition tfm_its_test_common_020 : P W unit :=
  let write_data := replicate (Z.to_nat (ITS_MAX_ASSET_SIZE + 1)) 0 in
  status ←
    psa_its_set TEST_UID_1 (u32 (ITS_MAX_ASSET_SIZE + 1)) (Some write_data) PSA_STORAGE_FLAG_NONE;
  FAIL_IF 1029 (negb (status =? PSA_ERROR_INVALID_ARGUMENT))
    "Setting UID with size exceeding maximum did not return error";;
  ret_val TEST_PASSED.

Definition tfm_its_test_common_021 : P W unit :=
  let uid := TEST_UID_2 in
  let data_len := WRITE_DATA_SIZE in
  let write_data := cstr WRITE_DATA in
  let read_data := cstr READ_DATA in
  status ← psa_its_set uid data_len (Some write_data) PSA_STORAGE_FLAG_NONE;
  FAIL_IF 1045 (negb (status =? PSA_SUCCESS))
    "Failed to set UID";;
  '(status, read_data) ← psa_its_get_null_len uid 0 1 read_data HALF_PADDING_SIZE;
  FAIL_IF 1051 (negb (status =? PSA_ERROR_INVALID_ARGUMENT))
    "Get with null pointer and size greater than 0 Should return error PSA_ERROR_INVALID_ARGUMENT";;
  status ← psa_its_remove uid;
  FAIL_IF 1058 (negb (status =? PSA_SUCCESS))
    "Remove should not fail with valid UID";;
  ret_val TEST_PASSED.

(** ** psa_its_ns_interface_testsuite.c

    The tests built when CONFIG_TFM_ERPC_TEST_FRAMEWORK is not 1. *)

Definition tfm_its_ns_test_001 : P W unit :=
  status ← psa_its_set TEST_UID_2 1 None PSA_STORAGE_FLAG_NONE;
  FAIL_IF 87 (negb (status =? PSA_ERROR_PROGRAMMER_ERROR))
    "Set with null data pointer and length over 0 should return PSA_ERROR_PROGRAMMER_ERROR";;
  ret_val TEST_PASSED.

Definition tfm_its_ns_test_002 : P W unit :=
  let uid := TEST_UID_2 in
  status ← psa_its_set uid WRITE_DATA_SIZE (Some (cstr WRITE_DATA)) PSA_STORAGE_FLAG_NONE;
  FAIL_IF 101 (negb (status =? PSA_SUCCESS))
    "Set should not fail";;
  status ← psa_its_get_info_null uid;
  FAIL_IF 107 (negb (status =? PSA_ERROR_INVALID_ARGUMENT))
    "Get info with null pointer should return PSA_ERROR_INVALID_ARGUMENT";;
  status ← psa_its_remove uid;
  FAIL_IF 113 (negb (status =? PSA_SUCCESS))
    "Remove should not fail with valid UID";;
  ret_val TEST_PASSED.

Definition tfm_its_ns_test_003 : P W unit :=
  let uid := TEST_UID_2 in
  let data_len := WRITE_DATA_SIZE in
  let write_data := cstr WRITE_DATA in
  let read_data_length := uninit_data 0 in
  status ← psa_its_set uid data_len (Some write_data) PSA_STORAGE_FLAG_NONE;
  FAIL_IF 129 (negb (status =? PSA_SUCCESS))
    "Failed to set UID with PSA_STORAGE_FLAG_NONE flag.";;
  '(status, read_data_length) ← psa_its_get_null_data uid 0 1 read_data_length;
  FAIL_IF 135 (negb (status =? PSA_ERROR_PROGRAMMER_ERROR))
    "Get with null data pointer and size greater than 0 should return PSA_PROGRAMMER_ERROR";;
  status ← psa_its_remove uid;
  FAIL_IF 142 (negb (status =? PSA_SUCCESS))
    "Remove should not fail with valid UID";;
  ret_val TEST_PASSED.

(** The same tests when CONFIG_TFM_ERPC_TEST_FRAMEWORK is 1: all three have
    this body. *)
Definition tfm_its_ns_test_erpc : P W unit :=
  test_log ("  This test case is not supported by the RPC test framework." +:+ crlf) [];;
  ret_val TEST_SKIPPED.

(** ** psa_its_s_reliability_testsuite.c *)

(** The statements of one iteration up to the check of the data, common to
    both tests; [lns] are the lines of the three checks. *)
Definition set_and_get (uid : Z) (lns : Z * Z * Z) (loops itr : Z) (read_data : list Z)
    (read_data_length : Z) : P W (list Z * Z) :=
  let flags := PSA_STORAGE_FLAG_NONE in
  let data_len := WRITE_DATA_SIZE in
  let offset := 0 in
  let write_data := cstr WRITE_DATA in
  test_log ("  > Iteration %d of %d" +:+ cr) [VaInt (u32 (itr + 1)); VaInt loops];;
  status ← psa_its_set uid data_len (Some write_data) flags;
  FAIL_IF lns.1.1 (negb (status =? PSA_SUCCESS)) "Set should not fail with valid UID";;
  '(status, read_data, read_data_length) ←
    psa_its_get uid offset data_len read_data HALF_PADDING_SIZE read_data_length;
  FAIL_IF lns.1.2 (negb (status =? PSA_SUCCESS)) "Get should not fail";;
  comp_result ← c_memcmp read_data 0 (cstr RESULT_DATA) 0 (sizeof read_data);
  FAIL_IF lns.2 (negb (comp_result =? 0)) "The data should not have changed";;
  mret (read_data, read_data_length).

Definition tfm_its_test_2001 : P W unit :=
  let uid := TEST_UID in
  let read_data := cstr READ_DATA in
  let read_data_length := 0 in
  for_range 0 LOOP_ITERATIONS_001 (fun itr '(read_data, read_data_length) =>
    '(read_data, read_data_length) ←
      set_and_get uid (74, 83, 89) LOOP_ITERATIONS_001 itr read_data read_data_length;
    read_data ← c_memcpy read_data (cstr READ_DATA) (sizeof read_data);
    mret (read_data, read_data_length)) (read_data, read_data_length);;
  test_log lf [];;
  status ← psa_its_remove uid;
  FAIL_IF 102 (negb (status =? PSA_SUCCESS)) "Remove should not fail with valid UID";;
  ret_val TEST_PASSED.

Definition tfm_its_test_2002 : P W unit :=
  let uid := TEST_UID in
  let read_data := cstr READ_DATA in
  let read_data_length := 0 in
  for_range 0 LOOP_ITERATIONS_002 (fun itr '(read_data, read_data_length) =>
    '(read_data, read_data_length) ←
      set_and_get uid (132, 141, 147) LOOP_ITERATIONS_002 itr read_data read_data_length;
    status ← psa_its_remove uid;
    FAIL_IF 154 (negb (status =? PSA_SUCCESS)) "Remove should not fail with valid UID";;
    read_data ← c_memcpy read_data (cstr READ_DATA) (sizeof read_data);
    mret (read_data, read_data_length)) (read_data, read_data_length);;
  test_log lf [];;
  ret_val TEST_PASSED.

(** ** Tables and registration *)

(** With CONFIG_TFM_ERPC_TEST_FRAMEWORK other than 1. *)
Definition psa_its_ns_tests : list (test_t W) :=
  [TEST tfm_its_test_common_001 "TFM_NS_ITS_TEST_1001" "Set interface";
   TEST tfm_its_test_common_002 "TFM_NS_ITS_TEST_1002" "Set interface with create flags and get latest set flag";
   TEST tfm_its_test_common_003 "TFM_NS_ITS_TEST_1003" "Set interface with NULL data pointer";
   TEST tfm_its_test_common_004 "TFM_NS_ITS_TEST_1004" "Set interface with write once UID";
   TEST tfm_its_test_common_005 "TFM_NS_ITS_TEST_1005" "Get interface with valid data";
   TEST tfm_its_test_common_006 "TFM_NS_ITS_TEST_1006" "Get interface with zero data length";
   TEST tfm_its_test_common_007 "TFM_NS_ITS_TEST_1007" "Get interface with invalid UIDs";
   TEST tfm_its_test_common_008 "TFM_NS_ITS_TEST_1008" "Get interface with invalid data lengths and offsets";
   TEST tfm_its_test_common_009 "TFM_NS_ITS_TEST_1009" "Get interface with NULL data pointer";
   TEST tfm_its_test_common_010 "TFM_NS_ITS_TEST_1010" "Get info interface with write once UID";
   TEST tfm_its_test_common_011 "TFM_NS_ITS_TEST_1011" "Get info interface with valid UID";
   TEST tfm_its_test_common_012 "TFM_NS_ITS_TEST_1012" "Get info interface with invalid UIDs";
   TEST tfm_its_test_common_013 "TFM_NS_ITS_TEST_1013" "Remove interface with valid UID";
   TEST tfm_its_test_common_014 "TFM_NS_ITS_TEST_1014" "Remove interface with write once UID";
   TEST tfm_its_test_common_015 "TFM_NS_ITS_TEST_1015" "Remove interface with invalid UID";
   TEST tfm_its_test_common_016 "TFM_NS_ITS_TEST_1016" "Block compaction after remove";
   TEST tfm_its_test_common_017 "TFM_NS_ITS_TEST_1017" "Multiple partial gets";
   TEST tfm_its_test_common_018 "TFM_NS_ITS_TEST_1018" "Multiple sets to same UID from same thread";
   TEST tfm_its_test_common_019 "TFM_NS_ITS_TEST_1019" "Set, get and remove interface with different asset sizes";
   TEST tfm_its_test_common_020 "TFM_NS_ITS_TEST_1020" "Set with asset size that exceeds the maximum";
   TEST tfm_its_test_common_021 "TFM_NS_ITS_TEST_1021" "Get interface with data_len over 0 and NULL data length pointer";
   TEST tfm_its_ns_test_001 "TFM_NS_ITS_TEST_001" "Set interface with NULL data pointer and length over 0";
   TEST tfm_its_ns_test_002 "TFM_NS_ITS_TEST_002" "Get info interface with NULL p_info";
   TEST tfm_its_ns_test_003 "TFM_NS_ITS_TEST_003" "Get interface with NULL data pointer and data_size over 0"].

Definition register_testsuite_ns_psa_its_interface : TESTSUITE_REG W :=
  register "PSA internal trusted storage NS interface tests (TFM_NS_ITS_TEST_1XXX)"
    psa_its_ns_tests.

(** [tfm_its_test_1020] calls the secure client 2 partition, which is the
    argument here. *)
Definition psa_its_s_tests (tfm_its_test_1020 : P W unit) : list (test_t W) :=
  [TEST tfm_its_test_common_001 "TFM_S_ITS_TEST_1001" "Set interface";
   TEST tfm_its_test_common_002 "TFM_S_ITS_TEST_1002" "Set interface with create flags and get latest set flag";
   TEST tfm_its_test_common_003 "TFM_S_ITS_TEST_1003" "Set interface with NULL data pointer";
   TEST tfm_its_test_common_004 "TFM_S_ITS_TEST_1004" "Set interface with write once UID";
   TEST tfm_its_test_common_005 "TFM_S_ITS_TEST_1005" "Get interface with valid data";
   TEST tfm_its_test_common_006 "TFM_S_ITS_TEST_1006" "Get interface with zero data length";
   TEST tfm_its_test_common_007 "TFM_S_ITS_TEST_1007" "Get interface with invalid UIDs";
   TEST tfm_its_test_common_008 "TFM_S_ITS_TEST_1008" "Get interface with data lengths and offsets greater than UID length";
   TEST tfm_its_test_common_009 "TFM_S_ITS_TEST_1009" "Get interface with NULL data pointer";
   TEST tfm_its_test_common_010 "TFM_S_ITS_TEST_1010" "Get info interface with write once UID";
   TEST tfm_its_test_common_011 "TFM_S_ITS_TEST_1011" "Get info interface with valid UID";
   TEST tfm_its_test_common_012 "TFM_S_ITS_TEST_1012" "Get info interface with invalid UIDs";
   TEST tfm_its_test_common_013 "TFM_S_ITS_TEST_1013" "Remove interface with valid UID";
   TEST tfm_its_test_common_014 "TFM_S_ITS_TEST_1014" "Remove interface with write once UID";
   TEST tfm_its_test_common_015 "TFM_S_ITS_TEST_1015" "Remove interface with invalid UID";
   TEST tfm_its_test_common_016 "TFM_S_ITS_TEST_1016" "Block compaction after remove";
   TEST tfm_its_test_common_017 "TFM_S_ITS_TEST_1017" "Multiple partial gets";
   TEST tfm_its_test_common_018 "TFM_S_ITS_TEST_1018" "Multiple sets to same UID from same thread";
   TEST tfm_its_test_common_019 "TFM_S_ITS_TEST_1019" "Set, get and remove interface with different asset sizes";
   TEST tfm_its_test_common_020 "TFM_S_ITS_TEST_1020" "Set with asset size that exceeds the maximum";
   TEST tfm_its_test_common_021 "TFM_S_ITS_TEST_1021" "Get interface with data_len over 0 and NULL data length pointer";
   TEST tfm_its_test_1020 "TFM_S_ITS_TEST_1023" "Attempt to get a UID set by a different partition"].

Definition register_testsuite_s_psa_its_interface (tfm_its_test_1020 : P W unit) :
    TESTSUITE_REG W :=
  register "PSA internal trusted storage S interface tests (TFM_S_ITS_TEST_1XXX)"
    (psa_its_s_tests tfm_its_test_1020).

Definition reliability_tests : list (test_t W) :=
  [TEST tfm_its_test_2001 "TFM_S_ITS_TEST_2001" "repetitive sets and gets in/from an asset";
   TEST tfm_its_test_2002 "TFM_S_ITS_TEST_2002" "repetitive sets, gets and removes"].

Definition register_testsuite_s_psa_its_reliability : TESTSUITE_REG W :=
  register "ITS reliability tests (TFM_ITS_TEST_2XXX)" reliability_tests.
End tests.
