(* ===== verification/SecureClient2.v ===== *)
(** * The secure client 2 partition

    tests_reg/test/secure_fw/common_test_services/tfm_secure_client_2: the
    message handler of the partition, its dispatch, the test functions for ITS
    and for crypto and the client function, and test 1020 of the secure ITS suite, which uses
    the partition to access an asset under another client ID.

    Messages travel through the SPM, which is not part of the repository:
    [PsaService] and [PsaClient] are the part of the Firmware Framework's API
    used here, and [SpmLaws] what the framework documents. *)

From S2P Require Import Prelude LogRaw TestFramework TestProg PsaStorage StorageTactics ItsTests.
Local Open Scope Z_scope.

(** The fields of [psa_msg_t] the partition uses, and the contents of input
    vector 0. *)
Record psa_msg_t := mkMsg { msg_type : Z; msg_in : list Z }.

Class PsaService := {
  PSA_IPC_CONNECT : Z;
  PSA_IPC_DISCONNECT : Z;
  (** [psa_read(msg->handle, 0, buf, n)]: the bytes read *)
  psa_read : psa_msg_t -> Z -> list Z;
}.

Class PsaClient (V : Type) := {
  PSA_HANDLE_IS_VALID : Z -> bool;
  psa_connect : V -> Z * V;
  psa_call : Z -> Z -> list Z -> V -> Z * V;
  psa_close : Z -> V -> V;
}.

Definition TFM_SECURE_CLIENT_2_ID_ITS_ACCESS_CTRL : Z := 1001.
Definition TFM_SECURE_CLIENT_2_ID_CRYPTO_ACCESS_CTRL : Z := 2001.
Definition SECURE_CLIENT_2_MAX_ARG_LEN : Z := 8.

Section secure_client_2.
  Context {PC : PsaConsts} {V : Type} {SS : StorageService V} {PS : PsaService}.
  (** A call of the crypto service, which is outside the repository. *)
  Variable psa_destroy_key : Z -> V -> Z * V.

(** [psa_key_handle_t] is a [uint32_t]. *)
Definition secure_client_2_test_crypto_access_ctrl (arg : list Z) (v : V) : Z * V :=
  if negb (sizeof arg =? 4) then (PSA_ERROR_PROGRAMMER_ERROR, v)
  else
    let key_handle := le_value arg in
    psa_destroy_key key_handle v.

(** [psa_storage_uid_t] is [uint64_t]. *)
Definition secure_client_2_test_its_access_ctrl (arg : list Z) (v : V) : Z * V :=
  if negb (sizeof arg =? 8) then (PSA_ERROR_PROGRAMMER_ERROR, v)
  else
    let uid := le_value arg in
    let '((status, _, _), v) := svc_get uid 0 1 true true v in
    (status, v).

(** With TFM_PARTITION_INTERNAL_TRUSTED_STORAGE and TFM_PARTITION_CRYPTO. *)
Definition secure_client_2_dispatch (id : Z) (arg : list Z) (v : V) : Z * V :=
  if id =? TFM_SECURE_CLIENT_2_ID_ITS_ACCESS_CTRL then
    secure_client_2_test_its_access_ctrl arg v
  else if id =? TFM_SECURE_CLIENT_2_ID_CRYPTO_ACCESS_CTRL then
    secure_client_2_test_crypto_access_ctrl arg v
  else (PSA_ERROR_PROGRAMMER_ERROR, v).

(** Without TFM_IPC_ISOLATION_3_RETRIEVE_APP_MEM. *)
Definition tfm_secure_client_2_handle_msg (msg : psa_msg_t) (v : V) : Z * V :=
  if (msg_type msg =? PSA_IPC_CONNECT) || (msg_type msg =? PSA_IPC_DISCONNECT) then
    (PSA_SUCCESS, v)
  else
    let arg := psa_read msg SECURE_CLIENT_2_MAX_ARG_LEN in
    secure_client_2_dispatch (msg_type msg) arg v.

(** With TFM_SP_SECURE_CLIENT_2_MODEL_SFN. *)
Definition tfm_secure_client_2_sfn (msg : psa_msg_t) : V -> Z * V := tfm_secure_client_2_handle_msg msg.

Definition tfm_secure_client_2_call_test {CL : PsaClient V} (id : Z) (arg : list Z) (v : V) : Z * V :=
  let '(handle, v) := psa_connect v in
  if negb (PSA_HANDLE_IS_VALID handle) then (PSA_ERROR_GENERIC_ERROR, v)
  else
    let '(status, v) := psa_call handle id arg v in
    (status, psa_close handle v).

(** ** psa_its_s_interface_testsuite.c *)

Definition tfm_its_test_1020 {CL : PsaClient V} (__FILE__ : string) : P (storage_world V) unit :=
  let uid := TEST_UID_ACCESS_CONTROL in
  status ← storage_set uid WRITE_DATA_SIZE (Some (cstr WRITE_DATA)) PSA_STORAGE_FLAG_NONE;
  fail_if __FILE__ 92 (negb (status =? PSA_SUCCESS)) "Set should not fail";;
  status ← svc_call (tfm_secure_client_2_call_test
    TFM_SECURE_CLIENT_2_ID_ITS_ACCESS_CTRL (le_bytes 8 uid));
  fail_if __FILE__ 101 (negb (status =? PSA_ERROR_DOES_NOT_EXIST))
    "Get should not succeed from a different partition";;
  status ← storage_remove uid;
  fail_if __FILE__ 108 (negb (status =? PSA_SUCCESS)) "Remove should not fail with valid UID";;
  ret_val TEST_PASSED.
End secure_client_2.

(** What the Firmware Framework documents, for a partition whose client ID is
    [id2] and whose handler is [handler]: a connection is accepted and has a
    valid handle; a call runs the handler on the message with the partition
    as the running client, and returns its reply to the caller. *)
Class SpmLaws {PC : PsaConsts} {MAX_ASSET_SIZE NUM_ASSETS supported} {V : Type}
    {SS : StorageService V} {SL : StorageLaws MAX_ASSET_SIZE NUM_ASSETS supported V}
    {PS : PsaService} {CL : PsaClient V} (id2 : Z) (handler : psa_msg_t -> V -> Z * V) := {
  spm_connect v h v' : psa_connect v = (h, v') ->
    PSA_HANDLE_IS_VALID h = true /\ assets v' = assets v /\ caller v' = caller v;
  spm_call h t iv v st v' : psa_call h t iv v = (st, v') ->
    exists v1 v2, assets v1 = assets v /\ caller v1 = id2 /\
      handler (mkMsg t iv) v1 = (st, v2) /\
      assets v' = assets v2 /\ caller v' = caller v;
  spm_close h v : assets (psa_close h v) = assets v /\ caller (psa_close h v) = caller v;
  spm_read msg n : psa_read msg n = take (Z.to_nat n) (msg_in msg);
  (** Types of calls are not negative, CONNECT and DISCONNECT are. *)
  spm_types : PSA_IPC_CONNECT < 0 /\ PSA_IPC_DISCONNECT < 0;
}.

Section access_control.
  Context {PC : PsaConsts} {PL : PsaConstsLaws}.
  Context {MAX_ASSET_SIZE : Z} {NUM_ASSETS : nat} {supported : Z -> bool}.
  Context {V : Type} {SS : StorageService V}.
  Context {SL : StorageLaws MAX_ASSET_SIZE NUM_ASSETS supported V}.
  Context {PS : PsaService} {CL : PsaClient V} (id2 : Z) (psa_destroy_key : Z -> V -> Z * V).
  Context {SPL : SpmLaws id2 (tfm_secure_client_2_handle_msg psa_destroy_key)}.

(** The whole path of a request to the partition: what the client function
    returns is the status of a get under the partition's client ID. *)
Lemma call_test_its uid c m (v : V) st v' :
  0 < uid < 2 ^ 64 -> caller v = c -> assets v = m -> m !! (id2, uid) = None ->
  tfm_secure_client_2_call_test TFM_SECURE_CLIENT_2_ID_ITS_ACCESS_CTRL (le_bytes 8 uid) v =
    (st, v') ->
  st = PSA_ERROR_DOES_NOT_EXIST /\ caller v' = c /\ assets v' = m.
Proof.
  intros Hu Hc Hm Hmiss. unfold tfm_secure_client_2_call_test.
  destruct (psa_connect v) as [h v0] eqn:Hcon.
  destruct (spm_connect _ _ _ Hcon) as (-> & Hm0 & Hc0). cbn [negb].
  destruct (psa_call _ _ _ v0) as [st1 v1] eqn:Hcall. intros [= <- <-].
  destruct (spm_call _ _ _ _ _ _ Hcall) as (va & vb & Hma & Hca & Hh & Hmb & Hcb).
  destruct (spm_close h v1) as [-> ->]. destruct spm_types as [Ht1 Ht2].
  unfold tfm_secure_client_2_handle_msg in Hh. cbn [msg_type] in Hh.
  unfold TFM_SECURE_CLIENT_2_ID_ITS_ACCESS_CTRL in Hh.
  destruct (Z.eqb_spec 1001 PSA_IPC_CONNECT), (Z.eqb_spec 1001 PSA_IPC_DISCONNECT); try lia.
  cbn [orb] in Hh. rewrite spm_read in Hh. cbn [msg_in] in Hh.
  change (take _ (le_bytes 8 uid)) with (le_bytes 8 uid) in Hh.
  unfold secure_client_2_dispatch, secure_client_2_test_its_access_ctrl in Hh.
  rewrite Z.eqb_refl in Hh. unfold sizeof in Hh. rewrite le_bytes_length in Hh.
  cbn [Z.of_nat Z.eqb negb] in Hh. rewrite (le_value_bytes 8) in Hh
    by (split; [lia | exact (proj2 Hu)]).
  destruct (svc_get uid 0 1 true true va) as [[[st out] n'] vc] eqn:Hget.
  injection Hh as <- <-.
  destruct (law_get uid 0 1 true true va st out n' vc ltac:(lia) ltac:(lia) Hget) as (_ & Hmc & Ho).
  apply (outcome_err PSA_ERROR_DOES_NOT_EXIST) in Ho as [-> _].
  - split_and!; [done | congruence | congruence].
  - rewrite Hma, Hm0, Hm, Hca. apply get_only_missing; [lia | done].
Qed.

Lemma test_1020_passes (__FILE__ : string) us c m :
  WRITE_DATA_SIZE <= MAX_ASSET_SIZE -> supported PSA_STORAGE_FLAG_NONE = true ->
  room NUM_ASSETS us c m -> 42 ∈ us -> c <> id2 ->
  m !! (c, 42) = None -> m !! (id2, 42) = None ->
  passes c (tfm_its_test_1020 __FILE__) m m.
Proof.
  intros Hsz Hn Hr Hu Hne Hm Hm2 b n s Hs. unfold tfm_its_test_1020, TEST_UID_ACCESS_CONTROL.
  cbv zeta. apply wp_bind. eapply wp_set_ok; [eassumption | size_tac | | intros s0 Hs0].
  { apply set_errors_nil; [done | done | done | side | done |]. by apply (room_fits _ us). }
  stmt. stmt. stmt. apply wp_svc_call. intros st v Hcall. destruct Hs0 as [Hc0 Hm0 Hb0 Hl0].
  eapply call_test_its in Hcall as (-> & Hc & Hm'); [ | done | exact Hc0 | exact Hm0 | side].
  assert (at_state c (<[(c, 42) := (take (Z.to_nat WRITE_DATA_SIZE) (cstr WRITE_DATA),
      PSA_STORAGE_FLAG_NONE)]> m) b n (mkT (t_ret s0) (mkWorld v b n) (t_log s0))) as Hs1
    by (split; done).
  rewrite Hb0, Hl0. repeat stmt. map_tac.
Qed.
End access_control.

(** ** A reference SPM *)

Definition ref_psa_service : PsaService :=
  {| PSA_IPC_CONNECT := -1; PSA_IPC_DISCONNECT := -2;
     psa_read msg n := take (Z.to_nat n) (msg_in msg) |}.

Section reference_spm.
  Context {PC : PsaConsts}.
  Variables (MAX_ASSET_SIZE : Z) (NUM_ASSETS : nat) (supported : Z -> bool).
  Variables (id2 : Z) (handler : psa_msg_t -> ref_state -> Z * ref_state).

(** Runs the handler as client [id2], then gives the processor back. *)
Definition ref_psa_client : PsaClient ref_state := {|
  PSA_HANDLE_IS_VALID h := 0 <? h;
  psa_connect v := (1, v);
  psa_call _ t iv v := let '(st, v') := handler (mkMsg t iv) (id2, v.2) in (st, (v.1, v'.2));
  psa_close _ v := v;
|}.

Definition ref_spm_laws :
  SpmLaws (SS := ref_service MAX_ASSET_SIZE NUM_ASSETS supported)
    (PS := ref_psa_service) (CL := ref_psa_client) id2 handler.
Proof.
  split.
  - intros v h v' [= <- <-]. done.
  - intros h t iv v st v' H. cbn in H.
    destruct (handler (mkMsg t iv) (id2, v.2)) as [st1 v1] eqn:Hh. injection H as <- <-.
    exists (id2, v.2), v1. done.
  - done.
  - done.
  - done.
Defined.
End reference_spm.
