(* ===== verification/ItsProofs.v ===== *)
(** * The ITS tests against the contract of the service *)

From S2P Require Import Prelude LogRaw TestFramework TestProg PsaStorage StorageTactics ItsTests SecureClient2.
Local Open Scope Z_scope.

Section its.
  Context {PC : PsaConsts} {PL : PsaConstsLaws}.
  Context {ITS_MAX_ASSET_SIZE : Z} {NUM_ASSETS : nat} {supported : Z -> bool}.
  Context {V : Type} {SS : StorageService V}.
  Context {SL : StorageLaws ITS_MAX_ASSET_SIZE NUM_ASSETS supported V}.
  Variables (__FILE__ : string) (uninit_data : Z -> Z).
  Hypothesis Hmax : 36 <= ITS_MAX_ASSET_SIZE.
  Hypothesis Hmax' : ITS_MAX_ASSET_SIZE < 2 ^ 32 - 1.
  Hypothesis Hnone : supported PSA_STORAGE_FLAG_NONE = true.
  Hypothesis Honce : supported PSA_STORAGE_FLAG_WRITE_ONCE = true.
  Hypothesis Hinvalid : supported INVALID_FLAG = false.
  Implicit Types (m : assets_map) (c : Z).

Definition its_uids : list Z := [1; 2; 3; 4; 42].
Abbreviation room := (room NUM_ASSETS its_uids).

(** What test 002 stores, and what test 003 leaves behind. *)
Definition once_asset : asset :=
  (take (Z.to_nat WRITE_ONCE_DATA_SIZE) (cstr WRITE_ONCE_DATA), PSA_STORAGE_FLAG_WRITE_ONCE).
Definition empty_asset : asset := ([], PSA_STORAGE_FLAG_NONE).

Abbreviation passes := (passes (V := V)).

Ltac start :=
  unfold WRITE_ONCE_UID, TEST_UID_1, TEST_UID_2, TEST_UID_3, INVALID_UID, TEST_UID,
    once_asset, empty_asset in *;
  intros b n s Hs.
Ltac run := start; repeat stmt; map_tac.

Lemma test_001_passes c m :
  room c m -> m !! (c, 2) = None -> m !! (c, 3) = None -> 
  passes c (tfm_its_test_common_001 __FILE__ uninit_data) m m.
Proof. intros. unfold tfm_its_test_common_001. run. Qed.

Lemma test_003_passes c m :
  room c m -> m !! (c, 4) = None -> 
  passes c (tfm_its_test_common_003 __FILE__) m (<[(c, 4) := empty_asset]> m).
Proof. intros. unfold tfm_its_test_common_003. run. Qed.

Lemma test_005_passes c m :
  room c m -> m !! (c, 3) = None -> 
  passes c (tfm_its_test_common_005 __FILE__) m m.
Proof. intros. unfold tfm_its_test_common_005. run. Qed.

Lemma test_007_passes c m :
  room c m -> m !! (c, 2) = None -> 
  passes c (tfm_its_test_common_007 __FILE__) m m.
Proof. intros. unfold tfm_its_test_common_007. run. Qed.

Lemma test_008_passes c m :
  room c m -> m !! (c, 3) = None -> 
  passes c (tfm_its_test_common_008 __FILE__ uninit_data) m m.
Proof. intros. unfold tfm_its_test_common_008. run. Qed.

Lemma test_009_passes c m :
  room c m -> m !! (c, 4) = None -> 
  passes c (tfm_its_test_common_009 __FILE__) m m.
Proof. intros. unfold tfm_its_test_common_009. run. Qed.

Lemma test_011_passes c m :
  room c m -> m !! (c, 2) = None -> 
  passes c (tfm_its_test_common_011 __FILE__) m m.
Proof. intros. unfold tfm_its_test_common_011. run. Qed.

Lemma test_012_passes c m :
  room c m -> m !! (c, 3) = None -> 
  passes c (tfm_its_test_common_012 __FILE__) m m.
Proof. intros. unfold tfm_its_test_common_012. run. Qed.

Lemma test_013_passes c m :
  room c m -> m !! (c, 2) = None -> 
  passes c (tfm_its_test_common_013 __FILE__) m m.
Proof. intros. unfold tfm_its_test_common_013. run. Qed.

Lemma test_015_passes c m :
  room c m -> 
  passes c (tfm_its_test_common_015 __FILE__) m m.
Proof. intros. unfold tfm_its_test_common_015. run. Qed.

Lemma test_016_passes c m :
  room c m -> m !! (c, 3) = None -> m !! (c, 4) = None -> 
  passes c (tfm_its_test_common_016 __FILE__) m m.
Proof. intros. unfold tfm_its_test_common_016. run. Qed.

Lemma test_018_passes c m :
  room c m -> m !! (c, 3) = None -> 
  passes c (tfm_its_test_common_018 __FILE__) m m.
Proof. intros. unfold tfm_its_test_common_018. run. Qed.

Lemma test_020_passes c m :
  room c m -> m !! (c, 2) = None ->
  passes c (tfm_its_test_common_020 __FILE__ ITS_MAX_ASSET_SIZE) m m.
Proof.
  intros Hr Hm. unfold tfm_its_test_common_020. start. cbv zeta. apply wp_bind.
  rewrite wrapu_small by lia.
  eapply wp_set_err; [eassumption | | cbn [fmap option_fmap option_map] | ].
  - cbn [from_option]. unfold sizeof. rewrite length_replicate. lia.
  - apply set_only_size; [side | side | side | lia | side].
  - intros s' Hs'. repeat stmt. map_tac.
Qed.

Lemma test_021_passes c m :
  room c m -> m !! (c, 3) = None -> 
  passes c (tfm_its_test_common_021 __FILE__) m m.
Proof. intros. unfold tfm_its_test_common_021. run. Qed.

Lemma test_002_passes c m :
  room c m -> m !! (c, 3) = None -> m !! (c, 1) = None \/ m !! (c, 1) = Some once_asset ->
  passes c (tfm_its_test_common_002 __FILE__) m (<[(c, 1) := once_asset]> m).
Proof.
  intros Hr Hm Hw. unfold tfm_its_test_common_002. start. destruct Hw as [Hw|Hw].
  - do 3 stmt. rewrite Z.eqb_refl. repeat stmt. map_tac.
  - do 3 stmt. rewrite not_permitted_not_success, Z.eqb_refl. repeat stmt.
    by rewrite insert_id.
Qed.

Lemma test_004_passes c m :
  room c m -> m !! (c, 1) = Some once_asset -> passes c (tfm_its_test_common_004 __FILE__) m m.
Proof. intros. unfold tfm_its_test_common_004. run. Qed.

Lemma test_006_passes c m :
  room c m -> m !! (c, 4) = Some empty_asset ->
  passes c (tfm_its_test_common_006 __FILE__) m (delete (c, 4) m).
Proof. intros. unfold tfm_its_test_common_006. run. Qed.

Lemma test_010_passes c m :
  m !! (c, 1) = Some once_asset -> passes c (tfm_its_test_common_010 __FILE__) m m.
Proof. intros. unfold tfm_its_test_common_010. run. Qed.

Lemma test_014_passes c m :
  m !! (c, 1) = Some once_asset -> passes c (tfm_its_test_common_014 __FILE__) m m.
Proof. intros. unfold tfm_its_test_common_014. run. Qed.

Lemma ns_test_001_passes c m :
  room c m -> m !! (c, 3) = None -> passes c (tfm_its_ns_test_001 __FILE__) m m.
Proof. intros. unfold tfm_its_ns_test_001. run. Qed.

Lemma ns_test_002_passes c m :
  room c m -> m !! (c, 3) = None -> passes c (tfm_its_ns_test_002 __FILE__) m m.
Proof. intros. unfold tfm_its_ns_test_002. run. Qed.

Lemma ns_test_003_passes c m :
  room c m -> m !! (c, 3) = None -> passes c (tfm_its_ns_test_003 __FILE__ uninit_data) m m.
Proof. intros. unfold tfm_its_ns_test_003. run. Qed.
(** Test 017: after [k] gets the first [k] bytes are in place. *)
Lemma test_017_passes c m :
  room c m -> m !! (c, 2) = None -> passes c (tfm_its_test_common_017 __FILE__) m m.
Proof.
  intros Hr Hm. unfold tfm_its_test_common_017. start. do 4 stmt.
  set (d := take (Z.to_nat WRITE_DATA_SIZE) (cstr WRITE_DATA)) in *.
  stmt. eapply (wp_for_range (fun k '(rd, _) s =>
    rd = splice 4 (take (Z.to_nat k) d) (cstr READ_DATA) /\ at_state c _ b n s)).
  - by vm_compute.
  - split; [by vm_compute | eassumption].
  - clear s Hs s0 Hs0. intros k [rd len] s Hk [-> Hs].
    assert (sizeof d = WRITE_DATA_SIZE) as Hd by reflexivity.
    change WRITE_DATA_SIZE with 33 in *. change HALF_PADDING_SIZE with 4. stmt.
    eapply wp_get_ok; [eassumption | side | side | cbn [fst]; rewrite Hd; lia | lia | size_tac | |].
    { unfold sizeof. rewrite splice_length; [vm_compute length; lia|].
      rewrite length_take. change (length d) with 33%nat. vm_compute length. lia. }
    intros s0 Hs0. repeat stmt. split; [|done].
    rewrite (read_next_byte 4); [done | done | rewrite Hd; lia | by vm_compute].
  - intros [rd len] s1 [-> Hs1]. repeat stmt. map_tac.
Qed.
(** One cycle of test 019 with an asset of any size the service takes. *)
Lemma write_asset_size : 0 <= ITS_MAX_ASSET_SIZE -> 0 < ITS_MAX_ASSET_SIZE ->
  sizeof (write_asset_data ITS_MAX_ASSET_SIZE) = ITS_MAX_ASSET_SIZE.
Proof.
  intros _ H. unfold sizeof, write_asset_data. rewrite length_cons, length_replicate. lia.
Qed.

Lemma test_019_cycle_passes c m uid sz len b n s :
  room c m -> uid ∈ [2; 3; 4] -> m !! (c, uid) = None -> 0 <= sz <= ITS_MAX_ASSET_SIZE ->
  at_state c m b n s ->
  wp (test_019_cycle __FILE__ ITS_MAX_ASSET_SIZE uid sz len)
    (fun _ s' => exists b', at_state c m b' n s') s.
Proof.
  intros Hr Hu Hm Hsz Hs.
  rewrite !elem_of_cons, elem_of_nil in Hu.
  assert (uid <> 0) as Hu0 by lia.
  assert (uid ∈ its_uids) as Hui by (destruct Hu as [->|[->|[->|[]]]]; uid_in).
  pose proof (write_asset_size ltac:(lia) ltac:(lia)) as Hw.
  set (wd := write_asset_data ITS_MAX_ASSET_SIZE) in *.
  assert (sizeof (take (Z.to_nat sz) wd) = sz) as Hd by (apply take_sizeof; lia).
  unfold test_019_cycle. fold wd. do 5 stmt.
  eapply wp_set_ok; [eassumption | lia | | intros s' Hs'].
  { apply set_errors_nil; [done | done | done | side | lia |].
    by apply (room_fits _ its_uids). }
  do 3 stmt. eapply wp_get_info_ok; [eassumption | done | side | intros s1' Hs1'].
  do 3 stmt. apply wp_fail_if; [cbn [info_size fst]; by rewrite Hd, Z.eqb_refl|].
  do 5 stmt.
  eapply wp_get_ok; [eassumption | done | side | cbn [fst]; lia | lia | lia | |].
  { unfold sizeof. rewrite length_replicate. lia. }
  intros s2' Hs2'. cbn [fst]. do 5 stmt.
  apply wp_memcmp; [lia | lia | | lia |].
  { rewrite slice_all by lia. unfold sizeof in *.
    rewrite splice_length; rewrite length_replicate; lia. }
  change (Z.to_nat 0) with 0%nat. rewrite !drop_0, memcmp_read_back by lia. stmt. stmt. stmt.
  apply wp_fail_if; [rewrite slice_all by lia; by rewrite Hd, Z.eqb_refl|].
  do 5 stmt. exists (splice 0 (slice 0 sz (take (Z.to_nat sz) wd))
    (replicate (Z.to_nat ITS_MAX_ASSET_SIZE) 0)).
  by rewrite delete_insert_eq, delete_id in Hs4.
Qed.

Lemma test_019_passes c m :
  room c m -> m !! (c, 2) = None -> m !! (c, 3) = None -> m !! (c, 4) = None ->
  passes c (tfm_its_test_common_019 __FILE__ ITS_MAX_ASSET_SIZE) m m.
Proof.
  intros Hr H2 H3 H4. unfold tfm_its_test_common_019. start. cbv zeta. apply wp_bind.
  eapply (wp_for_range (fun _ _ s => exists b, at_state c m b n s)).
  - by vm_compute.
  - by exists b.
  - clear s b Hs. intros k len s Hk [b Hs]. change TEST_019_CYCLES with 3 in Hk.
    pose proof (shiftr_bounds ITS_MAX_ASSET_SIZE 1 ltac:(lia) ltac:(lia)).
    pose proof (shiftr_bounds ITS_MAX_ASSET_SIZE 2 ltac:(lia) ltac:(lia)).
    assert (0 <= ITS_MAX_ASSET_SIZE <= ITS_MAX_ASSET_SIZE) by lia.
    assert (k = 0 \/ k = 1 \/ k = 2) as [->|[->| ->]] by lia;
      (eapply wp_mono; [eapply (test_019_cycle_passes c m)|]; [done | uid_in | done | assumption | done | done]).
  - intros _ s' [b' Hs']. by eapply wp_passed.
Qed.
(** One iteration of a reliability test leaves the data in the buffer and the
    asset in the store. *)
Lemma set_and_get_spec c m uid lns loops itr len b n s :
  room c m -> uid = 2 -> is_write_once m (c, 2) = false -> at_state c m b n s ->
  wp (set_and_get __FILE__ uid lns loops itr (cstr READ_DATA) len)
    (fun '(rd, _) s' => rd = cstr RESULT_DATA /\
       at_state c (<[(c, 2) := (take (Z.to_nat WRITE_DATA_SIZE) (cstr WRITE_DATA),
                                PSA_STORAGE_FLAG_NONE)]> m) b n s') s.
Proof.
  intros Hr -> Hw Hs. unfold set_and_get. repeat stmt. split; [by vm_compute | done].
Qed.

Lemma test_2001_passes c m :
  room c m -> m !! (c, 2) = None -> passes c (tfm_its_test_2001 __FILE__) m m.
Proof.
  intros Hr Hm. unfold tfm_its_test_2001. start. stmt.
  set (a := (take (Z.to_nat WRITE_DATA_SIZE) (cstr WRITE_DATA), PSA_STORAGE_FLAG_NONE)).
  eapply (wp_for_range (fun k '(rd, _) s => rd = cstr READ_DATA /\
    at_state c (if k =? 0 then m else <[(c, 2) := a]> m) b n s)).
  - by vm_compute.
  - by split.
  - clear s Hs. intros k [rd len] s Hk [-> Hs]. stmt.
    eapply wp_mono.
    { eapply set_and_get_spec; [ | done | | exact Hs]; case_match; subst a;
        first [done | side | room_tac]. }
    intros [rd len'] s' [-> Hs']. repeat stmt. split; [by vm_compute|].
    destruct (Z.eqb_spec (k + 1) 0); [lia|].
    case_match; [done|]. by rewrite insert_insert_eq in Hs'.
  - intros [rd len] s1 [-> Hs1]. change (LOOP_ITERATIONS_001 =? 0) with false in Hs1.
    repeat stmt. map_tac.
Qed.

Lemma test_2002_passes c m :
  room c m -> m !! (c, 2) = None -> passes c (tfm_its_test_2002 __FILE__) m m.
Proof.
  intros Hr Hm. unfold tfm_its_test_2002. start. stmt.
  eapply (wp_for_range (fun _ '(rd, _) s => rd = cstr READ_DATA /\ at_state c m b n s)).
  - by vm_compute.
  - by split.
  - clear s Hs. intros k [rd len] s Hk [-> Hs]. stmt.
    eapply wp_mono; [by eapply set_and_get_spec; [ | | side |]|].
    intros [rd len'] s' [-> Hs']. repeat stmt. split; [by vm_compute|].
    by rewrite delete_insert_eq, delete_id in Hs0.
  - intros [rd len] s1 [-> Hs1]. repeat stmt. map_tac.
Qed.

(** ** The suites *)

(** The state a suite starts in: the store has room for its assets, none of
    the tests' UIDs is in use, and the write-once UID is either unused or as
    a previous run left it. *)
Record its_ready c m : Prop := {
  ready_room : room c m;
  ready_once : m !! (c, 1) = None \/ m !! (c, 1) = Some once_asset;
  ready_uids : m !! (c, 2) = None /\ m !! (c, 3) = None /\ m !! (c, 4) = None;
  ready_42 : m !! (c, 42) = None;
}.

Definition after_its c m : assets_map := <[(c, 1) := once_asset]> m.

Ltac pass lem := next_test ltac:(apply passes_test, lem; first [done | lookup_tac]).

Lemma common_tests_pass c m :
  its_ready c m ->
  all_pass (take 21 (psa_its_ns_tests __FILE__ uninit_data ITS_MAX_ASSET_SIZE))
    (in_world c m) (in_world c (after_its c m)).
Proof.
  intros [Hr Hw (H2 & H3 & H4) _].
  assert (room c (after_its c m)) as Hr1 by (apply room_insert; [uid_in | done]).
  assert (delete (c, 4) (<[(c, 4) := empty_asset]> (after_its c m)) = after_its c m) as Hd.
  { rewrite delete_insert_eq, delete_id; [done|]. unfold after_its. lookup_tac. }
  assert (room c (<[(c, 4) := empty_asset]> (after_its c m))) as Hr4
    by (apply room_insert; [uid_in | done]).
  assert (after_its c m !! (c, 1) = Some once_asset) as H1' by apply lookup_insert_eq.
  assert (after_its c m !! (c, 2) = None) as H2' by (unfold after_its; lookup_tac).
  assert (after_its c m !! (c, 3) = None) as H3' by (unfold after_its; lookup_tac).
  assert (after_its c m !! (c, 4) = None) as H4' by (unfold after_its; lookup_tac).
  cbn [psa_its_ns_tests take].
  pass test_001_passes. pass test_002_passes. fold (after_its c m). pass test_003_passes. pass test_004_passes. pass test_005_passes. pass test_006_passes. rewrite Hd. pass test_007_passes. pass test_008_passes. pass test_009_passes. pass test_010_passes. pass test_011_passes. pass test_012_passes. pass test_013_passes. pass test_014_passes. pass test_015_passes. pass test_016_passes. pass test_017_passes. pass test_018_passes. pass test_019_passes. pass test_020_passes. pass test_021_passes.
  constructor.
Qed.

Lemma its_ns_tests_pass c m :
  its_ready c m ->
  all_pass (psa_its_ns_tests __FILE__ uninit_data ITS_MAX_ASSET_SIZE)
    (in_world c m) (in_world c (after_its c m)).
Proof.
  intros H. rewrite <- (take_drop 21 (psa_its_ns_tests _ _ _)).
  eapply all_pass_app; [by apply common_tests_pass|]. destruct H as [Hr _ (_ & H3 & _) _].
  assert (room c (after_its c m)) as Hr1 by (apply room_insert; [uid_in | done]).
  assert (after_its c m !! (c, 3) = None) as H3' by (unfold after_its; lookup_tac).
  cbn [psa_its_ns_tests drop].
  pass ns_test_001_passes. pass ns_test_002_passes. pass ns_test_003_passes. constructor.
Qed.

Lemma its_s_tests_pass {PS : PsaService} {CL : PsaClient V} id2 psa_destroy_key
    {SPL : SpmLaws id2 (tfm_secure_client_2_handle_msg psa_destroy_key)} c m :
  its_ready c m -> c <> id2 -> m !! (id2, 42) = None ->
  all_pass (psa_its_s_tests __FILE__ uninit_data ITS_MAX_ASSET_SIZE (tfm_its_test_1020 __FILE__))
    (in_world c m) (in_world c (after_its c m)).
Proof.
  intros H Hne H42. rewrite <- (take_drop 21 (psa_its_s_tests _ _ _ _)).
  eapply all_pass_app.
  { eapply all_pass_rename; [|by apply common_tests_pass].
    repeat (apply Forall2_cons; split; [split; [reflexivity | apply TEST_valid]|]). by apply Forall2_nil. }
  destruct H as [Hr _ _ Hc]. cbn [psa_its_s_tests drop].
  assert (room c (after_its c m)) as Hr1 by (apply room_insert; [uid_in | done]).
  next_test ltac:(apply passes_test; eapply (test_1020_passes id2 psa_destroy_key __FILE__ its_uids));
    [etrans; [|exact Hmax]; by vm_compute | done | done | uid_in | done
    | unfold after_its; lookup_tac | unfold after_its; lookup_tac | constructor].
Qed.

Lemma its_reliability_tests_pass c m :
  room c m -> m !! (c, 2) = None ->
  all_pass (reliability_tests __FILE__) (in_world c m) (in_world c m).
Proof. intros. cbn [reliability_tests]. pass test_2001_passes. pass test_2002_passes. constructor. Qed.

(** The reliability suite uses one UID. *)
Definition reliability_ready c m : Prop := room c m /\ m !! (c, 2) = None.

(** ** Properties *)

(** C2. The non-secure ITS suite accepts every conforming service: on any
    implementation that satisfies the PSA contract, from any state with room
    for its assets, the suite registered by
    [register_testsuite_ns_psa_its_interface] runs without undefined
    behaviour, all 24 tests pass, and the only asset it leaves behind is the
    write-once one (the store is otherwise as it was found). *)
Theorem its_ns_suite_passes c m fs w l :
  its_ready c m -> in_world c m w ->
  exists ts' w' l',
    run_testsuite (Some (mkSuite
      (Some (register_testsuite_ns_psa_its_interface __FILE__ uninit_data ITS_MAX_ASSET_SIZE)) fs))
      (w, l) = Some ((TEST_SUITE_ERR_NO_ERROR, Some ts'), (w', l')) /\
    suite_val (fields ts') = TEST_PASSED /\ in_world c (after_its c m) w'.
Proof.
  intros H Hw. eapply all_pass_run; [by apply its_ns_tests_pass | done | done | done].
Qed.

(** C17. The secure ITS suite, including test 1020 (an asset is not visible to
    another partition), accepts every conforming service when the secure
    client 2 partition has a client ID of its own. *)
Theorem its_s_suite_passes {PS : PsaService} {CL : PsaClient V} id2 psa_destroy_key
    {SPL : SpmLaws id2 (tfm_secure_client_2_handle_msg psa_destroy_key)} c m fs w l :
  its_ready c m -> in_world c m w -> c <> id2 -> m !! (id2, 42) = None ->
  exists ts' w' l',
    run_testsuite (Some (mkSuite
      (Some (register_testsuite_s_psa_its_interface __FILE__ uninit_data ITS_MAX_ASSET_SIZE
         (tfm_its_test_1020 __FILE__))) fs))
      (w, l) = Some ((TEST_SUITE_ERR_NO_ERROR, Some ts'), (w', l')) /\
    suite_val (fields ts') = TEST_PASSED /\ in_world c (after_its c m) w'.
Proof.
  intros H Hw Hne H42.
  eapply all_pass_run; [by eapply its_s_tests_pass | done | done | done].
Qed.

(** The ITS reliability suite accepts every conforming service: 15 rounds
    of set and get on one asset and 15 of set, get and remove pass, and the
    store is as before. *)
Theorem its_reliability_suite_passes c m fs w l :
  reliability_ready c m -> in_world c m w ->
  exists ts' w' l',
    run_testsuite (Some (mkSuite
      (Some (register_testsuite_s_psa_its_reliability __FILE__)) fs))
      (w, l) = Some ((TEST_SUITE_ERR_NO_ERROR, Some ts'), (w', l')) /\
    suite_val (fields ts') = TEST_PASSED /\ in_world c m w'.
Proof.
  intros [Hr H2] Hw.
  eapply all_pass_run; [by apply its_reliability_tests_pass | done | done | done].
Qed.
End its.

Section detection.
  Context {PC : PsaConsts} {V : Type} {SS : StorageService V} (__FILE__ : string).

Definition written : list Z := take (Z.to_nat WRITE_DATA_SIZE) (cstr WRITE_DATA).

(** The buffer keeps its size, and copying over all of it restores it. *)
Lemma read_data_size (out : list Z) :
  sizeof out <= 33 -> sizeof (splice 4 out (cstr READ_DATA)) = 42.
Proof.
  intros H. unfold sizeof in *. rewrite splice_length; [done|].
  change (length (cstr READ_DATA)) with 42%nat. lia.
Qed.

Lemma reset_read_data (buf : list Z) :
  sizeof buf = 42 -> splice 0 (take (Z.to_nat (sizeof buf)) (cstr READ_DATA)) buf = cstr READ_DATA.
Proof.
  intros H. rewrite H, splice_0. change (take (Z.to_nat 42) (cstr READ_DATA)) with (cstr READ_DATA).
  rewrite drop_ge; [apply app_nil_r|]. change (length (cstr READ_DATA)) with 42%nat.
  unfold sizeof in H. lia.
Qed.

(** The buffer of test 005 shows all the bytes of a read of [n] bytes. *)
Lemma read_data_exact n (out d : list Z) :
  (length out <= n)%nat -> (n <= 37)%nat -> 95 ∉ d -> length d = n ->
  take n (drop 4 (splice 4 out (cstr READ_DATA))) = d -> out = d.
Proof.
  intros Hle Hn Hx Hlen Ht. unfold splice in Ht.
  rewrite drop_app_length' in Ht by reflexivity.
  eapply (read_exact n _ _ _ 95); [done | exact Ht | done | done |].
  intros Hlt. do 37 (destruct out as [|? out]; [by vm_compute|]). simpl in Hlt. lia.
Qed.

(** C25. What a pass of test 005 shows, of any service whatever: the set
    returned success, the first get returned exactly the 33 bytes set, with
    their number, the second exactly the bytes 2 to 30 of them, and the asset
    could be removed; nothing was written around the data. *)
Theorem its_test_005_detects ret w ret' w' l :
  as_test (tfm_its_test_common_005 __FILE__) ret w = Some (ret', w', l) ->
  val ret' = TEST_PASSED ->
  exists v1 v2 v3 v4 n n',
    svc_set TEST_UID_2 33 (Some written) PSA_STORAGE_FLAG_NONE (w_svc w) = (PSA_SUCCESS, v1) /\
    svc_get TEST_UID_2 0 33 true true v1 = ((PSA_SUCCESS, written, n), v2) /\
    default 0 n = 33 /\
    svc_get TEST_UID_2 2 29 true true v2 = ((PSA_SUCCESS, slice 2 29 written, n'), v3) /\
    svc_remove TEST_UID_2 v3 = (PSA_SUCCESS, v4).
Proof.
  intros Hrun Hval. assert (ends_passed (tfm_its_test_common_005 __FILE__) (mkT ret w [])) as H
    by (apply ends_passed_test; eauto). clear Hrun Hval ret' w' l.
  unfold tfm_its_test_common_005 in H. repeat passed_step H.
  change WRITE_DATA_SIZE with 33 in *. change (u32 (33 - u32 (2 + 2))) with 29 in *.
  change (Z.to_nat HALF_PADDING_SIZE) with 4%nat in *.
  rewrite read_data_size in Hm by done.
  rewrite reset_read_data in Hm1 by (by apply read_data_size).
  assert (x0 = written) as ->.
  { apply (read_data_exact 33); [unfold sizeof in *; lia | lia | | done |].
    - by apply (bool_decide_unpack _).
    - rewrite firstn_all2 in Hm; [change (Z.to_nat 0) with 0%nat in Hm; rewrite drop_0 in Hm;
        rewrite Hm; by vm_compute|].
      rewrite drop_0.
      pose proof (read_data_size x0 ltac:(done)) as Hl. unfold sizeof in Hl. lia. }
  assert (x2 = slice 2 29 written) as ->.
  { apply (read_data_exact 29); [unfold sizeof in *; lia | lia | | done | exact Hm1].
    by apply (bool_decide_unpack _). }
  by exists (w_svc (t_world s)), (w_svc (t_world s0)), (w_svc (t_world s1)),
    (w_svc (t_world s2)), x1, x3.
Qed.
End detection.

(** ** Witnesses: the reference service of 10 assets of at most 512 bytes *)

Definition ref_flags : Z -> bool := no_extra_flags (PC := psa_consts).
Definition ref_its : StorageService ref_state := ref_service (PC := psa_consts) 512 10 ref_flags.
Definition ref_world : storage_world ref_state := mkWorld (5, ∅) [] 0.

Lemma ref_its_ready : its_ready (PC := psa_consts) (NUM_ASSETS := 10) 5 ∅.
Proof. split; [unfold room; by apply (bool_decide_unpack _) | by left | done | done]. Defined.

Lemma its_ns_suite_passes_witness :
  exists ts' w' l',
    run_testsuite (Some (mkSuite
      (Some (@register_testsuite_ns_psa_its_interface psa_consts ref_state ref_its
         "its_tests_common.c" (fun i => i) 512)) (mkFields [] 0 None TEST_PASSED)))
      (ref_world, []) = Some ((TEST_SUITE_ERR_NO_ERROR, Some ts'), (w', l')) /\
    suite_val (fields ts') = TEST_PASSED.
Proof.
  destruct (@its_ns_suite_passes psa_consts psa_consts_laws 512 10 ref_flags ref_state ref_its
    (@ref_laws psa_consts 512 10 ref_flags) "its_tests_common.c" (fun i => i)
    ltac:(done) ltac:(done) eq_refl eq_refl eq_refl 5 ∅ (mkFields [] 0 None TEST_PASSED)
    ref_world [] ref_its_ready ltac:(done)) as (ts' & w' & l' & H & Hv & _).
  eauto.
Defined.

Lemma its_s_suite_passes_witness :
  exists ts' w' l',
    run_testsuite (Some (mkSuite
      (Some (@register_testsuite_s_psa_its_interface psa_consts ref_state ref_its
         "its_tests_common.c" (fun i => i) 512
         (@tfm_its_test_1020 psa_consts ref_state ref_its
           (@ref_psa_client 7 (@tfm_secure_client_2_handle_msg psa_consts ref_state ref_its
              ref_psa_service (fun _ v => (0, v)))) "its_tests_common.c")))
      (mkFields [] 0 None TEST_PASSED)))
      (ref_world, []) = Some ((TEST_SUITE_ERR_NO_ERROR, Some ts'), (w', l')) /\
    suite_val (fields ts') = TEST_PASSED.
Proof.
  destruct (@its_s_suite_passes psa_consts psa_consts_laws 512 10 ref_flags ref_state ref_its
    (@ref_laws psa_consts 512 10 ref_flags) "its_tests_common.c" (fun i => i)
    ltac:(done) ltac:(done) eq_refl eq_refl eq_refl
    ref_psa_service (ref_psa_client 7 (@tfm_secure_client_2_handle_msg psa_consts ref_state ref_its
      ref_psa_service (fun _ v => (0, v)))) 7 (fun _ v => (0, v))
    (@ref_spm_laws psa_consts 512 10 ref_flags 7 _)
    5 ∅ (mkFields [] 0 None TEST_PASSED)
    ref_world [] ref_its_ready ltac:(done) ltac:(done) ltac:(done)) as (ts' & w' & l' & H & Hv & _).
  eauto.
Defined.

Lemma its_reliability_suite_passes_witness :
  exists ts' w' l',
    run_testsuite (Some (mkSuite
      (Some (@register_testsuite_s_psa_its_reliability psa_consts ref_state ref_its
         "psa_its_s_reliability_testsuite.c")) (mkFields [] 0 None TEST_PASSED)))
      (ref_world, []) = Some ((TEST_SUITE_ERR_NO_ERROR, Some ts'), (w', l')) /\
    suite_val (fields ts') = TEST_PASSED.
Proof.
  destruct (@its_reliability_suite_passes psa_consts psa_consts_laws 512 10 ref_flags
    ref_state ref_its (@ref_laws psa_consts 512 10 ref_flags)
    "psa_its_s_reliability_testsuite.c" ltac:(done) eq_refl 5 ∅
    (mkFields [] 0 None TEST_PASSED) ref_world []
    (conj (ready_room _ _ ref_its_ready) eq_refl) ltac:(done)) as (ts' & w' & l' & H & Hv & _).
  eauto.
Defined.

Lemma its_test_005_detects_witness :
  exists v1 v2, @svc_set ref_state ref_its TEST_UID_2 33 (Some written) 0 (5, ∅) = (0, v1) /\
    @svc_get ref_state ref_its TEST_UID_2 0 33 true true v1 = ((0, written, Some 33), v2).
Proof.
  edestruct (@its_test_005_detects psa_consts ref_state ref_its "its_tests_common.c"
    zero_result ref_world) as (v1 & v2 & v3 & v4 & n & n' & Hset & Hget & _).
  - vm_compute. reflexivity.
  - reflexivity.
  - exists v1, v2. split; [exact Hset|]. simpl in Hset. injection Hset as <-. vm_compute in Hget.
    injection Hget as <- <-. vm_compute. reflexivity.
Defined.
