(* ===== verification/PsNsTests.v ===== *)
(** * Protected Storage, non-secure tests:
    tests_reg/test/secure_fw/suites/ps/non_secure

    The helper that runs a test function in a thread of its own
    (ns_test_helpers.c), and the test programs, table and registration of
    psa_ps_ns_interface_testsuite.c, with TFM_NS_MANAGE_NSID defined. *)

From S2P Require Import Prelude LogRaw TestFramework TestProg PsaStorage.
Local Open Scope Z_scope.

(** ** Macros of the suite *)

Definition WRITE_ONCE_UID : Z := 1.
Definition TEST_UID_1 : Z := 2.
Definition TEST_UID_2 : Z := 3.
Definition TEST_UID_3 : Z := 4.
Definition INVALID_UID : Z := 0.
Definition INVALID_FLAG : Z := u32 (Z.shiftl 1 31).
Definition INVALID_THREAD_NAME : string := "Thread_INVALID".
Definition WRITE_ONCE_DATA : string := "THE_FIVE_BOXING_WIZARDS_JUMP_QUICKLY".
Definition WRITE_ONCE_DATA_SIZE : Z := sizeof (cstr WRITE_ONCE_DATA) - 1.
Definition WRITE_ONCE_READ_DATA : string := "############################################".
Definition WRITE_ONCE_RESULT_DATA : string := "####" +:+ WRITE_ONCE_DATA +:+ "####".
Definition WRITE_DATA : string := "THEQUICKBROWNFOXJUMPSOVERALAZYDOG".
Definition WRITE_DATA_SIZE : Z := sizeof (cstr WRITE_DATA) - 1.
Definition READ_DATA : string := "_________________________________________".
Definition RESULT_DATA : string := "____" +:+ WRITE_DATA +:+ "____".
Definition OFFSET_READ_DATA : string := "HEQUICKBROWNFOXJUMPSOVERALAZYDOG".
Definition OFFSET_RESULT_DATA : string := "____" +:+ OFFSET_READ_DATA +:+ "_____".
Definition TEST_1025_CYCLES : Z := 3.

(** ns_test_helpers.h and s_test_helpers.h *)
Definition HALF_PADDING_SIZE : Z := 4.

(** ** ns_test_helpers.c *)

(** The RTOS behind os_wrapper, outside the repository.  A handle is [None]
    for NULL, a priority [None] for OS_WRAPPER_ERROR.  An acquire with
    OS_WRAPPER_WAIT_FOREVER is [None] while the calling thread has to wait; it
    is made again when the kernel runs the thread next.  [os_dispatch l] lets
    the kernel choose: it gives the processor to a thread of [l], after any
    other threads, or to none of them for ever ([None]). *)
Class OsWrapper (V : Type) := {
  os_semaphore_create : Z -> Z -> string -> V -> option Z * V;
  os_semaphore_acquire : Z -> V -> option Z * V;
  os_semaphore_release : Z -> V -> unit * V;
  os_semaphore_delete : Z -> V -> unit * V;
  os_thread_get_handle : V -> option Z * V;
  os_thread_get_priority : Z -> V -> option Z * V;
  os_thread_new : string -> Z -> Z -> V -> option Z * V;
  os_thread_exit : V -> unit * V;
  os_dispatch : list Z -> V -> option Z * V;
}.

Definition PS_TEST_TASK_STACK_SIZE : Z := 768.

Section helpers.
  Context {PC : PsaConsts} {V : Type} {SS : StorageService V} {OS : OsWrapper V}.
  Variable (__FILE__ : string).
  Abbreviation W := (storage_world V).

(** Where the two threads are: the child in [test_task_runner], the parent
    after the creation of the thread. *)
Inductive task_pc := RunTest | ReleaseSema | ExitThread | Exited.
Inductive helper_pc := AcquireSema | ReleaseAgain | DeleteSema | Done.
#[export] Instance task_pc_eq_dec : EqDecision task_pc.
Proof. solve_decision. Defined.

(** A step of the child; the test function works on the parent's [ret].  The
    calls of the test function are one step. *)
Definition test_task_runner (test_semaphore : Z) (func : P W unit) (pc : task_pc) : P W task_pc :=
  match pc with
  | RunTest => call_body func;; mret ReleaseSema
  | ReleaseSema => svc_call (os_semaphore_release test_semaphore);; mret ExitThread
  | ExitThread => svc_call os_thread_exit;; mret Exited
  | Exited => p_undefined
  end.

(** A step of the parent. *)
Definition helper_step (test_semaphore : Z) (pc : helper_pc) : P W helper_pc :=
  match pc with
  | AcquireSema =>
      err ← svc_call (os_semaphore_acquire test_semaphore);
      mret (if err is Some _ then ReleaseAgain else AcquireSema)
  | ReleaseAgain => svc_call (os_semaphore_release test_semaphore);; mret DeleteSema
  | DeleteSema => svc_call (os_semaphore_delete test_semaphore);; mret Done
  | Done => p_undefined
  end.

(** The threads run as the kernel chooses, until the parent has returned;
    neither running any more is undefined here.  A child that has not exited
    by then is one of the other threads from there on. *)
Fixpoint run_threads (fuel : nat) (test_semaphore : Z) (func : P W unit) (parent child : Z)
    (pp : helper_pc) (cp : task_pc) : P W unit :=
  match fuel, pp with
  | O, _ => p_undefined
  | S _, Done => mret tt
  | S fuel, _ =>
      thread ← svc_call (os_dispatch (parent :: if decide (cp = Exited) then [] else [child]));
      match thread with
      | None => p_undefined
      | Some thread =>
          if decide (thread = parent) then
            pp ← helper_step test_semaphore pp;
            run_threads fuel test_semaphore func parent child pp cp
          else if decide (thread = child) then
            cp ← test_task_runner test_semaphore func cp;
            run_threads fuel test_semaphore func parent child pp cp
          else p_undefined
      end
  end.

(** Four steps of the parent, of which one waits, and three of the child. *)
Definition thread_steps : nat := 8.

Definition tfm_ps_run_test (thread_name : string) (test_func : P W unit) : P W unit :=
  call_body (
  test_semaphore ← svc_call (os_semaphore_create 1 0 "ps_tests_sema");
  match test_semaphore with
  | None => TEST_FAIL __FILE__ 54 "Semaphore creation failed";; return_
  | Some test_semaphore =>
      current_thread_handle ← svc_call os_thread_get_handle;
      match current_thread_handle with
      | None =>
          svc_call (os_semaphore_delete test_semaphore);;
          TEST_FAIL __FILE__ 61 "Failed to get current thread ID";; return_
      | Some current_thread_handle =>
          err ← svc_call (os_thread_get_priority current_thread_handle);
          match err with
          | None =>
              svc_call (os_semaphore_delete test_semaphore);;
              TEST_FAIL __FILE__ 69 "Failed to get current thread priority";; return_
          | Some current_thread_priority =>
              thread ← svc_call (os_thread_new thread_name PS_TEST_TASK_STACK_SIZE
                                   current_thread_priority);
              match thread with
              | None =>
                  svc_call (os_semaphore_delete test_semaphore);;
                  TEST_FAIL __FILE__ 79 "Failed to create test thread";; return_
              | Some thread =>
                  run_threads thread_steps test_semaphore test_func current_thread_handle thread
                    AcquireSema RunTest
              end
          end
      end
  end).

(** [if (ret->val != TEST_PASSED) { return; }] *)
Definition return_unless_passed : P W unit := fun s =>
  if decide (val (t_ret s) = TEST_PASSED) then Some (Continue tt, s) else Some (Returned, s).
End helpers.

(** ** psa_ps_ns_interface_testsuite.c *)

(** The note of test 1002, a single string literal over three lines. *)
Definition write_once_note : string :=
  "Note: The UID in this test has already been created with" +:+ crlf +:+
  "the PSA_STORAGE_FLAG_WRITE_ONCE flag in a previous test" +:+ crlf +:+
  "run. Wipe the storage area to run the full test." +:+ crlf.

Section tests.
  Context {PC : PsaConsts} {V : Type} {SS : StorageService V} {PSS : SupportService V}.
  Context {OS : OsWrapper V}.
  (** [__FILE__] of the suite and of ns_test_helpers.c, and
      PS_MAX_ASSET_SIZE of the configuration. *)
  Variables (__FILE__ HELPER_FILE : string) (PS_MAX_ASSET_SIZE : Z).
  Abbreviation W := (storage_world V).
  Abbreviation FAIL_IF := (fail_if __FILE__).

(** The PS interface. *)
Abbreviation psa_ps_set := storage_set.
Abbreviation psa_ps_get := storage_get.
Abbreviation psa_ps_get_null_data := storage_get_null_data.
Abbreviation psa_ps_get_info := storage_get_info.
Abbreviation psa_ps_remove := storage_remove.
Abbreviation psa_ps_get_support := (svc_call svc_get_support).

(** [static const uint8_t write_asset_data[PS_MAX_ASSET_SIZE] = {0xAF}] *)
Definition write_asset_data : list Z := 175 :: replicate (Z.to_nat (PS_MAX_ASSET_SIZE - 1)) 0.

Definition tfm_ps_test_1001 : P W unit :=
  let uid := TEST_UID_1 in
  let flags := PSA_STORAGE_FLAG_NONE in
  let data_len := 0 in
  let write_data := [0] in
  status ← psa_ps_set uid data_len (Some write_data) flags;
  FAIL_IF 159 (negb (status =? PSA_SUCCESS))
    "Set should not fail with valid UID";;
  status ← psa_ps_set uid data_len (Some write_data) flags;
  FAIL_IF 166 (negb (status =? PSA_SUCCESS))
    "Set should not fail the second time with valid UID";;
  status ← psa_ps_set INVALID_UID data_len (Some write_data) flags;
  FAIL_IF 173 (negb (status =? PSA_ERROR_INVALID_ARGUMENT))
    "Set should not succeed with an invalid UID";;
  status ← psa_ps_remove uid;
  FAIL_IF 180 (negb (status =? PSA_SUCCESS))
    "Remove should not fail with valid UID";;
  ret_val TEST_PASSED.

Definition tfm_ps_test_1002 : P W unit :=
  let uid := TEST_UID_2 in
  let flags := PSA_STORAGE_FLAG_NONE in
  let data_len := WRITE_DATA_SIZE in
  let write_data := cstr WRITE_DATA in
  status ← psa_ps_set WRITE_ONCE_UID data_len (Some write_data) flags;
  (if status =? PSA_SUCCESS then
     status ← psa_ps_set WRITE_ONCE_UID WRITE_ONCE_DATA_SIZE
       (Some (cstr WRITE_ONCE_DATA)) PSA_STORAGE_FLAG_WRITE_ONCE;
     FAIL_IF 212 (negb (status =? PSA_SUCCESS))
       "Set should not fail with valid flags (existing UID)"
   else if status =? PSA_ERROR_NOT_PERMITTED then
     test_log write_once_note []
   else
     TEST_FAIL __FILE__ 224 "Set should not fail with no flags";; return_);;
  status ← psa_ps_set uid data_len (Some write_data) INVALID_FLAG;
  FAIL_IF 231 (negb (status =? PSA_ERROR_NOT_SUPPORTED))
    "Set should not succeed with invalid flags";;
  ret_val TEST_PASSED.

Definition tfm_ps_test_1003 : P W unit :=
  let uid := TEST_UID_3 in
  let flags := PSA_STORAGE_FLAG_NONE in
  let data_len := 0 in
  status ← psa_ps_set uid data_len None flags;
  FAIL_IF 257 (negb (status =? PSA_SUCCESS))
    "Set should succeed with NULL data pointer and zero length";;
  ret_val TEST_PASSED.

Definition tfm_ps_test_1004 : P W unit :=
  let uid := WRITE_ONCE_UID in
  let flags := PSA_STORAGE_FLAG_NONE in
  let write_len := WRITE_DATA_SIZE in
  let read_len := WRITE_ONCE_DATA_SIZE in
  let offset := 0 in
  let write_data := cstr WRITE_DATA in
  let read_data := cstr WRITE_ONCE_READ_DATA in
  let read_data_len := 0 in
  status ← psa_ps_set uid write_len (Some write_data) flags;
  FAIL_IF 283 (negb (status =? PSA_ERROR_NOT_PERMITTED))
    "Set should not rewrite a write once UID";;
  '(status, read_data, read_data_len) ←
    psa_ps_get uid offset read_len read_data HALF_PADDING_SIZE read_data_len;
  FAIL_IF 291 (negb (status =? PSA_SUCCESS))
    "Get should not fail";;
  comp_result ← c_memcmp read_data 0 (cstr WRITE_ONCE_RESULT_DATA) 0 (sizeof read_data);
  FAIL_IF 297 (negb (comp_result =? 0))
    "Write once data should not have changed";;
  ret_val TEST_PASSED.

Definition tfm_ps_test_1005 : P W unit :=
  let uid := TEST_UID_2 in
  let flags := PSA_STORAGE_FLAG_NONE in
  let data_len := WRITE_DATA_SIZE in
  let offset := 0 in
  let write_data := cstr WRITE_DATA in
  let read_data := cstr READ_DATA in
  let read_data_len := 0 in
  let p_read_data := 0 in
  status ← psa_ps_set uid data_len (Some write_data) flags;
  FAIL_IF 324 (negb (status =? PSA_SUCCESS))
    "Set should not fail";;
  '(status, read_data, read_data_len) ←
    psa_ps_get uid offset data_len read_data HALF_PADDING_SIZE read_data_len;
  FAIL_IF 332 (negb (status =? PSA_SUCCESS))
    "Get should not fail";;
  comp_result ← c_memcmp read_data 0 (cstr RESULT_DATA) 0 (sizeof read_data);
  FAIL_IF 338 (negb (comp_result =? 0))
    "Read data should be equal to result data";;
  read_data ← c_memcpy read_data (cstr READ_DATA) (sizeof read_data);
  let offset := 2 in
  let data_len := u32 (data_len - (u32 (offset + 2))) in
  '(status, read_data, read_data_len) ←
    psa_ps_get uid offset data_len read_data HALF_PADDING_SIZE read_data_len;
  FAIL_IF 352 (negb (status =? PSA_SUCCESS))
    "Get should not fail";;
  comp_result ← c_memcmp read_data p_read_data (cstr "____") 0 HALF_PADDING_SIZE;
  FAIL_IF 358 (negb (comp_result =? 0))
    "Read data contains illegal pre-data";;
  let p_read_data := p_read_data + HALF_PADDING_SIZE in
  comp_result ← c_memcmp read_data p_read_data write_data offset data_len;
  FAIL_IF 365 (negb (comp_result =? 0))
    "Read data incorrect";;
  let p_read_data := p_read_data + data_len in
  comp_result ← c_memcmp read_data p_read_data (cstr "____") 0 HALF_PADDING_SIZE;
  FAIL_IF 372 (negb (comp_result =? 0))
    "Read data contains illegal post-data";;
  status ← psa_ps_remove uid;
  FAIL_IF 379 (negb (status =? PSA_SUCCESS))
    "Remove should not fail with valid UID";;
  ret_val TEST_PASSED.

Definition tfm_ps_test_1006 : P W unit :=
  let uid := TEST_UID_3 in
  let flags := PSA_STORAGE_FLAG_NONE in
  let write_len := WRITE_DATA_SIZE in
  let read_len := 0 in
  let offset := 0 in
  let write_data := cstr WRITE_DATA in
  let read_data := cstr READ_DATA in
  let read_data_len := 0 in
  status ← psa_ps_set uid write_len (Some write_data) flags;
  FAIL_IF 405 (negb (status =? PSA_SUCCESS))
    "Set should not fail";;
  '(status, read_data, read_data_len) ←
    psa_ps_get uid offset read_len read_data HALF_PADDING_SIZE read_data_len;
  FAIL_IF 413 (negb (status =? PSA_SUCCESS))
    "Get should not fail with zero data len";;
  comp_result ← c_memcmp read_data 0 (cstr READ_DATA) 0 (sizeof read_data);
  FAIL_IF 419 (negb (comp_result =? 0))
    "Read data should be equal to original read data";;
  let offset := 5 in
  '(status, read_data, read_data_len) ←
    psa_ps_get uid offset read_len read_data HALF_PADDING_SIZE read_data_len;
  FAIL_IF 429 (negb (status =? PSA_SUCCESS))
    "Get should not fail";;
  comp_result ← c_memcmp read_data 0 (cstr READ_DATA) 0 (sizeof read_data);
  FAIL_IF 435 (negb (comp_result =? 0))
    "Read data should be equal to original read data";;
  status ← psa_ps_remove uid;
  FAIL_IF 442 (negb (status =? PSA_SUCCESS))
    "Remove should not fail with valid UID";;
  ret_val TEST_PASSED.

Definition tfm_ps_test_1007 : P W unit :=
  let uid := TEST_UID_1 in
  let data_len := 1 in
  let offset := 0 in
  let read_data := cstr READ_DATA in
  let read_data_len := 0 in
  '(status, read_data, read_data_len) ←
    psa_ps_get uid offset data_len read_data HALF_PADDING_SIZE read_data_len;
  FAIL_IF 467 (negb (status =? PSA_ERROR_DOES_NOT_EXIST))
    "Get succeeded with non-existant UID";;
  comp_result ← c_memcmp read_data 0 (cstr READ_DATA) 0 (sizeof read_data);
  FAIL_IF 473 (negb (comp_result =? 0))
    "Read data not equal to original read data";;
  '(status, read_data, read_data_len) ←
    psa_ps_get INVALID_UID offset data_len read_data HALF_PADDING_SIZE read_data_len;
  FAIL_IF 481 (negb (status =? PSA_ERROR_INVALID_ARGUMENT))
    "Get succeeded with invalid UID";;
  comp_result ← c_memcmp read_data 0 (cstr READ_DATA) 0 (sizeof read_data);
  FAIL_IF 487 (negb (comp_result =? 0))
    "Read data not equal to original read data";;
  ret_val TEST_PASSED.

Definition tfm_ps_test_1008 : P W unit :=
  let uid := TEST_UID_2 in
  let flags := PSA_STORAGE_FLAG_NONE in
  let write_len := WRITE_DATA_SIZE in
  let write_data := cstr WRITE_DATA in
  let read_data := cstr READ_DATA in
  let read_data_len := 0 in
  status ← psa_ps_set uid write_len (Some write_data) flags;
  FAIL_IF 514 (negb (status =? PSA_SUCCESS))
    "Set should not fail";;
  let read_len := 1 in
  let offset := u32 (write_len + 1) in
  '(status, read_data, read_data_len) ←
    psa_ps_get uid offset read_len read_data HALF_PADDING_SIZE read_data_len;
  FAIL_IF 525 (negb (status =? PSA_ERROR_INVALID_ARGUMENT))
    "Get should not succeed with offset too large";;
  comp_result ← c_memcmp read_data 0 (cstr READ_DATA) 0 (sizeof read_data);
  FAIL_IF 531 (negb (comp_result =? 0))
    "Read data should be equal to original read data";;
  let read_len := u32 (write_len + 1) in
  let offset := 0 in
  '(status, read_data, read_data_len) ←
    psa_ps_get uid offset read_len read_data HALF_PADDING_SIZE read_data_len;
  FAIL_IF 542 (negb (status =? PSA_SUCCESS))
    "Get should succeed with data length larger than UID's length";;
  FAIL_IF 548 (negb (read_data_len =? write_len))
    "Read data length should be equal to UID's length";;
  comp_result ← c_memcmp read_data 0 (cstr RESULT_DATA) 0 (sizeof read_data);
  FAIL_IF 554 (negb (comp_result =? 0))
    "Read data should be equal to original read data";;
  let read_len := write_len in
  let offset := 1 in
  read_data ← c_memcpy read_data (cstr READ_DATA) (sizeof read_data);
  '(status, read_data, read_data_len) ←
    psa_ps_get uid offset read_len read_data HALF_PADDING_SIZE read_data_len;
  FAIL_IF 570 (negb (status =? PSA_SUCCESS))
    "Get should succeed with offset + data length too large, but individually valid";;
  FAIL_IF 576 (negb (read_data_len =? u32 (write_len - offset)))
    "Read data length should be equal to the UID's remaining size starting from offset";;
  comp_result ← c_memcmp read_data 0 (cstr OFFSET_RESULT_DATA) 0 (sizeof read_data);
  FAIL_IF 583 (negb (comp_result =? 0))
    "Read data should be equal to original read data";;
  status ← psa_ps_remove uid;
  FAIL_IF 590 (negb (status =? PSA_SUCCESS))
    "Remove should not fail with valid UID";;
  ret_val TEST_PASSED.

Definition tfm_ps_test_1009 : P W unit :=
  let uid := TEST_UID_3 in
  let flags := PSA_STORAGE_FLAG_NONE in
  let data_len := WRITE_DATA_SIZE in
  let offset := 0 in
  let write_data := cstr WRITE_DATA in
  let read_data_length := 0 in
  status ← psa_ps_set uid data_len (Some write_data) flags;
  FAIL_IF 618 (negb (status =? PSA_SUCCESS))
    "Set should not fail";;
  '(status, read_data_length) ← psa_ps_get_null_data uid offset 0 read_data_length;
  FAIL_IF 625 (negb (status =? PSA_SUCCESS))
    "Get should succeed with NULL data pointer and zero length";;
  status ← psa_ps_remove uid;
  FAIL_IF 632 (negb (status =? PSA_SUCCESS))
    "Remove should not fail with valid UID";;
  ret_val TEST_PASSED.

Definition tfm_ps_test_1010 : P W unit :=
  let uid := WRITE_ONCE_UID in
  let info := zero_info in
  '(status, info) ← psa_ps_get_info uid info;
  FAIL_IF 652 (negb (status =? PSA_SUCCESS))
    "Get info should not fail for write once UID";;
  FAIL_IF 658 (negb (info_size info =? WRITE_ONCE_DATA_SIZE))
    "Size incorrect for write once UID";;
  FAIL_IF 663 (negb (info_flags info =? PSA_STORAGE_FLAG_WRITE_ONCE))
    "Flags incorrect for write once UID";;
  ret_val TEST_PASSED.

Definition tfm_ps_test_1011 : P W unit :=
  let uid := TEST_UID_1 in
  let info := zero_info in
  let flags := PSA_STORAGE_FLAG_NONE in
  let data_len := WRITE_DATA_SIZE in
  let write_data := cstr WRITE_DATA in
  status ← psa_ps_set uid data_len (Some write_data) flags;
  FAIL_IF 685 (negb (status =? PSA_SUCCESS))
    "Set should not fail";;
  '(status, info) ← psa_ps_get_info uid info;
  FAIL_IF 692 (negb (status =? PSA_SUCCESS))
    "Get info should not fail with valid UID";;
  FAIL_IF 698 (negb (info_size info =? data_len))
    "Size incorrect for valid UID";;
  FAIL_IF 703 (negb (info_flags info =? flags))
    "Flags incorrect for valid UID";;
  status ← psa_ps_remove uid;
  FAIL_IF 710 (negb (status =? PSA_SUCCESS))
    "Remove should not fail with valid UID";;
  ret_val TEST_PASSED.

Definition tfm_ps_test_1012 : P W unit :=
  let uid := TEST_UID_2 in
  let info := zero_info in
  '(status, info) ← psa_ps_get_info uid info;
  FAIL_IF 731 (negb (status =? PSA_ERROR_DOES_NOT_EXIST))
    "Get info should not succeed with unset UID";;
  FAIL_IF 737 (negb (info_size info =? 0))
    "Size should not have changed";;
  FAIL_IF 742 (negb (info_flags info =? 0))
    "Flags should not have changed";;
  '(status, info) ← psa_ps_get_info INVALID_UID info;
  FAIL_IF 749 (negb (status =? PSA_ERROR_INVALID_ARGUMENT))
    "Get info should not succeed with invalid UID";;
  FAIL_IF 755 (negb (info_size info =? 0))
    "Size should not have changed";;
  FAIL_IF 760 (negb (info_flags info =? 0))
    "Flags should not have changed";;
  ret_val TEST_PASSED.

Definition tfm_ps_test_1013 : P W unit :=
  let uid := TEST_UID_1 in
  let info := zero_info in
  let flags := PSA_STORAGE_FLAG_NONE in
  let data_len := WRITE_DATA_SIZE in
  let offset := 0 in
  let write_data := cstr WRITE_DATA in
  let read_data := cstr READ_DATA in
  let read_data_len := 0 in
  status ← psa_ps_set uid data_len (Some write_data) flags;
  FAIL_IF 785 (negb (status =? PSA_SUCCESS))
    "Set should not fail";;
  status ← psa_ps_remove uid;
  FAIL_IF 792 (negb (status =? PSA_SUCCESS))
    "Remove should not fail with valid UID";;
  '(status, info) ← psa_ps_get_info uid info;
  FAIL_IF 799 (negb (status =? PSA_ERROR_DOES_NOT_EXIST))
    "Get info should not succeed with removed UID";;
  '(status, read_data, read_data_len) ←
    psa_ps_get uid offset data_len read_data 0 read_data_len;
  FAIL_IF 806 (negb (status =? PSA_ERROR_DOES_NOT_EXIST))
    "Get should not succeed with removed UID";;
  status ← psa_ps_remove uid;
  FAIL_IF 813 (negb (status =? PSA_ERROR_DOES_NOT_EXIST))
    "Remove should not succeed with removed UID";;
  ret_val TEST_PASSED.

Definition tfm_ps_test_1014 : P W unit :=
  let uid := WRITE_ONCE_UID in
  status ← psa_ps_remove uid;
  FAIL_IF 832 (negb (status =? PSA_ERROR_NOT_PERMITTED))
    "Remove should not succeed with write once UID";;
  ret_val TEST_PASSED.

Definition tfm_ps_test_1015 : P W unit :=
  let uid := INVALID_UID in
  status ← psa_ps_remove uid;
  FAIL_IF 851 (negb (status =? PSA_ERROR_INVALID_ARGUMENT))
    "Remove should not succeed with invalid UID";;
  ret_val TEST_PASSED.

Definition tfm_ps_test_1016_task_1 : P W unit :=
  let uid := TEST_UID_3 in
  let flags := PSA_STORAGE_FLAG_NONE in
  let data_len := WRITE_DATA_SIZE in
  let write_data := cstr WRITE_DATA in
  status ← psa_ps_set uid data_len (Some write_data) flags;
  FAIL_IF 872 (negb (status =? PSA_SUCCESS))
    "Set should not fail with valid thread name";;
  ret_val TEST_PASSED.

Definition tfm_ps_test_1016_task_2 : P W unit :=
  let uid := TEST_UID_3 in
  let data_len := WRITE_DATA_SIZE in
  let offset := 0 in
  let read_data := cstr READ_DATA in
  let read_data_len := 0 in
  '(status, read_data, read_data_len) ←
    psa_ps_get uid offset data_len read_data 0 read_data_len;
  FAIL_IF 893 (negb (status =? PSA_ERROR_DOES_NOT_EXIST))
    "Get should not succeed with invalid thread name";;
  comp_result ← c_memcmp read_data 0 (cstr READ_DATA) 0 (sizeof read_data);
  FAIL_IF 899 (negb (comp_result =? 0))
    "Read data should not have changed";;
  ret_val TEST_PASSED.

Definition tfm_ps_test_1016_task_3 : P W unit :=
  let uid := TEST_UID_3 in
  status ← psa_ps_remove uid;
  FAIL_IF 916 (negb (status =? PSA_SUCCESS))
    "Remove should not fail with valid thread name";;
  ret_val TEST_PASSED.

Definition tfm_ps_test_1016 : P W unit :=
  tfm_ps_run_test HELPER_FILE "Thread_A" tfm_ps_test_1016_task_1;;
  return_unless_passed;;
  tfm_ps_run_test HELPER_FILE INVALID_THREAD_NAME tfm_ps_test_1016_task_2;;
  return_unless_passed;;
  tfm_ps_run_test HELPER_FILE "Thread_A" tfm_ps_test_1016_task_3.

Definition tfm_ps_test_1017_task_1 : P W unit :=
  let uid := TEST_UID_1 in
  let flags := PSA_STORAGE_FLAG_NONE in
  let data_len := WRITE_DATA_SIZE in
  let write_data := cstr WRITE_DATA in
  status ← psa_ps_set uid data_len (Some write_data) flags;
  FAIL_IF 954 (negb (status =? PSA_SUCCESS))
    "Set should not fail with valid thread name";;
  ret_val TEST_PASSED.

Definition tfm_ps_test_1017_task_2 : P W unit :=
  let uid := TEST_UID_1 in
  let info := zero_info in
  '(status, info) ← psa_ps_get_info uid info;
  FAIL_IF 972 (negb (status =? PSA_ERROR_DOES_NOT_EXIST))
    "Get info should not succeed with invalid thread name";;
  FAIL_IF 978 (negb (info_size info =? 0) || negb (info_flags info =? 0))
    "Info should not have changed";;
  ret_val TEST_PASSED.

Definition tfm_ps_test_1017_task_3 : P W unit :=
  let uid := TEST_UID_1 in
  status ← psa_ps_remove uid;
  FAIL_IF 995 (negb (status =? PSA_SUCCESS))
    "Remove should not fail with valid thread name";;
  ret_val TEST_PASSED.

Definition tfm_ps_test_1017 : P W unit :=
  tfm_ps_run_test HELPER_FILE "Thread_A" tfm_ps_test_1017_task_1;;
  return_unless_passed;;
  tfm_ps_run_test HELPER_FILE INVALID_THREAD_NAME tfm_ps_test_1017_task_2;;
  return_unless_passed;;
  tfm_ps_run_test HELPER_FILE "Thread_A" tfm_ps_test_1017_task_3.

Definition tfm_ps_test_1018_task_1 : P W unit :=
  let uid := TEST_UID_2 in
  let flags := PSA_STORAGE_FLAG_NONE in
  let data_len := WRITE_DATA_SIZE in
  let write_data := cstr WRITE_DATA in
  status ← psa_ps_set uid data_len (Some write_data) flags;
  FAIL_IF 1033 (negb (status =? PSA_SUCCESS))
    "Set should not fail with valid thread name";;
  ret_val TEST_PASSED.

Definition tfm_ps_test_1018_task_2 : P W unit :=
  let uid := TEST_UID_2 in
  status ← psa_ps_remove uid;
  FAIL_IF 1050 (negb (status =? PSA_ERROR_DOES_NOT_EXIST))
    "Remove should not succeed with invalid thread name";;
  ret_val TEST_PASSED.

Definition tfm_ps_test_1018_task_3 : P W unit :=
  let uid := TEST_UID_2 in
  status ← psa_ps_remove uid;
  FAIL_IF 1067 (negb (status =? PSA_SUCCESS))
    "Remove should not fail with valid thread name";;
  ret_val TEST_PASSED.

Definition tfm_ps_test_1018 : P W unit :=
  tfm_ps_run_test HELPER_FILE "Thread_A" tfm_ps_test_1018_task_1;;
  return_unless_passed;;
  tfm_ps_run_test HELPER_FILE INVALID_THREAD_NAME tfm_ps_test_1018_task_2;;
  return_unless_passed;;
  tfm_ps_run_test HELPER_FILE "Thread_A" tfm_ps_test_1018_task_3.

Definition tfm_ps_test_1019_task_1 : P W unit :=
  let uid := TEST_UID_3 in
  let flags := PSA_STORAGE_FLAG_NONE in
  let write_data := cstr "Thread A data" in
  status ← psa_ps_set uid (sizeof write_data) (Some write_data) flags;
  FAIL_IF 1104 (negb (status =? PSA_SUCCESS))
    "Set should not fail with valid UID";;
  ret_val TEST_PASSED.

Definition tfm_ps_test_1019_task_2 : P W unit :=
  let uid := TEST_UID_3 in
  let info := zero_info in
  let flags := PSA_STORAGE_FLAG_NONE in
  let data_len := WRITE_DATA_SIZE in
  let offset := 0 in
  let write_data := cstr WRITE_DATA in
  let read_data := cstr READ_DATA in
  let read_data_len := 0 in
  '(status, read_data, read_data_len) ←
    psa_ps_get uid offset data_len read_data 0 read_data_len;
  FAIL_IF 1129 (negb (status =? PSA_ERROR_DOES_NOT_EXIST))
    "Get should not find another thread's UID";;
  comp_result ← c_memcmp read_data 0 (cstr READ_DATA) 0 (sizeof read_data);
  FAIL_IF 1135 (negb (comp_result =? 0))
    "Read data should not have changed";;
  '(status, info) ← psa_ps_get_info uid info;
  FAIL_IF 1141 (negb (status =? PSA_ERROR_DOES_NOT_EXIST))
    "Get info should not find another thread's UID";;
  FAIL_IF 1147 (negb (info_size info =? 0) || negb (info_flags info =? 0))
    "Info should not have changed";;
  status ← psa_ps_remove uid;
  FAIL_IF 1153 (negb (status =? PSA_ERROR_DOES_NOT_EXIST))
    "Remove should not find another thread's UID";;
  status ← psa_ps_set uid data_len (Some write_data) flags;
  FAIL_IF 1160 (negb (status =? PSA_SUCCESS))
    "Set should not fail with valid UID";;
  '(status, read_data, read_data_len) ←
    psa_ps_get uid offset data_len read_data HALF_PADDING_SIZE read_data_len;
  FAIL_IF 1167 (negb (status =? PSA_SUCCESS))
    "Get should not fail with valid UID";;
  comp_result ← c_memcmp read_data 0 (cstr RESULT_DATA) 0 (sizeof read_data);
  FAIL_IF 1173 (negb (comp_result =? 0))
    "Read data should be equal to result data";;
  status ← psa_ps_remove uid;
  FAIL_IF 1180 (negb (status =? PSA_SUCCESS))
    "Remove should not fail with valid UID";;
  ret_val TEST_PASSED.

Definition tfm_ps_test_1019_task_3 : P W unit :=
  let uid := TEST_UID_3 in
  let info := zero_info in
  let flags := PSA_STORAGE_FLAG_NONE in
  let offset := 0 in
  let write_data := cstr "Thread A data" in
  let read_data := cstr READ_DATA in
  let read_data_len := 0 in
  let data_len := sizeof write_data in
  '(status, info) ← psa_ps_get_info uid info;
  FAIL_IF 1206 (negb (status =? PSA_SUCCESS))
    "Get info should not fail with valid UID";;
  FAIL_IF 1212 (negb (info_size info =? data_len) || negb (info_flags info =? flags))
    "Info should be equal to original info";;
  '(status, read_data, read_data_len) ←
    psa_ps_get uid offset data_len read_data 0 read_data_len;
  FAIL_IF 1219 (negb (status =? PSA_SUCCESS))
    "Get should not fail with valid UID";;
  comp_result ← c_memcmp read_data 0 write_data 0 data_len;
  FAIL_IF 1225 (negb (comp_result =? 0))
    "Read data should be equal to original write data";;
  status ← psa_ps_remove uid;
  FAIL_IF 1232 (negb (status =? PSA_SUCCESS))
    "Remove should not fail with valid UID";;
  ret_val TEST_PASSED.

Definition tfm_ps_test_1019 : P W unit :=
  tfm_ps_run_test HELPER_FILE "Thread_A" tfm_ps_test_1019_task_1;;
  return_unless_passed;;
  tfm_ps_run_test HELPER_FILE "Thread_B" tfm_ps_test_1019_task_2;;
  return_unless_passed;;
  tfm_ps_run_test HELPER_FILE "Thread_A" tfm_ps_test_1019_task_3.

Definition tfm_ps_test_1020_task_1 : P W unit :=
  let uid := TEST_UID_1 in
  let flags := PSA_STORAGE_FLAG_NONE in
  let write_data := cstr "A" in
  status ← psa_ps_set uid (sizeof write_data) (Some write_data) flags;
  FAIL_IF 1269 (negb (status =? PSA_SUCCESS))
    "Set should succeed for Thread_A";;
  ret_val TEST_PASSED.

Definition tfm_ps_test_1020_task_2 : P W unit :=
  let uid := TEST_UID_1 in
  let flags := PSA_STORAGE_FLAG_NONE in
  let write_data := cstr "B" in
  status ← psa_ps_set uid (sizeof write_data) (Some write_data) flags;
  FAIL_IF 1288 (negb (status =? PSA_SUCCESS))
    "Set should succeed for Thread_B";;
  ret_val TEST_PASSED.

Definition tfm_ps_test_1020_task_3 : P W unit :=
  let uid := TEST_UID_1 in
  let flags := PSA_STORAGE_FLAG_NONE in
  let write_data := cstr "HELLO" in
  status ← psa_ps_set uid (sizeof write_data) (Some write_data) flags;
  FAIL_IF 1307 (negb (status =? PSA_SUCCESS))
    "Second set should succeed for Thread_A";;
  ret_val TEST_PASSED.

Definition tfm_ps_test_1020_task_4 : P W unit :=
  let uid := TEST_UID_1 in
  let flags := PSA_STORAGE_FLAG_NONE in
  let write_data := cstr "WORLD_1234" in
  status ← psa_ps_set uid (sizeof write_data) (Some write_data) flags;
  FAIL_IF 1326 (negb (status =? PSA_SUCCESS))
    "Second set should succeed for Thread_B";;
  ret_val TEST_PASSED.

Definition tfm_ps_test_1020_task_5 : P W unit :=
  let uid := TEST_UID_1 in
  let offset := 0 in
  let write_data := cstr "HELLO" in
  let read_data := cstr READ_DATA in
  let read_data_len := 0 in
  '(status, read_data, read_data_len) ←
    psa_ps_get uid offset (sizeof write_data) read_data 0 read_data_len;
  FAIL_IF 1348 (negb (status =? PSA_SUCCESS))
    "Get should succeed for Thread_A";;
  comp_result ← c_memcmp read_data 0 write_data 0 (sizeof write_data);
  FAIL_IF 1354 (negb (comp_result =? 0))
    "Read data incorrect for Thread_A";;
  ret_val TEST_PASSED.

Definition tfm_ps_test_1020_task_6 : P W unit :=
  let uid := TEST_UID_1 in
  let offset := 0 in
  let write_data := cstr "WORLD_1234" in
  let read_data := cstr READ_DATA in
  let read_data_len := 0 in
  '(status, read_data, read_data_len) ←
    psa_ps_get uid offset (sizeof write_data) read_data 0 read_data_len;
  FAIL_IF 1376 (negb (status =? PSA_SUCCESS))
    "Get should succeed for Thread_B";;
  comp_result ← c_memcmp read_data 0 write_data 0 (sizeof write_data);
  FAIL_IF 1382 (negb (comp_result =? 0))
    "Read data incorrect for Thread_B";;
  status ← psa_ps_remove uid;
  FAIL_IF 1389 (negb (status =? PSA_SUCCESS))
    "Remove should work form Thread_B";;
  ret_val TEST_PASSED.

Definition tfm_ps_test_1020_task_7 : P W unit :=
  let uid := TEST_UID_1 in
  status ← psa_ps_remove uid;
  FAIL_IF 1407 (negb (status =? PSA_SUCCESS))
    "Remove should work form Thread_B";;
  ret_val TEST_PASSED.

Definition tfm_ps_test_1020 : P W unit :=
  tfm_ps_run_test HELPER_FILE "Thread_A" tfm_ps_test_1020_task_1;;
  return_unless_passed;;
  tfm_ps_run_test HELPER_FILE "Thread_B" tfm_ps_test_1020_task_2;;
  return_unless_passed;;
  tfm_ps_run_test HELPER_FILE "Thread_A" tfm_ps_test_1020_task_3;;
  return_unless_passed;;
  tfm_ps_run_test HELPER_FILE "Thread_B" tfm_ps_test_1020_task_4;;
  return_unless_passed;;
  tfm_ps_run_test HELPER_FILE "Thread_A" tfm_ps_test_1020_task_5;;
  return_unless_passed;;
  tfm_ps_run_test HELPER_FILE "Thread_B" tfm_ps_test_1020_task_6;;
  return_unless_passed;;
  tfm_ps_run_test HELPER_FILE "Thread_A" tfm_ps_test_1020_task_7.

Definition tfm_ps_test_1021 : P W unit :=
  let uid_1 := TEST_UID_2 in
  let uid_2 := TEST_UID_3 in
  let flags := PSA_STORAGE_FLAG_NONE in
  let data_len_2 := WRITE_DATA_SIZE in
  let offset := 0 in
  let write_data_1 := cstr "UID 1 DATA" in
  let write_data_2 := cstr WRITE_DATA in
  let read_data := cstr READ_DATA in
  let read_data_len := 0 in
  status ← psa_ps_set uid_1 (sizeof write_data_1) (Some write_data_1) flags;
  FAIL_IF 1477 (negb (status =? PSA_SUCCESS))
    "Set should not fail for UID 1";;
  status ← psa_ps_set uid_2 data_len_2 (Some write_data_2) flags;
  FAIL_IF 1484 (negb (status =? PSA_SUCCESS))
    "Set should not fail for UID 2";;
  status ← psa_ps_remove uid_1;
  FAIL_IF 1493 (negb (status =? PSA_SUCCESS))
    "Remove should not fail for UID 1";;
  '(status, read_data, read_data_len) ←
    psa_ps_get uid_2 offset data_len_2 read_data HALF_PADDING_SIZE read_data_len;
  FAIL_IF 1503 (negb (status =? PSA_SUCCESS))
    "Get should not fail for UID 2";;
  comp_result ← c_memcmp read_data 0 (cstr RESULT_DATA) 0 (sizeof read_data);
  FAIL_IF 1508 (negb (comp_result =? 0))
    "Read buffer has incorrect data";;
  status ← psa_ps_remove uid_2;
  FAIL_IF 1515 (negb (status =? PSA_SUCCESS))
    "Remove should not fail for UID 2";;
  ret_val TEST_PASSED.

(** [i] and [offset] both count the bytes. *)
Definition tfm_ps_test_1022 : P W unit :=
  let uid := TEST_UID_1 in
  let flags := PSA_STORAGE_FLAG_NONE in
  let data_len := WRITE_DATA_SIZE in
  let offset := 0 in
  let write_data := cstr WRITE_DATA in
  let read_data := cstr READ_DATA in
  let read_data_len := 0 in
  status ← psa_ps_set uid data_len (Some write_data) flags;
  FAIL_IF 1540 (negb (status =? PSA_SUCCESS)) "Set should not fail";;
  '(offset, read_data, read_data_len) ←
    for_range 0 data_len (fun i '(offset, read_data, read_data_len) =>
      '(status, read_data, read_data_len) ←
        psa_ps_get uid offset 1 read_data (HALF_PADDING_SIZE + i) read_data_len;
      FAIL_IF 1550 (negb (status =? PSA_SUCCESS)) "Get should not fail for partial read";;
      mret (u32 (offset + 1), read_data, read_data_len)) (offset, read_data, read_data_len);
  comp_result ← c_memcmp read_data 0 (cstr RESULT_DATA) 0 (sizeof read_data);
  FAIL_IF 1558 (negb (comp_result =? 0)) "Read buffer has incorrect data";;
  status ← psa_ps_remove uid;
  FAIL_IF 1565 (negb (status =? PSA_SUCCESS)) "Remove should not fail";;
  ret_val TEST_PASSED.

Definition tfm_ps_test_1023 : P W unit :=
  let uid := TEST_UID_2 in
  let flags := PSA_STORAGE_FLAG_NONE in
  let offset := 0 in
  let write_data_1 := cstr "ONE" in
  let write_data_2 := cstr "TWO" in
  let write_data_3 := cstr "THREE" in
  let read_data := cstr READ_DATA in
  let read_data_len := 0 in
  status ← psa_ps_set uid (sizeof write_data_1) (Some write_data_1) flags;
  FAIL_IF 1590 (negb (status =? PSA_SUCCESS))
    "First set should not fail";;
  status ← psa_ps_set uid (sizeof write_data_2) (Some write_data_2) flags;
  FAIL_IF 1597 (negb (status =? PSA_SUCCESS))
    "Second set should not fail";;
  status ← psa_ps_set uid (sizeof write_data_3) (Some write_data_3) flags;
  FAIL_IF 1604 (negb (status =? PSA_SUCCESS))
    "Third set should not fail";;
  '(status, read_data, read_data_len) ←
    psa_ps_get uid offset (sizeof write_data_3) read_data 0 read_data_len;
  FAIL_IF 1611 (negb (status =? PSA_SUCCESS))
    "Get should not fail";;
  comp_result ← c_memcmp read_data 0 write_data_3 0 (sizeof write_data_3);
  FAIL_IF 1617 (negb (comp_result =? 0))
    "Read buffer has incorrect data";;
  status ← psa_ps_remove uid;
  FAIL_IF 1624 (negb (status =? PSA_SUCCESS))
    "Remove should not fail";;
  ret_val TEST_PASSED.

Definition tfm_ps_test_1024 : P W unit :=
  support_flags ← psa_ps_get_support;
  FAIL_IF 1640 (negb (support_flags =? 0)) "Support flags should be 0";;
  ret_val TEST_PASSED.

(** The body of the loop of tfm_ps_test_1025; the length goes to the static variable. *)
Definition asset_cycle (uid data_size : Z) : P W unit :=
  let info := zero_info in
  '(_, len) ← get_statics;
  put_statics (replicate (Z.to_nat PS_MAX_ASSET_SIZE) 0) len;;
  status ← psa_ps_set uid data_size (Some write_asset_data) PSA_STORAGE_FLAG_NONE;
  FAIL_IF 1680 (negb (status =? PSA_SUCCESS)) "Set should not fail with valid UID";;
  '(status, info) ← psa_ps_get_info uid info;
  FAIL_IF 1687 (negb (status =? PSA_SUCCESS)) "Get info should not fail with valid UID";;
  FAIL_IF 1693 (negb (info_size info =? data_size)) "Size incorrect for valid UID";;
  FAIL_IF 1698 (negb (info_flags info =? PSA_STORAGE_FLAG_NONE))
    "Flags incorrect for valid UID";;
  '(read_asset_data, read_asset_data_len) ← get_statics;
  '(status, read_asset_data, read_asset_data_len) ←
    psa_ps_get uid 0 data_size read_asset_data 0 read_asset_data_len;
  put_statics read_asset_data read_asset_data_len;;
  FAIL_IF 1706 (negb (status =? PSA_SUCCESS)) "Get should not fail with valid UID";;
  comp_result ← c_memcmp read_asset_data 0 write_asset_data 0 data_size;
  FAIL_IF 1712 (negb (comp_result =? 0)) "Read data should be equal to original write data";;
  status ← psa_ps_remove uid;
  FAIL_IF 1719 (negb (status =? PSA_SUCCESS)) "Remove should not fail with valid UID".

Definition tfm_ps_test_1025 : P W unit :=
  let test_uid := [TEST_UID_1; TEST_UID_2; TEST_UID_3] in
  let test_asset_sizes := [Z.shiftr PS_MAX_ASSET_SIZE 2; Z.shiftr PS_MAX_ASSET_SIZE 1;
                           PS_MAX_ASSET_SIZE] in
  for_range 0 TEST_1025_CYCLES (fun cycle _ =>
    asset_cycle (nth (Z.to_nat cycle) test_uid 0) (nth (Z.to_nat cycle) test_asset_sizes 0)) tt;;
  ret_val TEST_PASSED.

Definition psa_ps_ns_tests : list (test_t W) :=
  [TEST tfm_ps_test_1001 "TFM_NS_PS_TEST_1001" "Set interface";
   TEST tfm_ps_test_1002 "TFM_NS_PS_TEST_1002" "Set interface with create flags";
   TEST tfm_ps_test_1003 "TFM_NS_PS_TEST_1003" "Set interface with NULL data pointer";
   TEST tfm_ps_test_1004 "TFM_NS_PS_TEST_1004" "Set interface with write once UID";
   TEST tfm_ps_test_1005 "TFM_NS_PS_TEST_1005" "Get interface with valid data";
   TEST tfm_ps_test_1006 "TFM_NS_PS_TEST_1006" "Get interface with zero data length";
   TEST tfm_ps_test_1007 "TFM_NS_PS_TEST_1007" "Get interface with invalid UIDs";
   TEST tfm_ps_test_1008 "TFM_NS_PS_TEST_1008" "Get interface with invalid data lengths and offsets";
   TEST tfm_ps_test_1009 "TFM_NS_PS_TEST_1009" "Get interface with NULL data pointer";
   TEST tfm_ps_test_1010 "TFM_NS_PS_TEST_1010" "Get info interface with write once UID";
   TEST tfm_ps_test_1011 "TFM_NS_PS_TEST_1011" "Get info interface with valid UID";
   TEST tfm_ps_test_1012 "TFM_NS_PS_TEST_1012" "Get info interface with invalid UIDs";
   TEST tfm_ps_test_1013 "TFM_NS_PS_TEST_1013" "Remove interface with valid UID";
   TEST tfm_ps_test_1014 "TFM_NS_PS_TEST_1014" "Remove interface with write once UID";
   TEST tfm_ps_test_1015 "TFM_NS_PS_TEST_1015" "Remove interface with invalid UID";
   TEST tfm_ps_test_1016 "TFM_NS_PS_TEST_1016" "Get interface with invalid thread name";
   TEST tfm_ps_test_1017 "TFM_NS_PS_TEST_1017" "Get info interface with invalid thread name";
   TEST tfm_ps_test_1018 "TFM_NS_PS_TEST_1018" "Remove interface with invalid thread name";
   TEST tfm_ps_test_1019 "TFM_NS_PS_TEST_1019" "Attempt to access UID belonging to another thread";
   TEST tfm_ps_test_1020 "TFM_NS_PS_TEST_1020" "Set UID alternately from two threads";
   TEST tfm_ps_test_1021 "TFM_NS_PS_TEST_1021" "Block compaction after remove";
   TEST tfm_ps_test_1022 "TFM_NS_PS_TEST_1022" "Multiple partial gets";
   TEST tfm_ps_test_1023 "TFM_NS_PS_TEST_1023" "Multiple sets to same UID from same thread";
   TEST tfm_ps_test_1024 "TFM_NS_PS_TEST_1024" "Get support interface";
   TEST tfm_ps_test_1025 "TFM_NS_PS_TEST_1025" "Set, get and remove interface with different asset sizes"].

Definition register_testsuite_ns_psa_ps_interface : TESTSUITE_REG W :=
  register "PSA protected storage NS interface tests (TFM_NS_PS_TEST_1XXX)" psa_ps_ns_tests.
End tests.
