(* ===== verification/PsSTests.v ===== *)
(** * Protected Storage, secure tests: tests_reg/test/secure_fw/suites/ps/secure

    The test programs, tables and registrations of
    psa_ps_s_interface_testsuite.c and psa_ps_s_reliability_testsuite.c. *)

From S2P Require Import Prelude LogRaw TestFramework TestProg PsaStorage.
Local Open Scope Z_scope.

(** ** Macros of the interface suite *)

Definition WRITE_ONCE_UID : Z := 1.
Definition TEST_UID_1 : Z := 2.
Definition TEST_UID_2 : Z := 3.
Definition TEST_UID_3 : Z := 4.
Definition INVALID_UID : Z := 0.
Definition INVALID_FLAG : Z := u32 (Z.shiftl 1 31).
Definition WRITE_ONCE_DATA : string := "THE_FIVE_BOXING_WIZARDS_JUMP_QUICKLY".
Definition WRITE_ONCE_DATA_SIZE : Z := sizeof (cstr WRITE_ONCE_DATA) - 1.
Definition WRITE_ONCE_READ_DATA : string := "############################################".
Definition WRITE_ONCE_RESULT_DATA : string := "####" +:+ WRITE_ONCE_DATA +:+ "####".
Definition WRITE_DATA : string := "THEQUICKBROWNFOXJUMPSOVERALAZYDOG".
Definition WRITE_DATA_SIZE : Z := sizeof (cstr WRITE_DATA) - 1.
Definition READ_DATA : string := "_________________________________________".
Definition RESULT_DATA : string := "____" +:+ WRITE_DATA +:+ "____".
Definition OFFSET_READ_DATA : string := "HEQUICKBROWNFOXJUMPSOVERALAZYDOG".
Definition OFFSET_RESULT_DATA : string := "____" +:+ OFFSET_READ_DATA +:+ "_____".
Definition TEST_1022_CYCLES : Z := 3.

(** ns_test_helpers.h and s_test_helpers.h *)
Definition HALF_PADDING_SIZE : Z := 4.
(** The note of test 1002, a single string literal over three lines. *)
Definition write_once_note : string :=
  "Note: The UID in this test has already been created with" +:+ crlf +:+
  "the PSA_STORAGE_FLAG_WRITE_ONCE flag in a previous test" +:+ crlf +:+
  "run. Wipe the storage area to run the full test." +:+ crlf.

Section tests.
  Context {PC : PsaConsts} {V : Type} {SS : StorageService V} {PSS : SupportService V}.
  (** [__FILE__], and PS_MAX_ASSET_SIZE of the configuration. *)
  Variables (__FILE__ : string) (PS_MAX_ASSET_SIZE : Z).
  Abbreviation W := (storage_world V).
  Abbreviation FAIL_IF := (fail_if __FILE__).

(** The PS interface. *)
Abbreviation psa_ps_set := storage_set.
Abbreviation psa_ps_get := storage_get.
Abbreviation psa_ps_get_null_data := storage_get_null_data.
Abbreviation psa_ps_get_info := storage_get_info.
Abbreviation psa_ps_remove := storage_remove.
Abbreviation psa_ps_get_support := (svc_call svc_get_support).

(** [static const uint8_t write_asset_data[PS_MAX_ASSET_SIZE] = {0xBF}] *)
Definition write_asset_data : list Z := 191 :: replicate (Z.to_nat (PS_MAX_ASSET_SIZE - 1)) 0.

(** ** psa_ps_s_interface_testsuite.c *)

Definition tfm_ps_test_1001 : P W unit :=
  let uid := TEST_UID_1 in
  let flags := PSA_STORAGE_FLAG_NONE in
  let data_len := 0 in
  let write_data := [0] in
  status ← psa_ps_set uid data_len (Some write_data) flags;
  FAIL_IF 140 (negb (status =? PSA_SUCCESS))
    "Set should not fail with valid UID";;
  status ← psa_ps_set uid data_len (Some write_data) flags;
  FAIL_IF 147 (negb (status =? PSA_SUCCESS))
    "Set should not fail the second time with valid UID";;
  status ← psa_ps_set INVALID_UID data_len (Some write_data) flags;
  FAIL_IF 154 (negb (status =? PSA_ERROR_INVALID_ARGUMENT))
    "Set should not succeed with an invalid UID";;
  status ← psa_ps_remove uid;
  FAIL_IF 161 (negb (status =? PSA_SUCCESS))
    "Remove should not fail with valid UID";;
  ret_val TEST_PASSED.

Definition tfm_ps_test_1002 : P W unit :=
  let uid := TEST_UID_2 in
  let flags := PSA_STORAGE_FLAG_NONE in
  let data_len := WRITE_DATA_SIZE in
  let write_data := cstr WRITE_DATA in
  status ← psa_ps_set WRITE_ONCE_UID data_len (Some write_data) flags;
  (if status =? PSA_SUCCESS then
     status ← psa_ps_set WRITE_ONCE_UID WRITE_ONCE_DATA_SIZE
       (Some (cstr WRITE_ONCE_DATA)) PSA_STORAGE_FLAG_WRITE_ONCE;
     FAIL_IF 193 (negb (status =? PSA_SUCCESS))
       "Set should not fail with valid flags (existing UID)"
   else if status =? PSA_ERROR_NOT_PERMITTED then
     test_log write_once_note []
   else
     TEST_FAIL __FILE__ 205 "Set should not fail with no flags";; return_);;
  status ← psa_ps_set uid data_len (Some write_data) INVALID_FLAG;
  FAIL_IF 212 (negb (status =? PSA_ERROR_NOT_SUPPORTED))
    "Set should not succeed with invalid flags";;
  ret_val TEST_PASSED.

Definition tfm_ps_test_1003 : P W unit :=
  let uid := TEST_UID_3 in
  let flags := PSA_STORAGE_FLAG_NONE in
  let data_len := 0 in
  status ← psa_ps_set uid data_len None flags;
  FAIL_IF 238 (negb (status =? PSA_SUCCESS))
    "Set should succeed with NULL data pointer and zero length";;
  ret_val TEST_PASSED.

Definition tfm_ps_test_1005 : P W unit :=
  let uid := WRITE_ONCE_UID in
  let flags := PSA_STORAGE_FLAG_NONE in
  let write_len := WRITE_DATA_SIZE in
  let read_len := WRITE_ONCE_DATA_SIZE in
  let offset := 0 in
  let write_data := cstr WRITE_DATA in
  let read_data := cstr WRITE_ONCE_READ_DATA in
  let read_data_len := 0 in
  status ← psa_ps_set uid write_len (Some write_data) flags;
  FAIL_IF 264 (negb (status =? PSA_ERROR_NOT_PERMITTED))
    "Set should not rewrite a write once UID";;
  '(status, read_data, read_data_len) ←
    psa_ps_get uid offset read_len read_data HALF_PADDING_SIZE read_data_len;
  FAIL_IF 272 (negb (status =? PSA_SUCCESS))
    "Get should not fail";;
  comp_result ← c_memcmp read_data 0 (cstr WRITE_ONCE_RESULT_DATA) 0 (sizeof read_data);
  FAIL_IF 278 (negb (comp_result =? 0))
    "Write once data should not have changed";;
  ret_val TEST_PASSED.

Definition tfm_ps_test_1006 : P W unit :=
  let uid := TEST_UID_2 in
  let flags := PSA_STORAGE_FLAG_NONE in
  let data_len := WRITE_DATA_SIZE in
  let offset := 0 in
  let write_data := cstr WRITE_DATA in
  let read_data := cstr READ_DATA in
  let p_read_data := 0 in
  let read_data_len := 0 in
  status ← psa_ps_set uid data_len (Some write_data) flags;
  FAIL_IF 304 (negb (status =? PSA_SUCCESS))
    "Set should not fail";;
  '(status, read_data, read_data_len) ←
    psa_ps_get uid offset data_len read_data HALF_PADDING_SIZE read_data_len;
  FAIL_IF 312 (negb (status =? PSA_SUCCESS))
    "Get should not fail";;
  comp_result ← c_memcmp read_data 0 (cstr RESULT_DATA) 0 (sizeof read_data);
  FAIL_IF 318 (negb (comp_result =? 0))
    "Read data should be equal to result data";;
  read_data ← c_memcpy read_data (cstr READ_DATA) (sizeof read_data);
  let offset := 2 in
  let data_len := u32 (data_len - (u32 (offset + 2))) in
  '(status, read_data, read_data_len) ←
    psa_ps_get uid offset data_len read_data HALF_PADDING_SIZE read_data_len;
  FAIL_IF 332 (negb (status =? PSA_SUCCESS))
    "Get should not fail";;
  comp_result ← c_memcmp read_data p_read_data (cstr "____") 0 HALF_PADDING_SIZE;
  FAIL_IF 338 (negb (comp_result =? 0))
    "Read data contains illegal pre-data";;
  let p_read_data := p_read_data + HALF_PADDING_SIZE in
  comp_result ← c_memcmp read_data p_read_data write_data offset data_len;
  FAIL_IF 345 (negb (comp_result =? 0))
    "Read data incorrect";;
  let p_read_data := p_read_data + data_len in
  comp_result ← c_memcmp read_data p_read_data (cstr "____") 0 HALF_PADDING_SIZE;
  FAIL_IF 352 (negb (comp_result =? 0))
    "Read data contains illegal post-data";;
  status ← psa_ps_remove uid;
  FAIL_IF 359 (negb (status =? PSA_SUCCESS))
    "Remove should not fail with valid UID";;
  ret_val TEST_PASSED.

Definition tfm_ps_test_1007 : P W unit :=
  let uid := TEST_UID_3 in
  let flags := PSA_STORAGE_FLAG_NONE in
  let write_len := WRITE_DATA_SIZE in
  let read_len := 0 in
  let offset := 0 in
  let write_data := cstr WRITE_DATA in
  let read_data := cstr READ_DATA in
  let read_data_len := 0 in
  status ← psa_ps_set uid write_len (Some write_data) flags;
  FAIL_IF 385 (negb (status =? PSA_SUCCESS))
    "Set should not fail";;
  '(status, read_data, read_data_len) ←
    psa_ps_get uid offset read_len read_data HALF_PADDING_SIZE read_data_len;
  FAIL_IF 393 (negb (status =? PSA_SUCCESS))
    "Get should not fail with zero data len";;
  comp_result ← c_memcmp read_data 0 (cstr READ_DATA) 0 (sizeof read_data);
  FAIL_IF 399 (negb (comp_result =? 0))
    "Read data should be equal to original read data";;
  let offset := 5 in
  '(status, read_data, read_data_len) ←
    psa_ps_get uid offset read_len read_data HALF_PADDING_SIZE read_data_len;
  FAIL_IF 409 (negb (status =? PSA_SUCCESS))
    "Get should not fail";;
  comp_result ← c_memcmp read_data 0 (cstr READ_DATA) 0 (sizeof read_data);
  FAIL_IF 415 (negb (comp_result =? 0))
    "Read data should be equal to original read data";;
  status ← psa_ps_remove uid;
  FAIL_IF 422 (negb (status =? PSA_SUCCESS))
    "Remove should not fail with valid UID";;
  ret_val TEST_PASSED.

Definition tfm_ps_test_1008 : P W unit :=
  let uid := TEST_UID_1 in
  let data_len := 1 in
  let offset := 0 in
  let read_data := cstr READ_DATA in
  let read_data_len := 0 in
  '(status, read_data, read_data_len) ←
    psa_ps_get uid offset data_len read_data HALF_PADDING_SIZE read_data_len;
  FAIL_IF 447 (negb (status =? PSA_ERROR_DOES_NOT_EXIST))
    "Get succeeded with non-existant UID";;
  comp_result ← c_memcmp read_data 0 (cstr READ_DATA) 0 (sizeof read_data);
  FAIL_IF 453 (negb (comp_result =? 0))
    "Read data not equal to original read data";;
  '(status, read_data, read_data_len) ←
    psa_ps_get INVALID_UID offset data_len read_data HALF_PADDING_SIZE read_data_len;
  FAIL_IF 461 (negb (status =? PSA_ERROR_INVALID_ARGUMENT))
    "Get succeeded with invalid UID";;
  comp_result ← c_memcmp read_data 0 (cstr READ_DATA) 0 (sizeof read_data);
  FAIL_IF 467 (negb (comp_result =? 0))
    "Read data not equal to original read data";;
  ret_val TEST_PASSED.

Definition tfm_ps_test_1009 : P W unit :=
  let uid := TEST_UID_2 in
  let flags := PSA_STORAGE_FLAG_NONE in
  let write_len := WRITE_DATA_SIZE in
  let write_data := cstr WRITE_DATA in
  let read_data := cstr READ_DATA in
  let read_data_len := 0 in
  status ← psa_ps_set uid write_len (Some write_data) flags;
  FAIL_IF 494 (negb (status =? PSA_SUCCESS))
    "Set should not fail";;
  let read_len := 1 in
  let offset := u32 (write_len + 1) in
  '(status, read_data, read_data_len) ←
    psa_ps_get uid offset read_len read_data HALF_PADDING_SIZE read_data_len;
  FAIL_IF 505 (negb (status =? PSA_ERROR_INVALID_ARGUMENT))
    "Get should not succeed with offset too large";;
  comp_result ← c_memcmp read_data 0 (cstr READ_DATA) 0 (sizeof read_data);
  FAIL_IF 511 (negb (comp_result =? 0))
    "Read data should be equal to original read data";;
  let read_len := u32 (write_len + 1) in
  let offset := 0 in
  '(status, read_data, read_data_len) ←
    psa_ps_get uid offset read_len read_data HALF_PADDING_SIZE read_data_len;
  FAIL_IF 522 (negb (status =? PSA_SUCCESS))
    "Get should succeed with data length larger than UID's length";;
  FAIL_IF 528 (negb (read_data_len =? write_len))
    "Read data length should be equal to UID's length";;
  comp_result ← c_memcmp read_data 0 (cstr RESULT_DATA) 0 (sizeof read_data);
  FAIL_IF 534 (negb (comp_result =? 0))
    "Read data should be equal to original read data";;
  let read_len := write_len in
  let offset := 1 in
  read_data ← c_memcpy read_data (cstr READ_DATA) (sizeof read_data);
  '(status, read_data, read_data_len) ←
    psa_ps_get uid offset read_len read_data HALF_PADDING_SIZE read_data_len;
  FAIL_IF 550 (negb (status =? PSA_SUCCESS))
    "Get should succeed with offset + data length too large, but individually valid";;
  FAIL_IF 556 (negb (read_data_len =? u32 (write_len - offset)))
    "Read data length should be equal to the UID's remaining size starting from offset";;
  comp_result ← c_memcmp read_data 0 (cstr OFFSET_RESULT_DATA) 0 (sizeof read_data);
  FAIL_IF 563 (negb (comp_result =? 0))
    "Read data should be equal to original read data";;
  status ← psa_ps_remove uid;
  FAIL_IF 570 (negb (status =? PSA_SUCCESS))
    "Remove should not fail with valid UID";;
  ret_val TEST_PASSED.

Definition tfm_ps_test_1010 : P W unit :=
  let uid := TEST_UID_3 in
  let flags := PSA_STORAGE_FLAG_NONE in
  let data_len := WRITE_DATA_SIZE in
  let offset := 0 in
  let write_data := cstr WRITE_DATA in
  let read_data_len := 0 in
  status ← psa_ps_set uid data_len (Some write_data) flags;
  FAIL_IF 598 (negb (status =? PSA_SUCCESS))
    "Set should not fail";;
  '(status, read_data_len) ← psa_ps_get_null_data uid offset 0 read_data_len;
  FAIL_IF 605 (negb (status =? PSA_SUCCESS))
    "Get should succeed with NULL data pointer and zero length";;
  status ← psa_ps_remove uid;
  FAIL_IF 612 (negb (status =? PSA_SUCCESS))
    "Remove should not fail with valid UID";;
  ret_val TEST_PASSED.

Definition tfm_ps_test_1011 : P W unit :=
  let uid := WRITE_ONCE_UID in
  let info := zero_info in
  '(status, info) ← psa_ps_get_info uid info;
  FAIL_IF 632 (negb (status =? PSA_SUCCESS))
    "Get info should not fail for write once UID";;
  FAIL_IF 638 (negb (info_size info =? WRITE_ONCE_DATA_SIZE))
    "Size incorrect for write once UID";;
  FAIL_IF 643 (negb (info_flags info =? PSA_STORAGE_FLAG_WRITE_ONCE))
    "Flags incorrect for write once UID";;
  ret_val TEST_PASSED.

Definition tfm_ps_test_1012 : P W unit :=
  let uid := TEST_UID_1 in
  let info := zero_info in
  let flags := PSA_STORAGE_FLAG_NONE in
  let data_len := WRITE_DATA_SIZE in
  let write_data := cstr WRITE_DATA in
  status ← psa_ps_set uid data_len (Some write_data) flags;
  FAIL_IF 665 (negb (status =? PSA_SUCCESS))
    "Set should not fail";;
  '(status, info) ← psa_ps_get_info uid info;
  FAIL_IF 672 (negb (status =? PSA_SUCCESS))
    "Get info should not fail with valid UID";;
  FAIL_IF 678 (negb (info_size info =? data_len))
    "Size incorrect for valid UID";;
  FAIL_IF 683 (negb (info_flags info =? flags))
    "Flags incorrect for valid UID";;
  status ← psa_ps_remove uid;
  FAIL_IF 690 (negb (status =? PSA_SUCCESS))
    "Remove should not fail with valid UID";;
  ret_val TEST_PASSED.

Definition tfm_ps_test_1013 : P W unit :=
  let uid := TEST_UID_2 in
  let info := zero_info in
  '(status, info) ← psa_ps_get_info uid info;
  FAIL_IF 711 (negb (status =? PSA_ERROR_DOES_NOT_EXIST))
    "Get info should not succeed with unset UID";;
  FAIL_IF 717 (negb (info_size info =? 0))
    "Size should not have changed";;
  FAIL_IF 722 (negb (info_flags info =? 0))
    "Flags should not have changed";;
  '(status, info) ← psa_ps_get_info INVALID_UID info;
  FAIL_IF 729 (negb (status =? PSA_ERROR_INVALID_ARGUMENT))
    "Get info should not succeed with invalid UID";;
  FAIL_IF 735 (negb (info_size info =? 0))
    "Size should not have changed";;
  FAIL_IF 740 (negb (info_flags info =? 0))
    "Flags should not have changed";;
  ret_val TEST_PASSED.

Definition tfm_ps_test_1015 : P W unit :=
  let uid := TEST_UID_1 in
  let info := zero_info in
  let flags := PSA_STORAGE_FLAG_NONE in
  let data_len := WRITE_DATA_SIZE in
  let offset := 0 in
  let write_data := cstr WRITE_DATA in
  let read_data := cstr READ_DATA in
  let read_data_len := 0 in
  status ← psa_ps_set uid data_len (Some write_data) flags;
  FAIL_IF 765 (negb (status =? PSA_SUCCESS))
    "Set should not fail";;
  status ← psa_ps_remove uid;
  FAIL_IF 772 (negb (status =? PSA_SUCCESS))
    "Remove should not fail with valid UID";;
  '(status, info) ← psa_ps_get_info uid info;
  FAIL_IF 779 (negb (status =? PSA_ERROR_DOES_NOT_EXIST))
    "Get info should not succeed with removed UID";;
  '(status, read_data, read_data_len) ←
    psa_ps_get uid offset data_len read_data 0 read_data_len;
  FAIL_IF 786 (negb (status =? PSA_ERROR_DOES_NOT_EXIST))
    "Get should not succeed with removed UID";;
  status ← psa_ps_remove uid;
  FAIL_IF 793 (negb (status =? PSA_ERROR_DOES_NOT_EXIST))
    "Remove should not succeed with removed UID";;
  ret_val TEST_PASSED.

Definition tfm_ps_test_1016 : P W unit :=
  let uid := WRITE_ONCE_UID in
  status ← psa_ps_remove uid;
  FAIL_IF 812 (negb (status =? PSA_ERROR_NOT_PERMITTED))
    "Remove should not succeed with write once UID";;
  ret_val TEST_PASSED.

Definition tfm_ps_test_1017 : P W unit :=
  let uid := INVALID_UID in
  status ← psa_ps_remove uid;
  FAIL_IF 831 (negb (status =? PSA_ERROR_INVALID_ARGUMENT))
    "Remove should not succeed with invalid UID";;
  ret_val TEST_PASSED.

Definition tfm_ps_test_1018 : P W unit :=
  let uid_1 := TEST_UID_2 in
  let uid_2 := TEST_UID_3 in
  let flags := PSA_STORAGE_FLAG_NONE in
  let data_len_2 := WRITE_DATA_SIZE in
  let offset := 0 in
  let write_data_1 := cstr "UID 1 DATA" in
  let write_data_2 := cstr WRITE_DATA in
  let read_data := cstr READ_DATA in
  let read_data_len := 0 in
  status ← psa_ps_set uid_1 (sizeof write_data_1) (Some write_data_1) flags;
  FAIL_IF 861 (negb (status =? PSA_SUCCESS))
    "Set should not fail for UID 1";;
  status ← psa_ps_set uid_2 data_len_2 (Some write_data_2) flags;
  FAIL_IF 868 (negb (status =? PSA_SUCCESS))
    "Set should not fail for UID 2";;
  status ← psa_ps_remove uid_1;
  FAIL_IF 877 (negb (status =? PSA_SUCCESS))
    "Remove should not fail for UID 1";;
  '(status, read_data, read_data_len) ←
    psa_ps_get uid_2 offset data_len_2 read_data HALF_PADDING_SIZE read_data_len;
  FAIL_IF 887 (negb (status =? PSA_SUCCESS))
    "Get should not fail for UID 2";;
  comp_result ← c_memcmp read_data 0 (cstr RESULT_DATA) 0 (sizeof read_data);
  FAIL_IF 892 (negb (comp_result =? 0))
    "Read buffer has incorrect data";;
  status ← psa_ps_remove uid_2;
  FAIL_IF 899 (negb (status =? PSA_SUCCESS))
    "Remove should not fail for UID 2";;
  ret_val TEST_PASSED.

(** [i] and [offset] both count the bytes. *)
Definition tfm_ps_test_1019 : P W unit :=
  let uid := TEST_UID_1 in
  let flags := PSA_STORAGE_FLAG_NONE in
  let data_len := WRITE_DATA_SIZE in
  let offset := 0 in
  let write_data := cstr WRITE_DATA in
  let read_data := cstr READ_DATA in
  let read_data_len := 0 in
  status ← psa_ps_set uid data_len (Some write_data) flags;
  FAIL_IF 924 (negb (status =? PSA_SUCCESS)) "Set should not fail";;
  '(offset, read_data, read_data_len) ←
    for_range 0 data_len (fun i '(offset, read_data, read_data_len) =>
      '(status, read_data, read_data_len) ←
        psa_ps_get uid offset 1 read_data (HALF_PADDING_SIZE + i) read_data_len;
      FAIL_IF 934 (negb (status =? PSA_SUCCESS)) "Get should not fail for partial read";;
      mret (u32 (offset + 1), read_data, read_data_len)) (offset, read_data, read_data_len);
  comp_result ← c_memcmp read_data 0 (cstr RESULT_DATA) 0 (sizeof read_data);
  FAIL_IF 942 (negb (comp_result =? 0)) "Read buffer has incorrect data";;
  status ← psa_ps_remove uid;
  FAIL_IF 949 (negb (status =? PSA_SUCCESS)) "Remove should not fail";;
  ret_val TEST_PASSED.

Definition tfm_ps_test_1020 : P W unit :=
  let uid := TEST_UID_2 in
  let flags := PSA_STORAGE_FLAG_NONE in
  let offset := 0 in
  let write_data_1 := cstr "ONE" in
  let write_data_2 := cstr "TWO" in
  let write_data_3 := cstr "THREE" in
  let read_data := cstr READ_DATA in
  let read_data_len := 0 in
  status ← psa_ps_set uid (sizeof write_data_1) (Some write_data_1) flags;
  FAIL_IF 974 (negb (status =? PSA_SUCCESS))
    "First set should not fail";;
  status ← psa_ps_set uid (sizeof write_data_2) (Some write_data_2) flags;
  FAIL_IF 981 (negb (status =? PSA_SUCCESS))
    "Second set should not fail";;
  status ← psa_ps_set uid (sizeof write_data_3) (Some write_data_3) flags;
  FAIL_IF 988 (negb (status =? PSA_SUCCESS))
    "Third set should not fail";;
  '(status, read_data, read_data_len) ←
    psa_ps_get uid offset (sizeof write_data_3) read_data 0 read_data_len;
  FAIL_IF 995 (negb (status =? PSA_SUCCESS))
    "Get should not fail";;
  comp_result ← c_memcmp read_data 0 write_data_3 0 (sizeof write_data_3);
  FAIL_IF 1001 (negb (comp_result =? 0))
    "Read buffer has incorrect data";;
  status ← psa_ps_remove uid;
  FAIL_IF 1008 (negb (status =? PSA_SUCCESS))
    "Remove should not fail";;
  ret_val TEST_PASSED.

Definition tfm_ps_test_1021 : P W unit :=
  support_flags ← psa_ps_get_support;
  FAIL_IF 1024 (negb (support_flags =? 0)) "Support flags should be 0";;
  ret_val TEST_PASSED.

(** The body of the loop of tfm_ps_test_1022; the length goes to the static variable. *)
Definition asset_cycle (uid data_size : Z) : P W unit :=
  let info := zero_info in
  '(_, len) ← get_statics;
  put_statics (replicate (Z.to_nat PS_MAX_ASSET_SIZE) 0) len;;
  status ← psa_ps_set uid data_size (Some write_asset_data) PSA_STORAGE_FLAG_NONE;
  FAIL_IF 1064 (negb (status =? PSA_SUCCESS)) "Set should not fail with valid UID";;
  '(status, info) ← psa_ps_get_info uid info;
  FAIL_IF 1071 (negb (status =? PSA_SUCCESS)) "Get info should not fail with valid UID";;
  FAIL_IF 1077 (negb (info_size info =? data_size)) "Size incorrect for valid UID";;
  FAIL_IF 1082 (negb (info_flags info =? PSA_STORAGE_FLAG_NONE))
    "Flags incorrect for valid UID";;
  '(read_asset_data, read_asset_data_len) ← get_statics;
  '(status, read_asset_data, read_asset_data_len) ←
    psa_ps_get uid 0 data_size read_asset_data 0 read_asset_data_len;
  put_statics read_asset_data read_asset_data_len;;
  FAIL_IF 1090 (negb (status =? PSA_SUCCESS)) "Get should not fail with valid UID";;
  comp_result ← c_memcmp read_asset_data 0 write_asset_data 0 data_size;
  FAIL_IF 1096 (negb (comp_result =? 0)) "Read data should be equal to original write data";;
  status ← psa_ps_remove uid;
  FAIL_IF 1103 (negb (status =? PSA_SUCCESS)) "Remove should not fail with valid UID".

Definition tfm_ps_test_1022 : P W unit :=
  let test_uid := [TEST_UID_1; TEST_UID_2; TEST_UID_3] in
  let test_asset_sizes := [Z.shiftr PS_MAX_ASSET_SIZE 2; Z.shiftr PS_MAX_ASSET_SIZE 1;
                           PS_MAX_ASSET_SIZE] in
  for_range 0 TEST_1022_CYCLES (fun cycle _ =>
    asset_cycle (nth (Z.to_nat cycle) test_uid 0) (nth (Z.to_nat cycle) test_asset_sizes 0)) tt;;
  ret_val TEST_PASSED.

Definition psa_ps_s_tests : list (test_t W) :=
  [TEST tfm_ps_test_1001 "TFM_S_PS_TEST_1001" "Set interface";
   TEST tfm_ps_test_1002 "TFM_S_PS_TEST_1002" "Set interface with create flags";
   TEST tfm_ps_test_1003 "TFM_S_PS_TEST_1003" "Set interface with NULL data pointer";
   TEST tfm_ps_test_1005 "TFM_S_PS_TEST_1005" "Set interface with write once UID";
   TEST tfm_ps_test_1006 "TFM_S_PS_TEST_1006" "Get interface with valid data";
   TEST tfm_ps_test_1007 "TFM_S_PS_TEST_1007" "Get interface with zero data length";
   TEST tfm_ps_test_1008 "TFM_S_PS_TEST_1008" "Get interface with invalid UIDs";
   TEST tfm_ps_test_1009 "TFM_S_PS_TEST_1009" "Get interface with invalid data lengths and offsets";
   TEST tfm_ps_test_1010 "TFM_S_PS_TEST_1010" "Get interface with NULL data pointer";
   TEST tfm_ps_test_1011 "TFM_S_PS_TEST_1011" "Get info interface with write once UID";
   TEST tfm_ps_test_1012 "TFM_S_PS_TEST_1012" "Get info interface with valid UID";
   TEST tfm_ps_test_1013 "TFM_S_PS_TEST_1013" "Get info interface with invalid UIDs";
   TEST tfm_ps_test_1015 "TFM_S_PS_TEST_1015" "Remove interface with valid UID";
   TEST tfm_ps_test_1016 "TFM_S_PS_TEST_1016" "Remove interface with write once UID";
   TEST tfm_ps_test_1017 "TFM_S_PS_TEST_1017" "Remove interface with invalid UID";
   TEST tfm_ps_test_1018 "TFM_S_PS_TEST_1018" "Block compaction after remove";
   TEST tfm_ps_test_1019 "TFM_S_PS_TEST_1019" "Multiple partial gets";
   TEST tfm_ps_test_1020 "TFM_S_PS_TEST_1020" "Multiple sets to same UID from same thread";
   TEST tfm_ps_test_1021 "TFM_S_PS_TEST_1021" "Get support interface";
   TEST tfm_ps_test_1022 "TFM_S_PS_TEST_1022" "Set, get and remove interface with different asset sizes"].

Definition register_testsuite_s_psa_ps_interface : TESTSUITE_REG W :=
  register "PSA protected storage S interface tests (TFM_S_PS_TEST_1XXX)" psa_ps_s_tests.
End tests.

(** ** psa_ps_s_reliability_testsuite.c *)

Module Reliability.
Definition TEST_UID : Z := 2.
Definition LOOP_ITERATIONS_001 : Z := 15.
Definition LOOP_ITERATIONS_002 : Z := 15.
Definition WRITE_DATA : string := "THE_FIVE_BOXING_WIZARDS_JUMP_QUICKLY".
Definition WRITE_DATA_SIZE : Z := sizeof (cstr WRITE_DATA) - 1.
Definition READ_DATA : string := "############################################".
Definition RESULT_DATA : string := "####" +:+ WRITE_DATA +:+ "####".

Section tests.
  Context {PC : PsaConsts} {V : Type} {SS : StorageService V}.
  Variable (__FILE__ : string).
  Abbreviation W := (storage_world V).
  Abbreviation FAIL_IF := (fail_if __FILE__).

(** The statements of one iteration up to the check of the data, common to
    both tests; [lns] are the lines of the three checks. *)
Definition set_and_get (uid : Z) (lns : Z * Z * Z) (loops itr : Z) (read_data : list Z)
    (read_data_len : Z) : P W (list Z * Z) :=
  let flags := PSA_STORAGE_FLAG_NONE in
  let data_len := WRITE_DATA_SIZE in
  let offset := 0 in
  let write_data := cstr WRITE_DATA in
  test_log ("  > Iteration %d of %d" +:+ cr) [VaInt (u32 (itr + 1)); VaInt loops];;
  status ← storage_set uid data_len (Some write_data) flags;
  FAIL_IF lns.1.1 (negb (status =? PSA_SUCCESS)) "Set should not fail with valid UID";;
  '(status, read_data, read_data_len) ←
    storage_get uid offset data_len read_data HALF_PADDING_SIZE read_data_len;
  FAIL_IF lns.1.2 (negb (status =? PSA_SUCCESS)) "Get should not fail";;
  comp_result ← c_memcmp read_data 0 (cstr RESULT_DATA) 0 (sizeof read_data);
  FAIL_IF lns.2 (negb (comp_result =? 0)) "The data should not have changed";;
  mret (read_data, read_data_len).

Definition tfm_ps_test_2001 : P W unit :=
  let uid := TEST_UID in
  let read_data := cstr READ_DATA in
  let read_data_len := 0 in
  for_range 0 LOOP_ITERATIONS_001 (fun itr '(read_data, read_data_len) =>
    '(read_data, read_data_len) ←
      set_and_get uid (73, 82, 88) LOOP_ITERATIONS_001 itr read_data read_data_len;
    read_data ← c_memcpy read_data (cstr READ_DATA) (sizeof read_data);
    mret (read_data, read_data_len)) (read_data, read_data_len);;
  test_log lf [];;
  status ← storage_remove uid;
  FAIL_IF 101 (negb (status =? PSA_SUCCESS)) "Remove should not fail with valid UID";;
  ret_val TEST_PASSED.

Definition tfm_ps_test_2002 : P W unit :=
  let uid := TEST_UID in
  let read_data := cstr READ_DATA in
  let read_data_len := 0 in
  for_range 0 LOOP_ITERATIONS_002 (fun itr '(read_data, read_data_len) =>
    '(read_data, read_data_len) ←
      set_and_get uid (129, 138, 144) LOOP_ITERATIONS_002 itr read_data read_data_len;
    status ← storage_remove uid;
    FAIL_IF 151 (negb (status =? PSA_SUCCESS)) "Remove should not fail with valid UID";;
    read_data ← c_memcpy read_data (cstr READ_DATA) (sizeof read_data);
    mret (read_data, read_data_len)) (read_data, read_data_len);;
  test_log lf [];;
  ret_val TEST_PASSED.

Definition reliability_tests : list (test_t W) :=
  [TEST tfm_ps_test_2001 "TFM_S_PS_TEST_2001" "repetitive sets and gets in/from an asset";
   TEST tfm_ps_test_2002 "TFM_S_PS_TEST_2002" "repetitive sets, gets and removes"].

Definition register_testsuite_s_psa_ps_reliability : TESTSUITE_REG W :=
  register "PS reliability tests (TFM_PS_TEST_3XXX)" reliability_tests.
End tests.
End Reliability.
