(* ===== verification/PsSProofs.v ===== *)
(** * The secure PS tests against the contract of the service *)

From S2P Require Import Prelude LogRaw TestFramework TestProg PsaStorage StorageTactics PsSTests.
Local Open Scope Z_scope.

Section ps_secure.
  Context {PC : PsaConsts} {PL : PsaConstsLaws}.
  Context {PS_MAX_ASSET_SIZE : Z} {NUM_ASSETS : nat} {supported : Z -> bool}.
  Context {V : Type} {SS : StorageService V} {PSS : SupportService V}.
  Context {SL : StorageLaws PS_MAX_ASSET_SIZE NUM_ASSETS supported V} {PSL : SupportLaws V}.
  Variables (__FILE__ : string).
  Hypothesis Hmax : 36 <= PS_MAX_ASSET_SIZE.
  Hypothesis Hnone : supported PSA_STORAGE_FLAG_NONE = true.
  Hypothesis Honce : supported PSA_STORAGE_FLAG_WRITE_ONCE = true.
  Hypothesis Hinvalid : supported INVALID_FLAG = false.
  Implicit Types (m : assets_map) (c : Z).

Definition ps_uids : list Z := [1; 2; 3; 4].
Definition once_asset : asset :=
  (take (Z.to_nat WRITE_ONCE_DATA_SIZE) (cstr WRITE_ONCE_DATA), PSA_STORAGE_FLAG_WRITE_ONCE).
Definition empty_asset : asset := ([], PSA_STORAGE_FLAG_NONE).

Abbreviation room := (room NUM_ASSETS ps_uids).
Abbreviation passes := (passes (V := V)).

Ltac start :=
  unfold WRITE_ONCE_UID, TEST_UID_1, TEST_UID_2, TEST_UID_3, INVALID_UID, Reliability.TEST_UID,
    once_asset, empty_asset in *;
  intros b n s Hs.
Ltac run := start; repeat stmt; map_tac.

Lemma ps_s_test_1001_passes c m :
  room c m -> m !! (c, 2) = None -> passes c (tfm_ps_test_1001 __FILE__) m m.
Proof. intros. unfold tfm_ps_test_1001. run. Qed.

Lemma ps_s_test_1002_passes c m :
  room c m -> m !! (c, 3) = None -> m !! (c, 1) = None \/ m !! (c, 1) = Some once_asset ->
  passes c (tfm_ps_test_1002 __FILE__) m (<[(c, 1) := once_asset]> m).
Proof.
  intros Hr Hm Hw. unfold tfm_ps_test_1002. start. destruct Hw as [Hw|Hw].
  - do 3 stmt. rewrite Z.eqb_refl. repeat stmt. map_tac.
  - do 3 stmt. rewrite not_permitted_not_success, Z.eqb_refl. repeat stmt.
    by rewrite insert_id.
Qed.

Lemma ps_s_test_1003_passes c m :
  room c m -> m !! (c, 4) = None ->
  passes c (tfm_ps_test_1003 __FILE__) m (<[(c, 4) := empty_asset]> m).
Proof. intros. unfold tfm_ps_test_1003. run. Qed.

Lemma ps_s_test_1005_passes c m :
  room c m -> m !! (c, 1) = Some once_asset -> passes c (tfm_ps_test_1005 __FILE__) m m.
Proof. intros. unfold tfm_ps_test_1005. run. Qed.

Lemma ps_s_test_1006_passes c m :
  room c m -> m !! (c, 3) = None -> passes c (tfm_ps_test_1006 __FILE__) m m.
Proof. intros. unfold tfm_ps_test_1006. run. Qed.

Lemma ps_s_test_1007_passes c m :
  room c m -> m !! (c, 4) = Some empty_asset ->
  passes c (tfm_ps_test_1007 __FILE__) m (delete (c, 4) m).
Proof. intros. unfold tfm_ps_test_1007. run. Qed.

Lemma ps_s_test_1008_passes c m :
  m !! (c, 2) = None -> passes c (tfm_ps_test_1008 __FILE__) m m.
Proof. intros. unfold tfm_ps_test_1008. run. Qed.

Lemma ps_s_test_1009_passes c m :
  room c m -> m !! (c, 3) = None -> passes c (tfm_ps_test_1009 __FILE__) m m.
Proof. intros. unfold tfm_ps_test_1009. run. Qed.

Lemma ps_s_test_1010_passes c m :
  room c m -> m !! (c, 4) = None -> passes c (tfm_ps_test_1010 __FILE__) m m.
Proof. intros. unfold tfm_ps_test_1010. run. Qed.

Lemma ps_s_test_1011_passes c m :
  m !! (c, 1) = Some once_asset -> passes c (tfm_ps_test_1011 __FILE__) m m.
Proof. intros. unfold tfm_ps_test_1011. run. Qed.

Lemma ps_s_test_1012_passes c m :
  room c m -> m !! (c, 2) = None -> passes c (tfm_ps_test_1012 __FILE__) m m.
Proof. intros. unfold tfm_ps_test_1012. run. Qed.

Lemma ps_s_test_1013_passes c m :
  m !! (c, 3) = None -> passes c (tfm_ps_test_1013 __FILE__) m m.
Proof. intros. unfold tfm_ps_test_1013. run. Qed.

Lemma ps_s_test_1015_passes c m :
  room c m -> m !! (c, 2) = None -> passes c (tfm_ps_test_1015 __FILE__) m m.
Proof. intros. unfold tfm_ps_test_1015. run. Qed.

Lemma ps_s_test_1016_passes c m :
  m !! (c, 1) = Some once_asset -> passes c (tfm_ps_test_1016 __FILE__) m m.
Proof. intros. unfold tfm_ps_test_1016. run. Qed.

Lemma ps_s_test_1017_passes c m : passes c (tfm_ps_test_1017 __FILE__) m m.
Proof. intros. unfold tfm_ps_test_1017. run. Qed.

Lemma ps_s_test_1018_passes c m :
  room c m -> m !! (c, 3) = None -> m !! (c, 4) = None ->
  passes c (tfm_ps_test_1018 __FILE__) m m.
Proof. intros. unfold tfm_ps_test_1018. run. Qed.

Lemma ps_s_test_1019_passes c m :
  room c m -> m !! (c, 2) = None -> passes c (tfm_ps_test_1019 __FILE__) m m.
Proof.
  intros Hr Hm. unfold tfm_ps_test_1019. start. do 5 stmt.
  eapply wp_partial_gets; [eassumption | done | side | done | done | by vm_compute | done |].
  intros. repeat stmt. map_tac.
Qed.

Lemma ps_s_test_1020_passes c m :
  room c m -> m !! (c, 3) = None -> passes c (tfm_ps_test_1020 __FILE__) m m.
Proof. intros. unfold tfm_ps_test_1020. run. Qed.

Lemma ps_s_test_1021_passes c m : passes c (tfm_ps_test_1021 __FILE__) m m.
Proof. intros. unfold tfm_ps_test_1021. run. Qed.

Lemma ps_s_write_asset_size : sizeof (write_asset_data PS_MAX_ASSET_SIZE) = PS_MAX_ASSET_SIZE.
Proof. unfold sizeof, write_asset_data. rewrite length_cons, length_replicate. lia. Qed.

Lemma ps_s_asset_cycle_passes c m uid sz b n s :
  room c m -> uid ∈ [2; 3; 4] -> m !! (c, uid) = None -> 0 <= sz <= PS_MAX_ASSET_SIZE ->
  at_state c m b n s ->
  wp (asset_cycle __FILE__ PS_MAX_ASSET_SIZE uid sz)
    (fun _ s' => exists b' n', at_state c m b' n' s') s.
Proof.
  intros Hr Hu Hm Hsz Hs. rewrite !elem_of_cons, elem_of_nil in Hu. assert (uid <> 0) by lia.
  assert (uid ∈ ps_uids) by (destruct Hu as [->|[->|[->|[]]]]; uid_in).
  unfold asset_cycle.
  asset_cycle_tac ps_uids (write_asset_data PS_MAX_ASSET_SIZE) sz ps_s_write_asset_size.
  stmt. eexists _, _. match goal with H : at_state _ (delete _ _) _ _ _ |- _ => 
    rewrite delete_insert_eq, delete_id in H by done; exact H end.
Qed.

Lemma ps_s_test_1022_passes c m :
  room c m -> m !! (c, 2) = None -> m !! (c, 3) = None -> m !! (c, 4) = None ->
  passes c (tfm_ps_test_1022 __FILE__ PS_MAX_ASSET_SIZE) m m.
Proof.
  intros Hr H2 H3 H4. unfold tfm_ps_test_1022. start. cbv zeta. apply wp_bind.
  eapply (wp_for_range (fun _ _ s => exists b n, at_state c m b n s)).
  - by vm_compute.
  - by exists b, n.
  - clear s b n Hs. intros k [] s Hk (b & n & Hs). change TEST_1022_CYCLES with 3 in Hk.
    pose proof (shiftr_bounds PS_MAX_ASSET_SIZE 1 ltac:(lia) ltac:(lia)).
    pose proof (shiftr_bounds PS_MAX_ASSET_SIZE 2 ltac:(lia) ltac:(lia)).
    assert (0 <= PS_MAX_ASSET_SIZE <= PS_MAX_ASSET_SIZE) by lia.
    assert (k = 0 \/ k = 1 \/ k = 2) as [->|[->| ->]] by lia;
      (eapply ps_s_asset_cycle_passes; [done | uid_in | done | assumption | done]).
  - intros _ s' (b' & n' & Hs'). by eapply wp_passed.
Qed.

(** One iteration of a reliability test leaves the data in the buffer and the
    asset in the store. *)
Lemma ps_s_set_and_get_spec c m uid lns loops itr len b n s :
  room c m -> uid = 2 -> is_write_once m (c, 2) = false -> at_state c m b n s ->
  wp (Reliability.set_and_get __FILE__ uid lns loops itr (cstr Reliability.READ_DATA) len)
    (fun '(rd, _) s' => rd = cstr Reliability.RESULT_DATA /\
       at_state c (<[(c, 2) := (take (Z.to_nat Reliability.WRITE_DATA_SIZE)
                                  (cstr Reliability.WRITE_DATA),
                                PSA_STORAGE_FLAG_NONE)]> m) b n s') s.
Proof.
  intros Hr -> Hw Hs. unfold Reliability.set_and_get. repeat stmt. split; [by vm_compute | done].
Qed.

Lemma ps_s_test_2001_passes c m :
  room c m -> m !! (c, 2) = None -> passes c (Reliability.tfm_ps_test_2001 __FILE__) m m.
Proof.
  intros Hr Hm. unfold Reliability.tfm_ps_test_2001. start. stmt.
  set (a := (take (Z.to_nat Reliability.WRITE_DATA_SIZE) (cstr Reliability.WRITE_DATA),
             PSA_STORAGE_FLAG_NONE)).
  eapply (wp_for_range (fun k '(rd, _) s => rd = cstr Reliability.READ_DATA /\
    at_state c (if k =? 0 then m else <[(c, 2) := a]> m) b n s)).
  - by vm_compute.
  - by split.
  - clear s Hs. intros k [rd len] s Hk [-> Hs]. stmt.
    eapply wp_mono.
    { eapply ps_s_set_and_get_spec; [ | done | | exact Hs]; case_match; subst a;
        first [done | side | room_tac]. }
    intros [rd len'] s' [-> Hs']. repeat stmt. split; [by vm_compute|].
    destruct (Z.eqb_spec (k + 1) 0); [lia|].
    case_match; [done|]. by rewrite insert_insert_eq in Hs'.
  - intros [rd len] s1 [-> Hs1]. change (Reliability.LOOP_ITERATIONS_001 =? 0) with false in Hs1.
    repeat stmt. map_tac.
Qed.

Lemma ps_s_test_2002_passes c m :
  room c m -> m !! (c, 2) = None -> passes c (Reliability.tfm_ps_test_2002 __FILE__) m m.
Proof.
  intros Hr Hm. unfold Reliability.tfm_ps_test_2002. start. stmt.
  eapply (wp_for_range (fun _ '(rd, _) s => rd = cstr Reliability.READ_DATA /\
    at_state c m b n s)).
  - by vm_compute.
  - by split.
  - clear s Hs. intros k [rd len] s Hk [-> Hs]. stmt.
    eapply wp_mono; [by eapply ps_s_set_and_get_spec; [ | | side |]|].
    intros [rd len'] s' [-> Hs']. repeat stmt. split; [by vm_compute|].
    by rewrite delete_insert_eq, delete_id in Hs0.
  - intros [rd len] s1 [-> Hs1]. repeat stmt. map_tac.
Qed.

(** ** The suites *)

(** The state the suite starts in: room for its assets, none of the tests'
    UIDs in use, and the write-once UID unused or as a previous run left it. *)
Record ps_s_ready c m : Prop := {
  ready_room : room c m;
  ready_once : m !! (c, 1) = None \/ m !! (c, 1) = Some once_asset;
  ready_uids : m !! (c, 2) = None /\ m !! (c, 3) = None /\ m !! (c, 4) = None;
}.

Definition after_ps c m : assets_map := <[(c, 1) := once_asset]> m.

Ltac pass lem := next_test ltac:(apply passes_test, lem; first [done | lookup_tac]).

Lemma ps_s_tests_pass c m :
  ps_s_ready c m ->
  all_pass (psa_ps_s_tests __FILE__ PS_MAX_ASSET_SIZE) (in_world c m) (in_world c (after_ps c m)).
Proof.
  intros [Hr Hw (H2 & H3 & H4)].
  assert (room c (after_ps c m)) as Hr1 by (apply room_insert; [uid_in | done]).
  assert (delete (c, 4) (<[(c, 4) := empty_asset]> (after_ps c m)) = after_ps c m) as Hd.
  { rewrite delete_insert_eq, delete_id; [done|]. unfold after_ps. lookup_tac. }
  assert (room c (<[(c, 4) := empty_asset]> (after_ps c m))) as Hr4
    by (apply room_insert; [uid_in | done]).
  assert (after_ps c m !! (c, 1) = Some once_asset) as H1' by apply lookup_insert_eq.
  assert (after_ps c m !! (c, 2) = None) as H2' by (unfold after_ps; lookup_tac).
  assert (after_ps c m !! (c, 3) = None) as H3' by (unfold after_ps; lookup_tac).
  assert (after_ps c m !! (c, 4) = None) as H4' by (unfold after_ps; lookup_tac).
  unfold psa_ps_s_tests.
  pass ps_s_test_1001_passes. pass ps_s_test_1002_passes. fold (after_ps c m). pass ps_s_test_1003_passes.
  pass ps_s_test_1005_passes. pass ps_s_test_1006_passes. pass ps_s_test_1007_passes. rewrite Hd.
  pass ps_s_test_1008_passes. pass ps_s_test_1009_passes. pass ps_s_test_1010_passes. pass ps_s_test_1011_passes.
  pass ps_s_test_1012_passes. pass ps_s_test_1013_passes. pass ps_s_test_1015_passes. pass ps_s_test_1016_passes.
  pass ps_s_test_1017_passes. pass ps_s_test_1018_passes. pass ps_s_test_1019_passes. pass ps_s_test_1020_passes.
  pass ps_s_test_1021_passes. pass ps_s_test_1022_passes. constructor.
Qed.

Lemma ps_reliability_tests_pass c m :
  room c m -> m !! (c, 2) = None ->
  all_pass (Reliability.reliability_tests __FILE__) (in_world c m) (in_world c m).
Proof. intros. cbn [Reliability.reliability_tests]. pass ps_s_test_2001_passes. pass ps_s_test_2002_passes. constructor. Qed.

(** The reliability suite uses one UID. *)
Definition reliability_ready c m : Prop := room c m /\ m !! (c, 2) = None.

(** ** Properties *)

(** The secure PS suite accepts every conforming service: on any
    implementation of psa_ps_* that satisfies the PSA contract, from any state
    with room for its assets, the suite registered by
    [register_testsuite_s_psa_ps_interface] runs without undefined behaviour,
    its 20 tests pass, and only the write-once asset is left behind. *)
Theorem ps_s_suite_passes c m fs w l :
  ps_s_ready c m -> in_world c m w ->
  exists ts' w' l',
    run_testsuite (Some (mkSuite
      (Some (register_testsuite_s_psa_ps_interface __FILE__ PS_MAX_ASSET_SIZE)) fs))
      (w, l) = Some ((TEST_SUITE_ERR_NO_ERROR, Some ts'), (w', l')) /\
    suite_val (fields ts') = TEST_PASSED /\ in_world c (after_ps c m) w'.
Proof.
  intros H Hw. eapply all_pass_run; [by apply ps_s_tests_pass | done | done | done].
Qed.

(** The PS reliability suite accepts every conforming service: 15 rounds of
    set and get on one asset and 15 of set, get and remove pass, and the store
    is as before. *)
Theorem ps_reliability_suite_passes c m fs w l :
  reliability_ready c m -> in_world c m w ->
  exists ts' w' l',
    run_testsuite (Some (mkSuite
      (Some (Reliability.register_testsuite_s_psa_ps_reliability __FILE__)) fs))
      (w, l) = Some ((TEST_SUITE_ERR_NO_ERROR, Some ts'), (w', l')) /\
    suite_val (fields ts') = TEST_PASSED /\ in_world c m w'.
Proof.
  intros [Hr H2] Hw.
  eapply all_pass_run; [by apply ps_reliability_tests_pass | done | done | done].
Qed.
End ps_secure.

(** ** Witnesses: the reference service of 10 assets of at most 2048 bytes *)

Definition ref_flags : Z -> bool := no_extra_flags (PC := psa_consts).
Definition ref_ps : StorageService ref_state := ref_service (PC := psa_consts) 2048 10 ref_flags.
Definition ref_ps_laws := @ref_laws psa_consts 2048 10 ref_flags.
Definition ref_ps_support_laws := @ref_support_laws psa_consts 2048 10 ref_flags.
Definition ref_world : storage_world ref_state := mkWorld (5, ∅) [] 0.

Lemma ref_ps_s_ready : ps_s_ready (PC := psa_consts) (NUM_ASSETS := 10) 5 ∅.
Proof. split; [unfold room; by apply (bool_decide_unpack _) | by left | done]. Defined.

Lemma ps_s_suite_passes_witness :
  exists ts' w' l',
    run_testsuite (Some (mkSuite
      (Some (@register_testsuite_s_psa_ps_interface psa_consts ref_state ref_ps ref_support
         "psa_ps_s_interface_testsuite.c" 2048)) (mkFields [] 0 None TEST_PASSED)))
      (ref_world, []) = Some ((TEST_SUITE_ERR_NO_ERROR, Some ts'), (w', l')) /\
    suite_val (fields ts') = TEST_PASSED.
Proof.
  destruct (@ps_s_suite_passes psa_consts psa_consts_laws 2048 10 ref_flags ref_state ref_ps
    ref_support ref_ps_laws ref_ps_support_laws "psa_ps_s_interface_testsuite.c"
    ltac:(done) eq_refl eq_refl eq_refl 5 ∅ (mkFields [] 0 None TEST_PASSED)
    ref_world [] ref_ps_s_ready ltac:(done)) as (ts' & w' & l' & H & Hv & _).
  eauto.
Defined.

Lemma ps_reliability_suite_passes_witness :
  exists ts' w' l',
    run_testsuite (Some (mkSuite
      (Some (@Reliability.register_testsuite_s_psa_ps_reliability psa_consts ref_state ref_ps
         "psa_ps_s_reliability_testsuite.c")) (mkFields [] 0 None TEST_PASSED)))
      (ref_world, []) = Some ((TEST_SUITE_ERR_NO_ERROR, Some ts'), (w', l')) /\
    suite_val (fields ts') = TEST_PASSED.
Proof.
  destruct (@ps_reliability_suite_passes psa_consts psa_consts_laws 2048 10 ref_flags
    ref_state ref_ps ref_ps_laws "psa_ps_s_reliability_testsuite.c" ltac:(done) eq_refl 5 ∅
    (mkFields [] 0 None TEST_PASSED) ref_world []
    (conj (ready_room _ _ ref_ps_s_ready) eq_refl) ltac:(done)) as (ts' & w' & l' & H & Hv & _).
  eauto.
Defined.
