(* ===== verification/PsNsProofs.v ===== *)
(** * The non-secure PS tests against the contracts of the service and the RTOS *)

From S2P Require Import Prelude LogRaw TestFramework TestProg PsaStorage StorageTactics NsidMap PsNsTests.
Local Open Scope Z_scope.

(** ** The contract of the RTOS *)

(** The part of the RTOS that the helper uses: the tokens of each semaphore
    with their limit, and the threads with the client that the service sees
    when they run and the semaphore that they wait for. *)
Record os_thread := mkThread { th_client : Z; th_waits : option Z }.
Record rtos := mkRtos { semaphores : gmap Z (Z * Z); threads : gmap Z os_thread }.

(** A thread that the kernel may run: it waits for nothing, or for a semaphore
    that has a token. *)
Definition ready (o : rtos) (th : Z) : Prop := exists t, threads o !! th = Some t /\
  forall h, th_waits t = Some h -> exists n mx, semaphores o !! h = Some (n, mx) /\ 0 < n.

(** Semaphores and threads can be created; a semaphore starts with the tokens
    it is given, an acquire takes one or waits, a release adds one up to the
    limit; the kernel runs a ready thread if there is one.  The client the
    service sees is that of the running thread: a new thread is the client of
    its name in the thread/NSID table, through nsid_mgr_get_thread_nsid and the
    TrustZone shim.  No call touches the assets, and no call of the service
    touches the semaphores and threads. *)
Class OsLaws {PC : PsaConsts} {MAX_ASSET_SIZE NUM_ASSETS supported} (V : Type)
    {SS : StorageService V} {SL : StorageLaws MAX_ASSET_SIZE NUM_ASSETS supported V}
    (OS : OsWrapper V) := {
  os_of : V -> rtos;
  running : V -> Z;
  law_semaphore_create mx ini nm v : 0 <= ini <= mx -> 0 < mx ->
    exists h v', os_semaphore_create mx ini nm v = (Some h, v') /\ keeps v v' /\ semaphores (os_of v) !! h = None /\
      os_of v' = mkRtos (<[h := (ini, mx)]> (semaphores (os_of v))) (threads (os_of v));
  law_semaphore_acquire h v n mx t :
    semaphores (os_of v) !! h = Some (n, mx) -> threads (os_of v) !! running v = Some t ->
    exists r v', os_semaphore_acquire h v = (r, v') /\ assets v' = assets v /\
      if 0 <? n then is_Some r /\
        os_of v' = mkRtos (<[h := (n - 1, mx)]> (semaphores (os_of v)))
          (<[running v := mkThread (th_client t) None]> (threads (os_of v)))
      else r = None /\
        os_of v' = mkRtos (semaphores (os_of v)) (<[running v := mkThread (th_client t) (Some h)]> (threads (os_of v)));
  law_semaphore_release h v n mx : semaphores (os_of v) !! h = Some (n, mx) ->
    assets (os_semaphore_release h v).2 = assets v /\
    os_of (os_semaphore_release h v).2 =
      mkRtos (<[h := (Z.min (n + 1) mx, mx)]> (semaphores (os_of v))) (threads (os_of v));
  law_semaphore_delete h v : keeps v (os_semaphore_delete h v).2;
  law_get_handle v : exists v', os_thread_get_handle v = (Some (running v), v') /\ keeps v v' /\
    semaphores (os_of v') = semaphores (os_of v) /\
    threads (os_of v') !! running v = Some (mkThread (caller v) None);
  law_get_priority h v : exists prio v', os_thread_get_priority h v = (Some prio, v') /\ keeps v v' /\ os_of v' = os_of v;
  law_thread_new nm stack prio v :
    exists th v', os_thread_new nm stack prio v = (Some th, v') /\ keeps v v' /\ threads (os_of v) !! th = None /\
      os_of v' = mkRtos (semaphores (os_of v)) (<[th := mkThread (thread_nsid nm) None]> (threads (os_of v)));
  law_thread_exit v : assets (os_thread_exit v).2 = assets v /\
    os_of (os_thread_exit v).2 = mkRtos (semaphores (os_of v)) (delete (running v) (threads (os_of v)));
  law_dispatch l v : (exists th, th ∈ l /\ ready (os_of v) th) ->
    exists th t v', os_dispatch l v = (Some th, v') /\ th ∈ l /\ ready (os_of v) th /\
      threads (os_of v) !! th = Some t /\ running v' = th /\ caller v' = th_client t /\ assets v' = assets v /\
      semaphores (os_of v') = semaphores (os_of v) /\
      forall th', th' ∈ l -> threads (os_of v') !! th' = threads (os_of v) !! th';
  law_os_set uid len data fl v : os_of (svc_set uid len data fl v).2 = os_of v;
  law_os_get uid off sz data len v : os_of (svc_get uid off sz data len v).2 = os_of v;
  law_os_get_info uid info v : os_of (svc_get_info uid info v).2 = os_of v;
  law_os_remove uid v : os_of (svc_remove uid v).2 = os_of v;
}.

(** ** Programs that leave the RTOS alone *)

Section frames.
  Context {PC : PsaConsts} {MAX_ASSET_SIZE : Z} {NUM_ASSETS : nat} {supported : Z -> bool}.
  Context {V : Type} {SS : StorageService V} {SL : StorageLaws MAX_ASSET_SIZE NUM_ASSETS supported V}.
  Context {OS : OsWrapper V} {OL : OsLaws V OS}.
  Abbreviation W := (storage_world V).

Definition t_os (s : tstate W) : rtos := os_of (w_svc (t_world s)).

Definition frames {A} (p : P W A) : Prop := forall s f s', p s = Some (f, s') -> t_os s' = t_os s.

Lemma frames_ret {A} (a : A) : frames (mret a).
Proof. intros s f s' [= <- <-]. done. Qed.
Lemma frames_return {A} : frames (return_ : P W A).
Proof. intros s f s' [= <- <-]. done. Qed.
Lemma frames_undefined {A} : frames (p_undefined : P W A).
Proof. intros s f s' [=]. Qed.
Lemma frames_set_ret f : frames (set_ret f).
Proof. intros s g s' [= <- <-]. done. Qed.
Lemma frames_bind {A B} (m : P W A) (k : A -> P W B) : frames m -> (forall a, frames (k a)) -> frames (m ≫= k).
Proof.
  intros Hm Hk s f s' H. unfold mbind, P_bind in H.
  destruct (m s) as [[[a|] s1]|] eqn:E; [| |done]; apply Hm in E; rewrite <- E; [by apply Hk in H|].
  by injection H as <- <-.
Qed.
Lemma frames_fail_if file ln c msg : frames (fail_if file ln c msg).
Proof. destruct c; [apply frames_bind; [apply frames_set_ret | intros _; apply frames_return] | apply frames_ret]. Qed.
Lemma frames_svc_call {A} (f : V -> A * V) : (forall v, os_of (f v).2 = os_of v) -> frames (svc_call f).
Proof.
  intros Hf s g s' H. unfold svc_call, call in H. pose proof (Hf (w_svc (t_world s))) as He.
  destruct (f _) as [a v]. by injection H as <- <-.
Qed.

Lemma frames_set uid len d fl : frames (storage_set uid len d fl).
Proof.
  unfold storage_set. repeat case_match; first [apply frames_undefined | apply frames_svc_call; intros; apply law_os_set].
Qed.
Lemma frames_get uid off sz buf pos len : frames (storage_get uid off sz buf pos len).
Proof.
  unfold storage_get. case_match; [|apply frames_undefined].
  apply frames_bind; [apply frames_svc_call; intros; apply law_os_get|]. intros [[? ?] ?].
  case_match; [apply frames_ret | apply frames_undefined].
Qed.
Lemma frames_get_info uid info : frames (storage_get_info uid info).
Proof.
  apply frames_bind; [apply frames_svc_call; intros; apply law_os_get_info|]. intros [? ?]. apply frames_ret.
Qed.
Lemma frames_remove uid : frames (storage_remove uid).
Proof. apply frames_svc_call. intros. apply law_os_remove. Qed.
Lemma frames_memcmp a i b j n : frames (c_memcmp (W := W) a i b j n).
Proof. unfold c_memcmp. case_match; [apply frames_ret | apply frames_undefined]. Qed.
Lemma frames_memcpy a b n : frames (c_memcpy (W := W) a b n).
Proof. unfold c_memcpy. case_match; [apply frames_ret | apply frames_undefined]. Qed.

Lemma wp_frames {A} (p : P W A) Q s : frames p -> wp p Q s -> wp p (fun a s' => Q a s' /\ t_os s' = t_os s) s.
Proof. intros Hf. unfold wp. destruct (p s) as [[[a|] s']|] eqn:E; [|done..]. intros HQ. split; [done|]. by eapply Hf. Qed.
End frames.

(** The statements of a test function. *)
Create HintDb os_frames.
#[export] Hint Resolve frames_ret frames_return frames_undefined frames_set_ret frames_fail_if frames_set frames_get
  frames_get_info frames_remove frames_memcmp frames_memcpy : os_frames.

Ltac frame :=
  cbv beta iota zeta;
  lazymatch goal with
  | |- frames (mbind _ _) => apply frames_bind; [frame | intros ?; frame]
  | |- frames (match ?x with _ => _ end) => destruct x; frame
  | |- frames _ => eauto with os_frames
  end.

(** ** The two threads of a threaded test *)

Section two_threads.
  Context {PC : PsaConsts} {MAX_ASSET_SIZE : Z} {NUM_ASSETS : nat} {supported : Z -> bool}.
  Context {V : Type} {SS : StorageService V} {SL : StorageLaws MAX_ASSET_SIZE NUM_ASSETS supported V}.
  Context {OS : OsWrapper V} {OL : OsLaws V OS}.
  Abbreviation W := (storage_world V).
  (** The test function [p], run by client [c], takes the assets [m] to [m']. *)
  Context {c main : Z} {p : P W unit} {m m' : assets_map} (Hp : passes c p m m') (Hf : frames p).
  Context {sem parent child : Z} (Hne : parent <> child).

(** The tokens of the semaphore; the parent leaves its acquire after the
    child's release only. *)
Definition released (cp : task_pc) : bool := match cp with ExitThread | Exited => true | _ => false end.
Definition tokens (pp : helper_pc) (cp : task_pc) : Z :=
  match pp with AcquireSema => if released cp then 1 else 0 | ReleaseAgain => 0 | _ => 1 end.

Record together (pp : helper_pc) (cp : task_pc) (waits : bool) (s : tstate W) : Prop := {
  tg_order : pp = AcquireSema \/ released cp = true;
  tg_sem : semaphores (t_os s) !! sem = Some (tokens pp cp, 1);
  tg_parent : threads (t_os s) !! parent = Some (mkThread main (if waits then Some sem else None));
  tg_child : cp <> Exited -> threads (t_os s) !! child = Some (mkThread c None);
  tg_waits : waits = true -> pp = AcquireSema;
  tg_assets : assets (w_svc (t_world s)) = if decide (cp = RunTest) then m else m';
  tg_passed : cp <> RunTest -> val (t_ret s) = TEST_PASSED;
}.

(** The steps left. *)
Definition steps_left (pp : helper_pc) (cp : task_pc) (waits : bool) : nat :=
  (match pp with AcquireSema => if waits then 3 else 4 | ReleaseAgain => 2 | DeleteSema => 1 | Done => 0 end +
   match cp with RunTest => 3 | ReleaseSema => 2 | ExitThread => 1 | Exited => 0 end)%nat.

(** Where the parent is when it has returned. *)
Definition returned (s : tstate W) : Prop :=
  caller (w_svc (t_world s)) = main /\ assets (w_svc (t_world s)) = m' /\ val (t_ret s) = TEST_PASSED.

Lemma some_ready pp cp waits s : together pp cp waits s ->
  exists th, th ∈ (parent :: if decide (cp = Exited) then [] else [child]) /\ ready (t_os s) th.
Proof.
  intros [Ho Hs Hpa Hch Hw _ _]. destruct waits.
  - destruct (released cp) eqn:Hr.
    + exists parent. split; [left|]. eexists. split; [exact Hpa|]. cbn. intros h [= <-].
      rewrite (Hw eq_refl) in Hs. cbn in Hs. rewrite Hr in Hs. by exists 1, 1.
    + exists child. assert (cp <> Exited) as Hne' by (by intros ->). rewrite decide_False by done.
      split; [set_solver|]. eexists. split; [by apply Hch|]. done.
  - exists parent. split; [left|]. eexists. split; [exact Hpa|]. done.
Qed.
(** The processor goes to the parent or to a child that has not exited. *)
Lemma wp_dispatch pp cp waits Q s : together pp cp waits s ->
  (forall th s', together pp cp waits s' -> ready (t_os s') th -> running (w_svc (t_world s')) = th ->
     th = parent /\ caller (w_svc (t_world s')) = main \/
     th = child /\ cp <> Exited /\ caller (w_svc (t_world s')) = c -> Q (Some th) s') ->
  wp (svc_call (os_dispatch (parent :: if decide (cp = Exited) then [] else [child]))) Q s.
Proof.
  intros Ht HQ. destruct (law_dispatch _ _ (some_ready _ _ _ _ Ht)) as (th & t & v' & Hd & Hin & Hr & Hth & Hrun & Hc & Ha & Hse & Hts).
  apply wp_svc_call. rewrite Hd. intros ? ? [= <- <-]. destruct Ht as [Ho Hs Hpa Hch Hw Has Hv].
  fold (t_os s) in Hr, Hth, Hse, Hts.
  assert (th = parent \/ th = child /\ cp <> Exited) as Hwho by (destruct (decide (cp = Exited)); set_solver).
  apply HQ; cbn.
  - split; unfold t_os; cbn; [done | by rewrite Hse | rewrite Hts by left; done | | done | by rewrite Ha | done].
    intros Hx. rewrite Hts; [by apply Hch|]. rewrite decide_False by done. set_solver.
  - destruct Hr as (t' & Ht' & Hr). exists t'. unfold t_os. cbn. rewrite Hts, Hse by done. done.
  - done.
  - destruct Hwho as [->|[-> Hx]]; [left | right]; (split; [done|]).
    + rewrite Hc. unfold t_os in *. rewrite Hth in Hpa. by injection Hpa as ->.
    + split; [done|]. rewrite Hc. specialize (Hch Hx). unfold t_os in *. rewrite Hth in Hch. by injection Hch as ->.
Qed.

Lemma wp_helper_step pp cp waits s : pp <> Done -> together pp cp waits s -> ready (t_os s) parent ->
  running (w_svc (t_world s)) = parent -> caller (w_svc (t_world s)) = main ->
  wp (helper_step sem pp) (fun pp' s' => pp' = Done /\ returned s' \/
    exists waits', pp' <> Done /\ together pp' cp waits' s' /\ (steps_left pp' cp waits' < steps_left pp cp waits)%nat) s.
Proof.
  intros Hpp [Ho Hs Hpa Hch Hw Ha Hv] (t & Hpt & Hready) Hrun Hc. unfold t_os in *.
  destruct pp; [| | |done]; unfold helper_step; apply wp_bind, wp_svc_call; intros r v Hr; apply wp_ret.
  - destruct (law_semaphore_acquire sem _ _ _ _ Hs ltac:(rewrite Hrun; exact Hpa)) as (r' & v' & Hr' & Has & Hos).
    rewrite Hr in Hr'. injection Hr' as <- <-. right. rewrite Hrun in Hos. cbn in Hs, Hos.
    destruct (released cp) eqn:Hrel; cbn in Hos; destruct Hos as [Hres Hos].
    + destruct Hres as [st ->]. exists false. split; [done|]. split; [|destruct waits, cp; cbn; lia].
      split; unfold t_os; cbn; rewrite ?Hos; cbn; [by right | by rewrite lookup_insert_eq | by rewrite lookup_insert_eq | | done | by rewrite Has | done].
      intros Hx. rewrite lookup_insert_ne by done. by apply Hch.
    + subst r. destruct waits.
      { exfalso. rewrite Hpa in Hpt. injection Hpt as <-. destruct (Hready sem eq_refl) as (n & mx & Hn & Hpos).
        rewrite Hs in Hn. injection Hn as <- <-. lia. }
      exists true. split; [done|]. split; [|destruct cp; cbn; lia].
      split; unfold t_os; cbn; rewrite ?Hos; cbn; [by left | by rewrite Hrel | by rewrite lookup_insert_eq | | done | by rewrite Has | done].
      intros Hx. rewrite lookup_insert_ne by done. by apply Hch.
  - destruct Ho as [|Hrel]; [done|]. destruct waits; [by discriminate Hw|].
    destruct (law_semaphore_release _ _ _ _ Hs) as [Has Hos]. rewrite Hr in Has, Hos. cbn in Has, Hos.
    right. exists false. split; [done|]. split; [|destruct cp; cbn; lia].
    split; unfold t_os; cbn; rewrite ?Hos; cbn; [by right | by rewrite lookup_insert_eq | done | done | done | by rewrite Has | done].
  - destruct Ho as [|Hrel]; [done|]. left. split; [done|].
    destruct (law_semaphore_delete sem (w_svc (t_world s))) as [Hk1 Hk2]. rewrite Hr in Hk1, Hk2. cbn in Hk1, Hk2.
    assert (cp <> RunTest) as Hx by (by intros ->). split_and!; cbn; [by rewrite Hk1 | | by apply Hv].
    rewrite Hk2, Ha. by rewrite decide_False.
Qed.

Lemma wp_child_step pp cp waits s : pp <> Done -> cp <> Exited -> together pp cp waits s ->
  running (w_svc (t_world s)) = child -> caller (w_svc (t_world s)) = c ->
  wp (test_task_runner sem p cp)
    (fun cp' s' => together pp cp' waits s' /\ (steps_left pp cp' waits < steps_left pp cp waits)%nat) s.
Proof.
  intros Hpp Hcp [Ho Hs Hpa Hch Hw Ha Hv] Hrun Hc. unfold t_os in *. destruct cp; [| | |done]; unfold test_task_runner; apply wp_bind.
  - apply wp_call_body. cbn in Ha. destruct Ho as [->|]; [|done].
    eapply wp_mono; [apply wp_frames; [exact Hf|]; by apply (Hp (read_asset_data (t_world s)) (read_asset_data_len (t_world s)))|].
    intros [] s' ((Hval & b' & n' & [Hc' Ha' _ _]) & Hos). unfold t_os in Hos. apply wp_ret. split; [|destruct waits; cbn; lia].
    split; unfold t_os; rewrite ?Hos; try done; [by left | by intros _; apply Hch].
  - apply wp_svc_call. intros r v Hr. apply wp_ret. destruct Ho as [->|]; [|done].
    destruct (law_semaphore_release _ _ _ _ Hs) as [Has Hos]. rewrite Hr in Has, Hos. cbn in Has, Hos, Hs.
    split; [|destruct waits; cbn; lia].
    split; unfold t_os; cbn; rewrite ?Hos; cbn; [by left | by rewrite lookup_insert_eq | done | by intros _; apply Hch | done
      | by rewrite Has | by intros _; apply Hv].
  - apply wp_svc_call. intros r v Hr. apply wp_ret.
    destruct (law_thread_exit (w_svc (t_world s))) as [Has Hos]. rewrite Hr, ?Hrun in Has, Hos. cbn in Has, Hos.
    split; [|destruct pp, waits; cbn; lia].
    split; unfold t_os; cbn; rewrite ?Hos; cbn; [destruct Ho; auto | done | by rewrite lookup_delete_ne by congruence | done | done
      | by rewrite Has | by intros _; apply Hv].
Qed.

(** Whatever the kernel chooses, the parent returns after the child's release. *)
Lemma wp_run_threads fuel pp cp waits Q s : pp <> Done -> together pp cp waits s -> (steps_left pp cp waits < fuel)%nat ->
  (forall s', returned s' -> Q tt s') -> wp (run_threads fuel sem p parent child pp cp) Q s.
Proof.
  revert pp cp waits s. induction fuel as [|fuel IH]; intros pp cp waits s Hpp Ht Hl HQ; [lia|].
  assert (forall (k : P W unit), match pp with Done => mret tt | _ => k end = k) as Hk by (by destruct pp).
  cbn [run_threads]. rewrite Hk. apply wp_bind. eapply wp_dispatch; [exact Ht|]. clear s Ht.
  intros th s Ht Hr Hrun [[-> Hc]|(-> & Hx & Hc)].
  - rewrite decide_True by done. apply wp_bind.
    eapply wp_mono; [by eapply wp_helper_step|]. intros pp' s' [[-> Hret]|(waits' & Hpp' & Ht' & Hl')].
    + destruct fuel; [destruct pp, cp, waits; cbn in Hl; done || lia|]. by apply wp_ret, HQ.
    + eapply IH; [done | exact Ht' | lia | done].
  - rewrite decide_False by congruence. rewrite decide_True by done. apply wp_bind.
    eapply wp_mono; [by eapply wp_child_step|]. intros cp' s' [Ht' Hl']. eapply IH; [done | exact Ht' | lia | done].
Qed.
End two_threads.

Section ps_non_secure.
  Context {PC : PsaConsts} {PL : PsaConstsLaws}.
  Context {PS_MAX_ASSET_SIZE : Z} {NUM_ASSETS : nat} {supported : Z -> bool}.
  Context {V : Type} {SS : StorageService V} {PSS : SupportService V} {OS : OsWrapper V}.
  Context {SL : StorageLaws PS_MAX_ASSET_SIZE NUM_ASSETS supported V} {PSL : SupportLaws V}.
  Context {main : Z} {OL : OsLaws V OS}.
  Variables (__FILE__ HELPER_FILE : string).
  Hypothesis Hmax : 36 <= PS_MAX_ASSET_SIZE.
  Hypothesis Hnone : supported PSA_STORAGE_FLAG_NONE = true.
  Hypothesis Honce : supported PSA_STORAGE_FLAG_WRITE_ONCE = true.
  Hypothesis Hinvalid : supported INVALID_FLAG = false.
  Implicit Types (m : assets_map) (c : Z).

Definition ps_uids : list Z := [1; 2; 3; 4].
Definition once_asset : asset :=
  (take (Z.to_nat WRITE_ONCE_DATA_SIZE) (cstr WRITE_ONCE_DATA), PSA_STORAGE_FLAG_WRITE_ONCE).
Definition empty_asset : asset := ([], PSA_STORAGE_FLAG_NONE).
Definition written : asset := (take (Z.to_nat WRITE_DATA_SIZE) (cstr WRITE_DATA), PSA_STORAGE_FLAG_NONE).

Abbreviation room := (room NUM_ASSETS ps_uids).
Abbreviation passes := (passes (V := V)).

Ltac start :=
  unfold WRITE_ONCE_UID, TEST_UID_1, TEST_UID_2, TEST_UID_3, INVALID_UID,
    once_asset, empty_asset, written in *;
  intros b n s Hs.
Ltac run := start; repeat stmt; map_tac.

(** ** A test function in a thread of its own *)

Lemma wp_run_test nm p m m' b n Q (s : tstate (storage_world V)) :
  at_state main m b n s -> passes (thread_nsid nm) p m m' -> frames p ->
  (forall b' n' s', at_state main m' b' n' s' -> val (t_ret s') = TEST_PASSED -> Q tt s') ->
  wp (tfm_ps_run_test HELPER_FILE nm p) Q s.
Proof.
  intros [Hc Hm _ _] Hp Hf HQ. unfold tfm_ps_run_test. apply wp_call_body, wp_bind, wp_svc_call. intros r v1 Hr.
  destruct (law_semaphore_create 1 0 "ps_tests_sema" (w_svc (t_world s)) ltac:(lia) ltac:(lia)) as (h & v' & Hr' & [Hk1 Hk2] & _ & Ho1).
  rewrite Hr in Hr'. injection Hr' as -> ->. apply wp_bind, wp_svc_call. cbn [t_world w_svc]. intros r v2 Hr2.
  destruct (law_get_handle v') as (v'' & Hr' & [Hk3 Hk4] & Ho2 & Hpa). rewrite Hr2 in Hr'. injection Hr' as -> ->.
  apply wp_bind, wp_svc_call. cbn [t_world w_svc]. intros r v3 Hr3.
  destruct (law_get_priority (running v') v'') as (prio & v3' & Hr' & [Hk5 Hk6] & Ho3). rewrite Hr3 in Hr'. injection Hr' as -> ->.
  apply wp_bind, wp_svc_call. cbn [t_world w_svc]. intros r v4 Hr4.
  destruct (law_thread_new nm PS_TEST_TASK_STACK_SIZE prio v3') as (th & v4' & Hr' & [Hk7 Hk8] & Hfr & Ho4).
  rewrite Hr4 in Hr'. injection Hr' as -> ->. rewrite Ho3 in Hfr, Ho4.
  assert (running v' <> th) as Hne by congruence.
  eapply (wp_run_threads (main := main) Hp Hf Hne _ _ _ false); [done | | |].
  - split; unfold t_os; cbn.
    + by left.
    + by rewrite Ho4, Ho2, Ho1; cbn; rewrite lookup_insert_eq.
    + rewrite Ho4. cbn. rewrite lookup_insert_ne by done. rewrite Hpa, Hk1, Hc. done.
    + intros _. rewrite Ho4. cbn. by rewrite lookup_insert_eq.
    + done.
    + change (assets v4' = m). congruence.
    + done.
  - unfold thread_steps. cbn. lia.
  - intros s' (Hc' & Ha' & Hv'). eapply (HQ (read_asset_data (t_world s')) (read_asset_data_len (t_world s'))); [by split | done].
Qed.

Lemma wp_return_unless_passed Q (s : tstate (storage_world V)) :
  val (t_ret s) = TEST_PASSED -> Q tt s -> wp return_unless_passed Q s.
Proof. intros Hv HQ. unfold wp, return_unless_passed. by rewrite decide_True. Qed.

(** A sequence of functions run in threads passes when each does in turn. *)
Lemma passes_run_test nm p m m' :
  passes (thread_nsid nm) p m m' -> frames p -> passes main (tfm_ps_run_test HELPER_FILE nm p) m m'.
Proof. intros Hp Hf b n s Hs. eapply wp_run_test; eauto. Qed.

Lemma passes_seq nm p q m m1 m' :
  passes (thread_nsid nm) p m m1 -> frames p -> passes main q m1 m' ->
  passes main (tfm_ps_run_test HELPER_FILE nm p;; return_unless_passed;; q) m m'.
Proof.
  intros Hp Hf Hq b n s Hs. apply wp_bind. eapply wp_run_test; [done | done | done |].
  intros b' n' s' Hs' Hv. by apply wp_bind, wp_return_unless_passed, (Hq b' n').
Qed.

(** ** The tests of the calls, run by client [c] *)

Lemma ps_ns_test_1001_passes c m :
  room c m -> m !! (c, 2) = None -> passes c (tfm_ps_test_1001 __FILE__) m m.
Proof. intros. unfold tfm_ps_test_1001. run. Qed.

Lemma ps_ns_test_1003_passes c m :
  room c m -> m !! (c, 4) = None -> passes c (tfm_ps_test_1003 __FILE__) m (<[(c, 4) := empty_asset]> m).
Proof. intros. unfold tfm_ps_test_1003. run. Qed.

Lemma ps_ns_test_1004_passes c m :
  room c m -> m !! (c, 1) = Some once_asset -> passes c (tfm_ps_test_1004 __FILE__) m m.
Proof. intros. unfold tfm_ps_test_1004. run. Qed.

Lemma ps_ns_test_1005_passes c m :
  room c m -> m !! (c, 3) = None -> passes c (tfm_ps_test_1005 __FILE__) m m.
Proof. intros. unfold tfm_ps_test_1005. run. Qed.

Lemma ps_ns_test_1006_passes c m :
  room c m -> m !! (c, 4) = Some empty_asset -> passes c (tfm_ps_test_1006 __FILE__) m (delete (c, 4) m).
Proof. intros. unfold tfm_ps_test_1006. run. Qed.

Lemma ps_ns_test_1007_passes c m :
  m !! (c, 2) = None -> passes c (tfm_ps_test_1007 __FILE__) m m.
Proof. intros. unfold tfm_ps_test_1007. run. Qed.

Lemma ps_ns_test_1008_passes c m :
  room c m -> m !! (c, 3) = None -> passes c (tfm_ps_test_1008 __FILE__) m m.
Proof. intros. unfold tfm_ps_test_1008. run. Qed.

Lemma ps_ns_test_1009_passes c m :
  room c m -> m !! (c, 4) = None -> passes c (tfm_ps_test_1009 __FILE__) m m.
Proof. intros. unfold tfm_ps_test_1009. run. Qed.

Lemma ps_ns_test_1010_passes c m :
  m !! (c, 1) = Some once_asset -> passes c (tfm_ps_test_1010 __FILE__) m m.
Proof. intros. unfold tfm_ps_test_1010. run. Qed.

Lemma ps_ns_test_1011_passes c m :
  room c m -> m !! (c, 2) = None -> passes c (tfm_ps_test_1011 __FILE__) m m.
Proof. intros. unfold tfm_ps_test_1011. run. Qed.

Lemma ps_ns_test_1012_passes c m :
  m !! (c, 3) = None -> passes c (tfm_ps_test_1012 __FILE__) m m.
Proof. intros. unfold tfm_ps_test_1012. run. Qed.

Lemma ps_ns_test_1013_passes c m :
  room c m -> m !! (c, 2) = None -> passes c (tfm_ps_test_1013 __FILE__) m m.
Proof. intros. unfold tfm_ps_test_1013. run. Qed.

Lemma ps_ns_test_1014_passes c m :
  m !! (c, 1) = Some once_asset -> passes c (tfm_ps_test_1014 __FILE__) m m.
Proof. intros. unfold tfm_ps_test_1014. run. Qed.

Lemma ps_ns_test_1015_passes c m :
  passes c (tfm_ps_test_1015 __FILE__) m m.
Proof. intros. unfold tfm_ps_test_1015. run. Qed.

Lemma ps_ns_test_1021_passes c m :
  room c m -> m !! (c, 3) = None -> m !! (c, 4) = None -> passes c (tfm_ps_test_1021 __FILE__) m m.
Proof. intros. unfold tfm_ps_test_1021. run. Qed.

Lemma ps_ns_test_1023_passes c m :
  room c m -> m !! (c, 3) = None -> passes c (tfm_ps_test_1023 __FILE__) m m.
Proof. intros. unfold tfm_ps_test_1023. run. Qed.

Lemma ps_ns_test_1024_passes c m :
  passes c (tfm_ps_test_1024 __FILE__) m m.
Proof. intros. unfold tfm_ps_test_1024. run. Qed.

Lemma ps_ns_test_1002_passes c m :
  room c m -> m !! (c, 3) = None -> m !! (c, 1) = None \/ m !! (c, 1) = Some once_asset ->
  passes c (tfm_ps_test_1002 __FILE__) m (<[(c, 1) := once_asset]> m).
Proof.
  intros Hr Hm Hw. unfold tfm_ps_test_1002. start. destruct Hw as [Hw|Hw].
  - do 3 stmt. rewrite Z.eqb_refl. repeat stmt. map_tac.
  - do 3 stmt. rewrite not_permitted_not_success, Z.eqb_refl. repeat stmt.
    by rewrite insert_id.
Qed.

Lemma ps_ns_test_1022_passes c m :
  room c m -> m !! (c, 2) = None -> passes c (tfm_ps_test_1022 __FILE__) m m.
Proof.
  intros Hr Hm. unfold tfm_ps_test_1022. start. do 5 stmt.
  eapply wp_partial_gets; [eassumption | done | side | done | done | by vm_compute | done |].
  intros. repeat stmt. map_tac.
Qed.

Lemma ps_ns_write_asset_size : sizeof (write_asset_data PS_MAX_ASSET_SIZE) = PS_MAX_ASSET_SIZE.
Proof. unfold sizeof, write_asset_data. rewrite length_cons, length_replicate. lia. Qed.

Lemma ps_ns_asset_cycle_passes c m uid sz b n s :
  room c m -> uid ∈ [2; 3; 4] -> m !! (c, uid) = None -> 0 <= sz <= PS_MAX_ASSET_SIZE ->
  at_state c m b n s ->
  wp (asset_cycle __FILE__ PS_MAX_ASSET_SIZE uid sz)
    (fun _ s' => exists b' n', at_state c m b' n' s') s.
Proof.
  intros Hr Hu Hm Hsz Hs. rewrite !elem_of_cons, elem_of_nil in Hu. assert (uid <> 0) by lia.
  assert (uid ∈ ps_uids) by (destruct Hu as [->|[->|[->|[]]]]; uid_in).
  unfold asset_cycle.
  asset_cycle_tac ps_uids (write_asset_data PS_MAX_ASSET_SIZE) sz ps_ns_write_asset_size.
  stmt. eexists _, _. match goal with H : at_state _ (delete _ _) _ _ _ |- _ => 
    rewrite delete_insert_eq, delete_id in H by done; exact H end.
Qed.

Lemma ps_ns_test_1025_passes c m :
  room c m -> m !! (c, 2) = None -> m !! (c, 3) = None -> m !! (c, 4) = None ->
  passes c (tfm_ps_test_1025 __FILE__ PS_MAX_ASSET_SIZE) m m.
Proof.
  intros Hr H2 H3 H4. unfold tfm_ps_test_1025. start. cbv zeta. apply wp_bind.
  eapply (wp_for_range (fun _ _ s => exists b n, at_state c m b n s)).
  - by vm_compute.
  - by exists b, n.
  - clear s b n Hs. intros k [] s Hk (b & n & Hs). change TEST_1025_CYCLES with 3 in Hk.
    pose proof (shiftr_bounds PS_MAX_ASSET_SIZE 1 ltac:(lia) ltac:(lia)).
    pose proof (shiftr_bounds PS_MAX_ASSET_SIZE 2 ltac:(lia) ltac:(lia)).
    assert (0 <= PS_MAX_ASSET_SIZE <= PS_MAX_ASSET_SIZE) by lia.
    assert (k = 0 \/ k = 1 \/ k = 2) as [->|[->| ->]] by lia;
      (eapply ps_ns_asset_cycle_passes; [done | uid_in | done | assumption | done]).
  - intros _ s' (b' & n' & Hs'). by eapply wp_passed.
Qed.

(** ** The tasks of the threaded tests, run by client [c] *)

(** The bytes of a string with its terminator, without flags. *)
Definition text (x : string) : asset :=
  (take (Z.to_nat (sizeof (cstr x))) (cstr x), PSA_STORAGE_FLAG_NONE).

Lemma ps_ns_test_1016_task_1_passes c m :
  room c m -> m !! (c, 4) = None ->
  passes c (tfm_ps_test_1016_task_1 __FILE__) m (<[(c, 4) := written]> m).
Proof. intros. unfold tfm_ps_test_1016_task_1, text in *. run. Qed.

Lemma ps_ns_test_1016_task_2_passes c m :
  m !! (c, 4) = None ->
  passes c (tfm_ps_test_1016_task_2 __FILE__) m m.
Proof. intros. unfold tfm_ps_test_1016_task_2, text in *. run. Qed.

Lemma ps_ns_test_1016_task_3_passes c m :
  m !! (c, 4) = Some written ->
  passes c (tfm_ps_test_1016_task_3 __FILE__) m (delete (c, 4) m).
Proof. intros. unfold tfm_ps_test_1016_task_3, text in *. run. Qed.

Lemma ps_ns_test_1017_task_1_passes c m :
  room c m -> m !! (c, 2) = None ->
  passes c (tfm_ps_test_1017_task_1 __FILE__) m (<[(c, 2) := written]> m).
Proof. intros. unfold tfm_ps_test_1017_task_1, text in *. run. Qed.

Lemma ps_ns_test_1017_task_2_passes c m :
  m !! (c, 2) = None ->
  passes c (tfm_ps_test_1017_task_2 __FILE__) m m.
Proof. intros. unfold tfm_ps_test_1017_task_2, text in *. run. Qed.

Lemma ps_ns_test_1017_task_3_passes c m :
  m !! (c, 2) = Some written ->
  passes c (tfm_ps_test_1017_task_3 __FILE__) m (delete (c, 2) m).
Proof. intros. unfold tfm_ps_test_1017_task_3, text in *. run. Qed.

Lemma ps_ns_test_1018_task_1_passes c m :
  room c m -> m !! (c, 3) = None ->
  passes c (tfm_ps_test_1018_task_1 __FILE__) m (<[(c, 3) := written]> m).
Proof. intros. unfold tfm_ps_test_1018_task_1, text in *. run. Qed.

Lemma ps_ns_test_1018_task_2_passes c m :
  m !! (c, 3) = None ->
  passes c (tfm_ps_test_1018_task_2 __FILE__) m m.
Proof. intros. unfold tfm_ps_test_1018_task_2, text in *. run. Qed.

Lemma ps_ns_test_1018_task_3_passes c m :
  m !! (c, 3) = Some written ->
  passes c (tfm_ps_test_1018_task_3 __FILE__) m (delete (c, 3) m).
Proof. intros. unfold tfm_ps_test_1018_task_3, text in *. run. Qed.

Lemma ps_ns_test_1019_task_1_passes c m :
  room c m -> m !! (c, 4) = None ->
  passes c (tfm_ps_test_1019_task_1 __FILE__) m (<[(c, 4) := text "Thread A data"]> m).
Proof. intros. unfold tfm_ps_test_1019_task_1, text in *. run. Qed.

Lemma ps_ns_test_1019_task_2_passes c m :
  room c m -> m !! (c, 4) = None ->
  passes c (tfm_ps_test_1019_task_2 __FILE__) m m.
Proof. intros. unfold tfm_ps_test_1019_task_2, text in *. run. Qed.

Lemma ps_ns_test_1019_task_3_passes c m :
  m !! (c, 4) = Some (text "Thread A data") ->
  passes c (tfm_ps_test_1019_task_3 __FILE__) m (delete (c, 4) m).
Proof. intros. unfold tfm_ps_test_1019_task_3, text in *. run. Qed.

Lemma ps_ns_test_1020_task_1_passes c m :
  room c m -> m !! (c, 2) = None ->
  passes c (tfm_ps_test_1020_task_1 __FILE__) m (<[(c, 2) := text "A"]> m).
Proof. intros. unfold tfm_ps_test_1020_task_1, text in *. run. Qed.

Lemma ps_ns_test_1020_task_2_passes c m :
  room c m -> m !! (c, 2) = None ->
  passes c (tfm_ps_test_1020_task_2 __FILE__) m (<[(c, 2) := text "B"]> m).
Proof. intros. unfold tfm_ps_test_1020_task_2, text in *. run. Qed.

Lemma ps_ns_test_1020_task_3_passes c m :
  room c m -> m !! (c, 2) = Some (text "A") ->
  passes c (tfm_ps_test_1020_task_3 __FILE__) m (<[(c, 2) := text "HELLO"]> m).
Proof. intros. unfold tfm_ps_test_1020_task_3, text in *. run. Qed.

Lemma ps_ns_test_1020_task_4_passes c m :
  room c m -> m !! (c, 2) = Some (text "B") ->
  passes c (tfm_ps_test_1020_task_4 __FILE__) m (<[(c, 2) := text "WORLD_1234"]> m).
Proof. intros. unfold tfm_ps_test_1020_task_4, text in *. run. Qed.

Lemma ps_ns_test_1020_task_5_passes c m :
  m !! (c, 2) = Some (text "HELLO") ->
  passes c (tfm_ps_test_1020_task_5 __FILE__) m m.
Proof. intros. unfold tfm_ps_test_1020_task_5, text in *. run. Qed.

Lemma ps_ns_test_1020_task_6_passes c m :
  m !! (c, 2) = Some (text "WORLD_1234") ->
  passes c (tfm_ps_test_1020_task_6 __FILE__) m (delete (c, 2) m).
Proof. intros. unfold tfm_ps_test_1020_task_6, text in *. run. Qed.

Lemma ps_ns_test_1020_task_7_passes c m :
  m !! (c, 2) = Some (text "HELLO") ->
  passes c (tfm_ps_test_1020_task_7 __FILE__) m (delete (c, 2) m).
Proof. intros. unfold tfm_ps_test_1020_task_7, text in *. run. Qed.

(** ** The threaded tests

    Thread_A, Thread_B and the threads without a name in the table are three
    clients other than each other. *)

Abbreviation A := (-2).
Abbreviation B := (-3).
Abbreviation other := (-1).

Lemma run_thread nm c p q m m1 m' :
  thread_nsid nm = c -> passes c p m m1 -> frames p -> passes main q m1 m' ->
  passes main (tfm_ps_run_test HELPER_FILE nm p;; return_unless_passed;; q) m m'.
Proof. intros <-. apply passes_seq. Qed.

Lemma last_thread nm c p m m1 m' :
  thread_nsid nm = c -> passes c p m m1 -> frames p -> m1 = m' ->
  passes main (tfm_ps_run_test HELPER_FILE nm p) m m'.
Proof. intros <- Hp Hf <-. by apply passes_run_test. Qed.

Ltac frame_task :=
  let rec unfold_head q := lazymatch q with ?f _ => unfold_head f | _ => unfold q end in
  lazymatch goal with |- frames ?q => unfold_head q; frame end.

Ltac thread c lem :=
  first [ eapply (run_thread _ c)
        | eapply (last_thread _ c) ]; [reflexivity | apply lem; first [done | lookup_tac] | by frame_task |].

Lemma ps_ns_test_1016_passes m :
  room A m -> m !! (A, 4) = None -> m !! (other, 4) = None ->
  passes main (tfm_ps_test_1016 __FILE__ HELPER_FILE) m m.
Proof.
  intros. unfold tfm_ps_test_1016.
  thread (-2) ps_ns_test_1016_task_1_passes. thread (-1) ps_ns_test_1016_task_2_passes. thread (-2) ps_ns_test_1016_task_3_passes.
  map_tac.
Qed.

Lemma ps_ns_test_1017_passes m :
  room A m -> m !! (A, 2) = None -> m !! (other, 2) = None ->
  passes main (tfm_ps_test_1017 __FILE__ HELPER_FILE) m m.
Proof.
  intros. unfold tfm_ps_test_1017.
  thread (-2) ps_ns_test_1017_task_1_passes. thread (-1) ps_ns_test_1017_task_2_passes. thread (-2) ps_ns_test_1017_task_3_passes.
  map_tac.
Qed.

Lemma ps_ns_test_1018_passes m :
  room A m -> m !! (A, 3) = None -> m !! (other, 3) = None ->
  passes main (tfm_ps_test_1018 __FILE__ HELPER_FILE) m m.
Proof.
  intros. unfold tfm_ps_test_1018.
  thread (-2) ps_ns_test_1018_task_1_passes. thread (-1) ps_ns_test_1018_task_2_passes. thread (-2) ps_ns_test_1018_task_3_passes.
  map_tac.
Qed.

Lemma ps_ns_test_1019_passes m :
  free NUM_ASSETS 5 m -> m !! (A, 4) = None -> m !! (B, 4) = None ->
  passes main (tfm_ps_test_1019 __FILE__ HELPER_FILE) m m.
Proof.
  intros Hf HA HB. unfold tfm_ps_test_1019.
  assert (room A m) by (apply free_room, (free_le _ 5); [simpl; lia | done]).
  assert (room B (<[(A, 4) := text "Thread A data"]> m)) by (by apply free_room, free_insert).
  thread (-2) ps_ns_test_1019_task_1_passes. thread (-3) ps_ns_test_1019_task_2_passes. thread (-2) ps_ns_test_1019_task_3_passes.
  map_tac.
Qed.

Lemma ps_ns_test_1020_passes m :
  free NUM_ASSETS 6 m -> m !! (A, 2) = None -> m !! (B, 2) = None ->
  passes main (tfm_ps_test_1020 __FILE__ HELPER_FILE) m m.
Proof.
  intros Hf HA HB. unfold tfm_ps_test_1020.
  set (m1 := <[(A, 2) := text "A"]> m). set (m2 := <[(B, 2) := text "B"]> m1).
  set (m3 := <[(A, 2) := text "HELLO"]> m2).
  assert (free NUM_ASSETS 5 m1) as Hf1 by by apply free_insert.
  assert (free NUM_ASSETS 4 m2) as Hf2 by by apply free_insert.
  assert (free NUM_ASSETS 4 m3) as Hf3.
  { apply free_overwrite; [|done]. exists (text "A"). unfold m2, m1. lookup_tac. }
  assert (room A m) by (apply free_room, (free_le _ 6); [simpl; lia | done]).
  assert (room B m1) by (apply free_room, (free_le _ 5); [simpl; lia | done]).
  assert (room A m2) by by apply free_room.
  assert (room B m3) by by apply free_room.
  thread (-2) ps_ns_test_1020_task_1_passes. fold m1.
  thread (-3) ps_ns_test_1020_task_2_passes; [unfold m1; lookup_tac|]. fold m2.
  thread (-2) ps_ns_test_1020_task_3_passes; [unfold m2, m1; lookup_tac|]. fold m3.
  thread (-3) ps_ns_test_1020_task_4_passes; [unfold m3, m2; lookup_tac|].
  thread (-2) ps_ns_test_1020_task_5_passes.
  thread (-3) ps_ns_test_1020_task_6_passes. 
  thread (-2) ps_ns_test_1020_task_7_passes.
  unfold m3, m2, m1. map_tac.
Qed.

(** ** The suite *)

(** The state the suite starts in: room for seven assets, the tests' UIDs free
    for each of their four clients, and the write-once UID unused or as a
    previous run left it. *)
Record ps_ns_ready m : Prop := {
  ready_free : free NUM_ASSETS 7 m;
  ready_once : m !! (main, 1) = None \/ m !! (main, 1) = Some once_asset;
  ready_uids c : c ∈ [main; A; B; other] ->
    m !! (c, 2) = None /\ m !! (c, 3) = None /\ m !! (c, 4) = None;
}.

Definition after_ps m : assets_map := <[(main, 1) := once_asset]> m.

Ltac pass lem := next_test ltac:(apply passes_test, lem; first [done | lookup_tac]).

Lemma ps_ns_tests_pass m :
  ps_ns_ready m ->
  all_pass (psa_ps_ns_tests __FILE__ HELPER_FILE PS_MAX_ASSET_SIZE)
    (in_world main m) (in_world main (after_ps m)).
Proof.
  intros [Hf Hw Hu]. set (m1 := after_ps m).
  assert (forall c, free NUM_ASSETS 7 m -> room c m) as Hr
    by (intros; apply free_room, (free_le _ 7); [simpl; lia | done]).
  assert (free NUM_ASSETS 6 m1) as Hf1 by by apply free_insert.
  assert (free NUM_ASSETS 5 m1) as Hf1' by by apply (free_le _ 6); [lia|].
  assert (forall c, room c m1) as Hr1
    by (intros; apply free_room, (free_le _ 6); [simpl; lia | done]).
  assert (m1 !! (main, 1) = Some once_asset) as H1 by apply lookup_insert_eq.
  assert (forall c, c ∈ [main; A; B; other] ->
    m1 !! (c, 2) = None /\ m1 !! (c, 3) = None /\ m1 !! (c, 4) = None) as Hu1.
  { intros c Hc. destruct (Hu c Hc) as (?&?&?). unfold m1, after_ps.
    split_and!; rewrite lookup_insert_ne by congruence; done. }
  destruct (Hu main) as (H2 & H3 & H4); [left|].
  destruct (Hu1 main) as (H2' & H3' & H4'); [left|].
  destruct (Hu1 A) as (HA2 & HA3 & HA4); [by right; left|].
  destruct (Hu1 B) as (HB2 & _ & HB4); [by right; right; left|].
  destruct (Hu1 other) as (HO2 & HO3 & HO4); [by right; right; right; left|].
  assert (room main (<[(main, 4) := empty_asset]> m1)) as Hr4
    by (apply room_insert; [uid_in | done]).
  assert (delete (main, 4) (<[(main, 4) := empty_asset]> m1) = m1) as Hd
    by (by rewrite delete_insert_eq, delete_id).
  pose proof (Hr main Hf) as Hrm. pose proof (Hr1 main) as Hrm1. pose proof (Hr1 A) as HrA.
  clear Hu Hu1.
  unfold psa_ps_ns_tests.
  pass ps_ns_test_1001_passes. pass ps_ns_test_1002_passes. fold (after_ps m). fold m1. clearbody m1.
  pass ps_ns_test_1003_passes. pass ps_ns_test_1004_passes. pass ps_ns_test_1005_passes. pass ps_ns_test_1006_passes.
  rewrite Hd. pass ps_ns_test_1007_passes. pass ps_ns_test_1008_passes. pass ps_ns_test_1009_passes.
  pass ps_ns_test_1010_passes. pass ps_ns_test_1011_passes. pass ps_ns_test_1012_passes. pass ps_ns_test_1013_passes.
  pass ps_ns_test_1014_passes. pass ps_ns_test_1015_passes. pass ps_ns_test_1016_passes. pass ps_ns_test_1017_passes.
  pass ps_ns_test_1018_passes. pass ps_ns_test_1019_passes. pass ps_ns_test_1020_passes. pass ps_ns_test_1021_passes.
  pass ps_ns_test_1022_passes. pass ps_ns_test_1023_passes. pass ps_ns_test_1024_passes. pass ps_ns_test_1025_passes.
  constructor.
Qed.

(** ** Properties *)

(** C3. The non-secure PS suite accepts every conforming service and RTOS: when
    the service satisfies the PSA contract and the RTOS its own (semaphores
    count their tokens, a thread that waits for one is not run until there is
    one, each thread is the client of its name in the thread/NSID table), all 25
    tests pass without undefined behaviour, whichever ready thread the kernel
    runs at each step of the two threads of a threaded test: the parent goes on
    after the child's release and only then.  Five tests set, read and remove
    assets from Thread_A, Thread_B and an unknown thread in turn; only the
    write-once asset is left behind. *)
Theorem ps_ns_suite_passes m fs w l :
  ps_ns_ready m -> in_world main m w ->
  exists ts' w' l',
    run_testsuite (Some (mkSuite
      (Some (register_testsuite_ns_psa_ps_interface __FILE__ HELPER_FILE PS_MAX_ASSET_SIZE)) fs))
      (w, l) = Some ((TEST_SUITE_ERR_NO_ERROR, Some ts'), (w', l')) /\
    suite_val (fields ts') = TEST_PASSED /\ in_world main (after_ps m) w'.
Proof.
  intros H Hw. eapply all_pass_run; [by apply ps_ns_tests_pass | done | done | done].
Qed.

End ps_non_secure.

#[local] Arguments run_threads : simpl never.

Section run_test_errors.
  Context {V : Type} {OS : OsWrapper V} (HELPER_FILE : string).

(** The test ends FAILED with a message of the helper, the service being in
    state [v], without output. *)
Definition helper_fails (nm : string) (p : P (storage_world V) unit) ret w msg ln v : Prop :=
  as_test (tfm_ps_run_test HELPER_FILE nm p) ret w =
    Some (fail_result msg HELPER_FILE ln,
          mkWorld v (read_asset_data w) (read_asset_data_len w), []).

(** Every failure of the RTOS in [tfm_ps_run_test] fails the test with its
    own message, deletes the semaphore if there is one, and never runs the
    test function. *)
Theorem tfm_ps_run_test_errors nm p ret w :
  let fails := helper_fails nm p ret w in
  (forall v1, os_semaphore_create 1 0 "ps_tests_sema" (w_svc w) = (None, v1) ->
     fails "Semaphore creation failed" 54 v1) /\
  (forall sem v1 v2, os_semaphore_create 1 0 "ps_tests_sema" (w_svc w) = (Some sem, v1) ->
     os_thread_get_handle v1 = (None, v2) ->
     fails "Failed to get current thread ID" 61 (os_semaphore_delete sem v2).2) /\
  (forall sem v1 th v2 v3, os_semaphore_create 1 0 "ps_tests_sema" (w_svc w) = (Some sem, v1) ->
     os_thread_get_handle v1 = (Some th, v2) -> os_thread_get_priority th v2 = (None, v3) ->
     fails "Failed to get current thread priority" 69 (os_semaphore_delete sem v3).2) /\
  (forall sem v1 th v2 prio v3 v4,
     os_semaphore_create 1 0 "ps_tests_sema" (w_svc w) = (Some sem, v1) ->
     os_thread_get_handle v1 = (Some th, v2) -> os_thread_get_priority th v2 = (Some prio, v3) ->
     os_thread_new nm PS_TEST_TASK_STACK_SIZE prio v3 = (None, v4) ->
     fails "Failed to create test thread" 79 (os_semaphore_delete sem v4).2).
Proof.
  intros fails. unfold fails, helper_fails, as_test, tfm_ps_run_test, call_body, mbind, P_bind, svc_call, call.
  split_and!; intros; cbn [t_world w_svc t_ret t_log read_asset_data read_asset_data_len];
    repeat match goal with
    | H : ?x = (_, _) |- context [?x] => rewrite H; cbn
    | |- context [os_semaphore_delete ?h ?v] => destruct (os_semaphore_delete h v) as [[] ?]; cbn
    end; done.
Qed.
End run_test_errors.

(** ** Witnesses *)

Definition ref_flags : Z -> bool := no_extra_flags (PC := psa_consts).
(** The assets and an RTOS; the test thread is the client [-1]. *)
Record os_state := mkOs { o_assets : assets_map; o_rtos : rtos; o_running : Z }.

Definition o_caller (v : os_state) : Z := default (-1) (th_client <$> threads (o_rtos v) !! o_running v).
Definition on_ref {A} (f : ref_state -> A * ref_state) (v : os_state) : A * os_state :=
  let '(r, v') := f (o_caller v, o_assets v) in (r, mkOs v'.2 (o_rtos v) (o_running v)).

Definition ref_calls : StorageService ref_state := ref_service (PC := psa_consts) 2048 10 ref_flags.
Definition ref_ps : StorageService os_state := {|
  svc_set uid len data fl := on_ref (svc_set (StorageService := ref_calls) uid len data fl);
  svc_get uid off sz data len := on_ref (svc_get (StorageService := ref_calls) uid off sz data len);
  svc_get_info uid info := on_ref (svc_get_info (StorageService := ref_calls) uid info);
  svc_remove uid := on_ref (svc_remove (StorageService := ref_calls) uid);
|}.
Definition ref_ps_support : SupportService os_state := {| svc_get_support v := (0, v) |}.

Lemma on_ref_run {A} (f : ref_state -> A * ref_state) v r v' : on_ref f v = (r, v') ->
  exists w, f (o_caller v, o_assets v) = (r, w) /\ v' = mkOs w.2 (o_rtos v) (o_running v).
Proof. unfold on_ref. destruct (f _) as [r1 w]. intros [= <- <-]. by exists w. Qed.

Lemma on_ref_rtos {A} (f : ref_state -> A * ref_state) v : o_rtos (on_ref f v).2 = o_rtos v.
Proof. unfold on_ref. by destruct (f _). Qed.

#[local] Instance ref_ps_laws : @StorageLaws psa_consts 2048 10 ref_flags os_state ref_ps.
Proof.
  pose (RL := @ref_laws psa_consts 2048 10 ref_flags).
  refine {| assets := o_assets; caller := o_caller |}.
  - intros uid len data fl v st v' (w & H & ->)%on_ref_run. split; [done|]. by apply (law_set (StorageLaws := RL)) in H as [_ Ho].
  - intros uid off sz data len v st out n v' H1 H2 (w & H & ->)%on_ref_run. split; [done|].
    by apply (law_get (StorageLaws := RL)) in H as (_ & Ha & Ho).
  - intros uid info v st i v' (w & H & ->)%on_ref_run. split; [done|]. by apply (law_get_info (StorageLaws := RL)) in H as (_ & Ha & Ho).
  - intros uid v st v' (w & H & ->)%on_ref_run. split; [done|]. by apply (law_remove (StorageLaws := RL)) in H as [_ Ho].
Defined.

Lemma ref_ps_support_laws : @SupportLaws psa_consts 2048 10 ref_flags os_state ref_ps ref_ps_laws ref_ps_support.
Proof. split. intros v. by exists v. Defined.

Definition set_rtos (o : rtos) (v : os_state) : os_state := mkOs (o_assets v) o (o_running v).
Definition readyb (o : rtos) (th : Z) : bool :=
  match threads o !! th with
  | Some (mkThread _ None) => true
  | Some (mkThread _ (Some h)) => match semaphores o !! h with Some (n, _) => 0 <? n | None => false end
  | None => false
  end.

Lemma readyb_ready o th : readyb o th = true <-> ready o th.
Proof.
  unfold readyb, ready. destruct (threads o !! th) as [[cl [h|]]|].
  - destruct (semaphores o !! h) as [[n mx]|] eqn:Hs.
    + rewrite Z.ltb_lt. split; [intros Hn; eexists; split; [done|]; intros h' [= <-]; eauto|].
      intros (t & [= <-] & Ht). destruct (Ht h eq_refl) as (? & ? & ? & ?). by simplify_eq.
    + split; [done|]. intros (t & [= <-] & Ht). destruct (Ht h eq_refl) as (? & ? & ? & ?). by simplify_eq.
  - split; [intros _; eexists; split; [done|]; by intros ? [=]|]. done.
  - split; [done|]. by intros (? & ? & _).
Qed.

(** It runs the first thread that is ready. *)
Definition ref_os : OsWrapper os_state := {|
  os_semaphore_create mx ini _ v :=
    let o := o_rtos v in let h := fresh (dom (semaphores o) : gset Z) in
    (Some h, set_rtos (mkRtos (<[h := (ini, mx)]> (semaphores o)) (threads o)) v);
  os_semaphore_acquire h v :=
    let o := o_rtos v in
    match semaphores o !! h with
    | Some (n, mx) =>
        if 0 <? n then (Some 0, set_rtos (mkRtos (<[h := (n - 1, mx)]> (semaphores o))
                                  (<[o_running v := mkThread (o_caller v) None]> (threads o))) v)
        else (None, set_rtos (mkRtos (semaphores o) (<[o_running v := mkThread (o_caller v) (Some h)]> (threads o))) v)
    | None => (Some 1, v)
    end;
  os_semaphore_release h v :=
    let o := o_rtos v in
    match semaphores o !! h with
    | Some (n, mx) => (tt, set_rtos (mkRtos (<[h := (Z.min (n + 1) mx, mx)]> (semaphores o)) (threads o)) v)
    | None => (tt, v)
    end;
  os_semaphore_delete h v :=
    (tt, set_rtos (mkRtos (delete h (semaphores (o_rtos v))) (threads (o_rtos v))) v);
  os_thread_get_handle v :=
    (Some (o_running v), set_rtos (mkRtos (semaphores (o_rtos v))
       (<[o_running v := mkThread (o_caller v) None]> (threads (o_rtos v)))) v);
  os_thread_get_priority _ v := (Some 24, v);
  os_thread_new nm _ _ v :=
    let o := o_rtos v in let th := fresh ({[o_running v]} ∪ dom (threads o) : gset Z) in
    (Some th, set_rtos (mkRtos (semaphores o) (<[th := mkThread (thread_nsid nm) None]> (threads o))) v);
  os_thread_exit v := (tt, set_rtos (mkRtos (semaphores (o_rtos v)) (delete (o_running v) (threads (o_rtos v)))) v);
  os_dispatch l v :=
    match filter (fun th => readyb (o_rtos v) th = true) l with
    | th :: _ => (Some th, mkOs (o_assets v) (o_rtos v) th)
    | [] => (None, v)
    end;
|}.

Lemma o_caller_insert v sems w : o_caller (set_rtos (mkRtos sems (<[o_running v := mkThread (o_caller v) w]> (threads (o_rtos v)))) v) = o_caller v.
Proof. unfold o_caller at 1. cbn. by rewrite lookup_insert_eq. Qed.

Lemma o_caller_thread v t : threads (o_rtos v) !! o_running v = Some t -> o_caller v = th_client t.
Proof. unfold o_caller. by intros ->. Qed.

Lemma ref_os_laws : @OsLaws psa_consts 2048 10 ref_flags os_state ref_ps ref_ps_laws ref_os.
Proof.
  refine {| os_of := o_rtos; running := o_running |}; cbn.
  - intros mx ini nm v _ _. eexists _, _. split_and!; [done | done | | done]. apply not_elem_of_dom, is_fresh.
  - intros h v n mx t -> Ht. rewrite (o_caller_thread v t Ht). destruct (0 <? n); eexists _, _; (split; [done|]); (split; [done|]); [by split; [eexists|] | done].
  - intros h v n mx ->. done.
  - done.
  - intros v. eexists. split; [done|]. split; [split; [apply o_caller_insert | done]|]. cbn. by rewrite lookup_insert_eq.
  - intros h v. by eexists _, v.
  - intros nm stack prio v. pose proof (is_fresh ({[o_running v]} ∪ dom (threads (o_rtos v)) : gset Z)) as Hf.
    eexists _, _. split; [done|]. split_and!; [split; [|done] | | done].
    + change (default (-1) (th_client <$> <[fresh ({[o_running v]} ∪ dom (threads (o_rtos v)) : gset Z) :=
        mkThread (thread_nsid nm) None]> (threads (o_rtos v)) !! o_running v) = o_caller v).
      rewrite lookup_insert_ne by set_solver. done.
    + apply not_elem_of_dom. set_solver.
  - done.
  - intros l v (th & Hin & Hr%readyb_ready).
    destruct (filter (fun th => readyb (o_rtos v) th = true) l) as [|x l'] eqn:E.
    { exfalso. assert (th ∈ filter (fun th => readyb (o_rtos v) th = true) l) as Hx by (by apply list_elem_of_filter). rewrite E in Hx. by apply elem_of_nil in Hx. }
    assert (x ∈ filter (fun th => readyb (o_rtos v) th = true) l) as [Hx Hxl]%list_elem_of_filter by (rewrite E; left).
    apply readyb_ready in Hx as Hready. pose proof Hready as (t & Ht & _).
    exists x, t. eexists. split; [done|]. split_and!; try done. by apply o_caller_thread.
  - intros. apply on_ref_rtos.
  - intros. apply on_ref_rtos.
  - intros. apply on_ref_rtos.
  - intros. apply on_ref_rtos.
Defined.

Lemma ref_ps_ns_ready : ps_ns_ready (PC := psa_consts) (NUM_ASSETS := 10) (main := -1) ∅.
Proof. split; [unfold free; by apply (bool_decide_unpack _) | by left | done]. Defined.

Definition ref_os_state : os_state := mkOs ∅ (mkRtos ∅ {[0 := mkThread (-1) None]}) 0.
Definition ref_world : storage_world os_state := mkWorld ref_os_state [] 0.

Lemma ps_ns_suite_passes_witness :
  exists ts' w' l',
    run_testsuite (Some (mkSuite
      (Some (@register_testsuite_ns_psa_ps_interface psa_consts os_state ref_ps ref_ps_support ref_os
         "psa_ps_ns_interface_testsuite.c" "ns_test_helpers.c" 2048))
      (mkFields [] 0 None TEST_PASSED)))
      (ref_world, []) = Some ((TEST_SUITE_ERR_NO_ERROR, Some ts'), (w', l')) /\
    suite_val (fields ts') = TEST_PASSED.
Proof.
  destruct (@ps_ns_suite_passes psa_consts psa_consts_laws 2048 10 ref_flags os_state ref_ps
    ref_ps_support ref_os ref_ps_laws ref_ps_support_laws (-1) ref_os_laws
    "psa_ps_ns_interface_testsuite.c" "ns_test_helpers.c"
    ltac:(done) eq_refl eq_refl eq_refl ∅ (mkFields [] 0 None TEST_PASSED)
    ref_world [] ref_ps_ns_ready ltac:(done)) as (ts' & w' & l' & H & Hv & _).
  eauto.
Defined.

Definition no_threads_os : OsWrapper ref_state := {|
  os_semaphore_create _ _ _ v := (Some 1, v);
  os_semaphore_acquire _ v := (Some 0, v);
  os_semaphore_release _ v := (tt, v);
  os_semaphore_delete _ v := (tt, v);
  os_thread_get_handle v := (Some 1, v);
  os_thread_get_priority _ v := (Some 24, v);
  os_thread_new _ _ _ v := (None, v);
  os_thread_exit v := (tt, v);
  os_dispatch _ v := (None, v);
|}.

Lemma tfm_ps_run_test_errors_witness :
  as_test (@tfm_ps_run_test ref_state no_threads_os "ns_test_helpers.c" "Thread_A" (ret_val TEST_PASSED))
    zero_result (mkWorld (-1, ∅) [] 0) =
  Some (fail_result "Failed to create test thread" "ns_test_helpers.c" 79, mkWorld (-1, ∅) [] 0, []).
Proof.
  destruct (@tfm_ps_run_test_errors ref_state no_threads_os "ns_test_helpers.c" "Thread_A"
    (ret_val TEST_PASSED) zero_result (mkWorld (-1, ∅) [] 0)) as (_ & _ & _ & H).
  by apply (H 1 (-1, ∅) 1 (-1, ∅) 24 (-1, ∅) (-1, ∅)).
Defined.
