(* ===== verification/NvCounters.v ===== *)
(** * The PS test NV counters:
    tests_reg/test/secure_fw/suites/ps/secure/nv_counters/test_ps_nv_counters.c

    The three simulated non-volatile counters that stand for the platform's
    when the PS rollback protection is tested: the functions the PS service
    calls, and those with which the tests move the counters behind its back.
    A value returned through a pointer is [Some] in the result when it is
    written. *)

From S2P Require Import Prelude PsaStorage.
Local Open Scope Z_scope.

(** The members of [enum tfm_nv_counter_t] used here (tfm_plat_nv_counters.h). *)
Class NvCounterIds := {
  TFM_PS_NV_COUNTER_1 : Z;
  TFM_PS_NV_COUNTER_2 : Z;
  TFM_PS_NV_COUNTER_3 : Z;
}.

Definition DISABLE_INCREMENT : Z := 0.
Definition ENABLE_INCREMENT : Z := 1.
Definition TOTAL_PS_NV_COUNTERS : Z := 3.
Definition INIT_NV_COUNTERS_VALUE : Z := 42.

(** The static variables. *)
Record nv_state := mkNv { nv_increment_status : Z; test_nv_counters : list Z }.

Definition nv_reset : nv_state :=
  mkNv ENABLE_INCREMENT [INIT_NV_COUNTERS_VALUE; INIT_NV_COUNTERS_VALUE; INIT_NV_COUNTERS_VALUE].

Section counters.
  Context {PC : PsaConsts} {ID : NvCounterIds}.
  Implicit Types (counter_id : Z) (s : nv_state).

Definition get_nv_counter_position counter_id : Z :=
  if counter_id =? TFM_PS_NV_COUNTER_1 then 0
  else if counter_id =? TFM_PS_NV_COUNTER_2 then 1
  else if counter_id =? TFM_PS_NV_COUNTER_3 then 2
  else TOTAL_PS_NV_COUNTERS.

(** [test_nv_counters[nv_pos]]; outside the array it is undefined. *)
Definition counter_at (nv_pos : Z) s : option Z := test_nv_counters s !! Z.to_nat nv_pos.
Definition set_counter (nv_pos v : Z) s : nv_state :=
  mkNv (nv_increment_status s) (<[Z.to_nat nv_pos := v]> (test_nv_counters s)).

Definition ps_read_nv_counter counter_id s : option ((Z * option Z) * nv_state) :=
  let nv_pos := get_nv_counter_position counter_id in
  if TOTAL_PS_NV_COUNTERS <=? nv_pos then Some ((PSA_ERROR_GENERIC_ERROR, None), s)
  else
    v ← counter_at nv_pos s;
    Some ((PSA_SUCCESS, Some v), s).

Definition ps_increment_nv_counter counter_id s : option (Z * nv_state) :=
  if nv_increment_status s =? DISABLE_INCREMENT then Some (PSA_ERROR_GENERIC_ERROR, s)
  else
    let nv_pos := get_nv_counter_position counter_id in
    if TOTAL_PS_NV_COUNTERS <=? nv_pos then Some (PSA_ERROR_GENERIC_ERROR, s)
    else
      v ← counter_at nv_pos s;
      if v =? UINT32_MAX then Some (PSA_ERROR_GENERIC_ERROR, s)
      else Some (PSA_SUCCESS, set_counter nv_pos (u32 (v + 1)) s).

Definition test_ps_disable_increment_nv_counter s : nv_state :=
  mkNv DISABLE_INCREMENT (test_nv_counters s).

Definition test_ps_enable_increment_nv_counter s : nv_state :=
  mkNv ENABLE_INCREMENT (test_nv_counters s).

Definition test_ps_read_nv_counter := ps_read_nv_counter.

Definition test_ps_increment_nv_counter := ps_increment_nv_counter.

Definition test_ps_decrement_nv_counter counter_id s : option (Z * nv_state) :=
  let nv_pos := get_nv_counter_position counter_id in
  if TOTAL_PS_NV_COUNTERS <=? nv_pos then Some (PSA_ERROR_GENERIC_ERROR, s)
  else
    v ← counter_at nv_pos s;
    if v =? 0 then Some (PSA_ERROR_GENERIC_ERROR, s)
    else Some (PSA_SUCCESS, set_counter nv_pos (u32 (v - 1)) s).

Definition test_ps_set_nv_counter counter_id (value : Z) s : option (Z * nv_state) :=
  let nv_pos := get_nv_counter_position counter_id in
  if TOTAL_PS_NV_COUNTERS <=? nv_pos then Some (PSA_ERROR_GENERIC_ERROR, s)
  else Some (PSA_SUCCESS, set_counter nv_pos value s).

(** ** Specification: a map of three saturating counters *)

Inductive nv_op :=
  | OpRead (counter_id : Z)
  | OpIncrement (counter_id : Z)
  | OpDecrement (counter_id : Z)
  | OpSet (counter_id value : Z)
  | OpDisable
  | OpEnable.

(** The status ([PSA_SUCCESS] for a function without result), the value read
    and the new state. *)
Definition nv_exec (op : nv_op) s : option ((Z * option Z) * nv_state) :=
  match op with
  | OpRead id => test_ps_read_nv_counter id s
  | OpIncrement id => '(st, s') ← test_ps_increment_nv_counter id s; Some ((st, None), s')
  | OpDecrement id => '(st, s') ← test_ps_decrement_nv_counter id s; Some ((st, None), s')
  | OpSet id v => '(st, s') ← test_ps_set_nv_counter id v s; Some ((st, None), s')
  | OpDisable => Some ((PSA_SUCCESS, None), test_ps_disable_increment_nv_counter s)
  | OpEnable => Some ((PSA_SUCCESS, None), test_ps_enable_increment_nv_counter s)
  end.

Fixpoint nv_exec_all (ops : list nv_op) s : option (list (Z * option Z) * nv_state) :=
  match ops with
  | [] => Some ([], s)
  | op :: ops =>
      '(r, s) ← nv_exec op s;
      '(rs, s) ← nv_exec_all ops s;
      Some (r :: rs, s)
  end.

(** The argument is a [uint32_t]. *)
Definition op_ok (op : nv_op) : Prop :=
  match op with OpSet _ v => 0 <= v <= UINT32_MAX | _ => True end.

Abbreviation counters := (gmap Z Z).

Definition spec_set (v : Z -> option Z) (id : Z) (m : counters) : (Z * option Z) * counters :=
  match m !! id ≫= v with
  | Some v' => ((PSA_SUCCESS, None), <[id := v']> m)
  | None => ((PSA_ERROR_GENERIC_ERROR, None), m)
  end.

Definition spec_exec (op : nv_op) (m : counters) (enabled : bool) :
    (Z * option Z) * counters * bool :=
  match op with
  | OpRead id =>
      ((if m !! id is Some v then (PSA_SUCCESS, Some v) else (PSA_ERROR_GENERIC_ERROR, None)),
       m, enabled)
  | OpIncrement id =>
      (if enabled then spec_set (fun v => if decide (v < UINT32_MAX) then Some (v + 1) else None) id m
       else ((PSA_ERROR_GENERIC_ERROR, None), m), enabled)
  | OpDecrement id =>
      (spec_set (fun v => if decide (0 < v) then Some (v - 1) else None) id m, enabled)
  | OpSet id v => (spec_set (fun _ => Some v) id m, enabled)
  | OpDisable => ((PSA_SUCCESS, None), m, false)
  | OpEnable => ((PSA_SUCCESS, None), m, true)
  end.

Fixpoint spec_exec_all (ops : list nv_op) (m : counters) (enabled : bool) :
    list (Z * option Z) * counters * bool :=
  match ops with
  | [] => ([], m, enabled)
  | op :: ops =>
      let '(r, m, enabled) := spec_exec op m enabled in
      let '(rs, m, enabled) := spec_exec_all ops m enabled in
      (r :: rs, m, enabled)
  end.

(** What test_ps_nv_counters.h says: a counter at its maximum cannot be set.  The
    code sets it. *)
Definition doc_exec (op : nv_op) (m : counters) (enabled : bool) : (Z * option Z) * counters * bool :=
  match op with
  | OpSet id _ =>
      if decide (m !! id = Some UINT32_MAX) then ((PSA_ERROR_GENERIC_ERROR, None), m, enabled)
      else spec_exec op m enabled
  | _ => spec_exec op m enabled
  end.

Fixpoint doc_exec_all (ops : list nv_op) (m : counters) (enabled : bool) :
    list (Z * option Z) * counters * bool :=
  match ops with
  | [] => ([], m, enabled)
  | op :: ops =>
      let '(r, m, enabled) := doc_exec op m enabled in
      let '(rs, m, enabled) := doc_exec_all ops m enabled in
      (r :: rs, m, enabled)
  end.

(** No call of the sequence sets a counter that is at its maximum. *)
Fixpoint sets_below_max (ops : list nv_op) (m : counters) (enabled : bool) : Prop :=
  match ops with
  | [] => True
  | op :: ops =>
      match op with OpSet id _ => m !! id <> Some UINT32_MAX | _ => True end /\
      sets_below_max ops (spec_exec op m enabled).1.2 (spec_exec op m enabled).2
  end.

Lemma documented_below_max ops m en : sets_below_max ops m en -> spec_exec_all ops m en = doc_exec_all ops m en.
Proof.
  revert m en. induction ops as [|op ops IH]; intros m en H; [done|]. destruct H as [Hop H].
  cbn [spec_exec_all doc_exec_all].
  replace (doc_exec op m en) with (spec_exec op m en)
    by (destruct op; try done; cbn [doc_exec]; by rewrite decide_False by done).
  destruct (spec_exec op m en) as [[r m'] en']. by rewrite (IH m' en').
Qed.

(** ** The refinement *)

(** Three counters of 32 bits, the ones of the map. *)
Record nv_rel s (m : counters) (enabled : bool) : Prop := {
  rel_length : length (test_nv_counters s) = 3%nat;
  rel_range : Forall (fun v => 0 <= v <= UINT32_MAX) (test_nv_counters s);
  rel_map id : m !! id = counter_at (get_nv_counter_position id) s;
  rel_enabled : nv_increment_status s = if enabled then ENABLE_INCREMENT else DISABLE_INCREMENT;
}.

Lemma position_range id : 0 <= get_nv_counter_position id <= 3.
Proof. unfold get_nv_counter_position, TOTAL_PS_NV_COUNTERS. repeat case_match; lia. Qed.

Lemma position_inj id id' :
  get_nv_counter_position id < 3 -> get_nv_counter_position id = get_nv_counter_position id' ->
  id = id'.
Proof.
  unfold get_nv_counter_position, TOTAL_PS_NV_COUNTERS.
  repeat match goal with |- context [?x =? ?y] => destruct (Z.eqb_spec x y) end; lia.
Qed.

Lemma rel_out s m en id :
  nv_rel s m en -> TOTAL_PS_NV_COUNTERS <= get_nv_counter_position id -> m !! id = None.
Proof.
  intros H Hp. rewrite (rel_map _ _ _ H). apply lookup_ge_None.
  rewrite (rel_length _ _ _ H). unfold TOTAL_PS_NV_COUNTERS in Hp. lia.
Qed.

Lemma rel_in s m en id :
  nv_rel s m en -> get_nv_counter_position id < TOTAL_PS_NV_COUNTERS ->
  exists v, m !! id = Some v /\ counter_at (get_nv_counter_position id) s = Some v /\
    0 <= v <= UINT32_MAX.
Proof.
  intros H Hp. pose proof (position_range id). rewrite (rel_map _ _ _ H).
  destruct (lookup_lt_is_Some_2 (test_nv_counters s) (Z.to_nat (get_nv_counter_position id)))
    as [v Hv]; [rewrite (rel_length _ _ _ H); unfold TOTAL_PS_NV_COUNTERS in Hp; lia|].
  exists v. split_and!; [exact Hv | exact Hv |..];
    apply (Forall_lookup_1 _ _ _ _ (rel_range _ _ _ H) Hv).
Qed.

Lemma rel_insert s m en id v :
  nv_rel s m en -> get_nv_counter_position id < TOTAL_PS_NV_COUNTERS -> 0 <= v <= UINT32_MAX ->
  nv_rel (set_counter (get_nv_counter_position id) v s) (<[id := v]> m) en.
Proof.
  intros [Hl Hr Hm He] Hp Hv. pose proof (position_range id). unfold TOTAL_PS_NV_COUNTERS in Hp.
  split; cbn [set_counter test_nv_counters nv_increment_status].
  - by rewrite length_insert.
  - by apply Forall_insert.
  - intros id'. unfold counter_at, set_counter in *. cbn [test_nv_counters].
    destruct (decide (id' = id)) as [->|Hne].
    + rewrite lookup_insert_eq, list_lookup_insert_eq by (rewrite Hl; lia). done.
    + rewrite lookup_insert_ne, list_lookup_insert_ne; [done| |done].
      intros Heq. apply Hne. pose proof (position_range id'). symmetry.
      apply position_inj; lia.
  - done.
Qed.

(** The operations that look a counter up: either there is none, or the
    operation continues with its value. *)
Lemma rel_cases s m en id :
  nv_rel s m en ->
  (TOTAL_PS_NV_COUNTERS <=? get_nv_counter_position id = true /\ m !! id = None) \/
  (TOTAL_PS_NV_COUNTERS <=? get_nv_counter_position id = false /\
   get_nv_counter_position id < TOTAL_PS_NV_COUNTERS /\
   exists v, m !! id = Some v /\ counter_at (get_nv_counter_position id) s = Some v /\
     0 <= v <= UINT32_MAX).
Proof.
  intros H. destruct (Z.leb_spec TOTAL_PS_NV_COUNTERS (get_nv_counter_position id)).
  - left. split; [done|]. by eapply rel_out.
  - right. split_and!; [done | done |]. by eapply rel_in.
Qed.

Lemma nv_exec_spec op s m en :
  nv_rel s m en -> op_ok op ->
  exists s', nv_exec op s = Some ((spec_exec op m en).1.1, s') /\
    nv_rel s' (spec_exec op m en).1.2 (spec_exec op m en).2.
Proof.
  intros H Hok. pose proof (rel_enabled _ _ _ H) as He.
  destruct op as [id|id|id|id v| |]; cbn [nv_exec spec_exec];
    unfold test_ps_read_nv_counter, ps_read_nv_counter, test_ps_increment_nv_counter,
      ps_increment_nv_counter, test_ps_decrement_nv_counter, test_ps_set_nv_counter, spec_set;
    try (destruct (rel_cases s m en id H) as [(-> & ->)|(-> & Hp & v0 & -> & Hv & Hr)]);
    cbn [mbind option_bind].
  - by exists s.
  - rewrite Hv. by exists s.
  - rewrite He. destruct en; by exists s.
  - rewrite He, Hv. destruct en; [|by exists s]. cbn [mbind option_bind].
    change (ENABLE_INCREMENT =? DISABLE_INCREMENT) with false. cbv iota.
    destruct (Z.eqb_spec v0 UINT32_MAX), (decide (v0 < UINT32_MAX)); try lia; [by exists s|].
    rewrite wrapu_small by (unfold UINT32_MAX in *; lia).
    eexists. split; [done|]. apply rel_insert; [done | done | lia].
  - by exists s.
  - rewrite Hv. cbn [mbind option_bind].
    destruct (Z.eqb_spec v0 0), (decide (0 < v0)); try lia; [by exists s|].
    rewrite wrapu_small by (unfold UINT32_MAX in *; lia).
    eexists. split; [done|]. apply rel_insert; [done | done | lia].
  - by exists s.
  - eexists. split; [done|]. by apply rel_insert.
  - eexists. split; [done|]. by destruct H.
  - eexists. split; [done|]. by destruct H.
Qed.

Lemma nv_exec_all_spec ops s m en :
  nv_rel s m en -> Forall op_ok ops ->
  exists s', nv_exec_all ops s = Some ((spec_exec_all ops m en).1.1, s') /\
    nv_rel s' (spec_exec_all ops m en).1.2 (spec_exec_all ops m en).2.
Proof.
  intros H Hops. revert s m en H. induction Hops as [|op ops Hop _ IH]; intros s m en H.
  { by exists s. }
  destruct (nv_exec_spec op s m en H Hop) as (s1 & Hx & H1). cbn [nv_exec_all spec_exec_all].
  rewrite Hx. cbn [mbind option_bind]. destruct (spec_exec op m en) as [[r m1] en1].
  destruct (IH s1 m1 en1 H1) as (s2 & Hy & H2). cbn [fst snd]. rewrite Hy. cbn [mbind option_bind].
  destruct (spec_exec_all ops m1 en1) as [[rs m2] en2]. by exists s2.
Qed.

Definition initial_counters : counters :=
  {[ TFM_PS_NV_COUNTER_1 := 42; TFM_PS_NV_COUNTER_2 := 42; TFM_PS_NV_COUNTER_3 := 42 ]}.

Lemma initial_rel : nv_rel nv_reset initial_counters true.
Proof.
  split; [done | by repeat constructor | | done].
  intros id. unfold initial_counters, get_nv_counter_position, counter_at.
  repeat match goal with |- context [?x =? ?y] => destruct (Z.eqb_spec x y) as [->|] end.
  - by rewrite lookup_insert_eq.
  - by rewrite lookup_insert_ne, lookup_insert_eq.
  - by rewrite !lookup_insert_ne, lookup_singleton_eq.
  - by rewrite !lookup_insert_ne, lookup_singleton_ne.
Qed.

(** ** Property *)

(** C29. The counters are a map of three counters that saturate: any sequence
    of calls from reset is defined (no access outside the array), answers as
    the map does (an increment is refused at UINT32_MAX and while increments
    are disabled, a decrement at 0, an unknown ID always, and then nothing
    changes; a set is refused for an unknown ID only), and leaves 32-bit values.
    This is the documented map, except that the header has a set refused when the
    counter is at its maximum: on sequences without such a set the answers and
    the counters are the documented ones. *)
Theorem nv_counters_refine_map ops :
  Forall op_ok ops ->
  (let '(rs, m, enabled) := spec_exec_all ops initial_counters true in
   exists s', nv_exec_all ops nv_reset = Some (rs, s') /\ nv_rel s' m enabled) /\
  (sets_below_max ops initial_counters true ->
   let '(rs, m, enabled) := doc_exec_all ops initial_counters true in
   exists s', nv_exec_all ops nv_reset = Some (rs, s') /\ nv_rel s' m enabled).
Proof.
  intros Hops. pose proof (nv_exec_all_spec ops _ _ _ initial_rel Hops) as H.
  split; [|intros Hset; rewrite <- documented_below_max by done];
    by destruct (spec_exec_all ops initial_counters true) as [[rs m] en].
Qed.

(** A set at the maximum is answered with success, not as documented. *)
Lemma set_at_max_succeeds :
  (exists s', nv_exec_all [OpSet TFM_PS_NV_COUNTER_1 UINT32_MAX; OpSet TFM_PS_NV_COUNTER_1 7;
      OpRead TFM_PS_NV_COUNTER_1] nv_reset = Some ([(PSA_SUCCESS, None); (PSA_SUCCESS, None); (PSA_SUCCESS, Some 7)], s')) /\
  (doc_exec_all [OpSet TFM_PS_NV_COUNTER_1 UINT32_MAX; OpSet TFM_PS_NV_COUNTER_1 7;
      OpRead TFM_PS_NV_COUNTER_1] initial_counters true).1.1 =
    [(PSA_SUCCESS, None); (PSA_ERROR_GENERIC_ERROR, None); (PSA_SUCCESS, Some UINT32_MAX)].
Proof.
  split.
  - unfold nv_exec_all, nv_exec, test_ps_set_nv_counter, test_ps_read_nv_counter, ps_read_nv_counter,
      get_nv_counter_position. rewrite Z.eqb_refl. by eexists.
  - cbn [doc_exec_all]. unfold doc_exec at 1. rewrite decide_False.
    2: { unfold initial_counters. by rewrite lookup_insert_eq. }
    cbn [spec_exec]. unfold spec_set. unfold initial_counters at 1. rewrite lookup_insert_eq.
    cbn [mbind option_bind doc_exec]. rewrite decide_True by apply lookup_insert_eq.
    cbn. by rewrite lookup_insert_eq.
Qed.
End counters.

(** Three different IDs. *)
Definition ref_counter_ids : NvCounterIds :=
  {| TFM_PS_NV_COUNTER_1 := 0; TFM_PS_NV_COUNTER_2 := 1; TFM_PS_NV_COUNTER_3 := 2 |}.

Lemma nv_counters_refine_map_witness :
  exists s',
    @nv_exec_all psa_consts ref_counter_ids
      [OpSet 0 UINT32_MAX; OpIncrement 0; OpDisable; OpIncrement 1; OpRead 1; OpDecrement 7] nv_reset =
    Some ([(0, None); (-132, None); (0, None); (-132, None); (0, Some 42); (-132, None)], s').
Proof.
  pose proof (@nv_counters_refine_map psa_consts ref_counter_ids
    [OpSet 0 UINT32_MAX; OpIncrement 0; OpDisable; OpIncrement 1; OpRead 1; OpDecrement 7]) as H.
  destruct H as [(s' & Hs & _) _]; [by repeat constructor | by exists s'].
Defined.
