(* ===== verification/PsRollbackTests.v ===== *)
(** * PS rollback protection tests

    The test service that runs the PS service's initialisation again
    (suites/ps/service), and the test programs, table and registration of
    suites/ps/secure/ps_rollback_protection_testsuite.c.

    The state of the services is a pair: the PS service's own, and the NV
    counters, which both the service and the tests use. *)

From S2P Require Import Prelude LogRaw TestFramework TestProg PsaStorage SecureClient2 NvCounters.
Local Open Scope Z_scope.

(** ** suites/ps/service *)

Section prepare.
  Context {PC : PsaConsts} {V : Type} {PS : PsaService}.
  (** [ps_system_prepare] of the PS service, PSA_IPC_CALL of psa/service.h and
      the client functions, as the partition uses them. *)
  Variables (ps_system_prepare : V -> Z * V) (PSA_IPC_CALL : Z).

(** The switch has no default case: any other type leaves the initial value. *)
Definition tfm_ps_test_handle_msg (msg : psa_msg_t) (v : V) : Z * V :=
  if (msg_type msg =? PSA_IPC_CONNECT) || (msg_type msg =? PSA_IPC_DISCONNECT) then (PSA_SUCCESS, v)
  else if msg_type msg =? PSA_IPC_CALL then ps_system_prepare v
  else (PSA_ERROR_PROGRAMMER_ERROR, v).

Definition tfm_ps_test_system_prepare {CL : PsaClient V} (v : V) : Z * V :=
  let '(handle, v) := psa_connect v in
  if negb (PSA_HANDLE_IS_VALID handle) then (PSA_ERROR_GENERIC_ERROR, v)
  else
    let '(status, v) := psa_call handle PSA_IPC_CALL [] v in
    (status, psa_close handle v).
End prepare.

(** ** ps_rollback_protection_testsuite.c *)

Definition TEST_UID : Z := 2.
Definition WRITE_DATA : string := "THE_FIVE_BOXING_WIZARDS_JUMP_QUICKLY".
Definition WRITE_DATA_SIZE : Z := sizeof (cstr WRITE_DATA) - 1.
Definition READ_DATA : string := "############################################".
Definition RESULT_DATA : string := "####" +:+ WRITE_DATA +:+ "####".

(** s_test_helpers.h *)
Definition HALF_PADDING_SIZE : Z := 4.

Section tests.
  Context {PC : PsaConsts} {ID : NvCounterIds} {U : Type}.
  Abbreviation V := (U * nv_state)%type.
  Context {SS : StorageService V} {CL : PsaClient V}.
  (** [uninit] is what a variable without initialiser holds. *)
  Variables (__FILE__ : string) (PSA_IPC_CALL uninit : Z).
  Abbreviation W := (storage_world V).
  Abbreviation FAIL_IF := (fail_if __FILE__).
  Abbreviation psa_ps_set := storage_set.
  Abbreviation psa_ps_get := storage_get.
  Abbreviation psa_ps_remove := storage_remove.
  Abbreviation tfm_ps_test_system_prepare := (tfm_ps_test_system_prepare PSA_IPC_CALL).

(** A call of a function of test_ps_nv_counters.c. *)
Definition nv_call {A} (f : nv_state -> option (A * nv_state)) : P W A :=
  call (fun w =>
    '(a, n) ← f (w_svc w).2;
    Some (a, mkWorld ((w_svc w).1, n) (read_asset_data w) (read_asset_data_len w))).

Definition nv_run (f : nv_state -> nv_state) : P W unit := nv_call (fun n => Some (tt, f n)).

(** [test_ps_read_nv_counter(counter_id, &val)] *)
Definition read_nv_counter (counter_id val : Z) : P W (Z * Z) :=
  '(status, v) ← nv_call (test_ps_read_nv_counter counter_id);
  mret (status, default val v).

Definition tfm_ps_test_3001 : P W unit :=
  let uid := TEST_UID in
  let flags := PSA_STORAGE_FLAG_NONE in
  let data_len := WRITE_DATA_SIZE in
  let offset := 0 in
  let write_data := cstr WRITE_DATA in
  let read_data := cstr READ_DATA in
  let read_data_len := 0 in
  status ← psa_ps_set uid data_len (Some write_data) flags;
  FAIL_IF 120 (negb (status =? PSA_SUCCESS))
    "Set should not fail with valid UID";;
  '(status, old_nvc_1) ← read_nv_counter TFM_PS_NV_COUNTER_1 uninit;
  FAIL_IF 127 (negb (status =? PSA_SUCCESS))
    "Read should not fail";;
  status ← psa_ps_set uid data_len (Some write_data) flags;
  FAIL_IF 134 (negb (status =? PSA_SUCCESS))
    "Set should not fail with valid UID";;
  '(status, nvc_1) ← read_nv_counter TFM_PS_NV_COUNTER_1 uninit;
  FAIL_IF 145 (negb (status =? PSA_SUCCESS))
    "Read should not fail";;
  FAIL_IF 153 (negb (nvc_1 =? u32 (old_nvc_1 + 1)))
    "NV counter 1 has been increased more than 1 unit";;
  '(status, nvc_2) ← read_nv_counter TFM_PS_NV_COUNTER_2 uninit;
  FAIL_IF 160 (negb (status =? PSA_SUCCESS))
    "Read should not fail";;
  FAIL_IF 165 (negb (nvc_1 =? nvc_2))
    "NV counter 1 and 2 should have the same value";;
  '(status, nvc_3) ← read_nv_counter TFM_PS_NV_COUNTER_3 uninit;
  FAIL_IF 172 (negb (status =? PSA_SUCCESS))
    "Read should not fail";;
  FAIL_IF 177 (negb (nvc_2 =? nvc_3))
    "NV counter 2 and 3 should have the same value";;
  status ← svc_call tfm_ps_test_system_prepare;
  FAIL_IF 189 (negb (status =? PSA_SUCCESS))
    "AM prepare should not fail";;
  '(status, read_data, read_data_len) ←
    psa_ps_get uid offset data_len read_data HALF_PADDING_SIZE read_data_len;
  FAIL_IF 197 (negb (status =? PSA_SUCCESS))
    "Get should not fail";;
  comp_result ← c_memcmp read_data 0 (cstr RESULT_DATA) 0 (sizeof read_data);
  FAIL_IF 203 (negb (comp_result =? 0))
    "The data should not have changed";;
  status ← psa_ps_remove uid;
  FAIL_IF 210 (negb (status =? PSA_SUCCESS))
    "Remove should not fail with valid UID";;
  ret_val TEST_PASSED.

Definition tfm_ps_test_3002 : P W unit :=
  let uid := TEST_UID in
  let flags := PSA_STORAGE_FLAG_NONE in
  let data_len := WRITE_DATA_SIZE in
  let write_data := cstr WRITE_DATA in
  status ← psa_ps_set uid data_len (Some write_data) flags;
  FAIL_IF 232 (negb (status =? PSA_SUCCESS))
    "Set should not fail with valid UID";;
  status ← nv_call (test_ps_increment_nv_counter TFM_PS_NV_COUNTER_1);
  FAIL_IF 239 (negb (status =? PSA_SUCCESS))
    "Increment should not fail";;
  status ← nv_call (test_ps_increment_nv_counter TFM_PS_NV_COUNTER_2);
  FAIL_IF 245 (negb (status =? PSA_SUCCESS))
    "Increment should not fail";;
  status ← nv_call (test_ps_increment_nv_counter TFM_PS_NV_COUNTER_3);
  FAIL_IF 251 (negb (status =? PSA_SUCCESS))
    "Increment should not fail";;
  status ← svc_call tfm_ps_test_system_prepare;
  FAIL_IF 263 (negb (status =? PSA_ERROR_GENERIC_ERROR))
    "PS system prepare should fail as version is old";;
  status ← nv_call (test_ps_decrement_nv_counter TFM_PS_NV_COUNTER_1);
  FAIL_IF 280 (negb (status =? PSA_SUCCESS))
    "Decrement should not fail";;
  status ← nv_call (test_ps_decrement_nv_counter TFM_PS_NV_COUNTER_2);
  FAIL_IF 286 (negb (status =? PSA_SUCCESS))
    "Decrement should not fail";;
  status ← nv_call (test_ps_decrement_nv_counter TFM_PS_NV_COUNTER_3);
  FAIL_IF 292 (negb (status =? PSA_SUCCESS))
    "Decrement should not fail";;
  status ← svc_call tfm_ps_test_system_prepare;
  FAIL_IF 299 (negb (status =? PSA_SUCCESS))
    "PS system prepare should not fail";;
  status ← psa_ps_remove uid;
  FAIL_IF 306 (negb (status =? PSA_SUCCESS))
    "Remove should not fail with valid UID";;
  ret_val TEST_PASSED.

Definition tfm_ps_test_3003 : P W unit :=
  let uid := TEST_UID in
  let flags := PSA_STORAGE_FLAG_NONE in
  let data_len := WRITE_DATA_SIZE in
  let offset := 0 in
  let write_data := cstr WRITE_DATA in
  let read_data := cstr READ_DATA in
  let read_data_len := 0 in
  status ← psa_ps_set uid data_len (Some write_data) flags;
  FAIL_IF 333 (negb (status =? PSA_SUCCESS))
    "Set should not fail with valid UID";;
  status ← nv_call (test_ps_decrement_nv_counter TFM_PS_NV_COUNTER_3);
  FAIL_IF 342 (negb (status =? PSA_SUCCESS))
    "Decrement should not fail";;
  status ← svc_call tfm_ps_test_system_prepare;
  FAIL_IF 354 (negb (status =? PSA_SUCCESS))
    "PS system prepare should not fail";;
  '(status, read_data, read_data_len) ←
    psa_ps_get uid offset data_len read_data HALF_PADDING_SIZE read_data_len;
  FAIL_IF 362 (negb (status =? PSA_SUCCESS))
    "Get should not fail";;
  comp_result ← c_memcmp read_data 0 (cstr RESULT_DATA) 0 (sizeof read_data);
  FAIL_IF 368 (negb (comp_result =? 0))
    "The data should not have changed";;
  status ← psa_ps_remove uid;
  FAIL_IF 375 (negb (status =? PSA_SUCCESS))
    "Remove should not fail with valid UID";;
  ret_val TEST_PASSED.

Definition tfm_ps_test_3004 : P W unit :=
  let uid := TEST_UID in
  let flags := PSA_STORAGE_FLAG_NONE in
  let data_len := WRITE_DATA_SIZE in
  let offset := 0 in
  let write_data := cstr WRITE_DATA in
  let read_data := cstr READ_DATA in
  let read_data_len := 0 in
  status ← psa_ps_set uid data_len (Some write_data) flags;
  FAIL_IF 403 (negb (status =? PSA_SUCCESS))
    "Set should not fail with valid UID";;
  status ← nv_call (test_ps_increment_nv_counter TFM_PS_NV_COUNTER_1);
  FAIL_IF 412 (negb (status =? PSA_SUCCESS))
    "Increment should not fail";;
  status ← svc_call tfm_ps_test_system_prepare;
  FAIL_IF 424 (negb (status =? PSA_SUCCESS))
    "PS system prepare should not fail";;
  '(status, read_data, read_data_len) ←
    psa_ps_get uid offset data_len read_data HALF_PADDING_SIZE read_data_len;
  FAIL_IF 432 (negb (status =? PSA_SUCCESS))
    "Get should not fail";;
  comp_result ← c_memcmp read_data 0 (cstr RESULT_DATA) 0 (sizeof read_data);
  FAIL_IF 438 (negb (comp_result =? 0))
    "The data should not have changed";;
  status ← psa_ps_remove uid;
  FAIL_IF 445 (negb (status =? PSA_SUCCESS))
    "Remove should not fail with valid UID";;
  ret_val TEST_PASSED.

Definition tfm_ps_test_3005 : P W unit :=
  let uid := TEST_UID in
  let flags := PSA_STORAGE_FLAG_NONE in
  let data_len := WRITE_DATA_SIZE in
  let offset := 0 in
  let write_data := cstr WRITE_DATA in
  let read_data := cstr READ_DATA in
  let read_data_len := 0 in
  status ← psa_ps_set uid data_len (Some write_data) flags;
  FAIL_IF 473 (negb (status =? PSA_SUCCESS))
    "Set should not fail with valid UID";;
  status ← nv_call (test_ps_decrement_nv_counter TFM_PS_NV_COUNTER_2);
  FAIL_IF 482 (negb (status =? PSA_SUCCESS))
    "Decrement should not fail";;
  status ← nv_call (test_ps_decrement_nv_counter TFM_PS_NV_COUNTER_3);
  FAIL_IF 488 (negb (status =? PSA_SUCCESS))
    "Decrement should not fail";;
  status ← svc_call tfm_ps_test_system_prepare;
  FAIL_IF 499 (negb (status =? PSA_SUCCESS))
    "PS system prepare should not fail";;
  '(status, read_data, read_data_len) ←
    psa_ps_get uid offset data_len read_data HALF_PADDING_SIZE read_data_len;
  FAIL_IF 507 (negb (status =? PSA_SUCCESS))
    "Get should not fail";;
  comp_result ← c_memcmp read_data 0 (cstr RESULT_DATA) 0 (sizeof read_data);
  FAIL_IF 513 (negb (comp_result =? 0))
    "The data should not have changed";;
  status ← psa_ps_remove uid;
  FAIL_IF 520 (negb (status =? PSA_SUCCESS))
    "Remove should not fail with valid UID";;
  ret_val TEST_PASSED.

Definition tfm_ps_test_3006 : P W unit :=
  let uid := TEST_UID in
  let flags := PSA_STORAGE_FLAG_NONE in
  let data_len := WRITE_DATA_SIZE in
  let offset := 0 in
  let write_data := cstr WRITE_DATA in
  let read_data := cstr READ_DATA in
  let read_data_len := 0 in
  status ← psa_ps_set uid data_len (Some write_data) flags;
  FAIL_IF 545 (negb (status =? PSA_SUCCESS))
    "Set should not fail with valid UID";;
  status ← nv_call (test_ps_decrement_nv_counter TFM_PS_NV_COUNTER_2);
  FAIL_IF 554 (negb (status =? PSA_SUCCESS))
    "Decrement should not fail";;
  status ← nv_call (test_ps_decrement_nv_counter TFM_PS_NV_COUNTER_3);
  FAIL_IF 560 (negb (status =? PSA_SUCCESS))
    "Decrement should not fail";;
  status ← nv_call (test_ps_decrement_nv_counter TFM_PS_NV_COUNTER_3);
  FAIL_IF 566 (negb (status =? PSA_SUCCESS))
    "Decrement should not fail";;
  status ← svc_call tfm_ps_test_system_prepare;
  FAIL_IF 577 (negb (status =? PSA_SUCCESS))
    "PS system prepare should not fail";;
  '(status, read_data, read_data_len) ←
    psa_ps_get uid offset data_len read_data HALF_PADDING_SIZE read_data_len;
  FAIL_IF 585 (negb (status =? PSA_SUCCESS))
    "Get should not fail";;
  comp_result ← c_memcmp read_data 0 (cstr RESULT_DATA) 0 (sizeof read_data);
  FAIL_IF 591 (negb (comp_result =? 0))
    "The data should not have changed";;
  status ← psa_ps_remove uid;
  FAIL_IF 598 (negb (status =? PSA_SUCCESS))
    "Remove should not fail with valid UID";;
  ret_val TEST_PASSED.

Definition tfm_ps_test_3007 : P W unit :=
  let uid := TEST_UID in
  let flags := PSA_STORAGE_FLAG_NONE in
  let data_len := WRITE_DATA_SIZE in
  let write_data := cstr WRITE_DATA in
  status ← psa_ps_set uid data_len (Some write_data) flags;
  FAIL_IF 620 (negb (status =? PSA_SUCCESS))
    "Set should not fail with valid UID";;
  status ← nv_call (test_ps_increment_nv_counter TFM_PS_NV_COUNTER_1);
  FAIL_IF 629 (negb (status =? PSA_SUCCESS))
    "Increment should not fail";;
  status ← nv_call (test_ps_decrement_nv_counter TFM_PS_NV_COUNTER_3);
  FAIL_IF 635 (negb (status =? PSA_SUCCESS))
    "Decrement should not fail";;
  status ← svc_call tfm_ps_test_system_prepare;
  FAIL_IF 647 (negb (status =? PSA_ERROR_GENERIC_ERROR))
    "PS system prepare should fail";;
  status ← nv_call (test_ps_decrement_nv_counter TFM_PS_NV_COUNTER_1);
  FAIL_IF 664 (negb (status =? PSA_SUCCESS))
    "Decrement should not fail";;
  status ← nv_call (test_ps_increment_nv_counter TFM_PS_NV_COUNTER_3);
  FAIL_IF 670 (negb (status =? PSA_SUCCESS))
    "Increment should not fail";;
  status ← svc_call tfm_ps_test_system_prepare;
  FAIL_IF 677 (negb (status =? PSA_SUCCESS))
    "PS system prepare should not fail";;
  status ← psa_ps_remove uid;
  FAIL_IF 684 (negb (status =? PSA_SUCCESS))
    "Remove should not fail with valid UID";;
  ret_val TEST_PASSED.

Definition tfm_ps_test_3008 : P W unit :=
  let uid := TEST_UID in
  let flags := PSA_STORAGE_FLAG_NONE in
  let data_len := WRITE_DATA_SIZE in
  let write_data := cstr WRITE_DATA in
  status ← psa_ps_set uid data_len (Some write_data) flags;
  FAIL_IF 706 (negb (status =? PSA_SUCCESS))
    "Set should not fail with valid UID";;
  status ← nv_call (test_ps_increment_nv_counter TFM_PS_NV_COUNTER_1);
  FAIL_IF 715 (negb (status =? PSA_SUCCESS))
    "Increment should not fail";;
  status ← nv_call (test_ps_increment_nv_counter TFM_PS_NV_COUNTER_1);
  FAIL_IF 721 (negb (status =? PSA_SUCCESS))
    "Increment should not fail";;
  status ← nv_call (test_ps_increment_nv_counter TFM_PS_NV_COUNTER_2);
  FAIL_IF 727 (negb (status =? PSA_SUCCESS))
    "Increment should not fail";;
  status ← svc_call tfm_ps_test_system_prepare;
  FAIL_IF 739 (negb (status =? PSA_ERROR_GENERIC_ERROR))
    "AM prepare should fail";;
  status ← nv_call (test_ps_decrement_nv_counter TFM_PS_NV_COUNTER_1);
  FAIL_IF 756 (negb (status =? PSA_SUCCESS))
    "Decrement should not fail";;
  status ← nv_call (test_ps_decrement_nv_counter TFM_PS_NV_COUNTER_1);
  FAIL_IF 762 (negb (status =? PSA_SUCCESS))
    "Decrement should not fail";;
  status ← nv_call (test_ps_decrement_nv_counter TFM_PS_NV_COUNTER_2);
  FAIL_IF 768 (negb (status =? PSA_SUCCESS))
    "Decrement should not fail";;
  status ← svc_call tfm_ps_test_system_prepare;
  FAIL_IF 775 (negb (status =? PSA_SUCCESS))
    "PS system prepare should not fail";;
  status ← psa_ps_remove uid;
  FAIL_IF 782 (negb (status =? PSA_SUCCESS))
    "Remove should not fail with valid UID";;
  ret_val TEST_PASSED.

Definition tfm_ps_test_3009 : P W unit :=
  let uid := TEST_UID in
  let flags := PSA_STORAGE_FLAG_NONE in
  let data_len := WRITE_DATA_SIZE in
  let write_data := cstr WRITE_DATA in
  nv_run test_ps_disable_increment_nv_counter;;
  status ← psa_ps_set uid data_len (Some write_data) flags;
  FAIL_IF 809 (negb (status =? PSA_ERROR_GENERIC_ERROR))
    "Set should fail as the non-volatile counters can not be increased";;
  nv_run test_ps_enable_increment_nv_counter;;
  ret_val TEST_PASSED.

Definition rollback_tests : list (test_t W) :=
  [TEST tfm_ps_test_3001 "TFM_S_PS_TEST_3001"
     "Check PS area version when NV counters 1/2/3 have the same value";
   TEST tfm_ps_test_3002 "TFM_S_PS_TEST_3002"
     "Check PS area version when it is different from NV counters 1/2/3";
   TEST tfm_ps_test_3003 "TFM_S_PS_TEST_3003"
     "Check PS area version when NV counters 1 and 2 are equals, 3 is different, and PS area version match NV counters 1 and 2";
   TEST tfm_ps_test_3004 "TFM_S_PS_TEST_3004"
     "Check PS area version when NV counters 2 and 3 are equals, 1 is different and PS area version match NV counter 2 and 3";
   TEST tfm_ps_test_3005 "TFM_S_PS_TEST_3005"
     "Check PS area version when NV counters 2 and 3 are equals, 1 is different and PS area version match NV counter 1";
   TEST tfm_ps_test_3006 "TFM_S_PS_TEST_3006"
     "Check PS area version when NV counters 1, 2 and 3 have different values and PS area version match NV counter 1 value";
   TEST tfm_ps_test_3007 "TFM_S_PS_TEST_3007"
     "Check PS area version when NV counters 1, 2 and 3 have different values and PS area version match NV counter 2 value";
   TEST tfm_ps_test_3008 "TFM_S_PS_TEST_3008"
     "Check PS area version when NV counters 1, 2 and 3 have different values and PS area version match NV counter 3 value";
   TEST tfm_ps_test_3009 "TFM_S_PS_TEST_3009"
     "Check PS area version when NV counter 1 cannot be incremented"].

Definition register_testsuite_s_rollback_protection : TESTSUITE_REG W :=
  register "PS rollback protection tests (TFM_S_PS_TEST_3XXX)" rollback_tests.
End tests.
