(* ===== verification/PsRollbackProofs.v ===== *)
(** * The PS rollback protection tests against the documented behaviour

    The contract is the table at the head of the test suite: which versions of
    the PS area are valid for which values of the three NV counters. *)

From S2P Require Import Prelude LogRaw TestFramework TestProg PsaStorage StorageTactics SecureClient2 NvCounters PsRollbackTests.
Local Open Scope Z_scope.

(** ** The contract of the PS service with rollback protection *)

(** The PS area: the assets, the version they are authenticated with and
    whether the last initialisation accepted them. *)
Record ps_area := mkArea { area_assets : assets_map; area_version : Z; area_valid : bool }.

(** The version is that of counter 1, or of counters 2 and 3. *)
Definition version_valid (ver a b c : Z) : bool := (ver =? a) || ((ver =? b) && (b =? c)).

Definition aligned (x : Z) : list Z := [x; x; x].

Class NvCounterIdsLaws {ID : NvCounterIds} := {
  counter_ids_NoDup : NoDup [TFM_PS_NV_COUNTER_1; TFM_PS_NV_COUNTER_2; TFM_PS_NV_COUNTER_3];
}.

Class RollbackLaws {PC : PsaConsts} (MAX_ASSET_SIZE : Z) (NUM_ASSETS : nat) (supported : Z -> bool)
    (U : Type) (SS : StorageService (U * nv_state)) (CL : PsaClient (U * nv_state))
    (PS : PsaService) (PSA_IPC_CALL : Z)
    (ps_system_prepare : U * nv_state -> Z * (U * nv_state)) := {
  area : U -> ps_area;
  client : U -> Z;
  (** An asset is stored under a new version, one more than the old, and the
      counters follow; when they cannot be incremented the area is unchanged. *)
  law_area_set u x en uid len d fl st u' n' :
    area_valid (area u) = true -> area_version (area u) = x -> 0 <= x < UINT32_MAX ->
    set_errors MAX_ASSET_SIZE NUM_ASSETS supported (area_assets (area u)) (client u) uid len
      (Some d) fl = [] ->
    svc_set uid len (Some d) fl (u, mkNv en (aligned x)) = (st, (u', n')) ->
    client u' = client u /\
    if en =? DISABLE_INCREMENT then
      st = PSA_ERROR_GENERIC_ERROR /\ area u' = area u /\ n' = mkNv en (aligned x)
    else
      st = PSA_SUCCESS /\ n' = mkNv en (aligned (x + 1)) /\
      area u' = mkArea (<[(client u, uid) := (d, fl)]> (area_assets (area u))) (x + 1) true;
  law_area_remove u x uid a st u' n' :
    area_valid (area u) = true -> area_version (area u) = x -> 0 <= x < UINT32_MAX ->
    uid <> 0 -> area_assets (area u) !! (client u, uid) = Some a -> write_once a = false ->
    svc_remove uid (u, mkNv ENABLE_INCREMENT (aligned x)) = (st, (u', n')) ->
    client u' = client u /\ st = PSA_SUCCESS /\ n' = mkNv ENABLE_INCREMENT (aligned (x + 1)) /\
    area u' = mkArea (delete (client u, uid) (area_assets (area u))) (x + 1) true;
  law_area_get u n uid offset sz a st out k u' n' :
    area_valid (area u) = true -> uid <> 0 ->
    area_assets (area u) !! (client u, uid) = Some a -> 0 <= offset <= sizeof a.1 -> 0 <= sz ->
    svc_get uid offset sz true true (u, n) = ((st, out, k), (u', n')) ->
    client u' = client u /\ area u' = area u /\ n' = n /\
    st = PSA_SUCCESS /\ out = slice offset sz a.1 /\ k = Some (sizeof out);
  (** The initialisation accepts a valid version and aligns the counters, and
      otherwise marks the area invalid. *)
  law_prepare u a b c st u' n' :
    0 <= c -> c <= b -> b <= a -> a < UINT32_MAX ->
    ps_system_prepare (u, mkNv ENABLE_INCREMENT [a; b; c]) = (st, (u', n')) ->
    client u' = client u /\
    if version_valid (area_version (area u)) a b c then
      st = PSA_SUCCESS /\ exists x, a <= x <= a + 1 /\ n' = mkNv ENABLE_INCREMENT (aligned x) /\
        area u' = mkArea (area_assets (area u)) x true
    else
      st = PSA_ERROR_GENERIC_ERROR /\ n' = mkNv ENABLE_INCREMENT [a; b; c] /\
      area u' = mkArea (area_assets (area u)) (area_version (area u)) false;
  (** The SPM: connections succeed, calls run the partition's handler. *)
  law_connect v h v' : psa_connect v = (h, v') ->
    PSA_HANDLE_IS_VALID h = true /\ v'.2 = v.2 /\ area v'.1 = area v.1 /\ client v'.1 = client v.1;
  law_call h t iv v st v' : psa_call h t iv v = (st, v') ->
    exists v1 v2, v1.2 = v.2 /\ area v1.1 = area v.1 /\
      tfm_ps_test_handle_msg ps_system_prepare PSA_IPC_CALL (mkMsg t iv) v1 = (st, v2) /\
      v'.2 = v2.2 /\ area v'.1 = area v2.1 /\ client v'.1 = client v.1;
  law_close h v : (psa_close h v).2 = v.2 /\ area (psa_close h v).1 = area v.1 /\
    client (psa_close h v).1 = client v.1;
  law_types : PSA_IPC_CALL <> PSA_IPC_CONNECT /\ PSA_IPC_CALL <> PSA_IPC_DISCONNECT;
}.

(** An increment that is allowed. *)
Lemma increment_exec {PC : PsaConsts} {ID : NvCounterIds} en l (i : nat) id v :
  get_nv_counter_position id = Z.of_nat i -> (i < 3)%nat -> l !! i = Some v -> 0 <= v < UINT32_MAX ->
  en <> DISABLE_INCREMENT ->
  ps_increment_nv_counter id (mkNv en l) = Some (PSA_SUCCESS, mkNv en (<[i := v + 1]> l)).
Proof.
  intros Hp Hi Hv Hr Hen. unfold ps_increment_nv_counter, counter_at, set_counter.
  rewrite Hp, Nat2Z.id. cbn [nv_increment_status test_nv_counters]. rewrite Hv.
  rewrite (proj2 (Z.eqb_neq _ _) Hen).
  destruct (Z.leb_spec TOTAL_PS_NV_COUNTERS (Z.of_nat i)); [unfold TOTAL_PS_NV_COUNTERS in *; lia|].
  cbn [mbind option_bind]. rewrite (proj2 (Z.eqb_neq v UINT32_MAX)) by lia.
  by rewrite wrapu_small by (unfold UINT32_MAX in *; lia).
Qed.

Section rollback.
  Context {PC : PsaConsts} {PL : PsaConstsLaws} {ID : NvCounterIds} {IDL : NvCounterIdsLaws}.
  Context {PS_MAX_ASSET_SIZE : Z} {NUM_ASSETS : nat} {supported : Z -> bool}.
  Context {U : Type} {SS : StorageService (U * nv_state)} {CL : PsaClient (U * nv_state)}.
  Context {PS : PsaService} {PSA_IPC_CALL : Z} {ps_system_prepare : U * nv_state -> Z * (U * nv_state)}.
  Context {RL : RollbackLaws PS_MAX_ASSET_SIZE NUM_ASSETS supported U SS CL PS PSA_IPC_CALL ps_system_prepare}.
  Variables (__FILE__ : string) (uninit : Z).
  Hypothesis Hmax : 36 <= PS_MAX_ASSET_SIZE.
  Hypothesis Hnone : supported PSA_STORAGE_FLAG_NONE = true.
  Implicit Types (m : assets_map) (c x : Z).
  Abbreviation W := (storage_world (U * nv_state)).

(** The client [c] runs on the area [ar] with the counters [n]. *)
Record at_area c ar n (s : tstate W) : Prop := {
  at_client : client (w_svc (t_world s)).1 = c;
  at_ar : area (w_svc (t_world s)).1 = ar;
  at_nv : (w_svc (t_world s)).2 = n;
}.

Lemma at_area_world c ar n (s s' : tstate W) :
  t_world s' = t_world s -> at_area c ar n s -> at_area c ar n s'.
Proof. intros Hw []. split; by rewrite Hw. Qed.

Lemma position_1 : get_nv_counter_position TFM_PS_NV_COUNTER_1 = 0.
Proof. unfold get_nv_counter_position. by rewrite Z.eqb_refl. Qed.

Lemma position_2 : get_nv_counter_position TFM_PS_NV_COUNTER_2 = 1.
Proof.
  unfold get_nv_counter_position. pose proof counter_ids_NoDup as H.
  rewrite !NoDup_cons, !not_elem_of_cons in H. destruct H as ((?&?&_)&(?&_)&_).
  rewrite Z.eqb_refl. destruct (Z.eqb_spec TFM_PS_NV_COUNTER_2 TFM_PS_NV_COUNTER_1); congruence.
Qed.

Lemma position_3 : get_nv_counter_position TFM_PS_NV_COUNTER_3 = 2.
Proof.
  unfold get_nv_counter_position. pose proof counter_ids_NoDup as H.
  rewrite !NoDup_cons, !not_elem_of_cons in H. destruct H as ((?&?&_)&(?&_)&_).
  rewrite Z.eqb_refl. destruct (Z.eqb_spec TFM_PS_NV_COUNTER_3 TFM_PS_NV_COUNTER_1),
    (Z.eqb_spec TFM_PS_NV_COUNTER_3 TFM_PS_NV_COUNTER_2); congruence.
Qed.

(** ** Rules *)

Lemma wp_nv_call {A} (f : nv_state -> option (A * nv_state)) a n' c ar n
    (Q : A -> tstate W -> Prop) s :
  at_area c ar n s -> f n = Some (a, n') -> (forall s', at_area c ar n' s' -> Q a s') ->
  wp (nv_call f) Q s.
Proof.
  intros [Hc Ha Hn] Hf HQ. eapply wp_call; [by rewrite Hn, Hf|]. apply HQ. by split.
Qed.

Lemma wp_increment c ar l (i : nat) id v (Q : Z -> tstate W -> Prop) s :
  at_area c ar (mkNv ENABLE_INCREMENT l) s ->
  get_nv_counter_position id = Z.of_nat i -> (i < 3)%nat -> l !! i = Some v -> 0 <= v < UINT32_MAX ->
  (forall s', at_area c ar (mkNv ENABLE_INCREMENT (<[i := v + 1]> l)) s' -> Q PSA_SUCCESS s') ->
  wp (nv_call (test_ps_increment_nv_counter id)) Q s.
Proof. intros. eapply wp_nv_call; [done | by apply increment_exec | done]. Qed.

Lemma wp_decrement c ar l (i : nat) id v (Q : Z -> tstate W -> Prop) s :
  at_area c ar (mkNv ENABLE_INCREMENT l) s ->
  get_nv_counter_position id = Z.of_nat i -> (i < 3)%nat -> l !! i = Some v -> 0 < v <= UINT32_MAX ->
  (forall s', at_area c ar (mkNv ENABLE_INCREMENT (<[i := v - 1]> l)) s' -> Q PSA_SUCCESS s') ->
  wp (nv_call (test_ps_decrement_nv_counter id)) Q s.
Proof.
  intros Hs Hp Hi Hv Hr. eapply wp_nv_call; [done|].
  unfold test_ps_decrement_nv_counter, counter_at, set_counter.
  rewrite Hp, Nat2Z.id. cbn [nv_increment_status test_nv_counters]. rewrite Hv.
  destruct (Z.leb_spec TOTAL_PS_NV_COUNTERS (Z.of_nat i)); [unfold TOTAL_PS_NV_COUNTERS in *; lia|].
  cbn [mbind option_bind]. rewrite (proj2 (Z.eqb_neq v 0)) by lia.
  by rewrite wrapu_small by (unfold UINT32_MAX in *; lia).
Qed.

Lemma wp_read c ar en l (i : nat) id v d (Q : _ -> tstate W -> Prop) s :
  at_area c ar (mkNv en l) s ->
  get_nv_counter_position id = Z.of_nat i -> (i < 3)%nat -> l !! i = Some v ->
  (forall s', at_area c ar (mkNv en l) s' -> Q (PSA_SUCCESS, v) s') ->
  wp (read_nv_counter id d) Q s.
Proof.
  intros Hs Hp Hi Hv HQ. apply wp_bind. eapply wp_nv_call; [done | |].
  - unfold test_ps_read_nv_counter, ps_read_nv_counter, counter_at.
    rewrite Hp, Nat2Z.id. cbn [test_nv_counters]. rewrite Hv.
    destruct (Z.leb_spec TOTAL_PS_NV_COUNTERS (Z.of_nat i));
      [unfold TOTAL_PS_NV_COUNTERS in *; lia|]. done.
  - intros s' Hs'. by apply wp_ret, HQ.
Qed.

Lemma wp_area_set c m x en uid len d fl (Q : Z -> tstate W -> Prop) s :
  at_area c (mkArea m x true) (mkNv en (aligned x)) s -> 0 <= x < UINT32_MAX -> len <= sizeof d ->
  set_errors PS_MAX_ASSET_SIZE NUM_ASSETS supported m c uid len (Some (take (Z.to_nat len) d)) fl = [] ->
  (forall s',
     if en =? DISABLE_INCREMENT then
       at_area c (mkArea m x true) (mkNv en (aligned x)) s' -> Q PSA_ERROR_GENERIC_ERROR s'
     else
       at_area c (mkArea (<[(c, uid) := (take (Z.to_nat len) d, fl)]> m) (x + 1) true)
         (mkNv en (aligned (x + 1))) s' -> Q PSA_SUCCESS s') ->
  wp (storage_set uid len (Some d) fl) Q s.
Proof.
  intros [Hc Ha Hn] Hx Hl He HQ. unfold storage_set. rewrite (proj2 (Z.leb_le _ _) Hl).
  apply wp_svc_call. intros st [u' n'] Hset. destruct (w_svc (t_world s)) as [u n].
  cbn [fst snd] in *. subst n c.
  pose proof (law_area_set u x en uid len (take (Z.to_nat len) d) fl st u' n') as Hlaw.
  rewrite Ha in Hlaw. destruct (Hlaw eq_refl eq_refl Hx He Hset) as [Hc Hr].
  destruct (en =? DISABLE_INCREMENT).
  - destruct Hr as (-> & Har & ->). apply HQ. by split.
  - destruct Hr as (-> & -> & Har). apply HQ. by split.
Qed.

Lemma wp_area_remove c m x uid a (Q : Z -> tstate W -> Prop) s :
  at_area c (mkArea m x true) (mkNv ENABLE_INCREMENT (aligned x)) s -> 0 <= x < UINT32_MAX ->
  uid <> 0 -> m !! (c, uid) = Some a -> write_once a = false ->
  (forall s', at_area c (mkArea (delete (c, uid) m) (x + 1) true)
     (mkNv ENABLE_INCREMENT (aligned (x + 1))) s' -> Q PSA_SUCCESS s') ->
  wp (storage_remove uid) Q s.
Proof.
  intros [Hc Ha Hn] Hx Hu Hm Hw HQ. apply wp_svc_call. intros st [u' n'] Hrm.
  destruct (w_svc (t_world s)) as [u n]. cbn [fst snd] in *. subst n c.
  pose proof (law_area_remove u x uid a st u' n') as Hlaw. rewrite Ha in Hlaw.
  destruct (Hlaw eq_refl eq_refl Hx Hu Hm Hw Hrm) as (Hc & -> & -> & Har).
  apply HQ. by split.
Qed.

Lemma wp_area_get c m x n uid offset sz buf pos len a (Q : _ -> tstate W -> Prop) s :
  at_area c (mkArea m x true) n s -> uid <> 0 -> m !! (c, uid) = Some a ->
  0 <= offset <= sizeof a.1 -> 0 <= sz -> 0 <= pos -> pos + sz <= sizeof buf ->
  (forall s', at_area c (mkArea m x true) n s' ->
     Q (PSA_SUCCESS, splice (Z.to_nat pos) (slice offset sz a.1) buf,
        sizeof (slice offset sz a.1)) s') ->
  wp (storage_get uid offset sz buf pos len) Q s.
Proof.
  intros [Hc Ha Hn] Hu Hm Ho Hz Hp Hb HQ. unfold storage_get.
  rewrite (proj2 (Z.leb_le _ _) Hp), (proj2 (Z.leb_le _ _) Hb). simpl andb. cbv iota.
  apply wp_bind, wp_svc_call. intros [[st out] k] [u' n'] Hget.
  destruct (w_svc (t_world s)) as [u n0]. cbn [fst snd] in *. subst n0 c.
  pose proof (law_area_get u n uid offset sz a st out k u' n') as Hlaw. rewrite Ha in Hlaw.
  destruct (Hlaw eq_refl Hu Hm Ho Hz Hget) as (Hc & Har & -> & -> & -> & ->). cbv beta iota.
  rewrite (proj2 (Z.leb_le _ _) (slice_size _ _ _ Hz)). apply wp_ret, HQ. by split.
Qed.

(** The path of a request to the test partition. *)
Lemma prepare_spec u a b d st u' n' :
  0 <= d -> d <= b -> b <= a -> a < UINT32_MAX ->
  tfm_ps_test_system_prepare PSA_IPC_CALL (u, mkNv ENABLE_INCREMENT [a; b; d]) = (st, (u', n')) ->
  client u' = client u /\
  if version_valid (area_version (area u)) a b d then
    st = PSA_SUCCESS /\ exists x, a <= x <= a + 1 /\ n' = mkNv ENABLE_INCREMENT (aligned x) /\
      area u' = mkArea (area_assets (area u)) x true
  else
    st = PSA_ERROR_GENERIC_ERROR /\ n' = mkNv ENABLE_INCREMENT [a; b; d] /\
    area u' = mkArea (area_assets (area u)) (area_version (area u)) false.
Proof.
  intros Hd Hb Ha Hm. unfold tfm_ps_test_system_prepare.
  destruct (psa_connect _) as [h v0] eqn:Hcon.
  destruct (law_connect _ _ _ Hcon) as (-> & Hn0 & Ha0 & Hc0). cbn [negb].
  destruct (psa_call _ _ _ v0) as [st1 v1] eqn:Hcall. intros [= <- Hclose].
  destruct (law_call _ _ _ _ _ _ Hcall) as ([ua na] & [ub nb] & Hna & Haa & Hh & Hnb & Hab & Hcb).
  destruct (law_close h v1) as (Hn2 & Ha2 & Hc2). rewrite Hclose in Hn2, Ha2, Hc2.
  cbn [fst snd] in *. destruct law_types as [Ht1 Ht2].
  unfold tfm_ps_test_handle_msg in Hh. cbn [msg_type] in Hh.
  rewrite (proj2 (Z.eqb_neq _ _) Ht1), (proj2 (Z.eqb_neq _ _) Ht2), Z.eqb_refl in Hh.
  cbn [orb] in Hh. assert (na = mkNv ENABLE_INCREMENT [a; b; d]) as -> by congruence.
  apply law_prepare in Hh as [_ Hr]; [|done..]. split; [congruence|].
  assert (area ua = area u) as Hau by congruence. rewrite Hau in Hr.
  destruct (version_valid _ _ _ _).
  - destruct Hr as (-> & x & Hx & -> & Har). split; [done|]. exists x. split_and!; [lia | lia | congruence..].
  - destruct Hr as (-> & -> & Har). split_and!; congruence.
Qed.

Lemma wp_prepare_ok c m ver ok a b d (Q : Z -> tstate W -> Prop) s :
  at_area c (mkArea m ver ok) (mkNv ENABLE_INCREMENT [a; b; d]) s ->
  0 <= d -> d <= b -> b <= a -> a < UINT32_MAX -> version_valid ver a b d = true ->
  (forall x s', a <= x <= a + 1 ->
     at_area c (mkArea m x true) (mkNv ENABLE_INCREMENT (aligned x)) s' -> Q PSA_SUCCESS s') ->
  wp (svc_call (tfm_ps_test_system_prepare PSA_IPC_CALL)) Q s.
Proof.
  intros [Hc Ha Hn] Hd Hb Hba Hm Hv HQ. apply wp_svc_call. intros st [u' n'] H.
  destruct (w_svc (t_world s)) as [u n]. cbn [fst snd] in *. subst n.
  apply prepare_spec in H as [Hc' H]; [|done..]. rewrite Ha in H. cbn [area_version area_assets] in H.
  rewrite Hv in H. destruct H as (-> & x & Hx & -> & Har). apply (HQ x); [done|]. split; cbn [t_world w_svc fst snd]; congruence.
Qed.

Lemma wp_prepare_bad c m ver ok a b d (Q : Z -> tstate W -> Prop) s :
  at_area c (mkArea m ver ok) (mkNv ENABLE_INCREMENT [a; b; d]) s ->
  0 <= d -> d <= b -> b <= a -> a < UINT32_MAX -> version_valid ver a b d = false ->
  (forall s', at_area c (mkArea m ver false) (mkNv ENABLE_INCREMENT [a; b; d]) s' ->
     Q PSA_ERROR_GENERIC_ERROR s') ->
  wp (svc_call (tfm_ps_test_system_prepare PSA_IPC_CALL)) Q s.
Proof.
  intros [Hc Ha Hn] Hd Hb Hba Hm Hv HQ. apply wp_svc_call. intros st [u' n'] H.
  destruct (w_svc (t_world s)) as [u n]. cbn [fst snd] in *. subst n.
  apply prepare_spec in H as [Hc' H]; [|done..]. rewrite Ha in H. cbn [area_version area_assets] in H.
  rewrite Hv in H. destruct H as (-> & -> & Har). apply HQ. split; cbn [t_world w_svc fst snd]; congruence.
Qed.

(** ** The tests *)

(** From an aligned state the test passes and gets back to one, on the same
    assets, with a version at most 8 higher. *)
Definition rb_passes c m (p : P W unit) : Prop :=
  forall x s, 1 <= x -> x + 8 <= UINT32_MAX ->
  at_area c (mkArea m x true) (mkNv ENABLE_INCREMENT (aligned x)) s ->
  wp p (fun _ s' => val (t_ret s') = TEST_PASSED /\ exists x', x <= x' <= x + 8 /\
    at_area c (mkArea m x' true) (mkNv ENABLE_INCREMENT (aligned x')) s') s.

Lemma wp_rb_passed c m x y (s : tstate W) :
  at_area c (mkArea m y true) (mkNv ENABLE_INCREMENT (aligned y)) s -> x <= y <= x + 8 ->
  wp (ret_val TEST_PASSED) (fun _ s' => val (t_ret s') = TEST_PASSED /\ exists x', x <= x' <= x + 8 /\
    at_area c (mkArea m x' true) (mkNv ENABLE_INCREMENT (aligned x')) s') s.
Proof.
  intros Hs Hy. apply wp_ret_val. split; [done|]. exists y. split; [done|].
  by apply (at_area_world _ _ _ s).
Qed.

Lemma delete_inserted (m : assets_map) c uid a :
  m !! (c, uid) = None -> delete (c, uid) (<[(c, uid) := a]> m) = m.
Proof. intros H. by rewrite delete_insert_eq, delete_id. Qed.

Ltac version_tac :=
  unfold version_valid;
  repeat match goal with |- context [?a =? ?b] => destruct (Z.eqb_spec a b) end;
  first [reflexivity | lia].

Ltac counter H :=
  let s := fresh "s" in let Hs := fresh "Hs" in
  first
    [ eapply (H _ _ _ 0%nat); [eassumption | apply position_1 | lia | reflexivity | lia |]
    | eapply (H _ _ _ 1%nat); [eassumption | apply position_2 | lia | reflexivity | lia |]
    | eapply (H _ _ _ 2%nat); [eassumption | apply position_3 | lia | reflexivity | lia |] ];
  cbn [insert list_insert aligned]; intros s Hs.

Ltac read :=
  let s := fresh "s" in let Hs := fresh "Hs" in
  first
    [ eapply (wp_read _ _ _ _ 0%nat); [eassumption | apply position_1 | lia | reflexivity |]
    | eapply (wp_read _ _ _ _ 1%nat); [eassumption | apply position_2 | lia | reflexivity |]
    | eapply (wp_read _ _ _ _ 2%nat); [eassumption | apply position_3 | lia | reflexivity |] ];
  intros s Hs.

Ltac rb_check := first [apply neqb_refl | rewrite wrapu_small by (unfold UINT32_MAX in *; lia); apply neqb_refl | vm_compute; reflexivity].

(** One statement of a rollback test. *)
Ltac rb_stmt :=
  let s := fresh "s" in let Hs := fresh "Hs" in let y := fresh "y" in let Hy := fresh "Hy" in
  cbv beta iota zeta;
  lazymatch goal with
  | |- wp (_ ≫= _) _ _ => apply wp_bind
  | |- wp (fail_if _ _ _ _) _ _ => apply wp_fail_if; [rb_check|]
  | |- wp (c_memcmp _ _ _ _ _) _ _ => apply wp_memcmp; [size_tac..|]
  | |- wp (nv_call (test_ps_increment_nv_counter _)) _ _ => counter wp_increment
  | |- wp (nv_call (test_ps_decrement_nv_counter _)) _ _ => counter wp_decrement
  | |- wp (read_nv_counter _ _) _ _ => read
  | |- wp (svc_call (tfm_ps_test_system_prepare _)) _ _ =>
      first
        [ eapply wp_prepare_ok; [eassumption | lia | lia | lia | lia | version_tac | intros y s Hy Hs]
        | eapply wp_prepare_bad; [eassumption | lia | lia | lia | lia | version_tac | intros s Hs] ]
  | |- wp (storage_get _ _ _ _ _ _) _ _ =>
      eapply wp_area_get; [eassumption | done | apply lookup_insert_eq | size_tac.. | intros s Hs]
  | |- wp (storage_remove _) _ _ =>
      eapply wp_area_remove; [eassumption | lia | done | apply lookup_insert_eq
        | apply write_once_none | intros s Hs];
      rewrite delete_inserted in Hs by done
  | |- wp (ret_val TEST_PASSED) _ _ => eapply wp_rb_passed; [eassumption | lia]
  end.

(** The first set, from an aligned state. *)
Lemma wp_rb_set c m x (Q : Z -> tstate W -> Prop) s :
  fits NUM_ASSETS m (c, 2) -> is_write_once m (c, 2) = false ->
  at_area c (mkArea m x true) (mkNv ENABLE_INCREMENT (aligned x)) s -> 0 <= x < UINT32_MAX ->
  (forall s', at_area c (mkArea (<[(c, 2) := (take (Z.to_nat WRITE_DATA_SIZE) (cstr WRITE_DATA),
        PSA_STORAGE_FLAG_NONE)]> m) (x + 1) true)
     (mkNv ENABLE_INCREMENT (aligned (x + 1))) s' -> Q PSA_SUCCESS s') ->
  wp (storage_set TEST_UID WRITE_DATA_SIZE (Some (cstr WRITE_DATA)) PSA_STORAGE_FLAG_NONE) Q s.
Proof.
  intros Hf Hw Hs Hx HQ. eapply wp_area_set; [done | done | by vm_compute | |].
  - apply set_errors_nil; [done | done | done | done | | done]. etrans; [|exact Hmax]. by vm_compute.
  - intros s' Hs'. by apply HQ.
Qed.

Lemma fits_insert m c uid a : fits NUM_ASSETS m (c, uid) -> fits NUM_ASSETS (<[(c, uid) := a]> m) (c, uid).
Proof.
  unfold fits. intros H. rewrite dom_insert_L. etrans; [|exact H]. apply subseteq_size. set_solver.
Qed.

Section each.
  Variables (c : Z) (m : assets_map).
  Hypothesis Hfits : fits NUM_ASSETS m (c, 2).
  Hypothesis Hmiss : m !! (c, 2) = None.

Lemma Hw : is_write_once m (c, 2) = false.
Proof. by apply is_write_once_missing. Qed.

Ltac rb_run :=
  intros x s Hx Hx' Hs; cbv zeta; apply wp_bind;
  eapply wp_rb_set; [exact Hfits | apply Hw | exact Hs | lia | clear s Hs; intros s Hs];
  unfold TEST_UID; repeat rb_stmt.

Lemma test_3002_passes : rb_passes c m (tfm_ps_test_3002 __FILE__ PSA_IPC_CALL).
Proof. unfold tfm_ps_test_3002. rb_run. Qed.

Lemma test_3003_passes : rb_passes c m (tfm_ps_test_3003 __FILE__ PSA_IPC_CALL).
Proof. unfold tfm_ps_test_3003. rb_run. Qed.

Lemma test_3004_passes : rb_passes c m (tfm_ps_test_3004 __FILE__ PSA_IPC_CALL).
Proof. unfold tfm_ps_test_3004. rb_run. Qed.

Lemma test_3005_passes : rb_passes c m (tfm_ps_test_3005 __FILE__ PSA_IPC_CALL).
Proof. unfold tfm_ps_test_3005. rb_run. Qed.

Lemma test_3006_passes : rb_passes c m (tfm_ps_test_3006 __FILE__ PSA_IPC_CALL).
Proof. unfold tfm_ps_test_3006. rb_run. Qed.

Lemma test_3007_passes : rb_passes c m (tfm_ps_test_3007 __FILE__ PSA_IPC_CALL).
Proof. unfold tfm_ps_test_3007. rb_run. Qed.

Lemma test_3008_passes : rb_passes c m (tfm_ps_test_3008 __FILE__ PSA_IPC_CALL).
Proof. unfold tfm_ps_test_3008. rb_run. Qed.

Lemma test_3001_passes : rb_passes c m (tfm_ps_test_3001 __FILE__ PSA_IPC_CALL uninit).
Proof.
  unfold tfm_ps_test_3001. rb_run. eapply wp_rb_set.
  - by apply fits_insert.
  - eapply is_write_once_eq; [apply lookup_insert_eq | apply write_once_none].
  - eassumption.
  - lia.
  - intros s3 Hs3. rewrite insert_insert_eq in Hs3. repeat rb_stmt.
Qed.

Lemma test_3009_passes : rb_passes c m (tfm_ps_test_3009 __FILE__).
Proof.
  unfold tfm_ps_test_3009. intros x s Hx Hx' Hs. cbv zeta. apply wp_bind.
  eapply wp_nv_call; [exact Hs | done |]. clear s Hs. intros s Hs. apply wp_bind.
  eapply wp_area_set; [exact Hs | lia | by vm_compute | |].
  { apply set_errors_nil; [done | done | done | apply Hw | | done]. etrans; [|exact Hmax]. by vm_compute. }
  clear s Hs. intros s Hs. rb_stmt. rb_stmt. apply wp_bind.
  eapply wp_nv_call; [exact Hs | done |]. clear s Hs. intros s Hs. rb_stmt.
Qed.
End each.

(** ** The suite *)

(** The worlds between two tests: aligned counters, at most [hi]. *)
Definition rb_world c m (hi : Z) (w : W) : Prop :=
  exists x, 1 <= x <= hi /\ client (w_svc w).1 = c /\ area (w_svc w).1 = mkArea m x true /\
    (w_svc w).2 = mkNv ENABLE_INCREMENT (aligned x).

Lemma rb_passes_test c m p hi :
  rb_passes c m p -> hi + 8 <= UINT32_MAX ->
  forall ret w, rb_world c m hi w -> exists ret' w' l, as_test p ret w = Some (ret', w', l) /\
    val ret' = TEST_PASSED /\ rb_world c m (hi + 8) w'.
Proof.
  intros Hp Hhi ret w (x & Hx & Hc & Ha & Hn). apply (wp_as_test p (rb_world c m (hi + 8))).
  eapply wp_mono; [apply (Hp x); [lia | lia | by split]|].
  intros _ s [Hv (x' & Hx' & [])]. split; [done|]. exists x'. by split_and!; [lia | lia |..].
Qed.

Ltac pass lem := next_test ltac:(apply rb_passes_test; [by apply lem | lia]).

Lemma rollback_tests_pass c m hi :
  fits NUM_ASSETS m (c, 2) -> m !! (c, 2) = None -> hi + 72 <= UINT32_MAX ->
  all_pass (rollback_tests __FILE__ PSA_IPC_CALL uninit) (rb_world c m hi) (rb_world c m (hi + 72)).
Proof.
  intros Hf Hm Hhi. unfold rollback_tests.
  pass test_3001_passes. pass test_3002_passes. pass test_3003_passes. pass test_3004_passes.
  pass test_3005_passes. pass test_3006_passes. pass test_3007_passes. pass test_3008_passes.
  pass test_3009_passes. replace (hi + 8 + 8 + 8 + 8 + 8 + 8 + 8 + 8 + 8) with (hi + 72) by lia.
  constructor.
Qed.

(** C34. The rollback protection suite accepts every PS service that behaves as
    its own table says: if a set or remove moves the area and the three
    counters one version on, and the initialisation accepts exactly the areas
    whose version is that of counter 1 or of counters 2 and 3, then all nine
    tests pass, from any counter value that leaves room below UINT32_MAX, and
    the assets are as before. *)
Theorem ps_rollback_suite_passes c m hi fs w l :
  rb_world c m hi w -> hi + 72 <= UINT32_MAX -> fits NUM_ASSETS m (c, 2) -> m !! (c, 2) = None ->
  exists ts' w' l',
    run_testsuite (Some (mkSuite
      (Some (register_testsuite_s_rollback_protection __FILE__ PSA_IPC_CALL uninit)) fs))
      (w, l) = Some ((TEST_SUITE_ERR_NO_ERROR, Some ts'), (w', l')) /\
    suite_val (fields ts') = TEST_PASSED /\ rb_world c m (hi + 72) w'.
Proof.
  intros Hw Hhi Hf Hm. eapply all_pass_run; [by apply rollback_tests_pass | done | done | done].
Qed.
End rollback.

(** ** Witness: a PS service on top of the counters *)

Section reference.
#[local] Existing Instance psa_consts.
#[local] Existing Instance psa_consts_laws.
#[local] Existing Instance ref_counter_ids.
#[local] Existing Instance ref_psa_service.

Definition ref_rb_flags : Z -> bool := no_extra_flags.

(** The client and the area. *)
Definition ref_rb_state : Type := (Z * ps_area) * nv_state.

(** Increments the counters from 1 to 3; [None] when one is refused. *)
Definition ref_bump (n : nv_state) : option nv_state :=
  foldl (fun r id =>
    n ← r; '(st, n) ← ps_increment_nv_counter id n;
    if st =? PSA_SUCCESS then Some n else None)
    (Some n) [TFM_PS_NV_COUNTER_1; TFM_PS_NV_COUNTER_2; TFM_PS_NV_COUNTER_3].

Definition ref_write (c : Z) (m : assets_map) (x : Z) (v : ref_rb_state) : Z * ref_rb_state :=
  match ref_bump v.2 with
  | Some n => (PSA_SUCCESS, ((c, mkArea m (x + 1) true), n))
  | None => (PSA_ERROR_GENERIC_ERROR, v)
  end.

Definition ref_rb_service : StorageService ref_rb_state := {|
  svc_set uid len data fl v :=
    let '((c, ar), n) := v in
    match set_errors 2048 10 ref_rb_flags (area_assets ar) c uid len data fl with
    | [] => if area_valid ar
            then ref_write c (<[(c, uid) := (default [] data, fl)]> (area_assets ar)) (area_version ar) v
            else (PSA_ERROR_GENERIC_ERROR, v)
    | e :: _ => (e, v)
    end;
  svc_get uid offset sz data len v :=
    let '((c, ar), n) := v in
    match area_assets ar !! (c, uid) with
    | Some a => ((PSA_SUCCESS, slice offset sz a.1, Some (sizeof (slice offset sz a.1))), v)
    | None => ((PSA_ERROR_DOES_NOT_EXIST, [], None), v)
    end;
  svc_get_info uid info v := ((PSA_ERROR_NOT_SUPPORTED, None), v);
  svc_remove uid v :=
    let '((c, ar), n) := v in
    match area_assets ar !! (c, uid) with
    | Some _ => ref_write c (delete (c, uid) (area_assets ar)) (area_version ar) v
    | None => (PSA_ERROR_DOES_NOT_EXIST, v)
    end;
|}.

Definition ref_prepare (v : ref_rb_state) : Z * ref_rb_state :=
  let '((c, ar), n) := v in
  match test_nv_counters n with
  | [a; b; d] =>
      if version_valid (area_version ar) a b d
      then (PSA_SUCCESS, ((c, mkArea (area_assets ar) a true), mkNv (nv_increment_status n) [a; a; a]))
      else (PSA_ERROR_GENERIC_ERROR, ((c, mkArea (area_assets ar) (area_version ar) false), n))
  | _ => (PSA_ERROR_GENERIC_ERROR, v)
  end.

Definition ref_rb_client : PsaClient ref_rb_state := {|
  PSA_HANDLE_IS_VALID h := 0 <? h;
  psa_connect v := (1, v);
  psa_call _ t iv v := tfm_ps_test_handle_msg ref_prepare 0 (mkMsg t iv) v;
  psa_close _ v := v;
|}.

Lemma ref_bump_aligned x en : 0 <= x < UINT32_MAX ->
  ref_bump (mkNv en (aligned x)) =
  if en =? DISABLE_INCREMENT then None else Some (mkNv en (aligned (x + 1))).
Proof.
  intros Hx. unfold ref_bump. cbn [foldl mbind option_bind].
  destruct (Z.eqb_spec en DISABLE_INCREMENT) as [->|Hen]; [done|].
  rewrite (increment_exec _ _ 0 _ x) by first [done | lia]. cbn -[ps_increment_nv_counter Z.add].
  rewrite (increment_exec _ _ 1 _ x) by first [done | lia]. cbn -[ps_increment_nv_counter Z.add].
  by rewrite (increment_exec _ _ 2 _ x) by first [done | lia].
Qed.

Lemma ref_rb_laws : RollbackLaws 2048 10 ref_rb_flags (Z * ps_area) ref_rb_service ref_rb_client
  ref_psa_service 0 ref_prepare.
Proof.
  refine {| area := snd; client := fst |}.
  - intros [c ar] x en uid len d fl st u' n' Hv Hx Hr He H. cbn [svc_set ref_rb_service] in H.
    cbn [fst snd] in *. rewrite He, Hv in H. unfold ref_write in H. cbn [snd] in H.
    rewrite ref_bump_aligned in H by done. destruct (en =? DISABLE_INCREMENT).
    + by injection H as <- <- <-.
    + injection H as <- <- <-. by rewrite Hx.
  - intros [c ar] x uid a st u' n' Hv Hx Hr Hu Ha Hw H. cbn [svc_remove ref_rb_service] in H.
    cbn [fst snd] in *. rewrite Ha in H. unfold ref_write in H. cbn [snd] in H.
    rewrite ref_bump_aligned in H by done. injection H as <- <- <-. by rewrite Hx.
  - intros [c ar] n uid offset sz a st out k u' n' Hv Hu Ha Ho Hz H.
    cbn [svc_get ref_rb_service] in H. cbn [fst snd] in *. rewrite Ha in H.
    by injection H as <- <- <- <- <-.
  - intros [c ar] a b d st u' n' Hd Hb Ha Hm H. cbn [ref_prepare] in H.
    unfold ref_prepare in H. cbn [test_nv_counters nv_increment_status fst snd] in *.
    destruct (version_valid _ _ _ _); injection H as <- <- <-; split_and!; try done.
    exists a. split_and!; [lia | lia | done | done].
  - by intros v h v' [= <- <-].
  - intros h t iv [[c ar] n] st v' H. exists ((c, ar), n), v'. split_and!; try done.
    cbn in H. unfold tfm_ps_test_handle_msg, ref_prepare in H. repeat case_match; by simplify_eq.
  - done.
  - done.
Defined.

Lemma ref_counter_ids_laws : @NvCounterIdsLaws ref_counter_ids.
Proof. split. by apply (bool_decide_unpack _). Defined.

Definition ref_rb_world : storage_world ref_rb_state :=
  mkWorld ((5, mkArea ∅ 42 true), nv_reset) [] 0.

Lemma ps_rollback_suite_passes_witness :
  exists ts' w' l',
    run_testsuite (Some (mkSuite
      (Some (@register_testsuite_s_rollback_protection _ _ _ ref_rb_service ref_rb_client
        "ps_rollback_protection_testsuite.c" 0 7)) (mkFields [] 0 None TEST_PASSED)))
      (ref_rb_world, []) = Some ((TEST_SUITE_ERR_NO_ERROR, Some ts'), (w', l')) /\
    suite_val (fields ts') = TEST_PASSED.
Proof.
  destruct (@ps_rollback_suite_passes _ _ _ ref_counter_ids_laws 2048 10 ref_rb_flags _
    ref_rb_service ref_rb_client _ 0 ref_prepare ref_rb_laws
    "ps_rollback_protection_testsuite.c" 7 ltac:(done) eq_refl 5 ∅ 42
    (mkFields [] 0 None TEST_PASSED) ref_rb_world []) as (ts' & w' & l' & H & Hv & _).
  - exists 42. by split_and!.
  - by vm_compute.
  - by apply (bool_decide_unpack _).
  - done.
  - eauto.
Defined.
End reference.
