(* ===== verification/NsidTestProofs.v ===== *)
(** * The NSID test suite against the documented non-secure client extension

    What the extension promises for its one context, as the tests rely on it:
    threads of one group share the context, one of them at a time is active,
    and a token is the thread, the group and the index of the context.  The
    suite passes over it, on a thread that the TrustZone shim has loaded. *)

From S2P Require Import Prelude LogRaw TestFramework TestProg NsidManager TzShim NsidTests.
Local Open Scope Z_scope.

(** ** Tokens *)

Lemma make_token_sum t g i : 0 <= t < 256 -> 0 <= g <= 1 -> 0 <= i <= 1 ->
  MAKE_NS_CLIENT_TOKEN t g i = t + 256 * g + 65536 * i /\
  Z.lor (MAKE_NS_CLIENT_TOKEN t g i) INVALID_RESERVED_TOKEN_BIT = t + 256 * g + 65536 * i + 2 ^ 28.
Proof.
  intros Ht Hg Hi.
  assert (Forall (fun t => Forall (fun '(g, i) =>
    MAKE_NS_CLIENT_TOKEN t g i = t + 256 * g + 65536 * i /\
    Z.lor (MAKE_NS_CLIENT_TOKEN t g i) INVALID_RESERVED_TOKEN_BIT = t + 256 * g + 65536 * i + 2 ^ 28)
      [(0, 0); (0, 1); (1, 0); (1, 1)]) (seqZ 0 256)) as H by (apply (bool_decide_unpack _); by vm_compute).
  assert (t ∈ seqZ 0 256) as Hin by (apply elem_of_seqZ; lia).
  rewrite Forall_forall in H. specialize (H t Hin).
  rewrite Forall_forall in H. apply (H (g, i)).
  assert (g = 0 \/ g = 1) as [-> | ->] by lia; assert (i = 0 \/ i = 1) as [-> | ->] by lia; set_solver.
Qed.

(** ** The contract *)

(** The context: its group, the threads that hold it, and the active thread
    with its client ID. *)
Record nsce_ctx := mkCtx { c_group : Z; c_threads : gset Z; c_active : option (Z * Z) }.

Definition token_of (c : nsce_ctx) (t : Z) : Z := MAKE_NS_CLIENT_TOKEN t (c_group c) VALID_INDEX.

(** [tok] is a token of the context. *)
Definition names (c : nsce_ctx) (tok : Z) : Prop := exists t, 0 <= t < 256 /\ tok = token_of c t.

Definition is_active (c : nsce_ctx) (tok : Z) : Prop := exists t n, c_active c = Some (t, n) /\ tok = token_of c t.

Definition clear_active_of (t : Z) (a : option (Z * Z)) : option (Z * Z) :=
  match a with Some (t', n) => if t' =? t then None else a | None => None end.

Class NsceLaws {NC : NsClientExtConsts} {NEC : NsceErrs} (E : Type) {NE : NsClientExt E} {TM : ThreadMode E} := {
  ctx : E -> nsce_ctx;
  law_invalid_token : 2 ^ 24 <= TFM_NS_CLIENT_INVALID_TOKEN;
  law_init n e : c_threads (ctx e) <> ∅ -> exists e', ctx e' = ctx e /\
    tfm_nsce_init n e = (if (0 <? n) && (n <=? TFM_NS_CONTEXT_MAX) then n else TFM_NS_CONTEXT_MAX, e');
  law_acquire t e : c_threads (ctx e) <> ∅ -> t ∉ c_threads (ctx e) -> 0 <= t < 256 ->
    exists e', ctx e' = mkCtx (c_group (ctx e)) ({[t]} ∪ c_threads (ctx e)) (c_active (ctx e)) /\
      tfm_nsce_acquire_ctx (c_group (ctx e)) t e = (token_of (ctx e) t, e');
  law_acquire_other g t e : c_threads (ctx e) <> ∅ -> g <> c_group (ctx e) ->
    exists e', ctx e' = ctx e /\ tfm_nsce_acquire_ctx g t e = (TFM_NS_CLIENT_INVALID_TOKEN, e');
  law_load t n e : t ∈ c_threads (ctx e) -> n < 0 ->
    exists e', ctx e' = mkCtx (c_group (ctx e)) (c_threads (ctx e)) (Some (t, n)) /\
      tfm_nsce_load_ctx (token_of (ctx e) t) n e = (TFM_NS_CLIENT_ERR_SUCCESS, e');
  law_load_nsid t n e : t ∈ c_threads (ctx e) -> 0 <= n ->
    exists e', ctx e' = ctx e /\ tfm_nsce_load_ctx (token_of (ctx e) t) n e = (TFM_NS_CLIENT_ERR_INVALID_NSID, e');
  law_load_token tok n e : ~ names (ctx e) tok -> n < 0 ->
    exists e', ctx e' = ctx e /\ tfm_nsce_load_ctx tok n e = (TFM_NS_CLIENT_ERR_INVALID_TOKEN, e');
  law_save tok e : is_active (ctx e) tok ->
    exists e', ctx e' = mkCtx (c_group (ctx e)) (c_threads (ctx e)) None /\
      tfm_nsce_save_ctx tok e = (TFM_NS_CLIENT_ERR_SUCCESS, e');
  law_save_token tok e : ~ is_active (ctx e) tok ->
    exists e', ctx e' = ctx e /\ tfm_nsce_save_ctx tok e = (TFM_NS_CLIENT_ERR_INVALID_TOKEN, e');
  law_release t e : t ∈ c_threads (ctx e) ->
    exists e', ctx e' = mkCtx (c_group (ctx e)) (c_threads (ctx e) ∖ {[t]}) (clear_active_of t (c_active (ctx e))) /\
      tfm_nsce_release_ctx (token_of (ctx e) t) e = (TFM_NS_CLIENT_ERR_SUCCESS, e');
  law_release_token tok e : ~ names (ctx e) tok ->
    exists e', ctx e' = ctx e /\ tfm_nsce_release_ctx tok e = (TFM_NS_CLIENT_ERR_INVALID_TOKEN, e');
  (** In thread mode every call is refused. *)
  law_thread_init n e : exists e', ctx e' = ctx e /\ @tfm_nsce_init E thread_mode n e = (0, e');
  law_thread_acquire g t e : exists e', ctx e' = ctx e /\
    @tfm_nsce_acquire_ctx E thread_mode g t e = (TFM_NS_CLIENT_ERR_INVALID_ACCESS, e');
  law_thread_load tok n e : exists e', ctx e' = ctx e /\
    @tfm_nsce_load_ctx E thread_mode tok n e = (TFM_NS_CLIENT_ERR_INVALID_ACCESS, e');
  law_thread_save tok e : exists e', ctx e' = ctx e /\
    @tfm_nsce_save_ctx E thread_mode tok e = (TFM_NS_CLIENT_ERR_INVALID_ACCESS, e');
  law_thread_release tok e : exists e', ctx e' = ctx e /\
    @tfm_nsce_release_ctx E thread_mode tok e = (TFM_NS_CLIENT_ERR_INVALID_ACCESS, e');
}.

Section proofs.
  Context {NC : NsClientExtConsts} {NEC : NsceErrs} {E : Type} {NE : NsClientExt E} {TM : ThreadMode E}.
  Context {NL : NsceLaws E} (__FILE__ : string).
  (** The shim and the manager, which the tests only read. *)
  Context (tb : list nsid_token_pair) (id tk : Z).
  Abbreviation W := (nsid_world E).

(** The context of the extension, and the static variables. *)
Record at_world (c : nsce_ctx) (T N : Z) (w : W) : Prop := {
  at_ctx : ctx (ext (tz w)) = c;
  at_tz : table (tz w) = tb /\ nsid_mgr_thread_id (tz w) = id /\ current_active_token (tz w) = tk;
  at_thread : test_thread_id w = T;
  at_nsid : test_nsid w = N;
}.
Definition at_ c T N (s : tstate W) : Prop := at_world c T N (t_world s).

Implicit Types (s : tstate W) (c : nsce_ctx).

(** A call of the extension, from what it does to the context. *)
Lemma wp_ext (f : E -> Z * E) r c c' T N (Q : Z -> tstate W -> Prop) s :
  at_ c T N s -> (exists e', ctx e' = c' /\ f (ext (tz (t_world s))) = (r, e')) ->
  (forall s', at_ c' T N s' -> t_ret s' = t_ret s -> Q r s') -> wp (call (fun w => Some (on_ext f w))) Q s.
Proof.
  intros [Hc (Ht & Hi & Ha) HT HN] (e' & He & Hf) HQ. unfold wp, call, on_ext. rewrite Hf.
  apply HQ; [|done]. by split.
Qed.

(** From a law, instantiated but for the state of the extension. *)
Ltac ext_rule H law :=
  eapply wp_ext; [exact H | | eassumption];
  let HL := fresh in pose proof (fun s => law (ext (tz (t_world s)))) as HL;
  match goal with s : tstate _ |- _ => specialize (HL s) end;
  rewrite (at_ctx _ _ _ _ H) in HL; apply HL; done.

(** The one context, of the group of the tests. *)
Abbreviation c1 H a := (mkCtx VALID_GROUP_ID H a).
Abbreviation tok t := (MAKE_NS_CLIENT_TOKEN t VALID_GROUP_ID VALID_INDEX).

Lemma wp_init n H a T N Q s : at_ (c1 H a) T N s -> H <> ∅ ->
  (forall s', at_ (c1 H a) T N s' -> t_ret s' = t_ret s ->
     Q (if (0 <? n) && (n <=? TFM_NS_CONTEXT_MAX) then n else TFM_NS_CONTEXT_MAX) s') ->
  wp (nsid_ext_init_svc n) Q s.
Proof. intros Hs Hne HQ. ext_rule Hs (law_init n). Qed.

Lemma wp_acquire t H a T N Q s : at_ (c1 H a) T N s -> H <> ∅ -> t ∉ H -> 0 <= t < 256 ->
  (forall s', at_ (c1 ({[t]} ∪ H) a) T N s' -> t_ret s' = t_ret s -> Q (tok t) s') ->
  wp (nsid_acquire_ctx_svc VALID_GROUP_ID t) Q s.
Proof. intros Hs Hne Ht Hr HQ. ext_rule Hs (law_acquire t). Qed.

Lemma wp_acquire_other g t H a T N Q s : at_ (c1 H a) T N s -> H <> ∅ -> g <> VALID_GROUP_ID ->
  (forall s', at_ (c1 H a) T N s' -> t_ret s' = t_ret s -> Q TFM_NS_CLIENT_INVALID_TOKEN s') ->
  wp (nsid_acquire_ctx_svc g t) Q s.
Proof. intros Hs Hne Hg HQ. ext_rule Hs (law_acquire_other g t). Qed.

Lemma wp_load t n H a T N Q s : at_ (c1 H a) T N s -> t ∈ H -> n < 0 ->
  (forall s', at_ (c1 H (Some (t, n))) T N s' -> t_ret s' = t_ret s -> Q TFM_NS_CLIENT_ERR_SUCCESS s') ->
  wp (nsid_load_ctx_svc (tok t) n) Q s.
Proof. intros Hs Ht Hn HQ. ext_rule Hs (law_load t n). Qed.

Lemma wp_load_nsid t n H a T N Q s : at_ (c1 H a) T N s -> t ∈ H -> 0 <= n ->
  (forall s', at_ (c1 H a) T N s' -> t_ret s' = t_ret s -> Q TFM_NS_CLIENT_ERR_INVALID_NSID s') ->
  wp (nsid_load_ctx_svc (tok t) n) Q s.
Proof. intros Hs Ht Hn HQ. ext_rule Hs (law_load_nsid t n). Qed.

Lemma wp_load_token k n H a T N Q s : at_ (c1 H a) T N s -> ~ names (c1 H a) k -> n < 0 ->
  (forall s', at_ (c1 H a) T N s' -> t_ret s' = t_ret s -> Q TFM_NS_CLIENT_ERR_INVALID_TOKEN s') ->
  wp (nsid_load_ctx_svc k n) Q s.
Proof. intros Hs Hk Hn HQ. ext_rule Hs (law_load_token k n). Qed.

Lemma wp_save t n H T N Q s : at_ (c1 H (Some (t, n))) T N s ->
  (forall s', at_ (c1 H None) T N s' -> t_ret s' = t_ret s -> Q TFM_NS_CLIENT_ERR_SUCCESS s') ->
  wp (nsid_save_ctx_svc (tok t)) Q s.
Proof.
  intros Hs HQ. assert (is_active (c1 H (Some (t, n))) (tok t)) by (by exists t, n). ext_rule Hs (law_save (tok t)).
Qed.

Lemma wp_save_token k H a T N Q s : at_ (c1 H a) T N s -> ~ is_active (c1 H a) k ->
  (forall s', at_ (c1 H a) T N s' -> t_ret s' = t_ret s -> Q TFM_NS_CLIENT_ERR_INVALID_TOKEN s') ->
  wp (nsid_save_ctx_svc k) Q s.
Proof. intros Hs Hk HQ. ext_rule Hs (law_save_token k). Qed.

Lemma wp_release t H a T N Q s : at_ (c1 H a) T N s -> t ∈ H ->
  (forall s', at_ (c1 (H ∖ {[t]}) (clear_active_of t a)) T N s' -> t_ret s' = t_ret s ->
     Q TFM_NS_CLIENT_ERR_SUCCESS s') ->
  wp (nsid_release_ctx_svc (tok t)) Q s.
Proof. intros Hs Ht HQ. ext_rule Hs (law_release t). Qed.

Lemma wp_release_token k H a T N Q s : at_ (c1 H a) T N s -> ~ names (c1 H a) k ->
  (forall s', at_ (c1 H a) T N s' -> t_ret s' = t_ret s -> Q TFM_NS_CLIENT_ERR_INVALID_TOKEN s') ->
  wp (nsid_release_ctx_svc k) Q s.
Proof. intros Hs Hk HQ. ext_rule Hs (law_release_token k). Qed.

Lemma wp_in_thread (f : E -> Z * E) r c T N Q s : at_ c T N s ->
  (exists e', ctx e' = ctx (ext (tz (t_world s))) /\ f (ext (tz (t_world s))) = (r, e')) ->
  (forall s', at_ c T N s' -> t_ret s' = t_ret s -> Q r s') -> wp (in_thread f) Q s.
Proof. intros Hs Hf HQ. eapply wp_ext; [exact Hs | | exact HQ]. by rewrite <- (at_ctx _ _ _ _ Hs). Qed.

Lemma wp_get_statics c T N (Q : Z * Z -> tstate W -> Prop) s : at_ c T N s ->
  (forall s', at_ c T N s' -> t_ret s' = t_ret s -> Q (T, N) s') -> wp get_statics Q s.
Proof. intros Hs HQ. unfold wp, get_statics, call. rewrite (at_thread _ _ _ _ Hs), (at_nsid _ _ _ _ Hs). by apply HQ. Qed.

Lemma wp_next_thread c T N (Q : unit -> tstate W -> Prop) s : at_ c T N s -> 0 <= T < 255 ->
  (forall s', at_ c (T + 1) N s' -> t_ret s' = t_ret s -> Q tt s') -> wp next_thread_id Q s.
Proof.
  intros [Hc Ht HT HN] Hr HQ. unfold wp, next_thread_id, call. apply HQ; [|done].
  split; [done..| |done]. cbn. rewrite HT. apply wrapu_small. lia.
Qed.

Lemma wp_next_nsid c T N (Q : unit -> tstate W -> Prop) s : at_ c T N s -> INT32_MIN < N ->
  (forall s', at_ c T (N - 1) s' -> t_ret s' = t_ret s -> Q tt s') -> wp next_nsid Q s.
Proof.
  intros [Hc Ht HT HN] Hr HQ. unfold wp, next_nsid, call. rewrite HN.
  destruct (Z.eqb_spec N INT32_MIN); [lia|]. by apply HQ.
Qed.

(** ** Side conditions *)

Lemma not_names H a k : 256 <= k -> ~ names (c1 H a) k.
Proof.
  intros Hk (t & Ht & ->). unfold token_of, VALID_INDEX in Hk. cbn [c_group] in Hk. unfold VALID_GROUP_ID in Hk.
  rewrite (proj1 (make_token_sum t 0 0 Ht ltac:(lia) ltac:(lia))) in Hk. lia.
Qed.

Lemma not_active_none H k : ~ is_active (c1 H None) k.
Proof. by intros (t & n & [=] & _). Qed.

Lemma not_active H t n k : k <> tok t -> ~ is_active (c1 H (Some (t, n))) k.
Proof. intros Hk (t' & n' & [= <- <-] & ->). done. Qed.
End proofs.

(** The arithmetic of tokens. *)
Ltac tok_tac :=
  pose proof law_invalid_token; unfold INVALID_GROUP_ID, INVALID_INDEX, VALID_GROUP_ID, VALID_INDEX in *;
  repeat match goal with
    | |- context [Z.lor (MAKE_NS_CLIENT_TOKEN ?t ?g ?i) INVALID_RESERVED_TOKEN_BIT] =>
        rewrite (proj2 (make_token_sum t g i ltac:(lia) ltac:(lia) ltac:(lia)))
    | |- context [MAKE_NS_CLIENT_TOKEN ?t ?g ?i] =>
        rewrite (proj1 (make_token_sum t g i ltac:(lia) ltac:(lia) ltac:(lia)))
    end; lia.

(** ** The tests *)

Section tests.
  Context {NC : NsClientExtConsts} {NEC : NsceErrs} {E : Type} {NE : NsClientExt E} {TM : ThreadMode E}.
  Context {NL : NsceLaws E} (__FILE__ : string).
  Context (tb : list nsid_token_pair) (id tk : Z).
  (** The calling thread, its client ID, and the threads that hold the context:
      the shim counts them from 1, the suite from 33. *)
  Context (t0 n0 : Z) (H0 : gset Z).
  Hypothesis Ht0 : t0 ∈ H0.
  Hypothesis Hn0 : n0 < 0.
  Hypothesis HH : forall x, x ∈ H0 -> 1 <= x <= 32.
  Hypothesis Htk : tk = MAKE_NS_CLIENT_TOKEN t0 VALID_GROUP_ID VALID_INDEX.
  Hypothesis Hq : nsid_mgr_query_nsid tk tb = n0.
  Abbreviation W := (nsid_world E).
  Abbreviation at_ := (at_ tb id tk).
  Abbreviation c1 H a := (mkCtx VALID_GROUP_ID H a).
  Implicit Types (s : tstate W).

Lemma wp_case_init T N (Q : unit -> tstate W -> Prop) s :
  at_ (c1 H0 (Some (t0, n0))) T N s -> 0 <= T < 255 -> INT32_MIN < N ->
  (forall s', at_ (c1 H0 None) (T + 1) (N - 1) s' -> Q tt s') -> wp (nsid_test_case_init __FILE__) Q s.
Proof.
  intros Hs HT HN HQ. unfold nsid_test_case_init. apply wp_bind. unfold wp at 1, get_token, call.
  rewrite (proj2 (proj2 (at_tz _ _ _ _ _ _ _ Hs))), Htk. destruct s as [r w l]. change (at_ (c1 H0 (Some (t0, n0))) T N (mkT r w l)) in Hs.
  apply wp_bind. eapply wp_save; [exact Hs|]. intros s1 Hs1 _. rewrite Z.eqb_refl. cbn [negb].
  apply wp_bind, wp_ret, wp_bind. eapply wp_next_nsid; [exact Hs1 | lia|]. intros s2 Hs2 _.
  eapply wp_next_thread; [exact Hs2 | lia|]. auto.
Qed.

Lemma wp_case_finish H a T N (Q : unit -> tstate W -> Prop) s :
  at_ (c1 H a) T N s -> H = H0 ->
  (forall s', at_ (c1 H0 (Some (t0, n0))) T N s' -> t_ret s' = t_ret s -> Q tt s') ->
  wp (nsid_test_case_finish __FILE__) Q s.
Proof.
  intros Hs -> HQ. unfold nsid_test_case_finish. apply wp_bind. unfold wp at 1, get_token, call.
  destruct (at_tz _ _ _ _ _ _ _ Hs) as (Htb & _ & Htok). rewrite Htok. destruct s as [r w l].
  apply wp_bind. unfold wp at 1, get_table, call. cbn [t_world t_ret t_log] in *. rewrite Htb, Hq, Htk.
  apply wp_bind. eapply (wp_load _ _ _ t0 n0); [exact Hs | done..|]. intros s1 Hs1 Hr1. rewrite Z.eqb_refl.
  apply wp_ret. by apply HQ.
Qed.

(** [p] passes from thread number [T] on, [k] numbers further. *)
Definition passes (k : Z) (p : P W unit) : Prop := forall T N s,
  32 <= T < 200 -> -1000 < N < 0 -> at_ (c1 H0 (Some (t0, n0))) T N s ->
  wp p (fun _ s' => val (t_ret s') = TEST_PASSED /\ at_ (c1 H0 (Some (t0, n0))) (T + k) (N - 1) s') s.

Lemma threads_nonempty (H : gset Z) : t0 ∈ H -> H <> ∅.
Proof. set_solver. Qed.

Lemma free_thread x : ~ 1 <= x <= 32 -> x ∉ H0.
Proof. intros Hx Hin. by apply Hx, HH. Qed.

Ltac set_tac :=
  pose proof Ht0;
  repeat match goal with
    | |- context [?x ∈ _] => lazymatch goal with _ : x ∉ H0 |- _ => fail | _ => pose proof (free_thread x ltac:(lia)) end
    | |- context [{[?x]}] => lazymatch goal with _ : x ∉ H0 |- _ => fail | _ => pose proof (free_thread x ltac:(lia)) end
    end; set_solver by lia.

Ltac nside :=
  lazymatch goal with
  | |- _ = H0 => unfold_leibniz; set_tac
  | |- _ <> ∅ => apply threads_nonempty; set_tac
  | |- _ ∈ _ => set_tac
  | |- _ ∉ _ => set_tac
  | |- ~ names _ _ => apply not_names; tok_tac
  | |- ~ is_active (mkCtx _ _ None) _ => apply not_active_none
  | |- ~ is_active _ _ => apply not_active; tok_tac
  | |- _ => unfold INVALID_GROUP_ID, VALID_GROUP_ID, VALID_NSID_MAX, VALID_NSID_MIN, INT32_MIN in *; lia
  end.

Ltac nsid_call lem :=
  let s := fresh "s" in let Hs := fresh "Hs" in
  eapply lem; [eassumption | nside .. | intros s Hs _; cbn [clear_active_of] in Hs; rewrite ?Z.eqb_refl in Hs].

Ltac nstep :=
  cbv beta iota; unfold VALID_THREAD_ID_MIN, VALID_THREAD_ID_MAX;
  lazymatch goal with
  | |- wp (_ ≫= _) _ _ => apply wp_bind
  | |- wp get_statics _ _ => nsid_call wp_get_statics
  | |- wp next_thread_id _ _ => nsid_call wp_next_thread
  | |- wp (FAIL_IF _ _ _ _) _ _ => rewrite ?Z.eqb_refl; cbn [negb orb]; apply wp_ret
  | |- wp (ret_val _) _ _ => apply wp_ret_val
  | |- wp (nsid_test_case_finish _) _ _ =>
      eapply wp_case_finish; [eassumption | nside | let Hr := fresh "Hr" in intros ? ? Hr; rewrite ?Hr]
  | |- wp (nsid_ext_init_svc _) _ _ => nsid_call wp_init
  | |- wp (in_thread _) _ _ =>
      let s := fresh "s" in let Hs := fresh "Hs" in
      eapply wp_in_thread; [eassumption | first [apply law_thread_init | apply law_thread_acquire
        | apply law_thread_load | apply law_thread_save | apply law_thread_release] | intros s Hs _]
  | |- wp (nsid_acquire_ctx_svc _ _) _ _ =>
      rewrite ?(wrapu_small 8) by lia; first [nsid_call wp_acquire | nsid_call wp_acquire_other]
  | |- wp (nsid_load_ctx_svc (MAKE_NS_CLIENT_TOKEN _ VALID_GROUP_ID VALID_INDEX) _) _ _ =>
      first [nsid_call wp_load | nsid_call wp_load_nsid]
  | |- wp (nsid_load_ctx_svc _ _) _ _ => nsid_call wp_load_token
  | |- wp (nsid_save_ctx_svc (MAKE_NS_CLIENT_TOKEN _ VALID_GROUP_ID VALID_INDEX)) _ _ =>
      first [nsid_call wp_save | nsid_call wp_save_token]
  | |- wp (nsid_save_ctx_svc _) _ _ => nsid_call wp_save_token
  | |- wp (nsid_release_ctx_svc (MAKE_NS_CLIENT_TOKEN _ VALID_GROUP_ID VALID_INDEX)) _ _ => nsid_call wp_release
  | |- wp (nsid_release_ctx_svc _) _ _ => nsid_call wp_release_token
  end.

Ltac run :=
  intros T N s HT HN Hs; apply wp_bind; eapply wp_case_init; [exact Hs | lia | unfold INT32_MIN; lia |];
  clear s Hs; intros s Hs; repeat nstep; (split; [done | by replace (T + 2) with (T + 1 + 1) by lia || done]).

Lemma case_1_passes : passes 1 (tfm_nsid_test_case_1 __FILE__).
Proof. run. Qed.

Lemma case_2_passes : passes 1 (tfm_nsid_test_case_2 __FILE__).
Proof. run. Qed.

Lemma case_3_passes : passes 1 (tfm_nsid_test_case_3 __FILE__).
Proof. run. Qed.

Lemma case_4_passes : passes 1 (tfm_nsid_test_case_4 __FILE__).
Proof. run. Qed.

Lemma case_5_passes : passes 1 (tfm_nsid_test_case_5 __FILE__).
Proof. run. Qed.

Lemma case_6_passes : passes 1 (tfm_nsid_test_case_6 __FILE__).
Proof. run. Qed.

Lemma case_7_passes : passes 1 (tfm_nsid_test_case_7 __FILE__).
Proof. run. Qed.

Lemma case_8_passes : passes 1 (tfm_nsid_test_case_8 __FILE__).
Proof. run. Qed.

Lemma case_9_passes : passes 1 (tfm_nsid_test_case_9 __FILE__).
Proof. run. Qed.

Lemma case_10_passes : passes 1 (tfm_nsid_test_case_10 __FILE__).
Proof. run. Qed.

Lemma case_11_passes : passes 1 (tfm_nsid_test_case_11 __FILE__).
Proof. run. Qed.

Lemma case_12_passes : passes 2 (tfm_nsid_test_case_12 __FILE__).
Proof. run. Qed.

Lemma case_13_passes : passes 1 (tfm_nsid_test_case_13 __FILE__).
Proof. run. Qed.

Lemma case_14_passes : passes 1 (tfm_nsid_test_case_14 __FILE__).
Proof. run. Qed.

Lemma case_15_passes : passes 1 (tfm_nsid_test_case_15 __FILE__).
Proof. run. Qed.

Lemma case_16_passes : passes 1 (tfm_nsid_test_case_16 __FILE__).
Proof. run. Qed.

Lemma case_17_passes : passes 1 (tfm_nsid_test_case_17 __FILE__).
Proof. run. Qed.

Lemma case_18_passes : passes 1 (tfm_nsid_test_case_18 __FILE__).
Proof. run. Qed.

Lemma case_19_passes : passes 1 (tfm_nsid_test_case_19 __FILE__).
Proof. run. Qed.

Lemma case_20_passes : passes 1 (tfm_nsid_test_case_20 __FILE__).
Proof. run. Qed.
Lemma case_21_passes : passes 1 (tfm_nsid_test_case_21 __FILE__).
Proof. run. Qed.

(** ** The suite *)

(** The world between two tests. *)
Definition between (T N : Z) (w : W) : Prop := at_world tb id tk (c1 H0 (Some (t0, n0))) T N w.

Lemma case_as_test k p T N : passes k p -> 32 <= T < 200 -> -1000 < N < 0 ->
  forall ret w, between T N w -> exists ret' w' l, as_test p ret w = Some (ret', w', l) /\
    val ret' = TEST_PASSED /\ between (T + k) (N - 1) w'.
Proof. intros Hp HT HN ret w Hw. apply (wp_as_test p (between (T + k) (N - 1))). by apply (Hp T N). Qed.

Ltac pass lem := next_test ltac:(eapply (case_as_test _ _ _ _ lem); lia).

Lemma nsid_tests_pass : all_pass (nsid_test_cases __FILE__) (between 32 (-500)) (between 54 (-521)).
Proof.
  unfold nsid_test_cases.
  pass case_1_passes. pass case_2_passes. pass case_3_passes. pass case_4_passes. pass case_5_passes.
  pass case_6_passes. pass case_7_passes. pass case_8_passes. pass case_9_passes. pass case_10_passes.
  pass case_11_passes. pass case_12_passes. pass case_13_passes. pass case_14_passes. pass case_15_passes.
  pass case_16_passes. pass case_17_passes. pass case_18_passes. pass case_19_passes. pass case_20_passes.
  pass case_21_passes. constructor.
Qed.
End tests.

(** ** Properties *)

Section properties.
  Context {NC : NsClientExtConsts} {NEC : NsceErrs} {E : Type} {NE : NsClientExt E} {TM : ThreadMode E}.
  Context {NL : NsceLaws E} (__FILE__ : string).

(** Thread [t0] runs, as client [n0]: the shim has loaded its token, and the
    threads [H] hold the context. *)
Definition running (H : gset Z) (t0 n0 : Z) (s : tz_state E) : Prop :=
  ctx (ext s) = mkCtx VALID_GROUP_ID H (Some (t0, n0)) /\ t0 ∈ H /\ n0 < 0 /\
  current_active_token s = MAKE_NS_CLIENT_TOKEN t0 VALID_GROUP_ID VALID_INDEX /\
  nsid_mgr_query_nsid (current_active_token s) (table s) = n0.

(** The shim establishes it when the kernel switches to the thread. *)
Lemma load_running H a t0 n0 s :
  ctx (ext s) = mkCtx VALID_GROUP_ID H a -> t0 ∈ H -> 0 <= t0 < 256 -> n0 < 0 ->
  nsid_mgr_query_nsid (MAKE_NS_CLIENT_TOKEN t0 VALID_GROUP_ID VALID_INDEX) (table s) = n0 ->
  exists s', TZ_LoadContext_S (MAKE_NS_CLIENT_TOKEN t0 VALID_GROUP_ID VALID_INDEX) s = (1, s') /\
    running H t0 n0 s' /\ table s' = table s.
Proof.
  intros Hc Ht Hr Hn Hq. unfold TZ_LoadContext_S. rewrite (wrapu_small 32).
  2:{ unfold VALID_GROUP_ID, VALID_INDEX. rewrite (proj1 (make_token_sum t0 0 0 Hr ltac:(lia) ltac:(lia))). lia. }
  rewrite Hq. unfold TFM_INVALID_NSID_MIN. rewrite Z.geb_leb. destruct (Z.leb_spec 0 n0); [lia|].
  pose proof (law_load t0 n0 (ext s)) as HL. rewrite Hc in HL. destruct (HL Ht Hn) as (e' & He & Hl).
  unfold token_of in Hl. cbn [c_group c_threads] in *. rewrite Hl, Z.eqb_refl.
  eexists. split; [done|]. by split.
Qed.

(** C24. The NSID suite accepts every conforming extension: on a thread that the
    shim has loaded, when the threads that hold the context were created by
    the shim with numbers up to 32, the suite registered by
    [register_testsuite_nsid_test] runs without undefined behaviour, all 21
    tests pass, and the thread runs on under its own client ID, the context
    held by the same threads and the table of the manager as it was. *)
Theorem nsid_suite_passes H t0 n0 s fs l :
  running H t0 n0 s -> (forall x, x ∈ H -> 1 <= x <= 32) ->
  exists ts' w' l',
    run_testsuite (Some (mkSuite (Some (register_testsuite_nsid_test __FILE__)) fs)) (nsid_reset s, l) =
      Some ((TEST_SUITE_ERR_NO_ERROR, Some ts'), (w', l')) /\
    suite_val (fields ts') = TEST_PASSED /\ running H t0 n0 (tz w') /\ table (tz w') = table s.
Proof.
  intros (Hc & Ht & Hn & Hk & Hq) HH.
  destruct (all_pass_run "TFM NSID Test (TFM_NSID_TEST_1xxx)" (nsid_test_cases __FILE__)
    (between (table s) (nsid_mgr_thread_id s) (current_active_token s) t0 n0 H 32 (-500))
    (between (table s) (nsid_mgr_thread_id s) (current_active_token s) t0 n0 H 54 (-521)) fs (nsid_reset s) l)
    as (ts' & w' & l' & Hrun & Hv & [Hc' (Htb & _ & Htk) _ _]); [by apply nsid_tests_pass | | done | done |].
  { by split. }
  exists ts', w', l'. split_and!; [exact Hrun | done | | done]. unfold running. by rewrite Hc', Htk, Htb.
Qed.

(** A failure of [nsid_test_case_init] is lost: when the context of the thread
    is not the active one, so that saving it fails, test 1003 still passes; the
    only trace is the message of the failed save in the result. *)
Theorem init_failure_masked H t0 n0 s ret :
  TFM_NS_CLIENT_ERR_INVALID_TOKEN <> TFM_NS_CLIENT_ERR_SUCCESS ->
  ctx (ext s) = mkCtx VALID_GROUP_ID H None -> t0 ∈ H -> n0 < 0 -> (forall x, x ∈ H -> 1 <= x <= 32) ->
  current_active_token s = MAKE_NS_CLIENT_TOKEN t0 VALID_GROUP_ID VALID_INDEX ->
  nsid_mgr_query_nsid (current_active_token s) (table s) = n0 ->
  (exists r e, tfm_nsce_save_ctx (current_active_token s) (ext s) = (r, e) /\ r <> TFM_NS_CLIENT_ERR_SUCCESS) /\
  exists ret' w' l, as_test (tfm_nsid_test_case_3 __FILE__) ret (nsid_reset s) = Some (ret', w', l) /\
    val ret' = TEST_PASSED /\ info_msg ret' = Some ("SAVE fail when saving test thread ctx" +:+ crlf).
Proof.
  intros Herr Hc Ht Hn HH Hk Hq. split.
  { destruct (law_save_token (current_active_token s) (ext s)) as (e & _ & He);
      [rewrite Hc; by apply not_active_none|]. eauto. }
  set (Q := fun (_ : unit) (s' : tstate (nsid_world E)) => val (t_ret s') = TEST_PASSED /\
    info_msg (t_ret s') = Some ("SAVE fail when saving test thread ctx" +:+ crlf)).
  assert (wp (tfm_nsid_test_case_3 __FILE__) Q (mkT ret (nsid_reset s) [])) as Hwp.
  2:{ unfold wp in Hwp. unfold as_test. destruct (tfm_nsid_test_case_3 __FILE__ _) as [[[] s']|]; [|done|done].
      destruct Hwp as [Hv Hm]. by exists (t_ret s'), (t_world s'), (t_log s'). }
  unfold tfm_nsid_test_case_3, nsid_test_case_init.
  assert (at_ (table s) (nsid_mgr_thread_id s) (current_active_token s) (mkCtx VALID_GROUP_ID H None) 32 (-500)
    (mkT ret (nsid_reset s) [])) as Hs by by split.
  apply wp_bind, wp_bind. unfold wp at 1, get_token, call. cbn [t_world nsid_reset tz t_ret t_log].
  apply wp_bind. eapply wp_save_token; [exact Hs | by apply not_active_none |]. intros s1 Hs1 _.
  rewrite (proj2 (Z.eqb_neq _ _) Herr). cbn [negb]. apply wp_bind. unfold TEST_FAIL. apply wp_set_ret.
  apply wp_bind. eapply wp_next_nsid; [exact Hs1 | done |]. cbn [t_ret]. intros s2 Hs2 Hr2.
  eapply wp_next_thread; [exact Hs2 | done |]. intros s3 Hs3 Hr3. rewrite Hr2 in Hr3.
  assert (33 ∉ H) as H33 by (intros Hin%HH; lia).
  apply wp_bind. eapply wp_get_statics; [exact Hs3|]. intros s4 Hs4 Hr4. rewrite Hr3 in Hr4. cbv beta iota.
  apply wp_bind. eapply (wp_acquire _ _ _ 33); [exact Hs4 | set_solver | done | done |]. intros s5 Hs5 Hr5.
  rewrite Hr4 in Hr5. apply wp_bind. change (32 + 1) with 33. rewrite Z.eqb_refl. apply wp_ret.
  apply wp_bind. eapply (wp_release _ _ _ 33); [exact Hs5 | set_solver |]. intros s6 Hs6 Hr6. rewrite Hr5 in Hr6.
  apply wp_bind. rewrite Z.eqb_refl. apply wp_ret. apply wp_bind, wp_ret_val.
  assert (({[33]} ∪ H) ∖ {[33]} = H) as Heq by set_solver. rewrite Heq in Hs6.
  eapply (wp_case_finish _ _ _ _ t0 n0 H); [done.. | | reflexivity |]; [exact Hs6|].
  intros s7 _ Hr7. unfold Q. rewrite Hr7. cbn [t_ret]. rewrite Hr6. done.
Qed.
End properties.

(** ** Witnesses: an extension with the context of group 0

    The threads that hold the context and the active one; thread numbers that
    do not fit in a token name no thread. *)

Definition ref_nsce_state : Type := gset Z * option (Z * Z).

Definition fits_token (t : Z) : Prop := 0 <= t < 256.
Definition ref_ctx (e : ref_nsce_state) : nsce_ctx := mkCtx 0 (filter fits_token e.1) e.2.

Definition ref_errs : NsceErrs := {|
  TFM_NS_CLIENT_ERR_INVALID_TOKEN := 1;
  TFM_NS_CLIENT_ERR_INVALID_NSID := 2;
  TFM_NS_CLIENT_ERR_INVALID_ACCESS := 3;
|}.

Definition ref_ext : NsClientExt ref_nsce_state := {|
  tfm_nsce_init n e := (if (0 <? n) && (n <=? TFM_NS_CONTEXT_MAX) then n else TFM_NS_CONTEXT_MAX, e);
  tfm_nsce_acquire_ctx g t e :=
    if decide (g = 0 /\ fits_token t) then (MAKE_NS_CLIENT_TOKEN t 0 0, ({[t]} ∪ e.1, e.2)) else (2 ^ 32 - 1, e);
  tfm_nsce_release_ctx k e :=
    if decide (fits_token k) then if decide (k ∈ e.1) then (0, (e.1 ∖ {[k]}, clear_active_of k e.2)) else (1, e)
    else (1, e);
  tfm_nsce_load_ctx k n e :=
    if decide (fits_token k) then
      if decide (k ∈ e.1) then if decide (n < 0) then (0, (e.1, Some (k, n))) else (2, e) else (1, e)
    else (1, e);
  tfm_nsce_save_ctx k e :=
    match e.2 with
    | Some (t, _) => if decide (k = MAKE_NS_CLIENT_TOKEN t 0 0) then (0, (e.1, None)) else (1, e)
    | None => (1, e)
    end;
|}.

Definition ref_thread_mode : ThreadMode ref_nsce_state := {| thread_mode := {|
  tfm_nsce_init _ e := (0, e);
  tfm_nsce_acquire_ctx _ _ e := (3, e);
  tfm_nsce_release_ctx _ e := (3, e);
  tfm_nsce_load_ctx _ _ e := (3, e);
  tfm_nsce_save_ctx _ e := (3, e);
|} |}.

Lemma ref_token t : fits_token t -> MAKE_NS_CLIENT_TOKEN t 0 VALID_INDEX = t.
Proof. intros Ht. unfold VALID_INDEX. rewrite (proj1 (make_token_sum t 0 0 Ht ltac:(lia) ltac:(lia))). lia. Qed.

Lemma ref_names e k : names (ref_ctx e) k <-> fits_token k.
Proof.
  unfold names, token_of. cbn [ref_ctx c_group]. split.
  - intros (t & Ht & ->). by rewrite ref_token.
  - intros Hk. exists k. by rewrite ref_token.
Qed.

Definition ref_nsce_laws : @NsceLaws ref_nce_consts ref_errs ref_nsce_state ref_ext ref_thread_mode.
Proof.
  refine (@Build_NsceLaws ref_nce_consts ref_errs ref_nsce_state ref_ext ref_thread_mode ref_ctx
    _ _ _ _ _ _ _ _ _ _ _ _ _ _ _ _).
  - done.
  - intros n e _. by exists e.
  - intros t e _ _ Ht. exists ({[t]} ∪ e.1, e.2). split.
    + unfold ref_ctx. cbn [fst snd c_group c_threads c_active]. f_equal. apply set_eq. intros x. change (fits_token t) in Ht.
      rewrite elem_of_filter, !elem_of_union, elem_of_filter, elem_of_singleton. naive_solver.
    + cbn. rewrite decide_True by done. unfold token_of. cbn. done.
  - intros g t e _ Hg. exists e. split; [done|]. cbn in *. rewrite decide_False by naive_solver. done.
  - intros t n e [Ht Hin]%elem_of_filter Hn. exists (e.1, Some (t, n)). split; [done|]. unfold token_of.
    cbn [ref_ctx c_group]. rewrite ref_token by done. cbn. rewrite !decide_True by done. done.
  - intros t n e [Ht Hin]%elem_of_filter Hn. exists e. split; [done|]. unfold token_of.
    cbn [ref_ctx c_group]. rewrite ref_token by done. cbn. rewrite !decide_True, decide_False by (done || lia). done.
  - intros k n e Hk _. rewrite ref_names in Hk. exists e. split; [done|]. cbn. by rewrite decide_False.
  - intros k e (t & n & He & ->). exists (e.1, None). split; [done|]. cbn in *. rewrite He. unfold token_of. cbn.
    by rewrite decide_True.
  - intros k e Hk. exists e. split; [done|]. cbn. destruct (e.2) as [[t n]|] eqn:He; [|done].
    rewrite decide_False; [done|]. intros ->. apply Hk. by exists t, n.
  - intros t e [Ht Hin]%elem_of_filter. exists (e.1 ∖ {[t]}, clear_active_of t e.2). split.
    + unfold ref_ctx. cbn [fst snd c_group c_threads c_active]. f_equal. apply set_eq. intros x.
      rewrite elem_of_filter, !elem_of_difference, elem_of_filter. tauto.
    + unfold token_of. cbn [ref_ctx c_group]. rewrite ref_token by done. cbn. rewrite !decide_True by done. done.
  - intros k e Hk. rewrite ref_names in Hk. exists e. split; [done|]. cbn. by rewrite decide_False.
  - intros n e. by exists e.
  - intros g t e. by exists e.
  - intros k n e. by exists e.
  - intros k e. by exists e.
  - intros k e. by exists e.
Defined.

(** Two threads, -2 and -3; the second runs. *)
Definition ref_tz : tz_state ref_nsce_state :=
  @tz_run ref_nce_consts _ ref_ext [Alloc (2 ^ 32 - 2); Alloc (2 ^ 32 - 3); Load 2]
    (@TZ_InitContextSystem_S ref_nce_consts _ ref_ext (tz_reset (∅, None))).2.

Lemma nsid_suite_passes_witness :
  exists ts' w' l',
    run_testsuite (Some (mkSuite (Some (@register_testsuite_nsid_test ref_nce_consts ref_errs _ ref_ext ref_thread_mode
      "nsid_testsuite.c")) (mkFields [] 0 None TEST_PASSED))) (nsid_reset ref_tz, []) =
      Some ((TEST_SUITE_ERR_NO_ERROR, Some ts'), (w', l')) /\ suite_val (fields ts') = TEST_PASSED.
Proof.
  destruct (@nsid_suite_passes ref_nce_consts ref_errs _ ref_ext ref_thread_mode ref_nsce_laws "nsid_testsuite.c"
    {[1; 2]} 2 (-3) ref_tz (mkFields [] 0 None TEST_PASSED) []) as (ts' & w' & l' & Hrun & Hv & _).
  - split_and!; by vm_compute.
  - intros x Hx. set_solver by lia.
  - eauto.
Defined.
