(* ===== verification/Qcbor.v ===== *)
(** * CBOR maps: tests_reg/test/secure_fw/suites/attestation/ext/qcbor_util

    The map functions of qcbor_util.c over the QCBOR decoder, which is not part
    of the repository: [QcborDecoder] is the part of its interface they use.
    The second half is the specification: CBOR trees, the items the decoder
    documents to return for a tree ([QcborLaws]), and what the map functions
    find in a tree of any shape. *)

From S2P Require Import Prelude.
Local Open Scope Z_scope.

(** ** QCBOR *)

(** [struct q_useful_buf_c]: [None] is the NULL pointer. *)
Definition q_useful_buf_c : Type := option (list Z).
Definition NULL_Q_USEFUL_BUF_C : q_useful_buf_c := None.

(** The part of q_useful_buf.h (t_cose) that the code uses. *)
Class QUsefulBuf := {
  q_useful_buf_c_is_null : q_useful_buf_c -> bool;
  q_useful_buf_c_is_null_or_empty : q_useful_buf_c -> bool;
  q_useful_buf_compare : q_useful_buf_c -> q_useful_buf_c -> Z;
  q_useful_buf_tail : q_useful_buf_c -> Z -> q_useful_buf_c;
  q_useful_buf_is_value : q_useful_buf_c -> Z -> Z;
}.

(** [QCBORItem]; a member of the union [val] or [label] is meaningful when the
    type says so. *)
Record QCBORItem := mkItem {
  uDataType : Z;
  uNestingLevel : Z;
  uLabelType : Z;
  uNextNestLevel : Z;
  label_int64 : Z;
  val_int64 : Z;
  val_uint64 : Z;
  val_string : q_useful_buf_c;
  val_uCount : Z;
}.

Class QcborTypes := {
  QCBOR_TYPE_NONE : Z;
  QCBOR_TYPE_INT64 : Z;
  QCBOR_TYPE_UINT64 : Z;
  QCBOR_TYPE_BYTE_STRING : Z;
  QCBOR_TYPE_TEXT_STRING : Z;
  QCBOR_TYPE_ARRAY : Z;
  QCBOR_TYPE_MAP : Z;
  QCBOR_SUCCESS : Z;
  QCBOR_ERR_ARRAY_OR_MAP_STILL_OPEN : Z;
}.

(** [QCBORDecode_GetNext(ctx, &item)] returns its error, what [item] then
    holds, given what it held, and the new context. *)
Class QcborDecoder (C : Type) := {
  QCBORDecode_Init : q_useful_buf_c -> C;
  QCBORDecode_GetNext : C -> QCBORItem -> Z * QCBORItem * C;
  QCBORDecode_Finish : C -> Z;
}.

(** [enum attest_token_err_t] of attest_token.h *)
Class AttestTokenErr := {
  ATTEST_TOKEN_ERR_SUCCESS : Z;
  ATTEST_TOKEN_ERR_CBOR_STRUCTURE : Z;
  ATTEST_TOKEN_ERR_CBOR_NOT_WELL_FORMED : Z;
  ATTEST_TOKEN_ERR_CBOR_TYPE : Z;
  ATTEST_TOKEN_ERR_NOT_FOUND : Z;
  ATTEST_TOKEN_ERR_COSE_VALIDATION : Z;
  ATTEST_TOKEN_ERR_NO_VALID_TOKEN : Z;
  ATTEST_TOKEN_ERR_INTEGER_VALUE : Z;
  ATTEST_TOKEN_ERR_SW_COMPONENTS_MISSING : Z;
}.

(** ** qcbor_util.c *)

Section qcbor_util.
  Context {QB : QUsefulBuf} {QT : QcborTypes} {AE : AttestTokenErr} {C : Type} {QD : QcborDecoder C}.
  (** What a local [QCBORItem] holds before it is written. *)
  Variable uninit_item : QCBORItem.
  Implicit Types (decode_context : C) (item : QCBORItem) (fuel : nat).

(** The [do] loop of [qcbor_util_consume_item]; [None] is out of fuel. *)
Fixpoint consume_loop fuel (level : Z) decode_context item : option (Z * QCBORItem * C) :=
  match fuel with
  | O => None
  | S fuel =>
      let '(return_value, item, decode_context) := QCBORDecode_GetNext decode_context item in
      if negb (return_value =? QCBOR_SUCCESS) then Some (return_value, item, decode_context)
      else if level <=? uNextNestLevel item then consume_loop fuel level decode_context item
      else Some (QCBOR_SUCCESS, item, decode_context)
  end.

(** Returns the error, what [*next_nest_level] then holds, and the context; a
    NULL [next_nest_level] is a result that is not used. *)
Definition qcbor_util_consume_item fuel decode_context (item_to_consume : QCBORItem)
    (next_nest_level : Z) : option (Z * Z * C) :=
  if (uDataType item_to_consume =? QCBOR_TYPE_MAP) ||
     (uDataType item_to_consume =? QCBOR_TYPE_ARRAY) then
    '(return_value, item, decode_context) ←
      consume_loop fuel (uNextNestLevel item_to_consume) decode_context uninit_item;
    if negb (return_value =? QCBOR_SUCCESS)
    then Some (return_value, next_nest_level, decode_context)
    else Some (QCBOR_SUCCESS, uNextNestLevel item, decode_context)
  else Some (QCBOR_SUCCESS, uNextNestLevel item_to_consume, decode_context).

(** [struct qcbor_util_items_to_get_t]; an array of them ends at label 0. *)
Abbreviation items_to_get := (list (Z * QCBORItem)).

Definition set_type (ty : Z) item : QCBORItem :=
  mkItem ty (uNestingLevel item) (uLabelType item) (uNextNestLevel item) (label_int64 item)
    (val_int64 item) (val_uint64 item) (val_string item) (val_uCount item).

(** [for(iterator = items_found; iterator->label != 0; iterator++)] *)
Fixpoint map_items (f : Z -> QCBORItem -> QCBORItem) (items_found : items_to_get) : items_to_get :=
  match items_found with
  | [] => []
  | (label, item) :: rest =>
      if label =? 0 then items_found else (label, f label item) :: map_items f rest
  end.

Definition clear_items : items_to_get -> items_to_get :=
  map_items (fun _ => set_type QCBOR_TYPE_NONE).

Definition record_item item : items_to_get -> items_to_get :=
  map_items (fun label found => if label_int64 item =? label then item else found).

(** The [while] loop of [qcbor_util_get_items_in_map]. *)
Fixpoint get_items_loop fuel (map_nest_level next_nest_level : Z) decode_context item
    (items_found : items_to_get) : option (Z * items_to_get * C) :=
  if next_nest_level <=? map_nest_level
  then Some (ATTEST_TOKEN_ERR_SUCCESS, items_found, decode_context)
  else
    match fuel with
    | O => None
    | S fuel =>
        let '(err, item, decode_context) := QCBORDecode_GetNext decode_context item in
        if negb (err =? QCBOR_SUCCESS)
        then Some (ATTEST_TOKEN_ERR_CBOR_NOT_WELL_FORMED, items_found, decode_context)
        else
          let items_found :=
            if uLabelType item =? QCBOR_TYPE_INT64 then record_item item items_found
            else items_found in
          '(err, next_nest_level, decode_context) ←
            qcbor_util_consume_item fuel decode_context item next_nest_level;
          if negb (err =? 0)
          then Some (ATTEST_TOKEN_ERR_CBOR_NOT_WELL_FORMED, items_found, decode_context)
          else get_items_loop fuel map_nest_level next_nest_level decode_context item items_found
    end.

Definition qcbor_util_get_items_in_map fuel decode_context (items_found : items_to_get) :
    option (Z * items_to_get * C) :=
  let items_found := clear_items items_found in
  let '(_, item, decode_context) := QCBORDecode_GetNext decode_context uninit_item in
  if negb (uDataType item =? QCBOR_TYPE_MAP)
  then Some (ATTEST_TOKEN_ERR_CBOR_STRUCTURE, items_found, decode_context)
  else
    get_items_loop fuel (uNestingLevel item) (uNextNestLevel item) decode_context item items_found.

(** The [while(1)] loop of [qcbor_util_decode_to_labeled_item]. *)
Fixpoint labeled_item_loop fuel (map_item : QCBORItem) decode_context (label : Z) item :
    option (Z * QCBORItem * C) :=
  match fuel with
  | O => None
  | S fuel =>
      let '(err, item, decode_context) := QCBORDecode_GetNext decode_context item in
      if negb (err =? QCBOR_SUCCESS)
      then Some (ATTEST_TOKEN_ERR_CBOR_NOT_WELL_FORMED, item, decode_context)
      else if (uLabelType item =? QCBOR_TYPE_INT64) && (label_int64 item =? label)
      then Some (ATTEST_TOKEN_ERR_SUCCESS, item, decode_context)
      else
        '(err, _, decode_context) ← qcbor_util_consume_item fuel decode_context item 0;
        if negb (err =? 0)
        then Some (ATTEST_TOKEN_ERR_CBOR_NOT_WELL_FORMED, item, decode_context)
        else if uNextNestLevel item <? uNextNestLevel map_item
        then Some (ATTEST_TOKEN_ERR_NOT_FOUND, item, decode_context)
        else labeled_item_loop fuel map_item decode_context label item
  end.

Definition qcbor_util_decode_to_labeled_item fuel decode_context (label : Z) item :
    option (Z * QCBORItem * C) :=
  let '(_, map_item, decode_context) := QCBORDecode_GetNext decode_context uninit_item in
  if negb (uDataType map_item =? QCBOR_TYPE_MAP)
  then Some (ATTEST_TOKEN_ERR_CBOR_STRUCTURE, item, decode_context)
  else labeled_item_loop fuel map_item decode_context label item.

(** [one_item[0]] and its terminator. *)
Definition qcbor_util_get_item_in_map fuel decode_context (label : Z) item :
    option (Z * QCBORItem * C) :=
  '(return_value, one_item, decode_context) ←
    qcbor_util_get_items_in_map fuel decode_context [(label, uninit_item); (0, uninit_item)];
  if negb (return_value =? 0) then Some (return_value, item, decode_context)
  else
    '(_, found) ← head one_item;
    if uDataType found =? QCBOR_TYPE_NONE
    then Some (ATTEST_TOKEN_ERR_NOT_FOUND, item, decode_context)
    else Some (return_value, found, decode_context).

Definition qcbor_util_get_top_level_item_in_map fuel (payload : q_useful_buf_c)
    (label qcbor_type : Z) item : option (Z * QCBORItem) :=
  if q_useful_buf_c_is_null payload then Some (ATTEST_TOKEN_ERR_COSE_VALIDATION, item)
  else
    let decode_context := QCBORDecode_Init payload in
    '(return_value, found_item, decode_context) ←
      qcbor_util_get_item_in_map fuel decode_context label uninit_item;
    if negb (return_value =? ATTEST_TOKEN_ERR_SUCCESS) then Some (return_value, item)
    else
      let cbor_error := QCBORDecode_Finish decode_context in
      if negb (cbor_error =? QCBOR_SUCCESS) then
        if cbor_error =? QCBOR_ERR_ARRAY_OR_MAP_STILL_OPEN
        then Some (ATTEST_TOKEN_ERR_CBOR_STRUCTURE, item)
        else Some (ATTEST_TOKEN_ERR_CBOR_NOT_WELL_FORMED, item)
      else if negb (uDataType found_item =? qcbor_type)
      then Some (ATTEST_TOKEN_ERR_CBOR_TYPE, item)
      else Some (return_value, found_item).
End qcbor_util.

(** ** CBOR trees *)

(** The label of a map entry; array members have none. *)
Inductive label := NoLabel | LabelInt (z : Z) | LabelOther (ty : Z).

#[export] Instance label_eq_dec : EqDecision label.
Proof. solve_decision. Defined.

(** [COther ty]: a simple value, a float, a tag, ... of QCBOR type [ty]. *)
#[local] Unset Elimination Schemes.
Inductive cbor :=
  | CInt64 (z : Z)
  | CUint64 (z : Z)
  | CBytes (bs : list Z)
  | CText (bs : list Z)
  | COther (ty : Z)
  | CArray (ts : list cbor)
  | CMap (es : list (label * cbor)).
#[local] Set Elimination Schemes.

Section cbor_ind.
  Variable P : cbor -> Prop.
  Hypothesis Hint : forall z, P (CInt64 z).
  Hypothesis Huint : forall z, P (CUint64 z).
  Hypothesis Hbytes : forall bs, P (CBytes bs).
  Hypothesis Htext : forall bs, P (CText bs).
  Hypothesis Hother : forall ty, P (COther ty).
  Hypothesis Harray : forall ts, Forall P ts -> P (CArray ts).
  Hypothesis Hmap : forall es, Forall (fun e => P e.2) es -> P (CMap es).

Fixpoint cbor_ind (t : cbor) : P t :=
  match t with
  | CInt64 z => Hint z
  | CUint64 z => Huint z
  | CBytes bs => Hbytes bs
  | CText bs => Htext bs
  | COther ty => Hother ty
  | CArray ts =>
      Harray ts ((fix go ts : Forall P ts :=
        match ts with
        | [] => List.Forall_nil _
        | t :: ts => List.Forall_cons _ _ _ (cbor_ind t) (go ts)
        end) ts)
  | CMap es =>
      Hmap es ((fix go es : Forall (fun e => P e.2) es :=
        match es with
        | [] => List.Forall_nil _
        | e :: es => List.Forall_cons _ _ _ (cbor_ind e.2) (go es)
        end) es)
  end.
End cbor_ind.

(** The entries of a container; the members of an array have no label. *)
Definition children (t : cbor) : list (label * cbor) :=
  match t with
  | CArray ts => (fun t => (NoLabel, t)) <$> ts
  | CMap es => es
  | _ => []
  end.

Definition is_container (t : cbor) : bool :=
  match t with CArray _ | CMap _ => true | _ => false end.

Definition empty_container (t : cbor) : bool :=
  match t with CArray [] | CMap [] => true | _ => false end.

Section items.
  Context {QT : QcborTypes}.

Definition type_of (t : cbor) : Z :=
  match t with
  | CInt64 _ => QCBOR_TYPE_INT64
  | CUint64 _ => QCBOR_TYPE_UINT64
  | CBytes _ => QCBOR_TYPE_BYTE_STRING
  | CText _ => QCBOR_TYPE_TEXT_STRING
  | COther ty => ty
  | CArray _ => QCBOR_TYPE_ARRAY
  | CMap _ => QCBOR_TYPE_MAP
  end.

(** The item of the tree [t] itself, at nesting level [lvl]; [next] is the
    level of the item after the tree. *)
Definition item_of (lvl : Z) (lab : label) (next : Z) (t : cbor) : QCBORItem := {|
  uDataType := type_of t;
  uNestingLevel := lvl;
  uLabelType :=
    match lab with
    | NoLabel => QCBOR_TYPE_NONE
    | LabelInt _ => QCBOR_TYPE_INT64
    | LabelOther ty => ty
    end;
  uNextNestLevel := if decide (children t = []) then next else lvl + 1;
  label_int64 := match lab with LabelInt z => z | _ => 0 end;
  val_int64 := match t with CInt64 z => z | _ => 0 end;
  val_uint64 := match t with CUint64 z => z | _ => 0 end;
  val_string := match t with CBytes bs | CText bs => Some bs | _ => None end;
  val_uCount := Z.of_nat (length (children t));
|}.

(** The items of a tree in the order of the decoder: an item, then those of
    its children one level deeper. *)
Fixpoint items (lvl : Z) (lab : label) (next : Z) (t : cbor) : list QCBORItem :=
  item_of lvl lab next t ::
  match t with
  | CArray ts =>
      (fix go ts := match ts with
       | [] => []
       | [t] => items (lvl + 1) NoLabel next t
       | t :: ts => items (lvl + 1) NoLabel (lvl + 1) t ++ go ts
       end) ts
  | CMap es =>
      (fix go es := match es with
       | [] => []
       | [(lab, t)] => items (lvl + 1) lab next t
       | (lab, t) :: es => items (lvl + 1) lab (lvl + 1) t ++ go es
       end) es
  | _ => []
  end.

(** The items of the entries [es] at level [lvl]. *)
Fixpoint entry_items (lvl next : Z) (es : list (label * cbor)) : list QCBORItem :=
  match es with
  | [] => []
  | [(lab, t)] => items lvl lab next t
  | (lab, t) :: es => items lvl lab lvl t ++ entry_items lvl next es
  end.

Lemma entry_items_cons lvl next lab t e es :
  entry_items lvl next ((lab, t) :: e :: es) = items lvl lab lvl t ++ entry_items lvl next (e :: es).
Proof. done. Qed.

Lemma items_eq lvl lab next t :
  items lvl lab next t = item_of lvl lab next t :: entry_items (lvl + 1) next (children t).
Proof.
  destruct t as [| | | | |ts|es]; try done; cbn [items children]; f_equal.
  - induction ts as [|t [|t' ts] IH]; [done | done|]. rewrite !fmap_cons, entry_items_cons, <- fmap_cons, <- IH. done.
  - induction es as [|[lab' t] [|e es] IH]; [done | done|].
    rewrite entry_items_cons, <- IH. done.
Qed.

(** The level of the item after an entry at level [lvl] that [es] follow. *)
Definition after (lvl next : Z) (es : list (label * cbor)) : Z :=
  match es with [] => next | _ => lvl end.

Lemma entry_items_step lvl next lab t es :
  entry_items lvl next ((lab, t) :: es) =
  item_of lvl lab (after lvl next es) t ::
    entry_items (lvl + 1) (after lvl next es) (children t) ++ entry_items lvl next es.
Proof.
  destruct es as [|e es]; [by rewrite app_nil_r, <- items_eq | by rewrite entry_items_cons, items_eq].
Qed.

(** ** Nesting levels

    All items of a tree but the last announce a next item at the tree's level
    or deeper; the last announces [next]. *)
Definition levels (lvl next : Z) (its : list QCBORItem) : Prop :=
  exists init it, its = init ++ [it] /\ Forall (fun it => lvl <= uNextNestLevel it) init /\
    uNextNestLevel it = next.

Lemma levels_app lvl mid next l l' :
  levels lvl mid l -> lvl <= mid -> levels lvl next l' -> levels lvl next (l ++ l').
Proof.
  intros (i & it & -> & Hi & Hm) Hle (i' & it' & -> & Hi' & Hm').
  exists (i ++ [it] ++ i'), it'. split_and!; [by rewrite <- !app_assoc | | done].
  rewrite !Forall_app, Forall_singleton. split_and!; [done | lia | done].
Qed.

Lemma entry_items_levels lvl lvl' next es :
  lvl <= lvl' -> es <> [] ->
  Forall (fun e => forall lab next, levels lvl next (items lvl' lab next e.2)) es ->
  levels lvl next (entry_items lvl' next es).
Proof.
  intros Hle Hne H. induction H as [|[lab t] es Ht H IH]; [done|].
  destruct es as [|e es]; [apply Ht|]. rewrite entry_items_cons.
  eapply levels_app; [apply Ht | done | by apply IH].
Qed.

Lemma items_levels_step t lvl lvl' lab next :
  lvl <= lvl' ->
  Forall (fun e => forall lvl lvl' lab next, lvl <= lvl' ->
    levels lvl next (items lvl' lab next e.2)) (children t) ->
  levels lvl next (items lvl' lab next t).
Proof.
  intros Hle Hc. rewrite items_eq. destruct (decide (children t = [])) as [He|He].
  - rewrite He. exists [], (item_of lvl' lab next t). split_and!; [done | done |].
    simpl. by rewrite decide_True.
  - change (item_of lvl' lab next t :: entry_items (lvl' + 1) next (children t))
      with ([item_of lvl' lab next t] ++ entry_items (lvl' + 1) next (children t)).
    apply (levels_app _ (lvl' + 1)); [|lia|].
    + exists [], (item_of lvl' lab next t). split_and!; [done | done |].
      simpl. by rewrite decide_False.
    + apply entry_items_levels; [lia | done|].
      eapply Forall_impl; [exact Hc|]. intros e He' lab' next'. apply He'. lia.
Qed.

Lemma items_levels t : forall lvl lvl' lab next, lvl <= lvl' ->
  levels lvl next (items lvl' lab next t).
Proof.
  induction t as [| | | | |ts IH|es IH] using cbor_ind; intros lvl lvl' lab next Hle;
    (apply items_levels_step; [exact Hle|]); cbn [children]; try apply Forall_nil_2.
  - apply Forall_fmap. eapply Forall_impl; [exact IH|]. intros x Hx. exact Hx.
  - exact IH.
Qed.

Lemma children_levels t lvl next :
  children t <> [] -> levels lvl next (entry_items lvl next (children t)).
Proof.
  intros Hne. apply entry_items_levels; [lia | done |]. apply Forall_forall.
  intros e _ lab next'. apply items_levels. lia.
Qed.
End items.

(** ** What QCBOR documents *)

Class QUsefulBufLaws {QB : QUsefulBuf} := {
  law_is_null b : q_useful_buf_c_is_null b = bool_decide (b = None);
  law_is_null_or_empty b :
    q_useful_buf_c_is_null_or_empty b = bool_decide (b = None \/ b = Some []);
  law_compare b b' : q_useful_buf_compare (Some b) (Some b') = 0 <-> b = b';
}.

Class QcborTypesLaws {QT : QcborTypes} {AE : AttestTokenErr} := {
  qcbor_types_NoDup : NoDup [QCBOR_TYPE_NONE; QCBOR_TYPE_INT64; QCBOR_TYPE_UINT64;
    QCBOR_TYPE_BYTE_STRING; QCBOR_TYPE_TEXT_STRING; QCBOR_TYPE_ARRAY; QCBOR_TYPE_MAP];
  qcbor_success : QCBOR_SUCCESS = 0;
  attest_success : ATTEST_TOKEN_ERR_SUCCESS = 0;
  attest_err_NoDup : NoDup [ATTEST_TOKEN_ERR_SUCCESS; ATTEST_TOKEN_ERR_CBOR_STRUCTURE;
    ATTEST_TOKEN_ERR_CBOR_NOT_WELL_FORMED; ATTEST_TOKEN_ERR_CBOR_TYPE; ATTEST_TOKEN_ERR_NOT_FOUND;
    ATTEST_TOKEN_ERR_COSE_VALIDATION; ATTEST_TOKEN_ERR_NO_VALID_TOKEN;
    ATTEST_TOKEN_ERR_INTEGER_VALUE; ATTEST_TOKEN_ERR_SW_COMPONENTS_MISSING];
}.

(** Integers in the range of their type, other types and labels not confused
    with the ones the tree has constructors for. *)
Definition wf_node {QT : QcborTypes} (t : cbor) : Prop :=
  match t with
  | CInt64 z => - 2 ^ 63 <= z < 2 ^ 63
  | CUint64 z => 2 ^ 63 <= z < 2 ^ 64
  | COther ty => ty ∉ [QCBOR_TYPE_NONE; QCBOR_TYPE_INT64; QCBOR_TYPE_UINT64;
      QCBOR_TYPE_BYTE_STRING; QCBOR_TYPE_TEXT_STRING; QCBOR_TYPE_ARRAY; QCBOR_TYPE_MAP]
  | _ => True
  end.

Definition wf_label {QT : QcborTypes} (lab : label) : Prop :=
  match lab with LabelOther ty => ty <> QCBOR_TYPE_INT64 | _ => True end.

Inductive wf {QT : QcborTypes} : cbor -> Prop :=
  | wf_intro t : wf_node t -> Forall (fun e => wf_label e.1 /\ wf e.2) (children t) -> wf t.

(** On any input: every item uses at least one byte of it. *)
Class QcborProgress {QT : QcborTypes} (C : Type) {QD : QcborDecoder C} := {
  bytes_left : C -> nat;
  law_left c prev e it c' : QCBORDecode_GetNext c prev = (e, it, c') ->
    (bytes_left c' <= bytes_left c)%nat;
  law_consumes c prev it c' : QCBORDecode_GetNext c prev = (QCBOR_SUCCESS, it, c') ->
    (bytes_left c' < bytes_left c)%nat;
}.

(** On the encoding of a tree: the items of the tree, then errors. *)
Class QcborLaws {QT : QcborTypes} (C : Type) {QD : QcborDecoder C} := {
  encodes : list Z -> cbor -> Prop;
  ctx_items : C -> list QCBORItem -> Prop;
  law_wf p t : encodes p t -> wf t;
  law_init p t : encodes p t -> ctx_items (QCBORDecode_Init (Some p)) (items 0 NoLabel 0 t);
  law_next c it its prev : ctx_items c (it :: its) ->
    exists c', QCBORDecode_GetNext c prev = (QCBOR_SUCCESS, it, c') /\ ctx_items c' its;
  law_end c prev : ctx_items c [] ->
    exists e it c', QCBORDecode_GetNext c prev = (e, it, c') /\ e <> QCBOR_SUCCESS;
  law_finish c : ctx_items c [] -> QCBORDecode_Finish c = QCBOR_SUCCESS;
}.

(** ** Specification of the map functions *)

(** The last value labelled [l]. *)
Fixpoint last_value (l : Z) (es : list (label * cbor)) : option cbor :=
  match es with
  | [] => None
  | (lab, t) :: es =>
      match last_value l es with
      | Some t' => Some t'
      | None => match lab with LabelInt z => if z =? l then Some t else None | _ => None end
      end
  end.

(** The entries [qcbor_util_get_items_in_map] sees: it takes an empty map or
    array for the start of the entries after it, and skips them; when it is
    the last entry it runs into the end of the input ([None]). *)
Fixpoint seen (es : list (label * cbor)) : option (list (label * cbor)) :=
  match es with
  | [] => Some []
  | (lab, t) :: es =>
      if empty_container t then if decide (es = []) then None else Some [(lab, t)]
      else cons (lab, t) <$> seen es
  end.

Lemma seen_prefix es es' : seen es = Some es' -> es' `prefix_of` es.
Proof.
  revert es'. induction es as [|[lab t] es IH]; intros es' H; cbn [seen] in H; [by simplify_eq|].
  destruct (empty_container t); [case_decide; simplify_eq; by apply prefix_cons, prefix_nil|].
  destruct (seen es) as [es1|]; simplify_eq/=. apply prefix_cons, IH. done.
Qed.

Lemma last_value_elem l es t : last_value l es = Some t -> (LabelInt l, t) ∈ es.
Proof.
  induction es as [|[lab t'] es IH]; cbn [last_value]; [done|].
  destruct (last_value l es) as [t''|].
  - intros [= ->]. right. auto.
  - destruct lab as [|z|]; try done. destruct (Z.eqb_spec z l) as [->|]; [|done].
    intros [= ->]. left.
Qed.

Lemma last_value_wf {QT : QcborTypes} l es es' t :
  seen es = Some es' -> Forall (fun e => wf_label e.1 /\ wf_node e.2) es ->
  last_value l es' = Some t -> wf_node t.
Proof.
  intros [k ->]%seen_prefix [Hwf _]%Forall_app Hl%last_value_elem.
  rewrite Forall_forall in Hwf. by apply (Hwf (LabelInt l, t)).
Qed.

Lemma seen_all es : Forall (fun e => empty_container e.2 = false) es -> seen es = Some es.
Proof. induction 1 as [|[lab t] es H _ IH]; [done|]. cbn [seen]. simpl in H. by rewrite H, IH. Qed.

(** How [qcbor_util_decode_to_labeled_item] ends: at a value and the entries
    after it, or with an error. *)
Fixpoint search {AE : AttestTokenErr} (l : Z) (es : list (label * cbor)) :
    Z + cbor * list (label * cbor) :=
  match es with
  | [] => inl ATTEST_TOKEN_ERR_CBOR_NOT_WELL_FORMED
  | (lab, t) :: es =>
      if decide (lab = LabelInt l) then inr (t, es)
      else if empty_container t then inl ATTEST_TOKEN_ERR_CBOR_NOT_WELL_FORMED
      else match es with
           | [] => inl (if is_container t then ATTEST_TOKEN_ERR_CBOR_NOT_WELL_FORMED
                        else ATTEST_TOKEN_ERR_NOT_FOUND)
           | _ => search l es
           end
  end.

(** The value of a claim of a token, or the error of looking it up. *)
Definition claim {AE : AttestTokenErr} (l : Z) (t : cbor) : Z + cbor :=
  match t with
  | CMap es =>
      match seen es with
      | None => inl ATTEST_TOKEN_ERR_CBOR_NOT_WELL_FORMED
      | Some es' =>
          match last_value l es' with
          | None => inl ATTEST_TOKEN_ERR_NOT_FOUND
          | Some v => inr v
          end
      end
  | _ => inl ATTEST_TOKEN_ERR_CBOR_STRUCTURE
  end.

Section spec.
  Context {QB : QUsefulBuf} {QBL : QUsefulBufLaws} {QT : QcborTypes} {AE : AttestTokenErr} {TL : QcborTypesLaws}.
  Context {C : Type} {QD : QcborDecoder C} {QL : QcborLaws C}.
  Variable uninit_item : QCBORItem.
  Implicit Types (c : C) (fuel : nat).

Lemma types_ne i j x y :
  [QCBOR_TYPE_NONE; QCBOR_TYPE_INT64; QCBOR_TYPE_UINT64; QCBOR_TYPE_BYTE_STRING;
   QCBOR_TYPE_TEXT_STRING; QCBOR_TYPE_ARRAY; QCBOR_TYPE_MAP] !! i = Some x ->
  [QCBOR_TYPE_NONE; QCBOR_TYPE_INT64; QCBOR_TYPE_UINT64; QCBOR_TYPE_BYTE_STRING;
   QCBOR_TYPE_TEXT_STRING; QCBOR_TYPE_ARRAY; QCBOR_TYPE_MAP] !! j = Some y ->
  i <> j -> x <> y.
Proof.
  intros Hi Hj Hne ->. apply Hne. eapply NoDup_lookup; [apply qcbor_types_NoDup | done | done].
Qed.

Lemma errs_ne i j x y :
  [ATTEST_TOKEN_ERR_SUCCESS; ATTEST_TOKEN_ERR_CBOR_STRUCTURE;
   ATTEST_TOKEN_ERR_CBOR_NOT_WELL_FORMED; ATTEST_TOKEN_ERR_CBOR_TYPE; ATTEST_TOKEN_ERR_NOT_FOUND;
   ATTEST_TOKEN_ERR_COSE_VALIDATION; ATTEST_TOKEN_ERR_NO_VALID_TOKEN;
   ATTEST_TOKEN_ERR_INTEGER_VALUE; ATTEST_TOKEN_ERR_SW_COMPONENTS_MISSING] !! i = Some x ->
  [ATTEST_TOKEN_ERR_SUCCESS; ATTEST_TOKEN_ERR_CBOR_STRUCTURE;
   ATTEST_TOKEN_ERR_CBOR_NOT_WELL_FORMED; ATTEST_TOKEN_ERR_CBOR_TYPE; ATTEST_TOKEN_ERR_NOT_FOUND;
   ATTEST_TOKEN_ERR_COSE_VALIDATION; ATTEST_TOKEN_ERR_NO_VALID_TOKEN;
   ATTEST_TOKEN_ERR_INTEGER_VALUE; ATTEST_TOKEN_ERR_SW_COMPONENTS_MISSING] !! j = Some y ->
  i <> j -> x <> y.
Proof.
  intros Hi Hj Hne ->. apply Hne. eapply NoDup_lookup; [apply attest_err_NoDup | done | done].
Qed.

Lemma type_of_not_none t : wf_node t -> type_of t <> QCBOR_TYPE_NONE.
Proof.
  destruct t; simpl; intros Hwf;
    try first [ by apply (types_ne 1 0) | by apply (types_ne 2 0) | by apply (types_ne 3 0)
              | by apply (types_ne 4 0) | by apply (types_ne 5 0) | by apply (types_ne 6 0) ].
  intros ->. apply Hwf. left.
Qed.

(** The type of an item of a tree tells containers from the rest. *)
Lemma type_of_container t :
  wf_node t ->
  (type_of t =? QCBOR_TYPE_MAP) || (type_of t =? QCBOR_TYPE_ARRAY) = is_container t.
Proof.
  intros Hwf. apply eq_true_iff_eq. rewrite orb_true_iff, !Z.eqb_eq.
  destruct t; simpl in *; split; try done; auto; intros [H|H]; exfalso;
    try (revert H; first
      [ by apply (types_ne 1 6) | by apply (types_ne 1 5) | by apply (types_ne 2 6)
      | by apply (types_ne 2 5) | by apply (types_ne 3 6) | by apply (types_ne 3 5)
      | by apply (types_ne 4 6) | by apply (types_ne 4 5) ]);
    apply Hwf; rewrite H; set_solver.
Qed.

Lemma consume_loop_spec its : forall lvl next c it0 rest fuel,
  levels lvl next its -> next < lvl -> ctx_items c (its ++ rest) -> (length its <= fuel)%nat ->
  exists it c', consume_loop fuel lvl c it0 = Some (QCBOR_SUCCESS, it, c') /\
    uNextNestLevel it = next /\ ctx_items c' rest.
Proof.
  intros lvl next c it0 rest fuel (init & it & -> & Hinit & Hlast) Hlt.
  revert c it0 fuel. induction Hinit as [|x init Hx Hinit IH]; intros c it0 fuel Hc Hf;
    (destruct fuel as [|fuel]; [simpl in Hf; lia|]); cbn [consume_loop].
  - destruct (law_next _ _ _ it0 Hc) as (c' & -> & Hc'). rewrite Z.eqb_refl. cbn [negb].
    destruct (Z.leb_spec lvl (uNextNestLevel it)); [lia|]. by exists it, c'.
  - destruct (law_next _ _ _ it0 Hc) as (c' & -> & Hc'). rewrite Z.eqb_refl. cbn [negb].
    destruct (Z.leb_spec lvl (uNextNestLevel x)); [|lia]. apply IH; [done | simpl in Hf; lia].
Qed.

(** Without anything left to read the loop ends with an error. *)
Lemma consume_loop_end lvl c it0 fuel :
  ctx_items c [] -> (0 < fuel)%nat ->
  exists e it c', consume_loop fuel lvl c it0 = Some (e, it, c') /\ e <> QCBOR_SUCCESS.
Proof.
  intros Hc Hf. destruct fuel as [|fuel]; [lia|]. cbn [consume_loop].
  destruct (law_end c it0 Hc) as (e & it & c' & -> & He).
  destruct (Z.eqb_spec e QCBOR_SUCCESS); [done|]. by exists e, it, c'.
Qed.

(** [qcbor_util_consume_item] skips the contents of a value that is not an
    empty container. *)
Lemma consume_item_spec lvl lab next t c n0 rest fuel :
  wf_node t -> empty_container t = false -> next <= lvl ->
  ctx_items c (entry_items (lvl + 1) next (children t) ++ rest) ->
  (length (entry_items (lvl + 1) next (children t)) <= fuel)%nat ->
  exists c', qcbor_util_consume_item uninit_item fuel c (item_of lvl lab next t) n0 =
    Some (QCBOR_SUCCESS, next, c') /\ ctx_items c' rest.
Proof.
  intros Hwf He Hn Hc Hf. unfold qcbor_util_consume_item. cbn [uDataType item_of uNextNestLevel].
  rewrite type_of_container by done. destruct (is_container t) eqn:Ht.
  - assert (children t <> []) as Hne by (by destruct t as [| | | | |[]|[]]).
    rewrite decide_False by done.
    edestruct (consume_loop_spec _ (lvl + 1) next c uninit_item rest fuel
      (children_levels t (lvl + 1) next Hne)) as (it & c' & -> & Hi & Hc'); [lia | done | done |].
    cbn [mbind option_bind]. rewrite Z.eqb_refl. cbn [negb]. rewrite Hi. by exists c'.
  - assert (children t = []) as Hne by (by destruct t).
    rewrite decide_True by done. rewrite Hne in Hc. by exists c.
Qed.

(** After an empty container it skips what follows up to the end of the
    enclosing map, [next0] being the level after that, *)
Lemma consume_empty_skips lvl lab t c n0 its next0 rest fuel :
  wf_node t -> empty_container t = true -> levels lvl next0 its -> next0 < lvl ->
  ctx_items c (its ++ rest) -> (length its <= fuel)%nat ->
  exists c', qcbor_util_consume_item uninit_item fuel c (item_of lvl lab lvl t) n0 =
    Some (QCBOR_SUCCESS, next0, c') /\ ctx_items c' rest.
Proof.
  intros Hwf He Hl Hlt Hc Hf. unfold qcbor_util_consume_item. cbn [uDataType item_of uNextNestLevel].
  rewrite type_of_container by done.
  assert (is_container t = true /\ children t = []) as [-> Ht] by (by destruct t as [| | | | |[]|[]]).
  rewrite decide_True by done.
  destruct (consume_loop_spec its lvl next0 c uninit_item rest fuel Hl Hlt Hc Hf)
    as (it & c' & -> & Hi & Hc').
  cbn [mbind option_bind]. rewrite Z.eqb_refl. cbn [negb]. rewrite Hi. by exists c'.
Qed.

(** and fails when nothing follows. *)
Lemma consume_empty_end lvl lab next t c n0 fuel :
  wf_node t -> empty_container t = true -> ctx_items c [] -> (0 < fuel)%nat ->
  exists e n c', qcbor_util_consume_item uninit_item fuel c (item_of lvl lab next t) n0 =
    Some (e, n, c') /\ e <> QCBOR_SUCCESS.
Proof.
  intros Hwf He Hc Hf. unfold qcbor_util_consume_item. cbn [uDataType item_of uNextNestLevel].
  rewrite type_of_container by done.
  assert (is_container t = true) as -> by (by destruct t as [| | | | |[]|[]]).
  destruct (consume_loop_end (if decide (children t = []) then next else lvl + 1)
    c uninit_item fuel Hc Hf) as (e & it & c' & -> & Hne).
  cbn [mbind option_bind]. destruct (Z.eqb_spec e QCBOR_SUCCESS); [done|]. by eexists _, _, _.
Qed.

(** Both cases, for an entry the entries [es] follow. *)
Lemma consume_empty_spec lvl lab next t c n0 es fuel :
  wf_node t -> empty_container t = true -> next < lvl ->
  ctx_items c (entry_items lvl next es) -> (length (entry_items lvl next es) < fuel)%nat ->
  exists e n c',
    qcbor_util_consume_item uninit_item fuel c (item_of lvl lab (after lvl next es) t) n0 =
      Some (e, n, c') /\
    if decide (es = []) then e <> QCBOR_SUCCESS
    else e = QCBOR_SUCCESS /\ n = next /\ ctx_items c' [].
Proof.
  intros Hwf He Hn Hc Hf. case_decide as Hes.
  - subst es. by apply consume_empty_end; [done | done | done | simpl in Hf; lia].
  - assert (after lvl next es = lvl) as -> by (by destruct es).
    destruct (consume_empty_skips lvl lab t c n0 (entry_items lvl next es) next [] fuel)
      as (c' & -> & Hc'); [done | done | | done | by rewrite app_nil_r | lia |].
    { apply entry_items_levels; [lia | done |]. apply Forall_forall. intros e _ lab' n'.
      apply items_levels. lia. }
    by eexists _, _, _.
Qed.

(** *** The list of items to get *)

Abbreviation items_to_get := (list (Z * QCBORItem)).

Lemma map_items_app f (fs : items_to_get) u tl :
  Forall (fun x => x.1 <> 0) fs ->
  map_items f (fs ++ (0, u) :: tl) = ((fun x => (x.1, f x.1 x.2)) <$> fs) ++ (0, u) :: tl.
Proof.
  induction 1 as [|[l it] fs Hl _ IH]; [done|]. cbn [map_items app]. simpl in Hl.
  rewrite (proj2 (Z.eqb_neq l 0) Hl). by rewrite IH.
Qed.

(** What the entries [es] at level [lvl] leave in the list: under a label
    among them its last value, otherwise what was there. *)
Definition found_item lvl (es : list (label * cbor)) (x y : Z * QCBORItem) : Prop :=
  x.1 = y.1 /\
  match last_value x.1 es with
  | Some t => exists next, y.2 = item_of lvl (LabelInt x.1) next t
  | None => y.2 = x.2
  end.

Lemma found_labels lvl es fs fs' :
  Forall2 (found_item lvl es) fs fs' -> Forall (fun x => x.1 <> 0) fs -> Forall (fun x => x.1 <> 0) fs'.
Proof. induction 1 as [|x y fs fs' [Hxy _] _ IH]; inversion 1; constructor; [congruence | auto]. Qed.

Lemma found_refl lvl fs : Forall2 (found_item lvl []) fs fs.
Proof. by apply Forall_Forall2_diag, Forall_forall. Qed.

Lemma found_cons lvl e es fs1 fs2 fs3 :
  Forall2 (found_item lvl [e]) fs1 fs2 -> Forall2 (found_item lvl es) fs2 fs3 ->
  Forall2 (found_item lvl (e :: es)) fs1 fs3.
Proof.
  intros H. revert fs3. induction H as [|x y fs1 fs2 [Hl He] _ IH]; intros fs3 H3;
    inversion H3 as [|? z ? fs3' [Hl' He'] H3']; subst; constructor; [|by apply IH].
  split; [congruence|]. destruct e as [lab t]. cbn [last_value] in *. rewrite <- Hl in He'.
  destruct (last_value x.1 es); [done|].
  destruct lab as [|z'|]; try congruence. destruct (z' =? x.1); [|congruence].
  destruct He as [nx He]. exists nx. congruence.
Qed.

(** Recording the item of one entry. *)
Lemma record_found lvl lab t next fs u tl :
  wf_label lab -> Forall (fun x => x.1 <> 0) fs ->
  exists fs', (if uLabelType (item_of lvl lab next t) =? QCBOR_TYPE_INT64
               then record_item (item_of lvl lab next t) (fs ++ (0, u) :: tl) else fs ++ (0, u) :: tl) =
      fs' ++ (0, u) :: tl /\ Forall2 (found_item lvl [(lab, t)]) fs fs'.
Proof.
  intros Hlab Hfs. cbn [uLabelType item_of]. destruct lab as [|z|ty].
  - rewrite (proj2 (Z.eqb_neq _ _)) by by apply (types_ne 0 1). exists fs. split; [done | apply found_refl].
  - rewrite Z.eqb_refl. unfold record_item. rewrite map_items_app by done. eexists. split; [done|].
    apply Forall2_fmap_r, Forall_Forall2_diag, Forall_forall. intros [l it] _. split; [done|].
    cbn [last_value label_int64 item_of fst snd]. destruct (Z.eqb_spec z l) as [->|]; [by exists next | done].
  - rewrite (proj2 (Z.eqb_neq _ _)) by done. exists fs. split; [done | apply found_refl].
Qed.

Lemma get_items_loop_spec es : forall lvl next c it0 fs u tl fuel,
  es <> [] -> Forall (fun e => wf_label e.1 /\ wf_node e.2) es -> next <= lvl ->
  Forall (fun x => x.1 <> 0) fs -> ctx_items c (entry_items (lvl + 1) next es) ->
  (length (entry_items (lvl + 1) next es) < fuel)%nat ->
  match seen es with
  | Some es' =>
      exists fs' c', get_items_loop uninit_item fuel lvl (lvl + 1) c it0 (fs ++ (0, u) :: tl) =
          Some (ATTEST_TOKEN_ERR_SUCCESS, fs' ++ (0, u) :: tl, c') /\ ctx_items c' [] /\
        Forall2 (found_item (lvl + 1) es') fs fs'
  | None =>
      exists fs' c', get_items_loop uninit_item fuel lvl (lvl + 1) c it0 (fs ++ (0, u) :: tl) =
          Some (ATTEST_TOKEN_ERR_CBOR_NOT_WELL_FORMED, fs', c')
  end.
Proof.
  induction es as [|[lab t] es IH]; intros lvl next c it0 fs u tl fuel Hne Hwf Hn Hfs Hc Hf; [done|].
  apply Forall_cons in Hwf as [[Hlab Ht] Hwf]. simpl in Hlab, Ht.
  destruct fuel as [|fuel]; [lia|]. cbn [get_items_loop].
  destruct (Z.leb_spec (lvl + 1) lvl); [lia|].
  rewrite entry_items_step in Hc, Hf. set (nx := after (lvl + 1) next es) in *.
  destruct (law_next _ _ _ it0 Hc) as (c1 & -> & Hc1).
  rewrite Z.eqb_refl. cbn [negb length] in *. rewrite length_app in Hf.
  destruct (record_found (lvl + 1) lab t nx fs u tl Hlab Hfs) as (fs1 & -> & Hf1).
  assert (Forall (fun x => x.1 <> 0) fs1) as Hfs1 by by eapply found_labels.
  cbn [seen]. destruct (empty_container t) eqn:Hemp.
  - assert (children t = []) as Hch by (by destruct t as [| | | | |[]|[]]).
    rewrite Hch in Hc1, Hf. cbn [entry_items app length] in *.
    unfold nx. destruct (consume_empty_spec (lvl + 1) lab next t c1 (lvl + 1) es fuel)
      as (e & n & c2 & -> & He); [done | done | lia | done | lia |].
    cbn [mbind option_bind]. case_decide as Hes.
    + rewrite (proj2 (Z.eqb_neq e 0)) by (rewrite <- qcbor_success; done). by eexists _, _.
    + destruct He as (-> & -> & Hc2). rewrite qcbor_success. cbn [negb Z.eqb].
      exists fs1, c2. split_and!; [|done|done].
      destruct fuel; cbn [get_items_loop]; by destruct (Z.leb_spec next lvl); [|lia].
  - edestruct (consume_item_spec (lvl + 1) lab nx t c1 (lvl + 1) (entry_items (lvl + 1) next es) fuel)
      as (c2 & -> & Hc2); [done | done | | done | lia |].
    { unfold nx. destruct es; simpl; lia. }
    cbn [mbind option_bind]. rewrite qcbor_success. cbn [negb Z.eqb].
    destruct es as [|e es].
    + unfold nx. cbn [after]. exists fs1, c2. split_and!; [|done|by eapply found_cons, found_refl].
      destruct fuel; cbn [get_items_loop]; by destruct (Z.leb_spec next lvl); [|lia].
    + unfold nx. cbn [after]. specialize (IH lvl next c2 (item_of (lvl + 1) lab (lvl + 1) t) fs1 u tl fuel).
      destruct (seen (e :: es)) as [es'|]; cbn [fmap option_fmap option_map].
      * destruct IH as (fs' & c' & -> & Hc' & Hfs'); [done | done | done | done | done | lia |].
        exists fs', c'. split_and!; [done | done |]. by eapply found_cons.
      * destruct IH as (fs' & c' & ->); [done | done | done | done | done | lia |]. by eexists _, _.
Qed.

(** *** The functions on the encoding of a map *)

Definition fuel_for (es : list (label * cbor)) : nat := 2 + length (entry_items 1 0 es).

Lemma map_items_of es : items 0 NoLabel 0 (CMap es) = item_of 0 NoLabel 0 (CMap es) :: entry_items 1 0 es.
Proof. apply items_eq. Qed.

Lemma wf_entries es : wf (CMap es) -> Forall (fun e => wf_label e.1 /\ wf_node e.2) es.
Proof.
  inversion 1 as [t Hn Hc]. subst. eapply Forall_impl; [exact Hc|].
  intros e [Hl Hw]. split; [done|]. by destruct Hw.
Qed.

Lemma get_items_in_map_spec es c fs u tl fuel :
  wf (CMap es) -> Forall (fun x => x.1 <> 0) fs ->
  ctx_items c (items 0 NoLabel 0 (CMap es)) -> (fuel_for es <= fuel)%nat ->
  let fs0 := (fun x => (x.1, set_type QCBOR_TYPE_NONE x.2)) <$> fs in
  match seen es with
  | Some es' =>
      exists fs' c', qcbor_util_get_items_in_map uninit_item fuel c (fs ++ (0, u) :: tl) =
          Some (ATTEST_TOKEN_ERR_SUCCESS, fs' ++ (0, u) :: tl, c') /\ ctx_items c' [] /\
        Forall2 (found_item 1 es') fs0 fs'
  | None =>
      exists fs' c', qcbor_util_get_items_in_map uninit_item fuel c (fs ++ (0, u) :: tl) =
          Some (ATTEST_TOKEN_ERR_CBOR_NOT_WELL_FORMED, fs', c')
  end.
Proof.
  intros Hwf Hfs Hc Hf fs0. unfold qcbor_util_get_items_in_map, clear_items.
  rewrite map_items_app by done. fold fs0. rewrite map_items_of in Hc.
  destruct (law_next _ _ _ uninit_item Hc) as (c1 & -> & Hc1).
  cbn [uDataType uNestingLevel uNextNestLevel item_of type_of children]. rewrite Z.eqb_refl. cbn [negb].
  assert (Forall (fun x => x.1 <> 0) fs0) as Hfs0 by (by apply Forall_fmap).
  destruct (decide (es = [])) as [->|Hne].
  - exists fs0, c1. destruct fuel; by split_and!; [| |apply found_refl].
  - apply (get_items_loop_spec es 0 0 c1); [done | by apply wf_entries | lia | done | done |].
    unfold fuel_for in Hf. change (0 + 1) with 1. lia.
Qed.

(** The value of a label, as [qcbor_util_get_item_in_map] finds it. *)
Definition seen_value (l : Z) (es : list (label * cbor)) : option (option cbor) :=
  last_value l <$> seen es.

Lemma get_item_in_map_spec es c l it0 fuel :
  wf (CMap es) -> l <> 0 -> ctx_items c (items 0 NoLabel 0 (CMap es)) -> (fuel_for es <= fuel)%nat ->
  match seen_value l es with
  | Some (Some t) =>
      exists next c', qcbor_util_get_item_in_map uninit_item fuel c l it0 =
          Some (ATTEST_TOKEN_ERR_SUCCESS, item_of 1 (LabelInt l) next t, c') /\ ctx_items c' []
  | Some None =>
      exists c', qcbor_util_get_item_in_map uninit_item fuel c l it0 =
          Some (ATTEST_TOKEN_ERR_NOT_FOUND, it0, c')
  | None =>
      exists c', qcbor_util_get_item_in_map uninit_item fuel c l it0 =
          Some (ATTEST_TOKEN_ERR_CBOR_NOT_WELL_FORMED, it0, c')
  end.
Proof.
  intros Hwf Hl Hc Hf. unfold qcbor_util_get_item_in_map, seen_value.
  pose proof (get_items_in_map_spec es c [(l, uninit_item)] uninit_item [] fuel Hwf) as H.
  cbn [app fmap list_fmap fst snd] in H. destruct (seen es) as [es'|] eqn:Hseen;
    cbn [fmap option_fmap option_map].
  - destruct H as (fs' & c' & -> & Hc' & Hfs); [by repeat constructor | done | done |].
    inversion Hfs as [|? [l' it] ? fs'' [Hl' Hit] Hnil]; subst. inversion Hnil; subst.
    cbn [mbind option_bind app head fst snd] in *. subst l'.
    rewrite attest_success. cbn [negb Z.eqb].
    destruct (last_value l es') as [t|] eqn:Hlast.
    + destruct Hit as [next ->]. exists next, c'. split; [|done].
      cbn [uDataType item_of]. assert (wf_node t) as Ht.
      { apply (last_value_wf l es es'); [done | by apply wf_entries | done]. }
      rewrite (proj2 (Z.eqb_neq (type_of t) QCBOR_TYPE_NONE)); [done|]. by apply type_of_not_none.
    + subst it. cbn [uDataType set_type]. rewrite Z.eqb_refl. by exists c'.
  - destruct H as (fs' & c' & ->); [by repeat constructor | done | done |].
    cbn [mbind option_bind]. rewrite (proj2 (Z.eqb_neq _ 0)); [by exists c'|].
    rewrite <- attest_success. by apply (errs_ne 2 0).
Qed.

Lemma head_not_map lvl lab next t :
  wf_node t -> (forall es, t <> CMap es) -> (uDataType (item_of lvl lab next t) =? QCBOR_TYPE_MAP) = false.
Proof.
  intros Hwf Hm. pose proof (type_of_container t Hwf) as Hc. cbn [uDataType item_of].
  destruct t as [| | | | |ts|es]; cbn [is_container type_of] in *;
    try (by apply orb_false_iff in Hc as [? _]); [|by destruct (Hm es)].
  apply Z.eqb_neq. by apply (types_ne 5 6).
Qed.

Lemma get_item_claim t c l it0 fuel :
  wf t -> l <> 0 -> ctx_items c (items 0 NoLabel 0 t) -> (fuel_for (children t) <= fuel)%nat ->
  match claim l t with
  | inr v =>
      exists next c', qcbor_util_get_item_in_map uninit_item fuel c l it0 =
          Some (ATTEST_TOKEN_ERR_SUCCESS, item_of 1 (LabelInt l) next v, c') /\ ctx_items c' []
  | inl e =>
      e <> ATTEST_TOKEN_ERR_SUCCESS /\
      exists c', qcbor_util_get_item_in_map uninit_item fuel c l it0 = Some (e, it0, c')
  end.
Proof.
  intros Hwf Hl Hc Hf. assert ((exists es, t = CMap es) \/ forall es, t <> CMap es) as [[es ->]|Hm]
    by (destruct t; try (by right); left; eauto).
  - pose proof (get_item_in_map_spec es c l it0 fuel Hwf Hl Hc Hf) as H.
    unfold seen_value in H. cbn [claim]. destruct (seen es) as [es'|]; cbn [fmap option_fmap option_map] in H.
    + destruct (last_value l es'); [done|]. split; [by apply (errs_ne 4 0) | done].
    + split; [by apply (errs_ne 2 0) | done].
  - assert (claim l t = inl ATTEST_TOKEN_ERR_CBOR_STRUCTURE) as ->
      by (destruct t; try done; exfalso; by eapply Hm).
    assert (ATTEST_TOKEN_ERR_CBOR_STRUCTURE <> ATTEST_TOKEN_ERR_SUCCESS) as Hs by by apply (errs_ne 1 0).
    split; [done|]. unfold qcbor_util_get_item_in_map, qcbor_util_get_items_in_map.
    rewrite items_eq in Hc. destruct (law_next _ _ _ uninit_item Hc) as (c' & -> & _).
    rewrite head_not_map by (first [by destruct Hwf | done]). cbn [negb mbind option_bind].
    rewrite (proj2 (Z.eqb_neq _ 0)) by (rewrite <- attest_success; done). by exists c'.
Qed.

Lemma top_level_claim t p l ty it0 fuel :
  encodes p t -> l <> 0 -> (fuel_for (children t) <= fuel)%nat ->
  exists next, qcbor_util_get_top_level_item_in_map uninit_item fuel (Some p) l ty it0 =
    Some match claim l t with
         | inl e => (e, it0)
         | inr v => if type_of v =? ty
                    then (ATTEST_TOKEN_ERR_SUCCESS, item_of 1 (LabelInt l) next v)
                    else (ATTEST_TOKEN_ERR_CBOR_TYPE, it0)
         end.
Proof.
  intros Hp Hl Hf. unfold qcbor_util_get_top_level_item_in_map.
  rewrite law_is_null, bool_decide_false by done.
  pose proof (get_item_claim t _ l uninit_item fuel (law_wf p t Hp) Hl (law_init p t Hp) Hf) as H.
  destruct (claim l t) as [e|v].
  - destruct H as (He & c' & ->). cbn [mbind option_bind]. rewrite (proj2 (Z.eqb_neq _ _) He). by exists 0.
  - destruct H as (next & c' & -> & Hc'). cbn [mbind option_bind]. rewrite Z.eqb_refl. cbn [negb].
    rewrite law_finish, Z.eqb_refl by done. cbn [negb uDataType item_of]. exists next.
    by destruct (type_of v =? ty).
Qed.

Abbreviation next_level := (after 1 0).

Lemma entry_items_1 lab t es :
  entry_items 1 0 ((lab, t) :: es) =
  item_of 1 lab (next_level es) t :: entry_items 2 (next_level es) (children t) ++ entry_items 1 0 es.
Proof. apply (entry_items_step 1 0). Qed.

Lemma label_matches lab l nx t :
  wf_label lab ->
  (uLabelType (item_of 1 lab nx t) =? QCBOR_TYPE_INT64) && (label_int64 (item_of 1 lab nx t) =? l) =
  bool_decide (lab = LabelInt l).
Proof.
  intros Hlab. cbn [uLabelType label_int64 item_of]. destruct lab as [|z|ty].
  - by rewrite (proj2 (Z.eqb_neq _ _)) by by apply (types_ne 0 1).
  - rewrite Z.eqb_refl. cbn [andb]. destruct (Z.eqb_spec z l) as [->|]; case_bool_decide; congruence.
  - by rewrite (proj2 (Z.eqb_neq _ _)) by done.
Qed.

(** How the search ends: at a value with its contents next, or with an error. *)
Definition search_result (l : Z) (es : list (label * cbor)) (r : option (Z * QCBORItem * C)) : Prop :=
  match search l es with
  | inr (t, rest) =>
      exists c', r = Some (ATTEST_TOKEN_ERR_SUCCESS, item_of 1 (LabelInt l) (next_level rest) t, c') /\
        ctx_items c' (entry_items 2 (next_level rest) (children t) ++ entry_items 1 0 rest)
  | inl e => exists it c', r = Some (e, it, c')
  end.

Lemma labeled_item_loop_spec es : forall m c l it fuel,
  Forall (fun e => wf_label e.1 /\ wf_node e.2) es -> es = [] \/ uNextNestLevel m = 1 ->
  ctx_items c (entry_items 1 0 es) -> (length (entry_items 1 0 es) + 1 < fuel)%nat ->
  search_result l es (labeled_item_loop uninit_item fuel m c l it).
Proof.
  induction es as [|[lab t] es IH]; intros m c l it fuel Hwf Hm Hc Hf; unfold search_result in *;
    (destruct fuel as [|fuel]; [lia|]); cbn [labeled_item_loop search].
  { destruct (law_end c it Hc) as (e & it' & c' & -> & He).
    destruct (Z.eqb_spec e QCBOR_SUCCESS); [done|]. by exists it', c'. }
  destruct Hm as [|Hm]; [done|]. apply Forall_cons in Hwf as [[Hlab Ht] Hwf]. simpl in Hlab, Ht.
  rewrite entry_items_1 in Hc, Hf. cbn [length] in Hf. rewrite length_app in Hf.
  destruct (law_next _ _ _ it Hc) as (c1 & -> & Hc1). rewrite Z.eqb_refl. cbn [negb].
  rewrite label_matches by done. destruct (decide (lab = LabelInt l)) as [->|Hne].
  { rewrite bool_decide_true by done. by exists c1. }
  rewrite bool_decide_false by done. destruct (empty_container t) eqn:Hemp.
  - assert (children t = []) as Hch by (by destruct t as [| | | | |[]|[]]).
    rewrite Hch in Hc1, Hf. cbn [entry_items app length] in *.
    destruct (consume_empty_spec 1 lab 0 t c1 0 es fuel) as (e & n & c2 & -> & He);
      [done | done | lia | done | lia |].
    cbn [mbind option_bind]. case_decide as Hes.
    { rewrite (proj2 (Z.eqb_neq e 0)) by (rewrite <- qcbor_success; done). by eexists _, _. }
    destruct He as (-> & -> & Hc2). rewrite qcbor_success. cbn [negb Z.eqb].
    assert (next_level es = 1) as -> by (by destruct es).
    cbn [uNextNestLevel item_of]. rewrite Hch, decide_True, Hm by done. cbn [Z.ltb Z.compare].
    destruct fuel as [|fuel]; [lia|]. cbn [labeled_item_loop].
    destruct (law_end c2 (item_of 1 lab 1 t) Hc2) as (err & it' & c' & -> & Herr).
    destruct (Z.eqb_spec err QCBOR_SUCCESS); [done|]. by eexists _, _.
  - destruct (consume_item_spec 1 lab (next_level es) t c1 0 (entry_items 1 0 es) fuel)
      as (c2 & -> & Hc2); [done | done | by destruct es | done | change (1 + 1) with 2; lia |].
    cbn [mbind option_bind]. rewrite qcbor_success. cbn [negb Z.eqb].
    cbn [uNextNestLevel item_of]. rewrite Hm.
    assert (children t = [] <-> is_container t = false) as Hch
      by (destruct t as [| | | | |[]|[]]; done).
    destruct es as [|e es].
    + cbn [after]. destruct (is_container t).
      * rewrite decide_False by naive_solver. cbn [Z.ltb Z.compare Z.add].
        destruct fuel as [|fuel]; [lia|]. cbn [labeled_item_loop].
        destruct (law_end c2 (item_of 1 lab 0 t) Hc2) as (err & it' & c' & -> & He).
        destruct (Z.eqb_spec err QCBOR_SUCCESS); [done|]. by eexists _, _.
      * rewrite decide_True by naive_solver. by eexists _, _.
    + cbn [after]. assert ((if decide (children t = []) then 1 else 1 + 1) <? 1 = false) as ->
        by (by case_decide).
      apply IH; [done | by right | done | lia].
Qed.

Lemma decode_to_labeled_item_spec es c l it fuel :
  wf (CMap es) -> ctx_items c (items 0 NoLabel 0 (CMap es)) -> (fuel_for es <= fuel)%nat ->
  search_result l es (qcbor_util_decode_to_labeled_item uninit_item fuel c l it).
Proof.
  intros Hwf Hc Hf. unfold qcbor_util_decode_to_labeled_item. rewrite map_items_of in Hc.
  destruct (law_next _ _ _ uninit_item Hc) as (c1 & -> & Hc1).
  cbn [uDataType item_of type_of]. rewrite Z.eqb_refl. cbn [negb].
  apply labeled_item_loop_spec; [by apply wf_entries | | done | unfold fuel_for in Hf; lia].
  destruct es; [by left | by right].
Qed.
End spec.

(** ** Termination on any input *)

Section termination.
  Context {QT : QcborTypes} {AE : AttestTokenErr} {TL : QcborTypesLaws}.
  Context {C : Type} {QD : QcborDecoder C} {QP : QcborProgress C}.
  Variable uninit_item : QCBORItem.
  Implicit Types (c : C) (fuel : nat).

(** The result is there, and its context is no longer than [c]. *)
Definition ends {A} (c : C) (r : option (A * C)) : Prop :=
  exists a c', r = Some (a, c') /\ (bytes_left c' <= bytes_left c)%nat.

Lemma consume_loop_ends fuel : forall lvl c it,
  (bytes_left c < fuel)%nat -> ends c (consume_loop fuel lvl c it).
Proof.
  induction fuel as [|fuel IH]; intros lvl c it Hf; [lia|]. cbn [consume_loop].
  destruct (QCBORDecode_GetNext c it) as [[e it'] c'] eqn:Hn. pose proof (law_left _ _ _ _ _ Hn).
  destruct (Z.eqb_spec e QCBOR_SUCCESS) as [->|]; cbn [negb]; [|by eexists _, _].
  apply law_consumes in Hn. destruct (lvl <=? uNextNestLevel it'); [|by eexists _, _].
  destruct (IH lvl c' it') as (a & c2 & -> & Hc2); [lia|]. exists a, c2. split; [done | lia].
Qed.

Lemma consume_item_ends fuel c it n :
  (bytes_left c < fuel)%nat -> ends c (qcbor_util_consume_item uninit_item fuel c it n).
Proof.
  intros Hf. unfold qcbor_util_consume_item. destruct (_ || _); [|by eexists _, _].
  destruct (consume_loop_ends fuel (uNextNestLevel it) c uninit_item Hf) as ([e it'] & c' & -> & Hc).
  cbn [mbind option_bind]. destruct (negb _); by eexists _, _.
Qed.

Lemma get_items_loop_ends fuel : forall lvl n c it fs,
  (bytes_left c < fuel)%nat -> ends c (get_items_loop uninit_item fuel lvl n c it fs).
Proof.
  induction fuel as [|fuel IH]; intros lvl n c it fs Hf; [lia|]. cbn [get_items_loop].
  destruct (n <=? lvl); [by eexists _, _|].
  destruct (QCBORDecode_GetNext c it) as [[e it'] c'] eqn:Hn. pose proof (law_left _ _ _ _ _ Hn).
  destruct (Z.eqb_spec e QCBOR_SUCCESS) as [->|]; cbn [negb]; [|by eexists _, _].
  apply law_consumes in Hn.
  destruct (consume_item_ends fuel c' it' n) as ([e n'] & c2 & -> & Hc2); [lia|].
  cbn [mbind option_bind]. destruct (negb (e =? 0)); [eexists _, _; split; [done | lia]|].
  edestruct IH as (a & c3 & -> & Hc3); [|exists a, c3; split; [done|]]; lia.
Qed.

Lemma labeled_item_loop_ends fuel : forall m c l it,
  (bytes_left c < fuel)%nat -> ends c (labeled_item_loop uninit_item fuel m c l it).
Proof.
  induction fuel as [|fuel IH]; intros m c l it Hf; [lia|]. cbn [labeled_item_loop].
  destruct (QCBORDecode_GetNext c it) as [[e it'] c'] eqn:Hn. pose proof (law_left _ _ _ _ _ Hn).
  destruct (Z.eqb_spec e QCBOR_SUCCESS) as [->|]; cbn [negb]; [|by eexists _, _].
  apply law_consumes in Hn. destruct (_ && _); [by eexists _, _|].
  destruct (consume_item_ends fuel c' it' 0) as ([e n'] & c2 & -> & Hc2); [lia|].
  cbn [mbind option_bind]. destruct (negb (e =? 0)); [eexists _, _; split; [done | lia]|].
  destruct (_ <? _); [eexists _, _; split; [done | lia]|].
  edestruct IH as (a & c3 & -> & Hc3); [|exists a, c3; split; [done|]]; lia.
Qed.

Lemma get_items_in_map_ends fuel c fs :
  (bytes_left c < fuel)%nat -> ends c (qcbor_util_get_items_in_map uninit_item fuel c fs).
Proof.
  intros Hf. unfold qcbor_util_get_items_in_map.
  destruct (QCBORDecode_GetNext c uninit_item) as [[e it'] c'] eqn:Hn.
  pose proof (law_left _ _ _ _ _ Hn). destruct (negb _); [by eexists _, _|].
  edestruct (get_items_loop_ends fuel) as (a & c3 & -> & Hc3); [|exists a, c3; split; [done|]]; lia.
Qed.

Lemma decode_to_labeled_item_ends fuel c l it :
  (bytes_left c < fuel)%nat -> ends c (qcbor_util_decode_to_labeled_item uninit_item fuel c l it).
Proof.
  intros Hf. unfold qcbor_util_decode_to_labeled_item.
  destruct (QCBORDecode_GetNext c uninit_item) as [[e it'] c'] eqn:Hn.
  pose proof (law_left _ _ _ _ _ Hn). destruct (negb _); [by eexists _, _|].
  edestruct (labeled_item_loop_ends fuel) as (a & c3 & -> & Hc3); [|exists a, c3; split; [done|]]; lia.
Qed.
Lemma map_items_length f fs : length (map_items f fs) = length fs.
Proof. induction fs as [|[l it] fs IH]; [done|]. cbn [map_items]. case_match; simpl; congruence. Qed.

Lemma get_items_loop_length fuel : forall lvl n c it fs e fs' c',
  get_items_loop uninit_item fuel lvl n c it fs = Some (e, fs', c') -> length fs' = length fs.
Proof.
  induction fuel as [|fuel IH]; intros lvl n c it fs e fs' c'; cbn [get_items_loop];
    (destruct (n <=? lvl); [by intros [= _ <- _]|]); [done|].
  destruct (QCBORDecode_GetNext c it) as [[e1 it'] c1]. destruct (negb _); [by intros [= _ <- _]|].
  assert (length (if uLabelType it' =? QCBOR_TYPE_INT64 then record_item it' fs else fs) = length fs)
    as <- by (case_match; [apply map_items_length | done]).
  destruct (qcbor_util_consume_item _ _ _ _ _) as [[[e2 n'] c2]|]; cbn [mbind option_bind]; [|done].
  destruct (negb _); [by intros [= _ <- _] | apply IH].
Qed.

Lemma get_item_in_map_ends fuel c l it :
  (bytes_left c < fuel)%nat -> ends c (qcbor_util_get_item_in_map uninit_item fuel c l it).
Proof.
  intros Hf. unfold qcbor_util_get_item_in_map.
  destruct (get_items_in_map_ends fuel c [(l, uninit_item); (0, uninit_item)] Hf)
    as ([e fs] & c' & Heq & Hc). rewrite Heq. cbn [mbind option_bind].
  destruct (negb _); [by eexists _, _|].
  assert (length fs = 2%nat) as Hlen.
  { unfold qcbor_util_get_items_in_map in Heq.
    destruct (QCBORDecode_GetNext c uninit_item) as [[e1 it'] c1].
    destruct (negb _); [injection Heq as _ <- _ | apply get_items_loop_length in Heq as ->];
      apply map_items_length. }
  destruct fs as [|[l' found] fs]; [done|]. cbn [head mbind option_bind].
  destruct (_ =? _); by eexists _, _.
Qed.

Lemma top_level_ends {QB : QUsefulBuf} fuel p l ty it :
  (bytes_left (QCBORDecode_Init p) < fuel)%nat ->
  exists r, qcbor_util_get_top_level_item_in_map uninit_item fuel p l ty it = Some r.
Proof.
  intros Hf. unfold qcbor_util_get_top_level_item_in_map. destruct (q_useful_buf_c_is_null p); [by eexists|].
  destruct (get_item_in_map_ends fuel _ l uninit_item Hf) as ([e found] & c' & -> & _).
  cbn [mbind option_bind]. repeat case_match; by eexists.
Qed.
End termination.
