(* ===== verification/CborRef.v ===== *)
(** * A decoder that meets the laws of [Qcbor]

    A CBOR parser for definite lengths (RFC 8949), the decoder that walks the
    items of the tree it returns, and proofs that the two satisfy every law
    that [Qcbor] asks of QCBOR: the laws can hold, and theorems about tokens
    have concrete instances. *)

From S2P Require Import Prelude Qcbor.
Local Open Scope Z_scope.

#[export] Instance ref_useful_buf : QUsefulBuf := {
  q_useful_buf_c_is_null b := bool_decide (b = None);
  q_useful_buf_c_is_null_or_empty b := bool_decide (b = None \/ b = Some []);
  q_useful_buf_compare b b' := if decide (b = b') then 0 else 1;
  q_useful_buf_tail b n :=
    bs ← b; if Z.of_nat (length bs) <? n then None else Some (drop (Z.to_nat n) bs);
  q_useful_buf_is_value b v :=
    match b with
    | Some bs => match list_find (fun x => x <> v) bs with
                 | Some (i, _) => Z.of_nat i
                 | None => 2 ^ 32 - 1
                 end
    | None => 2 ^ 32 - 1
    end;
}.

#[export] Instance ref_useful_buf_laws : QUsefulBufLaws.
Proof.
  split; [done | done |]. intros b b'. simpl.
  case_decide as Hb; split; [|done|done|].
  - intros _. by injection Hb.
  - intros ->. by destruct Hb.
Qed.

#[export] Instance ref_qcbor_types : QcborTypes := {
  QCBOR_TYPE_NONE := 0; QCBOR_TYPE_INT64 := 2; QCBOR_TYPE_UINT64 := 3; QCBOR_TYPE_ARRAY := 4;
  QCBOR_TYPE_MAP := 5; QCBOR_TYPE_BYTE_STRING := 6; QCBOR_TYPE_TEXT_STRING := 7;
  QCBOR_SUCCESS := 0; QCBOR_ERR_ARRAY_OR_MAP_STILL_OPEN := 8;
}.

#[export] Instance ref_attest_err : AttestTokenErr := {
  ATTEST_TOKEN_ERR_SUCCESS := 0; ATTEST_TOKEN_ERR_CBOR_STRUCTURE := 5;
  ATTEST_TOKEN_ERR_CBOR_NOT_WELL_FORMED := 4; ATTEST_TOKEN_ERR_CBOR_TYPE := 11;
  ATTEST_TOKEN_ERR_NOT_FOUND := 16; ATTEST_TOKEN_ERR_COSE_VALIDATION := 9;
  ATTEST_TOKEN_ERR_NO_VALID_TOKEN := 12; ATTEST_TOKEN_ERR_INTEGER_VALUE := 13;
  ATTEST_TOKEN_ERR_SW_COMPONENTS_MISSING := 17;
}.

#[export] Instance ref_types_laws : QcborTypesLaws.
Proof. split; [by apply (bool_decide_unpack _) | done | done | by apply (bool_decide_unpack _)]. Qed.

(** ** The parser *)

Definition be (bs : list Z) : Z := fold_left (fun n b => n * 256 + b) bs 0.

(** The argument of an item: its additional information and what follows. *)
Definition ref_argument (ai : Z) (bs : list Z) : option (Z * list Z) :=
  let long n := if (n <=? length bs)%nat then Some (be (take n bs), drop n bs) else None in
  if ai <? 24 then Some (ai, bs)
  else if ai =? 24 then long 1%nat else if ai =? 25 then long 2%nat
  else if ai =? 26 then long 4%nat else if ai =? 27 then long 8%nat else None.

Definition ref_label (t : cbor) : option label :=
  match t with
  | CInt64 z => Some (LabelInt z)
  | CUint64 _ => Some (LabelOther 3)
  | CBytes _ => Some (LabelOther 6)
  | CText _ => Some (LabelOther 7)
  | _ => None
  end.

(** [n] times [f]. *)
Fixpoint ref_many {A} (f : list Z -> option (A * list Z)) (n : nat) (bs : list Z) :
    option (list A * list Z) :=
  match n with
  | O => Some ([], bs)
  | S n => '(x, bs) ← f bs; '(xs, bs) ← ref_many f n bs; Some (x :: xs, bs)
  end.

(** An item from a leaf's major type and argument. *)
Definition ref_leaf (major n : Z) (bs : list Z) : option (cbor * list Z) :=
  let string (f : list Z -> cbor) :=
    if Z.of_nat (length bs) <? n then None
    else Some (f (take (Z.to_nat n) bs), drop (Z.to_nat n) bs) in
  if major =? 0 then
    if n <? 2 ^ 63 then Some (CInt64 n, bs) else if n <? 2 ^ 64 then Some (CUint64 n, bs) else None
  else if major =? 1 then if n <? 2 ^ 63 then Some (CInt64 (-1 - n), bs) else None
  else if major =? 2 then string CBytes
  else if major =? 3 then string CText
  else if major =? 7 then if (20 <=? n) && (n <? 24) then Some (COther n, bs) else None
  else None.

Fixpoint ref_item (depth : nat) (bs : list Z) : option (cbor * list Z) :=
  match depth, bs with
  | S depth, b :: bs =>
      let major := b / 32 in
      '(n, bs) ← ref_argument (b mod 32) bs;
      if n <? 0 then None
      else if (major =? 4) || (major =? 5) then
        if Z.of_nat (length bs) <? n then None
        else if major =? 4 then
          '(ts, bs) ← ref_many (ref_item depth) (Z.to_nat n) bs; Some (CArray ts, bs)
        else
          '(es, bs) ← ref_many (fun bs =>
              '(k, bs) ← ref_item depth bs; lab ← ref_label k;
              '(v, bs) ← ref_item depth bs; Some ((lab, v), bs)) (Z.to_nat n) bs;
          Some (CMap es, bs)
      else ref_leaf major n bs
  | _, _ => None
  end.

(** A whole encoding; [QCBOR_MAX_ARRAY_NESTING] bounds the depth. *)
Definition ref_decode (bs : list Z) : option cbor :=
  match ref_item 16 bs with Some (t, []) => Some t | _ => None end.

(** ** The decoder *)

#[export] Instance ref_decoder : QcborDecoder (list QCBORItem) := {
  QCBORDecode_Init b := match b ≫= ref_decode with Some t => items 0 NoLabel 0 t | None => [] end;
  QCBORDecode_GetNext c prev := match c with [] => (9, prev, []) | it :: c => (0, it, c) end;
  QCBORDecode_Finish c := match c with [] => 0 | _ => 8 end;
}.

#[export] Program Instance ref_progress : QcborProgress (list QCBORItem) := {
  bytes_left := length;
}.
Next Obligation. intros c prev e it c'. destruct c; intros [= _ _ <-]; simpl; lia. Qed.
Next Obligation. intros c prev it c'. destruct c; [done|]. intros [= _ <-]. simpl; lia. Qed.

Lemma ref_many_Forall {A} (Q : A -> Prop) f n : forall bs xs bs',
  (forall bs x bs', f bs = Some (x, bs') -> Q x) ->
  ref_many f n bs = Some (xs, bs') -> Forall Q xs.
Proof.
  induction n as [|n IH]; intros bs xs bs' Hf; cbn [ref_many]; [by intros [= <- _]|].
  destruct (f bs) as [[x bs1]|] eqn:Hx; cbn [mbind option_bind]; [|done].
  destruct (ref_many f n bs1) as [[xs1 bs2]|] eqn:Hxs; cbn [mbind option_bind]; [|done].
  intros [= <- _]. constructor; [by eapply Hf | by eapply IH].
Qed.

Lemma ref_leaf_wf major n bs t bs' : 0 <= n -> ref_leaf major n bs = Some (t, bs') -> wf t.
Proof.
  intros Hn. unfold ref_leaf. intros H. repeat case_match; simplify_eq; constructor; try done; simpl.
  - destruct (Z.ltb_spec n (2 ^ 63)); lia.
  - destruct (Z.ltb_spec n (2 ^ 63)), (Z.ltb_spec n (2 ^ 64)); lia.
  - destruct (Z.ltb_spec n (2 ^ 63)); lia.
  - rename select (_ && _ = true) into Hr. apply andb_true_iff in Hr as [?%Z.leb_le _].
    rewrite !not_elem_of_cons. repeat split; try lia. apply not_elem_of_nil.
Qed.

Lemma ref_item_wf depth : forall bs t bs', ref_item depth bs = Some (t, bs') -> wf t.
Proof.
  induction depth as [|depth IH]; intros bs t bs'; [done|]. cbn [ref_item]. destruct bs as [|b bs]; [done|].
  destruct (ref_argument _ _) as [[n bs1]|]; cbn [mbind option_bind]; [|done].
  destruct (Z.ltb_spec n 0); [done|]. destruct (_ || _); [|by apply ref_leaf_wf].
  destruct (_ <? n); [done|]. destruct (_ =? 4).
  - destruct (ref_many _ _ _) as [[ts bs2]|] eqn:Hm; cbn [mbind option_bind]; [|done].
    intros [= <- _]. constructor; [done|]. cbn [children]. apply Forall_fmap.
    apply (ref_many_Forall wf) in Hm; [|by eauto]. eapply Forall_impl; [exact Hm|]. done.
  - destruct (ref_many _ _ _) as [[es bs2]|] eqn:Hm; cbn [mbind option_bind]; [|done].
    intros [= <- _]. constructor; [done|]. cbn [children].
    eapply (ref_many_Forall (fun e => wf_label e.1 /\ wf e.2)); [|exact Hm].
    intros bs3 x bs4. cbn beta. destruct (ref_item depth bs3) as [[k bs5]|]; cbn [mbind option_bind]; [|done].
    destruct (ref_label k) as [lab|] eqn:Hl; cbn [mbind option_bind]; [|done].
    destruct (ref_item depth bs5) as [[v bs6]|] eqn:Hv; cbn [mbind option_bind]; [|done].
    intros [= <- _]. split; [|by eapply IH]. destruct k; simplify_eq/=; lia.
Qed.

#[export] Program Instance ref_laws : QcborLaws (list QCBORItem) := {
  encodes p t := ref_decode p = Some t;
  ctx_items c its := c = its;
}.
Next Obligation.
  intros p t. unfold ref_decode. destruct (ref_item 16 p) as [[t' [|]]|] eqn:H; intros [= <-].
  by eapply ref_item_wf.
Qed.
Next Obligation. intros p t H. simpl. by rewrite H. Qed.
Next Obligation. intros c it its prev ->. by eexists. Qed.
Next Obligation. intros c prev ->. by eexists _, _, _. Qed.
Next Obligation. by intros c ->. Qed.
