(* ===== verification/QcborProofs.v ===== *)
(** * Theorems about the CBOR map functions

    What the functions of [Qcbor] find in the encoding of a tree, that they
    end on any input, and where an empty map or array misleads them. *)

From S2P Require Import Prelude Qcbor CborRef.
Local Open Scope Z_scope.

(** ** Entries without empty containers *)

Definition no_empty (es : list (label * cbor)) : Prop :=
  Forall (fun e => empty_container e.2 = false) es.

#[export] Instance no_empty_dec es : Decision (no_empty es).
Proof. unfold no_empty. apply _. Defined.

Lemma seen_at_empty es1 lab t es2 :
  no_empty es1 -> empty_container t = true ->
  seen (es1 ++ (lab, t) :: es2) = if decide (es2 = []) then None else Some (es1 ++ [(lab, t)]).
Proof.
  intros H Ht. induction H as [|[lab' t'] es1 H' _ IH]; cbn [app seen].
  - by rewrite Ht.
  - simpl in H'. rewrite H', IH. by case_decide.
Qed.

(** [es] has no claim labelled [l]. *)
Definition no_label (l : Z) (es : list (label * cbor)) : Prop := Forall (fun e => e.1 <> LabelInt l) es.

Section search.
  Context {AE : AttestTokenErr}.

Lemma search_found l es1 v es2 :
  no_empty es1 -> no_label l es1 -> search l (es1 ++ (LabelInt l, v) :: es2) = inr (v, es2).
Proof.
  induction es1 as [|[lab t] es1 IH]; cbn [app search]; intros He Hl; [by rewrite decide_True|].
  apply Forall_cons in He as [Ht He], Hl as [Hlab Hl]. simpl in *.
  rewrite decide_False by done. rewrite Ht. specialize (IH He Hl). by destruct es1.
Qed.

Lemma search_absent l es lab t :
  no_empty (es ++ [(lab, t)]) -> no_label l (es ++ [(lab, t)]) ->
  search l (es ++ [(lab, t)]) =
  inl (if is_container t then ATTEST_TOKEN_ERR_CBOR_NOT_WELL_FORMED else ATTEST_TOKEN_ERR_NOT_FOUND).
Proof.
  induction es as [|[lab' t'] es IH]; cbn [app search]; intros He Hl;
    apply Forall_cons in He as [Ht He], Hl as [Hlab Hl]; simpl in *;
    (rewrite decide_False by done); rewrite Ht; [done|].
  specialize (IH He Hl). by destruct es.
Qed.
End search.

(** ** Properties *)

Section properties.
  Context {QB : QUsefulBuf} {QBL : QUsefulBufLaws} {QT : QcborTypes} {AE : AttestTokenErr}.
  Context {TL : QcborTypesLaws} {C : Type} {QD : QcborDecoder C} {QL : QcborLaws C}.

(** What [qcbor_util_get_items_in_map] leaves for the entry [x] of its list. *)
Definition got_item (es : list (label * cbor)) (x y : Z * QCBORItem) : Prop :=
  y.1 = x.1 /\
  match last_value x.1 es with
  | Some v => exists next, y.2 = item_of 1 (LabelInt x.1) next v
  | None => uDataType y.2 = QCBOR_TYPE_NONE
  end.

Lemma found_got es fs fs' :
  Forall2 (found_item 1 es) ((fun x => (x.1, set_type QCBOR_TYPE_NONE x.2)) <$> fs) fs' ->
  Forall2 (got_item es) fs fs'.
Proof.
  intros H. rewrite Forall2_fmap_l in H. eapply Forall2_impl; [exact H|]. intros x y [Hl Hi]. simpl in *.
  split; [done|]. destruct (last_value x.1 es); [done|]. by rewrite Hi.
Qed.

(** C18. On a map whose entries are not empty maps or arrays
    [qcbor_util_get_items_in_map] finds every requested label exactly: the
    last value of the label, [QCBOR_TYPE_NONE] for a label that is absent,
    whatever else (nested maps, text labels, other types) the map holds; and
    it reads the map to its end.  (Behind an empty map or array as the value of
    an entry it finds nothing: [empty_container_hides_claims].) *)
Theorem get_items_in_map_exact u p es fs fuel :
  encodes p (CMap es) -> no_empty es -> Forall (fun x => x.1 <> 0) fs ->
  (fuel_for es <= fuel)%nat ->
  exists fs' c',
    qcbor_util_get_items_in_map u fuel (QCBORDecode_Init (Some p)) (fs ++ [(0, u)]) =
      Some (ATTEST_TOKEN_ERR_SUCCESS, fs' ++ [(0, u)], c') /\
    Forall2 (got_item es) fs fs' /\ QCBORDecode_Finish c' = QCBOR_SUCCESS.
Proof.
  intros Hp He Hfs Hf.
  pose proof (get_items_in_map_spec u es _ fs u [] fuel (law_wf _ _ Hp) Hfs (law_init _ _ Hp) Hf) as H.
  rewrite (seen_all es He) in H. destruct H as (fs' & c' & Heq & Hc & Hfound).
  exists fs', c'. split_and!; [done | by apply found_got | by apply law_finish].
Qed.

(** An empty map or array as the value of a claim hides what follows it:
    [qcbor_util_consume_item] takes it for the start of the entries after it
    and consumes them.  Claims after it are reported as not found, whatever
    they are; when it is the last entry, looking up any claim of the
    well-formed map fails with [ATTEST_TOKEN_ERR_CBOR_NOT_WELL_FORMED]. *)
Theorem empty_container_hides_claims u p es1 lab t es2 l ty it fuel :
  encodes p (CMap (es1 ++ (lab, t) :: es2)) -> no_empty es1 -> empty_container t = true ->
  l <> 0 -> (fuel_for (es1 ++ (lab, t) :: es2) <= fuel)%nat ->
  (es2 <> [] -> last_value l (es1 ++ [(lab, t)]) = None ->
   qcbor_util_get_top_level_item_in_map u fuel (Some p) l ty it = Some (ATTEST_TOKEN_ERR_NOT_FOUND, it)) /\
  (es2 = [] ->
   qcbor_util_get_top_level_item_in_map u fuel (Some p) l ty it =
     Some (ATTEST_TOKEN_ERR_CBOR_NOT_WELL_FORMED, it)).
Proof.
  intros Hp He Ht Hl Hf. destruct (top_level_claim u _ p l ty it fuel Hp Hl Hf) as [next ->].
  cbn [claim]. rewrite seen_at_empty by done. split.
  - intros Hne Hlast. rewrite decide_False by done. by rewrite Hlast.
  - intros ->. done.
Qed.

(** [qcbor_util_decode_to_labeled_item] on a map whose entries are not
    empty maps or arrays stops at the first value of the label, with the
    value's contents next in the decoder.  For an absent label the result
    depends on the last entry: after a map or array the loop tries to read on
    and reports [ATTEST_TOKEN_ERR_CBOR_NOT_WELL_FORMED] instead of the
    documented [ATTEST_TOKEN_ERR_NOT_FOUND]. *)
Theorem decode_to_labeled_item_correct u p es l it fuel :
  encodes p (CMap es) -> no_empty es -> (fuel_for es <= fuel)%nat ->
  (forall es1 v es2, es = es1 ++ (LabelInt l, v) :: es2 -> no_label l es1 ->
   exists next c', qcbor_util_decode_to_labeled_item u fuel (QCBORDecode_Init (Some p)) l it =
       Some (ATTEST_TOKEN_ERR_SUCCESS, item_of 1 (LabelInt l) next v, c') /\
     ctx_items c' (entry_items 2 next (children v) ++ entry_items 1 0 es2)) /\
  (forall es1 lab v, es = es1 ++ [(lab, v)] -> no_label l es ->
   exists it' c', qcbor_util_decode_to_labeled_item u fuel (QCBORDecode_Init (Some p)) l it =
     Some (if is_container v then ATTEST_TOKEN_ERR_CBOR_NOT_WELL_FORMED
           else ATTEST_TOKEN_ERR_NOT_FOUND, it', c')).
Proof.
  intros Hp He Hf.
  pose proof (decode_to_labeled_item_spec u es _ l it fuel (law_wf _ _ Hp) (law_init _ _ Hp) Hf) as H.
  unfold search_result in H. split.
  - intros es1 v es2 -> Hl. rewrite search_found in H by (done || by apply Forall_app in He as [? _]).
    destruct H as (c' & -> & Hc). by exists (after 1 0 es2), c'.
  - intros es1 lab v -> Hl. by rewrite search_absent in H.
Qed.
End properties.

(** C39. On any input, well-formed or not, the map functions end: with more
    fuel than the input has bytes left there is a result. *)
Theorem map_functions_terminate {QB : QUsefulBuf} {QT : QcborTypes} {AE : AttestTokenErr}
    {C : Type} {QD : QcborDecoder C} {QP : QcborProgress C} u payload fuel :
  (bytes_left (QCBORDecode_Init payload) < fuel)%nat ->
  (forall l ty it, is_Some (qcbor_util_get_top_level_item_in_map u fuel payload l ty it)) /\
  (forall l it, is_Some (qcbor_util_decode_to_labeled_item u fuel (QCBORDecode_Init payload) l it)) /\
  (forall fs, is_Some (qcbor_util_get_items_in_map u fuel (QCBORDecode_Init payload) fs)).
Proof.
  intros Hf. split_and!; intros.
  - by apply top_level_ends.
  - destruct (decode_to_labeled_item_ends u fuel _ l it Hf) as (a & c & -> & _). by eexists.
  - destruct (get_items_in_map_ends u fuel _ fs Hf) as (a & c & -> & _). by eexists.
Qed.

(** ** Witnesses *)

Definition blank_item : QCBORItem := mkItem 0 0 0 0 0 0 0 None 0.

(** [{1: 7, "a": [2, {3: 4}], -2: h'0102', 1: 9}] *)
Definition map_bytes : list Z :=
  [164; 1; 7; 97; 97; 130; 2; 161; 3; 4; 33; 66; 1; 2; 1; 9].
Definition map_entries : list (label * cbor) :=
  [(LabelInt 1, CInt64 7); (LabelOther 7, CArray [CInt64 2; CMap [(LabelInt 3, CInt64 4)]]);
   (LabelInt (-2), CBytes [1; 2]); (LabelInt 1, CInt64 9)].

(** [{1: 7, 2: [], 3: 8}], [{1: 7, 2: []}] and [{1: 7, 2: [5]}] *)
Definition hiding_bytes : list Z := [163; 1; 7; 2; 128; 3; 8].
Definition ending_bytes : list Z := [162; 1; 7; 2; 128].
Definition array_last_bytes : list Z := [162; 1; 7; 2; 129; 5].

Example get_items_in_map_exact_witness :
  exists fs' c',
    qcbor_util_get_items_in_map blank_item 20 (QCBORDecode_Init (Some map_bytes))
      ([(1, blank_item); (-2, blank_item); (3, blank_item)] ++ [(0, blank_item)]) =
      Some (ATTEST_TOKEN_ERR_SUCCESS, fs' ++ [(0, blank_item)], c') /\
    Forall2 (got_item map_entries) [(1, blank_item); (-2, blank_item); (3, blank_item)] fs' /\
    QCBORDecode_Finish c' = QCBOR_SUCCESS.
Proof.
  apply (get_items_in_map_exact (QL := ref_laws) blank_item map_bytes map_entries
    [(1, blank_item); (-2, blank_item); (3, blank_item)] 20).
  - by vm_compute.
  - by apply (bool_decide_unpack _).
  - by repeat constructor.
  - by vm_compute; lia.
Defined.

Example empty_container_hides_claims_witness :
  qcbor_util_get_top_level_item_in_map blank_item 20 (Some hiding_bytes) 3 2 blank_item =
    Some (ATTEST_TOKEN_ERR_NOT_FOUND, blank_item) /\
  qcbor_util_get_top_level_item_in_map blank_item 20 (Some ending_bytes) 1 2 blank_item =
    Some (ATTEST_TOKEN_ERR_CBOR_NOT_WELL_FORMED, blank_item).
Proof.
  split.
  - apply (empty_container_hides_claims (QL := ref_laws) blank_item hiding_bytes
      [(LabelInt 1, CInt64 7)] (LabelInt 2) (CArray []) [(LabelInt 3, CInt64 8)]);
      first [done | by vm_compute | by apply (bool_decide_unpack _) | vm_compute; lia].
  - apply (empty_container_hides_claims (QL := ref_laws) blank_item ending_bytes
      [(LabelInt 1, CInt64 7)] (LabelInt 2) (CArray []) []);
      first [done | by vm_compute | by apply (bool_decide_unpack _) | vm_compute; lia].
Defined.

Example decode_to_labeled_item_correct_witness :
  exists it' c', qcbor_util_decode_to_labeled_item blank_item 20
      (QCBORDecode_Init (Some array_last_bytes)) 3 blank_item =
    Some (ATTEST_TOKEN_ERR_CBOR_NOT_WELL_FORMED, it', c').
Proof.
  apply (decode_to_labeled_item_correct (QL := ref_laws) blank_item array_last_bytes
    [(LabelInt 1, CInt64 7); (LabelInt 2, CArray [CInt64 5])]) with
    (es1 := [(LabelInt 1, CInt64 7)]) (lab := LabelInt 2) (v := CArray [CInt64 5]);
    first [done | by vm_compute | by apply (bool_decide_unpack _) | by repeat constructor
          | vm_compute; lia].
Defined.

Example map_functions_terminate_witness :
  is_Some (qcbor_util_get_top_level_item_in_map blank_item 20 (Some [255]) 1 2 blank_item).
Proof. apply (map_functions_terminate (QP := ref_progress)). vm_compute. lia. Defined.
