(* ===== verification/AttestDecode.v ===== *)
(** * The attestation token decoder: suites/attestation/attest_token_decode*

    attest_token_decode_common.c, the inline functions of attest_token_decode.h
    and attest_token_decode_{asymmetric,symmetric}.c over the map functions of
    [Qcbor].  t_cose, the values of the claim labels and of the error
    enumerations come from outside the repository and are parameters. *)

From S2P Require Import Prelude Qcbor.
Local Open Scope Z_scope.

Definition INT64_MAX : Z := 2 ^ 63 - 1.

(** The labels of the claims: tfm_attest_iat_defs.h and, for the Arm CCA
    profile, an offset from its [IAT_ARM_RANGE_BASE]. *)
Class IatLabels := {
  IAT_NONCE : Z;
  IAT_INSTANCE_ID : Z;
  IAT_BOOT_SEED : Z;
  IAT_CERTIFICATION_REFERENCE : Z;
  IAT_IMPLEMENTATION_ID : Z;
  IAT_CLIENT_ID : Z;
  IAT_SECURITY_LIFECYCLE : Z;
  IAT_PROFILE_DEFINITION : Z;
  IAT_VERIFICATION_SERVICE : Z;
  IAT_PLATFORM_HASH_ALGO_ID : Z;
  IAT_PLATFORM_CONFIG : Z;
  IAT_SW_COMPONENTS : Z;
  IAT_NO_SW_COMPONENTS : Z;
  NO_SW_COMPONENT_FIXED_VALUE : Z;
  IAT_SW_COMPONENT_MEASUREMENT_TYPE : Z;
  IAT_SW_COMPONENT_MEASUREMENT_VALUE : Z;
  IAT_SW_COMPONENT_VERSION : Z;
  IAT_SW_COMPONENT_SIGNER_ID : Z;
  IAT_SW_COMPONENT_MEASUREMENT_DESC : Z;
}.

(** The labels are distinct, and none is the terminator of a list. *)
Class IatLabelsLaws {IL : IatLabels} := {
  iat_NoDup : NoDup [0; IAT_NONCE; IAT_INSTANCE_ID; IAT_BOOT_SEED; IAT_CERTIFICATION_REFERENCE;
    IAT_IMPLEMENTATION_ID; IAT_CLIENT_ID; IAT_SECURITY_LIFECYCLE; IAT_PROFILE_DEFINITION;
    IAT_VERIFICATION_SERVICE; IAT_PLATFORM_HASH_ALGO_ID; IAT_PLATFORM_CONFIG; IAT_SW_COMPONENTS;
    IAT_NO_SW_COMPONENTS];
  sw_NoDup : NoDup [IAT_SW_COMPONENT_MEASUREMENT_TYPE; IAT_SW_COMPONENT_MEASUREMENT_VALUE;
    IAT_SW_COMPONENT_VERSION; IAT_SW_COMPONENT_SIGNER_ID; IAT_SW_COMPONENT_MEASUREMENT_DESC];
}.

(** [ATTEST_TOKEN_PROFILE_PSA_IOT_1], [..._PSA_2_0_0] and [..._ARM_CCA] *)
Inductive token_profile := PSA_IOT_1 | PSA_2_0_0 | ARM_CCA.

#[export] Instance token_profile_eq_dec : EqDecision token_profile.
Proof. solve_decision. Defined.

(** The other errors of attest_token.h. *)
Class AttestTokenErrMore := {
  ATTEST_TOKEN_ERR_UNSUPPORTED_SIG_ALG : Z;
  ATTEST_TOKEN_ERR_HASH_UNAVAILABLE : Z;
  ATTEST_TOKEN_ERR_INSUFFICIENT_MEMORY : Z;
  ATTEST_TOKEN_ERR_TAMPERING_DETECTED : Z;
  ATTEST_TOKEN_ERR_CBOR_FORMATTING : Z;
  ATTEST_TOKEN_ERR_TOO_SMALL : Z;
  ATTEST_TOKEN_ERR_COSE_FORMAT : Z;
  ATTEST_TOKEN_ERR_VERIFICATION_KEY : Z;
  ATTEST_TOKEN_ERR_GENERAL : Z;
}.

(** The enumerators are distinct from [ATTEST_TOKEN_ERR_SUCCESS]. *)
Class AttestErrMoreLaws {AE : AttestTokenErr} {AM : AttestTokenErrMore} := {
  attest_more_errors : Forall (fun e => e <> ATTEST_TOKEN_ERR_SUCCESS)
    [ATTEST_TOKEN_ERR_UNSUPPORTED_SIG_ALG; ATTEST_TOKEN_ERR_HASH_UNAVAILABLE;
     ATTEST_TOKEN_ERR_INSUFFICIENT_MEMORY; ATTEST_TOKEN_ERR_TAMPERING_DETECTED;
     ATTEST_TOKEN_ERR_CBOR_FORMATTING; ATTEST_TOKEN_ERR_TOO_SMALL; ATTEST_TOKEN_ERR_COSE_FORMAT;
     ATTEST_TOKEN_ERR_VERIFICATION_KEY; ATTEST_TOKEN_ERR_GENERAL];
}.

(** [enum t_cose_err_t], the values with a case of their own. *)
Class TCoseErr := {
  T_COSE_SUCCESS : Z;
  T_COSE_ERR_UNSUPPORTED_SIGNING_ALG : Z;
  T_COSE_ERR_UNSUPPORTED_HASH : Z;
  T_COSE_ERR_CBOR_NOT_WELL_FORMED : Z;
  T_COSE_ERR_INSUFFICIENT_MEMORY : Z;
  T_COSE_ERR_TAMPERING_DETECTED : Z;
  T_COSE_ERR_CBOR_FORMATTING : Z;
  T_COSE_ERR_TOO_SMALL : Z;
  T_COSE_ERR_PARAMETER_CBOR : Z;
  T_COSE_ERR_NON_INTEGER_ALG_ID : Z;
  T_COSE_ERR_SIG_VERIFY : Z;
  T_COSE_ERR_SHORT_CIRCUIT_SIG : Z;
  T_COSE_ERR_SIGNATURE_FORMAT : Z;
  T_COSE_ERR_MAC0_FORMAT : Z;
  T_COSE_ERR_NO_ALG_ID : Z;
  T_COSE_ERR_NO_KID : Z;
  T_COSE_ERR_BAD_SHORT_CIRCUIT_KID : Z;
  T_COSE_ERR_SIG_STRUCT : Z;
  T_COSE_ERR_UNKNOWN_KEY : Z;
  T_COSE_ERR_WRONG_TYPE_OF_KEY : Z;
}.

Section map_errors.
  Context {AE : AttestTokenErr} {AM : AttestTokenErrMore} {TE : TCoseErr}.

Definition map_t_cose_errors (t_cose_error : Z) : Z :=
  let is_one_of := existsb (Z.eqb t_cose_error) in
  if t_cose_error =? T_COSE_SUCCESS then ATTEST_TOKEN_ERR_SUCCESS
  else if t_cose_error =? T_COSE_ERR_UNSUPPORTED_SIGNING_ALG then ATTEST_TOKEN_ERR_UNSUPPORTED_SIG_ALG
  else if t_cose_error =? T_COSE_ERR_UNSUPPORTED_HASH then ATTEST_TOKEN_ERR_HASH_UNAVAILABLE
  else if t_cose_error =? T_COSE_ERR_CBOR_NOT_WELL_FORMED then ATTEST_TOKEN_ERR_CBOR_NOT_WELL_FORMED
  else if t_cose_error =? T_COSE_ERR_INSUFFICIENT_MEMORY then ATTEST_TOKEN_ERR_INSUFFICIENT_MEMORY
  else if t_cose_error =? T_COSE_ERR_TAMPERING_DETECTED then ATTEST_TOKEN_ERR_TAMPERING_DETECTED
  else if t_cose_error =? T_COSE_ERR_CBOR_FORMATTING then ATTEST_TOKEN_ERR_CBOR_FORMATTING
  else if t_cose_error =? T_COSE_ERR_TOO_SMALL then ATTEST_TOKEN_ERR_TOO_SMALL
  else if is_one_of [T_COSE_ERR_PARAMETER_CBOR; T_COSE_ERR_NON_INTEGER_ALG_ID]
  then ATTEST_TOKEN_ERR_CBOR_STRUCTURE
  else if is_one_of [T_COSE_ERR_SIG_VERIFY; T_COSE_ERR_SHORT_CIRCUIT_SIG]
  then ATTEST_TOKEN_ERR_COSE_VALIDATION
  else if t_cose_error =? T_COSE_ERR_SIGNATURE_FORMAT then ATTEST_TOKEN_ERR_COSE_FORMAT
  else if t_cose_error =? T_COSE_ERR_MAC0_FORMAT then ATTEST_TOKEN_ERR_COSE_FORMAT
  else if is_one_of [T_COSE_ERR_NO_ALG_ID; T_COSE_ERR_NO_KID; T_COSE_ERR_BAD_SHORT_CIRCUIT_KID;
                     T_COSE_ERR_SIG_STRUCT]
  then ATTEST_TOKEN_ERR_COSE_FORMAT
  else if is_one_of [T_COSE_ERR_UNKNOWN_KEY; T_COSE_ERR_WRONG_TYPE_OF_KEY]
  then ATTEST_TOKEN_ERR_VERIFICATION_KEY
  else ATTEST_TOKEN_ERR_GENERAL.
End map_errors.

(** ** The decode context *)

Record attest_token_decode_context := mkDecode {
  payload : q_useful_buf_c;
  last_error : Z;
}.

(** [CLAIM_PRESENT_BIT], [IS_ITEM_FLAG_SET] *)
Definition CLAIM_PRESENT_BIT (item_index : Z) : Z := Z.shiftl 1 item_index.
Definition IS_ITEM_FLAG_SET (item_index item_flags : Z) : bool :=
  negb (Z.land (Z.shiftl 1 item_index) item_flags =? 0).

(** [enum attest_token_item_index_t] *)
Definition NONCE_FLAG : Z := 0.
Definition INSTANCE_ID_FLAG : Z := 1.
Definition BOOT_SEED_FLAG : Z := 2.
Definition CERT_REF_FLAG : Z := 3.
Definition IMPLEMENTATION_ID_FLAG : Z := 4.
Definition CLIENT_ID_FLAG : Z := 5.
Definition SECURITY_LIFECYCLE_FLAG : Z := 6.
Definition PROFILE_DEFINITION_FLAG : Z := 7.
Definition VERIFICATION_SERVICE_FLAG : Z := 8.
Definition PLAT_HASH_ALGO_ID : Z := 9.
Definition PLAT_CONFIG : Z := 10.
Definition NUMBER_OF_ITEMS : Z := 11.

Record attest_token_iat_simple_t := mkSimple {
  nonce : q_useful_buf_c;
  instance_id : q_useful_buf_c;
  boot_seed : q_useful_buf_c;
  cert_ref : q_useful_buf_c;
  implementation_id : q_useful_buf_c;
  security_lifecycle : Z;
  client_id : Z;
  profile_definition : q_useful_buf_c;
  verif_serv : q_useful_buf_c;
  hash_algo_id : q_useful_buf_c;
  plat_config : q_useful_buf_c;
  item_flags : Z;
}.

(** [memset(items, 0, ...)] *)
Definition simple_zero : attest_token_iat_simple_t :=
  mkSimple None None None None None 0 0 None None None None 0.

(** [enum attest_token_sw_index_t] *)
Definition SW_MEASUREMENT_TYPE_FLAG : Z := 0.
Definition SW_MEASURMENT_VAL_FLAG : Z := 1.
Definition SW_VERSION_FLAG : Z := 3.
Definition SW_SIGNER_ID_FLAG : Z := 5.
Definition SW_MEASUREMENT_DESC_FLAG : Z := 6.

Record attest_token_sw_component_t := mkSw {
  measurement_type : q_useful_buf_c;
  measurement_val : q_useful_buf_c;
  version : q_useful_buf_c;
  signer_id : q_useful_buf_c;
  measurement_desc : q_useful_buf_c;
  sw_item_flags : Z;
}.

Definition sw_zero : attest_token_sw_component_t := mkSw None None None None None 0.

(** The statements [items->member = v; items->item_flags |= BIT(flag);] *)
Section setters.
  Variable i : attest_token_iat_simple_t.

Definition flags (f : Z) : Z := Z.lor (item_flags i) (CLAIM_PRESENT_BIT f).

Definition set_nonce v := mkSimple v (instance_id i) (boot_seed i) (cert_ref i) (implementation_id i)
  (security_lifecycle i) (client_id i) (profile_definition i) (verif_serv i) (hash_algo_id i)
  (plat_config i) (flags NONCE_FLAG).
Definition set_instance_id v := mkSimple (nonce i) v (boot_seed i) (cert_ref i) (implementation_id i)
  (security_lifecycle i) (client_id i) (profile_definition i) (verif_serv i) (hash_algo_id i)
  (plat_config i) (flags INSTANCE_ID_FLAG).
Definition set_boot_seed v := mkSimple (nonce i) (instance_id i) v (cert_ref i) (implementation_id i)
  (security_lifecycle i) (client_id i) (profile_definition i) (verif_serv i) (hash_algo_id i)
  (plat_config i) (flags BOOT_SEED_FLAG).
Definition set_cert_ref v := mkSimple (nonce i) (instance_id i) (boot_seed i) v (implementation_id i)
  (security_lifecycle i) (client_id i) (profile_definition i) (verif_serv i) (hash_algo_id i)
  (plat_config i) (flags CERT_REF_FLAG).
Definition set_implementation_id v := mkSimple (nonce i) (instance_id i) (boot_seed i) (cert_ref i) v
  (security_lifecycle i) (client_id i) (profile_definition i) (verif_serv i) (hash_algo_id i)
  (plat_config i) (flags IMPLEMENTATION_ID_FLAG).
Definition set_client_id v := mkSimple (nonce i) (instance_id i) (boot_seed i) (cert_ref i)
  (implementation_id i) (security_lifecycle i) v (profile_definition i) (verif_serv i) (hash_algo_id i)
  (plat_config i) (flags CLIENT_ID_FLAG).
Definition set_security_lifecycle v := mkSimple (nonce i) (instance_id i) (boot_seed i) (cert_ref i)
  (implementation_id i) v (client_id i) (profile_definition i) (verif_serv i) (hash_algo_id i)
  (plat_config i) (flags SECURITY_LIFECYCLE_FLAG).
Definition set_profile_definition v := mkSimple (nonce i) (instance_id i) (boot_seed i) (cert_ref i)
  (implementation_id i) (security_lifecycle i) (client_id i) v (verif_serv i) (hash_algo_id i)
  (plat_config i) (flags PROFILE_DEFINITION_FLAG).
Definition set_verif_serv v := mkSimple (nonce i) (instance_id i) (boot_seed i) (cert_ref i)
  (implementation_id i) (security_lifecycle i) (client_id i) (profile_definition i) v (hash_algo_id i)
  (plat_config i) (flags VERIFICATION_SERVICE_FLAG).
End setters.

Section sw_setters.
  Variable s : attest_token_sw_component_t.

Definition sw_flags (f : Z) : Z := Z.lor (sw_item_flags s) (CLAIM_PRESENT_BIT f).

Definition set_measurement_type v := mkSw v (measurement_val s) (version s) (signer_id s)
  (measurement_desc s) (sw_flags SW_MEASUREMENT_TYPE_FLAG).
Definition set_measurement_val v := mkSw (measurement_type s) v (version s) (signer_id s)
  (measurement_desc s) (sw_flags SW_MEASURMENT_VAL_FLAG).
Definition set_version v := mkSw (measurement_type s) (measurement_val s) v (signer_id s)
  (measurement_desc s) (sw_flags SW_VERSION_FLAG).
Definition set_signer_id v := mkSw (measurement_type s) (measurement_val s) (version s) v
  (measurement_desc s) (sw_flags SW_SIGNER_ID_FLAG).
Definition set_measurement_desc v := mkSw (measurement_type s) (measurement_val s) (version s)
  (signer_id s) v (sw_flags SW_MEASUREMENT_DESC_FLAG).
End sw_setters.

Section decode.
  Context {QB : QUsefulBuf} {QT : QcborTypes} {AE : AttestTokenErr} {IL : IatLabels}.
  Context {C : Type} {QD : QcborDecoder C}.
  (** What locals hold before they are written: an item, a [uint64_t], an
      [int64_t] and the labels of the list in [get_iat_simple]. *)
  Variable uninit_item : QCBORItem.
  Variable uninit_int64 uninit_uint64 : Z.
  Variable uninit_label : Z -> Z.
  Variable profile : token_profile.
  Implicit Types (me : attest_token_decode_context) (fuel : nat) (label : Z).

Definition attest_token_decode_init me : attest_token_decode_context :=
  mkDecode NULL_Q_USEFUL_BUF_C ATTEST_TOKEN_ERR_NO_VALID_TOKEN.

Definition attest_token_decode_get_error me : Z := last_error me.

(** The getters return the error and what [*claim] then holds. *)
Definition attest_token_decode_get_bstr fuel me label (claim : q_useful_buf_c) :
    option (Z * q_useful_buf_c) :=
  if negb (last_error me =? ATTEST_TOKEN_ERR_SUCCESS)
  then Some (last_error me, NULL_Q_USEFUL_BUF_C)
  else
    '(return_value, item) ← qcbor_util_get_top_level_item_in_map uninit_item fuel (payload me) label
      QCBOR_TYPE_BYTE_STRING uninit_item;
    if negb (return_value =? ATTEST_TOKEN_ERR_SUCCESS) then Some (return_value, claim)
    else Some (return_value, val_string item).

Definition attest_token_decode_get_tstr fuel me label (claim : q_useful_buf_c) :
    option (Z * q_useful_buf_c) :=
  if negb (last_error me =? ATTEST_TOKEN_ERR_SUCCESS)
  then Some (last_error me, NULL_Q_USEFUL_BUF_C)
  else
    '(return_value, item) ← qcbor_util_get_top_level_item_in_map uninit_item fuel (payload me) label
      QCBOR_TYPE_TEXT_STRING uninit_item;
    if negb (return_value =? ATTEST_TOKEN_ERR_SUCCESS) then Some (return_value, claim)
    else Some (return_value, val_string item).

Definition attest_token_decode_get_int fuel me label (integer : Z) : option (Z * Z) :=
  if negb (last_error me =? ATTEST_TOKEN_ERR_SUCCESS) then Some (last_error me, 0)
  else
    let decode_context := QCBORDecode_Init (payload me) in
    '(return_value, item, decode_context) ←
      qcbor_util_get_item_in_map uninit_item fuel decode_context label uninit_item;
    if negb (return_value =? ATTEST_TOKEN_ERR_SUCCESS) then Some (return_value, integer)
    else
      let return_value :=
        if negb (QCBORDecode_Finish decode_context =? 0) then ATTEST_TOKEN_ERR_CBOR_STRUCTURE
        else return_value in
      if uDataType item =? QCBOR_TYPE_INT64 then Some (return_value, val_int64 item)
      else if uDataType item =? QCBOR_TYPE_UINT64 then
        if val_uint64 item <? INT64_MAX then Some (return_value, val_uint64 item)
        else Some (ATTEST_TOKEN_ERR_INTEGER_VALUE, integer)
      else Some (ATTEST_TOKEN_ERR_CBOR_TYPE, integer).

Definition attest_token_decode_get_uint fuel me label (integer : Z) : option (Z * Z) :=
  if negb (last_error me =? ATTEST_TOKEN_ERR_SUCCESS) then Some (last_error me, 0)
  else
    let decode_context := QCBORDecode_Init (payload me) in
    '(return_value, item, decode_context) ←
      qcbor_util_get_item_in_map uninit_item fuel decode_context label uninit_item;
    if negb (return_value =? 0) then Some (return_value, integer)
    else
      let return_value :=
        if negb (QCBORDecode_Finish decode_context =? 0) then ATTEST_TOKEN_ERR_CBOR_STRUCTURE
        else return_value in
      if uDataType item =? QCBOR_TYPE_UINT64 then Some (return_value, val_uint64 item)
      else if uDataType item =? QCBOR_TYPE_INT64 then
        if 0 <=? val_int64 item then Some (return_value, val_int64 item)
        else Some (ATTEST_TOKEN_ERR_INTEGER_VALUE, integer)
      else Some (ATTEST_TOKEN_ERR_CBOR_TYPE, integer).

Definition attest_token_decode_get_payload me (payload0 : q_useful_buf_c) : Z * q_useful_buf_c :=
  if negb (last_error me =? ATTEST_TOKEN_ERR_SUCCESS) then (last_error me, NULL_Q_USEFUL_BUF_C)
  else if q_useful_buf_c_is_null_or_empty (payload me)
  then (ATTEST_TOKEN_ERR_NO_VALID_TOKEN, payload0)
  else (ATTEST_TOKEN_ERR_SUCCESS, payload me).

(** *** The inline getters of attest_token_decode.h *)

Definition attest_token_decode_get_nonce fuel me := attest_token_decode_get_bstr fuel me IAT_NONCE.
Definition attest_token_decode_get_instance_id fuel me :=
  attest_token_decode_get_bstr fuel me IAT_INSTANCE_ID.
Definition attest_token_decode_get_boot_seed fuel me :=
  attest_token_decode_get_bstr fuel me IAT_BOOT_SEED.
Definition attest_token_decode_get_cert_ref fuel me :=
  attest_token_decode_get_tstr fuel me IAT_CERTIFICATION_REFERENCE.
Definition attest_token_decode_get_implementation_id fuel me :=
  attest_token_decode_get_bstr fuel me IAT_IMPLEMENTATION_ID.
Definition attest_token_decode_get_profile_definition fuel me :=
  attest_token_decode_get_tstr fuel me IAT_PROFILE_DEFINITION.
Definition attest_token_decode_get_verif_serv fuel me :=
  attest_token_decode_get_tstr fuel me IAT_VERIFICATION_SERVICE.

Definition attest_token_decode_get_client_id fuel me (caller_id : Z) : option (Z * Z) :=
  '(return_value, caller_id_64) ← attest_token_decode_get_int fuel me IAT_CLIENT_ID uninit_int64;
  if negb (return_value =? ATTEST_TOKEN_ERR_SUCCESS) then Some (return_value, caller_id)
  else if (INT32_MAX <? caller_id_64) || (caller_id_64 <? INT32_MIN)
  then Some (ATTEST_TOKEN_ERR_INTEGER_VALUE, caller_id)
  else Some (return_value, i32 caller_id_64).

Definition attest_token_decode_get_security_lifecycle fuel me (lifecycle : Z) : option (Z * Z) :=
  '(return_value, security_lifecycle_64) ←
    attest_token_decode_get_uint fuel me IAT_SECURITY_LIFECYCLE uninit_uint64;
  if UINT32_MAX <? security_lifecycle_64 then Some (ATTEST_TOKEN_ERR_INTEGER_VALUE, lifecycle)
  else Some (return_value, u32 security_lifecycle_64).

(** *** All simple claims at once *)

(** The labels of [list]: without the CCA profile [list[PLAT_HASH_ALGO_ID]]
    and [list[PLAT_CONFIG]] are not assigned. *)
Definition simple_labels : list Z :=
  [IAT_NONCE; IAT_INSTANCE_ID; IAT_BOOT_SEED; IAT_CERTIFICATION_REFERENCE; IAT_IMPLEMENTATION_ID;
   IAT_CLIENT_ID; IAT_SECURITY_LIFECYCLE; IAT_PROFILE_DEFINITION; IAT_VERIFICATION_SERVICE] ++
  (if decide (profile = ARM_CCA) then [IAT_PLATFORM_HASH_ALGO_ID; IAT_PLATFORM_CONFIG]
   else [uninit_label PLAT_HASH_ALGO_ID; uninit_label PLAT_CONFIG]) ++
  [0].

Definition simple_list : list (Z * QCBORItem) := (fun l => (l, uninit_item)) <$> simple_labels.

(** [list[flag].item] *)
Definition list_item (l : list (Z * QCBORItem)) (flag : Z) : QCBORItem :=
  default uninit_item (snd <$> l !! Z.to_nat flag).

Definition store_string (l : list (Z * QCBORItem)) (flag ty : Z)
    (set : attest_token_iat_simple_t -> q_useful_buf_c -> attest_token_iat_simple_t)
    (items : attest_token_iat_simple_t) : attest_token_iat_simple_t :=
  if uDataType (list_item l flag) =? ty then set items (val_string (list_item l flag)) else items.

Definition store_client_id (l : list (Z * QCBORItem)) (items : attest_token_iat_simple_t) :
    attest_token_iat_simple_t :=
  if uDataType (list_item l CLIENT_ID_FLAG) =? QCBOR_TYPE_INT64 then
    let client_id_64 := val_int64 (list_item l CLIENT_ID_FLAG) in
    if (client_id_64 <? INT32_MAX) || (INT32_MIN <? client_id_64)
    then set_client_id items (i32 client_id_64)
    else items
  else items.

Definition store_security_lifecycle (l : list (Z * QCBORItem)) (items : attest_token_iat_simple_t) :
    attest_token_iat_simple_t :=
  if uDataType (list_item l SECURITY_LIFECYCLE_FLAG) =? QCBOR_TYPE_INT64 then
    if val_int64 (list_item l SECURITY_LIFECYCLE_FLAG) <? UINT32_MAX
    then set_security_lifecycle items (u32 (val_int64 (list_item l SECURITY_LIFECYCLE_FLAG)))
    else items
  else items.

Definition store_claims (l : list (Z * QCBORItem)) (items : attest_token_iat_simple_t) :
    attest_token_iat_simple_t :=
  let items := store_string l NONCE_FLAG QCBOR_TYPE_BYTE_STRING set_nonce items in
  let items := store_string l INSTANCE_ID_FLAG QCBOR_TYPE_BYTE_STRING set_instance_id items in
  let items := store_string l BOOT_SEED_FLAG QCBOR_TYPE_BYTE_STRING set_boot_seed items in
  let items := store_string l CERT_REF_FLAG QCBOR_TYPE_TEXT_STRING set_cert_ref items in
  let items := store_string l IMPLEMENTATION_ID_FLAG QCBOR_TYPE_BYTE_STRING set_implementation_id items in
  let items := store_client_id l items in
  let items := store_security_lifecycle l items in
  let items := store_string l PROFILE_DEFINITION_FLAG QCBOR_TYPE_TEXT_STRING set_profile_definition items in
  store_string l VERIFICATION_SERVICE_FLAG QCBOR_TYPE_TEXT_STRING set_verif_serv items.

Definition attest_token_decode_get_iat_simple fuel me : option (Z * attest_token_iat_simple_t) :=
  if negb (last_error me =? ATTEST_TOKEN_ERR_SUCCESS) then Some (last_error me, simple_zero)
  else
    '(return_value, l, _) ←
      qcbor_util_get_items_in_map uninit_item fuel (QCBORDecode_Init (payload me)) simple_list;
    if negb (return_value =? ATTEST_TOKEN_ERR_SUCCESS) then Some (return_value, simple_zero)
    else Some (return_value, store_claims l simple_zero).

(** *** The software components *)

Definition attest_token_get_num_sw_components fuel me (num_sw_components : Z) : option (Z * Z) :=
  if negb (last_error me =? ATTEST_TOKEN_ERR_SUCCESS) then Some (last_error me, num_sw_components)
  else
    '(return_value, item) ← qcbor_util_get_top_level_item_in_map uninit_item fuel (payload me)
      IAT_SW_COMPONENTS QCBOR_TYPE_ARRAY uninit_item;
    if negb (return_value =? ATTEST_TOKEN_ERR_SUCCESS) then
      if decide (profile = PSA_IOT_1) then
        if return_value =? ATTEST_TOKEN_ERR_NOT_FOUND then
          '(return_value, item) ← qcbor_util_get_top_level_item_in_map uninit_item fuel (payload me)
            IAT_NO_SW_COMPONENTS QCBOR_TYPE_INT64 item;
          if return_value =? ATTEST_TOKEN_ERR_SUCCESS then
            if val_int64 item =? NO_SW_COMPONENT_FIXED_VALUE then Some (return_value, 0)
            else Some (ATTEST_TOKEN_ERR_SW_COMPONENTS_MISSING, num_sw_components)
          else if return_value =? ATTEST_TOKEN_ERR_NOT_FOUND
          then Some (ATTEST_TOKEN_ERR_SW_COMPONENTS_MISSING, num_sw_components)
          else Some (return_value, num_sw_components)
        else Some (return_value, num_sw_components)
      else Some (return_value, num_sw_components)
    else if val_uCount item =? 0 then Some (ATTEST_TOKEN_ERR_SW_COMPONENTS_MISSING, num_sw_components)
    else Some (return_value, val_uCount item).

(** The [switch] of [decode_sw_component]; [None] is [CBOR_TYPE] and
    [goto Done]. *)
Definition sw_claim (claim_item : QCBORItem) (sw : attest_token_sw_component_t) :
    option attest_token_sw_component_t :=
  let store ty (set : q_useful_buf_c -> attest_token_sw_component_t) :=
    if negb (uDataType claim_item =? ty) then None else Some (set (val_string claim_item)) in
  if label_int64 claim_item =? IAT_SW_COMPONENT_MEASUREMENT_TYPE
  then store QCBOR_TYPE_TEXT_STRING (set_measurement_type sw)
  else if label_int64 claim_item =? IAT_SW_COMPONENT_MEASUREMENT_VALUE
  then store QCBOR_TYPE_BYTE_STRING (set_measurement_val sw)
  else if label_int64 claim_item =? IAT_SW_COMPONENT_VERSION
  then store QCBOR_TYPE_TEXT_STRING (set_version sw)
  else if label_int64 claim_item =? IAT_SW_COMPONENT_SIGNER_ID
  then store QCBOR_TYPE_BYTE_STRING (set_signer_id sw)
  else if label_int64 claim_item =? IAT_SW_COMPONENT_MEASUREMENT_DESC
  then store QCBOR_TYPE_TEXT_STRING (set_measurement_desc sw)
  else Some sw.

(** Its [while(1)] loop. *)
Fixpoint sw_loop fuel (sw_component_item : QCBORItem) (decode_context : C) (claim_item : QCBORItem)
    (sw_component : attest_token_sw_component_t) : option (Z * attest_token_sw_component_t * C) :=
  match fuel with
  | O => None
  | S fuel =>
      let '(cbor_error, claim_item, decode_context) := QCBORDecode_GetNext decode_context claim_item in
      if negb (cbor_error =? QCBOR_SUCCESS)
      then Some (ATTEST_TOKEN_ERR_CBOR_NOT_WELL_FORMED, sw_component, decode_context)
      else
        match if uLabelType claim_item =? QCBOR_TYPE_INT64 then sw_claim claim_item sw_component
              else Some sw_component with
        | None => Some (ATTEST_TOKEN_ERR_CBOR_TYPE, sw_component, decode_context)
        | Some sw_component =>
            '(err, next_nest_level, decode_context) ←
              qcbor_util_consume_item uninit_item fuel decode_context claim_item 0;
            if negb (err =? 0)
            then Some (ATTEST_TOKEN_ERR_CBOR_NOT_WELL_FORMED, sw_component, decode_context)
            else if next_nest_level <? uNextNestLevel sw_component_item
            then Some (ATTEST_TOKEN_ERR_SUCCESS, sw_component, decode_context)
            else sw_loop fuel sw_component_item decode_context claim_item sw_component
        end
  end.

Definition decode_sw_component fuel (decode_context : C) (sw_component_item : QCBORItem)
    (sw_component : attest_token_sw_component_t) : option (Z * attest_token_sw_component_t * C) :=
  if negb (uDataType sw_component_item =? QCBOR_TYPE_MAP)
  then Some (ATTEST_TOKEN_ERR_CBOR_STRUCTURE, sw_component, decode_context)
  else sw_loop fuel sw_component_item decode_context uninit_item sw_zero.

(** The [while(1)] loop of [attest_token_get_sw_component]. *)
Fixpoint sw_array_loop fuel (exit_array_level requested_index : Z) (decode_context : C)
    (sw_component_item : QCBORItem) (sw_components : attest_token_sw_component_t) :
    option (Z * attest_token_sw_component_t) :=
  match fuel with
  | O => None
  | S fuel =>
      let '(qcbor_error, sw_component_item, decode_context) :=
        QCBORDecode_GetNext decode_context sw_component_item in
      if negb (qcbor_error =? 0) then Some (ATTEST_TOKEN_ERR_CBOR_NOT_WELL_FORMED, sw_components)
      else if uNextNestLevel sw_component_item <=? exit_array_level
      then Some (ATTEST_TOKEN_ERR_NOT_FOUND, sw_components)
      else if requested_index =? 0 then
        '(return_value, sw_components, _) ←
          decode_sw_component fuel decode_context sw_component_item sw_components;
        Some (return_value, sw_components)
      else
        '(err, _, decode_context) ←
          qcbor_util_consume_item uninit_item fuel decode_context sw_component_item 0;
        if negb (err =? 0) then Some (ATTEST_TOKEN_ERR_CBOR_NOT_WELL_FORMED, sw_components)
        else sw_array_loop fuel exit_array_level (requested_index - 1) decode_context
               sw_component_item sw_components
  end.

Definition attest_token_get_sw_component fuel me (requested_index : Z)
    (sw_components : attest_token_sw_component_t) : option (Z * attest_token_sw_component_t) :=
  if negb (last_error me =? ATTEST_TOKEN_ERR_SUCCESS) then Some (last_error me, sw_components)
  else
    '(return_value, sw_components_array_item, decode_context) ←
      qcbor_util_decode_to_labeled_item uninit_item fuel (QCBORDecode_Init (payload me))
        IAT_SW_COMPONENTS uninit_item;
    if negb (return_value =? ATTEST_TOKEN_ERR_SUCCESS) then Some (return_value, sw_components)
    else if negb (uDataType sw_components_array_item =? QCBOR_TYPE_ARRAY)
    then Some (ATTEST_TOKEN_ERR_CBOR_TYPE, sw_components)
    else sw_array_loop fuel (uNextNestLevel sw_components_array_item) requested_index decode_context
           uninit_item sw_components.
End decode.

(** ** Validation: attest_token_decode_asymmetric.c, attest_token_decode_symmetric.c *)

(** The sequence of t_cose calls the asymmetric and the symmetric variant make:
    their options, the key handle, the token and the old payload give t_cose's
    error and the payload it then stores. *)
Class TCose := {
  t_cose_sign1_verify_with : Z -> Z -> q_useful_buf_c -> q_useful_buf_c -> Z * q_useful_buf_c;
  t_cose_mac_validate_with : Z -> Z -> q_useful_buf_c -> q_useful_buf_c -> Z * q_useful_buf_c;
  T_COSE_OPT_DECODE_ONLY : Z;
  TFM_BUILTIN_KEY_ID_IAK : Z;
  PSA_KEY_ID_NULL : Z;
}.

(** [SYMMETRIC_INITIAL_ATTESTATION], and for it [DOMAIN_NS]. *)
Inductive validation := Asymmetric | Symmetric (domain_ns : bool).

Section validate.
  Context {AE : AttestTokenErr} {AM : AttestTokenErrMore} {TE : TCoseErr} {TC : TCose}.

Definition attest_token_decode_validate_token (v : validation) (me : attest_token_decode_context)
    (token : q_useful_buf_c) : Z * attest_token_decode_context :=
  let '(t_cose_error, payload) :=
    match v with
    | Asymmetric => t_cose_sign1_verify_with 0 TFM_BUILTIN_KEY_ID_IAK token (payload me)
    | Symmetric true => t_cose_mac_validate_with T_COSE_OPT_DECODE_ONLY PSA_KEY_ID_NULL token (payload me)
    | Symmetric false => t_cose_mac_validate_with 0 TFM_BUILTIN_KEY_ID_IAK token (payload me)
    end in
  let return_value := map_t_cose_errors t_cose_error in
  (return_value, mkDecode payload return_value).
End validate.
