(* ===== verification/AttestTests.v ===== *)
(** * The attestation tests: suites/attestation

    attest_token_test.c, the values of attest_token_test_values.h and the four
    test suites (asymmetric and symmetric, secure and non-secure), over the
    decoder of [AttestDecode].  The attestation service is a parameter. *)

From S2P Require Import Prelude LogRaw TestFramework TestProg PsaStorage Qcbor AttestDecode.
Local Open Scope Z_scope.

(** psa/initial_attestation.h and psa/error.h *)
Class AttestConsts := {
  PSA_INITIAL_ATTEST_CHALLENGE_SIZE_32 : Z;
  PSA_INITIAL_ATTEST_CHALLENGE_SIZE_64 : Z;
  PSA_INITIAL_ATTEST_MAX_TOKEN_SIZE : Z;
  PSA_ERROR_BUFFER_TOO_SMALL : Z;
}.

(** [psa_initial_attest_get_token(challenge, challenge_size, buf, buf_size,
    &token_size)] gives its status and the token it writes, of [token_size]
    bytes; [psa_initial_attest_get_token_size(challenge_size, &token_size)] its
    status and what [token_size] then holds. *)
Class AttestService (V : Type) := {
  svc_get_token : list Z -> Z -> Z -> V -> (Z * list Z) * V;
  svc_get_token_size : Z -> Z -> V -> (Z * Z) * V;
}.

(** ** attest_token_test_values.h *)

(** [CLAIM_VALUE_CHECK], the profile and [DOMAIN_NS]. *)
Record test_config := mkConfig {
  claim_value_check : bool;
  the_profile : token_profile;
  domain_ns : bool;
}.

Definition TOKEN_TEST_VALUE_NONCE : q_useful_buf_c := Some (replicate 64 0).
Definition TOKEN_TEST_VALUE_INSTANCE_ID : q_useful_buf_c := NULL_Q_USEFUL_BUF_C.
Definition TOKEN_TEST_VALUE_CLIENT_ID : Z := 0.
Definition TOKEN_TEST_REQUIRED_NUM_SWC : Z := 0.
Definition ATTEST_TOKEN_MAX_SIZE : Z := 848.

Definition TOKEN_TEST_REQUIRE_NONCE : bool := true.
Definition TOKEN_TEST_REQUIRE_INSTANCE_ID : bool := true.
Definition TOKEN_TEST_REQUIRE_IMPLEMENTATION_ID : bool := true.
Definition TOKEN_TEST_REQUIRE_SECURITY_LIFECYCLE : bool := true.
Definition TOKEN_TEST_REQUIRE_VERIFICATION_SERVICE : bool := false.
Definition TOKEN_TEST_REQUIRE_BOOT_SEED (p : token_profile) : bool := negb (bool_decide (p = ARM_CCA)).
Definition TOKEN_TEST_REQUIRE_CLIENT_ID (p : token_profile) : bool := negb (bool_decide (p = ARM_CCA)).
Definition TOKEN_TEST_REQUIRE_CERT_REF : bool := false.
Definition TOKEN_TEST_REQUIRE_PROFILE_DEFINITION (p : token_profile) : bool := bool_decide (p = ARM_CCA).

(** The values that are checked with CLAIM_VALUE_CHECK only; [None] is NULL. *)
Definition hex_run (b n : Z) : list Z := (fun i => b + i) <$> seqZ 0 n.

Definition TOKEN_TEST_VALUE_BOOT_SEED (check : bool) : q_useful_buf_c :=
  if check then Some (hex_run 160 32) else None.
Definition TOKEN_TEST_VALUE_CERT_REF (check : bool) : q_useful_buf_c :=
  if check then Some (bytes_of_string "0604565272829-10010") else None.
Definition TOKEN_TEST_VALUE_IMPLEMENTATION_ID (check : bool) : q_useful_buf_c :=
  if check then Some (replicate 8 170 ++ replicate 8 187 ++ replicate 8 204 ++ replicate 8 221) else None.
Definition TOKEN_TEST_VALUE_PROFILE_DEFINITION (check : bool) (p : token_profile) : q_useful_buf_c :=
  if check then
    Some (bytes_of_string match p with
      | PSA_IOT_1 => "PSA_IOT_PROFILE_1"
      | PSA_2_0_0 => "tag:psacertified.org,2023:psa#tfm"
      | ARM_CCA => "tag:arm.com,2023:cca_platform#1.0.0"
      end)
  else None.
Definition TOKEN_TEST_VALUE_VERIFICATION_SERVICE (check : bool) : q_useful_buf_c :=
  if check then Some (bytes_of_string "www.trustedfirmware.org") else None.
Definition TOKEN_TEST_VALUE_SECURITY_LIFECYCLE (check : bool) : Z := if check then 12288 else INT32_MAX.

(** The values of the software components; those of the second are the same. *)
Definition TOKEN_TEST_REQUIRE_SWC_MEASUREMENT_TYPE : bool := false.
Definition TOKEN_TEST_REQUIRE_SWC_MEASUREMENT_VAL : bool := true.
Definition TOKEN_TEST_REQUIRE_SWC_VERSION : bool := true.
Definition TOKEN_TEST_REQUIRE_SWC_SIGNER_ID : bool := true.
Definition TOKEN_TEST_REQUIRE_SWC_MEASUREMENT_DESC : bool := false.
Definition TOKEN_TEST_VALUE_SWC_MEASUREMENT_TYPE : q_useful_buf_c := None.
Definition TOKEN_TEST_VALUE_SWC_MEASUREMENT_VAL : q_useful_buf_c := None.
Definition TOKEN_TEST_VALUE_SWC_VERSION : q_useful_buf_c := None.
Definition TOKEN_TEST_VALUE_SWC_SIGNER_ID : q_useful_buf_c := None.
Definition TOKEN_TEST_VALUE_SWC_MEASUREMENT_DESC : q_useful_buf_c := None.

(** ** attest_token_test.c *)

Definition SIZE_MAX : Z := 2 ^ 32 - 1.

(** [NORMAL_SIGN], [COSE_MAC0] *)
Definition NORMAL_SIGN : Z := 0.
Definition COSE_MAC0 : Z := 1.

Section checks.
  Context {QB : QUsefulBuf}.

(** [!q_useful_buf_c_is_null(tmp) && q_useful_buf_compare(claim, tmp)] *)
Definition differs (claim tmp : q_useful_buf_c) : bool :=
  negb (q_useful_buf_c_is_null tmp) && negb (q_useful_buf_compare claim tmp =? 0).

(** [tmp_string != NULL] and the comparison with the literal. *)
Definition differs_string (claim tmp_string : q_useful_buf_c) : bool :=
  if decide (tmp_string = None) then false else negb (q_useful_buf_compare claim tmp_string =? 0).

Definition nonce_differs (nonce : q_useful_buf_c) : bool :=
  let tmp := TOKEN_TEST_VALUE_NONCE in
  if negb (q_useful_buf_c_is_null tmp) then
    if negb (q_useful_buf_compare nonce tmp =? 0) then
      let tail := q_useful_buf_tail nonce 4 in
      if (Z.of_nat (length (default [] nonce)) =? 64) && (q_useful_buf_is_value tail 0 =? SIZE_MAX)
      then negb (q_useful_buf_compare (q_useful_buf_tail tmp 4) tail =? 0)
      else true
    else false
  else false.

(** One claim: absent, [-e] when it is required and the next claim when not;
    present, [-e - 1] when its value was checked and failed. *)
Definition check_claim (item_flags flag : Z) (required : bool) (e : Z) (failed : bool) (next : Z) : Z :=
  if negb (IS_ITEM_FLAG_SET flag item_flags) then if required then - e else next
  else if failed then - (e + 1) else next.

Definition check_simple_claims (cfg : test_config) (c : attest_token_iat_simple_t) : Z :=
  let check := check_claim (item_flags c) in
  let p := the_profile cfg in
  let v := claim_value_check cfg in
  check NONCE_FLAG TOKEN_TEST_REQUIRE_NONCE 50 (nonce_differs (nonce c)) $
  check INSTANCE_ID_FLAG TOKEN_TEST_REQUIRE_INSTANCE_ID 52
    (differs (instance_id c) TOKEN_TEST_VALUE_INSTANCE_ID) $
  check BOOT_SEED_FLAG (TOKEN_TEST_REQUIRE_BOOT_SEED p) 54
    (differs (boot_seed c) (TOKEN_TEST_VALUE_BOOT_SEED v)) $
  check CERT_REF_FLAG TOKEN_TEST_REQUIRE_CERT_REF 56
    (differs_string (cert_ref c) (TOKEN_TEST_VALUE_CERT_REF v)) $
  check IMPLEMENTATION_ID_FLAG TOKEN_TEST_REQUIRE_IMPLEMENTATION_ID 58
    (differs (implementation_id c) (TOKEN_TEST_VALUE_IMPLEMENTATION_ID v)) $
  check SECURITY_LIFECYCLE_FLAG TOKEN_TEST_REQUIRE_SECURITY_LIFECYCLE 60
    (negb (TOKEN_TEST_VALUE_SECURITY_LIFECYCLE v =? INT32_MAX) &&
     negb (security_lifecycle c =? TOKEN_TEST_VALUE_SECURITY_LIFECYCLE v)) $
  check CLIENT_ID_FLAG (TOKEN_TEST_REQUIRE_CLIENT_ID p) 62
    (if negb (TOKEN_TEST_VALUE_CLIENT_ID =? INT32_MAX) &&
        negb (client_id c =? TOKEN_TEST_VALUE_CLIENT_ID)
     then if domain_ns cfg then -1 <? client_id c else client_id c <? 1
     else false) $
  check PROFILE_DEFINITION_FLAG (TOKEN_TEST_REQUIRE_PROFILE_DEFINITION p) 64
    (differs_string (profile_definition c) (TOKEN_TEST_VALUE_PROFILE_DEFINITION v p)) $
  check VERIFICATION_SERVICE_FLAG TOKEN_TEST_REQUIRE_VERIFICATION_SERVICE 66
    (differs_string (verif_serv c) (TOKEN_TEST_VALUE_VERIFICATION_SERVICE v)) 0.

Definition check_sw_component_1 (s : attest_token_sw_component_t) : Z :=
  let check := check_claim (sw_item_flags s) in
  check SW_MEASUREMENT_TYPE_FLAG TOKEN_TEST_REQUIRE_SWC_MEASUREMENT_TYPE 100
    (differs_string (measurement_type s) TOKEN_TEST_VALUE_SWC_MEASUREMENT_TYPE) $
  check SW_MEASURMENT_VAL_FLAG TOKEN_TEST_REQUIRE_SWC_MEASUREMENT_VAL 102
    (differs (measurement_val s) TOKEN_TEST_VALUE_SWC_MEASUREMENT_VAL) $
  check SW_VERSION_FLAG TOKEN_TEST_REQUIRE_SWC_VERSION 106
    (differs_string (version s) TOKEN_TEST_VALUE_SWC_VERSION) $
  check SW_SIGNER_ID_FLAG TOKEN_TEST_REQUIRE_SWC_SIGNER_ID 108
    (differs (signer_id s) TOKEN_TEST_VALUE_SWC_SIGNER_ID) $
  check SW_MEASUREMENT_DESC_FLAG TOKEN_TEST_REQUIRE_SWC_MEASUREMENT_DESC 110
    (differs_string (measurement_desc s) TOKEN_TEST_VALUE_SWC_MEASUREMENT_DESC) 0.

Definition check_sw_component_2 (s : attest_token_sw_component_t) : Z :=
  let check := check_claim (sw_item_flags s) in
  check SW_MEASUREMENT_TYPE_FLAG TOKEN_TEST_REQUIRE_SWC_MEASUREMENT_TYPE 100
    (differs_string (measurement_type s) TOKEN_TEST_VALUE_SWC_MEASUREMENT_TYPE) $
  check SW_MEASURMENT_VAL_FLAG TOKEN_TEST_REQUIRE_SWC_MEASUREMENT_VAL 102
    (differs (measurement_val s) TOKEN_TEST_VALUE_SWC_MEASUREMENT_VAL) $
  check SW_VERSION_FLAG TOKEN_TEST_REQUIRE_SWC_VERSION 106
    (differs_string (version s) TOKEN_TEST_VALUE_SWC_VERSION) $
  check SW_SIGNER_ID_FLAG TOKEN_TEST_REQUIRE_SWC_SIGNER_ID 108
    (differs (signer_id s) TOKEN_TEST_VALUE_SWC_SIGNER_ID) $
  check SW_MEASUREMENT_DESC_FLAG TOKEN_TEST_REQUIRE_SWC_MEASUREMENT_DESC 110
    (differs_string (measurement_desc s) TOKEN_TEST_VALUE_SWC_MEASUREMENT_DESC) 0.

End checks.

Section decode_test.
  Context {PC : PsaConsts} {QB : QUsefulBuf} {QT : QcborTypes} {AE : AttestTokenErr} {IL : IatLabels}.
  Context {AM : AttestTokenErrMore} {TE : TCoseErr} {TC : TCose}.
  Context {C : Type} {QD : QcborDecoder C} {V : Type} {AC : AttestConsts} {AS : AttestService V}.
  (** The build, and what the locals hold before they are written. *)
  Variables (cfg : test_config) (symmetric : bool).
  Variables (uninit_item : QCBORItem) (uninit_label : Z -> Z) (uninit_num : Z).
  Variables (uninit_sw : attest_token_sw_component_t) (uninit_me : attest_token_decode_context).
  Implicit Types (fuel : nat) (v : V).

Definition the_validation : validation := if symmetric then Symmetric (domain_ns cfg) else Asymmetric.

(** The part of [decode_test_internal] on the software components. *)
Definition decode_test_components fuel (token_decode : attest_token_decode_context) : option Z :=
  if negb (TOKEN_TEST_REQUIRED_NUM_SWC =? INT32_MAX) then
    '(return_value, num_sw_components) ←
      attest_token_get_num_sw_components uninit_item (the_profile cfg) fuel token_decode uninit_num;
    if negb (return_value =? 0) then Some return_value
    else if i32 num_sw_components <? TOKEN_TEST_REQUIRED_NUM_SWC then Some (-5)
    else if 1 <=? num_sw_components then
      '(return_value, sw_component) ←
        attest_token_get_sw_component uninit_item fuel token_decode 0 uninit_sw;
      if negb (return_value =? 0) then Some return_value
      else if negb (check_sw_component_1 sw_component =? 0) then Some (check_sw_component_1 sw_component)
      else if 2 <=? num_sw_components then
        '(return_value, sw_component) ←
          attest_token_get_sw_component uninit_item fuel token_decode 1 sw_component;
        if negb (return_value =? 0) then Some return_value
        else if negb (check_sw_component_2 sw_component =? 0)
        then Some (check_sw_component_2 sw_component)
        else Some 0
      else Some 0
    else Some 0
  else Some 0.

Definition decode_test_internal fuel (mode : Z) v : option (Z * V) :=
  if negb ((mode =? NORMAL_SIGN) || (mode =? COSE_MAC0)) then Some (-1000, v)
  else
    let tmp := default [] TOKEN_TEST_VALUE_NONCE in
    let '((status, token), v) := svc_get_token tmp (sizeof tmp) ATTEST_TOKEN_MAX_SIZE v in
    if negb (status =? PSA_SUCCESS) then Some (status, v)
    else
      let completed_token := Some token in
      let token_decode := attest_token_decode_init uninit_me in
      let '(return_value, token_decode) :=
        attest_token_decode_validate_token the_validation token_decode completed_token in
      if negb (return_value =? ATTEST_TOKEN_ERR_SUCCESS) then Some (return_value, v)
      else
        '(return_value, simple_claims) ←
          attest_token_decode_get_iat_simple uninit_item uninit_label (the_profile cfg) fuel token_decode;
        if negb (return_value =? ATTEST_TOKEN_ERR_SUCCESS) then Some (return_value, v)
        else
          let return_value := check_simple_claims cfg simple_claims in
          if negb (return_value =? ATTEST_TOKEN_ERR_SUCCESS) then Some (return_value, v)
          else
            return_value ← decode_test_components fuel token_decode;
            Some (return_value, v).

Definition decode_test_normal_sig fuel v := decode_test_internal fuel NORMAL_SIGN v.
Definition decode_test_symmetric_initial_attest fuel v := decode_test_internal fuel COSE_MAC0 v.
End decode_test.

(** ** The suites *)

(** attest_tests_common.h *)
Section common.
  Context {AC : AttestConsts}.

Definition TEST_TOKEN_SIZE : Z := PSA_INITIAL_ATTEST_MAX_TOKEN_SIZE.
Definition TEST_CHALLENGE_OBJ_SIZE : Z := PSA_INITIAL_ATTEST_CHALLENGE_SIZE_64.
Definition INVALID_CHALLENGE_OBJECT_SIZE : Z := PSA_INITIAL_ATTEST_CHALLENGE_SIZE_32 + 1.
End common.

(** The service as statements of a test; [assert] ends an execution that
    violates it. *)
Section statements.
  Context {V : Type} {AS : AttestService V}.

Definition psa_initial_attest_get_token (challenge : list Z) (challenge_size buf_size : Z) :
    P V (Z * list Z) :=
  call (fun v => Some (svc_get_token challenge challenge_size buf_size v)).
Definition psa_initial_attest_get_token_size (challenge_size token_size : Z) : P V (Z * Z) :=
  call (fun v => Some (svc_get_token_size challenge_size token_size v)).
Definition c_assert (b : bool) : P V unit := if b then mret tt else p_undefined.
End statements.

(** secure/attest_asymmetric_s_interface_testsuite.c *)
Module AsymS.
Section suite.
  Context {PC : PsaConsts} {V : Type} {AC : AttestConsts} {AS : AttestService V}.
  (** [__FILE__], what [token_size] holds at first, and [decode_test_...()]. *)
  Variables (__FILE__ : string) (uninit_size : Z) (decode_test : V -> option (Z * V)).
  Abbreviation FAIL_IF := (fail_if __FILE__).

Definition token_buffer : list Z := replicate (Z.to_nat TEST_TOKEN_SIZE) 0.

Definition tfm_attest_test_1001 : P V unit :=
  err ← call decode_test;
  (if negb (err =? 0) then test_log ("decode_test_normal_sig() returned: %d" +:+ crlf) [VaInt err] else mret tt);;
  FAIL_IF 65 (negb (err =? 0)) "Attest token decode_test_normal_sig() has failed";;
  ret_val TEST_PASSED.

Definition tfm_attest_test_1002 : P V unit :=
  let challenge_buffer := replicate (Z.to_nat TEST_CHALLENGE_OBJ_SIZE) 0 in
  '(err, _) ← psa_initial_attest_get_token challenge_buffer INVALID_CHALLENGE_OBJECT_SIZE
    (sizeof token_buffer);
  FAIL_IF 98 (negb (err =? PSA_ERROR_INVALID_ARGUMENT))
    "Attestation should fail with too big challenge object";;
  '(err, token_size) ← psa_initial_attest_get_token_size (sizeof challenge_buffer) uninit_size;
  FAIL_IF 106 (negb (err =? PSA_SUCCESS)) "Attest test tfm_attest_test_1002() has failed";;
  c_assert (token_size <=? sizeof token_buffer);;
  '(err, _) ← psa_initial_attest_get_token challenge_buffer (sizeof challenge_buffer)
    (u32 (token_size - 1));
  FAIL_IF 120 (negb (err =? PSA_ERROR_BUFFER_TOO_SMALL))
    "Attestation should fail with too small token buffer";;
  ret_val TEST_PASSED.

Definition attestation_interface_tests : list (test_t V) :=
  [TEST tfm_attest_test_1001 "TFM_S_ATTEST_TEST_1001" "ECDSA signature test of attest token";
   TEST tfm_attest_test_1002 "TFM_S_ATTEST_TEST_1002"
     "Negative test cases for initial attestation service"].

Definition register_testsuite_s_attestation_interface : TESTSUITE_REG V :=
  register "Initial Attestation Service secure interface tests(TFM_S_ATTEST_TEST_1XXX)"
    attestation_interface_tests.
End suite.
End AsymS.

(** non_secure/attest_asymmetric_ns_interface_testsuite.c *)
Module AsymNs.
Section suite.
  Context {PC : PsaConsts} {V : Type} {AC : AttestConsts} {AS : AttestService V}.
  (** [__FILE__], what [token_size] holds at first, and [decode_test_...()]. *)
  Variables (__FILE__ : string) (uninit_size : Z) (decode_test : V -> option (Z * V)).
  Abbreviation FAIL_IF := (fail_if __FILE__).

Definition token_buffer : list Z := replicate (Z.to_nat TEST_TOKEN_SIZE) 0.

Definition tfm_attest_test_1001 : P V unit :=
  err ← call decode_test;
  (if negb (err =? 0) then test_log ("decode_test_normal_sig() returned: %d" +:+ crlf) [VaInt err] else mret tt);;
  FAIL_IF 67 (negb (err =? 0)) "Attest token decode_test_normal_sig() has failed";;
  ret_val TEST_PASSED.

Definition tfm_attest_test_1002 : P V unit :=
  let challenge_buffer := replicate (Z.to_nat TEST_CHALLENGE_OBJ_SIZE) 0 in
  '(err, _) ← psa_initial_attest_get_token challenge_buffer INVALID_CHALLENGE_OBJECT_SIZE
    (sizeof token_buffer);
  FAIL_IF 100 (negb (err =? PSA_ERROR_INVALID_ARGUMENT))
    "Attestation should fail with too big challenge object";;
  '(err, token_size) ← psa_initial_attest_get_token_size (sizeof challenge_buffer) uninit_size;
  FAIL_IF 108 (negb (err =? PSA_SUCCESS)) "Attest test tfm_attest_test_1002() has failed";;
  c_assert (token_size <=? sizeof token_buffer);;
  '(err, _) ← psa_initial_attest_get_token challenge_buffer (sizeof challenge_buffer)
    (u32 (token_size - 1));
  FAIL_IF 122 (negb (err =? PSA_ERROR_BUFFER_TOO_SMALL))
    "Attestation should fail with too small token buffer";;
  ret_val TEST_PASSED.

Definition attestation_interface_tests : list (test_t V) :=
  [TEST tfm_attest_test_1001 "TFM_NS_ATTEST_TEST_1001" "ECDSA signature test of attest token";
   TEST tfm_attest_test_1002 "TFM_NS_ATTEST_TEST_1002"
     "Negative test cases for initial attestation service"].

Definition register_testsuite_ns_attestation_interface : TESTSUITE_REG V :=
  register "Initial Attestation Service non-secure interface tests(TFM_NS_ATTEST_TEST_1XXX)"
    attestation_interface_tests.
End suite.
End AsymNs.

(** secure/attest_symmetric_s_interface_testsuite.c *)
Module SymS.
Section suite.
  Context {PC : PsaConsts} {V : Type} {AC : AttestConsts} {AS : AttestService V}.
  (** [__FILE__], what [token_size] holds at first, and [decode_test_...()]. *)
  Variables (__FILE__ : string) (uninit_size : Z) (decode_test : V -> option (Z * V)).
  Abbreviation FAIL_IF := (fail_if __FILE__).

Definition token_buffer : list Z := replicate (Z.to_nat TEST_TOKEN_SIZE) 0.

Definition tfm_attest_test_2001 : P V unit :=
  err ← call decode_test;
  (if negb (err =? 0) then test_log ("tfm_attest_test_2001() returned: %d" +:+ crlf) [VaInt err] else mret tt);;
  FAIL_IF 60 (negb (err =? 0)) "Attest token tfm_attest_test_2001() has failed";;
  ret_val TEST_PASSED.

Definition tfm_attest_test_2002 : P V unit :=
  let challenge_buffer := replicate (Z.to_nat TEST_CHALLENGE_OBJ_SIZE) 0 in
  '(err, token_size) ← psa_initial_attest_get_token_size INVALID_CHALLENGE_OBJECT_SIZE uninit_size;
  FAIL_IF 90 (negb (err =? PSA_ERROR_INVALID_ARGUMENT))
    "Attestation should fail with too big challenge object";;
  '(err, token_size) ← psa_initial_attest_get_token_size (sizeof challenge_buffer) token_size;
  FAIL_IF 98 (negb (err =? PSA_SUCCESS)) "Attest test tfm_attest_test_2002() has failed";;
  c_assert (token_size <=? sizeof token_buffer);;
  '(err, _) ← psa_initial_attest_get_token challenge_buffer (sizeof challenge_buffer)
    (u32 (token_size - 1));
  FAIL_IF 112 (negb (err =? PSA_ERROR_BUFFER_TOO_SMALL))
    "Attestation should fail with too small token buffer";;
  ret_val TEST_PASSED.

Definition attestation_interface_tests : list (test_t V) :=
  [TEST tfm_attest_test_2001 "TFM_S_ATTEST_TEST_2001" "Symmetric key algorithm based Initial Attestation test";
   TEST tfm_attest_test_2002 "TFM_S_ATTEST_TEST_2002"
     "Negative test cases for initial attestation service"].

Definition register_testsuite_s_attestation_interface : TESTSUITE_REG V :=
  register "Symmetric key algorithm based Initial Attestation Service secure interface tests (TFM_S_ATTEST_TEST_2XXX)"
    attestation_interface_tests.
End suite.
End SymS.

(** non_secure/attest_symmetric_ns_interface_testsuite.c *)
Module SymNs.
Section suite.
  Context {PC : PsaConsts} {V : Type} {AC : AttestConsts} {AS : AttestService V}.
  (** [__FILE__], what [token_size] holds at first, and [decode_test_...()]. *)
  Variables (__FILE__ : string) (uninit_size : Z) (decode_test : V -> option (Z * V)).
  Abbreviation FAIL_IF := (fail_if __FILE__).

Definition token_buffer : list Z := replicate (Z.to_nat TEST_TOKEN_SIZE) 0.

Definition tfm_attest_test_2001 : P V unit :=
  err ← call decode_test;
  (if negb (err =? 0) then test_log ("tfm_attest_test_2001() returned: %d" +:+ crlf) [VaInt err] else mret tt);;
  FAIL_IF 60 (negb (err =? 0)) "Attest token tfm_attest_test_2001() has failed";;
  ret_val TEST_PASSED.

Definition tfm_attest_test_2002 : P V unit :=
  let challenge_buffer := replicate (Z.to_nat TEST_CHALLENGE_OBJ_SIZE) 0 in
  '(err, token_size) ← psa_initial_attest_get_token_size INVALID_CHALLENGE_OBJECT_SIZE uninit_size;
  FAIL_IF 90 (negb (err =? PSA_ERROR_INVALID_ARGUMENT))
    "Attestation should fail with too big challenge object";;
  '(err, token_size) ← psa_initial_attest_get_token_size (sizeof challenge_buffer) token_size;
  FAIL_IF 98 (negb (err =? PSA_SUCCESS)) "Attest test tfm_attest_test_2002() has failed";;
  c_assert (token_size <=? sizeof token_buffer);;
  '(err, _) ← psa_initial_attest_get_token challenge_buffer (sizeof challenge_buffer)
    (u32 (token_size - 1));
  FAIL_IF 112 (negb (err =? PSA_ERROR_BUFFER_TOO_SMALL))
    "Attestation should fail with too small token buffer";;
  ret_val TEST_PASSED.

Definition attestation_interface_tests : list (test_t V) :=
  [TEST tfm_attest_test_2001 "TFM_NS_ATTEST_TEST_2001" "Symmetric key algorithm based Initial Attestation test";
   TEST tfm_attest_test_2002 "TFM_NS_ATTEST_TEST_2002"
     "Negative test cases for initial attestation service"].

Definition register_testsuite_ns_attestation_interface : TESTSUITE_REG V :=
  register "Symmetric key algorithm based Initial Attestation Service non-secure interface tests (TFM_NS_ATTEST_TEST_2XXX)"
    attestation_interface_tests.
End suite.
End SymNs.
