(* ===== verification/AttestProofs.v ===== *)
(** * Theorems about the attestation token decoder

    The results of the decoder of [AttestDecode] in terms of the CBOR tree of
    the payload. *)

From S2P Require Import Prelude Qcbor CborRef QcborProofs AttestDecode.
Local Open Scope Z_scope.

(** ** Values of claims *)

Definition as_bytes (t : cbor) : option (list Z) := match t with CBytes bs => Some bs | _ => None end.
Definition as_text (t : cbor) : option (list Z) := match t with CText bs => Some bs | _ => None end.
Definition as_int64 (t : cbor) : option Z := match t with CInt64 z => Some z | _ => None end.

(** The position of a tree's type among the types that have a constructor. *)
Definition kind (t : cbor) : nat :=
  match t with
  | COther _ => 0 | CInt64 _ => 1 | CUint64 _ => 2 | CBytes _ => 3 | CText _ => 4 | CArray _ => 5
  | CMap _ => 6
  end.

Section values.
  Context {QT : QcborTypes} {AE : AttestTokenErr} {TL : QcborTypesLaws}.

Lemma type_of_is t i ty :
  wf_node t -> i <> 0%nat ->
  [QCBOR_TYPE_NONE; QCBOR_TYPE_INT64; QCBOR_TYPE_UINT64; QCBOR_TYPE_BYTE_STRING;
   QCBOR_TYPE_TEXT_STRING; QCBOR_TYPE_ARRAY; QCBOR_TYPE_MAP] !! i = Some ty ->
  (type_of t =? ty) = bool_decide (kind t = i).
Proof.
  intros Hwf Hi Hty. destruct (decide (kind t = i)) as [<-|Hne].
  - rewrite bool_decide_true by done. apply Z.eqb_eq. destruct t; simpl in *; congruence.
  - rewrite bool_decide_false by done. apply Z.eqb_neq.
    destruct t as [z|z|bs|bs|ty'|ts|es]; try (eapply types_ne; [|exact Hty|exact Hne]; reflexivity).
    simpl in *. intros ->. apply Hwf. by eapply list_elem_of_lookup_2.
Qed.

Lemma is_bytes t : wf_node t -> (type_of t =? QCBOR_TYPE_BYTE_STRING) = bool_decide (is_Some (as_bytes t)).
Proof. intros H. rewrite (type_of_is t 3) by done. by destruct t. Qed.

Lemma is_text t : wf_node t -> (type_of t =? QCBOR_TYPE_TEXT_STRING) = bool_decide (is_Some (as_text t)).
Proof. intros H. rewrite (type_of_is t 4) by done. by destruct t. Qed.

Lemma is_int64 t : wf_node t -> (type_of t =? QCBOR_TYPE_INT64) = bool_decide (is_Some (as_int64 t)).
Proof. intros H. rewrite (type_of_is t 1) by done. by destruct t. Qed.
End values.

Lemma claim_wf {QT : QcborTypes} {AE : AttestTokenErr} l t v : wf t -> claim l t = inr v -> wf_node v.
Proof.
  destruct t as [| | | | | |es]; try done. intros Hwf%wf_entries. cbn [claim].
  destruct (seen es) as [es'|] eqn:Hs; [|done]. destruct (last_value l es') eqn:Hl; [|done].
  intros [= ->]. by eapply last_value_wf.
Qed.

(** ** The getters of one claim *)

Section getters.
  Context {QB : QUsefulBuf} {QBL : QUsefulBufLaws} {QT : QcborTypes} {AE : AttestTokenErr}.
  Context {TL : QcborTypesLaws} {C : Type} {QD : QcborDecoder C} {QL : QcborLaws C}.
  Variable u : QCBORItem.

(** A context after a successful validation. *)
Definition validated (p : list Z) : attest_token_decode_context :=
  mkDecode (Some p) ATTEST_TOKEN_ERR_SUCCESS.

(** The claim of a payload as attest_token_decode.h describes it: the value of the
    label in the top-level map. *)
Definition documented_claim (l : Z) (t : cbor) : Z + cbor :=
  match t with
  | CMap es =>
      match last_value l es with
      | Some v => inr v
      | None => inl ATTEST_TOKEN_ERR_NOT_FOUND
      end
  | _ => inl ATTEST_TOKEN_ERR_CBOR_STRUCTURE
  end.

Definition no_empty_payload (t : cbor) : Prop := match t with CMap es => no_empty es | _ => True end.

Lemma claim_documented l t : no_empty_payload t -> claim l t = documented_claim l t.
Proof. destruct t; try done. cbn. intros H. rewrite seen_all by done. by destruct (last_value _ _). Qed.

(** The result of a getter from the value of its claim.  On an error the claim
    variable keeps the value it had. *)
Definition getter_result {A} (f : cbor -> Z + A) (r : Z + cbor) (old : A) : Z * A :=
  match r with
  | inl e => (e, old)
  | inr v => match f v with inl e => (e, old) | inr a => (ATTEST_TOKEN_ERR_SUCCESS, a) end
  end.

Definition the_bytes (v : cbor) : Z + q_useful_buf_c :=
  match v with CBytes bs => inr (Some bs) | _ => inl ATTEST_TOKEN_ERR_CBOR_TYPE end.
Definition the_text (v : cbor) : Z + q_useful_buf_c :=
  match v with CText bs => inr (Some bs) | _ => inl ATTEST_TOKEN_ERR_CBOR_TYPE end.
Definition the_int (v : cbor) : Z + Z :=
  match v with
  | CInt64 z => inr z
  | CUint64 _ => inl ATTEST_TOKEN_ERR_INTEGER_VALUE
  | _ => inl ATTEST_TOKEN_ERR_CBOR_TYPE
  end.
Definition the_uint (v : cbor) : Z + Z :=
  match v with
  | CUint64 z => inr z
  | CInt64 z => if 0 <=? z then inr z else inl ATTEST_TOKEN_ERR_INTEGER_VALUE
  | _ => inl ATTEST_TOKEN_ERR_CBOR_TYPE
  end.

Lemma err_type_ne : ATTEST_TOKEN_ERR_CBOR_TYPE <> ATTEST_TOKEN_ERR_SUCCESS.
Proof. by apply (errs_ne 3 0). Qed.

(** The error of a claim that is not there. *)
Lemma claim_error t l e :
  claim l t = inl e -> e <> ATTEST_TOKEN_ERR_SUCCESS.
Proof.
  destruct t as [| | | | | |es]; cbn [claim]; try (intros [= <-]; by apply (errs_ne 1 0)).
  destruct (seen es) as [es'|]; [|intros [= <-]; by apply (errs_ne 2 0)].
  destruct (last_value l es'); [done|]. intros [= <-]. by apply (errs_ne 4 0).
Qed.

Lemma get_bstr_spec p t l old fuel :
  encodes p t -> l <> 0 -> (fuel_for (children t) <= fuel)%nat ->
  attest_token_decode_get_bstr u fuel (validated p) l old =
    Some (getter_result the_bytes (claim l t) old).
Proof.
  intros Hp Hl Hf. unfold attest_token_decode_get_bstr. cbn [last_error validated payload].
  rewrite Z.eqb_refl. cbn [negb].
  destruct (top_level_claim u t p l QCBOR_TYPE_BYTE_STRING u fuel Hp Hl Hf) as [next ->].
  unfold getter_result. destruct (claim l t) as [e|v] eqn:Hc; cbn [mbind option_bind].
  - by rewrite (proj2 (Z.eqb_neq _ _) (claim_error _ _ _ Hc)).
  - rewrite is_bytes by (eapply claim_wf; [by eapply law_wf | done]). destruct v; cbn;
      rewrite ?Z.eqb_refl, ?(proj2 (Z.eqb_neq _ _) err_type_ne); done.
Qed.

Lemma get_tstr_spec p t l old fuel :
  encodes p t -> l <> 0 -> (fuel_for (children t) <= fuel)%nat ->
  attest_token_decode_get_tstr u fuel (validated p) l old =
    Some (getter_result the_text (claim l t) old).
Proof.
  intros Hp Hl Hf. unfold attest_token_decode_get_tstr. cbn [last_error validated payload].
  rewrite Z.eqb_refl. cbn [negb].
  destruct (top_level_claim u t p l QCBOR_TYPE_TEXT_STRING u fuel Hp Hl Hf) as [next ->].
  unfold getter_result. destruct (claim l t) as [e|v] eqn:Hc; cbn [mbind option_bind].
  - by rewrite (proj2 (Z.eqb_neq _ _) (claim_error _ _ _ Hc)).
  - rewrite is_text by (eapply claim_wf; [by eapply law_wf | done]). destruct v; cbn;
      rewrite ?Z.eqb_refl, ?(proj2 (Z.eqb_neq _ _) err_type_ne); done.
Qed.

Lemma finish_zero c : ctx_items c [] -> negb (QCBORDecode_Finish c =? 0) = false.
Proof. intros Hc. by rewrite law_finish, <- qcbor_success, Z.eqb_refl by done. Qed.

Lemma is_uint64 t : wf_node t -> (type_of t =? QCBOR_TYPE_UINT64) = bool_decide (kind t = 2%nat).
Proof. intros H. by apply type_of_is. Qed.

Lemma get_int_spec p t l old fuel :
  encodes p t -> l <> 0 -> (fuel_for (children t) <= fuel)%nat ->
  attest_token_decode_get_int u fuel (validated p) l old = Some (getter_result the_int (claim l t) old).
Proof.
  intros Hp Hl Hf. unfold attest_token_decode_get_int. cbn [last_error validated payload].
  rewrite Z.eqb_refl. cbn [negb]. unfold getter_result.
  pose proof (get_item_claim u t _ l u fuel (law_wf _ _ Hp) Hl (law_init _ _ Hp) Hf) as H.
  destruct (claim l t) as [e|v] eqn:Hc.
  - destruct H as (He & c' & ->). cbn [mbind option_bind]. by rewrite (proj2 (Z.eqb_neq _ _) He).
  - destruct H as (next & c' & -> & Hc'). cbn [mbind option_bind]. rewrite Z.eqb_refl, finish_zero by done.
    assert (wf_node v) as Hwf by (eapply claim_wf; [by eapply law_wf | done]).
    cbn [negb uDataType item_of]. rewrite is_int64, is_uint64 by done. destruct v; try done.
    cbn in *. destruct (Z.ltb_spec z INT64_MAX); [unfold INT64_MAX in *; lia | done].
Qed.

Lemma get_uint_spec p t l old fuel :
  encodes p t -> l <> 0 -> (fuel_for (children t) <= fuel)%nat ->
  attest_token_decode_get_uint u fuel (validated p) l old = Some (getter_result the_uint (claim l t) old).
Proof.
  intros Hp Hl Hf. unfold attest_token_decode_get_uint. cbn [last_error validated payload].
  rewrite Z.eqb_refl. cbn [negb]. unfold getter_result.
  pose proof (get_item_claim u t _ l u fuel (law_wf _ _ Hp) Hl (law_init _ _ Hp) Hf) as H.
  destruct (claim l t) as [e|v] eqn:Hc.
  - destruct H as (He & c' & ->). cbn [mbind option_bind]. rewrite <- attest_success.
    by rewrite (proj2 (Z.eqb_neq _ _) He).
  - destruct H as (next & c' & -> & Hc'). cbn [mbind option_bind].
    rewrite <- attest_success at 1. rewrite Z.eqb_refl, finish_zero by done.
    assert (wf_node v) as Hwf by (eapply claim_wf; [by eapply law_wf | done]).
    cbn [negb uDataType item_of]. rewrite is_int64, is_uint64 by done. destruct v; try done.
    cbn. by destruct (0 <=? z).
Qed.
End getters.

(** ** All simple claims at once *)

Section simple.
  Context {QB : QUsefulBuf} {QBL : QUsefulBufLaws} {QT : QcborTypes} {AE : AttestTokenErr}.
  Context {TL : QcborTypesLaws} {IL : IatLabels} {ILL : IatLabelsLaws}.
  Context {C : Type} {QD : QcborDecoder C} {QL : QcborLaws C}.
  Variable u : QCBORItem.
  Variable uninit_label : Z -> Z.
  Variable profile : token_profile.

(** The value of a label of a type. *)
Definition value_as {A} (f : cbor -> option A) (es : list (label * cbor)) (l : Z) : option A :=
  last_value l es ≫= f.

(** The bits of [item_flags]. *)
Definition flag_bits (bs : list bool) : Z :=
  fold_left (fun a '(i, b) => if b : bool then Z.lor a (CLAIM_PRESENT_BIT i) else a)
    (imap (fun i b => (Z.of_nat i, b)) bs) 0.

Definition present {A} (o : option A) : bool := bool_decide (is_Some o).

(** What [get_iat_simple] returns for a map with the entries [es]. *)
Definition simple_claims (es : list (label * cbor)) : attest_token_iat_simple_t :=
  let bstr := value_as as_bytes es in
  let tstr := value_as as_text es in
  let cid := value_as as_int64 es IAT_CLIENT_ID in
  let slc := value_as as_int64 es IAT_SECURITY_LIFECYCLE ≫= fun z => if z <? UINT32_MAX then Some z else None in
  {|
    nonce := bstr IAT_NONCE;
    instance_id := bstr IAT_INSTANCE_ID;
    boot_seed := bstr IAT_BOOT_SEED;
    cert_ref := tstr IAT_CERTIFICATION_REFERENCE;
    implementation_id := bstr IAT_IMPLEMENTATION_ID;
    security_lifecycle := default 0 (u32 <$> slc);
    client_id := default 0 (i32 <$> cid);
    profile_definition := tstr IAT_PROFILE_DEFINITION;
    verif_serv := tstr IAT_VERIFICATION_SERVICE;
    hash_algo_id := None;
    plat_config := None;
    item_flags := flag_bits [present (bstr IAT_NONCE); present (bstr IAT_INSTANCE_ID);
      present (bstr IAT_BOOT_SEED); present (tstr IAT_CERTIFICATION_REFERENCE);
      present (bstr IAT_IMPLEMENTATION_ID); present cid; present slc;
      present (tstr IAT_PROFILE_DEFINITION); present (tstr IAT_VERIFICATION_SERVICE)];
  |}.

(** A list of labels stops at the first 0. *)
Lemma first_zero (ls : list Z) :
  exists good tl, ls ++ [0] = good ++ 0 :: tl /\ Forall (fun l => l <> 0) good.
Proof.
  induction ls as [|l ls (good & tl & Heq & Hg)]; [by exists [], []|].
  destruct (decide (l = 0)) as [->|Hl]; [by exists [], (ls ++ [0])|].
  exists (l :: good), tl. split; [cbn; by rewrite Heq | by constructor].
Qed.

Definition main_labels : list Z :=
  [IAT_NONCE; IAT_INSTANCE_ID; IAT_BOOT_SEED; IAT_CERTIFICATION_REFERENCE; IAT_IMPLEMENTATION_ID;
   IAT_CLIENT_ID; IAT_SECURITY_LIFECYCLE; IAT_PROFILE_DEFINITION; IAT_VERIFICATION_SERVICE].

Lemma main_labels_nonzero : Forall (fun l => l <> 0) main_labels.
Proof.
  apply Forall_forall. intros l Hl ->. pose proof iat_NoDup as H. apply NoDup_cons in H as [H _].
  apply H. apply (elem_of_app main_labels). by left.
Qed.

Lemma simple_list_split :
  exists good tl, simple_list u uninit_label profile =
    ((fun l => (l, u)) <$> main_labels ++ good) ++ (0, u) :: tl /\
    Forall (fun x => x.1 <> 0) ((fun l => (l, u)) <$> main_labels ++ good).
Proof.
  unfold simple_list, simple_labels. fold main_labels.
  destruct (first_zero (if decide (profile = ARM_CCA)
    then [IAT_PLATFORM_HASH_ALGO_ID; IAT_PLATFORM_CONFIG]
    else [uninit_label PLAT_HASH_ALGO_ID; uninit_label PLAT_CONFIG])) as (good & tl & -> & Hg).
  exists good, ((fun l => (l, u)) <$> tl). split; [by rewrite !fmap_app, <- app_assoc|].
  apply Forall_fmap, Forall_app_2; [apply main_labels_nonzero | done].
Qed.

(** What a slot of the list holds after the search. *)
Definition slot (es : list (label * cbor)) (l : Z) (it : QCBORItem) : Prop :=
  match last_value l es with
  | Some t => exists next, it = item_of 1 (LabelInt l) next t
  | None => it = set_type QCBOR_TYPE_NONE u
  end.

Lemma slot_of_found es ls rest fs' flag l :
  Forall2 (found_item 1 es)
    ((fun x => (x.1, set_type QCBOR_TYPE_NONE x.2)) <$> ((fun l => (l, u)) <$> ls)) fs' ->
  ls !! Z.to_nat flag = Some l -> slot es l (list_item u (fs' ++ rest) flag).
Proof.
  intros H Hl. rewrite <- list_fmap_compose in H. rewrite Forall2_fmap_l in H.
  eapply Forall2_lookup_l in H as ([l' it] & Hi & Hlab & Hv); [|exact Hl]. cbn in Hlab, Hv. subst l'.
  unfold slot, list_item. rewrite (lookup_app_l_Some _ _ _ _ Hi). cbn. by destruct (last_value l es).
Qed.

Lemma none_is ty i :
  i <> 0%nat ->
  [QCBOR_TYPE_NONE; QCBOR_TYPE_INT64; QCBOR_TYPE_UINT64; QCBOR_TYPE_BYTE_STRING;
   QCBOR_TYPE_TEXT_STRING; QCBOR_TYPE_ARRAY; QCBOR_TYPE_MAP] !! i = Some ty ->
  (uDataType (set_type QCBOR_TYPE_NONE u) =? ty) = false.
Proof. intros Hi Hty. apply Z.eqb_neq. by apply (types_ne 0 i). Qed.

Definition wf_values (es : list (label * cbor)) : Prop :=
  forall l t, last_value l es = Some t -> wf_node t.

Lemma store_bytes l es flag lab set items :
  wf_values es -> slot es lab (list_item u l flag) ->
  store_string u l flag QCBOR_TYPE_BYTE_STRING set items =
  match value_as as_bytes es lab with Some bs => set items (Some bs) | None => items end.
Proof.
  intros Hwf Hs. unfold store_string, slot, value_as in *.
  destruct (last_value lab es) as [t|] eqn:Hl; cbn [mbind option_bind].
  - destruct Hs as [next ->]. cbn [uDataType item_of]. rewrite is_bytes by eauto. by destruct t.
  - rewrite Hs. by rewrite (none_is _ 3).
Qed.

Lemma store_text l es flag lab set items :
  wf_values es -> slot es lab (list_item u l flag) ->
  store_string u l flag QCBOR_TYPE_TEXT_STRING set items =
  match value_as as_text es lab with Some bs => set items (Some bs) | None => items end.
Proof.
  intros Hwf Hs. unfold store_string, slot, value_as in *.
  destruct (last_value lab es) as [t|] eqn:Hl; cbn [mbind option_bind].
  - destruct Hs as [next ->]. cbn [uDataType item_of]. rewrite is_text by eauto. by destruct t.
  - rewrite Hs. by rewrite (none_is _ 4).
Qed.

Lemma store_client_id_spec l es items :
  wf_values es -> slot es IAT_CLIENT_ID (list_item u l CLIENT_ID_FLAG) ->
  store_client_id u l items =
  match value_as as_int64 es IAT_CLIENT_ID with Some z => set_client_id items (i32 z) | None => items end.
Proof.
  intros Hwf Hs. unfold store_client_id, slot, value_as in *.
  destruct (last_value IAT_CLIENT_ID es) as [t|] eqn:Hl; cbn [mbind option_bind].
  - destruct Hs as [next ->]. cbn [uDataType item_of]. rewrite is_int64 by eauto. destruct t; try done.
    cbn [val_int64 item_of as_int64]. rewrite bool_decide_true by by eexists.
    assert ((z <? INT32_MAX) || (INT32_MIN <? z) = true) as ->; [|done].
    apply orb_true_iff. rewrite !Z.ltb_lt. unfold INT32_MAX, INT32_MIN. lia.
  - rewrite Hs. by rewrite (none_is _ 1).
Qed.

Lemma store_security_lifecycle_spec l es items :
  wf_values es -> slot es IAT_SECURITY_LIFECYCLE (list_item u l SECURITY_LIFECYCLE_FLAG) ->
  store_security_lifecycle u l items =
  match value_as as_int64 es IAT_SECURITY_LIFECYCLE ≫= (fun z => if z <? UINT32_MAX then Some z else None) with
  | Some z => set_security_lifecycle items (u32 z)
  | None => items
  end.
Proof.
  intros Hwf Hs. unfold store_security_lifecycle, slot, value_as in *.
  destruct (last_value IAT_SECURITY_LIFECYCLE es) as [t|] eqn:Hl; cbn [mbind option_bind].
  - destruct Hs as [next ->]. cbn [uDataType item_of]. rewrite is_int64 by eauto. destruct t; try done.
    cbn [val_int64 item_of as_int64 option_bind]. rewrite bool_decide_true by by eexists.
    cbn [mbind option_bind]. by destruct (z <? UINT32_MAX).
  - rewrite Hs. by rewrite (none_is _ 1).
Qed.

(** The stores after the search, from the slots. *)
Lemma store_claims_spec l es :
  wf_values es ->
  (forall flag lab, main_labels !! Z.to_nat flag = Some lab -> slot es lab (list_item u l flag)) ->
  store_claims u l simple_zero = simple_claims es.
Proof.
  intros Hwf Hs. unfold store_claims.
  rewrite (store_bytes l es NONCE_FLAG IAT_NONCE), (store_bytes l es INSTANCE_ID_FLAG IAT_INSTANCE_ID),
    (store_bytes l es BOOT_SEED_FLAG IAT_BOOT_SEED),
    (store_text l es CERT_REF_FLAG IAT_CERTIFICATION_REFERENCE),
    (store_bytes l es IMPLEMENTATION_ID_FLAG IAT_IMPLEMENTATION_ID), (store_client_id_spec l es),
    (store_security_lifecycle_spec l es), (store_text l es PROFILE_DEFINITION_FLAG IAT_PROFILE_DEFINITION),
    (store_text l es VERIFICATION_SERVICE_FLAG IAT_VERIFICATION_SERVICE); try done; try by apply Hs.
  unfold simple_claims.
  destruct (value_as as_bytes es IAT_NONCE), (value_as as_bytes es IAT_INSTANCE_ID),
    (value_as as_bytes es IAT_BOOT_SEED), (value_as as_text es IAT_CERTIFICATION_REFERENCE),
    (value_as as_bytes es IAT_IMPLEMENTATION_ID), (value_as as_int64 es IAT_CLIENT_ID),
    (value_as as_int64 es IAT_SECURITY_LIFECYCLE ≫= _), (value_as as_text es IAT_PROFILE_DEFINITION),
    (value_as as_text es IAT_VERIFICATION_SERVICE); reflexivity.
Qed.

(** The result of [get_iat_simple] for a tree. *)
Definition iat_simple_result (t : cbor) : Z * attest_token_iat_simple_t :=
  match t with
  | CMap es =>
      match seen es with
      | Some es' => (ATTEST_TOKEN_ERR_SUCCESS, simple_claims es')
      | None => (ATTEST_TOKEN_ERR_CBOR_NOT_WELL_FORMED, simple_zero)
      end
  | _ => (ATTEST_TOKEN_ERR_CBOR_STRUCTURE, simple_zero)
  end.

Lemma get_iat_simple_map p es fuel :
  encodes p (CMap es) -> (fuel_for es <= fuel)%nat ->
  attest_token_decode_get_iat_simple u uninit_label profile fuel (validated p) =
    Some (iat_simple_result (CMap es)).
Proof.
  intros Hp Hf. unfold attest_token_decode_get_iat_simple. cbn [last_error validated payload].
  rewrite Z.eqb_refl. cbn [negb iat_simple_result].
  destruct simple_list_split as (good & tl & -> & Hnz).
  pose proof (get_items_in_map_spec u es _ _ u tl fuel (law_wf _ _ Hp) Hnz (law_init _ _ Hp) Hf) as H.
  destruct (seen es) as [es'|] eqn:Hseen.
  - destruct H as (fs' & c' & -> & _ & Hfound). cbn [mbind option_bind]. rewrite Z.eqb_refl. cbn [negb].
    do 2 f_equal. apply store_claims_spec.
    + intros l t Hl. eapply last_value_wf; [done | by apply wf_entries, (law_wf p) | done].
    + intros flag lab Hlab. eapply slot_of_found; [exact Hfound|]. by apply lookup_app_l_Some.
  - destruct H as (fs' & c' & ->). cbn [mbind option_bind].
    rewrite (proj2 (Z.eqb_neq _ _)); [done|]. by apply (errs_ne 2 0).
Qed.

Lemma get_iat_simple_spec p t fuel :
  encodes p t -> (fuel_for (children t) <= fuel)%nat ->
  attest_token_decode_get_iat_simple u uninit_label profile fuel (validated p) =
    Some (iat_simple_result t).
Proof.
  intros Hp Hf.
  assert ((exists es, t = CMap es) \/ forall es, t <> CMap es) as [[es ->]|Hm]
    by (destruct t; try (by right); left; eauto).
  { by apply get_iat_simple_map. }
  unfold attest_token_decode_get_iat_simple, qcbor_util_get_items_in_map. cbn [last_error validated payload].
  rewrite Z.eqb_refl. cbn [negb]. pose proof (law_init _ _ Hp) as Hc. rewrite items_eq in Hc.
  destruct (law_next _ _ _ u Hc) as (c' & -> & _).
  rewrite head_not_map by (done || by destruct (law_wf _ _ Hp)). cbn [negb mbind option_bind].
  rewrite (proj2 (Z.eqb_neq _ _)) by by apply (errs_ne 1 0). destruct t; try done. by destruct (Hm es).
Qed.
End simple.

(** ** Software components *)

Section components.
  Context {QB : QUsefulBuf} {QBL : QUsefulBufLaws} {QT : QcborTypes} {AE : AttestTokenErr}.
  Context {TL : QcborTypesLaws} {IL : IatLabels} {ILL : IatLabelsLaws}.
  Context {C : Type} {QD : QcborDecoder C} {QL : QcborLaws C}.
  Variable u : QCBORItem.
  Variable profile : token_profile.

(** The number of components from the values of the two claims. *)
Definition num_result (t : cbor) (old : Z) : Z * Z :=
  match claim IAT_SW_COMPONENTS t with
  | inr (CArray []) => (ATTEST_TOKEN_ERR_SW_COMPONENTS_MISSING, old)
  | inr (CArray ts) => (ATTEST_TOKEN_ERR_SUCCESS, Z.of_nat (length ts))
  | inr _ => (ATTEST_TOKEN_ERR_CBOR_TYPE, old)
  | inl e =>
      if decide (profile = PSA_IOT_1 /\ e = ATTEST_TOKEN_ERR_NOT_FOUND) then
        match claim IAT_NO_SW_COMPONENTS t with
        | inr (CInt64 z) =>
            if z =? NO_SW_COMPONENT_FIXED_VALUE then (ATTEST_TOKEN_ERR_SUCCESS, 0)
            else (ATTEST_TOKEN_ERR_SW_COMPONENTS_MISSING, old)
        | inr _ => (ATTEST_TOKEN_ERR_CBOR_TYPE, old)
        | inl e => if e =? ATTEST_TOKEN_ERR_NOT_FOUND
                   then (ATTEST_TOKEN_ERR_SW_COMPONENTS_MISSING, old) else (e, old)
        end
      else (e, old)
  end.

Lemma iat_label_nonzero i l :
  [0; IAT_NONCE; IAT_INSTANCE_ID; IAT_BOOT_SEED; IAT_CERTIFICATION_REFERENCE;
   IAT_IMPLEMENTATION_ID; IAT_CLIENT_ID; IAT_SECURITY_LIFECYCLE; IAT_PROFILE_DEFINITION;
   IAT_VERIFICATION_SERVICE; IAT_PLATFORM_HASH_ALGO_ID; IAT_PLATFORM_CONFIG; IAT_SW_COMPONENTS;
   IAT_NO_SW_COMPONENTS] !! i = Some l -> i <> 0%nat -> l <> 0.
Proof. intros Hl Hi ->. apply Hi. by eapply NoDup_lookup; [apply iat_NoDup | exact Hl | done]. Qed.

(** The value of a claim that has a type. *)
Lemma typed_claim t l i ty p :
  encodes p t -> i <> 0%nat ->
  [QCBOR_TYPE_NONE; QCBOR_TYPE_INT64; QCBOR_TYPE_UINT64; QCBOR_TYPE_BYTE_STRING;
   QCBOR_TYPE_TEXT_STRING; QCBOR_TYPE_ARRAY; QCBOR_TYPE_MAP] !! i = Some ty ->
  forall v, claim l t = inr v -> (type_of v =? ty) = bool_decide (kind v = i).
Proof. intros Hp Hi Hty v Hc. apply type_of_is; [|done|done]. eapply claim_wf; [by eapply law_wf | done]. Qed.

Lemma get_num_spec p t old fuel :
  encodes p t -> (fuel_for (children t) <= fuel)%nat ->
  attest_token_get_num_sw_components u profile fuel (validated p) old = Some (num_result t old).
Proof.
  intros Hp Hf. unfold attest_token_get_num_sw_components. cbn [last_error validated payload].
  rewrite Z.eqb_refl. cbn [negb].
  assert (IAT_SW_COMPONENTS <> 0 /\ IAT_NO_SW_COMPONENTS <> 0) as [Hsw Hno]
    by (split; [by apply (iat_label_nonzero 12) | by apply (iat_label_nonzero 13)]).
  destruct (top_level_claim u t p _ QCBOR_TYPE_ARRAY u fuel Hp Hsw Hf) as [next ->]. unfold num_result.
  destruct (claim IAT_SW_COMPONENTS t) as [e|v] eqn:Hc; cbn [mbind option_bind].
  - rewrite (proj2 (Z.eqb_neq _ _)) by by eapply claim_error. cbn [negb].
    destruct (decide (profile = PSA_IOT_1)) as [Hp1|Hp1]; [|by rewrite decide_False by tauto].
    destruct (Z.eqb_spec e ATTEST_TOKEN_ERR_NOT_FOUND) as [He|He]; [|by rewrite decide_False by tauto].
    rewrite decide_True by done.
    destruct (top_level_claim u t p _ QCBOR_TYPE_INT64 u fuel Hp Hno Hf) as [next' ->].
    destruct (claim IAT_NO_SW_COMPONENTS t) as [e'|v] eqn:Hc'; cbn [mbind option_bind].
    + rewrite (proj2 (Z.eqb_neq _ _)) by by eapply claim_error. by destruct (e' =? _).
    + rewrite (typed_claim t _ 1 QCBOR_TYPE_INT64 p Hp) by done.
      assert ((ATTEST_TOKEN_ERR_CBOR_TYPE =? ATTEST_TOKEN_ERR_NOT_FOUND) = false) as Htn
        by (apply Z.eqb_neq; by apply (errs_ne 3 4)).
      destruct v; cbn [kind];
        try (rewrite bool_decide_false by done; by rewrite (proj2 (Z.eqb_neq _ _) err_type_ne), Htn).
      rewrite bool_decide_true, Z.eqb_refl by done. cbn [val_int64 item_of].
      by destruct (z =? NO_SW_COMPONENT_FIXED_VALUE).
  - rewrite (typed_claim t _ 5 QCBOR_TYPE_ARRAY p Hp) by done.
    assert ((ATTEST_TOKEN_ERR_CBOR_TYPE =? ATTEST_TOKEN_ERR_NOT_FOUND) = false) as Htn
      by (apply Z.eqb_neq; by apply (errs_ne 3 4)).
    destruct v as [| | | | |ts|]; cbn [kind];
      try (rewrite bool_decide_false by done; rewrite (proj2 (Z.eqb_neq _ _) err_type_ne); cbn [negb];
           rewrite Htn; by destruct (decide (profile = PSA_IOT_1))).
    rewrite bool_decide_true, Z.eqb_refl by done. cbn [negb val_uCount item_of children].
    rewrite length_fmap. destruct ts as [|t' ts]; [done|]. by destruct (Z.eqb_spec (Z.of_nat (length (t' :: ts))) 0).
Qed.

(** *** One component *)

(** The [switch] on one entry. *)
Definition sw_entry (lab : label) (t : cbor) (sw : attest_token_sw_component_t) :
    option attest_token_sw_component_t :=
  match lab with
  | LabelInt l =>
      if l =? IAT_SW_COMPONENT_MEASUREMENT_TYPE then set_measurement_type sw ∘ Some <$> as_text t
      else if l =? IAT_SW_COMPONENT_MEASUREMENT_VALUE then set_measurement_val sw ∘ Some <$> as_bytes t
      else if l =? IAT_SW_COMPONENT_VERSION then set_version sw ∘ Some <$> as_text t
      else if l =? IAT_SW_COMPONENT_SIGNER_ID then set_signer_id sw ∘ Some <$> as_bytes t
      else if l =? IAT_SW_COMPONENT_MEASUREMENT_DESC then set_measurement_desc sw ∘ Some <$> as_text t
      else Some sw
  | _ => Some sw
  end.

(** The entries of a component, in order. *)
Fixpoint sw_entries (es : list (label * cbor)) (sw : attest_token_sw_component_t) :
    Z * attest_token_sw_component_t :=
  match es with
  | [] => (ATTEST_TOKEN_ERR_SUCCESS, sw)
  | (lab, t) :: es =>
      match sw_entry lab t sw with
      | Some sw => sw_entries es sw
      | None => (ATTEST_TOKEN_ERR_CBOR_TYPE, sw)
      end
  end.

Lemma sw_claim_entry lvl lab nx t sw :
  wf_label lab -> wf_node t ->
  (if uLabelType (item_of lvl lab nx t) =? QCBOR_TYPE_INT64 then sw_claim (item_of lvl lab nx t) sw
   else Some sw) = sw_entry lab t sw.
Proof.
  intros Hlab Ht. cbn [uLabelType item_of]. destruct lab as [|l|ty].
  - by rewrite (proj2 (Z.eqb_neq _ _)) by by apply (types_ne 0 1).
  - rewrite Z.eqb_refl. unfold sw_claim. cbn [label_int64 uDataType val_string item_of sw_entry].
    rewrite is_text, is_bytes by done. by destruct t; repeat destruct (_ =? _).
  - by rewrite (proj2 (Z.eqb_neq _ _)).
Qed.

Lemma sw_loop_spec es : forall next m c it sw rest fuel,
  es <> [] -> no_empty es -> Forall (fun e => wf_label e.1 /\ wf_node e.2) es -> next < 3 ->
  uNextNestLevel m = 3 -> ctx_items c (entry_items 3 next es ++ rest) ->
  (length (entry_items 3 next es) < fuel)%nat ->
  exists c', sw_loop u fuel m c it sw = Some (sw_entries es sw, c').
Proof.
  induction es as [|[lab t] es IH]; intros next m c it sw rest fuel Hne He Hwf Hn Hm Hc Hf; [done|].
  apply Forall_cons in He as [Het He], Hwf as [[Hlab Ht] Hwf]. simpl in Het, Hlab, Ht.
  destruct fuel as [|fuel]; [lia|]. cbn [sw_loop sw_entries].
  rewrite entry_items_step in Hc, Hf. cbn [length app] in Hc, Hf. rewrite length_app in Hf.
  destruct (law_next _ _ _ it Hc) as (c1 & -> & Hc1). rewrite Z.eqb_refl. cbn [negb].
  rewrite sw_claim_entry by done. destruct (sw_entry lab t sw) as [sw'|]; [|by exists c1].
  rewrite <- app_assoc in Hc1.
  destruct (consume_item_spec u 3 lab (after 3 next es) t c1 0 (entry_items 3 next es ++ rest) fuel)
    as (c2 & -> & Hc2); [done | done | destruct es; simpl; lia | done | change (3 + 1) with 4 in *; lia |].
  cbn [mbind option_bind]. rewrite qcbor_success. cbn [negb Z.eqb]. rewrite Hm.
  destruct es as [|e es]; cbn [after].
  - destruct (Z.ltb_spec next 3); [|lia]. by exists c2.
  - cbn [Z.ltb Z.compare Pos.compare Pos.compare_cont].
    apply (IH next m c2 _ sw' rest); [done | done | done | done | done | done | lia].
Qed.

(** *** The member at an index *)

(** What the loop over the members finds: the member, or an error; [rest] are
    the claims after the array. *)
Fixpoint member_at (i : nat) (ts : list cbor) (rest : list (label * cbor)) {struct ts} : Z + cbor :=
  match ts with
  | [] => inl (if decide (rest = []) then ATTEST_TOKEN_ERR_CBOR_NOT_WELL_FORMED
               else ATTEST_TOKEN_ERR_NOT_FOUND)
  | t :: ts =>
      if decide (children t = []) then inl ATTEST_TOKEN_ERR_NOT_FOUND
      else match i with O => inr t | S i => member_at i ts rest end
  end.

(** The result for a member. *)
Definition member_result (r : Z + cbor) (old : attest_token_sw_component_t) :
    option (Z * attest_token_sw_component_t) :=
  match r with
  | inl e => Some (e, old)
  | inr (CMap es) => Some (sw_entries es sw_zero)
  | inr _ => Some (ATTEST_TOKEN_ERR_CBOR_STRUCTURE, old)
  end.

(** No component has an empty container among its entries. *)
Definition plain_member (t : cbor) : Prop := match t with CMap es => no_empty es | _ => True end.

Lemma decode_sw_component_spec t nx c old rest fuel :
  wf t -> children t <> [] -> plain_member t -> nx < 3 ->
  ctx_items c (entry_items 3 nx (children t) ++ rest) ->
  (length (entry_items 3 nx (children t)) < fuel)%nat ->
  exists c' r, decode_sw_component u fuel c (item_of 2 NoLabel nx t) old = Some (r, c') /\
    member_result (inr t) old = Some r.
Proof.
  intros Hwf Hne Hp Hn Hc Hf. unfold decode_sw_component.
  assert ((exists es, t = CMap es) \/ forall es, t <> CMap es) as [[es ->]|Hm]
    by (destruct t; try (by right); left; eauto).
  - cbn [uDataType item_of type_of]. rewrite Z.eqb_refl. cbn [negb].
    edestruct (sw_loop_spec es nx (item_of 2 NoLabel nx (CMap es)) c u sw_zero rest fuel) as [c' ->];
      [done | done | by apply wf_entries | done | | done | done |].
    { cbn [uNextNestLevel item_of]. by rewrite decide_False. }
    by eexists _, _.
  - rewrite head_not_map by (done || by destruct Hwf). cbn [negb].
    exists c, (ATTEST_TOKEN_ERR_CBOR_STRUCTURE, old). split; [done|]. destruct t; try done. by destruct (Hm es).
Qed.

Lemma no_children t : children t = [] \/ empty_container t = false.
Proof. destruct t as [| | | | |[|]|[|]]; auto. Qed.

Lemma sw_array_loop_end i rest c it old fuel :
  ctx_items c (entry_items 1 0 rest) -> (0 < fuel)%nat ->
  sw_array_loop u fuel 2 i c it old = member_result (member_at 0 [] rest) old.
Proof.
  intros Hc Hf. destruct fuel as [|fuel]; [lia|]. cbn [sw_array_loop member_at].
  destruct rest as [|[lab t] rest].
  - rewrite decide_True by done. destruct (law_end c it Hc) as (e & it' & c' & -> & He).
    by rewrite (proj2 (Z.eqb_neq e 0)) by (rewrite <- qcbor_success; done).
  - rewrite decide_False by done. rewrite entry_items_step in Hc.
    destruct (law_next _ _ _ it Hc) as (c' & -> & _). rewrite qcbor_success. cbn [negb Z.eqb].
    cbn [uNextNestLevel item_of].
    assert ((if decide (children t = []) then after 1 0 rest else 1 + 1) <= 2) as Hle
      by (destruct (decide (children t = [])), rest; simpl; lia).
    by rewrite (proj2 (Z.leb_le _ _) Hle).
Qed.

Lemma sw_array_loop_spec ts : forall i c it old rest fuel,
  Forall wf ts -> Forall plain_member ts ->
  ctx_items c (entry_items 2 (after 1 0 rest) ((fun t => (NoLabel, t)) <$> ts) ++ entry_items 1 0 rest) ->
  (length (entry_items 2 (after 1 0 rest) ((fun t => (NoLabel, t)) <$> ts)) + 1 < fuel)%nat ->
  sw_array_loop u fuel 2 (Z.of_nat i) c it old = member_result (member_at i ts rest) old.
Proof.
  induction ts as [|t ts IH]; intros i c it old rest fuel Hwf Hp Hc Hf.
  { rewrite (sw_array_loop_end _ rest) by (done || lia). by destruct i. }
  apply Forall_cons in Hwf as [Ht Hwf], Hp as [Hpt Hp].
  destruct fuel as [|fuel]; [lia|]. cbn [sw_array_loop member_at].
  rewrite fmap_cons, entry_items_step in Hc, Hf. cbn [app length] in Hc, Hf. rewrite length_app in Hf.
  rewrite <- app_assoc in Hc. change (2 + 1) with 3 in *.
  set (nx := after 2 (after 1 0 rest) ((fun t => (NoLabel, t)) <$> ts)) in *.
  assert (nx <= 2) as Hnx by (unfold nx; destruct ts, rest; simpl; lia).
  destruct (law_next _ _ _ it Hc) as (c1 & -> & Hc1). rewrite qcbor_success. cbn [negb Z.eqb].
  cbn [uNextNestLevel item_of]. destruct (decide (children t = [])) as [Hch|Hch].
  { by destruct (Z.leb_spec nx 2); [|lia]. }
  destruct (Z.leb_spec (2 + 1) 2) as [|_]; [lia|]. destruct i as [|i].
  - cbn [Z.eqb Z.of_nat]. edestruct (decode_sw_component_spec t nx c1 old) as (c' & r & -> & Hr);
      [done | done | done | lia | done | lia |]. cbn [mbind option_bind]. rewrite Hr. by destruct r.
  - destruct (Z.eqb_spec (Z.of_nat (S i)) 0); [lia|].
    destruct (no_children t) as [|He]; [done|].
    edestruct (consume_item_spec u 2 NoLabel nx t c1 0) as (c2 & -> & Hc2);
      [by destruct Ht | done | done | done | change (2 + 1) with 3; lia |].
    cbn [mbind option_bind]. rewrite qcbor_success. cbn [negb Z.eqb].
    replace (Z.of_nat (S i) - 1) with (Z.of_nat i) by lia. apply IH; [done | done | done | lia].
Qed.

(** *** The array among the claims *)

Lemma search_inr l es v rest :
  search l es = inr (v, rest) ->
  (LabelInt l, v) ∈ es /\
  (length (entry_items 2 (after 1 0 rest) (children v)) + length (entry_items 1 0 rest) <
     length (entry_items 1 0 es))%nat.
Proof.
  induction es as [|[lab t] es IH]; cbn [search]; [done|]. rewrite entry_items_1. cbn [length].
  rewrite length_app. case_decide as Hl.
  - intros [= -> ->]. subst lab. split; [left | lia].
  - destruct (empty_container t); [done|]. destruct es as [|e es]; [done|].
    intros [Hin Hlt]%IH. split; [by right | lia].
Qed.

Lemma wf_entry es lab v : wf (CMap es) -> (lab, v) ∈ es -> wf v.
Proof. inversion 1 as [t Hn Hc]; subst. rewrite Forall_forall in Hc. intros Hin. by apply Hc in Hin as [_ ?]. Qed.

Lemma get_sw_component_spec p es ts rest i old fuel :
  encodes p (CMap es) -> search IAT_SW_COMPONENTS es = inr (CArray ts, rest) -> ts <> [] ->
  Forall plain_member ts -> (fuel_for es <= fuel)%nat ->
  attest_token_get_sw_component u fuel (validated p) (Z.of_nat i) old =
    member_result (member_at i ts rest) old.
Proof.
  intros Hp Hs Hne Hpl Hf. unfold attest_token_get_sw_component. cbn [last_error validated payload].
  rewrite Z.eqb_refl. cbn [negb].
  pose proof (decode_to_labeled_item_spec u es _ IAT_SW_COMPONENTS u fuel
    (law_wf _ _ Hp) (law_init _ _ Hp) Hf) as H. unfold search_result in H. rewrite Hs in H.
  apply search_inr in Hs as [Hin Hlen]. destruct H as (c' & -> & Hc').
  cbn [mbind option_bind]. rewrite Z.eqb_refl. cbn [negb uDataType uNextNestLevel item_of type_of].
  rewrite Z.eqb_refl, decide_False by (cbn [children]; by destruct ts). cbn [negb].
  pose proof (wf_entry _ _ _ (law_wf _ _ Hp) Hin) as Hw. inversion Hw as [t _ Hwf]; subst t.
  apply sw_array_loop_spec; [|done|done|].
  - cbn [children] in Hwf. rewrite Forall_fmap in Hwf. eapply Forall_impl; [exact Hwf|]. by intros t [_ Ht].
  - cbn [children] in Hlen. unfold fuel_for in Hf. lia.
Qed.
End components.

(** ** Properties *)

Lemma flags_spec b0 b1 b2 b3 b4 b5 b6 b7 b8 :
  (fun i => IS_ITEM_FLAG_SET (Z.of_nat i) (flag_bits [b0; b1; b2; b3; b4; b5; b6; b7; b8])) <$> seq 0 9 =
  [b0; b1; b2; b3; b4; b5; b6; b7; b8].
Proof. destruct b0, b1, b2, b3, b4, b5, b6, b7, b8; reflexivity. Qed.

(** [Some] of a boolean, of a list known by [flags_spec]. *)
Lemma flag_at b0 b1 b2 b3 b4 b5 b6 b7 b8 (i : nat) b :
  [b0; b1; b2; b3; b4; b5; b6; b7; b8] !! i = Some b ->
  IS_ITEM_FLAG_SET (Z.of_nat i) (flag_bits [b0; b1; b2; b3; b4; b5; b6; b7; b8]) = b.
Proof.
  intros H. rewrite <- flags_spec in H. rewrite list_lookup_fmap in H.
  destruct (seq 0 9 !! i) as [j|] eqn:Hj; [|done]. apply lookup_seq in Hj as [-> _]. by injection H.
Qed.

Section properties.
  Context {QB : QUsefulBuf} {QBL : QUsefulBufLaws} {QT : QcborTypes} {AE : AttestTokenErr}.
  Context {TL : QcborTypesLaws} {IL : IatLabels} {ILL : IatLabelsLaws}.
  Context {C : Type} {QD : QcborDecoder C} {QL : QcborLaws C}.

(** C16. On the payload of a validated token, a CBOR tree, each getter of a
    single claim returns the claim's value, or an error that says why there is
    none: byte strings, text strings, integers from [INT64_MIN] to [INT64_MAX],
    and integers from 0 to [UINT64_MAX].  On an error the variable of the claim
    keeps its old value; the header promises [NULL_Q_USEFUL_BUF_C] or 0.  When no
    entry of the top-level map is an empty map or array, the claim read is the
    documented one: the value of the label in the map, [NOT_FOUND] exactly when the
    label is absent, [CBOR_STRUCTURE] exactly when the payload is not a map; with
    an empty one it is the claim that the traversal of qcbor_util.c reaches. *)
Theorem claim_getters_correct (u : QCBORItem) p t l fuel :
  encodes p t -> l <> 0 -> (fuel_for (children t) <= fuel)%nat ->
  (forall old, attest_token_decode_get_bstr u fuel (validated p) l old =
     Some (getter_result the_bytes (claim l t) old)) /\
  (forall old, attest_token_decode_get_tstr u fuel (validated p) l old =
     Some (getter_result the_text (claim l t) old)) /\
  (forall old, attest_token_decode_get_int u fuel (validated p) l old =
     Some (getter_result the_int (claim l t) old)) /\
  (forall old, attest_token_decode_get_uint u fuel (validated p) l old =
     Some (getter_result the_uint (claim l t) old)) /\
  (no_empty_payload t -> forall old z,
     attest_token_decode_get_bstr u fuel (validated p) l old =
       Some (getter_result the_bytes (documented_claim l t) old) /\
     attest_token_decode_get_tstr u fuel (validated p) l old =
       Some (getter_result the_text (documented_claim l t) old) /\
     attest_token_decode_get_int u fuel (validated p) l z =
       Some (getter_result the_int (documented_claim l t) z) /\
     attest_token_decode_get_uint u fuel (validated p) l z =
       Some (getter_result the_uint (documented_claim l t) z)).
Proof.
  intros Hp Hl Hf. split_and!; [intros old.. | intros He old z; rewrite <- claim_documented by done; split_and!];
    by (apply get_bstr_spec || apply get_tstr_spec || apply get_int_spec || apply get_uint_spec).
Qed.

(** Unless t_cose accepts the token, no claim leaves the decoder: whatever
    payload t_cose stores, every getter returns the error of the validation. *)
Theorem rejected_token_gives_nothing {AM : AttestTokenErrMore} {AML : AttestErrMoreLaws} {TE : TCoseErr}
    {TC : TCose} v me token e me' (u : QCBORItem) labels profile :
  attest_token_decode_validate_token v me token = (e, me') ->
  map_t_cose_errors T_COSE_SUCCESS = ATTEST_TOKEN_ERR_SUCCESS /\
  (e <> ATTEST_TOKEN_ERR_SUCCESS -> forall fuel l,
     (forall b, attest_token_decode_get_bstr u fuel me' l b = Some (e, None)) /\
     (forall b, attest_token_decode_get_tstr u fuel me' l b = Some (e, None)) /\
     (forall z, attest_token_decode_get_int u fuel me' l z = Some (e, 0)) /\
     (forall z, attest_token_decode_get_uint u fuel me' l z = Some (e, 0)) /\
     (forall b, attest_token_decode_get_payload me' b = (e, None)) /\
     attest_token_decode_get_iat_simple u labels profile fuel me' = Some (e, simple_zero) /\
     (forall n, attest_token_get_num_sw_components u profile fuel me' n = Some (e, n)) /\
     (forall i sw, attest_token_get_sw_component u fuel me' i sw = Some (e, sw))) /\
  (forall t_cose_error, t_cose_error <> T_COSE_SUCCESS ->
     map_t_cose_errors t_cose_error <> ATTEST_TOKEN_ERR_SUCCESS).
Proof.
  intros Hv. split_and!.
  - unfold map_t_cose_errors. by rewrite Z.eqb_refl.
  - intros He fuel l. assert (last_error me' = e) as Hme.
    { unfold attest_token_decode_validate_token in Hv. destruct v as [|[]];
        [destruct (t_cose_sign1_verify_with _ _ _ _)|destruct (t_cose_mac_validate_with _ _ _ _)..];
        by injection Hv as <- <-. }
    unfold attest_token_decode_get_bstr, attest_token_decode_get_tstr, attest_token_decode_get_int,
      attest_token_decode_get_uint, attest_token_decode_get_payload, attest_token_decode_get_iat_simple,
      attest_token_get_num_sw_components, attest_token_get_sw_component.
    rewrite Hme, (proj2 (Z.eqb_neq _ _) He). cbn [negb]. by split_and!.
  - intros te Hte. pose proof attest_more_errors as Hm. rewrite !Forall_cons in Hm.
    unfold map_t_cose_errors. rewrite (proj2 (Z.eqb_neq _ _) Hte).
    repeat (case_match; [first [tauto | by apply (errs_ne 1 0) | by apply (errs_ne 2 0)
                               | by apply (errs_ne 5 0)]|]). tauto.
Qed.

(** [attest_token_decode_get_iat_simple] returns every simple claim of the
    payload that has the right type, with its flag, and leaves the others
    zero; the labels of the list that are not assigned without the CCA
    profile do not matter, whatever the stack holds there. *)
Theorem get_iat_simple_correct (u : QCBORItem) uninit_label profile p t fuel :
  encodes p t -> (fuel_for (children t) <= fuel)%nat ->
  attest_token_decode_get_iat_simple u uninit_label profile fuel (validated p) =
    Some (iat_simple_result t).
Proof. apply get_iat_simple_spec. Qed.

(** The two ways to the integer claims disagree on values out of range:
    [get_client_id] refuses a client ID that is not an [int32_t], but
    [get_iat_simple] (whose range check is always true) reports such an ID as
    present, truncated; and it takes a negative security lifecycle, wrapped
    around, but not [UINT32_MAX]. *)
Theorem integer_claims_out_of_range (u : QCBORItem) i64 uninit_label profile p es fuel z s :
  encodes p (CMap es) -> no_empty es -> (fuel_for es <= fuel)%nat ->
  last_value IAT_CLIENT_ID es = Some (CInt64 z) ->
  last_value IAT_SECURITY_LIFECYCLE es = Some (CInt64 s) ->
  (forall old, attest_token_decode_get_client_id u i64 fuel (validated p) old =
     Some (if decide (INT32_MIN <= z <= INT32_MAX) then (ATTEST_TOKEN_ERR_SUCCESS, z)
           else (ATTEST_TOKEN_ERR_INTEGER_VALUE, old))) /\
  exists items,
    attest_token_decode_get_iat_simple u uninit_label profile fuel (validated p) =
      Some (ATTEST_TOKEN_ERR_SUCCESS, items) /\
    client_id items = i32 z /\ IS_ITEM_FLAG_SET CLIENT_ID_FLAG (item_flags items) = true /\
    security_lifecycle items = (if s <? UINT32_MAX then u32 s else 0) /\
    IS_ITEM_FLAG_SET SECURITY_LIFECYCLE_FLAG (item_flags items) = (s <? UINT32_MAX).
Proof.
  intros Hp He Hf Hz Hs. split.
  - intros old. unfold attest_token_decode_get_client_id.
    rewrite (get_int_spec u p (CMap es)) by (done || by apply (iat_label_nonzero 6)).
    cbn [claim]. rewrite seen_all, Hz by done. cbn [getter_result the_int mbind option_bind].
    rewrite Z.eqb_refl. cbn [negb].
    destruct (Z.ltb_spec INT32_MAX z), (Z.ltb_spec z INT32_MIN); case_decide; try lia; try done.
    cbn [orb]. rewrite wraps_small; [done | lia |]. unfold INT32_MIN, INT32_MAX in *. lia.
  - exists (simple_claims es). rewrite (get_iat_simple_spec u uninit_label profile p (CMap es)) by done.
    cbn [iat_simple_result]. rewrite seen_all by done. split; [done|].
    unfold simple_claims. cbn [client_id security_lifecycle item_flags]. split_and!.
    + unfold value_as. by rewrite Hz.
    + apply (flag_at _ _ _ _ _ _ _ _ _ 5). unfold value_as. by rewrite Hz.
    + unfold value_as. rewrite Hs. cbn. by destruct (s <? UINT32_MAX).
    + apply (flag_at _ _ _ _ _ _ _ _ _ 6). unfold value_as. rewrite Hs. cbn.
      by destruct (s <? UINT32_MAX).
Qed.

(** [attest_token_decode_get_security_lifecycle] is right when the claim
    is an unsigned number.  When the claim cannot be read the function goes on
    with its uninitialised local: depending on it, the error is replaced by
    [ATTEST_TOKEN_ERR_INTEGER_VALUE], or garbage is stored in [*lifecycle]. *)
Theorem get_security_lifecycle_uninitialised (u : QCBORItem) garbage p t old fuel :
  encodes p t -> (fuel_for (children t) <= fuel)%nat ->
  (forall v z, claim IAT_SECURITY_LIFECYCLE t = inr v -> the_uint v = inr z -> 0 <= z ->
     attest_token_decode_get_security_lifecycle u garbage fuel (validated p) old =
       Some (if UINT32_MAX <? z then (ATTEST_TOKEN_ERR_INTEGER_VALUE, old)
             else (ATTEST_TOKEN_ERR_SUCCESS, z))) /\
  (forall e, claim IAT_SECURITY_LIFECYCLE t = inl e ->
     attest_token_decode_get_security_lifecycle u garbage fuel (validated p) old =
       Some (if UINT32_MAX <? garbage then (ATTEST_TOKEN_ERR_INTEGER_VALUE, old)
             else (e, u32 garbage))).
Proof.
  intros Hp Hf. unfold attest_token_decode_get_security_lifecycle.
  rewrite (get_uint_spec u p t) by (done || by apply (iat_label_nonzero 7)). split.
  - intros v z -> Hz Hpos. unfold getter_result. rewrite Hz. cbn [mbind option_bind].
    destruct (Z.ltb_spec UINT32_MAX z); [done|]. rewrite wrapu_small; [done|].
    unfold UINT32_MAX in *. lia.
  - intros e ->. cbn [getter_result mbind option_bind]. by destruct (UINT32_MAX <? garbage).
Qed.

(** [attest_token_get_num_sw_components] returns the length of the
    software components claim; without the claim the PSA IoT profile requires
    the claim that says there are none. *)
Theorem get_num_sw_components_correct (u : QCBORItem) profile p t old fuel :
  encodes p t -> (fuel_for (children t) <= fuel)%nat ->
  attest_token_get_num_sw_components u profile fuel (validated p) old = Some (num_result profile t old).
Proof. apply get_num_spec. Qed.

(** [attest_token_get_sw_component] on a software components claim of
    non-empty members: it decodes the map at the requested index, and past the
    end reports [ATTEST_TOKEN_ERR_NOT_FOUND], or
    [ATTEST_TOKEN_ERR_CBOR_NOT_WELL_FORMED] when no claim follows.  A member
    that is not a non-empty map or array ends the search, although members
    are said to count "even if they are not what is expected". *)
Theorem get_sw_component_correct (u : QCBORItem) p es1 ts es2 old fuel :
  encodes p (CMap (es1 ++ (LabelInt IAT_SW_COMPONENTS, CArray ts) :: es2)) ->
  no_empty es1 -> no_label IAT_SW_COMPONENTS es1 -> ts <> [] -> Forall plain_member ts ->
  (fuel_for (es1 ++ (LabelInt IAT_SW_COMPONENTS, CArray ts) :: es2) <= fuel)%nat ->
  let get (i : nat) := attest_token_get_sw_component u fuel (validated p) (Z.of_nat i) old in
  (forall i es, ts !! i = Some (CMap es) -> es <> [] -> Forall (fun t => children t <> []) (take i ts) ->
     get i = Some (sw_entries es sw_zero)) /\
  (forall i, (length ts <= i)%nat -> Forall (fun t => children t <> []) ts ->
     get i = Some (if decide (es2 = []) then ATTEST_TOKEN_ERR_CBOR_NOT_WELL_FORMED
                   else ATTEST_TOKEN_ERR_NOT_FOUND, old)) /\
  (forall i k t, ts !! k = Some t -> children t = [] -> (k <= i)%nat ->
     Forall (fun t => children t <> []) (take k ts) -> get i = Some (ATTEST_TOKEN_ERR_NOT_FOUND, old)).
Proof.
  intros Hp He Hl Hne Hpl Hf get.
  assert (forall i, get i = member_result (member_at i ts es2) old) as Hget.
  { intros i. eapply get_sw_component_spec; [done | by apply search_found | done | done | done]. }
  clearbody get. split_and!.
  - intros i es Hi Hes Hc. rewrite Hget. clear -Hi Hes Hc.
    revert i Hi Hc. induction ts as [|t ts' IH]; intros [|i] Hi Hc; simplify_eq/=.
    + by rewrite decide_False.
    + apply Forall_cons in Hc as [Ht Hc]. rewrite decide_False by done. by apply IH.
  - intros i Hi Hc. rewrite Hget. clear -Hi Hc.
    revert i Hi Hc. induction ts as [|t ts' IH]; intros i Hi Hc; [by destruct i|].
    apply Forall_cons in Hc as [Ht Hc]. cbn [member_at]. rewrite decide_False by done.
    destruct i as [|i]; simpl in Hi; [lia|]. apply IH; [lia | done].
  - intros i k t Hk Ht Hki Hc. rewrite Hget. clear -Hk Ht Hki Hc.
    revert i k Hk Hki Hc. induction ts as [|t' ts' IH]; intros i [|k] Hk Hki Hc; simplify_eq/=.
    + by rewrite decide_True.
    + apply Forall_cons in Hc as [Ht' Hc]. rewrite decide_False by done.
      destruct i as [|i]; [lia|]. apply (IH i k); [done | lia | done].
Qed.
End properties.

(** ** Witnesses *)

#[export] Instance ref_labels : IatLabels := {
  IAT_NONCE := 10; IAT_INSTANCE_ID := 256; IAT_BOOT_SEED := 268; IAT_CERTIFICATION_REFERENCE := 2398;
  IAT_IMPLEMENTATION_ID := 2396; IAT_CLIENT_ID := 2394; IAT_SECURITY_LIFECYCLE := 2395;
  IAT_PROFILE_DEFINITION := 265; IAT_VERIFICATION_SERVICE := 2400; IAT_PLATFORM_HASH_ALGO_ID := 2402;
  IAT_PLATFORM_CONFIG := 2401; IAT_SW_COMPONENTS := 2399; IAT_NO_SW_COMPONENTS := 2405;
  NO_SW_COMPONENT_FIXED_VALUE := 1; IAT_SW_COMPONENT_MEASUREMENT_TYPE := 1;
  IAT_SW_COMPONENT_MEASUREMENT_VALUE := 2; IAT_SW_COMPONENT_VERSION := 4;
  IAT_SW_COMPONENT_SIGNER_ID := 5; IAT_SW_COMPONENT_MEASUREMENT_DESC := 6;
}.

#[export] Instance ref_labels_laws : IatLabelsLaws.
Proof. split; by apply (bool_decide_unpack _). Qed.

#[export] Instance ref_attest_more : AttestTokenErrMore := {
  ATTEST_TOKEN_ERR_UNSUPPORTED_SIG_ALG := 2; ATTEST_TOKEN_ERR_HASH_UNAVAILABLE := 3;
  ATTEST_TOKEN_ERR_INSUFFICIENT_MEMORY := 6; ATTEST_TOKEN_ERR_TAMPERING_DETECTED := 7;
  ATTEST_TOKEN_ERR_CBOR_FORMATTING := 8; ATTEST_TOKEN_ERR_TOO_SMALL := 1;
  ATTEST_TOKEN_ERR_COSE_FORMAT := 10; ATTEST_TOKEN_ERR_VERIFICATION_KEY := 14;
  ATTEST_TOKEN_ERR_GENERAL := 18;
}.

#[export] Instance ref_attest_more_laws : AttestErrMoreLaws.
Proof. split. by repeat constructor. Qed.

#[export] Instance ref_t_cose_err : TCoseErr := {
  T_COSE_SUCCESS := 0; T_COSE_ERR_UNSUPPORTED_SIGNING_ALG := 1; T_COSE_ERR_PARAMETER_CBOR := 5;
  T_COSE_ERR_SIG_VERIFY := 14; T_COSE_ERR_SHORT_CIRCUIT_SIG := 17; T_COSE_ERR_UNSUPPORTED_HASH := 4;
  T_COSE_ERR_CBOR_NOT_WELL_FORMED := 7; T_COSE_ERR_INSUFFICIENT_MEMORY := 20;
  T_COSE_ERR_TAMPERING_DETECTED := 22; T_COSE_ERR_CBOR_FORMATTING := 12; T_COSE_ERR_TOO_SMALL := 13;
  T_COSE_ERR_NON_INTEGER_ALG_ID := 8; T_COSE_ERR_SIGNATURE_FORMAT := 2; T_COSE_ERR_MAC0_FORMAT := 32;
  T_COSE_ERR_NO_ALG_ID := 9; T_COSE_ERR_NO_KID := 10; T_COSE_ERR_BAD_SHORT_CIRCUIT_KID := 24;
  T_COSE_ERR_SIG_STRUCT := 15; T_COSE_ERR_UNKNOWN_KEY := 18; T_COSE_ERR_WRONG_TYPE_OF_KEY := 11;
}.

(** A t_cose whose tokens are payloads behind the byte 210. *)
#[export] Instance ref_t_cose : TCose := {
  t_cose_sign1_verify_with options key token payload :=
    match token with Some (210 :: p) => (0, Some p) | _ => (14, payload) end;
  t_cose_mac_validate_with options key token payload :=
    match token with Some (210 :: p) => (0, Some p) | _ => (14, payload) end;
  T_COSE_OPT_DECODE_ONLY := 8; TFM_BUILTIN_KEY_ID_IAK := 1; PSA_KEY_ID_NULL := 0;
}.

(** [{10: h'0102', 2394: 2147483653, 2395: -1, 2399: [{1: "AB", 2: h'07', 4: "1",
    5: h'09'}, {2: h'08'}], 265: "p"}] *)
Definition token_bytes : list Z :=
  [165; 10; 66; 1; 2; 25; 9; 90; 26; 128; 0; 0; 5; 25; 9; 91; 32; 25; 9; 95; 130; 164; 1; 98; 65;
   66; 2; 65; 7; 4; 97; 49; 5; 65; 9; 161; 2; 65; 8; 25; 1; 9; 97; 112].
Definition token_components : list cbor :=
  [CMap [(LabelInt 1, CText [65; 66]); (LabelInt 2, CBytes [7]); (LabelInt 4, CText [49]);
         (LabelInt 5, CBytes [9])]; CMap [(LabelInt 2, CBytes [8])]].
Definition token_before : list (label * cbor) :=
  [(LabelInt 10, CBytes [1; 2]); (LabelInt 2394, CInt64 2147483653); (LabelInt 2395, CInt64 (-1))].
Definition token_after : list (label * cbor) := [(LabelInt 265, CText [112])].
Definition token_tree : cbor := CMap (token_before ++ (LabelInt IAT_SW_COMPONENTS, CArray token_components) :: token_after).

Lemma token_encodes : encodes token_bytes token_tree.
Proof. by vm_compute. Qed.

Example claim_getters_correct_witness :
  attest_token_decode_get_bstr blank_item 40 (validated token_bytes) 10 None = Some (0, Some [1; 2]) /\
  attest_token_decode_get_uint blank_item 40 (validated token_bytes) 2395 7 =
    Some (ATTEST_TOKEN_ERR_INTEGER_VALUE, 7).
Proof.
  split.
  - destruct (claim_getters_correct (QL := ref_laws) blank_item token_bytes token_tree 10 40 token_encodes)
      as (H & _); [done | vm_compute; lia | by rewrite H].
  - destruct (claim_getters_correct (QL := ref_laws) blank_item token_bytes token_tree 2395 40
      token_encodes) as (_ & _ & _ & H & _); [done | vm_compute; lia | by rewrite H].
Defined.

Example rejected_token_gives_nothing_witness :
  attest_token_decode_get_iat_simple blank_item (fun _ => 0) ARM_CCA 40
    (attest_token_decode_validate_token Asymmetric (validated token_bytes) (Some [1; 2])).2 =
  Some (ATTEST_TOKEN_ERR_COSE_VALIDATION, simple_zero).
Proof.
  apply (rejected_token_gives_nothing Asymmetric (validated token_bytes) (Some [1; 2])
    ATTEST_TOKEN_ERR_COSE_VALIDATION (mkDecode (Some token_bytes) ATTEST_TOKEN_ERR_COSE_VALIDATION)
    blank_item (fun _ => 0) ARM_CCA); [by vm_compute | done | exact 0].
Defined.

Example get_iat_simple_correct_witness :
  attest_token_decode_get_iat_simple blank_item (fun _ => 99) PSA_2_0_0 40 (validated token_bytes) =
    Some (iat_simple_result token_tree) /\
  nonce (iat_simple_result token_tree).2 = Some [1; 2].
Proof.
  split; [|by vm_compute]. apply (get_iat_simple_correct (QL := ref_laws)); [exact token_encodes|].
  vm_compute. lia.
Defined.

Example integer_claims_out_of_range_witness :
  attest_token_decode_get_client_id blank_item 0 40 (validated token_bytes) 3 =
    Some (ATTEST_TOKEN_ERR_INTEGER_VALUE, 3) /\
  exists items,
    attest_token_decode_get_iat_simple blank_item (fun _ => 99) PSA_2_0_0 40 (validated token_bytes) =
      Some (ATTEST_TOKEN_ERR_SUCCESS, items) /\
    client_id items = -2147483643.
Proof.
  destruct (integer_claims_out_of_range (QL := ref_laws) blank_item 0 (fun _ => 99) PSA_2_0_0 token_bytes
    (token_before ++ (LabelInt IAT_SW_COMPONENTS, CArray token_components) :: token_after) 40 2147483653 (-1)
    token_encodes) as [H1 (items & H2 & H3 & _)].
  - by apply (bool_decide_unpack _).
  - vm_compute. lia.
  - done.
  - done.
  - split; [apply H1 | exists items; split; [exact H2 | by rewrite H3]].
Defined.

Example get_security_lifecycle_uninitialised_witness :
  attest_token_decode_get_security_lifecycle blank_item (2 ^ 40) 40 (validated map_bytes) 3 =
    Some (ATTEST_TOKEN_ERR_INTEGER_VALUE, 3) /\
  attest_token_decode_get_security_lifecycle blank_item 77 40 (validated map_bytes) 3 =
    Some (ATTEST_TOKEN_ERR_NOT_FOUND, 77).
Proof.
  split.
  - apply (get_security_lifecycle_uninitialised (QL := ref_laws) blank_item (2 ^ 40) map_bytes
      (CMap map_entries) 3 40) with (e := ATTEST_TOKEN_ERR_NOT_FOUND); [by vm_compute | vm_compute; lia | done].
  - apply (get_security_lifecycle_uninitialised (QL := ref_laws) blank_item 77 map_bytes
      (CMap map_entries) 3 40) with (e := ATTEST_TOKEN_ERR_NOT_FOUND); [by vm_compute | vm_compute; lia | done].
Defined.

Example get_num_sw_components_correct_witness :
  attest_token_get_num_sw_components blank_item PSA_IOT_1 40 (validated token_bytes) 9 =
    Some (ATTEST_TOKEN_ERR_SUCCESS, 2).
Proof.
  rewrite (get_num_sw_components_correct (QL := ref_laws) blank_item PSA_IOT_1 token_bytes token_tree 9 40
    token_encodes); [by vm_compute | vm_compute; lia].
Defined.

Example get_sw_component_correct_witness :
  attest_token_get_sw_component blank_item 40 (validated token_bytes) 1 sw_zero =
    Some (ATTEST_TOKEN_ERR_SUCCESS, mkSw None (Some [8]) None None None 2).
Proof.
  apply (get_sw_component_correct (QL := ref_laws) blank_item token_bytes token_before token_components
    token_after sw_zero 40 token_encodes) with (i := 1%nat) (es := [(LabelInt 2, CBytes [8])]);
    first [done | by apply (bool_decide_unpack _) | by repeat constructor | vm_compute; lia].
Defined.
