(* ===== verification/AttestTestProofs.v ===== *)
(** * Theorems about the attestation tests

    Which tokens the tests of [AttestTests] accept, and that the suites pass
    over a service that makes such tokens. *)

From S2P Require Import Prelude LogRaw TestFramework TestProg PsaStorage Qcbor CborRef QcborProofs AttestDecode AttestTests AttestProofs.
Local Open Scope Z_scope.

(** q_useful_buf.h on tails and on runs of one value. *)
Class QUsefulBufTailLaws {QB : QUsefulBuf} := {
  law_tail bs n : 0 <= n <= Z.of_nat (length bs) ->
    q_useful_buf_tail (Some bs) n = Some (drop (Z.to_nat n) bs);
  law_is_value bs v : Z.of_nat (length bs) < SIZE_MAX ->
    q_useful_buf_is_value (Some bs) v = SIZE_MAX <-> Forall (fun x => x = v) bs;
}.

(** ** The checks *)

(** A claim that is there and right, or absent and not required. *)
Definition claim_ok {A} (required : bool) (ok : A -> Prop) (o : option A) : Prop :=
  match o with Some x => ok x | None => required = false end.

Definition value_ok (expected : q_useful_buf_c) (bs : list Z) : Prop :=
  match expected with Some e => bs = e | None => True end.

(** The nonce of the test is 64 zeros; an option-packed nonce may differ from it
    in its first four bytes, as attest_token_test.c:103 says. *)
Definition nonce_ok (bs : list Z) : Prop :=
  length bs = 64%nat /\ Forall (fun b => b = 0) (drop 4 bs).

(** The client ID the comments of attest_token_test.c:239-243 ask for: that of a
    non-secure caller is negative, that of a secure caller is positive. *)
Definition client_id_documented (ns : bool) (z : Z) : Prop := if ns then z < 0 else 0 < z.

(** The client IDs the test takes: the decoder keeps 32 bits of the claim, and the
    ID 0 is an exception for both kinds of caller. *)
Definition client_id_taken (ns : bool) (z : Z) : Prop :=
  client_id_documented ns (i32 z) \/ i32 z = 0.

(** The security lifecycle the test asks for, and the ones it takes. *)
Definition lifecycle_documented (check : bool) (z : Z) : Prop := check = true -> z = 12288.
Definition lifecycle_ok (check : bool) (z : Z) : Prop := check = true -> u32 z = 12288.
Definition lifecycle_taken (check : bool) (z : Z) : Prop := z < UINT32_MAX /\ lifecycle_ok check z.

Section acceptable.
  Context {IL : IatLabels}.

(** The claims the test asks for, with the rules for its two integers: every
    required claim is there, and every value that is given agrees. *)
Definition claims_meet (slc_ok id_ok : Z -> Prop) (cfg : test_config) (es : list (label * cbor)) : Prop :=
  let p := the_profile cfg in
  let v := claim_value_check cfg in
  let psa := negb (bool_decide (p = ARM_CCA)) in
  claim_ok true nonce_ok (value_as as_bytes es IAT_NONCE) /\
  claim_ok true (fun _ => True) (value_as as_bytes es IAT_INSTANCE_ID) /\
  claim_ok psa (value_ok (TOKEN_TEST_VALUE_BOOT_SEED v)) (value_as as_bytes es IAT_BOOT_SEED) /\
  claim_ok false (value_ok (TOKEN_TEST_VALUE_CERT_REF v)) (value_as as_text es IAT_CERTIFICATION_REFERENCE) /\
  claim_ok true (value_ok (TOKEN_TEST_VALUE_IMPLEMENTATION_ID v)) (value_as as_bytes es IAT_IMPLEMENTATION_ID) /\
  claim_ok true slc_ok (value_as as_int64 es IAT_SECURITY_LIFECYCLE) /\
  claim_ok psa id_ok (value_as as_int64 es IAT_CLIENT_ID) /\
  claim_ok (negb psa) (value_ok (TOKEN_TEST_VALUE_PROFILE_DEFINITION v p))
    (value_as as_text es IAT_PROFILE_DEFINITION) /\
  claim_ok false (value_ok (TOKEN_TEST_VALUE_VERIFICATION_SERVICE v))
    (value_as as_text es IAT_VERIFICATION_SERVICE).

(** The maps whose simple claims are the documented ones. *)
Definition simple_acceptable (cfg : test_config) : list (label * cbor) -> Prop :=
  claims_meet (lifecycle_documented (claim_value_check cfg)) (client_id_documented (domain_ns cfg)) cfg.

(** The maps whose simple claims [check_simple_claims] takes. *)
Definition simple_taken (cfg : test_config) : list (label * cbor) -> Prop :=
  claims_meet (lifecycle_taken (claim_value_check cfg)) (client_id_taken (domain_ns cfg)) cfg.

(** Integers the decoder keeps as they are, and a client ID other than 0. *)
Definition proper_integers (es : list (label * cbor)) : Prop :=
  (forall z, value_as as_int64 es IAT_SECURITY_LIFECYCLE = Some z -> 0 <= z < UINT32_MAX) /\
  (forall z, value_as as_int64 es IAT_CLIENT_ID = Some z -> INT32_MIN <= z <= INT32_MAX /\ z <> 0).

Lemma claim_ok_iff {A} required (P Q : A -> Prop) o :
  (forall x, o = Some x -> P x <-> Q x) -> claim_ok required P o <-> claim_ok required Q o.
Proof. intros H. destruct o as [x|]; [by apply H | done]. Qed.

(** On such integers the test takes the documented claims and no others. *)
Lemma taken_is_acceptable cfg es : proper_integers es -> simple_taken cfg es <-> simple_acceptable cfg es.
Proof.
  intros [Hslc Hid]. unfold simple_taken, simple_acceptable, claims_meet. cbv zeta.
  rewrite (claim_ok_iff _ (lifecycle_taken _) (lifecycle_documented (claim_value_check cfg)));
    [rewrite (claim_ok_iff _ (client_id_taken _) (client_id_documented (domain_ns cfg))); [done|]|].
  - intros z Hz. destruct (Hid z Hz) as [Hr Hn]. unfold client_id_taken.
    rewrite wraps_small by (unfold INT32_MIN, INT32_MAX in *; lia). tauto.
  - intros z Hz. pose proof (Hslc z Hz) as Hr. unfold lifecycle_taken, lifecycle_ok, lifecycle_documented.
    rewrite wrapu_small by (unfold UINT32_MAX in *; lia). tauto.
Qed.
End acceptable.

Section checks.
  Context {QB : QUsefulBuf} {QBL : QUsefulBufLaws} {QBT : QUsefulBufTailLaws} {QT : QcborTypes}.
  Context {IL : IatLabels}.

(** One step of the checks, for a flag that says whether [o] is there. *)
Lemma check_claim_iff {A} flags flag required e failed next (o : option A) (ok : A -> Prop) R :
  IS_ITEM_FLAG_SET flag flags = present o -> 0 < e ->
  (forall x, o = Some x -> failed = false <-> ok x) -> (next = 0 <-> R) ->
  check_claim flags flag required e failed next = 0 <-> claim_ok required ok o /\ R.
Proof.
  intros Hp He Hok <-. unfold check_claim. rewrite Hp. unfold present, claim_ok. destruct o as [x|].
  - rewrite bool_decide_true by by eexists. cbn [negb]. rewrite <- (Hok x eq_refl).
    destruct failed; [|tauto]. split; [lia | by intros [? _]].
  - rewrite bool_decide_false by (by intros [??]). cbn [negb].
    destruct required; [|tauto]. split; [lia | by intros [? _]].
Qed.

(** The last step. *)
Lemma check_claim_last {A} flags flag required e failed (o : option A) (ok : A -> Prop) :
  IS_ITEM_FLAG_SET flag flags = present o -> 0 < e ->
  (forall x, o = Some x -> failed = false <-> ok x) ->
  check_claim flags flag required e failed 0 = 0 <-> claim_ok required ok o.
Proof. intros Hp He Hok. rewrite (check_claim_iff _ _ _ _ _ _ o ok True); tauto. Qed.

Lemma compare_eqb bs e : (q_useful_buf_compare (Some bs) (Some e) =? 0) = bool_decide (bs = e).
Proof.
  destruct (Z.eqb_spec (q_useful_buf_compare (Some bs) (Some e)) 0) as [H|H]; symmetry.
  - apply bool_decide_eq_true. by apply law_compare.
  - apply bool_decide_eq_false. intros Heq. apply H. by apply law_compare.
Qed.

Lemma differs_ok expected bs : differs (Some bs) expected = false <-> value_ok expected bs.
Proof.
  unfold differs, value_ok. rewrite law_is_null. destruct expected as [e|].
  - rewrite bool_decide_false by done. rewrite compare_eqb. cbn [negb andb].
    by rewrite negb_false_iff, bool_decide_eq_true.
  - by rewrite bool_decide_true.
Qed.

Lemma differs_string_ok expected bs : differs_string (Some bs) expected = false <-> value_ok expected bs.
Proof.
  unfold differs_string, value_ok. destruct expected as [e|].
  - rewrite decide_False by done. rewrite compare_eqb. by rewrite negb_false_iff, bool_decide_eq_true.
  - by rewrite decide_True.
Qed.

Lemma nonce_differs_ok bs : nonce_differs (Some bs) = false <-> nonce_ok bs.
Proof.
  unfold nonce_differs, nonce_ok, TOKEN_TEST_VALUE_NONCE. rewrite law_is_null, bool_decide_false by done.
  rewrite compare_eqb. cbn [negb default]. change (id bs) with bs.
  destruct (decide (bs = replicate 64 0)) as [->|Hne].
  { rewrite bool_decide_true by done. split; [intros _|done]. split; [done|].
    by apply Forall_drop, Forall_replicate. }
  rewrite bool_decide_false by done. cbn [negb].
  destruct (Z.eqb_spec (Z.of_nat (length bs)) 64) as [Hl|Hl]; cbn [andb]; [|split; [done | intros [? _]; lia]].
  rewrite law_tail by lia. rewrite law_tail by (rewrite length_replicate; lia).
  change (Z.to_nat 4) with 4%nat.
  pose proof (law_is_value (drop 4 bs) 0) as Hv. rewrite length_drop in Hv.
  specialize (Hv ltac:(unfold SIZE_MAX; lia)).
  destruct (Z.eqb_spec (q_useful_buf_is_value (Some (drop 4 bs)) 0) SIZE_MAX) as [Hz|Hz].
  - apply Hv in Hz. rewrite compare_eqb, negb_false_iff, bool_decide_eq_true. split; [|intros _].
    + intros _. split; [lia | done].
    + rewrite drop_replicate. apply replicate_as_elem_of. split; [rewrite length_drop; lia|].
      by apply Forall_forall.
  - split; [done|]. intros [_ H]. by apply Hv in H.
Qed.

(** The field of a claim that is there is its value. *)
Lemma lifecycle_field es (check : bool) z :
  (value_as as_int64 es IAT_SECURITY_LIFECYCLE ≫= (fun z => if z <? UINT32_MAX then Some z else None)) = Some z ->
  negb (TOKEN_TEST_VALUE_SECURITY_LIFECYCLE check =? INT32_MAX) &&
    negb (security_lifecycle (simple_claims es) =? TOKEN_TEST_VALUE_SECURITY_LIFECYCLE check) = false <->
  lifecycle_ok check z.
Proof.
  intros Hz. unfold simple_claims, lifecycle_ok. cbn [security_lifecycle]. rewrite Hz. cbn [fmap option_fmap option_map default].
  change (id (u32 z)) with (u32 z). destruct check; cbn [TOKEN_TEST_VALUE_SECURITY_LIFECYCLE].
  - change (12288 =? INT32_MAX) with false. cbn [negb andb]. rewrite negb_false_iff, Z.eqb_eq. tauto.
  - rewrite Z.eqb_refl. by cbn [negb andb].
Qed.

Lemma client_id_field es (ns : bool) z :
  value_as as_int64 es IAT_CLIENT_ID = Some z ->
  (if negb (TOKEN_TEST_VALUE_CLIENT_ID =? INT32_MAX) &&
      negb (client_id (simple_claims es) =? TOKEN_TEST_VALUE_CLIENT_ID)
   then if ns then -1 <? client_id (simple_claims es) else client_id (simple_claims es) <? 1
   else false) = false <-> client_id_taken ns z.
Proof.
  intros Hz. unfold simple_claims, client_id_taken, client_id_documented, TOKEN_TEST_VALUE_CLIENT_ID. cbn [client_id]. rewrite Hz.
  cbn [fmap option_fmap option_map default]. change (id (i32 z)) with (i32 z).
  change (negb (0 =? INT32_MAX)) with true. cbn [andb]. destruct (Z.eqb_spec (i32 z) 0); cbn [negb].
  - split; [by right | done].
  - destruct ns; rewrite Z.ltb_ge; lia.
Qed.

(** A value that does not fit is a missing claim. *)
Lemma lifecycle_filter check o :
  claim_ok true (lifecycle_ok check) (o ≫= fun z => if z <? UINT32_MAX then Some z else None) <->
  claim_ok true (lifecycle_taken check) o.
Proof.
  destruct o as [z|]; [|done]. cbn [mbind option_bind]. unfold claim_ok, lifecycle_taken.
  destruct (Z.ltb_spec z UINT32_MAX); [tauto|]. split; [done | lia].
Qed.

Lemma check_simple_ok cfg es :
  check_simple_claims cfg (simple_claims es) = 0 <-> simple_taken cfg es.
Proof.
  unfold check_simple_claims, simple_taken, claims_meet. cbv zeta. rewrite <- lifecycle_filter.
  assert (forall (i : nat) b, [present (value_as as_bytes es IAT_NONCE);
      present (value_as as_bytes es IAT_INSTANCE_ID); present (value_as as_bytes es IAT_BOOT_SEED);
      present (value_as as_text es IAT_CERTIFICATION_REFERENCE);
      present (value_as as_bytes es IAT_IMPLEMENTATION_ID); present (value_as as_int64 es IAT_CLIENT_ID);
      present (value_as as_int64 es IAT_SECURITY_LIFECYCLE ≫= fun z =>
        if z <? UINT32_MAX then Some z else None);
      present (value_as as_text es IAT_PROFILE_DEFINITION);
      present (value_as as_text es IAT_VERIFICATION_SERVICE)] !! i = Some b ->
      IS_ITEM_FLAG_SET (Z.of_nat i) (item_flags (simple_claims es)) = b) as Hfl by (intros i b; apply flag_at).
  apply check_claim_iff; [by apply (Hfl 0%nat) | lia | |].
  { intros x Hx. cbn [nonce simple_claims]. rewrite Hx. apply nonce_differs_ok. }
  apply check_claim_iff; [by apply (Hfl 1%nat) | lia | |].
  { intros x Hx. cbn [instance_id simple_claims]. rewrite Hx. apply differs_ok. }
  apply check_claim_iff; [by apply (Hfl 2%nat) | lia | |].
  { intros x Hx. cbn [boot_seed simple_claims]. rewrite Hx. apply differs_ok. }
  apply check_claim_iff; [by apply (Hfl 3%nat) | lia | |].
  { intros x Hx. cbn [cert_ref simple_claims]. rewrite Hx. apply differs_string_ok. }
  apply check_claim_iff; [by apply (Hfl 4%nat) | lia | |].
  { intros x Hx. cbn [implementation_id simple_claims]. rewrite Hx. apply differs_ok. }
  apply check_claim_iff; [by apply (Hfl 6%nat) | lia | intros x Hx; by apply lifecycle_field |].
  apply check_claim_iff; [by apply (Hfl 5%nat) | lia | intros x Hx; by apply client_id_field |].
  assert (forall p, TOKEN_TEST_REQUIRE_PROFILE_DEFINITION p = negb (negb (bool_decide (p = ARM_CCA)))) as ->
    by (intros p; by rewrite negb_involutive).
  apply check_claim_iff; [by apply (Hfl 7%nat) | lia | |].
  { intros x Hx. cbn [profile_definition simple_claims]. rewrite Hx. apply differs_string_ok. }
  apply check_claim_last; [by apply (Hfl 8%nat) | lia |].
  intros x Hx. cbn [verif_serv simple_claims]. rewrite Hx. apply differs_string_ok.
Qed.
End checks.

(** ** Software components *)

Lemma flag_testbit i x : 0 <= i -> IS_ITEM_FLAG_SET i x = Z.testbit x i.
Proof.
  intros Hi. unfold IS_ITEM_FLAG_SET. rewrite Z.shiftl_1_l. destruct (Z.testbit x i) eqn:Hx.
  - apply negb_true_iff, Z.eqb_neq. intros H. apply (f_equal (fun z => Z.testbit z i)) in H.
    rewrite Z.land_spec, Z.pow2_bits_true, Hx, Z.bits_0 in H by done. done.
  - apply negb_false_iff, Z.eqb_eq. apply Z.bits_inj_0. intros n. rewrite Z.land_spec.
    destruct (decide (n = i)) as [->|Hn]; [by rewrite Hx, andb_false_r|].
    by rewrite Z.pow2_bits_false by done.
Qed.

Lemma flag_lor i j x :
  0 <= i -> 0 <= j ->
  IS_ITEM_FLAG_SET i (Z.lor x (CLAIM_PRESENT_BIT j)) = IS_ITEM_FLAG_SET i x || bool_decide (j = i).
Proof.
  intros Hi Hj. rewrite !flag_testbit by done. rewrite Z.lor_spec. unfold CLAIM_PRESENT_BIT.
  rewrite Z.shiftl_1_l. f_equal. destruct (decide (j = i)) as [->|Hn].
  - by rewrite Z.pow2_bits_true, bool_decide_true.
  - by rewrite Z.pow2_bits_false, bool_decide_false.
Qed.

(** The flags of a component say which of its fields are there. *)
Definition sw_flags_ok (s : attest_token_sw_component_t) : Prop :=
  IS_ITEM_FLAG_SET SW_MEASUREMENT_TYPE_FLAG (sw_item_flags s) = present (measurement_type s) /\
  IS_ITEM_FLAG_SET SW_MEASURMENT_VAL_FLAG (sw_item_flags s) = present (measurement_val s) /\
  IS_ITEM_FLAG_SET SW_VERSION_FLAG (sw_item_flags s) = present (version s) /\
  IS_ITEM_FLAG_SET SW_SIGNER_ID_FLAG (sw_item_flags s) = present (signer_id s) /\
  IS_ITEM_FLAG_SET SW_MEASUREMENT_DESC_FLAG (sw_item_flags s) = present (measurement_desc s).

Section components.
  Context {QB : QUsefulBuf} {QBL : QUsefulBufLaws} {AE : AttestTokenErr} {IL : IatLabels}.

Lemma sw_flags_entry lab t sw sw' : sw_flags_ok sw -> sw_entry lab t sw = Some sw' -> sw_flags_ok sw'.
Proof.
  intros (H0 & H1 & H3 & H5 & H6) H. unfold sw_entry in H.
  assert (forall f j i, 0 <= i -> 0 <= j ->
    IS_ITEM_FLAG_SET i (Z.lor f (CLAIM_PRESENT_BIT j)) = IS_ITEM_FLAG_SET i f || bool_decide (j = i))
    as Hlor by (intros; by apply flag_lor).
  destruct lab as [|l|]; [by simplify_eq | | by simplify_eq].
  repeat (destruct (l =? _); [destruct t; simplify_eq/=; repeat split; cbn; unfold sw_flags; rewrite Hlor by done;
    rewrite ?H0, ?H1, ?H3, ?H5, ?H6; cbn; by rewrite ?orb_true_r, ?orb_false_r|]).
  by simplify_eq.
Qed.

Lemma sw_flags_entries es : forall sw, sw_flags_ok sw -> sw_flags_ok (sw_entries es sw).2.
Proof.
  induction es as [|[lab t] es IH]; intros sw H; [done|]. cbn [sw_entries].
  destruct (sw_entry lab t sw) as [sw'|] eqn:He; [|done]. apply IH. by eapply sw_flags_entry.
Qed.

(** The components the tests accept: a map whose claims have the right types
    and include the three that are required. *)
Definition component_ok (t : cbor) : Prop :=
  exists es sw, t = CMap es /\ es <> [] /\ sw_entries es sw_zero = (ATTEST_TOKEN_ERR_SUCCESS, sw) /\
    is_Some (measurement_val sw) /\ is_Some (version sw) /\ is_Some (signer_id sw).

Lemma claim_ok_true {A} (o : option A) : claim_ok true (fun _ => True) o <-> is_Some o.
Proof. destruct o as [x|]; simpl; [by split; [eexists|] | split; [done | by intros [??]]]. Qed.

Lemma check_sw_ok s :
  sw_flags_ok s ->
  check_sw_component_1 s = 0 <-> is_Some (measurement_val s) /\ is_Some (version s) /\ is_Some (signer_id s).
Proof.
  intros (H0 & H1 & H3 & H5 & H6). rewrite <- !claim_ok_true. unfold check_sw_component_1. cbv zeta.
  rewrite (check_claim_iff _ _ _ _ _ _ (measurement_type s) (fun _ => True)
    (claim_ok true (fun _ => True) (measurement_val s) /\ claim_ok true (fun _ => True) (version s) /\
     claim_ok true (fun _ => True) (signer_id s))); [|done|lia|done|].
  - destruct (measurement_type s); simpl; tauto.
  - apply check_claim_iff; [done | lia | |].
    { intros x ->. unfold differs, TOKEN_TEST_VALUE_SWC_MEASUREMENT_VAL. by rewrite law_is_null, bool_decide_true. }
    apply check_claim_iff; [done | lia | done |].
    rewrite (check_claim_iff _ _ _ _ _ _ (signer_id s) (fun _ => True) True); [tauto | done | lia | |].
    { intros x ->. unfold differs, TOKEN_TEST_VALUE_SWC_SIGNER_ID. by rewrite law_is_null, bool_decide_true. }
    rewrite (check_claim_last _ _ _ _ _ (measurement_desc s) (fun _ => True)) by (done || lia).
    by destruct (measurement_desc s).
Qed.

(** What the tests require of the software components of a map. *)
Definition components_acceptable (p : token_profile) (es : list (label * cbor)) : Prop :=
  match last_value IAT_SW_COMPONENTS es with
  | Some (CArray (t :: ts)) => component_ok t /\ match ts with [] => True | t' :: _ => component_ok t' end
  | Some _ => False
  | None =>
      p = PSA_IOT_1 /\ last_value IAT_NO_SW_COMPONENTS es = Some (CInt64 NO_SW_COMPONENT_FIXED_VALUE)
  end.

(** At most one entry with a label. *)
Definition not_repeated (l : Z) (es : list (label * cbor)) : Prop :=
  (length (filter (fun e => e.1 = LabelInt l) es) <= 1)%nat.

Lemma not_repeated_split l es v :
  not_repeated l es -> last_value l es = Some v ->
  exists es1 es2, es = es1 ++ (LabelInt l, v) :: es2 /\ no_label l es1.
Proof.
  unfold not_repeated. induction es as [|[lab t] es IH]; [done|]. rewrite filter_cons. cbn [fst].
  destruct (decide (lab = LabelInt l)) as [->|Hlab]; cbn [length last_value]; intros Hn.
  - destruct (last_value l es) as [v'|] eqn:Hl.
    + exfalso. apply last_value_elem in Hl.
      assert ((LabelInt l, v') ∈ filter (fun e : label * cbor => e.1 = LabelInt l) es) as Hin
        by (by apply list_elem_of_filter).
      destruct (filter _ es); [by apply not_elem_of_nil in Hin | simpl in Hn; lia].
    + rewrite Z.eqb_refl. intros [= ->]. exists [], es. split; [done | constructor].
  - intros Hl. assert (last_value l es = Some v) as Hl'.
    { destruct (last_value l es); [done|]. destruct lab as [|z|]; try done.
      destruct (Z.eqb_spec z l) as [->|]; done. }
    destruct (IH Hn Hl') as (es1 & es2 & -> & Hno). exists ((lab, t) :: es1), es2.
    split; [done|]. by constructor.
Qed.
End components.

(** ** The whole test *)

Section decode_test.
  Context {PC : PsaConsts} {PCL : PsaConstsLaws}.
  Context {QB : QUsefulBuf} {QBL : QUsefulBufLaws} {QBT : QUsefulBufTailLaws} {QT : QcborTypes}.
  Context {AE : AttestTokenErr} {TL : QcborTypesLaws} {IL : IatLabels} {ILL : IatLabelsLaws}.
  Context {AM : AttestTokenErrMore} {TE : TCoseErr} {TC : TCose}.
  Context {C : Type} {QD : QcborDecoder C} {QL : QcborLaws C} {V : Type} {AS : AttestService V}.
  Variables (cfg : test_config) (symmetric : bool).
  Variables (u : QCBORItem) (labels : Z -> Z) (num : Z) (sw0 : attest_token_sw_component_t).
  Variable me0 : attest_token_decode_context.

Lemma err_nonzero i e :
  [ATTEST_TOKEN_ERR_CBOR_STRUCTURE; ATTEST_TOKEN_ERR_CBOR_NOT_WELL_FORMED; ATTEST_TOKEN_ERR_CBOR_TYPE;
   ATTEST_TOKEN_ERR_NOT_FOUND; ATTEST_TOKEN_ERR_COSE_VALIDATION; ATTEST_TOKEN_ERR_NO_VALID_TOKEN;
   ATTEST_TOKEN_ERR_INTEGER_VALUE; ATTEST_TOKEN_ERR_SW_COMPONENTS_MISSING] !! i = Some e -> e <> 0.
Proof. intros He. rewrite <- attest_success. by apply (errs_ne (S i) 0). Qed.

(** Getting and checking the component [t]. *)
Lemma component_step t old :
  exists e sw,
    member_result (if decide (children t = []) then inl ATTEST_TOKEN_ERR_NOT_FOUND else inr t) old =
      Some (e, sw) /\ (e = 0 /\ check_sw_component_1 sw = 0 <-> component_ok t).
Proof.
  case_decide as Hc.
  { eexists _, _. split; [done|]. pose proof (err_nonzero 3 _ eq_refl) as Hne. split; [intros [? _]; tauto|].
    intros (es & sw & -> & Hne' & _). done. }
  assert ((exists es, t = CMap es) \/ forall es, t <> CMap es) as [[es ->]|Hm]
    by (destruct t; try (by right); left; eauto).
  - destruct (sw_entries es sw_zero) as [e sw] eqn:He. exists e, sw. split; [by cbn; rewrite He|].
    assert (sw_flags_ok sw) as Hsw.
    { pose proof (sw_flags_entries es sw_zero ltac:(by vm_compute)) as H. by rewrite He in H. }
    rewrite check_sw_ok by done. unfold component_ok. rewrite attest_success. split.
    + intros (-> & H). by exists es, sw.
    + intros (es' & sw' & [= <-] & _ & He' & H). rewrite He in He'. by injection He' as -> ->.
  - exists ATTEST_TOKEN_ERR_CBOR_STRUCTURE, old. split; [destruct t; try done; by destruct (Hm es)|].
    pose proof (err_nonzero 0 _ eq_refl) as Hne. split; [intros [? _]; tauto|].
    intros (es & sw & -> & _). by destruct (Hm es).
Qed.

Definition plain_components (es : list (label * cbor)) : Prop :=
  not_repeated IAT_SW_COMPONENTS es /\
  forall ts, last_value IAT_SW_COMPONENTS es = Some (CArray ts) ->
    Forall plain_member ts /\ Z.of_nat (length ts) < 2 ^ 31.

(** With components: the tests check the first two. *)
Lemma decode_components_some p es t ts fuel :
  encodes p (CMap es) -> no_empty es -> plain_components es -> (fuel_for es <= fuel)%nat ->
  last_value IAT_SW_COMPONENTS es = Some (CArray (t :: ts)) ->
  exists r, decode_test_components cfg u num sw0 fuel (validated p) = Some r /\
    (r = 0 <-> component_ok t /\ match ts with [] => True | t' :: _ => component_ok t' end).
Proof.
  intros Hp He [Hrep Hts] Hf Hv. unfold decode_test_components.
  rewrite (get_num_spec u _ p (CMap es)) by done. unfold num_result. cbn [claim]. rewrite seen_all, Hv by done.
  change (negb (TOKEN_TEST_REQUIRED_NUM_SWC =? INT32_MAX)) with true. cbv iota.
  destruct (Hts _ Hv) as [Hpl Hlen]. cbn [mbind option_bind]. rewrite attest_success.
  cbn [Z.eqb negb]. rewrite wraps_small by (simpl in *; lia).
  rewrite (proj2 (Z.ltb_ge _ _)) by (unfold TOKEN_TEST_REQUIRED_NUM_SWC; lia).
  rewrite (proj2 (Z.leb_le _ _)) by (simpl; lia).
  destruct (not_repeated_split _ _ _ Hrep Hv) as (es1 & es2 & -> & Hno).
  assert (search IAT_SW_COMPONENTS (es1 ++ (LabelInt IAT_SW_COMPONENTS, CArray (t :: ts)) :: es2) =
    inr (CArray (t :: ts), es2)) as Hs
    by (apply search_found; [by apply Forall_app in He as [? _] | done]).
  assert (forall i old, attest_token_get_sw_component u fuel (validated p) (Z.of_nat i) old =
    member_result (member_at i (t :: ts) es2) old) as Hget by (intros; by eapply get_sw_component_spec).
  pose proof (Hget 0%nat sw0) as H0. cbn [member_at] in H0. change (Z.of_nat 0) with 0 in H0.
  rewrite H0. clear H0.
  destruct (component_step t sw0) as (e & sw & -> & Hok). cbn [mbind option_bind].
  destruct (Z.eqb_spec e 0) as [->|Hne]; cbn [negb]; [|exists e; split; [done | tauto]].
  destruct (Z.eqb_spec (check_sw_component_1 sw) 0) as [Hc|Hc]; cbn [negb];
    [|eexists; split; [done | tauto]].
  assert (component_ok t) as Hokt by tauto. destruct ts as [|t' ts].
  { rewrite (proj2 (Z.leb_gt _ _)) by (simpl; lia). exists 0. by split. }
  rewrite (proj2 (Z.leb_le _ _)) by (simpl; lia). 
  pose proof (Hget 1%nat sw) as H1. cbn [member_at] in H1. change (Z.of_nat 1) with 1 in H1.
  rewrite decide_False in H1 by (destruct Hokt as (? & ? & -> & ? & _); done). rewrite H1. clear H1.
  destruct (component_step t' sw) as (e' & sw' & -> & Hok'). cbn [mbind option_bind].
  destruct (Z.eqb_spec e' 0) as [->|Hne]; cbn [negb]; [|exists e'; split; [done | tauto]].
  change (check_sw_component_2 sw') with (check_sw_component_1 sw').
  destruct (Z.eqb_spec (check_sw_component_1 sw') 0) as [Hc'|Hc']; cbn [negb];
    eexists; (split; [done | tauto]).
Qed.

(** Without the claim: the PSA IoT profile asks for the other claim. *)
Lemma decode_components_none p es fuel :
  encodes p (CMap es) -> no_empty es -> (fuel_for es <= fuel)%nat ->
  last_value IAT_SW_COMPONENTS es = None ->
  exists r, decode_test_components cfg u num sw0 fuel (validated p) = Some r /\
    (r = 0 <-> the_profile cfg = PSA_IOT_1 /\
       last_value IAT_NO_SW_COMPONENTS es = Some (CInt64 NO_SW_COMPONENT_FIXED_VALUE)).
Proof.
  intros Hp He Hf Hv. unfold decode_test_components.
  rewrite (get_num_spec u _ p (CMap es)) by done. unfold num_result. cbn [claim]. rewrite !seen_all, Hv by done.
  change (negb (TOKEN_TEST_REQUIRED_NUM_SWC =? INT32_MAX)) with true. cbv iota.
  pose proof (err_nonzero 3 _ eq_refl) as Hnf. pose proof (err_nonzero 7 _ eq_refl) as Hmiss.
  pose proof (err_nonzero 2 _ eq_refl) as Hty.
  destruct (decide (the_profile cfg = PSA_IOT_1 /\ _)) as [[Hpr _]|Hpr].
  - destruct (last_value IAT_NO_SW_COMPONENTS es) as [v|].
    + destruct v as [z| | | | | |];
        try (cbn [mbind option_bind]; rewrite (proj2 (Z.eqb_neq _ _) Hty);
             eexists; split; [done | by split; [|intros [_ ?]]]).
      destruct (Z.eqb_spec z NO_SW_COMPONENT_FIXED_VALUE) as [->|Hz]; cbn [mbind option_bind].
      * rewrite attest_success. cbn. exists 0. by split.
      * rewrite (proj2 (Z.eqb_neq _ _) Hmiss). eexists. split; [done|].
        split; [done | intros [_ H]; congruence].
    + rewrite Z.eqb_refl. cbn [mbind option_bind]. rewrite (proj2 (Z.eqb_neq _ _) Hmiss).
      eexists. split; [done | by split; [|intros [_ ?]]].
  - cbn [mbind option_bind]. rewrite (proj2 (Z.eqb_neq _ _) Hnf). eexists. split; [done|].
    split; [done | tauto].
Qed.

Lemma decode_components_spec p es fuel :
  encodes p (CMap es) -> no_empty es -> plain_components es -> (fuel_for es <= fuel)%nat ->
  exists r, decode_test_components cfg u num sw0 fuel (validated p) = Some r /\
    (r = 0 <-> components_acceptable (the_profile cfg) es).
Proof.
  intros Hp He Hpl Hf. unfold components_acceptable.
  destruct (last_value IAT_SW_COMPONENTS es) as [v|] eqn:Hv; [|by apply decode_components_none].
  assert (exists r, num_result (the_profile cfg) (CMap es) num = (r, num) /\ r <> 0 \/
      exists t ts, v = CArray (t :: ts)) as (r & [[Hn Hr]|(t & ts & ->)]).
  { unfold num_result. cbn [claim]. rewrite seen_all, Hv by done.
    pose proof (err_nonzero 2 _ eq_refl). pose proof (err_nonzero 7 _ eq_refl).
    destruct v as [| | | | |[|t ts]|]; [..|exists 0; right; by exists t, ts|]; eexists; by left. }
  - unfold decode_test_components. rewrite (get_num_spec u _ p (CMap es)), Hn by done.
    change (negb (TOKEN_TEST_REQUIRED_NUM_SWC =? INT32_MAX)) with true. cbv iota. cbn [mbind option_bind].
    rewrite (proj2 (Z.eqb_neq _ _) Hr). exists r. split; [done|].
    unfold num_result in Hn. cbn [claim] in Hn. rewrite seen_all, Hv in Hn by done.
    destruct v as [| | | | |[|t ts]|]; try tauto. injection Hn as Hn _. by rewrite attest_success in Hn.
  - by apply (decode_components_some p es t ts).
Qed.

Lemma decode_test_spec mode v token v' p es fuel :
  mode = NORMAL_SIGN \/ mode = COSE_MAC0 ->
  svc_get_token (replicate 64 0) 64 ATTEST_TOKEN_MAX_SIZE v = ((PSA_SUCCESS, token), v') ->
  attest_token_decode_validate_token (the_validation cfg symmetric) (attest_token_decode_init me0)
    (Some token) = (ATTEST_TOKEN_ERR_SUCCESS, validated p) ->
  encodes p (CMap es) -> no_empty es -> plain_components es -> (fuel_for es <= fuel)%nat ->
  exists r, decode_test_internal cfg symmetric u labels num sw0 me0 fuel mode v = Some (r, v') /\
    (r = 0 <-> simple_taken cfg es /\ components_acceptable (the_profile cfg) es).
Proof.
  intros Hmode Hget Hval Hp He Hpl Hf. unfold decode_test_internal.
  assert (((mode =? NORMAL_SIGN) || (mode =? COSE_MAC0)) = true) as -> by (by destruct Hmode as [-> | ->]).
  cbn [negb]. change (default [] TOKEN_TEST_VALUE_NONCE) with (replicate 64 0).
  change (sizeof (replicate 64 0)) with 64. rewrite Hget, Z.eqb_refl. cbn [negb].
  rewrite Hval, Z.eqb_refl. cbn [negb].
  rewrite (get_iat_simple_spec u labels (the_profile cfg) p (CMap es)) by done.
  cbn [iat_simple_result]. rewrite seen_all by done. cbn [mbind option_bind]. rewrite Z.eqb_refl. cbn [negb].
  setoid_rewrite <- check_simple_ok. rewrite attest_success.
  destruct (Z.eqb_spec (check_simple_claims cfg (simple_claims es)) 0) as [->|Hne]; cbn [negb];
    [|eexists; split; [done | tauto]].
  destruct (decode_components_spec p es fuel) as (r & -> & Hr); [done..|]. cbn [mbind option_bind].
  exists r. split; [done | tauto].
Qed.
End decode_test.

(** C11. The verdict of the attestation test on a token that the service returns
    and t_cose accepts, whose payload is a CBOR map with no empty map or array
    (the traversal of qcbor_util.c goes astray on one), whose components claim is
    not repeated and lists fewer than 2^31 plain members ([plain_components]):
    [decode_test_internal] terminates, and it returns 0 exactly when every
    required claim is there and every given value agrees, for the simple claims
    and for the first two software components.  For the client ID the rule is the
    documented one, negative for a non-secure caller and positive for a secure
    one, on the 32 bits the decoder keeps, with the one exception of the ID 0,
    which the code takes from either; for the security lifecycle it is the value
    on the 32 bits the decoder keeps.  On a token whose two integers fit their
    types and whose client ID is not 0 the test therefore returns 0 exactly when
    the claims are the documented ones. *)
Theorem decode_test_verdict
    {PC : PsaConsts} {PCL : PsaConstsLaws}
    {QB : QUsefulBuf} {QBL : QUsefulBufLaws} {QBT : QUsefulBufTailLaws} {QT : QcborTypes}
    {AE : AttestTokenErr} {TL : QcborTypesLaws} {IL : IatLabels} {ILL : IatLabelsLaws}
    {AM : AttestTokenErrMore} {TE : TCoseErr} {TC : TCose}
    {C : Type} {QD : QcborDecoder C} {QL : QcborLaws C} {V : Type} {AS : AttestService V}
    cfg symmetric u labels num sw0 me0 mode (v : V) token v' p es fuel :
  mode = NORMAL_SIGN \/ mode = COSE_MAC0 ->
  svc_get_token (replicate 64 0) 64 ATTEST_TOKEN_MAX_SIZE v = ((PSA_SUCCESS, token), v') ->
  attest_token_decode_validate_token (the_validation cfg symmetric) (attest_token_decode_init me0)
    (Some token) = (ATTEST_TOKEN_ERR_SUCCESS, validated p) ->
  encodes p (CMap es) -> no_empty es -> plain_components es -> (fuel_for es <= fuel)%nat ->
  exists r, decode_test_internal cfg symmetric u labels num sw0 me0 fuel mode v = Some (r, v') /\
    (r = 0 <-> simple_taken cfg es /\ components_acceptable (the_profile cfg) es) /\
    (proper_integers es ->
      r = 0 <-> simple_acceptable cfg es /\ components_acceptable (the_profile cfg) es).
Proof.
  intros Hmode Hget Hval Hp He Hpl Hf.
  destruct (decode_test_spec cfg symmetric u labels num sw0 me0 mode v token v' p es fuel) as (r & Hr & Hv); [done..|].
  exists r. split; [done|]. split; [done|]. intros Hi. by rewrite Hv, taken_is_acceptable.
Qed.

(** ** Witness *)

#[export] Instance ref_useful_buf_tail_laws : QUsefulBufTailLaws (QB := ref_useful_buf).
Proof.
  split.
  - intros bs n [H0 H]. cbn. case_Z; [lia | done].
  - intros bs v Hl. cbn. change (2 ^ 32 - 1) with SIZE_MAX. split; intros H.
    + destruct (list_find _ bs) as [[i x]|] eqn:Hf.
      * apply list_find_Some in Hf as (Hi & _). apply lookup_lt_Some in Hi. lia.
      * apply list_find_None in Hf. eapply Forall_impl; [exact Hf|]. intros y Hy. cbn in Hy.
        destruct (decide (y = v)); [done | by destruct Hy].
    + destruct (list_find _ bs) as [[i x]|] eqn:Hf; [|done].
      apply list_find_Some in Hf as (Hi & Hx & _). rewrite Forall_lookup in H. by destruct Hx, (H i x Hi).
Qed.

Definition demo_psa_consts : PsaConsts := {|
  PSA_SUCCESS := 0; PSA_ERROR_PROGRAMMER_ERROR := -129; PSA_ERROR_INVALID_ARGUMENT := -135;
  PSA_ERROR_DOES_NOT_EXIST := -140; PSA_ERROR_NOT_PERMITTED := -133; PSA_ERROR_NOT_SUPPORTED := -134;
  PSA_ERROR_INSUFFICIENT_STORAGE := -142; PSA_ERROR_GENERIC_ERROR := -132;
  PSA_STORAGE_FLAG_NONE := 0; PSA_STORAGE_FLAG_WRITE_ONCE := 1;
|}.

Lemma demo_psa_consts_laws : PsaConstsLaws (PC := demo_psa_consts).
Proof. split; [by apply (bool_decide_unpack _) | done | done]. Qed.

(** A token with every claim the tests ask for and one software component. *)
Definition good_entries : list (label * cbor) :=
  [(LabelInt IAT_NONCE, CBytes (replicate 64 0)); (LabelInt IAT_INSTANCE_ID, CBytes [1; 2]);
   (LabelInt IAT_BOOT_SEED, CBytes [3]); (LabelInt IAT_IMPLEMENTATION_ID, CBytes [4]);
   (LabelInt IAT_CLIENT_ID, CInt64 (-1)); (LabelInt IAT_SECURITY_LIFECYCLE, CInt64 12288);
   (LabelInt IAT_SW_COMPONENTS, CArray
     [CMap [(LabelInt 2, CBytes [7]); (LabelInt 4, CText [49]); (LabelInt 5, CBytes [9])]])].

Definition good_bytes : list Z :=
  [167; 10; 88; 64] ++ replicate 64 0 ++
  [25; 1; 0; 66; 1; 2; 25; 1; 12; 65; 3; 25; 9; 92; 65; 4; 25; 9; 90; 32; 25; 9; 91; 25; 48; 0;
   25; 9; 95; 129; 163; 2; 65; 7; 4; 97; 49; 5; 65; 9].

Definition demo_attest_service (payload : list Z) : AttestService unit := {|
  svc_get_token challenge n size v := ((0, 210 :: payload), v);
  svc_get_token_size n size v := ((0, 1 + Z.of_nat (length payload)), v);
|}.

Example decode_test_verdict_witness :
  exists r, decode_test_internal (PC := demo_psa_consts) (AS := demo_attest_service good_bytes)
      (mkConfig false PSA_2_0_0 true) false blank_item (fun _ => 99) 0 sw_zero (mkDecode None 0) 60 NORMAL_SIGN tt =
    Some (r, tt) /\
  (r = 0 <-> simple_taken (mkConfig false PSA_2_0_0 true) good_entries /\
    components_acceptable PSA_2_0_0 good_entries) /\
  (proper_integers good_entries ->
    r = 0 <-> simple_acceptable (mkConfig false PSA_2_0_0 true) good_entries /\
      components_acceptable PSA_2_0_0 good_entries).
Proof.
  apply (decode_test_verdict (PC := demo_psa_consts) (PCL := demo_psa_consts_laws) (QL := ref_laws)
    (AS := demo_attest_service good_bytes) (mkConfig false PSA_2_0_0 true) false blank_item (fun _ => 99) 0
    sw_zero (mkDecode None 0) NORMAL_SIGN tt (210 :: good_bytes) tt good_bytes good_entries 60).
  - by left.
  - done.
  - by vm_compute.
  - by vm_compute.
  - by apply (bool_decide_unpack _).
  - split; [unfold not_repeated; by apply (bool_decide_unpack _)|]. intros ts Hts.
    vm_compute in Hts. injection Hts as <-. split; [|done].
    repeat constructor.
  - vm_compute. lia.
Defined.
