(* ===== verification/Erpc.v ===== *)
(** * eRPC: the types of tfm_erpc.h and the interface of the eRPC library

    The structures and identifiers of erpc/generated_files/tfm_erpc.h, the
    parts of the eRPC library that the generated shims call (a codec, the
    client manager, the message buffer factory: classes with their laws) and
    the PSA client API of the secure side.  [ErpcClient] and [ErpcServer] model
    the shims over them. *)

From S2P Require Import Prelude.
Local Open Scope Z_scope.

(** ** tfm_erpc.h *)

(** [kpsa_client_api_service_id] and the method ids of [_psa_client_api_ids] *)
Definition kpsa_client_api_service_id : Z := 1.
Definition kpsa_client_api_psa_framework_version_id : Z := 1.
Definition kpsa_client_api_psa_version_id : Z := 2.
Definition kpsa_client_api_erpc_psa_call_id : Z := 3.
Definition kpsa_client_api_psa_connect_id : Z := 4.
Definition kpsa_client_api_psa_close_id : Z := 5.

(** A pointer to objects named by [B]; [Wild] is what an uninitialised pointer
    holds. *)
Inductive ptr (B : Type) := Null | At (b : B) | Wild.
Arguments Null {B}.
Arguments At {B} b.
Arguments Wild {B}.

Record binary_t (B : Type) := mkBinary { data : ptr B; dataLength : Z }.
Arguments mkBinary {B} data dataLength.
Arguments data {B} b.
Arguments dataLength {B} b.

(** [elements] is the array at the pointer, or [None] for NULL. *)
Record list_binary_1_t (A : Type) := mkList { elements : option A; elementsCount : Z }.
Arguments mkList {A} elements elementsCount.
Arguments elements {A} l.
Arguments elementsCount {A} l.

(** What an element of an array holds before it is written. *)
Definition uninit_binary {B} : binary_t B := mkBinary Wild 0.

(** ** The eRPC library *)

Class ErpcConsts := {
  kErpcStatus_Success : Z;
  kErpcStatus_MemoryError : Z;
  kErpcStatus_InvalidArgument : Z;
  kInvocationMessage : Z;
  kReplyMessage : Z;
  (** [ERPC_PRE_POST_ACTION], [ERPC_NESTED_CALLS_DETECTION] *)
  ERPC_PRE_POST_ACTION : bool;
  ERPC_NESTED_CALLS_DETECTION : bool;
}.

Class ErpcConstsLaws {EC : ErpcConsts} := {
  erpc_status_NoDup : NoDup [kErpcStatus_Success; kErpcStatus_MemoryError; kErpcStatus_InvalidArgument];
}.

(** [erpc::Codec].  A read that fails does not write its variable ([None]);
    [readBinary] gives a length and the bytes at the pointer it returns. *)
Class Codec (K : Type) := {
  getStatus : K -> Z;
  updateStatus : Z -> K -> K;
  codec_reset : K -> K;
  startWriteMessage : Z -> Z -> Z -> Z -> K -> K;
  write_u32 : Z -> K -> K;
  write_i32 : Z -> K -> K;
  writeBinary : Z -> list Z -> K -> K;
  startWriteList : Z -> K -> K;
  read_u32 : K -> option Z * K;
  read_i32 : K -> option Z * K;
  readBinary : K -> (Z * option (list Z)) * K;
  startReadList : K -> Z * K;
}.

(** What a message is made of. *)
Inductive item :=
  | IMessage (type service request sequence : Z)
  | IU32 (z : Z)
  | II32 (z : Z)
  | IBinary (bs : list Z)
  | ICount (n : Z).

(** [written] is what was serialised since the last reset, [remaining] what is
    left to read; [fits] says what the message buffer holds.  An error stays
    until the reset. *)
Class CodecLaws {EC : ErpcConsts} (K : Type) {CD : Codec K} := {
  written : K -> list item;
  remaining : K -> list item;
  fits : list item -> Prop;
  law_fits_app its its' : fits (its ++ its') -> fits its;
  law_reset c : getStatus (codec_reset c) = kErpcStatus_Success /\ written (codec_reset c) = [];
  law_update c e : e <> kErpcStatus_Success ->
    getStatus (updateStatus e c) =
      if getStatus c =? kErpcStatus_Success then e else getStatus c;
  law_write c : getStatus c = kErpcStatus_Success ->
    let ok x c' := fits (written c ++ [x]) ->
      getStatus c' = kErpcStatus_Success /\ written c' = written c ++ [x] in
    (forall t s r n, ok (IMessage t s r n) (startWriteMessage t s r n c)) /\
    (forall z, ok (IU32 (wrapu 32 z)) (write_u32 z c)) /\
    (forall z, ok (II32 (wraps 32 z)) (write_i32 z c)) /\
    (forall n bs, Z.of_nat (length bs) = n -> ok (IBinary bs) (writeBinary n bs c)) /\
    (forall n, ok (ICount n) (startWriteList n c));
  law_write_error c : getStatus c <> kErpcStatus_Success ->
    let kept c' := getStatus c' = getStatus c in
    (forall t s r n, kept (startWriteMessage t s r n c)) /\
    (forall z, kept (write_u32 z c)) /\ (forall z, kept (write_i32 z c)) /\
    (forall n bs, kept (writeBinary n bs c)) /\ (forall n, kept (startWriteList n c));
  law_read_u32 c z its : getStatus c = kErpcStatus_Success -> remaining c = IU32 z :: its ->
    exists c', read_u32 c = (Some z, c') /\ getStatus c' = kErpcStatus_Success /\ remaining c' = its;
  law_read_i32 c z its : getStatus c = kErpcStatus_Success -> remaining c = II32 z :: its ->
    exists c', read_i32 c = (Some z, c') /\ getStatus c' = kErpcStatus_Success /\ remaining c' = its;
  law_readBinary c bs its : getStatus c = kErpcStatus_Success -> remaining c = IBinary bs :: its ->
    exists c', readBinary c = ((Z.of_nat (length bs), Some bs), c') /\
      getStatus c' = kErpcStatus_Success /\ remaining c' = its;
  law_startReadList c n its : 0 <= n < 2 ^ 32 ->
    getStatus c = kErpcStatus_Success -> remaining c = ICount n :: its ->
    exists c', startReadList c = (n, c') /\ getStatus c' = kErpcStatus_Success /\ remaining c' = its;
}.

(** What holds of a read on any input. *)
Class CodecReadLaws {EC : ErpcConsts} (K : Type) {CD : Codec K} := {
  law_read_none c :
    ((read_u32 c).1 = None -> getStatus (read_u32 c).2 <> kErpcStatus_Success) /\
    ((read_i32 c).1 = None -> getStatus (read_i32 c).2 <> kErpcStatus_Success);
  law_read_error c : getStatus c <> kErpcStatus_Success ->
    getStatus (read_u32 c).2 = getStatus c /\ getStatus (read_i32 c).2 = getStatus c /\
    getStatus (readBinary c).2 = getStatus c /\ getStatus (startReadList c).2 = getStatus c /\
    (startReadList c).1 = 0;
  law_readBinary_data c :
    (readBinary c).1.1 = match (readBinary c).1.2 with
                         | Some bs => Z.of_nat (length bs)
                         | None => 0
                         end;
  law_startReadList_range c : 0 <= (startReadList c).1 < 2 ^ 32;
}.

(** [erpc::ClientManager], on the world of the client: [createRequest] gives the
    codec of the request (NULL when there is no memory) and its sequence
    number; [performRequest] sends what the codec holds and leaves the reply in
    it. *)
Class ClientManager (K W : Type) := {
  createRequest : bool -> W -> (option K * Z) * W;
  performRequest : K -> W -> K * W;
  releaseRequest : W -> W;
  callErrorHandler : Z -> Z -> W -> W;
  getPreCB : W -> option (W -> W);
  getPostCB : W -> option (W -> W);
}.

(** ** psa/client.h *)

Class PsaClientConsts := {
  PSA_SUCCESS : Z;
  PSA_ERROR_PROGRAMMER_ERROR : Z;
  PSA_MAX_IOVEC : Z;
}.

Class PsaClientConstsLaws {PC : PsaClientConsts} := {
  law_max_iovec : PSA_MAX_IOVEC = 4;
  law_psa_success : PSA_SUCCESS = 0;
}.

(** [psa_invec] and [psa_outvec] over pointers [P]. *)
Record psa_vec (P : Type) := mkVec { base : P; len : Z }.
Arguments mkVec {P} base len.
Arguments base {P} p.
Arguments len {P} p.

(** The PSA client API on the secure side.  The call gets the bytes at each
    pointer ([None] for NULL) and returns what the output vectors then hold:
    their bytes and lengths. *)
Class PsaClientApi (W : Type) := {
  tfm_psa_framework_version : W -> Z * W;
  tfm_psa_version : Z -> W -> Z * W;
  tfm_psa_call : Z -> Z -> list (psa_vec (option (list Z))) -> list (psa_vec (option (list Z))) ->
    W -> (Z * list (psa_vec (option (list Z)))) * W;
  tfm_psa_connect : Z -> Z -> W -> Z * W;
  tfm_psa_close : Z -> W -> W;
}.

(** The PSA Firmware Framework on the results: 32-bit values, and output
    vectors in place whose length is that of the data written. *)
Definition same_room (v v' : psa_vec (option (list Z))) : Prop :=
  (length <$> base v') = (length <$> base v) /\ 0 <= len v' <= len v.

(** The vectors over given bytes, as the called service sees them. *)
Definition vecs_of (bss : list (list Z)) : list (psa_vec (option (list Z))) :=
  (fun bs => mkVec (Some bs) (Z.of_nat (length bs))) <$> bss.

Class PsaClientApiLaws (W : Type) {PA : PsaClientApi W} := {
  law_version_range w sid : 0 <= (tfm_psa_framework_version w).1 < 2 ^ 32 /\
    0 <= (tfm_psa_version sid w).1 < 2 ^ 32;
  law_status_range h t ins outs w : - 2 ^ 31 <= (tfm_psa_call h t ins outs w).1.1 < 2 ^ 31;
  law_handle_range sid ver w : - 2 ^ 31 <= (tfm_psa_connect sid ver w).1 < 2 ^ 31;
  law_call_length h t ins outs w : length (tfm_psa_call h t ins outs w).1.2 = length outs;
  law_call_outs h t ins outs w :
    Forall2 same_room (vecs_of outs) (tfm_psa_call h t (vecs_of ins) (vecs_of outs) w).1.2;
}.

(** ** The machine *)

(** The width of [size_t] and the size of a [binary_t]. *)
Class Abi := {
  size_bits : Z;
  sizeof_binary_t : Z;
}.

Class AbiLaws {AB : Abi} := {
  law_abi : (size_bits = 32 /\ sizeof_binary_t = 8) \/ (size_bits = 64 /\ sizeof_binary_t = 16);
}.

(** [&(elements[i])]: NULL when [elements] is NULL and [i] is 0; any other
    address outside the array is undefined. *)
Definition element_ptr {A} (elements : option (list A)) (i : nat) : option (option A) :=
  match elements with
  | None => if (i =? 0)%nat then Some None else None
  | Some l => Some <$> l !! i
  end.

(** [elements[i]] after a store through that pointer. *)
Definition element_store {A} (elements : option (list A)) (i : nat) (a : option A) : option (list A) :=
  match elements, a with
  | Some l, Some a => Some (<[i := a]> l)
  | _, _ => elements
  end.

(** The elements an array of the list can have; the loops over a list run at
    most [element_fuel] times before they end or leave the array. *)
Definition element_fuel {A} (elements : option (list A)) : nat := 2 + length (default [] elements).

(** The loops that fill one local array from the other representation of the
    vectors: [for (i = 0; i < n; ++i) dst[i] = f(src[i])]. *)
Fixpoint copy_vecs {A B} (f : A -> B) (fuel i : nat) (n : Z) (src : list A) (dst : list B) :
    option (list B) :=
  match fuel with
  | O => None
  | S fuel =>
      if Z.of_nat i <? n then
        a ← src !! i;
        if decide (i < length dst)%nat then copy_vecs f fuel (S i) n src (<[i := f a]> dst) else None
      else Some dst
  end.

Lemma copy_vecs_spec {A B} (f : A -> B) src rest pre dst fuel :
  length src = length dst -> (length src < fuel)%nat ->
  copy_vecs f fuel (length pre) (Z.of_nat (length pre + length src)) (pre ++ src)
    ((f <$> pre) ++ dst ++ rest) = Some ((f <$> pre ++ src) ++ rest).
Proof.
  revert pre dst fuel. induction src as [|a src IH]; intros pre [|b dst] [|fuel] Hl Hf; try (simpl in *; lia);
    cbn [copy_vecs].
  - rewrite Nat.add_0_r, (proj2 (Z.ltb_ge _ _)) by lia. by rewrite app_nil_r.
  - simpl in *. rewrite (proj2 (Z.ltb_lt _ _)) by lia.
    rewrite lookup_app_r, Nat.sub_diag by lia. cbn [lookup list_lookup mbind option_bind].
    rewrite decide_True by (rewrite length_app, length_fmap; simpl; lia).
    specialize (IH (pre ++ [a]) dst fuel ltac:(lia) ltac:(lia)).
    rewrite length_app, fmap_app, <- !app_assoc in IH. cbn in IH.
    replace (<[length pre := f a]> ((f <$> pre) ++ b :: dst ++ rest))
      with ((f <$> pre) ++ f a :: dst ++ rest)
      by (rewrite <- (insert_app_cons (f <$> pre) (dst ++ rest) b (f a)); by rewrite length_fmap).
    rewrite Nat.add_1_r in IH. rewrite <- IH. f_equal. lia.
Qed.

Lemma copy_into_array {A B} (f : A -> B) src k x :
  (length src <= k)%nat ->
  copy_vecs f (S k) 0 (Z.of_nat (length src)) src (replicate k x) =
    Some ((f <$> src) ++ replicate (k - length src) x).
Proof.
  intros Hk. rewrite (eq_sym (Nat.sub_add _ _ Hk)) at 2. rewrite Nat.add_comm, replicate_add.
  apply (copy_vecs_spec f src (replicate (k - length src) x) [] (replicate (length src) x));
    [by rewrite length_replicate | lia].
Qed.

(** Past the end of the destination the loop is undefined. *)
Lemma copy_vecs_overflow {A B} (f : A -> B) fuel i n (src : list A) (dst : list B) :
  (i <= length dst)%nat -> Z.of_nat (length dst) < n -> copy_vecs f fuel i n src dst = None.
Proof.
  revert i dst. induction fuel as [|fuel IH]; intros i dst Hi Hn; [done|]. cbn [copy_vecs].
  rewrite (proj2 (Z.ltb_lt _ _)) by lia. destruct (src !! i) as [a|]; [|done]. cbn [mbind option_bind].
  case_decide; [|done]. apply IH; rewrite length_insert; lia.
Qed.

(** ** Messages *)

Section messages.
  Context {EC : ErpcConsts} {K : Type} {CD : Codec K} {CL : CodecLaws K}.
  Implicit Types c : K.

(** The codec is in order and holds [its]. *)
Definition wrote c (its : list item) : Prop := getStatus c = kErpcStatus_Success /\ written c = its.

(** The codec is in order and its message goes on with [its]. *)
Definition reads c (its : list item) : Prop := getStatus c = kErpcStatus_Success /\ remaining c = its.

Lemma reads_i32 c z its : reads c (II32 z :: its) -> exists c', read_i32 c = (Some z, c') /\ reads c' its.
Proof. intros [Hs Hr]. destruct (law_read_i32 _ _ _ Hs Hr) as (c' & ? & ? & ?). by exists c'. Qed.

Lemma reads_u32 c z its : reads c (IU32 z :: its) -> exists c', read_u32 c = (Some z, c') /\ reads c' its.
Proof. intros [Hs Hr]. destruct (law_read_u32 _ _ _ Hs Hr) as (c' & ? & ? & ?). by exists c'. Qed.

Lemma reads_binary c bs its :
  reads c (IBinary bs :: its) ->
  exists c', readBinary c = ((Z.of_nat (length bs), Some bs), c') /\ reads c' its.
Proof. intros [Hs Hr]. destruct (law_readBinary _ _ _ Hs Hr) as (c' & ? & ? & ?). by exists c'. Qed.

Lemma reads_count c n its : 0 <= n < 2 ^ 32 -> reads c (ICount n :: its) ->
  exists c', startReadList c = (n, c') /\ reads c' its.
Proof. intros Hn [Hs Hr]. destruct (law_startReadList _ _ _ Hn Hs Hr) as (c' & ? & ? & ?). by exists c'. Qed.

Section writes.
  Variables (c : K) (its : list item).
  Hypothesis (Hc : wrote c its).

Lemma wrote_message t s r n : fits (its ++ [IMessage t s r n]) ->
  wrote (startWriteMessage t s r n c) (its ++ [IMessage t s r n]).
Proof. destruct Hc as [Hs Hw]. rewrite <- Hw. by destruct (law_write _ Hs) as (H & _); apply H. Qed.

Lemma wrote_u32 z : 0 <= z < 2 ^ 32 -> fits (its ++ [IU32 z]) -> wrote (write_u32 z c) (its ++ [IU32 z]).
Proof.
  intros Hz. rewrite <- (wrapu_small 32 z Hz) at 1 3. destruct Hc as [Hs Hw]. rewrite <- Hw.
  by destruct (law_write _ Hs) as (_ & H & _); apply H.
Qed.

Lemma wrote_i32 z : - 2 ^ 31 <= z < 2 ^ 31 -> fits (its ++ [II32 z]) -> wrote (write_i32 z c) (its ++ [II32 z]).
Proof.
  intros Hz. rewrite <- (wraps_small 32 z ltac:(lia) Hz) at 1 3. destruct Hc as [Hs Hw]. rewrite <- Hw.
  by destruct (law_write _ Hs) as (_ & _ & H & _); apply H.
Qed.

Lemma wrote_binary n bs : Z.of_nat (length bs) = n -> fits (its ++ [IBinary bs]) ->
  wrote (writeBinary n bs c) (its ++ [IBinary bs]).
Proof.
  intros Hn. destruct Hc as [Hs Hw]. rewrite <- Hw.
  by destruct (law_write _ Hs) as (_ & _ & _ & H & _); apply H.
Qed.

Lemma wrote_count n : fits (its ++ [ICount n]) -> wrote (startWriteList n c) (its ++ [ICount n]).
Proof.
  destruct Hc as [Hs Hw]. rewrite <- Hw. by destruct (law_write _ Hs) as (_ & _ & _ & _ & H); apply H.
Qed.
End writes.

(** A longer message that fits. *)
Lemma fits_prefix its x its' : fits (its ++ x :: its') -> fits (its ++ [x]).
Proof. intros H. apply (law_fits_app (its ++ [x]) its'). by rewrite <- app_assoc. Qed.
End messages.

(** A list in a message. *)
Definition list_items (bss : list (list Z)) : list item :=
  ICount (Z.of_nat (length bss)) :: (IBinary <$> bss).

(** The bytes that the service says it has written. *)
Definition result_bytes (v : psa_vec (option (list Z))) : list Z :=
  take (Z.to_nat (len v)) (default [] (base v)).

Lemma result_bytes_length bs v :
  same_room (mkVec (Some bs) (Z.of_nat (length bs))) v -> Z.of_nat (length (result_bytes v)) = len v.
Proof.
  unfold same_room, result_bytes. cbn. intros [Hb Hl]. destruct (base v) as [bs'|]; [|done].
  injection Hb as Hb. cbn. rewrite length_take. lia.
Qed.
