(* ===== verification/ErpcClient.v ===== *)
(** * The client shims: erpc/generated_files/tfm_erpc_client.cpp

    The generated stubs of the PSA client API on the host, and the [psa_call]
    of erpc/client/erpc_client_wrapper.c that packs its vectors into lists. *)

From S2P Require Import Prelude Erpc.
Local Open Scope Z_scope.

(** The memory of the client: the buffers its pointers name. *)
Definition loc : Type := Z.
Abbreviation mem := (gmap loc (list Z)).
Abbreviation binary := (binary_t loc).
Abbreviation list_binary := (list_binary_1_t (list binary)).
Abbreviation iovec := (psa_vec (ptr loc)).

(** The [n] bytes at a pointer; no byte is read when [n] is 0. *)
Definition load_bytes (p : ptr loc) (n : Z) (m : mem) : option (list Z) :=
  if n =? 0 then Some []
  else match p with
       | At l => bs ← m !! l; if n <=? Z.of_nat (length bs) then Some (take (Z.to_nat n) bs) else None
       | _ => None
       end.

(** [memcpy(p, bs, length bs)] *)
Definition store_bytes (p : ptr loc) (bs : list Z) (m : mem) : option mem :=
  match bs, p with
  | [], _ => Some m
  | _, At l => old ← m !! l;
      if decide (length bs <= length old)%nat then Some (<[l := splice 0 bs old]> m) else None
  | _, _ => None
  end.

Section client.
  Context {EC : ErpcConsts} {K W : Type} {CD : Codec K} {CM : ClientManager K W}.
  Implicit Types (codec : K) (m : mem) (w : W).

Definition write_binary_t_struct codec (data : option binary) m : option K :=
  match data with
  | None => Some codec
  | Some d => bs ← load_bytes (Erpc.data d) (dataLength d) m; Some (writeBinary (dataLength d) bs codec)
  end.

Fixpoint write_elements (fuel listCount : nat) codec (data : list_binary) m : option K :=
  match fuel with
  | O => None
  | S fuel =>
      if Z.of_nat listCount <? elementsCount data then
        d ← element_ptr (elements data) listCount;
        codec ← write_binary_t_struct codec d m;
        write_elements fuel (S listCount) codec data m
      else Some codec
  end.

Definition write_list_binary_1_t_struct codec (data : option list_binary) m : option K :=
  match data with
  | None => Some codec
  | Some l =>
      write_elements (element_fuel (elements l)) 0 (startWriteList (elementsCount l) codec) l m
  end.

(** The buffer gets as many bytes as the reply says. *)
Definition read_binary_t_struct codec (data : option binary) m : option (option binary * K * mem) :=
  match data with
  | None => Some (None, codec, m)
  | Some d =>
      let '((n, data_local), codec) := readBinary codec in
      m ← store_bytes (Erpc.data d) (default [] data_local) m;
      Some (Some (mkBinary (Erpc.data d) n), codec, m)
  end.

Fixpoint read_elements (fuel listCount : nat) codec (data : list_binary) m :
    option (list_binary * K * mem) :=
  match fuel with
  | O => None
  | S fuel =>
      if Z.of_nat listCount <? elementsCount data then
        d ← element_ptr (elements data) listCount;
        '(d, codec, m) ← read_binary_t_struct codec d m;
        read_elements fuel (S listCount) codec
          (mkList (element_store (elements data) listCount d) (elementsCount data)) m
      else Some (data, codec, m)
  end.

Definition read_list_binary_1_t_struct codec (data : option list_binary) m :
    option (option list_binary * K * mem) :=
  match data with
  | None => Some (None, codec, m)
  | Some l =>
      let '(n, codec) := startReadList codec in
      '(l, codec, m) ← read_elements (element_fuel (elements l)) 0 codec (mkList (elements l) n) m;
      Some (Some l, codec, m)
  end.

(** ** The shims *)

Definition run_callback (cb : option (W -> W)) w : W :=
  match cb with Some f => f w | None => w end.

(** Up to the test of [codec]. *)
Definition begin_request w : (option K * Z) * W :=
  let w := if ERPC_PRE_POST_ACTION then run_callback (getPreCB (K := K) w) w else w in
  createRequest false w.

(** From "Dispose of the request" on. *)
Definition end_request (err id : Z) w : W :=
  let w := releaseRequest (K := K) w in
  let w := callErrorHandler (K := K) err id w in
  if ERPC_PRE_POST_ACTION then run_callback (getPostCB (K := K) w) w else w.

(** What a shim returns: the value for an error, or [result], which must have
    been written. *)
Definition shim_result (err error_value : Z) (result : option Z) w : option (Z * W) :=
  if negb (err =? kErpcStatus_Success) then Some (error_value, w)
  else r ← result; Some (r, w).

Definition psa_framework_version w : option (Z * W) :=
  let '((codec, seq), w) := begin_request w in
  let '(err, result, w) :=
    match codec with
    | None => (kErpcStatus_MemoryError, None, w)
    | Some codec =>
        let codec := startWriteMessage kInvocationMessage kpsa_client_api_service_id
          kpsa_client_api_psa_framework_version_id seq codec in
        let '(codec, w) := performRequest codec w in
        let '(result, codec) := read_u32 codec in
        (getStatus codec, result, w)
    end in
  let w := end_request err kpsa_client_api_psa_framework_version_id w in
  shim_result err (2 ^ 32 - 1) result w.

Definition psa_version (sid : Z) w : option (Z * W) :=
  let '((codec, seq), w) := begin_request w in
  let '(err, result, w) :=
    match codec with
    | None => (kErpcStatus_MemoryError, None, w)
    | Some codec =>
        let codec := startWriteMessage kInvocationMessage kpsa_client_api_service_id
          kpsa_client_api_psa_version_id seq codec in
        let codec := write_u32 sid codec in
        let '(codec, w) := performRequest codec w in
        let '(result, codec) := read_u32 codec in
        (getStatus codec, result, w)
    end in
  let w := end_request err kpsa_client_api_psa_version_id w in
  shim_result err (2 ^ 32 - 1) result w.

Definition erpc_psa_call (handle t : Z) (erpc_in_vec erpc_out_vec : option list_binary) m w :
    option (Z * option list_binary * mem * W) :=
  let '((codec, seq), w) := begin_request w in
  '(err, result, erpc_out_vec, m, w) ←
    match codec with
    | None => Some (kErpcStatus_MemoryError, None, erpc_out_vec, m, w)
    | Some codec =>
        let codec := startWriteMessage kInvocationMessage kpsa_client_api_service_id
          kpsa_client_api_erpc_psa_call_id seq codec in
        let codec := write_i32 handle codec in
        let codec := write_i32 t codec in
        codec ← write_list_binary_1_t_struct codec erpc_in_vec m;
        codec ← write_list_binary_1_t_struct codec erpc_out_vec m;
        let '(codec, w) := performRequest codec w in
        '(erpc_out_vec, codec, m) ← read_list_binary_1_t_struct codec erpc_out_vec m;
        let '(result, codec) := read_i32 codec in
        Some (getStatus codec, result, erpc_out_vec, m, w)
    end;
  let w := end_request err kpsa_client_api_erpc_psa_call_id w in
  '(result, w) ← shim_result err (-1) result w;
  Some (result, erpc_out_vec, m, w).

Definition psa_connect (sid ver : Z) w : option (Z * W) :=
  let '((codec, seq), w) := begin_request w in
  let '(err, result, w) :=
    match codec with
    | None => (kErpcStatus_MemoryError, None, w)
    | Some codec =>
        let codec := startWriteMessage kInvocationMessage kpsa_client_api_service_id
          kpsa_client_api_psa_connect_id seq codec in
        let codec := write_u32 sid codec in
        let codec := write_u32 ver codec in
        let '(codec, w) := performRequest codec w in
        let '(result, codec) := read_i32 codec in
        (getStatus codec, result, w)
    end in
  let w := end_request err kpsa_client_api_psa_connect_id w in
  shim_result err (-1) result w.

Definition psa_close (handle : Z) w : W :=
  let '((codec, seq), w) := begin_request w in
  let '(err, w) :=
    match codec with
    | None => (kErpcStatus_MemoryError, w)
    | Some codec =>
        let codec := startWriteMessage kInvocationMessage kpsa_client_api_service_id
          kpsa_client_api_psa_close_id seq codec in
        let codec := write_i32 handle codec in
        let '(codec, w) := performRequest codec w in
        (getStatus codec, w)
    end in
  end_request err kpsa_client_api_psa_close_id w.

(** ** erpc_client_wrapper.c *)

Context {PC : PsaClientConsts} {AB : Abi}.

(** [(binary_t){base, len}]: the length is cut to 32 bits. *)
Definition binary_of_vec (v : iovec) : binary := mkBinary (base v) (u32 (len v)).

(** [in_elements], [out_elements] *)
Definition iovec_array {B} : list (binary_t B) := replicate (Z.to_nat PSA_MAX_IOVEC) uninit_binary.

(** The last loop, which writes the new lengths to [out_vec]. *)
Fixpoint copy_lengths (fuel i : nat) (out_len : Z) (out_elements : list binary) (out_vec : list iovec) :
    option (list iovec) :=
  match fuel with
  | O => None
  | S fuel =>
      if Z.of_nat i <? out_len then
        e ← out_elements !! i;
        v ← out_vec !! i;
        copy_lengths fuel (S i) out_len out_elements (<[i := mkVec (base v) (dataLength e)]> out_vec)
      else Some out_vec
  end.

Definition psa_call (handle type : Z) (in_vec : list iovec) (in_len : Z) (out_vec : list iovec)
    (out_len : Z) m w : option (Z * list iovec * mem * W) :=
  if PSA_MAX_IOVEC <? wrapu size_bits (in_len + out_len)
  then Some (PSA_ERROR_PROGRAMMER_ERROR, out_vec, m, w)
  else
    let fuel := S (Z.to_nat PSA_MAX_IOVEC) in
    in_elements ← copy_vecs binary_of_vec fuel 0 in_len in_vec iovec_array;
    out_elements ← copy_vecs binary_of_vec fuel 0 out_len out_vec iovec_array;
    '(status, erpc_out_vec, m, w) ← erpc_psa_call handle type
      (Some (mkList (Some in_elements) (u32 in_len)))
      (Some (mkList (Some out_elements) (u32 out_len))) m w;
    if negb (status =? PSA_SUCCESS) then Some (status, out_vec, m, w)
    else
      out_elements ← erpc_out_vec ≫= elements;
      out_vec ← copy_lengths fuel 0 out_len out_elements out_vec;
      Some (status, out_vec, m, w).
End client.
