(* ===== verification/ErpcServer.v ===== *)
(** * The server shims: erpc/generated_files/tfm_erpc_server.cpp

    The generated service of the PSA client API on the target, and the
    [erpc_psa_call] of erpc/server/erpc_server_wrapper.c that unpacks the lists
    into vectors. *)

From S2P Require Import Prelude Erpc.
Local Open Scope Z_scope.

(** A block of the heap that holds an [A]; the number says which call of
    [erpc_malloc] returned it.  Every block has one owner, the pointer that
    [erpc_malloc] was assigned to, so a block is kept with its pointer. *)
Record block (A : Type) := mkBlock { block_id : nat; contents : A }.
Arguments mkBlock {A} block_id contents.
Arguments block_id {A} b.
Arguments contents {A} b.

Abbreviation buffer := (block (list Z)).
Abbreviation binary := (binary_t buffer).
Abbreviation list_binary := (list_binary_1_t (block (list binary))).

(** The heap: how many blocks were asked for, and those given out and those
    given back, the last one first. *)
Record heap := mkHeap { requests : nat; allocated : list nat; freed : list nat }.

(** [erpc_malloc] is not in the sources: [malloc_ok n size] says whether its
    request number [n] succeeds. *)
Class Malloc := malloc_ok : nat -> Z -> bool.

(** [erpc::MessageBufferFactory], [nestingDetection] and the rest of the
    world. *)
Class MessageBufferFactory (K W : Type) := {
  prepareServerBufferForSend : K -> W -> Z * K * W;
  set_nestingDetection : bool -> W -> W;
}.

(** [sizeof(list_binary_1_t)]: a pointer and a [uint32_t], as in [binary_t]. *)
Definition sizeof_list_binary_1_t {AB : Abi} : Z := sizeof_binary_t.

(** The bytes of a block are not initialised; the caller of [erpc_malloc]
    copies over all of them. *)
Definition erpc_malloc {MA : Malloc} {A} (size : Z) (a : A) (h : heap) : ptr (block A) * heap :=
  let n := requests h in
  if malloc_ok n size
  then (At (mkBlock n a), mkHeap (S n) (n :: allocated h) (freed h))
  else (Null, mkHeap (S n) (allocated h) (freed h)).

Definition erpc_free (id : nat) (h : heap) : heap :=
  mkHeap (requests h) (allocated h) (id :: freed h).

Section server.
  Context {EC : ErpcConsts} {PC : PsaClientConsts} {AB : Abi} {MA : Malloc}.
  Context {K W : Type} {CD : Codec K} {MF : MessageBufferFactory K W} {PA : PsaClientApi W}.
  Implicit Types (codec : K) (h : heap) (w : W).

(** The elements behind the list's pointer, as [element_ptr] takes them. *)
Definition array_of (p : option (block (list binary))) : option (list binary) := contents <$> p.

Definition read_binary_t_struct codec (data : option binary) h : option (option binary * K * heap) :=
  match data with
  | None => Some (None, codec, h)
  | Some _ =>
      let '((n, data_local), codec) := readBinary codec in
      let '(p, h) := erpc_malloc (wrapu size_bits (n * 1)) (replicate (Z.to_nat n) 0) h in
      match p with
      | At b => Some (Some (mkBinary (At (mkBlock (block_id b) (default [] data_local))) n), codec, h)
      | _ => if 0 <? n
             then Some (Some (mkBinary Null n), updateStatus kErpcStatus_MemoryError codec, h)
             else Some (Some (mkBinary Null n), codec, h)
      end
  end.

Fixpoint read_elements (fuel listCount : nat) codec (data : list_binary) h :
    option (list_binary * K * heap) :=
  match fuel with
  | O => None
  | S fuel =>
      if Z.of_nat listCount <? elementsCount data then
        d ← element_ptr (array_of (elements data)) listCount;
        '(d, codec, h) ← read_binary_t_struct codec d h;
        let es := match elements data, element_store (array_of (elements data)) listCount d with
                  | Some b, Some es => Some (mkBlock (block_id b) es)
                  | p, _ => p
                  end in
        read_elements fuel (S listCount) codec (mkList es (elementsCount data)) h
      else Some (data, codec, h)
  end.

(** The size of the array is a [size_t] product, and the array has the
    elements that fit in it. *)
Definition read_list_binary_1_t_struct codec (data : option list_binary) h :
    option (option list_binary * K * heap) :=
  match data with
  | None => Some (None, codec, h)
  | Some _ =>
      let '(n, codec) := startReadList codec in
      let size := wrapu size_bits (n * sizeof_binary_t) in
      let '(p, h) := erpc_malloc size (replicate (Z.to_nat (size / sizeof_binary_t)) uninit_binary) h in
      let es := match p with At b => Some b | _ => None end in
      let codec := match p with
                   | At _ => codec
                   | _ => if 0 <? n then updateStatus kErpcStatus_MemoryError codec else codec
                   end in
      '(l, codec, h) ← read_elements (element_fuel (array_of es)) 0 codec (mkList es n) h;
      Some (Some l, codec, h)
  end.

Definition write_binary_t_struct codec (data : option binary) : option K :=
  match data with
  | None => Some codec
  | Some d =>
      if dataLength d =? 0 then Some (writeBinary 0 [] codec)
      else match Erpc.data d with
           | At b => if dataLength d <=? Z.of_nat (length (contents b))
                     then Some (writeBinary (dataLength d) (take (Z.to_nat (dataLength d)) (contents b)) codec)
                     else None
           | _ => None
           end
  end.

Fixpoint write_elements (fuel listCount : nat) codec (data : list_binary) : option K :=
  match fuel with
  | O => None
  | S fuel =>
      if Z.of_nat listCount <? elementsCount data then
        d ← element_ptr (array_of (elements data)) listCount;
        codec ← write_binary_t_struct codec d;
        write_elements fuel (S listCount) codec data
      else Some codec
  end.

Definition write_list_binary_1_t_struct codec (data : option list_binary) : option K :=
  match data with
  | None => Some codec
  | Some l =>
      write_elements (element_fuel (array_of (elements l))) 0 (startWriteList (elementsCount l) codec) l
  end.

(** The argument is dereferenced: [None] (NULL) is undefined, and so is the
    free of an uninitialised pointer. *)
Definition free_binary_t_struct (data : option binary) h : option heap :=
  d ← data;
  match Erpc.data d with
  | Null => Some h
  | At b => Some (erpc_free (block_id b) h)
  | Wild => None
  end.

Fixpoint free_elements (fuel listCount : nat) (data : list_binary) h : option heap :=
  match fuel with
  | O => None
  | S fuel =>
      if Z.of_nat listCount <? elementsCount data then
        d ← element_ptr (array_of (elements data)) listCount;
        h ← free_binary_t_struct d h;
        free_elements fuel (S listCount) data h
      else Some h
  end.

Definition free_list_binary_1_t_struct (data : list_binary) h : option heap :=
  h ← free_elements (element_fuel (array_of (elements data))) 0 data h;
  match elements data with
  | Some b => Some (erpc_free (block_id b) h)
  | None => Some h
  end.

(** ** erpc_server_wrapper.c *)

(** A vector over a buffer, as [psa_call] gets it, and the buffer after the
    call. *)
Definition vec_of_binary (b : binary) : psa_vec (ptr buffer) := mkVec (Erpc.data b) (dataLength b).
Definition bytes_at (v : psa_vec (ptr buffer)) : psa_vec (option (list Z)) :=
  mkVec (match base v with At b => Some (contents b) | _ => None end) (len v).

(** The last loop: the new lengths, and the buffers the call has written. *)
Definition binary_of_result (b : binary) (v : psa_vec (option (list Z))) : binary :=
  mkBinary (match Erpc.data b, base v with
            | At b, Some bs => At (mkBlock (block_id b) bs)
            | p, _ => p
            end) (u32 (len v)).

Definition vec_array : list (psa_vec (ptr buffer)) :=
  replicate (Z.to_nat PSA_MAX_IOVEC) (mkVec Wild 0).

Definition erpc_psa_call (handle t : Z) (erpc_in_vec erpc_out_vec : option list_binary) w :
    option (Z * option list_binary * W) :=
  in_list ← erpc_in_vec;
  out_list ← erpc_out_vec;
  let in_len := elementsCount in_list in
  let out_len := elementsCount out_list in
  let fuel := S (Z.to_nat PSA_MAX_IOVEC) in
  in_vec ← copy_vecs vec_of_binary fuel 0 in_len (default [] (array_of (elements in_list))) vec_array;
  out_vec ← copy_vecs vec_of_binary fuel 0 out_len (default [] (array_of (elements out_list))) vec_array;
  let '((status, outs), w) := tfm_psa_call handle t (bytes_at <$> take (Z.to_nat in_len) in_vec)
    (bytes_at <$> take (Z.to_nat out_len) out_vec) w in
  let es := (fun b => mkBlock (block_id b) (zip_with binary_of_result (contents b) outs)) <$> elements out_list in
  Some (status, Some (mkList es out_len), w).

(** ** The shims *)

Definition set_nesting (b : bool) w : W :=
  if ERPC_NESTED_CALLS_DETECTION then set_nestingDetection (K := K) b w else w.

(** Around the call of the served function. *)
Definition nested {A} (f : W -> option (A * W)) w : option (A * W) :=
  '(a, w) ← f (set_nesting true w); Some (a, set_nesting false w).

(** The start of the reply. *)
Definition begin_reply (id sequence : Z) codec : K :=
  startWriteMessage kReplyMessage kpsa_client_api_service_id id sequence (codec_reset codec).

Definition psa_framework_version_shim codec (sequence : Z) w : option (Z * K * W) :=
  let err := getStatus codec in
  if negb (err =? kErpcStatus_Success) then Some (err, codec, w)
  else
    '(result, w) ← nested (fun w => Some (tfm_psa_framework_version w)) w;
    let '(err, codec, w) := prepareServerBufferForSend codec w in
    if negb (err =? kErpcStatus_Success) then Some (err, codec, w)
    else
      let codec := begin_reply kpsa_client_api_psa_framework_version_id sequence codec in
      let codec := write_u32 result codec in
      Some (getStatus codec, codec, w).

Definition psa_version_shim codec (sequence : Z) w : option (Z * K * W) :=
  let '(sid, codec) := read_u32 codec in
  let err := getStatus codec in
  if negb (err =? kErpcStatus_Success) then Some (err, codec, w)
  else
    sid ← sid;
    '(result, w) ← nested (fun w => Some (tfm_psa_version sid w)) w;
    let '(err, codec, w) := prepareServerBufferForSend codec w in
    if negb (err =? kErpcStatus_Success) then Some (err, codec, w)
    else
      let codec := begin_reply kpsa_client_api_psa_version_id sequence codec in
      let codec := write_u32 result codec in
      Some (getStatus codec, codec, w).

(** [malloc_list] is an [erpc_malloc] of a list whose failure sets the
    status. *)
Definition malloc_list codec h : ptr (block (option list_binary)) * K * heap :=
  let '(p, h) := erpc_malloc sizeof_list_binary_1_t (Some (mkList None 0) : option list_binary) h in
  match p with
  | At _ => (p, codec, h)
  | _ => (p, updateStatus kErpcStatus_MemoryError codec, h)
  end.

(** What the list's pointer leads to. *)
Definition pointee (p : ptr (block (option list_binary))) : option list_binary :=
  match p with At b => contents b | _ => None end.

(** The frees at the end of the shim, for one list. *)
Definition dispose (p : ptr (block (option list_binary))) (l : option list_binary) h : option heap :=
  match p with
  | At b => l ← l; h ← free_list_binary_1_t_struct l h; Some (erpc_free (block_id b) h)
  | _ => Some h
  end.

(** The served call and its reply. *)
Definition serve_psa_call (handle t : option Z) codec (sequence : Z)
    (erpc_in_vec erpc_out_vec : option list_binary) w : option (Z * option list_binary * K * W) :=
  let err := getStatus codec in
  if negb (err =? kErpcStatus_Success) then Some (err, erpc_out_vec, codec, w)
  else
    handle ← handle;
    t ← t;
    '((result, erpc_out_vec), w) ← nested (erpc_psa_call handle t erpc_in_vec erpc_out_vec) w;
    let '(err, codec, w) := prepareServerBufferForSend codec w in
    if negb (err =? kErpcStatus_Success) then Some (err, erpc_out_vec, codec, w)
    else
      let codec := begin_reply kpsa_client_api_erpc_psa_call_id sequence codec in
      codec ← write_list_binary_1_t_struct codec erpc_out_vec;
      let codec := write_i32 result codec in
      Some (getStatus codec, erpc_out_vec, codec, w).

Definition erpc_psa_call_shim codec (sequence : Z) h w : option (Z * K * heap * W) :=
  let '(in_p, codec, h) := malloc_list codec h in
  let '(out_p, codec, h) := malloc_list codec h in
  let '(handle, codec) := read_i32 codec in
  let '(t, codec) := read_i32 codec in
  '(erpc_in_vec, codec, h) ← read_list_binary_1_t_struct codec (pointee in_p) h;
  '(erpc_out_vec, codec, h) ← read_list_binary_1_t_struct codec (pointee out_p) h;
  '(err, erpc_out_vec, codec, w) ← serve_psa_call handle t codec sequence erpc_in_vec erpc_out_vec w;
  h ← dispose in_p erpc_in_vec h;
  h ← dispose out_p erpc_out_vec h;
  Some (err, codec, h, w).

Definition psa_connect_shim codec (sequence : Z) w : option (Z * K * W) :=
  let '(sid, codec) := read_u32 codec in
  let '(ver, codec) := read_u32 codec in
  let err := getStatus codec in
  if negb (err =? kErpcStatus_Success) then Some (err, codec, w)
  else
    sid ← sid;
    ver ← ver;
    '(result, w) ← nested (fun w => Some (tfm_psa_connect sid ver w)) w;
    let '(err, codec, w) := prepareServerBufferForSend codec w in
    if negb (err =? kErpcStatus_Success) then Some (err, codec, w)
    else
      let codec := begin_reply kpsa_client_api_psa_connect_id sequence codec in
      let codec := write_i32 result codec in
      Some (getStatus codec, codec, w).

Definition psa_close_shim codec (sequence : Z) w : option (Z * K * W) :=
  let '(handle, codec) := read_i32 codec in
  let err := getStatus codec in
  if negb (err =? kErpcStatus_Success) then Some (err, codec, w)
  else
    handle ← handle;
    '(_, w) ← nested (fun w => Some (tt, tfm_psa_close handle w)) w;
    let '(err, codec, w) := prepareServerBufferForSend codec w in
    if negb (err =? kErpcStatus_Success) then Some (err, codec, w)
    else
      let codec := begin_reply kpsa_client_api_psa_close_id sequence codec in
      Some (getStatus codec, codec, w).

Definition handleInvocation (methodId sequence : Z) codec h w : option (Z * K * heap * W) :=
  let no_heap r := '(err, codec, w) ← (r : option (Z * K * W)); Some (err, codec, h, w) in
  if methodId =? kpsa_client_api_psa_framework_version_id
  then no_heap (psa_framework_version_shim codec sequence w)
  else if methodId =? kpsa_client_api_psa_version_id then no_heap (psa_version_shim codec sequence w)
  else if methodId =? kpsa_client_api_erpc_psa_call_id then erpc_psa_call_shim codec sequence h w
  else if methodId =? kpsa_client_api_psa_connect_id then no_heap (psa_connect_shim codec sequence w)
  else if methodId =? kpsa_client_api_psa_close_id then no_heap (psa_close_shim codec sequence w)
  else Some (kErpcStatus_InvalidArgument, codec, h, w).
End server.
