(* ===== verification/ErpcRef.v ===== *)
(** * An eRPC library that meets the laws of [Erpc]

    A codec whose messages are lists of items, an allocator that never fails, a
    service that echoes its inputs: the laws can hold, and the theorems about
    the shims have concrete instances. *)

From S2P Require Import Prelude Erpc ErpcServer.
Local Open Scope Z_scope.

#[export] Instance ref_erpc_consts : ErpcConsts := {
  kErpcStatus_Success := 0; kErpcStatus_MemoryError := 4; kErpcStatus_InvalidArgument := 2;
  kInvocationMessage := 0; kReplyMessage := 2;
  ERPC_PRE_POST_ACTION := false; ERPC_NESTED_CALLS_DETECTION := false;
}.

#[export] Instance ref_erpc_consts_laws : ErpcConstsLaws.
Proof. split. by apply (bool_decide_unpack _). Qed.

#[export] Instance ref_client_consts : PsaClientConsts := {
  PSA_SUCCESS := 0; PSA_ERROR_PROGRAMMER_ERROR := -129; PSA_MAX_IOVEC := 4;
}.

#[export] Instance ref_client_consts_laws : PsaClientConstsLaws.
Proof. by split. Qed.

#[export] Instance ref_abi : Abi := { size_bits := 32; sizeof_binary_t := 8 }.

#[export] Instance ref_abi_laws : AbiLaws.
Proof. split. by left. Qed.

#[export] Instance ref_malloc : Malloc := fun _ _ => true.

(** ** The codec *)

Record ref_codec := mkCodec { c_status : Z; c_out : list item; c_in : list item }.

(** kErpcStatus_BufferOverrun *)
Definition overrun : Z := 5.
Definition capacity : nat := 64.

Definition ref_write (x : item) (c : ref_codec) : ref_codec :=
  if negb (c_status c =? 0) then c
  else if decide (length (c_out c) < capacity)%nat
  then mkCodec 0 (c_out c ++ [x]) (c_in c)
  else mkCodec overrun (c_out c) (c_in c).

Definition ref_read {A} (f : item -> option A) (c : ref_codec) : option A * ref_codec :=
  if negb (c_status c =? 0) then (None, c)
  else match c_in c with
       | x :: rest => match f x with
                      | Some a => (Some a, mkCodec 0 (c_out c) rest)
                      | None => (None, mkCodec overrun (c_out c) rest)
                      end
       | [] => (None, mkCodec overrun (c_out c) [])
       end.

#[export] Instance ref_codec_codec : Codec ref_codec := {
  getStatus := c_status;
  updateStatus e c := if c_status c =? 0 then mkCodec e (c_out c) (c_in c) else c;
  codec_reset c := mkCodec 0 [] (c_in c);
  startWriteMessage t s r n := ref_write (IMessage t s r n);
  write_u32 z := ref_write (IU32 (wrapu 32 z));
  write_i32 z := ref_write (II32 (wraps 32 z));
  writeBinary n bs := ref_write (IBinary bs);
  startWriteList n := ref_write (ICount n);
  read_u32 := ref_read (fun x => match x with IU32 z => Some z | _ => None end);
  read_i32 := ref_read (fun x => match x with II32 z => Some z | _ => None end);
  readBinary c :=
    match ref_read (fun x => match x with IBinary bs => Some bs | _ => None end) c with
    | (Some bs, c) => ((Z.of_nat (length bs), Some bs), c)
    | (None, c) => ((0, None), c)
    end;
  startReadList c :=
    match ref_read (fun x => match x with
                             | ICount n => if (0 <=? n) && (n <? 2 ^ 32) then Some n else None
                             | _ => None
                             end) c with
    | (Some n, c) => (n, c)
    | (None, c) => (0, c)
    end;
}.

Lemma ref_write_ok c x :
  c_status c = 0 -> (length (c_out c ++ [x]) <= capacity)%nat ->
  c_status (ref_write x c) = 0 /\ c_out (ref_write x c) = c_out c ++ [x].
Proof.
  intros Hs Hf. unfold ref_write. rewrite Hs. cbn [negb Z.eqb]. rewrite length_app in Hf. simpl in Hf.
  by rewrite decide_True by lia.
Qed.

Lemma ref_write_kept c x : c_status c <> 0 -> c_status (ref_write x c) = c_status c.
Proof. intros Hs. unfold ref_write. by rewrite (proj2 (Z.eqb_neq _ _) Hs). Qed.

#[export] Program Instance ref_codec_laws : CodecLaws ref_codec := {
  written := c_out;
  remaining := c_in;
  fits its := (length its <= capacity)%nat;
}.
Next Obligation. intros its its' H. cbn in *. rewrite length_app in H. lia. Qed.
Next Obligation. done. Qed.
Next Obligation. intros c e He. cbn. destruct (Z.eqb_spec (c_status c) 0); done. Qed.
Next Obligation. intros c Hs ok. unfold ok. split_and!; intros; by apply ref_write_ok. Qed.
Next Obligation. intros c Hs kept. unfold kept. split_and!; intros; by apply ref_write_kept. Qed.
Next Obligation. intros c z its Hs Hr. cbn in *. unfold ref_read. rewrite Hs, Hr. by eexists. Qed.
Next Obligation. intros c z its Hs Hr. cbn in *. unfold ref_read. rewrite Hs, Hr. by eexists. Qed.
Next Obligation. intros c bs its Hs Hr. cbn in *. unfold ref_read. rewrite Hs, Hr. by eexists. Qed.
Next Obligation.
  intros c n its Hn Hs Hr. cbn in *. unfold ref_read. rewrite Hs, Hr.
  rewrite (proj2 (Z.leb_le _ _)), (proj2 (Z.ltb_lt _ _)) by lia. by eexists.
Qed.

Lemma ref_read_none {A} (f : item -> option A) c :
  (ref_read f c).1 = None -> c_status (ref_read f c).2 <> 0.
Proof.
  unfold ref_read. destruct (Z.eqb_spec (c_status c) 0); [|done]. destruct (c_in c) as [|x rest]; [done|].
  by destruct (f x).
Qed.

Lemma ref_read_error {A} (f : item -> option A) c : c_status c <> 0 -> ref_read f c = (None, c).
Proof. intros Hs. unfold ref_read. by rewrite (proj2 (Z.eqb_neq _ _) Hs). Qed.

#[export] Instance ref_codec_read_laws : CodecReadLaws ref_codec.
Proof.
  split.
  - intros c. split; apply ref_read_none.
  - intros c Hs. cbn in *. by rewrite !ref_read_error.
  - intros c. cbn. destruct (ref_read _ c) as [[bs|] c']; done.
  - intros c. cbn. unfold ref_read. destruct (negb _); [done|]. destruct (c_in c) as [|x rest]; [done|].
    destruct x as [| | | |n]; try done. destruct (Z.leb_spec 0 n), (Z.ltb_spec n (2 ^ 32)); cbn [andb fst]; done || lia.
Qed.

(** ** The service *)

(** Its world counts the calls. *)
#[export] Instance ref_factory : MessageBufferFactory ref_codec Z := {
  prepareServerBufferForSend c w := (0, c, w);
  set_nestingDetection b w := w;
}.

(** The output of a vector: as much of [src] as it has room for. *)
Definition echo (src : list Z) (v : psa_vec (option (list Z))) : psa_vec (option (list Z)) :=
  match base v with
  | Some bs => let n := Nat.min (length src) (length bs) in
      mkVec (Some (take n src ++ drop n bs)) (Z.of_nat n)
  | None => mkVec None 0
  end.

#[export] Instance ref_psa : PsaClientApi Z := {
  tfm_psa_framework_version w := (257, w + 1);
  tfm_psa_version sid w := (1, w + 1);
  tfm_psa_call h t ins outs w :=
    ((if h =? 7 then 0 else -129, echo (concat (default [] ∘ base <$> ins)) <$> outs), w + 1);
  tfm_psa_connect sid ver w := (7, w + 1);
  tfm_psa_close h w := w + 1;
}.

#[export] Instance ref_psa_laws : PsaClientApiLaws Z.
Proof.
  split; try done.
  - intros h t ins outs w. cbn. destruct (h =? 7); done.
  - intros h t ins outs w. cbn. by rewrite length_fmap.
  - intros h t ins outs w. cbn. set (src := concat _). clearbody src. unfold vecs_of.
    rewrite Forall2_fmap_r. apply Forall2_fmap_l. apply Forall2_fmap_r. apply Forall_Forall2_diag, Forall_forall. intros bs _.
    unfold same_room, echo. cbn. rewrite length_app, length_take, length_drop. split; [f_equal; lia | lia].
Qed.
