(* ===== verification/ErpcServerProofs.v ===== *)
(** * Theorems about the server shims *)

From S2P Require Import Prelude Erpc ErpcServer ErpcRef.
Local Open Scope Z_scope.

(** ** Ownership of the heap *)

(** The blocks of one element, and of a list: those of its elements and the
    array. *)
Definition binary_ids (b : binary) : list nat :=
  match Erpc.data b with At bl => [block_id bl] | _ => [] end.

Definition array_ids (p : option (block (list binary))) : list nat :=
  match p with Some b => [block_id b] | None => [] end.

Definition list_ids (l : list_binary) : list nat :=
  concat (binary_ids <$> take (Z.to_nat (elementsCount l)) (default [] (array_of (elements l)))) ++
  array_ids (elements l).

(** Each block given out once, and numbered by its request. *)
Definition heap_wf (h : heap) : Prop :=
  NoDup (allocated h) /\ Forall (fun n => (n < requests h)%nat) (allocated h).

(** From [h] to [h'] exactly the blocks [ids] were given out. *)
Definition gives_out (ids : list nat) (h h' : heap) : Prop :=
  allocated h' ≡ₚ ids ++ allocated h /\ freed h' = freed h /\ (heap_wf h -> heap_wf h').

Lemma gives_out_trans ids ids' h h' h'' :
  gives_out ids h h' -> gives_out ids' h' h'' -> gives_out (ids ++ ids') h h''.
Proof.
  intros (Ha & Hf & Hw) (Ha' & Hf' & Hw'). split_and!; [|congruence|auto].
  rewrite Ha', Ha, app_assoc. by rewrite (Permutation_app_comm ids').
Qed.

Lemma gives_out_none h : gives_out [] h h.
Proof. by split_and!. Qed.

(** From [h] to [h'] exactly the blocks [ids] were given back. *)
Definition gives_back (ids : list nat) (h h' : heap) : Prop :=
  freed h' ≡ₚ ids ++ freed h /\ allocated h' = allocated h /\ requests h' = requests h.

Lemma gives_back_trans ids ids' h h' h'' :
  gives_back ids h h' -> gives_back ids' h' h'' -> gives_back (ids ++ ids') h h''.
Proof.
  intros (Hf & Ha & Hr) (Hf' & Ha' & Hr'). split_and!; [|congruence..].
  rewrite Hf', Hf, app_assoc. by rewrite (Permutation_app_comm ids').
Qed.

Lemma gives_back_none h : gives_back [] h h.
Proof. by split_and!. Qed.

Lemma gives_back_one id h : gives_back [id] h (erpc_free id h).
Proof. by split_and!. Qed.

Section ownership.
  Context {EC : ErpcConsts} {PC : PsaClientConsts} {AB : Abi} {MA : Malloc}.
  Context {K W : Type} {CD : Codec K} {MF : MessageBufferFactory K W} {PA : PsaClientApi W}.

Lemma erpc_malloc_gives {A} size (a : A) h :
  match erpc_malloc size a h with
  | (At b, h') => gives_out [block_id b] h h' /\ contents b = a
  | (Null, h') => gives_out [] h h'
  | (Wild, _) => False
  end.
Proof.
  unfold erpc_malloc. destruct (malloc_ok _ _); cbn.
  - split; [|done]. split_and!; [done..|]. intros [Hn Hf]. split; cbn.
    + constructor; [|done]. intros Hin. rewrite Forall_forall in Hf. specialize (Hf _ Hin). lia.
    + constructor; [lia|]. eapply Forall_impl; [exact Hf | cbn; lia].
  - split_and!; [done..|]. intros [Hn Hf]. split; [done|]. eapply Forall_impl; [exact Hf | cbn; lia].
Qed.

Lemma read_binary_gives (c : K) data h d c' h' :
  read_binary_t_struct c data h = Some (d, c', h') ->
  (d = None <-> data = None) /\ gives_out (default [] (binary_ids <$> d)) h h'.
Proof.
  unfold read_binary_t_struct. destruct data as [d0|].
  2: { intros [= <- <- <-]. split; [done | apply gives_out_none]. }
  destruct (readBinary c) as [[n dl] c1].
  pose proof (erpc_malloc_gives (wrapu size_bits (n * 1)) (replicate (Z.to_nat n) 0) h) as Hm.
  destruct (erpc_malloc _ _ h) as [[|b|] h1]; [|intros [= <- <- <-]; split; [done | by apply Hm]|done].
  destruct (0 <? n); intros [= <- <- <-]; done.
Qed.

(** The elements from [i] on are read, the others kept. *)
Lemma read_elements_gives fuel : forall i (c : K) b n h l c' h',
  (i <= length (contents b))%nat ->
  read_elements fuel i c (mkList (Some b) n) h = Some (l, c', h') ->
  exists b', l = mkList (Some b') n /\ block_id b' = block_id b /\
    length (contents b') = length (contents b) /\ take i (contents b') = take i (contents b) /\
    gives_out (concat (binary_ids <$> drop i (take (Z.to_nat n) (contents b')))) h h'.
Proof.
  induction fuel as [|fuel IH]; intros i c b n h l c' h' Hi; [done|]. cbn [read_elements elementsCount].
  destruct (Z.ltb_spec (Z.of_nat i) n) as [Hin|Hin].
  2: { intros [= <- <- <-]. exists b. split_and!; try done.
       rewrite drop_ge by (rewrite length_take; lia). apply gives_out_none. }
  unfold element_ptr. cbn [array_of fmap option_fmap option_map elements].
  destruct (contents b !! i) as [d0|] eqn:Hd0; cbn [fmap option_fmap option_map mbind option_bind]; [|done].
  destruct (read_binary_t_struct c (Some d0) h) as [[[d c1] h1]|] eqn:Hr; [|done].
  cbn [mbind option_bind]. apply read_binary_gives in Hr as [Hd Hg1].
  destruct d as [d|]; [|discriminate (proj1 Hd eq_refl)]. cbn [element_store].
  intros H. apply lookup_lt_Some in Hd0.
  apply IH in H as (b' & -> & Hid & Hlen & Htake & Hg); [|cbn; rewrite length_insert; lia].
  cbn [contents block_id] in *. rewrite length_insert in Hlen. exists b'.
  assert (contents b' !! i = Some d) as Hb'.
  { rewrite <- (lookup_take_lt _ (S i)), Htake, lookup_take_lt by lia. by apply list_lookup_insert_eq. }
  split_and!; try done.
  - apply (f_equal (take i)) in Htake. rewrite !take_take, Nat.min_l in Htake by lia.
    by rewrite Htake, take_insert_ge by lia.
  - rewrite (drop_S _ d i) by (rewrite lookup_take_lt by lia; done).
    cbn [fmap list_fmap concat]. exact (gives_out_trans _ _ _ _ _ Hg1 Hg).
Qed.

Lemma read_list_gives (c : K) data h l c' h' :
  read_list_binary_1_t_struct c data h = Some (l, c', h') ->
  (data = None /\ l = None /\ h' = h) \/ (data <> None /\ exists l', l = Some l' /\ gives_out (list_ids l') h h').
Proof.
  unfold read_list_binary_1_t_struct. destruct data as [l0|]; [|intros [= <- <- <-]; by left].
  destruct (startReadList c) as [n c1]. intros H. right. split; [done|]. revert H.
  generalize (replicate (Z.to_nat (wrapu size_bits (n * sizeof_binary_t) / sizeof_binary_t)) (@uninit_binary buffer)).
  intros arr.
  pose proof (erpc_malloc_gives (wrapu size_bits (n * sizeof_binary_t)) arr h) as Hm.
  destruct (erpc_malloc _ arr h) as [[|b|] h1]; [| |done].
  - cbn [array_of fmap option_fmap option_map element_fuel default length Nat.add].
    intros H. assert (exists c2, l = Some (mkList None n) /\ h' = h1 /\ c2 = c') as (? & -> & -> & _).
    { revert H. generalize (if 0 <? n then updateStatus kErpcStatus_MemoryError c1 else c1). intros c2.
      change (2 + 0)%nat with 2%nat. cbn [read_elements elements elementsCount array_of fmap option_fmap option_map].
      case_Z; [|intros [= <- <- <-]; by eexists].
      cbn. case_Z; [done | intros [= <- <- <-]; by eexists]. }
    eexists. split; [done|]. unfold list_ids. cbn. by rewrite take_nil.
  - destruct Hm as [Hm Hc]. cbn [array_of fmap option_fmap option_map].
    destruct (read_elements _ 0 c1 _ h1) as [[[l1 c2] h2]|] eqn:Hr; [|done]. cbn [mbind option_bind].
    intros [= <- <- <-]. apply read_elements_gives in Hr as (b' & -> & Hid & _ & _ & Hg); [|lia].
    eexists. split; [done|]. unfold list_ids. cbn. rewrite Hid. rewrite drop_0 in Hg.
    pose proof (gives_out_trans _ _ _ _ _ Hm Hg) as (Ha & Hf & Hw). split_and!; [|done..].
    rewrite Ha. by rewrite (Permutation_app_comm [_]).
Qed.

Lemma free_binary_gives data h h' :
  free_binary_t_struct data h = Some h' ->
  exists d, data = Some d /\ gives_back (binary_ids d) h h'.
Proof.
  unfold free_binary_t_struct, binary_ids. destruct data as [d|]; [|done]. cbn [mbind option_bind].
  destruct (Erpc.data d) eqn:Hd; intros [= <-]; exists d; (split; [done|]); rewrite Hd; [apply gives_back_none | apply gives_back_one].
Qed.

Lemma free_elements_gives fuel : forall i b n h h',
  free_elements fuel i (mkList (Some b) n) h = Some h' ->
  gives_back (concat (binary_ids <$> drop i (take (Z.to_nat n) (contents b)))) h h'.
Proof.
  induction fuel as [|fuel IH]; intros i b n h h'; [done|]. cbn [free_elements elementsCount elements].
  destruct (Z.ltb_spec (Z.of_nat i) n) as [Hin|Hin].
  2: { intros [= <-]. rewrite drop_ge by (rewrite length_take; lia). apply gives_back_none. }
  unfold element_ptr. cbn [array_of fmap option_fmap option_map].
  destruct (contents b !! i) as [d0|] eqn:Hd0; cbn [fmap option_fmap option_map mbind option_bind]; [|done].
  destruct (free_binary_t_struct (Some d0) h) as [h1|] eqn:Hf; [|done]. cbn [mbind option_bind]. intros H.
  apply free_binary_gives in Hf as (? & [= <-] & Hg1). apply IH in H.
  rewrite (drop_S _ d0 i) by (rewrite lookup_take_lt by lia; done).
  exact (gives_back_trans _ _ _ _ _ Hg1 H).
Qed.

Lemma free_list_gives l h h' :
  free_list_binary_1_t_struct l h = Some h' -> gives_back (list_ids l) h h'.
Proof.
  unfold free_list_binary_1_t_struct, list_ids. destruct l as [[b|] n]; cbn [elements elementsCount].
  - destruct (free_elements _ _ _ _) as [h1|] eqn:Hf; [|done]. cbn [mbind option_bind]. intros [= <-].
    apply free_elements_gives in Hf. rewrite drop_0 in Hf.
    exact (gives_back_trans _ _ _ _ _ Hf (gives_back_one _ _)).
  - destruct (free_elements _ _ _ _) as [h1|] eqn:Hf; [|done]. cbn [mbind option_bind]. intros [= <-].
    change (element_fuel (array_of None)) with 2%nat in Hf. revert Hf.
    cbn [free_elements elements elementsCount array_of fmap option_fmap option_map].
    destruct (Z.of_nat 0 <? n); [done|]. intros [= <-]. cbn. rewrite take_nil. apply gives_back_none.
Qed.

(** ** The served call *)

Lemma result_ids b v : binary_ids (binary_of_result b v) = binary_ids b.
Proof. unfold binary_ids, binary_of_result. cbn. by destruct (Erpc.data b), (base v). Qed.

Lemma zip_result_ids n bs outs :
  length outs = n -> (n <= length bs)%nat ->
  binary_ids <$> take n (zip_with binary_of_result bs outs) = binary_ids <$> take n bs.
Proof.
  intros <-. revert bs. induction outs as [|v outs IH]; intros [|b bs] Hn; simpl in *; try (done || lia).
  rewrite result_ids. f_equal. apply IH. lia.
Qed.

Context {PAL : PsaClientApiLaws W}.

(** The loop that fills a local array has room for every element. *)
Lemma copy_vecs_bound {A B} (f : A -> B) fuel : forall i n src dst r,
  copy_vecs f fuel i n src dst = Some r -> (i <= length dst)%nat ->
  (Z.to_nat n <= length dst \/ Z.to_nat n <= i)%nat /\ length r = length dst /\
  (Z.to_nat n <= length src \/ Z.to_nat n <= i)%nat.
Proof.
  induction fuel as [|fuel IH]; intros i n src dst r; [done|]. cbn [copy_vecs].
  destruct (Z.ltb_spec (Z.of_nat i) n); [|intros [= <-] ?; split_and!; lia].
  destruct (src !! i) as [a|] eqn:Ha; cbn [mbind option_bind]; [|done].
  case_decide; [|done]. intros Hr Hi. apply lookup_lt_Some in Ha.
  apply IH in Hr; rewrite length_insert in *; lia.
Qed.

Lemma vec_array_length : length vec_array = Z.to_nat PSA_MAX_IOVEC.
Proof. apply length_replicate. Qed.

(** The call keeps the blocks of the output list; the input list is only
    read. *)
Lemma erpc_psa_call_ids handle t il ol w r l' w' :
  erpc_psa_call handle t (Some il) (Some ol) w = Some (r, l', w') ->
  exists ol', l' = Some ol' /\ list_ids ol' = list_ids ol.
Proof.
  unfold erpc_psa_call. cbn [mbind option_bind].
  destruct (copy_vecs _ _ _ (elementsCount il) _ _) as [iv|]; [|done]. cbn [mbind option_bind].
  destruct (copy_vecs _ _ _ (elementsCount ol) _ _) as [ov|] eqn:Ho; [|done]. cbn [mbind option_bind].
  pose proof (law_call_length handle t (bytes_at <$> take (Z.to_nat (elementsCount il)) iv)
    (bytes_at <$> take (Z.to_nat (elementsCount ol)) ov) w) as Hl.
  destruct (tfm_psa_call _ _ _ _ w) as [[status outs] w1]. intros [= <- <- <-].
  eexists. split; [done|]. unfold list_ids. cbn [elements elementsCount].
  cbn [fst snd] in Hl. rewrite length_fmap, length_take in Hl.
  apply copy_vecs_bound in Ho as (Hd & Hr & Hs); [|lia].
  destruct (elements ol) as [b|]; [|done]. cbn in *. f_equal. f_equal. apply zip_result_ids; lia.
Qed.

Lemma serve_ids handle t (c : K) seq il ol w err l' c' w' :
  serve_psa_call handle t c seq il ol w = Some (err, l', c', w') ->
  (exists ol0 ol', ol = Some ol0 /\ l' = Some ol' /\ list_ids ol' = list_ids ol0) \/ l' = ol.
Proof.
  unfold serve_psa_call. destruct (negb _); [intros [= <- <- <- <-]; by right|].
  destruct handle as [handle|]; [|done]. destruct t as [t|]; [|done]. cbn [mbind option_bind].
  unfold nested.
  destruct il as [il|]; [|done]. destruct ol as [ol|]; [|done].
  destruct (erpc_psa_call handle t (Some il) (Some ol) _) as [[[r l1] w1]|] eqn:Hcall; [|done].
  apply erpc_psa_call_ids in Hcall as (ol' & -> & Hids). cbn [mbind option_bind].
  intros H. left. exists ol, ol'. split_and!; [done| |done]. revert H.
  destruct (prepareServerBufferForSend c _) as [[e c1] w2].
  destruct (negb _); [by intros [= <- <- <- <-]|].
  destruct (write_list_binary_1_t_struct _ _); [|done]. cbn [mbind option_bind]. by intros [= <- <- <- <-].
Qed.

(** ** The shim *)

Lemma malloc_list_gives (c : K) h p c' h' :
  malloc_list c h = (p, c', h') ->
  match p with
  | At b => gives_out [block_id b] h h' /\ pointee p <> None
  | _ => gives_out [] h h' /\ pointee p = None
  end.
Proof.
  unfold malloc_list.
  pose proof (erpc_malloc_gives sizeof_list_binary_1_t (Some (mkList None 0) : option list_binary) h) as Hm.
  destruct (erpc_malloc _ _ h) as [[|b|] h1]; [| |done]; intros [= <- <- <-]; [done|].
  destruct Hm as [Hm Hc]. split; [done|]. cbn. by rewrite Hc.
Qed.

(** The blocks that [dispose] gives back for a list. *)
Definition owned (p : ptr (block (option list_binary))) (l : option list_binary) : list nat :=
  match p with
  | At b => default [] (list_ids <$> l) ++ [block_id b]
  | _ => []
  end.

Lemma dispose_gives p l h h' : dispose p l h = Some h' -> gives_back (owned p l) h h'.
Proof.
  unfold dispose, owned. destruct p as [|b|]; [intros [= <-]; apply gives_back_none| |
    intros [= <-]; apply gives_back_none].
  destruct l as [l|]; [|done]. cbn [mbind option_bind default fmap option_fmap option_map].
  destruct (free_list_binary_1_t_struct l h) as [h1|] eqn:Hf; [|done]. cbn [mbind option_bind].
  intros [= <-]. apply free_list_gives in Hf. exact (gives_back_trans _ _ _ _ _ Hf (gives_back_one _ _)).
Qed.

(** The list's own block, then what it was filled with. *)
Lemma read_after_malloc (c : K) h p c1 h1 (c2 : K) h2 l c3 h3 :
  malloc_list c h = (p, c1, h1) -> read_list_binary_1_t_struct c2 (pointee p) h2 = Some (l, c3, h3) ->
  exists own ids, gives_out own h h1 /\ gives_out ids h2 h3 /\ owned p l ≡ₚ own ++ ids.
Proof.
  intros Hm%malloc_list_gives Hr%read_list_gives. destruct Hr as [(Hp & -> & ->)|(Hp & l' & -> & Hg)].
  - exists [], []. destruct p as [|b|]; destruct Hm as [Hm ?]; try done; by split_and!.
  - destruct p as [|b|]; destruct Hm as [Hm ?]; try done. exists [block_id b], (list_ids l').
    split_and!; try done. apply Permutation_app_comm.
Qed.

Lemma shim_heap (c : K) seq h w err c' h' w' :
  erpc_psa_call_shim c seq h w = Some (err, c', h', w') ->
  exists ids, allocated h' ≡ₚ ids ++ allocated h /\ freed h' ≡ₚ ids ++ freed h /\
    (heap_wf h -> heap_wf h').
Proof.
  unfold erpc_psa_call_shim.
  destruct (malloc_list c h) as [[ip c1] h1] eqn:Hi. destruct (malloc_list c1 h1) as [[op c2] h2] eqn:Ho.
  destruct (read_i32 c2) as [handle c3]. destruct (read_i32 c3) as [t c4].
  destruct (read_list_binary_1_t_struct c4 _ h2) as [[[il c5] h3]|] eqn:Hri; [|done]. cbn [mbind option_bind].
  destruct (read_list_binary_1_t_struct c5 _ h3) as [[[ol c6] h4]|] eqn:Hro; [|done]. cbn [mbind option_bind].
  destruct (serve_psa_call _ _ _ _ _ _ _) as [[[[e ol'] c7] w1]|] eqn:Hs; [|done]. cbn [mbind option_bind].
  destruct (dispose ip il h4) as [h5|] eqn:Hdi; [|done]. cbn [mbind option_bind].
  destruct (dispose op ol' h5) as [h6|] eqn:Hdo; [|done]. cbn [mbind option_bind]. intros [= <- <- <- <-].
  destruct (read_after_malloc _ _ _ _ _ _ _ _ _ _ Hi Hri) as (own_i & ids_i & Gi1 & Gi2 & Pi).
  destruct (read_after_malloc _ _ _ _ _ _ _ _ _ _ Ho Hro) as (own_o & ids_o & Go1 & Go2 & Po).
  assert (owned op ol' = owned op ol) as Hol.
  { unfold owned. destruct op; [done| |done]. by destruct (serve_ids _ _ _ _ _ _ _ _ _ _ _ Hs) as
      [(ol0 & ol1 & -> & -> & H)| ->]; [cbn; rewrite H|]. }
  apply dispose_gives in Hdi as (Fi & Ai & Ri), Hdo as (Fo & Ao & Ro).
  destruct (gives_out_trans _ _ _ _ _ (gives_out_trans _ _ _ _ _ (gives_out_trans _ _ _ _ _ Gi1 Go1) Gi2) Go2)
    as (A & F & Wf).
  exists (((own_i ++ own_o) ++ ids_i) ++ ids_o). rewrite Ao, Ai. split; [done|]. split.
  - rewrite Fo, Fi, Hol, Pi, Po, F. rewrite !app_assoc. apply Permutation_app_tail. solve_Permutation.
  - intros Hw. destruct (Wf Hw) as [Hn Hf]. split; [by rewrite Ao, Ai|]. by rewrite Ao, Ai, Ro, Ri.
Qed.
End ownership.

(** ** Requests that decode *)

(** An element that owns a copy of [bs], and a list of such elements. *)
Definition holds_bytes (bs : list Z) (e : binary) : Prop :=
  exists id, e = mkBinary (At (mkBlock id bs)) (Z.of_nat (length bs)).

Definition holds_list (bss : list (list Z)) (l : option list_binary) : Prop :=
  exists id es, l = Some (mkList (Some (mkBlock id es)) (Z.of_nat (length bss))) /\
    Forall2 holds_bytes bss es.

(** A factory that has a buffer for every reply. *)
Class FactoryLaws {EC : ErpcConsts} (K W : Type) {MF : MessageBufferFactory K W} := {
  law_prepare (c : K) (w : W) : exists c', prepareServerBufferForSend c w = (kErpcStatus_Success, c', w);
}.

Section decoding.
  Context {EC : ErpcConsts} {ECL : ErpcConstsLaws} {PC : PsaClientConsts} {AB : Abi} {ABL : AbiLaws}.
  Context {MA : Malloc} {K W : Type} {CD : Codec K} {CL : CodecLaws K} {CRL : CodecReadLaws K}.
  Context {MF : MessageBufferFactory K W} {PA : PsaClientApi W} {PAL : PsaClientApiLaws W}.
  Implicit Types (c : K) (h : heap) (w : W).

Lemma array_fits n :
  0 <= n -> n * sizeof_binary_t < 2 ^ size_bits ->
  wrapu size_bits (n * sizeof_binary_t) / sizeof_binary_t = n.
Proof.
  intros H0 Hn. assert (0 < sizeof_binary_t) by (destruct law_abi as [[_ ->]|[_ ->]]; lia).
  rewrite wrapu_small by nia. by rewrite Z.div_mul by lia.
Qed.

(** Otherwise the array has fewer elements than the list. *)
Lemma array_wraps n :
  2 ^ size_bits <= n * sizeof_binary_t -> wrapu size_bits (n * sizeof_binary_t) / sizeof_binary_t < n.
Proof.
  intros Hn. pose proof (wrapu_range size_bits (n * sizeof_binary_t)) as Hr.
  assert (0 < sizeof_binary_t /\ 0 <= size_bits) as [Hs Hb] by (destruct law_abi as [[-> ->]|[-> ->]]; lia).
  apply Z.div_lt_upper_bound; [done|]. specialize (Hr Hb). lia.
Qed.

Section no_shortage.
  Hypothesis (enough : forall n size, malloc_ok n size = true).

Lemma malloc_succeeds {A} size (a : A) h : exists id h', erpc_malloc size a h = (At (mkBlock id a), h').
Proof. unfold erpc_malloc. rewrite enough. by eexists _, _. Qed.

Lemma read_elements_exact id bss : forall pre junk fuel c h its,
  reads c ((IBinary <$> bss) ++ its) -> length junk = length bss -> (length bss < fuel)%nat ->
  exists es c' h',
    read_elements fuel (length pre) c
      (mkList (Some (mkBlock id (pre ++ junk))) (Z.of_nat (length pre + length bss))) h =
      Some (mkList (Some (mkBlock id (pre ++ es))) (Z.of_nat (length pre + length bss)), c', h') /\
    Forall2 holds_bytes bss es /\ reads c' its.
Proof.
  induction bss as [|bs bss IH]; intros pre [|j junk] [|fuel] c h its Hc Hj Hf; try (simpl in *; lia);
    cbn [read_elements elementsCount elements].
  - rewrite (proj2 (Z.ltb_ge _ _)) by (simpl; lia). exists [], c, h. split_and!; [done | constructor | done].
  - rewrite (proj2 (Z.ltb_lt _ _)) by (simpl; lia).
    unfold element_ptr. cbn [array_of fmap option_fmap option_map contents].
    rewrite list_lookup_middle by done. cbn [fmap option_fmap option_map mbind option_bind read_binary_t_struct].
    destruct (reads_binary _ _ _ Hc) as (c1 & -> & Hc1).
    destruct (malloc_succeeds (wrapu size_bits (Z.of_nat (length bs) * 1))
      (replicate (Z.to_nat (Z.of_nat (length bs))) 0) h) as (bid & h1 & ->).
    cbn [mbind option_bind element_store block_id default].
    set (e := mkBinary _ _).
    rewrite insert_app_cons. 
    destruct (IH (pre ++ [e]) junk fuel c1 h1 its Hc1 ltac:(simpl in *; lia) ltac:(simpl in *; lia))
      as (es & c' & h' & Hr & Hes & Hc'). rewrite length_app, <- !app_assoc in Hr. cbn [length app] in Hr.
    replace (S (length pre)) with (length pre + 1)%nat by lia.
    replace (length pre + length (bs :: bss))%nat with (length pre + 1 + length bss)%nat by (simpl; lia).
    rewrite Hr. exists (e :: es), c', h'. split_and!; [done | | done]. constructor; [by exists bid | done].
Qed.

Lemma read_list_exact c l0 h bss its :
  reads c (list_items bss ++ its) ->
  Z.of_nat (length bss) < 2 ^ 32 -> Z.of_nat (length bss) * sizeof_binary_t < 2 ^ size_bits ->
  exists l c' h', read_list_binary_1_t_struct c (Some l0) h = Some (l, c', h') /\
    holds_list bss l /\ reads c' its.
Proof.
  intros Hc H32 Hn. unfold read_list_binary_1_t_struct.
  destruct (reads_count _ _ _ (conj (Nat2Z.is_nonneg _) H32) Hc) as (c1 & -> & Hc1). rewrite array_fits by (done || lia).
  rewrite Nat2Z.id. destruct (malloc_succeeds (wrapu size_bits (Z.of_nat (length bss) * sizeof_binary_t))
    (replicate (length bss) (@uninit_binary buffer)) h) as (id & h1 & ->).
  destruct (read_elements_exact id bss [] (replicate (length bss) uninit_binary)
    (element_fuel (array_of (Some (mkBlock id (replicate (length bss) uninit_binary)))))
    c1 h1 its Hc1) as (es & c' & h' & Hr & Hes & Hc').
  - by rewrite length_replicate.
  - unfold element_fuel. cbn. rewrite length_replicate. lia.
  - cbn [length Nat.add app] in Hr. rewrite Hr. cbn [mbind option_bind].
    eexists _, c', h'. split; [done|]. split; [by exists id, es | done].
Qed.

Lemma malloc_list_succeeds c h : exists b h', malloc_list c h = (At b, c, h') /\ contents b <> None.
Proof.
  unfold malloc_list.
  destruct (malloc_succeeds sizeof_list_binary_1_t (Some (mkList None 0) : option list_binary) h) as (id & h' & ->).
  by eexists _, h'.
Qed.

(** ** The served call *)

Lemma holds_copied bss es :
  Forall2 holds_bytes bss es -> bytes_at <$> (vec_of_binary <$> es) = vecs_of bss.
Proof.
  unfold vecs_of. induction 1 as [|bs e bss es [id ->] _ IH]; [done|]. cbn. by rewrite IH.
Qed.

Lemma unpack_list bss id es :
  Forall2 holds_bytes bss es -> Z.of_nat (length bss) <= PSA_MAX_IOVEC ->
  exists v, copy_vecs vec_of_binary (S (Z.to_nat PSA_MAX_IOVEC)) 0 (Z.of_nat (length bss))
      (default [] (array_of (Some (mkBlock id es)))) vec_array = Some v /\
    bytes_at <$> take (Z.to_nat (Z.of_nat (length bss))) v = vecs_of bss.
Proof.
  intros Hes Hn. pose proof (Forall2_length _ _ _ Hes) as Hl.
  change (default [] (array_of (Some (mkBlock id es)))) with es. unfold vec_array. rewrite Hl, copy_into_array by lia. eexists. split; [done|].
  rewrite Nat2Z.id, take_app_le, take_ge by (rewrite length_fmap; lia). by apply holds_copied.
Qed.

(** A list whose elements hold the results [outs]. *)
Definition holds_results (outs : list (psa_vec (option (list Z)))) (l : option list_binary) : Prop :=
  exists id es, l = Some (mkList (Some (mkBlock id es)) (Z.of_nat (length outs))) /\
    Forall2 (fun v e => exists id bs, e = mkBinary (At (mkBlock id bs)) (len v) /\
      base v = Some bs /\ 0 <= len v <= Z.of_nat (length bs)) outs es.

Lemma erpc_psa_call_exact handle t il ol ins outs w :
  holds_list ins il -> holds_list outs ol -> Forall (fun bs => Z.of_nat (length bs) < 2 ^ 32) outs ->
  Z.of_nat (length ins) <= PSA_MAX_IOVEC -> Z.of_nat (length outs) <= PSA_MAX_IOVEC ->
  let '((status, outs'), w') := tfm_psa_call handle t (vecs_of ins) (vecs_of outs) w in
  exists ol', erpc_psa_call handle t il ol w = Some (status, ol', w') /\ holds_results outs' ol' /\
    length outs' = length outs.
Proof.
  intros (idi & es & -> & Hes) (ido & eso & -> & Heso) Hsz Hi Ho.
  unfold erpc_psa_call. cbn [mbind option_bind elements elementsCount].
  destruct (unpack_list _ idi _ Hes Hi) as (iv & -> & Hiv), (unpack_list _ ido _ Heso Ho) as (ov & -> & Hov).
  cbn [mbind option_bind]. rewrite Hiv, Hov.
  pose proof (law_call_outs handle t ins outs w) as Hl.
  destruct (tfm_psa_call _ _ _ _ w) as [[status outs'] w']. cbn [fst snd] in Hl.
  pose proof (Forall2_length _ _ _ Hl) as Hlen. unfold vecs_of in Hlen. rewrite length_fmap in Hlen.
  eexists. split; [done|]. split; [|done]. exists ido. eexists.
  rewrite Hlen. split; [done|]. cbn [contents]. clear -Heso Hl Hsz. unfold vecs_of in Hl.
  revert outs' Hl Hsz. induction Heso as [|bs e bss es [id ->] _ IH]; intros outs' Hl Hsz; cbn in *.
  - apply Forall2_nil_inv_l in Hl as ->. constructor.
  - apply Forall2_cons_inv_l in Hl as (v & outs'' & [Hb Hlen] & Hl & ->).
    apply Forall_cons in Hsz as [Hbs Hsz]. cbn in *.
    constructor; [|by apply IH]. destruct (base v) as [bs'|] eqn:Hbv; [|done]. injection Hb as Hb.
    exists id, bs'. unfold binary_of_result. cbn [Erpc.data block_id]. rewrite Hbv, wrapu_small by lia.
    split_and!; [done..|lia|lia].
Qed.

(** ** The reply *)

Lemma write_elements_exact id outs es : forall pre fuel c its,
  Forall2 (fun v e => exists id bs, e = mkBinary (At (mkBlock id bs)) (len v) /\
    base v = Some bs /\ 0 <= len v <= Z.of_nat (length bs)) outs es ->
  wrote c its -> fits (its ++ (IBinary <$> (result_bytes <$> outs))) -> (length es < fuel)%nat ->
  exists c', write_elements fuel (length pre) c
      (mkList (Some (mkBlock id (pre ++ es))) (Z.of_nat (length pre + length es))) = Some c' /\
    wrote c' (its ++ (IBinary <$> (result_bytes <$> outs))).
Proof.
  intros pre fuel c its Hes. revert pre fuel c its.
  induction Hes as [|v e outs es (bid & bs & -> & Hbs & Hlen) _ IH]; intros pre [|fuel] c its Hc Hf Hl;
    try (simpl in *; lia); cbn [write_elements elementsCount elements].
  - rewrite (proj2 (Z.ltb_ge _ _)) by (simpl; lia). exists c. by rewrite app_nil_r.
  - rewrite (proj2 (Z.ltb_lt _ _)) by (simpl; lia).
    unfold element_ptr. cbn [array_of fmap option_fmap option_map contents].
    rewrite list_lookup_middle by done. cbn [fmap option_fmap option_map mbind option_bind write_binary_t_struct].
    assert (result_bytes v = take (Z.to_nat (len v)) bs) as Hrb by (unfold result_bytes; by rewrite Hbs).
    assert (exists c1, (if dataLength (mkBinary (At (mkBlock bid bs)) (len v)) =? 0
        then Some (writeBinary 0 [] c)
        else if len v <=? Z.of_nat (length bs)
          then Some (writeBinary (len v) (take (Z.to_nat (len v)) bs) c) else None) = Some c1 /\
      wrote c1 (its ++ [IBinary (result_bytes v)])) as (c1 & Hc1 & Hw1).
    { pose proof (fits_prefix _ _ _ Hf) as Hf1. cbn [dataLength]. rewrite Hrb in *. 
      destruct (Z.eqb_spec (len v) 0) as [Hz|Hz].
      - rewrite Hz in *. eexists. split; [done|]. by apply wrote_binary.
      - rewrite (proj2 (Z.leb_le _ _)) by lia. eexists. split; [done|]. apply wrote_binary; [done | | done].
        rewrite length_take. lia. }
    cbn [dataLength Erpc.data contents] in *. rewrite Hc1. cbn [mbind option_bind].
    destruct (IH (pre ++ [mkBinary (At (mkBlock bid bs)) (len v)]) fuel c1 (its ++ [IBinary (result_bytes v)]) Hw1)
      as (c' & Hr & Hw'); [by rewrite <- app_assoc | simpl in *; lia |].
    rewrite length_app, <- !app_assoc in Hr. cbn [length app] in Hr.
    replace (S (length pre)) with (length pre + 1)%nat by lia.
    replace (length pre + length (mkBinary (At (mkBlock bid bs)) (len v) :: es))%nat
      with (length pre + 1 + length es)%nat by (simpl; lia).
    rewrite Hr. exists c'. split; [done|]. by rewrite <- app_assoc in Hw'.
Qed.

Lemma write_list_exact c its outs l :
  holds_results outs l -> wrote c its -> fits (its ++ list_items (result_bytes <$> outs)) ->
  exists c', write_list_binary_1_t_struct c l = Some c' /\ wrote c' (its ++ list_items (result_bytes <$> outs)).
Proof.
  intros (id & es & -> & Hes) Hc Hf. pose proof (Forall2_length _ _ _ Hes) as Hlen.
  unfold write_list_binary_1_t_struct, list_items in *. cbn [elements elementsCount]. rewrite length_fmap in *.
  pose proof (wrote_count _ _ Hc _ (fits_prefix _ _ _ Hf)) as Hc1.
  destruct (write_elements_exact id outs es [] (element_fuel (array_of (Some (mkBlock id es))))
    _ _ Hes Hc1) as (c' & Hr & Hw).
  - by rewrite <- app_assoc.
  - unfold element_fuel. cbn. lia.
  - cbn [length Nat.add app] in Hr. rewrite <- Hlen in Hr. rewrite Hr. exists c'. split; [done|].
    by rewrite <- app_assoc in Hw.
Qed.

(** ** The end of the shim *)

(** Every pointer the frees follow is set. *)
Definition freeable (l : list_binary) : Prop :=
  exists b, elements l = Some b /\ (Z.to_nat (elementsCount l) <= length (contents b))%nat /\
    Forall (fun e => Erpc.data e <> Wild) (contents b).

Lemma free_elements_defined b n : forall k i h,
  (Z.to_nat n <= length (contents b))%nat -> Forall (fun e => Erpc.data e <> Wild) (contents b) ->
  (Z.to_nat n - i < k)%nat -> is_Some (free_elements k i (mkList (Some b) n) h).
Proof.
  induction k as [|k IH]; intros i h Hn Hw Hk; [lia|]. cbn [free_elements elementsCount elements].
  destruct (Z.ltb_spec (Z.of_nat i) n); [|by eexists].
  destruct (lookup_lt_is_Some_2 (contents b) i) as [e He]; [lia|].
  unfold element_ptr. cbn [array_of fmap option_fmap option_map]. rewrite He.
  cbn [fmap option_fmap option_map mbind option_bind free_binary_t_struct].
  rewrite Forall_lookup in Hw. specialize (Hw _ _ He) as Hne.
  destruct (Erpc.data e); [| |done]; cbn [mbind option_bind]; (apply IH; [done | by rewrite Forall_lookup | lia]).
Qed.

Lemma free_list_defined l h : freeable l -> is_Some (free_list_binary_1_t_struct l h).
Proof.
  intros (b & Hb & Hn & Hw). unfold free_list_binary_1_t_struct. destruct l as [p n]. cbn in Hb, Hn. subst p.
  destruct (free_elements_defined b n (element_fuel (array_of (Some b))) 0 h Hn Hw) as [h' Hh].
  - unfold element_fuel. cbn. lia.
  - cbn [elements]. rewrite Hh. by eexists.
Qed.

Lemma dispose_defined p l h :
  (forall l', l = Some l' -> freeable l') -> (l = None -> pointee p = None) ->
  (forall b, p = At b -> contents b <> None) -> is_Some (dispose p l h).
Proof.
  intros Hl Hp Hb. unfold dispose. destruct p as [|b|]; [by eexists| |by eexists].
  destruct l as [l|]; [|by destruct (Hb b eq_refl), (Hp eq_refl)]. cbn [mbind option_bind].
  destruct (free_list_defined l h (Hl l eq_refl)) as [h' ->]. by eexists.
Qed.

Lemma holds_list_freeable bss l : holds_list bss l -> forall l', l = Some l' -> freeable l'.
Proof.
  intros (id & es & -> & Hes) l' [= <-]. exists (mkBlock id es). split; [done|]. cbn.
  rewrite (Forall2_length _ _ _ Hes). split; [lia|].
  induction Hes as [|bs e bss es [? ->] _ IH]; constructor; [done | exact IH].
Qed.

Lemma holds_results_freeable outs l : holds_results outs l -> forall l', l = Some l' -> freeable l'.
Proof.
  intros (id & es & -> & Hes) l' [= <-]. exists (mkBlock id es). split; [done|]. cbn.
  rewrite (Forall2_length _ _ _ Hes). split; [lia|].
  induction Hes as [|v e outs es (? & ? & -> & _) _ IH]; constructor; [done | exact IH].
Qed.

Context {FL : FactoryLaws K W} {PCL : PsaClientConstsLaws}.

(** A reply starts from an empty message. *)
Lemma wrote_begin_reply id seq c :
  fits [IMessage kReplyMessage kpsa_client_api_service_id id seq] ->
  wrote (begin_reply id seq c) [IMessage kReplyMessage kpsa_client_api_service_id id seq].
Proof. intros Hf. destruct (law_reset c) as [Hs Hw]. by apply (wrote_message _ []). Qed.

Definition call_reply (seq : Z) (r : Z * list (psa_vec (option (list Z)))) : list item :=
  IMessage kReplyMessage kpsa_client_api_service_id kpsa_client_api_erpc_psa_call_id seq ::
    list_items (result_bytes <$> r.2) ++ [II32 r.1].

Lemma serve_exact handle t c seq il ol ins outs w :
  getStatus c = kErpcStatus_Success -> holds_list ins il -> holds_list outs ol ->
  Forall (fun bs => Z.of_nat (length bs) < 2 ^ 32) outs ->
  Z.of_nat (length ins) <= PSA_MAX_IOVEC -> Z.of_nat (length outs) <= PSA_MAX_IOVEC ->
  let '(r, w') := tfm_psa_call handle t (vecs_of ins) (vecs_of outs) (set_nesting (K := K) true w) in
  fits (call_reply seq r) ->
  exists ol' c', serve_psa_call (Some handle) (Some t) c seq il ol w =
      Some (kErpcStatus_Success, ol', c', set_nesting (K := K) false w') /\
    (forall l', ol' = Some l' -> freeable l') /\ ol' <> None /\ wrote c' (call_reply seq r).
Proof.
  intros Hs Hil Hol Hsz Hi Ho. unfold serve_psa_call. rewrite Hs, Z.eqb_refl. cbn [negb mbind option_bind].
  pose proof (erpc_psa_call_exact handle t il ol ins outs (set_nesting (K := K) true w) Hil Hol Hsz Hi Ho) as Hc.
  pose proof (law_status_range handle t (vecs_of ins) (vecs_of outs) (set_nesting (K := K) true w)) as Hr.
  destruct (tfm_psa_call _ _ _ _ _) as [[status outs'] w']. cbn [fst] in Hr.
  destruct Hc as (ol' & Hcall & Hres & Hlen). intros Hf. unfold nested. rewrite Hcall. cbn [mbind option_bind].
  destruct (law_prepare c (set_nesting (K := K) false w')) as [c1 ->]. rewrite Z.eqb_refl. cbn [negb].
  unfold call_reply in *. cbn [fst snd] in *.
  pose proof (wrote_begin_reply kpsa_client_api_erpc_psa_call_id seq c1 (law_fits_app [_] _ Hf)) as Hw.
  destruct (write_list_exact _ _ _ _ Hres Hw) as (c2 & -> & Hw2).
  { rewrite app_comm_cons in Hf. exact (law_fits_app _ _ Hf). }
  cbn [mbind option_bind].
  pose proof (wrote_i32 _ _ Hw2 status Hr Hf) as Hw3. eexists ol', _.
  destruct Hw3 as [Hs3 Hw3]. rewrite Hs3. split; [done|]. split; [by eapply holds_results_freeable|].
  split; [by destruct Hres as (? & ? & -> & _) | by split].
Qed.

Lemma shim_exact handle t c seq h ins outs w :
  reads c (II32 handle :: II32 t :: list_items ins ++ list_items outs) ->
  Forall (fun bs => Z.of_nat (length bs) < 2 ^ 32) outs ->
  Z.of_nat (length ins) <= PSA_MAX_IOVEC -> Z.of_nat (length outs) <= PSA_MAX_IOVEC ->
  let '(r, w') := tfm_psa_call handle t (vecs_of ins) (vecs_of outs) (set_nesting (K := K) true w) in
  fits (call_reply seq r) ->
  exists c' h', erpc_psa_call_shim c seq h w =
      Some (kErpcStatus_Success, c', h', set_nesting (K := K) false w') /\ wrote c' (call_reply seq r).
Proof.
  intros Hc Hsz Hi Ho. unfold erpc_psa_call_shim.
  assert (forall n, n <= PSA_MAX_IOVEC -> n * sizeof_binary_t < 2 ^ size_bits /\ n < 2 ^ 32) as Hroom.
  { intros n Hn. rewrite law_max_iovec in Hn. destruct law_abi as [[-> ->]|[-> ->]]; lia. }
  destruct (malloc_list_succeeds c h) as (ib & h1 & Hm1 & Hib). rewrite Hm1.
  destruct (malloc_list_succeeds c h1) as (ob & h2 & Hm2 & Hob). rewrite Hm2.
  destruct (reads_i32 _ _ _ Hc) as (c1 & -> & Hc1), (reads_i32 _ _ _ Hc1) as (c2 & -> & Hc2).
  cbn [pointee].
  destruct (contents ib) as [il0|] eqn:Eib; [|done]. destruct (contents ob) as [ol0|] eqn:Eob; [|done].
  destruct (read_list_exact c2 il0 h2 ins _ Hc2 (proj2 (Hroom _ Hi)) (proj1 (Hroom _ Hi))) as (il & c3 & h3 & -> & Hil & Hc3).
  cbn [mbind option_bind]. rewrite <- (app_nil_r (list_items outs)) in Hc3.
  destruct (read_list_exact c3 ol0 h3 outs _ Hc3 (proj2 (Hroom _ Ho)) (proj1 (Hroom _ Ho))) as (ol & c4 & h4 & -> & Hol & [Hs4 _]).
  cbn [mbind option_bind].
  pose proof (serve_exact handle t c4 seq il ol ins outs w Hs4 Hil Hol Hsz Hi Ho) as Hserve.
  destruct (tfm_psa_call _ _ _ _ _) as [r w']. intros Hf.
  destruct (Hserve Hf) as (ol' & c5 & -> & Hfr & Hne & Hw). cbn [mbind option_bind].
  destruct (dispose_defined (At ib) il h4) as [h5 ->]; [by eapply holds_list_freeable | | by intros b [= <-]; rewrite Eib |].
  { by destruct Hil as (? & ? & -> & _). }
  cbn [mbind option_bind].
  destruct (dispose_defined (At ob) ol' h5) as [h6 ->]; [done | done | by intros b [= <-]; rewrite Eob |].
  cbn [mbind option_bind]. by exists c5, h6.
Qed.
End no_shortage.

(** ** Requests the server does not survive *)

(** A list longer than its array: the loop leaves the array. *)
Lemma read_elements_overflow fuel : forall i c b n h,
  Z.of_nat (length (contents b)) < n -> (i <= length (contents b))%nat ->
  read_elements fuel i c (mkList (Some b) n) h = None.
Proof.
  induction fuel as [|fuel IH]; intros i c b n h Hn Hi; [done|]. cbn [read_elements elementsCount elements].
  rewrite (proj2 (Z.ltb_lt _ _)) by lia. unfold element_ptr. cbn [array_of fmap option_fmap option_map].
  destruct (contents b !! i) as [d0|] eqn:Hd0; [|done]. cbn [fmap option_fmap option_map mbind option_bind].
  destruct (read_binary_t_struct c (Some d0) h) as [[[d c1] h1]|] eqn:Hr; [|done].
  apply read_binary_gives in Hr as [Hd _]. destruct d as [d|]; [|discriminate (proj1 Hd eq_refl)].
  cbn [mbind option_bind element_store]. apply lookup_lt_Some in Hd0.
  apply IH; cbn [contents]; rewrite length_insert; lia.
Qed.

(** A list without array: its loop ends at once, or is undefined. *)
Lemma read_elements_null fuel c n h r :
  read_elements fuel 0 c (mkList None n) h = Some r -> exists c', r = (mkList None n, c', h).
Proof.
  destruct fuel as [|fuel]; [done|]. cbn [read_elements elementsCount elements array_of fmap option_fmap option_map].
  destruct (Z.of_nat 0 <? n); [|intros [= <-]; by eexists]. cbn [element_ptr Nat.eqb mbind option_bind read_binary_t_struct].
  destruct fuel as [|fuel]; [done|]. cbn [read_elements elementsCount elements array_of fmap option_fmap option_map].
  cbn [element_store]. destruct (Z.of_nat 1 <? n); [done | intros [= <-]; by eexists].
Qed.

Lemma dispose_null b n h : 0 < n -> dispose (At b) (Some (mkList None n)) h = None.
Proof.
  intros Hn. unfold dispose, free_list_binary_1_t_struct. cbn [mbind option_bind elements].
  change (element_fuel (array_of None)) with 2%nat. cbn [free_elements elementsCount].
  by rewrite (proj2 (Z.ltb_lt (Z.of_nat 0) n)) by done.
Qed.

(** The start of the shim when its two lists are allocated. *)
Lemma shim_starts c seq h w handle t its :
  malloc_ok (requests h) sizeof_list_binary_1_t = true ->
  malloc_ok (S (requests h)) sizeof_list_binary_1_t = true ->
  reads c (II32 handle :: II32 t :: its) ->
  exists ib ob h2 c2, requests h2 = S (S (requests h)) /\ reads c2 its /\ 
    contents ib = Some (mkList None 0) /\ contents ob = Some (mkList None 0) /\
    erpc_psa_call_shim c seq h w =
      ('(il, c3, h3) ← read_list_binary_1_t_struct c2 (pointee (At ib)) h2;
       '(ol, c4, h4) ← read_list_binary_1_t_struct c3 (pointee (At ob)) h3;
       '(err, ol', c5, w') ← serve_psa_call (Some handle) (Some t) c4 seq il ol w;
       h5 ← dispose (At ib) il h4;
       h6 ← dispose (At ob) ol' h5;
       Some (err, c5, h6, w')).
Proof.
  intros H1 H2 Hc. unfold erpc_psa_call_shim, malloc_list, erpc_malloc. rewrite H1. cbn [requests].
  rewrite H2. destruct (reads_i32 _ _ _ Hc) as (c1 & -> & Hc1), (reads_i32 _ _ _ Hc1) as (c2 & -> & Hc2).
  eexists _, _, _, c2. split_and!; [| exact Hc2 | | | reflexivity]; done.
Qed.

Lemma shim_count_unchecked c seq h w handle t n its :
  malloc_ok (requests h) sizeof_list_binary_1_t = true ->
  malloc_ok (S (requests h)) sizeof_list_binary_1_t = true ->
  reads c (II32 handle :: II32 t :: ICount n :: its) -> 0 < n < 2 ^ 32 ->
  malloc_ok (S (S (requests h))) (wrapu size_bits (n * sizeof_binary_t)) = false \/
    2 ^ size_bits <= n * sizeof_binary_t ->
  erpc_psa_call_shim c seq h w = None.
Proof.
  intros H1 H2 Hc Hn Hbad.
  destruct (shim_starts _ seq _ w _ _ _ H1 H2 Hc) as (ib & ob & h2 & c2 & Hr & Hc2 & Hib & Hob & ->).
  cbn [pointee]. rewrite Hib. cbn [read_list_binary_1_t_struct].
  destruct (reads_count _ n _ ltac:(lia) Hc2) as (c3 & -> & _).
  unfold erpc_malloc. rewrite Hr.
  destruct (malloc_ok (S (S (requests h))) (wrapu size_bits (n * sizeof_binary_t))) eqn:Hok.
  - destruct Hbad as [?|Hbad]; [done|]. rewrite read_elements_overflow; [done | | lia].
    cbn [contents]. rewrite length_replicate. pose proof (array_wraps n Hbad). lia.
  - clear Hbad. cbn [mbind option_bind].
    destruct (read_elements _ _ _ _ _) as [r|] eqn:Hre; [|done].
    apply read_elements_null in Hre as [c' ->]. cbn [mbind option_bind].
    destruct (read_list_binary_1_t_struct _ _ _) as [[[ol c4] h4]|]; [|done]. cbn [mbind option_bind].
    destruct (serve_psa_call _ _ _ _ _ _ _) as [[[[e ol'] c5] w1]|]; [|done]. cbn [mbind option_bind].
    by rewrite dispose_null by lia.
Qed.

Context {PCL : PsaClientConstsLaws}.

Lemma unpack_overflow (bss : list (list Z)) id es :
  PSA_MAX_IOVEC < Z.of_nat (length bss) ->
  copy_vecs vec_of_binary (S (Z.to_nat PSA_MAX_IOVEC)) 0 (Z.of_nat (length bss))
    (default [] (array_of (Some (mkBlock id es)))) vec_array = None.
Proof. intros Hn. rewrite law_max_iovec in Hn. apply copy_vecs_overflow; rewrite vec_array_length, ?law_max_iovec; lia. Qed.

Lemma shim_too_many_vectors c seq h w handle t ins outs :
  (forall n size, malloc_ok n size = true) ->
  reads c (II32 handle :: II32 t :: list_items ins ++ list_items outs) ->
  Z.of_nat (length ins) < 2 ^ 29 -> Z.of_nat (length outs) < 2 ^ 29 ->
  PSA_MAX_IOVEC < Z.of_nat (length ins) \/ PSA_MAX_IOVEC < Z.of_nat (length outs) ->
  erpc_psa_call_shim c seq h w = None.
Proof.
  intros enough Hc Hi Ho Hbad.
  assert (forall n, n < 2 ^ 29 -> n * sizeof_binary_t < 2 ^ size_bits /\ n < 2 ^ 32) as Hroom.
  { intros n Hn. destruct law_abi as [[-> ->]|[-> ->]]; lia. }
  destruct (shim_starts c seq h w handle t _ (enough _ _) (enough _ _) Hc)
    as (ib & ob & h2 & c2 & Hr & Hc2 & Hib & Hob & ->).
  cbn [pointee]. rewrite Hib, Hob.
  destruct (read_list_exact enough c2 (mkList None 0) h2 ins _ Hc2 (proj2 (Hroom _ Hi)) (proj1 (Hroom _ Hi))) as (il & c3 & h3 & -> & Hil & Hc3).
  cbn [mbind option_bind]. rewrite <- (app_nil_r (list_items outs)) in Hc3.
  destruct (read_list_exact enough c3 (mkList None 0) h3 outs _ Hc3 (proj2 (Hroom _ Ho)) (proj1 (Hroom _ Ho))) as (ol & c4 & h4 & -> & Hol & [Hs4 _]).
  cbn [mbind option_bind]. unfold serve_psa_call. rewrite Hs4, Z.eqb_refl. cbn [negb mbind option_bind].
  destruct Hil as (idi & esi & -> & _), Hol as (ido & eso & -> & _). unfold nested, erpc_psa_call.
  cbn [mbind option_bind elements elementsCount].
  destruct (copy_vecs vec_of_binary _ 0 (Z.of_nat (length ins)) _ _) eqn:Hci; [|done]. cbn [mbind option_bind].
  destruct (copy_vecs vec_of_binary _ 0 (Z.of_nat (length outs)) _ _) eqn:Hco; [|done].
  destruct Hbad; [by rewrite unpack_overflow in Hci | by rewrite unpack_overflow in Hco].
Qed.

(** ** The calls without vectors *)

Definition reply_header (id seq : Z) : item := IMessage kReplyMessage kpsa_client_api_service_id id seq.

Context {FL : FactoryLaws K W}.

(** From the preparation of the buffer on, with [v] the write of the result. *)
Lemma reply_exact id seq xs (v : K -> K) c w :
  fits (reply_header id seq :: xs) ->
  (forall c', wrote c' [reply_header id seq] -> wrote (v c') (reply_header id seq :: xs)) ->
  exists c', (let '(err, codec, w) := prepareServerBufferForSend c w in
    if negb (err =? kErpcStatus_Success) then Some (err, codec, w)
    else let codec := v (begin_reply id seq codec) in Some (getStatus codec, codec, w)) =
      Some (kErpcStatus_Success, c', w) /\ wrote c' (reply_header id seq :: xs).
Proof.
  intros Hf Hv. destruct (law_prepare c w) as [c1 ->]. rewrite Z.eqb_refl. cbn [negb].
  destruct (Hv _ (wrote_begin_reply id seq c1 (law_fits_app [_] xs Hf))) as [Hs Hw].
  rewrite Hs. eexists. split; [done | by split].
Qed.

Lemma framework_version_exact c seq w :
  reads c [] ->
  let '(v, w') := tfm_psa_framework_version (set_nesting (K := K) true w) in
  fits [reply_header kpsa_client_api_psa_framework_version_id seq; IU32 v] ->
  exists c', psa_framework_version_shim c seq w =
      Some (kErpcStatus_Success, c', set_nesting (K := K) false w') /\
    wrote c' [reply_header kpsa_client_api_psa_framework_version_id seq; IU32 v].
Proof.
  intros [Hs _]. unfold psa_framework_version_shim, nested. rewrite Hs, Z.eqb_refl. cbn [negb mbind option_bind].
  destruct (law_version_range (set_nesting (K := K) true w) 0) as [Hr _].
  destruct (tfm_psa_framework_version _) as [v w']. cbn [mbind option_bind]. intros Hf.
  apply (reply_exact kpsa_client_api_psa_framework_version_id seq [IU32 v] (write_u32 v)); [done|].
  intros c' Hc'. by apply (wrote_u32 _ _ Hc').
Qed.

Lemma version_exact c seq sid w :
  reads c [IU32 sid] ->
  let '(v, w') := tfm_psa_version sid (set_nesting (K := K) true w) in
  fits [reply_header kpsa_client_api_psa_version_id seq; IU32 v] ->
  exists c', psa_version_shim c seq w = Some (kErpcStatus_Success, c', set_nesting (K := K) false w') /\
    wrote c' [reply_header kpsa_client_api_psa_version_id seq; IU32 v].
Proof.
  intros Hc. unfold psa_version_shim, nested. destruct (reads_u32 _ _ _ Hc) as (c1 & -> & Hs & _).
  rewrite Hs, Z.eqb_refl. cbn [negb mbind option_bind].
  destruct (law_version_range (set_nesting (K := K) true w) sid) as [_ Hr].
  destruct (tfm_psa_version _ _) as [v w']. cbn [mbind option_bind]. intros Hf.
  apply (reply_exact kpsa_client_api_psa_version_id seq [IU32 v] (write_u32 v)); [done|].
  intros c' Hc'. by apply (wrote_u32 _ _ Hc').
Qed.

Lemma connect_exact c seq sid ver w :
  reads c [IU32 sid; IU32 ver] ->
  let '(v, w') := tfm_psa_connect sid ver (set_nesting (K := K) true w) in
  fits [reply_header kpsa_client_api_psa_connect_id seq; II32 v] ->
  exists c', psa_connect_shim c seq w = Some (kErpcStatus_Success, c', set_nesting (K := K) false w') /\
    wrote c' [reply_header kpsa_client_api_psa_connect_id seq; II32 v].
Proof.
  intros Hc. unfold psa_connect_shim, nested. destruct (reads_u32 _ _ _ Hc) as (c1 & -> & Hc1).
  destruct (reads_u32 _ _ _ Hc1) as (c2 & -> & Hs & _).
  rewrite Hs, Z.eqb_refl. cbn [negb mbind option_bind].
  pose proof (law_handle_range sid ver (set_nesting (K := K) true w)) as Hr.
  destruct (tfm_psa_connect _ _ _) as [v w']. cbn [mbind option_bind]. intros Hf.
  apply (reply_exact kpsa_client_api_psa_connect_id seq [II32 v] (write_i32 v)); [done|].
  intros c' Hc'. by apply (wrote_i32 _ _ Hc').
Qed.

Lemma close_exact c seq handle w :
  reads c [II32 handle] -> fits [reply_header kpsa_client_api_psa_close_id seq] ->
  exists c', psa_close_shim c seq w = Some (kErpcStatus_Success, c',
      set_nesting (K := K) false (tfm_psa_close handle (set_nesting (K := K) true w))) /\
    wrote c' [reply_header kpsa_client_api_psa_close_id seq].
Proof.
  intros Hc Hf. unfold psa_close_shim, nested. destruct (reads_i32 _ _ _ Hc) as (c1 & -> & Hs & _).
  rewrite Hs, Z.eqb_refl. cbn [negb mbind option_bind].
  by apply (reply_exact kpsa_client_api_psa_close_id seq [] (fun c => c)).
Qed.

(** ** Requests that arrive with an error *)

Lemma read_list_error c data h :
  getStatus c <> kErpcStatus_Success ->
  exists l c' h', read_list_binary_1_t_struct c data h = Some (l, c', h') /\ getStatus c' = getStatus c /\
    (l = None <-> data = None) /\ (forall l', l = Some l' -> elementsCount l' = 0).
Proof.
  intros Hs. unfold read_list_binary_1_t_struct. destruct data as [l0|].
  2: { exists None, c, h. by split_and!. }
  destruct (law_read_error c Hs) as (_ & _ & _ & Hst & Hn). destruct (startReadList c) as [n c1].
  cbn in Hst, Hn. subst n.
  match goal with |- context [erpc_malloc ?s ?a h] => destruct (erpc_malloc s a h) as [p h1] end.
  destruct p as [|b|]; eexists _, _, _; (split; [reflexivity|]); split_and!; try done; by intros l' [= <-].
Qed.

Lemma dispose_empty p l h :
  (l = None <-> pointee p = None) -> (forall b, p = At b -> contents b <> None) ->
  (forall l', l = Some l' -> elementsCount l' = 0) -> is_Some (dispose p l h).
Proof.
  intros Hl Hp Hz. unfold dispose. destruct p as [|b|]; [by eexists| |by eexists].
  destruct l as [l|]; [|by destruct (Hp b eq_refl), (proj1 Hl eq_refl)]. cbn [mbind option_bind].
  specialize (Hz l eq_refl). destruct l as [q n]. cbn in Hz. subst n.
  unfold free_list_binary_1_t_struct. unfold element_fuel. cbn. destruct q; by eexists.
Qed.

Lemma malloc_list_error c h :
  getStatus c <> kErpcStatus_Success -> kErpcStatus_MemoryError <> kErpcStatus_Success ->
  exists p c' h', malloc_list c h = (p, c', h') /\ getStatus c' = getStatus c /\
    (forall b, p = At b -> contents b <> None).
Proof.
  intros Hs He. unfold malloc_list, erpc_malloc. destruct (malloc_ok _ _).
  - eexists _, c, _. split_and!; try done. by intros b [= <-].
  - eexists _, _, _. split; [done|]. split; [|done]. rewrite law_update by done. by rewrite (proj2 (Z.eqb_neq _ _) Hs).
Qed.

Lemma shim_rejects c seq h w :
  getStatus c <> kErpcStatus_Success -> kErpcStatus_MemoryError <> kErpcStatus_Success ->
  exists c' h', erpc_psa_call_shim c seq h w = Some (getStatus c, c', h', w).
Proof.
  intros Hs He. unfold erpc_psa_call_shim.
  destruct (malloc_list_error c h Hs He) as (ip & c1 & h1 & -> & Hs1 & Hip). rewrite <- Hs1 in Hs |- *.
  destruct (malloc_list_error c1 h1 Hs He) as (op & c2 & h2 & -> & Hs2 & Hop). rewrite <- Hs2 in Hs |- *.
  destruct (law_read_error c2 Hs) as (_ & Hr3 & _). destruct (read_i32 c2) as [handle c3]. cbn in Hr3.
  rewrite <- Hr3 in Hs |- *. destruct (law_read_error c3 Hs) as (_ & Hr4 & _).
  destruct (read_i32 c3) as [t c4]. cbn in Hr4. rewrite <- Hr4 in Hs |- *.
  destruct (read_list_error c4 (pointee ip) h2 Hs) as (il & c5 & h3 & -> & Hs5 & Hil & Hzi). cbn [mbind option_bind].
  rewrite <- Hs5 in Hs |- *.
  destruct (read_list_error c5 (pointee op) h3 Hs) as (ol & c6 & h4 & -> & Hs6 & Hol & Hzo). cbn [mbind option_bind].
  rewrite <- Hs6 in Hs |- *. unfold serve_psa_call. rewrite (proj2 (Z.eqb_neq _ _) Hs). cbn [negb mbind option_bind].
  destruct (dispose_empty ip il h4 Hil Hip Hzi) as [h5 ->]. cbn [mbind option_bind].
  destruct (dispose_empty op ol h5 Hol Hop Hzo) as [h6 ->]. cbn [mbind option_bind]. by eexists _, _.
Qed.

(** ** Properties *)

(** C22. The shim of [erpc_psa_call] gives every block back exactly once: whatever
    the message holds, and whichever allocations fail, when it returns the
    blocks given out since the call are all different and are exactly those
    given back, on the error paths too. *)
Theorem shim_returns_its_blocks c seq h w err c' h' w' :
  heap_wf h -> erpc_psa_call_shim c seq h w = Some (err, c', h', w') ->
  heap_wf h' /\ exists ids, NoDup ids /\ allocated h' ≡ₚ ids ++ allocated h /\ freed h' ≡ₚ ids ++ freed h.
Proof.
  intros Hw H. destruct (shim_heap _ _ _ _ _ _ _ _ H) as (ids & Ha & Hf & Hwf). destruct (Hwf Hw) as [Hn Hlt].
  split; [by split|]. exists ids. split_and!; [|done..]. rewrite Ha in Hn. by apply NoDup_app in Hn as [? _].
Qed.

(** C36. The server trusts the counts of a request.  The shim is undefined (it
    writes outside an array or follows NULL) when the array of the first list
    cannot be allocated, when its size wraps [size_t], and, although both
    lists decode, when one has more than [PSA_MAX_IOVEC] elements. *)
Theorem server_trusts_counts c seq h w handle t n its ins outs :
  malloc_ok (requests h) sizeof_list_binary_1_t = true ->
  malloc_ok (S (requests h)) sizeof_list_binary_1_t = true ->
  0 < n < 2 ^ 32 -> Z.of_nat (length ins) < 2 ^ 29 -> Z.of_nat (length outs) < 2 ^ 29 ->
  (reads c (II32 handle :: II32 t :: ICount n :: its) ->
    malloc_ok (S (S (requests h))) (wrapu size_bits (n * sizeof_binary_t)) = false \/
      2 ^ size_bits <= n * sizeof_binary_t ->
    erpc_psa_call_shim c seq h w = None) /\
  ((forall n size, malloc_ok n size = true) ->
    reads c (II32 handle :: II32 t :: list_items ins ++ list_items outs) ->
    PSA_MAX_IOVEC < Z.of_nat (length ins) \/ PSA_MAX_IOVEC < Z.of_nat (length outs) ->
    erpc_psa_call_shim c seq h w = None).
Proof.
  intros H1 H2 Hn Hi Ho. split.
  - intros Hc. by eapply shim_count_unchecked.
  - intros enough Hc. by eapply shim_too_many_vectors.
Qed.

(** A request that is not for a method of the service, or that arrives with an
    error, is not served: the world is unchanged, and the result is the
    error. *)
Theorem server_rejects_errors methodId seq c h w :
  (~ methodId ∈ [1; 2; 3; 4; 5] ->
    handleInvocation methodId seq c h w = Some (kErpcStatus_InvalidArgument, c, h, w)) /\
  (getStatus c <> kErpcStatus_Success -> methodId ∈ [1; 2; 3; 4; 5] ->
    exists c' h', handleInvocation methodId seq c h w = Some (getStatus c, c', h', w)).
Proof.
  split.
  - intros Hid. unfold handleInvocation.
    assert (forall x, x ∈ [1; 2; 3; 4; 5] -> (methodId =? x) = false) as Hne.
    { intros x Hx. apply Z.eqb_neq. by intros ->. }
    by rewrite !Hne by set_solver.
  - intros Hs Hid. assert (kErpcStatus_MemoryError <> kErpcStatus_Success) as He.
    { pose proof erpc_status_NoDup as H. apply NoDup_cons in H as [H _]. set_solver. }
    destruct (law_read_error c Hs) as (Hu & Hi & _).
    unfold handleInvocation. rewrite !elem_of_cons, elem_of_nil in Hid.
    destruct Hid as [->|[->|[->|[->|[->|[]]]]]]; cbn [Z.eqb Pos.eqb].
    + unfold psa_framework_version_shim. rewrite (proj2 (Z.eqb_neq _ _) Hs). by eexists _, _.
    + unfold psa_version_shim. destruct (read_u32 c) as [sid c1]. cbn in Hu. rewrite Hu, (proj2 (Z.eqb_neq _ _) Hs).
      by eexists _, _.
    + by apply shim_rejects.
    + unfold psa_connect_shim. destruct (read_u32 c) as [sid c1]. cbn in Hu.
      rewrite <- Hu in Hs |- *. destruct (law_read_error c1 Hs) as (Hu1 & _).
      destruct (read_u32 c1) as [ver c2]. cbn in Hu1. rewrite Hu1, (proj2 (Z.eqb_neq _ _) Hs). by eexists _, _.
    + unfold psa_close_shim. destruct (read_i32 c) as [hd c1]. cbn in Hi. rewrite Hi, (proj2 (Z.eqb_neq _ _) Hs).
      by eexists _, _.
Qed.
End decoding.

(** ** Witnesses *)

#[export] Instance ref_factory_laws : FactoryLaws ref_codec Z.
Proof. split. intros c w. by exists c. Qed.

Definition empty_heap : heap := mkHeap 0 [] [].

(** A call on handle 7 with one input and one output vector. *)
Definition demo_request : ref_codec :=
  mkCodec 0 [] ([II32 7; II32 3] ++ list_items [[1; 2]] ++ list_items [[0; 0; 0]]).
Definition demo_reply : ref_codec := mkCodec 0 [IMessage 2 1 3 9; ICount 1; IBinary [1; 2]; II32 0] [].
Definition demo_heap : heap := mkHeap 6 [5; 4; 3; 2; 1; 0]%nat [1; 4; 5; 0; 2; 3]%nat.

Example shim_returns_its_blocks_witness :
  heap_wf demo_heap /\ exists ids, NoDup ids /\ [5; 4; 3; 2; 1; 0]%nat ≡ₚ ids ++ [] /\
    [1; 4; 5; 0; 2; 3]%nat ≡ₚ ids ++ [].
Proof.
  apply (shim_returns_its_blocks (K := ref_codec) demo_request 9 empty_heap 0 0 demo_reply demo_heap 1).
  - split; constructor.
  - vm_compute. reflexivity.
Defined.

Example server_trusts_counts_witness :
  erpc_psa_call_shim (K := ref_codec) (mkCodec 0 [] [II32 7; II32 3; ICount (2 ^ 29)]) 9 empty_heap 0 = None /\
  erpc_psa_call_shim (K := ref_codec) (mkCodec 0 []
    ([II32 7; II32 3] ++ list_items (replicate 5 []) ++ list_items [])) 9 empty_heap 0 = None.
Proof.
  split.
  - destruct (server_trusts_counts (K := ref_codec) (mkCodec 0 [] [II32 7; II32 3; ICount (2 ^ 29)]) 9
      empty_heap 0 7 3 (2 ^ 29) [] [] []) as [H _]; [done..|]. apply H; [by split | by right].
  - destruct (server_trusts_counts (K := ref_codec) (mkCodec 0 []
      ([II32 7; II32 3] ++ list_items (replicate 5 []) ++ list_items [])) 9 empty_heap 0 7 3 1 []
      (replicate 5 []) []) as [_ H]; [done..|]. apply H; [done | by split | by left].
Defined.

Example server_rejects_errors_witness :
  handleInvocation (K := ref_codec) 6 9 demo_request empty_heap 0 = Some (2, demo_request, empty_heap, 0) /\
  exists c' h', handleInvocation (K := ref_codec) 3 9 (mkCodec 5 [] []) empty_heap 0 = Some (5, c', h', 0).
Proof.
  split.
  - destruct (server_rejects_errors (K := ref_codec) 6 9 demo_request empty_heap 0) as [H _]. apply H.
    by apply (bool_decide_unpack _).
  - destruct (server_rejects_errors (K := ref_codec) 3 9 (mkCodec 5 [] []) empty_heap 0) as [_ H].
    apply H; [done|]. by apply (bool_decide_unpack _).
Defined.
