(* ===== verification/ErpcProofs.v ===== *)
(** * Theorems about the remote PSA calls

    The client shims over the server shims: a call through them is the call
    itself; what the two sides do when a message cannot be sent or does not
    decode; which requests they do not survive. *)

From S2P Require Import Prelude Erpc ErpcClient ErpcServer ErpcRef ErpcServerProofs.
Local Open Scope Z_scope.

(** ** The call made without eRPC *)

(** [memcpy] of each output to its buffer. *)
Fixpoint deliver (ps : list (ptr loc)) (bss : list (list Z)) (m : mem) : option mem :=
  match ps, bss with
  | [], [] => Some m
  | p :: ps, bs :: bss => m ← store_bytes p bs m; deliver ps bss m
  | _, _ => None
  end.

Definition load_vec (m : mem) (v : iovec) : option (list Z) := load_bytes (base v) (len v) m.

(** The vectors' bytes go to the service, its outputs come back to the
    buffers of the caller and their lengths, on success, to its vectors. *)
Definition direct_call {PC : PsaClientConsts} {W} {PA : PsaClientApi W} (handle type : Z)
    (in_vec out_vec : list iovec) (m : mem) (w : W) : option (Z * list iovec * mem * W) :=
  ins ← mapM (load_vec m) in_vec;
  outs ← mapM (load_vec m) out_vec;
  let '((status, outs'), w) := tfm_psa_call handle type (vecs_of ins) (vecs_of outs) w in
  m ← deliver (base <$> out_vec) (result_bytes <$> outs') m;
  Some (status,
    (if status =? PSA_SUCCESS then zip_with (fun v r => mkVec (base v) (len r)) out_vec outs' else out_vec),
    m, w).

(** ** The client's lists *)

Section client.
  Context {EC : ErpcConsts} {K : Type} {CD : Codec K} {CL : CodecLaws K}.
  Implicit Types (c : K) (m : mem).

Lemma load_bytes_length p n m bs : 0 <= n -> load_bytes p n m = Some bs -> Z.of_nat (length bs) = n.
Proof.
  intros Hn. unfold load_bytes. destruct (Z.eqb_spec n 0) as [->|Hz]; [by intros [= <-]|].
  destruct p as [|l|]; [done| |done]. destruct (m !! l) as [old|]; [|done]. cbn [mbind option_bind].
  destruct (Z.leb_spec n (Z.of_nat (length old))); [|done]. intros [= <-]. rewrite length_take. lia.
Qed.

Lemma write_elements_loaded m es bss rest : forall pre fuel c its,
  Forall2 (fun e bs => load_bytes (Erpc.data e) (dataLength e) m = Some bs /\ 0 <= dataLength e) es bss ->
  wrote c its -> fits (its ++ (IBinary <$> bss)) -> (length es < fuel)%nat ->
  exists c', ErpcClient.write_elements fuel (length pre) c
      (mkList (Some (pre ++ es ++ rest)) (Z.of_nat (length pre + length es))) m = Some c' /\
    wrote c' (its ++ (IBinary <$> bss)).
Proof.
  intros pre fuel c its Hes. revert pre fuel c its.
  induction Hes as [|e bs es bss [Hl Hn] _ IH]; intros pre [|fuel] c its Hc Hf Hfuel; try (simpl in *; lia);
    cbn [ErpcClient.write_elements elementsCount elements].
  - rewrite (proj2 (Z.ltb_ge _ _)) by (simpl; lia). exists c. by rewrite app_nil_r.
  - rewrite (proj2 (Z.ltb_lt _ _)) by (simpl; lia). unfold element_ptr. cbn [app].
    rewrite list_lookup_middle by done.
    cbn [fmap option_fmap option_map mbind option_bind ErpcClient.write_binary_t_struct].
    rewrite Hl. cbn [mbind option_bind].
    pose proof (wrote_binary _ _ Hc (dataLength e) bs (load_bytes_length _ _ _ _ Hn Hl) (fits_prefix _ _ _ Hf)) as Hw.
    destruct (IH (pre ++ [e]) fuel _ _ Hw) as (c' & Hr & Hw'); [by rewrite <- app_assoc | simpl in *; lia |].
    rewrite length_app, <- !app_assoc in Hr. cbn [length app] in Hr.
    replace (S (length pre)) with (length pre + 1)%nat by lia.
    replace (length pre + length (e :: es))%nat with (length pre + 1 + length es)%nat by (simpl; lia).
    rewrite Hr. exists c'. split; [done|]. by rewrite <- app_assoc in Hw'.
Qed.

Lemma write_list_loaded m es bss rest c its :
  Forall2 (fun e bs => load_bytes (Erpc.data e) (dataLength e) m = Some bs /\ 0 <= dataLength e) es bss ->
  wrote c its -> fits (its ++ list_items bss) ->
  exists c', ErpcClient.write_list_binary_1_t_struct c
      (Some (mkList (Some (es ++ rest)) (Z.of_nat (length es)))) m = Some c' /\
    wrote c' (its ++ list_items bss).
Proof.
  intros Hes Hc Hf. unfold ErpcClient.write_list_binary_1_t_struct, list_items in *. cbn [elements elementsCount].
  rewrite (Forall2_length _ _ _ Hes). pose proof (wrote_count _ _ Hc _ (fits_prefix _ _ _ Hf)) as Hc1.
  destruct (write_elements_loaded m es bss rest [] (element_fuel (Some (es ++ rest))) _ _ Hes Hc1)
    as (c' & Hr & Hw); [by rewrite <- app_assoc | unfold element_fuel; cbn; rewrite length_app; lia |].
  cbn [length Nat.add app] in Hr. rewrite (Forall2_length _ _ _ Hes) in Hr. rewrite Hr.
  exists c'. split; [done|]. by rewrite <- app_assoc in Hw.
Qed.

(** An element after the read of [bs]. *)
Definition received (e : ErpcClient.binary) (bs : list Z) : ErpcClient.binary :=
  mkBinary (Erpc.data e) (Z.of_nat (length bs)).

Lemma read_elements_delivers es rest : forall bss pre fuel c its m m',
  reads c ((IBinary <$> bss) ++ its) -> deliver (Erpc.data <$> es) bss m = Some m' ->
  (length es < fuel)%nat ->
  exists c', ErpcClient.read_elements fuel (length pre) c
      (mkList (Some (pre ++ es ++ rest)) (Z.of_nat (length pre + length es))) m =
      Some (mkList (Some (pre ++ zip_with received es bss ++ rest)) (Z.of_nat (length pre + length es)), c', m') /\
    reads c' its.
Proof.
  induction es as [|e es IH]; intros [|bs bss] pre [|fuel] c its m m' Hc Hd Hf; try (simpl in *; lia); try done;
    cbn [ErpcClient.read_elements elementsCount elements].
  - injection Hd as <-. rewrite (proj2 (Z.ltb_ge _ _)) by (simpl; lia). by exists c.
  - rewrite (proj2 (Z.ltb_lt _ _)) by (simpl; lia). unfold element_ptr. cbn [app].
    rewrite list_lookup_middle by done.
    cbn [fmap option_fmap option_map mbind option_bind ErpcClient.read_binary_t_struct].
    destruct (reads_binary _ _ _ Hc) as (c1 & -> & Hc1). cbn [fmap list_fmap deliver] in Hd.
    change (default [] (Some bs)) with bs.
    destruct (store_bytes (Erpc.data e) bs m) as [m1|]; [|done]. cbn [mbind option_bind] in Hd |- *.
    cbn [element_store]. rewrite insert_app_cons.
    destruct (IH bss (pre ++ [received e bs]) fuel c1 its m1 m' Hc1 Hd ltac:(simpl in *; lia)) as (c' & Hr & Hc').
    rewrite length_app, <- !app_assoc in Hr. cbn [length app] in Hr.
    replace (S (length pre)) with (length pre + 1)%nat by lia.
    replace (length pre + length (e :: es))%nat with (length pre + 1 + length es)%nat by (simpl; lia).
    fold (received e bs). rewrite Hr. by exists c'.
Qed.

Lemma deliver_length ps bss m m' : deliver ps bss m = Some m' -> length ps = length bss.
Proof.
  revert bss m. induction ps as [|p ps IH]; intros [|bs bss] m; cbn; try done.
  destruct (store_bytes p bs m) as [m1|]; [|done]. cbn. intros H. by rewrite (IH _ _ H).
Qed.

Lemma read_list_delivers es rest bss c its m m' :
  reads c (list_items bss ++ its) -> Z.of_nat (length bss) < 2 ^ 32 ->
  deliver (Erpc.data <$> es) bss m = Some m' ->
  exists c', ErpcClient.read_list_binary_1_t_struct c
      (Some (mkList (Some (es ++ rest)) (Z.of_nat (length es)))) m =
      Some (Some (mkList (Some (zip_with received es bss ++ rest)) (Z.of_nat (length es))), c', m') /\
    reads c' its.
Proof.
  intros Hc H32 Hd. unfold ErpcClient.read_list_binary_1_t_struct.
  destruct (reads_count _ _ _ (conj (Nat2Z.is_nonneg _) H32) Hc) as (c1 & -> & Hc1).
  cbn [elements]. pose proof (deliver_length _ _ _ _ Hd) as Hl. rewrite length_fmap in Hl. rewrite <- Hl.
  destruct (read_elements_delivers es rest bss [] (element_fuel (Some (es ++ rest))) c1 its m m' Hc1 Hd)
    as (c' & Hr & Hc'); [unfold element_fuel; cbn; rewrite length_app; lia|].
  cbn [length Nat.add app] in Hr. rewrite Hr. cbn [mbind option_bind]. by exists c'.
Qed.

(** The vectors with new lengths. *)
Definition resized (vs : list iovec) (ns : list Z) : list iovec := zip_with (fun v n => mkVec (base v) n) vs ns.

Lemma copy_lengths_spec rest : forall es pes pre vs fuel,
  length pes = length pre -> length vs = length es -> (length es < fuel)%nat ->
  copy_lengths fuel (length pre) (Z.of_nat (length pre + length es)) (pes ++ es ++ rest) (pre ++ vs) =
    Some (pre ++ resized vs (dataLength <$> es)).
Proof.
  induction es as [|e es IH]; intros pes pre [|v vs] [|fuel] Hp Hv Hf; try (simpl in *; lia);
    cbn [copy_lengths].
  - by rewrite (proj2 (Z.ltb_ge _ _)) by (simpl; lia).
  - rewrite (proj2 (Z.ltb_lt _ _)) by (simpl; lia). rewrite <- Hp at 1. cbn [app].
    rewrite !list_lookup_middle by done. cbn [mbind option_bind]. rewrite insert_app_cons.
    specialize (IH (pes ++ [e]) (pre ++ [mkVec (base v) (dataLength e)]) vs fuel).
    rewrite !length_app, <- !app_assoc in IH. cbn [length app] in IH, Hv.
    replace (S (length pre)) with (length pre + 1)%nat by lia.
    replace (length pre + length (e :: es))%nat with (length pre + 1 + length es)%nat by (simpl; lia).
    apply IH; simpl in *; lia.
Qed.
End client.

(** ** The link *)

(** The runtime and the transport: the server and its world are part of the
    client's world; a message that the client sends is served and answered. *)
Class Link {EC : ErpcConsts} {PC : PsaClientConsts} {AB : Abi} {MA : Malloc} (K Ws Wc : Type) {CD : Codec K}
    {CL : CodecLaws K} {MF : MessageBufferFactory K Ws} {PA : PsaClientApi Ws} {CM : ClientManager K Wc} := {
  server_of : Wc -> heap * Ws;
  law_create w : exists c seq w', createRequest (K := K) false w = ((Some c, seq), w') /\ wrote c [] /\
    server_of w' = server_of w;
  law_perform c w mid seq args :
    wrote c (IMessage kInvocationMessage kpsa_client_api_service_id mid seq :: args) ->
    exists sc, reads sc args /\ forall sc' h' ws' res,
      handleInvocation mid seq sc (server_of w).1 (server_of w).2 = Some (kErpcStatus_Success, sc', h', ws') ->
      wrote sc' (reply_header mid seq :: res) ->
      exists c' w', performRequest c w = (c', w') /\ reads c' res /\ server_of w' = (h', ws');
  law_release w : server_of (releaseRequest (K := K) w) = server_of w;
  law_handler err id w : server_of (callErrorHandler (K := K) err id w) = server_of w;
  law_callbacks w f : getPreCB (K := K) w = Some f \/ getPostCB (K := K) w = Some f ->
    forall w', server_of (f w') = server_of w';
}.

Section link.
  Context {EC : ErpcConsts} {ECL : ErpcConstsLaws} {PC : PsaClientConsts} {PCL : PsaClientConstsLaws}.
  Context {AB : Abi} {ABL : AbiLaws} {MA : Malloc} {K Ws Wc : Type} {CD : Codec K} {CL : CodecLaws K}.
  Context {CRL : CodecReadLaws K} {MF : MessageBufferFactory K Ws} {FL : FactoryLaws K Ws}.
  Context {PA : PsaClientApi Ws} {PAL : PsaClientApiLaws Ws} {CM : ClientManager K Wc} {LK : Link K Ws Wc}.
  Implicit Types (c : K) (w : Wc) (ws : Ws).

Lemma server_callback w cb :
  (forall f, cb = Some f -> forall w', server_of (f w') = server_of w') ->
  server_of (run_callback cb w) = server_of w.
Proof. intros H. destruct cb as [f|]; [|done]. by apply H. Qed.

Lemma begin_request_spec w : exists c seq w',
  begin_request (K := K) w = ((Some c, seq), w') /\ wrote c [] /\ server_of w' = server_of w.
Proof.
  unfold begin_request. set (w1 := if ERPC_PRE_POST_ACTION then _ else w).
  assert (server_of w1 = server_of w) as Hw1.
  { unfold w1. destruct ERPC_PRE_POST_ACTION; [|done]. apply server_callback. eauto using law_callbacks. }
  destruct (law_create w1) as (c & seq & w' & Hc & Hw & Hs). exists c, seq, w'. rewrite Hc. by rewrite Hs, Hw1.
Qed.

Lemma end_request_spec err id w : server_of (end_request (K := K) err id w) = server_of w.
Proof.
  unfold end_request. rewrite <- (law_release w), <- (law_handler err id (releaseRequest w)).
  destruct ERPC_PRE_POST_ACTION; [|done]. apply server_callback. eauto using law_callbacks.
Qed.

(** A served request: the shim runs in the server's world, its result is
    there to be read. *)
Lemma perform_spec c w mid seq args (res : list item) ws' :
  wrote c (IMessage kInvocationMessage kpsa_client_api_service_id mid seq :: args) ->
  (forall sc h, reads sc args -> exists sc' h',
    handleInvocation mid seq sc h (server_of w).2 = Some (kErpcStatus_Success, sc', h', ws') /\
    wrote sc' (reply_header mid seq :: res)) ->
  exists c' w', performRequest c w = (c', w') /\ reads c' res /\ (server_of w').2 = ws'.
Proof.
  intros Hc Hserve. destruct (law_perform c w mid seq args Hc) as (sc & Hsc & Hp).
  destruct (Hserve sc (server_of w).1 Hsc) as (sc' & h' & Hh & Hw).
  destruct (Hp sc' h' ws' res Hh Hw) as (c' & w' & ? & ? & Hs). exists c', w'. by rewrite Hs.
Qed.

Lemma shim_result_ok error_value v w : shim_result kErpcStatus_Success error_value (Some v) w = Some (v, w).
Proof. unfold shim_result. by rewrite Z.eqb_refl. Qed.

(** ** The call with vectors *)

Definition call_request (handle type : Z) (ins outs : list (list Z)) (seq : Z) : list item :=
  IMessage kInvocationMessage kpsa_client_api_service_id kpsa_client_api_erpc_psa_call_id seq ::
    II32 handle :: II32 type :: list_items ins ++ list_items outs.

(** A vector whose length a message can carry. *)
Definition vec_ok (v : iovec) : Prop := 0 <= len v < 2 ^ 32.

Lemma elements_loaded m vs bss :
  Forall vec_ok vs -> mapM (load_vec m) vs = Some bss ->
  Forall2 (fun e bs => load_bytes (Erpc.data e) (dataLength e) m = Some bs /\ 0 <= dataLength e)
    (binary_of_vec <$> vs) bss /\ Forall (fun bs => Z.of_nat (length bs) < 2 ^ 32) bss.
Proof.
  intros Hvs Hm%mapM_Some. induction Hm as [|v bs vs bss Hv _ IH]; [by split; constructor|].
  apply Forall_cons in Hvs as [[Hv0 Hv1] Hvs]. destruct (IH Hvs) as [IH1 IH2]. unfold load_vec in Hv.
  split; constructor; try done.
  - cbn. rewrite wrapu_small by lia. by split.
  - rewrite (load_bytes_length _ _ _ _ Hv0 Hv). lia.
Qed.

(** The shim of the client, on packed vectors. *)
Lemma erpc_psa_call_served handle type in_vec out_vec ins outs rest_i rest_o m w :
  (forall n size, malloc_ok n size = true) ->
  Forall vec_ok in_vec -> Forall vec_ok out_vec ->
  mapM (load_vec m) in_vec = Some ins -> mapM (load_vec m) out_vec = Some outs ->
  Z.of_nat (length in_vec) <= PSA_MAX_IOVEC -> Z.of_nat (length out_vec) <= PSA_MAX_IOVEC ->
  - 2 ^ 31 <= handle < 2 ^ 31 -> - 2 ^ 31 <= type < 2 ^ 31 ->
  (forall seq, fits (call_request handle type ins outs seq)) ->
  let '(r, ws') := tfm_psa_call handle type (vecs_of ins) (vecs_of outs)
    (set_nesting (K := K) true (server_of w).2) in
  (forall seq, fits (call_reply seq r)) ->
  forall m', deliver (base <$> out_vec) (result_bytes <$> r.2) m = Some m' ->
  exists w', ErpcClient.erpc_psa_call (K := K) handle type
      (Some (mkList (Some ((binary_of_vec <$> in_vec) ++ rest_i)) (Z.of_nat (length in_vec))))
      (Some (mkList (Some ((binary_of_vec <$> out_vec) ++ rest_o)) (Z.of_nat (length out_vec)))) m w =
    Some (r.1, Some (mkList (Some (zip_with received (binary_of_vec <$> out_vec) (result_bytes <$> r.2) ++ rest_o))
      (Z.of_nat (length out_vec))), m', w') /\
    (server_of w').2 = set_nesting (K := K) false ws'.
Proof.
  intros enough Hiv Hov Hins Houts Hi Ho Hh Ht Hfreq.
  destruct (elements_loaded m in_vec ins Hiv Hins) as [Hle Hsi], (elements_loaded m out_vec outs Hov Houts) as [Hlo Hso].
  pose proof (Forall2_length _ _ _ Hle) as Hlen_i. pose proof (Forall2_length _ _ _ Hlo) as Hlen_o.
  rewrite length_fmap in Hlen_i, Hlen_o.
  rewrite Hlen_i in Hi. rewrite Hlen_o in Ho.
  destruct (begin_request_spec w) as (c0 & seq & w1 & Hb & Hw0 & Hs1).
  pose proof (fun sc h Hsc => shim_exact enough handle type sc seq h ins outs (server_of w1).2 Hsc Hso
    Hi Ho) as Hshim. rewrite Hs1 in Hshim.
  destruct (tfm_psa_call _ _ _ _ _) as [r ws']. intros Hfrep m' Hd.
  unfold ErpcClient.erpc_psa_call. rewrite Hb. specialize (Hfreq seq). unfold call_request in Hfreq.
  pose proof (wrote_message _ _ Hw0 kInvocationMessage kpsa_client_api_service_id
    kpsa_client_api_erpc_psa_call_id seq (law_fits_app [_] _ Hfreq)) as Hw1.
  pose proof (wrote_i32 _ _ Hw1 handle Hh (law_fits_app [_; _] _ Hfreq)) as Hw2.
  pose proof (wrote_i32 _ _ Hw2 type Ht (law_fits_app [_; _; _] _ Hfreq)) as Hw3. cbn [app] in Hw3.
  destruct (write_list_loaded m _ _ rest_i _ _ Hle Hw3) as (c1 & Hwi & Hw4).
  { apply (law_fits_app _ (list_items outs)). rewrite <- app_assoc. exact Hfreq. }
  destruct (write_list_loaded m _ _ rest_o _ _ Hlo Hw4) as (c2 & Hwo & Hw5).
  { by rewrite <- app_assoc. }
  rewrite length_fmap in Hwi, Hwo. rewrite Hwi. cbn [mbind option_bind]. rewrite Hwo. cbn [mbind option_bind].
  rewrite <- app_assoc in Hw5. cbn [app] in Hw5.
  destruct (perform_spec c2 w1 kpsa_client_api_erpc_psa_call_id seq _
    (list_items (result_bytes <$> r.2) ++ [II32 r.1]) (set_nesting (K := K) false ws') Hw5) as (c3 & w2 & Hp & Hc3 & Hs2).
  { intros sc h Hsc. destruct (Hshim sc h Hsc (Hfrep seq)) as (sc' & h' & Hshim' & Hw). exists sc', h'.
    rewrite Hs1. by split. }
  rewrite Hp.
  destruct (read_list_delivers (binary_of_vec <$> out_vec) rest_o (result_bytes <$> r.2) c3 [II32 r.1] m m' Hc3)
    as (c4 & Hrl & Hc4); [| by rewrite <- list_fmap_compose |].
  { apply deliver_length in Hd. rewrite !length_fmap in Hd. rewrite length_fmap, <- Hd.
    rewrite law_max_iovec in Ho. lia. }
  rewrite length_fmap in Hrl. rewrite Hrl. cbn [mbind option_bind].
  destruct (reads_i32 _ _ _ Hc4) as (c5 & -> & Hs5 & _). rewrite Hs5. cbn [mbind option_bind].
  rewrite shim_result_ok. cbn [mbind option_bind]. eexists. split; [done|]. by rewrite end_request_spec.
Qed.

Lemma received_lengths (es : list ErpcClient.binary) bss :
  length es = length bss -> dataLength <$> zip_with received es bss = (fun bs => Z.of_nat (length bs)) <$> bss.
Proof. revert bss. induction es as [|e es IH]; intros [|bs bss] Hl; simpl in *; try done. rewrite IH by lia. done. Qed.

Lemma resized_results vs outs outs' :
  Forall2 same_room (vecs_of outs) outs' -> length vs = length outs ->
  resized vs ((fun bs => Z.of_nat (length bs)) <$> (result_bytes <$> outs')) =
    zip_with (fun v r => mkVec (base v) (len r)) vs outs'.
Proof.
  unfold resized, vecs_of. revert vs outs'. induction outs as [|bs outs IH]; intros [|v vs] outs' Hr Hl; try done.
  apply Forall2_cons_inv_l in Hr as (r & outs'' & Hr & Hrs & ->). cbn.
  rewrite (result_bytes_length bs r Hr). f_equal. apply IH; [done | simpl in Hl; lia].
Qed.

(** C4. The PSA call through eRPC is the PSA call: with memory on the server and
    messages that fit, [psa_call] of the client, whose vectors are packed,
    sent, unpacked on the server and sent back, gives the status, the output
    lengths and the memory of the call made directly, and leaves the service in
    the same state. *)
Theorem psa_call_transparent handle type in_vec out_vec m w status out_vec' m' ws' :
  (forall n size, malloc_ok n size = true) ->
  Forall vec_ok in_vec -> Forall vec_ok out_vec ->
  Z.of_nat (length in_vec + length out_vec) <= PSA_MAX_IOVEC ->
  - 2 ^ 31 <= handle < 2 ^ 31 -> - 2 ^ 31 <= type < 2 ^ 31 ->
  (forall ins outs, mapM (load_vec m) in_vec = Some ins -> mapM (load_vec m) out_vec = Some outs ->
    forall seq, fits (call_request handle type ins outs seq) /\
      fits (call_reply seq (tfm_psa_call handle type (vecs_of ins) (vecs_of outs)
        (set_nesting (K := K) true (server_of w).2)).1)) ->
  direct_call handle type in_vec out_vec m (set_nesting (K := K) true (server_of w).2) =
    Some (status, out_vec', m', ws') ->
  exists w', psa_call (K := K) handle type in_vec (Z.of_nat (length in_vec)) out_vec (Z.of_nat (length out_vec)) m w =
      Some (status, out_vec', m', w') /\
    (server_of w').2 = set_nesting (K := K) false ws'.
Proof.
  intros enough Hiv Hov Hn Hh Ht Hfits. unfold direct_call.
  destruct (mapM (load_vec m) in_vec) as [ins|] eqn:Hins; [|done]. cbn [mbind option_bind].
  destruct (mapM (load_vec m) out_vec) as [outs|] eqn:Houts; [|done]. cbn [mbind option_bind].
  specialize (Hfits ins outs eq_refl eq_refl).
  pose proof (fun H => erpc_psa_call_served handle type in_vec out_vec ins outs
    (replicate (Z.to_nat PSA_MAX_IOVEC - length in_vec) uninit_binary)
    (replicate (Z.to_nat PSA_MAX_IOVEC - length out_vec) uninit_binary) m w enough Hiv Hov Hins Houts
    ltac:(lia) ltac:(lia) Hh Ht H) as Hserved.
  pose proof (law_call_outs handle type ins outs (set_nesting (K := K) true (server_of w).2))
    as Hroom.
  destruct (tfm_psa_call _ _ _ _ _) as [[st outs'] ws1]. cbn [fst snd] in *.
  destruct (deliver _ _ m) as [m1|] eqn:Hd; [|done]. cbn [mbind option_bind]. intros [= <- <- <- <-].
  destruct (Hserved (fun seq => proj1 (Hfits seq)) (fun seq => proj2 (Hfits seq)) m1 eq_refl) as (w' & Hcall & Hs).
  exists w'. split; [|done]. unfold psa_call, iovec_array.
  assert (0 < size_bits /\ 2 ^ 32 <= 2 ^ size_bits) as [Hb Hb'] by (destruct law_abi as [[-> _]|[-> _]]; lia).
  pose proof law_max_iovec as Hmax. rewrite wrapu_small, (proj2 (Z.ltb_ge _ _)) by lia.
  rewrite !copy_into_array by lia. cbn [mbind option_bind]. rewrite !wrapu_small by lia. rewrite Hcall.
  cbn [mbind option_bind elements]. destruct (Z.eqb_spec st PSA_SUCCESS) as [->|Hne]; cbn [negb]; [|done].
  pose proof (deliver_length _ _ _ _ Hd) as Hl. rewrite !length_fmap in Hl.
  pose proof (copy_lengths_spec (replicate (Z.to_nat PSA_MAX_IOVEC - length out_vec) uninit_binary)
    (zip_with received (binary_of_vec <$> out_vec) (result_bytes <$> outs')) [] [] out_vec
    (S (Z.to_nat PSA_MAX_IOVEC)) eq_refl) as Hcl.
  rewrite length_zip_with, !length_fmap, Hl, Nat.min_id in Hcl. cbn [length Nat.add app] in Hcl.
  rewrite Hl. rewrite Hcl by lia. cbn [mbind option_bind].
  rewrite received_lengths by (by rewrite !length_fmap).
  rewrite (resized_results out_vec outs outs' Hroom); [done|].
  by apply mapM_Some, Forall2_length in Houts.
Qed.

(** ** The calls without vectors *)

Lemma psa_framework_version_served w :
  let '(v, ws') := tfm_psa_framework_version (set_nesting (K := K) true (server_of w).2) in
  (forall seq, fits [IMessage kInvocationMessage kpsa_client_api_service_id
       kpsa_client_api_psa_framework_version_id seq] /\
     fits [reply_header kpsa_client_api_psa_framework_version_id seq; IU32 v]) ->
  exists w', ErpcClient.psa_framework_version (K := K) w = Some (v, w') /\
    (server_of w').2 = set_nesting (K := K) false ws'.
Proof.
  destruct (begin_request_spec w) as (c0 & seq & w1 & Hb & Hw0 & Hs1).
  pose proof (fun sc => framework_version_exact sc seq (server_of w1).2) as Hshim. rewrite Hs1 in Hshim.
  destruct (tfm_psa_framework_version _) as [v ws']. intros Hfits.
  unfold ErpcClient.psa_framework_version. rewrite Hb. destruct (Hfits seq) as [Hf Hfr].
  pose proof (wrote_message _ _ Hw0 _ _ _ _ Hf) as Hw1.
  destruct (perform_spec _ w1 _ seq [] [IU32 v] (set_nesting (K := K) false ws') Hw1) as (c1 & w2 & -> & Hc1 & Hs2).
  { intros sc h Hsc. destruct (Hshim sc Hsc Hfr) as (c' & Hr & Hw). exists c', h.
    unfold handleInvocation. rewrite Hs1, Hr. by split. }
  destruct (reads_u32 _ _ _ Hc1) as (c2 & -> & Hs & _). rewrite Hs, shim_result_ok.
  eexists. split; [done|]. by rewrite end_request_spec.
Qed.

Lemma psa_version_served sid w :
  0 <= sid < 2 ^ 32 ->
  let '(v, ws') := tfm_psa_version sid (set_nesting (K := K) true (server_of w).2) in
  (forall seq, fits [IMessage kInvocationMessage kpsa_client_api_service_id kpsa_client_api_psa_version_id seq;
       IU32 sid] /\ fits [reply_header kpsa_client_api_psa_version_id seq; IU32 v]) ->
  exists w', ErpcClient.psa_version (K := K) sid w = Some (v, w') /\
    (server_of w').2 = set_nesting (K := K) false ws'.
Proof.
  intros Hsid. destruct (begin_request_spec w) as (c0 & seq & w1 & Hb & Hw0 & Hs1).
  pose proof (fun sc => version_exact sc seq sid (server_of w1).2) as Hshim. rewrite Hs1 in Hshim.
  destruct (tfm_psa_version _ _) as [v ws']. intros Hfits.
  unfold ErpcClient.psa_version. rewrite Hb. destruct (Hfits seq) as [Hf Hfr].
  pose proof (wrote_message _ _ Hw0 _ _ _ _ (law_fits_app [_] _ Hf)) as Hw1.
  pose proof (wrote_u32 _ _ Hw1 sid Hsid Hf) as Hw2.
  destruct (perform_spec _ w1 _ seq [IU32 sid] [IU32 v] (set_nesting (K := K) false ws') Hw2)
    as (c1 & w2 & -> & Hc1 & Hs2).
  { intros sc h Hsc. destruct (Hshim sc Hsc Hfr) as (c' & Hr & Hw). exists c', h.
    unfold handleInvocation. rewrite Hs1. cbn [Z.eqb]. rewrite Hr. by split. }
  destruct (reads_u32 _ _ _ Hc1) as (c2 & -> & Hs & _). rewrite Hs, shim_result_ok.
  eexists. split; [done|]. by rewrite end_request_spec.
Qed.

Lemma psa_connect_served sid ver w :
  0 <= sid < 2 ^ 32 -> 0 <= ver < 2 ^ 32 ->
  let '(v, ws') := tfm_psa_connect sid ver (set_nesting (K := K) true (server_of w).2) in
  (forall seq, fits [IMessage kInvocationMessage kpsa_client_api_service_id kpsa_client_api_psa_connect_id seq;
       IU32 sid; IU32 ver] /\ fits [reply_header kpsa_client_api_psa_connect_id seq; II32 v]) ->
  exists w', ErpcClient.psa_connect (K := K) sid ver w = Some (v, w') /\
    (server_of w').2 = set_nesting (K := K) false ws'.
Proof.
  intros Hsid Hver. destruct (begin_request_spec w) as (c0 & seq & w1 & Hb & Hw0 & Hs1).
  pose proof (fun sc => connect_exact sc seq sid ver (server_of w1).2) as Hshim. rewrite Hs1 in Hshim.
  destruct (tfm_psa_connect _ _ _) as [v ws']. intros Hfits.
  unfold ErpcClient.psa_connect. rewrite Hb. destruct (Hfits seq) as [Hf Hfr].
  pose proof (wrote_message _ _ Hw0 _ _ _ _ (law_fits_app [_] _ Hf)) as Hw1.
  pose proof (wrote_u32 _ _ Hw1 sid Hsid (law_fits_app [_; _] _ Hf)) as Hw2.
  pose proof (wrote_u32 _ _ Hw2 ver Hver Hf) as Hw3.
  destruct (perform_spec _ w1 _ seq [IU32 sid; IU32 ver] [II32 v] (set_nesting (K := K) false ws') Hw3)
    as (c1 & w2 & -> & Hc1 & Hs2).
  { intros sc h Hsc. destruct (Hshim sc Hsc Hfr) as (c' & Hr & Hw). exists c', h.
    unfold handleInvocation. rewrite Hs1. cbn [Z.eqb]. rewrite Hr. by split. }
  destruct (reads_i32 _ _ _ Hc1) as (c2 & -> & Hs & _). rewrite Hs, shim_result_ok.
  eexists. split; [done|]. by rewrite end_request_spec.
Qed.

Lemma psa_close_served handle w :
  - 2 ^ 31 <= handle < 2 ^ 31 ->
  (forall seq, fits [IMessage kInvocationMessage kpsa_client_api_service_id kpsa_client_api_psa_close_id seq;
       II32 handle] /\ fits [reply_header kpsa_client_api_psa_close_id seq]) ->
  (server_of (ErpcClient.psa_close (K := K) handle w)).2 =
    set_nesting (K := K) false (tfm_psa_close handle (set_nesting (K := K) true (server_of w).2)).
Proof.
  intros Hh Hfits. destruct (begin_request_spec w) as (c0 & seq & w1 & Hb & Hw0 & Hs1).
  pose proof (fun sc => close_exact sc seq handle (server_of w1).2) as Hshim. rewrite Hs1 in Hshim.
  unfold ErpcClient.psa_close. rewrite Hb. destruct (Hfits seq) as [Hf Hfr].
  pose proof (wrote_message _ _ Hw0 _ _ _ _ (law_fits_app [_] _ Hf)) as Hw1.
  pose proof (wrote_i32 _ _ Hw1 handle Hh Hf) as Hw2.
  destruct (perform_spec _ w1 _ seq [II32 handle] []
    (set_nesting (K := K) false (tfm_psa_close handle (set_nesting (K := K) true (server_of w).2))) Hw2)
    as (c1 & w2 & -> & Hc1 & Hs2).
  { intros sc h Hsc. destruct (Hshim sc Hsc Hfr) as (c' & Hr & Hw). exists c', h.
    unfold handleInvocation. rewrite Hs1. cbn [Z.eqb]. rewrite Hr. by split. }
  by rewrite end_request_spec.
Qed.

(** An item other than a block of bytes. *)
Definition scalar_item (x : item) : Prop := match x with IBinary _ => False | _ => True end.

(** C35. The other calls through eRPC are the calls: the client gets the value that
    the secure side returns, and the service is left in the state in which
    the direct call leaves it.  The buffers of the transport have to hold the
    small messages of these calls: a header and at most two scalars. *)
Theorem scalar_calls_transparent sid ver handle w :
  0 <= sid < 2 ^ 32 -> 0 <= ver < 2 ^ 32 -> - 2 ^ 31 <= handle < 2 ^ 31 ->
  let ws := set_nesting (K := K) true (server_of w).2 in
  (forall its, (length its <= 3)%nat -> Forall scalar_item its -> fits its) ->
  (exists w', ErpcClient.psa_framework_version (K := K) w = Some ((tfm_psa_framework_version ws).1, w') /\
    (server_of w').2 = set_nesting (K := K) false (tfm_psa_framework_version ws).2) /\
  (exists w', ErpcClient.psa_version (K := K) sid w = Some ((tfm_psa_version sid ws).1, w') /\
    (server_of w').2 = set_nesting (K := K) false (tfm_psa_version sid ws).2) /\
  (exists w', ErpcClient.psa_connect (K := K) sid ver w = Some ((tfm_psa_connect sid ver ws).1, w') /\
    (server_of w').2 = set_nesting (K := K) false (tfm_psa_connect sid ver ws).2) /\
  (server_of (ErpcClient.psa_close (K := K) handle w)).2 =
    set_nesting (K := K) false (tfm_psa_close handle ws).
Proof.
  intros Hsid Hver Hh ws Hfits.
  pose proof (psa_framework_version_served w) as H1. pose proof (psa_version_served sid w Hsid) as H2.
  pose proof (psa_connect_served sid ver w Hsid Hver) as H3. pose proof (psa_close_served handle w Hh) as H4.
  fold ws in H1, H2, H3, H4.
  destruct (tfm_psa_framework_version ws), (tfm_psa_version sid ws), (tfm_psa_connect sid ver ws).
  split_and!; [apply H1 | apply H2 | apply H3 | apply H4]; intros seq; split;
    (apply Hfits; [simpl; lia | by repeat constructor]).
Qed.
End link.

(** ** Errors of the client *)

Section client_errors.
  Context {EC : ErpcConsts} {ECL : ErpcConstsLaws} {PC : PsaClientConsts} {PCL : PsaClientConstsLaws}.
  Context {AB : Abi} {ABL : AbiLaws} {K Wc : Type} {CD : Codec K}.
  Context {CRL : CodecReadLaws K} {CM : ClientManager K Wc}.
  Implicit Types (c : K) (w : Wc) (m : mem).

(** There is no codec for the request, or the request cannot be performed. *)
Definition transport_fails : Prop :=
  (forall w, (createRequest (K := K) false w).1.1 = None) \/
  (forall c w, getStatus (performRequest c w).1 <> kErpcStatus_Success).

Lemma shim_result_error err error_value v w :
  err <> kErpcStatus_Success -> shim_result err error_value v w = Some (error_value, w).
Proof. intros H. unfold shim_result. by rewrite (proj2 (Z.eqb_neq _ _) H). Qed.

Lemma memory_error : kErpcStatus_MemoryError <> kErpcStatus_Success.
Proof. pose proof erpc_status_NoDup as H. apply NoDup_cons in H as [H _]. set_solver. Qed.

(** A shim of the client over a body that sends with [f] and reads with
    [rd]. *)
Lemma scalar_error (f : Z -> K -> K) (rd : K -> option Z * K) id error_value w :
  transport_fails ->
  (forall c, getStatus c <> kErpcStatus_Success -> getStatus (rd c).2 = getStatus c) ->
  exists w', (let '((codec, seq), w) := begin_request (K := K) w in
    let '(err, result, w) :=
      match codec with
      | None => (kErpcStatus_MemoryError, None, w)
      | Some codec =>
          let codec := f seq codec in
          let '(codec, w) := performRequest codec w in
          let '(result, codec) := rd codec in
          (getStatus codec, result, w)
      end in
    let w := end_request (K := K) err id w in
    shim_result err error_value result w) = Some (error_value, w').
Proof.
  intros Hfail Hrd. unfold begin_request. set (w0 := if ERPC_PRE_POST_ACTION then _ else w).
  destruct (createRequest false w0) as [[codec seq] w1] eqn:Hc. destruct codec as [c|].
  - destruct Hfail as [Hfail|Hfail]; [by specialize (Hfail w0); rewrite Hc in Hfail|].
    specialize (Hfail (f seq c) w1). destruct (performRequest (f seq c) w1) as [c1 w2]. cbn in Hfail.
    specialize (Hrd c1 Hfail). destruct (rd c1) as [v c2]. cbn in Hrd.
    rewrite shim_result_error by congruence. by eexists.
  - rewrite shim_result_error by apply memory_error. by eexists.
Qed.

Lemma write_elements_any m es rest : forall pre fuel c,
  Forall (fun e => is_Some (load_bytes (Erpc.data e) (dataLength e) m)) es -> (length es < fuel)%nat ->
  is_Some (ErpcClient.write_elements fuel (length pre) c
    (mkList (Some (pre ++ es ++ rest)) (Z.of_nat (length pre + length es))) m).
Proof.
  induction es as [|e es IH]; intros pre [|fuel] c Hes Hf; try (simpl in *; lia);
    cbn [ErpcClient.write_elements elementsCount elements].
  - rewrite (proj2 (Z.ltb_ge _ _)) by (simpl; lia). by eexists.
  - apply Forall_cons in Hes as [[bs Hb] Hes]. rewrite (proj2 (Z.ltb_lt _ _)) by (simpl; lia).
    unfold element_ptr. cbn [app]. rewrite list_lookup_middle by done.
    cbn [fmap option_fmap option_map mbind option_bind ErpcClient.write_binary_t_struct]. rewrite Hb.
    cbn [mbind option_bind].
    pose proof (IH (pre ++ [e]) fuel (writeBinary (dataLength e) bs c) Hes ltac:(simpl in *; lia)) as Hr.
    rewrite length_app, <- !app_assoc in Hr. cbn [length app] in Hr.
    replace (S (length pre)) with (length pre + 1)%nat by lia.
    by replace (length pre + length (e :: es))%nat with (length pre + 1 + length es)%nat by (simpl; lia).
Qed.

Lemma write_list_any m (vs : list iovec) c :
  Forall vec_ok vs -> Forall (fun v => is_Some (load_vec m v)) vs -> Z.of_nat (length vs) <= PSA_MAX_IOVEC ->
  exists c', ErpcClient.write_list_binary_1_t_struct c
    (Some (mkList (Some ((binary_of_vec <$> vs) ++
        replicate (Z.to_nat PSA_MAX_IOVEC - length vs) uninit_binary)) (Z.of_nat (length vs)))) m = Some c'.
Proof.
  intros Hok Hvs Hn. unfold ErpcClient.write_list_binary_1_t_struct. cbn [elements elementsCount].
  set (fuel := element_fuel _). set (rest := replicate _ _).
  pose proof (write_elements_any m (binary_of_vec <$> vs) rest [] fuel (startWriteList (Z.of_nat (length vs)) c)) as H.
  rewrite length_fmap in H. apply H.
  - apply Forall_fmap. rewrite Forall_forall in Hok, Hvs |- *. intros v Hv. cbn.
    destruct (Hok v Hv). rewrite wrapu_small by lia. by apply Hvs.
  - unfold fuel, element_fuel. cbn. rewrite length_app, length_fmap. lia.
Qed.

Lemma read_elements_none c es m :
  ErpcClient.read_elements (element_fuel es) 0 c (mkList es 0) m = Some (mkList es 0, c, m).
Proof. done. Qed.

(** C37. When the transport fails, every call ends and returns its error value:
    [psa_framework_version] and [psa_version] 0xFFFFFFFF, [psa_connect] and
    [psa_call] -1; [psa_call] then writes neither to the output vectors nor to
    the memory. *)
Theorem failed_transport sid ver handle type in_vec out_vec m w :
  transport_fails ->
  Forall vec_ok (in_vec ++ out_vec) -> Forall (fun v => is_Some (load_vec m v)) (in_vec ++ out_vec) ->
  Z.of_nat (length in_vec + length out_vec) <= PSA_MAX_IOVEC ->
  (exists w', ErpcClient.psa_framework_version (K := K) w = Some (2 ^ 32 - 1, w')) /\
  (exists w', ErpcClient.psa_version (K := K) sid w = Some (2 ^ 32 - 1, w')) /\
  (exists w', ErpcClient.psa_connect (K := K) sid ver w = Some (-1, w')) /\
  (exists w', psa_call (K := K) handle type in_vec (Z.of_nat (length in_vec)) out_vec (Z.of_nat (length out_vec)) m w =
    Some (-1, out_vec, m, w')).
Proof.
  intros Hfail [Hoi Hoo]%Forall_app [Hli Hlo]%Forall_app Hn.
  assert (forall c, getStatus c <> kErpcStatus_Success -> getStatus (read_u32 c).2 = getStatus c) as Hu
    by (intros c Hc; apply (law_read_error c Hc)).
  assert (forall c, getStatus c <> kErpcStatus_Success -> getStatus (read_i32 c).2 = getStatus c) as Hi
    by (intros c Hc; apply (law_read_error c Hc)).
  split_and!.
  - by apply (scalar_error (fun seq c => startWriteMessage _ _ _ seq c) read_u32).
  - by apply (scalar_error (fun seq c => write_u32 sid (startWriteMessage _ _ _ seq c)) read_u32).
  - by apply (scalar_error (fun seq c => write_u32 ver (write_u32 sid (startWriteMessage _ _ _ seq c))) read_i32).
  - assert (0 < size_bits /\ 2 ^ 32 <= 2 ^ size_bits) as [Hb Hb'] by (destruct law_abi as [[-> _]|[-> _]]; lia).
    pose proof law_max_iovec as Hmax. unfold psa_call, iovec_array.
    rewrite wrapu_small, (proj2 (Z.ltb_ge _ _)) by lia.
    rewrite !copy_into_array by lia. cbn [mbind option_bind]. rewrite !wrapu_small by lia.
    assert (-1 <> PSA_SUCCESS) as Hps by (rewrite law_psa_success; lia).
    unfold ErpcClient.erpc_psa_call, begin_request. set (w0 := if ERPC_PRE_POST_ACTION then _ else w).
    destruct (createRequest false w0) as [[codec seq] w1] eqn:Hc. destruct codec as [c|].
    + destruct Hfail as [Hfail|Hfail]; [by specialize (Hfail w0); rewrite Hc in Hfail|].
      match goal with |- context [write_i32 type ?x] => set (c0 := write_i32 type x) end.
      destruct (write_list_any m in_vec c0 Hoi Hli ltac:(lia)) as [c1 ->]. cbn [mbind option_bind].
      destruct (write_list_any m out_vec c1 Hoo Hlo ltac:(lia)) as [c2 ->]. cbn [mbind option_bind].
      specialize (Hfail c2 w1). destruct (performRequest c2 w1) as [c3 w2]. cbn in Hfail.
      unfold ErpcClient.read_list_binary_1_t_struct.
      destruct (law_read_error c3 Hfail) as (_ & _ & _ & Hst & Hn0).
      destruct (startReadList c3) as [n c4]. cbn in Hst, Hn0. subst n. cbn [mbind option_bind elements].
      rewrite read_elements_none. cbn [mbind option_bind].
      pose proof (Hi c4 ltac:(congruence)) as Hs4. destruct (read_i32 c4) as [v c5]. cbn in Hs4. cbn [mbind option_bind].
      rewrite shim_result_error by congruence. cbn [mbind option_bind].
      rewrite (proj2 (Z.eqb_neq _ _) Hps). by eexists.
    + cbn [mbind option_bind]. rewrite shim_result_error by apply memory_error. cbn [mbind option_bind].
      rewrite (proj2 (Z.eqb_neq _ _) Hps). by eexists.
Qed.

(** The check of the number of vectors is on the [size_t] sum: without wrap it
    refuses exactly the calls with more than [PSA_MAX_IOVEC] vectors, and
    sends nothing; a sum that wraps to at most [PSA_MAX_IOVEC] passes, and the
    call then leaves the local arrays (undefined). *)
Theorem psa_call_length_check handle type in_vec in_len out_vec out_len m w :
  0 <= in_len < 2 ^ size_bits -> 0 <= out_len < 2 ^ size_bits ->
  (in_len + out_len < 2 ^ size_bits -> PSA_MAX_IOVEC < in_len + out_len ->
    psa_call (K := K) handle type in_vec in_len out_vec out_len m w =
      Some (PSA_ERROR_PROGRAMMER_ERROR, out_vec, m, w)) /\
  (2 ^ size_bits <= in_len + out_len <= 2 ^ size_bits + PSA_MAX_IOVEC ->
    psa_call (K := K) handle type in_vec in_len out_vec out_len m w = None).
Proof.
  intros Hi Ho. pose proof law_max_iovec as Hmax.
  assert (2 ^ 32 <= 2 ^ size_bits) as Hb by (destruct law_abi as [[-> _]|[-> _]]; lia). split.
  - intros Hs Hm. unfold psa_call. by rewrite wrapu_small, (proj2 (Z.ltb_lt _ _)) by lia.
  - intros Hs. unfold psa_call, iovec_array.
    assert (wrapu size_bits (in_len + out_len) = in_len + out_len - 2 ^ size_bits) as ->.
    { unfold wrapu. symmetry. apply Z.mod_unique with 1; lia. }
    rewrite (proj2 (Z.ltb_ge _ _)) by lia.
    destruct (decide (PSA_MAX_IOVEC < in_len)) as [Hbig|Hsmall].
    + rewrite (copy_vecs_overflow _ _ _ in_len); [done | lia | rewrite length_replicate; lia].
    + destruct (copy_vecs _ _ 0 in_len _ _); [|done]. cbn [mbind option_bind].
      rewrite copy_vecs_overflow; [done | lia | rewrite length_replicate; lia].
Qed.
End client_errors.

(** A reply with more data than the caller's buffer is copied past its end. *)
Lemma reply_length_unchecked {EC : ErpcConsts} {K} {CD : Codec K} {CL : CodecLaws K} (c : K) l n bs old its (m : mem) :
  reads c (IBinary bs :: its) -> m !! l = Some old -> (length old < length bs)%nat ->
  ErpcClient.read_binary_t_struct c (Some (mkBinary (At l) n)) m = None.
Proof.
  intros Hc Hl Hn. cbn [ErpcClient.read_binary_t_struct]. destruct (reads_binary _ _ _ Hc) as (c' & -> & _).
  change (default [] (Some bs)) with bs. unfold store_bytes. destruct bs as [|b bs]; [simpl in Hn; lia|].
  cbn [Erpc.data]. rewrite Hl. cbn [mbind option_bind]. by rewrite decide_False by lia.
Qed.

(** ** Witnesses *)

(** A loopback transport: the server's heap and world are the client's. *)
Definition loopback (c : ref_codec) (w : heap * Z) : ref_codec * (heap * Z) :=
  let failed := (mkCodec overrun (c_out c) [], w) in
  if negb (c_status c =? 0) then (c, w)
  else match c_out c with
       | IMessage t s mid seq :: args =>
           match handleInvocation mid seq (mkCodec 0 [] args) w.1 w.2 with
           | Some (err, sc, h, ws) =>
               if err =? 0 then
                 match c_out sc with
                 | _ :: res => (mkCodec 0 (c_out c) res, (h, ws))
                 | [] => failed
                 end
               else failed
           | None => failed
           end
       | _ => failed
       end.

#[export] Instance ref_manager : ClientManager ref_codec (heap * Z) := {
  createRequest oneway w := ((Some (mkCodec 0 [] []), 9), w);
  performRequest := loopback;
  releaseRequest w := w;
  callErrorHandler err id w := w;
  getPreCB w := None;
  getPostCB w := None;
}.

#[export] Program Instance ref_link : Link ref_codec Z (heap * Z) := { server_of w := w }.
Next Obligation. intros w. by exists (mkCodec 0 [] []), 9, w. Qed.
Next Obligation.
  intros c w mid seq args [Hs Hw]. cbn in Hs, Hw. exists (mkCodec 0 [] args). split; [done|].
  intros sc' h' ws' res Hh [Hs' Hw']. cbn in Hw'. cbn. unfold loopback. rewrite Hs, Hw, Hh. cbn. rewrite Hw'.
  eexists _, _. split; [reflexivity|]. by split.
Qed.
Next Obligation. done. Qed.
Next Obligation. done. Qed.
Next Obligation. intros w f [[=]|[=]]. Qed.

Definition demo_mem : mem := <[1 := [1; 2]]> (<[2 := [0; 0; 0]]> ∅).
Definition demo_in : list iovec := [mkVec (At 1) 2].
Definition demo_out : list iovec := [mkVec (At 2) 3].

(** The output buffer gets the two bytes and the vector their number. *)
Example psa_call_transparent_witness :
  exists w', psa_call (K := ref_codec) 7 3 demo_in 1 demo_out 1 demo_mem (empty_heap, 0) =
      Some (0, [mkVec (At 2) 2], <[2 := [1; 2; 0]]> demo_mem, w') /\ w'.2 = 1.
Proof.
  destruct (psa_call_transparent (K := ref_codec) (Ws := Z) 7 3 demo_in demo_out demo_mem (empty_heap, 0)
    0 [mkVec (At 2) 2] (<[2 := [1; 2; 0]]> demo_mem) 1) as (w' & Hc & Hw); [done| | |done..| | |].
  - by repeat constructor.
  - by repeat constructor.
  - intros ins outs. vm_compute. intros [= <-] [= <-] seq. split; repeat constructor.
  - by vm_compute.
  - exists w'. split; [exact Hc | exact Hw].
Defined.

Example scalar_calls_transparent_witness :
  exists w', ErpcClient.psa_connect (K := ref_codec) 64 1 (empty_heap, 0) = Some (7, w') /\ w'.2 = 1.
Proof.
  destruct (scalar_calls_transparent (K := ref_codec) (Ws := Z) 64 1 7 (empty_heap, 0))
    as (_ & _ & (w' & Hc & Hw) & _); [done..| |].
  - intros its Hl _. cbn. unfold capacity. lia.
  - exists w'. split; [exact Hc | exact Hw].
Defined.

(** A client manager whose messages never arrive. *)
Definition dead_manager : ClientManager ref_codec Z := {|
  createRequest oneway w := ((Some (mkCodec 0 [] []), w), w + 1);
  performRequest c w := (mkCodec overrun (c_out c) [], w);
  releaseRequest w := w;
  callErrorHandler err id w := w;
  getPreCB w := None;
  getPostCB w := None;
|}.

Example failed_transport_witness :
  exists w', psa_call (K := ref_codec) (CM := dead_manager) 7 3 demo_in 1 demo_out 1 demo_mem 0 =
    Some (-1, demo_out, demo_mem, w').
Proof.
  destruct (failed_transport (K := ref_codec) (CM := dead_manager) 64 1 7 3 demo_in demo_out demo_mem 0)
    as (_ & _ & _ & w' & H); [by right | by repeat constructor | by repeat constructor; eexists | done |].
  exists w'. exact H.
Defined.

Example psa_call_length_check_witness :
  psa_call (K := ref_codec) (CM := dead_manager) 7 3 demo_in 5 demo_out 0 demo_mem 0 =
    Some (-129, demo_out, demo_mem, 0) /\
  psa_call (K := ref_codec) (CM := dead_manager) 7 3 demo_in (2 ^ 32 - 1) demo_out 2 demo_mem 0 = None.
Proof.
  split.
  - destruct (psa_call_length_check (K := ref_codec) (CM := dead_manager) 7 3 demo_in 5 demo_out 0 demo_mem 0)
      as [H _]; [done..|]. by apply H.
  - destruct (psa_call_length_check (K := ref_codec) (CM := dead_manager) 7 3 demo_in (2 ^ 32 - 1) demo_out 2
      demo_mem 0) as [_ H]; [done..|]. by apply H.
Defined.
