(* ===== verification/Cmsis.v ===== *)
(** * CMSIS-RTOS2: lib/ext/CMSIS/RTOS2/Include/cmsis_os2.h

    The types, constants and attribute records of the API, and its functions
    as classes.  The functions are implemented by RTX, which is not in the
    repository: the classes are parameters of the code that calls them. *)

From S2P Require Import Prelude.
Local Open Scope Z_scope.

(** ** Enumerations *)

Inductive osKernelState_t :=
  | osKernelInactive | osKernelReady | osKernelRunning | osKernelLocked | osKernelSuspended
  | osKernelError | osKernelReserved.

Definition osKernelState_value (s : osKernelState_t) : Z :=
  match s with
  | osKernelInactive => 0 | osKernelReady => 1 | osKernelRunning => 2 | osKernelLocked => 3
  | osKernelSuspended => 4 | osKernelError => -1 | osKernelReserved => 2 ^ 31 - 1
  end.

Inductive osThreadState_t :=
  | osThreadInactive | osThreadReady | osThreadRunning | osThreadBlocked | osThreadTerminated
  | osThreadError | osThreadReserved.

Definition osThreadState_value (s : osThreadState_t) : Z :=
  match s with
  | osThreadInactive => 0 | osThreadReady => 1 | osThreadRunning => 2 | osThreadBlocked => 3
  | osThreadTerminated => 4 | osThreadError => -1 | osThreadReserved => 2 ^ 31 - 1
  end.

(** The named priorities; a variable of the type can hold other values. *)
Inductive osPriority_t :=
  | osPriorityNone | osPriorityIdle | osPriorityLow | osPriorityLow1 | osPriorityLow2
  | osPriorityLow3 | osPriorityLow4 | osPriorityLow5 | osPriorityLow6 | osPriorityLow7
  | osPriorityBelowNormal | osPriorityBelowNormal1 | osPriorityBelowNormal2 | osPriorityBelowNormal3
  | osPriorityBelowNormal4 | osPriorityBelowNormal5 | osPriorityBelowNormal6 | osPriorityBelowNormal7
  | osPriorityNormal | osPriorityNormal1 | osPriorityNormal2 | osPriorityNormal3 | osPriorityNormal4
  | osPriorityNormal5 | osPriorityNormal6 | osPriorityNormal7 | osPriorityAboveNormal
  | osPriorityAboveNormal1 | osPriorityAboveNormal2 | osPriorityAboveNormal3 | osPriorityAboveNormal4
  | osPriorityAboveNormal5 | osPriorityAboveNormal6 | osPriorityAboveNormal7 | osPriorityHigh
  | osPriorityHigh1 | osPriorityHigh2 | osPriorityHigh3 | osPriorityHigh4 | osPriorityHigh5
  | osPriorityHigh6 | osPriorityHigh7 | osPriorityRealtime | osPriorityRealtime1
  | osPriorityRealtime2 | osPriorityRealtime3 | osPriorityRealtime4 | osPriorityRealtime5
  | osPriorityRealtime6 | osPriorityRealtime7 | osPriorityISR | osPriorityError | osPriorityReserved.

Definition osPriority_value (p : osPriority_t) : Z :=
  match p with
  | osPriorityNone => 0 | osPriorityIdle => 1 | osPriorityLow => 8 | osPriorityLow1 => 9
  | osPriorityLow2 => 10 | osPriorityLow3 => 11 | osPriorityLow4 => 12 | osPriorityLow5 => 13
  | osPriorityLow6 => 14 | osPriorityLow7 => 15 | osPriorityBelowNormal => 16
  | osPriorityBelowNormal1 => 17 | osPriorityBelowNormal2 => 18 | osPriorityBelowNormal3 => 19
  | osPriorityBelowNormal4 => 20 | osPriorityBelowNormal5 => 21 | osPriorityBelowNormal6 => 22
  | osPriorityBelowNormal7 => 23 | osPriorityNormal => 24 | osPriorityNormal1 => 25
  | osPriorityNormal2 => 26 | osPriorityNormal3 => 27 | osPriorityNormal4 => 28
  | osPriorityNormal5 => 29 | osPriorityNormal6 => 30 | osPriorityNormal7 => 31
  | osPriorityAboveNormal => 32 | osPriorityAboveNormal1 => 33 | osPriorityAboveNormal2 => 34
  | osPriorityAboveNormal3 => 35 | osPriorityAboveNormal4 => 36 | osPriorityAboveNormal5 => 37
  | osPriorityAboveNormal6 => 38 | osPriorityAboveNormal7 => 39 | osPriorityHigh => 40
  | osPriorityHigh1 => 41 | osPriorityHigh2 => 42 | osPriorityHigh3 => 43 | osPriorityHigh4 => 44
  | osPriorityHigh5 => 45 | osPriorityHigh6 => 46 | osPriorityHigh7 => 47 | osPriorityRealtime => 48
  | osPriorityRealtime1 => 49 | osPriorityRealtime2 => 50 | osPriorityRealtime3 => 51
  | osPriorityRealtime4 => 52 | osPriorityRealtime5 => 53 | osPriorityRealtime6 => 54
  | osPriorityRealtime7 => 55 | osPriorityISR => 56 | osPriorityError => (-1)
  | osPriorityReserved => 2147483647
  end.

(** Status codes *)
Inductive osStatus_t :=
  | osOK | osError | osErrorTimeout | osErrorResource | osErrorParameter | osErrorNoMemory
  | osErrorISR | osStatusReserved.

#[export] Instance osStatus_eq_dec : EqDecision osStatus_t.
Proof. solve_decision. Defined.

Definition osStatus_value (s : osStatus_t) : Z :=
  match s with
  | osOK => 0 | osError => -1 | osErrorTimeout => -2 | osErrorResource => -3
  | osErrorParameter => -4 | osErrorNoMemory => -5 | osErrorISR => -6 | osStatusReserved => 2 ^ 31 - 1
  end.

(** ** Constants *)

Definition osWaitForever : Z := 0xFFFFFFFF.
Definition osFlagsWaitAny : Z := 0.
Definition osFlagsWaitAll : Z := 1.
Definition osFlagsNoClear : Z := 2.
Definition osFlagsError : Z := 0x80000000.
Definition osFlagsErrorUnknown : Z := 0xFFFFFFFF.
Definition osFlagsErrorTimeout : Z := 0xFFFFFFFE.
Definition osFlagsErrorResource : Z := 0xFFFFFFFD.
Definition osFlagsErrorParameter : Z := 0xFFFFFFFC.
Definition osFlagsErrorISR : Z := 0xFFFFFFFA.
Definition osThreadDetached : Z := 0.
Definition osThreadJoinable : Z := 1.
Definition osMutexRecursive : Z := 1.
Definition osMutexPrioInherit : Z := 2.
Definition osMutexRobust : Z := 8.

(** ** Attributes *)

(** A handle or another pointer: [None] is NULL. *)
Definition handle : Type := option Z.

(** A C string: its bytes with the NUL, or NULL. *)
Definition c_name : Type := option (list Z).

Record osThreadAttr_t := mkThreadAttr {
  thread_name : c_name;
  thread_attr_bits : Z;
  thread_cb_mem : handle;
  thread_cb_size : Z;
  stack_mem : handle;
  stack_size : Z;
  priority : Z;
  tz_module : Z;
  thread_reserved : Z;
}.

(** The attributes of mutexes and semaphores have the same members. *)
Record osMutexAttr_t := mkMutexAttr {
  mutex_name : c_name;
  mutex_attr_bits : Z;
  mutex_cb_mem : handle;
  mutex_cb_size : Z;
}.

Record osSemaphoreAttr_t := mkSemaphoreAttr {
  semaphore_name : c_name;
  semaphore_attr_bits : Z;
  semaphore_cb_mem : handle;
  semaphore_cb_size : Z;
}.

Record osMessageQueueAttr_t := mkMessageQueueAttr {
  mq_name : c_name;
  mq_attr_bits : Z;
  mq_cb_mem : handle;
  mq_cb_size : Z;
  mq_mem : handle;
  mq_size : Z;
}.

(** ** Functions *)

(** A call that does not wait, and one that may: [None] is a call that does
    not return.  [W] is the state of the kernel and of the threads. *)
Definition call_of (W A : Type) : Type := W -> A * W.
Definition wait_of (W A : Type) : Type := W -> option (A * W).

Record osVersion_t := mkVersion { api : Z; kernel : Z }.

(** [osKernelGetInfo] returns the version and the identification string that
    it stores. *)
Class OsKernel (W : Type) := {
  osKernelInitialize : call_of W osStatus_t;
  osKernelGetInfo (id_size : Z) : call_of W (osStatus_t * osVersion_t * list Z);
  osKernelGetState : call_of W osKernelState_t;
  osKernelStart : wait_of W osStatus_t;
  osKernelLock : call_of W Z;
  osKernelUnlock : call_of W Z;
  osKernelRestoreLock (lock : Z) : call_of W Z;
  osKernelSuspend : call_of W Z;
  osKernelResume (sleep_ticks : Z) : call_of W unit;
  osKernelGetTickCount : call_of W Z;
  osKernelGetTickFreq : call_of W Z;
  osKernelGetSysTimerCount : call_of W Z;
  osKernelGetSysTimerFreq : call_of W Z;
}.

(** A thread function is named by an address. *)
Class OsThread (W : Type) := {
  osThreadNew (func : Z) (argument : handle) (attr : option osThreadAttr_t) : call_of W handle;
  osThreadGetName (thread_id : handle) : call_of W c_name;
  osThreadGetId : call_of W handle;
  osThreadGetState (thread_id : handle) : call_of W osThreadState_t;
  osThreadGetStackSize (thread_id : handle) : call_of W Z;
  osThreadGetStackSpace (thread_id : handle) : call_of W Z;
  osThreadSetPriority (thread_id : handle) (prio : Z) : call_of W osStatus_t;
  osThreadGetPriority (thread_id : handle) : call_of W Z;
  osThreadYield : call_of W osStatus_t;
  osThreadSuspend (thread_id : handle) : call_of W osStatus_t;
  osThreadResume (thread_id : handle) : call_of W osStatus_t;
  osThreadDetach (thread_id : handle) : call_of W osStatus_t;
  osThreadJoin (thread_id : handle) : wait_of W osStatus_t;
  osThreadExit : wait_of W unit;
  osThreadTerminate (thread_id : handle) : call_of W osStatus_t;
  osThreadGetCount : call_of W Z;
  osThreadEnumerate (array_items : Z) : call_of W (list handle);
}.

Class OsThreadFlags (W : Type) := {
  osThreadFlagsSet (thread_id : handle) (flags : Z) : call_of W Z;
  osThreadFlagsClear (flags : Z) : call_of W Z;
  osThreadFlagsGet : call_of W Z;
  osThreadFlagsWait (flags options timeout : Z) : wait_of W Z;
}.

Class OsWait (W : Type) := {
  osDelay (ticks : Z) : wait_of W osStatus_t;
  osDelayUntil (ticks : Z) : wait_of W osStatus_t;
}.

Class OsMutex (W : Type) := {
  osMutexNew (attr : option osMutexAttr_t) : call_of W handle;
  osMutexGetName (mutex_id : handle) : call_of W c_name;
  osMutexAcquire (mutex_id : handle) (timeout : Z) : wait_of W osStatus_t;
  osMutexRelease (mutex_id : handle) : call_of W osStatus_t;
  osMutexGetOwner (mutex_id : handle) : call_of W handle;
  osMutexDelete (mutex_id : handle) : call_of W osStatus_t;
}.

Class OsSemaphore (W : Type) := {
  osSemaphoreNew (max_count initial_count : Z) (attr : option osSemaphoreAttr_t) : call_of W handle;
  osSemaphoreGetName (semaphore_id : handle) : call_of W c_name;
  osSemaphoreAcquire (semaphore_id : handle) (timeout : Z) : wait_of W osStatus_t;
  osSemaphoreRelease (semaphore_id : handle) : call_of W osStatus_t;
  osSemaphoreGetCount (semaphore_id : handle) : call_of W Z;
  osSemaphoreDelete (semaphore_id : handle) : call_of W osStatus_t;
}.

(** A message is the bytes at its pointer; [osMessageQueueGet] returns those it
    stores. *)
Class OsMessageQueue (W : Type) := {
  osMessageQueueNew (msg_count msg_size : Z) (attr : option osMessageQueueAttr_t) : call_of W handle;
  osMessageQueueGetName (mq_id : handle) : call_of W c_name;
  osMessageQueuePut (mq_id : handle) (msg : list Z) (msg_prio timeout : Z) : wait_of W osStatus_t;
  osMessageQueueGet (mq_id : handle) (timeout : Z) : wait_of W (osStatus_t * list Z);
  osMessageQueueGetCapacity (mq_id : handle) : call_of W Z;
  osMessageQueueGetMsgSize (mq_id : handle) : call_of W Z;
  osMessageQueueGetCount (mq_id : handle) : call_of W Z;
  osMessageQueueGetSpace (mq_id : handle) : call_of W Z;
  osMessageQueueReset (mq_id : handle) : call_of W osStatus_t;
  osMessageQueueDelete (mq_id : handle) : call_of W osStatus_t;
}.

Class CmsisRtos (W : Type) := {
  os_kernel :: OsKernel W;
  os_thread :: OsThread W;
  os_thread_flags :: OsThreadFlags W;
  os_wait :: OsWait W;
  os_mutex :: OsMutex W;
  os_semaphore :: OsSemaphore W;
  os_message_queue :: OsMessageQueue W;
}.
