(* ===== verification/OsWrapperApi.v ===== *)
(** * The RTOS wrapper: lib/os_wrapper

    The interface that thread.h, semaphore.h, msg_queue.h, delay.h and tick.h
    declare, as a class, and what it promises.  [OsWrapper] implements it over
    CMSIS-RTOS2; [Mailbox] is proved against it. *)

From S2P Require Import Prelude Cmsis.
Local Open Scope Z_scope.

(** os_wrapper/common.h *)
Class OsWrapperConsts := {
  OS_WRAPPER_SUCCESS : Z;
  OS_WRAPPER_ERROR : Z;
  OS_WRAPPER_WAIT_FOREVER : Z;
  OS_WRAPPER_DEFAULT_STACK_SIZE : Z;
}.

Class OsWrapperConstsLaws {WC : OsWrapperConsts} := {
  law_success_error : OS_WRAPPER_SUCCESS <> OS_WRAPPER_ERROR;
  (** Also as [int32_t], which some of the functions return. *)
  law_success_int : i32 OS_WRAPPER_SUCCESS = OS_WRAPPER_SUCCESS;
  law_error_int : i32 OS_WRAPPER_ERROR <> OS_WRAPPER_SUCCESS;
  law_wait_forever : OS_WRAPPER_WAIT_FOREVER = 0xFFFFFFFF;
}.

(** thread.h: [os_wrapper_thread_get_priority] returns its status and what it
    stores in [*priority]. *)
Class OsWrapperThread (W : Type) := {
  os_wrapper_thread_new (name : c_name) (stack_size func : Z) (arg : handle) (priority : Z) :
    W -> option (handle * W);
  os_wrapper_thread_get_handle : call_of W handle;
  os_wrapper_thread_get_priority (h : handle) (priority : Z) : call_of W (Z * Z);
  os_wrapper_thread_exit : wait_of W unit;
  os_wrapper_thread_set_flag (h : handle) (flags : Z) : call_of W Z;
  os_wrapper_thread_set_flag_isr (h : handle) (flags : Z) : call_of W Z;
  os_wrapper_thread_wait_flag (flags timeout : Z) : wait_of W Z;
}.

Class OsWrapperSemaphore (W : Type) := {
  os_wrapper_semaphore_create (max_count initial_count : Z) (name : c_name) : call_of W handle;
  os_wrapper_semaphore_acquire (h : handle) (timeout : Z) : wait_of W Z;
  os_wrapper_semaphore_release (h : handle) : call_of W Z;
  os_wrapper_semaphore_delete (h : handle) : call_of W Z;
}.

(** os_wrapper/mutex.h, which is not in the repository; its functions are those
    of os_wrapper_cmsis_rtos_v2.c. *)
Class OsWrapperMutex (W : Type) := {
  os_wrapper_mutex_create : call_of W handle;
  os_wrapper_mutex_acquire (h : handle) (timeout : Z) : wait_of W Z;
  os_wrapper_mutex_release (h : handle) : call_of W Z;
  os_wrapper_mutex_delete (h : handle) : call_of W Z;
}.

(** msg_queue.h: the receive returns its status and the message it stores. *)
Class OsWrapperMsgQueue (W : Type) := {
  os_wrapper_msg_queue_create (msg_size msg_count : Z) : call_of W handle;
  os_wrapper_msg_queue_send (mq_handle : handle) (msg : list Z) : wait_of W Z;
  os_wrapper_msg_queue_receive (mq_handle : handle) : wait_of W (Z * list Z);
}.

(** delay.h *)
Class OsWrapperDelay (W : Type) := { os_wrapper_delay (ticks : Z) : wait_of W Z }.

(** tick.h *)
Class OsWrapperTick (W : Type) := { os_wrapper_get_tick : call_of W Z }.

(** ** What the interface promises *)

(** A view of the kernel: the flags of each thread and the thread that runs,
    the tokens and the maximum of each semaphore, the messages and the size of
    each queue. *)
Class OsView (W : Type) := {
  running : W -> Z;
  flags_of : W -> Z -> option Z;
  tokens_of : W -> Z -> option (Z * Z);
  queue_of : W -> Z -> option (list (list Z) * nat);
}.

(** Everything but the semaphore [h] is as it was. *)
Definition same_but_semaphore {W} {OV : OsView W} (h : Z) (w w' : W) : Prop :=
  running w' = running w /\ (forall t, flags_of w' t = flags_of w t) /\
  (forall q, queue_of w' q = queue_of w q) /\ (forall s, s <> h -> tokens_of w' s = tokens_of w s).

Definition same_but_flags {W} {OV : OsView W} (t : Z) (w w' : W) : Prop :=
  running w' = running w /\ (forall t', t' <> t -> flags_of w' t' = flags_of w t') /\
  (forall q, queue_of w' q = queue_of w q) /\ (forall s, tokens_of w' s = tokens_of w s).

Definition same_but_queue {W} {OV : OsView W} (q : Z) (w w' : W) : Prop :=
  running w' = running w /\ (forall t, flags_of w' t = flags_of w t) /\
  (forall q', q' <> q -> queue_of w' q' = queue_of w q') /\ (forall s, tokens_of w' s = tokens_of w s).

(** The object that a handle names, if there is one. *)
Definition named {W A} (find : W -> Z -> option A) (w : W) (h : handle) : option A := h ≫= find w.

(** The most tokens that the kernel lets a semaphore have. *)
Class OsLimits := { semaphore_limit : Z }.

Class OsSemaphorePromise {WC : OsWrapperConsts} {OL : OsLimits} (W : Type) {OV : OsView W}
    {OSem : OsWrapperSemaphore W} := {
  promise_create w max init name h w' :
    0 <= init <= max -> max <= semaphore_limit ->
    os_wrapper_semaphore_create max init name w = (Some h, w') ->
    tokens_of w h = None /\ tokens_of w' h = Some (init, max) /\ same_but_semaphore h w w';
  promise_create_fails w max init name w' :
    os_wrapper_semaphore_create max init name w = (None, w') -> w' = w;
  (** Waits for a token, forever. *)
  promise_acquire w h t max : tokens_of w h = Some (t, max) ->
    match os_wrapper_semaphore_acquire (Some h) OS_WRAPPER_WAIT_FOREVER w with
    | Some (r, w') => 0 < t /\ r = OS_WRAPPER_SUCCESS /\ tokens_of w' h = Some (t - 1, max) /\
        same_but_semaphore h w w'
    | None => t <= 0
    end;
  (** Waits for a limited time; not at all when it is 0. *)
  promise_acquire_timed w h t max timeout : tokens_of w h = Some (t, max) ->
    0 <= timeout < 2 ^ 32 -> timeout <> OS_WRAPPER_WAIT_FOREVER ->
    exists r w', os_wrapper_semaphore_acquire (Some h) timeout w = Some (r, w') /\
      if 0 <? t
      then r = OS_WRAPPER_SUCCESS /\ tokens_of w' h = Some (t - 1, max) /\ same_but_semaphore h w w'
      else if timeout =? 0 then r = OS_WRAPPER_ERROR /\ w' = w
      else r = OS_WRAPPER_SUCCESS \/ r = OS_WRAPPER_ERROR;
  promise_acquire_none w h timeout : named tokens_of w h = None ->
    os_wrapper_semaphore_acquire h timeout w = Some (OS_WRAPPER_ERROR, w);
  promise_release w h t max : tokens_of w h = Some (t, max) ->
    let '(r, w') := os_wrapper_semaphore_release (Some h) w in
    if t <? max
    then r = OS_WRAPPER_SUCCESS /\ tokens_of w' h = Some (t + 1, max) /\ same_but_semaphore h w w'
    else r = OS_WRAPPER_ERROR /\ w' = w;
  promise_release_none w h : named tokens_of w h = None -> os_wrapper_semaphore_release h w = (OS_WRAPPER_ERROR, w);
  promise_delete w h : is_Some (tokens_of w h) ->
    exists w', os_wrapper_semaphore_delete (Some h) w = (OS_WRAPPER_SUCCESS, w') /\
      tokens_of w' h = None /\ same_but_semaphore h w w';
  promise_delete_none w h : named tokens_of w h = None -> os_wrapper_semaphore_delete h w = (OS_WRAPPER_ERROR, w);
}.

Class OsFlagsPromise {WC : OsWrapperConsts} (W : Type) {OV : OsView W} {OT : OsWrapperThread W} := {
  promise_get_handle w : os_wrapper_thread_get_handle w = (Some (running w), w);
  (** Flags are the 31 low bits. *)
  promise_set_flag w t f flags : flags_of w t = Some f -> 0 <= flags < 2 ^ 31 ->
    exists w', os_wrapper_thread_set_flag_isr (Some t) flags w = (OS_WRAPPER_SUCCESS, w') /\
      os_wrapper_thread_set_flag (Some t) flags w = (OS_WRAPPER_SUCCESS, w') /\
      flags_of w' t = Some (Z.lor f flags) /\ same_but_flags t w w';
  promise_set_flag_none w h flags : named flags_of w h = None \/ 2 ^ 31 <= flags < 2 ^ 32 ->
    os_wrapper_thread_set_flag_isr h flags w = (OS_WRAPPER_ERROR, w) /\
    os_wrapper_thread_set_flag h flags w = (OS_WRAPPER_ERROR, w);
  (** Waits until all of [flags] are set, and clears them. *)
  promise_wait_flag w f flags : flags_of w (running w) = Some f -> 0 <= flags < 2 ^ 31 ->
    match os_wrapper_thread_wait_flag flags OS_WRAPPER_WAIT_FOREVER w with
    | Some (r, w') => Z.land f flags = flags /\ r = OS_WRAPPER_SUCCESS /\
        flags_of w' (running w) = Some (Z.ldiff f flags) /\ same_but_flags (running w) w w'
    | None => Z.land f flags <> flags
    end;
  (** Waits for a limited time; not at all when it is 0. *)
  promise_wait_flag_timed w f flags timeout : flags_of w (running w) = Some f -> 0 <= flags < 2 ^ 31 ->
    0 <= timeout < 2 ^ 32 -> timeout <> OS_WRAPPER_WAIT_FOREVER ->
    exists r w', os_wrapper_thread_wait_flag flags timeout w = Some (r, w') /\
      if Z.land f flags =? flags
      then r = OS_WRAPPER_SUCCESS /\ flags_of w' (running w) = Some (Z.ldiff f flags) /\ same_but_flags (running w) w w'
      else if timeout =? 0 then r = OS_WRAPPER_ERROR /\ w' = w
      else r = OS_WRAPPER_SUCCESS \/ r = OS_WRAPPER_ERROR;
  promise_wait_flag_none w flags timeout : 2 ^ 31 <= flags < 2 ^ 32 ->
    os_wrapper_thread_wait_flag flags timeout w = Some (OS_WRAPPER_ERROR, w);
}.

Class OsQueuePromise {WC : OsWrapperConsts} (W : Type) {OV : OsView W} {OQ : OsWrapperMsgQueue W} := {
  promise_queue_create w size count q w' : 0 <= size < 2 ^ 32 -> 0 <= count ->
    os_wrapper_msg_queue_create size count w = (Some q, w') ->
    queue_of w q = None /\ queue_of w' q = Some ([], Z.to_nat count) /\ same_but_queue q w w';
  promise_queue_create_fails w size count w' : os_wrapper_msg_queue_create size count w = (None, w') -> w' = w;
  promise_send w q ms cap msg : queue_of w q = Some (ms, cap) ->
    exists r w', os_wrapper_msg_queue_send (Some q) msg w = Some (r, w') /\
      if decide (length ms < cap)%nat
      then r = OS_WRAPPER_SUCCESS /\ queue_of w' q = Some (ms ++ [msg], cap) /\ same_but_queue q w w'
      else r = i32 OS_WRAPPER_ERROR /\ w' = w;
  (** Waits for a message, forever. *)
  promise_receive w q ms cap : queue_of w q = Some (ms, cap) ->
    match os_wrapper_msg_queue_receive (Some q) w, ms with
    | Some ((r, msg), w'), m :: ms => r = OS_WRAPPER_SUCCESS /\ msg = m /\
        queue_of w' q = Some (ms, cap) /\ same_but_queue q w w'
    | None, [] => True
    | _, _ => False
    end;
  promise_send_none w q msg : named queue_of w q = None ->
    os_wrapper_msg_queue_send q msg w = Some (i32 OS_WRAPPER_ERROR, w);
  promise_receive_none w q : named queue_of w q = None ->
    exists msg, os_wrapper_msg_queue_receive q w = Some ((i32 OS_WRAPPER_ERROR, msg), w);
}.
