(* ===== verification/OsWrapper.v ===== *)
(** * The RTOS wrapper over CMSIS-RTOS2: app_broker/os_wrapper_cmsis_rtos_v2.c

    Every function of the file, what each does to the kernel, and the proof
    that they keep what [OsWrapperApi] promises when the kernel behaves as
    cmsis_os2.h documents. *)

From S2P Require Import Prelude NsidManager NsidMap Cmsis OsWrapperApi.
Local Open Scope Z_scope.

Module CmsisRtosV2.
Section wrapper.
  Context {WC : OsWrapperConsts} {W : Type} {OS : CmsisRtos W}.
  (** [TFM_NS_MANAGE_NSID] *)
  Variable manage_nsid : bool.
  Implicit Types (w : W) (h : handle).

(** [(timeout == OS_WRAPPER_WAIT_FOREVER) ? osWaitForever : timeout] *)
Definition os_timeout (timeout : Z) : Z :=
  if timeout =? OS_WRAPPER_WAIT_FOREVER then osWaitForever else timeout.

(** [OS_WRAPPER_ERROR] unless the status is [osOK]. *)
Definition wrapper_status (status : osStatus_t) : Z :=
  if decide (status <> osOK) then OS_WRAPPER_ERROR else OS_WRAPPER_SUCCESS.

(** The error indicator in a result that holds flags. *)
Definition wrapper_flags (ret : Z) : Z :=
  if negb (Z.land ret osFlagsError =? 0) then OS_WRAPPER_ERROR else OS_WRAPPER_SUCCESS.

Definition os_wrapper_thread_new (name : c_name) (stack_sz func : Z) (arg : handle) (prio : Z) w :
    option (handle * W) :=
  let stack := if negb (stack_sz =? OS_WRAPPER_DEFAULT_STACK_SIZE) then u32 stack_sz else 0 in
  nsid ← (if manage_nsid then nsid_mgr_get_thread_nsid name else Some TFM_DEFAULT_NSID);
  Some (osThreadNew func arg (Some (mkThreadAttr name 0 None 0 None stack (i32 prio) (u32 nsid) 0)) w).

Definition os_wrapper_semaphore_create (max_count initial_count : Z) (name : c_name) w : handle * W :=
  osSemaphoreNew max_count initial_count (Some (mkSemaphoreAttr name 0 None 0)) w.

Definition os_wrapper_semaphore_acquire h (timeout : Z) w : option (Z * W) :=
  '(status, w) ← osSemaphoreAcquire h (os_timeout timeout) w;
  Some (wrapper_status status, w).

Definition os_wrapper_semaphore_release h w : Z * W :=
  let '(status, w) := osSemaphoreRelease h w in (wrapper_status status, w).

Definition os_wrapper_semaphore_delete h w : Z * W :=
  let '(status, w) := osSemaphoreDelete h w in (wrapper_status status, w).

Definition os_wrapper_mutex_create w : handle * W :=
  osMutexNew (Some (mkMutexAttr None osMutexPrioInherit None 0)) w.

Definition os_wrapper_mutex_acquire h (timeout : Z) w : option (Z * W) :=
  match h with
  | None => Some (OS_WRAPPER_ERROR, w)
  | Some _ =>
      '(status, w) ← osMutexAcquire h (os_timeout timeout) w;
      Some (wrapper_status status, w)
  end.

Definition os_wrapper_mutex_release h w : Z * W :=
  match h with
  | None => (OS_WRAPPER_ERROR, w)
  | Some _ => let '(status, w) := osMutexRelease h w in (wrapper_status status, w)
  end.

Definition os_wrapper_mutex_delete h w : Z * W :=
  match h with
  | None => (OS_WRAPPER_ERROR, w)
  | Some _ => let '(status, w) := osMutexDelete h w in (wrapper_status status, w)
  end.

Definition os_wrapper_thread_get_handle w : handle * W := osThreadGetId w.

Definition os_wrapper_thread_get_priority h (prio0 : Z) w : (Z * Z) * W :=
  let '(prio, w) := osThreadGetPriority h w in
  if prio =? osPriority_value osPriorityError then ((OS_WRAPPER_ERROR, prio0), w)
  else ((OS_WRAPPER_SUCCESS, u32 prio), w).

Definition os_wrapper_thread_exit w : option (unit * W) := osThreadExit w.

Definition os_wrapper_thread_set_flag h (flags : Z) w : Z * W :=
  let '(ret, w) := osThreadFlagsSet h flags w in (wrapper_flags ret, w).

Definition os_wrapper_thread_set_flag_isr h (flags : Z) w : Z * W :=
  let '(ret, w) := osThreadFlagsSet h flags w in (wrapper_flags ret, w).

Definition os_wrapper_thread_wait_flag (flags timeout : Z) w : option (Z * W) :=
  '(ret, w) ← osThreadFlagsWait flags osFlagsWaitAll (os_timeout timeout) w;
  Some (wrapper_flags ret, w).

Definition os_wrapper_get_tick w : Z * W := osKernelGetTickCount w.

Definition os_wrapper_msg_queue_create (msg_size msg_count : Z) w : handle * W :=
  osMessageQueueNew msg_count (u32 msg_size) None w.

(** As [int32_t]. *)
Definition wrapper_status_int (status : osStatus_t) : Z :=
  if decide (status = osOK) then i32 OS_WRAPPER_SUCCESS else i32 OS_WRAPPER_ERROR.

Definition os_wrapper_msg_queue_send h (msg : list Z) w : option (Z * W) :=
  '(status, w) ← osMessageQueuePut h msg 0 0 w;
  Some (wrapper_status_int status, w).

Definition os_wrapper_msg_queue_receive h w : option ((Z * list Z) * W) :=
  '((status, msg), w) ← osMessageQueueGet h osWaitForever w;
  Some ((wrapper_status_int status, msg), w).

Definition os_wrapper_delay (ticks : Z) w : option (Z * W) :=
  '(status, w) ← osDelay ticks w;
  Some (wrapper_status_int status, w).
End wrapper.
End CmsisRtosV2.

(** ** The wrapper as the interface *)

Section instances.
  Context {WC : OsWrapperConsts} {W : Type} {OS : CmsisRtos W}.

#[export] Instance wrapper_thread (manage_nsid : bool) : OsWrapperThread W := {
  os_wrapper_thread_new := CmsisRtosV2.os_wrapper_thread_new manage_nsid;
  os_wrapper_thread_get_handle := CmsisRtosV2.os_wrapper_thread_get_handle;
  os_wrapper_thread_get_priority := CmsisRtosV2.os_wrapper_thread_get_priority;
  os_wrapper_thread_exit := CmsisRtosV2.os_wrapper_thread_exit;
  os_wrapper_thread_set_flag := CmsisRtosV2.os_wrapper_thread_set_flag;
  os_wrapper_thread_set_flag_isr := CmsisRtosV2.os_wrapper_thread_set_flag_isr;
  os_wrapper_thread_wait_flag := CmsisRtosV2.os_wrapper_thread_wait_flag;
}.

#[export] Instance wrapper_semaphore : OsWrapperSemaphore W := {
  os_wrapper_semaphore_create := CmsisRtosV2.os_wrapper_semaphore_create;
  os_wrapper_semaphore_acquire := CmsisRtosV2.os_wrapper_semaphore_acquire;
  os_wrapper_semaphore_release := CmsisRtosV2.os_wrapper_semaphore_release;
  os_wrapper_semaphore_delete := CmsisRtosV2.os_wrapper_semaphore_delete;
}.

#[export] Instance wrapper_mutex : OsWrapperMutex W := {
  os_wrapper_mutex_create := CmsisRtosV2.os_wrapper_mutex_create;
  os_wrapper_mutex_acquire := CmsisRtosV2.os_wrapper_mutex_acquire;
  os_wrapper_mutex_release := CmsisRtosV2.os_wrapper_mutex_release;
  os_wrapper_mutex_delete := CmsisRtosV2.os_wrapper_mutex_delete;
}.

#[export] Instance wrapper_msg_queue : OsWrapperMsgQueue W := {
  os_wrapper_msg_queue_create := CmsisRtosV2.os_wrapper_msg_queue_create;
  os_wrapper_msg_queue_send := CmsisRtosV2.os_wrapper_msg_queue_send;
  os_wrapper_msg_queue_receive := CmsisRtosV2.os_wrapper_msg_queue_receive;
}.

#[export] Instance wrapper_delay : OsWrapperDelay W := {
  os_wrapper_delay := CmsisRtosV2.os_wrapper_delay;
}.

#[export] Instance wrapper_tick : OsWrapperTick W := {
  os_wrapper_get_tick := CmsisRtosV2.os_wrapper_get_tick;
}.
End instances.

(** ** cmsis_os2.h on semaphores, thread flags and message queues *)

Class CmsisLaws {OL : OsLimits} (W : Type) {OV : OsView W} {OS : CmsisRtos W} := {
  law_semaphore_new w max init attr h w' :
    0 <= init <= max -> max <= semaphore_limit -> osSemaphoreNew max init attr w = (Some h, w') ->
    tokens_of w h = None /\ tokens_of w' h = Some (init, max) /\ same_but_semaphore h w w';
  law_semaphore_none w max init attr w' : osSemaphoreNew max init attr w = (None, w') -> w' = w;
  law_semaphore_acquire w h t max : tokens_of w h = Some (t, max) ->
    match osSemaphoreAcquire (Some h) osWaitForever w with
    | Some (s, w') => 0 < t /\ s = osOK /\ tokens_of w' h = Some (t - 1, max) /\ same_but_semaphore h w w'
    | None => t <= 0
    end;
  (** A limited time: "Operation not completed within the timeout period", or
      with 0 "Resource not available". *)
  law_semaphore_acquire_timed w h t max timeout : tokens_of w h = Some (t, max) ->
    0 <= timeout < osWaitForever ->
    exists s w', osSemaphoreAcquire (Some h) timeout w = Some (s, w') /\
      if 0 <? t then s = osOK /\ tokens_of w' h = Some (t - 1, max) /\ same_but_semaphore h w w'
      else if timeout =? 0 then s = osErrorResource /\ w' = w
      else s = osOK \/ s = osErrorTimeout;
  (** "Parameter error": a handle that is NULL or of no object. *)
  law_semaphore_acquire_none w h timeout : named tokens_of w h = None ->
    osSemaphoreAcquire h timeout w = Some (osErrorParameter, w);
  law_semaphore_release_none w h : named tokens_of w h = None -> osSemaphoreRelease h w = (osErrorParameter, w);
  law_semaphore_delete_none w h : named tokens_of w h = None -> osSemaphoreDelete h w = (osErrorParameter, w);
  law_semaphore_delete w h : is_Some (tokens_of w h) ->
    exists w', osSemaphoreDelete (Some h) w = (osOK, w') /\ tokens_of w' h = None /\ same_but_semaphore h w w';
  law_semaphore_release w h t max : tokens_of w h = Some (t, max) ->
    let '(s, w') := osSemaphoreRelease (Some h) w in
    if t <? max
    then s = osOK /\ tokens_of w' h = Some (t + 1, max) /\ same_but_semaphore h w w'
    else s = osErrorResource /\ w' = w;
  law_thread_id w : osThreadGetId w = (Some (running w), w);
  law_flags_range w t f : flags_of w t = Some f -> 0 <= f < 2 ^ 31;
  (** "thread flags after setting or error code if highest bit set" *)
  law_flags_set w t f flags : flags_of w t = Some f -> 0 <= flags < 2 ^ 31 ->
    exists w', osThreadFlagsSet (Some t) flags w = (Z.lor f flags, w') /\
      flags_of w' t = Some (Z.lor f flags) /\ same_but_flags t w w';
  law_flags_set_none w h flags : named flags_of w h = None \/ 2 ^ 31 <= flags < 2 ^ 32 ->
    osThreadFlagsSet h flags w = (osFlagsErrorParameter, w);
  (** "thread flags before clearing or error code if highest bit set" *)
  law_flags_wait w f flags : flags_of w (running w) = Some f -> 0 <= flags < 2 ^ 31 ->
    match osThreadFlagsWait flags osFlagsWaitAll osWaitForever w with
    | Some (ret, w') => Z.land f flags = flags /\ ret = f /\
        flags_of w' (running w) = Some (Z.ldiff f flags) /\ same_but_flags (running w) w w'
    | None => Z.land f flags <> flags
    end;
  law_flags_wait_timed w f flags timeout : flags_of w (running w) = Some f -> 0 <= flags < 2 ^ 31 ->
    0 <= timeout < osWaitForever ->
    exists ret w', osThreadFlagsWait flags osFlagsWaitAll timeout w = Some (ret, w') /\
      if Z.land f flags =? flags
      then ret = f /\ flags_of w' (running w) = Some (Z.ldiff f flags) /\ same_but_flags (running w) w w'
      else if timeout =? 0 then ret = osFlagsErrorResource /\ w' = w
      else 0 <= ret < 2 ^ 31 \/ ret = osFlagsErrorTimeout;
  law_flags_wait_none w flags timeout : 2 ^ 31 <= flags < 2 ^ 32 ->
    osThreadFlagsWait flags osFlagsWaitAll timeout w = Some (osFlagsErrorParameter, w);
  law_queue_new w count size q w' : 0 <= count -> osMessageQueueNew count size None w = (Some q, w') ->
    queue_of w q = None /\ queue_of w' q = Some ([], Z.to_nat count) /\ same_but_queue q w w';
  law_queue_new_none w count size w' : osMessageQueueNew count size None w = (None, w') -> w' = w;
  law_queue_put_none w q msg prio timeout : named queue_of w q = None ->
    osMessageQueuePut q msg prio timeout w = Some (osErrorParameter, w);
  law_queue_get_none w q timeout : named queue_of w q = None ->
    exists msg, osMessageQueueGet q timeout w = Some ((osErrorParameter, msg), w);
  law_queue_put w q ms cap msg prio : queue_of w q = Some (ms, cap) ->
    exists s w', osMessageQueuePut (Some q) msg prio 0 w = Some (s, w') /\
      if decide (length ms < cap)%nat
      then s = osOK /\ queue_of w' q = Some (ms ++ [msg], cap) /\ same_but_queue q w w'
      else s = osErrorResource /\ w' = w;
  law_queue_get w q ms cap : queue_of w q = Some (ms, cap) ->
    match osMessageQueueGet (Some q) osWaitForever w, ms with
    | Some ((s, msg), w'), m :: ms => s = osOK /\ msg = m /\ queue_of w' q = Some (ms, cap) /\
        same_but_queue q w w'
    | None, [] => True
    | _, _ => False
    end;
}.

Section promises.
  Context {WC : OsWrapperConsts} {WCL : OsWrapperConstsLaws} {OL : OsLimits} {W : Type} {OV : OsView W}.
  Context {OS : CmsisRtos W} {CL : CmsisLaws W}.

Lemma os_timeout_forever : CmsisRtosV2.os_timeout OS_WRAPPER_WAIT_FOREVER = osWaitForever.
Proof. unfold CmsisRtosV2.os_timeout. by rewrite Z.eqb_refl. Qed.

Lemma os_timeout_limited timeout : 0 <= timeout < 2 ^ 32 -> timeout <> OS_WRAPPER_WAIT_FOREVER ->
  CmsisRtosV2.os_timeout timeout = timeout /\ 0 <= timeout < osWaitForever.
Proof.
  intros Ht Hne. unfold CmsisRtosV2.os_timeout. rewrite (proj2 (Z.eqb_neq _ _) Hne). split; [done|].
  rewrite law_wait_forever in Hne. unfold osWaitForever. lia.
Qed.

Lemma wrapper_status_error s : s <> osOK -> CmsisRtosV2.wrapper_status s = OS_WRAPPER_ERROR.
Proof. intros H. unfold CmsisRtosV2.wrapper_status. by rewrite decide_True. Qed.

Lemma wrapper_status_int_error s : s <> osOK -> CmsisRtosV2.wrapper_status_int s = i32 OS_WRAPPER_ERROR.
Proof. intros H. unfold CmsisRtosV2.wrapper_status_int. by rewrite decide_False. Qed.

Lemma land_error_flag ret : 0 <= ret < 2 ^ 32 -> (Z.land ret osFlagsError =? 0) = (ret <? 2 ^ 31).
Proof.
  intros Hr. assert (Z.land ret osFlagsError = if Z.testbit ret 31 then 2 ^ 31 else 0) as ->.
  { apply Z.bits_inj'. intros i Hi. change osFlagsError with (2 ^ 31).
    rewrite Z.land_spec, Z.pow2_bits_eqb by lia. destruct (Z.eqb_spec 31 i) as [<-|].
    - rewrite andb_true_r. destruct (Z.testbit ret 31); [by rewrite Z.pow2_bits_true | by rewrite Z.bits_0].
    - rewrite andb_false_r. destruct (Z.testbit ret 31); [by rewrite Z.pow2_bits_false by lia | by rewrite Z.bits_0]. }
  rewrite Z.testbit_odd, Z.shiftr_div_pow2 by lia.
  destruct (Z.ltb_spec ret (2 ^ 31)).
  - by rewrite Z.div_small by lia.
  - by replace (ret / 2 ^ 31) with 1 by (apply Z.div_unique with (ret - 2 ^ 31); lia).
Qed.

Lemma wrapper_flags_low ret : 0 <= ret < 2 ^ 31 -> CmsisRtosV2.wrapper_flags ret = OS_WRAPPER_SUCCESS.
Proof.
  intros Hr. unfold CmsisRtosV2.wrapper_flags. rewrite land_error_flag by lia. by rewrite (proj2 (Z.ltb_lt _ _)) by lia.
Qed.

Lemma wrapper_flags_high ret : 2 ^ 31 <= ret < 2 ^ 32 -> CmsisRtosV2.wrapper_flags ret = OS_WRAPPER_ERROR.
Proof.
  intros Hr. unfold CmsisRtosV2.wrapper_flags. rewrite land_error_flag by lia. by rewrite (proj2 (Z.ltb_ge _ _)) by lia.
Qed.

#[export] Instance wrapper_semaphore_promise : OsSemaphorePromise W.
Proof.
  split.
  - intros w max init name h w' Hi Hm. by apply law_semaphore_new.
  - intros w max init name w'. by apply law_semaphore_none.
  - intros w h t max Ht. cbn. unfold CmsisRtosV2.os_wrapper_semaphore_acquire. rewrite os_timeout_forever.
    pose proof (law_semaphore_acquire w h t max Ht) as Ha.
    destruct (osSemaphoreAcquire _ _ w) as [[s w']|]; [|done]. cbn [mbind option_bind].
    by destruct Ha as (? & -> & ? & ?).
  - intros w h t max timeout Ht Hr Hne. cbn. unfold CmsisRtosV2.os_wrapper_semaphore_acquire.
    destruct (os_timeout_limited timeout Hr Hne) as [-> Hl].
    destruct (law_semaphore_acquire_timed w h t max timeout Ht Hl) as (s & w' & -> & Ha). cbn [mbind option_bind].
    eexists _, w'. split; [done|]. destruct (0 <? t); [by destruct Ha as (-> & ? & ?)|].
    destruct (timeout =? 0); [destruct Ha as [-> ->]; by rewrite wrapper_status_error|].
    destruct Ha as [-> | ->]; [by left | right; by rewrite wrapper_status_error].
  - intros w h timeout Hh. cbn. unfold CmsisRtosV2.os_wrapper_semaphore_acquire.
    rewrite law_semaphore_acquire_none by done. cbn [mbind option_bind]. by rewrite wrapper_status_error.
  - intros w h t max Ht. cbn. unfold CmsisRtosV2.os_wrapper_semaphore_release.
    pose proof (law_semaphore_release w h t max Ht) as Hr. destruct (osSemaphoreRelease _ w) as [s w'].
    destruct (t <? max); [by destruct Hr as (-> & ? & ?) | by destruct Hr as (-> & ?)].
  - intros w h Hh. cbn. unfold CmsisRtosV2.os_wrapper_semaphore_release.
    rewrite law_semaphore_release_none by done. by rewrite wrapper_status_error.
  - intros w h Hh. cbn. unfold CmsisRtosV2.os_wrapper_semaphore_delete.
    destruct (law_semaphore_delete w h Hh) as (w' & -> & Hd). by exists w'.
  - intros w h Hh. cbn. unfold CmsisRtosV2.os_wrapper_semaphore_delete.
    rewrite law_semaphore_delete_none by done. by rewrite wrapper_status_error.
Qed.

#[export] Instance wrapper_flags_promise manage_nsid : OsFlagsPromise W (OT := wrapper_thread manage_nsid).
Proof.
  split.
  - intros w. apply law_thread_id.
  - intros w t f flags Hf Hr. cbn. unfold CmsisRtosV2.os_wrapper_thread_set_flag_isr, CmsisRtosV2.os_wrapper_thread_set_flag.
    destruct (law_flags_set w t f flags Hf Hr) as (w' & -> & Hf' & Hs). exists w'.
    pose proof (law_flags_range w' t _ Hf'). by rewrite wrapper_flags_low.
  - intros w h flags Hh. cbn. unfold CmsisRtosV2.os_wrapper_thread_set_flag_isr, CmsisRtosV2.os_wrapper_thread_set_flag.
    rewrite law_flags_set_none by done. by rewrite wrapper_flags_high by done.
  - intros w f flags Hf Hr. cbn. unfold CmsisRtosV2.os_wrapper_thread_wait_flag. rewrite os_timeout_forever.
    pose proof (law_flags_wait w f flags Hf Hr) as Hw.
    destruct (osThreadFlagsWait _ _ _ w) as [[ret w']|]; [|done]. cbn [mbind option_bind].
    destruct Hw as (? & -> & ? & ?). pose proof (law_flags_range w _ _ Hf). by rewrite wrapper_flags_low.
  - intros w f flags timeout Hf Hr Ht Hne. cbn. unfold CmsisRtosV2.os_wrapper_thread_wait_flag.
    destruct (os_timeout_limited timeout Ht Hne) as [-> Hl].
    destruct (law_flags_wait_timed w f flags timeout Hf Hr Hl) as (ret & w' & -> & Hw). cbn [mbind option_bind].
    eexists _, w'. split; [done|]. pose proof (law_flags_range w _ _ Hf).
    destruct (Z.land f flags =? flags); [destruct Hw as (-> & ? & ?); by rewrite wrapper_flags_low|].
    destruct (timeout =? 0); [destruct Hw as [-> ->]; by rewrite wrapper_flags_high by done|].
    destruct Hw as [Hw | ->]; [left; by apply wrapper_flags_low | right; by apply wrapper_flags_high].
  - intros w flags timeout Hf. cbn. unfold CmsisRtosV2.os_wrapper_thread_wait_flag.
    rewrite law_flags_wait_none by done. cbn [mbind option_bind]. by rewrite wrapper_flags_high by done.
Qed.

#[export] Instance wrapper_queue_promise : OsQueuePromise W.
Proof.
  split.
  - intros w size count q w' Hs Hc. cbn. by apply law_queue_new.
  - intros w size count w'. by apply law_queue_new_none.
  - intros w q ms cap msg Hq. cbn. unfold CmsisRtosV2.os_wrapper_msg_queue_send, CmsisRtosV2.wrapper_status_int.
    destruct (law_queue_put w q ms cap msg 0 Hq) as (s & w' & -> & Hp). cbn [mbind option_bind].
    eexists _, w'. split; [done|]. case_decide; destruct Hp as (-> & Hp); rewrite ?law_success_int; by destruct Hp.
  - intros w q ms cap Hq. cbn. unfold CmsisRtosV2.os_wrapper_msg_queue_receive, CmsisRtosV2.wrapper_status_int.
    pose proof (law_queue_get w q ms cap Hq) as Hg.
    destruct (osMessageQueueGet _ _ w) as [[[s msg] w']|]; [|done]. cbn [mbind option_bind].
    destruct ms as [|m ms]; [done|]. destruct Hg as (-> & ? & ? & ?). by rewrite law_success_int.
  - intros w q msg Hq. cbn. unfold CmsisRtosV2.os_wrapper_msg_queue_send.
    rewrite law_queue_put_none by done. cbn [mbind option_bind]. by rewrite wrapper_status_int_error.
  - intros w q Hq. cbn. unfold CmsisRtosV2.os_wrapper_msg_queue_receive.
    destruct (law_queue_get_none w q osWaitForever Hq) as (msg & ->). exists msg. cbn [mbind option_bind].
    by rewrite wrapper_status_int_error.
Qed.
End promises.
