(* ===== verification/OsKernelRef.v ===== *)
(** * A reference kernel

    A kernel that behaves as [CmsisLaws] says, small enough to run: the
    theorems on the wrapper and its clients are evaluated on it. *)

From S2P Require Import Prelude Cmsis OsWrapperApi OsWrapper.
Local Open Scope Z_scope.

Record kernel := mkKernel {
  k_running : Z;
  k_flags : gmap Z Z;
  k_semaphores : gmap Z (Z * Z);
  k_queues : gmap Z (list (list Z) * nat);
  (** The handle of the next object, and the threads created. *)
  k_next : Z;
  k_threads : list (Z * option osThreadAttr_t);
}.

Definition set_flags (m : gmap Z Z) (w : kernel) : kernel :=
  mkKernel (k_running w) m (k_semaphores w) (k_queues w) (k_next w) (k_threads w).
Definition set_semaphores (m : gmap Z (Z * Z)) (w : kernel) : kernel :=
  mkKernel (k_running w) (k_flags w) m (k_queues w) (k_next w) (k_threads w).
Definition set_queues (m : gmap Z (list (list Z) * nat)) (w : kernel) : kernel :=
  mkKernel (k_running w) (k_flags w) (k_semaphores w) m (k_next w) (k_threads w).

(** The 31 low bits. *)
Definition flag_bits (z : Z) : Z := z `mod` 2 ^ 31.

#[export] Instance kernel_view : OsView kernel := {
  running := k_running;
  flags_of w t := flag_bits <$> k_flags w !! t;
  tokens_of w h := k_semaphores w !! h;
  queue_of w q := k_queues w !! q;
}.

#[export] Instance kernel_limits : OsLimits := { semaphore_limit := 65535 }.

Definition kernel_version : osVersion_t := mkVersion 20010003 50050003.

#[export] Instance ref_os_kernel : OsKernel kernel := {
  osKernelInitialize w := (osOK, w);
  osKernelGetInfo _ w := ((osOK, kernel_version, []), w);
  osKernelGetState w := (osKernelRunning, w);
  osKernelStart _ := None;
  osKernelLock w := (0, w);
  osKernelUnlock w := (0, w);
  osKernelRestoreLock lock w := (lock, w);
  osKernelSuspend w := (0, w);
  osKernelResume _ w := (tt, w);
  osKernelGetTickCount w := (0, w);
  osKernelGetTickFreq w := (1000, w);
  osKernelGetSysTimerCount w := (0, w);
  osKernelGetSysTimerFreq w := (1000, w);
}.

#[export] Instance ref_os_thread : OsThread kernel := {
  osThreadNew func _ attr w :=
    (Some (k_next w), mkKernel (k_running w) (<[k_next w := 0]> (k_flags w)) (k_semaphores w) (k_queues w)
       (k_next w + 1) (k_threads w ++ [(func, attr)]));
  osThreadGetName _ w := (None, w);
  osThreadGetId w := (Some (k_running w), w);
  osThreadGetState _ w := (osThreadRunning, w);
  osThreadGetStackSize _ w := (0, w);
  osThreadGetStackSpace _ w := (0, w);
  osThreadSetPriority _ _ w := (osOK, w);
  osThreadGetPriority h w := (if bool_decide (h = None) then osPriority_value osPriorityError else osPriority_value osPriorityNormal, w);
  osThreadYield w := (osOK, w);
  osThreadSuspend _ w := (osError, w);
  osThreadResume _ w := (osError, w);
  osThreadDetach _ w := (osError, w);
  osThreadJoin _ w := Some (osError, w);
  osThreadExit _ := None;
  osThreadTerminate _ w := (osError, w);
  osThreadGetCount w := (Z.of_nat (size (k_flags w)), w);
  osThreadEnumerate n w := (Some <$> take (Z.to_nat n) (map_to_list (k_flags w)).*1, w);
}.

#[export] Instance ref_os_thread_flags : OsThreadFlags kernel := {
  osThreadFlagsSet h flags w :=
    match (if flags <? 2 ^ 31 then named flags_of w h else None), h with
    | Some f, Some t => (Z.lor f flags, set_flags (<[t := Z.lor f flags]> (k_flags w)) w)
    | _, _ => (osFlagsErrorParameter, w)
    end;
  osThreadFlagsClear flags w :=
    match flags_of w (k_running w) with
    | Some f => (f, set_flags (<[k_running w := Z.ldiff f flags]> (k_flags w)) w)
    | None => (osFlagsErrorUnknown, w)
    end;
  osThreadFlagsGet w := (default 0 (flags_of w (k_running w)), w);
  osThreadFlagsWait flags options timeout w :=
    if 2 ^ 31 <=? flags then Some (osFlagsErrorParameter, w) else
    match flags_of w (k_running w) with
    | Some f => if Z.land f flags =? flags
                then Some (f, set_flags (<[k_running w := Z.ldiff f flags]> (k_flags w)) w)
                else if timeout =? osWaitForever then None
                else Some (if timeout =? 0 then osFlagsErrorResource else osFlagsErrorTimeout, w)
    | None => Some (osFlagsErrorUnknown, w)
    end;
}.

#[export] Instance ref_os_wait : OsWait kernel := {
  osDelay _ w := Some (osOK, w);
  osDelayUntil _ w := Some (osOK, w);
}.

#[export] Instance ref_os_mutex : OsMutex kernel := {
  osMutexNew _ w := (None, w);
  osMutexGetName _ w := (None, w);
  osMutexAcquire _ _ w := Some (osErrorParameter, w);
  osMutexRelease _ w := (osErrorParameter, w);
  osMutexGetOwner _ w := (None, w);
  osMutexDelete _ w := (osErrorParameter, w);
}.

#[export] Instance ref_os_semaphore : OsSemaphore kernel := {
  osSemaphoreNew max init attr w :=
    match k_semaphores w !! k_next w with
    | Some _ => (None, w)
    | None => (Some (k_next w), mkKernel (k_running w) (k_flags w) (<[k_next w := (init, max)]> (k_semaphores w))
                 (k_queues w) (k_next w + 1) (k_threads w))
    end;
  osSemaphoreGetName _ w := (None, w);
  osSemaphoreAcquire h timeout w :=
    match named tokens_of w h, h with
    | Some (t, max), Some h => if 0 <? t then Some (osOK, set_semaphores (<[h := (t - 1, max)]> (k_semaphores w)) w)
                               else if timeout =? osWaitForever then None
                               else Some (if timeout =? 0 then osErrorResource else osErrorTimeout, w)
    | _, _ => Some (osErrorParameter, w)
    end;
  osSemaphoreRelease h w :=
    match named tokens_of w h, h with
    | Some (t, max), Some h => if t <? max then (osOK, set_semaphores (<[h := (t + 1, max)]> (k_semaphores w)) w)
                               else (osErrorResource, w)
    | _, _ => (osErrorParameter, w)
    end;
  osSemaphoreGetCount h w := (default 0 (fst <$> (h ≫= (k_semaphores w !!.))), w);
  osSemaphoreDelete h w :=
    match named tokens_of w h, h with
    | Some _, Some h => (osOK, set_semaphores (delete h (k_semaphores w)) w)
    | _, _ => (osErrorParameter, w)
    end;
}.

#[export] Instance ref_os_message_queue : OsMessageQueue kernel := {
  osMessageQueueNew count size attr w :=
    match k_queues w !! k_next w with
    | Some _ => (None, w)
    | None => (Some (k_next w), mkKernel (k_running w) (k_flags w) (k_semaphores w)
                 (<[k_next w := ([], Z.to_nat count)]> (k_queues w)) (k_next w + 1) (k_threads w))
    end;
  osMessageQueueGetName _ w := (None, w);
  osMessageQueuePut q msg prio timeout w :=
    match named queue_of w q, q with
    | Some (ms, cap), Some q => Some (if decide (length ms < cap)%nat
        then (osOK, set_queues (<[q := (ms ++ [msg], cap)]> (k_queues w)) w)
        else (osErrorResource, w))
    | _, _ => Some (osErrorParameter, w)
    end;
  osMessageQueueGet q timeout w :=
    match named queue_of w q, q with
    | Some (m :: ms, cap), Some q => Some ((osOK, m), set_queues (<[q := (ms, cap)]> (k_queues w)) w)
    | Some ([], _), Some _ => None
    | _, _ => Some ((osErrorParameter, []), w)
    end;
  osMessageQueueGetCapacity q w := (default 0 (Z.of_nat ∘ snd <$> (q ≫= (k_queues w !!.))), w);
  osMessageQueueGetMsgSize _ w := (0, w);
  osMessageQueueGetCount q w := (default 0 (Z.of_nat ∘ length ∘ fst <$> (q ≫= (k_queues w !!.))), w);
  osMessageQueueGetSpace _ w := (0, w);
  osMessageQueueReset _ w := (osErrorParameter, w);
  osMessageQueueDelete _ w := (osErrorParameter, w);
}.

#[export] Instance ref_cmsis : CmsisRtos kernel := {}.

Lemma flag_bits_range z : 0 <= flag_bits z < 2 ^ 31.
Proof. by apply Z.mod_pos_bound. Qed.

Lemma flag_bits_id z : 0 <= z < 2 ^ 31 -> flag_bits z = z.
Proof. apply Z.mod_small. Qed.

Lemma lor_range a b : 0 <= a < 2 ^ 31 -> 0 <= b < 2 ^ 31 -> 0 <= Z.lor a b < 2 ^ 31.
Proof.
  intros Ha Hb. rewrite <- (Z.mod_small a (2 ^ 31)), <- (Z.mod_small b (2 ^ 31)) by done.
  rewrite <- !Z.land_ones, <- Z.land_lor_distr_l, Z.land_ones by done. by apply Z.mod_pos_bound.
Qed.

Lemma ldiff_range a b : 0 <= a < 2 ^ 31 -> 0 <= Z.ldiff a b < 2 ^ 31.
Proof.
  intros Ha. pose proof (Z.mod_pos_bound (Z.ldiff a b) (2 ^ 31) eq_refl).
  rewrite <- Z.land_ones in H by done. rewrite Z.ldiff_land, <- Z.land_assoc, (Z.land_comm (Z.lnot b)), Z.land_assoc, Z.land_ones, (Z.mod_small a) in H by done.
  by rewrite <- Z.ldiff_land in H.
Qed.

#[export] Instance ref_cmsis_laws : CmsisLaws kernel.
Proof.
  split; cbn.
  - intros w max init attr h w' _ _. destruct (k_semaphores w !! k_next w) eqn:Hn; [done|].
    intros [= <- <-]. cbn. rewrite lookup_insert_eq. repeat split; [done|]. intros s Hs. by apply lookup_insert_ne.
  - intros w max init attr w'. destruct (k_semaphores w !! k_next w); [by intros [= <-]|done].
  - intros w h t max ->. destruct (Z.ltb_spec 0 t); [|done]. cbn. rewrite lookup_insert_eq.
    repeat split; [done|]. intros s Hs. by apply lookup_insert_ne.
  - intros w h t max timeout -> Ht. destruct (Z.ltb_spec 0 t).
    + eexists _, _. split; [done|]. cbn. rewrite lookup_insert_eq. repeat split. intros s Hs. by apply lookup_insert_ne.
    + rewrite (proj2 (Z.eqb_neq timeout osWaitForever)) by lia. eexists _, _. split; [done|].
      destruct (timeout =? 0); [done | by right].
  - intros w h timeout Hh. by rewrite Hh.
  - intros w h Hh. by rewrite Hh.
  - intros w h Hh. by rewrite Hh.
  - intros w h [x Hx]. rewrite Hx. eexists. split; [done|]. cbn. rewrite lookup_delete_eq. repeat split.
    intros s Hs. by apply lookup_delete_ne.
  - intros w h t max ->. destruct (t <? max) eqn:?; [|done]. cbn. rewrite lookup_insert_eq.
    repeat split. intros s Hs. by apply lookup_insert_ne.
  - done.
  - intros w t f. destruct (k_flags w !! t); [|done]. intros [= <-]. apply flag_bits_range.
  - intros w t f flags Hf Hr. rewrite (proj2 (Z.ltb_lt _ _)) by lia. rewrite Hf. eexists. split; [done|]. cbn. rewrite lookup_insert_eq. cbn.
    destruct (k_flags w !! t); [|done]. injection Hf as <-.
    rewrite (flag_bits_id (Z.lor _ _)) by (apply lor_range; [apply flag_bits_range|done]).
    repeat split. intros s Hs. cbn. by rewrite lookup_insert_ne.
  - intros w h flags [Hh|Hf]; [rewrite Hh; by destruct (_ <? _), h | by rewrite (proj2 (Z.ltb_ge _ _)) by lia].
  - intros w f flags Hf Hr. rewrite (proj2 (Z.leb_gt _ _)) by lia. rewrite Hf.
    destruct (Z.eqb_spec (Z.land f flags) flags); [|done]. cbn.
    rewrite lookup_insert_eq. cbn. destruct (k_flags w !! k_running w); [|done]. injection Hf as <-.
    rewrite (flag_bits_id (Z.ldiff _ _)) by (apply ldiff_range, flag_bits_range).
    repeat split; [done|]. intros s Hs. cbn. by rewrite lookup_insert_ne.
  - intros w f flags timeout Hf Hr Ht. rewrite (proj2 (Z.leb_gt _ _)) by lia. rewrite Hf.
    destruct (Z.eqb_spec (Z.land f flags) flags).
    + eexists _, _. split; [done|]. cbn. rewrite lookup_insert_eq. cbn. destruct (k_flags w !! k_running w); [|done]. injection Hf as <-.
      rewrite (flag_bits_id (Z.ldiff _ _)) by (apply ldiff_range, flag_bits_range).
      repeat split. intros s Hs. cbn. by rewrite lookup_insert_ne.
    + rewrite (proj2 (Z.eqb_neq timeout osWaitForever)) by lia. eexists _, _. split; [done|].
      destruct (timeout =? 0); [done | by right].
  - intros w flags timeout Hf. by rewrite (proj2 (Z.leb_le _ _)) by lia.
  - intros w count sz q w' _. destruct (k_queues w !! k_next w) eqn:Hn; [done|].
    intros [= <- <-]. cbn. rewrite lookup_insert_eq. repeat split; [done|]. intros s Hs. by apply lookup_insert_ne.
  - intros w count sz w'. destruct (k_queues w !! k_next w); [by intros [= <-]|done].
  - intros w q msg prio timeout Hq. by rewrite Hq.
  - intros w q timeout Hq. rewrite Hq. by exists [].
  - intros w q ms cap msg prio ->. case_decide; eexists _, _; (split; [done|]); [|done]. cbn. rewrite lookup_insert_eq.
    repeat split. intros s Hs. by apply lookup_insert_ne.
  - intros w q ms cap ->. destruct ms as [|m ms]; [done|]. cbn. rewrite lookup_insert_eq.
    repeat split. intros s Hs. by apply lookup_insert_ne.
Qed.
