(* ===== verification/OsWrapperProofs.v ===== *)
(** * The RTOS wrapper: properties

    The wrapper implements its interface on every kernel that behaves as
    cmsis_os2.h documents, and a thread that it creates runs under the client
    ID of its name: the wrapper, the map of the thread names, the TrustZone
    shim and the NSID manager together. *)

From S2P Require Import Prelude NsidManager NsidMap TzShim Cmsis OsWrapperApi OsWrapper OsKernelRef.
Local Open Scope Z_scope.

Section wrapper.
  Context {WC : OsWrapperConsts} {W : Type} {OS : CmsisRtos W}.

(** C19. The wrapper over CMSIS-RTOS2 keeps what the interface promises its
    clients, for semaphores, thread flags and message queues, on every kernel
    that behaves as cmsis_os2.h documents: a call takes effect on its object
    alone and reports OS_WRAPPER_SUCCESS; it reports OS_WRAPPER_ERROR and changes
    nothing when the handle is NULL or names no object, when a flag is not one
    of the 31, when the semaphore is at its maximum or the queue is full, and
    when the token or the flags are not there and the timeout is 0; it waits,
    for ever or for a limited time, exactly as its timeout says. *)
Theorem wrapper_refines_interface {WCL : OsWrapperConstsLaws} {OL : OsLimits} {OV : OsView W}
    {CL : CmsisLaws W} manage_nsid :
  OsSemaphorePromise W (OSem := wrapper_semaphore) /\
  OsFlagsPromise W (OT := wrapper_thread manage_nsid) /\
  OsQueuePromise W (OQ := wrapper_msg_queue).
Proof. split; [apply _|]. split; apply _. Qed.

(** The attributes that a thread gets. *)
Definition attr_of (name : c_name) (stack prio nsid : Z) : osThreadAttr_t :=
  mkThreadAttr name 0 None 0 None stack prio nsid 0.

Lemma thread_nsid_range s : INT32_MIN <= thread_nsid s < 0.
Proof.
  unfold thread_nsid. destruct (find _ _) as [e|] eqn:Hf; [|done].
  apply find_some in Hf as [Hin _]. cbn in Hin. by repeat destruct Hin as [<-|Hin].
Qed.

Lemma nsid_as_module z : INT32_MIN <= z < 0 -> i32 (u32 z) = z.
Proof.
  unfold INT32_MIN. intros Hz. unfold wraps, wrapu. rewrite Zmod_mod.
  assert (z mod 2 ^ 32 = z + 2 ^ 32) as -> by (symmetry; apply Z.mod_unique with (-1); lia).
  destruct (Z.ltb_spec (z + 2 ^ 32) (2 ^ (32 - 1))); lia.
Qed.

(** [os_wrapper_thread_new] with a proper name always calls the kernel. *)
Lemma thread_new_spec name ra stack func arg prio (w : W) : is_cstring name ->
  CmsisRtosV2.os_wrapper_thread_new true (Some (cstr name ++ ra)) stack func arg prio w =
    Some (osThreadNew func arg (Some (attr_of (Some (cstr name ++ ra))
      (if stack =? OS_WRAPPER_DEFAULT_STACK_SIZE then 0 else u32 stack) (i32 prio) (u32 (thread_nsid name)))) w).
Proof.
  intros Hn. unfold CmsisRtosV2.os_wrapper_thread_new. rewrite get_thread_nsid_name by done.
  cbn [mbind option_bind].
  by destruct (stack =? _).
Qed.

(** C10. A thread runs under the client ID of its name.  The wrapper passes the
    kernel a module ID for the name; when the kernel hands that ID to the
    TrustZone shim, in any state that the shim reaches, and gets a context, the
    secure side is given exactly the client ID of the table at every switch to
    the thread, whatever threads are created, end and run in between; two
    threads with different names of the table never share a client ID. *)
Theorem named_thread_client_id {NC : NsClientExtConsts} {E : Type} {NE : NsClientExt E} {NL : NsClientExtLaws E}
    name ra stack func arg prio (w : W) e s0 ops tok s1 ops' :
  is_cstring name ->
  TZ_InitContextSystem_S (tz_reset e) = (1, s0) ->
  TZ_AllocModuleContext_S (u32 (thread_nsid name)) (tz_run ops s0) = (tok, s1) -> tok <> 0 ->
  Forall (keeps tok) ops' ->
  exists attr, CmsisRtosV2.os_wrapper_thread_new true (Some (cstr name ++ ra)) stack func arg prio w =
      Some (osThreadNew func arg (Some attr) w) /\
    tz_module attr = u32 (thread_nsid name) /\ thread_name attr = Some (cstr name ++ ra) /\
    ext (TZ_LoadContext_S tok (tz_run ops' s1)).2 =
      (tfm_nsce_load_ctx tok (thread_nsid name) (ext (tz_run ops' s1))).2 /\
    (forall name', thread_nsid name' = thread_nsid name -> thread_nsid name <> TFM_DEFAULT_NSID -> name' = name).
Proof.
  intros Hn Hinit Hal Htok Hk. eexists. split; [by apply thread_new_spec|].
  pose proof (thread_nsid_range name) as Hr. split; [done|]. split; [done|]. split; [|by apply thread_nsid_inj].
  pose proof (tz_run_wf ops s0 (tz_init_wf _ _ Hinit)) as Hwf0.
  destruct (tz_alloc_spec _ _ _ _ Hwf0 Hal) as (Hwf1 & _ & _ & Hnew).
  destruct (Hnew Htok) as (Hneg & Hview & Hne & Hrange). rewrite nsid_as_module in * by done.
  pose proof (tz_run_keeps ops' s1 tok _ Hwf1 Hk Hview) as Hv.
  rewrite (tz_load_view _ _ _ Hrange Hne Hneg Hv). destruct (tfm_nsce_load_ctx _ _ _) as [r e'].
  by destruct (r =? _).
Qed.

(** How the wrapper reports the rest of what the kernel answers: an error
    indicator in a result that holds flags, the error value of a priority (then
    [*priority] is left alone, and otherwise it is the priority as unsigned),
    the delay, and a NULL mutex, which does not reach the kernel. *)
Theorem wrapper_reports_errors {WCL : OsWrapperConstsLaws} h flags timeout prio ticks (w : W) :
  (forall r w', osThreadFlagsSet h flags w = (r, w') -> 0 <= r < 2 ^ 32 ->
    CmsisRtosV2.os_wrapper_thread_set_flag h flags w =
      (if r <? 2 ^ 31 then OS_WRAPPER_SUCCESS else OS_WRAPPER_ERROR, w')) /\
  (forall p w', osThreadGetPriority h w = (p, w') ->
    CmsisRtosV2.os_wrapper_thread_get_priority h prio w =
      (if decide (p = -1) then (OS_WRAPPER_ERROR, prio) else (OS_WRAPPER_SUCCESS, u32 p), w')) /\
  (forall st w', osDelay ticks w = Some (st, w') ->
    exists r, CmsisRtosV2.os_wrapper_delay ticks w = Some (r, w') /\ (r = OS_WRAPPER_SUCCESS <-> st = osOK)) /\
  (CmsisRtosV2.os_wrapper_mutex_acquire None timeout w = Some (OS_WRAPPER_ERROR, w) /\
   CmsisRtosV2.os_wrapper_mutex_release None w = (OS_WRAPPER_ERROR, w) /\
   CmsisRtosV2.os_wrapper_mutex_delete None w = (OS_WRAPPER_ERROR, w)).
Proof.
  split_and!; try done.
  - intros r w' Hs Hr. unfold CmsisRtosV2.os_wrapper_thread_set_flag. rewrite Hs.
    destruct (Z.ltb_spec r (2 ^ 31)); [by rewrite wrapper_flags_low by lia|]. by rewrite wrapper_flags_high by lia.
  - intros p w' Hp. unfold CmsisRtosV2.os_wrapper_thread_get_priority. rewrite Hp.
    change (osPriority_value osPriorityError) with (-1).
    destruct (Z.eqb_spec p (-1)); [by rewrite decide_True | by rewrite decide_False].
  - intros st w' Hd. unfold CmsisRtosV2.os_wrapper_delay. rewrite Hd. cbn [mbind option_bind].
    eexists. split; [done|]. unfold CmsisRtosV2.wrapper_status_int. case_decide; [by rewrite law_success_int|].
    split; [by intros ?%law_error_int | done].
Qed.
End wrapper.

(** ** On the reference kernel *)

Section examples.
#[local] Instance example_wrapper : OsWrapperConsts := {
  OS_WRAPPER_SUCCESS := 0; OS_WRAPPER_ERROR := 2 ^ 32 - 1; OS_WRAPPER_WAIT_FOREVER := 2 ^ 32 - 1;
  OS_WRAPPER_DEFAULT_STACK_SIZE := -1;
}.
#[local] Instance example_wrapper_laws : OsWrapperConstsLaws.
Proof. by split. Qed.

Definition idle_kernel : kernel := mkKernel 1 {[1 := 4]} ∅ ∅ 20 [].

(** A handle of no semaphore, and a semaphore without a token. *)
Lemma wrapper_refines_interface_witness :
  CmsisRtosV2.os_wrapper_semaphore_acquire (Some 7) 0 idle_kernel = Some (OS_WRAPPER_ERROR, idle_kernel) /\
  (let w := set_semaphores {[7 := (0, 1)]} idle_kernel in
   CmsisRtosV2.os_wrapper_semaphore_acquire (Some 7) 0 w = Some (OS_WRAPPER_ERROR, w)).
Proof.
  destruct (wrapper_refines_interface (W := kernel) true) as (H & _ & _). split.
  - by apply (promise_acquire_none (OsSemaphorePromise := H)).
  - set (w := set_semaphores _ _).
    destruct (promise_acquire_timed (OsSemaphorePromise := H) w 7 0 1 0) as (r & w' & Hr & -> & ->); [done..|]. exact Hr.
Defined.

Lemma named_thread_client_id_witness :
  let s0 := (@TZ_InitContextSystem_S ref_nce_consts _ ref_nce (tz_reset [])).2 in
  let s1 := (@TZ_AllocModuleContext_S ref_nce_consts _ ref_nce (2 ^ 32 - 3) s0).2 in
  exists attr, CmsisRtosV2.os_wrapper_thread_new true (Some (cstr "Thread_B")) 1024 77 None 24 idle_kernel =
      Some (osThreadNew 77 None (Some attr) idle_kernel) /\ tz_module attr = 2 ^ 32 - 3.
Proof.
  intros s0 s1.
  destruct (@named_thread_client_id _ _ _ ref_nce_consts _ ref_nce ref_nce_laws "Thread_B" [] 1024 77 None 24 idle_kernel
    [] s0 [] 1 s1 [Load 1; Store 1]) as (attr & Hnew & Hm & _).
  - unfold is_cstring. by apply (bool_decide_unpack _).
  - by vm_compute.
  - by vm_compute.
  - done.
  - by repeat constructor.
  - exists attr. split; [exact Hnew|]. rewrite Hm. by vm_compute.
Defined.

Lemma wrapper_reports_errors_witness :
  CmsisRtosV2.os_wrapper_thread_set_flag (Some 99) 1 idle_kernel = (2 ^ 32 - 1, idle_kernel) /\
  CmsisRtosV2.os_wrapper_mutex_release None idle_kernel = (2 ^ 32 - 1, idle_kernel).
Proof.
  destruct (wrapper_reports_errors (Some 99) 1 0 0 0 idle_kernel) as (Hs & _ & _ & _ & Hm & _).
  split; [|exact Hm]. rewrite (Hs osFlagsErrorParameter idle_kernel); [done | by vm_compute | done].
Defined.
End examples.
