(* ===== verification/Mailbox.v ===== *)
(** * The RTOS side of the NS mailbox: lib/multi_core/tfm_ns_mailbox_rtos_api.c

    The wait and wake of a task that has sent a message, the lock of the
    mailbox queue, and the message queue of the mailbox thread, over the RTOS
    wrapper of [OsWrapperApi].  The theorems are proved from what the wrapper
    promises, and hold for every implementation of it. *)

From S2P Require Import Prelude Cmsis OsWrapperApi OsWrapper OsKernelRef.
From stdpp Require Import relations.
Local Open Scope Z_scope.

(** tfm_ns_mailbox.h, which is not in the repository *)
Class MailboxConsts := {
  MAILBOX_SUCCESS : Z;
  MAILBOX_INVAL_PARAMS : Z;
  MAILBOX_GENERIC_ERROR : Z;
  NUM_MAILBOX_QUEUE_SLOT : Z;
}.

Definition MAILBOX_THREAD_FLAG : Z := 0x5FCA0000.

(** The state of the kernel, the static variable of the file, and PRIMASK. *)
Record ns_mailbox (W : Type) := mkMailbox {
  os : W;
  ns_lock_handle : handle;
  irq_disabled : bool;
}.
Arguments mkMailbox {W} _ _ _.
Arguments os {W} _.
Arguments ns_lock_handle {W} _.
Arguments irq_disabled {W} _.

Section mailbox.
  Context {MC : MailboxConsts} {WC : OsWrapperConsts} {W : Type}.
  Context {OT : OsWrapperThread W} {OSem : OsWrapperSemaphore W} {OQ : OsWrapperMsgQueue W}.
  Implicit Types (m : ns_mailbox W) (w : W).

Definition MAX_SEMAPHORE_COUNT : Z := NUM_MAILBOX_QUEUE_SLOT.

Definition with_os (w : W) m : ns_mailbox W := mkMailbox w (ns_lock_handle m) (irq_disabled m).

Definition tfm_ns_mailbox_os_get_task_handle m : handle * ns_mailbox W :=
  let '(h, w) := os_wrapper_thread_get_handle (os m) in (h, with_os w m).

Definition tfm_ns_mailbox_os_wait_reply m : option (ns_mailbox W) :=
  '(_, w) ← os_wrapper_thread_wait_flag MAILBOX_THREAD_FLAG OS_WRAPPER_WAIT_FOREVER (os m);
  Some (with_os w m).

Definition tfm_ns_mailbox_os_wake_task_isr (task_handle : handle) m : ns_mailbox W :=
  let '(_, w) := os_wrapper_thread_set_flag_isr task_handle MAILBOX_THREAD_FLAG (os m) in with_os w m.

Definition tfm_ns_mailbox_os_spin_lock m : ns_mailbox W := mkMailbox (os m) (ns_lock_handle m) true.

Definition tfm_ns_mailbox_os_spin_unlock m : ns_mailbox W := mkMailbox (os m) (ns_lock_handle m) false.

(** ** TFM_MULTI_CORE_NS_OS_MAILBOX_THREAD *)

Definition tfm_ns_mailbox_os_mq_create (msg_size msg_count : Z) m : handle * ns_mailbox W :=
  let '(h, w) := os_wrapper_msg_queue_create msg_size (u8 msg_count) (os m) in (h, with_os w m).

(** A loop over calls of the kernel returns, stops in a call that does not
    return, or goes on. *)
Inductive progress (A : Type) :=
  | Returns (r : A) (m : ns_mailbox W)
  | Blocks
  | GoesOn.
Arguments Returns {A} _ _.
Arguments Blocks {A}.
Arguments GoesOn {A}.

(** The loop of [tfm_ns_mailbox_os_mq_send].  [others n] is what the other
    tasks and the interrupts do before the attempt after the [n]-th; [fuel]
    bounds the attempts that are looked at. *)
Fixpoint mq_send_loop (others : nat -> W -> W) (q : Z) (msg : list Z) (fuel n : nat) m : progress Z :=
  match fuel with
  | O => GoesOn
  | S fuel =>
      match os_wrapper_msg_queue_send (Some q) msg (os m) with
      | None => Blocks
      | Some (ret, w) =>
          if ret =? OS_WRAPPER_SUCCESS then Returns MAILBOX_SUCCESS (with_os w m)
          else mq_send_loop others q msg fuel (S n) (with_os (others n w) m)
      end
  end.

Definition tfm_ns_mailbox_os_mq_send (others : nat -> W -> W) (fuel : nat) (mq_handle : handle)
    (msg_ptr : option (list Z)) m : progress Z :=
  match mq_handle, msg_ptr with
  | Some q, Some msg => mq_send_loop others q msg fuel 0 m
  | _, _ => Returns MAILBOX_INVAL_PARAMS m
  end.

(** [*msg_ptr] after the call is part of the result. *)
Fixpoint mq_receive_loop (others : nat -> W -> W) (q : Z) (fuel n : nat) m : progress (Z * list Z) :=
  match fuel with
  | O => GoesOn
  | S fuel =>
      match os_wrapper_msg_queue_receive (Some q) (os m) with
      | None => Blocks
      | Some ((ret, msg), w) =>
          if ret =? OS_WRAPPER_SUCCESS then Returns (MAILBOX_SUCCESS, msg) (with_os w m)
          else mq_receive_loop others q fuel (S n) (with_os (others n w) m)
      end
  end.

Definition tfm_ns_mailbox_os_mq_receive (others : nat -> W -> W) (fuel : nat) (mq_handle : handle)
    (msg_ptr : option (list Z)) m : progress (Z * list Z) :=
  match mq_handle, msg_ptr with
  | Some q, Some _ => mq_receive_loop others q fuel 0 m
  | _, _ => Returns (MAILBOX_INVAL_PARAMS, default [] msg_ptr) m
  end.

(** ** Without it *)

Definition tfm_ns_mailbox_os_lock_init m : Z * ns_mailbox W :=
  let '(h, w) := os_wrapper_semaphore_create MAX_SEMAPHORE_COUNT MAX_SEMAPHORE_COUNT None (os m) in
  let m := mkMailbox w h (irq_disabled m) in
  if bool_decide (h = None) then (MAILBOX_GENERIC_ERROR, m) else (MAILBOX_SUCCESS, m).

Definition tfm_ns_mailbox_os_lock_acquire m : option (Z * ns_mailbox W) :=
  '(r, w) ← os_wrapper_semaphore_acquire (ns_lock_handle m) OS_WRAPPER_WAIT_FOREVER (os m);
  Some (i32 r, with_os w m).

Definition tfm_ns_mailbox_os_lock_release m : Z * ns_mailbox W :=
  let '(r, w) := os_wrapper_semaphore_release (ns_lock_handle m) (os m) in (i32 r, with_os w m).

(** ** The lock

    The tasks that hold a slot of the queue, and the steps of a system in
    which a task releases only a slot that it has acquired.  Tasks appear as
    often as they hold slots. *)

Definition lock_state : Type := ns_mailbox W * list Z.

Inductive lock_step {OV : OsView W} : lock_state -> lock_state -> Prop :=
  | step_acquire t m r m' held :
      tfm_ns_mailbox_os_lock_acquire m = Some (r, m') -> lock_step (m, held) (m', t :: held)
  | step_release t m r m' held held' :
      tfm_ns_mailbox_os_lock_release m = (r, m') -> held ≡ₚ t :: held' ->
      lock_step (m, held) (m', held')
  (** Anything that does not touch the lock. *)
  | step_other m m' held :
      ns_lock_handle m' = ns_lock_handle m ->
      (forall h, ns_lock_handle m = Some h -> tokens_of (os m') h = tokens_of (os m) h) ->
      lock_step (m, held) (m', held).

(** The semaphore counts the slots that nobody holds. *)
Definition lock_inv {OV : OsView W} (s : lock_state) : Prop :=
  exists h, ns_lock_handle s.1 = Some h /\
    tokens_of (os s.1) h = Some (NUM_MAILBOX_QUEUE_SLOT - Z.of_nat (length s.2), NUM_MAILBOX_QUEUE_SLOT) /\
    Z.of_nat (length s.2) <= NUM_MAILBOX_QUEUE_SLOT.

(** The state when [tfm_ns_mailbox_os_mq_send] makes its attempt [n], if the
    attempts before failed. *)
Fixpoint turn (others : nat -> W -> W) (n : nat) w : W :=
  match n with
  | O => w
  | S n => others n (turn others n w)
  end.

End mailbox.
Arguments Returns {W A} _ _.
Arguments Blocks {W A}.
Arguments GoesOn {W A}.

(** ** Properties *)

Section properties.
  Context {MC : MailboxConsts} {WC : OsWrapperConsts} {WCL : OsWrapperConstsLaws} {OL : OsLimits}.
  Context {W : Type} {OV : OsView W}.
  Context {OT : OsWrapperThread W} {OSem : OsWrapperSemaphore W} {OQ : OsWrapperMsgQueue W}.
  Context {SP : OsSemaphorePromise W} {FP : OsFlagsPromise W} {QP : OsQueuePromise W}.
  Implicit Types (m : ns_mailbox W) (w : W).

Lemma with_os_id m : with_os (os m) m = m.
Proof. by destruct m. Qed.

Lemma mailbox_flag_range : 0 <= MAILBOX_THREAD_FLAG < 2 ^ 31.
Proof. by unfold MAILBOX_THREAD_FLAG. Qed.

(** *** The lock *)

Lemma acquire_spec m h held : ns_lock_handle m = Some h ->
  tokens_of (os m) h = Some (NUM_MAILBOX_QUEUE_SLOT - held, NUM_MAILBOX_QUEUE_SLOT) ->
  match tfm_ns_mailbox_os_lock_acquire m with
  | Some (r, m') => held < NUM_MAILBOX_QUEUE_SLOT /\ r = OS_WRAPPER_SUCCESS /\
      ns_lock_handle m' = Some h /\
      tokens_of (os m') h = Some (NUM_MAILBOX_QUEUE_SLOT - (held + 1), NUM_MAILBOX_QUEUE_SLOT)
  | None => NUM_MAILBOX_QUEUE_SLOT <= held
  end.
Proof.
  intros Hh Ht. unfold tfm_ns_mailbox_os_lock_acquire. rewrite Hh.
  pose proof (promise_acquire _ _ _ _ Ht) as Ha.
  destruct (os_wrapper_semaphore_acquire _ _ _) as [[r w]|]; cbn [mbind option_bind]; [|lia].
  destruct Ha as (? & -> & Ht' & _). rewrite law_success_int. repeat split; [lia|done|]. cbn [os with_os].
  rewrite Ht'. do 2 f_equal. lia.
Qed.

Lemma release_spec m h held : ns_lock_handle m = Some h -> 0 < held ->
  tokens_of (os m) h = Some (NUM_MAILBOX_QUEUE_SLOT - held, NUM_MAILBOX_QUEUE_SLOT) ->
  exists m', tfm_ns_mailbox_os_lock_release m = (OS_WRAPPER_SUCCESS, m') /\
    ns_lock_handle m' = Some h /\
    tokens_of (os m') h = Some (NUM_MAILBOX_QUEUE_SLOT - (held - 1), NUM_MAILBOX_QUEUE_SLOT).
Proof.
  intros Hh Hp Ht. unfold tfm_ns_mailbox_os_lock_release. rewrite Hh.
  pose proof (promise_release _ _ _ _ Ht) as Hr.
  destruct (os_wrapper_semaphore_release _ _) as [r w]. rewrite (proj2 (Z.ltb_lt _ _)) in Hr by lia.
  destruct Hr as (-> & Ht' & _). eexists. rewrite law_success_int. split; [done|]. split; [done|]. cbn [os with_os].
  rewrite Ht'. do 2 f_equal. lia.
Qed.

Lemma lock_step_inv s s' : lock_step s s' -> lock_inv s -> lock_inv s'.
Proof.
  intros Hs (h & Hh & Ht & Hl). inversion Hs as [t m r m' held Ha|t m r m' held held' Hr Hp|m m' held Hh' Ho]; subst; cbn in *.
  - pose proof (acquire_spec _ _ _ Hh Ht) as Hs'. rewrite Ha in Hs'. destruct Hs' as (? & _ & Hh' & Ht').
    exists h. cbn [fst snd length]. split; [done|]. rewrite Nat2Z.inj_succ, Ht'. split; [do 2 f_equal; lia|lia].
  - pose proof (Permutation_length Hp) as Hlen. cbn in Hlen. rewrite Hlen in *.
    destruct (release_spec _ _ (Z.of_nat (S (length held'))) Hh ltac:(lia) Ht) as (m'' & Hr' & Hh' & Ht'). rewrite Hr in Hr'.
    injection Hr' as _ ->. exists h. cbn [fst snd]. split; [done|]. rewrite Ht'. split; [do 2 f_equal; lia|lia].
  - exists h. cbn [fst snd]. rewrite Hh', (Ho h Hh). by repeat split.
Qed.

Lemma lock_reachable_inv s s' : rtc lock_step s s' -> lock_inv s -> lock_inv s'.
Proof. induction 1; eauto using lock_step_inv. Qed.

(** C12. After [tfm_ns_mailbox_os_lock_init] has succeeded, in whatever order the
    tasks acquire and release slots of the mailbox queue and whatever else runs
    in between: the tasks never hold more slots than the queue has, a task that
    asks for a slot gets one at once if one is free and waits otherwise (it is
    never given an error), and giving back a slot that is held never fails. *)
Theorem lock_invariant m0 m1 m held :
  0 <= NUM_MAILBOX_QUEUE_SLOT <= semaphore_limit -> MAILBOX_GENERIC_ERROR <> MAILBOX_SUCCESS ->
  tfm_ns_mailbox_os_lock_init m0 = (MAILBOX_SUCCESS, m1) -> rtc lock_step (m1, []) (m, held) ->
  Z.of_nat (length held) <= NUM_MAILBOX_QUEUE_SLOT /\
  match tfm_ns_mailbox_os_lock_acquire m with
  | Some (r, _) => Z.of_nat (length held) < NUM_MAILBOX_QUEUE_SLOT /\ r = OS_WRAPPER_SUCCESS
  | None => Z.of_nat (length held) = NUM_MAILBOX_QUEUE_SLOT
  end /\
  (held <> [] -> (tfm_ns_mailbox_os_lock_release m).1 = OS_WRAPPER_SUCCESS).
Proof.
  intros Hn Hne Hi Hr. assert (lock_inv (m1, [])) as Hinv.
  { unfold tfm_ns_mailbox_os_lock_init in Hi.
    destruct (os_wrapper_semaphore_create _ _ _ _) as [[h|] w] eqn:Hc; cbn in Hi; [|congruence].
    injection Hi as <-. unfold MAX_SEMAPHORE_COUNT in Hc.
    destruct (promise_create _ _ _ _ _ _ (conj (proj1 Hn) (Z.le_refl _)) (proj2 Hn) Hc) as (_ & Ht & _).
    exists h. cbn. rewrite Ht, Z.sub_0_r. repeat split. lia. }
  destruct (lock_reachable_inv _ _ Hr Hinv) as (h & Hh & Ht & Hl). cbn in *. split; [done|]. split.
  - pose proof (acquire_spec _ _ _ Hh Ht) as Ha. destruct (tfm_ns_mailbox_os_lock_acquire m) as [[r m']|]; [|lia].
    destruct Ha as (? & ? & _). by split.
  - intros Hne'. destruct (release_spec _ _ (Z.of_nat (length held)) Hh ltac:(by destruct held) Ht) as (m' & -> & _). done.
Qed.

(** *** Waiting for a reply *)

Lemma wake_spec m t f : flags_of (os m) t = Some f ->
  let m' := tfm_ns_mailbox_os_wake_task_isr (Some t) m in
  flags_of (os m') t = Some (Z.lor f MAILBOX_THREAD_FLAG) /\ same_but_flags t (os m) (os m').
Proof.
  intros Hf. unfold tfm_ns_mailbox_os_wake_task_isr.
  destruct (promise_set_flag _ _ _ _ Hf mailbox_flag_range) as (w & -> & ? & ?). done.
Qed.

Lemma wait_spec m f : flags_of (os m) (running (os m)) = Some f ->
  match tfm_ns_mailbox_os_wait_reply m with
  | Some m' => Z.land f MAILBOX_THREAD_FLAG = MAILBOX_THREAD_FLAG /\
      flags_of (os m') (running (os m)) = Some (Z.ldiff f MAILBOX_THREAD_FLAG) /\
      same_but_flags (running (os m)) (os m) (os m')
  | None => Z.land f MAILBOX_THREAD_FLAG <> MAILBOX_THREAD_FLAG
  end.
Proof.
  intros Hf. unfold tfm_ns_mailbox_os_wait_reply.
  pose proof (promise_wait_flag _ _ _ Hf mailbox_flag_range) as Hw.
  destruct (os_wrapper_thread_wait_flag _ _ _) as [[r w]|]; [|done]. cbn [mbind option_bind].
  by destruct Hw as (? & _ & ? & ?).
Qed.

Lemma land_lor_self f k : Z.land (Z.lor f k) k = k.
Proof.
  apply Z.bits_inj'. intros i Hi. rewrite Z.land_spec, Z.lor_spec. by destruct (Z.testbit f i), (Z.testbit k i).
Qed.

Lemma ldiff_lor_self f k : Z.ldiff (Z.lor f k) k = Z.ldiff f k.
Proof.
  apply Z.bits_inj'. intros i Hi. rewrite !Z.ldiff_spec, Z.lor_spec. by destruct (Z.testbit f i), (Z.testbit k i).
Qed.

Lemma land_ldiff_self f : Z.land (Z.ldiff f MAILBOX_THREAD_FLAG) MAILBOX_THREAD_FLAG <> MAILBOX_THREAD_FLAG.
Proof. rewrite Z.ldiff_land, <- Z.land_assoc, (Z.land_comm (Z.lnot _)), Z.land_lnot_diag, Z.land_0_r. done. Qed.

(** A wake is never lost and never counted twice.  A task that is woken while
    it does not wait yet finds its flag when it waits, provided that what runs
    in between leaves its flags alone: the wait returns at once.  One wait
    takes all the wakes before it, of which there may be two: the task waits
    again until the next wake.  The other flags of the task, which share the
    word, and the other tasks are not touched. *)
Theorem wake_then_wait m t f m1 :
  flags_of (os m) t = Some f ->
  (m1 = tfm_ns_mailbox_os_wake_task_isr (Some t) m \/
   m1 = tfm_ns_mailbox_os_wake_task_isr (Some t) (tfm_ns_mailbox_os_wake_task_isr (Some t) m)) ->
  forall m2, running (os m2) = t -> flags_of (os m2) t = flags_of (os m1) t ->
  (tfm_ns_mailbox_os_get_task_handle m2).1 = Some t /\
  exists m3, tfm_ns_mailbox_os_wait_reply m2 = Some m3 /\
    flags_of (os m3) t = Some (Z.ldiff f MAILBOX_THREAD_FLAG) /\
    (forall t', t' <> t -> flags_of (os m3) t' = flags_of (os m2) t') /\
    tfm_ns_mailbox_os_wait_reply m3 = None.
Proof.
  intros Hf Hm1 m2 Hr Hf2.
  assert (flags_of (os m1) t = Some (Z.lor f MAILBOX_THREAD_FLAG)) as Hf1.
  { destruct Hm1 as [-> | ->]; [by apply wake_spec|].
    destruct (wake_spec m t f Hf) as [H1 _]. destruct (wake_spec _ t _ H1) as [-> _].
    by rewrite <- Z.lor_assoc, Z.lor_diag. }
  rewrite Hf1 in Hf2. split.
  { unfold tfm_ns_mailbox_os_get_task_handle. by rewrite promise_get_handle, Hr. }
  subst t. pose proof (wait_spec m2 _ Hf2) as Hw.
  destruct (tfm_ns_mailbox_os_wait_reply m2) as [m3|]; [|by rewrite land_lor_self in Hw].
  destruct Hw as (_ & Hf3 & Hr3 & Ho & _). rewrite ldiff_lor_self in Hf3.
  exists m3. repeat split; try done.
  rewrite <- Hr3 in Hf3. pose proof (wait_spec m3 _ Hf3) as Hw.
  destruct (tfm_ns_mailbox_os_wait_reply m3); [|done]. by destruct (land_ldiff_self f (proj1 Hw)).
Qed.

(** *** The message queue *)

Definition has_room (q : Z) w : Prop := exists ms cap, queue_of w q = Some (ms, cap) /\ (length ms < cap)%nat.

#[local] Instance has_room_dec q w : Decision (has_room q w).
Proof.
  destruct (queue_of w q) as [[ms cap]|] eqn:Hq.
  - destruct (decide (length ms < cap)%nat); [left; by exists ms, cap|].
    right. intros (ms' & cap' & Hq' & ?). rewrite Hq in Hq'. by injection Hq' as -> ->.
  - right. intros (? & ? & ? & _). congruence.
Defined.

Lemma send_loop_spec others q msg fuel n m :
  (forall k, (k < fuel)%nat -> is_Some (queue_of (turn (fun i => others (n + i)%nat) k (os m)) q)) ->
  match mq_send_loop others q msg fuel n m with
  | Returns r m' => r = MAILBOX_SUCCESS /\
      exists k ms cap, (k < fuel)%nat /\ queue_of (turn (fun i => others (n + i)%nat) k (os m)) q = Some (ms, cap) /\
        (length ms < cap)%nat /\ queue_of (os m') q = Some (ms ++ [msg], cap) /\
        same_but_queue q (turn (fun i => others (n + i)%nat) k (os m)) (os m') /\
        (forall j, (j < k)%nat -> ~ has_room q (turn (fun i => others (n + i)%nat) j (os m)))
  | GoesOn => forall k, (k < fuel)%nat -> ~ has_room q (turn (fun i => others (n + i)%nat) k (os m))
  | Blocks => False
  end.
Proof.
  revert n m. induction fuel as [|fuel IH]; intros n m Hq; cbn [mq_send_loop]; [intros; lia|].
  destruct (Hq 0%nat ltac:(lia)) as [[ms cap] Hq0]. cbn [turn] in Hq0.
  destruct (promise_send _ _ _ _ msg Hq0) as (r & w & -> & Hs). case_decide as Hroom.
  - destruct Hs as (-> & Hq' & Hsame). rewrite Z.eqb_refl. split; [done|].
    exists 0%nat, ms, cap. repeat (split; [done || lia|]). intros. lia.
  - destruct Hs as [-> ->]. rewrite (proj2 (Z.eqb_neq _ _)) by apply law_error_int.
    assert (forall k, turn (fun i => others (S n + i)%nat) k (others n (os m)) =
              turn (fun i => others (n + i)%nat) (S k) (os m)) as Hturn.
    { intros k. induction k as [|k IHk]; cbn [turn]; [by rewrite Nat.add_0_r|].
      rewrite IHk. cbn [turn]. by replace (n + S k)%nat with (S n + k)%nat by lia. }
    specialize (IH (S n) (with_os (others n (os m)) m)). cbn [with_os os] in IH.
    assert (forall k, (k < fuel)%nat -> is_Some (queue_of (turn (fun i => others (S n + i)%nat) k (others n (os m))) q)) as Hq'.
    { intros k Hk. rewrite Hturn. apply Hq. lia. }
    specialize (IH Hq').
    assert (~ has_room q (os m)) as Hno.
    { intros (ms' & cap' & Hqm & ?). rewrite Hq0 in Hqm. injection Hqm as <- <-. lia. }
    destruct (mq_send_loop _ _ _ _ _ _) as [r m'| |]; [|done|].
    + destruct IH as (-> & k & ms' & cap' & Hk & Hqk & Hroom' & Hq'' & Hsame & Hbefore). split; [done|].
      exists (S k), ms', cap'. rewrite <- Hturn. split; [lia|]. repeat (split; [done|]).
      intros [|j] Hj; [done|]. rewrite <- Hturn. apply (Hbefore j). lia.
    + intros [|k] Hk; [done|]. rewrite <- Hturn. apply (IH k). lia.
Qed.

(** C21. [tfm_ns_mailbox_os_mq_send] to an existing queue returns if and only if
    the queue has room at one of its attempts: it tries again for as long as
    the others, which run between the attempts, leave the queue full, and for
    ever if they always do.  When it returns it returns MAILBOX_SUCCESS and has
    appended the message, once, to the queue as it was at the first attempt
    that found room; it never returns MAILBOX_GENERIC_ERROR.  NULL arguments
    are refused without a call. *)
Theorem mq_send_returns_iff_room others q msg m :
  (forall k, is_Some (queue_of (turn others k (os m)) q)) ->
  ((exists fuel r m', tfm_ns_mailbox_os_mq_send others fuel (Some q) (Some msg) m = Returns r m') <->
   (exists k, has_room q (turn others k (os m)))) /\
  (forall fuel r m', tfm_ns_mailbox_os_mq_send others fuel (Some q) (Some msg) m = Returns r m' ->
   r = MAILBOX_SUCCESS /\
   exists k ms cap, queue_of (turn others k (os m)) q = Some (ms, cap) /\
     (forall j, (j < k)%nat -> ~ has_room q (turn others j (os m))) /\
     queue_of (os m') q = Some (ms ++ [msg], cap) /\ same_but_queue q (turn others k (os m)) (os m')) /\
  (forall fuel h p, h = None \/ p = None ->
   tfm_ns_mailbox_os_mq_send others fuel h p m = Returns MAILBOX_INVAL_PARAMS m).
Proof.
  intros Hq. assert (forall fuel, _) as Hspec by (intros fuel; exact (send_loop_spec others q msg fuel 0 m (fun k _ => Hq k))).
  cbn [Nat.add] in Hspec. change (fun i => others i) with others in Hspec. repeat split.
  - intros (fuel & r & m' & Hr). specialize (Hspec fuel). cbn in Hr. rewrite Hr in Hspec.
    destruct Hspec as (_ & k & ms & cap & _ & ? & ? & _). exists k. by exists ms, cap.
  - intros [k Hk]. specialize (Hspec (S k)). exists (S k). unfold tfm_ns_mailbox_os_mq_send.
    destruct (mq_send_loop _ _ _ _ _ _) as [r m'| |]; [by exists r, m'|done|].
    by destruct (Hspec k ltac:(lia)).
  - specialize (Hspec fuel). cbn in H. rewrite H in Hspec. by destruct Hspec as (-> & _).
  - specialize (Hspec fuel). cbn in H. rewrite H in Hspec.
    destruct Hspec as (_ & k & ms & cap & _ & ? & _ & ? & ? & ?). by exists k, ms, cap.
  - intros fuel h p [-> | ->]; [done|]. by destruct h.
Qed.

(** A message that is sent is received: what is sent to a queue with room is
    what the receiver gets once the messages before it have been taken, with
    no message lost, duplicated or reordered. *)
Theorem mq_send_receive others others' q msg m0 ms cap m1 :
  queue_of (os m0) q = Some (ms, cap) -> (length ms < cap)%nat ->
  tfm_ns_mailbox_os_mq_send others 1 (Some q) (Some msg) m0 = Returns MAILBOX_SUCCESS m1 ->
  exists first rest m2, ms ++ [msg] = first :: rest /\
    (forall buf fuel, tfm_ns_mailbox_os_mq_receive others' (S fuel) (Some q) (Some buf) m1 =
      Returns (MAILBOX_SUCCESS, first) m2) /\
    queue_of (os m2) q = Some (rest, cap).
Proof.
  intros Hq Hl Hs. cbn in Hs. destruct (promise_send _ _ _ _ msg Hq) as (r & w & Hw & Hp). rewrite Hw in Hs.
  rewrite decide_True in Hp by done. destruct Hp as (-> & Hq1 & _). rewrite Z.eqb_refl in Hs. injection Hs as <-.
  pose proof (promise_receive (os (with_os w m0)) _ _ _ Hq1) as Hr.
  destruct (os_wrapper_msg_queue_receive _ _) as [[[r' msg'] w']|] eqn:Hcall; destruct (ms ++ [msg]) as [|x rest] eqn:Hms; try done; [|by destruct ms].
  destruct Hr as (-> & -> & Hq2 & _). exists x, rest, (with_os w' (with_os w m0)).
  split; [done|]. split; [|done]. intros buf fuel. cbn [os with_os] in Hcall. cbn. by rewrite Hcall, Z.eqb_refl.
Qed.
End properties.

(** ** On the reference kernel *)

Section examples.
#[local] Instance example_mailbox : MailboxConsts := {
  MAILBOX_SUCCESS := 0; MAILBOX_INVAL_PARAMS := -2; MAILBOX_GENERIC_ERROR := -4; NUM_MAILBOX_QUEUE_SLOT := 2;
}.
#[local] Instance example_wrapper : OsWrapperConsts := {
  OS_WRAPPER_SUCCESS := 0; OS_WRAPPER_ERROR := 2 ^ 32 - 1; OS_WRAPPER_WAIT_FOREVER := 2 ^ 32 - 1;
  OS_WRAPPER_DEFAULT_STACK_SIZE := -1;
}.
#[local] Instance example_wrapper_laws : OsWrapperConstsLaws.
Proof. by split. Qed.
#[local] Instance example_thread : OsWrapperThread kernel := wrapper_thread true.

(** Task 1 runs; task 2 exists; queue 9 has room for one message. *)
Definition example_kernel : kernel := mkKernel 1 {[1 := 4; 2 := 0]} ∅ {[9 := ([], 1%nat)]} 20 [].
Definition example_state : ns_mailbox kernel := mkMailbox example_kernel None false.

Definition example_locked : ns_mailbox kernel := (tfm_ns_mailbox_os_lock_init example_state).2.
Definition example_held (m : ns_mailbox kernel) : ns_mailbox kernel :=
  default m (snd <$> tfm_ns_mailbox_os_lock_acquire m).

Lemma lock_invariant_witness :
  Z.of_nat (length [5; 5]) <= 2 /\
  (tfm_ns_mailbox_os_lock_release (example_held (example_held example_locked))).1 = 0.
Proof.
  assert (rtc lock_step (example_locked, []) (example_held (example_held example_locked), [5; 5])) as Hr.
  { eapply rtc_l; [by eapply (step_acquire 5)|]. eapply rtc_l; [by eapply (step_acquire 5)|]. apply rtc_refl. }
  destruct (lock_invariant example_state example_locked _ _ ltac:(done) ltac:(done) eq_refl Hr) as (Hl & _ & Hrel).
  split; [exact Hl | by apply Hrel].
Defined.

Lemma wake_then_wait_witness :
  exists m3, tfm_ns_mailbox_os_wait_reply (tfm_ns_mailbox_os_wake_task_isr (Some 1) example_state) = Some m3 /\
    flags_of (os m3) 1 = Some 4 /\ tfm_ns_mailbox_os_wait_reply m3 = None.
Proof.
  destruct (wake_then_wait example_state 1 4 (tfm_ns_mailbox_os_wake_task_isr (Some 1) example_state)
    ltac:(by vm_compute) (or_introl eq_refl) (tfm_ns_mailbox_os_wake_task_isr (Some 1) example_state) ltac:(by vm_compute) eq_refl) as (_ & m3 & Hw & Hf & _ & Hn).
  by exists m3.
Defined.

(** Another task empties the queue after the second attempt. *)
Definition example_others (n : nat) (w : kernel) : kernel :=
  match n with 1%nat => set_queues {[9 := ([], 1%nat)]} w | _ => set_queues {[9 := ([[7]], 1%nat)]} w end.
Definition example_full : ns_mailbox kernel := mkMailbox (example_others 0 example_kernel) None false.

Lemma mq_send_returns_iff_room_witness :
  exists fuel r m', tfm_ns_mailbox_os_mq_send example_others fuel (Some 9) (Some [8]) example_full = Returns r m'.
Proof.
  apply (mq_send_returns_iff_room example_others 9 [8] example_full).
  - intros k. destruct k as [|k]; [by eexists|]. cbn. by destruct k as [|[|k]]; eexists.
  - exists 2%nat. exists [], 1%nat. split; [done|]. cbn. lia.
Defined.

Lemma mq_send_receive_witness :
  exists m1 m2, tfm_ns_mailbox_os_mq_send example_others 1 (Some 9) (Some [8]) example_state = Returns 0 m1 /\
    tfm_ns_mailbox_os_mq_receive example_others 1 (Some 9) (Some [0]) m1 = Returns (0, [8]) m2.
Proof.
  eexists. destruct (mq_send_receive example_others example_others 9 [8] example_state [] 1 _ ltac:(by vm_compute) ltac:(cbn; lia)
    ltac:(vm_compute; reflexivity))
    as (first & rest & m2 & Hq & Hr & _).
  injection Hq as <- <-. exists m2. split; [done|]. apply (Hr [0] 0%nat).
Defined.
End examples.
