(* ===== verification/MainNs.v ===== *)
(** * The start of the non-secure side: app_broker/main_ns.c

    [main] from reset to the start of the scheduler.  Every way it can end is
    an endless loop or the scheduler: the end is part of the result. *)

From S2P Require Import Prelude NsidManager Cmsis OsKernelRef Mailbox.
Local Open Scope Z_scope.

(** Driver_Common.h *)
Class DriverConsts := { ARM_DRIVER_OK : Z }.

(** The calls that leave the file: the console, the secure side and the
    mailbox. *)
Class NsServices (W : Type) := {
  stdio_init : W -> W;
  stdio_uninit : W -> W;
  LOG_MSG : string -> W -> W;
  tfm_ns_wait_for_s_cpu_ready : call_of W Z;
  tfm_ns_mailbox_init : call_of W Z;
  tfm_ns_interface_init : call_of W Z;
}.

(** TFM_NS_MAILBOX_API, TFM_MULTI_CORE_NS_OS_MAILBOX_THREAD,
    CONFIG_TFM_FLOAT_ABI, __GNUC__ *)
Record ns_config := mkNsConfig {
  ns_mailbox_api : bool;
  ns_os_mailbox_thread : bool;
  float_abi : Z;
  gnuc : bool;
}.

(** The addresses of the thread functions. *)
Record thread_funcs := mkFuncs { test_app : Z; tfm_ns_mailbox_thread_runner : Z }.

(** The system and the coprocessor access control register. *)
Record ns_system (W : Type) := mkSystem { system : W; CPACR : Z }.
Arguments mkSystem {W} _ _.
Arguments system {W} _.
Arguments CPACR {W} _.

Definition crlf : string := String (Ascii.ascii_of_nat 13) (String (Ascii.ascii_of_nat 10) EmptyString).

Section main.
  Context {DC : DriverConsts} {MC : MailboxConsts} {W : Type} {OS : CmsisRtos W} {NS : NsServices W}.
  Variable c : ns_config.
  Variable f : thread_funcs.
  Implicit Types s : ns_system W.

Definition on_system (g : W -> W) s : ns_system W := mkSystem (g (system s)) (CPACR s).

Definition call {A} (g : call_of W A) s : A * ns_system W :=
  let '(r, w) := g (system s) in (r, mkSystem w (CPACR s)).

Definition thread_attr : osThreadAttr_t :=
  mkThreadAttr (Some (cstr "test_thread")) 0 None 0 None 4096 0 (u32 TFM_DEFAULT_NSID) 0.

Definition mailbox_thread_attr : osThreadAttr_t :=
  mkThreadAttr (Some (cstr "mailbox_thread")) 0 None 0 None 1024 0 0 0.

(** How [tfm_ns_multi_core_boot] and [main] end. *)
Inductive boot_end :=
  | Booted
  | NoSecureCore  (* for (;;) *)
  | NoMailbox.

Definition tfm_ns_multi_core_boot s : boot_end * ns_system W :=
  let s := on_system (LOG_MSG ("Non-secure code running on non-secure core." ++ crlf)) s in
  let '(r, s) := call tfm_ns_wait_for_s_cpu_ready s in
  if negb (r =? 0) then (NoSecureCore, on_system (LOG_MSG ("Error sync'ing with secure core." ++ crlf)) s)
  else
    let '(ret, s) := call tfm_ns_mailbox_init s in
    if negb (ret =? MAILBOX_SUCCESS) then
      (NoMailbox, on_system (LOG_MSG ("Non-secure mailbox initialization failed." ++ crlf)) s)
    else (Booted, s).

(** Weak: a platform can have its own. *)
Definition tfm_ns_platform_init s : Z * ns_system W := (ARM_DRIVER_OK, on_system stdio_init s).

Definition tfm_ns_platform_uninit s : Z * ns_system W := (ARM_DRIVER_OK, on_system stdio_uninit s).

Definition tfm_ns_cp_init s : Z * ns_system W :=
  (ARM_DRIVER_OK,
   if (float_abi c >=? 1) && gnuc c
   then mkSystem (system s) (Z.lor (CPACR s) (Z.lor (Z.shiftl 3 (10 * 2)) (Z.shiftl 3 (11 * 2))))
   else s).

Inductive main_end :=
  | PlatformFailed  (* while (1) *)
  | CpFailed
  | BootFailed (e : boot_end)
  | KernelReturned
  | KernelRuns.

(** [platform_init] and [cp_init] are the definitions above or those that
    override them. *)
Definition main (platform_init cp_init : ns_system W -> Z * ns_system W) s : main_end * ns_system W :=
  let '(r, s) := platform_init s in
  if negb (r =? ARM_DRIVER_OK) then (PlatformFailed, s)
  else
    let '(r, s) := cp_init s in
    if negb (r =? ARM_DRIVER_OK) then (CpFailed, s)
    else
      let '(_, s) := call osKernelInitialize s in
      let '(e, s) :=
        if ns_mailbox_api c then tfm_ns_multi_core_boot s
        else let '(_, s) := call tfm_ns_interface_init s in (Booted, s) in
      match e with
      | Booted =>
          let s := if ns_os_mailbox_thread c
                   then (call (osThreadNew (tfm_ns_mailbox_thread_runner f) None (Some mailbox_thread_attr)) s).2
                   else s in
          let '(_, s) := call (osThreadNew (test_app f) None (Some thread_attr)) s in
          let s := on_system (LOG_MSG ("Non-Secure system starting..." ++ crlf)) s in
          match osKernelStart (system s) with
          | None => (KernelRuns, s)
          | Some (_, w) => (KernelReturned, mkSystem w (CPACR s))
          end
      | e => (BootFailed e, s)
      end.

End main.

(** ** Properties *)

Section properties.
  Context {DC : DriverConsts} {MC : MailboxConsts} {W : Type} {OS : CmsisRtos W} {NS : NsServices W}.
  (** What the system was asked for, as far as the order matters. *)
  Variables (threads : W -> list Z) (initialised secure_ready : W -> Prop).

(** The calls do what their names say to these four. *)
Class BootLaws := {
  law_quiet g w : g = stdio_init \/ (exists m, g = LOG_MSG m) ->
    threads (g w) = threads w /\ (initialised (g w) <-> initialised w) /\ (secure_ready (g w) <-> secure_ready w);
  law_kernel_init w : threads (osKernelInitialize w).2 = threads w /\ initialised (osKernelInitialize w).2 /\
    (secure_ready (osKernelInitialize w).2 <-> secure_ready w);
  law_wait w : threads (tfm_ns_wait_for_s_cpu_ready w).2 = threads w /\
    (initialised (tfm_ns_wait_for_s_cpu_ready w).2 <-> initialised w);
  (** The secure side serves requests once the mailbox is set up with it. *)
  law_mailbox w : threads (tfm_ns_mailbox_init w).2 = threads w /\
    (initialised (tfm_ns_mailbox_init w).2 <-> initialised w) /\
    ((tfm_ns_wait_for_s_cpu_ready w).1 = 0 ->
     (tfm_ns_mailbox_init (tfm_ns_wait_for_s_cpu_ready w).2).1 = MAILBOX_SUCCESS ->
     secure_ready (tfm_ns_mailbox_init (tfm_ns_wait_for_s_cpu_ready w).2).2);
  law_interface w : threads (tfm_ns_interface_init w).2 = threads w /\
    (initialised (tfm_ns_interface_init w).2 <-> initialised w) /\ secure_ready (tfm_ns_interface_init w).2;
  (** A thread that is created does not run before the kernel starts. *)
  law_thread_new w fn arg attr : initialised w ->
    threads (osThreadNew fn arg attr w).2 = threads w ++ [fn] /\ initialised (osThreadNew fn arg attr w).2 /\
    (secure_ready (osThreadNew fn arg attr w).2 <-> secure_ready w);
}.
  Context {BL : BootLaws}.
  Implicit Types (w : W) (s : ns_system W).

Lemma log_quiet m w : threads (LOG_MSG m w) = threads w /\ (initialised (LOG_MSG m w) <-> initialised w) /\
  (secure_ready (LOG_MSG m w) <-> secure_ready w).
Proof. apply law_quiet. right. by exists m. Qed.

(** The secure side, if the boot succeeds. *)
Lemma multi_core_boot_spec s e s' : tfm_ns_multi_core_boot s = (e, s') -> initialised (system s) ->
  threads (system s') = threads (system s) /\ CPACR s' = CPACR s /\
  (e = Booted -> initialised (system s') /\ secure_ready (system s')).
Proof.
  intros H Hi. unfold tfm_ns_multi_core_boot, call, on_system in H. cbn [system CPACR] in H.
  set (w := LOG_MSG _ (system s)) in H. destruct (log_quiet ("Non-secure code running on non-secure core." ++ crlf) (system s)) as (Ht & Hi' & _).
  fold w in Ht, Hi'. destruct (law_wait w) as [Ht2 Hi2]. pose proof (law_mailbox w) as (_ & _ & Hready).
  destruct (tfm_ns_wait_for_s_cpu_ready w) as [r w2]. cbn [fst snd] in *.
  destruct (Z.eqb_spec r 0) as [->|]; cbn [negb system CPACR] in H.
  2:{ injection H as <- <-. cbn [system CPACR]. split; [|by split]. etrans; [apply log_quiet|]. congruence. }
  destruct (law_mailbox w2) as (Ht3 & Hi3 & _). destruct (tfm_ns_mailbox_init w2) as [ret w3]. cbn [fst snd] in *.
  destruct (Z.eqb_spec ret MAILBOX_SUCCESS) as [->|]; cbn [negb] in H; injection H as <- <-; cbn [system CPACR].
  - split; [congruence|]. split; [done|]. intros _. split; [by rewrite Hi3, Hi2, Hi' | by apply Hready].
  - split; [|by split]. etrans; [apply log_quiet|]. congruence.
Qed.

(** The state in which the scheduler is started. *)
Lemma start_spec f s (mailbox_thread : bool) : initialised (system s) -> secure_ready (system s) ->
  let s1 := if mailbox_thread
            then (call (osThreadNew (tfm_ns_mailbox_thread_runner f) None (Some mailbox_thread_attr)) s).2 else s in
  let s2 := (call (osThreadNew (test_app f) None (Some thread_attr)) s1).2 in
  let s3 := on_system (LOG_MSG ("Non-Secure system starting..." ++ crlf)) s2 in
  threads (system s3) = threads (system s) ++
    (if mailbox_thread then [tfm_ns_mailbox_thread_runner f] else []) ++ [test_app f] /\
  initialised (system s3) /\ secure_ready (system s3) /\ CPACR s3 = CPACR s.
Proof.
  intros Hi Hr s1 s2 s3.
  assert (forall fn attr s, call (osThreadNew fn None attr) s =
    ((osThreadNew fn None attr (system s)).1, mkSystem (osThreadNew fn None attr (system s)).2 (CPACR s))) as Hcall
    by (intros; unfold call; by destruct (osThreadNew _ _ _ _)).
  assert (threads (system s1) = threads (system s) ++ (if mailbox_thread then [tfm_ns_mailbox_thread_runner f] else [])
    /\ initialised (system s1) /\ secure_ready (system s1) /\ CPACR s1 = CPACR s) as (Ht1 & Hi1 & Hr1 & Hc1).
  { unfold s1. destruct mailbox_thread; [|by rewrite app_nil_r]. rewrite Hcall. cbn [snd system CPACR].
    destruct (law_thread_new (system s) (tfm_ns_mailbox_thread_runner f) None (Some mailbox_thread_attr) Hi) as (? & ? & Hs).
    by rewrite Hs. }
  unfold s3, s2. rewrite Hcall. cbn [snd system CPACR on_system].
  destruct (law_thread_new (system s1) (test_app f) None (Some thread_attr) Hi1) as (Ht2 & Hi2 & Hs2).
  destruct (log_quiet ("Non-Secure system starting..." ++ crlf) (osThreadNew (test_app f) None (Some thread_attr) (system s1)).2) as (-> & -> & ->).
  rewrite Ht2, Ht1, Hs2, <- app_assoc. by repeat split.
Qed.

(** The non-secure side starts in order.  Whatever the platform functions and
    the secure side answer: the scheduler is started only after the kernel is
    initialised and the interface to the secure side is up, and then exactly the
    threads of the configuration exist, the mailbox thread before the test
    thread; on every failure [main] stops in a loop with no thread created. *)
Theorem main_boot_order c f platform_init cp_init s e s' :
  (forall s, threads (system (platform_init s).2) = threads (system s)) ->
  (forall s, threads (system (cp_init s).2) = threads (system s)) ->
  main c f platform_init cp_init s = (e, s') ->
  match e with
  | KernelRuns => threads (system s') = threads (system s) ++
      (if ns_os_mailbox_thread c then [tfm_ns_mailbox_thread_runner f] else []) ++ [test_app f] /\
      initialised (system s') /\ secure_ready (system s') /\ osKernelStart (system s') = None
  | KernelReturned => exists s0 r, osKernelStart (system s0) = Some (r, system s') /\
      threads (system s0) = threads (system s) ++
        (if ns_os_mailbox_thread c then [tfm_ns_mailbox_thread_runner f] else []) ++ [test_app f] /\
      initialised (system s0) /\ secure_ready (system s0)
  | _ => threads (system s') = threads (system s)
  end.
Proof.
  intros Hp Hc H. unfold main in H. pose proof (Hp s) as Hp'. destruct (platform_init s) as [r1 s1]. cbn in Hp'.
  destruct (negb (r1 =? ARM_DRIVER_OK)); [by injection H as <- <-|].
  pose proof (Hc s1) as Hc'. destruct (cp_init s1) as [r2 s2]. cbn in Hc'.
  destruct (negb (r2 =? ARM_DRIVER_OK)); [injection H as <- <-; congruence|].
  unfold call at 1 in H. destruct (law_kernel_init (system s2)) as (Ht3 & Hi3 & _).
  destruct (osKernelInitialize (system s2)) as [r3 w3]. cbn [snd] in *.
  destruct (if ns_mailbox_api c then _ else _) as [e4 s4] eqn:Hboot in H.
  assert (threads (system s4) = threads (system s) /\
    (e4 = Booted -> initialised (system s4) /\ secure_ready (system s4))) as [Ht4 Hok].
  { destruct (ns_mailbox_api c).
    - destruct (multi_core_boot_spec _ _ _ Hboot Hi3) as (Ht4 & _ & Hok). cbn [system] in Ht4. by rewrite Ht4, Ht3, Hc', Hp'.
    - unfold call in Hboot. cbn [system] in Hboot. destruct (law_interface w3) as (Ht & Hi & Hr).
      destruct (tfm_ns_interface_init w3) as [r w4]. cbn [snd] in *. injection Hboot as <- <-. cbn [system].
      split; [congruence|]. intros _. by rewrite Hi. }
  destruct e4; [|by injection H as <- <-..]. destruct (Hok eq_refl) as [Hi4 Hr4].
  pose proof (start_spec f s4 (ns_os_mailbox_thread c) Hi4 Hr4) as Hs. cbv zeta in Hs.
  destruct (call (osThreadNew (test_app f) _ _) _) as [h s5]. cbn [snd] in Hs.
  destruct Hs as (Ht5 & Hi5 & Hr5 & _). rewrite Ht4 in Ht5.
  destruct (osKernelStart _) as [[r w]|] eqn:Hk in H; injection H as <- <-; [|done].
  by exists (on_system (LOG_MSG ("Non-Secure system starting..." ++ crlf)) s5), r.
Qed.

(** The weak platform functions always succeed; with a GNU compiler and
    floating point the coprocessor function gives full access to CP10 and CP11
    and changes no other bit of the register. *)
Theorem default_platform_functions c s :
  (tfm_ns_platform_init s).1 = ARM_DRIVER_OK /\ (tfm_ns_platform_uninit s).1 = ARM_DRIVER_OK /\
  (tfm_ns_cp_init c s).1 = ARM_DRIVER_OK /\ system (tfm_ns_cp_init c s).2 = system s /\
  forall i, 0 <= i -> Z.testbit (CPACR (tfm_ns_cp_init c s).2) i =
    Z.testbit (CPACR s) i || ((float_abi c >=? 1) && gnuc c && bool_decide (20 <= i < 24)).
Proof.
  repeat (split; [done|]). split; [by unfold tfm_ns_cp_init; destruct (_ && _)|]. intros i Hi.
  unfold tfm_ns_cp_init. cbn [snd]. destruct ((float_abi c >=? 1) && gnuc c); [|by rewrite orb_false_r].
  cbn [CPACR andb]. rewrite Z.lor_spec. f_equal.
  change (Z.lor (Z.shiftl 3 (10 * 2)) (Z.shiftl 3 (11 * 2))) with (Z.shiftl (Z.ones 4) 20).
  rewrite Z.shiftl_spec by done. destruct (decide (20 <= i < 24)) as [Hr|Hr].
  - rewrite bool_decide_true by done. apply Z.ones_spec_low. lia.
  - rewrite bool_decide_false by done. destruct (decide (i < 20)); [by rewrite Z.testbit_neg_r by lia|].
    apply Z.ones_spec_high. lia.
Qed.
End properties.

(** ** On the reference kernel

    The other services do nothing and answer 0; the kernel counts as
    initialised always. *)

Section examples.
#[local] Instance example_driver : DriverConsts := { ARM_DRIVER_OK := 0 }.
#[local] Instance example_mailbox : MailboxConsts := {
  MAILBOX_SUCCESS := 0; MAILBOX_INVAL_PARAMS := -2; MAILBOX_GENERIC_ERROR := -4; NUM_MAILBOX_QUEUE_SLOT := 2;
}.

#[local] Instance example_services : NsServices kernel := {
  stdio_init w := w; stdio_uninit w := w; LOG_MSG _ w := w;
  tfm_ns_wait_for_s_cpu_ready w := (0, w); tfm_ns_mailbox_init w := (0, w); tfm_ns_interface_init w := (1, w);
}.

Definition created (w : kernel) : list Z := (k_threads w).*1.

#[local] Instance example_laws : BootLaws created (fun _ => True) (fun _ => True).
Proof.
  split; try done.
  - intros g w [-> | [m ->]]; done.
  - intros w fn arg attr _. unfold created. cbn. by rewrite fmap_app.
Qed.

Definition reset_kernel : kernel := mkKernel 0 ∅ ∅ ∅ 1 [].
Definition mailbox_config : ns_config := mkNsConfig true true 1 true.

Lemma main_boot_order_witness :
  exists s', main mailbox_config (mkFuncs 11 22) tfm_ns_platform_init (tfm_ns_cp_init mailbox_config)
      (mkSystem reset_kernel 1) = (KernelRuns, s') /\ created (system s') = [22; 11] /\ CPACR s' = 0xF00001.
Proof.
  eexists. split; [reflexivity|]. split; [|done].
  pose proof (main_boot_order created (fun _ => True) (fun _ => True) mailbox_config (mkFuncs 11 22) tfm_ns_platform_init
    (tfm_ns_cp_init mailbox_config) (mkSystem reset_kernel 1) _ _ (fun _ => eq_refl) (fun _ => eq_refl) eq_refl) as H.
  apply (proj1 H).
Defined.
End examples.
