(* ===== verification/HostMain.v ===== *)
(** * Starting the eRPC client and server

    The programs of the host, erpc/host_example/main.c and
    erpc/tfm_reg_tests/main_host.c, built without a fixed transport so that the
    command line selects one; erpc_client_start.c; and on the device
    erpc_server_start.c and server/app/erpc_app.c. *)

From S2P Require Import Prelude Erpc MainNs.
Local Open Scope Z_scope.

(** tfm_erpc_server.h: the service of an ID. *)
Record psa_client_api_service := mk_psa_client_api_service { service_id : Z }.

(** What the programs call outside the repository: the console, [getopt_long]
    and [atoi], the set-up functions of eRPC.  [TR] are the transports, [MBF] the
    message buffer factories.  [get_options] is the loop over
    [getopt_long] with the options --UART and --TCP: the two flags, [optind] and
    the permuted arguments. *)
Class Host (TR MBF W : Type) := {
  printf : string -> W -> W;
  get_options : list string -> W -> (bool * bool * Z * list string) * W;
  (** [None]: the value is not an [int], which C leaves undefined. *)
  atoi : string -> option Z;
  erpc_transport_serial_init : string -> Z -> W -> option TR * W;
  erpc_transport_tcp_init : string -> Z -> bool -> W -> option TR * W;
  erpc_transport_cmsis_uart_init : W -> option TR * W;
  erpc_mbf_dynamic_init : W -> MBF * W;
  erpc_client_init : TR -> MBF -> W -> W;
  erpc_server_init : option TR -> MBF -> W -> W;
  (** [new (nothrow)]: whether there is memory; and [delete]. *)
  operator_new : W -> bool * W;
  operator_delete : W -> W;
  erpc_add_service_to_server : option psa_client_api_service -> W -> W;
  (** [None]: does not return. *)
  erpc_server_run : W -> option (Z * W);
}.

(** The PSA client API as the programs use it: [None] is undefined. *)
Class HostPsa (W : Type) := {
  psa_framework_version : W -> option (Z * W);
  (** [psa_hash_compute (PSA_ALG_SHA_256, input, hash, hash_size)]: the status, the
      contents of the buffer and the length. *)
  psa_hash_compute : list Z -> list Z -> Z -> W -> option (Z * list Z * Z * W);
  ns_reg_test_start : W -> option W;
  PSA_HASH_LENGTH_SHA_256 : Z;
}.

(** Decimal and hexadecimal conversions of printf. *)
Class Formats := { fmt_d : Z -> string; fmt_x : Z -> string; fmt_02hhX : Z -> string; fmt_zu : Z -> string }.

Definition ARGC_UART : Z := 3.
Definition ARGC_TCP : Z := 4.

Section host.
  Context {TR MBF W : Type} {H : Host TR MBF W} {P : HostPsa W} {F : Formats}.
  Implicit Types (w : W) (argv : list string).
  Local Open Scope string_scope.

Definition erpc_client_start (transport : TR) w : W :=
  let '(message_buffer_factory, w) := erpc_mbf_dynamic_init w in
  erpc_client_init transport message_buffer_factory w.

(** tfm_erpc_server.cpp, with dynamic allocation *)
Definition create_psa_client_api_service w : option psa_client_api_service * W :=
  let '(ok, w) := operator_new w in
  (if (ok : bool) then Some (mk_psa_client_api_service kpsa_client_api_service_id) else None, w).

Definition destroy_psa_client_api_service (service : option psa_client_api_service) w : W :=
  if bool_decide (is_Some service) then operator_delete w else w.

(** [None]: the server does not return. *)
Definition erpc_server_start (transport : option TR) w : option W :=
  let '(mbf, w) := erpc_mbf_dynamic_init w in
  let w := erpc_server_init transport mbf w in
  let '(service, w) := create_psa_client_api_service w in
  let w := erpc_add_service_to_server service w in
  snd <$> erpc_server_run w.

(** The state in which the thread stays, if the server returns. *)
Definition test_app w : option W :=
  let '(transport, w) := erpc_transport_cmsis_uart_init w in
  let w := if bool_decide (transport = None) then printf ("eRPC transport init failed!" ++ crlf) w else w in
  erpc_server_start transport w.

(** [argv[i]]; [None] is a read past the arguments. *)
Definition arg argv (i : Z) : option string := argv !! Z.to_nat i.

(** [%d] of a [uint32_t]: defined for the values that are an [int] too. *)
Definition fmt_d_u32 (v : Z) : option string := if (v <? 2 ^ 31)%Z then Some (fmt_d v) else None.

Definition test_call w : option W :=
  let hash := replicate (Z.to_nat PSA_HASH_LENGTH_SHA_256) 0%Z in
  let hash_size := sizeof hash in
  let msg := bytes_of_string "test" in
  '(status, hash, hash_size, w) ← psa_hash_compute msg hash hash_size w;
  let w := printf ("psa_hash_compute: " ++ fmt_d status ++ crlf) w in
  let w := printf ("> hash_size = " ++ fmt_zu hash_size ++ crlf) w in
  let w := printf "> hash = " w in
  let w := foldl (fun w b => printf (fmt_02hhX b) w) w hash in
  Some (printf crlf w).

(** The rest of [main] once there is a transport, or not. *)
Definition example_run (transport : option TR) w : option (Z * W) :=
  match transport with
  | None => Some (1%Z, printf ("eRPC transport init failed!" ++ crlf) w)
  | Some transport =>
      let w := erpc_client_start transport w in
      '(v, w) ← psa_framework_version w;
      version ← fmt_d_u32 v;
      let w := printf ("psa_framework_version: " ++ version ++ crlf) w in
      w ← test_call w;
      Some (0%Z, w)
  end.

(** What the arguments select. *)
Inductive choice := Serial (uart_dev : string) | Tcp (tcp_host tcp_port : string).

(** The argument checks, which are the same text in both programs: the choice,
    or [None] for [return 1]. *)
Definition parse_arguments argv w : option (option choice * W) :=
  let argc := Z.of_nat (length argv) in
  if negb (argc =? ARGC_UART)%Z && negb (argc =? ARGC_TCP)%Z then
    let w := printf ("Incorrect argument numbers." ++ crlf) w in
    Some (None, printf ("Please input --UART PORT or --TCP HOST PORT" ++ crlf) w)
  else
    let '((erpc_uart_flag, erpc_tcp_flag, optind, argv), w) := get_options argv w in
    if negb erpc_uart_flag && negb erpc_tcp_flag then
      Some (None, printf ("No valid transportation layer selected." ++ crlf) w)
    else if erpc_uart_flag && erpc_tcp_flag then
      Some (None, printf ("UART and TCP cannot be set at the same time." ++ crlf) w)
    else if erpc_uart_flag then
      if negb (argc - optind =? 1)%Z then Some (None, printf ("Incorrect argument numbers for --UART." ++ crlf) w)
      else uart_dev ← arg argv optind; Some (Some (Serial uart_dev), w)
    else
      if negb (argc - optind =? 2)%Z then Some (None, printf ("Incorrect argument numbers for --TCP." ++ crlf) w)
      else
        tcp_host ← arg argv optind;
        tcp_port ← arg argv (optind + 1);
        Some (Some (Tcp tcp_host tcp_port), w).

Definition example_transport (ch : choice) w : option (option TR * W) :=
  match ch with
  | Serial uart_dev =>
      Some (erpc_transport_serial_init uart_dev 115200 (printf ("UART device is setting to " ++ uart_dev ++ crlf) w))
  | Tcp tcp_host tcp_port =>
      let w := printf ("TCP host is setting to " ++ tcp_host ++ String (Ascii.ascii_of_nat 9) "") w in
      let w := printf ("TCP port is setting to " ++ tcp_port ++ crlf) w in
      port ← atoi tcp_port;
      Some (erpc_transport_tcp_init tcp_host port false w)
  end.

Definition example_main argv w : option (Z * W) :=
  '(ch, w) ← parse_arguments argv w;
  match ch with
  | None => Some (1%Z, w)
  | Some ch => '(transport, w) ← example_transport ch w; example_run transport w
  end.

Definition reg_tests_run (transport : option TR) w : option (Z * W) :=
  match transport with
  | None => Some (1%Z, printf ("eRPC transport initialization failed!" ++ crlf) w)
  | Some transport =>
      let w := printf ("eRPC transport initialization succeeded." ++ crlf) w in
      let w := erpc_client_start transport w in
      '(v, w) ← psa_framework_version w;
      let w := printf ("psa_framework_version: 0x" ++ fmt_x v ++ crlf) w in
      w ← ns_reg_test_start w;
      Some (0%Z, w)
  end.

Definition reg_tests_transport (ch : choice) w : option (option TR * W) :=
  match ch with
  | Serial uart_dev =>
      Some (erpc_transport_serial_init uart_dev 115200 (printf ("UART device is being set to " ++ uart_dev ++ crlf) w))
  | Tcp tcp_host tcp_port =>
      let w := printf ("TCP connection is being set to " ++ tcp_host ++ ":" ++ tcp_port ++ crlf) w in
      port ← atoi tcp_port;
      Some (erpc_transport_tcp_init tcp_host port false w)
  end.

Definition reg_tests_main argv w : option (Z * W) :=
  '(ch, w) ← parse_arguments argv w;
  match ch with
  | None => Some (1%Z, w)
  | Some ch => '(transport, w) ← reg_tests_transport ch w; reg_tests_run transport w
  end.
End host.

(** ** Properties *)

Section properties.
  Context {TR MBF W : Type} {H : Host TR MBF W} {P : HostPsa W} {F : Formats}.
  Implicit Types (w : W) (argv : list string).

(** The client is up, over a transport that was made for the arguments. *)
Variable client_up : W -> Prop.

Class HostLaws := {
  law_printf m w : client_up (printf m w) <-> client_up w;
  law_serial dev baud w : client_up (erpc_transport_serial_init dev baud w).2 <-> client_up w;
  law_tcp host port b w : client_up (erpc_transport_tcp_init host port b w).2 <-> client_up w;
  law_client_init t m w : client_up (erpc_client_init t m w);
  (** POSIX: the arguments are only permuted, and [optind] is between the
      program name and the end. *)
  law_options argv w : argv <> [] ->
    let '((_, _, optind, argv'), w') := get_options argv w in
    length argv' = length argv /\ 1 <= optind <= Z.of_nat (length argv) /\ (client_up w' <-> client_up w);
  (** The PSA calls are defined once the client is up. *)
  law_version w : client_up w -> exists v w', psa_framework_version w = Some (v, w') /\ client_up w';
  law_hash w i h n : client_up w -> exists r h' n' w', psa_hash_compute i h n w = Some (r, h', n', w') /\ client_up w';
  law_tests w : client_up w -> exists w', ns_reg_test_start w = Some w' /\ client_up w';
}.
Context {HL : HostLaws}.

Lemma client_start_up t w : client_up (erpc_client_start t w).
Proof. unfold erpc_client_start. destruct (erpc_mbf_dynamic_init w). apply law_client_init. Qed.

Lemma prints_up (h : list Z) w : client_up (foldl (fun w b => printf (fmt_02hhX b) w) w h) <-> client_up w.
Proof. revert w. induction h as [|b h IH]; intros w; [done|]. cbn. by rewrite IH, law_printf. Qed.

Lemma test_call_up w : client_up w -> exists w', test_call w = Some w' /\ client_up w'.
Proof.
  intros Hw. unfold test_call. destruct (law_hash w (bytes_of_string "test") (replicate (Z.to_nat PSA_HASH_LENGTH_SHA_256) 0)
    (sizeof (replicate (Z.to_nat PSA_HASH_LENGTH_SHA_256) 0)) Hw) as (r & h & n & w' & -> & Hw').
  cbn [mbind option_bind]. eexists. split; [done|]. by rewrite law_printf, prints_up, !law_printf.
Qed.

(** What the programs do once they know whether there is a transport: without
    one they return 1, with one they return 0 with the client up unless it is
    undefined. *)
Definition runs (run : option TR -> W -> option (Z * W)) (undefined : TR -> W -> Prop) : Prop :=
  (forall w, exists w', run None w = Some (1, w') /\ (client_up w' <-> client_up w)) /\
  (forall t w, match run (Some t) w with
               | Some (r, w') => r = 0 /\ client_up w' /\ ~ undefined t w
               | None => undefined t w
               end).

(** The framework version that the client gets does not fit the [%d]. *)
Definition version_too_large (t : TR) w : Prop :=
  exists v w', psa_framework_version (erpc_client_start t w) = Some (v, w') /\ 2 ^ 31 <= v.

Lemma example_runs : runs example_run version_too_large.
Proof.
  split.
  - intros w. eexists. split; [done|]. apply law_printf.
  - intros t w. unfold example_run, version_too_large.
    destruct (law_version (erpc_client_start t w) (client_start_up t w)) as (v & w1 & -> & H1). cbn [mbind option_bind].
    unfold fmt_d_u32. case_Z; cbn [mbind option_bind]; [|by exists v, w1].
    destruct (test_call_up (printf ("psa_framework_version: " ++ fmt_d v ++ crlf) w1)) as (w2 & -> & H2); [by rewrite law_printf|].
    cbn [mbind option_bind]. split_and!; [done | done |]. intros (? & ? & [= <- <-] & ?). lia.
Qed.

Lemma reg_tests_runs : runs reg_tests_run (fun _ _ => False).
Proof.
  split.
  - intros w. eexists. split; [done|]. apply law_printf.
  - intros t w. unfold reg_tests_run. set (w0 := printf _ w).
    destruct (law_version (erpc_client_start t w0) (client_start_up t w0)) as (v & w1 & -> & H1). cbn [mbind option_bind].
    destruct (law_tests (printf ("psa_framework_version: 0x" ++ fmt_x v ++ crlf) w1)) as (w2 & -> & H2); [by rewrite law_printf|].
    cbn [mbind option_bind]. split_and!; [done | done | tauto].
Qed.

(** What the arguments ask for, when they are right: one option, and after
    the options exactly its arguments. *)
Definition selected argv w : option choice :=
  let '((uart, tcp, optind, argv'), _) := get_options argv w in
  match uart, tcp, drop (Z.to_nat optind) argv' with
  | true, false, [dev] => Some (Serial dev)
  | false, true, [host; port] => Some (Tcp host port)
  | _, _, _ => None
  end.

(** The number of arguments is right, and so are they. *)
Definition accepted argv w : option choice :=
  if decide (length argv = 3%nat \/ length argv = 4%nat) then selected argv w else None.

Lemma argc_checks argv :
  negb (Z.of_nat (length argv) =? ARGC_UART) && negb (Z.of_nat (length argv) =? ARGC_TCP) =
  bool_decide (~ (length argv = 3%nat \/ length argv = 4%nat)).
Proof.
  unfold ARGC_UART, ARGC_TCP. case_bool_decide.
  - rewrite (proj2 (Z.eqb_neq _ 3)), (proj2 (Z.eqb_neq _ 4)) by lia. done.
  - destruct (Z.eqb_spec (Z.of_nat (length argv)) 3), (Z.eqb_spec (Z.of_nat (length argv)) 4); try done. lia.
Qed.

(** [argv[optind]] and after, against what is left after the options. *)
Lemma rest_of_args argv k : 0 <= k ->
  match drop (Z.to_nat k) argv with
  | [] => True
  | x :: l => arg argv k = Some x /\ arg argv (k + 1) = head l
  end.
Proof.
  intros Hk. unfold arg. rewrite Z2Nat.inj_add by lia. change (Z.to_nat 1) with 1%nat.
  pose proof (lookup_drop argv (Z.to_nat k)) as Hl. pose proof (Hl 0%nat) as H0. pose proof (Hl 1%nat) as H1.
  destruct (drop (Z.to_nat k) argv) as [|x l]; [done|]. rewrite Nat.add_0_r in H0. split; [done|].
  rewrite <- H1. by destruct l.
Qed.

Lemma parse_arguments_spec argv w :
  match accepted argv w with
  | Some ch => parse_arguments argv w = Some (Some ch, (get_options argv w).2)
  | None => exists w', parse_arguments argv w = Some (None, w') /\ (client_up w' <-> client_up w)
  end.
Proof.
  unfold accepted, parse_arguments. rewrite argc_checks. case_decide as Hl.
  2:{ rewrite bool_decide_true by done. eexists. split; [done|]. by rewrite !law_printf. }
  rewrite bool_decide_false by tauto. unfold selected.
  assert (argv <> []) as Hne by (intros ->; destruct Hl; done). pose proof (law_options argv w Hne) as Hopt.
  destruct (get_options argv w) as [[[[uart tcp] optind] argv'] w1]. destruct Hopt as (Hlen & Hoi & Hup).
  assert (forall m, exists w', Some (@None choice, printf m w1) = Some (None, w') /\ (client_up w' <-> client_up w)) as Hfail
    by (intros m; eexists; split; [done|]; by rewrite law_printf).
  pose proof (length_drop argv' (Z.to_nat optind)) as Hdl.
  pose proof (rest_of_args argv' optind ltac:(lia)) as Ha.
  destruct uart, tcp; cbn [negb andb]; try apply Hfail.
  - destruct (drop (Z.to_nat optind) argv') as [|dev [|? l]]; cbn in Hdl; case_Z; try lia; cbn [negb]; try apply Hfail.
    by destruct Ha as [-> _].
  - destruct (drop (Z.to_nat optind) argv') as [|host [|port [|? l]]]; cbn in Hdl; case_Z; try lia; cbn [negb]; try apply Hfail.
    by destruct Ha as [-> ->].
Qed.

(** The port of the command line is not an [int]. *)
Definition bad_port (ch : choice) : Prop :=
  match ch with Tcp _ port => atoi port = None | Serial _ => False end.

(** The transport of the selected kind: undefined exactly on such a port. *)
Definition opens (transport : choice -> W -> option (option TR * W)) : Prop :=
  forall ch w, match transport ch w with
               | Some (_, w') => (client_up w' <-> client_up w) /\ ~ bad_port ch
               | None => bad_port ch
               end.

(** The transport that the arguments select was opened. *)
Definition opened (transport : choice -> W -> option (option TR * W)) argv w t w1 : Prop :=
  exists ch, accepted argv w = Some ch /\ transport ch (get_options argv w).2 = Some (Some t, w1).

(** A program of the host: when it is undefined, and what it returns. *)
Definition program_ok (transport : choice -> W -> option (option TR * W)) (undefined : TR -> W -> Prop)
    (main : option (Z * W)) argv w : Prop :=
  (main = None <->
    (exists host port, accepted argv w = Some (Tcp host port) /\ atoi port = None) \/
    (exists t w1, opened transport argv w t w1 /\ undefined t w1)) /\
  (forall r w', main = Some (r, w') ->
    (r = 0 <-> exists t w1, opened transport argv w t w1) /\
    (r = 0 \/ r = 1) /\ if r =? 0 then client_up w' else client_up w' <-> client_up w).

Lemma accepted_options_up argv w ch : accepted argv w = Some ch -> client_up (get_options argv w).2 <-> client_up w.
Proof.
  unfold accepted. case_decide as Hl; [|done]. intros _. pose proof (law_options argv w) as Hopt.
  destruct (get_options argv w) as [[[[? ?] ?] ?] w1]. apply Hopt. intros ->. by destruct Hl.
Qed.

(** With arguments that are accepted. *)
Lemma accepted_program transport run undefined argv w ch :
  opens transport -> runs run undefined -> accepted argv w = Some ch ->
  program_ok transport undefined ('(t, w) ← transport ch (get_options argv w).2; run t w) argv w.
Proof.
  intros Htr [Hn Hs] Hacc. pose proof (Htr ch (get_options argv w).2) as H1.
  pose proof (accepted_options_up _ _ _ Hacc) as Hup. unfold program_ok, opened.
  destruct (transport ch _) as [[[t|] w1]|] eqn:Ht; cbn [mbind option_bind].
  - destruct H1 as [Hw1 Hport]. specialize (Hs t w1). destruct (run (Some t) w1) as [[r w']|] eqn:Hr.
    + destruct Hs as (-> & Hc & Hu). split.
      * split; [done|]. intros [(h & p & Hh & Hp)|(t' & w2 & (ch' & Hch & Ho) & Hun)]; simplify_eq; tauto.
      * intros r' w2 [= <- <-]. split_and!; [|by left|done]. split; [|done]. intros _. by exists t, w1, ch.
    + split; [|done]. split; [|done]. intros _. right. exists t, w1. split; [by exists ch | done].
  - destruct H1 as [Hw1 Hport]. destruct (Hn w1) as (w' & -> & Hw'). split.
    + split; [done|]. intros [(h & p & Hh & Hp)|(t' & w2 & (ch' & Hch & Ho) & Hun)]; simplify_eq; tauto.
    + intros r' w2 [= <- <-]. split_and!; [|by right|cbn; tauto]. split; [done|].
      intros (t' & w2 & ch' & Hch & Ho). simplify_eq.
  - split; [|done]. split; [|done]. intros _. left. destruct ch as [|h p]; [done|]. by exists h, p.
Qed.

Lemma host_program_spec transport run undefined argv w :
  opens transport -> runs run undefined ->
  program_ok transport undefined
    ('(ch, w) ← parse_arguments argv w;
     match ch with None => Some (1, w) | Some ch => '(t, w) ← transport ch w; run t w end) argv w.
Proof.
  intros Htr Hrun. pose proof (parse_arguments_spec argv w) as Hparse.
  destruct (accepted argv w) as [ch|] eqn:Hacc.
  { rewrite Hparse. cbn [mbind option_bind]. by apply accepted_program. }
  destruct Hparse as (w' & -> & Hup). cbn [mbind option_bind]. unfold program_ok, opened. rewrite Hacc. split.
  - split; [done|]. by intros [(? & ? & ? & _)|(? & ? & (? & ? & _) & _)].
  - intros r w2 [= <- <-]. split_and!; [|by right|done]. split; [done|]. by intros (? & ? & ? & ? & _).
Qed.

Lemma example_opens : opens example_transport.
Proof.
  intros [dev|h p] w; unfold example_transport, bad_port.
  - pose proof (law_serial dev 115200 (printf ("UART device is setting to " ++ dev ++ crlf) w)) as Hs.
    destruct (erpc_transport_serial_init _ _ _). rewrite law_printf in Hs. by split; [|tauto].
  - destruct (atoi p) as [port|]; [|done]. cbn [mbind option_bind]. set (w0 := printf _ _).
    pose proof (law_tcp h port false w0) as Hs. destruct (erpc_transport_tcp_init _ _ _ _).
    unfold w0 in Hs. rewrite !law_printf in Hs. by split.
Qed.

Lemma reg_tests_opens : opens reg_tests_transport.
Proof.
  intros [dev|h p] w; unfold reg_tests_transport, bad_port; cbv zeta.
  - pose proof (law_serial dev 115200 (printf ("UART device is being set to " ++ dev ++ crlf) w)) as Hs.
    destruct (erpc_transport_serial_init _ _ _). rewrite law_printf in Hs. by split; [|tauto].
  - destruct (atoi p) as [port|]; [|done]. cbn [mbind option_bind]. set (w0 := printf _ _).
    pose proof (law_tcp h port false w0) as Hs. destruct (erpc_transport_tcp_init _ _ _ _).
    unfold w0 in Hs. rewrite !law_printf in Hs. by split.
Qed.

(** C38. Both programs of the host, on any command line.  Undefined behaviour is
    possible in these cases and in no others: in both, when the accepted
    arguments are --TCP with a port that is not an [int], which goes to [atoi];
    and in the example, when the framework version is 2^31 or more, the
    [uint32_t] printed with [%d] (the client shim returns 0xFFFFFFFF when the
    transport fails).  No argument is read past the end and no PSA call is made
    before the client is up.  Otherwise they exit: with 0, the client up, exactly
    when there are three or four arguments that select one transport with its
    parameters and the transport was opened, and with 1, without having started
    the client, when not. *)
Theorem host_programs_exit argv w :
  program_ok example_transport version_too_large (example_main argv w) argv w /\
  program_ok reg_tests_transport (fun _ _ => False) (reg_tests_main argv w) argv w.
Proof.
  split; apply host_program_spec;
    [apply example_opens | apply example_runs | apply reg_tests_opens | apply reg_tests_runs].
Qed.

(** The thread of the device starts the server even when there is no
    transport: the failure is only printed. *)
Lemma test_app_without_transport w w1 :
  erpc_transport_cmsis_uart_init w = (None, w1) ->
  test_app w = erpc_server_start None (printf ("eRPC transport init failed!" ++ crlf)%string w1).
Proof. intros Hu. unfold test_app. by rewrite Hu. Qed.
End properties.

(** ** An example: the world is what was printed and whether the client is up *)

Section examples.
Definition console : Type := bool * list string.

(** Options are --UART and --TCP; what starts otherwise is not an option. *)
Definition scan (argv : list string) : bool * bool * Z * list string :=
  let args := drop 1 argv in
  let isopt x := bool_decide (x = "--UART"%string) || bool_decide (x = "--TCP"%string) in
  let opts := filter (fun x => isopt x = true) args in
  let rest := filter (fun x => isopt x = false) args in
  (bool_decide ("--UART"%string ∈ opts), bool_decide ("--TCP"%string ∈ opts), 1 + Z.of_nat (length opts),
   take 1 argv ++ opts ++ rest).

(** [atoi]: the digits the string starts with, when they are an [int]. *)
Fixpoint digits (n : Z) (s : string) : Z :=
  match s with
  | String a s =>
      let d := Z.of_nat (Ascii.nat_of_ascii a) - 48 in
      if (0 <=? d) && (d <=? 9) then digits (10 * n + d) s else n
  | EmptyString => n
  end.
Definition example_atoi (s : string) : option Z :=
  let n := digits 0 s in if n <? 2 ^ 31 then Some n else None.

#[local] Instance example_host : Host string unit console := {
  printf m w := (w.1, w.2 ++ [m]);
  get_options argv w := (scan argv, w);
  atoi := example_atoi;
  erpc_transport_serial_init dev _ w := (if String.eqb dev "" then None else Some dev, w);
  erpc_transport_tcp_init host _ _ w := (Some host, w);
  erpc_transport_cmsis_uart_init w := (None, w);
  erpc_mbf_dynamic_init w := (tt, w);
  erpc_client_init _ _ w := (true, w.2);
  erpc_server_init _ _ w := w;
  operator_new w := (true, w);
  operator_delete w := w;
  erpc_add_service_to_server _ w := w;
  erpc_server_run _ := None;
}.

#[local] Instance example_psa : HostPsa console := {
  psa_framework_version w := if w.1 then Some (257, w) else None;
  psa_hash_compute _ h n w := if w.1 then Some (0, h, n, w) else None;
  ns_reg_test_start w := if w.1 then Some w else None;
  PSA_HASH_LENGTH_SHA_256 := 32;
}.

#[local] Instance example_formats : Formats := {
  fmt_d _ := "d"%string; fmt_x _ := "x"%string; fmt_02hhX _ := "XX"%string; fmt_zu _ := "u"%string }.

Definition is_up (w : console) : Prop := w.1 = true.

Lemma scan_permutes argv : argv <> [] ->
  let '(_, _, optind, argv') := scan argv in
  length argv' = length argv /\ 1 <= optind <= Z.of_nat (length argv).
Proof.
  intros Hne. unfold scan. destruct argv as [|x l]; [done|]. cbn [drop take app length].
  change (drop 0 l) with l. rewrite take_0. clear Hne. induction l as [|y l IH]; [cbn; lia|].
  rewrite !length_app in *.
  destruct (bool_decide (y = "--UART"%string) || bool_decide (y = "--TCP"%string)) eqn:Hy.
  - rewrite filter_cons_True, filter_cons_False by (cbn beta; congruence). cbn [length] in *. lia.
  - rewrite filter_cons_False, filter_cons_True by (cbn beta; congruence). cbn [length] in *. lia.
Qed.

#[local] Instance example_laws : HostLaws is_up.
Proof.
  split; try done.
  - intros argv w Hne. pose proof (scan_permutes argv Hne) as Hs. cbn [get_options example_host].
    destruct (scan argv) as [[[? ?] ?] ?]. by destruct Hs.
  - intros [[] l]; [|done]. intros _. by exists 257, (true, l).
  - intros [[] l] i h n; [|done]. intros _. by exists 0, h, n, (true, l).
  - intros [[] l]; [|done]. intros _. by exists (true, l).
Qed.

Lemma host_programs_exit_witness :
  (exists w', reg_tests_main ["host"; "--UART"; "/dev/ttyS0"]%string (false, []) = Some (0, w') /\ is_up w') /\
  example_main ["host"; "--TCP"; "localhost"; "99999999999"]%string (false, []) = None.
Proof.
  split.
  - destruct (host_programs_exit is_up ["host"; "--UART"; "/dev/ttyS0"]%string (false, [])) as [_ [Hu Hr]].
    destruct (reg_tests_main _ _) as [[r w']|].
    + destruct (Hr r w' eq_refl) as (Hz & _ & Hup).
      assert (r = 0) as -> by (apply Hz; eexists _, _, (Serial "/dev/ttyS0"%string); by split). by exists w'.
    + destruct Hu as [Hu _]. destruct (Hu eq_refl) as [(h & p & Hacc & _)|(t & w1 & _ & [])]. by vm_compute in Hacc.
  - destruct (host_programs_exit is_up ["host"; "--TCP"; "localhost"; "99999999999"]%string (false, [])) as [[Hu _] _].
    apply Hu. left. by exists "localhost"%string, "99999999999"%string.
Defined.
End examples.
