(* ===== verification/RtxOs.v ===== *)
(** * RTX: lib/ext/CMSIS/RTOS2/RTX/Include/rtx_os.h and rtx_evr.h

    Identifiers, states, limits and error codes; the control blocks as layouts,
    with the sizes and offsets that the AAPCS gives them on the 32-bit targets;
    the memory sizes of pools and queues; the configuration structure.  The
    kernel that uses them is not in the repository. *)

From S2P Require Import Prelude Cmsis.
Local Open Scope Z_scope.

(** ** Constants *)

Definition osRtxVersionAPI : Z := 20010003.
Definition osRtxVersionKernel : Z := 50050000.
Definition osRtxKernelId : list Z := cstr "RTX V5.5.0".

Inductive osRtxId :=
  | osRtxIdInvalid | osRtxIdThread | osRtxIdTimer | osRtxIdEventFlags | osRtxIdMutex | osRtxIdSemaphore
  | osRtxIdMemoryPool | osRtxIdMessage | osRtxIdMessageQueue.

Definition osRtxId_value (i : osRtxId) : Z :=
  match i with
  | osRtxIdInvalid => 0x00 | osRtxIdThread => 0xF1 | osRtxIdTimer => 0xF2 | osRtxIdEventFlags => 0xF3
  | osRtxIdMutex => 0xF5 | osRtxIdSemaphore => 0xF6 | osRtxIdMemoryPool => 0xF7 | osRtxIdMessage => 0xF9
  | osRtxIdMessageQueue => 0xFA
  end.

Definition osRtxFlagSystemObject : Z := 0x01.
Definition osRtxFlagSystemMemory : Z := 0x02.

(** [(uint8_t)osKernel...]; likewise the thread states. *)
Definition osRtxKernelState (s : osKernelState_t) : Z := u8 (osKernelState_value s).

Definition osRtxThreadStateMask : Z := 0x0F.

Inductive osRtxThreadState :=
  | osRtxThreadInactive | osRtxThreadReady | osRtxThreadRunning | osRtxThreadBlocked | osRtxThreadTerminated
  | osRtxThreadWaitingDelay | osRtxThreadWaitingJoin | osRtxThreadWaitingThreadFlags
  | osRtxThreadWaitingEventFlags | osRtxThreadWaitingMutex | osRtxThreadWaitingSemaphore
  | osRtxThreadWaitingMemoryPool | osRtxThreadWaitingMessageGet | osRtxThreadWaitingMessagePut.

Definition osRtxThreadState_value (s : osRtxThreadState) : Z :=
  let state s := u8 (osThreadState_value s) in
  let waiting r := u8 (Z.lor (state osThreadBlocked) r) in
  match s with
  | osRtxThreadInactive => state osThreadInactive
  | osRtxThreadReady => state osThreadReady
  | osRtxThreadRunning => state osThreadRunning
  | osRtxThreadBlocked => state osThreadBlocked
  | osRtxThreadTerminated => state osThreadTerminated
  | osRtxThreadWaitingDelay => waiting 0x10
  | osRtxThreadWaitingJoin => waiting 0x20
  | osRtxThreadWaitingThreadFlags => waiting 0x30
  | osRtxThreadWaitingEventFlags => waiting 0x40
  | osRtxThreadWaitingMutex => waiting 0x50
  | osRtxThreadWaitingSemaphore => waiting 0x60
  | osRtxThreadWaitingMemoryPool => waiting 0x70
  | osRtxThreadWaitingMessageGet => waiting 0x80
  | osRtxThreadWaitingMessagePut => waiting 0x90
  end.

Definition osRtxThreadFlagDefStack : Z := 0x10.
Definition osRtxStackMagicWord : Z := 0xE25A2EA5.
Definition osRtxStackFillPattern : Z := 0xCCCCCCCC.

Definition osRtxTimerInactive : Z := 0x00.
Definition osRtxTimerStopped : Z := 0x01.
Definition osRtxTimerRunning : Z := 0x02.

Definition osRtxThreadFlagsLimit : Z := 31.
Definition osRtxEventFlagsLimit : Z := 31.
Definition osRtxMutexLockLimit : Z := 255.
Definition osRtxSemaphoreTokenLimit : Z := 65535.

Definition osRtxErrorStackUnderflow : Z := 1.
Definition osRtxErrorISRQueueOverflow : Z := 2.
Definition osRtxErrorTimerQueueOverflow : Z := 3.
Definition osRtxErrorClibSpace : Z := 4.
Definition osRtxErrorClibMutex : Z := 5.

Definition osRtxConfigPrivilegedMode : Z := Z.shiftl 1 0.
Definition osRtxConfigStackCheck : Z := Z.shiftl 1 1.
Definition osRtxConfigStackWatermark : Z := Z.shiftl 1 2.

(** rtx_evr.h: the component numbers and the extended status codes. *)
Inductive evr_component :=
  | EvtRtxMemory | EvtRtxKernel | EvtRtxThread | EvtRtxWait | EvtRtxThreadFlags | EvtRtxEventFlags
  | EvtRtxTimer | EvtRtxMutex | EvtRtxSemaphore | EvtRtxMemoryPool | EvtRtxMessageQueue.

Definition evr_component_No (e : evr_component) : Z :=
  match e with
  | EvtRtxMemory => 0xF0 | EvtRtxKernel => 0xF1 | EvtRtxThread => 0xF2 | EvtRtxThreadFlags => 0xF4
  | EvtRtxWait => 0xF3 | EvtRtxTimer => 0xF6 | EvtRtxEventFlags => 0xF5 | EvtRtxMutex => 0xF7
  | EvtRtxSemaphore => 0xF8 | EvtRtxMemoryPool => 0xF9 | EvtRtxMessageQueue => 0xFA
  end.

Inductive osRtxExtendedStatus :=
  | osRtxErrorKernelNotReady | osRtxErrorKernelNotRunning | osRtxErrorInvalidControlBlock
  | osRtxErrorInvalidDataMemory | osRtxErrorInvalidThreadStack | osRtxErrorInvalidPriority
  | osRtxErrorThreadNotJoinable | osRtxErrorMutexNotOwned | osRtxErrorMutexNotLocked
  | osRtxErrorMutexLockLimit | osRtxErrorSemaphoreCountLimit | osRtxErrorTZ_InitContext_S
  | osRtxErrorTZ_AllocContext_S | osRtxErrorTZ_FreeContext_S | osRtxErrorTZ_LoadContext_S
  | osRtxErrorTZ_SaveContext_S.

Definition osRtxExtendedStatus_value (s : osRtxExtendedStatus) : Z :=
  match s with
  | osRtxErrorKernelNotReady => -7 | osRtxErrorKernelNotRunning => -8 | osRtxErrorInvalidControlBlock => -9
  | osRtxErrorInvalidDataMemory => -10 | osRtxErrorInvalidThreadStack => -11 | osRtxErrorInvalidPriority => -12
  | osRtxErrorThreadNotJoinable => -13 | osRtxErrorMutexNotOwned => -14 | osRtxErrorMutexNotLocked => -15
  | osRtxErrorMutexLockLimit => -16 | osRtxErrorSemaphoreCountLimit => -17 | osRtxErrorTZ_InitContext_S => -18
  | osRtxErrorTZ_AllocContext_S => -19 | osRtxErrorTZ_FreeContext_S => -20 | osRtxErrorTZ_LoadContext_S => -21
  | osRtxErrorTZ_SaveContext_S => -22
  end.

(** ** Layouts *)

(** The types of the members, on a target with 32-bit pointers and the natural
    alignment of the AAPCS. *)
Inductive ctype :=
  | UInt8 | Int8 | UInt16 | UInt32 | Int32 | Pointer
  | Array (n : nat) (t : ctype)
  | Struct (ms : list (string * ctype)).

Fixpoint alignof (t : ctype) : Z :=
  match t with
  | UInt8 | Int8 => 1
  | UInt16 => 2
  | UInt32 | Int32 | Pointer => 4
  | Array _ t => alignof t
  | Struct ms => foldr (fun m a => Z.max (alignof m.2) a) 1 ms
  end.

(** The first multiple of [a] that is not below [z]. *)
Definition align_up (a z : Z) : Z := (z + a - 1) / a * a.

Fixpoint sizeof_type (t : ctype) : Z :=
  match t with
  | UInt8 | Int8 => 1
  | UInt16 => 2
  | UInt32 | Int32 | Pointer => 4
  | Array n t => Z.of_nat n * sizeof_type t
  | Struct ms => align_up (alignof (Struct ms))
      (foldl (fun off m => align_up (alignof m.2) off + sizeof_type m.2) 0 ms)
  end.

(** The offset of each member. *)
Fixpoint offsets_from (off : Z) (ms : list (string * ctype)) : list (string * Z) :=
  match ms with
  | [] => []
  | (x, t) :: ms => (x, align_up (alignof t) off) :: offsets_from (align_up (alignof t) off + sizeof_type t) ms
  end.

(** The bytes of the members alone. *)
Fixpoint payload (t : ctype) : Z :=
  match t with
  | Array n t => Z.of_nat n * payload t
  | Struct ms => foldr (fun m a => payload m.2 + a) 0 ms
  | t => sizeof_type t
  end.

Section layouts.
  (** [RTX_TF_M_EXTENSION] *)
  Variable tf_m_extension : bool.
  Local Open Scope string_scope.

Definition osRtxThread_t : ctype := Struct ([
  ("id", UInt8); ("state", UInt8); ("flags", UInt8); ("attr", UInt8); ("name", Pointer);
  ("thread_next", Pointer); ("thread_prev", Pointer); ("delay_next", Pointer); ("delay_prev", Pointer);
  ("thread_join", Pointer); ("delay", UInt32); ("priority", Int8); ("priority_base", Int8);
  ("stack_frame", UInt8); ("flags_options", UInt8); ("wait_flags", UInt32); ("thread_flags", UInt32);
  ("mutex_list", Pointer); ("stack_mem", Pointer); ("stack_size", UInt32); ("sp", UInt32);
  ("thread_addr", UInt32); ("tz_memory", UInt32)] ++
  if tf_m_extension then [("tz_module", UInt32)] else []).

Definition osRtxTimerFinfo_t : ctype := Struct [("func", Pointer); ("arg", Pointer)].

Definition osRtxTimer_t : ctype := Struct [
  ("id", UInt8); ("state", UInt8); ("flags", UInt8); ("type", UInt8); ("name", Pointer);
  ("prev", Pointer); ("next", Pointer); ("tick", UInt32); ("load", UInt32); ("finfo", osRtxTimerFinfo_t)].

Definition osRtxEventFlags_t : ctype := Struct [
  ("id", UInt8); ("reserved_state", UInt8); ("flags", UInt8); ("reserved", UInt8); ("name", Pointer);
  ("thread_list", Pointer); ("event_flags", UInt32)].

Definition osRtxMutex_t : ctype := Struct [
  ("id", UInt8); ("reserved_state", UInt8); ("flags", UInt8); ("attr", UInt8); ("name", Pointer);
  ("thread_list", Pointer); ("owner_thread", Pointer); ("owner_prev", Pointer); ("owner_next", Pointer);
  ("lock", UInt8); ("padding", Array 3 UInt8)].

Definition osRtxSemaphore_t : ctype := Struct [
  ("id", UInt8); ("reserved_state", UInt8); ("flags", UInt8); ("reserved", UInt8); ("name", Pointer);
  ("thread_list", Pointer); ("tokens", UInt16); ("max_tokens", UInt16)].

Definition osRtxMpInfo_layout : ctype := Struct [
  ("max_blocks", UInt32); ("used_blocks", UInt32); ("block_size", UInt32); ("block_base", Pointer);
  ("block_lim", Pointer); ("block_free", Pointer)].

Definition osRtxMemoryPool_t : ctype := Struct [
  ("id", UInt8); ("reserved_state", UInt8); ("flags", UInt8); ("reserved", UInt8); ("name", Pointer);
  ("thread_list", Pointer); ("mp_info", osRtxMpInfo_layout)].

Definition osRtxMessage_t : ctype := Struct [
  ("id", UInt8); ("reserved_state", UInt8); ("flags", UInt8); ("priority", UInt8);
  ("prev", Pointer); ("next", Pointer)].

Definition osRtxMessageQueue_t : ctype := Struct [
  ("id", UInt8); ("reserved_state", UInt8); ("flags", UInt8); ("reserved", UInt8); ("name", Pointer);
  ("thread_list", Pointer); ("mp_info", osRtxMpInfo_layout); ("msg_size", UInt32); ("msg_count", UInt32);
  ("msg_first", Pointer); ("msg_last", Pointer)].

Definition osRtxObject_t : ctype := Struct [
  ("id", UInt8); ("state", UInt8); ("flags", UInt8); ("reserved", UInt8); ("name", Pointer);
  ("thread_list", Pointer)].

Definition osRtxInfo_t : ctype := Struct [
  ("os_id", Pointer); ("version", UInt32);
  ("kernel", Struct [("state", UInt8); ("blocked", UInt8); ("pendSV", UInt8); ("reserved", UInt8); ("tick", UInt32)]);
  ("tick_irqn", Int32);
  ("thread", Struct [
     ("run", Struct [("curr", Pointer); ("next", Pointer)]); ("ready", osRtxObject_t); ("idle", Pointer);
     ("delay_list", Pointer); ("wait_list", Pointer); ("terminate_list", Pointer);
     ("robin", Struct [("thread", Pointer); ("tick", UInt32); ("timeout", UInt32)])]);
  ("timer", Struct [("list", Pointer); ("thread", Pointer); ("mq", Pointer); ("tick", Pointer)]);
  ("isr_queue", Struct [("max", UInt16); ("cnt", UInt16); ("in", UInt16); ("out", UInt16); ("data", Pointer)]);
  ("post_process", Struct [("thread", Pointer); ("event_flags", Pointer); ("semaphore", Pointer);
     ("memory_pool", Pointer); ("message", Pointer)]);
  ("mem", Struct [("stack", Pointer); ("mp_data", Pointer); ("mq_data", Pointer); ("common", Pointer)]);
  ("mpi", Struct [("stack", Pointer); ("thread", Pointer); ("timer", Pointer); ("event_flags", Pointer);
     ("mutex", Pointer); ("semaphore", Pointer); ("memory_pool", Pointer); ("message_queue", Pointer)])].

Definition osRtxObjectMemUsage_t : ctype := Struct [("cnt_alloc", UInt32); ("cnt_free", UInt32); ("max_used", UInt32)].

Definition osRtxThreadCbSize : Z := sizeof_type osRtxThread_t.
End layouts.

Definition osRtxTimerCbSize : Z := sizeof_type osRtxTimer_t.
Definition osRtxEventFlagsCbSize : Z := sizeof_type osRtxEventFlags_t.
Definition osRtxMutexCbSize : Z := sizeof_type osRtxMutex_t.
Definition osRtxSemaphoreCbSize : Z := sizeof_type osRtxSemaphore_t.
Definition osRtxMemoryPoolCbSize : Z := sizeof_type osRtxMemoryPool_t.
Definition osRtxMessageQueueCbSize : Z := sizeof_type osRtxMessageQueue_t.

Definition osRtxMemoryPoolMemSize (block_count block_size : Z) : Z :=
  4 * block_count * Z.quot (block_size + 3) 4.

Definition osRtxMessageQueueMemSize (msg_count msg_size : Z) : Z :=
  4 * msg_count * (3 + Z.quot (msg_size + 3) 4).

(** ** Values of the structures that rtx_lib.c defines *)

(** A pointer: an address, or NULL. *)
Record osRtxMpInfo_t := mkMpInfo {
  max_blocks : Z;
  used_blocks : Z;
  block_size : Z;
  block_base : handle;
  block_lim : handle;
  block_free : handle;
}.

Record isr_queue_config := mkIsrQueue { isr_data : handle; isr_max : Z; isr_padding : Z }.

Record mem_config := mkMem {
  stack_addr : handle; mem_stack_size : Z;
  mp_data_addr : handle; mp_data_size : Z;
  mq_data_addr : handle; mq_data_size : Z;
  common_addr : handle; common_size : Z;
}.

(** A pointer to a pool is the pool it points to. *)
Record mpi_config := mkMpi {
  mpi_stack : option osRtxMpInfo_t;
  mpi_thread : option osRtxMpInfo_t;
  mpi_timer : option osRtxMpInfo_t;
  mpi_event_flags : option osRtxMpInfo_t;
  mpi_mutex : option osRtxMpInfo_t;
  mpi_semaphore : option osRtxMpInfo_t;
  mpi_memory_pool : option osRtxMpInfo_t;
  mpi_message_queue : option osRtxMpInfo_t;
}.

Record osRtxConfig_t := mkRtxConfig {
  cfg_flags : Z;
  cfg_tick_freq : Z;
  cfg_robin_timeout : Z;
  cfg_isr_queue : isr_queue_config;
  cfg_mem : mem_config;
  cfg_mpi : mpi_config;
  cfg_thread_stack_size : Z;
  cfg_idle_thread_attr : osThreadAttr_t;
  cfg_timer_thread_attr : option osThreadAttr_t;
  cfg_timer_mq_attr : option osMessageQueueAttr_t;
  cfg_timer_mq_mcnt : Z;
}.

(** ** Properties *)

Lemma align_up_spec a z : 0 < a -> z <= align_up a z < z + a /\ (a | align_up a z).
Proof.
  intros Ha. unfold align_up. pose proof (Z.div_mod (z + a - 1) a ltac:(lia)).
  pose proof (Z.mod_pos_bound (z + a - 1) a Ha). split; [lia|]. by exists ((z + a - 1) / a).
Qed.

(** The control blocks have no hidden padding: on the target each is exactly as
    large as its members, so that the kernel, the debugger and the pools of
    rtx_lib.c agree on it, and its size is a multiple of 4, as is needed for an
    array of them. *)
Lemma control_blocks_packed tfm t :
  t ∈ [osRtxThread_t tfm; osRtxTimer_t; osRtxEventFlags_t; osRtxMutex_t; osRtxSemaphore_t; osRtxMpInfo_layout;
       osRtxMemoryPool_t; osRtxMessage_t; osRtxMessageQueue_t; osRtxObject_t; osRtxInfo_t] ->
  sizeof_type t = payload t /\ alignof t = 4 /\ sizeof_type t mod 4 = 0.
Proof.
  intros Hin. destruct tfm; repeat (apply elem_of_cons in Hin as [->|Hin]; [by vm_compute|]);
    by apply not_elem_of_nil in Hin.
Qed.

(** The three bytes at the start of each object are where the kernel looks for
    the identifier, the state and the flags of an object of unknown type. *)
Lemma object_header tfm t :
  t ∈ [osRtxThread_t tfm; osRtxTimer_t; osRtxEventFlags_t; osRtxMutex_t; osRtxSemaphore_t;
       osRtxMemoryPool_t; osRtxMessageQueue_t; osRtxObject_t] ->
  match t with
  | Struct ms => map snd (take 5 (offsets_from 0 ms)) = [0; 1; 2; 3; 4] /\ hd_error (map fst ms) = Some "id"%string
  | _ => False
  end.
Proof.
  intros Hin. destruct tfm; repeat (apply elem_of_cons in Hin as [->|Hin]; [by vm_compute|]);
    by apply not_elem_of_nil in Hin.
Qed.

(** The states of a thread are different bytes, and the low four bits of a
    waiting state are those of osRtxThreadBlocked. *)
Lemma thread_states_distinct s s' :
  osRtxThreadState_value s = osRtxThreadState_value s' -> s = s'.
Proof. destruct s, s'; intros H; try reflexivity; by vm_compute in H. Qed.

Lemma waiting_is_blocked s :
  15 < osRtxThreadState_value s ->
  Z.land (osRtxThreadState_value s) osRtxThreadStateMask = osRtxThreadState_value osRtxThreadBlocked.
Proof. destruct s; intros H; try done; by vm_compute in H. Qed.

(** The storage of a pool holds its blocks, each rounded up to a word. *)
Lemma pool_mem_size n b : 0 <= n -> 0 <= b ->
  n * b <= osRtxMemoryPoolMemSize n b <= n * (b + 3) /\ osRtxMemoryPoolMemSize n b = n * align_up 4 b.
Proof.
  intros Hn Hb. unfold osRtxMemoryPoolMemSize, align_up. rewrite Z.quot_div_nonneg by lia.
  replace (b + 4 - 1) with (b + 3) by lia.
  pose proof (Z.div_mod (b + 3) 4 ltac:(lia)). pose proof (Z.mod_pos_bound (b + 3) 4 ltac:(lia)). nia.
Qed.

(** The storage of a queue holds its messages with their headers. *)
Lemma queue_mem_size n b : 0 <= n -> 0 <= b ->
  osRtxMessageQueueMemSize n b = n * (sizeof_type osRtxMessage_t + align_up 4 b).
Proof.
  intros Hn Hb. unfold osRtxMessageQueueMemSize, align_up. change (sizeof_type osRtxMessage_t) with 12.
  rewrite Z.quot_div_nonneg by lia. replace (b + 4 - 1) with (b + 3) by lia. lia.
Qed.
