(* ===== verification/RtxConfig.v ===== *)
(** * The configuration of RTX

    RTX_Config.h as a value for each group of options, with the defaults that
    the file gives; the checks of rtx_lib.c, the arrays and pools that it
    declares for a configuration, and [osRtxConfig].  An option is an integer,
    as the preprocessor has it; [None] is an option that is not defined. *)

From S2P Require Import Prelude Cmsis RtxOs.
Local Open Scope Z_scope.

(** ** Options *)

Record system_options := mkSystemOptions {
  OS_DYNAMIC_MEM_SIZE : Z;
  OS_TICK_FREQ : Z;
  OS_ROBIN_ENABLE : Z;
  OS_ROBIN_TIMEOUT : Z;
  OS_ISR_FIFO_QUEUE : Z;
  OS_OBJ_MEM_USAGE : Z;
}.

Record thread_options := mkThreadOptions {
  OS_THREAD_OBJ_MEM : Z;
  OS_THREAD_NUM : Z;
  OS_THREAD_DEF_STACK_NUM : Z;
  OS_THREAD_USER_STACK_SIZE : Z;
  OS_STACK_SIZE : Z;
  OS_IDLE_THREAD_STACK_SIZE : Z;
  OS_IDLE_THREAD_NAME : option (list Z);
  OS_IDLE_THREAD_TZ_MOD_ID : option Z;
  OS_STACK_CHECK : Z;
  OS_STACK_WATERMARK : Z;
  OS_PRIVILEGE_MODE : Z;
}.

Record timer_options := mkTimerOptions {
  OS_TIMER_OBJ_MEM : Z;
  OS_TIMER_NUM : Z;
  OS_TIMER_THREAD_PRIO : Z;
  OS_TIMER_THREAD_STACK_SIZE : Z;
  OS_TIMER_THREAD_NAME : option (list Z);
  OS_TIMER_THREAD_TZ_MOD_ID : option Z;
  OS_TIMER_CB_QUEUE : Z;
}.

(** The objects with a pool of control blocks, and of data where they have. *)
Record object_options := mkObjectOptions {
  OS_EVFLAGS_OBJ_MEM : Z;
  OS_EVFLAGS_NUM : Z;
  OS_MUTEX_OBJ_MEM : Z;
  OS_MUTEX_NUM : Z;
  OS_SEMAPHORE_OBJ_MEM : Z;
  OS_SEMAPHORE_NUM : Z;
  OS_MEMPOOL_OBJ_MEM : Z;
  OS_MEMPOOL_NUM : Z;
  OS_MEMPOOL_DATA_SIZE : Z;
  OS_MSGQUEUE_OBJ_MEM : Z;
  OS_MSGQUEUE_NUM : Z;
  OS_MSGQUEUE_DATA_SIZE : Z;
}.

(** The Event Recorder.  [OS_EVR_LEVEL_of] is OS_EVR_<component>_LEVEL and
    [OS_EVR_FILTER_of] the OS_EVR_<component>_FILTER of an older configuration. *)
Record evr_options := mkEvrOptions {
  OS_EVR_INIT : Z;
  OS_EVR_START : Z;
  OS_EVR_LEVEL : Z;
  OS_EVR_LEVEL_of : evr_component -> Z;
  OS_EVR_FILTER_of : evr_component -> option Z;
}.

Record rtx_options := mkRtxOptions {
  sys_opts :> system_options;
  thread_opts :> thread_options;
  timer_opts :> timer_options;
  object_opts :> object_options;
  evr_opts :> evr_options;
}.

(** ** RTX_Config.h *)

Definition default_system : system_options := {|
  OS_DYNAMIC_MEM_SIZE := 8192; OS_TICK_FREQ := 1000; OS_ROBIN_ENABLE := 1; OS_ROBIN_TIMEOUT := 5;
  OS_ISR_FIFO_QUEUE := 16; OS_OBJ_MEM_USAGE := 0;
|}.

Definition default_thread : thread_options := {|
  OS_THREAD_OBJ_MEM := 0; OS_THREAD_NUM := 1; OS_THREAD_DEF_STACK_NUM := 0; OS_THREAD_USER_STACK_SIZE := 0;
  OS_STACK_SIZE := 256; OS_IDLE_THREAD_STACK_SIZE := 256; OS_IDLE_THREAD_NAME := None;
  OS_IDLE_THREAD_TZ_MOD_ID := Some 0; OS_STACK_CHECK := 1; OS_STACK_WATERMARK := 0; OS_PRIVILEGE_MODE := 1;
|}.

Definition default_timer : timer_options := {|
  OS_TIMER_OBJ_MEM := 0; OS_TIMER_NUM := 1; OS_TIMER_THREAD_PRIO := 40; OS_TIMER_THREAD_STACK_SIZE := 256;
  OS_TIMER_THREAD_NAME := None; OS_TIMER_THREAD_TZ_MOD_ID := Some 0; OS_TIMER_CB_QUEUE := 4;
|}.

Definition default_objects : object_options := {|
  OS_EVFLAGS_OBJ_MEM := 0; OS_EVFLAGS_NUM := 1; OS_MUTEX_OBJ_MEM := 0; OS_MUTEX_NUM := 1;
  OS_SEMAPHORE_OBJ_MEM := 0; OS_SEMAPHORE_NUM := 1; OS_MEMPOOL_OBJ_MEM := 0; OS_MEMPOOL_NUM := 1;
  OS_MEMPOOL_DATA_SIZE := 0; OS_MSGQUEUE_OBJ_MEM := 0; OS_MSGQUEUE_NUM := 1; OS_MSGQUEUE_DATA_SIZE := 0;
|}.

Definition default_level (e : evr_component) : Z :=
  match e with EvtRtxThread => 0x05 | _ => 0x01 end.

Definition default_evr : evr_options := {|
  OS_EVR_INIT := 0; OS_EVR_START := 1; OS_EVR_LEVEL := 0x00; OS_EVR_LEVEL_of := default_level;
  OS_EVR_FILTER_of _ := None;
|}.

Definition RTX_Config : rtx_options := mkRtxOptions default_system default_thread default_timer default_objects default_evr.

Section rtx_lib.
  Variable tf_m_extension : bool.
  Variable c : rtx_options.

Definition OS_THREAD_LIBSPACE_NUM : Z := if OS_THREAD_OBJ_MEM c =? 0 then 4 else OS_THREAD_NUM c.

(** ** The checks of rtx_lib.c

    The #error directives that a configuration reaches.  [%] and [/] are those
    of C. *)

Definition error_if (b : bool) (message : string) : list string := if b then [message] else [].

(** [(x % 8) != 0] *)
Definition not_mult_8 (x : Z) : bool := negb (Z.rem x 8 =? 0).

Definition system_errors : list string :=
  (if negb (OS_DYNAMIC_MEM_SIZE c =? 0)
   then error_if (not_mult_8 (OS_DYNAMIC_MEM_SIZE c)) "Invalid Dynamic Memory size!" else []) ++
  error_if (OS_TICK_FREQ c <? 1) "Invalid Kernel Tick Frequency!" ++
  error_if (OS_ISR_FIFO_QUEUE c <? 4) "Invalid ISR FIFO Queue size!".

Definition thread_errors : list string :=
  error_if (not_mult_8 (OS_STACK_SIZE c) || (OS_STACK_SIZE c <? 72)) "Invalid default Thread Stack size!" ++
  error_if (not_mult_8 (OS_IDLE_THREAD_STACK_SIZE c) || (OS_IDLE_THREAD_STACK_SIZE c <? 72))
    "Invalid Idle Thread Stack size!" ++
  (if negb (OS_THREAD_OBJ_MEM c =? 0)
   then error_if (OS_THREAD_NUM c =? 0) "Invalid number of user Threads!" ++
        error_if (negb (OS_THREAD_USER_STACK_SIZE c =? 0) && not_mult_8 (OS_THREAD_USER_STACK_SIZE c))
          "Invalid total Stack size!"
   else []).

(** [(OS_TIMER_THREAD_STACK_SIZE != 0) && (OS_TIMER_CB_QUEUE != 0)] *)
Definition timer_thread_used : bool :=
  negb (OS_TIMER_THREAD_STACK_SIZE c =? 0) && negb (OS_TIMER_CB_QUEUE c =? 0).

Definition timer_errors : list string :=
  (if negb (OS_TIMER_OBJ_MEM c =? 0) then error_if (OS_TIMER_NUM c =? 0) "Invalid number of Timer objects!" else []) ++
  (if timer_thread_used
   then error_if (not_mult_8 (OS_TIMER_THREAD_STACK_SIZE c) || (OS_TIMER_THREAD_STACK_SIZE c <? 96))
          "Invalid Timer Thread Stack size!"
   else []).

Definition object_errors : list string :=
  (if negb (OS_EVFLAGS_OBJ_MEM c =? 0)
   then error_if (OS_EVFLAGS_NUM c =? 0) "Invalid number of Event Flags objects!" else []) ++
  (if negb (OS_MUTEX_OBJ_MEM c =? 0) then error_if (OS_MUTEX_NUM c =? 0) "Invalid number of Mutex objects!" else []) ++
  (if negb (OS_SEMAPHORE_OBJ_MEM c =? 0)
   then error_if (OS_SEMAPHORE_NUM c =? 0) "Invalid number of Semaphore objects!" else []) ++
  (if negb (OS_MEMPOOL_OBJ_MEM c =? 0)
   then error_if (OS_MEMPOOL_NUM c =? 0) "Invalid number of Memory Pool objects!" ++
        (if negb (OS_MEMPOOL_DATA_SIZE c =? 0)
         then error_if (not_mult_8 (OS_MEMPOOL_DATA_SIZE c)) "Invalid Data Memory size for Memory Pools!" else [])
   else []) ++
  (if negb (OS_MSGQUEUE_OBJ_MEM c =? 0)
   then error_if (OS_MSGQUEUE_NUM c =? 0) "Invalid number of Message Queue objects!" ++
        (if negb (OS_MSGQUEUE_DATA_SIZE c =? 0)
         then error_if (not_mult_8 (OS_MSGQUEUE_DATA_SIZE c)) "Invalid Data Memory size for Message Queues!" else [])
   else []).

Definition config_errors : list string := system_errors ++ thread_errors ++ timer_errors ++ object_errors.

(** ** The variables of rtx_lib.c *)

Inductive region :=
  | os_mem | os_isr_queue | os_thread_cb | os_thread_def_stack | os_thread_stack | os_idle_thread_cb
  | os_idle_thread_stack | os_timer_cb | os_timer_thread_cb | os_timer_thread_stack | os_timer_mq_cb
  | os_timer_mq_data | os_ef_cb | os_mutex_cb | os_semaphore_cb | os_mp_cb | os_mp_data | os_mq_cb | os_mq_data.

(** Whether the configuration declares the variable, and for the arrays the
    number of elements and the size of one; the others have one element. *)
Definition declared (r : region) : bool :=
  match r with
  | os_mem => negb (OS_DYNAMIC_MEM_SIZE c =? 0)
  | os_isr_queue | os_idle_thread_cb | os_idle_thread_stack => true
  | os_thread_cb => negb (OS_THREAD_OBJ_MEM c =? 0)
  | os_thread_def_stack => negb (OS_THREAD_OBJ_MEM c =? 0) && negb (OS_THREAD_DEF_STACK_NUM c =? 0)
  | os_thread_stack => negb (OS_THREAD_OBJ_MEM c =? 0) && negb (OS_THREAD_USER_STACK_SIZE c =? 0)
  | os_timer_cb => negb (OS_TIMER_OBJ_MEM c =? 0)
  | os_timer_thread_cb | os_timer_thread_stack | os_timer_mq_cb | os_timer_mq_data => timer_thread_used
  | os_ef_cb => negb (OS_EVFLAGS_OBJ_MEM c =? 0)
  | os_mutex_cb => negb (OS_MUTEX_OBJ_MEM c =? 0)
  | os_semaphore_cb => negb (OS_SEMAPHORE_OBJ_MEM c =? 0)
  | os_mp_cb => negb (OS_MEMPOOL_OBJ_MEM c =? 0)
  | os_mp_data => negb (OS_MEMPOOL_OBJ_MEM c =? 0) && negb (OS_MEMPOOL_DATA_SIZE c =? 0)
  | os_mq_cb => negb (OS_MSGQUEUE_OBJ_MEM c =? 0)
  | os_mq_data => negb (OS_MSGQUEUE_OBJ_MEM c =? 0) && negb (OS_MSGQUEUE_DATA_SIZE c =? 0)
  end.

Definition elements (r : region) : Z :=
  match r with
  | os_mem => Z.quot (OS_DYNAMIC_MEM_SIZE c) 8
  | os_isr_queue => OS_ISR_FIFO_QUEUE c
  | os_thread_cb => OS_THREAD_NUM c
  | os_thread_def_stack => OS_THREAD_DEF_STACK_NUM c * Z.quot (OS_STACK_SIZE c) 8
  | os_thread_stack => 2 + OS_THREAD_NUM c + Z.quot (OS_THREAD_USER_STACK_SIZE c) 8
  | os_idle_thread_stack => Z.quot (OS_IDLE_THREAD_STACK_SIZE c) 8
  | os_timer_cb => OS_TIMER_NUM c
  | os_timer_thread_stack => Z.quot (OS_TIMER_THREAD_STACK_SIZE c) 8
  | os_timer_mq_data => Z.quot (osRtxMessageQueueMemSize (OS_TIMER_CB_QUEUE c) 8) 4
  | os_ef_cb => OS_EVFLAGS_NUM c
  | os_mutex_cb => OS_MUTEX_NUM c
  | os_semaphore_cb => OS_SEMAPHORE_NUM c
  | os_mp_cb => OS_MEMPOOL_NUM c
  | os_mp_data => 2 + OS_MEMPOOL_NUM c + Z.quot (OS_MEMPOOL_DATA_SIZE c) 8
  | os_mq_cb => OS_MSGQUEUE_NUM c
  | os_mq_data => 2 + OS_MSGQUEUE_NUM c + Z.quot (OS_MSGQUEUE_DATA_SIZE c) 8
  | os_idle_thread_cb | os_timer_thread_cb | os_timer_mq_cb => 1
  end.

Definition element_size (r : region) : Z :=
  match r with
  | os_mem | os_thread_def_stack | os_thread_stack | os_idle_thread_stack | os_timer_thread_stack
  | os_mp_data | os_mq_data => 8  (* uint64_t *)
  | os_isr_queue | os_timer_mq_data => 4
  | os_thread_cb | os_idle_thread_cb | os_timer_thread_cb => osRtxThreadCbSize tf_m_extension
  | os_timer_cb => osRtxTimerCbSize
  | os_timer_mq_cb | os_mq_cb => osRtxMessageQueueCbSize
  | os_ef_cb => osRtxEventFlagsCbSize
  | os_mutex_cb => osRtxMutexCbSize
  | os_semaphore_cb => osRtxSemaphoreCbSize
  | os_mp_cb => osRtxMemoryPoolCbSize
  end.

(** [sizeof] of the variable *)
Definition region_size (r : region) : Z := elements r * element_size r.

(** Where the linker puts the variables. *)
Variable addr : region -> Z.

Definition pool_info (n size : Z) (r : region) : osRtxMpInfo_t :=
  mkMpInfo (u32 n) 0 (u32 size) (Some (addr r)) None None.

Definition os_mpi_thread : osRtxMpInfo_t := pool_info (OS_THREAD_NUM c) (osRtxThreadCbSize tf_m_extension) os_thread_cb.
Definition os_mpi_def_stack : osRtxMpInfo_t :=
  pool_info (OS_THREAD_DEF_STACK_NUM c) (OS_STACK_SIZE c) os_thread_def_stack.
Definition os_mpi_timer : osRtxMpInfo_t := pool_info (OS_TIMER_NUM c) osRtxTimerCbSize os_timer_cb.
Definition os_mpi_ef : osRtxMpInfo_t := pool_info (OS_EVFLAGS_NUM c) osRtxEventFlagsCbSize os_ef_cb.
Definition os_mpi_mutex : osRtxMpInfo_t := pool_info (OS_MUTEX_NUM c) osRtxMutexCbSize os_mutex_cb.
Definition os_mpi_semaphore : osRtxMpInfo_t := pool_info (OS_SEMAPHORE_NUM c) osRtxSemaphoreCbSize os_semaphore_cb.
Definition os_mpi_mp : osRtxMpInfo_t := pool_info (OS_MEMPOOL_NUM c) osRtxMemoryPoolCbSize os_mp_cb.
Definition os_mpi_mq : osRtxMpInfo_t := pool_info (OS_MSGQUEUE_NUM c) osRtxMessageQueueCbSize os_mq_cb.

Definition os_idle_thread_attr : osThreadAttr_t :=
  mkThreadAttr (OS_IDLE_THREAD_NAME c) osThreadDetached (Some (addr os_idle_thread_cb)) (u32 (region_size os_idle_thread_cb))
    (Some (addr os_idle_thread_stack)) (u32 (region_size os_idle_thread_stack)) (osPriority_value osPriorityIdle)
    (match OS_IDLE_THREAD_TZ_MOD_ID c with Some m => u32 m | None => 0 end) 0.

Definition os_timer_thread_attr : osThreadAttr_t :=
  mkThreadAttr (OS_TIMER_THREAD_NAME c) osThreadDetached (Some (addr os_timer_thread_cb)) (u32 (region_size os_timer_thread_cb))
    (Some (addr os_timer_thread_stack)) (u32 (region_size os_timer_thread_stack)) (OS_TIMER_THREAD_PRIO c)
    (match OS_TIMER_THREAD_TZ_MOD_ID c with Some m => u32 m | None => 0 end) 0.

Definition os_timer_mq_attr : osMessageQueueAttr_t :=
  mkMessageQueueAttr None 0 (Some (addr os_timer_mq_cb)) (u32 (region_size os_timer_mq_cb))
    (Some (addr os_timer_mq_data)) (u32 (region_size os_timer_mq_data)).

(** [osRtxConfig] *)

Definition config_flags : Z :=
  Z.lor (Z.lor (Z.lor 0 (if negb (OS_PRIVILEGE_MODE c =? 0) then osRtxConfigPrivilegedMode else 0))
    (if negb (OS_STACK_CHECK c =? 0) then osRtxConfigStackCheck else 0))
    (if negb (OS_STACK_WATERMARK c =? 0) then osRtxConfigStackWatermark else 0).

(** [&r[0], sizeof(r)] or [NULL, 0U] *)
Definition memory (b : bool) (r : region) : handle * Z :=
  if b then (Some (addr r), u32 (region_size r)) else (None, 0).

Definition config_mem : mem_config :=
  let stack := memory (negb (OS_THREAD_OBJ_MEM c =? 0) && negb (OS_THREAD_USER_STACK_SIZE c =? 0)) os_thread_stack in
  let mp := memory (negb (OS_MEMPOOL_OBJ_MEM c =? 0) && negb (OS_MEMPOOL_DATA_SIZE c =? 0)) os_mp_data in
  let mq := memory (negb (OS_MSGQUEUE_OBJ_MEM c =? 0) && negb (OS_MSGQUEUE_DATA_SIZE c =? 0)) os_mq_data in
  let common := if negb (OS_DYNAMIC_MEM_SIZE c =? 0) then (Some (addr os_mem), u32 (OS_DYNAMIC_MEM_SIZE c)) else (None, 0) in
  mkMem stack.1 stack.2 mp.1 mp.2 mq.1 mq.2 common.1 common.2.

Definition config_mpi : mpi_config :=
  let when {A} (b : bool) (x : A) : option A := if b then Some x else None in
  mkMpi
    (when (negb (OS_THREAD_OBJ_MEM c =? 0) && negb (OS_THREAD_DEF_STACK_NUM c =? 0)) os_mpi_def_stack)
    (when (negb (OS_THREAD_OBJ_MEM c =? 0)) os_mpi_thread)
    (when (negb (OS_TIMER_OBJ_MEM c =? 0)) os_mpi_timer)
    (when (negb (OS_EVFLAGS_OBJ_MEM c =? 0)) os_mpi_ef)
    (when (negb (OS_MUTEX_OBJ_MEM c =? 0)) os_mpi_mutex)
    (when (negb (OS_SEMAPHORE_OBJ_MEM c =? 0)) os_mpi_semaphore)
    (when (negb (OS_MEMPOOL_OBJ_MEM c =? 0)) os_mpi_mp)
    (when (negb (OS_MSGQUEUE_OBJ_MEM c =? 0)) os_mpi_mq).

Definition osRtxConfig : osRtxConfig_t :=
  mkRtxConfig config_flags (u32 (OS_TICK_FREQ c))
    (if negb (OS_ROBIN_ENABLE c =? 0) then u32 (OS_ROBIN_TIMEOUT c) else 0)
    (mkIsrQueue (Some (addr os_isr_queue)) (wrapu 16 (Z.quot (region_size os_isr_queue) 4)) 0)
    config_mem config_mpi (u32 (OS_STACK_SIZE c)) os_idle_thread_attr
    (if timer_thread_used then Some os_timer_thread_attr else None)
    (if timer_thread_used then Some os_timer_mq_attr else None)
    (if timer_thread_used then u32 (OS_TIMER_CB_QUEUE c) else 0).

(** ** The Event Recorder at the start of the kernel *)

(** The filters once THFLAGS and WAIT have taken over that of THREAD. *)
Definition effective_filter (e : evr_component) : option Z :=
  match e, OS_EVR_FILTER_of c e with
  | (EvtRtxThreadFlags | EvtRtxWait), None => OS_EVR_FILTER_of c EvtRtxThread
  | _, f => f
  end.

(** OS_EVR_<component>_LEVEL after the migration of the filters. *)
Definition evr_level (e : evr_component) : Z :=
  match effective_filter e with
  | Some filter => if negb (Z.land filter 0x80 =? 0) then Z.land filter 0x0F else 0
  | None => OS_EVR_LEVEL_of c e
  end.

Inductive evr_call :=
  | EventRecorderInitialize (level start : Z)
  | EventRecorderEnable (level first last : Z).

Definition evr_initialize : list evr_call :=
  let enable e := EventRecorderEnable (evr_level e) (evr_component_No e) (evr_component_No e) in
  [EventRecorderInitialize (OS_EVR_LEVEL c) (u32 (OS_EVR_START c));
   enable EvtRtxMemory; enable EvtRtxKernel; enable EvtRtxThread; enable EvtRtxWait; enable EvtRtxThreadFlags;
   enable EvtRtxEventFlags; enable EvtRtxTimer; enable EvtRtxMutex; enable EvtRtxSemaphore;
   enable EvtRtxMemoryPool; enable EvtRtxMessageQueue].
End rtx_lib.
