(* ===== verification/RtxConfigProofs.v ===== *)
(** * The configuration of RTX: properties

    What the checks of rtx_lib.c guarantee about the pools and the memory that
    [osRtxConfig] hands to the kernel. *)

From S2P Require Import Prelude Cmsis RtxOs RtxConfig.
Local Open Scope Z_scope.

Section proofs.
  Variable tfm : bool.
  Variable c : rtx_options.
  Variable addr : region -> Z.

(** The configuration is accepted, and its sizes and numbers are not negative. *)
Definition accepted : Prop := config_errors c = [].

Definition nonnegative : Prop :=
  0 <= OS_DYNAMIC_MEM_SIZE c /\ 0 <= OS_THREAD_NUM c /\ 0 <= OS_THREAD_DEF_STACK_NUM c /\
  0 <= OS_THREAD_USER_STACK_SIZE c /\ 0 <= OS_TIMER_NUM c /\ 0 <= OS_TIMER_CB_QUEUE c /\ 0 <= OS_EVFLAGS_NUM c /\
  0 <= OS_MUTEX_NUM c /\ 0 <= OS_SEMAPHORE_NUM c /\ 0 <= OS_MEMPOOL_NUM c /\ 0 <= OS_MEMPOOL_DATA_SIZE c /\
  0 <= OS_MSGQUEUE_NUM c /\ 0 <= OS_MSGQUEUE_DATA_SIZE c.

Lemma error_if_nil b m : error_if b m = [] <-> b = false.
Proof. by destruct b. Qed.

Lemma not_mult_8_false x : not_mult_8 x = false <-> x = 8 * Z.quot x 8.
Proof.
  unfold not_mult_8. rewrite negb_false_iff, Z.eqb_eq. pose proof (Z.quot_rem' x 8). lia.
Qed.

(** A check inside a conditional. *)
Lemma check_nil (b b' : bool) m : (if b then error_if b' m else []) = [] -> b = true -> b' = false.
Proof. intros H ->. by apply error_if_nil in H. Qed.

Lemma checks_nil (b b1 b2 : bool) m1 m2 :
  (if b then error_if b1 m1 ++ error_if b2 m2 else []) = [] -> b = true -> b1 = false /\ b2 = false.
Proof. intros H ->. by apply app_nil in H as [?%error_if_nil ?%error_if_nil]. Qed.

Lemma checks_nil_if (b b1 b2 b3 : bool) m1 m2 :
  (if b then error_if b1 m1 ++ (if b2 then error_if b3 m2 else []) else []) = [] -> b = true ->
  b1 = false /\ (b2 = true -> b3 = false).
Proof. intros H ->. apply app_nil in H as [?%error_if_nil H]. split; [done|]. by apply check_nil with m2. Qed.

(** What has been checked. *)
Record checked : Prop := {
  chk_mem : negb (OS_DYNAMIC_MEM_SIZE c =? 0) = true -> not_mult_8 (OS_DYNAMIC_MEM_SIZE c) = false;
  chk_isr : 4 <= OS_ISR_FIFO_QUEUE c;
  chk_tick : 1 <= OS_TICK_FREQ c;
  chk_stack : not_mult_8 (OS_STACK_SIZE c) = false /\ 72 <= OS_STACK_SIZE c;
  chk_idle : not_mult_8 (OS_IDLE_THREAD_STACK_SIZE c) = false /\ 72 <= OS_IDLE_THREAD_STACK_SIZE c;
  chk_threads : negb (OS_THREAD_OBJ_MEM c =? 0) = true -> (OS_THREAD_NUM c =? 0) = false /\
    negb (OS_THREAD_USER_STACK_SIZE c =? 0) && not_mult_8 (OS_THREAD_USER_STACK_SIZE c) = false;
  chk_timer : negb (OS_TIMER_OBJ_MEM c =? 0) = true -> (OS_TIMER_NUM c =? 0) = false;
  chk_timer_thread : timer_thread_used c = true ->
    not_mult_8 (OS_TIMER_THREAD_STACK_SIZE c) = false /\ 96 <= OS_TIMER_THREAD_STACK_SIZE c;
  chk_evflags : negb (OS_EVFLAGS_OBJ_MEM c =? 0) = true -> (OS_EVFLAGS_NUM c =? 0) = false;
  chk_mutex : negb (OS_MUTEX_OBJ_MEM c =? 0) = true -> (OS_MUTEX_NUM c =? 0) = false;
  chk_semaphore : negb (OS_SEMAPHORE_OBJ_MEM c =? 0) = true -> (OS_SEMAPHORE_NUM c =? 0) = false;
  chk_mempool : negb (OS_MEMPOOL_OBJ_MEM c =? 0) = true -> (OS_MEMPOOL_NUM c =? 0) = false /\
    (negb (OS_MEMPOOL_DATA_SIZE c =? 0) = true -> not_mult_8 (OS_MEMPOOL_DATA_SIZE c) = false);
  chk_msgqueue : negb (OS_MSGQUEUE_OBJ_MEM c =? 0) = true -> (OS_MSGQUEUE_NUM c =? 0) = false /\
    (negb (OS_MSGQUEUE_DATA_SIZE c =? 0) = true -> not_mult_8 (OS_MSGQUEUE_DATA_SIZE c) = false);
}.

Lemma accepted_checked : accepted -> checked.
Proof.
  unfold accepted, config_errors. rewrite !app_nil. intros (Hsys & Hthr & Htim & Hobj).
  unfold system_errors in Hsys. rewrite !app_nil, !error_if_nil, !Z.ltb_ge in Hsys. destruct Hsys as (H1 & H2 & H3).
  unfold thread_errors in Hthr. rewrite !app_nil, !error_if_nil, !orb_false_iff, !Z.ltb_ge in Hthr.
  destruct Hthr as (H4 & H5 & H6).
  unfold timer_errors in Htim. rewrite !app_nil in Htim. destruct Htim as (H7 & H8).
  unfold object_errors in Hobj. rewrite !app_nil in Hobj. destruct Hobj as (H9 & H10 & H11 & H12 & H13).
  split; try done.
  - by apply check_nil with "Invalid Dynamic Memory size!"%string.
  - intros Hb. by apply (checks_nil _ _ _ _ _ H6).
  - by apply (check_nil _ _ _ H7).
  - intros Hb. pose proof (check_nil _ _ _ H8 Hb) as Ht. by rewrite orb_false_iff, Z.ltb_ge in Ht.
  - by apply (check_nil _ _ _ H9).
  - by apply (check_nil _ _ _ H10).
  - by apply (check_nil _ _ _ H11).
  - by apply (checks_nil_if _ _ _ _ _ _ H12).
  - by apply (checks_nil_if _ _ _ _ _ _ H13).
Qed.

Lemma user_stack_mult : checked -> negb (OS_THREAD_OBJ_MEM c =? 0) = true ->
  OS_THREAD_USER_STACK_SIZE c = 8 * Z.quot (OS_THREAD_USER_STACK_SIZE c) 8.
Proof.
  intros Hc Hb. destruct (chk_threads Hc Hb) as [_ Hu]. apply andb_false_iff in Hu as [Hu|Hu].
  - rewrite negb_false_iff, Z.eqb_eq in Hu. by rewrite Hu.
  - by apply not_mult_8_false.
Qed.

Lemma data_mult x : (negb (x =? 0) = true -> not_mult_8 x = false) -> x = 8 * Z.quot x 8.
Proof.
  intros H. destruct (decide (x = 0)) as [->|Hx]; [done|]. apply not_mult_8_false, H. by rewrite (proj2 (Z.eqb_neq _ _)).
Qed.

Lemma timer_queue_size : region_size tfm c os_timer_mq_data = OS_TIMER_CB_QUEUE c * (sizeof_type osRtxMessage_t + sizeof_type osRtxTimerFinfo_t).
Proof.
  unfold region_size, elements, element_size, osRtxMessageQueueMemSize.
  change (3 + Z.quot (8 + 3) 4) with 5. change (sizeof_type osRtxMessage_t + sizeof_type osRtxTimerFinfo_t) with 20.
  replace (4 * OS_TIMER_CB_QUEUE c * 5) with (OS_TIMER_CB_QUEUE c * 5 * 4) by lia. rewrite Z.quot_mul by lia. lia.
Qed.

(** Every array that is declared has elements. *)
Lemma arrays_nonempty r : checked -> nonnegative -> declared c r = true -> 0 < elements c r.
Proof.
  intros Hc (? & ? & ? & ? & ? & ? & ? & ? & ? & ? & ? & ? & ?) Hd.
  destruct r; cbn [declared elements] in *; rewrite ?andb_true_iff in *; try lia.
  - pose proof (data_mult _ (chk_mem Hc)). rewrite negb_true_iff, Z.eqb_neq in Hd. lia.
  - pose proof (chk_isr Hc). lia.
  - destruct (chk_threads Hc Hd) as [?%Z.eqb_neq _]. lia.
  - destruct Hd as [_ Hd]. rewrite negb_true_iff, Z.eqb_neq in Hd. destruct (chk_stack Hc) as [?%not_mult_8_false ?]. nia.
  - pose proof (user_stack_mult Hc (proj1 Hd)). lia.
  - destruct (chk_idle Hc) as [?%not_mult_8_false ?]. lia.
  - pose proof (chk_timer Hc Hd) as ?%Z.eqb_neq. lia.
  - destruct (chk_timer_thread Hc Hd) as [?%not_mult_8_false ?]. lia.
  - unfold timer_thread_used in Hd. rewrite andb_true_iff, !negb_true_iff, !Z.eqb_neq in Hd.
    unfold osRtxMessageQueueMemSize. change (3 + Z.quot (8 + 3) 4) with 5.
    replace (4 * OS_TIMER_CB_QUEUE c * 5) with (OS_TIMER_CB_QUEUE c * 5 * 4) by lia. rewrite Z.quot_mul by lia. lia.
  - pose proof (chk_evflags Hc Hd) as ?%Z.eqb_neq. lia.
  - pose proof (chk_mutex Hc Hd) as ?%Z.eqb_neq. lia.
  - pose proof (chk_semaphore Hc Hd) as ?%Z.eqb_neq. lia.
  - destruct (chk_mempool Hc Hd) as [?%Z.eqb_neq _]. lia.
  - pose proof (data_mult _ (proj2 (chk_mempool Hc (proj1 Hd)))). lia.
  - destruct (chk_msgqueue Hc Hd) as [?%Z.eqb_neq _]. lia.
  - pose proof (data_mult _ (proj2 (chk_msgqueue Hc (proj1 Hd)))). lia.
Qed.

(** ** The pools of fixed-size blocks *)

(** The pools of the configuration with the variable that each should have. *)
Definition pools : list (option osRtxMpInfo_t * region) :=
  let m := cfg_mpi (osRtxConfig tfm c addr) in
  [(mpi_stack m, os_thread_def_stack); (mpi_thread m, os_thread_cb); (mpi_timer m, os_timer_cb);
   (mpi_event_flags m, os_ef_cb); (mpi_mutex m, os_mutex_cb); (mpi_semaphore m, os_semaphore_cb);
   (mpi_memory_pool m, os_mp_cb); (mpi_message_queue m, os_mq_cb)].

(** The blocks of the pool are exactly the variable, and none is in use. *)
Definition pool_fits (p : osRtxMpInfo_t) (r : region) : Prop :=
  declared c r = true /\ block_base p = Some (addr r) /\ 0 < max_blocks p /\ 0 < block_size p /\ used_blocks p = 0 /\
  max_blocks p * block_size p = region_size tfm c r.

Lemma pool_info_fits n size r :
  declared c r = true -> 0 < n -> 0 < size -> n * size = region_size tfm c r -> region_size tfm c r < 2 ^ 32 ->
  pool_fits (pool_info addr n size r) r.
Proof.
  intros Hd Hn Hs Hr Hlt. unfold pool_fits, pool_info. cbn [max_blocks block_size block_base used_blocks].
  rewrite !wrapu_small by nia. by repeat split.
Qed.

Lemma element_size_pos r : 0 < element_size tfm r.
Proof. destruct r, tfm; by vm_compute. Qed.

Lemma cb_pool_fits r : checked -> nonnegative -> declared c r = true -> region_size tfm c r < 2 ^ 32 ->
  pool_fits (pool_info addr (elements c r) (element_size tfm r) r) r.
Proof. intros Hc Hn Hd Hlt. apply pool_info_fits; [done|by apply arrays_nonempty|apply element_size_pos|done|done]. Qed.

Lemma stack_pool_fits : checked -> nonnegative -> declared c os_thread_def_stack = true ->
  region_size tfm c os_thread_def_stack < 2 ^ 32 -> pool_fits (os_mpi_def_stack c addr) os_thread_def_stack.
Proof.
  intros Hc Hn Hd Hlt. destruct (chk_stack Hc) as [Hs%not_mult_8_false ?].
  pose proof (arrays_nonempty _ Hc Hn Hd) as Hpos. cbn [elements] in Hpos.
  apply pool_info_fits; [done|nia|lia| |done]. unfold region_size. cbn [elements element_size]. nia.
Qed.

(** ** Properties *)

(** C15. The checks of rtx_lib.c are enough.  For every configuration that they
    accept, with sizes that are not negative and fit in 32 bits: every array
    that is declared has elements, and each pool of fixed-size blocks of
    osRtxConfig is exactly one of the variables that the configuration declares,
    whole, with at least one block, none in use. *)
Theorem rtx_pools_fit :
  accepted -> nonnegative -> (forall r, declared c r = true -> region_size tfm c r < 2 ^ 32) ->
  (forall r, declared c r = true -> 0 < elements c r) /\
  (forall (p : osRtxMpInfo_t) (r : region), (Some p, r) ∈ pools -> pool_fits p r).
Proof.
  intros Hc%accepted_checked Hn Hlt. split; [intros r; by apply arrays_nonempty|]. intros p r Hin.
  assert (forall (b : bool) (q : osRtxMpInfo_t) (r' : region), (Some p, r) = (if b then Some q else None, r') -> b = true /\ p = q /\ r = r') as Hwhen
    by (by intros [] q r' [= -> ->]).
  assert (forall r', declared c r' = true -> pool_fits (pool_info addr (elements c r') (element_size tfm r') r') r') as Hcb
    by (intros r' Hd; apply cb_pool_fits; auto).
  unfold pools in Hin. cbn [osRtxConfig cfg_mpi config_mpi mpi_stack mpi_thread mpi_timer mpi_event_flags mpi_mutex
    mpi_semaphore mpi_memory_pool mpi_message_queue] in Hin.
  repeat (apply elem_of_cons in Hin as [(Hd & -> & ->)%Hwhen|Hin]).
  - apply stack_pool_fits; auto.
  - by apply Hcb.
  - by apply Hcb.
  - by apply Hcb.
  - by apply Hcb.
  - by apply Hcb.
  - by apply Hcb.
  - by apply Hcb.
  - by apply not_elem_of_nil in Hin.
Qed.

(** The memory for objects of variable size that osRtxConfig gives the kernel.
    In an accepted configuration each region is the whole of its variable (the
    dynamic memory has the size of the option), with 8 bytes for each thread,
    pool or queue and 16 more beside what the option asks for; the timer queue
    holds OS_TIMER_CB_QUEUE messages with their headers, and the queue of the
    interrupts has the size that the kernel is told exactly if that is below
    65536. *)
Theorem rtx_memory_sizes :
  accepted -> nonnegative -> (forall r, declared c r = true -> region_size tfm c r < 2 ^ 32) ->
  let m := cfg_mem (osRtxConfig tfm c addr) in
  (stack_addr m <> None -> mem_stack_size m = 16 + 8 * OS_THREAD_NUM c + OS_THREAD_USER_STACK_SIZE c) /\
  (mp_data_addr m <> None -> mp_data_size m = 16 + 8 * OS_MEMPOOL_NUM c + OS_MEMPOOL_DATA_SIZE c) /\
  (mq_data_addr m <> None -> mq_data_size m = 16 + 8 * OS_MSGQUEUE_NUM c + OS_MSGQUEUE_DATA_SIZE c) /\
  (common_addr m <> None -> common_size m = region_size tfm c os_mem) /\
  (forall a, cfg_timer_mq_attr (osRtxConfig tfm c addr) = Some a ->
    mq_size a = cfg_timer_mq_mcnt (osRtxConfig tfm c addr) * (sizeof_type osRtxMessage_t + sizeof_type osRtxTimerFinfo_t)) /\
  (isr_max (cfg_isr_queue (osRtxConfig tfm c addr)) = OS_ISR_FIFO_QUEUE c <-> OS_ISR_FIFO_QUEUE c < 65536).
Proof.
  intros Hc%accepted_checked Hn Hlt m. subst m.
  destruct Hn as (? & ? & ? & ? & ? & ? & ? & ? & ? & ? & ? & ? & ?).
  assert (forall (b : bool) (r : region), declared c r = b -> 0 <= region_size tfm c r -> (memory tfm c addr b r).1 <> None ->
    b = true /\ (memory tfm c addr b r).2 = region_size tfm c r) as Hmem.
  { intros [] r Hd Hp Hne; [|done]. split; [done|]. cbn. apply wrapu_small. split; [done|]. by apply Hlt. }
  cbn [osRtxConfig cfg_mem config_mem stack_addr mem_stack_size mp_data_addr mp_data_size mq_data_addr mq_data_size
    common_addr common_size cfg_timer_mq_attr cfg_timer_mq_mcnt cfg_isr_queue isr_max].
  split_and!.
  - intros Hne. destruct (Hmem (negb (OS_THREAD_OBJ_MEM c =? 0) && negb (OS_THREAD_USER_STACK_SIZE c =? 0)) os_thread_stack eq_refl) with (2 := Hne) as [Hd ->].
    { unfold region_size. cbn [elements element_size]. pose proof (Z.quot_pos (OS_THREAD_USER_STACK_SIZE c) 8). lia. }
    apply andb_true_iff in Hd as [Hd _]. pose proof (user_stack_mult Hc Hd). unfold region_size. cbn [elements element_size]. lia.
  - intros Hne. destruct (Hmem (negb (OS_MEMPOOL_OBJ_MEM c =? 0) && negb (OS_MEMPOOL_DATA_SIZE c =? 0)) os_mp_data eq_refl) with (2 := Hne) as [Hd ->].
    { unfold region_size. cbn [elements element_size]. pose proof (Z.quot_pos (OS_MEMPOOL_DATA_SIZE c) 8). lia. }
    apply andb_true_iff in Hd as [Hd _]. pose proof (data_mult _ (proj2 (chk_mempool Hc Hd))). unfold region_size. cbn [elements element_size]. lia.
  - intros Hne. destruct (Hmem (negb (OS_MSGQUEUE_OBJ_MEM c =? 0) && negb (OS_MSGQUEUE_DATA_SIZE c =? 0)) os_mq_data eq_refl) with (2 := Hne) as [Hd ->].
    { unfold region_size. cbn [elements element_size]. pose proof (Z.quot_pos (OS_MSGQUEUE_DATA_SIZE c) 8). lia. }
    apply andb_true_iff in Hd as [Hd _]. pose proof (data_mult _ (proj2 (chk_msgqueue Hc Hd))). unfold region_size. cbn [elements element_size]. lia.
  - intros Hne. destruct (negb (OS_DYNAMIC_MEM_SIZE c =? 0)) eqn:Hd; [|done]. cbn [snd].
    pose proof (Hlt os_mem Hd) as Hl. pose proof (data_mult _ (chk_mem Hc)).
    unfold region_size in *. cbn [elements element_size] in *. rewrite wrapu_small by lia. lia.
  - intros a. destruct (timer_thread_used c) eqn:Hd; [|done]. intros [= <-]. cbn [os_timer_mq_attr mq_size].
    pose proof (Hlt os_timer_mq_data Hd) as Hl. pose proof (timer_queue_size) as Hs. change (sizeof_type osRtxMessage_t + sizeof_type osRtxTimerFinfo_t) with 20 in *.
    rewrite !wrapu_small by lia. by rewrite Hs.
  - unfold region_size. cbn [elements element_size]. rewrite Z.quot_mul by lia. pose proof (chk_isr Hc).
    change 65536 with (2 ^ 16). split; [|intros; apply wrapu_small; lia].
    intros Hi. pose proof (wrapu_range 16 (OS_ISR_FIFO_QUEUE c)). lia.
Qed.

(** The flags of osRtxConfig. *)
Lemma config_flags_bits :
  Z.testbit (config_flags c) 0 = negb (OS_PRIVILEGE_MODE c =? 0) /\
  Z.testbit (config_flags c) 1 = negb (OS_STACK_CHECK c =? 0) /\
  Z.testbit (config_flags c) 2 = negb (OS_STACK_WATERMARK c =? 0) /\ 0 <= config_flags c < 8.
Proof.
  unfold config_flags. by destruct (OS_PRIVILEGE_MODE c =? 0), (OS_STACK_CHECK c =? 0), (OS_STACK_WATERMARK c =? 0).
Qed.

(** A filter of an older configuration decides the level of its component:
    THREAD also decides those of THFLAGS and WAIT unless they have their own. *)
Lemma evr_level_migrated e :
  0 <= evr_level c e < 16 \/ (effective_filter c e = None /\ evr_level c e = OS_EVR_LEVEL_of c e).
Proof.
  unfold evr_level. destruct (effective_filter c e) as [f|]; [left|by right].
  destruct (negb _); [|lia]. change 0x0F with (Z.ones 4). rewrite Z.land_ones by lia. by apply Z.mod_pos_bound.
Qed.
End proofs.

(** A configuration with every pool, beside the default one. *)
Definition all_pools : rtx_options := mkRtxOptions default_system
  {| OS_THREAD_OBJ_MEM := 1; OS_THREAD_NUM := 5; OS_THREAD_DEF_STACK_NUM := 3; OS_THREAD_USER_STACK_SIZE := 1024;
     OS_STACK_SIZE := 256; OS_IDLE_THREAD_STACK_SIZE := 256; OS_IDLE_THREAD_NAME := None;
     OS_IDLE_THREAD_TZ_MOD_ID := Some 0; OS_STACK_CHECK := 1; OS_STACK_WATERMARK := 0; OS_PRIVILEGE_MODE := 1 |}
  default_timer
  {| OS_EVFLAGS_OBJ_MEM := 1; OS_EVFLAGS_NUM := 2; OS_MUTEX_OBJ_MEM := 1; OS_MUTEX_NUM := 3;
     OS_SEMAPHORE_OBJ_MEM := 1; OS_SEMAPHORE_NUM := 4; OS_MEMPOOL_OBJ_MEM := 1; OS_MEMPOOL_NUM := 1;
     OS_MEMPOOL_DATA_SIZE := 64; OS_MSGQUEUE_OBJ_MEM := 1; OS_MSGQUEUE_NUM := 2; OS_MSGQUEUE_DATA_SIZE := 128 |}
  default_evr.

Definition link (r : region) : Z := 0x20000000.

Lemma default_config_accepted : accepted RTX_Config /\ nonnegative RTX_Config.
Proof. split; [reflexivity|]. unfold nonnegative. cbn. lia. Qed.

Lemma all_pools_small r : region_size true all_pools r < 2 ^ 32.
Proof. destruct r; by vm_compute. Qed.

Lemma rtx_pools_fit_witness :
  accepted all_pools /\ pool_fits true all_pools link (os_mpi_def_stack all_pools link) os_thread_def_stack.
Proof.
  assert (nonnegative all_pools) as Hn by (unfold nonnegative; cbn; lia). split; [reflexivity|].
  destruct (rtx_pools_fit true all_pools link eq_refl Hn (fun r _ => all_pools_small r)) as [_ H].
  apply H. left.
Defined.

Lemma rtx_memory_sizes_witness :
  mem_stack_size (cfg_mem (osRtxConfig true all_pools link)) = 16 + 8 * 5 + 1024 /\
  isr_max (cfg_isr_queue (osRtxConfig true all_pools link)) = 16.
Proof.
  assert (nonnegative all_pools) as Hn by (unfold nonnegative; cbn; lia).
  destruct (rtx_memory_sizes true all_pools link eq_refl Hn (fun r _ => all_pools_small r)) as (Hs & _ & _ & _ & _ & Hi).
  split; [by apply Hs | by apply Hi].
Defined.
