(* ===== verification/RtxLib.v ===== *)
(** * RTX: the functions of rtx_lib.c and RTX_Config.c

    The hooks of the kernel's start, the sections table, and the multithreading
    interface of the C library: the space of the library for each thread and
    its mutexes.  [__user_perthread_libspace] is modelled twice, as one call
    without interruption and in steps that other threads can interrupt. *)

From S2P Require Import Prelude Cmsis RtxOs RtxConfig OsKernelRef.
From stdpp Require Import relations.
Local Open Scope Z_scope.

(** ** Initialisation and hooks *)

Section hooks.
  Context {W : Type} {OS : CmsisRtos W}.
  Implicit Types w : W.

(** [software_init_hook] for GCC, [_platform_post_stackheap_init] for Arm's C
    library. *)
Definition software_init_hook w : W := (osKernelInitialize w).2.
Definition _platform_post_stackheap_init w : W := (osKernelInitialize w).2.

(** The calls of the Event Recorder that the hook makes; it exists when
    OS_EVR_INIT is not 0. *)
Definition osRtxKernelPreInit (c : rtx_options) w : list evr_call * W :=
  let '(state, w) := osKernelGetState w in
  if osKernelState_value state =? osKernelState_value osKernelInactive then (evr_initialize c, w) else ([], w).
End hooks.

(** The idle thread of RTX_Config.c and that of os_config_cmsis_rtx.c, which
    waits for events: [None] is a call that does not return. *)
Definition osRtxIdleThread {W} (argument : handle) (w : W) : option (unit * W) := None.

(** The weak error callback does not return either, whatever the code. *)
Definition osRtxErrorNotify {W} (code : Z) (object_id : handle) (w : W) : option (Z * W) := None.

(** Start and end of each section of control blocks, as the linker gives them. *)
Record cb_section := mkSection { cb_start : Z; cb_end : Z }.

Definition os_cb_sections (thread timer evflags mutex semaphore mempool msgqueue : cb_section) : list Z :=
  [u32 (cb_start thread); u32 (cb_end thread); u32 (cb_start timer); u32 (cb_end timer);
   u32 (cb_start evflags); u32 (cb_end evflags); u32 (cb_start mutex); u32 (cb_end mutex);
   u32 (cb_start semaphore); u32 (cb_end semaphore); u32 (cb_start mempool); u32 (cb_end mempool);
   u32 (cb_start msgqueue); u32 (cb_end msgqueue)].

(** ** The multithreading interface of the C library *)

Definition LIBSPACE_SIZE : Z := 96.

(** The static variables: the flag of [os_kernel_is_active] and the thread of
    each space. *)
Record clib (W : Type) := mkClib {
  clib_os : W;
  os_kernel_active : Z;
  os_libspace_id : list handle;
}.
Arguments mkClib {W} _ _ _.
Arguments clib_os {W} _.
Arguments os_kernel_active {W} _.
Arguments os_libspace_id {W} _.

Section clib.
  Context {W : Type} {OS : CmsisRtos W}.
  (** [osRtxErrorNotify], or what overrides it. *)
  Variable error_notify : Z -> handle -> W -> option (Z * W).
  Implicit Types (s : clib W) (ids : list handle) (id : handle).

Definition os_kernel_is_active s : Z * clib W :=
  if os_kernel_active s =? 0 then
    let '(state, w) := osKernelGetState (clib_os s) in
    let active := if osKernelState_value state >? osKernelState_value osKernelReady then 1 else os_kernel_active s in
    (active, mkClib w active (os_libspace_id s))
  else (os_kernel_active s, s).

(** The search for the space of [id], from slot [n] of [ids] on: the slot, which
    is the number of slots if there is none, and the table. *)
Fixpoint libspace_search id (n : nat) (ids : list handle) : nat * list handle :=
  match ids with
  | [] => (n, [])
  | x :: ids =>
      let x := if bool_decide (x = None) then id else x in
      if bool_decide (x = id) then (n, x :: ids)
      else let '(k, ids) := libspace_search id (S n) ids in (k, x :: ids)
  end.

(** The number of the space, of which there is one more than slots; [None]: the
    call does not return. *)
Definition __user_perthread_libspace s : option (nat * clib W) :=
  let '(active, s) := os_kernel_is_active s in
  let num := length (os_libspace_id s) in
  if negb (active =? 0) then
    let '(id, w) := osThreadGetId (clib_os s) in
    let '(n, ids) := libspace_search id 0 (os_libspace_id s) in
    if bool_decide (n = num) then
      '(_, w) ← error_notify osRtxErrorClibSpace id w;
      Some (n, mkClib w (os_kernel_active s) ids)
    else Some (n, mkClib w (os_kernel_active s) ids)
  else Some (num, s).

(** [*m] after the call is part of the result; [object] is the address [m]. *)
Definition _mutex_initialize (object : handle) s : option (Z * handle * clib W) :=
  let '(m, w) := osMutexNew None (clib_os s) in
  let s := mkClib w (os_kernel_active s) (os_libspace_id s) in
  if negb (bool_decide (m = None)) then Some (1, m, s)
  else
    '(_, w) ← error_notify osRtxErrorClibMutex object (clib_os s);
    Some (0, m, mkClib w (os_kernel_active s) (os_libspace_id s)).

Definition _mutex_acquire (m : handle) s : option (clib W) :=
  let '(active, s) := os_kernel_is_active s in
  if negb (active =? 0) then
    '(_, w) ← osMutexAcquire m osWaitForever (clib_os s);
    Some (mkClib w (os_kernel_active s) (os_libspace_id s))
  else Some s.

Definition _mutex_release (m : handle) s : clib W :=
  let '(active, s) := os_kernel_is_active s in
  if negb (active =? 0) then
    let '(_, w) := osMutexRelease m (clib_os s) in mkClib w (os_kernel_active s) (os_libspace_id s)
  else s.

Definition _mutex_free (m : handle) s : clib W :=
  let '(_, w) := osMutexDelete m (clib_os s) in mkClib w (os_kernel_active s) (os_libspace_id s).
End clib.

(** ** The search in steps

    What a thread does next in the loop of [__user_perthread_libspace]: the test
    of slot [n], the store into it, the comparison with the slot; or it is done
    with the slot [n]. *)
Inductive pc := Test (n : nat) | StoreId (n : nat) | Compare (n : nat) | Done (n : nat).

Definition libspace_step (id : handle) (p : pc) (ids : list handle) : pc * list handle :=
  match p with
  | Test n =>
      match ids !! n with
      | Some x => (if bool_decide (x = None) then StoreId n else Compare n, ids)
      | None => (Done n, ids)
      end
  | StoreId n => (Compare n, <[n := id]> ids)
  | Compare n => (if bool_decide (ids !! n = Some id) then Done n else Test (S n), ids)
  | Done n => (Done n, ids)
  end.

(** Steps of one thread without interruption. *)
Fixpoint libspace_steps (fuel : nat) (id : handle) (p : pc) (ids : list handle) : pc * list handle :=
  match fuel with
  | O => (p, ids)
  | S fuel => let '(p, ids) := libspace_step id p ids in libspace_steps fuel id p ids
  end.

(** Two threads; a schedule says which one makes the next step. *)
Record two_threads := mkTwo { pc1 : pc; pc2 : pc; shared_ids : list handle }.

Definition step_two (id1 id2 : handle) (first : bool) (t : two_threads) : two_threads :=
  if first then let '(p, ids) := libspace_step id1 (pc1 t) (shared_ids t) in mkTwo p (pc2 t) ids
  else let '(p, ids) := libspace_step id2 (pc2 t) (shared_ids t) in mkTwo (pc1 t) p ids.

Definition run_two (id1 id2 : handle) (schedule : list bool) (t : two_threads) : two_threads :=
  foldl (fun t b => step_two id1 id2 b t) t schedule.

(** ** Properties *)

(** The table while threads run: the slots in use are the first ones, one for
    each thread. *)
Definition ids_wf (ids : list handle) : Prop :=
  exists ts n, ids = (Some <$> ts) ++ replicate n None /\ NoDup (ts : list Z).

(** The slot of a thread: its own, or the first that is free. *)
Lemma search_spec t ts n k : NoDup (ts : list Z) ->
  libspace_search (Some t) k ((Some <$> ts) ++ replicate n None) =
  match list_find (t =.) ts, n with
  | Some (i, _), _ => ((k + i)%nat, (Some <$> ts) ++ replicate n None)
  | None, O => ((k + length ts)%nat, Some <$> ts)
  | None, S n => ((k + length ts)%nat, (Some <$> ts) ++ Some t :: replicate n None)
  end.
Proof.
  intros Hnd. revert k. induction Hnd as [|x ts Hx Hnd IH]; intros k; cbn [fmap list_fmap app list_find length].
  - destruct n as [|n]; cbn [replicate libspace_search]; [by rewrite Nat.add_0_r|].
    by rewrite bool_decide_true, bool_decide_true, Nat.add_0_r by done.
  - cbn [libspace_search]. rewrite (bool_decide_false (Some x = None)) by done. destruct (decide (t = x)) as [->|Hne].
    + by rewrite bool_decide_true, Nat.add_0_r by done.
    + rewrite bool_decide_false by congruence. rewrite IH.
      destruct (list_find (t =.) ts) as [[i y]|]; cbn [fmap option_fmap option_map prod_map fst snd];
        [by rewrite Nat.add_succ_r, Nat.add_succ_l|].
      destruct n; by rewrite Nat.add_succ_r, Nat.add_succ_l.
Qed.

(** *** Calls without interruption *)

Section calls.
  Context {W : Type} {OS : CmsisRtos W}.
  (** The scheduler lets thread [t] run. *)
  Variable switch : Z -> W -> W.
  Implicit Types (s : clib W) (l ts : list Z).

Class SwitchLaws := { law_switch t w : osThreadGetId (switch t w) = (Some t, switch t w) }.
Context {SL : SwitchLaws}.

(** The threads of [l] call [__user_perthread_libspace] one after the other,
    with the error callback of RTX_Config.c. *)
Fixpoint libspace_calls l s : option (list nat * clib W) :=
  match l with
  | [] => Some ([], s)
  | t :: l =>
      '(n, s) ← __user_perthread_libspace osRtxErrorNotify
        (mkClib (switch t (clib_os s)) (os_kernel_active s) (os_libspace_id s));
      '(ns, s) ← libspace_calls l s;
      Some (n :: ns, s)
  end.

(** One call while the kernel is active. *)
Lemma libspace_call t s ts n : os_kernel_active s = 1 -> NoDup ts ->
  os_libspace_id s = (Some <$> ts) ++ replicate n None ->
  let r := __user_perthread_libspace osRtxErrorNotify
    (mkClib (switch t (clib_os s)) (os_kernel_active s) (os_libspace_id s)) in
  match list_find (t =.) ts, n with
  | Some (i, _), _ => exists s', r = Some (i, s') /\ os_kernel_active s' = 1 /\ os_libspace_id s' = os_libspace_id s
  | None, O => r = None
  | None, S n => exists s', r = Some (length ts, s') /\ os_kernel_active s' = 1 /\
      os_libspace_id s' = (Some <$> (ts ++ [t])) ++ replicate n None
  end.
Proof.
  intros Ha Hnd Hids r. unfold r, __user_perthread_libspace, os_kernel_is_active. cbn [os_kernel_active os_libspace_id clib_os].
  rewrite Ha, Hids. cbn [Z.eqb negb]. cbn [os_kernel_active os_libspace_id clib_os]. rewrite law_switch, search_spec by done.
  rewrite length_app, length_fmap, length_replicate.
  destruct (list_find (t =.) ts) as [[i y]|] eqn:Hf.
  - apply list_find_Some in Hf as (Hi%lookup_lt_Some & _ & _). rewrite bool_decide_false by (cbn; lia). by eexists.
  - destruct n as [|n].
    + by rewrite bool_decide_true by (cbn; lia).
    + rewrite bool_decide_false by (cbn; lia). eexists. split; [done|]. split; [done|].
      cbn [os_libspace_id]. by rewrite fmap_app, <- app_assoc.
Qed.

(** [ts] are the threads that have a slot, in the order of their first call. *)
Lemma libspace_calls_spec l s ts num : os_kernel_active s = 1 -> NoDup ts -> (length ts <= num)%nat ->
  os_libspace_id s = (Some <$> ts) ++ replicate (num - length ts) None ->
  if decide (size (list_to_set (ts ++ l) : gset Z) <= num)%nat
  then exists ts' slots s', libspace_calls l s = Some (slots, s') /\ NoDup ts' /\ ts `prefix_of` ts' /\
         (length ts' <= num)%nat /\ os_libspace_id s' = (Some <$> ts') ++ replicate (num - length ts') None /\
         Forall2 (fun t k => ts' !! k = Some t) l slots
  else libspace_calls l s = None.
Proof.
  revert s ts. induction l as [|t l IH]; intros s ts Ha Hnd Hle Hids; cbn [libspace_calls].
  - rewrite app_nil_r, size_list_to_set, decide_True by done. exists ts, [], s. by repeat split.
  - pose proof (libspace_call t s ts _ Ha Hnd Hids) as Hcall. cbv zeta in Hcall.
    destruct (list_find (t =.) ts) as [[i y]|] eqn:Hf.
    + apply list_find_Some in Hf as (Hi & <- & _). destruct Hcall as (s' & -> & Ha' & Hids'). cbn [mbind option_bind].
      rewrite <- Hids' in Hids. specialize (IH s' ts Ha' Hnd Hle Hids).
      assert (list_to_set (ts ++ t :: l) =@{gset Z} list_to_set (ts ++ l)) as ->.
      { apply list_elem_of_lookup_2 in Hi. set_solver. }
      case_decide; [|by rewrite IH]. destruct IH as (ts' & slots & s'' & -> & Hnd' & Hp & Hl & Hids'' & Hall).
      exists ts', (i :: slots), s''. cbn [mbind option_bind]. repeat (split; [done|]). constructor; [|done].
      by apply prefix_lookup_Some with ts.
    + assert (t ∉ ts) as Hnot by (intros Hin; apply list_find_None in Hf; rewrite Forall_forall in Hf; by apply (Hf t)).
      destruct (num - length ts)%nat as [|n] eqn:Hn.
      * rewrite Hcall, decide_False; [done|].
        assert (size (list_to_set (t :: ts) : gset Z) <= size (list_to_set (ts ++ t :: l) : gset Z))%nat as Hsz
          by (apply subseteq_size; set_solver).
        rewrite size_list_to_set in Hsz by (by apply NoDup_cons). cbn [length] in Hsz. lia.
      * destruct Hcall as (s' & -> & Ha' & Hids'). cbn [mbind option_bind].
        specialize (IH s' (ts ++ [t]) Ha'). rewrite length_app in IH. cbn [length] in IH.
        replace (num - (length ts + 1))%nat with n in IH by lia.
        assert (NoDup (ts ++ [t])) as Hnd1
          by (apply NoDup_app; split_and!; [done | set_solver | apply NoDup_singleton]).
        specialize (IH Hnd1 ltac:(lia) Hids').
        rewrite <- app_assoc in IH. cbn [app] in IH. case_decide; [|by rewrite IH].
        destruct IH as (ts' & slots & s'' & -> & Hnd' & Hp & Hl & Hids'' & Hall).
        exists ts', (length ts :: slots), s''. cbn [mbind option_bind]. split; [done|]. split; [done|].
        split; [by apply prefix_app_l in Hp|]. repeat (split; [done|]). constructor; [|done].
        apply (prefix_lookup_Some (ts ++ [t])); [|done]. by apply list_lookup_middle.
Qed.

(** Each thread has its own space of the C library.  Whatever threads call, in
    whatever order, if no call is interrupted by another: as long as no more
    threads call than there are slots, every call returns, the space is one of
    the slots, and two calls get the same space exactly when they are of the
    same thread.  With more threads than slots a call does not return: the error
    callback of RTX_Config.c loops. *)
Theorem libspace_per_thread l s num :
  os_kernel_active s = 1 -> os_libspace_id s = replicate num None ->
  if decide (size (list_to_set l : gset Z) <= num)%nat
  then exists slots s', libspace_calls l s = Some (slots, s') /\ length slots = length l /\
    forall i j ti tj ki kj, l !! i = Some ti -> l !! j = Some tj -> slots !! i = Some ki -> slots !! j = Some kj ->
      (ki < num)%nat /\ (ki = kj <-> ti = tj)
  else libspace_calls l s = None.
Proof.
  intros Ha Hids. pose proof (libspace_calls_spec l s [] num Ha ltac:(constructor) ltac:(cbn; lia)) as H.
  cbn [length fmap list_fmap app] in H. rewrite Nat.sub_0_r in H. specialize (H Hids). case_decide; [|done].
  destruct H as (ts & slots & s' & Hc & Hnd & _ & Hl & _ & Hall). exists slots, s'. split; [done|].
  split; [by rewrite (Forall2_length _ _ _ Hall)|]. intros i j ti tj ki kj Hi Hj Hki Hkj.
  pose proof (Forall2_lookup_lr _ _ _ _ _ _ Hall Hi Hki) as H1. pose proof (Forall2_lookup_lr _ _ _ _ _ _ Hall Hj Hkj) as H2.
  cbn beta in H1, H2. split; [apply lookup_lt_Some in H1; lia|]. split; [intros ->; congruence|].
  intros ->. by apply (NoDup_lookup ts ki kj tj).
Qed.
End calls.

Lemma libspace_steps_done n id k ids : libspace_steps n id (Done k) ids = (Done k, ids).
Proof. by induction n. Qed.

Lemma libspace_steps_from id pre suf fuel : (3 * length suf + 1 <= fuel)%nat ->
  libspace_steps fuel id (Test (length pre)) (pre ++ suf) =
  let '(k, suf') := libspace_search id (length pre) suf in (Done k, pre ++ suf').
Proof.
  revert pre fuel. induction suf as [|x suf IH]; intros pre fuel Hf; cbn [length libspace_search] in *.
  - destruct fuel as [|fuel]; [lia|]. cbn [libspace_steps libspace_step].
    by rewrite app_nil_r, (lookup_ge_None_2 pre), libspace_steps_done by lia.
  - assert (forall y : handle, (pre ++ y :: suf) !! length pre = Some y) as Hmid by (intros; by apply list_lookup_middle).
    destruct fuel as [|fuel]; [lia|]. cbn [libspace_steps libspace_step]. rewrite Hmid.
    destruct (decide (x = None)) as [->|Hx].
    + do 2 (destruct fuel as [|fuel]; [lia|]). rewrite !(bool_decide_true (None = None)) by done.
      cbn [libspace_steps libspace_step]. rewrite insert_app_r_alt, Nat.sub_diag by lia. cbn [insert list_insert].
      by rewrite Hmid, !bool_decide_true, libspace_steps_done by done.
    + destruct fuel as [|fuel]; [lia|]. rewrite !(bool_decide_false (x = None)) by done.
      cbn [libspace_steps libspace_step]. rewrite Hmid. destruct (decide (x = id)) as [->|Hne].
      * by rewrite !bool_decide_true, libspace_steps_done by done.
      * rewrite !bool_decide_false by congruence. specialize (IH (pre ++ [x]) fuel ltac:(lia)).
        rewrite length_app, <- app_assoc, Nat.add_1_r in IH. cbn [app] in IH. rewrite IH.
        destruct (libspace_search id (S (length pre)) suf) as [k suf']. by rewrite <- app_assoc.
Qed.

(** When nothing interrupts it, the loop of [__user_perthread_libspace] ends
    within three steps for each slot and one more, with the result of the search:
    the slot and the table. *)
Theorem libspace_steps_search id ids fuel : (3 * length ids + 1 <= fuel)%nat ->
  libspace_steps fuel id (Test 0) ids = let '(k, ids') := libspace_search id 0 ids in (Done k, ids').
Proof. apply (libspace_steps_from id []). Qed.

(** A thread without a slot goes past the slots of others. *)
Lemma libspace_skip t pre taken rest : t ∉ taken ->
  libspace_steps (2 * length taken) (Some t) (Test (length pre)) (pre ++ (Some <$> taken) ++ rest) =
  (Test (length pre + length taken), pre ++ (Some <$> taken) ++ rest).
Proof.
  revert pre. induction taken as [|x taken IH]; intros pre Hnot; cbn [length fmap list_fmap app].
  - by rewrite Nat.add_0_r.
  - apply not_elem_of_cons in Hnot as [Hne Hnot]. replace (2 * S (length taken))%nat with (S (S (2 * length taken))) by lia.
    cbn [libspace_steps libspace_step]. rewrite !list_lookup_middle by done.
    rewrite !(bool_decide_false (Some x = None)) by done. cbn [libspace_steps libspace_step].
    rewrite list_lookup_middle, bool_decide_false by congruence.
    specialize (IH (pre ++ [Some x]) Hnot). rewrite length_app, <- app_assoc, Nat.add_1_r in IH. cbn [app] in IH.
    change (list_fmap _ _ Some taken) with (Some <$> taken). rewrite IH. f_equal. f_equal. lia.
Qed.

Lemma run_two_app l1 l2 id1 id2 t :
  run_two id1 id2 (l1 ++ l2) t = run_two id1 id2 l2 (run_two id1 id2 l1 t).
Proof. apply foldl_app. Qed.

Lemma run_two_first n id1 id2 p1 p2 ids :
  run_two id1 id2 (replicate n true) (mkTwo p1 p2 ids) =
  let '(p, ids) := libspace_steps n id1 p1 ids in mkTwo p p2 ids.
Proof.
  revert p1 ids. induction n as [|n IH]; intros p1 ids; [done|]. cbn [libspace_steps].
  change (run_two id1 id2 (replicate (S n) true) ?t) with (run_two id1 id2 (replicate n true) (step_two id1 id2 true t)).
  unfold step_two. cbn [pc1 pc2 shared_ids]. destruct (libspace_step id1 p1 ids). apply IH.
Qed.

Lemma run_two_second n id1 id2 p1 p2 ids :
  run_two id1 id2 (replicate n false) (mkTwo p1 p2 ids) =
  let '(p, ids) := libspace_steps n id2 p2 ids in mkTwo p1 p ids.
Proof.
  revert p2 ids. induction n as [|n IH]; intros p2 ids; [done|]. cbn [libspace_steps].
  change (run_two id1 id2 (replicate (S n) false) ?t) with (run_two id1 id2 (replicate n false) (step_two id1 id2 false t)).
  unfold step_two. cbn [pc1 pc2 shared_ids]. destruct (libspace_step id2 p2 ids). apply IH.
Qed.

(** Both are at the first free slot. *)
Lemma race_at_slot taken rest t1 t2 :
  run_two (Some t1) (Some t2) [true; false; true; true; false; false]
    (mkTwo (Test (length taken)) (Test (length taken)) ((Some <$> taken) ++ None :: rest)) =
  mkTwo (Done (length taken)) (Done (length taken)) ((Some <$> taken) ++ Some t2 :: rest).
Proof.
  assert (forall y : handle, ((Some <$> taken) ++ y :: rest) !! length taken = Some y) as Hmid
    by (intros; apply list_lookup_middle; by rewrite length_fmap).
  assert (forall x y : handle, <[length taken := x]> ((Some <$> taken) ++ y :: rest) = (Some <$> taken) ++ x :: rest) as Hins.
  { intros x y. rewrite insert_app_r_alt, length_fmap, Nat.sub_diag by (by rewrite length_fmap). done. }
  unfold run_two. cbn [foldl]. unfold step_two.
  do 6 (cbn [pc1 pc2 shared_ids libspace_step]; rewrite ?Hmid, ?Hins; try rewrite !bool_decide_true by done).
  done.
Qed.

(** The loop is not safe against interruption: the test of a slot and the store
    into it are separate.  For any two threads that have no slot yet, whatever
    slots are taken, there is a schedule of the two calls in which both end with
    the same slot, the first free one, which the table then gives to the thread
    that stored last: the two threads share the space of the C library. *)
Theorem libspace_race taken rest t1 t2 :
  t1 <> t2 -> t1 ∉ taken -> t2 ∉ taken ->
  exists schedule, run_two (Some t1) (Some t2) schedule (mkTwo (Test 0) (Test 0) ((Some <$> taken) ++ None :: rest)) =
    mkTwo (Done (length taken)) (Done (length taken)) ((Some <$> taken) ++ Some t2 :: rest).
Proof.
  intros Hne H1 H2.
  exists (replicate (2 * length taken) true ++ replicate (2 * length taken) false ++ [true; false; true; true; false; false]).
  rewrite !run_two_app, run_two_first.
  pose proof (libspace_skip t1 [] taken (None :: rest) H1) as Hs1. pose proof (libspace_skip t2 [] taken (None :: rest) H2) as Hs2.
  cbn [length app Nat.add] in Hs1, Hs2. unfold handle in *. by rewrite Hs1, run_two_second, Hs2, race_at_slot.
Qed.

(** *** The mutexes of the C library *)

(** Initialising a mutex returns 1 with the mutex, or does not return at all
    (the error callback); before the kernel runs, acquiring and releasing do
    nothing; the kernel, once seen active, is never asked again. *)
Lemma clib_mutexes {W} {OS : CmsisRtos W} object m (s : clib W) :
  (forall r m' s', _mutex_initialize osRtxErrorNotify object s = Some (r, m', s') -> r = 1 /\ m' <> None) /\
  ((osKernelGetState (clib_os s)).1 = osKernelInactive \/ (osKernelGetState (clib_os s)).1 = osKernelReady ->
   os_kernel_active s = 0 ->
   let s' := mkClib (osKernelGetState (clib_os s)).2 0 (os_libspace_id s) in
   _mutex_acquire m s = Some s' /\ _mutex_release m s = s') /\
  (os_kernel_active s = 1 -> os_kernel_is_active s = (1, s)).
Proof.
  split_and!.
  - intros r m' s'. unfold _mutex_initialize. destruct (osMutexNew None (clib_os s)) as [[x|] w]; [|done].
    by intros [= <- <- <-].
  - intros Hst Ha s'. subst s'. unfold _mutex_acquire, _mutex_release, os_kernel_is_active. rewrite Ha. cbn [Z.eqb].
    destruct (osKernelGetState (clib_os s)) as [st w]. cbn [fst snd] in *. by destruct Hst as [-> | ->].
  - intros Ha. unfold os_kernel_is_active. by rewrite Ha.
Qed.

(** ** On the reference kernel *)

Section examples.
Definition run_thread (t : Z) (w : kernel) : kernel :=
  mkKernel t (k_flags w) (k_semaphores w) (k_queues w) (k_next w) (k_threads w).

#[local] Instance example_switch : SwitchLaws run_thread.
Proof. by split. Qed.

Definition idle : kernel := mkKernel 0 ∅ ∅ ∅ 1 [].

Lemma libspace_per_thread_witness :
  exists s', libspace_calls run_thread [7; 8; 7] (mkClib idle 1 (replicate 4 None)) = Some ([0; 1; 0]%nat, s').
Proof.
  pose proof (libspace_per_thread run_thread [7; 8; 7] (mkClib idle 1 (replicate 4 None)) 4 eq_refl eq_refl) as H.
  rewrite decide_True in H by (apply (bool_decide_unpack _); by vm_compute).
  destruct H as (slots & s' & Hc & _). exists s'. rewrite Hc. vm_compute in Hc. by injection Hc as <- _.
Defined.

Lemma libspace_steps_search_witness :
  libspace_steps 4 (Some 7) (Test 0) [None] = (Done 0, [Some 7]).
Proof. apply (libspace_steps_search (Some 7) [None] 4). cbn. lia. Defined.

Lemma libspace_race_witness :
  exists schedule, run_two (Some 8) (Some 9) schedule (mkTwo (Test 0) (Test 0) [Some 7; None; None; None]) =
    mkTwo (Done 1) (Done 1) [Some 7; Some 9; None; None].
Proof.
  apply (libspace_race [7] [None; None] 8 9); [done | set_solver | set_solver].
Defined.
End examples.
