(* ===== verification/RtxEvr.v ===== *)
(** * RTX: lib/ext/CMSIS/RTOS2/RTX/Include/rtx_evr.h

    The events of the Event Recorder, each with its guard and its two forms: a
    function where the guard holds, a macro that leaves nothing where it does
    not.  A build fixes the macros that the guards read; [generated] decides the
    guard, [use] is what a use in the source of the kernel becomes.  The
    functions themselves are in rtx_evr.c, which is not in the repository. *)

From S2P Require Import Prelude Cmsis RtxOs RtxConfig RtxLib.
From Stdlib Require Import Ascii.
Local Open Scope string_scope.

(** ** The header as data *)

#[global] Instance evr_component_eq_dec : EqDecision evr_component.
Proof. solve_decision. Defined.

Inductive param_type :=
  | Named (type : string)
  | Ptr (pointee : string)
  | ConstPtr (pointee : string).

(** The word in brackets at the end of the brief description. *)
Inductive event_kind := EvError | EvAPI | EvOp | EvDetail.

#[global] Instance event_kind_eq_dec : EqDecision event_kind.
Proof. solve_decision. Defined.

(** [#define name(params) tokens] *)
Record macro := mkMacro {
  m_name : string;
  m_params : list string;
  m_tokens : list string;
}.

(** [#if (!defined(EVR_RTX_DISABLE) && (OS_EVR_<component> != 0) && !defined(<ev_disable>))
    extern void <ev_name> (<ev_params>); #else <ev_macro> #endif] *)
Record event := mkEvent {
  ev_component : evr_component;
  ev_kind : event_kind;
  ev_disable : string;
  ev_name : string;
  ev_params : list (param_type * string);
  ev_macro : macro;
}.

Definition memory_events : list event := [
  mkEvent EvtRtxMemory EvOp "EVR_RTX_MEMORY_INIT_DISABLE" "EvrRtxMemoryInit"
    [(Ptr "void", "mem"); (Named "uint32_t", "size"); (Named "uint32_t", "result")]
    (mkMacro "EvrRtxMemoryInit" ["mem"; "size"; "result"] []);
  mkEvent EvtRtxMemory EvOp "EVR_RTX_MEMORY_ALLOC_DISABLE" "EvrRtxMemoryAlloc"
    [(Ptr "void", "mem"); (Named "uint32_t", "size"); (Named "uint32_t", "type"); (Ptr "void", "block")]
    (mkMacro "EvrRtxMemoryAlloc" ["mem"; "size"; "type"; "block"] []);
  mkEvent EvtRtxMemory EvOp "EVR_RTX_MEMORY_FREE_DISABLE" "EvrRtxMemoryFree"
    [(Ptr "void", "mem"); (Ptr "void", "block"); (Named "uint32_t", "result")]
    (mkMacro "EvrRtxMemoryFree" ["mem"; "block"; "result"] []);
  mkEvent EvtRtxMemory EvOp "EVR_RTX_MEMORY_BLOCK_INIT_DISABLE" "EvrRtxMemoryBlockInit"
    [(Ptr "osRtxMpInfo_t", "mp_info"); (Named "uint32_t", "block_count"); (Named "uint32_t", "block_size"); (Ptr "void", "block_mem")]
    (mkMacro "EvrRtxMemoryBlockInit" ["mp_info"; "block_count"; "block_size"; "block_mem"] []);
  mkEvent EvtRtxMemory EvOp "EVR_RTX_MEMORY_BLOCK_ALLOC_DISABLE" "EvrRtxMemoryBlockAlloc"
    [(Ptr "osRtxMpInfo_t", "mp_info"); (Ptr "void", "block")]
    (mkMacro "EvrRtxMemoryBlockAlloc" ["mp_info"; "block"] []);
  mkEvent EvtRtxMemory EvOp "EVR_RTX_MEMORY_BLOCK_FREE_DISABLE" "EvrRtxMemoryBlockFree"
    [(Ptr "osRtxMpInfo_t", "mp_info"); (Ptr "void", "block"); (Named "int32_t", "status")]
    (mkMacro "EvrRtxMemoryBlockFree" ["mp_info"; "block"; "status"] [])].

Definition kernel_events_1 : list event := [
  mkEvent EvtRtxKernel EvError "EVR_RTX_KERNEL_ERROR_DISABLE" "EvrRtxKernelError"
    [(Named "int32_t", "status")]
    (mkMacro "EvrRtxKernelError" ["status"] []);
  mkEvent EvtRtxKernel EvAPI "EVR_RTX_KERNEL_INITIALIZE_DISABLE" "EvrRtxKernelInitialize"
    []
    (mkMacro "EvrRtxKernelInitialize" [] []);
  mkEvent EvtRtxKernel EvOp "EVR_RTX_KERNEL_INITIALIZED_DISABLE" "EvrRtxKernelInitialized"
    []
    (mkMacro "EvrRtxKernelInitialized" [] []);
  mkEvent EvtRtxKernel EvAPI "EVR_RTX_KERNEL_GET_INFO_DISABLE" "EvrRtxKernelGetInfo"
    [(Ptr "osVersion_t", "version"); (Ptr "char", "id_buf"); (Named "uint32_t", "id_size")]
    (mkMacro "EvrRtxKernelGetInfo" ["version"; "id_buf"; "id_size"] []);
  mkEvent EvtRtxKernel EvOp "EVR_RTX_KERNEL_INFO_RETRIEVED_DISABLE" "EvrRtxKernelInfoRetrieved"
    [(ConstPtr "osVersion_t", "version"); (ConstPtr "char", "id_buf"); (Named "uint32_t", "id_size")]
    (mkMacro "EvrRtxKernelInfoRetrieved" ["version"; "id_buf"; "id_size"] []);
  mkEvent EvtRtxKernel EvAPI "EVR_RTX_KERNEL_GET_STATE_DISABLE" "EvrRtxKernelGetState"
    [(Named "osKernelState_t", "state")]
    (mkMacro "EvrRtxKernelGetState" ["state"] []);
  mkEvent EvtRtxKernel EvAPI "EVR_RTX_KERNEL_START_DISABLE" "EvrRtxKernelStart"
    []
    (mkMacro "EvrRtxKernelStart" [] []);
  mkEvent EvtRtxKernel EvOp "EVR_RTX_KERNEL_STARTED_DISABLE" "EvrRtxKernelStarted"
    []
    (mkMacro "EvrRtxKernelStarted" [] []);
  mkEvent EvtRtxKernel EvAPI "EVR_RTX_KERNEL_LOCK_DISABLE" "EvrRtxKernelLock"
    []
    (mkMacro "EvrRtxKernelLock" [] []);
  mkEvent EvtRtxKernel EvOp "EVR_RTX_KERNEL_LOCKED_DISABLE" "EvrRtxKernelLocked"
    [(Named "int32_t", "lock")]
    (mkMacro "EvrRtxKernelLocked" ["lock"] []);
  mkEvent EvtRtxKernel EvAPI "EVR_RTX_KERNEL_UNLOCK_DISABLE" "EvrRtxKernelUnlock"
    []
    (mkMacro "EvrRtxKernelUnlock" [] []);
  mkEvent EvtRtxKernel EvOp "EVR_RTX_KERNEL_UNLOCKED_DISABLE" "EvrRtxKernelUnlocked"
    [(Named "int32_t", "lock")]
    (mkMacro "EvrRtxKernelUnlocked" ["lock"] []);
  mkEvent EvtRtxKernel EvAPI "EVR_RTX_KERNEL_RESTORE_LOCK_DISABLE" "EvrRtxKernelRestoreLock"
    [(Named "int32_t", "lock")]
    (mkMacro "EvrRtxKernelRestoreLock" ["lock"] []);
  mkEvent EvtRtxKernel EvOp "EVR_RTX_KERNEL_LOCK_RESTORED_DISABLE" "EvrRtxKernelLockRestored"
    [(Named "int32_t", "lock")]
    (mkMacro "EvrRtxKernelLockRestored" ["lock"] []);
  mkEvent EvtRtxKernel EvAPI "EVR_RTX_KERNEL_SUSPEND_DISABLE" "EvrRtxKernelSuspend"
    []
    (mkMacro "EvrRtxKernelSuspend" [] [])].

Definition kernel_events_2 : list event := [
  mkEvent EvtRtxKernel EvOp "EVR_RTX_KERNEL_SUSPENDED_DISABLE" "EvrRtxKernelSuspended"
    [(Named "uint32_t", "sleep_ticks")]
    (mkMacro "EvrRtxKernelSuspended" ["sleep_ticks"] []);
  mkEvent EvtRtxKernel EvAPI "EVR_RTX_KERNEL_RESUME_DISABLE" "EvrRtxKernelResume"
    [(Named "uint32_t", "sleep_ticks")]
    (mkMacro "EvrRtxKernelResume" ["sleep_ticks"] []);
  mkEvent EvtRtxKernel EvOp "EVR_RTX_KERNEL_RESUMED_DISABLE" "EvrRtxKernelResumed"
    []
    (mkMacro "EvrRtxKernelResumed" [] []);
  mkEvent EvtRtxKernel EvAPI "EVR_RTX_KERNEL_GET_TICK_COUNT_DISABLE" "EvrRtxKernelGetTickCount"
    [(Named "uint32_t", "count")]
    (mkMacro "EvrRtxKernelGetTickCount" ["count"] []);
  mkEvent EvtRtxKernel EvAPI "EVR_RTX_KERNEL_GET_TICK_FREQ_DISABLE" "EvrRtxKernelGetTickFreq"
    [(Named "uint32_t", "freq")]
    (mkMacro "EvrRtxKernelGetTickFreq" ["freq"] []);
  mkEvent EvtRtxKernel EvAPI "EVR_RTX_KERNEL_GET_SYS_TIMER_COUNT_DISABLE" "EvrRtxKernelGetSysTimerCount"
    [(Named "uint32_t", "count")]
    (mkMacro "EvrRtxKernelGetSysTimerCount" ["count"] []);
  mkEvent EvtRtxKernel EvAPI "EVR_RTX_KERNEL_GET_SYS_TIMER_FREQ_DISABLE" "EvrRtxKernelGetSysTimerFreq"
    [(Named "uint32_t", "freq")]
    (mkMacro "EvrRtxKernelGetSysTimerFreq" ["freq"] [])].

Definition thread_events_1 : list event := [
  mkEvent EvtRtxThread EvError "EVR_RTX_THREAD_ERROR_DISABLE" "EvrRtxThreadError"
    [(Named "osThreadId_t", "thread_id"); (Named "int32_t", "status")]
    (mkMacro "EvrRtxThreadError" ["thread_id"; "status"] []);
  mkEvent EvtRtxThread EvAPI "EVR_RTX_THREAD_NEW_DISABLE" "EvrRtxThreadNew"
    [(Named "osThreadFunc_t", "func"); (Ptr "void", "argument"); (ConstPtr "osThreadAttr_t", "attr")]
    (mkMacro "EvrRtxThreadNew" ["func"; "argument"; "attr"] []);
  mkEvent EvtRtxThread EvOp "EVR_RTX_THREAD_CREATED_DISABLE" "EvrRtxThreadCreated"
    [(Named "osThreadId_t", "thread_id"); (Named "uint32_t", "thread_addr"); (ConstPtr "char", "name")]
    (mkMacro "EvrRtxThreadCreated" ["thread_id"; "thread_addr"; "name"] []);
  mkEvent EvtRtxThread EvAPI "EVR_RTX_THREAD_GET_NAME_DISABLE" "EvrRtxThreadGetName"
    [(Named "osThreadId_t", "thread_id"); (ConstPtr "char", "name")]
    (mkMacro "EvrRtxThreadGetName" ["thread_id"; "name"] []);
  mkEvent EvtRtxThread EvAPI "EVR_RTX_THREAD_GET_ID_DISABLE" "EvrRtxThreadGetId"
    [(Named "osThreadId_t", "thread_id")]
    (mkMacro "EvrRtxThreadGetId" ["thread_id"] []);
  mkEvent EvtRtxThread EvAPI "EVR_RTX_THREAD_GET_STATE_DISABLE" "EvrRtxThreadGetState"
    [(Named "osThreadId_t", "thread_id"); (Named "osThreadState_t", "state")]
    (mkMacro "EvrRtxThreadGetState" ["thread_id"; "state"] []);
  mkEvent EvtRtxThread EvAPI "EVR_RTX_THREAD_GET_STACK_SIZE_DISABLE" "EvrRtxThreadGetStackSize"
    [(Named "osThreadId_t", "thread_id"); (Named "uint32_t", "stack_size")]
    (mkMacro "EvrRtxThreadGetStackSize" ["thread_id"; "stack_size"] []);
  mkEvent EvtRtxThread EvAPI "EVR_RTX_THREAD_GET_STACK_SPACE_DISABLE" "EvrRtxThreadGetStackSpace"
    [(Named "osThreadId_t", "thread_id"); (Named "uint32_t", "stack_space")]
    (mkMacro "EvrRtxThreadGetStackSpace" ["thread_id"; "stack_space"] []);
  mkEvent EvtRtxThread EvAPI "EVR_RTX_THREAD_SET_PRIORITY_DISABLE" "EvrRtxThreadSetPriority"
    [(Named "osThreadId_t", "thread_id"); (Named "osPriority_t", "priority")]
    (mkMacro "EvrRtxThreadSetPriority" ["thread_id"; "priority"] []);
  mkEvent EvtRtxThread EvOp "EVR_RTX_THREAD_PRIORITY_UPDATED_DISABLE" "EvrRtxThreadPriorityUpdated"
    [(Named "osThreadId_t", "thread_id"); (Named "osPriority_t", "priority")]
    (mkMacro "EvrRtxThreadPriorityUpdated" ["thread_id"; "priority"] []);
  mkEvent EvtRtxThread EvAPI "EVR_RTX_THREAD_GET_PRIORITY_DISABLE" "EvrRtxThreadGetPriority"
    [(Named "osThreadId_t", "thread_id"); (Named "osPriority_t", "priority")]
    (mkMacro "EvrRtxThreadGetPriority" ["thread_id"; "priority"] []);
  mkEvent EvtRtxThread EvAPI "EVR_RTX_THREAD_YIELD_DISABLE" "EvrRtxThreadYield"
    []
    (mkMacro "EvrRtxThreadYield" [] []);
  mkEvent EvtRtxThread EvAPI "EVR_RTX_THREAD_SUSPEND_DISABLE" "EvrRtxThreadSuspend"
    [(Named "osThreadId_t", "thread_id")]
    (mkMacro "EvrRtxThreadSuspend" ["thread_id"] []);
  mkEvent EvtRtxThread EvOp "EVR_RTX_THREAD_SUSPENDED_DISABLE" "EvrRtxThreadSuspended"
    [(Named "osThreadId_t", "thread_id")]
    (mkMacro "EvrRtxThreadSuspended" ["thread_id"] [])].

Definition thread_events_2 : list event := [
  mkEvent EvtRtxThread EvAPI "EVR_RTX_THREAD_RESUME_DISABLE" "EvrRtxThreadResume"
    [(Named "osThreadId_t", "thread_id")]
    (mkMacro "EvrRtxThreadResume" ["thread_id"] []);
  mkEvent EvtRtxThread EvOp "EVR_RTX_THREAD_RESUMED_DISABLE" "EvrRtxThreadResumed"
    [(Named "osThreadId_t", "thread_id")]
    (mkMacro "EvrRtxThreadResumed" ["thread_id"] []);
  mkEvent EvtRtxThread EvAPI "EVR_RTX_THREAD_DETACH_DISABLE" "EvrRtxThreadDetach"
    [(Named "osThreadId_t", "thread_id")]
    (mkMacro "EvrRtxThreadDetach" ["thread_id"] []);
  mkEvent EvtRtxThread EvOp "EVR_RTX_THREAD_DETACHED_DISABLE" "EvrRtxThreadDetached"
    [(Named "osThreadId_t", "thread_id")]
    (mkMacro "EvrRtxThreadDetached" ["thread_id"] []);
  mkEvent EvtRtxThread EvAPI "EVR_RTX_THREAD_JOIN_DISABLE" "EvrRtxThreadJoin"
    [(Named "osThreadId_t", "thread_id")]
    (mkMacro "EvrRtxThreadJoin" ["thread_id"] []);
  mkEvent EvtRtxThread EvOp "EVR_RTX_THREAD_JOIN_PENDING_DISABLE" "EvrRtxThreadJoinPending"
    [(Named "osThreadId_t", "thread_id")]
    (mkMacro "EvrRtxThreadJoinPending" ["thread_id"] []);
  mkEvent EvtRtxThread EvOp "EVR_RTX_THREAD_JOINED_DISABLE" "EvrRtxThreadJoined"
    [(Named "osThreadId_t", "thread_id")]
    (mkMacro "EvrRtxThreadJoined" ["thread_id"] []);
  mkEvent EvtRtxThread EvDetail "EVR_RTX_THREAD_BLOCKED_DISABLE" "EvrRtxThreadBlocked"
    [(Named "osThreadId_t", "thread_id"); (Named "uint32_t", "timeout")]
    (mkMacro "EvrRtxThreadBlocked" ["thread_id"; "timeout"] []);
  mkEvent EvtRtxThread EvDetail "EVR_RTX_THREAD_UNBLOCKED_DISABLE" "EvrRtxThreadUnblocked"
    [(Named "osThreadId_t", "thread_id"); (Named "uint32_t", "ret_val")]
    (mkMacro "EvrRtxThreadUnblocked" ["thread_id"; "ret_val"] []);
  mkEvent EvtRtxThread EvDetail "EVR_RTX_THREAD_PREEMPTED_DISABLE" "EvrRtxThreadPreempted"
    [(Named "osThreadId_t", "thread_id")]
    (mkMacro "EvrRtxThreadPreempted" ["thread_id"] []);
  mkEvent EvtRtxThread EvOp "EVR_RTX_THREAD_SWITCHED_DISABLE" "EvrRtxThreadSwitched"
    [(Named "osThreadId_t", "thread_id")]
    (mkMacro "EvrRtxThreadSwitched" ["thread_id"] []);
  mkEvent EvtRtxThread EvAPI "EVR_RTX_THREAD_EXIT_DISABLE" "EvrRtxThreadExit"
    []
    (mkMacro "EvrRtxThreadExit" [] []);
  mkEvent EvtRtxThread EvAPI "EVR_RTX_THREAD_TERMINATE_DISABLE" "EvrRtxThreadTerminate"
    [(Named "osThreadId_t", "thread_id")]
    (mkMacro "EvrRtxThreadTerminate" ["thread_id"] []);
  mkEvent EvtRtxThread EvOp "EVR_RTX_THREAD_DESTROYED_DISABLE" "EvrRtxThreadDestroyed"
    [(Named "osThreadId_t", "thread_id")]
    (mkMacro "EvrRtxThreadDestroyed" ["thread_id"] []);
  mkEvent EvtRtxThread EvAPI "EVR_RTX_THREAD_GET_COUNT_DISABLE" "EvrRtxThreadGetCount"
    [(Named "uint32_t", "count")]
    (mkMacro "EvrRtxThreadGetCount" ["count"] [])].

Definition thread_events_3 : list event := [
  mkEvent EvtRtxThread EvAPI "EVR_RTX_THREAD_ENUMERATE_DISABLE" "EvrRtxThreadEnumerate"
    [(Ptr "osThreadId_t", "thread_array"); (Named "uint32_t", "array_items"); (Named "uint32_t", "count")]
    (mkMacro "EvrRtxThreadEnumerate" ["thread_array"; "array_items"; "count"] [])].

Definition thread_flags_events : list event := [
  mkEvent EvtRtxThreadFlags EvError "EVR_RTX_THREAD_FLAGS_ERROR_DISABLE" "EvrRtxThreadFlagsError"
    [(Named "osThreadId_t", "thread_id"); (Named "int32_t", "status")]
    (mkMacro "EvrRtxThreadFlagsError" ["thread_id"; "status"] []);
  mkEvent EvtRtxThreadFlags EvAPI "EVR_RTX_THREAD_FLAGS_SET_DISABLE" "EvrRtxThreadFlagsSet"
    [(Named "osThreadId_t", "thread_id"); (Named "uint32_t", "flags")]
    (mkMacro "EvrRtxThreadFlagsSet" ["thread_id"; "flags"] []);
  mkEvent EvtRtxThreadFlags EvOp "EVR_RTX_THREAD_FLAGS_SET_DONE_DISABLE" "EvrRtxThreadFlagsSetDone"
    [(Named "osThreadId_t", "thread_id"); (Named "uint32_t", "thread_flags")]
    (mkMacro "EvrRtxThreadFlagsSetDone" ["thread_id"; "thread_flags"] []);
  mkEvent EvtRtxThreadFlags EvAPI "EVR_RTX_THREAD_FLAGS_CLEAR_DISABLE" "EvrRtxThreadFlagsClear"
    [(Named "uint32_t", "flags")]
    (mkMacro "EvrRtxThreadFlagsClear" ["flags"] []);
  mkEvent EvtRtxThreadFlags EvOp "EVR_RTX_THREAD_FLAGS_CLEAR_DONE_DISABLE" "EvrRtxThreadFlagsClearDone"
    [(Named "uint32_t", "thread_flags")]
    (mkMacro "EvrRtxThreadFlagsClearDone" ["thread_flags"] []);
  mkEvent EvtRtxThreadFlags EvAPI "EVR_RTX_THREAD_FLAGS_GET_DISABLE" "EvrRtxThreadFlagsGet"
    [(Named "uint32_t", "thread_flags")]
    (mkMacro "EvrRtxThreadFlagsGet" ["thread_flags"] []);
  mkEvent EvtRtxThreadFlags EvAPI "EVR_RTX_THREAD_FLAGS_WAIT_DISABLE" "EvrRtxThreadFlagsWait"
    [(Named "uint32_t", "flags"); (Named "uint32_t", "options"); (Named "uint32_t", "timeout")]
    (mkMacro "EvrRtxThreadFlagsWait" ["flags"; "options"; "timeout"] []);
  mkEvent EvtRtxThreadFlags EvOp "EVR_RTX_THREAD_FLAGS_WAIT_PENDING_DISABLE" "EvrRtxThreadFlagsWaitPending"
    [(Named "uint32_t", "flags"); (Named "uint32_t", "options"); (Named "uint32_t", "timeout")]
    (mkMacro "EvrRtxThreadFlagsWaitPending" ["flags"; "options"; "timeout"] []);
  mkEvent EvtRtxThreadFlags EvOp "EVR_RTX_THREAD_FLAGS_WAIT_TIMEOUT_DISABLE" "EvrRtxThreadFlagsWaitTimeout"
    [(Named "osThreadId_t", "thread_id")]
    (mkMacro "EvrRtxThreadFlagsWaitTimeout" ["thread_id"] []);
  mkEvent EvtRtxThreadFlags EvOp "EVR_RTX_THREAD_FLAGS_WAIT_COMPLETED_DISABLE" "EvrRtxThreadFlagsWaitCompleted"
    [(Named "uint32_t", "flags"); (Named "uint32_t", "options"); (Named "uint32_t", "thread_flags"); (Named "osThreadId_t", "thread_id")]
    (mkMacro "EvrRtxThreadFlagsWaitCompleted" ["flags"; "options"; "thread_flags"; "thread_id"] []);
  mkEvent EvtRtxThreadFlags EvOp "EVR_RTX_THREAD_FLAGS_WAIT_NOT_COMPLETED_DISABLE" "EvrRtxThreadFlagsWaitNotCompleted"
    [(Named "uint32_t", "flags"); (Named "uint32_t", "options")]
    (mkMacro "EvrRtxThreadFlagsWaitNotCompleted" ["flags"; "options"] [])].

Definition wait_events : list event := [
  mkEvent EvtRtxWait EvError "EVR_RTX_DELAY_ERROR_DISABLE" "EvrRtxDelayError"
    [(Named "int32_t", "status")]
    (mkMacro "EvrRtxDelayError" ["status"] []);
  mkEvent EvtRtxWait EvAPI "EVR_RTX_DELAY_DISABLE" "EvrRtxDelay"
    [(Named "uint32_t", "ticks")]
    (mkMacro "EvrRtxDelay" ["ticks"] []);
  mkEvent EvtRtxWait EvAPI "EVR_RTX_DELAY_UNTIL_DISABLE" "EvrRtxDelayUntil"
    [(Named "uint32_t", "ticks")]
    (mkMacro "EvrRtxDelayUntil" ["ticks"] []);
  mkEvent EvtRtxWait EvOp "EVR_RTX_DELAY_STARTED_DISABLE" "EvrRtxDelayStarted"
    [(Named "uint32_t", "ticks")]
    (mkMacro "EvrRtxDelayStarted" ["ticks"] []);
  mkEvent EvtRtxWait EvOp "EVR_RTX_DELAY_UNTIL_STARTED_DISABLE" "EvrRtxDelayUntilStarted"
    [(Named "uint32_t", "ticks")]
    (mkMacro "EvrRtxDelayUntilStarted" ["ticks"] []);
  mkEvent EvtRtxWait EvOp "EVR_RTX_DELAY_COMPLETED_DISABLE" "EvrRtxDelayCompleted"
    [(Named "osThreadId_t", "thread_id")]
    (mkMacro "EvrRtxDelayCompleted" ["thread_id"] [])].

Definition timer_events : list event := [
  mkEvent EvtRtxTimer EvError "EVR_RTX_TIMER_ERROR_DISABLE" "EvrRtxTimerError"
    [(Named "osTimerId_t", "timer_id"); (Named "int32_t", "status")]
    (mkMacro "EvrRtxTimerError" ["timer_id"; "status"] []);
  mkEvent EvtRtxTimer EvOp "EVR_RTX_TIMER_CALLBACK_DISABLE" "EvrRtxTimerCallback"
    [(Named "osTimerFunc_t", "func"); (Ptr "void", "argument")]
    (mkMacro "EvrRtxTimerCallback" ["func"; "argument"] []);
  mkEvent EvtRtxTimer EvAPI "EVR_RTX_TIMER_NEW_DISABLE" "EvrRtxTimerNew"
    [(Named "osTimerFunc_t", "func"); (Named "osTimerType_t", "type"); (Ptr "void", "argument"); (ConstPtr "osTimerAttr_t", "attr")]
    (mkMacro "EvrRtxTimerNew" ["func"; "type"; "argument"; "attr"] []);
  mkEvent EvtRtxTimer EvOp "EVR_RTX_TIMER_CREATED_DISABLE" "EvrRtxTimerCreated"
    [(Named "osTimerId_t", "timer_id"); (ConstPtr "char", "name")]
    (mkMacro "EvrRtxTimerCreated" ["timer_id"; "name"] []);
  mkEvent EvtRtxTimer EvAPI "EVR_RTX_TIMER_GET_NAME_DISABLE" "EvrRtxTimerGetName"
    [(Named "osTimerId_t", "timer_id"); (ConstPtr "char", "name")]
    (mkMacro "EvrRtxTimerGetName" ["timer_id"; "name"] []);
  mkEvent EvtRtxTimer EvAPI "EVR_RTX_TIMER_START_DISABLE" "EvrRtxTimerStart"
    [(Named "osTimerId_t", "timer_id"); (Named "uint32_t", "ticks")]
    (mkMacro "EvrRtxTimerStart" ["timer_id"; "ticks"] []);
  mkEvent EvtRtxTimer EvOp "EVR_RTX_TIMER_STARTED_DISABLE" "EvrRtxTimerStarted"
    [(Named "osTimerId_t", "timer_id")]
    (mkMacro "EvrRtxTimerStarted" ["timer_id"] []);
  mkEvent EvtRtxTimer EvAPI "EVR_RTX_TIMER_STOP_DISABLE" "EvrRtxTimerStop"
    [(Named "osTimerId_t", "timer_id")]
    (mkMacro "EvrRtxTimerStop" ["timer_id"] []);
  mkEvent EvtRtxTimer EvOp "EVR_RTX_TIMER_STOPPED_DISABLE" "EvrRtxTimerStopped"
    [(Named "osTimerId_t", "timer_id")]
    (mkMacro "EvrRtxTimerStopped" ["timer_id"] []);
  mkEvent EvtRtxTimer EvAPI "EVR_RTX_TIMER_IS_RUNNING_DISABLE" "EvrRtxTimerIsRunning"
    [(Named "osTimerId_t", "timer_id"); (Named "uint32_t", "running")]
    (mkMacro "EvrRtxTimerIsRunning" ["timer_id"; "running"] []);
  mkEvent EvtRtxTimer EvAPI "EVR_RTX_TIMER_DELETE_DISABLE" "EvrRtxTimerDelete"
    [(Named "osTimerId_t", "timer_id")]
    (mkMacro "EvrRtxTimerDelete" ["timer_id"] []);
  mkEvent EvtRtxTimer EvOp "EVR_RTX_TIMER_DESTROYED_DISABLE" "EvrRtxTimerDestroyed"
    [(Named "osTimerId_t", "timer_id")]
    (mkMacro "EvrRtxTimerDestroyed" ["timer_id"] [])].

Definition event_flags_events_1 : list event := [
  mkEvent EvtRtxEventFlags EvError "EVR_RTX_EVENT_FLAGS_ERROR_DISABLE" "EvrRtxEventFlagsError"
    [(Named "osEventFlagsId_t", "ef_id"); (Named "int32_t", "status")]
    (mkMacro "EvrRtxEventFlagsError" ["ef_id"; "status"] []);
  mkEvent EvtRtxEventFlags EvAPI "EVR_RTX_EVENT_FLAGS_NEW_DISABLE" "EvrRtxEventFlagsNew"
    [(ConstPtr "osEventFlagsAttr_t", "attr")]
    (mkMacro "EvrRtxEventFlagsNew" ["attr"] []);
  mkEvent EvtRtxEventFlags EvOp "EVR_RTX_EVENT_FLAGS_CREATED_DISABLE" "EvrRtxEventFlagsCreated"
    [(Named "osEventFlagsId_t", "ef_id"); (ConstPtr "char", "name")]
    (mkMacro "EvrRtxEventFlagsCreated" ["ef_id"; "name"] []);
  mkEvent EvtRtxEventFlags EvAPI "EVR_RTX_EVENT_FLAGS_GET_NAME_DISABLE" "EvrRtxEventFlagsGetName"
    [(Named "osEventFlagsId_t", "ef_id"); (ConstPtr "char", "name")]
    (mkMacro "EvrRtxEventFlagsGetName" ["ef_id"; "name"] []);
  mkEvent EvtRtxEventFlags EvAPI "EVR_RTX_EVENT_FLAGS_SET_DISABLE" "EvrRtxEventFlagsSet"
    [(Named "osEventFlagsId_t", "ef_id"); (Named "uint32_t", "flags")]
    (mkMacro "EvrRtxEventFlagsSet" ["ef_id"; "flags"] []);
  mkEvent EvtRtxEventFlags EvOp "EVR_RTX_EVENT_FLAGS_SET_DONE_DISABLE" "EvrRtxEventFlagsSetDone"
    [(Named "osEventFlagsId_t", "ef_id"); (Named "uint32_t", "event_flags")]
    (mkMacro "EvrRtxEventFlagsSetDone" ["ef_id"; "event_flags"] []);
  mkEvent EvtRtxEventFlags EvAPI "EVR_RTX_EVENT_FLAGS_CLEAR_DISABLE" "EvrRtxEventFlagsClear"
    [(Named "osEventFlagsId_t", "ef_id"); (Named "uint32_t", "flags")]
    (mkMacro "EvrRtxEventFlagsClear" ["ef_id"; "flags"] []);
  mkEvent EvtRtxEventFlags EvOp "EVR_RTX_EVENT_FLAGS_CLEAR_DONE_DISABLE" "EvrRtxEventFlagsClearDone"
    [(Named "osEventFlagsId_t", "ef_id"); (Named "uint32_t", "event_flags")]
    (mkMacro "EvrRtxEventFlagsClearDone" ["ef_id"; "event_flags"] []);
  mkEvent EvtRtxEventFlags EvAPI "EVR_RTX_EVENT_FLAGS_GET_DISABLE" "EvrRtxEventFlagsGet"
    [(Named "osEventFlagsId_t", "ef_id"); (Named "uint32_t", "event_flags")]
    (mkMacro "EvrRtxEventFlagsGet" ["ef_id"; "event_flags"] []);
  mkEvent EvtRtxEventFlags EvAPI "EVR_RTX_EVENT_FLAGS_WAIT_DISABLE" "EvrRtxEventFlagsWait"
    [(Named "osEventFlagsId_t", "ef_id"); (Named "uint32_t", "flags"); (Named "uint32_t", "options"); (Named "uint32_t", "timeout")]
    (mkMacro "EvrRtxEventFlagsWait" ["ef_id"; "flags"; "options"; "timeout"] []);
  mkEvent EvtRtxEventFlags EvOp "EVR_RTX_EVENT_FLAGS_WAIT_PENDING_DISABLE" "EvrRtxEventFlagsWaitPending"
    [(Named "osEventFlagsId_t", "ef_id"); (Named "uint32_t", "flags"); (Named "uint32_t", "options"); (Named "uint32_t", "timeout")]
    (mkMacro "EvrRtxEventFlagsWaitPending" ["ef_id"; "flags"; "options"; "timeout"] []);
  mkEvent EvtRtxEventFlags EvOp "EVR_RTX_EVENT_FLAGS_WAIT_TIMEOUT_DISABLE" "EvrRtxEventFlagsWaitTimeout"
    [(Named "osEventFlagsId_t", "ef_id")]
    (mkMacro "EvrRtxEventFlagsWaitTimeout" ["ef_id"] []);
  mkEvent EvtRtxEventFlags EvOp "EVR_RTX_EVENT_FLAGS_WAIT_COMPLETED_DISABLE" "EvrRtxEventFlagsWaitCompleted"
    [(Named "osEventFlagsId_t", "ef_id"); (Named "uint32_t", "flags"); (Named "uint32_t", "options"); (Named "uint32_t", "event_flags")]
    (mkMacro "EvrRtxEventFlagsWaitCompleted" ["ef_id"; "flags"; "options"; "event_flags"] [])].

Definition event_flags_events_2 : list event := [
  mkEvent EvtRtxEventFlags EvOp "EVR_RTX_EVENT_FLAGS_WAIT_NOT_COMPLETED_DISABLE" "EvrRtxEventFlagsWaitNotCompleted"
    [(Named "osEventFlagsId_t", "ef_id"); (Named "uint32_t", "flags"); (Named "uint32_t", "options")]
    (mkMacro "EvrRtxEventFlagsWaitNotCompleted" ["ef_id"; "flags"; "options"] []);
  mkEvent EvtRtxEventFlags EvAPI "EVR_RTX_EVENT_FLAGS_DELETE_DISABLE" "EvrRtxEventFlagsDelete"
    [(Named "osEventFlagsId_t", "ef_id")]
    (mkMacro "EvrRtxEventFlagsDelete" ["ef_id"] []);
  mkEvent EvtRtxEventFlags EvOp "EVR_RTX_EVENT_FLAGS_DESTROYED_DISABLE" "EvrRtxEventFlagsDestroyed"
    [(Named "osEventFlagsId_t", "ef_id")]
    (mkMacro "EvrRtxEventFlagsDestroyed" ["ef_id"] [])].

Definition mutex_events : list event := [
  mkEvent EvtRtxMutex EvError "EVR_RTX_MUTEX_ERROR_DISABLE" "EvrRtxMutexError"
    [(Named "osMutexId_t", "mutex_id"); (Named "int32_t", "status")]
    (mkMacro "EvrRtxMutexError" ["mutex_id"; "status"] []);
  mkEvent EvtRtxMutex EvAPI "EVR_RTX_MUTEX_NEW_DISABLE" "EvrRtxMutexNew"
    [(ConstPtr "osMutexAttr_t", "attr")]
    (mkMacro "EvrRtxMutexNew" ["attr"] []);
  mkEvent EvtRtxMutex EvOp "EVR_RTX_MUTEX_CREATED_DISABLE" "EvrRtxMutexCreated"
    [(Named "osMutexId_t", "mutex_id"); (ConstPtr "char", "name")]
    (mkMacro "EvrRtxMutexCreated" ["mutex_id"; "name"] []);
  mkEvent EvtRtxMutex EvAPI "EVR_RTX_MUTEX_GET_NAME_DISABLE" "EvrRtxMutexGetName"
    [(Named "osMutexId_t", "mutex_id"); (ConstPtr "char", "name")]
    (mkMacro "EvrRtxMutexGetName" ["mutex_id"; "name"] []);
  mkEvent EvtRtxMutex EvAPI "EVR_RTX_MUTEX_ACQUIRE_DISABLE" "EvrRtxMutexAcquire"
    [(Named "osMutexId_t", "mutex_id"); (Named "uint32_t", "timeout")]
    (mkMacro "EvrRtxMutexAcquire" ["mutex_id"; "timeout"] []);
  mkEvent EvtRtxMutex EvOp "EVR_RTX_MUTEX_ACQUIRE_PENDING_DISABLE" "EvrRtxMutexAcquirePending"
    [(Named "osMutexId_t", "mutex_id"); (Named "uint32_t", "timeout")]
    (mkMacro "EvrRtxMutexAcquirePending" ["mutex_id"; "timeout"] [";"]);
  mkEvent EvtRtxMutex EvOp "EVR_RTX_MUTEX_ACQUIRE_TIMEOUT_DISABLE" "EvrRtxMutexAcquireTimeout"
    [(Named "osMutexId_t", "mutex_id")]
    (mkMacro "EvrRtxMutexAcquireTimeout" ["mutex_id"] []);
  mkEvent EvtRtxMutex EvOp "EVR_RTX_MUTEX_ACQUIRED_DISABLE" "EvrRtxMutexAcquired"
    [(Named "osMutexId_t", "mutex_id"); (Named "uint32_t", "lock")]
    (mkMacro "EvrRtxMutexAcquired" ["mutex_id"; "lock"] []);
  mkEvent EvtRtxMutex EvOp "EVR_RTX_MUTEX_NOT_ACQUIRED_DISABLE" "EvrRtxMutexNotAcquired"
    [(Named "osMutexId_t", "mutex_id")]
    (mkMacro "EvrRtxMutexNotAcquired" ["mutex_id"] []);
  mkEvent EvtRtxMutex EvAPI "EVR_RTX_MUTEX_RELEASE_DISABLE" "EvrRtxMutexRelease"
    [(Named "osMutexId_t", "mutex_id")]
    (mkMacro "EvrRtxMutexRelease" ["mutex_id"] []);
  mkEvent EvtRtxMutex EvOp "EVR_RTX_MUTEX_RELEASED_DISABLE" "EvrRtxMutexReleased"
    [(Named "osMutexId_t", "mutex_id"); (Named "uint32_t", "lock")]
    (mkMacro "EvrRtxMutexReleased" ["mutex_id"; "lock"] []);
  mkEvent EvtRtxMutex EvAPI "EVR_RTX_MUTEX_GET_OWNER_DISABLE" "EvrRtxMutexGetOwner"
    [(Named "osMutexId_t", "mutex_id"); (Named "osThreadId_t", "thread_id")]
    (mkMacro "EvrRtxMutexGetOwner" ["mutex_id"; "thread_id"] []);
  mkEvent EvtRtxMutex EvAPI "EVR_RTX_MUTEX_DELETE_DISABLE" "EvrRtxMutexDelete"
    [(Named "osMutexId_t", "mutex_id")]
    (mkMacro "EvrRtxMutexDelete" ["mutex_id"] []);
  mkEvent EvtRtxMutex EvOp "EVR_RTX_MUTEX_DESTROYED_DISABLE" "EvrRtxMutexDestroyed"
    [(Named "osMutexId_t", "mutex_id")]
    (mkMacro "EvrRtxMutexDestroyed" ["mutex_id"] [])].

Definition semaphore_events : list event := [
  mkEvent EvtRtxSemaphore EvError "EVR_RTX_SEMAPHORE_ERROR_DISABLE" "EvrRtxSemaphoreError"
    [(Named "osSemaphoreId_t", "semaphore_id"); (Named "int32_t", "status")]
    (mkMacro "EvrRtxSemaphoreError" ["semaphore_id"; "status"] []);
  mkEvent EvtRtxSemaphore EvAPI "EVR_RTX_SEMAPHORE_NEW_DISABLE" "EvrRtxSemaphoreNew"
    [(Named "uint32_t", "max_count"); (Named "uint32_t", "initial_count"); (ConstPtr "osSemaphoreAttr_t", "attr")]
    (mkMacro "EvrRtxSemaphoreNew" ["max_count"; "initial_count"; "attr"] []);
  mkEvent EvtRtxSemaphore EvOp "EVR_RTX_SEMAPHORE_CREATED_DISABLE" "EvrRtxSemaphoreCreated"
    [(Named "osSemaphoreId_t", "semaphore_id"); (ConstPtr "char", "name")]
    (mkMacro "EvrRtxSemaphoreCreated" ["semaphore_id"; "name"] []);
  mkEvent EvtRtxSemaphore EvAPI "EVR_RTX_SEMAPHORE_GET_NAME_DISABLE" "EvrRtxSemaphoreGetName"
    [(Named "osSemaphoreId_t", "semaphore_id"); (ConstPtr "char", "name")]
    (mkMacro "EvrRtxSemaphoreGetName" ["semaphore_id"; "name"] []);
  mkEvent EvtRtxSemaphore EvAPI "EVR_RTX_SEMAPHORE_ACQUIRE_DISABLE" "EvrRtxSemaphoreAcquire"
    [(Named "osSemaphoreId_t", "semaphore_id"); (Named "uint32_t", "timeout")]
    (mkMacro "EvrRtxSemaphoreAcquire" ["semaphore_id"; "timeout"] []);
  mkEvent EvtRtxSemaphore EvOp "EVR_RTX_SEMAPHORE_ACQUIRE_PENDING_DISABLE" "EvrRtxSemaphoreAcquirePending"
    [(Named "osSemaphoreId_t", "semaphore_id"); (Named "uint32_t", "timeout")]
    (mkMacro "EvrRtxSemaphoreAcquirePending" ["semaphore_id"; "timeout"] [";"]);
  mkEvent EvtRtxSemaphore EvOp "EVR_RTX_SEMAPHORE_ACQUIRE_TIMEOUT_DISABLE" "EvrRtxSemaphoreAcquireTimeout"
    [(Named "osSemaphoreId_t", "semaphore_id")]
    (mkMacro "EvrRtxSemaphoreAcquireTimeout" ["semaphore_id"] []);
  mkEvent EvtRtxSemaphore EvOp "EVR_RTX_SEMAPHORE_ACQUIRED_DISABLE" "EvrRtxSemaphoreAcquired"
    [(Named "osSemaphoreId_t", "semaphore_id"); (Named "uint32_t", "tokens")]
    (mkMacro "EvrRtxSemaphoreAcquired" ["semaphore_id"; "tokens"] []);
  mkEvent EvtRtxSemaphore EvOp "EVR_RTX_SEMAPHORE_NOT_ACQUIRED_DISABLE" "EvrRtxSemaphoreNotAcquired"
    [(Named "osSemaphoreId_t", "semaphore_id")]
    (mkMacro "EvrRtxSemaphoreNotAcquired" ["semaphore_id"] []);
  mkEvent EvtRtxSemaphore EvAPI "EVR_RTX_SEMAPHORE_RELEASE_DISABLE" "EvrRtxSemaphoreRelease"
    [(Named "osSemaphoreId_t", "semaphore_id")]
    (mkMacro "EvrRtxSemaphoreRelease" ["semaphore_id"] []);
  mkEvent EvtRtxSemaphore EvOp "EVR_RTX_SEMAPHORE_RELEASED_DISABLE" "EvrRtxSemaphoreReleased"
    [(Named "osSemaphoreId_t", "semaphore_id"); (Named "uint32_t", "tokens")]
    (mkMacro "EvrRtxSemaphoreReleased" ["semaphore_id"; "tokens"] []);
  mkEvent EvtRtxSemaphore EvAPI "EVR_RTX_SEMAPHORE_GET_COUNT_DISABLE" "EvrRtxSemaphoreGetCount"
    [(Named "osSemaphoreId_t", "semaphore_id"); (Named "uint32_t", "count")]
    (mkMacro "EvrRtxSemaphoreGetCount" ["semaphore_id"; "count"] []);
  mkEvent EvtRtxSemaphore EvAPI "EVR_RTX_SEMAPHORE_DELETE_DISABLE" "EvrRtxSemaphoreDelete"
    [(Named "osSemaphoreId_t", "semaphore_id")]
    (mkMacro "EvrRtxSemaphoreDelete" ["semaphore_id"] []);
  mkEvent EvtRtxSemaphore EvOp "EVR_RTX_SEMAPHORE_DESTROYED_DISABLE" "EvrRtxSemaphoreDestroyed"
    [(Named "osSemaphoreId_t", "semaphore_id")]
    (mkMacro "EvrRtxSemaphoreDestroyed" ["semaphore_id"] [])].

Definition memory_pool_events_1 : list event := [
  mkEvent EvtRtxMemoryPool EvError "EVR_RTX_MEMORY_POOL_ERROR_DISABLE" "EvrRtxMemoryPoolError"
    [(Named "osMemoryPoolId_t", "mp_id"); (Named "int32_t", "status")]
    (mkMacro "EvrRtxMemoryPoolError" ["mp_id"; "status"] []);
  mkEvent EvtRtxMemoryPool EvAPI "EVR_RTX_MEMORY_POOL_NEW_DISABLE" "EvrRtxMemoryPoolNew"
    [(Named "uint32_t", "block_count"); (Named "uint32_t", "block_size"); (ConstPtr "osMemoryPoolAttr_t", "attr")]
    (mkMacro "EvrRtxMemoryPoolNew" ["block_count"; "block_size"; "attr"] []);
  mkEvent EvtRtxMemoryPool EvOp "EVR_RTX_MEMORY_POOL_CREATED_DISABLE" "EvrRtxMemoryPoolCreated"
    [(Named "osMemoryPoolId_t", "mp_id"); (ConstPtr "char", "name")]
    (mkMacro "EvrRtxMemoryPoolCreated" ["mp_id"; "name"] []);
  mkEvent EvtRtxMemoryPool EvAPI "EVR_RTX_MEMORY_POOL_GET_NAME_DISABLE" "EvrRtxMemoryPoolGetName"
    [(Named "osMemoryPoolId_t", "mp_id"); (ConstPtr "char", "name")]
    (mkMacro "EvrRtxMemoryPoolGetName" ["mp_id"; "name"] []);
  mkEvent EvtRtxMemoryPool EvAPI "EVR_RTX_MEMORY_POOL_ALLOC_DISABLE" "EvrRtxMemoryPoolAlloc"
    [(Named "osMemoryPoolId_t", "mp_id"); (Named "uint32_t", "timeout")]
    (mkMacro "EvrRtxMemoryPoolAlloc" ["mp_id"; "timeout"] []);
  mkEvent EvtRtxMemoryPool EvOp "EVR_RTX_MEMORY_POOL_ALLOC_PENDING_DISABLE" "EvrRtxMemoryPoolAllocPending"
    [(Named "osMemoryPoolId_t", "mp_id"); (Named "uint32_t", "timeout")]
    (mkMacro "EvrRtxMemoryPoolAllocPending" ["mp_id"; "timeout"] []);
  mkEvent EvtRtxMemoryPool EvOp "EVR_RTX_MEMORY_POOL_ALLOC_TIMEOUT_DISABLE" "EvrRtxMemoryPoolAllocTimeout"
    [(Named "osMemoryPoolId_t", "mp_id")]
    (mkMacro "EvrRtxMemoryPoolAllocTimeout" ["mp_id"] []);
  mkEvent EvtRtxMemoryPool EvOp "EVR_RTX_MEMORY_POOL_ALLOCATED_DISABLE" "EvrRtxMemoryPoolAllocated"
    [(Named "osMemoryPoolId_t", "mp_id"); (Ptr "void", "block")]
    (mkMacro "EvrRtxMemoryPoolAllocated" ["mp_id"; "block"] []);
  mkEvent EvtRtxMemoryPool EvOp "EVR_RTX_MEMORY_POOL_ALLOC_FAILED_DISABLE" "EvrRtxMemoryPoolAllocFailed"
    [(Named "osMemoryPoolId_t", "mp_id")]
    (mkMacro "EvrRtxMemoryPoolAllocFailed" ["mp_id"] []);
  mkEvent EvtRtxMemoryPool EvAPI "EVR_RTX_MEMORY_POOL_FREE_DISABLE" "EvrRtxMemoryPoolFree"
    [(Named "osMemoryPoolId_t", "mp_id"); (Ptr "void", "block")]
    (mkMacro "EvrRtxMemoryPoolFree" ["mp_id"; "block"] []);
  mkEvent EvtRtxMemoryPool EvOp "EVR_RTX_MEMORY_POOL_DEALLOCATED_DISABLE" "EvrRtxMemoryPoolDeallocated"
    [(Named "osMemoryPoolId_t", "mp_id"); (Ptr "void", "block")]
    (mkMacro "EvrRtxMemoryPoolDeallocated" ["mp_id"; "block"] []);
  mkEvent EvtRtxMemoryPool EvOp "EVR_RTX_MEMORY_POOL_FREE_FAILED_DISABLE" "EvrRtxMemoryPoolFreeFailed"
    [(Named "osMemoryPoolId_t", "mp_id"); (Ptr "void", "block")]
    (mkMacro "EvrRtxMemoryPoolFreeFailed" ["mp_id"; "block"] []);
  mkEvent EvtRtxMemoryPool EvAPI "EVR_RTX_MEMORY_POOL_GET_CAPACITY_DISABLE" "EvrRtxMemoryPoolGetCapacity"
    [(Named "osMemoryPoolId_t", "mp_id"); (Named "uint32_t", "capacity")]
    (mkMacro "EvrRtxMemoryPoolGetCapacity" ["mp_id"; "capacity"] [])].

Definition memory_pool_events_2 : list event := [
  mkEvent EvtRtxMemoryPool EvAPI "EVR_RTX_MEMORY_POOL_GET_BLOCK_SZIE_DISABLE" "EvrRtxMemoryPoolGetBlockSize"
    [(Named "osMemoryPoolId_t", "mp_id"); (Named "uint32_t", "block_size")]
    (mkMacro "EvrRtxMemoryPoolGetBlockSize" ["mp_id"; "block_size"] []);
  mkEvent EvtRtxMemoryPool EvAPI "EVR_RTX_MEMORY_POOL_GET_COUNT_DISABLE" "EvrRtxMemoryPoolGetCount"
    [(Named "osMemoryPoolId_t", "mp_id"); (Named "uint32_t", "count")]
    (mkMacro "EvrRtxMemoryPoolGetCount" ["mp_id"; "count"] []);
  mkEvent EvtRtxMemoryPool EvAPI "EVR_RTX_MEMORY_POOL_GET_SPACE_DISABLE" "EvrRtxMemoryPoolGetSpace"
    [(Named "osMemoryPoolId_t", "mp_id"); (Named "uint32_t", "space")]
    (mkMacro "EvrRtxMemoryPoolGetSpace" ["mp_id"; "space"] []);
  mkEvent EvtRtxMemoryPool EvAPI "EVR_RTX_MEMORY_POOL_DELETE_DISABLE" "EvrRtxMemoryPoolDelete"
    [(Named "osMemoryPoolId_t", "mp_id")]
    (mkMacro "EvrRtxMemoryPoolDelete" ["mp_id"] []);
  mkEvent EvtRtxMemoryPool EvOp "EVR_RTX_MEMORY_POOL_DESTROYED_DISABLE" "EvrRtxMemoryPoolDestroyed"
    [(Named "osMemoryPoolId_t", "mp_id")]
    (mkMacro "EvrRtxMemoryPoolDestroyed" ["mp_id"] [])].

Definition message_queue_events_1 : list event := [
  mkEvent EvtRtxMessageQueue EvError "EVR_RTX_MESSAGE_QUEUE_ERROR_DISABLE" "EvrRtxMessageQueueError"
    [(Named "osMessageQueueId_t", "mq_id"); (Named "int32_t", "status")]
    (mkMacro "EvrRtxMessageQueueError" ["mq_id"; "status"] []);
  mkEvent EvtRtxMessageQueue EvAPI "EVR_RTX_MESSAGE_QUEUE_NEW_DISABLE" "EvrRtxMessageQueueNew"
    [(Named "uint32_t", "msg_count"); (Named "uint32_t", "msg_size"); (ConstPtr "osMessageQueueAttr_t", "attr")]
    (mkMacro "EvrRtxMessageQueueNew" ["msg_count"; "msg_size"; "attr"] []);
  mkEvent EvtRtxMessageQueue EvOp "EVR_RTX_MESSAGE_QUEUE_CREATED_DISABLE" "EvrRtxMessageQueueCreated"
    [(Named "osMessageQueueId_t", "mq_id"); (ConstPtr "char", "name")]
    (mkMacro "EvrRtxMessageQueueCreated" ["mq_id"; "name"] []);
  mkEvent EvtRtxMessageQueue EvAPI "EVR_RTX_MESSAGE_QUEUE_GET_NAME_DISABLE" "EvrRtxMessageQueueGetName"
    [(Named "osMessageQueueId_t", "mq_id"); (ConstPtr "char", "name")]
    (mkMacro "EvrRtxMessageQueueGetName" ["mq_id"; "name"] []);
  mkEvent EvtRtxMessageQueue EvAPI "EVR_RTX_MESSAGE_QUEUE_PUT_DISABLE" "EvrRtxMessageQueuePut"
    [(Named "osMessageQueueId_t", "mq_id"); (ConstPtr "void", "msg_ptr"); (Named "uint8_t", "msg_prio"); (Named "uint32_t", "timeout")]
    (mkMacro "EvrRtxMessageQueuePut" ["mq_id"; "msg_ptr"; "msg_prio"; "timeout"] []);
  mkEvent EvtRtxMessageQueue EvOp "EVR_RTX_MESSAGE_QUEUE_PUT_PENDING_DISABLE" "EvrRtxMessageQueuePutPending"
    [(Named "osMessageQueueId_t", "mq_id"); (ConstPtr "void", "msg_ptr"); (Named "uint32_t", "timeout")]
    (mkMacro "EvrRtxMessageQueuePutPending" ["mq_id"; "msg_ptr"; "timeout"] []);
  mkEvent EvtRtxMessageQueue EvOp "EVR_RTX_MESSAGE_QUEUE_PUT_TIMEOUT_DISABLE" "EvrRtxMessageQueuePutTimeout"
    [(Named "osMessageQueueId_t", "mq_id")]
    (mkMacro "EvrRtxMessageQueuePutTimeout" ["mq_id"] []);
  mkEvent EvtRtxMessageQueue EvOp "EVR_RTX_MESSAGE_QUEUE_INSERT_PENDING_DISABLE" "EvrRtxMessageQueueInsertPending"
    [(Named "osMessageQueueId_t", "mq_id"); (ConstPtr "void", "msg_ptr")]
    (mkMacro "EvrRtxMessageQueueInsertPending" ["mq_id"; "msg_ptr"] []);
  mkEvent EvtRtxMessageQueue EvOp "EVR_RTX_MESSAGE_QUEUE_INSERTED_DISABLE" "EvrRtxMessageQueueInserted"
    [(Named "osMessageQueueId_t", "mq_id"); (ConstPtr "void", "msg_ptr")]
    (mkMacro "EvrRtxMessageQueueInserted" ["mq_id"; "msg_ptr"] []);
  mkEvent EvtRtxMessageQueue EvOp "EVR_RTX_MESSAGE_QUEUE_NOT_INSERTED_DISABLE" "EvrRtxMessageQueueNotInserted"
    [(Named "osMessageQueueId_t", "mq_id"); (ConstPtr "void", "msg_ptr")]
    (mkMacro "EvrRtxMessageQueueNotInserted" ["mq_id"; "msg_ptr"] []);
  mkEvent EvtRtxMessageQueue EvAPI "EVR_RTX_MESSAGE_QUEUE_GET_DISABLE" "EvrRtxMessageQueueGet"
    [(Named "osMessageQueueId_t", "mq_id"); (Ptr "void", "msg_ptr"); (Ptr "uint8_t", "msg_prio"); (Named "uint32_t", "timeout")]
    (mkMacro "EvrRtxMessageQueueGet" ["mq_id"; "msg_ptr"; "msg_prio"; "timeout"] []);
  mkEvent EvtRtxMessageQueue EvOp "EVR_RTX_MESSAGE_QUEUE_GET_PENDING_DISABLE" "EvrRtxMessageQueueGetPending"
    [(Named "osMessageQueueId_t", "mq_id"); (Ptr "void", "msg_ptr"); (Named "uint32_t", "timeout")]
    (mkMacro "EvrRtxMessageQueueGetPending" ["mq_id"; "msg_ptr"; "timeout"] []);
  mkEvent EvtRtxMessageQueue EvOp "EVR_RTX_MESSAGE_QUEUE_GET_TIMEOUT_DISABLE" "EvrRtxMessageQueueGetTimeout"
    [(Named "osMessageQueueId_t", "mq_id")]
    (mkMacro "EvrRtxMessageQueueGetTimeout" ["mq_id"] [])].

Definition message_queue_events_2 : list event := [
  mkEvent EvtRtxMessageQueue EvOp "EVR_RTX_MESSAGE_QUEUE_RETRIEVED_DISABLE" "EvrRtxMessageQueueRetrieved"
    [(Named "osMessageQueueId_t", "mq_id"); (Ptr "void", "msg_ptr")]
    (mkMacro "EvrRtxMessageQueueRetrieved" ["mq_id"; "msg_ptr"] []);
  mkEvent EvtRtxMessageQueue EvOp "EVR_RTX_MESSAGE_QUEUE_NOT_RETRIEVED_DISABLE" "EvrRtxMessageQueueNotRetrieved"
    [(Named "osMessageQueueId_t", "mq_id"); (Ptr "void", "msg_ptr")]
    (mkMacro "EvrRtxMessageQueueNotRetrieved" ["mq_id"; "msg_ptr"] []);
  mkEvent EvtRtxMessageQueue EvAPI "EVR_RTX_MESSAGE_QUEUE_GET_CAPACITY_DISABLE" "EvrRtxMessageQueueGetCapacity"
    [(Named "osMessageQueueId_t", "mq_id"); (Named "uint32_t", "capacity")]
    (mkMacro "EvrRtxMessageQueueGetCapacity" ["mq_id"; "capacity"] []);
  mkEvent EvtRtxMessageQueue EvAPI "EVR_RTX_MESSAGE_QUEUE_GET_MSG_SIZE_DISABLE" "EvrRtxMessageQueueGetMsgSize"
    [(Named "osMessageQueueId_t", "mq_id"); (Named "uint32_t", "msg_size")]
    (mkMacro "EvrRtxMessageQueueGetMsgSize" ["mq_id"; "msg_size"] []);
  mkEvent EvtRtxMessageQueue EvAPI "EVR_RTX_MESSAGE_QUEUE_GET_COUNT_DISABLE" "EvrRtxMessageQueueGetCount"
    [(Named "osMessageQueueId_t", "mq_id"); (Named "uint32_t", "count")]
    (mkMacro "EvrRtxMessageQueueGetCount" ["mq_id"; "count"] []);
  mkEvent EvtRtxMessageQueue EvAPI "EVR_RTX_MESSAGE_QUEUE_GET_SPACE_DISABLE" "EvrRtxMessageQueueGetSpace"
    [(Named "osMessageQueueId_t", "mq_id"); (Named "uint32_t", "space")]
    (mkMacro "EvrRtxMessageQueueGetSpace" ["mq_id"; "space"] []);
  mkEvent EvtRtxMessageQueue EvAPI "EVR_RTX_MESSAGE_QUEUE_RESET_DISABLE" "EvrRtxMessageQueueReset"
    [(Named "osMessageQueueId_t", "mq_id")]
    (mkMacro "EvrRtxMessageQueueReset" ["mq_id"] []);
  mkEvent EvtRtxMessageQueue EvOp "EVR_RTX_MESSAGE_QUEUE_RESET_DONE_DISABLE" "EvrRtxMessageQueueResetDone"
    [(Named "osMessageQueueId_t", "mq_id")]
    (mkMacro "EvrRtxMessageQueueResetDone" ["mq_id"] []);
  mkEvent EvtRtxMessageQueue EvAPI "EVR_RTX_MESSAGE_QUEUE_DELETE_DISABLE" "EvrRtxMessageQueueDelete"
    [(Named "osMessageQueueId_t", "mq_id")]
    (mkMacro "EvrRtxMessageQueueDelete" ["mq_id"] []);
  mkEvent EvtRtxMessageQueue EvOp "EVR_RTX_MESSAGE_QUEUE_DESTROYED_DISABLE" "EvrRtxMessageQueueDestroyed"
    [(Named "osMessageQueueId_t", "mq_id")]
    (mkMacro "EvrRtxMessageQueueDestroyed" ["mq_id"] [])].

Definition rtx_events : list event :=
  (memory_events ++
  kernel_events_1 ++
  kernel_events_2 ++
  thread_events_1 ++
  thread_events_2 ++
  thread_events_3 ++
  thread_flags_events ++
  wait_events ++
  timer_events ++
  event_flags_events_1 ++
  event_flags_events_2 ++
  mutex_events ++
  semaphore_events ++
  memory_pool_events_1 ++
  memory_pool_events_2 ++
  message_queue_events_1 ++
  message_queue_events_2)%list.

(** ** Builds *)

(** What a build defines: [defined] are the macros without a value, [b_EVR] the
    values that OS_EVR_<component> has before RTX_Config.h gives its defaults. *)
Record build := mkBuild {
  defined : gset string;
  b_EVR : evr_component -> option Z;
  b_options : evr_options;
  EVENT_TIMESTAMP_SOURCE : Z;
}.

(** RTX_Config.h, "RTOS Event Generation". *)
Definition OS_EVR_default (e : evr_component) : Z := 1.

(** The value after RTX_Config.h; its defaults come before those of rtx_evr.h
    for THFLAGS and WAIT. *)
Definition RTX_Config_EVR (b : build) (e : evr_component) : option Z :=
  Some (default (OS_EVR_default e) (b_EVR b e)).

(** rtx_evr.h: THFLAGS and WAIT take the value of THREAD when they have none;
    an identifier that is not defined is 0 in an [#if]. *)
Definition OS_EVR (config : evr_component -> option Z) (e : evr_component) : Z :=
  match e, config e with
  | (EvtRtxThreadFlags | EvtRtxWait), None => default 0%Z (config EvtRtxThread)
  | _, v => default 0%Z v
  end.

(** The macros that rtx_evr.h defines by itself when the Event Recorder is
    selected, so that its time stamps do not record events. *)
Definition implied_macros (b : build) : list string :=
  if decide ("RTE_Compiler_EventRecorder" ∈ defined b) then
   ((if negb (OS_EVR_INIT (b_options b) =? 0)%Z || (EVENT_TIMESTAMP_SOURCE b =? 2)%Z
     then ["EVR_RTX_KERNEL_GET_STATE_DISABLE"] else []) ++
    (if (EVENT_TIMESTAMP_SOURCE b =? 2)%Z
     then ["EVR_RTX_KERNEL_GET_SYS_TIMER_COUNT_DISABLE"; "EVR_RTX_KERNEL_GET_SYS_TIMER_FREQ_DISABLE"] else []))%list
  else [].

Definition macros (b : build) : gset string := defined b ∪ list_to_set (implied_macros b).

(** The guard of an event. *)
Definition generated (b : build) (e : event) : bool :=
  bool_decide ("EVR_RTX_DISABLE" ∉ macros b) && negb (OS_EVR (RTX_Config_EVR b) (ev_component e) =? 0)%Z
  && bool_decide (ev_disable e ∉ macros b).

(** ** Uses *)

Inductive statement {A} :=
  | Call (f : string) (args : list A)
  | Null.
Arguments statement : clear implicits.

(** [m(args)] as the preprocessor reads it: a macro with one parameter takes no
    argument as one that is empty. *)
Definition macro_accepts {A} (m : macro) (args : list A) : bool :=
  (length args =? length (m_params m))%nat || ((length (m_params m) =? 1)%nat && (length args =? 0)%nat).

(** The statements that [ev_name(args);] becomes; [None] when it does not
    compile.  Each token of a macro of the header is a semicolon. *)
Definition use {A} (b : build) (e : event) (args : list A) : option (list (statement A)) :=
  if generated b e then
    if (length args =? length (ev_params e))%nat then Some [Call (ev_name e) args] else None
  else if macro_accepts (ev_macro e) args then Some (map (λ _, Null) (m_tokens (ev_macro e)) ++ [Null])%list
  else None.

(** Which levels of RTX_Config.h record an event. *)
Definition kind_bit (k : event_kind) : Z :=
  match k with EvError => 0 | EvAPI => 1 | EvOp => 2 | EvDetail => 3 end%Z.

Definition level_selects (level : Z) (e : event) : bool := Z.testbit level (kind_bit (ev_kind e)).

(** ** Names *)

Definition is_upper (c : ascii) : bool :=
  let n := Ascii.nat_of_ascii c in (65 <=? n)%nat && (n <=? 90)%nat.

Definition upper (c : ascii) : ascii :=
  let n := Ascii.nat_of_ascii c in
  if (97 <=? n)%nat && (n <=? 122)%nat then Ascii.ascii_of_nat (n - 32) else c.

(** [EvrRtxMemoryInit] as [_EVR_RTX_MEMORY_INIT]. *)
Fixpoint snake (s : string) : string :=
  match s with
  | "" => ""
  | String c s => if is_upper c then String "_" (String c (snake s)) else String (upper c) (snake s)
  end.

(** The macro that by the convention of the header disables an event. *)
Definition disable_macro (name : string) : string := String.substring 1 (String.length (snake name)) (snake name) ++ "_DISABLE".

(** The component that the name of an event starts with. *)
Definition name_prefixes : list (string * evr_component) := [
  ("EvrRtxMemoryPool", EvtRtxMemoryPool); ("EvrRtxMemory", EvtRtxMemory); ("EvrRtxKernel", EvtRtxKernel);
  ("EvrRtxThreadFlags", EvtRtxThreadFlags); ("EvrRtxThread", EvtRtxThread); ("EvrRtxDelay", EvtRtxWait);
  ("EvrRtxTimer", EvtRtxTimer); ("EvrRtxEventFlags", EvtRtxEventFlags); ("EvrRtxMutex", EvtRtxMutex);
  ("EvrRtxSemaphore", EvtRtxSemaphore); ("EvrRtxMessageQueue", EvtRtxMessageQueue)].

Definition component_of_name (name : string) : option evr_component :=
  snd <$> List.find (λ p, String.prefix p.1 name) name_prefixes.

(** The event whose guard does not follow the convention. *)
Definition misspelt : string := "EvrRtxMemoryPoolGetBlockSize".

(** The events whose macro is not empty. *)
Definition with_semicolon : list string := ["EvrRtxMutexAcquirePending"; "EvrRtxSemaphoreAcquirePending"].

(** A build with one more macro, and one with another value of a switch. *)
Definition define (d : string) (b : build) : build :=
  mkBuild ({[d]} ∪ defined b) (b_EVR b) (b_options b) (EVENT_TIMESTAMP_SOURCE b).

Definition set_switch (c : evr_component) (v : Z) (b : build) : build :=
  mkBuild (defined b) (λ e, if decide (e = c) then Some v else b_EVR b e) (b_options b) (EVENT_TIMESTAMP_SOURCE b).

(** The event in a row of the table. *)
Definition event_at (i : nat) : event := nth_default (mkEvent EvtRtxMemory EvError "" "" [] (mkMacro "" [] [])) rtx_events i.

(** The build of RTX_Config.h as it is, with the Event Recorder selected. *)
Definition default_build : build :=
  mkBuild {["RTE_Compiler_EventRecorder"]} (λ _, None) default_evr 0%Z.

(** ** The table *)

Lemma check_events (P : event → Prop) `{!∀ e, Decision (P e)} :
  forallb (λ e, bool_decide (P e)) rtx_events = true → ∀ e, e ∈ rtx_events → P e.
Proof. intros Hall e He. apply list_elem_of_In in He. eapply bool_decide_eq_true, (proj1 (forallb_forall _ _) Hall e He). Qed.

Lemma row_facts e : e ∈ rtx_events →
  (m_name (ev_macro e) = ev_name e ∧ m_params (ev_macro e) = map snd (ev_params e))
  ∧ component_of_name (ev_name e) = Some (ev_component e)
  ∧ (ev_disable e = disable_macro (ev_name e) ∨ ev_name e = misspelt)
  ∧ m_tokens (ev_macro e) = if decide (ev_name e ∈ with_semicolon) then [";"] else [].
Proof. revert e. apply (check_events _). vm_compute. reflexivity. Qed.

Lemma event_at_elem i : (i <? length rtx_events)%nat = true → event_at i ∈ rtx_events.
Proof.
  intros Hi%Nat.ltb_lt. unfold event_at. rewrite nth_default_eq. apply list_elem_of_In, nth_In, Hi.
Qed.

(** Names and guards tell the events apart. *)
Lemma names_NoDup : NoDup (map ev_name rtx_events).
Proof. apply (bool_decide_unpack _). vm_compute. exact I. Qed.

Lemma disables_NoDup : NoDup (map ev_disable rtx_events).
Proof. apply (bool_decide_unpack _). vm_compute. exact I. Qed.

Lemma elem_of_map_inj {A B} (f : A → B) (l : list A) x y :
  NoDup (map f l) → x ∈ l → y ∈ l → f x = f y → x = y.
Proof.
  intros Hnd Hx Hy Hf.
  apply list_elem_of_lookup in Hx as [i Hi], Hy as [j Hj].
  assert (i = j) as ->.
  { apply (NoDup_lookup _ i j (f x) Hnd); [by rewrite list_lookup_fmap, Hi|rewrite list_lookup_fmap, Hj; simpl; congruence]. }
  congruence.
Qed.

Lemma name_inj e e' : e ∈ rtx_events → e' ∈ rtx_events → ev_name e = ev_name e' → e = e'.
Proof. apply elem_of_map_inj, names_NoDup. Qed.

Lemma disable_inj e e' : e ∈ rtx_events → e' ∈ rtx_events → ev_disable e = ev_disable e' → e = e'.
Proof. apply elem_of_map_inj, disables_NoDup. Qed.

(** The macros that are none of an event: those that the header tests besides. *)
Lemma disable_macro_fresh e : e ∈ rtx_events →
  disable_macro (ev_name e) ≠ "EVR_RTX_DISABLE" ∧ disable_macro (ev_name e) ≠ "RTE_Compiler_EventRecorder".
Proof. revert e. apply (check_events _). vm_compute. reflexivity. Qed.

(** No guard tests the macro that [misspelt] should have. *)
Lemma misspelt_unused e : e ∈ rtx_events → ev_disable e ≠ disable_macro misspelt.
Proof. revert e. apply (check_events _). vm_compute. reflexivity. Qed.

(** ** Guards *)

Lemma macros_define d b x :
  d ≠ "RTE_Compiler_EventRecorder" → x ∈ macros (define d b) ↔ x = d ∨ x ∈ macros b.
Proof.
  intros Hd. unfold macros. assert (implied_macros (define d b) = implied_macros b) as ->.
  { unfold implied_macros. simpl. repeat case_decide; try done; set_solver. }
  simpl. set_solver.
Qed.

Lemma generated_define d b e :
  d ≠ "RTE_Compiler_EventRecorder" → d ≠ "EVR_RTX_DISABLE" →
  generated (define d b) e = generated b e && negb (bool_decide (ev_disable e = d)).
Proof.
  intros Hr Hd. unfold generated. rewrite <- andb_assoc, <-andb_assoc, <-andb_assoc. f_equal.
  { apply bool_decide_ext. rewrite macros_define by done. naive_solver. }
  f_equal. rewrite <-bool_decide_not, <-bool_decide_and. apply bool_decide_ext. rewrite macros_define by done. naive_solver.
Qed.

Lemma OS_EVR_set_switch c v b e :
  OS_EVR (RTX_Config_EVR (set_switch c v b)) e = if decide (e = c) then v else OS_EVR (RTX_Config_EVR b) e.
Proof. unfold OS_EVR, RTX_Config_EVR, set_switch; simpl. destruct e; repeat case_decide; done. Qed.

(** C27. Each event has a macro of its own name that turns it off and nothing
    else, in every build: all but EvrRtxMemoryPoolGetBlockSize, whose macro has
    no effect on any event.  And the switch of a component turns off the events
    whose names start with that component and no other; that of the threads
    leaves those of the thread flags and of the waits, since RTX_Config.h gives
    them a value before rtx_evr.h looks. *)
Theorem guards_exact b e e' :
  e ∈ rtx_events → e' ∈ rtx_events →
  generated (define (disable_macro (ev_name e)) b) e'
    = generated b e' && negb (bool_decide (ev_name e' = ev_name e ∧ ev_name e ≠ misspelt))
  ∧ ∀ c, generated (set_switch c 0 b) e'
    = generated b e' && negb (bool_decide (component_of_name (ev_name e') = Some c)).
Proof.
  intros He He'. split.
  - destruct (disable_macro_fresh e He) as [Hd Hr]. rewrite generated_define by done. do 2 f_equal.
    apply bool_decide_ext. destruct (row_facts e He) as (_ & _ & [Hrow|Hm] & _).
    + rewrite <-Hrow. split; [intros ?%disable_inj; [subst|done..]|intros [?%name_inj _]; subst; done].
      split; [done|]. intros Hm. apply (misspelt_unused e He). by rewrite Hrow, Hm.
    + rewrite Hm. split; [intros ?%misspelt_unused; done|by intros [_ []]].
  - intros c. destruct (row_facts e' He') as (_ & -> & _). unfold generated. rewrite OS_EVR_set_switch.
    change (macros (set_switch c 0 b)) with (macros b). case_decide as Hc.
    + rewrite (bool_decide_eq_true_2 (Some _ = Some _)) by congruence. by rewrite !andb_false_r.
    + rewrite (bool_decide_eq_false_2 (Some _ = Some _)) by congruence. by rewrite !andb_true_r.
Qed.

Lemma guards_exact_witness : ∃ e e',
  ev_name e = misspelt ∧ ev_name e' = "EvrRtxMutexAcquirePending"
  ∧ generated (define (disable_macro (ev_name e)) default_build) e = true
  ∧ generated (define (disable_macro (ev_name e')) default_build) e' = false
  ∧ generated (set_switch EvtRtxMutex 0 default_build) e' = false.
Proof.
  eexists (event_at 144),
    (event_at 108).
  do 2 (split; [reflexivity|]). split; [|split].
  - rewrite (proj1 (guards_exact default_build _ _ (event_at_elem 144 eq_refl) (event_at_elem 144 eq_refl))). vm_compute. reflexivity.
  - rewrite (proj1 (guards_exact default_build _ _ (event_at_elem 108 eq_refl) (event_at_elem 108 eq_refl))). vm_compute. reflexivity.
  - rewrite (proj2 (guards_exact default_build _ _ (event_at_elem 108 eq_refl) (event_at_elem 108 eq_refl))). vm_compute. reflexivity.
Defined.

(** ** Uses *)

Lemma macro_accepts_exact {A} e (args : list A) : e ∈ rtx_events →
  length args = length (ev_params e) → macro_accepts (ev_macro e) args = true.
Proof.
  intros He Hl. destruct (row_facts e He) as ([_ Hm] & _). unfold macro_accepts.
  by rewrite Hm, length_map, Hl, Nat.eqb_refl.
Qed.

(** C28. A use with as many arguments as the function has parameters compiles in
    every build: to the call where the event is generated, to the null statement
    where it is not, and to two of them for the two pending events, so that
    those cannot stand between an [if] and its [else]; no event has more than
    four parameters.  A use with another
    number of arguments does not compile where the event is generated. *)
Theorem uses_type_check {A} b e (args : list A) :
  e ∈ rtx_events →
  (length args = length (ev_params e) →
   (length args ≤ 4)%nat ∧
   use b e args = Some (if generated b e then [Call (ev_name e) args]
                        else if decide (ev_name e ∈ with_semicolon) then [Null; Null] else [Null]))
  ∧ (length args ≠ length (ev_params e) → generated b e = true → use b e args = None).
Proof.
  intros He. unfold use. split.
  - intros Hl. split.
    { rewrite Hl. clear Hl. revert e He. apply (check_events _). vm_compute. reflexivity. }
    destruct (row_facts e He) as (_ & _ & _ & Ht).
    rewrite macro_accepts_exact, Hl, Nat.eqb_refl, Ht by done. destruct (generated b e); [done|]. by case_decide.
  - intros Hl%Nat.eqb_neq ->. by rewrite Hl.
Qed.

Lemma uses_type_check_witness : ∃ e,
  ev_name e = "EvrRtxMutexAcquirePending"
  ∧ use default_build e [1; 2] = Some [Call "EvrRtxMutexAcquirePending" [1; 2]]
  ∧ use (define "EVR_RTX_DISABLE" default_build) e [1; 2] = Some [Null; Null]
  ∧ use default_build e [1] = None.
Proof.
  eexists (event_at 108).
  split; [reflexivity|].
  split; [|split].
  - rewrite (proj2 (proj1 (uses_type_check default_build _ [1; 2] (event_at_elem 108 eq_refl)) eq_refl)). vm_compute. reflexivity.
  - rewrite (proj2 (proj1 (uses_type_check (define "EVR_RTX_DISABLE" default_build) _ [1; 2] (event_at_elem 108 eq_refl)) eq_refl)).
    vm_compute. reflexivity.
  - apply (proj2 (uses_type_check default_build _ [1] (event_at_elem 108 eq_refl))); [done|]. vm_compute. reflexivity.
Defined.

(** ** The start of the kernel *)

Lemma implied_not_generated b e :
  ev_disable e ∈ implied_macros b → generated b e = false.
Proof.
  intros Hin. unfold generated. apply andb_false_iff. right. apply bool_decide_eq_false_2.
  intros Hn. apply Hn. unfold macros. set_solver.
Qed.

(** osRtxKernelPreInit asks for the state of the kernel before it initialises
    the Event Recorder: in every build that has it, that call records no event. *)
Theorem preinit_not_recorded b e :
  "RTE_Compiler_EventRecorder" ∈ defined b → OS_EVR_INIT (b_options b) ≠ 0%Z →
  e ∈ rtx_events → ev_name e = "EvrRtxKernelGetState" → generated b e = false.
Proof.
  intros Hr Hi He Hn. apply implied_not_generated.
  destruct (row_facts e He) as (_ & _ & [Hd|Hd] & _); [|rewrite Hn in Hd; discriminate Hd].
  rewrite Hd, Hn. unfold implied_macros. rewrite decide_True by done. apply Z.eqb_neq in Hi. rewrite Hi.
  apply elem_of_app. left. apply list_elem_of_here.
Qed.

Lemma preinit_not_recorded_witness : ∃ e,
  ev_name e = "EvrRtxKernelGetState" ∧ generated default_build e = true
  ∧ let o := mkEvrOptions 1 1 0 default_level (λ _, None) in
    generated (mkBuild (defined default_build) (λ _, None) o 0) e = false.
Proof.
  eexists (event_at 11).
  split; [reflexivity|]. split; [vm_compute; reflexivity|].
  apply preinit_not_recorded; [set_solver|done|exact (event_at_elem 11 eq_refl)|reflexivity].
Defined.

(** In the configuration as it is delivered every event is generated, and the
    levels select the errors, and the operations of the threads. *)
Theorem default_events e : e ∈ rtx_events →
  generated default_build e = true ∧
  level_selects (evr_level RTX_Config (ev_component e)) e
    = bool_decide (ev_kind e = EvError ∨ ev_kind e = EvOp ∧ ev_component e = EvtRtxThread).
Proof. revert e. apply (check_events _). vm_compute. reflexivity. Qed.
