(* ===== verification/BuildConfig.v ===== *)
(** * Configuration headers: config_test_psa_api.h and erpc_config.h

    The headers as programs of preprocessor directives over the macros that the
    build defines, with the rule of C that a macro cannot be defined again with
    another value.  The directives run one after the other; [defaults] reads all
    conditions at the start, and the theorems say when that is the same. *)

From S2P Require Import Prelude.
Local Open Scope string_scope.

(** ** Directives *)

Inductive value :=
  | Empty
  | Int (z : Z)
  | Macro (name : string).

#[global] Instance value_eq_dec : EqDecision value.
Proof. solve_decision. Defined.

Inductive directives :=
  | Skip
  | Define (x : string) (v : value)
  | Ifdef (x : string) (defd undefd : directives)
  | Seq (p q : directives).

Declare Scope cpp_scope.
Delimit Scope cpp_scope with cpp.
Bind Scope cpp_scope with directives.
Notation "p ;; q" := (Seq p q) (at level 100, q at level 200, right associativity) : cpp_scope.
Local Open Scope cpp_scope.

Definition Ifndef (x : string) (undefd defd : directives) : directives := Ifdef x defd undefd.

(** [#ifndef x / #define x v / #endif] *)
Definition option_default (x : string) (v : value) : directives := Ifndef x (Define x v) Skip.

Abbreviation env := (gmap string value).

(** [None] is a macro that is defined again as something else. *)
Fixpoint run (p : directives) (e : env) : option env :=
  match p with
  | Skip => Some e
  | Define x v =>
      match e !! x with
      | None => Some (<[x := v]> e)
      | Some v' => if decide (v = v') then Some e else None
      end
  | Ifdef x a b => if e !! x is Some _ then run a e else run b e
  | p ;; q => run p e ≫= run q
  end.

(** The integer that a macro stands for; [fuel] bounds the macros on the way. *)
Fixpoint eval (fuel : nat) (e : env) (x : string) : option Z :=
  match fuel with
  | O => None
  | S n => match e !! x with Some (Int z) => Some z | Some (Macro y) => eval n e y | _ => None end
  end.

(** ** The headers *)

Definition platform_options : directives :=
  option_default "PLATFORM_SERVICE_INPUT_BUFFER_SIZE" (Int 64) ;;
  option_default "PLATFORM_SERVICE_OUTPUT_BUFFER_SIZE" (Int 64) ;;
  option_default "PLATFORM_SP_STACK_SIZE" (Int 0x500) ;;
  option_default "PLATFORM_NV_COUNTER_MODULE_DISABLED" (Int 0).

Definition crypto_options : directives :=
  option_default "CRYPTO_ENGINE_BUF_SIZE" (Int 0x5000) ;;
  option_default "CRYPTO_CONC_OPER_NUM" (Int 8) ;;
  option_default "CRYPTO_RNG_MODULE_ENABLED" (Int 1) ;;
  option_default "CRYPTO_KEY_MODULE_ENABLED" (Int 1) ;;
  option_default "CRYPTO_AEAD_MODULE_ENABLED" (Int 1) ;;
  option_default "CRYPTO_MAC_MODULE_ENABLED" (Int 1) ;;
  option_default "CRYPTO_HASH_MODULE_ENABLED" (Int 1) ;;
  option_default "CRYPTO_CIPHER_MODULE_ENABLED" (Int 1) ;;
  option_default "CRYPTO_ASYM_SIGN_MODULE_ENABLED" (Int 1) ;;
  option_default "CRYPTO_ASYM_ENCRYPT_MODULE_ENABLED" (Int 1) ;;
  option_default "CRYPTO_KEY_DERIVATION_MODULE_ENABLED" (Int 1) ;;
  option_default "CRYPTO_IOVEC_BUFFER_SIZE" (Int 5120) ;;
  option_default "CRYPTO_NV_SEED" (Int 1) ;;
  option_default "CRYPTO_SINGLE_PART_FUNCS_DISABLED" (Int 0) ;;
  option_default "CRYPTO_STACK_SIZE" (Int 0x1B00).

Definition fwu_options : directives :=
  option_default "TFM_FWU_BUF_SIZE" (Macro "PSA_FWU_MAX_WRITE_SIZE") ;;
  option_default "FWU_STACK_SIZE" (Int 0x600).

Definition attest_options : directives :=
  option_default "ATTEST_INCLUDE_OPTIONAL_CLAIMS" (Int 1) ;;
  option_default "ATTEST_INCLUDE_COSE_KEY_ID" (Int 0) ;;
  option_default "ATTEST_STACK_SIZE" (Int 0x800) ;;
  option_default "ATTEST_TOKEN_PROFILE_PSA_IOT_1" (Int 1).

Definition its_options : directives :=
  option_default "ITS_CREATE_FLASH_LAYOUT" (Int 1) ;;
  option_default "ITS_RAM_FS" (Int 0) ;;
  option_default "ITS_VALIDATE_METADATA_FROM_FLASH" (Int 1) ;;
  Ifndef "ITS_MAX_ASSET_SIZE"
    (Ifdef "PSA_API_TEST_CRYPTO"
       (Define "ITS_MAX_ASSET_SIZE" (Int 1229))
       (Define "ITS_MAX_ASSET_SIZE" (Int 512)))
    (Skip) ;;
  option_default "ITS_BUF_SIZE" (Macro "ITS_MAX_ASSET_SIZE") ;;
  option_default "ITS_NUM_ASSETS" (Int 10) ;;
  option_default "ITS_STACK_SIZE" (Int 0x720).

Definition ps_options : directives :=
  option_default "PS_CREATE_FLASH_LAYOUT" (Int 1) ;;
  option_default "PS_RAM_FS" (Int 0) ;;
  option_default "PS_ROLLBACK_PROTECTION" (Int 1) ;;
  option_default "PS_VALIDATE_METADATA_FROM_FLASH" (Int 1) ;;
  option_default "PS_MAX_ASSET_SIZE" (Int 2048) ;;
  option_default "PS_NUM_ASSETS" (Int 10) ;;
  option_default "PS_STACK_SIZE" (Int 0x700) ;;
  option_default "NS_AGENT_MAILBOX_STACK_SIZE" (Int 0x800).

Definition spm_options : directives :=
  Ifdef "CONFIG_TFM_CONNECTION_POOL_ENABLE"
    (option_default "CONFIG_TFM_CONN_HANDLE_MAX_NUM" (Int 8))
    (Skip) ;;
  Ifndef "CONFIG_TFM_DOORBELL_API"
    (Ifdef "PSA_API_TEST_IPC"
       (Define "CONFIG_TFM_DOORBELL_API" (Int 1))
       (Define "CONFIG_TFM_DOORBELL_API" (Int 0)))
    (Skip).

Definition config_test_psa_api : directives :=
  Ifndef "__CONFIG_TEST_PSA_API_H__"
    (Define "__CONFIG_TEST_PSA_API_H__" Empty ;;
     platform_options ;; crypto_options ;; fwu_options ;; attest_options ;; its_options ;; ps_options ;; spm_options)
    Skip.

(** The constants of the two erpc_config.h, which are the same in both. *)
Definition erpc_constants : directives :=
  Define "ERPC_ALLOCATION_POLICY_DYNAMIC" (Int 0) ;;
  Define "ERPC_ALLOCATION_POLICY_STATIC" (Int 1) ;;
  Define "ERPC_THREADS_NONE" (Int 0) ;;
  Define "ERPC_THREADS_PTHREADS" (Int 1) ;;
  Define "ERPC_THREADS_FREERTOS" (Int 2) ;;
  Define "ERPC_THREADS_ZEPHYR" (Int 3) ;;
  Define "ERPC_THREADS_MBED" (Int 4) ;;
  Define "ERPC_THREADS_WIN32" (Int 5) ;;
  Define "ERPC_THREADS_THREADX" (Int 6) ;;
  Define "ERPC_NOEXCEPT_DISABLED" (Int 0) ;;
  Define "ERPC_NOEXCEPT_ENABLED" (Int 1) ;;
  Define "ERPC_NESTED_CALLS_DISABLED" (Int 0) ;;
  Define "ERPC_NESTED_CALLS_ENABLED" (Int 1) ;;
  Define "ERPC_NESTED_CALLS_DETECTION_DISABLED" (Int 0) ;;
  Define "ERPC_NESTED_CALLS_DETECTION_ENABLED" (Int 1) ;;
  Define "ERPC_MESSAGE_LOGGING_DISABLED" (Int 0) ;;
  Define "ERPC_MESSAGE_LOGGING_ENABLED" (Int 1) ;;
  Define "ERPC_TRANSPORT_MU_USE_MCMGR_DISABLED" (Int 0) ;;
  Define "ERPC_TRANSPORT_MU_USE_MCMGR_ENABLED" (Int 1) ;;
  Define "ERPC_PRE_POST_ACTION_DISABLED" (Int 0) ;;
  Define "ERPC_PRE_POST_ACTION_ENABLED" (Int 1) ;;
  Define "ERPC_PRE_POST_ACTION_DEFAULT_DISABLED" (Int 0) ;;
  Define "ERPC_PRE_POST_ACTION_DEFAULT_ENABLED" (Int 1).

Definition erpc_config_client : directives :=
  Ifndef "_ERPC_CONFIG_H_"
    (Define "_ERPC_CONFIG_H_" Empty ;; erpc_constants ;;
     Define "ERPC_DEFAULT_BUFFER_SIZE" (Int 3072))
    Skip.

Definition erpc_config_server : directives :=
  Ifndef "_ERPC_CONFIG_H_"
    (Define "_ERPC_CONFIG_H_" Empty ;; erpc_constants ;;
     Define "ERPC_THREADS" (Macro "ERPC_THREADS_NONE") ;;
     Define "ERPC_DEFAULT_BUFFER_SIZE" (Int 3072))
    Skip.


(** ** Reading the conditions at the start *)

Fixpoint defaults (e : env) (p : directives) : list (string * value) :=
  match p with
  | Skip => []
  | Define x v => [(x, v)]
  | Ifdef x a b => if e !! x is Some _ then defaults e a else defaults e b
  | p ;; q => (defaults e p ++ defaults e q)%list
  end.

Fixpoint writes (p : directives) : list string :=
  match p with
  | Skip => []
  | Define x _ => [x]
  | Ifdef _ a b => writes a ++ writes b
  | p ;; q => writes p ++ writes q
  end%list.

Fixpoint names (p : directives) : list string :=
  match p with
  | Skip => []
  | Define x _ => [x]
  | Ifdef x a b => x :: names a ++ names b
  | p ;; q => names p ++ names q
  end%list.

(** [ordered U p]: where the macros of [U] are not defined, no directive of [p]
    depends on one before it and no macro is defined twice. *)
Fixpoint ordered (U : list string) (p : directives) : bool :=
  match p with
  | Skip => true
  | Define x _ => bool_decide (x ∈ U)
  | Ifdef x a b => ordered U a && ordered (x :: U) b
  | p ;; q => ordered U p && forallb (λ x, bool_decide (x ∉ names q)) (writes p) && ordered U q
  end.

(** [covers x p]: [x] is defined after [p], whatever the build defines. *)
Fixpoint covers (x : string) (p : directives) : bool :=
  match p with
  | Skip => false
  | Define y _ => bool_decide (x = y)
  | Ifdef y a b => (bool_decide (x = y) || covers x a) && covers x b
  | p ;; q => covers x p || covers x q
  end.

Definition psa_body : directives :=
  Define "__CONFIG_TEST_PSA_API_H__" Empty ;;
  platform_options ;; crypto_options ;; fwu_options ;; attest_options ;; its_options ;; ps_options ;; spm_options.

(** The options that every build has after the header. *)
Definition psa_options : list string :=
  List.filter (λ x, negb (String.eqb x "CONFIG_TFM_CONN_HANDLE_MAX_NUM")) (writes psa_body).

Definition is_defined (e : env) (x : string) : bool := bool_decide (is_Some (e !! x)).

Lemma defaults_agree p e e' : (∀ x, x ∈ names p → e !! x = e' !! x) → defaults e p = defaults e' p.
Proof.
  induction p as [|x v|x a IHa b IHb|p IHp q IHq]; simpl; intros H; try done.
  - rewrite <-(H x) by set_solver. destruct (e !! x); [apply IHa|apply IHb]; set_solver.
  - rewrite IHp, IHq by set_solver. done.
Qed.

Lemma defaults_writes p e x : x ∉ writes p → (list_to_map (defaults e p) : env) !! x = None.
Proof.
  intros Hx. apply not_elem_of_list_to_map_1. intros Hin. apply Hx. clear Hx. revert Hin.
  induction p as [|y v|y a IHa b IHb|p IHp q IHq]; simpl; rewrite ?fmap_app; try set_solver.
  destruct (e !! y); set_solver.
Qed.

(** Under that condition the header defines its defaults all at once, and the
    macros of the build win. *)
Lemma run_defaults U p e :
  ordered U p = true → (∀ x, x ∈ U → x ∈ names p → e !! x = None) →
  run p e = Some (e ∪ list_to_map (defaults e p)).
Proof.
  revert U e. induction p as [|x v|x a IHa b IHb|p IHp q IHq]; intros U e; simpl; intros Hp HU.
  - by rewrite (right_id_L ∅ (∪)).
  - apply bool_decide_eq_true in Hp. rewrite HU by set_solver. f_equal.
    rewrite insert_union_singleton_r; [|apply HU; set_solver]. done.
  - apply andb_true_iff in Hp as [Ha Hb]. destruct (e !! x) eqn:Hx.
    + apply (IHa U); [done|set_solver].
    + apply (IHb (x :: U)); [done|]. intros y [->|Hy]%elem_of_cons Hn; [done|]. apply HU; set_solver.
  - apply andb_true_iff in Hp as [Hp Hq], Hp as [Hp Hd]. rewrite forallb_forall in Hd.
    assert (Hdis : ∀ x, x ∈ names q → x ∉ writes p).
    { intros x Hx Hw. apply list_elem_of_In, Hd, bool_decide_eq_true in Hw. done. }
    assert (Hag : ∀ x, x ∈ names q → (e ∪ list_to_map (defaults e p)) !! x = e !! x).
    { intros x Hx. rewrite lookup_union, defaults_writes by auto. by destruct (e !! x). }
    rewrite (IHp U e) by (done || set_solver). simpl.
    rewrite (IHq U) by (done || (intros x HxU Hx; rewrite Hag by done; apply HU; set_solver)).
    rewrite (defaults_agree q _ e) by done. by rewrite list_to_map_app, (assoc_L (∪)).
Qed.

Lemma covers_defaults x p e :
  covers x p = true → is_Some (e !! x) ∨ is_Some ((list_to_map (defaults e p) : env) !! x).
Proof.
  induction p as [|y v|y a IHa b IHb|p IHp q IHq]; simpl; intros H; try done.
  - apply bool_decide_eq_true in H as ->. right. rewrite lookup_insert_eq. done.
  - apply andb_true_iff in H as [[->%bool_decide_eq_true|Ha]%orb_true_iff Hb]; destruct (e !! y) eqn:Hy; eauto.
  - rewrite list_to_map_app, lookup_union_is_Some. apply orb_true_iff in H as [H|H]; naive_solver.
Qed.

(** Looking up one macro among the defaults of a header. *)
Abbreviation default_of e p x := ((list_to_map (defaults e p) : env) !! x).

Lemma default_skip e p q x :
  bool_decide (x ∈ writes p) = false → default_of e (p ;; q) x = default_of e q x.
Proof.
  intros Hx%bool_decide_eq_false. simpl. rewrite list_to_map_app, lookup_union, defaults_writes by done. by destruct (_ !! x).
Qed.

Lemma default_seq e p q x :
  bool_decide (x ∈ writes q) = false → default_of e (p ;; q) x = default_of e p x.
Proof.
  intros Hx%bool_decide_eq_false. simpl. rewrite list_to_map_app, lookup_union, (defaults_writes q) by done. by destruct (_ !! x).
Qed.

Lemma default_option e x v : e !! x = None → default_of e (option_default x v) x = Some v.
Proof. intros Hx. unfold option_default. simpl. rewrite Hx. simpl. by rewrite lookup_insert_eq. Qed.

Ltac find_default :=
  repeat (rewrite default_skip by (vm_compute; reflexivity)); try (rewrite default_seq by (vm_compute; reflexivity)).

Lemma run_psa e : e !! "__CONFIG_TEST_PSA_API_H__" = None →
  run config_test_psa_api e = Some (e ∪ list_to_map (defaults e psa_body)).
Proof.
  intros He. rewrite (run_defaults [] config_test_psa_api e); [|vm_compute; reflexivity|set_solver].
  unfold config_test_psa_api, Ifndef. cbn [defaults]. by rewrite He.
Qed.

Lemma psa_lookup e e' x v :
  e !! "__CONFIG_TEST_PSA_API_H__" = None → run config_test_psa_api e = Some e' →
  (e !! x = None → default_of e psa_body x = v) → e' !! x = match e !! x with Some w => Some w | None => v end.
Proof.
  intros He. rewrite run_psa by done. intros Hr Hv. apply (inj Some) in Hr as <-. rewrite lookup_union.
  destruct (e !! x); [by destruct (_ !! x)|]. rewrite Hv by done. by destruct v.
Qed.

Lemma psa_covers e x : x ∈ psa_options → is_Some ((e ∪ list_to_map (defaults e psa_body)) !! x).
Proof.
  intros Hx. rewrite lookup_union_is_Some. apply covers_defaults. revert x Hx.
  assert (forallb (λ x, covers x psa_body) psa_options = true) as Hall by (vm_compute; reflexivity).
  intros x Hx. apply (proj1 (forallb_forall _ _) Hall), list_elem_of_In, Hx.
Qed.

(** config_test_psa_api.h never fails and never changes what the build
    defines, whatever that is; a second inclusion does nothing.  After it every
    option is defined; the largest ITS asset is the build's or that of the API
    tests, the transfer buffer of ITS holds the largest asset unless the build
    says otherwise, the doorbell follows the IPC tests, and the number of
    handles is there exactly with a pool of connections. *)
Theorem psa_api_config e :
  e !! "__CONFIG_TEST_PSA_API_H__" = None →
  ∃ e', run config_test_psa_api e = Some e' ∧ e ⊆ e' ∧ run config_test_psa_api e' = Some e'
  ∧ (∀ x, x ∈ psa_options → is_Some (e' !! x))
  ∧ e' !! "ITS_MAX_ASSET_SIZE" = Some (default (Int (if is_defined e "PSA_API_TEST_CRYPTO" then 1229 else 512)) (e !! "ITS_MAX_ASSET_SIZE"))
  ∧ (e !! "ITS_BUF_SIZE" = None → ∀ n, eval (S n) e' "ITS_BUF_SIZE" = eval n e' "ITS_MAX_ASSET_SIZE")
  ∧ e' !! "CONFIG_TFM_DOORBELL_API" = Some (default (Int (if is_defined e "PSA_API_TEST_IPC" then 1 else 0)) (e !! "CONFIG_TFM_DOORBELL_API"))
  ∧ is_defined e' "CONFIG_TFM_CONN_HANDLE_MAX_NUM"
    = is_defined e "CONFIG_TFM_CONN_HANDLE_MAX_NUM" || is_defined e "CONFIG_TFM_CONNECTION_POOL_ENABLE".
Proof.
  intros He. pose proof (run_psa e He) as Hrun. pose proof (psa_covers e) as Hcov.
  eexists. split; [exact Hrun|]. split; [apply map_union_subseteq_l|]. split.
  { unfold config_test_psa_api, Ifndef. cbn [run].
    destruct (Hcov "__CONFIG_TEST_PSA_API_H__") as [? ->]; [|done]. apply list_elem_of_In. vm_compute. tauto. }
  split; [exact Hcov|]. set (e' := e ∪ _) in *.
  split; [|split; [|split]].
  - rewrite (psa_lookup e e' _ (Some (Int (if is_defined e "PSA_API_TEST_CRYPTO" then 1229 else 512))) He Hrun).
    { by destruct (e !! "ITS_MAX_ASSET_SIZE"). }
    intros Hx. unfold psa_body. find_default. unfold its_options. find_default.
    unfold Ifndef, is_defined. cbn [defaults]. rewrite Hx. by destruct (e !! "PSA_API_TEST_CRYPTO").
  - intros Hx n. cbn [eval].
    rewrite (psa_lookup e e' _ (Some (Macro "ITS_MAX_ASSET_SIZE")) He Hrun); [by rewrite Hx|].
    intros _. unfold psa_body. find_default. unfold its_options. find_default. by apply default_option.
  - rewrite (psa_lookup e e' _ (Some (Int (if is_defined e "PSA_API_TEST_IPC" then 1 else 0))) He Hrun).
    { by destruct (e !! "CONFIG_TFM_DOORBELL_API"). }
    intros Hx. unfold psa_body. find_default. unfold spm_options. find_default.
    unfold Ifndef, is_defined. cbn [defaults]. rewrite Hx. by destruct (e !! "PSA_API_TEST_IPC").
  - unfold is_defined at 1.
    rewrite (psa_lookup e e' _ (if is_defined e "CONFIG_TFM_CONNECTION_POOL_ENABLE" then Some (Int 8) else None) He Hrun).
    { unfold is_defined. destruct (e !! "CONFIG_TFM_CONN_HANDLE_MAX_NUM"); [done|].
      by destruct (e !! "CONFIG_TFM_CONNECTION_POOL_ENABLE"). }
    intros Hx. unfold psa_body. find_default. unfold spm_options. find_default.
    unfold option_default, Ifndef, is_defined. cbn [defaults]. rewrite Hx. by destruct (e !! "CONFIG_TFM_CONNECTION_POOL_ENABLE").
Qed.

Lemma psa_api_config_witness : ∃ e',
  run config_test_psa_api {["PSA_API_TEST_CRYPTO" := Empty]} = Some e' ∧ eval 2 e' "ITS_BUF_SIZE" = Some 1229%Z.
Proof.
  destruct (psa_api_config {["PSA_API_TEST_CRYPTO" := Empty]}) as (e' & Hr & _ & _ & _ & Hm & Hb & _); [reflexivity|].
  exists e'. split; [exact Hr|]. rewrite (Hb eq_refl). cbn [eval]. rewrite Hm. reflexivity.
Defined.

(** ** The two sides of the RPC *)

(** A header of eRPC on a build that defines none of its names. *)
Lemma run_erpc p e :
  e !! "_ERPC_CONFIG_H_" = None → (∀ x, x ∈ names p → e !! x = None) → ordered (names p) p = true →
  run p e = Some (e ∪ list_to_map (defaults e p)).
Proof. intros Hg He Hp. by apply (run_defaults (names p)); [|auto]. Qed.

(** Client and server use the same options but for the threads: the client
    leaves eRPC to detect them, the server has none. *)
Theorem erpc_configs_agree e :
  (∀ x, x ∈ names erpc_config_server → e !! x = None) →
  ∃ ec es, run erpc_config_client e = Some ec ∧ run erpc_config_server e = Some es
  ∧ (∀ x, x ≠ "ERPC_THREADS" → ec !! x = es !! x)
  ∧ ec !! "ERPC_THREADS" = None ∧ eval 2 es "ERPC_THREADS" = Some 0%Z
  ∧ eval 1 ec "ERPC_DEFAULT_BUFFER_SIZE" = Some 3072%Z.
Proof.
  intros He.
  assert (Hg : e !! "_ERPC_CONFIG_H_" = None) by (apply He, list_elem_of_In; vm_compute; tauto).
  assert (Hsub : ∀ x, x ∈ names erpc_config_client → x ∈ names erpc_config_server).
  { assert (forallb (λ x, bool_decide (x ∈ names erpc_config_server)) (names erpc_config_client) = true) as Hall
      by (vm_compute; reflexivity).
    intros x Hx%list_elem_of_In. by apply (proj1 (forallb_forall _ _) Hall), bool_decide_eq_true in Hx. }
  rewrite (run_erpc erpc_config_client), (run_erpc erpc_config_server) by (auto || (vm_compute; reflexivity)).
  eexists _, _. split; [done|]. split; [done|].
  rewrite (defaults_agree _ e ∅), (defaults_agree erpc_config_server e ∅) by (intros; rewrite lookup_empty; auto).
  assert (Heq : (list_to_map (defaults ∅ erpc_config_client) : env)
    = delete "ERPC_THREADS" (list_to_map (defaults ∅ erpc_config_server)))
    by (apply (bool_decide_unpack _); vm_compute; exact I).
  assert (Hl : ∀ (m : env) x, e !! x = None → (e ∪ m) !! x = m !! x)
    by (intros m x Hx; rewrite lookup_union, Hx; by destruct (m !! x)).
  assert (Ht : ∀ x, bool_decide (x ∈ names erpc_config_server) = true → e !! x = None)
    by (intros x Hx%bool_decide_eq_true; auto).
  split; [intros x Hx; by rewrite Heq, !lookup_union, lookup_delete_ne|].
  split; [rewrite Hl by (apply Ht; reflexivity); by rewrite Heq, lookup_delete_eq|].
  split; cbn [eval]; rewrite Hl by (apply Ht; reflexivity); [|vm_compute; reflexivity].
  replace (_ !! "ERPC_THREADS") with (Some (Macro "ERPC_THREADS_NONE")) by (vm_compute; reflexivity).
  rewrite Hl by (apply Ht; reflexivity). vm_compute. reflexivity.
Qed.
