(* ===== verification/MultiCore.v ===== *)
(** * The multi-core test suite

    lib/multi_core/tfm_ns_mailbox_test.c, the statistics of the NS mailbox, and
    tests_reg/test/secure_fw/suites/multi_core/non_secure: threads that call the
    secure side at the same time.  A thread is a program point and a step from
    it, a step is a call or an access to memory that the threads share, and a
    schedule says which thread makes the next step.  What only its own thread
    reads until it has completed (its result, its ticks) is written in the step
    of the call before. *)

From S2P Require Import Prelude LogRaw TestFramework TestProg PsaStorage Cmsis OsWrapperApi Mailbox.
Local Open Scope Z_scope.

(** ** tfm_ns_mailbox_test.c *)

(** The two counters of [struct ns_mailbox_queue_t], which is declared outside
    the repository. *)
Record ns_queue_stats := mkStats { nr_tx : Z; nr_used_slots : Z }.

Record ns_mailbox_stats_res_t := mkStatsRes { avg_nr_slots : Z; avg_nr_slots_tenths : Z }.

(** [stats_queue_ptr]: the counters of the queue it points to. *)
Definition stats_ptr : Type := option ns_queue_stats.

Section stats.
  Context {MC : MailboxConsts}.
  Implicit Types p : stats_ptr.

Definition tfm_ns_mailbox_tx_stats_init (ns_queue : stats_ptr) p : stats_ptr :=
  match ns_queue with None => p | Some _ => Some (mkStats 0 0) end.

Definition tfm_ns_mailbox_tx_stats_reinit p : Z * stats_ptr :=
  match p with None => (MAILBOX_INVAL_PARAMS, p) | Some _ => (MAILBOX_SUCCESS, Some (mkStats 0 0)) end.

(** The loop over the slots: [uint8_t nr_empty]. *)
Definition count_empty (empty_status : Z) : Z :=
  foldl (fun nr_empty idx => if negb (Z.land empty_status (Z.shiftl 1 idx) =? 0) then u8 (nr_empty + 1) else nr_empty)
    0 (seqZ 0 NUM_MAILBOX_QUEUE_SLOT).

(** [empty_status] is the set of empty slots of the queue at the call. *)
Definition tfm_ns_mailbox_tx_stats_update (empty_status : Z) p : stats_ptr :=
  match p with
  | None => None
  | Some s =>
      let nr_empty := if negb (empty_status =? 0) then count_empty empty_status else 0 in
      Some (mkStats (u32 (nr_tx s + 1)) (u32 (nr_used_slots s + (NUM_MAILBOX_QUEUE_SLOT - nr_empty))))
  end.

(** What the call leaves in [*stats_res]; a division by zero is undefined. *)
Definition tfm_ns_mailbox_stats_avg_slot (stats_res : option ns_mailbox_stats_res_t) p :
    option (option ns_mailbox_stats_res_t) :=
  match p with
  | None => Some stats_res
  | Some s =>
      if nr_tx s =? 0 then None
      else Some (Some (mkStatsRes (nr_used_slots s / nr_tx s)
                                  (u32 (nr_used_slots s mod nr_tx s * 10) / nr_tx s)))
  end.
End stats.

(** ** The environment *)

(** psa/client.h: the version call. *)
Class PsaVersion (W : Type) := {
  PSA_FRAMEWORK_VERSION : Z;
  psa_framework_version : call_of W Z;
}.

(** The scheduler makes a thread the running one; [empty_slots] is the status
    of the mailbox queue, from which the mailbox library updates the statistics
    at each call of the secure side. *)
Class MultiCoreOs (W : Type) := {
  switch : Z -> W -> W;
  empty_slots : W -> Z;
}.

(** ** Test threads *)

Definition MAX_NR_LIGHT_TEST_ROUND : Z := 0x200.
Definition MAX_NR_HEAVY_TEST_ROUND : Z := 0x20.
Definition MULTI_CALL_LIGHT_TEST_STACK_SIZE : Z := 0x200.
Definition MULTI_CALL_HEAVY_TEST_STACK_SIZE : Z := 0x300.
Definition TEST_UID_1 : Z := 2.
Definition ITS_DATA : list Z := cstr "ITSDataForMultiCore".
Definition ITS_DATA_LEN : Z := sizeof ITS_DATA.

(** [(uint32_t)(0x1UL << (x))] *)
Definition TEST_CHILD_EVENT_FLAG (x : Z) : Z := u32 (Z.shiftl 1 x).

(** [None]: a member that has not been written. *)
Record test_params := mkParams {
  child_idx : Z;
  nr_rounds : Z;
  nr_calls : option Z;
  p_mutex_handle : handle;
  p_ret : option test_status_t;
  p_total_ticks : option Z;
  is_complete : bool;
  is_parent : bool;
}.

Inductive test_runner :=
  | multi_client_call_light_runner
  | multi_client_call_heavy_runner
  | multi_client_call_ooo_runner.

(** The points of a runner.  [LightCall t0 i] is the head of the loop of
    [multi_client_call_light_loop] with the first tick [t0]; likewise
    [HeavySet], and the two calls after it in its body. *)
Inductive runner_pc :=
  | WaitFlag
  | LoopStart
  | LightCall (t0 i : Z)
  | HeavySet (t0 i : Z)
  | HeavyGet (t0 i : Z)
  | HeavyRemove (t0 i : Z)
  | AcquireMutex
  | MarkComplete
  | ReleaseMutex
  | RunnerEnd.

#[export] Instance runner_pc_eq_dec : EqDecision runner_pc.
Proof. solve_decision. Defined.

(** The points of [multi_client_call_test] and of [wait_child_thread_completion]. *)
Inductive parent_pc :=
  | Setup
  | CreateChild (i : nat)
  | ActivateChild (i : nat)
  | RunTest (pc : runner_pc)
  | WaitAcquire (i : nat)
  | WaitRead (i : nat)
  | WaitRelease (i : nat) (complete : bool)
  | ParentEnd.

(** The local variables of the parent, the log and the world. *)
Record mem (W : Type) := mkMem {
  m_world : W;
  stats : stats_ptr;
  params : list test_params;
  parent_params : test_params;
  mutex_handle : handle;
  current_thread : handle * Z;
  child_ids : list Z;
  m_ret : test_result_t;
  m_log : list log_event;
}.
Arguments mkMem {W} _ _ _ _ _ _ _ _ _.
Arguments m_world {W} _.
Arguments stats {W} _.
Arguments params {W} _.
Arguments parent_params {W} _.
Arguments mutex_handle {W} _.
Arguments current_thread {W} _.
Arguments child_ids {W} _.
Arguments m_ret {W} _.
Arguments m_log {W} _.

Inductive outcome_of (A : Type) := Undefined | Waits | Next (a : A).
Arguments Undefined {A}.
Arguments Waits {A}.
Arguments Next {A} _.

(** The arguments of [multi_client_call_test]. *)
Record multi_call := mkMultiCall {
  mc_runner : test_runner;
  mc_stack_size : Z;
  mc_nr_rounds : Z;
  mc_is_mixed : bool;
}.

Definition multi_client_call_light_test : multi_call :=
  mkMultiCall multi_client_call_light_runner MULTI_CALL_LIGHT_TEST_STACK_SIZE MAX_NR_LIGHT_TEST_ROUND false.
Definition multi_client_call_heavy_test : multi_call :=
  mkMultiCall multi_client_call_heavy_runner MULTI_CALL_HEAVY_TEST_STACK_SIZE MAX_NR_HEAVY_TEST_ROUND false.
Definition multi_client_call_ooo_test : multi_call :=
  mkMultiCall multi_client_call_ooo_runner MULTI_CALL_HEAVY_TEST_STACK_SIZE MAX_NR_HEAVY_TEST_ROUND true.

Section multi_core.
  Context {PC : PsaConsts} {MC : MailboxConsts} {WC : OsWrapperConsts}.
  Context {W : Type} {SS : StorageService W} {PV : PsaVersion W} {MO : MultiCoreOs W}.
  Context {OT : OsWrapperThread W} {OM : OsWrapperMutex W} {OK : OsWrapperTick W}.
  (** Where the entry of a runner and the parameters of a child are, and the
      file's name in the log. *)
  Variables (entry : test_runner -> Z) (address : nat -> Z) (__FILE__ : string).
  Abbreviation mem := (mem W).
  Implicit Types m : mem.

Definition NR_MULTI_CALL_CHILD : Z := if NUM_MAILBOX_QUEUE_SLOT >? 1 then NUM_MAILBOX_QUEUE_SLOT * 2 else 0.

Definition with_world (w : W) m : mem :=
  mkMem w (stats m) (params m) (parent_params m) (mutex_handle m) (current_thread m) (child_ids m) (m_ret m) (m_log m).
Definition with_stats (s : stats_ptr) m : mem :=
  mkMem (m_world m) s (params m) (parent_params m) (mutex_handle m) (current_thread m) (child_ids m) (m_ret m) (m_log m).
Definition with_params (ps : list test_params) m : mem :=
  mkMem (m_world m) (stats m) ps (parent_params m) (mutex_handle m) (current_thread m) (child_ids m) (m_ret m) (m_log m).
Definition with_parent_params (p : test_params) m : mem :=
  mkMem (m_world m) (stats m) (params m) p (mutex_handle m) (current_thread m) (child_ids m) (m_ret m) (m_log m).
Definition with_locals (h : handle) (t : handle * Z) m : mem :=
  mkMem (m_world m) (stats m) (params m) (parent_params m) h t (child_ids m) (m_ret m) (m_log m).
Definition with_child_ids (ids : list Z) m : mem :=
  mkMem (m_world m) (stats m) (params m) (parent_params m) (mutex_handle m) (current_thread m) ids (m_ret m) (m_log m).
Definition with_ret (r : test_result_t) m : mem :=
  mkMem (m_world m) (stats m) (params m) (parent_params m) (mutex_handle m) (current_thread m) (child_ids m) r (m_log m).
Definition LOG (fmt : string) (args : list va_arg) m : mem :=
  mkMem (m_world m) (stats m) (params m) (parent_params m) (mutex_handle m) (current_thread m) (child_ids m) (m_ret m)
    (m_log m ++ [(fmt, args)]).

(** A call of the secure side through the mailbox. *)
Definition psa_tx {A} (f : W -> A * W) m : A * mem :=
  let m := with_stats (tfm_ns_mailbox_tx_stats_update (empty_slots (m_world m)) (stats m)) m in
  let '(a, w) := f (m_world m) in (a, with_world w m).

(** [self]: the child with this index, or the parent. *)
Definition get_params (self : option nat) m : option test_params :=
  match self with None => Some (parent_params m) | Some i => params m !! i end.
Definition put_params (self : option nat) (p : test_params) m : mem :=
  match self with None => with_parent_params p m | Some i => with_params (<[i := p]> (params m)) m end.

(** The end of a loop: [params->ret = ...], and the first statement after it. *)
Definition loop_failed (self : option nat) (p : test_params) (msg : string) m : outcome_of (runner_pc * mem) :=
  Next (if is_parent p then RunnerEnd else AcquireMutex,
    LOG (msg ++ crlf) [] (put_params self (mkParams (child_idx p) (nr_rounds p) (nr_calls p) (p_mutex_handle p)
      (Some TEST_FAILED) (p_total_ticks p) (is_complete p) (is_parent p)) m)).

Definition loop_passed (self : option nat) (p : test_params) (t0 calls : Z) m : outcome_of (runner_pc * mem) :=
  let '(t, w) := os_wrapper_get_tick (m_world m) in
  Next (if is_parent p then RunnerEnd else AcquireMutex,
    put_params self (mkParams (child_idx p) (nr_rounds p) (Some (u32 calls)) (p_mutex_handle p)
      (Some TEST_PASSED) (Some (u32 (t - t0))) (is_complete p) (is_parent p)) (with_world w m)).

(** [!params->child_idx % 2]: the negation binds stronger. *)
Definition ooo_heavy (p : test_params) : bool :=
  negb (Z.rem (if child_idx p =? 0 then 1 else 0) 2 =? 0).

Definition runs_heavy (k : test_runner) (p : test_params) : bool :=
  match k with
  | multi_client_call_light_runner => false
  | multi_client_call_heavy_runner => true
  | multi_client_call_ooo_runner => ooo_heavy p
  end.

(** [params->nr_rounds *= 20] of the out-of-order runner. *)
Definition loop_params (k : test_runner) (p : test_params) : test_params :=
  match k with
  | multi_client_call_ooo_runner =>
      if ooo_heavy p then p
      else mkParams (child_idx p) (u32 (nr_rounds p * 20)) (nr_calls p) (p_mutex_handle p) (p_ret p)
             (p_total_ticks p) (is_complete p) (is_parent p)
  | _ => p
  end.

(** [const psa_storage_uid_t uid = TEST_UID_1 + params->child_idx]: unsigned. *)
Definition test_uid (p : test_params) : Z := u32 (TEST_UID_1 + child_idx p).

Definition runner_step (k : test_runner) (self : option nat) (pc : runner_pc) m : outcome_of (runner_pc * mem) :=
  match pc, get_params self m with
  | RunnerEnd, _ => Waits
  | _, None => Undefined
  | _, Some p =>
    match pc with
    | WaitFlag =>
        match os_wrapper_thread_wait_flag (TEST_CHILD_EVENT_FLAG (child_idx p)) OS_WRAPPER_WAIT_FOREVER (m_world m) with
        | None => Waits
        | Some (_, w) => Next (LoopStart, with_world w m)
        end
    | LoopStart =>
        let m := put_params self (loop_params k p) m in
        let '(t0, w) := os_wrapper_get_tick (m_world m) in
        Next (if runs_heavy k p then HeavySet t0 0 else LightCall t0 0, with_world w m)
    | LightCall t0 i =>
        if i <? nr_rounds p then
          let '(version, m) := psa_tx psa_framework_version m in
          if negb (version =? PSA_FRAMEWORK_VERSION)
          then loop_failed self p "Incorrect PSA framework version!" m
          else Next (LightCall t0 (i + 1), m)
        else loop_passed self p t0 (nr_rounds p) m
    | HeavySet t0 i =>
        if i <? nr_rounds p then
          let '(status, m) := psa_tx (svc_set (test_uid p) ITS_DATA_LEN (Some ITS_DATA) PSA_STORAGE_FLAG_NONE) m in
          if negb (status =? PSA_SUCCESS) then loop_failed self p "Fail to write ITS asset" m
          else Next (HeavyGet t0 i, m)
        else loop_passed self p t0 (nr_rounds p * 3) m
    | HeavyGet t0 i =>
        let '((status, rd_data, _), m) := psa_tx (svc_get (test_uid p) 0 ITS_DATA_LEN true true) m in
        if ITS_DATA_LEN <? sizeof rd_data then Undefined
        else if negb (status =? PSA_SUCCESS) then loop_failed self p "Fail to read ITS asset" m
        else Next (HeavyRemove t0 i, m)
    | HeavyRemove t0 i =>
        let '(status, m) := psa_tx (svc_remove (test_uid p)) m in
        if negb (status =? PSA_SUCCESS) then loop_failed self p "Fail to remove ITS asset" m
        else Next (HeavySet t0 (i + 1), m)
    | AcquireMutex =>
        match os_wrapper_mutex_acquire (p_mutex_handle p) OS_WRAPPER_WAIT_FOREVER (m_world m) with
        | None => Waits
        | Some (_, w) => Next (MarkComplete, with_world w m)
        end
    | MarkComplete =>
        Next (ReleaseMutex, put_params self (mkParams (child_idx p) (nr_rounds p) (nr_calls p) (p_mutex_handle p)
          (p_ret p) (p_total_ticks p) true (is_parent p)) m)
    | ReleaseMutex =>
        let '(_, w) := os_wrapper_mutex_release (p_mutex_handle p) (m_world m) in
        Next (RunnerEnd, with_world w m)
    | RunnerEnd => Waits
    end
  end.

(** ** The parent *)

(** [uint8_t i] after [i++]. *)
Definition next8 (i : nat) : nat := Z.to_nat (u8 (Z.of_nat i + 1)).

(** [TEST_FAIL] in [multi_client_call_test]. *)
Definition parent_fails (ln : Z) (msg : string) m : outcome_of (parent_pc * mem * list Z) :=
  Next (ParentEnd, with_ret (fail_result (msg ++ crlf) __FILE__ ln) m, []).

Definition setup m : outcome_of (parent_pc * mem * list Z) :=
  let m := with_stats (tfm_ns_mailbox_tx_stats_reinit (stats m)).2 m in
  let '(h, w) := os_wrapper_thread_get_handle (m_world m) in
  let m := with_world w m in
  if bool_decide (h = None) then parent_fails 126 "Failed to get current thread ID" m
  else
    let '((err, priority), w) := os_wrapper_thread_get_priority h 0 (m_world m) in
    let m := with_world w m in
    if u32 err =? u32 OS_WRAPPER_ERROR then parent_fails 133 "Failed to get current thread priority" m
    else
      let '(mutex, w) := os_wrapper_mutex_create (m_world m) in
      let m := with_world w m in
      if bool_decide (mutex = None) then parent_fails 150 "Failed to create a mutex" m
      else Next (CreateChild 0, with_locals mutex (h, priority) m, []).

(** The logs between the creation of the threads and their activation. *)
Definition all_created (c : multi_call) m : outcome_of (parent_pc * mem * list Z) :=
  let m := LOG ("Totally %d threads for test start" ++ crlf) [VaInt (Z.of_nat (length (child_ids m)) + 1)] m in
  let m := if mc_is_mixed c then m
           else LOG ("Each thread run 0x%x rounds tests" ++ crlf) [VaInt (mc_nr_rounds c)] m in
  Next (ActivateChild 0, m, []).

(** [l[i] = x], on an array whose elements from [length l] are unwritten. *)
Definition write_at {A} (i : nat) (x : A) (l : list A) : list A :=
  if (i <? length l)%nat then <[i := x]> l else l ++ [x].

(** The body of the loop that creates the threads; the last component are the
    threads that start. *)
Definition create_child (c : multi_call) (i : nat) m : outcome_of (parent_pc * mem * list Z) :=
  if Z.of_nat i <? NR_MULTI_CALL_CHILD then
    let p := mkParams (Z.of_nat i) (mc_nr_rounds c) None (mutex_handle m) None None false false in
    let m := with_params (write_at i p (params m)) m in
    match os_wrapper_thread_new None (mc_stack_size c) (entry (mc_runner c)) (Some (address i))
            (current_thread m).2 (m_world m) with
    | None => Undefined
    | Some (None, w) => all_created c (with_world w m)
    | Some (Some t, w) =>
        Next (CreateChild (next8 i), with_child_ids (write_at i t (child_ids m)) (with_world w m), [t])
    end
  else all_created c m.

(** The totals over the children that have passed; [None]: one has not, or
    left its result unwritten. *)
Fixpoint sum_results (ps : list test_params) (total_ticks total_calls : Z) : outcome_of (option (Z * Z)) :=
  match ps with
  | [] => Next (Some (total_ticks, total_calls))
  | p :: ps =>
      match p_ret p, p_total_ticks p, nr_calls p with
      | Some TEST_PASSED, Some t, Some n => sum_results ps (u32 (total_ticks + t)) (u32 (total_calls + n))
      | Some TEST_PASSED, _, _ | None, _, _ => Undefined
      | Some _, _, _ => Next None
      end
  end.

Definition report (total_ticks total_calls : Z) m : outcome_of (parent_pc * mem * list Z) :=
  match tfm_ns_mailbox_stats_avg_slot None (stats m) with
  | Some (Some stats_res) =>
      if total_calls =? 0 then Undefined
      else
        let m := LOG ("Totally %d NS mailbox queue slots" ++ crlf) [VaInt NUM_MAILBOX_QUEUE_SLOT] m in
        let m := LOG ("%d.%d NS mailbox queue slots are occupied each time in average." ++ crlf)
                   [VaInt (avg_nr_slots stats_res); VaInt (avg_nr_slots_tenths stats_res)] m in
        let m := LOG ("Cost %d ticks totally" ++ crlf) [VaInt total_ticks] m in
        let avg_ticks := total_ticks / total_calls in
        let total_ticks := total_ticks mod total_calls in
        let m := LOG ("Each PSA client call cost %d.%d ticks in average" ++ crlf)
                   [VaInt avg_ticks; VaInt (u32 (total_ticks * 10) / total_calls)] m in
        Next (ParentEnd, with_ret (set_val TEST_PASSED (m_ret m)) m, [])
  | _ => Undefined
  end.

(** After all threads have completed. *)
Definition finish m : outcome_of (parent_pc * mem * list Z) :=
  let failed := Next (ParentEnd, with_ret (set_val TEST_FAILED (m_ret m)) m, []) in
  match p_ret (parent_params m) with
  | None => Undefined
  | Some TEST_PASSED =>
      match p_total_ticks (parent_params m), nr_calls (parent_params m) with
      | Some t, Some n =>
          match sum_results (take (length (child_ids m)) (params m)) t n with
          | Undefined => Undefined
          | Waits => Waits
          | Next None => failed
          | Next (Some (total_ticks, total_calls)) => report total_ticks total_calls m
          end
      | _, _ => Undefined
      end
  | Some _ => failed
  end.

Definition parent_step (c : multi_call) (pc : parent_pc) m : outcome_of (parent_pc * mem * list Z) :=
  match pc with
  | Setup => setup m
  | CreateChild i => create_child c i m
  | ActivateChild i =>
      match child_ids m !! i with
      | Some t =>
          let '(_, w) := os_wrapper_thread_set_flag (Some t) (TEST_CHILD_EVENT_FLAG (Z.of_nat i)) (m_world m) in
          Next (ActivateChild (next8 i), with_world w m, [])
      | None =>
          Next (RunTest LoopStart, with_parent_params (mkParams (Z.of_nat (length (child_ids m))) (mc_nr_rounds c)
                  None None None None false true) m, [])
      end
  | RunTest pc =>
      match runner_step (mc_runner c) None pc m with
      | Undefined => Undefined
      | Waits => Waits
      | Next (RunnerEnd, m) =>
          (* wait_child_thread_completion reads params_array[0].mutex_handle *)
          match params m with [] => Undefined | _ => Next (WaitAcquire 0, m, []) end
      | Next (pc, m) => Next (RunTest pc, m, [])
      end
  | WaitAcquire i =>
      match params m with
      | [] => Undefined
      | p0 :: _ =>
        if (i <? length (child_ids m))%nat then
          match os_wrapper_mutex_acquire (p_mutex_handle p0) OS_WRAPPER_WAIT_FOREVER (m_world m) with
          | None => Waits
          | Some (_, w) => Next (WaitRead i, with_world w m, [])
          end
        else let '(_, w) := os_wrapper_mutex_delete (mutex_handle m) (m_world m) in finish (with_world w m)
      end
  | WaitRead i =>
      match params m !! i with
      | Some p => Next (WaitRelease i (is_complete p), m, [])
      | None => Undefined
      end
  | WaitRelease i complete =>
      match params m with
      | [] => Undefined
      | p0 :: _ =>
        let '(_, w) := os_wrapper_mutex_release (p_mutex_handle p0) (m_world m) in
        Next (WaitAcquire (if complete then next8 i else i), with_world w m, [])
      end
  | ParentEnd => Waits
  end.

(** ** Configurations and schedules *)

Record config := mkConfig {
  c_mem : mem;
  c_parent : parent_pc;
  c_children : list runner_pc;
}.

(** One step of the thread [who]: the parent, whose handle is [main], or a
    child.  A thread that is not there waits. *)
Definition thread_step (c : multi_call) (main : Z) (who : option nat) (s : config) : outcome_of config :=
  match who with
  | None =>
      match parent_step c (c_parent s) (with_world (switch main (m_world (c_mem s))) (c_mem s)) with
      | Undefined => Undefined
      | Waits => Waits
      | Next (pc, m, new) => Next (mkConfig m pc (c_children s ++ map (fun _ => WaitFlag) new))
      end
  | Some i =>
      match c_children s !! i, child_ids (c_mem s) !! i with
      | Some pc, Some t =>
          match runner_step (mc_runner c) (Some i) pc (with_world (switch t (m_world (c_mem s))) (c_mem s)) with
          | Undefined => Undefined
          | Waits => Waits
          | Next (pc, m) => Next (mkConfig m (c_parent s) (<[i := pc]> (c_children s)))
          end
      | _, _ => Waits
      end
  end.

(** A thread that waits leaves its turn; [None] is undefined behaviour. *)
Fixpoint run_schedule (c : multi_call) (main : Z) (sched : list (option nat)) (s : config) : option config :=
  match sched with
  | [] => Some s
  | who :: sched =>
      match thread_step c main who s with
      | Undefined => None
      | Waits => run_schedule c main sched s
      | Next s => run_schedule c main sched s
      end
  end.

(** The call of a test: nothing of the parent is written yet. *)
Definition initial (ret : test_result_t) (p : stats_ptr) (w : W) : config :=
  mkConfig (mkMem w p [] (mkParams 0 0 None None None None false false) None (None, 0) [] ret []) Setup [].

(** ** The suite *)

(** The tests under a schedule each; the world of the framework is that of the
    services with the counters of the mailbox. *)
Definition multi_core_test (c : multi_call) (main : Z) (sched : list (option nat)) : TEST_FUN (W * stats_ptr) :=
  fun ret '(w, p) =>
    match run_schedule c main sched (initial ret p w) with
    | Some s =>
        match c_parent s with
        | ParentEnd => Some (m_ret (c_mem s), (m_world (c_mem s), stats (c_mem s)), m_log (c_mem s))
        | _ => None
        end
    | None => None
    end.

Definition multi_core_tests (main : Z) (s1 s2 s3 : list (option nat)) : list (test_t (W * stats_ptr)) := [
  mkTest (Some (multi_core_test multi_client_call_light_test main s1)) (Some "MULTI_CLIENT_CALL_LIGHT_TEST"%string)
    (Some "Multiple outstanding NS PSA client calls lightweight test"%string);
  mkTest (Some (multi_core_test multi_client_call_heavy_test main s2)) (Some "MULTI_CLIENT_CALL_HEAVY_TEST"%string)
    (Some "Multiple outstanding NS PSA client calls heavyweight test"%string);
  mkTest (Some (multi_core_test multi_client_call_ooo_test main s3)) (Some "MULTI_CLIENT_CALL_OOO_TEST"%string)
    (Some "Multiple outstanding NS PSA client calls test with out-of-order calls"%string)].

Definition register_testsuite_multi_core_ns_interface (main : Z) (s1 s2 s3 : list (option nat)) :
    TESTSUITE_REG (W * stats_ptr) :=
  register "TF-M test cases for multi-core topology" (multi_core_tests main s1 s2 s3).
End multi_core.
