(* ===== verification/MultiCoreRef.v ===== *)
(** * What the multi-core tests rely on

    [MultiCoreLaws]: the kernel, the ticks and the version call as the
    interfaces document them, and that a storage call leaves the kernel alone.
    [ref_w] is a world that satisfies them. *)

From S2P Require Import Prelude LogRaw TestFramework TestProg PsaStorage Cmsis OsWrapperApi Mailbox MultiCore.
Local Open Scope Z_scope.

(** The thread that runs, the flags of each thread, the owner of each mutex. *)
Record kernel_view := mkKernel {
  k_running : Z;
  k_flags : gmap Z Z;
  k_mutex : gmap Z (option Z);
}.

Definition set_running (t : Z) (k : kernel_view) : kernel_view := mkKernel t (k_flags k) (k_mutex k).
Definition set_flags (t f : Z) (k : kernel_view) : kernel_view := mkKernel (k_running k) (<[t := f]> (k_flags k)) (k_mutex k).
Definition set_owner (h : Z) (o : option Z) (k : kernel_view) : kernel_view :=
  mkKernel (k_running k) (k_flags k) (<[h := o]> (k_mutex k)).
Definition drop_mutex (h : Z) (k : kernel_view) : kernel_view := mkKernel (k_running k) (k_flags k) (delete h (k_mutex k)).

Section laws.
  Context {PC : PsaConsts} {WC : OsWrapperConsts}.
  Context {MAX_ASSET_SIZE : Z} {NUM_ASSETS : nat} {supported : Z -> bool}.
  Context {W : Type} {SS : StorageService W} {PV : PsaVersion W} {MO : MultiCoreOs W}.
  Context {OT : OsWrapperThread W} {OM : OsWrapperMutex W} {OK : OsWrapperTick W}.
  Context {SL : StorageLaws MAX_ASSET_SIZE NUM_ASSETS supported W}.

(** [leads w k w']: the kernel of [w'] is [k], and the assets are those of [w]. *)
Definition leads (kernel : W -> kernel_view) (w : W) (k : kernel_view) (w' : W) : Prop :=
  kernel w' = k /\ assets w' = assets w.

Class MultiCoreLaws := {
  kernel : W -> kernel_view;
  (** The client ID of each thread. *)
  client : Z -> Z;
  law_caller w : caller w = client (k_running (kernel w));
  law_switch t w : leads kernel w (set_running t (kernel w)) (switch t w);
  law_get_handle w : os_wrapper_thread_get_handle w = (Some (k_running (kernel w)), w);
  law_get_priority w p0 : exists p, os_wrapper_thread_get_priority (Some (k_running (kernel w))) p0 w = ((OS_WRAPPER_SUCCESS, p), w);
  law_status : u32 OS_WRAPPER_SUCCESS <> u32 OS_WRAPPER_ERROR;
  (** A thread is created, or the kernel has no room for it; it starts with no
      flags, and a handle that no thread has. *)
  law_thread_new name stack func arg prio w :
    exists h w', os_wrapper_thread_new name stack func arg prio w = Some (h, w') /\
      match h with
      | Some t => k_flags (kernel w) !! t = None /\ leads kernel w (set_flags t 0 (kernel w)) w'
      | None => leads kernel w (kernel w) w'
      end;
  law_set_flag w t f flags : k_flags (kernel w) !! t = Some f -> 0 <= flags < 2 ^ 31 ->
    exists r w', os_wrapper_thread_set_flag (Some t) flags w = (r, w') /\
      leads kernel w (set_flags t (Z.lor f flags) (kernel w)) w';
  (** Waits for all of [flags], and clears them. *)
  law_wait_flag w f flags : k_flags (kernel w) !! k_running (kernel w) = Some f -> 0 <= flags < 2 ^ 31 ->
    match os_wrapper_thread_wait_flag flags OS_WRAPPER_WAIT_FOREVER w with
    | Some (_, w') => Z.land f flags = flags /\
        leads kernel w (set_flags (k_running (kernel w)) (Z.ldiff f flags) (kernel w)) w'
    | None => Z.land f flags <> flags
    end;
  law_mutex_create w : exists h w', os_wrapper_mutex_create w = (Some h, w') /\
    leads kernel w (set_owner h None (kernel w)) w';
  (** Waits while the mutex has an owner. *)
  law_acquire w h o : k_mutex (kernel w) !! h = Some o ->
    match os_wrapper_mutex_acquire (Some h) OS_WRAPPER_WAIT_FOREVER w with
    | Some (_, w') => o = None /\ leads kernel w (set_owner h (Some (k_running (kernel w))) (kernel w)) w'
    | None => o <> None
    end;
  law_release w h : k_mutex (kernel w) !! h = Some (Some (k_running (kernel w))) ->
    exists r w', os_wrapper_mutex_release (Some h) w = (r, w') /\ leads kernel w (set_owner h None (kernel w)) w';
  law_delete w h : k_mutex (kernel w) !! h = Some None ->
    exists r w', os_wrapper_mutex_delete (Some h) w = (r, w') /\ leads kernel w (drop_mutex h (kernel w)) w';
  law_tick w : exists t w', os_wrapper_get_tick w = (t, w') /\ leads kernel w (kernel w) w';
  law_version w : exists w', psa_framework_version w = (PSA_FRAMEWORK_VERSION, w') /\ leads kernel w (kernel w) w';
  (** The storage service does not touch the kernel. *)
  law_set_kernel uid len data fl w : kernel (svc_set uid len data fl w).2 = kernel w;
  law_get_kernel uid offset sz data len w : kernel (svc_get uid offset sz data len w).2 = kernel w;
  law_remove_kernel uid w : kernel (svc_remove uid w).2 = kernel w;
}.
End laws.
Arguments MultiCoreLaws {PC WC MAX_ASSET_SIZE NUM_ASSETS supported} W {SS PV MO OT OM OK SL}.

(** ** A world that satisfies them *)

Section reference.
  Context {PC : PsaConsts} {WC : OsWrapperConsts}.
  Variables (MAX_ASSET_SIZE : Z) (NUM_ASSETS : nat) (supported : Z -> bool).
  (** How many threads the kernel has room for. *)
  Variable max_threads : nat.

Record ref_w := mkRef { r_kernel : kernel_view; r_assets : assets_map; r_tick : Z }.

(** All threads are one client. *)
Definition ref_client (t : Z) : Z := -1.

Definition via_kernel {A} (f : kernel_view -> A * kernel_view) (w : ref_w) : A * ref_w :=
  let '(a, k) := f (r_kernel w) in (a, mkRef k (r_assets w) (r_tick w)).

Definition ref_svc {A} (f : ref_state -> A * ref_state) (w : ref_w) : A * ref_w :=
  let '(a, v) := f (ref_client (k_running (r_kernel w)), r_assets w) in (a, mkRef (r_kernel w) v.2 (r_tick w)).

Abbreviation svc := (ref_service MAX_ASSET_SIZE NUM_ASSETS supported).

#[export] Instance ref_w_service : StorageService ref_w := {|
  svc_set uid len data fl := ref_svc (@svc_set _ svc uid len data fl);
  svc_get uid offset sz data len := ref_svc (@svc_get _ svc uid offset sz data len);
  svc_get_info uid info := ref_svc (@svc_get_info _ svc uid info);
  svc_remove uid := ref_svc (@svc_remove _ svc uid);
|}.

#[export] Instance ref_w_version : PsaVersion ref_w := {|
  PSA_FRAMEWORK_VERSION := 0x0101;
  psa_framework_version w := (0x0101, w);
|}.

#[export] Instance ref_w_os : MultiCoreOs ref_w := {|
  switch t := fun w => mkRef (set_running t (r_kernel w)) (r_assets w) (r_tick w);
  empty_slots w := 2;
|}.

#[export] Instance ref_w_thread : OsWrapperThread ref_w := {|
  os_wrapper_thread_new name stack func arg prio w :=
    let k := r_kernel w in
    if decide (size (k_flags k) < max_threads)%nat then
      let t := fresh (dom (k_flags k)) in
      Some (Some t, mkRef (set_flags t 0 k) (r_assets w) (r_tick w))
    else Some (None, w);
  os_wrapper_thread_get_handle w := (Some (k_running (r_kernel w)), w);
  os_wrapper_thread_get_priority h p w := ((OS_WRAPPER_SUCCESS, 24), w);
  os_wrapper_thread_exit w := None;
  os_wrapper_thread_set_flag h flags w :=
    match h with
    | Some t => (OS_WRAPPER_SUCCESS, mkRef (set_flags t (Z.lor (default 0 (k_flags (r_kernel w) !! t)) flags) (r_kernel w))
                    (r_assets w) (r_tick w))
    | None => (OS_WRAPPER_ERROR, w)
    end;
  os_wrapper_thread_set_flag_isr h flags w := (OS_WRAPPER_ERROR, w);
  os_wrapper_thread_wait_flag flags timeout w :=
    let k := r_kernel w in
    let f := default 0 (k_flags k !! k_running k) in
    if Z.land f flags =? flags
    then Some (OS_WRAPPER_SUCCESS, mkRef (set_flags (k_running k) (Z.ldiff f flags) k) (r_assets w) (r_tick w)) else None;
|}.

#[export] Instance ref_w_mutex : OsWrapperMutex ref_w := {|
  os_wrapper_mutex_create := via_kernel (fun k =>
    let h := fresh (dom (k_mutex k)) in (Some h, set_owner h None k));
  os_wrapper_mutex_acquire h timeout w :=
    match h with
    | Some h =>
        match k_mutex (r_kernel w) !! h with
        | Some None => Some (OS_WRAPPER_SUCCESS,
            mkRef (set_owner h (Some (k_running (r_kernel w))) (r_kernel w)) (r_assets w) (r_tick w))
        | _ => None
        end
    | None => Some (OS_WRAPPER_ERROR, w)
    end;
  os_wrapper_mutex_release h := via_kernel (fun k =>
    match h with Some h => (OS_WRAPPER_SUCCESS, set_owner h None k) | None => (OS_WRAPPER_ERROR, k) end);
  os_wrapper_mutex_delete h := via_kernel (fun k =>
    match h with Some h => (OS_WRAPPER_SUCCESS, drop_mutex h k) | None => (OS_WRAPPER_ERROR, k) end);
|}.

#[export] Instance ref_w_tick : OsWrapperTick ref_w := {|
  os_wrapper_get_tick w := (r_tick w, mkRef (r_kernel w) (r_assets w) (r_tick w + 1));
|}.
Lemma ref_svc_eq {A} (f : ref_state -> A * ref_state) w a w' :
  ref_svc f w = (a, w') -> exists v, f (ref_client (k_running (r_kernel w)), r_assets w) = (a, v) /\
    w' = mkRef (r_kernel w) v.2 (r_tick w).
Proof. unfold ref_svc. destruct (f _) as [b v]. intros [= -> <-]. by exists v. Qed.

Lemma ref_svc_kernel {A} (f : ref_state -> A * ref_state) w : r_kernel (ref_svc f w).2 = r_kernel w.
Proof. unfold ref_svc. by destruct (f _). Qed.

#[export] Instance ref_w_storage : StorageLaws MAX_ASSET_SIZE NUM_ASSETS supported ref_w.
Proof.
  pose proof (ref_laws MAX_ASSET_SIZE NUM_ASSETS supported) as L0.
  refine {| assets := r_assets; caller w := ref_client (k_running (r_kernel w)) |}.
  - intros uid len data fl w st w' (v & Hv & ->)%ref_svc_eq. split; [done|].
    by destruct (@law_set _ _ _ _ _ svc (ref_laws _ _ _) _ _ _ _ _ _ _ Hv) as [_ ?].
  - intros uid offset sz data len w st out n w' Ho Hz (v & Hv & ->)%ref_svc_eq. split; [done|].
    by destruct (@law_get _ _ _ _ _ svc (ref_laws _ _ _) _ _ _ _ _ _ _ _ _ _ Ho Hz Hv) as (_ & ? & ?).
  - intros uid info w st i w' (v & Hv & ->)%ref_svc_eq. split; [done|].
    by destruct (@law_get_info _ _ _ _ _ svc (ref_laws _ _ _) _ _ _ _ _ _ Hv) as (_ & ? & ?).
  - intros uid w st w' (v & Hv & ->)%ref_svc_eq. split; [done|].
    by destruct (@law_remove _ _ _ _ _ svc (ref_laws _ _ _) _ _ _ _ Hv) as [_ ?].
Defined.

(** The statuses of the wrapper differ as [uint32_t]. *)
Class WrapperStatus := { wrapper_status_differ : u32 OS_WRAPPER_SUCCESS <> u32 OS_WRAPPER_ERROR }.

#[export] Instance ref_w_laws {WS : WrapperStatus} : MultiCoreLaws ref_w.
Proof.
  refine {| kernel := r_kernel; client := ref_client |}; try done.
  - intros w p0. by eexists.
  - apply wrapper_status_differ.
  - intros name stack func arg prio w. simpl. case_decide.
    + do 2 eexists. split; [done|]. split; [|done]. apply not_elem_of_dom, is_fresh.
    + by do 2 eexists.
  - intros w t f flags Hf _. simpl. do 2 eexists. split; [done|]. by rewrite Hf.
  - intros w f flags Hf _. simpl. rewrite Hf. simpl. by destruct (Z.eqb_spec (Z.land f flags) flags).
  - intros w. by do 2 eexists.
  - intros w h o Ho. simpl. rewrite Ho. by destruct o.
  - intros w h Ho. by do 2 eexists.
  - intros w h Ho. by do 2 eexists.
  - intros w. by do 2 eexists.
  - intros w. by eexists.
  - intros. apply ref_svc_kernel.
  - intros. apply ref_svc_kernel.
  - intros. apply ref_svc_kernel.
Defined.
End reference.
