(* ===== verification/MultiCoreProofs.v ===== *)
(** * The multi-core tests pass under every schedule

    Over every world that satisfies [MultiCoreLaws]: no schedule of the threads
    leads to undefined behaviour, a schedule that lets the parent end makes the
    test pass with the assets as they were and all children at their end, and
    every schedule can be continued to one that does. *)

From S2P Require Import Prelude LogRaw TestFramework TestProg PsaStorage Cmsis OsWrapperApi StorageTactics Mailbox MultiCore MultiCoreRef.
Local Open Scope Z_scope.

(** ** Sums over the threads *)

Definition total {A} (f : nat -> A -> Z) (l : list A) : Z := foldr Z.add 0 (imap f l).

Lemma foldr_add_insert (l : list Z) j x y :
  l !! j = Some x -> foldr Z.add 0 (<[j := y]> l) = foldr Z.add 0 l - x + y.
Proof.
  revert j. induction l as [|z l IH]; intros [|j]; simpl; intros H; simplify_eq; try lia.
  rewrite (IH _ H). lia.
Qed.

Lemma imap_insert {A B} (f : nat -> A -> B) l j y : imap f (<[j := y]> l) = <[j := f j y]> (imap f l).
Proof.
  apply list_eq. intros i. rewrite list_lookup_imap. destruct (decide (i = j)) as [->|Hne].
  - destruct (decide (j < length l)%nat).
    + rewrite !list_lookup_insert_eq by (rewrite ?length_imap; done). done.
    + rewrite !lookup_ge_None_2 by (rewrite ?length_insert, ?length_imap, ?length_insert; lia). done.
  - rewrite !list_lookup_insert_ne by done. by rewrite list_lookup_imap.
Qed.

Lemma total_insert {A} (f : nat -> A -> Z) l j x y :
  l !! j = Some x -> total f (<[j := y]> l) = total f l - f j x + f j y.
Proof.
  intros H. unfold total. rewrite imap_insert. apply foldr_add_insert. by rewrite list_lookup_imap, H.
Qed.

Lemma total_bounds {A} (f : nat -> A -> Z) l lo hi :
  (forall j x, l !! j = Some x -> lo <= f j x <= hi) ->
  lo * Z.of_nat (length l) <= total f l <= hi * Z.of_nat (length l).
Proof.
  unfold total. revert f. induction l as [|x l IH]; intros f H; simpl; [lia|].
  pose proof (H 0%nat x eq_refl). specialize (IH (f ∘ S) (fun j y Hj => H (S j) y Hj)).
  rewrite Nat2Z.inj_succ, !Z.mul_succ_r. lia.
Qed.

Lemma total_app {A} (f : nat -> A -> Z) l x : total f (l ++ [x]) = total f l + f (length l) x.
Proof.
  unfold total. rewrite imap_app. simpl. rewrite foldr_app. simpl. rewrite Nat.add_0_r.
  generalize (imap f l) as zs. intros zs. induction zs as [|z zs IH]; simpl; lia.
Qed.

Section proofs.
  Context {PC : PsaConsts} {PL : PsaConstsLaws} {MC : MailboxConsts} {WC : OsWrapperConsts}.
  Context {MAX_ASSET_SIZE : Z} {NUM_ASSETS : nat} {supported : Z -> bool}.
  Context {W : Type} {SS : StorageService W} {PV : PsaVersion W} {MO : MultiCoreOs W}.
  Context {OT : OsWrapperThread W} {OM : OsWrapperMutex W} {OK : OsWrapperTick W}.
  Context {SL : StorageLaws MAX_ASSET_SIZE NUM_ASSETS supported W} {ML : MultiCoreLaws W}.
  Variables (entry : test_runner -> Z) (address : nat -> Z) (__FILE__ : string).

  (** The test, the parent's handle, and the assets at the start. *)
  Variables (c : multi_call) (main : Z) (base : assets_map).
  Hypothesis slots : 2 <= NUM_MAILBOX_QUEUE_SLOT <= 15.
  Hypothesis rounds : 1 <= mc_nr_rounds c <= 0x200.
  Hypothesis asset_size : 20 <= MAX_ASSET_SIZE.
  Hypothesis flag_none : supported PSA_STORAGE_FLAG_NONE = true.
  Hypothesis unused : forall t uid, TEST_UID_1 <= uid <= TEST_UID_1 + NR_MULTI_CALL_CHILD -> base !! (client t, uid) = None.
  Hypothesis space : (size (dom base) + Z.to_nat NR_MULTI_CALL_CHILD + 1 <= NUM_ASSETS)%nat.

  Abbreviation mem := (mem W).
  Abbreviation config := (@config W).
  Implicit Types (m : mem) (w : W) (s : config).

(** ** A runner by itself *)

Definition data : asset := (ITS_DATA, PSA_STORAGE_FLAG_NONE).
Definition key (t : Z) (j : nat) : Z * Z := (client t, TEST_UID_1 + Z.of_nat j).

(** The runner [j]: the loop it executes, its rounds, its calls. *)
Definition heavy (j : nat) : bool :=
  match mc_runner c with
  | multi_client_call_light_runner => false
  | multi_client_call_heavy_runner => true
  | multi_client_call_ooo_runner => (j =? 0)%nat
  end.
Definition eff (j : nat) : Z :=
  match mc_runner c with
  | multi_client_call_ooo_runner => if (j =? 0)%nat then mc_nr_rounds c else mc_nr_rounds c * 20
  | _ => mc_nr_rounds c
  end.
Definition calls (j : nat) : Z := eff j * (if heavy j then 3 else 1).

Definition holds (pc : runner_pc) : bool := match pc with HeavyGet _ _ | HeavyRemove _ _ => true | _ => false end.
Definition has_mutex (pc : runner_pc) : bool := match pc with MarkComplete | ReleaseMutex => true | _ => false end.
Definition completed (pc : runner_pc) : bool := match pc with ReleaseMutex | RunnerEnd => true | _ => false end.
Definition past (pc : runner_pc) : bool :=
  match pc with AcquireMutex | MarkComplete | ReleaseMutex | RunnerEnd => true | _ => false end.
Definition started (pc : runner_pc) : bool := match pc with WaitFlag | LoopStart => false | _ => true end.

(** The calls of the secure side that the runner has made. *)
Definition done_calls (j : nat) (pc : runner_pc) : Z :=
  match pc with
  | WaitFlag | LoopStart => 0
  | LightCall _ i => i
  | HeavySet _ i => 3 * i
  | HeavyGet _ i => 3 * i + 1
  | HeavyRemove _ i => 3 * i + 2
  | _ => calls j
  end.

Definition rank (j : nat) (pc : runner_pc) : Z :=
  calls j - done_calls j pc +
  match pc with
  | WaitFlag => 7 | LoopStart => 6 | AcquireMutex => 4 | MarkComplete => 3 | ReleaseMutex => 2 | RunnerEnd => 0
  | _ => 5
  end.

Definition pc_ok (par : bool) (j : nat) (pc : runner_pc) : Prop :=
  match pc with
  | LightCall _ i => heavy j = false /\ 0 <= i <= eff j
  | HeavySet _ i => heavy j = true /\ 0 <= i <= eff j
  | HeavyGet _ i | HeavyRemove _ i => heavy j = true /\ 0 <= i < eff j
  | LoopStart | RunnerEnd => True
  | _ => par = false
  end.

Record params_ok (h : Z) (par : bool) (j : nat) (pc : runner_pc) (p : test_params) : Prop := {
  po_idx : child_idx p = Z.of_nat j;
  po_parent : is_parent p = par;
  po_rounds : nr_rounds p = if started pc then eff j else mc_nr_rounds c;
  po_result : past pc = true ->
    p_ret p = Some TEST_PASSED /\ nr_calls p = Some (calls j) /\ is_Some (p_total_ticks p);
  po_child : par = false -> p_mutex_handle p = Some h /\ is_complete p = completed pc;
}.

(** The kernel after the step of thread [t] from [pc]. *)
Definition kernel_after (h t : Z) (pc : runner_pc) (k : kernel_view) : kernel_view :=
  match pc with
  | WaitFlag => set_flags t 0 k
  | AcquireMutex => set_owner h (Some t) k
  | ReleaseMutex => set_owner h None k
  | _ => k
  end.

(** What the runner [j], thread [t], needs of the world at [pc]. *)
Record needs (h t : Z) (j : nat) (pc : runner_pc) (w : W) : Prop := {
  n_running : k_running (kernel w) = t;
  n_asset : assets w !! key t j = if holds pc then Some data else None;
  n_room : fits NUM_ASSETS (assets w) (key t j);
  n_flag : pc = WaitFlag -> exists f, k_flags (kernel w) !! t = Some f /\ (f = 0 \/ f = TEST_CHILD_EVENT_FLAG (Z.of_nat j));
  n_mutex : past pc = true -> exists o, k_mutex (kernel w) !! h = Some o /\ (has_mutex pc = true -> o = Some t);
}.

(** Why the runner waits. *)
Definition blocked (h t : Z) (pc : runner_pc) (w : W) : Prop :=
  match pc with
  | RunnerEnd => True
  | WaitFlag => k_flags (kernel w) !! t = Some 0
  | AcquireMutex => exists o, k_mutex (kernel w) !! h = Some (Some o)
  | _ => False
  end.

(** A step of the runner, seen from outside. *)
Record moves (h t : Z) (par : bool) (j : nat) (pc : runner_pc) (w : W) (pc' : runner_pc) (p' : test_params) (w' : W)
    (st st' : ns_queue_stats) : Prop := {
  mv_pc : pc_ok par j pc';
  mv_params : params_ok h par j pc' p';
  mv_rank : rank j pc' < rank j pc;
  mv_kernel : kernel w' = kernel_after h t pc (kernel w);
  mv_asset : assets w' !! key t j = if holds pc' then Some data else None;
  mv_others : forall k, k <> key t j -> assets w' !! k = assets w !! k;
  mv_tx : nr_tx st' = nr_tx st - done_calls j pc + done_calls j pc';
  mv_flag : (pc = WaitFlag -> k_flags (kernel w) !! t = Some (TEST_CHILD_EVENT_FLAG (Z.of_nat j))) /\ pc' <> WaitFlag;
  mv_mutex : (pc = AcquireMutex -> k_mutex (kernel w) !! h = Some None) /\ (has_mutex pc' = true <-> pc = AcquireMutex \/ pc = MarkComplete);
}.

Definition runner_result (h t : Z) (par : bool) (j : nat) (self : option nat) (pc : runner_pc) m (st : ns_queue_stats)
    (r : outcome_of (runner_pc * mem)) : Prop :=
  match r with
  | Undefined => False
  | Waits => blocked h t pc (m_world m)
  | Next (pc', m') => exists p' w' st',
      m' = put_params self p' (with_world w' (with_stats (Some st') m)) /\
      moves h t par j pc (m_world m) pc' p' w' st st'
  end.

Lemma put_params_id self p m : get_params self m = Some p -> put_params self p m = m.
Proof.
  destruct m, self as [i|]; simpl; [|by intros [= <-]].
  intros Hi. unfold with_params. simpl. by rewrite list_insert_id.
Qed.

Lemma put_params_put self p p' w st m :
  put_params self p' (with_world w (with_stats st (put_params self p m)))
  = put_params self p' (with_world w (with_stats st m)).
Proof. destruct m, self as [i|]; [|done]. unfold put_params, with_params. simpl. by rewrite list_insert_insert_eq. Qed.

Lemma eff_bounds j : 1 <= eff j <= 10240.
Proof. unfold eff. destruct (mc_runner c); [lia..|]. destruct (j =? 0)%nat; lia. Qed.

Lemma calls_bounds j : eff j <= calls j <= 30720.
Proof. pose proof (eff_bounds j). unfold calls. destruct (heavy j); lia. Qed.

Lemma done_bounds par j pc : pc_ok par j pc -> 0 <= done_calls j pc <= calls j.
Proof.
  pose proof (eff_bounds j). destruct pc; simpl; unfold calls; intros Hpc.
  3, 4, 5, 6: destruct Hpc as [-> ?]; lia.
  all: destruct (heavy j); lia.
Qed.

Lemma event_flag (j : nat) : Z.of_nat j <= 30 ->
  0 < TEST_CHILD_EVENT_FLAG (Z.of_nat j) < 2 ^ 31.
Proof.
  intros Hj. unfold TEST_CHILD_EVENT_FLAG. rewrite Z.shiftl_1_l.
  assert (2 ^ Z.of_nat j <= 2 ^ 30) by (apply Z.pow_le_mono_r; lia).
  assert (0 < 2 ^ Z.of_nat j) by (apply Z.pow_pos_nonneg; lia).
  rewrite wrapu_small by lia. lia.
Qed.

Lemma uid_eq (j : nat) p : child_idx p = Z.of_nat j -> Z.of_nat j <= 30 -> test_uid p = TEST_UID_1 + Z.of_nat j.
Proof. intros Hp Hj. unfold test_uid. rewrite Hp, wrapu_small; [done|]. unfold TEST_UID_1. lia. Qed.

Lemma runs_heavy_eq j p : child_idx p = Z.of_nat j -> runs_heavy (mc_runner c) p = heavy j.
Proof.
  intros Hp. unfold runs_heavy, heavy, ooo_heavy. destruct (mc_runner c); [done..|]. rewrite Hp.
  destruct j; [done|]. by destruct (Z.eqb_spec (Z.of_nat (S j)) 0); [lia|].
Qed.

Lemma loop_params_ok h par j p : params_ok h par j LoopStart p ->
  forall pc, started pc = true -> past pc = false -> completed pc = false ->
  params_ok h par j pc (loop_params (mc_runner c) p).
Proof.
  intros [Hi Hp Hr _ Hc] pc Hs Hpast Hcomp.
  assert (Hnr : nr_rounds (loop_params (mc_runner c) p) = eff j).
  { simpl in Hr. unfold loop_params, eff. destruct (mc_runner c) eqn:Hk; [done..|].
    pose proof (runs_heavy_eq j p Hi) as Hh. rewrite Hk in Hh. simpl in Hh. unfold heavy in Hh. rewrite Hk in Hh.
    rewrite Hh. destruct (j =? 0)%nat; [done|]. simpl. rewrite Hr, wrapu_small; lia. }
  assert (Hsame : forall A (f : test_params -> A), (forall i r r' n mh rt tt ic ip,
      f (mkParams i r n mh rt tt ic ip) = f (mkParams i r' n mh rt tt ic ip)) ->
      f (loop_params (mc_runner c) p) = f p).
  { intros A f Hf. unfold loop_params. destruct p; simpl.
    destruct (mc_runner c); [done..|]. destruct (ooo_heavy _); [done|]. apply Hf. }
  split.
  - by rewrite (Hsame _ child_idx).
  - by rewrite (Hsame _ is_parent).
  - by rewrite Hs, Hnr.
  - by rewrite Hpast.
  - intros Hpar. destruct (Hc Hpar) as [Hm Hic]. rewrite (Hsame _ p_mutex_handle), (Hsame _ is_complete) by done.
    by rewrite Hm, Hic, Hcomp.
Qed.

Lemma tx_stats_step e st : 0 <= nr_tx st < 2 ^ 32 - 1 ->
  exists st', tfm_ns_mailbox_tx_stats_update e (Some st) = Some st' /\ nr_tx st' = nr_tx st + 1.
Proof. intros H. eexists. split; [reflexivity|]. simpl. by rewrite wrapu_small by lia. Qed.

(** The calls of the heavy loop on the runner's asset. *)
Lemma uid_nonzero (j : nat) : TEST_UID_1 + Z.of_nat j <> 0.
Proof. unfold TEST_UID_1. lia. Qed.

Lemma data_not_write_once : write_once data = false.
Proof. unfold write_once, data. simpl. by rewrite psa_flag_none. Qed.

Lemma caller_is w t : k_running (kernel w) = t -> caller w = client t.
Proof. intros <-. apply law_caller. Qed.

Lemma own_set w t j st w' :
  k_running (kernel w) = t -> assets w !! key t j = None -> fits NUM_ASSETS (assets w) (key t j) ->
  svc_set (TEST_UID_1 + Z.of_nat j) ITS_DATA_LEN (Some ITS_DATA) PSA_STORAGE_FLAG_NONE w = (st, w') ->
  st = PSA_SUCCESS /\ assets w' = <[key t j := data]> (assets w) /\ kernel w' = kernel w.
Proof.
  intros Hr Ha Hf Hset. pose proof (law_set_kernel (TEST_UID_1 + Z.of_nat j) ITS_DATA_LEN (Some ITS_DATA) PSA_STORAGE_FLAG_NONE w) as Hk.
  rewrite Hset in Hk. destruct (law_set _ _ _ _ _ _ _ Hset) as [_ Ho]. rewrite (caller_is w t Hr) in Ho.
  apply outcome_ok in Ho as [-> Ho]; [done|].
  apply set_errors_nil; [done|apply uid_nonzero|done| |by change ITS_DATA_LEN with 20|done].
  unfold is_write_once. unfold key in Ha. by rewrite Ha.
Qed.

Lemma own_get w t j st out n w' :
  k_running (kernel w) = t -> assets w !! key t j = Some data ->
  svc_get (TEST_UID_1 + Z.of_nat j) 0 ITS_DATA_LEN true true w = ((st, out, n), w') ->
  st = PSA_SUCCESS /\ out = ITS_DATA /\ assets w' = assets w /\ kernel w' = kernel w.
Proof.
  intros Hr Ha Hget. pose proof (law_get_kernel (TEST_UID_1 + Z.of_nat j) 0 ITS_DATA_LEN true true w) as Hk.
  rewrite Hget in Hk. destruct (law_get _ _ _ _ _ _ _ _ _ _ (Z.le_refl 0) (Zle_0_nat _ : 0 <= ITS_DATA_LEN) Hget) as (_ & Hw & Ho).
  rewrite (caller_is w t Hr) in Ho.
  apply outcome_ok in Ho as (-> & a & Ha' & -> & _).
  - fold (key t j) in Ha'. rewrite Ha in Ha'. injection Ha' as <-. split_and!; [done|reflexivity|done|done].
  - eapply get_errors_nil; [done|apply uid_nonzero|exact Ha|done].
Qed.

Lemma own_remove w t j st w' :
  k_running (kernel w) = t -> assets w !! key t j = Some data ->
  svc_remove (TEST_UID_1 + Z.of_nat j) w = (st, w') ->
  st = PSA_SUCCESS /\ assets w' = delete (key t j) (assets w) /\ kernel w' = kernel w.
Proof.
  intros Hr Ha Hrem. pose proof (law_remove_kernel (TEST_UID_1 + Z.of_nat j) w) as Hk. rewrite Hrem in Hk.
  destruct (law_remove _ _ _ _ Hrem) as [_ Ho]. rewrite (caller_is w t Hr) in Ho.
  apply outcome_ok in Ho as [-> Ho]; [done|].
  unfold remove_errors, lookup_errors. rewrite decide_False by apply uid_nonzero.
  unfold key in Ha. rewrite Ha. unfold when. by rewrite data_not_write_once.
Qed.

Section runner.
  Variables (h t : Z) (par : bool) (j : nat) (self : option nat) (m : mem) (p : test_params) (st : ns_queue_stats).
  Hypothesis small : Z.of_nat j <= 30.
  Hypothesis own : get_params self m = Some p.
  Hypothesis counting : stats m = Some st.
  Hypothesis room : 0 <= nr_tx st < 2 ^ 32 - 1.
  Abbreviation result pc := (runner_result h t par j self pc m st).
  Abbreviation w := (m_world m).

(** A move that leaves the kernel and the assets as [leads] says. *)
Lemma moves_leads pc pc' p' w' st' :
  needs h t j pc w -> pc_ok par j pc' -> params_ok h par j pc' p' ->
  leads kernel w (kernel_after h t pc (kernel w)) w' -> holds pc' = holds pc -> rank j pc' < rank j pc ->
  nr_tx st' = nr_tx st - done_calls j pc + done_calls j pc' ->
  (pc = WaitFlag -> k_flags (kernel w) !! t = Some (TEST_CHILD_EVENT_FLAG (Z.of_nat j))) -> pc' <> WaitFlag ->
  (pc = AcquireMutex -> k_mutex (kernel w) !! h = Some None) -> (has_mutex pc' = true <-> pc = AcquireMutex \/ pc = MarkComplete) ->
  moves h t par j pc w pc' p' w' st st'.
Proof. intros [] Hpc Hp [Hk Ha] Hh ? ? ? ? ? ?. split; try done. - by rewrite Ha, Hh. - intros k _. by rewrite Ha. Qed.

Lemma result_unchanged pc pc' w' : moves h t par j pc w pc' p w' st st ->
  result pc (Next (pc', with_world w' m)).
Proof.
  intros Hm. exists p, w', st. split; [|done]. rewrite <- counting. clear -own. destruct m.
  by rewrite (put_params_id self p _) by (destruct self; exact own).
Qed.

Lemma step_wait_flag : params_ok h par j WaitFlag p -> needs h t j WaitFlag w ->
  result WaitFlag (runner_step (mc_runner c) self WaitFlag m).
Proof.
  intros Hok Hn. pose proof Hn as [Hr _ _ Hf _]. unfold runner_step. rewrite own.
  destruct (Hf eq_refl) as (f & Hf1 & Hf2). rewrite (po_idx _ _ _ _ _ Hok).
  pose proof (event_flag j small) as Hb. rewrite <- Hr in Hf1.
  pose proof (law_wait_flag _ _ _ Hf1 (conj (Z.lt_le_incl _ _ (proj1 Hb)) (proj2 Hb))) as Hlaw.
  destruct (os_wrapper_thread_wait_flag _ _ _) as [[r w']|].
  - destruct Hlaw as [Hland Hl]. destruct Hf2 as [-> | ->]; [rewrite Z.land_0_l in Hland; lia|].
    apply result_unchanged, moves_leads; try done.
    + destruct Hok. by split.
    + simpl. rewrite Z.ldiff_diag, Hr in Hl. done.
    + unfold rank; simpl; lia.
    + simpl. lia.
    + intros _. by rewrite <- Hr.
    + simpl. split; [done|intros [|]; done].
  - simpl. destruct Hf2 as [-> | ->]; [by rewrite <- Hr|]. by rewrite Z.land_diag in Hlaw.
Qed.

Lemma step_loop_start : params_ok h par j LoopStart p -> needs h t j LoopStart w ->
  result LoopStart (runner_step (mc_runner c) self LoopStart m).
Proof.
  intros Hok Hn. unfold runner_step. rewrite own.
  assert (Hw : m_world (put_params self (loop_params (mc_runner c) p) m) = w) by (by destruct self).
  rewrite Hw, (runs_heavy_eq j p (po_idx _ _ _ _ _ Hok)).
  destruct (law_tick w) as (t0 & w' & -> & Hl). pose proof (eff_bounds j).
  exists (loop_params (mc_runner c) p), w', st. split; [by rewrite <- counting; destruct m, self|].
  destruct (heavy j) eqn:Hh; apply moves_leads; try done; try (by apply loop_params_ok);
    try (simpl; split; [done|lia]); try (unfold rank; simpl; lia);
    try (simpl; lia); (simpl; split; [done|intros [|]; done]).
Qed.

(** The end of a loop: all calls of the runner are made. *)
Lemma step_loop_passed pc t0 : params_ok h par j pc p -> needs h t j pc w -> pc_ok par j pc ->
  (exists i, (pc = LightCall i (eff j) \/ pc = HeavySet i (eff j))) ->
  result pc (loop_passed self p t0 (if heavy j then nr_rounds p * 3 else nr_rounds p) m).
Proof.
  intros Hok Hn Hpc (i & Hi). unfold loop_passed. destruct (law_tick w) as (t1 & w' & -> & Hl).
  assert (Hs : started pc = true) by (destruct Hi as [-> | ->]; done).
  pose proof Hok as [Hidx Hpar Hr _ Hc]. rewrite Hs in Hr. rewrite Hr, Hpar.
  assert (Hcalls : (if heavy j then eff j * 3 else eff j) = calls j) by (unfold calls; destruct (heavy j); lia).
  rewrite Hcalls. pose proof (calls_bounds j). pose proof (eff_bounds j). rewrite (wrapu_small 32 (calls j)) by lia.
  eexists _, w', st. split; [by rewrite <- counting; destruct m, self|].
  assert (Hdone : done_calls j pc = calls j).
  { unfold calls. destruct Hi as [-> | ->]; simpl in Hpc |- *; destruct Hpc as [-> _]; lia. }
  assert (Hkind : kernel_after h t pc (kernel w) = kernel w /\ holds pc = false /\ rank j pc = 5 /\
    pc <> WaitFlag /\ pc <> AcquireMutex /\ pc <> MarkComplete /\ completed pc = false).
  { unfold rank. rewrite Hdone. destruct Hi as [-> | ->]; split_and!; try done; lia. }
  destruct Hkind as (Hk & Hh & Hrank & H1 & H2 & H3 & H4).
  apply moves_leads; try done.
  - destruct par; simpl; done.
  - split; try done; simpl; [by destruct par|]. intros ->. destruct (Hc eq_refl) as [? Hic]. by rewrite Hic, H4.
  - by rewrite Hk.
  - rewrite Hh. by destruct par.
  - rewrite Hrank. unfold rank. destruct par; simpl; lia.
  - rewrite Hdone. destruct par; simpl; lia.
  - by destruct par.
  - split; [by destruct par|intros [|]; done].
Qed.

(** A call of the secure side, on statistics with room. *)
Lemma psa_tx_eq {A} (f : W -> A * W) a w' : f w = (a, w') ->
  exists st', psa_tx f m = (a, with_world w' (with_stats (Some st') m)) /\ nr_tx st' = nr_tx st + 1.
Proof.
  intros Hf. destruct (tx_stats_step (empty_slots w) st room) as (st' & Hs & Hn). exists st'.
  split; [|done]. unfold psa_tx. rewrite counting, Hs. simpl. by rewrite Hf.
Qed.

Lemma result_called pc pc' w' st' : moves h t par j pc w pc' p w' st st' ->
  result pc (Next (pc', with_world w' (with_stats (Some st') m))).
Proof.
  intros Hm. exists p, w', st'. split; [|done]. rewrite <- (put_params_id self p m own) at 1. by destruct m, self.
Qed.

Lemma same_params pc pc' : params_ok h par j pc p -> started pc = true -> started pc' = true ->
  past pc' = false -> completed pc' = completed pc -> params_ok h par j pc' p.
Proof. intros [] Hs Hs' Hp Hc. split; try done; [by rewrite Hs, Hs' in *|by rewrite Hp|by rewrite Hc]. Qed.

Lemma step_light t0 i : params_ok h par j (LightCall t0 i) p -> needs h t j (LightCall t0 i) w ->
  pc_ok par j (LightCall t0 i) -> result (LightCall t0 i) (runner_step (mc_runner c) self (LightCall t0 i) m).
Proof.
  intros Hok Hn Hpc. pose proof Hpc as [Hh Hi]. unfold runner_step. rewrite own, (po_rounds _ _ _ _ _ Hok). simpl.
  destruct (Z.ltb_spec i (eff j)) as [Hlt|Hge].
  - destruct (law_version w) as (w' & Hv & Hl).
    destruct (psa_tx_eq psa_framework_version _ _ Hv) as (st' & -> & Hst). rewrite Z.eqb_refl. simpl.
    apply result_called, moves_leads; try done.
    + simpl. split; [done|lia].
    + by eapply same_params.
    + unfold rank; simpl; lia.
    + simpl. lia.
    + simpl. split; [done|intros [|]; done].
  - replace i with (eff j) in * by lia.
    pose proof (step_loop_passed (LightCall t0 (eff j)) t0 Hok Hn Hpc) as Hr.
    rewrite Hh, (po_rounds _ _ _ _ _ Hok) in Hr. simpl in Hr. apply Hr. eauto.
Qed.

(** A call of the storage service on the runner's own asset. *)
Lemma moves_storage pc pc' w' st' :
  needs h t j pc w -> pc_ok par j pc' -> params_ok h par j pc p ->
  started pc = true -> started pc' = true -> past pc' = false -> completed pc = false -> completed pc' = false ->
  has_mutex pc' = false -> pc <> AcquireMutex -> pc <> MarkComplete ->
  kernel w' = kernel w -> kernel_after h t pc (kernel w) = kernel w ->
  assets w' !! key t j = (if holds pc' then Some data else None) ->
  (forall k, k <> key t j -> assets w' !! k = assets w !! k) ->
  done_calls j pc' = done_calls j pc + 1 -> rank j pc' < rank j pc -> nr_tx st' = nr_tx st + 1 ->
  moves h t par j pc w pc' p w' st st'.
Proof.
  intros Hn Hpc Hok Hs Hs' Hp Hc Hc' Hm H1 H2 Hk Hk' Ha Ho Hd Hr Ht.
  split; try done.
  - eapply same_params; [done..|by rewrite Hc, Hc'].
  - by rewrite Hk.
  - lia.
  - split; [intros ->; done|intros ->; done].
  - split; [done|]. rewrite Hm. split; [done|intros [|]; done].
Qed.

Lemma step_heavy_set t0 i : params_ok h par j (HeavySet t0 i) p -> needs h t j (HeavySet t0 i) w ->
  pc_ok par j (HeavySet t0 i) -> result (HeavySet t0 i) (runner_step (mc_runner c) self (HeavySet t0 i) m).
Proof.
  intros Hok Hn Hpc. pose proof Hpc as [Hh Hi]. unfold runner_step.
  rewrite own, (po_rounds _ _ _ _ _ Hok), (uid_eq j p (po_idx _ _ _ _ _ Hok) small). simpl.
  destruct (Z.ltb_spec i (eff j)) as [Hlt|Hge].
  - destruct (svc_set (TEST_UID_1 + Z.of_nat j) ITS_DATA_LEN (Some ITS_DATA) PSA_STORAGE_FLAG_NONE w) as [status w'] eqn:Hset.
    destruct (own_set _ _ _ _ _ (n_running _ _ _ _ _ Hn) (n_asset _ _ _ _ _ Hn) (n_room _ _ _ _ _ Hn) Hset) as (-> & Ha & Hk).
    destruct (psa_tx_eq _ _ _ Hset) as (st' & -> & Hst). rewrite Z.eqb_refl. simpl.
    apply result_called, moves_storage; try done; simpl.
    + split; [done|lia].
    + rewrite Ha. apply lookup_insert_eq.
    + intros k Hne. by rewrite Ha, lookup_insert_ne.
    + unfold rank; simpl; lia.
  - replace i with (eff j) in * by lia.
    pose proof (step_loop_passed (HeavySet t0 (eff j)) t0 Hok Hn Hpc) as Hr.
    rewrite Hh, (po_rounds _ _ _ _ _ Hok) in Hr. simpl in Hr. apply Hr. eauto.
Qed.

Lemma step_heavy_get t0 i : params_ok h par j (HeavyGet t0 i) p -> needs h t j (HeavyGet t0 i) w ->
  pc_ok par j (HeavyGet t0 i) -> result (HeavyGet t0 i) (runner_step (mc_runner c) self (HeavyGet t0 i) m).
Proof.
  intros Hok Hn Hpc. pose proof Hpc as [Hh Hi]. unfold runner_step.
  rewrite own, (uid_eq j p (po_idx _ _ _ _ _ Hok) small).
  destruct (svc_get (TEST_UID_1 + Z.of_nat j) 0 ITS_DATA_LEN true true w) as [[[status out] n] w'] eqn:Hget.
  destruct (own_get _ _ _ _ _ _ _ (n_running _ _ _ _ _ Hn) (n_asset _ _ _ _ _ Hn) Hget) as (-> & -> & Ha & Hk).
  destruct (psa_tx_eq _ _ _ Hget) as (st' & -> & Hst). rewrite Z.eqb_refl.
  replace (ITS_DATA_LEN <? sizeof ITS_DATA) with false by reflexivity. simpl.
  apply result_called, moves_storage; try done; simpl.
  - rewrite Ha. apply (n_asset _ _ _ _ _ Hn).
  - intros k _. by rewrite Ha.
  - lia.
  - unfold rank; simpl; lia.
Qed.

Lemma step_heavy_remove t0 i : params_ok h par j (HeavyRemove t0 i) p -> needs h t j (HeavyRemove t0 i) w ->
  pc_ok par j (HeavyRemove t0 i) -> result (HeavyRemove t0 i) (runner_step (mc_runner c) self (HeavyRemove t0 i) m).
Proof.
  intros Hok Hn Hpc. pose proof Hpc as [Hh Hi]. unfold runner_step.
  rewrite own, (uid_eq j p (po_idx _ _ _ _ _ Hok) small).
  destruct (svc_remove (TEST_UID_1 + Z.of_nat j) w) as [status w'] eqn:Hrem.
  destruct (own_remove _ _ _ _ _ (n_running _ _ _ _ _ Hn) (n_asset _ _ _ _ _ Hn) Hrem) as (-> & Ha & Hk).
  destruct (psa_tx_eq _ _ _ Hrem) as (st' & -> & Hst). rewrite Z.eqb_refl. simpl.
  apply result_called, moves_storage; try done; simpl.
  - split; [done|lia].
  - rewrite Ha. apply lookup_delete_eq.
  - intros k Hne. by rewrite Ha, lookup_delete_ne.
  - lia.
  - unfold rank; simpl; lia.
Qed.

Lemma mutex_params pc pc' ic : par = false -> params_ok h par j pc p -> started pc = true -> started pc' = true ->
  past pc = true -> completed pc' = ic ->
  params_ok h par j pc' (mkParams (child_idx p) (nr_rounds p) (nr_calls p) (p_mutex_handle p) (p_ret p) (p_total_ticks p) ic (is_parent p)).
Proof.
  intros Hpar [] Hs Hs' Hp Hc. split; simpl; try done.
  - by rewrite Hs, Hs' in *.
  - intros _. auto.
  - intros Hf. by destruct (po_child0 Hf).
Qed.

Lemma step_acquire : par = false -> params_ok h par j AcquireMutex p -> needs h t j AcquireMutex w ->
  result AcquireMutex (runner_step (mc_runner c) self AcquireMutex m).
Proof.
  intros Hpar Hok Hn. pose proof (po_child _ _ _ _ _ Hok Hpar) as [Hmh Hic]. unfold runner_step. rewrite own, Hmh.
  destruct (n_mutex _ _ _ _ _ Hn eq_refl) as (o & Ho & _). pose proof (law_acquire _ _ _ Ho) as Hl.
  destruct (os_wrapper_mutex_acquire _ _ _) as [[r w']|].
  - destruct Hl as [-> Hl]. apply result_unchanged, moves_leads; try done.
    + destruct Hok. split; try done.
    + rewrite (n_running _ _ _ _ _ Hn) in Hl. exact Hl.
    + unfold rank; simpl; lia.
    + simpl. lia.
    + simpl. split; [by left|done].
  - simpl. destruct o as [o|]; [by exists o|done].
Qed.

Lemma step_mark : par = false -> params_ok h par j MarkComplete p -> needs h t j MarkComplete w ->
  result MarkComplete (runner_step (mc_runner c) self MarkComplete m).
Proof.
  intros Hpar Hok Hn. unfold runner_step. rewrite own.
  eexists _, w, st. split; [by rewrite <- counting; destruct m, self|]. apply moves_leads; try done.
  - by apply (mutex_params MarkComplete ReleaseMutex).
  - unfold rank; simpl; lia.
  - simpl. lia.
  - simpl. split; [by right|done].
Qed.

Lemma step_release : par = false -> params_ok h par j ReleaseMutex p -> needs h t j ReleaseMutex w ->
  result ReleaseMutex (runner_step (mc_runner c) self ReleaseMutex m).
Proof.
  intros Hpar Hok Hn. pose proof (po_child _ _ _ _ _ Hok Hpar) as [Hmh Hic]. unfold runner_step. rewrite own, Hmh.
  destruct (n_mutex _ _ _ _ _ Hn eq_refl) as (o & Ho & Hot). rewrite (Hot eq_refl), <- (n_running _ _ _ _ _ Hn) in Ho.
  destruct (law_release _ _ Ho) as (r & w' & -> & Hl). apply result_unchanged, moves_leads; try done.
  - destruct Hok. by split.
  - unfold rank; simpl; lia.
  - simpl. lia.
  - simpl. split; [done|intros [|]; done].
Qed.

(** Every step of a runner is one of its moves. *)
Lemma step_runner pc : params_ok h par j pc p -> needs h t j pc w -> pc_ok par j pc ->
  (pc = WaitFlag -> par = false) -> result pc (runner_step (mc_runner c) self pc m).
Proof.
  intros Hok Hn Hpc Hwf. destruct pc.
  - by apply step_wait_flag.
  - by apply step_loop_start.
  - by apply step_light.
  - by apply step_heavy_set.
  - by apply step_heavy_get.
  - by apply step_heavy_remove.
  - by apply step_acquire.
  - by apply step_mark.
  - by apply step_release.
  - done.
Qed.
End runner.

(** ** All threads *)

Definition parent_rpc (pp : parent_pc) : runner_pc :=
  match pp with
  | RunTest pc => pc
  | Setup | CreateChild _ | ActivateChild _ => LoopStart
  | _ => RunnerEnd
  end.

(** The runners, the parent's last, and the threads that execute them. *)
Definition rpcs s : list runner_pc := c_children s ++ [parent_rpc (c_parent s)].
Definition tids s : list Z := child_ids (c_mem s) ++ [main].

Definition flag_set (pp : parent_pc) (j : nat) : bool :=
  match pp with
  | Setup | CreateChild _ => false
  | ActivateChild i => (j <? i)%nat
  | _ => true
  end.
Definition parent_has (pp : parent_pc) : bool :=
  match pp with WaitRead _ | WaitRelease _ _ => true | _ => false end.
Definition waiting (pc : runner_pc) : bool := match pc with WaitFlag => true | _ => false end.

Abbreviation world s := (m_world (c_mem s)).
Abbreviation nr s := (length (c_children s)).

Definition ended s (i : nat) : Prop := forall j, (j < i)%nat -> c_children s !! j = Some RunnerEnd.

Definition parent_inv (h : Z) s : Prop :=
  let pp := parent_params (c_mem s) in
  match c_parent s with
  | Setup | ParentEnd => False
  | CreateChild i => i = nr s /\ length (params (c_mem s)) = nr s
  | ActivateChild i => (i <= nr s)%nat /\ params (c_mem s) <> []
  | RunTest pc => params (c_mem s) <> [] /\ params_ok h true (nr s) pc pp /\ pc_ok true (nr s) pc /\ pc <> RunnerEnd
  | WaitAcquire i => params (c_mem s) <> [] /\ params_ok h true (nr s) RunnerEnd pp /\ (i <= nr s)%nat /\ ended s i
  | WaitRead i => params (c_mem s) <> [] /\ params_ok h true (nr s) RunnerEnd pp /\ (i < nr s)%nat /\ ended s i
  | WaitRelease i b => params (c_mem s) <> [] /\ params_ok h true (nr s) RunnerEnd pp /\ (i < nr s)%nat /\ ended s i /\
      (b = true -> c_children s !! i = Some RunnerEnd)
  end.

(** The owner of the mutex is the thread that is in its section. *)
Definition owner_inv (s : config) (o : option Z) : Prop :=
  (forall j pc t, c_children s !! j = Some pc -> child_ids (c_mem s) !! j = Some t -> has_mutex pc = true -> o = Some t) /\
  (parent_has (c_parent s) = true -> o = Some main) /\
  (forall t, o = Some t -> (t = main /\ parent_has (c_parent s) = true) \/
     exists j pc, c_children s !! j = Some pc /\ child_ids (c_mem s) !! j = Some t /\ has_mutex pc = true).

(** The invariant from the creation of the mutex [h] to its deletion. *)
Record inv (h : Z) s : Prop := {
  iv_len : length (child_ids (c_mem s)) = nr s;
  iv_bound : Z.of_nat (nr s) <= NR_MULTI_CALL_CHILD;
  iv_nodup : NoDup (tids s);
  iv_handle : mutex_handle (c_mem s) = Some h;
  iv_mutexes : Forall (fun p => p_mutex_handle p = Some h) (params (c_mem s));
  iv_children : forall j pc, c_children s !! j = Some pc ->
    exists p, params (c_mem s) !! j = Some p /\ params_ok h false j pc p /\ pc_ok false j pc;
  iv_flags : forall j pc t, c_children s !! j = Some pc -> child_ids (c_mem s) !! j = Some t ->
    k_flags (kernel (world s)) !! t =
      Some (if waiting pc && flag_set (c_parent s) j then TEST_CHILD_EVENT_FLAG (Z.of_nat j) else 0);
  iv_waiting : forall j pc, c_children s !! j = Some pc -> flag_set (c_parent s) j = false -> pc = WaitFlag;
  iv_main : is_Some (k_flags (kernel (world s)) !! main);
  iv_parent : parent_inv h s;
  iv_stats : exists st, stats (c_mem s) = Some st /\ nr_tx st = total done_calls (rpcs s);
  iv_asset : forall j pc t, rpcs s !! j = Some pc -> tids s !! j = Some t ->
    assets (world s) !! key t j = if holds pc then Some data else None;
  iv_base : forall k, assets (world s) !! k = base !! k \/ exists j t, tids s !! j = Some t /\ k = key t j;
  iv_owner : exists o, k_mutex (kernel (world s)) !! h = Some o /\ owner_inv s o;
}.

(** At the end the children no longer run and the assets are as they were. *)
Record final s : Prop := {
  fin_parent : c_parent s = ParentEnd;
  fin_children : Forall (eq RunnerEnd) (c_children s);
  fin_val : val (m_ret (c_mem s)) = TEST_PASSED;
  fin_assets : assets (world s) = base;
  fin_main : is_Some (k_flags (kernel (world s)) !! main);
  fin_stats : is_Some (stats (c_mem s));
}.

(** The steps left for the runners. *)
Definition mu s : Z := total rank (rpcs s).

Lemma rpcs_child s j pc : c_children s !! j = Some pc -> rpcs s !! j = Some pc.
Proof. intros H. unfold rpcs. by apply lookup_app_l_Some. Qed.

Lemma rpcs_parent s : rpcs s !! nr s = Some (parent_rpc (c_parent s)).
Proof. unfold rpcs. by rewrite lookup_app_r, Nat.sub_diag by lia. Qed.

Lemma tids_child s j t : child_ids (c_mem s) !! j = Some t -> tids s !! j = Some t.
Proof. intros H. unfold tids. by apply lookup_app_l_Some. Qed.

Lemma nr_small h s j t : inv h s -> tids s !! j = Some t -> Z.of_nat j <= 30.
Proof.
  intros Hi Hj. apply lookup_lt_Some in Hj. unfold tids in Hj. rewrite length_app, (iv_len _ _ Hi) in Hj. simpl in Hj.
  pose proof (iv_bound _ _ Hi) as Hb. unfold NR_MULTI_CALL_CHILD in Hb. destruct (_ >? _); lia.
Qed.

Lemma tids_inj h s j j' t : inv h s -> tids s !! j = Some t -> tids s !! j' = Some t -> j = j'.
Proof. intros Hi. apply NoDup_lookup, (iv_nodup _ _ Hi). Qed.

Lemma key_inj t t' j j' : key t j = key t' j' -> j = j'.
Proof. unfold key. intros [= _ H]. lia. Qed.

Lemma size_union_le (X Y : gset (Z * Z)) : (size (X ∪ Y) <= size X + size Y)%nat.
Proof. rewrite size_union_alt. apply Nat.add_le_mono_l, subseteq_size. set_solver. Qed.

(** There is room for the asset of each runner. *)
Lemma inv_room h s j t : inv h s -> tids s !! j = Some t -> fits NUM_ASSETS (assets (world s)) (key t j).
Proof.
  intros Hi Ht. unfold fits. set (K := list_to_set (imap (fun j t => key t j) (tids s)) : gset (Z * Z)).
  assert (Hin : forall j t, tids s !! j = Some t -> key t j ∈ K).
  { intros j' t' Ht'. apply elem_of_list_to_set, list_elem_of_lookup. exists j'. by rewrite list_lookup_imap, Ht'. }
  transitivity (size (dom base ∪ K)).
  - apply subseteq_size. intros k [Hk%elem_of_singleton|Hk]%elem_of_union; [subst; set_solver|].
    destruct (iv_base _ _ Hi k) as [Hb|(j' & t' & Hj' & ->)]; [|set_solver].
    apply elem_of_union_l, elem_of_dom. rewrite <- Hb. by apply elem_of_dom.
  - etransitivity; [apply size_union_le|]. pose proof (size_list_to_set_le (imap (fun j t => key t j) (tids s))) as HK.
    fold K in HK. rewrite length_imap in HK. unfold tids in HK. rewrite length_app, (iv_len _ _ Hi) in HK. simpl in HK.
    pose proof (iv_bound _ _ Hi). lia.
Qed.

Lemma rpcs_ok h s j pc : inv h s -> rpcs s !! j = Some pc -> exists par, pc_ok par j pc.
Proof.
  intros Hi Hj. unfold rpcs in Hj. apply lookup_app_Some in Hj as [Hj|[Hge Hj]].
  - destruct (iv_children _ _ Hi _ _ Hj) as (p & _ & _ & ?). by exists false.
  - apply list_lookup_singleton_Some in Hj as [Hz <-]. assert (j = nr s) as -> by lia.
    pose proof (iv_parent _ _ Hi) as Hp. unfold parent_inv in Hp. exists true.
    destruct (c_parent s); try done. by destruct Hp as (_ & _ & ? & _).
Qed.

(** The statistics have room for one more call. *)
Lemma inv_counting h s : inv h s ->
  exists st, stats (c_mem s) = Some st /\ nr_tx st = total done_calls (rpcs s) /\ 0 <= nr_tx st < 2 ^ 32 - 1.
Proof.
  intros Hi. destruct (iv_stats _ _ Hi) as (st & Hst & Hn). exists st. split; [done|]. split; [done|].
  rewrite Hn. assert (Hb : forall j pc, rpcs s !! j = Some pc -> 0 <= done_calls j pc <= 30720).
  { intros j pc Hj. destruct (rpcs_ok _ _ _ _ Hi Hj) as [par Hpc]. pose proof (done_bounds _ _ _ Hpc). pose proof (calls_bounds j). lia. }
  pose proof (total_bounds _ _ _ _ Hb) as Ht. unfold rpcs in Ht |- *. rewrite length_app in Ht. simpl in Ht.
  assert (nr s <= 30)%nat.
  { pose proof (iv_bound _ _ Hi) as Hbd. unfold NR_MULTI_CALL_CHILD in Hbd. destruct (_ >? _); lia. }
  lia.
Qed.

Lemma rank_nonneg par j pc : pc_ok par j pc -> 0 <= rank j pc.
Proof. intros H. pose proof (done_bounds _ _ _ H). unfold rank. destruct pc; lia. Qed.

Lemma mu_nonneg h s : inv h s -> 0 <= mu s.
Proof.
  intros Hi. assert (Hb : forall j pc, rpcs s !! j = Some pc -> 0 <= rank j pc <= 30727).
  { intros j pc Hj. destruct (rpcs_ok _ _ _ _ Hi Hj) as [par Hpc]. split; [by eapply rank_nonneg|].
    pose proof (done_bounds _ _ _ Hpc). pose proof (calls_bounds j). unfold rank. destruct pc; lia. }
  pose proof (total_bounds _ _ _ _ Hb). unfold mu. lia.
Qed.

(** The world as a runner finds it at its turn. *)
Lemma inv_needs h s j pc t w : inv h s -> rpcs s !! j = Some pc -> tids s !! j = Some t ->
  leads kernel (world s) (set_running t (kernel (world s))) w ->
  (j < nr s)%nat \/ pc <> WaitFlag /\ has_mutex pc = false ->
  needs h t j pc w.
Proof.
  intros Hi Hj Ht [Hk Ha] Hcase. split.
  - by rewrite Hk.
  - rewrite Ha. by apply (iv_asset _ _ Hi).
  - rewrite Ha. by eapply inv_room.
  - intros ->. destruct Hcase as [Hlt|[? _]]; [|done]. unfold rpcs in Hj. rewrite lookup_app_l in Hj by done.
    unfold tids in Ht. rewrite lookup_app_l in Ht by (rewrite (iv_len _ _ Hi); done).
    rewrite Hk. simpl. rewrite (iv_flags _ _ Hi _ _ _ Hj Ht). eexists. split; [done|]. simpl. destruct (flag_set _ _); auto.
  - intros _. destruct (iv_owner _ _ Hi) as (o & Ho & Hc & _). rewrite Hk. exists o. split; [done|].
    intros Hm. destruct Hcase as [Hlt|[_ ?]]; [|congruence]. unfold rpcs in Hj. rewrite lookup_app_l in Hj by done.
    unfold tids in Ht. rewrite lookup_app_l in Ht by (rewrite (iv_len _ _ Hi); done). by eapply Hc.
Qed.

(** ** A step of a child *)

(** The configuration after child [i] has moved. *)
Definition child_moved s (i : nat) (pc' : runner_pc) (p' : test_params) (w' : W) (st' : ns_queue_stats) : config :=
  mkConfig (put_params (Some i) p' (with_world w' (with_stats (Some st') (c_mem s)))) (c_parent s) (<[i := pc']> (c_children s)).

Section child_moves.
  Variables (h : Z) (s : config) (i : nat) (t : Z) (pc pc' : runner_pc) (p' : test_params) (w0 w' : W) (st st' : ns_queue_stats).
  Hypothesis Hi : inv h s.
  Hypothesis Hpc : c_children s !! i = Some pc.
  Hypothesis Ht : child_ids (c_mem s) !! i = Some t.
  Hypothesis Hst : stats (c_mem s) = Some st.
  Hypothesis Hw0 : leads kernel (world s) (set_running t (kernel (world s))) w0.
  Hypothesis Hmv : moves h t false i pc w0 pc' p' w' st st'.
  Abbreviation s' := (child_moved s i pc' p' w' st').

Lemma lt_child : (i < nr s)%nat.
Proof. by eapply lookup_lt_Some. Qed.

Lemma moved_children j q : c_children s' !! j = Some q ->
  (j = i /\ q = pc') \/ (j <> i /\ c_children s !! j = Some q).
Proof.
  simpl. destruct (decide (j = i)) as [->|Hne].
  - rewrite list_lookup_insert_eq by apply lt_child. intros [= <-]. by left.
  - rewrite list_lookup_insert_ne by done. by right.
Qed.

Lemma moved_rpcs : rpcs s' = <[i := pc']> (rpcs s).
Proof. unfold rpcs. simpl. by rewrite insert_app_l by apply lt_child. Qed.

Lemma moved_tids : tids s' = tids s.
Proof. done. Qed.

Lemma moved_not_end : pc <> RunnerEnd.
Proof.
  intros ->. pose proof (mv_rank _ _ _ _ _ _ _ _ _ _ _ Hmv) as Hr. pose proof (rank_nonneg _ _ _ (mv_pc _ _ _ _ _ _ _ _ _ _ _ Hmv)).
  unfold rank in Hr at 2. simpl in Hr. lia.
Qed.

Lemma moved_ended k : ended s k -> ended s' k.
Proof.
  intros He j Hj. pose proof (He j Hj) as Hc. pose proof moved_not_end. simpl. destruct (decide (i = j)) as [->|Hne].
  - congruence.
  - by rewrite list_lookup_insert_ne.
Qed.

Lemma other_child j t' : j <> i -> child_ids (c_mem s) !! j = Some t' -> t' <> t.
Proof. intros Hne Hj ->. apply Hne. eapply tids_inj; [done|by apply tids_child..]. Qed.

Lemma moved_flags_eq t' : k_flags (kernel w') !! t' =
  if decide (waiting pc = true /\ t' = t) then Some 0 else k_flags (kernel (world s)) !! t'.
Proof.
  rewrite (mv_kernel _ _ _ _ _ _ _ _ _ _ _ Hmv), (proj1 Hw0).
  case_decide as Hd.
  - destruct Hd as [Hd ->], pc; try done. apply lookup_insert_eq.
  - destruct pc; try done. apply lookup_insert_ne. naive_solver.
Qed.

(** The child's flag is set when it leaves its wait. *)
Lemma moved_flag_set : pc = WaitFlag -> flag_set (c_parent s) i = true.
Proof.
  intros Hw. pose proof (proj1 (mv_flag _ _ _ _ _ _ _ _ _ _ _ Hmv) Hw) as Hf. rewrite (proj1 Hw0) in Hf. simpl in Hf.
  rewrite (iv_flags _ _ Hi _ _ _ Hpc Ht), Hw in Hf. simpl in Hf.
  destruct (flag_set _ _); [done|]. injection Hf as Hf.
  pose proof (event_flag i ltac:(eapply nr_small; [exact Hi|by apply tids_child])). lia.
Qed.

Lemma moved_owner : exists o, k_mutex (kernel w') !! h = Some o /\ owner_inv s' o.
Proof.
  pose proof moved_children as Hmc. pose proof other_child as Hoc. pose proof lt_child as Hlt.
  destruct (iv_owner _ _ Hi) as (o & Ho & Hc & Hp & Hby).
  destruct (mv_mutex _ _ _ _ _ _ _ _ _ _ _ Hmv) as [Hfree Hhas]. rewrite (proj1 Hw0) in Hfree. simpl in Hfree.
  rewrite (mv_kernel _ _ _ _ _ _ _ _ _ _ _ Hmv), (proj1 Hw0).
  destruct (has_mutex pc) eqn:Hm.
  - (* in its section: it stays there, or leaves and frees the mutex *)
    assert (o = Some t) as -> by (by eapply Hc).
    assert (Hpar : parent_has (c_parent s) = false).
    { destruct (parent_has _) eqn:Hph; [|done]. specialize (Hp eq_refl). injection Hp as ->.
      exfalso. assert (i = nr s) as Heq.
      { eapply tids_inj; [exact Hi|by apply tids_child|]. unfold tids. rewrite lookup_app_r by (rewrite (iv_len _ _ Hi); done).
        by rewrite (iv_len _ _ Hi), Nat.sub_diag. }
      lia. }
    assert (Hnone : forall j q t', j <> i -> c_children s !! j = Some q -> child_ids (c_mem s) !! j = Some t' -> has_mutex q = false).
    { intros j q t' Hne Hq Ht'. destruct (has_mutex q) eqn:Hhq; [|done]. pose proof (Hc _ _ _ Hq Ht' Hhq) as Heq.
      injection Heq as Heq. by destruct (Hoc _ _ Hne Ht'). }
    destruct pc; try done; simpl.
    + exists (Some t). split; [done|]. destruct Hhas as [_ Hhas]. specialize (Hhas (or_intror eq_refl)). split_and!.
      * intros j q t' [[-> ->]|[Hne Hq]]%Hmc Ht' Hhq; [simpl in Ht'; congruence|]. by rewrite (Hnone _ _ _ Hne Hq Ht') in Hhq.
      * simpl. by rewrite Hpar.
      * intros t' [= <-]. right. exists i, pc'. simpl. by rewrite list_lookup_insert_eq by apply Hlt.
    + exists None. split; [apply lookup_insert_eq|]. split_and!; [|by simpl; rewrite Hpar|done].
      intros j q t' [[-> ->]|[Hne Hq]]%Hmc Ht' Hhq; [|by rewrite (Hnone _ _ _ Hne Hq Ht') in Hhq].
      apply Hhas in Hhq as [|]; done.
  - destruct (decide (pc = AcquireMutex)) as [Ha|Hna].
    + (* the mutex was free *)
      specialize (Hfree Ha). rewrite Ho in Hfree. injection Hfree as ->. rewrite Ha. simpl. exists (Some t).
      split; [apply lookup_insert_eq|]. split_and!.
      * intros j q t' [[-> ->]|[Hne Hq]]%Hmc Ht' Hhq; [simpl in Ht'; congruence|]. by specialize (Hc _ _ _ Hq Ht' Hhq).
      * intros Hph. by specialize (Hp Hph).
      * intros t' [= <-]. right. exists i, pc'. simpl. rewrite list_lookup_insert_eq by apply Hlt. split_and!; [done..|]. tauto.
    + exists o. split.
      { rewrite <- Ho. by destruct pc. }
      assert (Hm' : has_mutex pc' = false).
      { apply not_true_is_false. intros [|Hmk]%Hhas; [done|]. by rewrite Hmk in Hm. }
      split_and!; [|done|].
      * intros j q t' [[-> ->]|[Hne Hq]]%Hmc Ht' Hhq; [congruence|]. by eapply Hc.
      * intros t' Ht'. destruct (Hby _ Ht') as [?|(j & q & Hq & Hj & Hhq)]; [by left|right].
        exists j, q. simpl. rewrite list_lookup_insert_ne by (intros <-; congruence). done.
Qed.

Lemma moved_assets j q t' : rpcs s' !! j = Some q -> tids s !! j = Some t' ->
  assets w' !! key t' j = if holds q then Some data else None.
Proof.
  intros Hq Ht'. rewrite moved_rpcs in Hq. destruct (decide (i = j)) as [<-|Hne].
  - rewrite list_lookup_insert_eq in Hq by (apply lookup_lt_is_Some; eexists; by apply rpcs_child). injection Hq as <-.
    assert (t' = t) as -> by (rewrite (tids_child _ _ _ Ht) in Ht'; congruence).
    by apply (mv_asset _ _ _ _ _ _ _ _ _ _ _ Hmv).
  - rewrite list_lookup_insert_ne in Hq by done.
    rewrite (mv_others _ _ _ _ _ _ _ _ _ _ _ Hmv) by (intros Hk%key_inj; congruence).
    rewrite (proj2 Hw0). by apply (iv_asset _ _ Hi).
Qed.

Lemma moved_base k : assets w' !! k = base !! k \/ exists j t', tids s !! j = Some t' /\ k = key t' j.
Proof.
  destruct (decide (k = key t i)) as [->|Hne]; [right; exists i, t; split; [by apply tids_child|done]|].
  rewrite (mv_others _ _ _ _ _ _ _ _ _ _ _ Hmv), (proj2 Hw0) by done. apply (iv_base _ _ Hi).
Qed.

Lemma moved_flags j q t' : c_children s' !! j = Some q -> child_ids (c_mem s) !! j = Some t' ->
  k_flags (kernel w') !! t' = Some (if waiting q && flag_set (c_parent s) j then TEST_CHILD_EVENT_FLAG (Z.of_nat j) else 0).
Proof.
  pose proof other_child as Hoc. pose proof (proj2 (mv_flag _ _ _ _ _ _ _ _ _ _ _ Hmv)) as Hnw.
  intros [[-> ->]|[Hne Hq]]%moved_children Ht'; rewrite moved_flags_eq.
  - assert (waiting pc' = false) as -> by (destruct pc'; done). simpl.
    case_decide as Hd; [done|]. rewrite (iv_flags _ _ Hi _ _ _ Hpc Ht').
    assert (waiting pc = false) as ->; [|done]. apply not_true_is_false. intros Hw. apply Hd. split; [done|congruence].
  - rewrite decide_False by (intros [_ ->]; by apply (Hoc _ _ Hne Ht')). by apply (iv_flags _ _ Hi).
Qed.

Lemma moved_parent : parent_inv h s -> parent_inv h s'.
Proof.
  pose proof moved_ended as He. pose proof moved_not_end as Hne.
  unfold parent_inv. simpl. rewrite !length_insert.
  assert (Hps : params (c_mem s) <> [] -> <[i := p']> (params (c_mem s)) <> []).
  { intros H Hn. apply H. apply (f_equal length) in Hn. rewrite length_insert in Hn. by apply nil_length_inv. }
  destruct (c_parent s) as [|k|k|q|k|k|k b|]; intros Hp.
  - exact Hp.
  - exact Hp.
  - split; [apply Hp|apply Hps, Hp].
  - split; [apply Hps, Hp|apply Hp].
  - destruct Hp as (H1 & H2 & H3 & H4). exact (conj (Hps H1) (conj H2 (conj H3 (He _ H4)))).
  - destruct Hp as (H1 & H2 & H3 & H4). exact (conj (Hps H1) (conj H2 (conj H3 (He _ H4)))).
  - destruct Hp as (H1 & H2 & H3 & H4 & Hb). refine (conj (Hps H1) (conj H2 (conj H3 (conj (He _ H4) _)))).
    intros Hc%Hb. rewrite list_lookup_insert_ne; [done|]. intros <-. congruence.
  - exact Hp.
Qed.

Lemma moved_params j q : c_children s' !! j = Some q ->
  exists p, <[i := p']> (params (c_mem s)) !! j = Some p /\ params_ok h false j q p /\ pc_ok false j q.
Proof.
  intros [[-> ->]|[Hne Hq]]%moved_children.
  - exists p'. destruct (iv_children _ _ Hi _ _ Hpc) as (p & Hp & _).
    rewrite list_lookup_insert_eq by (by eapply lookup_lt_Some).
    split; [done|]. split; [apply (mv_params _ _ _ _ _ _ _ _ _ _ _ Hmv)|apply (mv_pc _ _ _ _ _ _ _ _ _ _ _ Hmv)].
  - rewrite list_lookup_insert_ne by done. by apply (iv_children _ _ Hi).
Qed.

Lemma moved_inv : nr_tx st = total done_calls (rpcs s) -> inv h s' /\ mu s' < mu s.
Proof.
  intros Hn. pose proof (rpcs_child _ _ _ Hpc) as Hr. split.
  - split; simpl.
    + by rewrite length_insert, (iv_len _ _ Hi).
    + rewrite length_insert. apply (iv_bound _ _ Hi).
    + apply (iv_nodup _ _ Hi).
    + apply (iv_handle _ _ Hi).
    + apply Forall_insert; [apply (iv_mutexes _ _ Hi)|].
      by destruct (po_child _ _ _ _ _ (mv_params _ _ _ _ _ _ _ _ _ _ _ Hmv) eq_refl).
    + apply moved_params.
    + apply moved_flags.
    + pose proof moved_flag_set as Hfs. intros j q [[-> ->]|[Hne Hq]]%moved_children Hf; [|by apply (iv_waiting _ _ Hi j)].
      pose proof (iv_waiting _ _ Hi _ _ Hpc Hf) as Hw. rewrite Hfs in Hf by done. done.
    + rewrite moved_flags_eq. case_decide; [done|apply (iv_main _ _ Hi)].
    + apply moved_parent, (iv_parent _ _ Hi).
    + exists st'. split; [done|]. rewrite moved_rpcs, (total_insert _ _ _ _ _ Hr), (mv_tx _ _ _ _ _ _ _ _ _ _ _ Hmv). lia.
    + apply moved_assets.
    + apply moved_base.
    + apply moved_owner.
  - unfold mu. rewrite moved_rpcs, (total_insert _ _ _ _ _ Hr). pose proof (mv_rank _ _ _ _ _ _ _ _ _ _ _ Hmv). lia.
Qed.
End child_moves.

(** A step of a child keeps the invariant and brings it closer to its end, or
    the child waits for its flag or for the mutex. *)
Lemma child_step h s i : inv h s ->
  match thread_step entry address __FILE__ c main (Some i) s with
  | Undefined => False
  | Waits => forall pc t, c_children s !! i = Some pc -> child_ids (c_mem s) !! i = Some t ->
      match pc with
      | RunnerEnd => True
      | WaitFlag => flag_set (c_parent s) i = false
      | AcquireMutex => exists o, k_mutex (kernel (world s)) !! h = Some (Some o)
      | _ => False
      end
  | Next s' => inv h s' /\ mu s' < mu s /\ c_parent s' = c_parent s /\ nr s' = nr s
  end.
Proof.
  intros Hi. unfold thread_step. destruct (c_children s !! i) as [pc|] eqn:Hpc; [|by intros ? ?].
  destruct (child_ids (c_mem s) !! i) as [t|] eqn:Ht; [|by intros ? ? _].
  set (w0 := switch t (world s)). pose proof (law_switch t (world s)) as Hw0. fold w0 in Hw0.
  destruct (iv_children _ _ Hi _ _ Hpc) as (p & Hp & Hok & Hpcok).
  destruct (inv_counting _ _ Hi) as (st & Hst & Hn & Hroom).
  pose proof (step_runner h t false i (Some i) (with_world w0 (c_mem s)) p st
    (nr_small _ _ _ _ Hi (tids_child _ _ _ Ht)) Hp Hst Hroom pc Hok
    (inv_needs _ _ _ _ _ _ Hi (rpcs_child _ _ _ Hpc) (tids_child _ _ _ Ht) Hw0 (or_introl (lookup_lt_Some _ _ _ Hpc)))
    Hpcok (fun _ => eq_refl)) as Hstep.
  destruct (runner_step _ _ _ _) as [| |[pc' m']]; simpl in Hstep; [done| |].
  - intros pc0 t0 [= <-] [= <-]. unfold blocked in Hstep. rewrite (proj1 Hw0) in Hstep. simpl in Hstep. destruct pc; try done.
    rewrite (iv_flags _ _ Hi _ _ _ Hpc Ht) in Hstep. simpl in Hstep. destruct (flag_set _ _); [|done].
    injection Hstep as Hf. pose proof (event_flag i (nr_small _ _ _ _ Hi (tids_child _ _ _ Ht))). lia.
  - destruct Hstep as (p' & w' & st' & -> & Hmv).
    destruct (moved_inv h s i t pc pc' p' w0 w' st st' Hi Hpc Ht Hw0 Hmv Hn) as [Hi' Hmu].
    split_and!; [exact Hi'|exact Hmu|done|simpl; by rewrite length_insert].
Qed.

(** ** Steps of the parent *)

(** The parent's turn: its thread runs. *)
Definition at_turn (w : W) s : mem := with_world w (c_mem s).

Lemma main_turn s : leads kernel (world s) (set_running main (kernel (world s))) (switch main (world s)).
Proof. apply law_switch. Qed.

Lemma tids_main h s : inv h s -> tids s !! nr s = Some main.
Proof. intros Hi. unfold tids. by rewrite lookup_app_r, (iv_len _ _ Hi), Nat.sub_diag by (rewrite (iv_len _ _ Hi); done). Qed.

(** A change of the parent's part that leaves the children's. *)
Lemma inv_keep h s s' o :
  inv h s -> c_children s' = c_children s -> child_ids (c_mem s') = child_ids (c_mem s) ->
  mutex_handle (c_mem s') = mutex_handle (c_mem s) -> Forall (fun p => p_mutex_handle p = Some h) (params (c_mem s')) ->
  (forall j, (j < nr s)%nat -> params (c_mem s') !! j = params (c_mem s) !! j) ->
  stats (c_mem s') = stats (c_mem s) -> parent_rpc (c_parent s') = parent_rpc (c_parent s) ->
  k_flags (kernel (world s')) = k_flags (kernel (world s)) -> (forall j, (j < nr s)%nat -> flag_set (c_parent s') j = flag_set (c_parent s) j) ->
  assets (world s') = assets (world s) -> k_mutex (kernel (world s')) !! h = Some o -> owner_inv s' o -> parent_inv h s' ->
  inv h s'.
Proof.
  intros Hi Hc Hids Hmh Hps Hpj Hst Hrpc Hfl Hfs Ha Ho Hown Hpar.
  assert (Htid : tids s' = tids s) by (unfold tids; by rewrite Hids).
  assert (Hrpcs : rpcs s' = rpcs s) by (unfold rpcs; by rewrite Hc, Hrpc).
  split; rewrite ?Hc, ?Hids, ?Htid, ?Hrpcs, ?Ha, ?Hst, ?Hmh, ?Hfl; try apply Hi; try done.
  - intros j pc Hj. rewrite Hpj by (by eapply lookup_lt_Some). by apply (iv_children _ _ Hi).
  - intros j pc t Hj Ht. rewrite Hfs by (by eapply lookup_lt_Some). by apply (iv_flags _ _ Hi).
  - intros j pc Hj. rewrite Hfs by (by eapply lookup_lt_Some). by apply (iv_waiting _ _ Hi).
  - by exists o.
Qed.

(** Nobody's section is entered or left. *)
Lemma owner_keep s s' o :
  owner_inv s o -> c_children s' = c_children s -> child_ids (c_mem s') = child_ids (c_mem s) ->
  parent_has (c_parent s') = parent_has (c_parent s) -> owner_inv s' o.
Proof. unfold owner_inv. by intros ? -> -> ->. Qed.

Lemma NR_eq : NR_MULTI_CALL_CHILD = NUM_MAILBOX_QUEUE_SLOT * 2.
Proof. unfold NR_MULTI_CALL_CHILD. destruct (Z.gtb_spec NUM_MAILBOX_QUEUE_SLOT 1); [done|lia]. Qed.

Lemma next8_small i : Z.of_nat i <= 30 -> next8 i = S i.
Proof. intros H. unfold next8. rewrite wrapu_small; lia. Qed.

Lemma nr_le h s : inv h s -> (nr s <= 30)%nat.
Proof. intros Hi. pose proof (iv_bound _ _ Hi). rewrite NR_eq in *. lia. Qed.

(** Before the children are activated nothing has happened to the assets. *)
Lemma idle_assets h s k uid t : inv h s -> (forall j pc, rpcs s !! j = Some pc -> holds pc = false) ->
  k = (client t, uid) -> TEST_UID_1 <= uid <= TEST_UID_1 + NR_MULTI_CALL_CHILD -> assets (world s) !! k = None.
Proof.
  intros Hi Hh -> Huid. destruct (iv_base _ _ Hi (client t, uid)) as [->|(j & t' & Hj & Heq)]; [by apply unused|].
  rewrite Heq. assert (exists pc, rpcs s !! j = Some pc) as [pc Hpc].
  { apply lookup_lt_is_Some. apply lookup_lt_Some in Hj. unfold tids, rpcs in *. rewrite !length_app, (iv_len _ _ Hi) in *. done. }
  rewrite (iv_asset _ _ Hi _ _ _ Hpc Hj). by rewrite (Hh _ _ Hpc).
Qed.

Lemma all_created_inv h s m' pp :
  inv h s -> c_parent s = CreateChild pp -> child_ids m' = child_ids (c_mem s) ->
  mutex_handle m' = mutex_handle (c_mem s) -> Forall (fun p => p_mutex_handle p = Some h) (params m') ->
  (forall j, (j < nr s)%nat -> params m' !! j = params (c_mem s) !! j) -> params m' <> [] ->
  stats m' = stats (c_mem s) -> k_flags (kernel (m_world m')) = k_flags (kernel (world s)) ->
  k_mutex (kernel (m_world m')) = k_mutex (kernel (world s)) -> assets (m_world m') = assets (world s) ->
  exists m'', all_created c m' = Next (ActivateChild 0, m'', []) /\
    inv h (mkConfig m'' (ActivateChild 0) (c_children s ++ [])).
Proof.
  intros Hi Hpp Hids Hmh Hps Hpj Hne Hst Hfl Hmx Ha. eexists. split; [reflexivity|].
  destruct (iv_owner _ _ Hi) as (o & Ho & Hown).
  assert (Hm : forall A (f : mem -> A), (forall w st ps pp mh ct ids r l l', f (mkMem w st ps pp mh ct ids r l) = f (mkMem w st ps pp mh ct ids r l')) ->
    f (if mc_is_mixed c then LOG ("Totally %d threads for test start" ++ crlf) [VaInt (Z.of_nat (length (child_ids m')) + 1)] m'
       else LOG ("Each thread run 0x%x rounds tests" ++ crlf) [VaInt (mc_nr_rounds c)]
              (LOG ("Totally %d threads for test start" ++ crlf) [VaInt (Z.of_nat (length (child_ids m')) + 1)] m')) = f m').
  { intros A f Hf. destruct m', (mc_is_mixed c); unfold LOG; simpl; apply Hf. }
  eapply (inv_keep h s _ o Hi); simpl; rewrite ?app_nil_r, ?Hm by done; try done.
  - by rewrite Hpp.
  - intros j _. by rewrite Hpp.
  - by rewrite Hmx.
  - eapply owner_keep; [exact Hown|simpl; rewrite ?app_nil_r, ?Hm by done; try done..]. by rewrite Hpp.
  - unfold parent_inv. simpl. rewrite Hm by done. split; [lia|done].
Qed.

Abbreviation step := (thread_step entry address __FILE__ c main).

(** A child is created: it waits, and its asset is not there. *)
Lemma created_inv h s i t w' p st :
  inv h s -> c_parent s = CreateChild i -> Z.of_nat i < NR_MULTI_CALL_CHILD ->
  k_flags (kernel (world s)) !! t = None ->
  kernel w' = set_flags t 0 (set_running main (kernel (world s))) -> assets w' = assets (world s) ->
  stats (c_mem s) = Some st -> nr_tx st = total done_calls (rpcs s) ->
  p = mkParams (Z.of_nat i) (mc_nr_rounds c) None (Some h) None None false false ->
  inv h (mkConfig (mkMem w' (Some st) (params (c_mem s) ++ [p]) (parent_params (c_mem s)) (mutex_handle (c_mem s))
    (current_thread (c_mem s)) (child_ids (c_mem s) ++ [t]) (m_ret (c_mem s)) (m_log (c_mem s))) (CreateChild (S i)) (c_children s ++ [WaitFlag])).
Proof.
  intros Hi Hpp Hlt Hfresh Hk Ha Hst Hn Hp. pose proof (iv_parent _ _ Hi) as Hpar. unfold parent_inv in Hpar. rewrite Hpp in Hpar.
  destruct Hpar as [-> Hplen]. pose proof (iv_len _ _ Hi) as Hlen.
  assert (Hidle : forall j pc, c_children s !! j = Some pc -> pc = WaitFlag) by (intros; eapply iv_waiting; [exact Hi|done|by rewrite Hpp]).
  assert (Hnew : t ∉ tids s).
  { intros Hin. apply elem_of_app in Hin as [Hin|Hin%list_elem_of_singleton].
    - apply list_elem_of_lookup in Hin as [j Hj]. assert (exists pc, c_children s !! j = Some pc) as [pc Hpc].
      { apply lookup_lt_is_Some. rewrite <- Hlen. by eapply lookup_lt_Some. }
      rewrite (iv_flags _ _ Hi _ _ _ Hpc Hj) in Hfresh. done.
    - rewrite Hin in Hfresh. destruct (iv_main _ _ Hi) as [? Hm]. congruence. }
  assert (Hrpc_idle : forall l q, (forall j pc, l !! j = Some pc -> pc = WaitFlag) -> forall j pc, (l ++ [q]) !! j = Some pc -> pc = WaitFlag \/ pc = q).
  { intros l q Hl j pc [H|[_ H]]%lookup_app_Some; [left; by eapply Hl|right]. apply list_lookup_singleton_Some in H as [_ ->]. done. }
  assert (Hholds : forall j pc, rpcs s !! j = Some pc -> holds pc = false).
  { intros j pc Hj. unfold rpcs in Hj. rewrite Hpp in Hj. by destruct (Hrpc_idle _ _ Hidle _ _ Hj) as [-> | ->]. }
  split; simpl.
  - rewrite !length_app, Hlen. done.
  - rewrite length_app. simpl. lia.
  - unfold tids. simpl. rewrite <- app_assoc. unfold tids in Hnew. pose proof (iv_nodup _ _ Hi) as Hnd. unfold tids in Hnd.
    rewrite NoDup_app in Hnd |- *. destruct Hnd as (? & Hd & ?). split_and!; [done| |].
    + intros x Hx. pose proof (Hd x Hx). set_solver.
    + constructor; [set_solver|done].
  - apply (iv_handle _ _ Hi).
  - apply Forall_app. split; [apply (iv_mutexes _ _ Hi)|]. rewrite Hp. by repeat constructor.
  - intros j pc [Hj|[Hge Hj]]%lookup_app_Some.
    + destruct (iv_children _ _ Hi _ _ Hj) as (q & Hq & Hrest). exists q. split; [by apply lookup_app_l_Some|done].
    + apply list_lookup_singleton_Some in Hj as [Hz <-]. assert (j = nr s) as -> by lia. exists p.
      rewrite lookup_app_r, Hplen, Nat.sub_diag by lia. split; [done|]. rewrite Hp. split; [|done]. by split.
  - intros j pc t' Hj Ht'. rewrite andb_false_r. rewrite Hk. simpl.
    apply lookup_app_Some in Ht' as [Ht'|[Hge Ht']].
    + rewrite lookup_insert_ne by (intros ->; apply Hnew, elem_of_app; left; by eapply list_elem_of_lookup_2).
      assert (exists q, c_children s !! j = Some q) as [q Hq] by (apply lookup_lt_is_Some; rewrite <- Hlen; by eapply lookup_lt_Some).
      rewrite (iv_flags _ _ Hi _ _ _ Hq Ht'), Hpp. simpl. by rewrite andb_false_r.
    + apply list_lookup_singleton_Some in Ht' as [_ <-]. by rewrite lookup_insert_eq.
  - intros j pc Hj _. by destruct (Hrpc_idle _ WaitFlag Hidle _ _ Hj).
  - rewrite Hk. simpl. destruct (iv_main _ _ Hi) as [f Hf]. exists f. rewrite lookup_insert_ne; [done|]. intros ->. congruence.
  - unfold parent_inv. simpl. rewrite !length_app, Hplen. simpl. lia.
  - exists st. split; [done|]. rewrite Hn. unfold rpcs. rewrite Hpp. simpl. rewrite !total_app. simpl. lia.
  - intros j pc t' Hj Ht'. assert (holds pc = false) as ->.
    { unfold rpcs in Hj. simpl in Hj. destruct (Hrpc_idle (c_children s ++ [WaitFlag]) LoopStart
        ltac:(intros j' pc' Hj'; by destruct (Hrpc_idle _ WaitFlag Hidle _ _ Hj')) _ _ Hj) as [-> | ->]; done. }
    rewrite Ha. eapply (idle_assets _ _ _ _ _ Hi Hholds); [reflexivity|].
    apply lookup_lt_Some in Hj. unfold rpcs in Hj. simpl in Hj. rewrite !length_app in Hj. simpl in Hj. lia.
  - intros k. rewrite Ha. destruct (iv_base _ _ Hi k) as [?|(j & t' & Hj & ->)]; [by left|left].
    assert (Huid : TEST_UID_1 <= TEST_UID_1 + Z.of_nat j <= TEST_UID_1 + NR_MULTI_CALL_CHILD).
    { apply lookup_lt_Some in Hj. unfold tids in Hj. rewrite length_app, Hlen in Hj. simpl in Hj. lia. }
    unfold key. rewrite unused by done. by eapply (idle_assets _ _ _ _ _ Hi Hholds).
  - rewrite Hk. simpl. destruct (iv_owner _ _ Hi) as (o & Ho & Hc & Hpa & Hby). exists o. split; [done|]. rewrite Hpp in *.
    split_and!; simpl.
    + intros j pc t' Hj _ Hm. by destruct (Hrpc_idle _ WaitFlag Hidle _ _ Hj) as [-> | ->].
    + done.
    + intros t' Ht'. destruct (Hby _ Ht') as [[_ ?]|(j & pc & Hj & _ & Hm)]; [done|]. by rewrite (Hidle _ _ Hj) in Hm.
Qed.

Lemma create_step h s i : inv h s -> c_parent s = CreateChild i ->
  exists s', step None s = Next s' /\ inv h s' /\
    (c_parent s' = CreateChild (S i) /\ (i < Z.to_nat NR_MULTI_CALL_CHILD)%nat \/ c_parent s' = ActivateChild 0).
Proof.
  intros Hi Hpp. pose proof (iv_parent _ _ Hi) as Hpar. unfold parent_inv in Hpar. rewrite Hpp in Hpar. destruct Hpar as [-> Hplen].
  destruct (iv_stats _ _ Hi) as (st & Hst & Hn). destruct (main_turn s) as [Hk Ha]. pose proof (nr_le _ _ Hi) as Hle.
  unfold thread_step. rewrite Hpp. unfold parent_step, create_child.
  destruct (Z.ltb_spec (Z.of_nat (nr s)) NR_MULTI_CALL_CHILD) as [Hlt|Hge].
  - set (p := mkParams _ _ _ _ _ _ _ _).
    assert (Hw : write_at (nr s) p (params (with_world (switch main (world s)) (c_mem s))) = params (c_mem s) ++ [p]).
    { unfold write_at. simpl. rewrite Hplen. by rewrite Nat.ltb_irrefl. }
    rewrite Hw. destruct (law_thread_new None (mc_stack_size c) (entry (mc_runner c)) (Some (address (nr s)))
      (current_thread (c_mem s)).2 (switch main (world s))) as ([t|] & w' & Hnew & Hl); simpl; rewrite Hnew.
    + destruct Hl as [Hfresh [Hk' Ha']]. rewrite Hk in Hfresh, Hk'. eexists. split; [reflexivity|].
      rewrite next8_small by lia. split; [|left; split; [done|lia]].
      replace (write_at (nr s) t (child_ids (c_mem s))) with (child_ids (c_mem s) ++ [t])
        by (unfold write_at; by rewrite (iv_len _ _ Hi), Nat.ltb_irrefl).
      unfold with_child_ids, with_world, with_params. simpl. rewrite Hst. eapply created_inv; try done; [by rewrite Ha'|]. subst p. simpl. by rewrite (iv_handle _ _ Hi).
    + destruct Hl as [Hk' Ha']. match goal with |- context [all_created c ?m] =>
        destruct (all_created_inv h s m (nr s) Hi Hpp) as (m'' & -> & Hi') end.
      all: simpl; rewrite ?Hk', ?Hk, ?Ha'; try done.
      * apply Forall_app. split; [apply (iv_mutexes _ _ Hi)|]. constructor; [|constructor]. apply (iv_handle _ _ Hi).
      * intros j Hj. rewrite lookup_app_l by (rewrite Hplen; done). done.
      * by destruct (params (c_mem s)).
      * eexists. split; [reflexivity|]. split; [exact Hi'|by right].
  - match goal with |- context [all_created c ?m] => destruct (all_created_inv h s m (nr s) Hi Hpp) as (m'' & -> & Hi') end.
    all: simpl; rewrite ?Hk, ?Ha; try done.
    + apply (iv_mutexes _ _ Hi).
    + intros Hnil. rewrite Hnil in Hplen. simpl in Hplen. rewrite NR_eq in Hge. lia.
    + eexists. split; [reflexivity|]. split; [exact Hi'|by right].
Qed.

(** The parent sets the flag of the next child. *)
Lemma activated_inv h s i t w' :
  inv h s -> c_parent s = ActivateChild i -> child_ids (c_mem s) !! i = Some t ->
  kernel w' = set_flags t (TEST_CHILD_EVENT_FLAG (Z.of_nat i)) (set_running main (kernel (world s))) ->
  assets w' = assets (world s) ->
  inv h (mkConfig (with_world w' (c_mem s)) (ActivateChild (S i)) (c_children s ++ [])).
Proof.
  intros Hi Hpp Ht Hk Ha. rewrite app_nil_r. pose proof (iv_parent _ _ Hi) as Hpar. unfold parent_inv in Hpar. rewrite Hpp in Hpar.
  assert (Hlt : (i < nr s)%nat) by (rewrite <- (iv_len _ _ Hi); by eapply lookup_lt_Some).
  assert (Hother : forall j t', tids s !! j = Some t' -> j <> i -> t' <> t).
  { intros j t' Hj Hne ->. apply Hne. eapply tids_inj; [exact Hi|exact Hj|by apply tids_child]. }
  split; simpl; try apply Hi.
  - intros j pc t' Hj Ht'. rewrite Hk. simpl. destruct (decide (j = i)) as [->|Hne].
    + assert (t' = t) as -> by congruence. rewrite lookup_insert_eq.
      rewrite (iv_waiting _ _ Hi _ _ Hj) by (rewrite Hpp; simpl; apply Nat.ltb_irrefl).
      by rewrite (proj2 (Nat.ltb_lt i (S i))) by lia.
    + rewrite lookup_insert_ne by (apply not_eq_sym, (Hother j); [by apply tids_child|done]).
      rewrite (iv_flags _ _ Hi _ _ _ Hj Ht'), Hpp. simpl.
      destruct (Nat.ltb_spec j i), (Nat.ltb_spec j (S i)); try lia; done.
  - intros j pc Hj Hf. apply (iv_waiting _ _ Hi j); [done|]. rewrite Hpp. simpl.
    apply Nat.ltb_ge in Hf. apply Nat.ltb_ge. lia.
  - rewrite Hk. simpl. destruct (iv_main _ _ Hi) as [f Hf]. exists f. rewrite lookup_insert_ne; [done|].
    apply not_eq_sym, (Hother (nr s)); [by eapply tids_main|lia].
  - unfold parent_inv. simpl. split; [lia|]. apply Hpar.
  - destruct (iv_stats _ _ Hi) as (st & Hst & Hn). exists st. split; [done|]. rewrite Hn. unfold rpcs. by rewrite Hpp.
  - intros j pc t' Hj Ht'. rewrite Ha. apply (iv_asset _ _ Hi); [|done]. unfold rpcs in *. by rewrite Hpp.
  - intros k. rewrite Ha. apply (iv_base _ _ Hi).
  - destruct (iv_owner _ _ Hi) as (o & Ho & Hown). exists o. rewrite Hk. split; [done|].
    eapply owner_keep; [exact Hown|done..|]. by rewrite Hpp.
Qed.

Lemma activate_step h s i : inv h s -> c_parent s = ActivateChild i ->
  exists s', step None s = Next s' /\ inv h s' /\ nr s' = nr s /\
    (c_parent s' = ActivateChild (S i) /\ (i < nr s)%nat \/ c_parent s' = RunTest LoopStart).
Proof.
  intros Hi Hpp. pose proof (iv_parent _ _ Hi) as Hpar. unfold parent_inv in Hpar. rewrite Hpp in Hpar.
  destruct Hpar as [Hile Hpne]. destruct (main_turn s) as [Hk Ha]. pose proof (nr_le _ _ Hi) as Hle.
  unfold thread_step. rewrite Hpp. unfold parent_step. simpl.
  destruct (child_ids (c_mem s) !! i) as [t|] eqn:Ht.
  - assert (Hlt : (i < nr s)%nat) by (rewrite <- (iv_len _ _ Hi); by eapply lookup_lt_Some).
    assert (exists pc, c_children s !! i = Some pc) as [pc Hpc] by (by apply lookup_lt_is_Some).
    pose proof (iv_flags _ _ Hi _ _ _ Hpc Ht) as Hf. rewrite Hpp in Hf. simpl in Hf. rewrite Nat.ltb_irrefl, andb_false_r in Hf.
    pose proof (event_flag i ltac:(lia)) as Hb.
    destruct (law_set_flag (switch main (world s)) t 0 (TEST_CHILD_EVENT_FLAG (Z.of_nat i))) as (r & w' & -> & Hk' & Ha'); [by rewrite Hk|lia|].
    rewrite Z.lor_0_l in Hk'. rewrite Hk in Hk'. eexists. split; [reflexivity|]. rewrite next8_small by lia. simpl.
    split; [eapply activated_inv; try done; by rewrite Ha'|]. split; [by rewrite app_nil_r|]. by left.
  - eexists. split; [reflexivity|]. assert (i = nr s) as -> by (apply lookup_ge_None in Ht; rewrite (iv_len _ _ Hi) in Ht; lia).
    split; [|split; [simpl; by rewrite app_nil_r|by right]]. destruct (iv_owner _ _ Hi) as (o & Ho & Hown).
    eapply (inv_keep h s _ o Hi); simpl; rewrite ?app_nil_r; try done; rewrite ?Hk, ?Ha, ?Hpp; try done.
    + apply (iv_mutexes _ _ Hi).
    + intros j Hj. simpl. symmetry. by apply Nat.ltb_lt.
    + eapply owner_keep; [exact Hown|simpl; rewrite ?app_nil_r; done..|]. by rewrite Hpp.
    + unfold parent_inv. simpl. rewrite ?app_nil_r. split_and!; try done. rewrite (iv_len _ _ Hi). by split.
Qed.

(** A step of the parent's own runner. *)
Lemma run_inv h s pc pc' p' w0 w' st st' pp' :
  inv h s -> c_parent s = RunTest pc -> stats (c_mem s) = Some st -> nr_tx st = total done_calls (rpcs s) ->
  leads kernel (world s) (set_running main (kernel (world s))) w0 ->
  moves h main true (nr s) pc w0 pc' p' w' st st' ->
  (pp' = RunTest pc' /\ pc' <> RunnerEnd \/ pp' = WaitAcquire 0 /\ pc' = RunnerEnd) ->
  let s' := mkConfig (with_parent_params p' (with_world w' (with_stats (Some st') (c_mem s)))) pp' (c_children s ++ []) in
  inv h s' /\ mu s' < mu s.
Proof.
  intros Hi Hpp Hst Hn [Hk Ha] Hmv Hpp' s'. pose proof (iv_parent _ _ Hi) as Hpar. unfold parent_inv in Hpar. rewrite Hpp in Hpar.
  destruct Hpar as (Hpne & Hok & Hpc & Hend). subst s'. rewrite app_nil_r.
  assert (Hkern : kernel w' = set_running main (kernel (world s))).
  { rewrite (mv_kernel _ _ _ _ _ _ _ _ _ _ _ Hmv), Hk. by destruct pc. }
  assert (Hrpc : parent_rpc pp' = pc') by (destruct Hpp' as [[-> _]|[-> ->]]; done).
  assert (Hrpcs : forall m, rpcs (mkConfig m pp' (c_children s)) = <[nr s := pc']> (rpcs s)).
  { intros m. unfold rpcs. simpl. rewrite Hrpc. by rewrite insert_app_cons. }
  assert (Hfs : forall j, flag_set pp' j = flag_set (c_parent s) j) by (rewrite Hpp; destruct Hpp' as [[-> _]|[-> _]]; done).
  assert (Hph : parent_has pp' = parent_has (c_parent s)) by (rewrite Hpp; destruct Hpp' as [[-> _]|[-> _]]; done).
  pose proof (rpcs_parent s) as Hat. rewrite Hpp in Hat. simpl in Hat. split.
  - split; simpl; try apply Hi.
    + intros j q t Hj Ht. rewrite Hkern, Hfs. by apply (iv_flags _ _ Hi).
    + intros j q Hj. rewrite Hfs. by apply (iv_waiting _ _ Hi).
    + rewrite Hkern. apply (iv_main _ _ Hi).
    + unfold parent_inv. simpl. pose proof (mv_params _ _ _ _ _ _ _ _ _ _ _ Hmv). pose proof (mv_pc _ _ _ _ _ _ _ _ _ _ _ Hmv).
      destruct Hpp' as [[-> ?]|[-> ->]]; [done|]. split_and!; [done|done|lia|intros j Hj; lia].
    + exists st'. split; [done|]. rewrite Hrpcs, (total_insert _ _ _ _ _ Hat), (mv_tx _ _ _ _ _ _ _ _ _ _ _ Hmv). lia.
    + intros j q t Hj Ht. rewrite Hrpcs in Hj. change (tids s !! j = Some t) in Ht. destruct (decide (nr s = j)) as [<-|Hne].
      * rewrite list_lookup_insert_eq in Hj by (apply lookup_lt_is_Some; by eexists). injection Hj as <-.
        assert (t = main) as -> by (rewrite (tids_main _ _ Hi) in Ht; congruence).
        by apply (mv_asset _ _ _ _ _ _ _ _ _ _ _ Hmv).
      * rewrite list_lookup_insert_ne in Hj by done.
        rewrite (mv_others _ _ _ _ _ _ _ _ _ _ _ Hmv) by (intros Heq%key_inj; congruence). rewrite Ha. by apply (iv_asset _ _ Hi).
    + intros k. destruct (decide (k = key main (nr s))) as [->|Hne].
      * right. exists (nr s), main. split; [exact (tids_main _ _ Hi)|done].
      * rewrite (mv_others _ _ _ _ _ _ _ _ _ _ _ Hmv), Ha by done. apply (iv_base _ _ Hi).
    + destruct (iv_owner _ _ Hi) as (o & Ho & Hown). exists o. rewrite Hkern. split; [done|].
      eapply owner_keep; [exact Hown|done..|exact Hph].
  - unfold mu. rewrite Hrpcs, (total_insert _ _ _ _ _ Hat). pose proof (mv_rank _ _ _ _ _ _ _ _ _ _ _ Hmv). lia.
Qed.

Lemma run_step h s pc : inv h s -> c_parent s = RunTest pc ->
  exists s', step None s = Next s' /\ inv h s' /\ mu s' < mu s /\ nr s' = nr s /\
    ((exists pc', c_parent s' = RunTest pc') \/ c_parent s' = WaitAcquire 0).
Proof.
  intros Hi Hpp. pose proof (iv_parent _ _ Hi) as Hpar. unfold parent_inv in Hpar. rewrite Hpp in Hpar.
  destruct Hpar as (Hpne & Hok & Hpc & Hend). pose proof (main_turn s) as Hw0. set (w0 := switch main (world s)) in *.
  destruct (inv_counting _ _ Hi) as (st & Hst & Hn & Hroom). pose proof (rpcs_parent s) as Hat. rewrite Hpp in Hat. simpl in Hat.
  assert (Hnwf : pc = WaitFlag -> true = false) by (by intros ->).
  pose proof (step_runner h main true (nr s) None (with_world w0 (c_mem s)) (parent_params (c_mem s)) st
    (nr_small _ _ _ _ Hi (tids_main _ _ Hi)) eq_refl Hst Hroom pc Hok
    (inv_needs _ _ _ _ _ _ Hi Hat (tids_main _ _ Hi) Hw0 ltac:(right; destruct pc; done)) Hpc Hnwf) as Hstep.
  unfold thread_step. rewrite Hpp. unfold parent_step. fold w0.
  destruct (runner_step _ _ _ _) as [| |[pc' m']]; simpl in Hstep; [done|by destruct pc|].
  destruct Hstep as (p' & w' & st' & -> & Hmv).
  pose proof (run_inv h s pc pc' p' w0 w' st st' (if bool_decide (pc' = RunnerEnd) then WaitAcquire 0 else RunTest pc')
    Hi Hpp Hst Hn Hw0 Hmv) as Hinv.
  destruct (decide (pc' = RunnerEnd)) as [->|Hne].
  - simpl. destruct (params (c_mem s)) as [|p0 ps] eqn:Hps; [done|].
    destruct Hinv as [Hi' Hmu]; [by right|]. eexists. split; [reflexivity|]. split; [exact Hi'|]. split; [exact Hmu|].
    split; [simpl; by rewrite app_nil_r|by right].
  - rewrite (bool_decide_eq_false_2 _ Hne) in Hinv. destruct Hinv as [Hi' Hmu]; [by left|].
    eexists (mkConfig _ (RunTest pc') (c_children s ++ [])). split; [by destruct pc'|]. split; [exact Hi'|]. split; [exact Hmu|].
    split; [simpl; by rewrite app_nil_r|left; by exists pc'].
Qed.

(** The parent's wait for the children: only the mutex changes. *)
Lemma wait_keep h s pp' w' o' :
  inv h s -> parent_rpc (c_parent s) = RunnerEnd -> (forall j, flag_set (c_parent s) j = true) ->
  parent_rpc pp' = RunnerEnd -> (forall j, flag_set pp' j = true) ->
  k_flags (kernel w') = k_flags (kernel (world s)) -> assets w' = assets (world s) ->
  k_mutex (kernel w') !! h = Some o' ->
  owner_inv (mkConfig (with_world w' (c_mem s)) pp' (c_children s)) o' ->
  parent_inv h (mkConfig (with_world w' (c_mem s)) pp' (c_children s)) ->
  inv h (mkConfig (with_world w' (c_mem s)) pp' (c_children s ++ [])).
Proof.
  intros Hi Hr Hf Hr' Hf' Hk Ha Ho Hown Hpar. rewrite app_nil_r. eapply (inv_keep h s _ o' Hi); simpl; try done.
  - apply (iv_mutexes _ _ Hi).
  - by rewrite Hr, Hr'.
  - intros j _. by rewrite Hf, Hf'.
Qed.

Lemma first_mutex h s p0 ps : inv h s -> params (c_mem s) = p0 :: ps -> p_mutex_handle p0 = Some h.
Proof. intros Hi Hps. pose proof (iv_mutexes _ _ Hi) as Hm. rewrite Hps in Hm. by inversion Hm. Qed.

(** Nobody owns the mutex: the parent takes it. *)
Lemma wait_acquire_step h s i : inv h s -> c_parent s = WaitAcquire i -> (i < nr s)%nat ->
  match k_mutex (kernel (world s)) !! h with
  | Some None => exists s', step None s = Next s' /\ inv h s' /\ c_parent s' = WaitRead i /\ c_children s' = c_children s
  | _ => step None s = Waits
  end.
Proof.
  intros Hi Hpp Hlt. pose proof (iv_parent _ _ Hi) as Hpar. unfold parent_inv in Hpar. rewrite Hpp in Hpar.
  destruct Hpar as (Hpne & Hok & Hile & Hend). destruct (main_turn s) as [Hk Ha].
  destruct (iv_owner _ _ Hi) as (o & Ho & Hc & Hp & Hby). rewrite Ho.
  unfold thread_step. rewrite Hpp. unfold parent_step. simpl.
  destruct (params (c_mem s)) as [|p0 ps] eqn:Hps; [done|]. rewrite (first_mutex _ _ _ _ Hi Hps).
  rewrite (proj2 (Nat.ltb_lt i (length (child_ids (c_mem s))))) by (rewrite (iv_len _ _ Hi); done).
  pose proof (law_acquire (switch main (world s)) h o) as Hl. rewrite Hk in Hl. specialize (Hl Ho).
  destruct (os_wrapper_mutex_acquire _ _ _) as [[r w']|].
  - destruct Hl as [-> [Hk' Ha']]. rewrite <- Hk in Hk'. simpl in Hk'. eexists. split; [reflexivity|]. split_and!; [|done|simpl; by rewrite app_nil_r].
    apply (wait_keep h s (WaitRead i) w' (Some main) Hi); rewrite ?Hk', ?Hk, ?Ha', ?Ha, ?Hpp; try done.
    + apply lookup_insert_eq.
    + split_and!; simpl.
      * intros j pc t Hj Ht Hm. by specialize (Hc _ _ _ Hj Ht Hm).
      * done.
      * intros t [= <-]. by left.
    + unfold parent_inv. simpl. by rewrite Hps.
  - by destruct o.
Qed.

(** The parent reads the flag of child [i] under the mutex: if it is set, the
    child has left its section too. *)
Lemma wait_read_step h s i : inv h s -> c_parent s = WaitRead i ->
  exists s' b, step None s = Next s' /\ inv h s' /\ c_parent s' = WaitRelease i b /\ c_children s' = c_children s /\
    (c_children s !! i = Some RunnerEnd -> b = true).
Proof.
  intros Hi Hpp. pose proof (iv_parent _ _ Hi) as Hpar. unfold parent_inv in Hpar. rewrite Hpp in Hpar.
  destruct Hpar as (Hpne & Hok & Hlt & Hend). destruct (main_turn s) as [Hk Ha].
  destruct (iv_owner _ _ Hi) as (o & Ho & Hc & Hp & Hby). rewrite Hpp in Hp. specialize (Hp eq_refl). subst o.
  assert (exists pc, c_children s !! i = Some pc) as [pc Hpc] by (by apply lookup_lt_is_Some).
  assert (exists t, child_ids (c_mem s) !! i = Some t) as [t Ht] by (apply lookup_lt_is_Some; rewrite (iv_len _ _ Hi); done).
  destruct (iv_children _ _ Hi _ _ Hpc) as (p & Hpi & Hpo & _). destruct (po_child _ _ _ _ _ Hpo eq_refl) as [_ Hic].
  unfold thread_step. rewrite Hpp. unfold parent_step. simpl. rewrite Hpi, Hic. eexists _, (completed pc).
  split; [reflexivity|]. split_and!; [|done|simpl; by rewrite app_nil_r|intros [= ->]%(eq_trans (eq_sym Hpc)); done].
  apply (wait_keep h s (WaitRelease i (completed pc)) _ (Some main) Hi); rewrite ?Hk, ?Ha, ?Hpp; try done.
  - split_and!; simpl; [done|done|]. intros t' [= <-]. by left.
  - unfold parent_inv. simpl. split_and!; try done. intros Hcomp. rewrite Hpc. f_equal.
    destruct pc; try done. specialize (Hc _ _ _ Hpc Ht eq_refl). injection Hc as Hm.
    assert (i = nr s) by (eapply tids_inj; [exact Hi|by apply tids_child|rewrite <- Hm; by eapply tids_main]). lia.
Qed.

Lemma wait_release_step h s i b : inv h s -> c_parent s = WaitRelease i b ->
  exists s', step None s = Next s' /\ inv h s' /\ c_parent s' = WaitAcquire (if b then S i else i) /\
    c_children s' = c_children s /\ k_mutex (kernel (world s')) !! h = Some None.
Proof.
  intros Hi Hpp. pose proof (iv_parent _ _ Hi) as Hpar. unfold parent_inv in Hpar. rewrite Hpp in Hpar.
  destruct Hpar as (Hpne & Hok & Hlt & Hend & Hb). destruct (main_turn s) as [Hk Ha]. pose proof (nr_le _ _ Hi).
  destruct (iv_owner _ _ Hi) as (o & Ho & Hc & Hp & Hby). rewrite Hpp in Hp. specialize (Hp eq_refl). subst o.
  unfold thread_step. rewrite Hpp. unfold parent_step. simpl.
  destruct (params (c_mem s)) as [|p0 ps] eqn:Hps; [done|]. rewrite (first_mutex _ _ _ _ Hi Hps).
  destruct (law_release (switch main (world s)) h) as (r & w' & -> & Hk' & Ha'); [by rewrite Hk|]. rewrite Hk in Hk'.
  eexists. split; [reflexivity|]. rewrite next8_small by lia. split_and!; [|done|simpl; by rewrite app_nil_r|simpl; rewrite Hk'; apply lookup_insert_eq].
  apply (wait_keep h s (WaitAcquire (if b then S i else i)) w' None Hi); rewrite ?Hk', ?Ha', ?Ha, ?Hpp; try done.
  - apply lookup_insert_eq.
  - split_and!; simpl; [|done|done]. intros j pc t Hj Ht Hm. specialize (Hc _ _ _ Hj Ht Hm). injection Hc as Hmn.
    assert (j = nr s) by (eapply tids_inj; [exact Hi|by apply tids_child|rewrite <- Hmn; by eapply tids_main]).
    apply lookup_lt_Some in Hj. lia.
  - unfold parent_inv. simpl. rewrite Hps. split_and!; [done|done|destruct b; lia|].
    intros j Hj. destruct b; [|by apply Hend]. destruct (decide (j = i)) as [->|]; [by apply Hb|apply Hend; lia].
Qed.

(** The totals of children that have passed. *)
Lemma sum_results_passed ps t n :
  Forall (fun p => p_ret p = Some TEST_PASSED /\ is_Some (p_total_ticks p) /\ exists k, nr_calls p = Some k /\ 0 <= k <= 30720) ps ->
  1 <= n -> n + 30720 * Z.of_nat (length ps) < 2 ^ 32 ->
  exists t' n', sum_results ps t n = Next (Some (t', n')) /\ 1 <= n'.
Proof.
  intros Hps. revert t n. induction Hps as [|p ps (Hr & [tk Ht] & k & Hk & Hb) Hps IH]; intros t n Hn Hlt; simpl.
  { by exists t, n. }
  rewrite Hr, Ht, Hk. simpl in Hlt. rewrite (wrapu_small 32 (n + k)) by lia. apply IH; lia.
Qed.

Lemma ended_all h s : inv h s -> ended s (nr s) -> Forall (eq RunnerEnd) (c_children s).
Proof.
  intros Hi He. apply Forall_forall. intros pc Hin. apply list_elem_of_lookup in Hin as [j Hj].
  pose proof (He j (lookup_lt_Some _ _ _ Hj)). congruence.
Qed.

(** All children have completed: the parent deletes the mutex, which is free,
    and reports. *)
Lemma finish_step h s : inv h s -> c_parent s = WaitAcquire (nr s) -> exists s', step None s = Next s' /\ final s'.
Proof.
  intros Hi Hpp. pose proof (iv_parent _ _ Hi) as Hpar. unfold parent_inv in Hpar. rewrite Hpp in Hpar.
  destruct Hpar as (Hpne & Hok & _ & Hend). destruct (main_turn s) as [Hk Ha].
  pose proof (ended_all _ _ Hi Hend) as Hall. pose proof (nr_le _ _ Hi) as Hle.
  assert (Hpcs : forall j pc, c_children s !! j = Some pc -> pc = RunnerEnd) by (intros j pc Hj; by rewrite (Forall_lookup_1 _ _ _ _ Hall Hj)).
  assert (Hfree : k_mutex (kernel (world s)) !! h = Some None).
  { destruct (iv_owner _ _ Hi) as ([t|] & Ho & Hc & Hp & Hby); [|done]. rewrite Hpp in *.
    destruct (Hby t eq_refl) as [[_ ?]|(j & pc & Hj & _ & Hm)]; [done|]. by rewrite (Hpcs _ _ Hj) in Hm. }
  unfold thread_step. rewrite Hpp. unfold parent_step. simpl.
  destruct (params (c_mem s)) as [|p0 ps] eqn:Hps; [done|]. rewrite (iv_len _ _ Hi), Nat.ltb_irrefl, (iv_handle _ _ Hi).
  destruct (law_delete (switch main (world s)) h) as (r & w' & -> & Hk' & Ha'); [by rewrite Hk|].
  destruct (po_result _ _ _ _ _ Hok eq_refl) as (Hret & Hcalls & [tk Htk]).
  unfold finish. simpl. rewrite Hret, Htk, Hcalls. pose proof (calls_bounds (nr s)). pose proof (eff_bounds (nr s)).
  destruct (sum_results_passed (take (length (child_ids (c_mem s))) (params (c_mem s))) tk (calls (nr s))) as (t' & n' & -> & Hn').
  { rewrite (iv_len _ _ Hi). apply Forall_forall. intros p Hin. apply list_elem_of_lookup in Hin as [j Hj].
    apply lookup_take_Some in Hj as [Hj Hlt]. assert (exists pc, c_children s !! j = Some pc) as [pc Hpc] by (by apply lookup_lt_is_Some).
    destruct (iv_children _ _ Hi _ _ Hpc) as (p' & Hp' & Hpo & _). rewrite Hj in Hp'. injection Hp' as <-.
    rewrite (Hpcs _ _ Hpc) in Hpo. destruct (po_result _ _ _ _ _ Hpo eq_refl) as (? & ? & ?). split_and!; [done|done|].
    exists (calls j). split; [done|]. pose proof (calls_bounds j). pose proof (eff_bounds j). lia. }
  { lia. }
  { rewrite length_take, (iv_len _ _ Hi). lia. }
  destruct (inv_counting _ _ Hi) as (st & Hst & Hn & _). unfold report. simpl. rewrite Hst. simpl.
  assert (Hpos : 1 <= nr_tx st).
  { rewrite Hn. unfold rpcs. rewrite total_app, Hpp. simpl.
    assert (Hb : forall j pc, c_children s !! j = Some pc -> 0 <= done_calls j pc <= 30720).
    { intros j pc Hj. rewrite (Hpcs _ _ Hj). simpl. pose proof (calls_bounds j). pose proof (eff_bounds j). lia. }
    pose proof (total_bounds _ _ _ _ Hb). lia. }
  rewrite (proj2 (Z.eqb_neq (nr_tx st) 0)) by lia. rewrite (proj2 (Z.eqb_neq n' 0)) by lia.
  eexists. split; [reflexivity|]. split; simpl; [done|by rewrite app_nil_r|done| |rewrite Hk', Hk; apply (iv_main _ _ Hi)|by eexists].
  rewrite Ha', Ha. apply map_eq. intros k. destruct (iv_base _ _ Hi k) as [?|(j & t & Hj & ->)]; [done|].
  assert (Hidle : forall j pc, rpcs s !! j = Some pc -> holds pc = false).
  { intros j' pc [Hj'|[_ Hj']]%lookup_app_Some; [by rewrite (Hpcs _ _ Hj')|].
    apply list_lookup_singleton_Some in Hj' as [_ <-]. by rewrite Hpp. }
  assert (Huid : TEST_UID_1 <= TEST_UID_1 + Z.of_nat j <= TEST_UID_1 + NR_MULTI_CALL_CHILD).
  { apply lookup_lt_Some in Hj. unfold tids in Hj. rewrite length_app, (iv_len _ _ Hi) in Hj. simpl in Hj. pose proof (iv_bound _ _ Hi). lia. }
  unfold key. rewrite unused by done. by eapply (idle_assets _ _ _ _ _ Hi Hidle).
Qed.

(** ** Schedules *)

Abbreviation run := (run_schedule entry address __FILE__ c main).

Lemma run_app l l' s : run (l ++ l') s = (s' ← run l s; run l' s').
Proof.
  revert s. induction l as [|who l IH]; intros s; [done|]. simpl. destruct (step who s); [done|apply IH|apply IH].
Qed.

Lemma run_one who s s' : step who s = Next s' -> run [who] s = Some s'.
Proof. simpl. by intros ->. Qed.

(** Where a test starts. *)
Record ready (w : W) : Prop := {
  rd_assets : assets w = base;
  rd_main : is_Some (k_flags (kernel w) !! main);
}.

Definition good s : Prop :=
  (exists ret st w, s = initial ret (Some st) w /\ ready w) \/ (exists h, inv h s) \/ final s.

Lemma setup_step ret st w : ready w ->
  exists s' h, step None (initial ret (Some st) w) = Next s' /\ inv h s' /\ c_parent s' = CreateChild 0.
Proof.
  intros [Hb Hm]. destruct (law_switch main w) as [Hk Ha]. unfold thread_step, initial. simpl. unfold setup. simpl.
  rewrite law_get_handle. simpl.
  destruct (law_get_priority (switch main w) 0) as [pr Hpr]. rewrite Hk in Hpr |- *. simpl in Hpr |- *. rewrite Hpr.
  rewrite (proj2 (Z.eqb_neq _ _) law_status). simpl.
  destruct (law_mutex_create (switch main w)) as (h & w' & -> & Hk' & Ha'). simpl. eexists _, h. split; [reflexivity|].
  split; [|done]. rewrite Hk in Hk'. rewrite Ha in Ha'.
  split; simpl; rewrite ?Hk', ?Ha'; simpl; try done.
  - rewrite NR_eq. lia.
  - unfold tids. simpl. repeat constructor. set_solver.
  - by eexists.
  - intros j pc t Hj Ht. unfold rpcs in Hj. unfold tids in Ht. simpl in Hj, Ht.
    apply list_lookup_singleton_Some in Hj as [-> <-]. apply list_lookup_singleton_Some in Ht as [_ <-]. simpl.
    rewrite Hb. apply unused. rewrite NR_eq. lia.
  - intros k. left. by rewrite Hb.
  - exists None. split; [apply lookup_insert_eq|]. by split_and!.
Qed.

Lemma final_waits s who : final s -> step who s = Waits.
Proof.
  intros [Hp Hc _ _ _ _]. unfold thread_step. destruct who as [i|]; [|by rewrite Hp].
  destruct (c_children s !! i) as [pc|] eqn:Hi; [|done]. destruct (child_ids _ !! i); [|done].
  by rewrite <- (Forall_lookup_1 _ _ _ _ Hc Hi).
Qed.

(** No step is undefined, and every step leads to a good configuration. *)
Lemma step_good s who : good s ->
  match step who s with Undefined => False | Waits => True | Next s' => good s' end.
Proof.
  intros [(ret & st & w & -> & Hr)|[[h Hi]|Hf]].
  - destruct who as [i|]; [done|]. destruct (setup_step ret st w Hr) as (s' & h & -> & Hi & _). right. left. by exists h.
  - destruct who as [i|].
    + pose proof (child_step h s i Hi) as Hc. destruct (step (Some i) s); [done|done|]. right. left. exists h. apply Hc.
    + pose proof (iv_parent _ _ Hi) as Hpar. unfold parent_inv in Hpar. destruct (c_parent s) as [|i|i|pc|i|i|i b|] eqn:Hpp; try done.
      * destruct (create_step h s i Hi Hpp) as (s' & -> & Hi' & _). right. left. by exists h.
      * destruct (activate_step h s i Hi Hpp) as (s' & -> & Hi' & _). right. left. by exists h.
      * destruct (run_step h s pc Hi Hpp) as (s' & -> & Hi' & _). right. left. by exists h.
      * destruct Hpar as (_ & _ & Hle & _). destruct (decide (i = nr s)) as [->|Hne].
        { destruct (finish_step h s Hi Hpp) as (s' & -> & Hf). by right; right. }
        pose proof (wait_acquire_step h s i Hi Hpp ltac:(lia)) as Hw.
        destruct (_ !! _) as [[o|]|]; [by rewrite Hw| |by rewrite Hw]. destruct Hw as (s' & -> & Hi' & _). right. left. by exists h.
      * destruct (wait_read_step h s i Hi Hpp) as (s' & b & -> & Hi' & _). right. left. by exists h.
      * destruct (wait_release_step h s i b Hi Hpp) as (s' & -> & Hi' & _). right. left. by exists h.
  - by rewrite (final_waits s who Hf).
Qed.

Lemma run_good l s : good s -> exists s', run l s = Some s' /\ good s'.
Proof.
  revert s. induction l as [|who l IH]; intros s Hg; [by exists s|].
  pose proof (step_good s who Hg) as Hs. simpl. destruct (step who s); [done|by apply IH|by apply IH].
Qed.

(** ** Every schedule can be completed *)

Definition running s : Prop :=
  match c_parent s with RunTest _ | WaitAcquire _ | WaitRead _ | WaitRelease _ _ => True | _ => False end.

Definition left_to_wait s : Z :=
  match c_parent s with
  | WaitAcquire i | WaitRead i | WaitRelease i _ => Z.of_nat (nr s) - Z.of_nat i
  | _ => Z.of_nat (nr s) + 1
  end.
Definition measure s : Z := mu s + left_to_wait s.

Lemma measure_nonneg h s : inv h s -> running s -> 0 <= measure s.
Proof.
  intros Hi Hr. pose proof (mu_nonneg h s Hi). pose proof (iv_parent _ _ Hi) as Hp. unfold parent_inv in Hp.
  unfold measure, left_to_wait. destruct (c_parent s); try done; try lia; destruct Hp as (_ & _ & Hlt & _); lia.
Qed.

(** A child that has not ended makes a step, or the one in its section does. *)
Lemma child_progress h s i : inv h s -> running s -> parent_has (c_parent s) = false -> (i < nr s)%nat ->
  c_children s !! i <> Some RunnerEnd ->
  exists j s', step (Some j) s = Next s' /\ inv h s' /\ mu s' < mu s /\ c_parent s' = c_parent s /\ nr s' = nr s.
Proof.
  intros Hi Hrun Hph Hlt Hne.
  assert (Hget : forall j, (j < nr s)%nat -> exists pc t, c_children s !! j = Some pc /\ child_ids (c_mem s) !! j = Some t).
  { intros j Hj. destruct (lookup_lt_is_Some_2 (c_children s) j Hj) as [pc Hpc].
    destruct (lookup_lt_is_Some_2 (child_ids (c_mem s)) j) as [t Ht]; [by rewrite (iv_len _ _ Hi)|]. by exists pc, t. }
  assert (Hfs : forall j, flag_set (c_parent s) j = true) by (intros j; unfold running in Hrun; by destruct (c_parent s)).
  destruct (Hget i Hlt) as (pc & t & Hpc & Ht). pose proof (child_step h s i Hi) as Hs.
  destruct (step (Some i) s) as [| |s'] eqn:Hstep; [done| |exists i, s'; by split].
  specialize (Hs pc t Hpc Ht). destruct pc; try done; [by rewrite Hfs in Hs|].
  destruct Hs as [o Ho]. destruct (iv_owner _ _ Hi) as (o' & Ho' & _ & _ & Hby). rewrite Ho in Ho'. injection Ho' as <-.
  destruct (Hby o eq_refl) as [[_ ?]|(j & q & Hq & Hj & Hm)]; [congruence|].
  pose proof (child_step h s j Hi) as Hs. destruct (step (Some j) s) as [| |s'] eqn:Hstepj; [done| |exists j, s'; by split].
  specialize (Hs q o Hq Hj). by destruct q.
Qed.

Lemma mu_same s s' : c_children s' = c_children s -> parent_rpc (c_parent s') = parent_rpc (c_parent s) -> mu s' = mu s.
Proof. unfold mu, rpcs. by intros -> ->. Qed.

Lemma progress_acquire h s i : inv h s -> c_parent s = WaitAcquire i ->
  exists l s', run l s = Some s' /\ (final s' \/ inv h s' /\ running s' /\ measure s' < measure s).
Proof.
  intros Hi Hpp. assert (Hrun : running s) by (unfold running; by rewrite Hpp).
  pose proof (iv_parent _ _ Hi) as Hpar. unfold parent_inv in Hpar. rewrite Hpp in Hpar. destruct Hpar as (_ & _ & Hle & _).
  destruct (decide (i = nr s)) as [->|Hne].
  { destruct (finish_step h s Hi Hpp) as (s' & Hs & Hf). exists [None], s'. split; [by apply run_one|by left]. }
  assert (Hchild : (exists j, (j < nr s)%nat /\ c_children s !! j <> Some RunnerEnd) ->
    exists l s', run l s = Some s' /\ (final s' \/ inv h s' /\ running s' /\ measure s' < measure s)).
  { intros (j & Hj & Hjne). destruct (child_progress h s j Hi Hrun ltac:(by rewrite Hpp) Hj Hjne) as (k & s' & Hs & Hi' & Hmu & Hp' & Hn').
    exists [Some k], s'. split; [by apply run_one|right]. split; [done|]. unfold running, measure, left_to_wait in *. rewrite Hp', Hn'.
    split; [done|lia]. }
  destruct (decide (c_children s !! i = Some RunnerEnd)) as [Hend|Hnend]; [|apply Hchild; exists i; split; [lia|done]].
  pose proof (wait_acquire_step h s i Hi Hpp ltac:(lia)) as Hw. destruct (iv_owner _ _ Hi) as (o & Ho & _ & _ & Hby). rewrite Ho in Hw.
  destruct o as [t|].
  - destruct (Hby t eq_refl) as [[_ ?]|(j & pc & Hj & _ & Hm)]; [by rewrite Hpp in *|]. apply Hchild. exists j.
    split; [by eapply lookup_lt_Some|]. rewrite Hj. intros [= ->]. done.
  - destruct Hw as (s1 & Hs1 & Hi1 & Hp1 & Hc1). destruct (wait_read_step h s1 i Hi1 Hp1) as (s2 & b & Hs2 & Hi2 & Hp2 & Hc2 & Hb).
    rewrite Hc1 in Hb. specialize (Hb Hend) as ->.
    destruct (wait_release_step h s2 i true Hi2 Hp2) as (s3 & Hs3 & Hi3 & Hp3 & Hc3 & _).
    exists [None; None; None], s3. split; [cbn [run_schedule]; by rewrite Hs1, Hs2, Hs3|right]. split; [done|].
    unfold running, measure, left_to_wait. rewrite Hp3, Hpp. split; [done|].
    rewrite (mu_same s s3); [rewrite Hc3, Hc2, Hc1; lia|congruence|by rewrite Hp3, Hpp].
Qed.

Lemma progress h s : inv h s -> running s ->
  exists l s', run l s = Some s' /\ (final s' \/ inv h s' /\ running s' /\ measure s' < measure s).
Proof.
  intros Hi Hrun. unfold running in Hrun. destruct (c_parent s) as [| | |pc|i|i|i b|] eqn:Hpp; try done.
  - destruct (run_step h s pc Hi Hpp) as (s' & Hs & Hi' & Hmu & Hn & Hp'). exists [None], s'. split; [by apply run_one|right].
    split; [done|]. unfold running, measure, left_to_wait. rewrite Hpp, Hn. destruct Hp' as [[pc' ->] | ->]; (split; [done|lia]).
  - by eapply progress_acquire.
  - destruct (wait_read_step h s i Hi Hpp) as (s1 & b & Hs1 & Hi1 & Hp1 & Hc1 & _).
    destruct (wait_release_step h s1 i b Hi1 Hp1) as (s2 & Hs2 & Hi2 & Hp2 & Hc2 & _).
    assert (Hmu : mu s2 = mu s) by (apply mu_same; [congruence|by rewrite Hp2, Hpp]).
    destruct (progress_acquire h s2 _ Hi2 Hp2) as (l & s' & Hl & Hs').
    exists ([None; None] ++ l), s'. split; [rewrite run_app; cbn [run_schedule]; by rewrite Hs1, Hs2|].
    destruct Hs' as [?|(Hi' & Hr' & Hm)]; [by left|right]. split_and!; [done|done|]. eapply Z.lt_le_trans; [exact Hm|].
    unfold measure, left_to_wait. rewrite Hp2, Hpp, Hmu, Hc2, Hc1. destruct b; lia.
  - destruct (wait_release_step h s i b Hi Hpp) as (s2 & Hs2 & Hi2 & Hp2 & Hc2 & _).
    assert (Hmu : mu s2 = mu s) by (apply mu_same; [congruence|by rewrite Hp2, Hpp]).
    destruct (progress_acquire h s2 _ Hi2 Hp2) as (l & s' & Hl & Hs').
    exists ([None] ++ l), s'. split; [rewrite run_app; cbn [run_schedule]; by rewrite Hs2|].
    destruct Hs' as [?|(Hi' & Hr' & Hm)]; [by left|right]. split_and!; [done|done|]. eapply Z.lt_le_trans; [exact Hm|].
    unfold measure, left_to_wait. rewrite Hp2, Hpp, Hmu, Hc2. destruct b; lia.
Qed.

Definition completes s : Prop := exists l s', run l s = Some s' /\ final s'.

Lemma completes_after l s s' : run l s = Some s' -> completes s' -> completes s.
Proof. intros Hl (l' & s'' & Hl' & Hf). exists (l ++ l'), s''. split; [|done]. by rewrite run_app, Hl. Qed.

Lemma running_completes h s : inv h s -> running s -> completes s.
Proof.
  intros Hi Hr. remember (Z.to_nat (measure s)) as n eqn:Hn. revert s Hi Hr Hn.
  induction (lt_wf n) as [n _ IH]. intros s Hi Hr ->.
  destruct (progress h s Hi Hr) as (l & s' & Hl & [Hf|(Hi' & Hr' & Hm)]); [by exists l, s'|].
  eapply completes_after; [exact Hl|]. eapply IH; [|exact Hi'|exact Hr'|reflexivity].
  pose proof (measure_nonneg h s' Hi' Hr'). lia.
Qed.

Lemma activating_completes h s i : inv h s -> c_parent s = ActivateChild i -> completes s.
Proof.
  intros Hi Hp. remember (nr s - i)%nat as n eqn:Hn. revert s i Hi Hp Hn. induction n as [|n IH]; intros s i Hi Hp Hn.
  all: destruct (activate_step h s i Hi Hp) as (s' & Hs & Hi' & Hnr & [[Hp' Hlt]|Hp']).
  1: lia. 2: eapply completes_after; [by apply run_one|]; eapply IH; [done|done|rewrite Hnr; lia].
  all: eapply completes_after; [by apply run_one|]; eapply running_completes; [done|]; unfold running; by rewrite Hp'.
Qed.

Lemma creating_completes h s i : inv h s -> c_parent s = CreateChild i -> completes s.
Proof.
  intros Hi Hp. remember (Z.to_nat NR_MULTI_CALL_CHILD - i)%nat as n eqn:Hn. revert s i Hi Hp Hn. induction n as [|n IH]; intros s i Hi Hp Hn.
  all: destruct (create_step h s i Hi Hp) as (s' & Hs & Hi' & [[Hp' Hlt]|Hp']).
  1: lia. 2: eapply completes_after; [by apply run_one|]; eapply IH; [done|done|lia].
  all: eapply completes_after; [by apply run_one|]; by eapply activating_completes.
Qed.

Lemma good_completes s : good s -> completes s.
Proof.
  intros [(ret & st & w & -> & Hr)|[[h Hi]|Hf]].
  - destruct (setup_step ret st w Hr) as (s' & h & Hs & Hi & Hp). eapply completes_after; [by apply run_one|]. by eapply creating_completes.
  - pose proof (iv_parent _ _ Hi) as Hpar. unfold parent_inv in Hpar. destruct (c_parent s) eqn:Hpp; try done.
    + by eapply creating_completes.
    + by eapply activating_completes.
    + eapply running_completes; [done|]. unfold running. by rewrite Hpp.
    + eapply running_completes; [done|]. unfold running. by rewrite Hpp.
    + eapply running_completes; [done|]. unfold running. by rewrite Hpp.
    + eapply running_completes; [done|]. unfold running. by rewrite Hpp.
  - by exists [], s.
Qed.

Lemma good_end s : good s -> c_parent s = ParentEnd -> final s.
Proof.
  intros [(ret & st & w & -> & _)|[[h Hi]|Hf]] Hp; [done| |done].
  pose proof (iv_parent _ _ Hi) as Hpar. unfold parent_inv in Hpar. by rewrite Hp in Hpar.
Qed.

(** C9. Whatever the interleaving of the threads: no step is undefined, so that
    no thread touches the parameters or the mutex outside their lifetime; when
    the parent has ended, the test has passed, all children are at their end,
    and the assets are those of the start.  It holds however many children the
    kernel has room for, with 2 to 15 slots of the mailbox (one slot is
    undefined) and with the statistics registered, as the suite does. *)
Theorem multi_client_calls_pass ret st w l :
  ready w ->
  exists s, run l (initial ret (Some st) w) = Some s /\
    (c_parent s = ParentEnd ->
     val (m_ret (c_mem s)) = TEST_PASSED /\ Forall (eq RunnerEnd) (c_children s) /\ assets (m_world (c_mem s)) = base).
Proof.
  intros Hr. destruct (run_good l (initial ret (Some st) w)) as (s & Hs & Hg); [left; by exists ret, st, w|].
  exists s. split; [done|]. intros Hp. by destruct (good_end s Hg Hp).
Qed.

(** C20. No interleaving gets stuck: whatever the threads have done so far, they
    can be scheduled so that the parent ends. *)
Theorem multi_client_calls_complete ret st w l s :
  ready w -> run l (initial ret (Some st) w) = Some s ->
  exists l' s', run l' s = Some s' /\ c_parent s' = ParentEnd.
Proof.
  intros Hr Hl. destruct (run_good l (initial ret (Some st) w)) as (s0 & Hs & Hg); [left; by exists ret, st, w|].
  rewrite Hl in Hs. injection Hs as <-. destruct (good_completes s Hg) as (l' & s' & Hl' & Hf).
  exists l', s'. split; [done|]. apply Hf.
Qed.

(** A test of the suite under a schedule that completes it. *)
Lemma test_completes ret st w : ready w ->
  exists l ret' w' st' log, multi_core_test entry address __FILE__ c main l ret (w, Some st) = Some (ret', (w', Some st'), log) /\
    val ret' = TEST_PASSED /\ ready w'.
Proof.
  intros Hr. destruct (good_completes (initial ret (Some st) w)) as (l & s & Hl & Hf); [left; by exists ret, st, w|].
  destruct (fin_stats _ Hf) as [st' Hst]. exists l, (m_ret (c_mem s)), (world s), st', (m_log (c_mem s)).
  unfold multi_core_test. rewrite Hl, (fin_parent _ Hf), Hst. split; [done|]. split; [apply Hf|]. split; apply Hf.
Qed.
End proofs.

Section suite.
  Context {PC : PsaConsts} {PL : PsaConstsLaws} {MC : MailboxConsts} {WC : OsWrapperConsts}.
  Context {MAX_ASSET_SIZE : Z} {NUM_ASSETS : nat} {supported : Z -> bool}.
  Context {W : Type} {SS : StorageService W} {PV : PsaVersion W} {MO : MultiCoreOs W}.
  Context {OT : OsWrapperThread W} {OM : OsWrapperMutex W} {OK : OsWrapperTick W}.
  Context {SL : StorageLaws MAX_ASSET_SIZE NUM_ASSETS supported W} {ML : MultiCoreLaws W}.

(** The three tests one after the other, each under a schedule that completes
    it: the suite passes and leaves the assets as they were. *)
Theorem multi_core_suite_passes (entry : test_runner -> Z) (address : nat -> Z) (file : string) (main : Z)
    (base : assets_map) fs (w : W) (st : ns_queue_stats) l :
  2 <= NUM_MAILBOX_QUEUE_SLOT <= 15 -> 20 <= MAX_ASSET_SIZE -> supported PSA_STORAGE_FLAG_NONE = true ->
  (forall t uid, TEST_UID_1 <= uid <= TEST_UID_1 + NR_MULTI_CALL_CHILD -> base !! (client t, uid) = None) ->
  (size (dom base) + Z.to_nat NR_MULTI_CALL_CHILD + 1 <= NUM_ASSETS)%nat ->
  ready main base w ->
  exists s1 s2 s3 ts' w' st' l',
    run_testsuite (Some (mkSuite (Some (register_testsuite_multi_core_ns_interface entry address file main s1 s2 s3)) fs)) ((w, Some st), l)
      = Some ((TEST_SUITE_ERR_NO_ERROR, Some ts'), ((w', Some st'), l')) /\
    suite_val (fields ts') = TEST_PASSED /\ assets w' = base.
Proof.
  intros Hslots Hsize Hfl Hun Hsp Hr.
  assert (Htest : forall c ret (st0 : ns_queue_stats) (w0 : W), 1 <= mc_nr_rounds c <= 0x200 -> ready main base w0 ->
    exists s ret' w' st' log, multi_core_test entry address file c main s ret (w0, Some st0) = Some (ret', (w', Some st'), log) /\
      val ret' = TEST_PASSED /\ ready main base w').
  { intros c ret st0 w0 Hc Hw. by eapply test_completes. }
  destruct (Htest multi_client_call_light_test zero_result st w) as (s1 & r1 & w1 & st1 & log1 & H1 & V1 & R1); [done|done|].
  destruct (Htest multi_client_call_heavy_test (set_val TEST_PASSED r1) st1 w1) as (s2 & r2 & w2 & st2 & log2 & H2 & V2 & R2); [done|done|].
  destruct (Htest multi_client_call_ooo_test (set_val TEST_PASSED r2) st2 w2) as (s3 & r3 & w3 & st3 & log3 & H3 & V3 & R3); [done|done|].
  exists s1, s2, s3.
  set (suite := register_testsuite_multi_core_ns_interface entry address file main s1 s2 s3).
  edestruct (run_testsuite_exec suite fs (mkFields (multi_core_tests entry address file main s1 s2 s3) 3
    (Some "TF-M test cases for multi-core topology"%string) (suite_val fs)) (w, Some st) (w, Some st)
    [TEST_PASSED; TEST_PASSED; TEST_PASSED] r3 (w3, Some st3) l) as [l' Hrun].
  - split; [done|by eexists|done|done|]. repeat constructor; by eexists.
  - change (exec_tests (multi_core_tests entry address file main s1 s2 s3) zero_result (w, Some st)
      = Some ([TEST_PASSED; TEST_PASSED; TEST_PASSED], r3, (w3, Some st3))).
    unfold multi_core_tests. cbn [exec_tests test mbind option_bind]. change (set_val TEST_PASSED zero_result) with zero_result.
    rewrite H1. cbn [mbind option_bind]. rewrite H2. cbn [mbind option_bind]. rewrite H3. cbn [mbind option_bind].
    by rewrite V1, V2, V3.
  - do 4 eexists. split; [exact Hrun|]. split; [done|apply R3].
Qed.
End suite.

(** ** Witnesses *)

(** Four children on two slots, all threads in turn. *)
Definition mc_consts : OsWrapperConsts := {|
  OS_WRAPPER_SUCCESS := 0; OS_WRAPPER_ERROR := 0xFFFFFFFF;
  OS_WRAPPER_WAIT_FOREVER := 0xFFFFFFFF; OS_WRAPPER_DEFAULT_STACK_SIZE := 0xFFFFFFFF |}.
Definition mc_mailbox : MailboxConsts := {|
  MAILBOX_SUCCESS := 0; MAILBOX_INVAL_PARAMS := -1; MAILBOX_GENERIC_ERROR := -2; NUM_MAILBOX_QUEUE_SLOT := 2 |}.
Definition mc_status : @WrapperStatus mc_consts.
Proof. split. done. Defined.
Definition mc_world : ref_w := mkRef (mkKernel 7 {[7 := 0]} ∅) ∅ 100.
Definition round_robin (n : nat) : list (option nat) :=
  concat (replicate n [None; Some 0%nat; Some 1%nat; Some 2%nat; Some 3%nat]).

Section witnesses.
  #[local] Existing Instance psa_consts.
  #[local] Existing Instance psa_consts_laws.
  #[local] Existing Instance mc_consts.
  #[local] Existing Instance mc_mailbox.
  #[local] Existing Instance mc_status.
  #[local] Existing Instance ref_w_service.
#[local] Instance mc_service : StorageService ref_w := ref_w_service 100 10 (fun _ => true).
#[local] Instance mc_storage : StorageLaws 100 10 (fun _ => true) ref_w := ref_w_storage 100 10 (fun _ => true).
#[local] Instance mc_thread : OsWrapperThread ref_w := ref_w_thread 10.
#[local] Instance mc_laws : MultiCoreLaws ref_w := ref_w_laws 100 10 (fun _ => true) 10.
  Abbreviation mc_run c l := (run_schedule (SS := mc_service) (OT := mc_thread) (fun _ => 0) (fun _ => 0) "" c 7 l
    (initial zero_result (Some (mkStats 0 0)) mc_world)).

Lemma mc_ready : ready (SL := mc_storage) (ML := mc_laws) 7 ∅ mc_world.
Proof. split; [done|]. by eexists. Qed.

Lemma multi_client_calls_pass_witness : exists s,
  mc_run multi_client_call_heavy_test (round_robin 200) = Some s /\ val (m_ret (c_mem s)) = TEST_PASSED /\ length (c_children s) = 4%nat.
Proof.
  destruct (multi_client_calls_pass (SL := mc_storage) (ML := mc_laws) (fun _ => 0) (fun _ => 0) "" multi_client_call_heavy_test 7 ∅
    ltac:(done) ltac:(done) ltac:(done) ltac:(done) ltac:(intros; apply lookup_empty) ltac:(vm_compute; lia)
    zero_result (mkStats 0 0) mc_world (round_robin 200) mc_ready) as (s & Hs & Hend).
  exists s. split; [exact Hs|].
  vm_compute in Hs. injection Hs as Hs. split; [apply Hend; by rewrite <- Hs|by rewrite <- Hs].
Defined.

Lemma multi_client_calls_complete_witness : exists s l' s',
  mc_run multi_client_call_ooo_test (round_robin 20) = Some s /\ c_parent s <> ParentEnd /\
  run_schedule (SS := mc_service) (OT := mc_thread) (fun _ => 0) (fun _ => 0) "" multi_client_call_ooo_test 7 l' s = Some s' /\
  c_parent s' = ParentEnd.
Proof.
  pose proof (multi_client_calls_complete (SL := mc_storage) (ML := mc_laws) (fun _ => 0) (fun _ => 0) "" multi_client_call_ooo_test 7 ∅
    ltac:(done) ltac:(done) ltac:(done) ltac:(done) ltac:(intros; apply lookup_empty) ltac:(vm_compute; lia)
    zero_result (mkStats 0 0) mc_world (round_robin 20)) as Hall.
  destruct (mc_run multi_client_call_ooo_test (round_robin 20)) as [s|] eqn:Hs; [|exfalso; clear Hall; vm_compute in Hs; discriminate Hs].
  destruct (Hall s mc_ready eq_refl) as (l' & s' & Hl & Hp). clear Hall.
  exists s, l', s'. split; [reflexivity|]. split; [|exact (conj Hl Hp)].
  clear Hl Hp. vm_compute in Hs. injection Hs as <-. discriminate.
Defined.

(** With one slot there are no children, and the parent reads the mutex of the
    first: [params_array[0]] of an array without elements. *)
Definition one_slot : MailboxConsts := {|
  MAILBOX_SUCCESS := 0; MAILBOX_INVAL_PARAMS := -1; MAILBOX_GENERIC_ERROR := -2; NUM_MAILBOX_QUEUE_SLOT := 1 |}.

Lemma single_slot_undefined :
  run_schedule (MC := one_slot) (SS := mc_service) (OT := mc_thread) (fun _ => 0) (fun _ => 0) "" multi_client_call_heavy_test 7
    (replicate 200 None) (initial zero_result (Some (mkStats 0 0)) mc_world) = None.
Proof. vm_compute. reflexivity. Qed.

(** Without a queue for the statistics the parent logs an average that nobody
    has stored. *)
Lemma no_statistics_undefined :
  run_schedule (SS := mc_service) (OT := mc_thread) (fun _ => 0) (fun _ => 0) "" multi_client_call_heavy_test 7
    (round_robin 200) (initial zero_result None mc_world) = None.
Proof. vm_compute. reflexivity. Qed.

(** The heavy loop of the out-of-order test: the expression asks for an odd
    number, but is true of no thread except the child 0. *)
Lemma ooo_only_first p : ooo_heavy p = true <-> child_idx p = 0.
Proof.
  unfold ooo_heavy. destruct (Z.eqb_spec (child_idx p) 0) as [->|Hne]; [done|]. split; [done|]. intros ?. lia.
Qed.
End witnesses.
