(* ===== verification/Fair.v ===== *)
(** * Fair schedules

    Two agents move in turns that a schedule fixes, [true] for the one and
    [false] for the other, as the interrupts of a timer and the steps of the
    thread that they interrupt.  The moves of a schedule are those that the
    environment chooses: nothing here speaks of what a program does with them. *)

From S2P Require Import Prelude.
Local Open Scope nat_scope.

(** Within any [n] moves in a row both agents move. *)
Definition fair (n : nat) (l : list bool) : Prop :=
  forall i, i + n <= length l -> true ∈ take n (drop i l) /\ false ∈ take n (drop i l).

(** [fair], as a test. *)
Definition fairb (n : nat) (l : list bool) : bool :=
  forallb (fun i => bool_decide (true ∈ take n (drop i l)) && bool_decide (false ∈ take n (drop i l))) (seq 0 (S (length l - n))).

Lemma fairb_fair n l : n <= length l -> fairb n l = true -> fair n l.
Proof.
  intros Hn Hf i Hi. unfold fairb in Hf. rewrite forallb_forall in Hf. specialize (Hf i).
  rewrite in_seq, andb_true_iff, !bool_decide_eq_true in Hf. apply Hf. lia.
Qed.

Lemma fair_drop n k l : 0 < n -> fair n l -> fair n (drop k l).
Proof. intros Hn Hf i Hi. rewrite drop_drop. apply Hf. rewrite length_drop in Hi. lia. Qed.

(** ** A measure that goes down under every fair schedule *)

Section fairness.
  Context {S : Type} (move : S -> bool -> S).
  (** [inv k s]: what is known of [s] when [k] moves at most may follow; the
      measure of what is left to do; and the agent that has to do it. *)
  Context (inv : nat -> S -> Prop) (rank : S -> nat) (need : S -> bool).
  Hypothesis inv_move : forall k s b, inv (Datatypes.S k) s -> inv k (move s b).
  Hypothesis rank_move : forall k s b, inv (Datatypes.S k) s -> rank (move s b) <= rank s.
  Hypothesis rank_need : forall k s, inv (Datatypes.S k) s -> 0 < rank s -> rank (move s (need s)) < rank s.
  Hypothesis need_kept : forall k s, inv (Datatypes.S k) s ->
    rank (move s (negb (need s))) < rank s \/ need (move s (negb (need s))) = need s.

Lemma moves_inv l k s : inv (length l + k) s -> inv k (foldl move s l).
Proof. revert s. induction l as [|b l IH]; intros s H; [done|]. cbn in *. by apply IH, inv_move. Qed.

Lemma run_rank l k s : inv (length l + k) s -> rank (foldl move s l) <= rank s.
Proof.
  revert s. induction l as [|b l IH]; intros s H; [done|]. cbn in *.
  pose proof (rank_move _ s b H). pose proof (IH (move s b) (inv_move _ _ b H)). lia.
Qed.

(** A part of a schedule in which the agent moves that has to. *)
Lemma window_goes_down l k s : inv (length l + k) s -> need s ∈ l -> 0 < rank s -> rank (foldl move s l) < rank s.
Proof.
  revert s. induction l as [|b l IH]; intros s H Hin Hr; [by apply elem_of_nil in Hin|]. cbn in H |- *.
  pose proof (run_rank l k (move s b) (inv_move _ _ b H)) as Hl.
  destruct (decide (b = need s)) as [->|Hb].
  - pose proof (rank_need _ s H Hr). lia.
  - assert (b = negb (need s)) as -> by (by destruct b, (need s)).
    destruct (need_kept _ s H) as [?|Hk]; [lia|].
    pose proof (rank_move _ s (negb (need s)) H) as Hm.
    apply elem_of_cons in Hin as [Hin|Hin]; [by destruct (need s)|].
    destruct (decide (rank (move s (negb (need s))) = 0)) as [H0|H0]; [lia|].
    assert (rank (foldl move (move s (negb (need s))) l) < rank (move s (negb (need s)))); [|lia].
    apply IH; [by apply inv_move | by rewrite Hk | lia].
Qed.

(** A fair schedule with a window for each unit of the measure ends with
    nothing left to do. *)
Lemma fair_finishes n l s : inv (length l) s -> 0 < n -> fair n l -> rank s * n <= length l -> rank (foldl move s l) = 0.
Proof.
  intros Hi Hn Hf. remember (rank s) as r eqn:Hr. revert l s Hi Hf Hr. induction r as [r IH] using lt_wf_ind.
  intros l s Hi Hf -> Hl. destruct (decide (rank s = 0)) as [H0|H0].
  { pose proof (run_rank l 0 s ltac:(by rewrite Nat.add_0_r)). lia. }
  assert (n <= length l) as Hnl by nia.
  assert (length (take n l) = n) as Ht by (rewrite length_take; lia).
  assert (length l = length (take n l) + length (drop n l)) as Hlen by (rewrite Ht, length_drop; lia).
  rewrite <- (take_drop n l), foldl_app.
  assert (inv (length (take n l) + length (drop n l)) s) as Hi' by by rewrite <- Hlen.
  assert (rank (foldl move s (take n l)) < rank s) as Hd.
  { apply (window_goes_down _ (length (drop n l))); [done | | lia].
    destruct (Hf 0 Hnl) as [H1 H2]. rewrite drop_0 in H1, H2. by destruct (need s). }
  eapply IH; [exact Hd | by apply moves_inv | by apply fair_drop | reflexivity |].
  rewrite length_drop. nia.
Qed.
End fairness.
