(* ===== verification/Ffm.v ===== *)
(** * The Firmware Framework as the test partitions use it

    psa/client.h and psa/service.h declare the calls between a client, the
    secure partition manager (SPM) and the partitions.  The SPM is not in the
    repository: its operations are the class [Framework], and [FrameworkLaws] is
    what the Firmware Framework documents of them, over the abstract state
    [ffm]: the open connections and the message that each partition works on.
    A request blocks its client until the partition has replied, so the law of a
    request speaks about one turn of the partition's code on the message. *)

From S2P Require Import Prelude LogRaw TestFramework TestProg.
Local Open Scope Z_scope.

(** ** Effects *)

(** How the code of a partition ends: with a value, in the loop of
    [tfm_abort], in [psa_panic], or in undefined behaviour. *)
Inductive outcome (A : Type) := Done (a : A) | Hangs | Panics | Undefined.
Arguments Done {A} _.
Arguments Hangs {A}.
Arguments Panics {A}.
Arguments Undefined {A}.

Definition SP (W A : Type) : Type := W -> outcome (A * W).

#[export] Instance S_ret W : MRet (SP W) := fun A a w => Done (a, w).
#[export] Instance S_bind W : MBind (SP W) := fun A B f m w =>
  match m w with
  | Done (a, w') => f a w'
  | Hangs => Hangs
  | Panics => Panics
  | Undefined => Undefined
  end.

Definition hangs {W A} : SP W A := fun _ => Hangs.
Definition psa_panic {W A} : SP W A := fun _ => Panics.
Definition s_undefined {W A} : SP W A := fun _ => Undefined.

(** The static variables of the partitions beside the world of the SPM. *)
Definition on_spm {W D A} (m : SP W A) : SP (W * D) A := fun s =>
  match m s.1 with
  | Done (a, w) => Done (a, (w, s.2))
  | Hangs => Hangs
  | Panics => Panics
  | Undefined => Undefined
  end.

Definition get_data {W D} : SP (W * D) D := fun s => Done (s.2, s).
Definition put_data {W D} (d : D) : SP (W * D) unit := fun s => Done (tt, (s.1, d)).

(** A request of a test: one that does not return leaves the test undefined. *)
Definition request_of {W A} (m : SP W A) : P W A := call (fun w =>
  match m w with Done r => Some r | _ => None end).

(** ** The interface *)

Class FfmConsts := {
  PSA_SUCCESS : Z;
  PSA_ERROR_PROGRAMMER_ERROR : Z;
  PSA_ERROR_CONNECTION_REFUSED : Z;
  PSA_ERROR_NOT_SUPPORTED : Z;
  PSA_ERROR_INVALID_ARGUMENT : Z;
  PSA_ERROR_GENERIC_ERROR : Z;
  PSA_IPC_CONNECT : Z;
  PSA_IPC_DISCONNECT : Z;
  PSA_IPC_CALL : Z;
  PSA_FRAMEWORK_VERSION : Z;
  PSA_VERSION_NONE : Z;
  PSA_MAX_IOVEC : Z;
  PSA_WAIT_ANY : Z;
  PSA_BLOCK : Z;
  PSA_HANDLE_IS_VALID : Z -> bool;
}.

(** The values of the specification. *)
Class FfmConstsLaws {FC : FfmConsts} := {
  ffm_success : PSA_SUCCESS = 0;
  ffm_programmer_error : PSA_ERROR_PROGRAMMER_ERROR = -129;
  ffm_refused : PSA_ERROR_CONNECTION_REFUSED = -130;
  ffm_not_supported : PSA_ERROR_NOT_SUPPORTED = -134;
  ffm_invalid_argument : PSA_ERROR_INVALID_ARGUMENT = -135;
  ffm_generic_error : PSA_ERROR_GENERIC_ERROR = -132;
  ffm_connect : PSA_IPC_CONNECT = -1;
  ffm_disconnect : PSA_IPC_DISCONNECT = -2;
  ffm_call : PSA_IPC_CALL = 0;
  ffm_none : PSA_VERSION_NONE = 0;
  ffm_iovec : PSA_MAX_IOVEC = 4;
  ffm_valid h : PSA_HANDLE_IS_VALID h = (0 <? h);
}.

(** [psa_msg_t]; a pointer is its address, NULL is 0. *)
Record psa_msg_t := mkMsg {
  m_type : Z;
  m_handle : Z;
  m_client_id : Z;
  m_rhandle : Z;
  in_size : list Z;
  out_size : list Z;
}.

(** An entry of [services] of a partition's manifest. *)
Record service := mkService {
  sv_sid : Z;
  sv_version : Z;
  connection_based : bool;
}.

#[export] Instance service_eq_dec : EqDecision service.
Proof. solve_decision. Defined.

(** What the build generates from the manifests: the signal of a service and
    the handle of a stateless one. *)
Class Manifest := {
  signal : Z -> Z;
  stateless_handle : Z -> Z;
}.

(** Each service of a partition has a signal of its own. *)
Class SignalLaws {MF : Manifest} (services : list service) := {
  signal_nonzero s : s ∈ services -> signal (sv_sid s) <> 0;
  signal_apart s s' : s ∈ services -> s' ∈ services -> s <> s' ->
    Z.land (signal (sv_sid s)) (signal (sv_sid s')) = 0;
}.

(** The operations of the SPM.  Partitions have numbers; [code] is what each of
    them runs when a request comes in, until it has replied.  An input vector is
    its bytes, an output vector the memory of the client that it names; a call
    returns the status, that memory and the lengths written.  The first argument
    of a client's operation is the client, that of a partition's operation the
    partition.  A mapped vector is named by its index. *)
Class Framework (W : Type) := {
  psa_framework_version : SP W Z;
  psa_version : Z -> SP W Z;
  psa_connect {D} (code : nat -> SP (W * D) unit) (c sid version : Z) : SP (W * D) Z;
  psa_call {D} (code : nat -> SP (W * D) unit) (c h type : Z) (in_vec out_vec : list (list Z)) :
    SP (W * D) (Z * list (list Z) * list Z);
  psa_close {D} (code : nat -> SP (W * D) unit) (c h : Z) : SP (W * D) unit;
  psa_wait (p : nat) (mask timeout : Z) : SP W Z;
  psa_get (p : nat) (signal : Z) : SP W (Z * psa_msg_t);
  psa_set_rhandle (p : nat) (h rhandle : Z) : SP W unit;
  psa_read (p : nat) (h i n : Z) : SP W (list Z);
  psa_write (p : nat) (h i : Z) (bs : list Z) : SP W unit;
  psa_reply (p : nat) (h status : Z) : SP W unit;
  psa_map_invec (p : nat) (h i : Z) : SP W (list Z);
  psa_unmap_invec (p : nat) (h i : Z) : SP W unit;
  psa_map_outvec (p : nat) (h i : Z) : SP W unit;
  (** [base[k] = b] through the pointer that [psa_map_outvec] has returned *)
  outvec_store (p : nat) (h i k b : Z) : SP W unit;
  psa_unmap_outvec (p : nat) (h i n : Z) : SP W unit;
}.

(** ** The abstract state *)

Record connection := mkConn {
  cn_sid : Z;
  cn_rhandle : Z;
  (** a programmer error has been replied to *)
  cn_error : bool;
}.

(** The message that a partition works on. *)
Record work := mkWork {
  wk_sid : Z;
  wk_msg : psa_msg_t;
  wk_got : bool;
  (** what is left to read of the input vectors *)
  wk_in : list (list Z);
  (** the memory of the output vectors and the lengths written *)
  wk_out : list (list Z);
  wk_len : list Z;
  wk_rhandle : Z;
  wk_reply : option Z;
}.

Record ffm := mkFfm {
  conns : gmap Z connection;
  active : gmap nat work;
}.

Definition set_work (p : nat) (q : work) (f : ffm) : ffm := mkFfm (conns f) (<[p := q]> (active f)).
Definition end_work (p : nat) (f : ffm) : ffm := mkFfm (conns f) (delete p (active f)).

Definition set_conn (h : Z) (cn : connection) (f : ffm) : ffm := mkFfm (<[h := cn]> (conns f)) (active f).
Definition drop_conn (h : Z) (f : ffm) : ffm := mkFfm (delete h (conns f)) (active f).

Definition sizes (vs : list (list Z)) : list Z := (sizeof <$> vs) ++ replicate (4 - length vs) 0.

Definition new_work (sid type mh c rh : Z) (iv ov : list (list Z)) : work :=
  mkWork sid (mkMsg type mh c rh (sizes iv) (sizes ov)) false iv ov (replicate (length ov) 0) rh None.

Definition got (q : work) : work :=
  mkWork (wk_sid q) (wk_msg q) true (wk_in q) (wk_out q) (wk_len q) (wk_rhandle q) (wk_reply q).
Definition with_rhandle (rh : Z) (q : work) : work :=
  mkWork (wk_sid q) (wk_msg q) (wk_got q) (wk_in q) (wk_out q) (wk_len q) rh (wk_reply q).
Definition with_in (i : nat) (bs : list Z) (q : work) : work :=
  mkWork (wk_sid q) (wk_msg q) (wk_got q) (<[i := bs]> (wk_in q)) (wk_out q) (wk_len q) (wk_rhandle q) (wk_reply q).
Definition with_out (i : nat) (bs : list Z) (n : Z) (q : work) : work :=
  mkWork (wk_sid q) (wk_msg q) (wk_got q) (wk_in q) (<[i := bs]> (wk_out q)) (<[i := n]> (wk_len q))
    (wk_rhandle q) (wk_reply q).
Definition replied (st : Z) (q : work) : work :=
  mkWork (wk_sid q) (wk_msg q) (wk_got q) (wk_in q) (wk_out q) (wk_len q) (wk_rhandle q) (Some st).

(** The partition has got the message with handle [h] and not yet replied. *)
Record working (p : nat) (h : Z) (q : work) (f : ffm) : Prop := {
  wk_active : active f !! p = Some q;
  wk_has : wk_got q = true;
  wk_handle : m_handle (wk_msg q) = h;
  wk_open : wk_reply q = None;
}.

(** ** Preconditions *)

(** From every world whose abstract state is [f], with the static variables
    [d], the code ends and [Q] holds of what it returns and leaves. *)
Definition wps {W D A} (view : W -> ffm) (m : SP (W * D) A) (Q : A -> ffm -> D -> Prop) (f : ffm) (d : D) : Prop :=
  forall w, view w = f -> exists a w' d', m (w, d) = Done (a, (w', d')) /\ Q a (view w') d'.

(** The same for an operation of the SPM that fixes what it returns and does. *)
Definition gives {W A} (view : W -> ffm) (m : SP W A) (f : ffm) (a : A) (f' : ffm) : Prop :=
  forall w, view w = f -> exists w', m w = Done (a, w') /\ view w' = f'.

(** [msg_handle h] is the handle of the messages of connection [h]. *)
Class FrameworkLaws {FC : FfmConsts} {MF : Manifest} (provides : Z -> option (nat * service))
    (msg_handle : Z -> Z) (W : Type) {FW : Framework W} := {
  ffm_of : W -> ffm;

  law_framework_version f : gives ffm_of psa_framework_version f PSA_FRAMEWORK_VERSION f;
  law_version sid p sv f : provides sid = Some (p, sv) -> gives ffm_of (psa_version sid) f (sv_version sv) f;

  (** A connection to a service: the partition decides.  The handle of a
      connection is positive and not in use. *)
  law_connect {D} code c sid ver p sv (Q : Z -> ffm -> D -> Prop) f d :
    provides sid = Some (p, sv) -> connection_based sv = true -> ver = sv_version sv -> active f !! p = None ->
    (forall h, 0 < h -> conns f !! h = None ->
      wps ffm_of (code p) (fun _ f2 d2 => exists q st, active f2 !! p = Some q /\ wk_reply q = Some st /\
        if st =? PSA_SUCCESS then Q h (set_conn h (mkConn sid (wk_rhandle q) false) (end_work p f2)) d2
        else st = PSA_ERROR_CONNECTION_REFUSED /\ Q st (end_work p f2) d2)
      (set_work p (new_work sid PSA_IPC_CONNECT (msg_handle h) c 0 [] []) f) d) ->
    wps ffm_of (psa_connect code c sid ver) Q f d;
  (** A non-secure client cannot connect to a stateless service. *)
  law_connect_stateless {D} code c sid ver p sv (Q : Z -> ffm -> D -> Prop) f d :
    provides sid = Some (p, sv) -> connection_based sv = false -> c < 0 ->
    Q PSA_ERROR_PROGRAMMER_ERROR f d -> wps ffm_of (psa_connect code c sid ver) Q f d;

  (** A call on a connection, on one in the error state, and of a stateless
      service. *)
  law_call {D} code c h t iv ov cn p sv (Q : Z * list (list Z) * list Z -> ffm -> D -> Prop) f d :
    conns f !! h = Some cn -> cn_error cn = false -> provides (cn_sid cn) = Some (p, sv) ->
    active f !! p = None -> 0 <= t -> (length iv + length ov <= 4)%nat ->
    wps ffm_of (code p) (fun _ f2 d2 => exists q st, active f2 !! p = Some q /\ wk_reply q = Some st /\
        Q (st, wk_out q, wk_len q)
          (set_conn h (mkConn (cn_sid cn) (wk_rhandle q) (st =? PSA_ERROR_PROGRAMMER_ERROR)) (end_work p f2)) d2)
      (set_work p (new_work (cn_sid cn) t (msg_handle h) c (cn_rhandle cn) iv ov) f) d ->
    wps ffm_of (psa_call code c h t iv ov) Q f d;
  law_call_error {D} code c h t iv ov cn (Q : Z * list (list Z) * list Z -> ffm -> D -> Prop) f d :
    conns f !! h = Some cn -> cn_error cn = true -> c < 0 ->
    Q (PSA_ERROR_PROGRAMMER_ERROR, ov, replicate (length ov) 0) f d ->
    wps ffm_of (psa_call code c h t iv ov) Q f d;
  law_call_stateless {D} code c sid t iv ov p sv (Q : Z * list (list Z) * list Z -> ffm -> D -> Prop) f d :
    provides sid = Some (p, sv) -> connection_based sv = false -> conns f !! stateless_handle sid = None ->
    active f !! p = None -> 0 <= t -> (length iv + length ov <= 4)%nat ->
    wps ffm_of (code p) (fun _ f2 d2 => exists q st, active f2 !! p = Some q /\ wk_reply q = Some st /\
        Q (st, wk_out q, wk_len q) (end_work p f2) d2)
      (set_work p (new_work sid t (msg_handle (stateless_handle sid)) c 0 iv ov) f) d ->
    wps ffm_of (psa_call code c (stateless_handle sid) t iv ov) Q f d;

  law_close {D} code c h cn p sv (Q : unit -> ffm -> D -> Prop) f d :
    conns f !! h = Some cn -> provides (cn_sid cn) = Some (p, sv) -> active f !! p = None ->
    wps ffm_of (code p) (fun _ f2 d2 => exists q st, active f2 !! p = Some q /\ wk_reply q = Some st /\
        Q tt (drop_conn h (end_work p f2)) d2)
      (set_work p (new_work (cn_sid cn) PSA_IPC_DISCONNECT (msg_handle h) c (cn_rhandle cn) [] []) f) d ->
    wps ffm_of (psa_close code c h) Q f d;

  (** The message of the partition. *)
  law_wait p q f : active f !! p = Some q -> wk_got q = false ->
    gives ffm_of (psa_wait p PSA_WAIT_ANY PSA_BLOCK) f (signal (wk_sid q)) f;
  law_get p q f : active f !! p = Some q -> wk_got q = false ->
    gives ffm_of (psa_get p (signal (wk_sid q))) f (PSA_SUCCESS, wk_msg q) (set_work p (got q) f);
  law_set_rhandle p h q rh f : working p h q f ->
    gives ffm_of (psa_set_rhandle p h rh) f tt (set_work p (with_rhandle rh q) f);
  law_read p h i n bs q f : working p h q f -> wk_in q !! i = Some bs -> 0 <= n ->
    gives ffm_of (psa_read p h (Z.of_nat i) n) f (take (Z.to_nat n) bs)
      (set_work p (with_in i (drop (Z.to_nat n) bs) q) f);
  law_write p h i bs out len q f : working p h q f -> wk_out q !! i = Some out -> wk_len q !! i = Some len ->
    0 <= len -> len + sizeof bs <= sizeof out ->
    gives ffm_of (psa_write p h (Z.of_nat i) bs) f tt
      (set_work p (with_out i (splice (Z.to_nat len) bs out) (len + sizeof bs) q) f);
  law_reply p h st q f : working p h q f ->
    gives ffm_of (psa_reply p h st) f tt (set_work p (replied st q) f);
  law_map_invec p h i bs q f : working p h q f -> wk_in q !! i = Some bs ->
    gives ffm_of (psa_map_invec p h (Z.of_nat i)) f bs f;
  law_unmap_invec p h i bs q f : working p h q f -> wk_in q !! i = Some bs ->
    gives ffm_of (psa_unmap_invec p h (Z.of_nat i)) f tt f;
  law_map_outvec p h i out q f : working p h q f -> wk_out q !! i = Some out ->
    gives ffm_of (psa_map_outvec p h (Z.of_nat i)) f tt f;
  law_outvec_store p h i k b out len q f : working p h q f -> wk_out q !! i = Some out -> wk_len q !! i = Some len ->
    0 <= k < sizeof out ->
    gives ffm_of (outvec_store p h (Z.of_nat i) k b) f tt (set_work p (with_out i (<[Z.to_nat k := b]> out) len q) f);
  law_unmap_outvec p h i n out q f : working p h q f -> wk_out q !! i = Some out -> 0 <= n <= sizeof out ->
    gives ffm_of (psa_unmap_outvec p h (Z.of_nat i) n) f tt (set_work p (with_out i out n q) f);
}.

(** ** Rules *)

Section rules.
  Context {W D : Type} (view : W -> ffm).

Lemma wps_ret {A} (a : A) (Q : A -> ffm -> D -> Prop) f d : Q a f d -> wps view (mret a) Q f d.
Proof. intros HQ w <-. by exists a, w, d. Qed.

Lemma wps_bind {A B} (m : SP (W * D) A) (k : A -> SP (W * D) B) (Q : B -> ffm -> D -> Prop) f d :
  wps view m (fun a => wps view (k a) Q) f d -> wps view (m ≫= k) Q f d.
Proof.
  intros Hm w Hw. destruct (Hm w Hw) as (a & w1 & d1 & Hr & Hk). destruct (Hk w1 eq_refl) as (b & w2 & d2 & Hr2 & HQ).
  exists b, w2, d2. split; [|done]. unfold mbind, S_bind. by rewrite Hr.
Qed.

Lemma wps_mono {A} (m : SP (W * D) A) (Q Q' : A -> ffm -> D -> Prop) f d :
  wps view m Q f d -> (forall a f' d', Q a f' d' -> Q' a f' d') -> wps view m Q' f d.
Proof. intros Hm HQ w Hw. destruct (Hm w Hw) as (a & w1 & d1 & Hr & H). exists a, w1, d1. eauto. Qed.

Lemma wps_spm {A} (m : SP W A) (a : A) f' (Q : A -> ffm -> D -> Prop) f d :
  gives view m f a f' -> Q a f' d -> wps view (on_spm m) Q f d.
Proof.
  intros Hm HQ w Hw. destruct (Hm w Hw) as (w' & Hr & <-). exists a, w', d. unfold on_spm. cbn. by rewrite Hr.
Qed.

Lemma wps_get_data (Q : D -> ffm -> D -> Prop) f d : Q d f d -> wps view get_data Q f d.
Proof. intros HQ w <-. by exists d, w, d. Qed.

Lemma wps_put_data d' (Q : unit -> ffm -> D -> Prop) f d : Q tt f d' -> wps view (put_data d') Q f d.
Proof. intros HQ w <-. by exists tt, w, d'. Qed.

(** A request in a test. *)
Lemma wp_request {A} (m : SP (W * D) A) (Q : A -> tstate (W * D) -> Prop) f d s :
  view (t_world s).1 = f -> (t_world s).2 = d ->
  wps view m (fun a f' d' => forall w, view w = f' -> Q a (mkT (t_ret s) (w, d') (t_log s))) f d ->
  wp (request_of m) Q s.
Proof.
  intros Hf Hd Hm. destruct (t_world s) as [w d0] eqn:Hs. cbn in *. subst d0.
  destruct (Hm w Hf) as (a & w' & d' & Hr & HQ). unfold request_of. eapply wp_call.
  - rewrite Hs, Hr. reflexivity.
  - by apply HQ.
Qed.
End rules.

(** ** Rules for the code of a partition

    The abstract state is [set_work p q f]: partition [p] works on [q]. *)

Section partition_rules.
  Context {FC : FfmConsts} {MF : Manifest} {provides : Z -> option (nat * service)} {msg_handle : Z -> Z}.
  Context {W D : Type} {FW : Framework W} {FL : FrameworkLaws provides msg_handle W}.

Lemma set_work_twice p q q' f : set_work p q' (set_work p q f) = set_work p q' f.
Proof. unfold set_work. cbn. by rewrite insert_insert_eq. Qed.

Lemma end_set_work p q f : active f !! p = None -> end_work p (set_work p q f) = f.
Proof. intros H. unfold end_work, set_work. cbn. rewrite delete_insert_id by done. by destruct f. Qed.

Lemma active_set_work p q f : active (set_work p q f) !! p = Some q.
Proof. apply lookup_insert_eq. Qed.

Lemma working_set p h q f : wk_got q = true -> m_handle (wk_msg q) = h -> wk_reply q = None ->
  working p h q (set_work p q f).
Proof. intros. split; [apply active_set_work | done..]. Qed.

Section work.
  Context (p : nat) (q : work) (f : ffm) (d : D) (h : Z).

Lemma wps_wait (Q : Z -> ffm -> D -> Prop) : wk_got q = false ->
  Q (signal (wk_sid q)) (set_work p q f) d ->
  wps ffm_of (on_spm (psa_wait p PSA_WAIT_ANY PSA_BLOCK)) Q (set_work p q f) d.
Proof. intros Hg. eapply wps_spm, law_wait; [apply active_set_work | done]. Qed.

Lemma wps_get (Q : Z * psa_msg_t -> ffm -> D -> Prop) sig : sig = signal (wk_sid q) -> wk_got q = false ->
  Q (PSA_SUCCESS, wk_msg q) (set_work p (got q) f) d ->
  wps ffm_of (on_spm (psa_get p sig)) Q (set_work p q f) d.
Proof.
  intros -> Hg HQ. eapply wps_spm; [eapply law_get; [apply active_set_work | done]|]. by rewrite set_work_twice.
Qed.

Hypothesis (Hgot : wk_got q = true) (Hh : m_handle (wk_msg q) = h) (Hr : wk_reply q = None).

Lemma wps_set_rhandle (Q : unit -> ffm -> D -> Prop) rh : Q tt (set_work p (with_rhandle rh q) f) d ->
  wps ffm_of (on_spm (psa_set_rhandle p h rh)) Q (set_work p q f) d.
Proof. intros HQ. eapply wps_spm; [by eapply law_set_rhandle, working_set|]. by rewrite set_work_twice. Qed.

Lemma wps_reply (Q : unit -> ffm -> D -> Prop) st : Q tt (set_work p (replied st q) f) d ->
  wps ffm_of (on_spm (psa_reply p h st)) Q (set_work p q f) d.
Proof. intros HQ. eapply wps_spm; [by eapply law_reply, working_set|]. by rewrite set_work_twice. Qed.

Lemma wps_read (Q : list Z -> ffm -> D -> Prop) i n bs : 0 <= i -> 0 <= n -> wk_in q !! Z.to_nat i = Some bs ->
  Q (take (Z.to_nat n) bs) (set_work p (with_in (Z.to_nat i) (drop (Z.to_nat n) bs) q) f) d ->
  wps ffm_of (on_spm (psa_read p h i n)) Q (set_work p q f) d.
Proof.
  intros Hi Hn Hbs HQ. rewrite <- (Z2Nat.id i) by done.
  eapply wps_spm; [eapply law_read; [by apply working_set | done..]|]. by rewrite set_work_twice.
Qed.

Lemma wps_write (Q : unit -> ffm -> D -> Prop) i bs out len : 0 <= i ->
  wk_out q !! Z.to_nat i = Some out -> wk_len q !! Z.to_nat i = Some len -> 0 <= len -> len + sizeof bs <= sizeof out ->
  Q tt (set_work p (with_out (Z.to_nat i) (splice (Z.to_nat len) bs out) (len + sizeof bs) q) f) d ->
  wps ffm_of (on_spm (psa_write p h i bs)) Q (set_work p q f) d.
Proof.
  intros Hi Ho Hl Hlen Hs HQ. rewrite <- (Z2Nat.id i) by done.
  eapply wps_spm; [eapply law_write; [by apply working_set | done..]|]. by rewrite set_work_twice.
Qed.

Lemma wps_map_invec (Q : list Z -> ffm -> D -> Prop) i bs : 0 <= i -> wk_in q !! Z.to_nat i = Some bs ->
  Q bs (set_work p q f) d -> wps ffm_of (on_spm (psa_map_invec p h i)) Q (set_work p q f) d.
Proof.
  intros Hi Hbs HQ. rewrite <- (Z2Nat.id i) by done. eapply wps_spm; [|exact HQ].
  eapply law_map_invec; [by apply working_set | done].
Qed.

Lemma wps_unmap_invec (Q : unit -> ffm -> D -> Prop) i bs : 0 <= i -> wk_in q !! Z.to_nat i = Some bs ->
  Q tt (set_work p q f) d -> wps ffm_of (on_spm (psa_unmap_invec p h i)) Q (set_work p q f) d.
Proof.
  intros Hi Hbs HQ. rewrite <- (Z2Nat.id i) by done. eapply wps_spm; [|exact HQ].
  eapply law_unmap_invec; [by apply working_set | done].
Qed.

Lemma wps_map_outvec (Q : unit -> ffm -> D -> Prop) i out : 0 <= i -> wk_out q !! Z.to_nat i = Some out ->
  Q tt (set_work p q f) d -> wps ffm_of (on_spm (psa_map_outvec p h i)) Q (set_work p q f) d.
Proof.
  intros Hi Ho HQ. rewrite <- (Z2Nat.id i) by done. eapply wps_spm; [|exact HQ].
  eapply law_map_outvec; [by apply working_set | done].
Qed.

Lemma wps_outvec_store (Q : unit -> ffm -> D -> Prop) i k b out len : 0 <= i ->
  wk_out q !! Z.to_nat i = Some out -> wk_len q !! Z.to_nat i = Some len -> 0 <= k < sizeof out ->
  Q tt (set_work p (with_out (Z.to_nat i) (<[Z.to_nat k := b]> out) len q) f) d ->
  wps ffm_of (on_spm (outvec_store p h i k b)) Q (set_work p q f) d.
Proof.
  intros Hi Ho Hl Hk HQ. rewrite <- (Z2Nat.id i) by done.
  eapply wps_spm; [eapply law_outvec_store; [by apply working_set | done..]|]. by rewrite set_work_twice.
Qed.

Lemma wps_unmap_outvec (Q : unit -> ffm -> D -> Prop) i n out : 0 <= i ->
  wk_out q !! Z.to_nat i = Some out -> 0 <= n <= sizeof out ->
  Q tt (set_work p (with_out (Z.to_nat i) out n q) f) d ->
  wps ffm_of (on_spm (psa_unmap_outvec p h i n)) Q (set_work p q f) d.
Proof.
  intros Hi Ho Hn HQ. rewrite <- (Z2Nat.id i) by done.
  eapply wps_spm; [eapply law_unmap_outvec; [by apply working_set | done..]|]. by rewrite set_work_twice.
Qed.
End work.

(** ** What a turn of a partition does with a message *)

(** The turn [m] of partition [p] answers every message of type [t] to service
    [sid] with [st], sends nothing back and leaves its variables alone. *)
Definition answers (m : SP (W * D) unit) (p : nat) (sid t st : Z) : Prop :=
  forall mh c rh iv ov f d (Q : unit -> ffm -> D -> Prop),
    Q tt (set_work p (replied st (got (new_work sid t mh c rh iv ov))) f) d ->
    wps ffm_of m Q (set_work p (new_work sid t mh c rh iv ov) f) d.

Context (code : nat -> SP (W * D) unit).

Lemma wps_connect s p c f d (Q : Z -> ffm -> D -> Prop) : provides (sv_sid s) = Some (p, s) ->
  connection_based s = true -> active f !! p = None -> answers (code p) p (sv_sid s) PSA_IPC_CONNECT PSA_SUCCESS ->
  (forall h, 0 < h -> conns f !! h = None -> Q h (set_conn h (mkConn (sv_sid s) 0 false) f) d) ->
  wps ffm_of (psa_connect code c (sv_sid s) (sv_version s)) Q f d.
Proof.
  intros Hp Hs Ha Hc HQ. eapply law_connect; [done | done | done | done |]. intros h Hh Hf. apply Hc.
  eexists _, _. split; [apply active_set_work|]. split; [reflexivity|]. rewrite Z.eqb_refl, end_set_work by done.
  by apply HQ.
Qed.

Lemma wps_close s p c h cn f d (Q : unit -> ffm -> D -> Prop) st : provides (cn_sid cn) = Some (p, s) ->
  active f !! p = None -> conns f !! h = Some cn -> answers (code p) p (cn_sid cn) PSA_IPC_DISCONNECT st ->
  Q tt (drop_conn h f) d -> wps ffm_of (psa_close code c h) Q f d.
Proof.
  intros Hp Ha Hcn Hc HQ. eapply law_close; [done | done | done |]. apply Hc.
  eexists _, _. split; [apply active_set_work|]. split; [reflexivity|]. by rewrite end_set_work.
Qed.
End partition_rules.

(** ** Rules for tests *)

Section test_rules.
  Context {W D : Type} (view : W -> ffm).

(** The world of a test has abstract state [f], variables [d] and
    [ret->val = v]. *)
Record here (f : ffm) (d : D) (v : test_status_t) (s : tstate (W * D)) : Prop := {
  here_ffm : view (t_world s).1 = f;
  here_data : (t_world s).2 = d;
  here_val : val (t_ret s) = v;
}.

Definition twp {A} (m : P (W * D) A) (Q : A -> ffm -> D -> test_status_t -> Prop) f d v : Prop :=
  forall s, here f d v s -> wp m (fun a s' => exists f' d' v', here f' d' v' s' /\ Q a f' d' v') s.

Lemma twp_ret {A} (a : A) Q f d v : Q a f d v -> twp (mret a) Q f d v.
Proof. intros HQ s Hs. apply wp_ret. eauto. Qed.

Lemma twp_bind {A B} (m : P (W * D) A) (k : A -> P (W * D) B) Q f d v :
  twp m (fun a => twp (k a) Q) f d v -> twp (m ≫= k) Q f d v.
Proof.
  intros Hm s Hs. apply wp_bind. eapply wp_mono; [by apply Hm|]. intros a s' (f' & d' & v' & Hs' & Hk). by apply Hk.
Qed.

Lemma twp_request {A} (m : SP (W * D) A) Q f d v :
  wps view m (fun a f' d' => Q a f' d' v) f d -> twp (request_of m) Q f d v.
Proof.
  intros Hm s [Hf Hd Hv]. eapply wp_request; [exact Hf | exact Hd |].
  intros w Hw. destruct (Hm w Hw) as (a & w' & d' & Hr & HQ). exists a, w', d'. split; [done|].
  intros w'' Hw''. exists (view w'), d', v. by split.
Qed.

Lemma twp_fail_if file ln c msg Q f d v : c = false -> Q tt f d v -> twp (fail_if file ln c msg) Q f d v.
Proof. intros -> HQ. by apply twp_ret. Qed.

Lemma twp_log fmt args Q f d v : Q tt f d v -> twp (test_log fmt args) Q f d v.
Proof. intros HQ s [Hf Hd Hv]. apply wp_test_log. eexists _, _, _. split; [by split | done]. Qed.

Lemma twp_ret_val v' Q f d v : Q tt f d v' -> twp (ret_val v') Q f d v.
Proof. intros HQ s [Hf Hd Hv]. apply wp_ret_val. exists f, d, v'. by split. Qed.

Lemma twp_call_body m Q f d v : twp m Q f d v -> twp (call_body m) Q f d v.
Proof. intros Hm s Hs. apply wp_call_body. by apply Hm. Qed.

(** From [f], [d] the test passes and leaves [f'], [d']. *)
Definition test_passes (m : P (W * D) unit) f d f' d' : Prop :=
  twp m (fun _ f1 d1 v => f1 = f' /\ d1 = d' /\ v = TEST_PASSED) f d TEST_PASSED.

Lemma test_passes_run m f d f' d' ret w : test_passes m f d f' d' -> val ret = TEST_PASSED ->
  view w.1 = f /\ w.2 = d ->
  exists ret' w' l, as_test m ret w = Some (ret', w', l) /\ val ret' = TEST_PASSED /\ view w'.1 = f' /\ w'.2 = d'.
Proof.
  intros Hm Hr [Hf Hd]. apply (wp_as_test m (fun w' => view w'.1 = f' /\ w'.2 = d')).
  eapply wp_mono; [by apply Hm|]. intros [] s' (? & ? & ? & [Hf' Hd' Hv'] & -> & -> & ->). done.
Qed.
End test_rules.
