(* ===== verification/IpcTests.v ===== *)
(** * The IPC tests of the SPM: services and suites

    suites/spm/common: the service that answers requests, the service for
    mapped vectors and the tests that the suites share.  suites/spm/ipc: the
    service partition, the client partition, and the non-secure and the secure
    suite.  The build is one without the TFM_IPC_ISOLATION options, whose tests
    end in a fault of the memory protection. *)

From S2P Require Import Prelude LogRaw TestFramework TestProg Ffm.
Local Open Scope Z_scope.

(** ** client_api_test_defs.h and spm_test_defs.h *)

Definition CLIENT_API_TEST_ERROR_FAIL : Z := -1.
Definition CLIENT_API_TEST_TYPE_REQUEST_SRV : Z := 0x1000.
Definition CLIENT_API_TEST_INPUT_DATA : Z := 0xDEADBEEF.
Definition CLIENT_API_TEST_OUTPUT_DATA : Z := 0xCAFEBABE.

Definition INVEC_MAP_AND_UNMAP : Z := 0x100.
Definition OUTVEC_MAP_AND_UNMAP : Z := 0x101.
Definition OUTVEC_MAP_NOT_UNMAP : Z := 0x102.
Definition TFM_MMIOVEC_TEST_ERROR : Z := -257.
Definition MMIOVEC_INPUT_DATA : Z := 0xFFFFABCD.
Definition MMIOVEC_OUTPUT_DATA : Z := 0xA5.
Definition MMIOVEC_TEST_VEC_LEN : Z := 4.
Definition MMIOVECT_TEST_INVEC : list Z :=
  [MMIOVEC_INPUT_DATA; MMIOVEC_INPUT_DATA + 1; MMIOVEC_INPUT_DATA + 2; MMIOVEC_INPUT_DATA + 3].
Definition CLIENT_ID_TRANSLATE_TEST_TYPE_REQUEST_SRVC : Z := 0x2000.
Definition IPC_SERVICE_RHANDLE_CHECK_TYPE_REQUEST_SRVC : Z := 0x2100.

(** ** The manifests *)

(** tfm_ipc_service_test.yaml *)
Definition IPC_SERVICE_TEST_BASIC : service := mkService 0xF080 1 true.
Definition IPC_SERVICE_TEST_PSA_ACCESS_APP_MEM : service := mkService 0xF081 1 true.
Definition IPC_SERVICE_TEST_PSA_ACCESS_APP_READ_ONLY_MEM : service := mkService 0xF082 1 true.
Definition IPC_SERVICE_TEST_APP_ACCESS_PSA_MEM : service := mkService 0xF083 1 true.
Definition IPC_SERVICE_TEST_CLIENT_PROGRAMMER_ERROR : service := mkService 0xF084 1 true.
Definition IPC_SERVICE_TEST_STATELESS_ROT : service := mkService 0xF085 1 false.
Definition IPC_SERVICE_TEST_MMIOVEC : service := mkService 0xF086 1 false.
Definition IPC_SERVICE_TEST_CLIENT_ID_TRANSLATE : service := mkService 0xF087 1 true.
Definition IPC_SERVICE_TEST_RHANDLE_CHECK : service := mkService 0xF088 1 true.
Definition IPC_SERVICE_TEST_CONNECTION_REFUSED : service := mkService 0xF089 1 true.

Definition tfm_ipc_service_test_services : list service :=
  [IPC_SERVICE_TEST_BASIC; IPC_SERVICE_TEST_PSA_ACCESS_APP_MEM; IPC_SERVICE_TEST_PSA_ACCESS_APP_READ_ONLY_MEM;
   IPC_SERVICE_TEST_APP_ACCESS_PSA_MEM; IPC_SERVICE_TEST_CLIENT_PROGRAMMER_ERROR; IPC_SERVICE_TEST_STATELESS_ROT;
   IPC_SERVICE_TEST_MMIOVEC; IPC_SERVICE_TEST_CLIENT_ID_TRANSLATE; IPC_SERVICE_TEST_RHANDLE_CHECK;
   IPC_SERVICE_TEST_CONNECTION_REFUSED].

(** tfm_ipc_client_test.yaml *)
Definition IPC_CLIENT_TEST_PSA_ACCESS_APP_MEM : service := mkService 0xF061 1 true.
Definition IPC_CLIENT_TEST_PSA_ACCESS_APP_READ_ONLY_MEM : service := mkService 0xF062 1 true.
Definition IPC_CLIENT_TEST_APP_ACCESS_PSA_MEM : service := mkService 0xF063 1 true.
Definition IPC_CLIENT_TEST_MEM_CHECK : service := mkService 0xF064 1 true.
Definition IPC_CLIENT_TEST_RETRIEVE_APP_MEM : service := mkService 0xF065 1 true.

Definition tfm_ipc_client_test_services : list service :=
  [IPC_CLIENT_TEST_PSA_ACCESS_APP_MEM; IPC_CLIENT_TEST_PSA_ACCESS_APP_READ_ONLY_MEM;
   IPC_CLIENT_TEST_APP_ACCESS_PSA_MEM; IPC_CLIENT_TEST_MEM_CHECK; IPC_CLIENT_TEST_RETRIEVE_APP_MEM].

(** ** Memory of the partitions

    The static variables of [ipc_service_rhandle_check], the two arrays of
    private data, and the variable [client_data] on the stack of the client
    partition. *)
Record ipc_data := mkIpcData {
  connect_cnt : Z;
  first_handle : Z;
  srvc_private_data_connection1 : list Z;
  srvc_private_data_connection2 : list Z;
  client_data : Z;
}.

Definition ipc_boot : ipc_data := mkIpcData 0 0 [0x11; 0x00] [0x21; 0xF0] 0.

(** The addresses of those variables. *)
Record ipc_layout := mkLayout { addr_connection1 : Z; addr_connection2 : Z; addr_client_data : Z }.

Section common_service.
  Context {FC : FfmConsts} {W D : Type} {FW : Framework W}.
  Variable p : nat.

Definition size_at (l : list Z) (i : Z) : SP (W * D) Z :=
  match l !! Z.to_nat i with Some n => mret n | None => s_undefined end.

(** The body of the loop of [client_api_test_rot_srv]: true when it returns
    CLIENT_API_TEST_ERROR_FAIL. *)
Definition rot_srv_vector (msg : psa_msg_t) (i : Z) : SP (W * D) bool :=
  in_size ← size_at (in_size msg) i;
  '(bad : bool) ← (if negb (in_size =? 0) then
    in_data ← on_spm (psa_read p (m_handle msg) i 4);
    if negb (sizeof in_data =? 4) then mret true
    else mret (negb (le_value in_data =? CLIENT_API_TEST_INPUT_DATA))
  else mret false);
  if bad then mret true
  else
    out_size ← size_at (out_size msg) i;
    (if negb (out_size =? 0) then on_spm (psa_write p (m_handle msg) i (le_bytes 4 CLIENT_API_TEST_OUTPUT_DATA))
     else mret tt);;
    mret false.

Fixpoint rot_srv_loop (msg : psa_msg_t) (is_ : list Z) : SP (W * D) Z :=
  match is_ with
  | [] => mret PSA_SUCCESS
  | i :: is_ =>
      '(bad : bool) ← rot_srv_vector msg i;
      if bad then mret CLIENT_API_TEST_ERROR_FAIL else rot_srv_loop msg is_
  end.

Definition client_api_test_rot_srv (msg : psa_msg_t) : SP (W * D) Z :=
  rot_srv_loop msg (seqZ 0 PSA_MAX_IOVEC).

(** *** tfm_mmiovec_test_service.c *)

Fixpoint mmiovec_invec_loop (msg : psa_msg_t) (is_ : list Z) : SP (W * D) Z :=
  match is_ with
  | [] => mret PSA_SUCCESS
  | i :: is_ =>
      invec_base ← on_spm (psa_map_invec p (m_handle msg) i);
      invec_data ← size_at MMIOVECT_TEST_INVEC i;
      (** [*invec_base] reads four bytes *)
      if sizeof invec_base <? 4 then s_undefined
      else if negb (le_value (take 4 invec_base) =? invec_data) then mret TFM_MMIOVEC_TEST_ERROR
      else
        on_spm (psa_unmap_invec p (m_handle msg) i);;
        mmiovec_invec_loop msg is_
  end.

Definition test_service_mmiovec_invec (msg : psa_msg_t) : SP (W * D) Z :=
  mmiovec_invec_loop msg (seqZ 0 MMIOVEC_TEST_VEC_LEN).

Fixpoint mmiovec_outvec_loop (msg : psa_msg_t) (is_ : list Z) : SP (W * D) Z :=
  match is_ with
  | [] => mret PSA_SUCCESS
  | i :: is_ =>
      on_spm (psa_map_outvec p (m_handle msg) i);;
      on_spm (outvec_store p (m_handle msg) i 0 MMIOVEC_OUTPUT_DATA);;
      on_spm (psa_unmap_outvec p (m_handle msg) i 1);;
      mmiovec_outvec_loop msg is_
  end.

Definition test_service_mmiovec_outvec (msg : psa_msg_t) : SP (W * D) Z :=
  mmiovec_outvec_loop msg (seqZ 0 MMIOVEC_TEST_VEC_LEN).

Fixpoint outvec_not_unmap_loop (msg : psa_msg_t) (is_ : list Z) : SP (W * D) Z :=
  match is_ with
  | [] => mret PSA_SUCCESS
  | i :: is_ => on_spm (psa_map_outvec p (m_handle msg) i);; outvec_not_unmap_loop msg is_
  end.

Definition test_service_outvec_not_unmap (msg : psa_msg_t) : SP (W * D) Z :=
  outvec_not_unmap_loop msg (seqZ 0 MMIOVEC_TEST_VEC_LEN).
End common_service.

(** ** tfm_ipc_service_test.c *)

(** Partition numbers of the model. *)
Definition ipc_service : nat := 1.
Definition ipc_client : nat := 2.

Section ipc_service_partition.
  Context {FC : FfmConsts} {MF : Manifest} {W : Type} {FW : Framework W}.
  Variables (A : ipc_layout) (PSA_FRAMEWORK_HAS_MM_IOVEC : bool).

Abbreviation SV := (SP (W * ipc_data)).
Abbreviation get_msg s := (on_spm (psa_get ipc_service (signal (sv_sid s)))).
Abbreviation reply h st := (on_spm (psa_reply ipc_service h st)).

Definition tfm_abort : SV unit := hangs.

(** [*(char * )a], [*(char * )a = v] *)
Definition load_char (a : Z) : SV Z :=
  d ← get_data; if a =? addr_client_data A then mret (client_data d) else s_undefined.
Definition store_char (a v : Z) : SV unit :=
  d ← get_data;
  if a =? addr_client_data A then
    put_data (mkIpcData (connect_cnt d) (first_handle d) (srvc_private_data_connection1 d)
      (srvc_private_data_connection2 d) v)
  else s_undefined.

(** [(uint8_t * )rhandle]: the array at the address. *)
Definition load_private (a : Z) : SV (list Z) :=
  d ← get_data;
  if a =? addr_connection1 A then mret (srvc_private_data_connection1 d)
  else if a =? addr_connection2 A then mret (srvc_private_data_connection2 d)
  else s_undefined.
Definition store_private (a : Z) (bs : list Z) : SV unit :=
  d ← get_data;
  if a =? addr_connection1 A then
    put_data (mkIpcData (connect_cnt d) (first_handle d) bs (srvc_private_data_connection2 d) (client_data d))
  else if a =? addr_connection2 A then
    put_data (mkIpcData (connect_cnt d) (first_handle d) (srvc_private_data_connection1 d) bs (client_data d))
  else s_undefined.

Definition ipc_service_basic : SV unit :=
  '(status, msg) ← get_msg IPC_SERVICE_TEST_BASIC;
  if negb (status =? PSA_SUCCESS) then mret tt
  else if (m_type msg =? PSA_IPC_CONNECT) || (m_type msg =? PSA_IPC_DISCONNECT) then
    reply (m_handle msg) PSA_SUCCESS
  else if m_type msg =? CLIENT_API_TEST_TYPE_REQUEST_SRV then
    st ← client_api_test_rot_srv ipc_service msg;
    reply (m_handle msg) st
  else reply (m_handle msg) PSA_ERROR_NOT_SUPPORTED.

Definition ipc_service_psa_access_app_mem : SV unit :=
  '(_, msg) ← get_msg IPC_SERVICE_TEST_PSA_ACCESS_APP_MEM;
  if (m_type msg =? PSA_IPC_CONNECT) || (m_type msg =? PSA_IPC_DISCONNECT) then
    reply (m_handle msg) PSA_SUCCESS
  else if m_type msg =? PSA_IPC_CALL then
    in_size ← size_at (in_size msg) 0;
    if negb (in_size =? 0) then
      bs ← on_spm (psa_read ipc_service (m_handle msg) 0 4);
      (** [rec_buf] is not initialised *)
      if negb (sizeof bs =? 4) then s_undefined
      else
        let rec_buf := le_value bs in
        rec_data ← load_char rec_buf;
        (** ['A'] *)
        if negb (rec_data =? 65) then reply (m_handle msg) (-1)
        else
          store_char rec_buf 66;;
          reply (m_handle msg) PSA_SUCCESS
    else reply (m_handle msg) PSA_SUCCESS
  else tfm_abort.

Definition ipc_service_programmer_error : SV unit :=
  '(_, msg) ← get_msg IPC_SERVICE_TEST_CLIENT_PROGRAMMER_ERROR;
  if (m_type msg =? PSA_IPC_CONNECT) || (m_type msg =? PSA_IPC_DISCONNECT) then
    reply (m_handle msg) PSA_SUCCESS
  else if m_type msg =? PSA_IPC_CALL then reply (m_handle msg) PSA_ERROR_PROGRAMMER_ERROR
  else tfm_abort.

Definition ipc_service_stateless_rot : SV unit :=
  '(status, msg) ← get_msg IPC_SERVICE_TEST_STATELESS_ROT;
  if negb (status =? PSA_SUCCESS) then mret tt
  else
    status ← (if m_type msg =? CLIENT_API_TEST_TYPE_REQUEST_SRV then client_api_test_rot_srv ipc_service msg
              else mret PSA_ERROR_PROGRAMMER_ERROR);
    reply (m_handle msg) status.

Definition ipc_service_mmiovec_test_handle : SV unit :=
  '(status, msg) ← get_msg IPC_SERVICE_TEST_MMIOVEC;
  if negb (status =? PSA_SUCCESS) then psa_panic
  else
    status ← (if m_type msg =? INVEC_MAP_AND_UNMAP then test_service_mmiovec_invec ipc_service msg
              else if m_type msg =? OUTVEC_MAP_AND_UNMAP then test_service_mmiovec_outvec ipc_service msg
              else if m_type msg =? OUTVEC_MAP_NOT_UNMAP then test_service_outvec_not_unmap ipc_service msg
              else mret TFM_MMIOVEC_TEST_ERROR);
    reply (m_handle msg) status.

(** [client_id] is an [int32_t], compared with an [unsigned int]. *)
Definition ipc_service_client_id_translate : SV unit :=
  '(status, msg) ← get_msg IPC_SERVICE_TEST_CLIENT_ID_TRANSLATE;
  if negb (status =? PSA_SUCCESS) then psa_panic
  else if (m_type msg =? PSA_IPC_CONNECT) || (m_type msg =? PSA_IPC_DISCONNECT) then
    reply (m_handle msg) PSA_SUCCESS
  else if m_type msg =? CLIENT_ID_TRANSLATE_TEST_TYPE_REQUEST_SRVC then
    let status := if u32 (m_client_id msg) =? 0xC4000000 then PSA_SUCCESS else status in
    reply (m_handle msg) status
  else tfm_abort.

(** A third connection ends in [tfm_abort]. *)
Definition rhandle_connect (msg : psa_msg_t) : SV unit :=
  d ← get_data;
  if connect_cnt d =? 0 then
    on_spm (psa_set_rhandle ipc_service (m_handle msg) (addr_connection1 A));;
    put_data (mkIpcData (u32 (connect_cnt d + 1)) (m_handle msg) (srvc_private_data_connection1 d)
      (srvc_private_data_connection2 d) (client_data d))
  else if connect_cnt d =? 1 then
    if first_handle d =? m_handle msg then tfm_abort
    else
      on_spm (psa_set_rhandle ipc_service (m_handle msg) (addr_connection2 A));;
      put_data (mkIpcData (u32 (connect_cnt d + 1)) (first_handle d) (srvc_private_data_connection1 d)
        (srvc_private_data_connection2 d) (client_data d))
  else tfm_abort.

(** What is returned is [status]. *)
Definition rhandle_disconnect (msg : psa_msg_t) (status : Z) : SV Z :=
  data ← load_private (m_rhandle msg);
  d0 ← size_at data 0; d1 ← size_at data 1;
  let status := if (d0 =? 0x11) && (d1 =? 0x02) then PSA_SUCCESS else status in
  mret (if (d0 =? 0x21) && (d1 =? 0xF2) then PSA_SUCCESS else status).

Definition rhandle_request (msg : psa_msg_t) : SV unit :=
  data ← load_private (m_rhandle msg);
  d1 ← size_at data 1;
  let data := <[1%nat := u8 (d1 + 1)]> data in
  store_private (m_rhandle msg) data;;
  d1 ← size_at data 1;
  on_spm (psa_write ipc_service (m_handle msg) 0 [d1]).

Definition ipc_service_rhandle_check : SV unit :=
  '(status, msg) ← get_msg IPC_SERVICE_TEST_RHANDLE_CHECK;
  if negb (status =? PSA_SUCCESS) then psa_panic
  else
    status ← (if m_type msg =? PSA_IPC_CONNECT then rhandle_connect msg;; mret status
              else if m_type msg =? PSA_IPC_DISCONNECT then rhandle_disconnect msg status
              else if m_type msg =? IPC_SERVICE_RHANDLE_CHECK_TYPE_REQUEST_SRVC then
                rhandle_request msg;; mret PSA_SUCCESS
              else tfm_abort;; mret status);
    reply (m_handle msg) status.

Definition ipc_service_connection_refused : SV unit :=
  '(status, msg) ← get_msg IPC_SERVICE_TEST_CONNECTION_REFUSED;
  if negb (status =? PSA_SUCCESS) then psa_panic
  else
    (if m_type msg =? PSA_IPC_CONNECT then mret tt else tfm_abort);;
    reply (m_handle msg) PSA_ERROR_CONNECTION_REFUSED.

Definition asserted (signals : Z) (s : service) : bool := negb (Z.land signals (signal (sv_sid s)) =? 0).

(** One turn of the loop of [ipc_service_test_main]. *)
Definition ipc_service_test_main : SV unit :=
  signals ← on_spm (psa_wait ipc_service PSA_WAIT_ANY PSA_BLOCK);
  if asserted signals IPC_SERVICE_TEST_BASIC then ipc_service_basic
  else if asserted signals IPC_SERVICE_TEST_PSA_ACCESS_APP_MEM then ipc_service_psa_access_app_mem
  else if asserted signals IPC_SERVICE_TEST_CLIENT_PROGRAMMER_ERROR then ipc_service_programmer_error
  else if asserted signals IPC_SERVICE_TEST_STATELESS_ROT then ipc_service_stateless_rot
  else if PSA_FRAMEWORK_HAS_MM_IOVEC && asserted signals IPC_SERVICE_TEST_MMIOVEC then
    ipc_service_mmiovec_test_handle
  else if asserted signals IPC_SERVICE_TEST_CLIENT_ID_TRANSLATE then ipc_service_client_id_translate
  else if asserted signals IPC_SERVICE_TEST_RHANDLE_CHECK then ipc_service_rhandle_check
  else if asserted signals IPC_SERVICE_TEST_CONNECTION_REFUSED then ipc_service_connection_refused
  else tfm_abort.
End ipc_service_partition.

(** ** tfm_ipc_client_test.c *)

Section ipc_client_partition.
  Context {FC : FfmConsts} {MF : Manifest} {W : Type} {FW : Framework W}.
  Variables (A : ipc_layout) (PSA_FRAMEWORK_HAS_MM_IOVEC : bool).
  (** The client ID of the partition. *)
  Variable id : Z.

Abbreviation SV := (SP (W * ipc_data)).

Definition IPC_SP_TEST_SUCCESS : Z := 1.
Definition IPC_SP_TEST_FAILED : Z := -1.

(** The partitions that this partition calls. *)
Definition service_code (p : nat) : SV unit :=
  if decide (p = ipc_service) then ipc_service_test_main A PSA_FRAMEWORK_HAS_MM_IOVEC else s_undefined.

Definition ipc_isolation_2_psa_access_app_memory : SV Z :=
  (** [char client_data = 'A'] *)
  store_char A (addr_client_data A) 65;;
  let invecs := [le_bytes 4 (addr_client_data A)] in
  handle ← psa_connect service_code id (sv_sid IPC_SERVICE_TEST_PSA_ACCESS_APP_MEM)
    (sv_version IPC_SERVICE_TEST_PSA_ACCESS_APP_MEM);
  if handle <=? 0 then mret IPC_SP_TEST_FAILED
  else
    '(status, _, _) ← psa_call service_code id handle PSA_IPC_CALL invecs [];
    client_data ← load_char A (addr_client_data A);
    let result := if (client_data =? 66) && (0 <=? status) then IPC_SP_TEST_SUCCESS else IPC_SP_TEST_FAILED in
    psa_close service_code id handle;;
    mret result.

Definition ipc_client_handle_ser_req (msg : psa_msg_t) (fn : SV Z) : SV unit :=
  if (m_type msg =? PSA_IPC_CONNECT) || (m_type msg =? PSA_IPC_DISCONNECT) then
    on_spm (psa_reply ipc_client (m_handle msg) PSA_SUCCESS)
  else if m_type msg =? PSA_IPC_CALL then
    ret ← fn;
    out_size ← size_at (out_size msg) 0;
    (if negb (out_size =? 0) then on_spm (psa_write ipc_client (m_handle msg) 0 (le_bytes 4 (u32 ret))) else mret tt);;
    on_spm (psa_reply ipc_client (m_handle msg) PSA_SUCCESS)
  else tfm_abort.

(** One turn of the loop. *)
Definition ipc_client_test_main : SV unit :=
  signals ← on_spm (psa_wait ipc_client PSA_WAIT_ANY PSA_BLOCK);
  '(_, msg) ← on_spm (psa_get ipc_client signals);
  if asserted signals IPC_CLIENT_TEST_PSA_ACCESS_APP_MEM then
    ipc_client_handle_ser_req msg ipc_isolation_2_psa_access_app_memory
  else tfm_abort.

(** The partitions that the tests call. *)
Definition ipc_code (p : nat) : SV unit :=
  if decide (p = ipc_client) then ipc_client_test_main else service_code p.
End ipc_client_partition.
