(* ===== verification/IpcSuites.v ===== *)
(** * The IPC suites of the SPM

    suites/spm/common/suites (client_api_tests.c, mmiovec_test.c), the tests
    that the suites share, and the non-secure and the secure suite of
    suites/spm/ipc. *)

From S2P Require Import Prelude LogRaw TestFramework TestProg Ffm IpcTests.
Local Open Scope Z_scope.

Section common_suites.
  Context {FC : FfmConsts} {MF : Manifest} {W D : Type} {FW : Framework W}.
  (** What the partitions run, the client ID of the tests, the file names. *)
  Variables (code : nat -> SP (W * D) unit) (c : Z) (client_api_tests_c mmiovec_test_c : string).

Abbreviation T := (P (W * D)).

Definition psa_framework_version_test : T unit :=
  version ← request_of (on_spm psa_framework_version);
  fail_if client_api_tests_c 21 (negb (version =? PSA_FRAMEWORK_VERSION))
    ("The version of the PSA Framework API is not valid!" ++ cr ++ lf);;
  ret_val TEST_PASSED.

Definition psa_version_test (sid : Z) : T unit :=
  version ← request_of (on_spm (psa_version sid));
  fail_if client_api_tests_c 34 (version =? PSA_VERSION_NONE)
    ("RoT Service is not implemented or caller is not authorized to access it!" ++ cr ++ lf);;
  ret_val TEST_PASSED.

Definition request_rot_service_test (handle : Z) : T unit :=
  let in_data := le_bytes 4 CLIENT_API_TEST_INPUT_DATA in
  '(status, out, _) ← request_of (psa_call code c handle CLIENT_API_TEST_TYPE_REQUEST_SRV
     [in_data; in_data] [le_bytes 4 0; le_bytes 4 0]);
  fail_if client_api_tests_c 63 (negb (status =? PSA_SUCCESS)) ("psa_call failed!" ++ cr ++ lf);;
  let out_data i := le_value (default [] (out !! i)) in
  fail_if client_api_tests_c 69
    (negb (out_data 0%nat =? CLIENT_API_TEST_OUTPUT_DATA) || negb (out_data 1%nat =? CLIENT_API_TEST_OUTPUT_DATA))
    ("Invalid output data!" ++ cr ++ lf);;
  ret_val TEST_PASSED.

Definition invec_map_unmap_test (handle : Z) : T unit :=
  '(status, _, _) ← request_of (psa_call code c handle INVEC_MAP_AND_UNMAP (le_bytes 4 <$> MMIOVECT_TEST_INVEC) []);
  fail_if mmiovec_test_c 27 (status <? 0) ("Input vector mapping test failed." ++ cr ++ lf);;
  ret_val TEST_PASSED.

Definition outvec_data : list (list Z) := replicate 4 (le_bytes 4 0).

Definition outvec_map_unmap_test (handle : Z) : T unit :=
  '(status, out, len) ← request_of (psa_call code c handle OUTVEC_MAP_AND_UNMAP [] outvec_data);
  fail_if mmiovec_test_c 49 (status <? 0) ("Output vector mapping test failed." ++ cr ++ lf);;
  for_range 0 MMIOVEC_TEST_VEC_LEN (fun i _ =>
    fail_if mmiovec_test_c 55 (negb (default 0 (len !! Z.to_nat i) =? 1))
      ("Output vector mapping test failed." ++ cr ++ lf);;
    fail_if mmiovec_test_c 60 (negb (default 0 (default [] (out !! Z.to_nat i) !! 0%nat) =? MMIOVEC_OUTPUT_DATA))
      ("Output vector mapping test failed." ++ cr ++ lf)) tt;;
  ret_val TEST_PASSED.

Definition outvec_map_only_test (handle : Z) : T unit :=
  '(status, _, len) ← request_of (psa_call code c handle OUTVEC_MAP_NOT_UNMAP [] outvec_data);
  fail_if mmiovec_test_c 82 (status <? 0) ("Output vector mapping test failed." ++ cr ++ lf);;
  for_range 0 MMIOVEC_TEST_VEC_LEN (fun i _ =>
    fail_if mmiovec_test_c 88 (negb (default 0 (len !! Z.to_nat i) =? 0))
      ("Output vector mapping test failed." ++ cr ++ lf)) tt;;
  ret_val TEST_PASSED.
End common_suites.

(** [if (c) { TEST_LOG(msg); ret->val = TEST_FAILED; return; }] *)
Definition log_fail_if {W} (c : bool) (msg : string) : P W unit :=
  if c then (test_log msg [];; ret_val TEST_FAILED;; return_) else mret tt.


Section ipc_suites.
  Context {FC : FfmConsts} {MF : Manifest} {W : Type} {FW : Framework W}.
  Variables (A : ipc_layout) (PSA_FRAMEWORK_HAS_MM_IOVEC : bool) (id : Z).
  Variable c : Z.
  Variables (client_api_tests_c mmiovec_test_c ns_file s_file : string).

Abbreviation T := (P (W * ipc_data)).
Abbreviation code := (ipc_code A PSA_FRAMEWORK_HAS_MM_IOVEC id).
Abbreviation connect s := (request_of (psa_connect code c (sv_sid s) (sv_version s))).
Abbreviation call h t iv ov := (request_of (psa_call code c h t iv ov)).
Abbreviation close h := (request_of (psa_close code c h)).

(** ** ipc_ns_interface_testsuite.c *)

Definition tfm_ipc_test_1001 : T unit := psa_framework_version_test client_api_tests_c.

Definition tfm_ipc_test_1002 : T unit := psa_version_test client_api_tests_c (sv_sid IPC_SERVICE_TEST_BASIC).

Definition tfm_ipc_test_1003 : T unit :=
  handle ← connect IPC_SERVICE_TEST_BASIC;
  (if 0 <? handle then test_log ("Connect success!" ++ cr ++ lf) []
   else TEST_FAIL ns_file 115 ("The RoT Service has refused the connection!" ++ cr ++ lf);; return_);;
  close handle;;
  ret_val TEST_PASSED.

(** The last line is executed also when the request has failed. *)
Definition ipc_test_1004 (file : string) (ln : Z) : T unit :=
  handle ← connect IPC_SERVICE_TEST_BASIC;
  fail_if file ln (negb (PSA_HANDLE_IS_VALID handle)) ("Connection to service failed!" ++ cr ++ lf);;
  call_body (request_rot_service_test code c client_api_tests_c handle);;
  close handle.

Definition tfm_ipc_test_1004 : T unit := ipc_test_1004 ns_file 132.

Definition tfm_ipc_test_1010 : T unit :=
  handle ← connect IPC_SERVICE_TEST_CLIENT_PROGRAMMER_ERROR;
  (if 0 <? handle then test_log ("Connect success!" ++ cr ++ lf) []
   else log_fail_if true ("The RoT Service has refused the connection!" ++ cr ++ lf));;
  '(status, _, _) ← call handle PSA_IPC_CALL [] [];
  (if status =? PSA_ERROR_PROGRAMMER_ERROR then test_log ("The first time call success!" ++ cr ++ lf) []
   else test_log ("The first time call failed!" ++ cr ++ lf) [];; ret_val TEST_FAILED);;
  '(status, _, _) ← call handle PSA_IPC_CALL [] [];
  (if status =? PSA_ERROR_PROGRAMMER_ERROR then test_log ("The second time call success!" ++ cr ++ lf) []
   else test_log ("The second time call failed!" ++ cr ++ lf) [];; ret_val TEST_FAILED);;
  close handle.

Definition tfm_ipc_test_1012 : T unit :=
  handle ← connect IPC_SERVICE_TEST_STATELESS_ROT;
  fail_if ns_file 189 (PSA_HANDLE_IS_VALID handle) ("Connecting to stateless service test should fail." ++ cr ++ lf);;
  request_rot_service_test code c client_api_tests_c (stateless_handle (sv_sid IPC_SERVICE_TEST_STATELESS_ROT)).

Definition tfm_ipc_test_1016 : T unit :=
  handle ← connect IPC_SERVICE_TEST_CLIENT_ID_TRANSLATE;
  fail_if ns_file 204 (handle <? 0) ("The RoT Service refused the connection!" ++ cr ++ lf);;
  '(status, _, _) ← call handle CLIENT_ID_TRANSLATE_TEST_TYPE_REQUEST_SRVC [] [];
  (if 0 <=? status then ret_val TEST_PASSED
   else TEST_FAIL ns_file 213 ("Call failed!" ++ cr ++ lf);; ret_val TEST_FAILED);;
  close handle.

(** A call on [handle] with the output vector [&srvc_cnt] of [len] bytes: the
    variable and the length of the vector after it.  [n], [ln]: the message on
    failure and its line. *)
Definition rhandle_call (handle : Z) (n : string) (ln : Z) (v : list Z * Z) : T (list Z * Z) :=
  let '(srvc_cnt, len) := v in
  '(status, out, lens) ← call handle IPC_SERVICE_RHANDLE_CHECK_TYPE_REQUEST_SRVC [] [take (Z.to_nat len) srvc_cnt];
  fail_if ns_file ln (status <? 0) ("Call " ++ n ++ " failed!" ++ cr ++ lf);;
  mret (splice 0 (default [] (out !! 0%nat)) srvc_cnt, default 0 (lens !! 0%nat)).

Definition tfm_ipc_test_1017 : T unit :=
  ret_val TEST_FAILED;;
  handle ← connect IPC_SERVICE_TEST_RHANDLE_CHECK;
  fail_if ns_file 241 (handle <? 0) ("The RoT Service refused the connection!" ++ cr ++ lf);;
  v ← rhandle_call handle "1.0" 252 ([0], 1);
  v ← rhandle_call handle "1.1" 259 v;
  let failed := if negb (le_value v.1 =? 0x02) then 1 else 0 in
  handle2 ← connect IPC_SERVICE_TEST_RHANDLE_CHECK;
  fail_if ns_file 273 (handle2 <? 0) ("The RoT Service refused the connection!" ++ cr ++ lf);;
  v ← rhandle_call handle2 "2.0" 285 ([0], v.2);
  v ← rhandle_call handle2 "2.1" 292 v;
  let failed := Z.lor failed (if negb (le_value v.1 =? 0xF2) then 1 else 0) in
  (if 0 <? failed then TEST_FAIL ns_file 303 ("Test failed!" ++ cr ++ lf) else ret_val TEST_PASSED);;
  close handle;;
  close handle2.

Definition tfm_ipc_test_1018 : T unit :=
  handle ← connect IPC_SERVICE_TEST_CONNECTION_REFUSED;
  (if negb (handle =? PSA_ERROR_CONNECTION_REFUSED) then
     TEST_FAIL ns_file 319 ("The RoT Service was expected to refuse the connection!" ++ cr ++ lf);;
     ret_val TEST_FAILED;; return_
   else mret tt);;
  ret_val TEST_PASSED.

Definition mmiovec_handle : Z := stateless_handle (sv_sid IPC_SERVICE_TEST_MMIOVEC).
Definition tfm_ipc_test_1013 : T unit := invec_map_unmap_test code c mmiovec_test_c mmiovec_handle.
Definition tfm_ipc_test_1014 : T unit := outvec_map_unmap_test code c mmiovec_test_c mmiovec_handle.
Definition tfm_ipc_test_1015 : T unit := outvec_map_only_test code c mmiovec_test_c mmiovec_handle.

Definition ipc_veneers_tests : list (test_t (W * ipc_data)) :=
  [TEST tfm_ipc_test_1001 "TFM_NS_IPC_TEST_1001" "Get PSA framework version";
   TEST tfm_ipc_test_1002 "TFM_NS_IPC_TEST_1002" "Get version of an RoT Service";
   TEST tfm_ipc_test_1003 "TFM_NS_IPC_TEST_1003" "Connect to an RoT Service";
   TEST tfm_ipc_test_1004 "TFM_NS_IPC_TEST_1004" "Request connection-based RoT Service";
   TEST tfm_ipc_test_1010 "TFM_NS_IPC_TEST_1010" "Test psa_call with the status of PSA_ERROR_PROGRAMMER_ERROR";
   TEST tfm_ipc_test_1012 "TFM_NS_IPC_TEST_1012" "Request stateless service"] ++
  (if PSA_FRAMEWORK_HAS_MM_IOVEC then
   [TEST tfm_ipc_test_1013 "TFM_NS_IPC_TEST_1013" "Mapping input vectors and unmapping them";
    TEST tfm_ipc_test_1014 "TFM_NS_IPC_TEST_1014" "Mapping output vectors and unmapping them";
    TEST tfm_ipc_test_1015 "TFM_NS_IPC_TEST_1015" "Mapping output vectors and not unmapping them"] else []) ++
  [TEST tfm_ipc_test_1016 "TFM_NS_IPC_TEST_1016" "Testing Client-Id Translation";
   TEST tfm_ipc_test_1017 "TFM_NS_IPC_TEST_1017" "Testing Reverse-Handle rhandle";
   TEST tfm_ipc_test_1018 "TFM_NS_IPC_TEST_1018" "Testing Refused connection"].

Definition register_testsuite_ns_ipc_interface : TESTSUITE_REG (W * ipc_data) :=
  register "IPC non-secure interface test (TFM_NS_IPC_TEST_1XXX)" ipc_veneers_tests.

(** ** ipc_s_interface_testsuite.c *)

Definition s_tfm_ipc_test_1004 : T unit := ipc_test_1004 s_file 107.

(** [test_result] is not initialised: [uninit] holds its bytes. *)
Definition s_tfm_ipc_test_1006 (uninit : list Z) : T unit :=
  handle ← connect IPC_CLIENT_TEST_PSA_ACCESS_APP_MEM;
  (if 0 <? handle then test_log ("Connect success!" ++ cr ++ lf) []
   else log_fail_if true ("The RoT Service has refused the connection!" ++ cr ++ lf));;
  '(status, out, _) ← call handle PSA_IPC_CALL [] [uninit];
  (if 0 <=? status then
     test_log ("Call success!" ++ cr ++ lf) [];;
     let test_result := i32 (le_value (default [] (out !! 0%nat))) in
     if 0 <? test_result then ret_val TEST_PASSED else ret_val TEST_FAILED
   else test_log ("Call failed!" ++ cr ++ lf) [];; ret_val TEST_FAILED);;
  close handle.

Definition s_tfm_ipc_test_1012 : T unit :=
  request_rot_service_test code c client_api_tests_c (stateless_handle (sv_sid IPC_SERVICE_TEST_STATELESS_ROT)).

Definition s_ipc_veneers_tests (uninit : list Z) : list (test_t (W * ipc_data)) :=
  [TEST tfm_ipc_test_1001 "TFM_S_IPC_TEST_1001" "Get PSA framework version";
   TEST tfm_ipc_test_1002 "TFM_S_IPC_TEST_1002" "Get version of an RoT Service";
   TEST s_tfm_ipc_test_1004 "TFM_S_IPC_TEST_1004" "Request connection-based RoT Service";
   TEST (s_tfm_ipc_test_1006 uninit) "TFM_S_IPC_TEST_1006" "Call PSA RoT access APP RoT memory test service";
   TEST s_tfm_ipc_test_1012 "TFM_S_IPC_TEST_1012" "Request stateless service"].

Definition register_testsuite_s_ipc_interface (uninit : list Z) : TESTSUITE_REG (W * ipc_data) :=
  register "IPC secure interface test (TFM_S_IPC_TEST_1XXX)" (s_ipc_veneers_tests uninit).
End ipc_suites.
