(* ===== verification/SpmRules.v ===== *)
(** * Rules for the SPM tests

    The automation that runs the code of a partition on a message, the common
    services of suites/spm/common, and the tests that the suites share: a test
    passes over every partition that serves its requests. *)

From S2P Require Import Prelude LogRaw TestFramework TestProg Ffm IpcTests IpcSuites.
Local Open Scope Z_scope.

(** No connection is open and no partition works on a message. *)
Definition idle : ffm := mkFfm ∅ ∅.

Ltac ffm_consts :=
  rewrite ?ffm_success, ?ffm_programmer_error, ?ffm_refused, ?ffm_not_supported, ?ffm_invalid_argument,
    ?ffm_generic_error, ?ffm_connect, ?ffm_disconnect, ?ffm_call, ?ffm_none, ?ffm_iovec, ?ffm_valid.

Tactic Notation "ffm_consts" "in" hyp(H) :=
  rewrite ?ffm_success, ?ffm_programmer_error, ?ffm_refused, ?ffm_not_supported, ?ffm_invalid_argument,
    ?ffm_generic_error, ?ffm_connect, ?ffm_disconnect, ?ffm_call, ?ffm_none, ?ffm_iovec, ?ffm_valid in H.

(** One statement of the code of a partition. *)
Ltac sv_step :=
  first
    [ progress cbv beta iota zeta
    | progress cbn [m_type m_handle m_client_id m_rhandle in_size out_size new_work got with_in with_out with_rhandle
        replied wk_sid wk_msg wk_got wk_in wk_out wk_len wk_rhandle wk_reply]
    | apply wps_bind
    | apply wps_ret
    | apply wps_get_data
    | apply wps_put_data
    | eapply wps_get; [reflexivity | reflexivity |]
    | eapply wps_reply; [reflexivity | reflexivity | reflexivity |]
    | eapply wps_set_rhandle; [reflexivity | reflexivity | reflexivity |]
    | eapply wps_read; [reflexivity | reflexivity | reflexivity | done | done | reflexivity |]
    | eapply wps_write; [reflexivity | reflexivity | reflexivity | done | reflexivity | reflexivity | done | done |]
    | eapply wps_map_invec; [reflexivity | reflexivity | reflexivity | done | reflexivity |]
    | eapply wps_unmap_invec; [reflexivity | reflexivity | reflexivity | done | reflexivity |]
    | eapply wps_map_outvec; [reflexivity | reflexivity | reflexivity | done | reflexivity |]
    | eapply wps_outvec_store; [reflexivity | reflexivity | reflexivity | done | reflexivity | reflexivity | done |]
    | eapply wps_unmap_outvec; [reflexivity | reflexivity | reflexivity | done | reflexivity | done |] ].

(** A condition on values. *)
Ltac sv_if :=
  match goal with
  | |- wps _ (if ?b then _ else _) _ _ _ =>
      let v := eval vm_compute in b in
      lazymatch v with true => change b with true | false => change b with false end; cbv iota
  end.

(** A lookup with a result, a fixpoint on a list. *)
Ltac sv_unfold :=
  match goal with
  | |- wps _ (size_at ?l ?i) _ _ _ =>
      let v := eval vm_compute in (l !! Z.to_nat i) in
      unfold size_at; change (l !! Z.to_nat i) with v; cbv iota
  | |- wps _ (rot_srv_loop _ _ (_ :: _)) _ _ _ => cbn [rot_srv_loop]
  | |- wps _ (rot_srv_loop _ _ []) _ _ _ => cbn [rot_srv_loop]
  | |- wps _ (rot_srv_vector _ _ _) _ _ _ => unfold rot_srv_vector
  | |- wps _ (mmiovec_invec_loop _ _ _) _ _ _ => cbn [mmiovec_invec_loop]
  | |- wps _ (mmiovec_outvec_loop _ _ _) _ _ _ => cbn [mmiovec_outvec_loop]
  | |- wps _ (outvec_not_unmap_loop _ _ _) _ _ _ => cbn [outvec_not_unmap_loop]
  end.

Ltac sv_run := repeat first [sv_step | sv_if | sv_unfold].

(** The signal of a service is asserted for this service only. *)
Lemma asserted_iff {MF : Manifest} services {SGL : SignalLaws services} s s' : s ∈ services -> s' ∈ services ->
  asserted (signal (sv_sid s)) s' = bool_decide (s = s').
Proof.
  intros Hs Hs'. unfold asserted. case_bool_decide as H.
  - subst s'. rewrite Z.land_diag. apply negb_true_iff, Z.eqb_neq. by apply (signal_nonzero s).
  - by rewrite signal_apart.
Qed.

(** ** The common services *)

Section common.
  Context {FC : FfmConsts} {FCL : FfmConstsLaws} {MF : Manifest}.
  Context {provides : Z -> option (nat * service)} {msg_handle : Z -> Z}.
  Context {W D : Type} {FW : Framework W} {FL : FrameworkLaws provides msg_handle W}.
  Variable p : nat.

(** The vectors of [request_rot_service_test], before and after. *)
Definition rot_in : list (list Z) := [le_bytes 4 CLIENT_API_TEST_INPUT_DATA; le_bytes 4 CLIENT_API_TEST_INPUT_DATA].
Definition rot_out (z : Z) : list (list Z) := [le_bytes 4 z; le_bytes 4 z].

(** The work on a request once the service has done its part. *)
Definition served (sid t mh c rh : Z) (iv ov iv' ov' : list (list Z)) (len : list Z) : work :=
  mkWork sid (mkMsg t mh c rh (sizes iv) (sizes ov)) true iv' ov' len rh None.

Lemma rot_srv_ok sid t mh c rh f (d : D) Q :
  Q PSA_SUCCESS (set_work p (served sid t mh c rh rot_in (rot_out 0) [[]; []] (rot_out CLIENT_API_TEST_OUTPUT_DATA) [4; 4]) f) d ->
  wps ffm_of (client_api_test_rot_srv p (mkMsg t mh c rh (sizes rot_in) (sizes (rot_out 0)))) Q
    (set_work p (got (new_work sid t mh c rh rot_in (rot_out 0))) f) d.
Proof.
  intros HQ. unfold client_api_test_rot_srv. rewrite ffm_iovec. change (seqZ 0 4) with [0; 1; 2; 3]. sv_run. exact HQ.
Qed.

End common.

(** One statement of a test that is not a request. *)
Ltac tstep :=
  first
    [ progress cbv beta iota zeta
    | apply twp_bind
    | apply twp_ret
    | apply twp_request
    | apply twp_call_body
    | apply twp_fail_if; [ffm_consts; (reflexivity || lia)|]
    | apply twp_log
    | apply twp_ret_val ].

(** ** Connections *)

Lemma drop_set_conn h cn f : conns f !! h = None -> drop_conn h (set_conn h cn f) = f.
Proof. intros H. unfold drop_conn, set_conn. cbn. rewrite delete_insert_id by done. by destruct f. Qed.

Lemma set_conn_twice h cn cn' f : set_conn h cn (set_conn h cn' f) = set_conn h cn f.
Proof. unfold set_conn. cbn. by rewrite insert_insert_eq. Qed.

(** One open connection. *)
Definition with_conn (h : Z) (s : service) (rh : Z) (err : bool) : ffm := set_conn h (mkConn (sv_sid s) rh err) idle.

Lemma drop_with_conn h s rh err : drop_conn h (with_conn h s rh err) = idle.
Proof. by apply drop_set_conn. Qed.

Lemma conn_with_conn h s rh err : conns (with_conn h s rh err) !! h = Some (mkConn (sv_sid s) rh err).
Proof. apply lookup_insert_eq. Qed.

(** ** The shared tests *)

Section shared_tests.
  Context {FC : FfmConsts} {FCL : FfmConstsLaws} {MF : Manifest}.
  Context {provides : Z -> option (nat * service)} {msg_handle : Z -> Z}.
  Context {W D : Type} {FW : Framework W} {FL : FrameworkLaws provides msg_handle W}.
  Variables (code : nat -> SP (W * D) unit) (c : Z) (client_api_tests_c mmiovec_test_c : string).
  (** The service [s] of partition [p]. *)
  Variables (p : nat) (s : service).
  Hypothesis Hp : provides (sv_sid s) = Some (p, s).

(** The partition serves a call of type [t] with the input vectors [iv] and the
    output vectors [ov]: it leaves [ov'] and the lengths [len], and replies
    with SUCCESS. *)
Definition serves (t : Z) (iv ov iv' ov' : list (list Z)) (len : list Z) : Prop :=
  forall mh rh f d (Q : unit -> ffm -> D -> Prop),
    Q tt (set_work p (replied PSA_SUCCESS (served (sv_sid s) t mh c rh iv ov iv' ov' len)) f) d ->
    wps ffm_of (code p) Q (set_work p (new_work (sv_sid s) t mh c rh iv ov) f) d.

Definition serves_rot : Prop := serves CLIENT_API_TEST_TYPE_REQUEST_SRV rot_in (rot_out 0) [[]; []]
  (rot_out CLIENT_API_TEST_OUTPUT_DATA) [4; 4].
Definition serves_invec : Prop := serves INVEC_MAP_AND_UNMAP (le_bytes 4 <$> MMIOVECT_TEST_INVEC) []
  (le_bytes 4 <$> MMIOVECT_TEST_INVEC) [] [].
Definition serves_outvec : Prop := serves OUTVEC_MAP_AND_UNMAP [] outvec_data []
  (replicate 4 [MMIOVEC_OUTPUT_DATA; 0; 0; 0]) [1; 1; 1; 1].
Definition serves_outvec_only : Prop := serves OUTVEC_MAP_NOT_UNMAP [] outvec_data [] outvec_data [0; 0; 0; 0].

Lemma call_connection h t iv ov iv' ov' len d Q : 0 <= t -> (length iv + length ov <= 4)%nat ->
  serves t iv ov iv' ov' len -> Q (0, ov', len) (with_conn h s 0 false) d ->
  wps ffm_of (psa_call code c h t iv ov) Q (with_conn h s 0 false) d.
Proof.
  intros Ht Hl Hs HQ. eapply law_call; [apply conn_with_conn | done | exact Hp | done | done | done |].
  apply Hs. eexists _, _. split; [apply active_set_work|]. split; [done|]. rewrite end_set_work by done. ffm_consts.
  unfold with_conn in *. by rewrite set_conn_twice.
Qed.

Lemma call_stateless t iv ov iv' ov' len d Q : connection_based s = false -> 0 <= t ->
  (length iv + length ov <= 4)%nat -> serves t iv ov iv' ov' len -> Q (0, ov', len) idle d ->
  wps ffm_of (psa_call code c (stateless_handle (sv_sid s)) t iv ov) Q idle d.
Proof.
  intros Hc Ht Hl Hs HQ. eapply law_call_stateless; [exact Hp | done | done | done | done | done |].
  apply Hs. eexists _, _. split; [apply active_set_work|]. split; [done|]. rewrite end_set_work by done. by ffm_consts.
Qed.

Abbreviation passing m := (forall d : D, test_passes ffm_of m idle d idle d).

Lemma framework_version_passes : passing (psa_framework_version_test (FW := FW) client_api_tests_c).
Proof.
  intros d. unfold psa_framework_version_test, test_passes. repeat tstep.
  eapply wps_spm; [apply law_framework_version|]. apply twp_bind, twp_fail_if; [by rewrite Z.eqb_refl|]. by repeat tstep.
Qed.

Lemma version_passes : sv_version s <> 0 -> passing (psa_version_test (FW := FW) client_api_tests_c (sv_sid s)).
Proof.
  intros Hv d. unfold psa_version_test, test_passes. repeat tstep.
  eapply wps_spm; [by apply (law_version _ p s)|].
  apply twp_bind, twp_fail_if; [ffm_consts; by apply Z.eqb_neq|]. by repeat tstep.
Qed.

Lemma rot_connection_passes h d Q : serves_rot -> Q tt (with_conn h s 0 false) d TEST_PASSED ->
  twp ffm_of (request_rot_service_test code c client_api_tests_c h) Q (with_conn h s 0 false) d TEST_PASSED.
Proof.
  intros Hs HQ. unfold request_rot_service_test. repeat tstep.
  eapply call_connection; [done | cbn; lia | exact Hs |]. by repeat tstep.
Qed.

Lemma rot_stateless_passes : connection_based s = false -> serves_rot ->
  passing (request_rot_service_test code c client_api_tests_c (stateless_handle (sv_sid s))).
Proof.
  intros Hc Hs d. unfold request_rot_service_test, test_passes. repeat tstep.
  eapply call_stateless; [done | done | cbn; lia | exact Hs |]. by repeat tstep.
Qed.

Lemma invec_passes : connection_based s = false -> serves_invec ->
  passing (invec_map_unmap_test code c mmiovec_test_c (stateless_handle (sv_sid s))).
Proof.
  intros Hc Hs d. unfold invec_map_unmap_test, test_passes. repeat tstep.
  eapply call_stateless; [done | done | cbn; lia | exact Hs |]. by repeat tstep.
Qed.

Lemma outvec_passes : connection_based s = false -> serves_outvec ->
  passing (outvec_map_unmap_test code c mmiovec_test_c (stateless_handle (sv_sid s))).
Proof.
  intros Hc Hs d. unfold outvec_map_unmap_test, test_passes. repeat tstep.
  eapply call_stateless; [done | done | cbn; lia | exact Hs |]. repeat tstep.
  unfold for_range. change (seqZ 0 (MMIOVEC_TEST_VEC_LEN - 0)) with [0; 1; 2; 3]. cbn [for_each]. by repeat tstep.
Qed.

Lemma outvec_only_passes : connection_based s = false -> serves_outvec_only ->
  passing (outvec_map_only_test code c mmiovec_test_c (stateless_handle (sv_sid s))).
Proof.
  intros Hc Hs d. unfold outvec_map_only_test, test_passes. repeat tstep.
  eapply call_stateless; [done | done | cbn; lia | exact Hs |]. repeat tstep.
  unfold for_range. change (seqZ 0 (MMIOVEC_TEST_VEC_LEN - 0)) with [0; 1; 2; 3]. cbn [for_each]. by repeat tstep.
Qed.

(** ** Suites *)

Definition in_state f d (w : W * D) : Prop := ffm_of w.1 = f /\ w.2 = d.

Lemma passes_step m nm ds ts f d f' d' J : test_passes ffm_of m f d f' d' ->
  all_pass ts (in_state f' d') J -> all_pass (TEST m nm ds :: ts) (in_state f d) J.
Proof.
  intros Hm. apply all_pass_preset with m; [done | apply TEST_valid |]. intros ret w Hr Hw. by eapply test_passes_run.
Qed.
End shared_tests.
