(* ===== verification/FfmRef.v ===== *)
(** * A framework that meets the laws

    The SPM whose state is the abstract state itself: it delivers a request to
    the partition of the service, runs its code, and gives the client the
    reply. *)

From S2P Require Import Prelude LogRaw TestFramework TestProg Ffm.
Local Open Scope Z_scope.

#[export] Instance ref_consts : FfmConsts := {|
  PSA_SUCCESS := 0; PSA_ERROR_PROGRAMMER_ERROR := -129; PSA_ERROR_CONNECTION_REFUSED := -130;
  PSA_ERROR_NOT_SUPPORTED := -134; PSA_ERROR_INVALID_ARGUMENT := -135; PSA_ERROR_GENERIC_ERROR := -132;
  PSA_IPC_CONNECT := -1; PSA_IPC_DISCONNECT := -2; PSA_IPC_CALL := 0; PSA_FRAMEWORK_VERSION := 0x0101;
  PSA_VERSION_NONE := 0; PSA_MAX_IOVEC := 4; PSA_WAIT_ANY := 0xFFFFFFFF; PSA_BLOCK := 0x80000000;
  PSA_HANDLE_IS_VALID h := 0 <? h |}.

#[export] Instance ref_consts_laws : FfmConstsLaws.
Proof. by split. Qed.

(** Signals in the order of the service identifiers. *)
#[export] Instance ref_manifest : Manifest := {|
  signal sid := 2 ^ (sid - 0xF060);
  stateless_handle sid := 0x40000000 + sid |}.

(** The signals of a list of services that passes this check are those of
    [SignalLaws]. *)
Definition signals_apart (l : list service) : bool :=
  forallb (fun s => negb (signal (sv_sid s) =? 0)) l &&
  forallb (fun s => forallb (fun s' => bool_decide (s = s') || (Z.land (signal (sv_sid s)) (signal (sv_sid s')) =? 0)) l) l.

Lemma signals_apart_laws l : signals_apart l = true -> SignalLaws l.
Proof.
  unfold signals_apart. intros [H1 H2]%andb_true_iff. rewrite forallb_forall in H1, H2. split.
  - intros s Hs%list_elem_of_In. apply H1 in Hs. by apply Z.eqb_neq, negb_true_iff.
  - intros s s' Hs%list_elem_of_In Hs'%list_elem_of_In Hne. apply H2 in Hs. rewrite forallb_forall in Hs.
    apply Hs in Hs'. rewrite bool_decide_false in Hs' by done. by apply Z.eqb_eq.
Qed.

(** The first entry for a service identifier. *)
Definition provides_of (l : list (nat * service)) (sid : Z) : option (nat * service) :=
  List.find (fun ps => sv_sid ps.2 =? sid) l.

(** The handle for a new connection. *)
Definition new_handle (f : ffm) : Z := map_fold (fun h _ m => Z.max (h + 1) m) 1 (conns f).

Lemma new_handle_fresh f : 0 < new_handle f /\ conns f !! new_handle f = None.
Proof.
  assert (0 < new_handle f /\ forall h, is_Some (conns f !! h) -> h < new_handle f) as [H1 H2].
  { unfold new_handle. apply (map_fold_weak_ind (fun m g => 0 < m /\ forall h, is_Some (g !! h) -> h < m)).
    - split; [done|]. intros h [? H]. by rewrite lookup_empty in H.
    - intros h cn g m Hg [Hm IH]. split; [lia|]. intros h' Hh'.
      destruct (decide (h = h')) as [->|Hne]; [lia|]. rewrite lookup_insert_ne in Hh' by done. apply IH in Hh'. lia. }
  split; [done|]. destruct (conns f !! new_handle f) eqn:E; [|done]. specialize (H2 (new_handle f)). rewrite E in H2.
  pose proof (H2 (ex_intro _ _ eq_refl)). lia.
Qed.

Section reference.
  Variable provides : Z -> option (nat * service).

(** What a partition does with a message: its reply, and the work done. *)
Definition deliver {D} (code : nat -> SP (ffm * D) unit) (p : nat) (q : work) : SP (ffm * D) (work * Z) := fun s =>
  match code p (set_work p q s.1, s.2) with
  | Done (_, (f2, d2)) =>
      match active f2 !! p with
      | Some q =>
          match wk_reply q with
          | Some st => Done ((q, st), (end_work p f2, d2))
          | None => Hangs
          end
      | None => Undefined
      end
  | Hangs => Hangs
  | Panics => Panics
  | Undefined => Undefined
  end.

Lemma wps_deliver {D} (code : nat -> SP (ffm * D) unit) p q (Q : work * Z -> ffm -> D -> Prop) f d :
  wps (fun f => f) (code p) (fun _ f2 d2 => exists q' st, active f2 !! p = Some q' /\ wk_reply q' = Some st /\
    Q (q', st) (end_work p f2) d2) (set_work p q f) d ->
  wps (fun f => f) (deliver code p q) Q f d.
Proof.
  intros H w ->. destruct (H (set_work p q f) eq_refl) as (? & f2 & d2 & Hr & q' & st & Hq & Hst & HQ).
  exists (q', st), (end_work p f2), d2. unfold deliver. cbn. by rewrite Hr, Hq, Hst.
Qed.

Definition get_ffm {D} : SP (ffm * D) ffm := fun s => Done (s.1, s).
Definition change {D} (g : ffm -> ffm) : SP (ffm * D) unit := fun s => Done (tt, (g s.1, s.2)).

Definition ref_connect {D} (code : nat -> SP (ffm * D) unit) (c sid ver : Z) : SP (ffm * D) Z :=
  match provides sid with
  | Some (p, sv) =>
      if connection_based sv then
        f ← get_ffm;
        let h := new_handle f in
        '(q, st) ← deliver code p (new_work sid PSA_IPC_CONNECT h c 0 [] []);
        if st =? PSA_SUCCESS then change (set_conn h (mkConn sid (wk_rhandle q) false));; mret h
        else mret st
      else if c <? 0 then mret PSA_ERROR_PROGRAMMER_ERROR else psa_panic
  | None => mret PSA_ERROR_CONNECTION_REFUSED
  end.

Definition ref_call {D} (code : nat -> SP (ffm * D) unit) (c h t : Z) (iv ov : list (list Z)) :
    SP (ffm * D) (Z * list (list Z) * list Z) :=
  f ← get_ffm;
  match conns f !! h with
  | Some cn =>
      if cn_error cn then
        if c <? 0 then mret (PSA_ERROR_PROGRAMMER_ERROR, ov, replicate (length ov) 0) else psa_panic
      else
        match provides (cn_sid cn) with
        | Some (p, _) =>
            '(q, st) ← deliver code p (new_work (cn_sid cn) t h c (cn_rhandle cn) iv ov);
            change (set_conn h (mkConn (cn_sid cn) (wk_rhandle q) (st =? PSA_ERROR_PROGRAMMER_ERROR)));;
            mret (st, wk_out q, wk_len q)
        | None => psa_panic
        end
  | None =>
      match provides (h - 0x40000000) with
      | Some (p, _) =>
          '(q, st) ← deliver code p (new_work (h - 0x40000000) t h c 0 iv ov);
          mret (st, wk_out q, wk_len q)
      | None => psa_panic
      end
  end.

Definition ref_close {D} (code : nat -> SP (ffm * D) unit) (c h : Z) : SP (ffm * D) unit :=
  f ← get_ffm;
  match conns f !! h with
  | Some cn =>
      match provides (cn_sid cn) with
      | Some (p, _) =>
          deliver code p (new_work (cn_sid cn) PSA_IPC_DISCONNECT h c (cn_rhandle cn) [] []);;
          change (drop_conn h)
      | None => psa_panic
      end
  | None => psa_panic
  end.

(** An operation on the message of partition [p]. *)
Definition on_work {A} (p : nat) (g : work -> option (A * work)) : SP ffm A := fun f =>
  match active f !! p with
  | Some q => match g q with Some (a, q') => Done (a, set_work p q' f) | None => Panics end
  | None => Panics
  end.

#[export] Instance ref_framework : Framework ffm := {|
  psa_framework_version := mret PSA_FRAMEWORK_VERSION;
  psa_version sid := mret (match provides sid with Some (_, sv) => sv_version sv | None => PSA_VERSION_NONE end);
  psa_connect _ := ref_connect;
  psa_call _ := ref_call;
  psa_close _ := ref_close;
  psa_wait p _ _ f := match active f !! p with Some q => Done (signal (wk_sid q), f) | None => Hangs end;
  psa_get p _ := on_work p (fun q => Some ((PSA_SUCCESS, wk_msg q), got q));
  psa_set_rhandle p _ rh := on_work p (fun q => Some (tt, with_rhandle rh q));
  psa_read p _ i n := on_work p (fun q =>
    bs ← wk_in q !! Z.to_nat i; Some (take (Z.to_nat n) bs, with_in (Z.to_nat i) (drop (Z.to_nat n) bs) q));
  psa_write p _ i bs := on_work p (fun q =>
    out ← wk_out q !! Z.to_nat i; len ← wk_len q !! Z.to_nat i;
    if len + sizeof bs <=? sizeof out then
      Some (tt, with_out (Z.to_nat i) (splice (Z.to_nat len) bs out) (len + sizeof bs) q)
    else None);
  psa_reply p _ st := on_work p (fun q => Some (tt, replied st q));
  psa_map_invec p _ i := on_work p (fun q => bs ← wk_in q !! Z.to_nat i; Some (bs, q));
  psa_unmap_invec p _ i := on_work p (fun q => _ ← wk_in q !! Z.to_nat i; Some (tt, q));
  psa_map_outvec p _ i := on_work p (fun q => _ ← wk_out q !! Z.to_nat i; Some (tt, q));
  outvec_store p _ i k b := on_work p (fun q =>
    out ← wk_out q !! Z.to_nat i; len ← wk_len q !! Z.to_nat i;
    Some (tt, with_out (Z.to_nat i) (<[Z.to_nat k := b]> out) len q));
  psa_unmap_outvec p _ i n := on_work p (fun q =>
    out ← wk_out q !! Z.to_nat i; Some (tt, with_out (Z.to_nat i) out n q));
|}.

Abbreviation view := (fun f : ffm => f).

Lemma gives_on_work {A} p (g : work -> option (A * work)) q f a q' :
  active f !! p = Some q -> g q = Some (a, q') -> gives view (on_work p g) f a (set_work p q' f).
Proof. intros Hq Hg w ->. exists (set_work p q' f). unfold on_work. by rewrite Hq, Hg. Qed.

Lemma set_work_same p q f : active f !! p = Some q -> set_work p q f = f.
Proof. intros H. unfold set_work. rewrite insert_id by done. by destruct f. Qed.

Lemma gives_on_work_same {A} p (g : work -> option (A * work)) q f a :
  active f !! p = Some q -> g q = Some (a, q) -> gives view (on_work p g) f a f.
Proof. intros Hq Hg. rewrite <- (set_work_same p q f Hq) at 2. by eapply gives_on_work. Qed.

Lemma wps_get_ffm {D} (Q : ffm -> ffm -> D -> Prop) f d : Q f f d -> wps view get_ffm Q f d.
Proof. intros HQ w ->. by exists f, f, d. Qed.

Lemma wps_change {D} g (Q : unit -> ffm -> D -> Prop) f d : Q tt (g f) d -> wps view (change g) Q f d.
Proof. intros HQ w ->. by exists tt, (g f), d. Qed.

Lemma ref_connect_law {D} code c sid ver p sv (Q : Z -> ffm -> D -> Prop) f d :
  provides sid = Some (p, sv) -> connection_based sv = true ->
  (forall h, 0 < h -> conns f !! h = None ->
    wps view (code p) (fun _ f2 d2 => exists q st, active f2 !! p = Some q /\ wk_reply q = Some st /\
      if st =? PSA_SUCCESS then Q h (set_conn h (mkConn sid (wk_rhandle q) false) (end_work p f2)) d2
      else st = PSA_ERROR_CONNECTION_REFUSED /\ Q st (end_work p f2) d2)
    (set_work p (new_work sid PSA_IPC_CONNECT h c 0 [] []) f) d) ->
  wps view (ref_connect code c sid ver) Q f d.
Proof.
  intros Hp Hs Hcode. unfold ref_connect. rewrite Hp, Hs. apply wps_bind, wps_get_ffm. cbv zeta.
  destruct (new_handle_fresh f) as [Hh Hf]. apply wps_bind, wps_deliver.
  eapply wps_mono; [by apply Hcode|]. intros [] f2 d2 (q & st & Hq & Hst & HQ). exists q, st. split_and!; [done | done |].
  destruct (st =? PSA_SUCCESS).
  - apply wps_bind, wps_change, wps_ret. exact HQ.
  - apply wps_ret, HQ.
Qed.

Lemma ref_call_law {D} code c h t iv ov cn p sv (Q : Z * list (list Z) * list Z -> ffm -> D -> Prop) f d :
  conns f !! h = Some cn -> cn_error cn = false -> provides (cn_sid cn) = Some (p, sv) ->
  wps view (code p) (fun _ f2 d2 => exists q st, active f2 !! p = Some q /\ wk_reply q = Some st /\
      Q (st, wk_out q, wk_len q)
        (set_conn h (mkConn (cn_sid cn) (wk_rhandle q) (st =? PSA_ERROR_PROGRAMMER_ERROR)) (end_work p f2)) d2)
    (set_work p (new_work (cn_sid cn) t h c (cn_rhandle cn) iv ov) f) d ->
  wps view (ref_call code c h t iv ov) Q f d.
Proof.
  intros Hf He Hp Hcode. unfold ref_call. apply wps_bind, wps_get_ffm. rewrite Hf, He, Hp.
  apply wps_bind, wps_deliver. eapply wps_mono; [exact Hcode|]. intros [] f2 d2 (q & st & Hq & Hst & HQ).
  exists q, st. split_and!; [done | done |]. by apply wps_bind, wps_change, wps_ret.
Qed.

Lemma ref_call_stateless_law {D} code c sid t iv ov p sv (Q : Z * list (list Z) * list Z -> ffm -> D -> Prop) f d :
  provides sid = Some (p, sv) -> conns f !! stateless_handle sid = None ->
  wps view (code p) (fun _ f2 d2 => exists q st, active f2 !! p = Some q /\ wk_reply q = Some st /\
      Q (st, wk_out q, wk_len q) (end_work p f2) d2)
    (set_work p (new_work sid t (stateless_handle sid) c 0 iv ov) f) d ->
  wps view (ref_call code c (stateless_handle sid) t iv ov) Q f d.
Proof.
  intros Hp Hf Hcode. unfold ref_call. apply wps_bind, wps_get_ffm. rewrite Hf.
  replace (stateless_handle sid - 0x40000000) with sid by (cbn; lia). rewrite Hp.
  apply wps_bind, wps_deliver. eapply wps_mono; [exact Hcode|]. intros [] f2 d2 (q & st & Hq & Hst & HQ).
  exists q, st. split_and!; [done | done |]. by apply wps_ret.
Qed.

Lemma ref_close_law {D} code c h cn p sv (Q : unit -> ffm -> D -> Prop) f d :
  conns f !! h = Some cn -> provides (cn_sid cn) = Some (p, sv) ->
  wps view (code p) (fun _ f2 d2 => exists q st, active f2 !! p = Some q /\ wk_reply q = Some st /\
      Q tt (drop_conn h (end_work p f2)) d2)
    (set_work p (new_work (cn_sid cn) PSA_IPC_DISCONNECT h c (cn_rhandle cn) [] []) f) d ->
  wps view (ref_close code c h) Q f d.
Proof.
  intros Hf Hp Hcode. unfold ref_close. apply wps_bind, wps_get_ffm. rewrite Hf, Hp.
  apply wps_bind, wps_deliver. eapply wps_mono; [exact Hcode|]. intros [] f2 d2 (q & st & Hq & Hst & HQ).
  exists q, st. split_and!; [done | done |]. by apply wps_change.
Qed.

#[export] Instance ref_framework_laws : FrameworkLaws provides (fun h => h) ffm.
Proof.
  refine {| ffm_of := view |}; intros.
  - intros w ->. by exists f.
  - intros w ->. exists f. cbn. by rewrite H.
  - eapply ref_connect_law; eauto.
  - cbn. unfold ref_connect. rewrite H, H0, (proj2 (Z.ltb_lt c 0)) by done. by apply wps_ret.
  - eapply ref_call_law; eauto.
  - cbn. unfold ref_call. apply wps_bind, wps_get_ffm. rewrite H, H0, (proj2 (Z.ltb_lt c 0)) by done. by apply wps_ret.
  - eapply ref_call_stateless_law; eauto.
  - eapply ref_close_law; eauto.
  - intros w ->. exists f. cbn. by rewrite H.
  - eapply gives_on_work; [exact H | done].
  - destruct H. by eapply gives_on_work.
  - destruct H. eapply gives_on_work; [done|]. cbn. rewrite Nat2Z.id, H0. done.
  - destruct H. eapply gives_on_work; [done|]. cbn. rewrite Nat2Z.id, H0. cbn. rewrite H1. cbn.
    by rewrite (proj2 (Z.leb_le _ _)).
  - destruct H. by eapply gives_on_work.
  - destruct H. eapply gives_on_work_same; [done|]. cbn. rewrite Nat2Z.id, H0. done.
  - destruct H. eapply gives_on_work_same; [done|]. cbn. rewrite Nat2Z.id, H0. done.
  - destruct H. eapply gives_on_work_same; [done|]. cbn. rewrite Nat2Z.id, H0. done.
  - destruct H. eapply gives_on_work; [done|]. cbn. rewrite Nat2Z.id, H0. cbn. by rewrite H1.
  - destruct H. eapply gives_on_work; [done|]. cbn. rewrite Nat2Z.id, H0. done.
Defined.
End reference.
