(* ===== verification/IpcProofs.v ===== *)
(** * The IPC suites pass

    Over every framework that meets [FrameworkLaws]: what each service of the
    service partition replies, and that the two suites pass from the state after
    the start and leave no connection open. *)

From S2P Require Import Prelude LogRaw TestFramework TestProg Ffm IpcTests IpcSuites SpmRules FfmRef.
Local Open Scope Z_scope.

Section service_partition.
  Context {FC : FfmConsts} {FCL : FfmConstsLaws} {MF : Manifest} {SGL : SignalLaws tfm_ipc_service_test_services}.
  Context {provides : Z -> option (nat * service)} {msg_handle : Z -> Z}.
  Context {W : Type} {FW : Framework W} {FL : FrameworkLaws provides msg_handle W}.
  Variables (A : ipc_layout) (mm : bool).

Lemma asserted_eq s s' : s ∈ tfm_ipc_service_test_services -> s' ∈ tfm_ipc_service_test_services ->
  asserted (signal (sv_sid s)) s' = bool_decide (s = s').
Proof. by apply asserted_iff. Qed.

Abbreviation main := (ipc_service_test_main A mm).

(** The loop calls the handler of the service whose signal is asserted. *)
Definition handler_of (s : service) : option (SP (W * ipc_data) unit) :=
  if bool_decide (s = IPC_SERVICE_TEST_BASIC) then Some ipc_service_basic
  else if bool_decide (s = IPC_SERVICE_TEST_PSA_ACCESS_APP_MEM) then Some (ipc_service_psa_access_app_mem A)
  else if bool_decide (s = IPC_SERVICE_TEST_CLIENT_PROGRAMMER_ERROR) then Some ipc_service_programmer_error
  else if bool_decide (s = IPC_SERVICE_TEST_STATELESS_ROT) then Some ipc_service_stateless_rot
  else if bool_decide (s = IPC_SERVICE_TEST_MMIOVEC) then
    if mm then Some ipc_service_mmiovec_test_handle else None
  else if bool_decide (s = IPC_SERVICE_TEST_CLIENT_ID_TRANSLATE) then Some ipc_service_client_id_translate
  else if bool_decide (s = IPC_SERVICE_TEST_RHANDLE_CHECK) then Some (ipc_service_rhandle_check A)
  else if bool_decide (s = IPC_SERVICE_TEST_CONNECTION_REFUSED) then Some ipc_service_connection_refused
  else None.

Lemma main_calls s hd q f d w : s ∈ tfm_ipc_service_test_services -> handler_of s = Some hd ->
  wk_sid q = sv_sid s -> wk_got q = false -> ffm_of w = set_work ipc_service q f ->
  exists w', ffm_of w' = ffm_of w /\ main (w, d) = hd (w', d).
Proof.
  intros Hs Hd Hq Hg Hw. destruct (law_wait ipc_service q (ffm_of w)) with w as (w' & Hr & Hw');
    [rewrite Hw; apply active_set_work | done | done |].
  exists w'. split; [done|]. unfold ipc_service_test_main, mbind at 1, S_bind at 1, on_spm at 1. cbn. rewrite Hr, Hq.
  unfold handler_of in Hd. rewrite !asserted_eq by (done || (unfold tfm_ipc_service_test_services; set_solver)).
  repeat (case_bool_decide; [destruct mm; by simplify_eq|]). destruct mm; simplify_eq.
Qed.

Lemma main_dispatch s hd q f d Q : s ∈ tfm_ipc_service_test_services -> handler_of s = Some hd ->
  wk_sid q = sv_sid s -> wk_got q = false ->
  wps ffm_of hd Q (set_work ipc_service q f) d -> wps ffm_of main Q (set_work ipc_service q f) d.
Proof.
  intros Hs Hd Hq Hg HQ w Hw. destruct (main_calls s hd q f d w) as (w' & Hw' & ->); [done..|].
  apply HQ. by rewrite Hw'.
Qed.

(** *** What the services reply *)

Ltac in_services := unfold tfm_ipc_service_test_services; set_solver.
Ltac dispatch s := eapply (main_dispatch s); [in_services | reflexivity | reflexivity | reflexivity |].
Ltac open_handler := unfold ipc_service_basic, ipc_service_psa_access_app_mem, ipc_service_programmer_error,
  ipc_service_stateless_rot, ipc_service_mmiovec_test_handle, ipc_service_client_id_translate,
  ipc_service_rhandle_check, ipc_service_connection_refused.
Ltac serve s := intros mh c rh iv ov f d Q HQ; dispatch s; open_handler; repeat sv_step; ffm_consts; cbn; ffm_consts;
  repeat sv_step; ffm_consts in HQ; exact HQ.

(** [s] accepts connections and lets them be closed. *)
Definition accepts (s : service) : Prop :=
  answers main ipc_service (sv_sid s) PSA_IPC_CONNECT PSA_SUCCESS /\
  answers main ipc_service (sv_sid s) PSA_IPC_DISCONNECT PSA_SUCCESS.

Lemma basic_accepts : accepts IPC_SERVICE_TEST_BASIC.
Proof. split; serve IPC_SERVICE_TEST_BASIC. Qed.

Lemma access_accepts : accepts IPC_SERVICE_TEST_PSA_ACCESS_APP_MEM.
Proof. split; serve IPC_SERVICE_TEST_PSA_ACCESS_APP_MEM. Qed.

Lemma programmer_error_accepts : accepts IPC_SERVICE_TEST_CLIENT_PROGRAMMER_ERROR.
Proof. split; serve IPC_SERVICE_TEST_CLIENT_PROGRAMMER_ERROR. Qed.

Lemma translate_accepts : accepts IPC_SERVICE_TEST_CLIENT_ID_TRANSLATE.
Proof. split; serve IPC_SERVICE_TEST_CLIENT_ID_TRANSLATE. Qed.

Lemma refused_answer : answers main ipc_service (sv_sid IPC_SERVICE_TEST_CONNECTION_REFUSED) PSA_IPC_CONNECT PSA_ERROR_CONNECTION_REFUSED.
Proof. serve IPC_SERVICE_TEST_CONNECTION_REFUSED. Qed.

Lemma programmer_error_answer :
  answers main ipc_service (sv_sid IPC_SERVICE_TEST_CLIENT_PROGRAMMER_ERROR) PSA_IPC_CALL PSA_ERROR_PROGRAMMER_ERROR.
Proof. serve IPC_SERVICE_TEST_CLIENT_PROGRAMMER_ERROR. Qed.

(** Whoever the client is: the status that is replied when its ID is not the
    expected one is that of [psa_get]. *)
Lemma translate_answer : answers main ipc_service (sv_sid IPC_SERVICE_TEST_CLIENT_ID_TRANSLATE)
  CLIENT_ID_TRANSLATE_TEST_TYPE_REQUEST_SRVC PSA_SUCCESS.
Proof.
  intros mh c rh iv ov f d Q HQ. dispatch IPC_SERVICE_TEST_CLIENT_ID_TRANSLATE. open_handler. repeat sv_step.
  ffm_consts. sv_run. ffm_consts in HQ. case_match; exact HQ.
Qed.

(** The requests of the shared tests. *)
Ltac serve_request s := intros mh rh f d Q HQ; eapply (main_dispatch s);
  [in_services | unfold handler_of; (reflexivity || by match goal with H : mm = true |- _ => rewrite H end)
   | reflexivity | reflexivity |]; open_handler; repeat sv_step; rewrite Z.eqb_refl.

Lemma basic_serves (code : nat -> SP (W * ipc_data) unit) c : code ipc_service = main ->
  serves_rot code c ipc_service IPC_SERVICE_TEST_BASIC.
Proof.
  unfold serves_rot, serves. intros ->. serve_request IPC_SERVICE_TEST_BASIC. ffm_consts. sv_run. apply rot_srv_ok.
  repeat sv_step. exact HQ.
Qed.

Lemma stateless_serves (code : nat -> SP (W * ipc_data) unit) c : code ipc_service = main ->
  serves_rot code c ipc_service IPC_SERVICE_TEST_STATELESS_ROT.
Proof.
  unfold serves_rot, serves. intros ->. serve_request IPC_SERVICE_TEST_STATELESS_ROT. sv_run. apply rot_srv_ok.
  repeat sv_step. exact HQ.
Qed.

Lemma mmiovec_serves (code : nat -> SP (W * ipc_data) unit) c : code ipc_service = main -> mm = true ->
  serves_invec code c ipc_service IPC_SERVICE_TEST_MMIOVEC /\ serves_outvec code c ipc_service IPC_SERVICE_TEST_MMIOVEC /\
  serves_outvec_only code c ipc_service IPC_SERVICE_TEST_MMIOVEC.
Proof.
  unfold serves_invec, serves_outvec, serves_outvec_only, serves. intros -> Hmm.
  split_and!; serve_request IPC_SERVICE_TEST_MMIOVEC; sv_run; exact HQ.
Qed.

(** *** The private data of a connection *)

Definition rhandle_sid : Z := sv_sid IPC_SERVICE_TEST_RHANDLE_CHECK.

Lemma rhandle_first mh c f d Q : connect_cnt d = 0 ->
  Q tt (set_work ipc_service (replied PSA_SUCCESS (with_rhandle (addr_connection1 A)
     (got (new_work rhandle_sid PSA_IPC_CONNECT mh c 0 [] [])))) f)
    (mkIpcData 1 mh (srvc_private_data_connection1 d) (srvc_private_data_connection2 d) (client_data d)) ->
  wps ffm_of main Q (set_work ipc_service (new_work rhandle_sid PSA_IPC_CONNECT mh c 0 [] []) f) d.
Proof.
  intros Hd HQ. dispatch IPC_SERVICE_TEST_RHANDLE_CHECK. open_handler. repeat sv_step.
  rewrite !Z.eqb_refl. repeat sv_step. unfold rhandle_connect. cbn [negb]. repeat sv_step. rewrite Hd. repeat sv_step.
  exact HQ.
Qed.

Lemma rhandle_second mh c f d Q : connect_cnt d = 1 -> first_handle d <> mh ->
  Q tt (set_work ipc_service (replied PSA_SUCCESS (with_rhandle (addr_connection2 A)
     (got (new_work rhandle_sid PSA_IPC_CONNECT mh c 0 [] [])))) f)
    (mkIpcData 2 (first_handle d) (srvc_private_data_connection1 d) (srvc_private_data_connection2 d) (client_data d)) ->
  wps ffm_of main Q (set_work ipc_service (new_work rhandle_sid PSA_IPC_CONNECT mh c 0 [] []) f) d.
Proof.
  intros Hd Hne%Z.eqb_neq HQ. dispatch IPC_SERVICE_TEST_RHANDLE_CHECK. open_handler. repeat sv_step.
  rewrite !Z.eqb_refl. repeat sv_step. unfold rhandle_connect. cbn [negb]. repeat sv_step. rewrite Hd, Hne. repeat sv_step.
  exact HQ.
Qed.

(** A call with an output vector of one byte, on the two connections. *)
Definition rhandle_request_work (mh c rh : Z) (out out' : list Z) (n : Z) : work :=
  served rhandle_sid IPC_SERVICE_RHANDLE_CHECK_TYPE_REQUEST_SRVC mh c rh [] [out] [] [out'] [n].

Ltac rhandle_run := dispatch IPC_SERVICE_TEST_RHANDLE_CHECK; open_handler; repeat sv_step; rewrite Z.eqb_refl; ffm_consts;
  repeat first [sv_if | sv_step].

Lemma rhandle_request_1 mh c n fh m k p2 cd b f Q :
  Q tt (set_work ipc_service (replied PSA_SUCCESS (rhandle_request_work mh c (addr_connection1 A) [b] [u8 (k + 1)] 1)) f)
    (mkIpcData n fh [m; u8 (k + 1)] p2 cd) ->
  wps ffm_of main Q (set_work ipc_service
    (new_work rhandle_sid IPC_SERVICE_RHANDLE_CHECK_TYPE_REQUEST_SRVC mh c (addr_connection1 A) [] [[b]]) f)
    (mkIpcData n fh [m; k] p2 cd).
Proof.
  intros HQ. rhandle_run. unfold rhandle_request, load_private, store_private. repeat sv_step.
  rewrite Z.eqb_refl. sv_run. ffm_consts in HQ. exact HQ.
Qed.

Context (HA : addr_connection1 A <> addr_connection2 A).

Lemma rhandle_request_2 mh c n fh m k p1 cd b f Q :
  Q tt (set_work ipc_service (replied PSA_SUCCESS (rhandle_request_work mh c (addr_connection2 A) [b] [u8 (k + 1)] 1)) f)
    (mkIpcData n fh p1 [m; u8 (k + 1)] cd) ->
  wps ffm_of main Q (set_work ipc_service
    (new_work rhandle_sid IPC_SERVICE_RHANDLE_CHECK_TYPE_REQUEST_SRVC mh c (addr_connection2 A) [] [[b]]) f)
    (mkIpcData n fh p1 [m; k] cd).
Proof.
  intros HQ. rhandle_run. unfold rhandle_request, load_private, store_private. repeat sv_step.
  rewrite (proj2 (Z.eqb_neq (addr_connection2 A) (addr_connection1 A))), Z.eqb_refl by done. sv_run.
  ffm_consts in HQ. exact HQ.
Qed.

Lemma wps_load_private rh f d (Q : list Z -> ffm -> ipc_data -> Prop) : rh = addr_connection1 A \/ rh = addr_connection2 A ->
  (length (srvc_private_data_connection1 d) = 2)%nat -> (length (srvc_private_data_connection2 d) = 2)%nat ->
  (forall x y, Q [x; y] f d) -> wps ffm_of (load_private A rh) Q f d.
Proof.
  intros Hrh H1 H2 HQ. unfold load_private. repeat sv_step.
  destruct (srvc_private_data_connection1 d) as [|x1 [|y1 [|]]], (srvc_private_data_connection2 d) as [|x2 [|y2 [|]]]; try done.
  destruct (Z.eqb_spec rh (addr_connection1 A)); [by apply wps_ret|].
  destruct (Z.eqb_spec rh (addr_connection2 A)); [by apply wps_ret | naive_solver].
Qed.

(** A disconnection is answered with SUCCESS whatever the data are. *)
Lemma rhandle_disconnect_any mh c rh f d Q : rh = addr_connection1 A \/ rh = addr_connection2 A ->
  (length (srvc_private_data_connection1 d) = 2)%nat -> (length (srvc_private_data_connection2 d) = 2)%nat ->
  Q tt (set_work ipc_service (replied PSA_SUCCESS (got (new_work rhandle_sid PSA_IPC_DISCONNECT mh c rh [] []))) f) d ->
  wps ffm_of main Q (set_work ipc_service (new_work rhandle_sid PSA_IPC_DISCONNECT mh c rh [] []) f) d.
Proof.
  intros Hrh H1 H2 HQ. dispatch IPC_SERVICE_TEST_RHANDLE_CHECK. open_handler. repeat sv_step. rewrite Z.eqb_refl.
  ffm_consts. cbn. repeat sv_step. unfold rhandle_disconnect. repeat sv_step.
  apply wps_load_private; [done..|]. intros x y. unfold size_at. cbn [lookup list_lookup Z.to_nat Pos.to_nat].
  repeat sv_step. ffm_consts in HQ. repeat case_match; ffm_consts; exact HQ.
Qed.

(** A third connection: the partition does not come back. *)
Lemma rhandle_third_hangs mh c d w : connect_cnt d = 2 ->
  (exists f, ffm_of w = set_work ipc_service (new_work rhandle_sid PSA_IPC_CONNECT mh c 0 [] []) f) ->
  main (w, d) = Hangs.
Proof.
  intros Hd [f Hw]. destruct (main_calls IPC_SERVICE_TEST_RHANDLE_CHECK (ipc_service_rhandle_check A)
    (new_work rhandle_sid PSA_IPC_CONNECT mh c 0 [] []) f d w) as (w1 & Hw1 & ->); [in_services | done.. |].
  rewrite Hw in Hw1. destruct (law_get ipc_service _ _ (active_set_work ipc_service
    (new_work rhandle_sid PSA_IPC_CONNECT mh c 0 [] []) f) eq_refl w1 Hw1) as (w2 & Hg & _).
  unfold ipc_service_rhandle_check, mbind at 1, S_bind at 1, on_spm at 1. cbn in Hg |- *. rewrite Hg, !Z.eqb_refl. cbn.
  unfold rhandle_connect, mbind, S_bind, get_data. cbn. by rewrite Hd.
Qed.

(** The client's variable through the pointer in the message. *)
Lemma access_call mh c rh f d Q : 0 <= addr_client_data A < 2 ^ 32 -> client_data d = 65 ->
  Q tt (set_work ipc_service (replied PSA_SUCCESS (served (sv_sid IPC_SERVICE_TEST_PSA_ACCESS_APP_MEM) PSA_IPC_CALL mh c rh
     [le_bytes 4 (addr_client_data A)] [] [[]] [] [])) f)
    (mkIpcData (connect_cnt d) (first_handle d) (srvc_private_data_connection1 d) (srvc_private_data_connection2 d) 66) ->
  wps ffm_of main Q (set_work ipc_service (new_work (sv_sid IPC_SERVICE_TEST_PSA_ACCESS_APP_MEM) PSA_IPC_CALL mh c rh
    [le_bytes 4 (addr_client_data A)] []) f) d.
Proof.
  intros Ha Hd HQ. dispatch IPC_SERVICE_TEST_PSA_ACCESS_APP_MEM. open_handler. repeat sv_step.
  ffm_consts. sv_run.
  change (take (Z.to_nat 4) (le_bytes 4 (addr_client_data A))) with (le_bytes 4 (addr_client_data A)).
  rewrite le_value_bytes, Z.eqb_refl by exact Ha. repeat sv_step. rewrite Hd. cbn [Z.eqb Pos.eqb negb]. repeat sv_step.
  unfold store_char. repeat sv_step. rewrite Z.eqb_refl. repeat sv_step. ffm_consts in HQ. exact HQ.
Qed.
End service_partition.

(** ** The requests of the tests *)

Section suites.
  Context {FC : FfmConsts} {FCL : FfmConstsLaws} {MF : Manifest}.
  Context {SGL : SignalLaws tfm_ipc_service_test_services} {CGL : SignalLaws tfm_ipc_client_test_services}.
  Context {provides : Z -> option (nat * service)} {msg_handle : Z -> Z}.
  Context {W : Type} {FW : Framework W} {FL : FrameworkLaws provides msg_handle W}.
  Variables (A : ipc_layout) (mm : bool) (id c : Z).
  Variables (client_api_tests_c mmiovec_test_c ns_file s_file : string).
  (** The services are those of the manifests; the messages of different
      connections have different handles. *)
  Hypothesis Hservice : forall s, s ∈ tfm_ipc_service_test_services -> provides (sv_sid s) = Some (ipc_service, s).
  Hypothesis Hclient : forall s, s ∈ tfm_ipc_client_test_services -> provides (sv_sid s) = Some (ipc_client, s).
  Hypothesis Hhandles : forall h h', msg_handle h = msg_handle h' -> h = h'.
  Hypothesis HA : addr_connection1 A <> addr_connection2 A.

Abbreviation code := (ipc_code A mm id).
Implicit Types (d : ipc_data) (f : ffm).

Lemma code_service : code ipc_service = ipc_service_test_main A mm.
Proof. done. Qed.

Lemma provided s : s ∈ tfm_ipc_service_test_services -> provides (sv_sid s) = Some (ipc_service, s).
Proof. apply Hservice. Qed.

Lemma connect_request s d Q : s ∈ tfm_ipc_service_test_services -> connection_based s = true ->
  accepts A mm s -> (forall h, 0 < h -> Q h (with_conn h s 0 false) d) ->
  wps ffm_of (psa_connect code c (sv_sid s) (sv_version s)) Q idle d.
Proof.
  intros Hs Hc [Ha _] HQ. eapply wps_connect; [by apply provided | done | done | exact Ha |]. intros h Hh _. by apply HQ.
Qed.

Lemma close_request s h err d Q : s ∈ tfm_ipc_service_test_services -> accepts A mm s -> Q tt idle d ->
  wps ffm_of (psa_close code c h) Q (with_conn h s 0 err) d.
Proof.
  intros Hs [_ Ha] HQ. eapply (wps_close code s _ _ _ (mkConn (sv_sid s) 0 err));
    [by apply provided | done | apply conn_with_conn | exact Ha |].
  by rewrite drop_with_conn.
Qed.

(** A call that the service answers with a status and nothing else. *)
Lemma plain_call s h t st d Q : s ∈ tfm_ipc_service_test_services -> 0 <= t ->
  answers (code ipc_service) ipc_service (sv_sid s) t st ->
  Q (st, [], []) (with_conn h s 0 (st =? PSA_ERROR_PROGRAMMER_ERROR)) d ->
  wps ffm_of (psa_call code c h t [] []) Q (with_conn h s 0 false) d.
Proof.
  intros Hs Ht Ha HQ. eapply law_call; [apply conn_with_conn | done | by apply provided | done | done | cbn; lia |].
  apply Ha. eexists _, _. split; [apply active_set_work|]. split; [done|]. cbn. rewrite end_set_work by done.
  unfold with_conn, set_conn in *. cbn. by rewrite insert_insert_eq.
Qed.

Ltac in_services := unfold tfm_ipc_service_test_services; set_solver.

(** ** The tests *)

Abbreviation passing m := (forall d, test_passes ffm_of m idle d idle d).

Lemma test_1001_passes : passing (tfm_ipc_test_1001 (FW := FW) client_api_tests_c).
Proof. apply framework_version_passes. Qed.

Lemma test_1002_passes : passing (tfm_ipc_test_1002 (FW := FW) client_api_tests_c).
Proof. apply (version_passes client_api_tests_c ipc_service IPC_SERVICE_TEST_BASIC); [apply provided; in_services | done]. Qed.

Lemma test_1003_passes : passing (tfm_ipc_test_1003 A mm id c ns_file).
Proof.
  intros d. unfold tfm_ipc_test_1003, test_passes. repeat tstep.
  apply connect_request; [in_services | done | by apply basic_accepts |]. intros h Hh%Z.ltb_lt. rewrite Hh. repeat tstep.
  apply close_request; [in_services | by apply basic_accepts |]. by repeat tstep.
Qed.

Lemma test_1004_passes file ln : passing (ipc_test_1004 A mm id c client_api_tests_c file ln).
Proof.
  intros d. unfold ipc_test_1004, test_passes. repeat tstep.
  apply connect_request; [in_services | done | by apply basic_accepts |]. intros h Hh%Z.ltb_lt.
  apply twp_bind, twp_fail_if; [ffm_consts; by rewrite Hh|]. apply twp_bind, twp_call_body.
  apply (rot_connection_passes code c client_api_tests_c ipc_service);
    [apply provided; in_services | by apply (basic_serves A mm) |]. repeat tstep.
  apply close_request; [in_services | by apply basic_accepts |]. by repeat tstep.
Qed.

Lemma stateless_passes : passing (s_tfm_ipc_test_1012 A mm id c client_api_tests_c).
Proof.
  apply (rot_stateless_passes code c client_api_tests_c ipc_service IPC_SERVICE_TEST_STATELESS_ROT);
    [apply provided; in_services | done | by apply (stateless_serves A mm)].
Qed.

Lemma test_1010_passes (Hc : c < 0) : passing (tfm_ipc_test_1010 A mm id c).
Proof.
  intros d. unfold tfm_ipc_test_1010, test_passes. repeat tstep.
  apply connect_request; [in_services | done | by apply programmer_error_accepts |]. intros h Hh%Z.ltb_lt. rewrite Hh.
  repeat tstep. eapply plain_call; [in_services | by ffm_consts | by apply programmer_error_answer |].
  rewrite !Z.eqb_refl. repeat tstep. eapply law_call_error; [apply conn_with_conn | done | done |].
  rewrite Z.eqb_refl. repeat tstep. apply close_request; [in_services | by apply programmer_error_accepts |]. by repeat tstep.
Qed.

Lemma test_1012_passes (Hc : c < 0) : passing (tfm_ipc_test_1012 A mm id c client_api_tests_c ns_file).
Proof.
  intros d. unfold tfm_ipc_test_1012, test_passes. repeat tstep.
  eapply law_connect_stateless; [by apply (provided IPC_SERVICE_TEST_STATELESS_ROT); in_services | done | done |].
  apply twp_bind, twp_fail_if; [by ffm_consts|]. apply stateless_passes.
Qed.

Lemma test_1016_passes : passing (tfm_ipc_test_1016 A mm id c ns_file).
Proof.
  intros d. unfold tfm_ipc_test_1016, test_passes. repeat tstep.
  apply connect_request; [in_services | done | by apply translate_accepts |]. intros h Hh. repeat tstep.
  eapply plain_call; [in_services | done | by apply translate_answer |]. ffm_consts. repeat tstep.
  apply close_request; [in_services | by apply translate_accepts |]. by repeat tstep.
Qed.

Lemma test_1018_passes : passing (tfm_ipc_test_1018 A mm id c ns_file).
Proof.
  intros d. unfold tfm_ipc_test_1018, test_passes. repeat tstep.
  eapply (law_connect _ _ _ _ ipc_service IPC_SERVICE_TEST_CONNECTION_REFUSED); [by apply provided; in_services | done | done | done |].
  intros h Hh _. apply refused_answer. eexists _, _. split; [apply active_set_work|]. split; [done|]. ffm_consts. cbn.
  split; [done|]. rewrite end_set_work by done. ffm_consts. by repeat tstep.
Qed.

Lemma test_1013_passes (Hmm : mm = true) : passing (tfm_ipc_test_1013 A mm id c mmiovec_test_c).
Proof.
  destruct (mmiovec_serves A mm code c eq_refl Hmm) as (? & ? & ?).
  apply (invec_passes code c mmiovec_test_c ipc_service IPC_SERVICE_TEST_MMIOVEC); [apply provided; in_services | done | done].
Qed.

Lemma test_1014_passes (Hmm : mm = true) : passing (tfm_ipc_test_1014 A mm id c mmiovec_test_c).
Proof.
  destruct (mmiovec_serves A mm code c eq_refl Hmm) as (? & ? & ?).
  apply (outvec_passes code c mmiovec_test_c ipc_service IPC_SERVICE_TEST_MMIOVEC); [apply provided; in_services | done | done].
Qed.

Lemma test_1015_passes (Hmm : mm = true) : passing (tfm_ipc_test_1015 A mm id c mmiovec_test_c).
Proof.
  destruct (mmiovec_serves A mm code c eq_refl Hmm) as (? & ? & ?).
  apply (outvec_only_passes code c mmiovec_test_c ipc_service IPC_SERVICE_TEST_MMIOVEC); [apply provided; in_services | done | done].
Qed.

(** *** The reverse handles *)

Lemma rhandle_provided : provides rhandle_sid = Some (ipc_service, IPC_SERVICE_TEST_RHANDLE_CHECK).
Proof. apply (provided IPC_SERVICE_TEST_RHANDLE_CHECK). in_services. Qed.

Definition rh_conn (rh : Z) : connection := mkConn rhandle_sid rh false.

Lemma rhandle_call_1 h f n fh m k p2 cd b (Q : _ -> _ -> _ -> Prop) : conns f !! h = Some (rh_conn (addr_connection1 A)) ->
  active f !! ipc_service = None ->
  Q (0, [[u8 (k + 1)]], [1]) f (mkIpcData n fh [m; u8 (k + 1)] p2 cd) ->
  wps ffm_of (psa_call code c h IPC_SERVICE_RHANDLE_CHECK_TYPE_REQUEST_SRVC [] [[b]]) Q f (mkIpcData n fh [m; k] p2 cd).
Proof.
  intros Hf Ha HQ. eapply law_call; [exact Hf | done | exact rhandle_provided | done | done | cbn; lia |].
  apply rhandle_request_1. eexists _, _. split; [apply active_set_work|]. split; [done|]. rewrite end_set_work by done.
  ffm_consts. cbn. unfold set_conn. rewrite insert_id by exact Hf. by destruct f.
Qed.

Lemma rhandle_call_2 h f n fh m k p1 cd b (Q : _ -> _ -> _ -> Prop) : conns f !! h = Some (rh_conn (addr_connection2 A)) ->
  active f !! ipc_service = None ->
  Q (0, [[u8 (k + 1)]], [1]) f (mkIpcData n fh p1 [m; u8 (k + 1)] cd) ->
  wps ffm_of (psa_call code c h IPC_SERVICE_RHANDLE_CHECK_TYPE_REQUEST_SRVC [] [[b]]) Q f (mkIpcData n fh p1 [m; k] cd).
Proof.
  intros Hf Ha HQ. eapply law_call; [exact Hf | done | exact rhandle_provided | done | done | cbn; lia |].
  apply rhandle_request_2; [done|]. eexists _, _. split; [apply active_set_work|]. split; [done|]. rewrite end_set_work by done.
  ffm_consts. cbn. unfold set_conn. rewrite insert_id by exact Hf. by destruct f.
Qed.

Lemma rhandle_close h f rh d (Q : _ -> _ -> _ -> Prop) : conns f !! h = Some (rh_conn rh) -> active f !! ipc_service = None ->
  rh = addr_connection1 A \/ rh = addr_connection2 A ->
  (length (srvc_private_data_connection1 d) = 2)%nat -> (length (srvc_private_data_connection2 d) = 2)%nat ->
  Q tt (drop_conn h f) d -> wps ffm_of (psa_close code c h) Q f d.
Proof.
  intros Hf Ha Hrh H1 H2 HQ. eapply law_close; [exact Hf | exact rhandle_provided | done |].
  apply rhandle_disconnect_any; [done..|]. eexists _, _. split; [apply active_set_work|]. split; [done|].
  by rewrite end_set_work.
Qed.

(** The variables of the service before and after the test. *)
Definition rhandle_before (fh cd : Z) : ipc_data := mkIpcData 0 fh [0x11; 0x00] [0x21; 0xF0] cd.
Definition rhandle_after (fh cd : Z) : ipc_data := mkIpcData 2 fh [0x11; 0x02] [0x21; 0xF2] cd.

Lemma test_1017_passes fh cd : twp ffm_of (tfm_ipc_test_1017 A mm id c ns_file)
  (fun _ f1 d1 v => f1 = idle /\ (exists fh', d1 = rhandle_after fh' cd) /\ v = TEST_PASSED)
  idle (rhandle_before fh cd) TEST_PASSED.
Proof.
  unfold tfm_ipc_test_1017, rhandle_before. repeat tstep.
  eapply (law_connect _ _ _ _ ipc_service IPC_SERVICE_TEST_RHANDLE_CHECK); [exact rhandle_provided | done | done | done |].
  intros h Hh _. apply rhandle_first; [done|]. eexists _, _. split; [apply active_set_work|]. split; [done|].
  rewrite Z.eqb_refl, end_set_work by done. cbn. repeat tstep.
  apply rhandle_call_1; [apply lookup_insert_eq | done |]. repeat tstep.
  cbn. apply rhandle_call_1; [apply lookup_insert_eq | done |]. repeat tstep.
  eapply (law_connect _ _ _ _ ipc_service IPC_SERVICE_TEST_RHANDLE_CHECK); [exact rhandle_provided | done | done | done |].
  intros h2 Hh2 Hfresh. cbn in Hfresh. apply lookup_insert_None in Hfresh as [_ Hne].
  apply rhandle_second; [done | cbn; by intros ?%Hhandles |]. eexists _, _. split; [apply active_set_work|]. split; [done|].
  rewrite Z.eqb_refl, end_set_work by done. cbn. repeat tstep.
  cbn. apply rhandle_call_2; [apply lookup_insert_eq | done |]. repeat tstep.
  cbn. apply rhandle_call_2; [apply lookup_insert_eq | done |]. repeat tstep.
  eapply rhandle_close; [by cbn; rewrite lookup_insert_ne, lookup_insert_eq by done | done | by left | done | done |]. repeat tstep.
  eapply rhandle_close; [by cbn; rewrite lookup_delete_ne, lookup_insert_eq by done | done | by right | done | done |].
  split_and!; [|by eexists | done].
  unfold drop_conn, idle. cbn. f_equal. rewrite delete_insert_ne, delete_insert_eq, delete_insert_id by done. done.
Qed.

(** *** The call through the client partition *)

Lemma client_signal s : s ∈ tfm_ipc_client_test_services -> asserted (signal (sv_sid s)) s = true.
Proof. intros Hs. rewrite (asserted_iff tfm_ipc_client_test_services) by done. by apply bool_decide_true. Qed.

Abbreviation access_client := IPC_CLIENT_TEST_PSA_ACCESS_APP_MEM.

(** The turn of the client partition on a message of type [t]. *)
Lemma client_dispatch q f d Q : wk_sid q = sv_sid access_client -> wk_got q = false ->
  wps ffm_of (ipc_client_handle_ser_req (wk_msg q) (ipc_isolation_2_psa_access_app_memory A mm id)) Q
    (set_work ipc_client (got q) f) d ->
  wps ffm_of (code ipc_client) Q (set_work ipc_client q f) d.
Proof.
  intros Hq Hg HQ. change (code ipc_client) with (ipc_client_test_main A mm id). unfold ipc_client_test_main.
  apply wps_bind, wps_wait; [done|]. apply wps_bind, wps_get; [done | done |]. cbv beta iota.
  rewrite Hq, client_signal by (unfold tfm_ipc_client_test_services; set_solver). exact HQ.
Qed.

Lemma client_accepts t : t = PSA_IPC_CONNECT \/ t = PSA_IPC_DISCONNECT ->
  answers (code ipc_client) ipc_client (sv_sid access_client) t PSA_SUCCESS.
Proof.
  intros Ht mh c' rh iv ov f d Q HQ. apply client_dispatch; [done | done |]. unfold ipc_client_handle_ser_req.
  cbn [wk_msg new_work m_type]. destruct Ht as [-> | ->]; rewrite Z.eqb_refl, ?orb_true_r; repeat sv_step; exact HQ.
Qed.

(** The test function of the client partition returns IPC_SP_TEST_SUCCESS. *)
Lemma access_app_memory f d Q : 0 <= addr_client_data A < 2 ^ 32 -> active f !! ipc_service = None ->
  Q IPC_SP_TEST_SUCCESS f
    (mkIpcData (connect_cnt d) (first_handle d) (srvc_private_data_connection1 d) (srvc_private_data_connection2 d) 66) ->
  wps ffm_of (ipc_isolation_2_psa_access_app_memory A mm id) Q f d.
Proof.
  intros Ha Hact HQ. unfold ipc_isolation_2_psa_access_app_memory, store_char, load_char. repeat sv_step.
  rewrite Z.eqb_refl. repeat sv_step.
  eapply wps_connect; [apply provided; in_services | done | done | by apply access_accepts |].
  intros h Hh Hf. rewrite (proj2 (Z.leb_gt h 0)) by done. repeat sv_step.
  eapply law_call; [apply lookup_insert_eq | done | apply (provided IPC_SERVICE_TEST_PSA_ACCESS_APP_MEM); in_services
    | done | by ffm_consts | cbn; lia |].
  apply access_call; [done | done | done |]. eexists _, _. split; [apply active_set_work|]. split; [done|].
  rewrite end_set_work by done. ffm_consts. cbn [served replied wk_out wk_len wk_rhandle cn_sid Z.eqb].
  repeat sv_step. rewrite Z.eqb_refl. repeat sv_step.
  eapply (wps_close _ IPC_SERVICE_TEST_PSA_ACCESS_APP_MEM _ _ _ (mkConn (sv_sid IPC_SERVICE_TEST_PSA_ACCESS_APP_MEM) 0 false));
    [apply provided; in_services | done | apply lookup_insert_eq | by apply access_accepts |].
  repeat sv_step. rewrite set_conn_twice, drop_set_conn by done. exact HQ.
Qed.

Lemma s_test_1006_passes uninit d : 0 <= addr_client_data A < 2 ^ 32 -> (length uninit = 4)%nat ->
  test_passes ffm_of (s_tfm_ipc_test_1006 A mm id c uninit) idle d idle
    (mkIpcData (connect_cnt d) (first_handle d) (srvc_private_data_connection1 d) (srvc_private_data_connection2 d) 66).
Proof.
  intros Ha Hu. destruct uninit as [|b0 [|b1 [|b2 [|b3 [|]]]]]; try done.
  assert (provides (sv_sid access_client) = Some (ipc_client, access_client)) as Hp
    by (apply Hclient; unfold tfm_ipc_client_test_services; set_solver).
  unfold s_tfm_ipc_test_1006, test_passes. repeat tstep.
  eapply wps_connect; [exact Hp | done | done | apply client_accepts; by left |].
  intros h Hh%Z.ltb_lt _. rewrite Hh. repeat tstep.
  eapply law_call; [apply lookup_insert_eq | done | exact Hp | done | by ffm_consts | cbn; lia |].
  apply client_dispatch; [done | done |]. unfold ipc_client_handle_ser_req. cbn [wk_msg new_work m_type]. ffm_consts.
  cbn [Z.eqb orb]. apply wps_bind. apply access_app_memory; [done | reflexivity |].
  sv_run. eexists _, _. split; [apply active_set_work|]. split; [done|].
  rewrite end_set_work by done. ffm_consts. cbn [Z.eqb Z.leb Z.compare]. repeat tstep.
  rewrite set_conn_twice.
  eapply (wps_close code access_client _ _ _ (mkConn (sv_sid access_client) 0 false));
    [exact Hp | done | apply lookup_insert_eq | apply client_accepts; by right |].
  by rewrite drop_set_conn.
Qed.

(** ** The suites *)

(** After the non-secure suite: the private data are those of two connections. *)
Definition after_ns (cd : Z) (w : W * ipc_data) : Prop := ffm_of w.1 = idle /\ exists fh, w.2 = rhandle_after fh cd.

Ltac pass lem := eapply passes_step; [by apply lem|].

Lemma ns_mmiovec_pass d J ts : all_pass ts (in_state idle d) J ->
  all_pass ((if mm then
     [TEST (tfm_ipc_test_1013 A mm id c mmiovec_test_c) "TFM_NS_IPC_TEST_1013" "Mapping input vectors and unmapping them";
      TEST (tfm_ipc_test_1014 A mm id c mmiovec_test_c) "TFM_NS_IPC_TEST_1014" "Mapping output vectors and unmapping them";
      TEST (tfm_ipc_test_1015 A mm id c mmiovec_test_c) "TFM_NS_IPC_TEST_1015" "Mapping output vectors and not unmapping them"]
     else []) ++ ts) (in_state idle d) J.
Proof.
  intros H. pose proof test_1013_passes as H1. pose proof test_1014_passes as H2. pose proof test_1015_passes as H3.
  destruct mm; [|done]. cbn [app]. pass H1. pass H2. pass H3. exact H.
Qed.

Lemma ns_tests_pass (Hc : c < 0) fh cd :
  all_pass (ipc_veneers_tests A mm id c client_api_tests_c mmiovec_test_c ns_file)
    (in_state idle (rhandle_before fh cd)) (after_ns cd).
Proof.
  unfold ipc_veneers_tests. cbn [app]. pass test_1001_passes. pass test_1002_passes. pass test_1003_passes.
  pass test_1004_passes. pass test_1010_passes. pass test_1012_passes. apply ns_mmiovec_pass. pass test_1016_passes.
  eapply (all_pass_preset _ _ _ _ (after_ns cd)); [done | apply TEST_valid | |].
  - intros ret w Hr Hw. apply (wp_as_test _ (after_ns cd)). destruct Hw as [Hf Hd].
    eapply wp_mono; [by eapply test_1017_passes|]. intros [] s' (? & ? & ? & [Hf' Hd' Hv'] & -> & [fh' ->] & ->).
    split; [done|]. split; [done|]. by exists fh'.
  - eapply (all_pass_preset _ _ _ _ (after_ns cd)); [done | apply TEST_valid | | constructor].
    intros ret w Hr (Hf & fh' & Hd).
    destruct (test_passes_run _ _ _ _ _ _ ret w (test_1018_passes (rhandle_after fh' cd)) Hr (conj Hf Hd))
      as (ret' & w' & l & ? & ? & ? & ?).
    exists ret', w', l. do 2 (split; [done|]). split; [done | by exists fh'].
Qed.

Lemma s_tests_pass uninit d : 0 <= addr_client_data A < 2 ^ 32 -> (length uninit = 4)%nat ->
  all_pass (s_ipc_veneers_tests A mm id c client_api_tests_c s_file uninit) (in_state idle d)
    (in_state idle (mkIpcData (connect_cnt d) (first_handle d) (srvc_private_data_connection1 d)
       (srvc_private_data_connection2 d) 66)).
Proof.
  intros Ha Hu. unfold s_ipc_veneers_tests. pass test_1001_passes. pass test_1002_passes. pass test_1004_passes.
  pass s_test_1006_passes. pass stateless_passes. constructor.
Qed.

End suites.

Section suites_theorem.
  Context {FC : FfmConsts} {FCL : FfmConstsLaws} {MF : Manifest}.
  Context {SGL : SignalLaws tfm_ipc_service_test_services} {CGL : SignalLaws tfm_ipc_client_test_services}.
  Context {provides : Z -> option (nat * service)} {msg_handle : Z -> Z}.
  Context {W : Type} {FW : Framework W} {FL : FrameworkLaws provides msg_handle W}.
  Variables (A : ipc_layout) (mm : bool) (id c cs : Z).
  Variables (client_api_tests_c mmiovec_test_c ns_file s_file : string).
  (** The services are those of the manifests; the messages of different
      connections have different handles. *)
  Hypothesis Hservice : forall s, s ∈ tfm_ipc_service_test_services -> provides (sv_sid s) = Some (ipc_service, s).
  Hypothesis Hclient : forall s, s ∈ tfm_ipc_client_test_services -> provides (sv_sid s) = Some (ipc_client, s).
  Hypothesis Hhandles : forall h h', msg_handle h = msg_handle h' -> h = h'.
  Hypothesis HA : addr_connection1 A <> addr_connection2 A.

(** C13. The IPC suites of both sides pass on every framework that meets the laws,
    with the partitions of the repository behind it: no partition aborts,
    panics or does something undefined, no connection stays open, and the
    private data of the two connections of test 1017 have been incremented
    twice.  [c] is the non-secure client, [cs] the secure one. *)
Theorem ipc_suites_pass fs fh cd uninit w w' l l' :
  c < 0 -> ffm_of w.1 = idle -> w.2 = rhandle_before fh cd ->
  0 <= addr_client_data A < 2 ^ 32 -> (length uninit = 4)%nat -> ffm_of w'.1 = idle ->
  (exists ts w1 l1,
    run_testsuite (Some (mkSuite (Some (register_testsuite_ns_ipc_interface A mm id c client_api_tests_c mmiovec_test_c ns_file)) fs))
      (w, l) = Some ((TEST_SUITE_ERR_NO_ERROR, Some ts), (w1, l1)) /\
    suite_val (fields ts) = TEST_PASSED /\ ffm_of w1.1 = idle /\ exists fh', w1.2 = rhandle_after fh' cd) /\
  (exists ts w1 l1,
    run_testsuite (Some (mkSuite (Some (register_testsuite_s_ipc_interface A mm id cs client_api_tests_c s_file uninit)) fs))
      (w', l') = Some ((TEST_SUITE_ERR_NO_ERROR, Some ts), (w1, l1)) /\
    suite_val (fields ts) = TEST_PASSED /\ ffm_of w1.1 = idle /\ client_data w1.2 = 66).
Proof.
  intros Hc Hw Hd Ha Hu Hw'.
  pose proof (ns_tests_pass A mm id c client_api_tests_c mmiovec_test_c ns_file Hservice Hclient Hhandles HA) as Hns.
  pose proof (s_tests_pass A mm id cs client_api_tests_c s_file Hservice Hclient Hhandles HA) as Hs. split.
  - destruct (all_pass_run "IPC non-secure interface test (TFM_NS_IPC_TEST_1XXX)" _ _ _ fs w l (Hns Hc fh cd))
      as (ts & w1 & l1 & Hr & Hv & Hf & fh' & Hd1); [done | by destruct mm | by destruct mm |].
    exists ts, w1, l1. split_and!; [exact Hr | done | done | by exists fh'].
  - destruct (all_pass_run "IPC secure interface test (TFM_S_IPC_TEST_1XXX)" _ _ _ fs w' l'
        (Hs uninit w'.2 Ha Hu))
      as (ts & w1 & l1 & Hr & Hv & Hf & Hd1); [by split | done | done |].
    exists ts, w1, l1. split_and!; [exact Hr | done | done | by rewrite Hd1].
Qed.
End suites_theorem.

(** ** The suites on the reference framework *)

Section witness.

(** What the two partitions provide. *)
Definition ipc_provides : Z -> option (nat * service) :=
  provides_of (((fun s => (ipc_service, s)) <$> tfm_ipc_service_test_services) ++
               ((fun s => (ipc_client, s)) <$> tfm_ipc_client_test_services)).

Definition example_layout : ipc_layout := mkLayout 0x20001000 0x20001002 0x20002000.

#[local] Instance service_signals : SignalLaws tfm_ipc_service_test_services.
Proof. by apply signals_apart_laws. Qed.

#[local] Instance client_signals : SignalLaws tfm_ipc_client_test_services.
Proof. by apply signals_apart_laws. Qed.

Lemma ipc_provides_service : Forall (fun s => ipc_provides (sv_sid s) = Some (ipc_service, s)) tfm_ipc_service_test_services.
Proof. by repeat constructor. Qed.

Lemma ipc_provides_client : Forall (fun s => ipc_provides (sv_sid s) = Some (ipc_client, s)) tfm_ipc_client_test_services.
Proof. by repeat constructor. Qed.

Lemma ipc_suites_pass_witness : exists ts w1 l1,
  run_testsuite (Some (mkSuite (Some (register_testsuite_ns_ipc_interface (FW := ref_framework ipc_provides) example_layout true
      0x120 (-1) "client_api_tests.c" "mmiovec_test.c" "ipc_ns_interface_testsuite.c")) (mkFields [] 0 None TEST_PASSED)))
    ((idle, ipc_boot), []) = Some ((TEST_SUITE_ERR_NO_ERROR, Some ts), (w1, l1)) /\
  suite_val (fields ts) = TEST_PASSED /\ w1.1 = idle /\ exists fh', w1.2 = rhandle_after fh' 0.
Proof.
  destruct (ipc_suites_pass (FL := ref_framework_laws ipc_provides) example_layout true 0x120 (-1) 0x110
    "client_api_tests.c" "mmiovec_test.c" "ipc_ns_interface_testsuite.c" "ipc_s_interface_testsuite.c"
    (proj1 (Forall_forall _ _) ipc_provides_service) (proj1 (Forall_forall _ _) ipc_provides_client)
    (fun h h' H => H) ltac:(done) (mkFields [] 0 None TEST_PASSED) 0 0 [0; 0; 0; 0] (idle, ipc_boot) (idle, ipc_boot) [] []
    ltac:(done) ltac:(done) ltac:(done) ltac:(done) ltac:(done) ltac:(done)) as [H _].
  exact H.
Defined.

(** The private data are not reset: a second run of the suite does not end. *)
Lemma ns_suite_runs_once :
  (let reg := register_testsuite_ns_ipc_interface (FW := ref_framework ipc_provides) example_layout true 0x120 (-1)
     "client_api_tests.c" "mmiovec_test.c" "ipc_ns_interface_testsuite.c" in
   let run := run_testsuite (Some (mkSuite (Some reg) (mkFields [] 0 None TEST_PASSED))) in
   '(_, s) ← run ((idle, ipc_boot), []); run s) = None.
Proof. by vm_compute. Qed.
End witness.
