(* ===== verification/SfnTests.v ===== *)
(** * The SFN tests of the SPM

    suites/spm/sfn: the test partition, whose services are functions that the
    framework calls with a message, and the suite, which is the same on both
    sides but for the connection to the stateless service. *)

From S2P Require Import Prelude LogRaw TestFramework TestProg Ffm IpcTests IpcSuites SpmRules FfmRef.
Local Open Scope Z_scope.

(** sfn_backend_test_partition.yaml *)
Definition SFN_TEST_STATELESS : service := mkService 0xF100 1 false.
Definition SFN_TEST_CONNECTION_BASED : service := mkService 0xF101 1 true.
Definition SFN_TEST_CONNECTION_REFUSED : service := mkService 0xF102 1 true.

Definition sfn_test_services : list service :=
  [SFN_TEST_STATELESS; SFN_TEST_CONNECTION_BASED; SFN_TEST_CONNECTION_REFUSED].

Definition sfn_partition : nat := 3.

(** ** The SFN back end of the framework *)

(** What the SPM runs when a message for a partition of the SFN model comes in;
    it is given the functions of the services. *)
Class SfnBackend (W : Type) := {
  sfn_dispatch {D} (p : nat) (functions : list (service * (psa_msg_t -> SP (W * D) Z))) : SP (W * D) unit;
}.

(** It calls the function of the service with the message of the partition, and
    the message is replied to with what the function returns. *)
Class SfnLaws {FC : FfmConsts} {MF : Manifest} {provides msg_handle} (W : Type) {FW : Framework W}
    {FL : FrameworkLaws provides msg_handle W} {SB : SfnBackend W} := {
  law_sfn_dispatch {D} p functions s fn q (Q : unit -> ffm -> D -> Prop) f d :
    (s, fn) ∈ functions -> SignalLaws functions.*1 -> NoDup functions.*1 -> wk_sid q = sv_sid s -> wk_got q = false ->
    wps ffm_of (status ← fn (wk_msg q); on_spm (psa_reply p (m_handle (wk_msg q)) status)) Q (set_work p (got q) f) d ->
    wps ffm_of (sfn_dispatch p functions) Q (set_work p q f) d;
}.

Section sfn.
  Context {FC : FfmConsts} {MF : Manifest} {W : Type} {FW : Framework W} {SB : SfnBackend W}.
  Variable PSA_FRAMEWORK_HAS_MM_IOVEC : bool.

Abbreviation SV := (SP (W * unit)).

(** ** sfn_backend_test_partition.c *)

Definition sfn_test_stateless_sfn (msg : psa_msg_t) : SV Z :=
  if m_type msg =? PSA_IPC_CALL then mret PSA_SUCCESS
  else if m_type msg =? CLIENT_API_TEST_TYPE_REQUEST_SRV then client_api_test_rot_srv sfn_partition msg
  else if PSA_FRAMEWORK_HAS_MM_IOVEC && (m_type msg =? INVEC_MAP_AND_UNMAP) then
    test_service_mmiovec_invec sfn_partition msg
  else if PSA_FRAMEWORK_HAS_MM_IOVEC && (m_type msg =? OUTVEC_MAP_AND_UNMAP) then
    test_service_mmiovec_outvec sfn_partition msg
  else if PSA_FRAMEWORK_HAS_MM_IOVEC && (m_type msg =? OUTVEC_MAP_NOT_UNMAP) then
    test_service_outvec_not_unmap sfn_partition msg
  else mret PSA_ERROR_PROGRAMMER_ERROR.

Definition sfn_test_connection_based_sfn (msg : psa_msg_t) : SV Z :=
  if (m_type msg =? PSA_IPC_CONNECT) || (m_type msg =? PSA_IPC_DISCONNECT) then mret PSA_SUCCESS
  else if m_type msg =? CLIENT_API_TEST_TYPE_REQUEST_SRV then client_api_test_rot_srv sfn_partition msg
  else mret PSA_ERROR_NOT_SUPPORTED.

Definition sfn_test_connection_refused_sfn (msg : psa_msg_t) : SV Z :=
  if m_type msg =? PSA_IPC_CONNECT then mret PSA_ERROR_CONNECTION_REFUSED else mret PSA_ERROR_NOT_SUPPORTED.

Definition sfn_test_partition_init : SV Z := mret PSA_SUCCESS.

(** The functions of the services. *)
Definition sfn_functions : list (service * (psa_msg_t -> SV Z)) :=
  [(SFN_TEST_STATELESS, sfn_test_stateless_sfn); (SFN_TEST_CONNECTION_BASED, sfn_test_connection_based_sfn);
   (SFN_TEST_CONNECTION_REFUSED, sfn_test_connection_refused_sfn)].

(** The partition has no code of its own that waits for messages. *)
Definition sfn_code (p : nat) : SV unit :=
  if decide (p = sfn_partition) then sfn_dispatch sfn_partition sfn_functions else s_undefined.

(** ** sfn_backend_tests.c *)

Variables (c : Z) (client_api_tests_c mmiovec_test_c sfn_backend_tests_c : string).

Abbreviation T := (P (W * unit)).
Abbreviation connect s := (request_of (psa_connect sfn_code c (sv_sid s) (sv_version s))).
Abbreviation close h := (request_of (psa_close sfn_code c h)).
Abbreviation stateless := (stateless_handle (sv_sid SFN_TEST_STATELESS)).

Definition tfm_sfn_test_1001 : T unit := psa_framework_version_test client_api_tests_c.
Definition tfm_sfn_test_1002 : T unit := psa_version_test client_api_tests_c (sv_sid SFN_TEST_STATELESS).

Definition tfm_sfn_test_1003 : T unit :=
  handle ← connect SFN_TEST_CONNECTION_BASED;
  fail_if sfn_backend_tests_c 37 (negb (PSA_HANDLE_IS_VALID handle))
    ("Connecting to a connection-based service fails." ++ cr ++ lf);;
  call_body (request_rot_service_test sfn_code c client_api_tests_c handle);;
  close handle.

(** [DOMAIN_NS]: the build for the non-secure side. *)
Definition tfm_sfn_test_1004 (DOMAIN_NS : bool) : T unit :=
  (if DOMAIN_NS then
     handle ← connect SFN_TEST_STATELESS;
     fail_if sfn_backend_tests_c 58 (PSA_HANDLE_IS_VALID handle)
       ("Connecting to a stateless service should not succeed." ++ cr ++ lf)
   else mret tt);;
  request_rot_service_test sfn_code c client_api_tests_c stateless.

Definition tfm_sfn_test_1005 : T unit := invec_map_unmap_test sfn_code c mmiovec_test_c stateless.
Definition tfm_sfn_test_1006 : T unit := outvec_map_unmap_test sfn_code c mmiovec_test_c stateless.
Definition tfm_sfn_test_1007 : T unit := outvec_map_only_test sfn_code c mmiovec_test_c stateless.

Definition tfm_sfn_test_1008 : T unit :=
  handle ← connect SFN_TEST_CONNECTION_REFUSED;
  fail_if sfn_backend_tests_c 90 (negb (handle =? PSA_ERROR_CONNECTION_REFUSED))
    ("Connection was expected to be refused: failed" ++ cr ++ lf);;
  ret_val TEST_PASSED.

Definition sfn_backend_ns_tests : list (test_t (W * unit)) :=
  [TEST tfm_sfn_test_1001 "TFM_NS_SFN_TEST_1001" "Get PSA framework version";
   TEST tfm_sfn_test_1002 "TFM_NS_SFN_TEST_1002" "Get version of an RoT Service";
   TEST tfm_sfn_test_1003 "TFM_NS_SFN_TEST_1003" "Request a connection-based RoT Service";
   TEST (tfm_sfn_test_1004 true) "TFM_NS_SFN_TEST_1004" "Request a stateless RoT Service"] ++
  (if PSA_FRAMEWORK_HAS_MM_IOVEC then
   [TEST tfm_sfn_test_1005 "TFM_NS_SFN_TEST_1005" "Mapping input vectors and unmapping them";
    TEST tfm_sfn_test_1006 "TFM_NS_SFN_TEST_1006" "Mapping output vectors and unmapping them";
    TEST tfm_sfn_test_1007 "TFM_NS_SFN_TEST_1007" "Mapping output vectors and not unmapping them"] else []) ++
  [TEST tfm_sfn_test_1008 "TFM_NS_SFN_TEST_1008" "Request to a refused connection"].

Definition register_testsuite_ns_sfn_interface : TESTSUITE_REG (W * unit) :=
  register "SFN Backend NS test (TFM_NS_SFN_TEST_1XXX)" sfn_backend_ns_tests.

Definition sfn_backend_s_tests : list (test_t (W * unit)) :=
  [TEST tfm_sfn_test_1001 "TFM_S_SFN_TEST_1001" "Get PSA framework version";
   TEST tfm_sfn_test_1002 "TFM_S_SFN_TEST_1002" "Get version of an RoT Service";
   TEST tfm_sfn_test_1003 "TFM_S_SFN_TEST_1003" "Request a connection-based RoT Service";
   TEST (tfm_sfn_test_1004 false) "TFM_S_SFN_TEST_1004" "Request a stateless RoT Service"] ++
  (if PSA_FRAMEWORK_HAS_MM_IOVEC then
   [TEST tfm_sfn_test_1005 "TFM_S_SFN_TEST_1005" "Mapping input vectors and unmapping them";
    TEST tfm_sfn_test_1006 "TFM_S_SFN_TEST_1006" "Mapping output vectors and unmapping them";
    TEST tfm_sfn_test_1007 "TFM_S_SFN_TEST_1007" "Mapping output vectors and not unmapping them"] else []) ++
  [TEST tfm_sfn_test_1008 "TFM_NS_SFN_TEST_1008" "Request to a refused connection"].

Definition register_testsuite_s_sfn_interface : TESTSUITE_REG (W * unit) :=
  register "SFN Backend Secure test (TFM_S_SFN_TEST_1XXX)" sfn_backend_s_tests.
End sfn.

(** ** The suites pass *)

Section sfn_proofs.
  Context {FC : FfmConsts} {FCL : FfmConstsLaws} {MF : Manifest} {SGL : SignalLaws sfn_test_services}.
  Context {provides : Z -> option (nat * service)} {msg_handle : Z -> Z}.
  Context {W : Type} {FW : Framework W} {FL : FrameworkLaws provides msg_handle W}.
  Context {SB : SfnBackend W} {SFL : SfnLaws W}.
  Variables (mm : bool) (c : Z) (client_api_tests_c mmiovec_test_c sfn_backend_tests_c : string).
  Hypothesis Hservice : forall s, s ∈ sfn_test_services -> provides (sv_sid s) = Some (sfn_partition, s).

Ltac in_services := unfold sfn_test_services; set_solver.

Abbreviation code := (sfn_code mm).

Lemma sfn_calls s fn q f d Q : (s, fn) ∈ sfn_functions (FW := FW) mm -> wk_sid q = sv_sid s -> wk_got q = false ->
  wps ffm_of (status ← fn (wk_msg q); on_spm (psa_reply sfn_partition (m_handle (wk_msg q)) status)) Q
    (set_work sfn_partition (got q) f) d ->
  wps ffm_of (code sfn_partition) Q (set_work sfn_partition q f) d.
Proof.
  intros Hin Hq Hg HQ. change (code sfn_partition) with (sfn_dispatch sfn_partition (sfn_functions (FW := FW) mm)).
  eapply law_sfn_dispatch; [exact Hin | exact SGL | | done | done | exact HQ].
  by apply (bool_decide_unpack (NoDup sfn_test_services)).
Qed.

Ltac sfn s fn := eapply (sfn_calls s fn); [unfold sfn_functions; set_solver | reflexivity | reflexivity |].

Lemma connection_answers t : t = PSA_IPC_CONNECT \/ t = PSA_IPC_DISCONNECT ->
  answers (code sfn_partition) sfn_partition (sv_sid SFN_TEST_CONNECTION_BASED) t PSA_SUCCESS.
Proof.
  intros Ht mh c' rh iv ov f d Q HQ. sfn SFN_TEST_CONNECTION_BASED (sfn_test_connection_based_sfn (FW := FW)).
  unfold sfn_test_connection_based_sfn. cbn [wk_msg new_work m_type].
  destruct Ht as [-> | ->]; rewrite Z.eqb_refl, ?orb_true_r; repeat sv_step; exact HQ.
Qed.

Lemma refused_answers : answers (code sfn_partition) sfn_partition (sv_sid SFN_TEST_CONNECTION_REFUSED) PSA_IPC_CONNECT
  PSA_ERROR_CONNECTION_REFUSED.
Proof.
  intros mh c' rh iv ov f d Q HQ. sfn SFN_TEST_CONNECTION_REFUSED (sfn_test_connection_refused_sfn (W := W)).
  unfold sfn_test_connection_refused_sfn. cbn [wk_msg new_work m_type]. rewrite Z.eqb_refl. repeat sv_step. exact HQ.
Qed.

Lemma connection_serves : serves_rot code c sfn_partition SFN_TEST_CONNECTION_BASED.
Proof.
  intros mh rh f d Q HQ. sfn SFN_TEST_CONNECTION_BASED (sfn_test_connection_based_sfn (FW := FW)).
  unfold sfn_test_connection_based_sfn. cbn [wk_msg new_work m_type]. ffm_consts. apply wps_bind. sv_if. sv_if.
  apply rot_srv_ok. repeat sv_step. exact HQ.
Qed.

Lemma stateless_sfn_serves : serves_rot code c sfn_partition SFN_TEST_STATELESS /\ (mm = true ->
  serves_invec code c sfn_partition SFN_TEST_STATELESS /\ serves_outvec code c sfn_partition SFN_TEST_STATELESS /\
  serves_outvec_only code c sfn_partition SFN_TEST_STATELESS).
Proof.
  split; [|intros Hmm; split_and!]; intros mh rh f d Q HQ; sfn SFN_TEST_STATELESS (sfn_test_stateless_sfn (FW := FW) mm);
    unfold sfn_test_stateless_sfn; cbn [wk_msg new_work m_type]; ffm_consts; apply wps_bind.
  - sv_if. rewrite Z.eqb_refl. apply rot_srv_ok. repeat sv_step. exact HQ.
  - rewrite Hmm. sv_run. exact HQ.
  - rewrite Hmm. sv_run. exact HQ.
  - rewrite Hmm. sv_run. exact HQ.
Qed.

Abbreviation passing m := (forall d, test_passes ffm_of m idle d idle d).

Lemma sfn_1003_passes : passing (tfm_sfn_test_1003 mm c client_api_tests_c sfn_backend_tests_c).
Proof.
  intros d. unfold tfm_sfn_test_1003, test_passes. repeat tstep.
  eapply wps_connect; [apply Hservice; in_services | done | done | apply connection_answers; by left |].
  intros h Hh%Z.ltb_lt _. apply twp_bind, twp_fail_if; [ffm_consts; by rewrite Hh|]. apply twp_bind, twp_call_body.
  apply (rot_connection_passes code c client_api_tests_c sfn_partition SFN_TEST_CONNECTION_BASED);
    [apply Hservice; in_services | apply connection_serves |]. repeat tstep.
  eapply (wps_close code SFN_TEST_CONNECTION_BASED _ _ _ (mkConn (sv_sid SFN_TEST_CONNECTION_BASED) 0 false));
    [apply Hservice; in_services | done | apply conn_with_conn | apply connection_answers; by right |].
  by rewrite drop_with_conn.
Qed.

Lemma sfn_1004_passes ns : (ns = true -> c < 0) -> passing (tfm_sfn_test_1004 mm c client_api_tests_c sfn_backend_tests_c ns).
Proof.
  intros Hc d. unfold tfm_sfn_test_1004, test_passes. apply twp_bind.
  assert (passing (request_rot_service_test code c client_api_tests_c (stateless_handle (sv_sid SFN_TEST_STATELESS)))) as Hr.
  { apply (rot_stateless_passes code c client_api_tests_c sfn_partition SFN_TEST_STATELESS);
      [apply Hservice; in_services | done | apply stateless_sfn_serves]. }
  destruct ns; [|by apply twp_ret, Hr]. repeat tstep.
  eapply law_connect_stateless; [by apply (Hservice SFN_TEST_STATELESS); in_services | done | by apply Hc |].
  apply twp_fail_if; [by ffm_consts|]. apply Hr.
Qed.

Lemma sfn_1008_passes : passing (tfm_sfn_test_1008 mm c sfn_backend_tests_c).
Proof.
  intros d. unfold tfm_sfn_test_1008, test_passes. repeat tstep.
  eapply (law_connect _ _ _ _ sfn_partition SFN_TEST_CONNECTION_REFUSED); [apply Hservice; in_services | done | done | done |].
  intros h Hh _. apply refused_answers. eexists _, _. split; [apply active_set_work|]. split; [done|]. ffm_consts. cbn.
  split; [done|]. rewrite end_set_work by done. ffm_consts. by repeat tstep.
Qed.

Ltac pass lem := eapply passes_step; [by apply lem|].

(** The two suites differ in test 1004 and in the names of their tests. *)
Lemma sfn_tests_pass ts ns : (ns = true -> c < 0) -> ts = (if ns then sfn_backend_ns_tests else sfn_backend_s_tests)
    mm c client_api_tests_c mmiovec_test_c sfn_backend_tests_c ->
  all_pass ts (in_state idle tt) (in_state idle tt).
Proof.
  intros Hc ->. destruct stateless_sfn_serves as [_ Hmm].
  pose proof (invec_passes code c mmiovec_test_c sfn_partition _ (Hservice SFN_TEST_STATELESS ltac:(in_services)) eq_refl) as H5.
  pose proof (outvec_passes code c mmiovec_test_c sfn_partition _ (Hservice SFN_TEST_STATELESS ltac:(in_services)) eq_refl) as H6.
  pose proof (outvec_only_passes code c mmiovec_test_c sfn_partition _ (Hservice SFN_TEST_STATELESS ltac:(in_services)) eq_refl) as H7.
  pose proof (version_passes (D := unit) client_api_tests_c sfn_partition _ (Hservice SFN_TEST_STATELESS ltac:(in_services)) ltac:(done)) as H2.
  pose proof (framework_version_passes (D := unit) client_api_tests_c) as H1. pose proof sfn_1003_passes as H3. pose proof (sfn_1004_passes ns Hc) as H4. pose proof sfn_1008_passes as H8.
  destruct ns; unfold sfn_backend_ns_tests, sfn_backend_s_tests; cbn [app]; pass H1; pass H2; pass H3; pass H4.
  all: destruct mm; cbn [app].
  all: try (destruct Hmm as (? & ? & ?); [done|]; pass H5; pass H6; pass H7).
  all: pass H8; constructor.
Qed.

End sfn_proofs.

Section sfn_theorem.
  Context {FC : FfmConsts} {FCL : FfmConstsLaws} {MF : Manifest} {SGL : SignalLaws sfn_test_services}.
  Context {provides : Z -> option (nat * service)} {msg_handle : Z -> Z}.
  Context {W : Type} {FW : Framework W} {FL : FrameworkLaws provides msg_handle W}.
  Context {SB : SfnBackend W} {SFL : SfnLaws W}.
  Variables (mm : bool) (c cs : Z) (client_api_tests_c mmiovec_test_c sfn_backend_tests_c : string).
  Hypothesis Hservice : forall s, s ∈ sfn_test_services -> provides (sv_sid s) = Some (sfn_partition, s).

(** C31. The SFN suites of both sides pass, with the functions of the partition,
    on every framework that meets the laws ([FrameworkLaws] for clients and
    messages, [SfnLaws] for the call of the function of a service), and leave
    no connection open. *)
Theorem sfn_suites_pass fs (w w' : W * unit) l l' : c < 0 -> ffm_of w.1 = idle -> ffm_of w'.1 = idle ->
  (exists ts w1 l1,
    run_testsuite (Some (mkSuite (Some (register_testsuite_ns_sfn_interface mm c client_api_tests_c mmiovec_test_c
      sfn_backend_tests_c)) fs)) (w, l) = Some ((TEST_SUITE_ERR_NO_ERROR, Some ts), (w1, l1)) /\
    suite_val (fields ts) = TEST_PASSED /\ ffm_of w1.1 = idle) /\
  (exists ts w1 l1,
    run_testsuite (Some (mkSuite (Some (register_testsuite_s_sfn_interface mm cs client_api_tests_c mmiovec_test_c
      sfn_backend_tests_c)) fs)) (w', l') = Some ((TEST_SUITE_ERR_NO_ERROR, Some ts), (w1, l1)) /\
    suite_val (fields ts) = TEST_PASSED /\ ffm_of w1.1 = idle).
Proof.
  intros Hc Hw Hw'.
  pose proof (sfn_tests_pass mm c client_api_tests_c mmiovec_test_c sfn_backend_tests_c Hservice _ true (fun _ => Hc) eq_refl) as Hn.
  pose proof (sfn_tests_pass mm cs client_api_tests_c mmiovec_test_c sfn_backend_tests_c Hservice _ false ltac:(done) eq_refl) as Hs.
  destruct w as [w []], w' as [w' []]. split.
  - destruct (all_pass_run "SFN Backend NS test (TFM_NS_SFN_TEST_1XXX)" _ _ _ fs (w, tt) l Hn)
      as (ts & w1 & l1 & Hr & Hv & Hf & _); [done | by destruct mm | by destruct mm |]. by exists ts, w1, l1.
  - destruct (all_pass_run "SFN Backend Secure test (TFM_S_SFN_TEST_1XXX)" _ _ _ fs (w', tt) l' Hs)
      as (ts & w1 & l1 & Hr & Hv & Hf & _); [done | by destruct mm | by destruct mm |]. by exists ts, w1, l1.
Qed.
End sfn_theorem.

(** ** A back end that meets the law *)

Section reference_backend.
  Context {FC : FfmConsts} {MF : Manifest} {provides : Z -> option (nat * service)} {msg_handle : Z -> Z}.
  Context {W : Type} {FW : Framework W} {FL : FrameworkLaws provides msg_handle W}.

(** It waits for the message and replies like a partition of the IPC model. *)
Definition ref_dispatch {D} (p : nat) (functions : list (service * (psa_msg_t -> SP (W * D) Z))) : SP (W * D) unit :=
  signals ← on_spm (psa_wait p PSA_WAIT_ANY PSA_BLOCK);
  match List.find (fun sf => asserted signals sf.1) functions with
  | Some (s, fn) =>
      '(_, msg) ← on_spm (psa_get p (signal (sv_sid s)));
      status ← fn msg;
      on_spm (psa_reply p (m_handle msg) status)
  | None => psa_panic
  end.

#[export] Instance ref_sfn : SfnBackend W := {| sfn_dispatch _ := ref_dispatch |}.

Lemma find_function {D} (functions : list (service * (psa_msg_t -> SP (W * D) Z))) s fn :
  (s, fn) ∈ functions -> SignalLaws functions.*1 -> NoDup functions.*1 ->
  List.find (fun sf => asserted (signal (sv_sid s)) sf.1) functions = Some (s, fn).
Proof.
  intros Hin HS HN.
  assert (forall sf, sf ∈ functions -> asserted (signal (sv_sid s)) sf.1 = bool_decide (s = sf.1)) as Ha.
  { intros sf Hsf. apply (asserted_iff functions.*1).
    - by apply (list_elem_of_fmap_2 fst _ (s, fn)).
    - by apply (list_elem_of_fmap_2 fst). }
  clear HS. induction functions as [|[s1 fn1] l IH]; [by apply elem_of_nil in Hin|].
  cbn [fmap list_fmap fst] in HN. apply NoDup_cons in HN as [Hn HN]. cbn [List.find]. rewrite (Ha (s1, fn1)) by left. cbn [fst].
  case_bool_decide as He.
  - subst s1. apply elem_of_cons in Hin as [Hin|Hin]; [by simplify_eq|].
    destruct Hn. by apply (list_elem_of_fmap_2 fst _ (s, fn)).
  - apply elem_of_cons in Hin as [Hin|Hin]; [by simplify_eq|]. apply IH; [done | done |]. intros sf Hsf. apply Ha. by right.
Qed.

#[export] Instance ref_sfn_laws : SfnLaws W.
Proof.
  split. intros D p functions s fn q Q f d Hin HS HN Hq Hg HQ. cbn. unfold ref_dispatch.
  apply wps_bind, wps_wait; [done|]. rewrite Hq, (find_function functions s fn) by done.
  apply wps_bind, wps_get; [by rewrite Hq | done |]. exact HQ.
Defined.
End reference_backend.

Section sfn_witness.

Definition sfn_provides : Z -> option (nat * service) := provides_of ((fun s => (sfn_partition, s)) <$> sfn_test_services).

#[local] Instance sfn_signals : SignalLaws sfn_test_services.
Proof. by apply signals_apart_laws. Qed.

Lemma sfn_provides_all : Forall (fun s => sfn_provides (sv_sid s) = Some (sfn_partition, s)) sfn_test_services.
Proof. by repeat constructor. Qed.

Lemma sfn_suites_pass_witness : exists ts w1 l1,
  run_testsuite (Some (mkSuite (Some (register_testsuite_ns_sfn_interface (FW := ref_framework sfn_provides)
      (SB := ref_sfn (FW := ref_framework sfn_provides)) true (-1)
      "client_api_tests.c" "mmiovec_test.c" "sfn_backend_tests.c")) (mkFields [] 0 None TEST_PASSED)))
    ((idle, tt), []) = Some ((TEST_SUITE_ERR_NO_ERROR, Some ts), (w1, l1)) /\
  suite_val (fields ts) = TEST_PASSED /\ w1.1 = idle.
Proof.
  destruct (sfn_suites_pass (FL := ref_framework_laws sfn_provides) (SB := ref_sfn (FW := ref_framework sfn_provides)) true (-1) 0x110
    "client_api_tests.c" "mmiovec_test.c" "sfn_backend_tests.c" (proj1 (Forall_forall _ _) sfn_provides_all)
    (mkFields [] 0 None TEST_PASSED) (idle, tt) (idle, tt) [] [] ltac:(done) ltac:(done) ltac:(done)) as [H _].
  exact H.
Defined.
End sfn_witness.
