(* ===== verification/Regression.v ===== *)
(** * The regression runs

    The tables of suites of ns_regression/non_secure_suites.c and
    secure_regression/secure_suites.c, the functions that run them, and their
    callers: the test thread of tests_reg/test_app.c and the secure client
    service.  The suites of other components are arguments.  The theorems put the
    suites of ITS and PS, the test framework and the tables together. *)

From S2P Require Import Prelude LogRaw TestFramework TestProg PsaStorage StorageTactics ItsTests SecureClient2 ItsProofs PsSTests PsSProofs PsNsTests PsNsProofs Ffm IpcTests SpmRules FfmRef SfnTests.
Local Open Scope Z_scope.

(** ** Suites in a larger world

    A suite works on a part of the system: its static variables and the
    service that it calls. *)

Record view (S W : Type) := mkView { look : S -> W; store : W -> S -> S }.
Arguments mkView {S W} _ _.
Arguments look {S W} _ _.
Arguments store {S W} _ _ _.

Section lift.
  Context {S W : Type} (v : view S W).

Definition lift_fun (f : TEST_FUN W) : TEST_FUN S := fun ret s =>
  '(ret, w, l) ← f ret (look v s); Some (ret, store v w s, l).

Definition lift_test (t : test_t W) : test_t S := mkTest (lift_fun <$> test t) (name t) (desc t).

Definition lift_fields (fs : suite_fields W) : suite_fields S :=
  mkFields (lift_test <$> test_list fs) (list_size fs) (suite_name fs) (suite_val fs).

(** The registration overwrites the list of tests. *)
Definition lift_reg (reg : TESTSUITE_REG W) : TESTSUITE_REG S := fun fs s =>
  '(fs, w) ← reg (mkFields [] (list_size fs) (suite_name fs) (suite_val fs)) (look v s);
  Some (lift_fields fs, store v w s).
End lift.

(** ** The tables *)

(** [{&reg, 0, 0, 0}] under its #ifdef *)
Definition entry {W} (enabled : bool) (reg : TESTSUITE_REG W) : list (test_suite_t W) :=
  if enabled then [mkSuite (Some reg) (mkFields [] 0 None TEST_PASSED)] else [].

Record ns_flags := mkNsFlags {
  TEST_NS_IPC : bool; TEST_NS_SFN_BACKEND : bool; TEST_NS_PS : bool; TEST_NS_ITS : bool; TEST_NS_CRYPTO : bool;
  TEST_NS_PLATFORM : bool; TEST_NS_ATTESTATION : bool; TEST_NS_QCBOR : bool; TEST_NS_T_COSE : bool;
  TEST_NS_FWU : bool; TEST_NS_MULTI_CORE : bool; TEST_NS_MANAGE_NSID : bool; TEST_NS_SLIH_IRQ : bool;
  TEST_NS_FLIH_IRQ : bool; TEST_NS_FPU : bool; EXTRA_NS_TEST_SUITE : bool;
}.

(** The suites of other components. *)
Record ns_suites (W : Type) := mkNsSuites {
  register_testsuite_ns_ipc_interface : TESTSUITE_REG W;
  register_testsuite_ns_sfn_interface : TESTSUITE_REG W;
  register_testsuite_ns_crypto_interface : TESTSUITE_REG W;
  register_testsuite_ns_platform_interface : TESTSUITE_REG W;
  register_testsuite_ns_attestation_interface : TESTSUITE_REG W;
  register_testsuite_ns_qcbor : TESTSUITE_REG W;
  register_testsuite_ns_t_cose : TESTSUITE_REG W;
  register_testsuite_ns_psa_fwu_interface : TESTSUITE_REG W;
  register_testsuite_multi_core_ns_interface : TESTSUITE_REG W;
  register_testsuite_nsid_test : TESTSUITE_REG W;
  register_testsuite_irq_test : TESTSUITE_REG W;
  register_testsuite_ns_fpu_interface : TESTSUITE_REG W;
  register_testsuite_extra_ns_interface : TESTSUITE_REG W;
}.

(** [test_suites] of non_secure_suites.c; [ps] and [its] register the suites
    of PS and ITS. *)
Definition ns_test_suites {W} (f : ns_flags) (o : ns_suites W) (ps its : TESTSUITE_REG W) : list (test_suite_t W) :=
  entry (TEST_NS_IPC f) (register_testsuite_ns_ipc_interface _ o) ++
  entry (TEST_NS_SFN_BACKEND f) (register_testsuite_ns_sfn_interface _ o) ++
  entry (TEST_NS_PS f) ps ++
  entry (TEST_NS_ITS f) its ++
  entry (TEST_NS_CRYPTO f) (register_testsuite_ns_crypto_interface _ o) ++
  entry (TEST_NS_PLATFORM f) (register_testsuite_ns_platform_interface _ o) ++
  entry (TEST_NS_ATTESTATION f) (register_testsuite_ns_attestation_interface _ o) ++
  entry (TEST_NS_QCBOR f) (register_testsuite_ns_qcbor _ o) ++
  entry (TEST_NS_T_COSE f) (register_testsuite_ns_t_cose _ o) ++
  entry (TEST_NS_FWU f) (register_testsuite_ns_psa_fwu_interface _ o) ++
  entry (TEST_NS_MULTI_CORE f) (register_testsuite_multi_core_ns_interface _ o) ++
  entry (TEST_NS_MANAGE_NSID f) (register_testsuite_nsid_test _ o) ++
  entry (TEST_NS_SLIH_IRQ f || TEST_NS_FLIH_IRQ f) (register_testsuite_irq_test _ o) ++
  entry (TEST_NS_FPU f) (register_testsuite_ns_fpu_interface _ o) ++
  entry (EXTRA_NS_TEST_SUITE f) (register_testsuite_extra_ns_interface _ o) ++
  [sentinel].

Record s_flags := mkSFlags {
  TEST_S_IPC : bool; TEST_S_SFN_BACKEND : bool; TEST_S_PS : bool; PS_TEST_NV_COUNTERS : bool;
  PS_ROLLBACK_PROTECTION : bool; TEST_S_ITS : bool; TEST_S_CRYPTO : bool; TEST_S_ATTESTATION : bool;
  TEST_S_PLATFORM : bool; TEST_S_FWU : bool; TEST_S_FPU : bool; EXTRA_S_TEST_SUITE : bool;
}.

Record s_suites (W : Type) := mkSSuites {
  register_testsuite_s_ipc_interface : TESTSUITE_REG W;
  register_testsuite_s_sfn_interface : TESTSUITE_REG W;
  s_rollback_protection : TESTSUITE_REG W;
  register_testsuite_s_crypto_interface : TESTSUITE_REG W;
  register_testsuite_s_attestation_interface : TESTSUITE_REG W;
  register_testsuite_s_platform_interface : TESTSUITE_REG W;
  register_testsuite_s_psa_fwu_interface : TESTSUITE_REG W;
  register_testsuite_s_fpu_interface : TESTSUITE_REG W;
  register_testsuite_extra_s_interface : TESTSUITE_REG W;
}.

Definition s_test_suites {W} (f : s_flags) (o : s_suites W) (ps ps_reliability its its_reliability : TESTSUITE_REG W) :
    list (test_suite_t W) :=
  entry (TEST_S_IPC f) (register_testsuite_s_ipc_interface _ o) ++
  entry (TEST_S_SFN_BACKEND f) (register_testsuite_s_sfn_interface _ o) ++
  entry (TEST_S_PS f) ps ++
  entry (TEST_S_PS f) ps_reliability ++
  entry (TEST_S_PS f && PS_TEST_NV_COUNTERS f && PS_ROLLBACK_PROTECTION f) (s_rollback_protection _ o) ++
  entry (TEST_S_ITS f) its ++
  entry (TEST_S_ITS f) its_reliability ++
  entry (TEST_S_CRYPTO f) (register_testsuite_s_crypto_interface _ o) ++
  entry (TEST_S_ATTESTATION f) (register_testsuite_s_attestation_interface _ o) ++
  entry (TEST_S_PLATFORM f) (register_testsuite_s_platform_interface _ o) ++
  entry (TEST_S_FWU f) (register_testsuite_s_psa_fwu_interface _ o) ++
  entry (TEST_S_FPU f) (register_testsuite_s_fpu_interface _ o) ++
  entry (EXTRA_S_TEST_SUITE f) (register_testsuite_extra_s_interface _ o) ++
  [sentinel].

(** ** The runs *)

Section runs.
  Context {W : Type}.
  Abbreviation T := (M (W * list log_event)).

(** The tables are static variables: what becomes of them is a result. *)
Definition ns_reg_test_start (test_suites : list (test_suite_t W)) : T (test_suite_err_t * list (test_suite_t W)) :=
  run_test "Non-secure" test_suites.

Definition setup_integ_test : T unit := mret tt.
Definition tear_down_integ_test : T unit := mret tt.

Definition s_reg_test_start (test_suites : list (test_suite_t W)) : T (test_suite_err_t * list (test_suite_t W)) :=
  setup_integ_test;;
  '(retval, test_suites) ← run_test "Secure" test_suites;
  tear_down_integ_test;;
  mret (retval, test_suites).

Definition eot : string := String (Ascii.ascii_of_nat 4) "".

(** [test_app] of tests_reg: the tables when the thread exits.  [ns_reg] is
    TFM_NS_REG_TEST. *)
Definition test_app (ns_reg : bool) (test_suites : list (test_suite_t W)) : T (list (test_suite_t W)) :=
  '(test_suites) ← (if ns_reg then '(_, test_suites) ← ns_reg_test_start test_suites; mret test_suites
                    else mret test_suites);
  TEST_LOG eot [];;
  mret test_suites.

(** How the initialisation of the secure client service ends. *)
Inductive service_end := ServiceReturns (status : Z) | ServicePanics.

(** [psa_wait] is the framework's; [ipc] is the partition model. *)
Definition tfm_secure_client_service_init (psa_wait : T Z) (TFM_SECURE_CLIENT_SRV_DUMMY_SIGNAL : Z) (ipc : bool)
    (test_suites : list (test_suite_t W)) : T (service_end * list (test_suite_t W)) :=
  '(_, test_suites) ← s_reg_test_start test_suites;
  if ipc then
    signals ← psa_wait;
    if negb (Z.land signals TFM_SECURE_CLIENT_SRV_DUMMY_SIGNAL =? 0) then mret (ServicePanics, test_suites)
    else mret (ServiceReturns 0, test_suites)
  else mret (ServiceReturns 0, test_suites).
End runs.

(** ** Suites that pass, one after the other *)

Section chains.
  Context {W : Type}.
  Implicit Types (I J : W -> Prop) (reg : TESTSUITE_REG W) (suites : list (test_suite_t W)).

(** From a world in [I] the suite registers correctly, passes, and ends in [J]. *)
Definition suite_passes reg I J : Prop :=
  forall fs w, I w -> exists fs' w1 vs ret w2, registers reg fs fs' w w1 /\
    exec_tests (take (Z.to_nat (list_size fs')) (test_list fs')) zero_result w1 = Some (vs, ret, w2) /\
    verdict vs = TEST_PASSED /\ J w2.

Inductive all_suites_pass : list (test_suite_t W) -> (W -> Prop) -> (W -> Prop) -> Prop :=
  | no_suites I : all_suites_pass [] I I
  | one_suite reg fs suites I I' J :
      suite_passes reg I I' -> all_suites_pass suites I' J ->
      all_suites_pass (mkSuite (Some reg) fs :: suites) I J.

Lemma all_pass_suite nm ts I J : all_pass ts I J -> ts <> [] -> Z.of_nat (length ts) < 2 ^ 32 ->
  suite_passes (register nm ts) I J.
Proof.
  intros Hall Hne Hlen fs w HI. destruct (all_pass_exec ts I J zero_result w Hall HI) as (ret & w2 & Hex & HJ).
  assert (0 < Z.of_nat (length ts)) by (destruct ts; [done | simpl; lia]).
  eexists _, w, _, ret, w2. split; [|split; [|split; [|exact HJ]]].
  - split; [done | by eexists | simpl; lia | simpl; lia |]. apply Forall_take. by eapply all_pass_valid.
  - cbn [list_size test_list]. rewrite Nat2Z.id, firstn_all. exact Hex.
  - unfold verdict. rewrite decide_False; [done|]. intros [? _]%elem_of_replicate. done.
Qed.

Lemma all_suites_app suites suites' I I' J :
  all_suites_pass suites I I' -> all_suites_pass suites' I' J -> all_suites_pass (suites ++ suites') I J.
Proof. induction 1; [done|]. intros. cbn. econstructor; eauto. Qed.

Lemma entry_passes b reg I J : (b = true -> suite_passes reg I J) -> (b = false -> I = J) ->
  all_suites_pass (entry b reg) I J.
Proof.
  intros Ht Hf. destruct b; cbn; [|rewrite Hf by done; constructor].
  eapply one_suite; [by apply Ht|]. constructor.
Qed.

Lemma all_suites_exec suites I J w : all_suites_pass suites I J -> I w ->
  exists rs w', suites_ok suites w /\ exec_suites suites w = Some (rs, w') /\ Forall (eq TEST_PASSED) rs /\ J w'.
Proof.
  intros H. revert w. induction H as [I|reg fs suites I I' J Hs Hall IH]; intros w HI.
  { exists [], w. by repeat split. }
  destruct (Hs fs w HI) as (fs' & w1 & vs & ret & w2 & Hr & Hex & Hv & HI').
  destruct (IH w2 HI') as (rs & w' & Hok & Hes & Hrs & HJ). exists (TEST_PASSED :: rs), w'. split_and!.
  - cbn. by exists reg, fs', w1, vs, ret, w2.
  - cbn. rewrite (reg_call _ _ _ _ _ Hr). cbn. rewrite Hex. cbn. rewrite Hes, Hv. done.
  - by constructor.
  - done.
Qed.
End chains.

(** A suite that passes on its part passes in the system. *)
Section lifted.
  Context {S W : Type} (v : view S W).
  Context (Hv : forall w s, look v (store v w s) = w).

Lemma lift_exec (K : S -> Prop) tests ret s vs ret' w' :
  (forall w s, K s -> K (store v w s)) -> K s ->
  exec_tests tests ret (look v s) = Some (vs, ret', w') ->
  exists s', exec_tests (lift_test v <$> tests) ret s = Some (vs, ret', s') /\ look v s' = w' /\ K s'.
Proof.
  intros HK. revert ret s vs ret' w'. induction tests as [|t tests IH]; intros ret s vs ret' w' Hs H.
  { injection H as <- <- <-. by exists s. }
  cbn in H |- *. destruct (test t) as [f|]; [|done]. cbn in H |- *. unfold lift_fun.
  destruct (f _ (look v s)) as [[[r w1] l1]|]; [|done]. cbn in H |- *.
  destruct (exec_tests tests r w1) as [[[vs1 r1] w2]|] eqn:He; [|done]. injection H as <- <- <-.
  rewrite <- (Hv w1 s) in He. destruct (IH _ _ _ _ _ (HK _ _ Hs) He) as (s' & -> & Hl & Hk). by exists s'.
Qed.

Lemma lift_valid tests : Forall test_valid tests -> Forall test_valid (lift_test v <$> tests).
Proof.
  intros H. apply Forall_fmap. eapply Forall_impl; [exact H|]. intros t (? & ? & ?).
  split_and!; [by apply fmap_is_Some | done..].
Qed.

Lemma lift_suite_passes reg (I J : W -> Prop) (K : S -> Prop) :
  (forall w s, K s -> K (store v w s)) -> suite_passes reg I J ->
  suite_passes (lift_reg v reg) (fun s => I (look v s) /\ K s) (fun s => J (look v s) /\ K s).
Proof.
  intros HK Hp fs s [HI Hs].
  destruct (Hp (mkFields [] (list_size fs) (suite_name fs) (suite_val fs)) (look v s) HI)
    as (fs' & w1 & vs & ret & w2 & [Hc Hn Hz Hl Ht] & Hex & Hvd & HJ).
  rewrite <- (Hv w1 s) in Hex.
  destruct (lift_exec K _ _ _ _ _ _ HK (HK w1 s Hs) Hex) as (s' & Hex' & Hw & HK').
  exists (lift_fields v fs'), (store v w1 s), vs, ret, s'. split_and!; [|by rewrite <- Hex', fmap_take | done | by rewrite Hw | done].
  split; [by unfold lift_reg; rewrite Hc | done | done | by cbn; rewrite length_fmap |].
  cbn. rewrite <- fmap_take. by apply lift_valid.
Qed.
End lifted.

Lemma suite_passes_impl {W} reg (I I' J J' : W -> Prop) :
  (forall w, I' w -> I w) -> (forall w, J w -> J' w) -> suite_passes reg I J -> suite_passes reg I' J'.
Proof.
  intros HI HJ H fs w Hw. destruct (H fs w (HI w Hw)) as (fs' & w1 & vs & ret & w2 & ? & ? & ? & ?).
  exists fs', w1, vs, ret, w2. eauto.
Qed.

(** ** The system of the storage suites

    The two services, the static variables of the files of suites, and what the
    suites of other components work on. *)

Record system (PV IV X : Type) := mkSystem {
  ps_service : PV;
  its_service : IV;
  ps_statics : list Z * Z;
  its_statics : list Z * Z;
  rest : X;
}.
Arguments mkSystem {PV IV X} _ _ _ _ _.
Arguments ps_service {PV IV X} _.
Arguments its_service {PV IV X} _.
Arguments ps_statics {PV IV X} _.
Arguments its_statics {PV IV X} _.
Arguments rest {PV IV X} _.

Definition ps_view {PV IV X} : view (system PV IV X) (storage_world PV) := {|
  look s := mkWorld (ps_service s) (ps_statics s).1 (ps_statics s).2;
  store w s := mkSystem (w_svc w) (its_service s) (read_asset_data w, read_asset_data_len w) (its_statics s) (rest s);
|}.

Definition its_view {PV IV X} : view (system PV IV X) (storage_world IV) := {|
  look s := mkWorld (its_service s) (its_statics s).1 (its_statics s).2;
  store w s := mkSystem (ps_service s) (w_svc w) (ps_statics s) (read_asset_data w, read_asset_data_len w) (rest s);
|}.

Definition rest_view {PV IV X} : view (system PV IV X) X := {|
  look := rest;
  store x s := mkSystem (ps_service s) (its_service s) (ps_statics s) (its_statics s) x;
|}.

Lemma ps_view_law {PV IV X} w (s : system PV IV X) : look ps_view (store ps_view w s) = w.
Proof. by destruct w. Qed.

Lemma its_view_law {PV IV X} w (s : system PV IV X) : look its_view (store its_view w s) = w.
Proof. by destruct w. Qed.

Section stores.
  Context {PC : PsaConsts}.
  Context {PS_MAX_ASSET_SIZE : Z} {PS_NUM_ASSETS : nat} {ps_supported : Z -> bool}.
  Context {PV : Type} {PSS : StorageService PV}.
  Context {PSL : StorageLaws PS_MAX_ASSET_SIZE PS_NUM_ASSETS ps_supported PV}.
  Context {ITS_MAX_ASSET_SIZE : Z} {ITS_NUM_ASSETS : nat} {its_supported : Z -> bool}.
  Context {IV X : Type} {ISS : StorageService IV}.
  Context {ISL : StorageLaws ITS_MAX_ASSET_SIZE ITS_NUM_ASSETS its_supported IV}.

(** Client [c] runs and the assets of the services are [mp] and [mi]. *)
Definition stores (c : Z) (mp mi : assets_map) (s : system PV IV X) : Prop :=
  in_world c mp (look ps_view s) /\ in_world c mi (look its_view s).

Lemma on_ps reg c mp mp' mi : suite_passes reg (in_world c mp) (in_world c mp') ->
  suite_passes (lift_reg ps_view reg) (stores c mp mi) (stores c mp' mi).
Proof.
  apply (lift_suite_passes ps_view ps_view_law reg _ _ (fun s => in_world c mi (look its_view s))). done.
Qed.

Lemma on_its reg c mp mi mi' : suite_passes reg (in_world c mi) (in_world c mi') ->
  suite_passes (lift_reg its_view reg) (stores c mp mi) (stores c mp mi').
Proof.
  intros H. eapply suite_passes_impl; [| |apply (lift_suite_passes its_view its_view_law reg (in_world c mi) (in_world c mi')
    (fun s => in_world c mp (look ps_view s))); [done | exact H]]; by intros w [? ?].
Qed.

(** ** Tables with suites of other components

    An entry is marked when its suite is another component's. *)

Abbreviation marked := (list (bool * test_suite_t (system PV IV X))).

Definition mark (b : bool) (suites : list (test_suite_t (system PV IV X))) : marked := pair b <$> suites.

(** From [s] the suite registers correctly, its tests are defined and come to
    the verdict [v], and the assets of [c]'s world are given back. *)
Definition comes_to (c : Z) (ts : test_suite_t (system PV IV X)) (s : system PV IV X) (v : test_status_t) : Prop :=
  exists reg fs' s1 vs ret s', freg ts = Some reg /\ registers reg (fields ts) fs' s s1 /\
    exec_tests (take (Z.to_nat (list_size fs')) (test_list fs')) zero_result s1 = Some (vs, ret, s') /\ verdict vs = v /\
    forall mp mi, stores c mp mi s -> stores c mp mi s'.

(** Each suite of another component comes to a verdict in the very state in
    which the run of the table from [s] reaches it. *)
Definition others_end (c : Z) (l : marked) (s : system PV IV X) : Prop :=
  forall l1 ts l2 rs s1, l = l1 ++ (true, ts) :: l2 -> exec_suites l1.*2 s = Some (rs, s1) -> exists v, comes_to c ts s1 v.

(** The verdicts of the suites of other components, among those of all. *)
Definition other_verdicts (l : marked) (rs : list test_status_t) : list test_status_t :=
  snd <$> filter (fun e : bool * test_suite_t (system PV IV X) * test_status_t => e.1.1 = true) (zip l rs).

(** What the run comes to, from [s]. *)
Record goes (l : marked) (s : system PV IV X) (rs : list test_status_t) (s' : system PV IV X) : Prop := {
  goes_ok : suites_ok l.*2 s;
  goes_exec : exec_suites l.*2 s = Some (rs, s');
  goes_ours : Forall2 (fun e r => e.1 = false -> r = TEST_PASSED) l rs;
}.

Definition runs c (l : marked) (I J : system PV IV X -> Prop) : Prop :=
  forall s, I s -> others_end c l s -> exists rs s', goes l s rs s' /\ J s'.

Lemma suites_ok_app (l1 l2 : list (test_suite_t (system PV IV X))) s rs s' :
  suites_ok l1 s -> exec_suites l1 s = Some (rs, s') -> suites_ok l2 s' -> suites_ok (l1 ++ l2) s.
Proof.
  revert s rs. induction l1 as [|ts l1 IH]; intros s rs Hok Hex H2; [by injection Hex as <- <-|].
  destruct Hok as (reg & fs & w1 & vs & ret & w2 & Hf & Hr & Hv & Hok).
  apply exec_suites_cons in Hex as (reg' & fs' & w1' & vs' & ret' & w2' & rs' & Hf' & Hr' & Hv' & Hex & ->).
  rewrite Hf in Hf'. injection Hf' as <-. rewrite (reg_call _ _ _ _ _ Hr) in Hr'. injection Hr' as <- <-.
  rewrite Hv in Hv'. injection Hv' as <- <- <-. cbn. exists reg, fs, w1, vs, ret, w2. split_and!; eauto.
Qed.

Lemma exec_suites_app (l1 l2 : list (test_suite_t (system PV IV X))) s rs s' rs2 s2 :
  exec_suites l1 s = Some (rs, s') -> exec_suites l2 s' = Some (rs2, s2) -> exec_suites (l1 ++ l2) s = Some (rs ++ rs2, s2).
Proof.
  revert s rs. induction l1 as [|ts l1 IH]; intros s rs Hex H2; [by injection Hex as <- <-|].
  apply exec_suites_cons in Hex as (reg & fs & w1 & vs & ret & w2 & rs' & Hf & Hr & Hv & Hex & ->).
  cbn. rewrite Hf. cbn. rewrite Hr. cbn. rewrite Hv. cbn. rewrite (IH _ _ Hex H2). done.
Qed.

Lemma mark_suites b suites : (mark b suites).*2 = suites.
Proof. unfold mark. induction suites; [done | cbn; congruence]. Qed.

Lemma runs_nil c I : runs c [] I I.
Proof. intros s HI _. exists [], s. split; [|done]. by split. Qed.

Lemma runs_app c l1 l2 I I' J : runs c l1 I I' -> runs c l2 I' J -> runs c (l1 ++ l2) I J.
Proof.
  intros H1 H2 s HI Ho.
  destruct (H1 s HI) as (rs1 & s1 & [Hok1 Hex1 Hv1] & HI').
  { intros la ts lb rs s1 -> He. apply (Ho la ts (lb ++ l2) rs s1); [|done]. by rewrite <- app_assoc. }
  destruct (H2 s1 HI') as (rs2 & s2 & [Hok2 Hex2 Hv2] & HJ).
  { intros la ts lb rs s2 -> He. apply (Ho (l1 ++ la) ts lb (rs1 ++ rs) s2); [by rewrite <- app_assoc|].
    rewrite fmap_app. by eapply exec_suites_app. }
  exists (rs1 ++ rs2), s2. split; [|done]. split; [rewrite fmap_app; by eapply suites_ok_app
    | rewrite fmap_app; by eapply exec_suites_app | by apply Forall2_app].
Qed.

(** Suites that pass, with any number of them. *)
Lemma runs_ours c suites I J : all_suites_pass suites I J -> runs c (mark false suites) I J.
Proof.
  intros Hall s HI _. destruct (all_suites_exec _ _ _ _ Hall HI) as (rs & s' & Hok & Hex & Hrs & HJ).
  exists rs, s'. split; [|done].
  split; rewrite ?mark_suites; [done..|]. clear -Hrs Hex. apply Forall2_same_length_lookup_2.
  - unfold mark. rewrite length_fmap. revert s rs Hex Hrs. induction suites as [|ts suites IH]; intros s rs Hex Hrs; [by injection Hex as <- <-|].
    apply exec_suites_cons in Hex as (? & ? & ? & ? & ? & ? & rs' & _ & _ & _ & Hex & ->). cbn. f_equal. eapply IH; [exact Hex|].
    by apply Forall_cons in Hrs as [_ ?].
  - intros i e r _ Hr _. symmetry. by eapply Forall_lookup_1 in Hr.
Qed.

(** The entry of another component. *)
Lemma runs_other c b reg mp mi : runs c (mark true (entry b reg)) (stores c mp mi) (stores c mp mi).
Proof.
  destruct b; [|apply runs_nil]. intros s HI Ho.
  destruct (Ho [] _ [] [] s eq_refl eq_refl) as (v & reg' & fs' & s1 & vs & ret & s' & Hf & Hr & Hex & _ & Hk). injection Hf as <-.
  exists [verdict vs], s'. split; [|by apply Hk]. split.
  - cbn. by eexists _, fs', s1, vs, ret, s'.
  - pose proof (reg_call _ _ _ _ _ Hr) as Hc. cbn in Hc |- *. rewrite Hc. cbn. by rewrite Hex.
  - by repeat constructor.
Qed.

(** The framework reports the verdicts of the suites of other components. *)
Lemma goes_verdict l s rs s' : goes l s rs s' -> Forall (eq TEST_PASSED) rs <-> Forall (eq TEST_PASSED) (other_verdicts l rs).
Proof.
  intros [_ _ H]. unfold other_verdicts. induction H as [|[b ts] r l rs Hr H IH]; [done|].
  cbn [zip zip_with]. rewrite filter_cons. cbn [fst]. destruct b; cbn in Hr.
  - rewrite decide_True by done. cbn. rewrite !Forall_cons. naive_solver.
  - rewrite decide_False by done. rewrite Forall_cons, <- IH. split; [naive_solver|]. intros Hx. split; [by rewrite Hr | done].
Qed.

Lemma run_goes area c l I J s lg : runs c l I J -> I s -> others_end c l s ->
  exists rs suites s' lg', run_test area (l.*2 ++ [sentinel]) (s, lg) =
    Some ((if decide (Forall (eq TEST_PASSED) (other_verdicts l rs)) then TEST_SUITE_ERR_NO_ERROR
           else TEST_SUITE_ERR_TEST_FAILED, suites), (s', lg')) /\ goes l s rs s' /\ J s'.
Proof.
  intros Hr HI Ho. destruct (Hr s HI Ho) as (rs & s' & Hg & HJ). pose proof Hg as [Hok Hex _].
  destruct (run_test_exec area _ s lg rs s' Hok Hex) as (suites & lg' & Hrun & _).
  exists rs, suites, s', lg'. split; [|done]. rewrite Hrun. pose proof (goes_verdict _ _ _ _ Hg) as Hv.
  by destruct (decide _), (decide _); tauto.
Qed.

(** A table whose first and last suites are another component's. *)
Definition between (a z : test_suite_t (system PV IV X)) (ours : list (test_suite_t (system PV IV X))) : marked :=
  mark true [a] ++ mark false ours ++ mark true [z].

Lemma between_others_end c a z ours s va vz : comes_to c a s va -> (forall s1, comes_to c z s1 vz) ->
  others_end c (between a z ours) s.
Proof.
  intros Ha Hz l1 ts l2 rs s1 Hl Hex. unfold between, mark in Hl. destruct l1 as [|e l1].
  - injection Hl as -> _. injection Hex as <- <-. by exists va.
  - exists vz. assert (ts = z) as ->; [|done]. injection Hl as _ Hl. clear -Hl. revert l1 Hl.
    induction ours as [|o ours IH]; intros l1 Hl.
    + destruct l1 as [|? l1]; [by injection Hl as -> | injection Hl as _ Hl; by destruct l1].
    + destruct l1 as [|? l1]; [by injection Hl|]. injection Hl as _ Hl. by apply (IH l1).
Qed.

Lemma between_verdicts c a z ours s rs s' va vz : comes_to c a s va -> (forall s1, comes_to c z s1 vz) ->
  goes (between a z ours) s rs s' -> other_verdicts (between a z ours) rs = [va; vz].
Proof.
  assert (forall ts suites s s' rs v, comes_to c ts s v -> exec_suites (ts :: suites) s = Some (rs, s') ->
    exists rs' s1, rs = v :: rs' /\ exec_suites suites s1 = Some (rs', s')) as Hone.
  { intros ts suites t t' r v (reg & fs' & s1 & vs & ret & s2 & Hf & Hr & Hx & <- & _) H.
    apply exec_suites_cons in H as (reg' & fs'' & w1 & vs' & ret' & w2 & rs' & Hf' & Hr' & Hx' & H & ->).
    rewrite Hf in Hf'. injection Hf' as <-. rewrite (reg_call _ _ _ _ _ Hr) in Hr'. injection Hr' as <- <-.
    rewrite Hx in Hx'. injection Hx' as <- <- <-. by exists rs', s2. }
  intros Ha Hz [_ Hex _]. unfold between in *. rewrite !fmap_app, !mark_suites in Hex.
  apply (Hone _ _ _ _ _ va) in Hex as (rs1 & s1 & -> & Hex); [|done].
  unfold other_verdicts. cbn [mark app zip zip_with fmap list_fmap]. rewrite filter_cons, decide_True by done. cbn [fmap list_fmap snd]. f_equal.
  clear Ha. revert s1 rs1 Hex. induction ours as [|o ours IH]; intros s1 rs1 Hex.
  - apply (Hone _ _ _ _ _ vz) in Hex as (rs2 & s2 & -> & Hex); [|done]. by injection Hex as <- <-.
  - cbn [app] in Hex. apply exec_suites_cons in Hex as (? & ? & ? & ? & ? & s2 & rs2 & _ & _ & _ & Hex & ->).
    cbn [mark app zip zip_with fmap list_fmap]. rewrite filter_cons, decide_False by done. by eapply IH.
Qed.

(** A suite that passes on what the storage suites do not touch. *)
Lemma rest_comes_to c reg (I J : X -> Prop) s : suite_passes reg I J -> I (rest s) ->
  comes_to c (mkSuite (Some (lift_reg rest_view reg)) (mkFields [] 0 None TEST_PASSED)) s TEST_PASSED.
Proof.
  intros Hp HI. set (K := fun s' : system PV IV X => look ps_view s' = look ps_view s /\ look its_view s' = look its_view s).
  destruct (lift_suite_passes (rest_view (PV := PV) (IV := IV)) (fun _ _ => eq_refl) reg I J K
    ltac:(by intros x s' [H1 H2]; split) Hp (mkFields [] 0 None TEST_PASSED) s ltac:(done)) as (fs' & s1 & vs & ret & s2 & Hr & Hex & Hv & _ & H1 & H2).
  exists (lift_reg rest_view reg), fs', s1, vs, ret, s2. split_and!; [done | done | done | done |].
  intros mp mi [Hp1 Hp2]. split; unfold in_world in *; [by rewrite H1 | by rewrite H2].
Qed.
End stores.

Arguments mark {PV IV X} b suites.
Arguments other_verdicts {PV IV X} l rs.

(** What a suite leaves, where it is enabled. *)
Definition left_by (b : bool) (after : assets_map -> assets_map) (m : assets_map) : assets_map :=
  if b then after m else m.

(** ** The secure run *)

Section secure_run.
  Context {PC : PsaConsts} {PL : PsaConstsLaws}.
  Context {PS_MAX_ASSET_SIZE : Z} {PS_NUM_ASSETS : nat} {ps_supported : Z -> bool}.
  Context {PV : Type} {PSS : StorageService PV} {PSU : SupportService PV}.
  Context {PSL : StorageLaws PS_MAX_ASSET_SIZE PS_NUM_ASSETS ps_supported PV} {PUL : SupportLaws PV}.
  Context {ITS_MAX_ASSET_SIZE : Z} {ITS_NUM_ASSETS : nat} {its_supported : Z -> bool}.
  Context {IV X : Type} {ISS : StorageService IV}.
  Context {ISL : StorageLaws ITS_MAX_ASSET_SIZE ITS_NUM_ASSETS its_supported IV}.
  Context {SP : PsaService} {CL : PsaClient IV} (id2 : Z) (psa_destroy_key : Z -> IV -> Z * IV).
  Context {SPL : SpmLaws id2 (tfm_secure_client_2_handle_msg psa_destroy_key)}.
  Variables (ps_file ps_rel_file its_file its_rel_file : string) (uninit_data : Z -> Z).
  Hypothesis Hps : 36 <= PS_MAX_ASSET_SIZE.
  Hypothesis Hits : 36 <= ITS_MAX_ASSET_SIZE < 2 ^ 32 - 1.
  Hypothesis Hps_none : ps_supported PSA_STORAGE_FLAG_NONE = true.
  Hypothesis Hps_once : ps_supported PSA_STORAGE_FLAG_WRITE_ONCE = true.
  Hypothesis Hps_inv : ps_supported PsSTests.INVALID_FLAG = false.
  Hypothesis Hits_none : its_supported PSA_STORAGE_FLAG_NONE = true.
  Hypothesis Hits_once : its_supported PSA_STORAGE_FLAG_WRITE_ONCE = true.
  Hypothesis Hits_inv : its_supported ItsTests.INVALID_FLAG = false.

Abbreviation holding := (stores (PV := PV) (IV := IV) (X := X)).

Definition secure_suites (f : s_flags) (o : s_suites (system PV IV X)) : list (test_suite_t (system PV IV X)) :=
  s_test_suites f o
    (lift_reg (ps_view (IV := IV) (X := X)) (PsSTests.register_testsuite_s_psa_ps_interface ps_file PS_MAX_ASSET_SIZE))
    (lift_reg (ps_view (IV := IV) (X := X)) (Reliability.register_testsuite_s_psa_ps_reliability ps_rel_file))
    (lift_reg (its_view (PV := PV) (X := X)) (register_testsuite_s_psa_its_interface its_file uninit_data ITS_MAX_ASSET_SIZE
       (tfm_its_test_1020 its_file)))
    (lift_reg (its_view (PV := PV) (X := X)) (register_testsuite_s_psa_its_reliability its_rel_file)).

(** The table without its sentinel, the suites of other components marked. *)
Definition secure_marked (f : s_flags) (o : s_suites (system PV IV X)) : list (bool * test_suite_t (system PV IV X)) :=
  mark true (entry (TEST_S_IPC f) (register_testsuite_s_ipc_interface _ o)) ++
  mark true (entry (TEST_S_SFN_BACKEND f) (register_testsuite_s_sfn_interface _ o)) ++
  mark false
    (entry (TEST_S_PS f) (lift_reg (ps_view (IV := IV) (X := X)) (PsSTests.register_testsuite_s_psa_ps_interface ps_file PS_MAX_ASSET_SIZE)) ++
     entry (TEST_S_PS f) (lift_reg (ps_view (IV := IV) (X := X)) (Reliability.register_testsuite_s_psa_ps_reliability ps_rel_file))) ++
  mark true (entry (TEST_S_PS f && PS_TEST_NV_COUNTERS f && PS_ROLLBACK_PROTECTION f) (s_rollback_protection _ o)) ++
  mark false
    (entry (TEST_S_ITS f) (lift_reg (its_view (PV := PV) (X := X)) (register_testsuite_s_psa_its_interface its_file uninit_data ITS_MAX_ASSET_SIZE
       (tfm_its_test_1020 its_file))) ++
     entry (TEST_S_ITS f) (lift_reg (its_view (PV := PV) (X := X)) (register_testsuite_s_psa_its_reliability its_rel_file))) ++
  mark true (entry (TEST_S_CRYPTO f) (register_testsuite_s_crypto_interface _ o)) ++
  mark true (entry (TEST_S_ATTESTATION f) (register_testsuite_s_attestation_interface _ o)) ++
  mark true (entry (TEST_S_PLATFORM f) (register_testsuite_s_platform_interface _ o)) ++
  mark true (entry (TEST_S_FWU f) (register_testsuite_s_psa_fwu_interface _ o)) ++
  mark true (entry (TEST_S_FPU f) (register_testsuite_s_fpu_interface _ o)) ++
  mark true (entry (EXTRA_S_TEST_SUITE f) (register_testsuite_extra_s_interface _ o)).

Lemma secure_marked_suites f o : secure_suites f o = (secure_marked f o).*2 ++ [sentinel].
Proof. unfold secure_suites, s_test_suites, secure_marked. rewrite !fmap_app, !mark_suites. by rewrite <- !app_assoc. Qed.

(** The secure suites of PS from a state that is ready for them. *)
Lemma ps_s_entries b c mp mi : PsSProofs.ps_s_ready (NUM_ASSETS := PS_NUM_ASSETS) c mp ->
  all_suites_pass
    (entry b (lift_reg (ps_view (IV := IV) (X := X)) (PsSTests.register_testsuite_s_psa_ps_interface ps_file PS_MAX_ASSET_SIZE)) ++
     entry b (lift_reg (ps_view (IV := IV) (X := X)) (Reliability.register_testsuite_s_psa_ps_reliability ps_rel_file)))
    (holding c mp mi) (holding c (left_by b (PsSProofs.after_ps c) mp) mi).
Proof.
  intros H. apply (all_suites_app _ _ _ (holding c (left_by b (PsSProofs.after_ps c) mp) mi));
    (apply entry_passes; [intros -> | by intros ->]); apply on_ps.
  - eapply all_pass_suite; [by apply PsSProofs.ps_s_tests_pass | done | done].
  - destruct H as [Hr _ (H2 & _)]. eapply all_pass_suite; [apply PsSProofs.ps_reliability_tests_pass | done | done]; [done..| |].
    + apply room_insert; [by apply (bool_decide_unpack _) | done].
    + unfold PsSProofs.after_ps. cbn. lookup_tac.
Qed.

Lemma its_s_entries b c mp mi : its_ready (NUM_ASSETS := ITS_NUM_ASSETS) c mi -> c <> id2 -> mi !! (id2, 42) = None ->
  all_suites_pass
    (entry b (lift_reg (its_view (PV := PV) (X := X)) (register_testsuite_s_psa_its_interface its_file uninit_data ITS_MAX_ASSET_SIZE
       (tfm_its_test_1020 its_file))) ++
     entry b (lift_reg (its_view (PV := PV) (X := X)) (register_testsuite_s_psa_its_reliability its_rel_file)))
    (holding c mp mi) (holding c mp (left_by b (after_its c) mi)).
Proof.
  intros H Hc H42. apply (all_suites_app _ _ _ (holding c mp (left_by b (after_its c) mi)));
    (apply entry_passes; [intros -> | by intros ->]); apply on_its.
  - eapply all_pass_suite; [eapply its_s_tests_pass; (done || lia) | done | done].
  - destruct H as [Hr _ (H2 & _) _]. eapply all_pass_suite; [apply its_reliability_tests_pass | done | done]; [done || lia ..| |].
    + apply room_insert; [by apply (bool_decide_unpack _) | done].
    + unfold after_its. cbn. lookup_tac.
Qed.

Lemma secure_suites_run f o c mp mi :
  PsSProofs.ps_s_ready (NUM_ASSETS := PS_NUM_ASSETS) c mp -> its_ready (NUM_ASSETS := ITS_NUM_ASSETS) c mi ->
  c <> id2 -> mi !! (id2, 42) = None ->
  runs c (secure_marked f o) (holding c mp mi)
    (holding c (left_by (TEST_S_PS f) (PsSProofs.after_ps c) mp) (left_by (TEST_S_ITS f) (after_its c) mi)).
Proof.
  intros Hp Hi Hc H42. unfold secure_marked. do 2 (eapply runs_app; [apply runs_other|]).
  eapply runs_app; [by apply runs_ours, ps_s_entries|]. eapply runs_app; [apply runs_other|].
  eapply runs_app; [by apply runs_ours, its_s_entries|]. do 5 (eapply runs_app; [apply runs_other|]). apply runs_other.
Qed.

(** C5. The secure regression run on conforming storage services: in any
    configuration, when PS and ITS meet the PSA contract, have room for the
    tests' assets and none of their UIDs in use, the enabled suites of PS and
    ITS pass, and the run of secure_suites.c ends with
    [TEST_SUITE_ERR_NO_ERROR] exactly when the enabled suites of other
    components pass too, and else with [TEST_SUITE_ERR_TEST_FAILED].  Of those
    it is supposed that they come to a verdict in the state in which this run
    reaches them, whichever it is, and give back the assets of PS and ITS.  The
    suites run one after the other on what the previous one left; in the end
    each service holds what it held before and the write-once asset.  The
    secure client service, in a configuration without IPC, then returns
    success. *)
Theorem secure_regression_passes f o c mp mi s l psa_wait sig :
  PsSProofs.ps_s_ready (NUM_ASSETS := PS_NUM_ASSETS) c mp -> its_ready (NUM_ASSETS := ITS_NUM_ASSETS) c mi ->
  c <> id2 -> mi !! (id2, 42) = None -> holding c mp mi s -> others_end c (secure_marked f o) s ->
  exists rs suites s' l', goes (secure_marked f o) s rs s' /\
    s_reg_test_start (secure_suites f o) (s, l) =
      Some ((if decide (Forall (eq TEST_PASSED) (other_verdicts (secure_marked f o) rs)) then TEST_SUITE_ERR_NO_ERROR
             else TEST_SUITE_ERR_TEST_FAILED, suites), (s', l')) /\
    tfm_secure_client_service_init psa_wait sig false (secure_suites f o) (s, l) =
      Some ((ServiceReturns 0, suites), (s', l')) /\
    holding c (left_by (TEST_S_PS f) (PsSProofs.after_ps c) mp) (left_by (TEST_S_ITS f) (after_its c) mi) s'.
Proof.
  intros Hp Hi Hc H42 Hs Ho.
  destruct (run_goes "Secure" c _ _ _ s l (secure_suites_run f o c mp mi Hp Hi Hc H42) Hs Ho) as (rs & suites & s' & l' & Hrun & Hg & Hs').
  exists rs, suites, s', l'. rewrite secure_marked_suites. set (r := (_, suites)) in *.
  assert (s_reg_test_start ((secure_marked f o).*2 ++ [sentinel]) (s, l) = Some (r, (s', l'))) as Hst.
  { unfold s_reg_test_start. erewrite (M_bind_Some _ _ _ tt (s, l)) by done.
    erewrite M_bind_Some by exact Hrun. done. }
  split_and!; [done | done | | done]. unfold tfm_secure_client_service_init. by erewrite M_bind_Some by exact Hst.
Qed.
End secure_run.

(** ** The non-secure run *)

Section non_secure_run.
  Context {PC : PsaConsts} {PL : PsaConstsLaws}.
  Context {PS_MAX_ASSET_SIZE : Z} {PS_NUM_ASSETS : nat} {ps_supported : Z -> bool}.
  Context {PV : Type} {PSS : StorageService PV} {PSU : SupportService PV} {OS : OsWrapper PV}.
  Context {PSL : StorageLaws PS_MAX_ASSET_SIZE PS_NUM_ASSETS ps_supported PV} {PUL : SupportLaws PV}.
  Context {main : Z} {OL : OsLaws PV OS}.
  Context {ITS_MAX_ASSET_SIZE : Z} {ITS_NUM_ASSETS : nat} {its_supported : Z -> bool}.
  Context {IV X : Type} {ISS : StorageService IV}.
  Context {ISL : StorageLaws ITS_MAX_ASSET_SIZE ITS_NUM_ASSETS its_supported IV}.
  Variables (ps_file helper_file its_file : string) (uninit_data : Z -> Z).
  Hypothesis Hps : 36 <= PS_MAX_ASSET_SIZE.
  Hypothesis Hits : 36 <= ITS_MAX_ASSET_SIZE < 2 ^ 32 - 1.
  Hypothesis Hps_none : ps_supported PSA_STORAGE_FLAG_NONE = true.
  Hypothesis Hps_once : ps_supported PSA_STORAGE_FLAG_WRITE_ONCE = true.
  Hypothesis Hps_inv : ps_supported PsNsTests.INVALID_FLAG = false.
  Hypothesis Hits_none : its_supported PSA_STORAGE_FLAG_NONE = true.
  Hypothesis Hits_once : its_supported PSA_STORAGE_FLAG_WRITE_ONCE = true.
  Hypothesis Hits_inv : its_supported ItsTests.INVALID_FLAG = false.

Abbreviation holding := (stores (PV := PV) (IV := IV) (X := X)).

Definition non_secure_suites (f : ns_flags) (o : ns_suites (system PV IV X)) : list (test_suite_t (system PV IV X)) :=
  ns_test_suites f o
    (lift_reg (ps_view (IV := IV) (X := X)) (PsNsTests.register_testsuite_ns_psa_ps_interface ps_file helper_file PS_MAX_ASSET_SIZE))
    (lift_reg (its_view (PV := PV) (X := X)) (register_testsuite_ns_psa_its_interface its_file uninit_data ITS_MAX_ASSET_SIZE)).

(** The table without its sentinel, the suites of other components marked. *)
Definition non_secure_marked (f : ns_flags) (o : ns_suites (system PV IV X)) : list (bool * test_suite_t (system PV IV X)) :=
  mark true (entry (TEST_NS_IPC f) (register_testsuite_ns_ipc_interface _ o)) ++
  mark true (entry (TEST_NS_SFN_BACKEND f) (register_testsuite_ns_sfn_interface _ o)) ++
  mark false (entry (TEST_NS_PS f)
    (lift_reg (ps_view (IV := IV) (X := X)) (PsNsTests.register_testsuite_ns_psa_ps_interface ps_file helper_file PS_MAX_ASSET_SIZE))) ++
  mark false (entry (TEST_NS_ITS f)
    (lift_reg (its_view (PV := PV) (X := X)) (register_testsuite_ns_psa_its_interface its_file uninit_data ITS_MAX_ASSET_SIZE))) ++
  mark true (entry (TEST_NS_CRYPTO f) (register_testsuite_ns_crypto_interface _ o)) ++
  mark true (entry (TEST_NS_PLATFORM f) (register_testsuite_ns_platform_interface _ o)) ++
  mark true (entry (TEST_NS_ATTESTATION f) (register_testsuite_ns_attestation_interface _ o)) ++
  mark true (entry (TEST_NS_QCBOR f) (register_testsuite_ns_qcbor _ o)) ++
  mark true (entry (TEST_NS_T_COSE f) (register_testsuite_ns_t_cose _ o)) ++
  mark true (entry (TEST_NS_FWU f) (register_testsuite_ns_psa_fwu_interface _ o)) ++
  mark true (entry (TEST_NS_MULTI_CORE f) (register_testsuite_multi_core_ns_interface _ o)) ++
  mark true (entry (TEST_NS_MANAGE_NSID f) (register_testsuite_nsid_test _ o)) ++
  mark true (entry (TEST_NS_SLIH_IRQ f || TEST_NS_FLIH_IRQ f) (register_testsuite_irq_test _ o)) ++
  mark true (entry (TEST_NS_FPU f) (register_testsuite_ns_fpu_interface _ o)) ++
  mark true (entry (EXTRA_NS_TEST_SUITE f) (register_testsuite_extra_ns_interface _ o)).

Lemma non_secure_marked_suites f o : non_secure_suites f o = (non_secure_marked f o).*2 ++ [sentinel].
Proof. unfold non_secure_suites, ns_test_suites, non_secure_marked. rewrite !fmap_app, !mark_suites. by rewrite <- !app_assoc. Qed.

Lemma non_secure_suites_run f o mp mi :
  PsNsProofs.ps_ns_ready (main := main) (NUM_ASSETS := PS_NUM_ASSETS) mp ->
  its_ready (NUM_ASSETS := ITS_NUM_ASSETS) main mi ->
  runs main (non_secure_marked f o) (holding main mp mi)
    (holding main (left_by (TEST_NS_PS f) (PsNsProofs.after_ps (main := main)) mp)
                  (left_by (TEST_NS_ITS f) (after_its main) mi)).
Proof.
  intros Hp Hi. unfold non_secure_marked. do 2 (eapply runs_app; [apply runs_other|]).
  eapply runs_app; [apply runs_ours, (entry_passes _ _ _ (holding main (left_by (TEST_NS_PS f) (PsNsProofs.after_ps (main := main)) mp) mi));
    [intros -> | by intros ->]; apply on_ps; eapply all_pass_suite; [by apply PsNsProofs.ps_ns_tests_pass | done | done]|].
  eapply runs_app; [apply runs_ours, (entry_passes _ _ _ (holding main (left_by (TEST_NS_PS f) (PsNsProofs.after_ps (main := main)) mp)
    (left_by (TEST_NS_ITS f) (after_its main) mi)));
    [intros -> | by intros ->]; apply on_its; eapply all_pass_suite; [apply its_ns_tests_pass; (done || lia) | done | done]|].
  do 10 (eapply runs_app; [apply runs_other|]). apply runs_other.
Qed.

(** C6. The non-secure regression run on conforming storage services and a
    conforming RTOS: as the secure run, for the test thread of
    tests_reg/test_app.c, whose last output is the end-of-transmission
    character. *)
Theorem ns_regression_passes f o mp mi s l :
  PsNsProofs.ps_ns_ready (main := main) (NUM_ASSETS := PS_NUM_ASSETS) mp ->
  its_ready (NUM_ASSETS := ITS_NUM_ASSETS) main mi -> holding main mp mi s -> others_end main (non_secure_marked f o) s ->
  exists rs suites s' l', goes (non_secure_marked f o) s rs s' /\
    ns_reg_test_start (non_secure_suites f o) (s, l) =
      Some ((if decide (Forall (eq TEST_PASSED) (other_verdicts (non_secure_marked f o) rs)) then TEST_SUITE_ERR_NO_ERROR
             else TEST_SUITE_ERR_TEST_FAILED, suites), (s', l')) /\
    test_app true (non_secure_suites f o) (s, l) = Some (suites, (s', l' ++ [(eot, [])])) /\
    holding main (left_by (TEST_NS_PS f) (PsNsProofs.after_ps (main := main)) mp)
                 (left_by (TEST_NS_ITS f) (after_its main) mi) s'.
Proof.
  intros Hp Hi Hs Ho.
  destruct (run_goes "Non-secure" main _ _ _ s l (non_secure_suites_run f o mp mi Hp Hi) Hs Ho) as (rs & suites & s' & l' & Hrun & Hg & Hs').
  exists rs, suites, s', l'. rewrite non_secure_marked_suites. split_and!; [done | exact Hrun | | done].
  unfold test_app, ns_reg_test_start. erewrite M_bind_Some; [|by erewrite M_bind_Some by exact Hrun]. done.
Qed.
End non_secure_run.

(** ** Witnesses: the reference services, with PS, ITS, the SFN suite and an
    extra suite, which fails in the non-secure run *)

Definition extra_reg {W} (v : test_status_t) : TESTSUITE_REG W :=
  register "Extra test" [TEST (ret_val v) "EXTRA_TEST_1001" "Ends as it is told"].

Abbreviation sfn_world := (ffm * unit)%type.
Definition ref_sfn_ns : TESTSUITE_REG sfn_world :=
  SfnTests.register_testsuite_ns_sfn_interface (FW := ref_framework sfn_provides) (SB := ref_sfn (FW := ref_framework sfn_provides))
    true (-1) "client_api_tests.c" "mmiovec_test.c" "sfn_backend_tests.c".
Definition ref_sfn_s : TESTSUITE_REG sfn_world :=
  SfnTests.register_testsuite_s_sfn_interface (FW := ref_framework sfn_provides) (SB := ref_sfn (FW := ref_framework sfn_provides))
    true 0x110 "client_api_tests.c" "mmiovec_test.c" "sfn_backend_tests.c".

#[local] Instance ref_sfn_signals : SignalLaws sfn_test_services.
Proof. by apply signals_apart_laws. Qed.

Lemma ref_sfn_passes (ns : bool) : suite_passes (if ns then ref_sfn_ns else ref_sfn_s) (fun x => x = (idle, tt)) (fun _ => True).
Proof.
  pose proof (sfn_tests_pass (FL := ref_framework_laws sfn_provides) (SB := ref_sfn (FW := ref_framework sfn_provides))
    true (if ns then -1 else 0x110) "client_api_tests.c" "mmiovec_test.c" "sfn_backend_tests.c"
    (proj1 (Forall_forall _ _) sfn_provides_all) _ ns ltac:(by destruct ns) eq_refl) as H.
  destruct ns; (eapply suite_passes_impl; [| |eapply all_pass_suite; [exact H | done | done]]; [by intros ? -> | done]).
Qed.

Section extra.
  Context {PC : PsaConsts} {PS_MAX ITS_MAX : Z} {PS_NUM ITS_NUM : nat} {ps_supported its_supported : Z -> bool}.
  Context {PV IV X : Type} {PSS : StorageService PV} {ISS : StorageService IV}.
  Context {PSL : StorageLaws PS_MAX PS_NUM ps_supported PV} {ISL : StorageLaws ITS_MAX ITS_NUM its_supported IV}.

Lemma extra_comes_to c v (s : system PV IV X) : v = TEST_PASSED \/ v = TEST_FAILED ->
  comes_to c (mkSuite (Some (extra_reg v)) (mkFields [] 0 None TEST_PASSED)) s v.
Proof.
  intros Hv.
  eexists (extra_reg v), (mkFields [TEST (ret_val v) "EXTRA_TEST_1001" "Ends as it is told"] 1 (Some "Extra test") TEST_PASSED), s, [v], _, s.
  split_and!; [done | | done | by destruct Hv as [-> | ->] | done].
  split; [done | by eexists | done | done |]. repeat constructor. all: by eexists.
Qed.
End extra.

Definition some_s_suites W sfn v : s_suites W :=
  mkSSuites W (extra_reg v) sfn (extra_reg v) (extra_reg v) (extra_reg v) (extra_reg v) (extra_reg v) (extra_reg v) (extra_reg v).
Definition some_ns_suites W sfn v : ns_suites W :=
  mkNsSuites W (extra_reg v) sfn (extra_reg v) (extra_reg v) (extra_reg v) (extra_reg v) (extra_reg v) (extra_reg v) (extra_reg v)
    (extra_reg v) (extra_reg v) (extra_reg v) (extra_reg v).

Definition storage_s_flags : s_flags :=
  mkSFlags false true true false false true false false false false false true.
Definition storage_ns_flags : ns_flags :=
  mkNsFlags false true true true false false false false false false false false false false false true.

Definition ref_system {V} (v : V) (c : Z) : system V ref_state sfn_world := mkSystem v (c, ∅) ([], 0) ([], 0) (idle, tt).

Definition ref_client : PsaClient ref_state :=
  ref_psa_client 7 (@tfm_secure_client_2_handle_msg psa_consts ref_state ref_its ref_psa_service (fun _ v => (0, v))).

Lemma secure_regression_passes_witness :
  let suites := @secure_suites psa_consts 2048 ref_state PsSProofs.ref_ps ref_support 512 ref_state sfn_world ref_its ref_client
      "psa_ps_s_interface_testsuite.c" "psa_ps_s_reliability_testsuite.c" "its_tests_common.c"
      "psa_its_s_reliability_testsuite.c" (fun i => i) storage_s_flags
      (some_s_suites _ (lift_reg rest_view ref_sfn_s) TEST_PASSED) in
  length suites = 7%nat /\
  exists suites' s' l', s_reg_test_start suites (ref_system (5, ∅) 5, []) =
    Some ((TEST_SUITE_ERR_NO_ERROR, suites'), (s', l')).
Proof.
  intros suites. split; [done|].
  pose proof (rest_comes_to (PSL := PsSProofs.ref_ps_laws) (ISL := @ref_laws psa_consts 512 10 ItsProofs.ref_flags)
    5 _ _ _ (ref_system (5, ∅) 5) (ref_sfn_passes false) eq_refl) as Ha.
  pose proof (fun s => extra_comes_to (PSL := PsSProofs.ref_ps_laws) (ISL := @ref_laws psa_consts 512 10 ItsProofs.ref_flags)
    (X := sfn_world) 5 TEST_PASSED s (or_introl eq_refl)) as Hz.
  destruct (@secure_regression_passes psa_consts psa_consts_laws 2048 10 PsSProofs.ref_flags ref_state PsSProofs.ref_ps
    ref_support PsSProofs.ref_ps_laws PsSProofs.ref_ps_support_laws 512 10 ItsProofs.ref_flags ref_state sfn_world ref_its
    (@ref_laws psa_consts 512 10 ItsProofs.ref_flags) ref_psa_service ref_client 7 (fun _ v => (0, v))
    (@ref_spm_laws psa_consts 512 10 ItsProofs.ref_flags 7 _)
    "psa_ps_s_interface_testsuite.c" "psa_ps_s_reliability_testsuite.c" "its_tests_common.c"
    "psa_its_s_reliability_testsuite.c" (fun i => i) ltac:(done) ltac:(done) eq_refl eq_refl eq_refl eq_refl eq_refl eq_refl
    storage_s_flags (some_s_suites _ (lift_reg rest_view ref_sfn_s) TEST_PASSED) 5 ∅ ∅ (ref_system (5, ∅) 5) [] (mret 0) 0
    PsSProofs.ref_ps_s_ready ref_its_ready ltac:(done) ltac:(done) ltac:(done)
    (between_others_end _ _ _ (take 4 (drop 1 suites)) _ _ _ Ha Hz))
    as (rs & ts' & s' & l' & Hg & H & _).
  pose proof (between_verdicts _ _ _ (take 4 (drop 1 suites)) _ _ _ _ _ Ha Hz Hg) as Hv. exists ts', s', l'.
  etrans; [exact H|]. destruct (decide _) as [|Hn]; [done|]. destruct Hn. refine (eq_ind_r _ _ Hv). by repeat constructor.
Defined.

Lemma ref_its_main_ready : its_ready (PC := psa_consts) (NUM_ASSETS := 10) (-1) ∅.
Proof. split; [unfold room; by apply (bool_decide_unpack _) | by left | done | done]. Defined.

Lemma ns_regression_passes_witness :
  let suites := @non_secure_suites psa_consts 2048 os_state PsNsProofs.ref_ps PsNsProofs.ref_ps_support ref_os 512 ref_state sfn_world ref_its
      "psa_ps_ns_interface_testsuite.c" "ns_test_helpers.c" "its_tests_common.c" (fun i => i)
      storage_ns_flags (some_ns_suites _ (lift_reg rest_view ref_sfn_ns) TEST_FAILED) in
  length suites = 5%nat /\
  exists suites' s' l', ns_reg_test_start suites (ref_system ref_os_state (-1), []) =
    Some ((TEST_SUITE_ERR_TEST_FAILED, suites'), (s', l')).
Proof.
  intros suites. split; [done|].
  pose proof (rest_comes_to (PSL := PsNsProofs.ref_ps_laws) (ISL := @ref_laws psa_consts 512 10 ItsProofs.ref_flags)
    (-1) _ _ _ (ref_system ref_os_state (-1)) (ref_sfn_passes true) eq_refl) as Ha.
  pose proof (fun s => extra_comes_to (PSL := PsNsProofs.ref_ps_laws) (ISL := @ref_laws psa_consts 512 10 ItsProofs.ref_flags)
    (X := sfn_world) (-1) TEST_FAILED s (or_intror eq_refl)) as Hz.
  destruct (@ns_regression_passes psa_consts psa_consts_laws 2048 10 PsNsProofs.ref_flags os_state PsNsProofs.ref_ps
    PsNsProofs.ref_ps_support ref_os PsNsProofs.ref_ps_laws PsNsProofs.ref_ps_support_laws (-1) ref_os_laws 512 10 ItsProofs.ref_flags
    ref_state sfn_world ref_its (@ref_laws psa_consts 512 10 ItsProofs.ref_flags)
    "psa_ps_ns_interface_testsuite.c" "ns_test_helpers.c" "its_tests_common.c" (fun i => i)
    ltac:(done) ltac:(done) eq_refl eq_refl eq_refl eq_refl eq_refl eq_refl
    storage_ns_flags (some_ns_suites _ (lift_reg rest_view ref_sfn_ns) TEST_FAILED) ∅ ∅ (ref_system ref_os_state (-1)) []
    ref_ps_ns_ready ref_its_main_ready ltac:(done) (between_others_end _ _ _ (take 2 (drop 1 suites)) _ _ _ Ha Hz)) as (rs & ts' & s' & l' & Hg & H & _).
  pose proof (between_verdicts _ _ _ (take 2 (drop 1 suites)) _ _ _ _ _ Ha Hz Hg) as Hv. exists ts', s', l'.
  etrans; [exact H|]. destruct (decide _) as [Hp|]; [|done]. exfalso.
  apply (eq_ind _ (Forall (eq TEST_PASSED)) Hp) in Hv. apply Forall_cons in Hv as [_ [[=] _]%Forall_cons].
Defined.
