(* ===== verification/IrqTests.v ===== *)
(** * The interrupt tests of the SPM

    suites/spm/irq: the two test partitions that handle the interrupts of a
    timer, one in the interrupt (FLIH), one in its thread (SLIH), and the suite
    that calls them.  The thread of a partition has program points; between any
    two of its steps an interrupt can be taken.  The timer, the interrupt
    controller and the signals are the platform's and the framework's:
    [IrqPlatform] are their operations, [IrqLaws] what they do to the state
    [lines]. *)

From S2P Require Import Prelude LogRaw TestFramework TestProg Fair Ffm IpcTests SpmRules FfmRef.
Local Open Scope Z_scope.

Definition TFM_FLIH_TEST_CASE_INVALID : Z := 0x200.
Definition TFM_FLIH_TEST_CASE_1 : Z := 0x201.
Definition TFM_FLIH_TEST_CASE_2 : Z := 0x202.
Definition TFM_SLIH_TEST_CASE_1 : Z := 0x203.

(** tfm_flih_test_service.yaml, tfm_slih_test_service.yaml *)
Definition TFM_FLIH_TEST_CASE : service := mkService 0xF0B0 1 false.
Definition TFM_SLIH_TEST_CASE : service := mkService 0xF0A0 1 false.
Definition tfm_flih_test_services : list service := [TFM_FLIH_TEST_CASE].
Definition tfm_slih_test_services : list service := [TFM_SLIH_TEST_CASE].

(** ** The environment *)

Class IrqPlatform (W : Type) := {
  tfm_plat_test_secure_timer_start : W -> W;
  tfm_plat_test_secure_timer_stop : W -> W;
  tfm_plat_test_secure_timer_clear_intr : W -> W;
  psa_irq_enable : W -> W;
  psa_irq_disable : W -> W;
  psa_reset_signal : W -> W;
  psa_eoi : W -> W;
  (** [psa_wait(TFM_TIMER0_IRQ_SIGNAL, PSA_BLOCK)]: the signals, when it returns *)
  psa_wait_irq : W -> option (Z * W);
  (** The processor takes the interrupt, if it can. *)
  take_irq : W -> option W;
  (** What the framework does when a first level handler asks for the signal,
      and with an interrupt that has no first level handler. *)
  assert_signal : W -> W;
}.

(** The timer runs, the interrupt is enabled, its signal is asserted. *)
Record lines := mkLines { running : bool; enabled : bool; asserted_irq : bool }.

Class IrqLaws (W : Type) {IP : IrqPlatform W} (TFM_TIMER0_IRQ_SIGNAL : Z) := {
  lines_of : W -> lines;
  law_timer_start w : lines_of (tfm_plat_test_secure_timer_start w) =
    mkLines true (enabled (lines_of w)) (asserted_irq (lines_of w));
  law_timer_stop w : lines_of (tfm_plat_test_secure_timer_stop w) =
    mkLines false (enabled (lines_of w)) (asserted_irq (lines_of w));
  law_clear_intr w : lines_of (tfm_plat_test_secure_timer_clear_intr w) = lines_of w;
  law_irq_enable w : lines_of (psa_irq_enable w) = mkLines (running (lines_of w)) true (asserted_irq (lines_of w));
  law_irq_disable w : lines_of (psa_irq_disable w) = mkLines (running (lines_of w)) false (asserted_irq (lines_of w));
  law_reset_signal w : lines_of (psa_reset_signal w) = mkLines (running (lines_of w)) (enabled (lines_of w)) false;
  law_eoi w : lines_of (psa_eoi w) = mkLines (running (lines_of w)) (enabled (lines_of w)) false;
  law_assert_signal w : lines_of (assert_signal w) = mkLines (running (lines_of w)) (enabled (lines_of w)) true;
  (** The wait returns, with the signal, when the signal is asserted. *)
  law_wait_irq_none w : asserted_irq (lines_of w) = false -> psa_wait_irq w = None;
  law_wait_irq w : asserted_irq (lines_of w) = true ->
    exists w', psa_wait_irq w = Some (TFM_TIMER0_IRQ_SIGNAL, w') /\ lines_of w' = lines_of w;
  (** An interrupt is only taken when it is enabled; one that the running timer
      has raised can be taken then. *)
  law_take_irq w w' : take_irq w = Some w' -> enabled (lines_of w) = true /\ lines_of w' = lines_of w;
  law_can_take w : running (lines_of w) = true -> enabled (lines_of w) = true -> is_Some (take_irq w);
}.

(** ** tfm_flih_test_service.c *)

(** Points of [flih_test_handle_msg] and the function it calls, the reply, and
    [psa_panic]. *)
Inductive flih_pc :=
  | Dispatch | SetType | ZeroCount | EnableIrq | StartTimer | CountLoop | Wfi | WaitSignal | StopTimer | ResetSignal
  | DisableIrq | Replied (status : Z) | Panicked.

Record flih (W : Type) := mkFlih {
  f_pc : flih_pc;
  test_type : Z;
  flih_timer_triggered : Z;
  f_world : W;
}.
Arguments mkFlih {W} _ _ _ _.
Arguments f_pc {W} _.
Arguments test_type {W} _.
Arguments flih_timer_triggered {W} _.
Arguments f_world {W} _.

Section flih.
  Context {FC : FfmConsts} {W : Type} {IP : IrqPlatform W}.
  Variable TFM_TIMER0_IRQ_SIGNAL : Z.

Inductive psa_flih_result_t := PSA_FLIH_NO_SIGNAL | PSA_FLIH_SIGNAL.

(** [None]: [psa_panic]. *)
Definition tfm_flih_test_timer_handler (s : flih W) : option psa_flih_result_t * flih W :=
  let w := tfm_plat_test_secure_timer_clear_intr (f_world s) in
  let n := u32 (flih_timer_triggered s + 1) in
  if test_type s =? TFM_FLIH_TEST_CASE_1 then
    (Some PSA_FLIH_NO_SIGNAL, mkFlih (f_pc s) (test_type s) n w)
  else if test_type s =? TFM_FLIH_TEST_CASE_2 then
    (Some (if n =? 10 then PSA_FLIH_SIGNAL else PSA_FLIH_NO_SIGNAL), mkFlih (f_pc s) (test_type s) n w)
  else (None, mkFlih (f_pc s) (test_type s) (flih_timer_triggered s) w).

(** An interrupt: the framework runs [tfm_timer0_irq_flih]. *)
Definition irq_step (s : flih W) : option (flih W) :=
  w ← take_irq (f_world s);
  let '(r, s) := tfm_flih_test_timer_handler (mkFlih (f_pc s) (test_type s) (flih_timer_triggered s) w) in
  Some match r with
       | Some PSA_FLIH_NO_SIGNAL => s
       | Some PSA_FLIH_SIGNAL => mkFlih (f_pc s) (test_type s) (flih_timer_triggered s) (assert_signal (f_world s))
       | None => mkFlih Panicked (test_type s) (flih_timer_triggered s) (f_world s)
       end.

(** A step of the thread on a message of type [t]; [None]: the thread waits or
    has ended. *)
Definition flih_step (t : Z) (s : flih W) : option (flih W) :=
  let goto pc w := Some (mkFlih pc (test_type s) (flih_timer_triggered s) w) in
  let w := f_world s in
  match f_pc s with
  | Dispatch =>
      if (t =? TFM_FLIH_TEST_CASE_1) || (t =? TFM_FLIH_TEST_CASE_2) then goto SetType w
      else goto (Replied PSA_ERROR_PROGRAMMER_ERROR) w
  | SetType => Some (mkFlih ZeroCount t (flih_timer_triggered s) w)
  | ZeroCount => Some (mkFlih EnableIrq (test_type s) 0 w)
  | EnableIrq => goto StartTimer (psa_irq_enable w)
  | StartTimer =>
      goto (if t =? TFM_FLIH_TEST_CASE_1 then CountLoop else WaitSignal) (tfm_plat_test_secure_timer_start w)
  | CountLoop => if flih_timer_triggered s <? 10 then goto Wfi w else goto StopTimer w
  | Wfi => goto CountLoop w
  | WaitSignal =>
      '(signals, w) ← psa_wait_irq w;
      if negb (signals =? TFM_TIMER0_IRQ_SIGNAL) then goto Panicked w else goto StopTimer w
  | StopTimer =>
      goto (if t =? TFM_FLIH_TEST_CASE_1 then DisableIrq else ResetSignal) (tfm_plat_test_secure_timer_stop w)
  | ResetSignal => goto DisableIrq (psa_reset_signal w)
  | DisableIrq => goto (Replied PSA_SUCCESS) (psa_irq_disable w)
  | Replied _ | Panicked => None
  end.

(** What can be reached when the service gets a message of type [t] in [s0],
    with [n] interrupts on the way. *)
Inductive flih_reach (t : Z) (s0 : flih W) : Z -> flih W -> Prop :=
  | flih_start : flih_reach t s0 0 s0
  | flih_thread n s s' : flih_reach t s0 n s -> flih_step t s = Some s' -> flih_reach t s0 n s'
  | flih_irq n s s' : flih_reach t s0 n s -> irq_step s = Some s' -> flih_reach t s0 (n + 1) s'.

(** A move of a schedule, [true] for an interrupt and [false] for a step of the
    thread; one that is not possible is not made. *)
Definition flih_move (t : Z) (s : flih W) (b : bool) : flih W :=
  default s (if b then irq_step s else flih_step t s).
End flih.

Section flih_proofs.
  Context {FC : FfmConsts} {W : Type} {IP : IrqPlatform W} {SIG : Z} {IL : IrqLaws W SIG}.
  Implicit Types (s : flih W) (w : W).

Abbreviation L s := (lines_of (TFM_TIMER0_IRQ_SIGNAL := SIG) (f_world s)).

Definition off : lines := mkLines false false false.

(** The interrupt is enabled and [n] at most have been taken. *)
Definition counting (t n : Z) (r : bool) s : Prop :=
  test_type s = t /\ 0 <= flih_timer_triggered s <= n /\
  L s = mkLines r true ((t =? TFM_FLIH_TEST_CASE_2) && (10 <=? flih_timer_triggered s)).

Definition flih_inv (t n : Z) s : Prop :=
  match f_pc s with
  | Dispatch | SetType => L s = off
  | ZeroCount => L s = off /\ test_type s = t
  | EnableIrq => L s = off /\ test_type s = t /\ flih_timer_triggered s = 0
  | StartTimer => counting t n false s
  | CountLoop | Wfi => t = TFM_FLIH_TEST_CASE_1 /\ counting t n true s
  | WaitSignal => t = TFM_FLIH_TEST_CASE_2 /\ counting t n true s
  | StopTimer => counting t n true s /\ 10 <= flih_timer_triggered s
  | ResetSignal => t = TFM_FLIH_TEST_CASE_2 /\ counting t n false s /\ 10 <= flih_timer_triggered s
  | DisableIrq => test_type s = t /\ 10 <= flih_timer_triggered s <= n /\ L s = mkLines false true false
  | Replied st => st = PSA_SUCCESS /\ L s = off /\ 10 <= flih_timer_triggered s <= n
  | Panicked => False
  end.

Definition known (t : Z) : Prop := t = TFM_FLIH_TEST_CASE_1 \/ t = TFM_FLIH_TEST_CASE_2.

Ltac conj := split_and!; (done || lia).

Lemma flih_step_inv t n s s' : known t -> 0 <= n -> flih_inv t n s -> flih_step SIG t s = Some s' -> flih_inv t n s'.
Proof.
  intros Ht Hn Hi Hs. destruct s as [pc ty k w]. unfold flih_inv, flih_step, counting in *. cbn in *.
  destruct pc; cbn in *.
  - destruct Ht as [-> | ->]; cbn in Hs; by simplify_eq.
  - by simplify_eq; cbn; split_and!.
  - destruct Hi as [??]. by simplify_eq; cbn; split_and!.
  - simplify_eq. cbn. destruct Hi as (Hl & -> & ->). rewrite law_irq_enable, Hl, andb_false_r. conj.
  - destruct Ht as [-> | ->]; cbn in Hs; simplify_eq; cbn; destruct Hi as (-> & ? & Hl); rewrite law_timer_start, Hl; conj.
  - destruct Hi as (-> & -> & ? & Hl). destruct (Z.ltb_spec k 10); simplify_eq; cbn; conj.
  - destruct Hi as [??]. by simplify_eq; cbn; split.
  - destruct Hi as (-> & -> & Hk & Hl). cbn [andb Z.eqb Pos.eqb] in Hl.
    destruct (Z.leb_spec 10 k) as [Hge|Hlt]; cbn in Hl.
    + destruct (law_wait_irq w) as (w' & Hw & Hl'); [by rewrite Hl|]. rewrite Hw in Hs. cbn in Hs.
      rewrite Z.eqb_refl in Hs. cbn in Hs. simplify_eq. cbn. rewrite Hl', Hl, (proj2 (Z.leb_le 10 k)) by done. conj.
    + rewrite law_wait_irq_none in Hs by by rewrite Hl. done.
  - destruct Hi as ((-> & Hk & Hl) & Hge). rewrite (proj2 (Z.leb_le 10 k)), andb_true_r in Hl by done.
    destruct Ht as [-> | ->]; cbn in Hs, Hl; simplify_eq; cbn; rewrite law_timer_stop, Hl; cbn; [conj|].
    rewrite (proj2 (Z.leb_le 10 k)) by done. conj.
  - destruct Hi as (-> & (-> & Hk & Hl) & Hge). simplify_eq. cbn. rewrite law_reset_signal, Hl. conj.
  - destruct Hi as (-> & Hk & Hl). simplify_eq. cbn. rewrite law_irq_disable, Hl. conj.
  - done.
  - done.
Qed.

(** An interrupt counts, and asserts the signal at the tenth in case 2. *)
Lemma irq_step_counts t s s' : known t -> test_type s = t -> 0 <= flih_timer_triggered s < 2 ^ 32 - 1 ->
  irq_step s = Some s' ->
  enabled (L s) = true /\ f_pc s' = f_pc s /\ test_type s' = t /\ flih_timer_triggered s' = flih_timer_triggered s + 1 /\
  L s' = mkLines (running (L s)) true
    (asserted_irq (L s) || ((t =? TFM_FLIH_TEST_CASE_2) && (flih_timer_triggered s + 1 =? 10))).
Proof.
  intros Ht Hty Hk Hs. destruct s as [pc ty k w]. unfold irq_step in Hs. cbn in *. subst ty.
  destruct (take_irq w) as [w1|] eqn:Hw; [|done]. destruct (law_take_irq w w1 Hw) as [He Hl1]. cbn in Hs.
  assert (u32 (k + 1) = k + 1) as Hu by (apply wrapu_small; lia).
  assert (lines_of (tfm_plat_test_secure_timer_clear_intr w1) = lines_of w) as Hl by by rewrite law_clear_intr.
  destruct (lines_of w) as [r e a]. cbn in He. subst e. unfold tfm_flih_test_timer_handler in Hs. cbn in Hs. rewrite Hu in Hs.
  destruct Ht as [-> | ->]; cbn in Hs; [simplify_eq; cbn; rewrite Hl, orb_false_r; conj|].
  destruct (Z.eqb_spec (k + 1) 10) as [Heq|Hne]; simplify_eq; cbn.
  - rewrite law_assert_signal, Hl. cbn. rewrite orb_true_r. conj.
  - rewrite Hl, orb_false_r. conj.
Qed.

Lemma irq_needs_enabled s s' : irq_step s = Some s' -> enabled (L s) = true.
Proof.
  unfold irq_step. destruct (take_irq (f_world s)) as [w1|] eqn:Hw; [|done]. intros _. by destruct (law_take_irq _ _ Hw).
Qed.

Lemma counting_irq t n r s s' : known t -> n + 1 < 2 ^ 32 -> counting t n r s -> irq_step s = Some s' ->
  f_pc s' = f_pc s /\ counting t (n + 1) r s' /\ flih_timer_triggered s' = flih_timer_triggered s + 1.
Proof.
  intros Ht Hb (Hty & Hk & Hl) Hs.
  destruct (irq_step_counts t s s' Ht Hty ltac:(lia) Hs) as (_ & Hpc & Hty' & Hk' & Hl').
  unfold counting. rewrite Hl', Hl, Hk'. cbn. split_and!; try (done || lia). f_equal.
  destruct (t =? TFM_FLIH_TEST_CASE_2); cbn; [|done].
  destruct (Z.leb_spec 10 (flih_timer_triggered s)), (Z.eqb_spec (flih_timer_triggered s + 1) 10),
    (Z.leb_spec 10 (flih_timer_triggered s + 1)); cbn; lia || done.
Qed.

Lemma irq_step_inv t n s s' : known t -> 0 <= n -> n + 1 < 2 ^ 32 -> flih_inv t n s -> irq_step s = Some s' -> flih_inv t (n + 1) s'.
Proof.
  intros Ht Hn Hb Hi Hs. pose proof (irq_needs_enabled s s' Hs) as He. unfold flih_inv in *.
  destruct (f_pc s) eqn:Hpc.
  1-4: by assert (L s = off) as Hl by (exact Hi || apply Hi); rewrite Hl in He.
  - destruct (counting_irq t n _ s s' Ht Hb Hi Hs) as (-> & ? & _). by rewrite Hpc.
  - destruct Hi as [-> Hi]. destruct (counting_irq _ n _ s s' Ht Hb Hi Hs) as (-> & ? & _). by rewrite Hpc.
  - destruct Hi as [-> Hi]. destruct (counting_irq _ n _ s s' Ht Hb Hi Hs) as (-> & ? & _). by rewrite Hpc.
  - destruct Hi as [-> Hi]. destruct (counting_irq _ n _ s s' Ht Hb Hi Hs) as (-> & ? & _). by rewrite Hpc.
  - destruct Hi as [Hi ?]. destruct (counting_irq t n _ s s' Ht Hb Hi Hs) as (-> & ? & ->). rewrite Hpc. split; [done | lia].
  - destruct Hi as (-> & Hi & ?). destruct (counting_irq _ n _ s s' Ht Hb Hi Hs) as (-> & ? & ->). rewrite Hpc. split_and!; done || lia.
  - destruct Hi as (Hty & Hk & Hl). destruct (irq_step_counts t s s' Ht Hty ltac:(lia) Hs) as (_ & -> & -> & -> & ->).
    rewrite Hpc, Hl, (proj2 (Z.eqb_neq (flih_timer_triggered s + 1) 10)) by lia. cbn. rewrite andb_false_r. split_and!; done || lia.
  - destruct Hi as (_ & Hi & _). by rewrite Hi in He.
  - done.
Qed.

(** The partition is ready for a message: the timer is off, the interrupt
    disabled, its signal clear.  The variables are what an earlier message left. *)
Definition ready s : Prop := f_pc s = Dispatch /\ L s = off.

Lemma reach_inv t s0 n s : known t -> ready s0 -> flih_reach SIG t s0 n s -> 0 <= n /\ (n < 2 ^ 32 -> flih_inv t n s).
Proof.
  intros Ht [Hpc Hl] H. induction H as [|n s s' H [Hn IH] Hs|n s s' H [Hn IH] Hs].
  - split; [done|]. intros _. unfold flih_inv. by rewrite Hpc.
  - split; [done|]. intros Hb. by eapply flih_step_inv; eauto.
  - split; [lia|]. intros Hb. eapply irq_step_inv; eauto. apply IH. lia.
Qed.

Lemma flih_run_reach t l s0 n s : flih_reach SIG t s0 n s ->
  exists n', n <= n' <= n + Z.of_nat (length l) /\ flih_reach SIG t s0 n' (foldl (flih_move SIG t) s l).
Proof.
  revert n s. induction l as [|b l IH]; intros n s H.
  { exists n. split; [cbn; lia | done]. }
  cbn [foldl length]. assert (exists n1, n <= n1 <= n + 1 /\ flih_reach SIG t s0 n1 (flih_move SIG t s b)) as (n1 & Hn1 & H1).
  { unfold flih_move. destruct b.
    - destruct (irq_step s) eqn:E.
      + exists (n + 1). split; [lia|]. by eapply flih_irq.
      + exists n. split; [lia | done].
    - exists n. split; [lia|]. destruct (flih_step SIG t s) eqn:E; [|done]. by eapply flih_thread. }
  destruct (IH n1 _ H1) as (n' & Hn' & H'). exists n'. split; [lia | done].
Qed.

Lemma can_irq t s : known t -> test_type s = t -> 0 <= flih_timer_triggered s < 2 ^ 32 - 1 ->
  running (L s) = true -> enabled (L s) = true -> exists s', irq_step s = Some s'.
Proof.
  intros Ht Hty Hk Hr He. unfold irq_step. destruct (law_can_take _ Hr He) as [w ->]. cbn.
  unfold tfm_flih_test_timer_handler. cbn. destruct Ht as [Ht|Ht]; rewrite Hty, Ht; cbn; eauto.
Qed.

(** What the service has to do until its reply: each point counts one step, the
    wait one interrupt for each that is missing. *)
Definition flih_rank (s : flih W) : nat :=
  let waiting k := if flih_timer_triggered s <? 10 then Z.to_nat (15 - flih_timer_triggered s) else k in
  match f_pc s with
  | Dispatch => 20 | SetType => 19 | ZeroCount => 18 | EnableIrq => 17 | StartTimer => 16
  | CountLoop | WaitSignal => waiting 4%nat
  | Wfi => waiting 5%nat
  | StopTimer => 3 | ResetSignal => 2 | DisableIrq => 1
  | Replied _ | Panicked => 0
  end.

(** Whether it is the turn of the timer. *)
Definition flih_need (s : flih W) : bool :=
  match f_pc s with CountLoop | Wfi | WaitSignal => flih_timer_triggered s <? 10 | _ => false end.

Definition flih_may (t : Z) (k : nat) s : Prop := exists n, 0 <= n /\ n + Z.of_nat k < 2 ^ 32 - 1 /\ flih_inv t n s.

Lemma flih_may_move t k s b : known t -> flih_may t (S k) s -> flih_may t k (flih_move SIG t s b).
Proof.
  intros Ht (n & Hn & Hb & Hi). unfold flih_move. destruct b.
  - destruct (irq_step s) as [s'|] eqn:E; [|exists n; split_and!; [done | lia | done]].
    exists (n + 1). split_and!; [lia | lia |]. eapply irq_step_inv; [done | done | lia | done | done].
  - exists n. split_and!; [done | lia |]. destruct (flih_step SIG t s) as [s'|] eqn:E; [|done].
    by eapply flih_step_inv; eauto.
Qed.

(** An interrupt leaves the point where the thread is, and counts. *)
Lemma irq_step_moves t n s s' : known t -> 0 <= n -> n + 1 < 2 ^ 32 -> flih_inv t n s -> irq_step s = Some s' ->
  f_pc s' = f_pc s /\ flih_timer_triggered s' = flih_timer_triggered s + 1 /\ 0 <= flih_timer_triggered s.
Proof.
  intros Ht Hn Hb Hi Hs. pose proof (irq_needs_enabled s s' Hs) as He. unfold flih_inv in Hi.
  assert (forall r, counting t n r s -> f_pc s' = f_pc s /\ flih_timer_triggered s' = flih_timer_triggered s + 1 /\
    0 <= flih_timer_triggered s) as Hc.
  { intros r Hr. destruct (counting_irq t n r s s' Ht Hb Hr Hs) as (? & _ & ?). split_and!; [done | done | apply Hr]. }
  destruct (f_pc s) eqn:Hpc.
  1-4: by assert (L s = off) as Hl by (exact Hi || apply Hi); rewrite Hl in He.
  1-6: by eapply Hc, Hi.
  - destruct Hi as (Hty & Hk & Hl).
    destruct (irq_step_counts t s s' Ht Hty ltac:(lia) Hs) as (_ & ? & _ & ? & _). rewrite Hpc in *. by split_and!; [| |lia].
  - destruct Hi as (_ & Hl & _). by rewrite Hl in He.
  - done.
Qed.

Lemma flih_irq_rank t n s s' : known t -> 0 <= n -> n + 1 < 2 ^ 32 -> flih_inv t n s -> irq_step s = Some s' ->
  (flih_rank s' <= flih_rank s)%nat /\ (flih_need s = true -> (flih_rank s' < flih_rank s)%nat) /\
  (flih_need s = false -> flih_need s' = false).
Proof.
  intros Ht Hn Hb Hi Hs. destruct (irq_step_moves t n s s' Ht Hn Hb Hi Hs) as (Hpc & Hk & H0).
  unfold flih_rank, flih_need. rewrite Hpc, Hk.
  destruct (Z.ltb_spec (flih_timer_triggered s) 10), (Z.ltb_spec (flih_timer_triggered s + 1) 10); try lia;
    destruct (f_pc s); split_and!; intros; (done || lia).
Qed.

Lemma flih_step_rank t n s : known t -> 0 <= n -> flih_inv t n s ->
  (flih_need s = false -> (0 < flih_rank s)%nat ->
    exists s', flih_step SIG t s = Some s' /\ (flih_rank s' < flih_rank s)%nat) /\
  (flih_need s = true -> forall s', flih_step SIG t s = Some s' -> flih_rank s' = flih_rank s /\ flih_need s' = true).
Proof.
  intros Ht Hn Hi. destruct s as [pc ty k w]. unfold flih_inv, counting, flih_need in *. cbn in Hi |- *.
  destruct pc; cbn; (split; [intros Hf Hr | intros Hf s' Hs]); try done; try lia.
  - destruct Ht as [-> | ->]; cbn; eexists; (split; [reflexivity | cbn; lia]).
  - eexists; split; [reflexivity | cbn; lia].
  - eexists; split; [reflexivity | cbn; lia].
  - eexists; split; [reflexivity | cbn; lia].
  - destruct Hi as (_ & Hk & _). eexists; split; [reflexivity|]. unfold flih_rank. cbn.
    destruct (t =? TFM_FLIH_TEST_CASE_1); destruct (k <? 10); lia.
  - unfold flih_rank. rewrite Hf. cbn. eexists; split; [reflexivity | cbn; lia].
  - rewrite Hf in Hs. simplify_eq. unfold flih_rank. by cbn; rewrite Hf.
  - unfold flih_rank. cbn. rewrite Hf. eexists; split; [reflexivity | cbn; rewrite Hf; lia].
  - simplify_eq. unfold flih_rank. by cbn; rewrite Hf.
  - destruct Hi as (-> & -> & Hk & Hl). apply Z.ltb_ge in Hf. cbn in Hl. rewrite (proj2 (Z.leb_le 10 k)) in Hl by done.
    destruct (law_wait_irq w) as (w' & Hw & _); [by rewrite Hl|]. rewrite Hw. cbn. rewrite Z.eqb_refl.
    eexists; split; [reflexivity|]. unfold flih_rank. cbn. rewrite (proj2 (Z.ltb_ge k 10)) by done. lia.
  - destruct Hi as (-> & -> & Hk & Hl). apply Z.ltb_lt in Hf. cbn in Hl. rewrite (proj2 (Z.leb_gt 10 k)) in Hl by done.
    by rewrite law_wait_irq_none in Hs by by rewrite Hl.
  - eexists; split; [reflexivity|]. unfold flih_rank. cbn. destruct (t =? TFM_FLIH_TEST_CASE_1); cbn; lia.
  - eexists; split; [reflexivity | unfold flih_rank; cbn; lia].
  - eexists; split; [reflexivity | unfold flih_rank; cbn; lia].
Qed.

(** An unknown message changes nothing. *)
Lemma flih_unknown t s : ~ known t -> f_pc s = Dispatch ->
  flih_step SIG t s = Some (mkFlih (Replied PSA_ERROR_PROGRAMMER_ERROR) (test_type s) (flih_timer_triggered s) (f_world s)).
Proof.
  unfold known. intros Ht Hpc. unfold flih_step. rewrite Hpc.
  destruct (Z.eqb_spec t TFM_FLIH_TEST_CASE_1), (Z.eqb_spec t TFM_FLIH_TEST_CASE_2); naive_solver.
Qed.

(** C14. However the interrupts of the timer fall between the steps of the service,
    as long as they are fewer than [2 ^ 32]: the handler never panics for a
    test type that is not set, the wait never returns another signal, and a
    reply is SUCCESS, after ten interrupts at least, with the timer stopped,
    the interrupt disabled and its signal clear, ready for the next message. *)
Theorem flih_service_safe t s0 n s : known t -> ready s0 -> flih_reach SIG t s0 n s -> n < 2 ^ 32 ->
  f_pc s <> Panicked /\
  forall st, f_pc s = Replied st -> st = PSA_SUCCESS /\ 10 <= n /\ ready (mkFlih Dispatch (test_type s) (flih_timer_triggered s) (f_world s)).
Proof.
  intros Ht Hs H Hn. destruct (reach_inv t s0 n s Ht Hs H) as [_ Hi]. specialize (Hi Hn). unfold flih_inv in Hi. split.
  - intros Hpc. by rewrite Hpc in Hi.
  - intros st Hpc. rewrite Hpc in Hi. destruct Hi as (-> & Hl & Hk). split; [done|]. split; [lia | by split].
Qed.

(** The turn of the agent that has to move brings the reply nearer. *)
Lemma flih_need_goes_down t k s : known t -> flih_may t (S k) s -> (0 < flih_rank s)%nat ->
  (flih_rank (flih_move SIG t s (flih_need s)) < flih_rank s)%nat.
Proof.
  intros Ht (n & Hn & Hb & Hi) Hr. unfold flih_move. destruct (flih_need s) eqn:Hneed.
  - assert (exists s', irq_step s = Some s') as [s' Hs].
    { unfold flih_need in Hneed. unfold flih_inv, counting in Hi.
      destruct (f_pc s); try done; destruct Hi as (-> & Hty & Hk & Hl); (eapply can_irq; [done | exact Hty | lia | by rewrite Hl..]). }
    rewrite Hs. by apply (flih_irq_rank t n s s' Ht Hn ltac:(lia) Hi Hs).
  - destruct (flih_step_rank t n s Ht Hn Hi) as [Hf _]. destruct (Hf Hneed Hr) as (s' & Hs & Hlt). by rewrite Hs.
Qed.

Lemma flih_move_rank t k s b : known t -> flih_may t (S k) s -> (flih_rank (flih_move SIG t s b) <= flih_rank s)%nat.
Proof.
  intros Ht (n & Hn & Hb & Hi). unfold flih_move. destruct b.
  - destruct (irq_step s) as [s'|] eqn:E; [|done]. by apply (flih_irq_rank t n s s' Ht Hn ltac:(lia) Hi E).
  - destruct (flih_step SIG t s) as [s'|] eqn:E; [|done]. destruct (flih_step_rank t n s Ht Hn Hi) as [Hf Hw].
    destruct (flih_need s) eqn:Hneed; [cbn; by destruct (Hw eq_refl s' E) as [-> _]|].
    destruct (decide (flih_rank s = 0%nat)) as [H0|H0].
    + unfold flih_rank in H0. unfold flih_step in E. unfold flih_inv, counting in Hi.
      destruct (f_pc s); try done; destruct (flih_timer_triggered s <? 10) eqn:?; (done || lia).
    + destruct (Hf eq_refl ltac:(lia)) as (s1 & Hs1 & Hlt). rewrite E in Hs1. simplify_eq. cbn. lia.
Qed.

Lemma flih_need_kept t k s : known t -> flih_may t (S k) s ->
  (flih_rank (flih_move SIG t s (negb (flih_need s))) < flih_rank s)%nat \/
  flih_need (flih_move SIG t s (negb (flih_need s))) = flih_need s.
Proof.
  intros Ht (n & Hn & Hb & Hi). right. unfold flih_move. destruct (flih_need s) eqn:Hneed; cbn [negb].
  - destruct (flih_step SIG t s) as [s'|] eqn:E; [|done]. destruct (flih_step_rank t n s Ht Hn Hi) as [_ Hw].
    by destruct (Hw Hneed s' E).
  - destruct (irq_step s) as [s'|] eqn:E; [|done]. by apply (flih_irq_rank t n s s' Ht Hn ltac:(lia) Hi E).
Qed.

Lemma flih_fair_replies t n s N l : known t -> 0 <= n -> flih_inv t n s -> (0 < N)%nat -> fair N l ->
  (20 * N <= length l)%nat -> n + Z.of_nat (length l) < 2 ^ 32 - 1 ->
  f_pc (foldl (flih_move SIG t) s l) = Replied PSA_SUCCESS /\ L (foldl (flih_move SIG t) s l) = off.
Proof.
  intros Ht Hn Hi HN Hf Hl Hb.
  assert (flih_may t (length l + 0) s) as Hmay by (exists n; split_and!; [done | lia | done]).
  assert (flih_rank s <= 20)%nat as Hr.
  { unfold flih_rank, flih_inv, counting in *. destruct (f_pc s); try lia; destruct (flih_timer_triggered s <? 10); lia. }
  pose proof (fair_finishes (flih_move SIG t) (flih_may t) flih_rank flih_need (fun k s b => flih_may_move t k s b Ht)
    (fun k s b => flih_move_rank t k s b Ht) (fun k s => flih_need_goes_down t k s Ht) (fun k s => flih_need_kept t k s Ht)
    N l s ltac:(by rewrite Nat.add_0_r in Hmay) HN Hf ltac:(nia)) as H0.
  destruct (moves_inv (flih_move SIG t) (flih_may t) (fun k s b => flih_may_move t k s b Ht) l 0 s Hmay) as (n' & Hn' & _ & Hi').
  revert H0 Hi'. generalize (foldl (flih_move SIG t) s l). intros s'. unfold flih_rank, flih_inv.
  destruct (f_pc s'); try done; try (destruct (flih_timer_triggered s' <? 10) eqn:E; [apply Z.ltb_lt in E; lia | done]).
  by intros _ (-> & Hq & _).
Qed.

(** C30. The service is never stuck for good: from every state [s] that it can
    reach, every fair schedule of the interrupts and the steps of its thread
    that follows brings it to its reply, SUCCESS, within twenty windows of the
    schedule, in each of which both move, as long as fewer than [2 ^ 32 - 1]
    interrupts have come. *)
Theorem flih_service_completes t s0 n s N l : known t -> ready s0 -> flih_reach SIG t s0 n s ->
  (0 < N)%nat -> fair N l -> (20 * N <= length l)%nat -> n + Z.of_nat (length l) < 2 ^ 32 - 1 ->
  f_pc (foldl (flih_move SIG t) s l) = Replied PSA_SUCCESS.
Proof.
  intros Ht Hs H HN Hf Hl Hb. destruct (reach_inv t s0 n s Ht Hs H) as [H0 Hi].
  by apply (flih_fair_replies t n s N l Ht H0 (Hi ltac:(lia))).
Qed.
End flih_proofs.

(** ** tfm_slih_test_service.c *)

Inductive slih_pc :=
  | SDispatch | SEnable | SStart | SWait | SStop | SDisable | SEoi | SReplied (status : Z) | SPanicked.

Section slih.
  Context {FC : FfmConsts} {W : Type} {IP : IrqPlatform W}.
  Variable TFM_TIMER0_IRQ_SIGNAL : Z.

(** A step of the thread on a message of type [t], from a point and a world. *)
Definition slih_step (t : Z) (s : slih_pc * W) : option (slih_pc * W) :=
  let '(pc, w) := s in
  match pc with
  | SDispatch => Some (if t =? TFM_SLIH_TEST_CASE_1 then (SEnable, w) else (SReplied PSA_ERROR_PROGRAMMER_ERROR, w))
  | SEnable => Some (SStart, psa_irq_enable w)
  | SStart => Some (SWait, tfm_plat_test_secure_timer_start w)
  | SWait =>
      '(signals, w) ← psa_wait_irq w;
      Some (if negb (signals =? TFM_TIMER0_IRQ_SIGNAL) then (SPanicked, w) else (SStop, w))
  (** [slih_test_timer_handler] *)
  | SStop => Some (SDisable, tfm_plat_test_secure_timer_stop w)
  | SDisable => Some (SEoi, psa_irq_disable w)
  | SEoi => Some (SReplied PSA_SUCCESS, psa_eoi w)
  | SReplied _ | SPanicked => None
  end.

(** Without a first level handler the framework asserts the signal. *)
Definition slih_irq (s : slih_pc * W) : option (slih_pc * W) :=
  w ← take_irq s.2; Some (s.1, assert_signal w).

Inductive slih_reach (t : Z) (s0 : slih_pc * W) : slih_pc * W -> Prop :=
  | slih_start : slih_reach t s0 s0
  | slih_thread s s' : slih_reach t s0 s -> slih_step t s = Some s' -> slih_reach t s0 s'
  | slih_interrupt s s' : slih_reach t s0 s -> slih_irq s = Some s' -> slih_reach t s0 s'.

Definition slih_move (t : Z) (s : slih_pc * W) (b : bool) : slih_pc * W :=
  default s (if b then slih_irq s else slih_step t s).
End slih.

Section slih_proofs.
  Context {FC : FfmConsts} {W : Type} {IP : IrqPlatform W} {SIG : Z} {IL : IrqLaws W SIG}.

Abbreviation lw w := (lines_of (TFM_TIMER0_IRQ_SIGNAL := SIG) w).

Definition slih_inv (s : slih_pc * W) : Prop :=
  match s.1 with
  | SDispatch | SEnable => lw s.2 = off
  | SStart => exists a, lw s.2 = mkLines false true a
  | SWait => exists a, lw s.2 = mkLines true true a
  | SStop => lw s.2 = mkLines true true true
  | SDisable => lw s.2 = mkLines false true true
  | SEoi => lw s.2 = mkLines false false true
  | SReplied st => st = PSA_SUCCESS /\ lw s.2 = off
  | SPanicked => False
  end.

Lemma slih_step_inv s s' : slih_inv s -> slih_step SIG TFM_SLIH_TEST_CASE_1 s = Some s' -> slih_inv s'.
Proof.
  destruct s as [pc w]. unfold slih_inv. cbn. intros Hi Hs. destruct pc; cbn in Hs; simplify_eq; cbn; try done.
  - exists false. by rewrite law_irq_enable, Hi.
  - destruct Hi as [a Hl]. exists a. by rewrite law_timer_start, Hl.
  - destruct Hi as [[] Hl].
    + destruct (law_wait_irq w) as (w2 & Hq & Hl2); [by rewrite Hl|]. rewrite Hq in Hs. cbn in Hs.
      rewrite Z.eqb_refl in Hs. cbn in Hs. simplify_eq. cbn. by rewrite Hl2.
    + by rewrite law_wait_irq_none in Hs by by rewrite Hl.
  - by rewrite law_timer_stop, Hi.
  - by rewrite law_irq_disable, Hi.
  - by rewrite law_eoi, Hi.
Qed.

Lemma slih_irq_inv s s' : slih_inv s -> slih_irq s = Some s' -> slih_inv s'.
Proof.
  destruct s as [pc w]. unfold slih_inv, slih_irq. cbn. intros Hi Hs.
  destruct (take_irq w) as [w2|] eqn:Hq; [|done]. cbn in Hs. simplify_eq. cbn.
  destruct (law_take_irq _ _ Hq) as [He Hl2]. rewrite law_assert_signal, Hl2.
  destruct pc; cbn; try (by rewrite Hi in He); try (by rewrite Hi); try done.
  - destruct Hi as [a Hl]. exists true. by rewrite Hl.
  - destruct Hi as [a Hl]. exists true. by rewrite Hl.
  - destruct Hi as [_ Hl]. by rewrite Hl in He.
Qed.

Lemma slih_reach_inv w s : lw w = off -> slih_reach SIG TFM_SLIH_TEST_CASE_1 (SDispatch, w) s -> slih_inv s.
Proof.
  intros Hw H. induction H; [done | by eapply slih_step_inv | by eapply slih_irq_inv].
Qed.

Definition slih_rank (s : slih_pc * W) : nat :=
  match s.1 with
  | SDispatch => 8 | SEnable => 7 | SStart => 6
  | SWait => if asserted_irq (lw s.2) then 4 else 5
  | SStop => 3 | SDisable => 2 | SEoi => 1
  | SReplied _ | SPanicked => 0
  end.

Definition slih_need (s : slih_pc * W) : bool :=
  match s.1 with SWait => negb (asserted_irq (lw s.2)) | _ => false end.

Lemma slih_inv_move s b : slih_inv s -> slih_inv (slih_move SIG TFM_SLIH_TEST_CASE_1 s b).
Proof.
  intros Hi. unfold slih_move. destruct b.
  - destruct (slih_irq s) as [s'|] eqn:E; [by eapply slih_irq_inv | done].
  - destruct (slih_step SIG TFM_SLIH_TEST_CASE_1 s) as [s'|] eqn:E; [by eapply slih_step_inv | done].
Qed.

(** What a move does to the measure and to the turn. *)
Lemma slih_step_rank s : slih_inv s ->
  if slih_need s then slih_step SIG TFM_SLIH_TEST_CASE_1 s = None
  else (0 < slih_rank s)%nat -> exists s', slih_step SIG TFM_SLIH_TEST_CASE_1 s = Some s' /\ (slih_rank s' < slih_rank s)%nat.
Proof.
  destruct s as [pc w]. unfold slih_inv, slih_need. cbn. intros Hi.
  destruct pc; cbn; try (intros _; eexists; split; [reflexivity | unfold slih_rank; cbn; lia]).
  - intros _. eexists; split; [reflexivity|]. unfold slih_rank. cbn. destruct (asserted_irq _); lia.
  - destruct Hi as [[] Hl]; rewrite Hl; cbn.
    + intros _. destruct (law_wait_irq w) as (w' & Hw & Hl'); [by rewrite Hl|]. rewrite Hw. cbn. rewrite Z.eqb_refl.
      eexists; split; [reflexivity | unfold slih_rank; cbn; lia].
    + by rewrite law_wait_irq_none by by rewrite Hl.
  - unfold slih_rank. cbn. lia.
  - unfold slih_rank. cbn. lia.
Qed.

Lemma slih_irq_rank s s' : slih_inv s -> slih_irq s = Some s' ->
  (slih_rank s' <= slih_rank s)%nat /\ (slih_need s = true -> (slih_rank s' < slih_rank s)%nat) /\
  slih_need s' = false.
Proof.
  destruct s as [pc w]. unfold slih_irq. cbn. intros Hi Hs.
  destruct (take_irq w) as [w1|] eqn:Hq; [|done]. cbn in Hs. simplify_eq. unfold slih_rank, slih_need. cbn.
  rewrite law_assert_signal. cbn. destruct pc; split_and!; try done; destruct (asserted_irq (lw w)); cbn; intros; (done || lia).
Qed.

Lemma slih_can_irq s : slih_inv s -> slih_need s = true -> is_Some (slih_irq s).
Proof.
  destruct s as [pc w]. unfold slih_inv, slih_need, slih_irq. cbn. destruct pc; try done. intros [a Hl] _.
  destruct (law_can_take w) as [w1 ->]; [by rewrite Hl..|]. by eexists.
Qed.

Lemma slih_move_rank s b : slih_inv s -> (slih_rank (slih_move SIG TFM_SLIH_TEST_CASE_1 s b) <= slih_rank s)%nat.
Proof.
  intros Hi. unfold slih_move. destruct b.
  - destruct (slih_irq s) as [s'|] eqn:E; [|done]. by apply (slih_irq_rank s s' Hi E).
  - pose proof (slih_step_rank s Hi) as Hd. destruct (slih_need s); [by rewrite Hd|].
    destruct (decide (slih_rank s = 0)%nat) as [Hp|Hp].
    + unfold slih_rank in Hp. destruct s as [pc w]. cbn in *. destruct pc; try lia; try done.
      destruct (asserted_irq _); lia.
    + destruct (Hd ltac:(lia)) as (s1 & -> & ?). cbn. lia.
Qed.

Lemma slih_need_goes_down s : slih_inv s -> (0 < slih_rank s)%nat ->
  (slih_rank (slih_move SIG TFM_SLIH_TEST_CASE_1 s (slih_need s)) < slih_rank s)%nat.
Proof.
  intros Hi Hp. pose proof (slih_step_rank s Hi) as Hd. unfold slih_move. destruct (slih_need s) eqn:Hn.
  - destruct (slih_can_irq s Hi Hn) as [s' E]. rewrite E. by apply (slih_irq_rank s s' Hi E).
  - by destruct (Hd Hp) as (s' & -> & ?).
Qed.

Lemma slih_need_kept s : slih_inv s -> slih_need (slih_move SIG TFM_SLIH_TEST_CASE_1 s (negb (slih_need s))) = slih_need s.
Proof.
  intros Hi. pose proof (slih_step_rank s Hi) as Hd. unfold slih_move. destruct (slih_need s) eqn:Hn; cbn [negb].
  - by rewrite Hd.
  - destruct (slih_irq s) as [s'|] eqn:E; [|done]. by apply (slih_irq_rank s s' Hi E).
Qed.

Lemma slih_fair_replies s N l : slih_inv s -> (0 < N)%nat -> fair N l -> (8 * N <= length l)%nat ->
  (foldl (slih_move SIG TFM_SLIH_TEST_CASE_1) s l).1 = SReplied PSA_SUCCESS /\
  lw (foldl (slih_move SIG TFM_SLIH_TEST_CASE_1) s l).2 = off.
Proof.
  intros Hi HN Hf Hl.
  assert (slih_rank s <= 8)%nat as Hr by (unfold slih_rank; destruct s.1; try lia; destruct (asserted_irq _); lia).
  pose proof (fair_finishes (slih_move SIG TFM_SLIH_TEST_CASE_1) (fun _ => slih_inv) slih_rank slih_need
    (fun _ => slih_inv_move) (fun _ => slih_move_rank) (fun _ => slih_need_goes_down)
    (fun _ s Hi => or_intror (slih_need_kept s Hi)) N l s Hi HN Hf ltac:(nia)) as H0.
  pose proof (moves_inv _ (fun _ => slih_inv) (fun _ => slih_inv_move) l 0 s Hi) as Hi'. revert H0 Hi'.
  unfold slih_rank, slih_inv.
  destruct (foldl _ s l) as [pc w]. cbn. destruct pc; try done; try (by intros _ [-> ?]).
  by destruct (asserted_irq _).
Qed.

(** However the interrupts fall, the second level handling never panics, a
    reply is SUCCESS with the timer stopped, the interrupt disabled and its
    signal clear; and every fair schedule that follows brings the service to
    its reply within eight windows. *)
Theorem slih_service_correct w s N l : lw w = off -> slih_reach SIG TFM_SLIH_TEST_CASE_1 (SDispatch, w) s ->
  s.1 <> SPanicked /\ (forall st, s.1 = SReplied st -> st = PSA_SUCCESS /\ lw s.2 = off) /\
  ((0 < N)%nat -> fair N l -> (8 * N <= length l)%nat ->
    (foldl (slih_move SIG TFM_SLIH_TEST_CASE_1) s l).1 = SReplied PSA_SUCCESS).
Proof.
  intros Hw H. pose proof (slih_reach_inv w s Hw H) as Hi. split_and!.
  - intros Hpc. unfold slih_inv in Hi. by rewrite Hpc in Hi.
  - intros st Hpc. unfold slih_inv in Hi. by rewrite Hpc in Hi.
  - intros HN Hf Hl. by apply (slih_fair_replies s N l).
Qed.
End slih_proofs.

(** ** A platform that meets the laws *)

Section reference_platform.

(** The signal is bit 4. *)
#[export] Instance ref_irq : IrqPlatform lines := {|
  tfm_plat_test_secure_timer_start w := mkLines true (enabled w) (asserted_irq w);
  tfm_plat_test_secure_timer_stop w := mkLines false (enabled w) (asserted_irq w);
  tfm_plat_test_secure_timer_clear_intr w := w;
  psa_irq_enable w := mkLines (running w) true (asserted_irq w);
  psa_irq_disable w := mkLines (running w) false (asserted_irq w);
  psa_reset_signal w := mkLines (running w) (enabled w) false;
  psa_eoi w := mkLines (running w) (enabled w) false;
  psa_wait_irq w := if asserted_irq w then Some (16, w) else None;
  take_irq w := if enabled w && running w then Some w else None;
  assert_signal w := mkLines (running w) (enabled w) true |}.

#[export] Instance ref_irq_laws : IrqLaws lines 16.
Proof.
  refine {| lines_of := fun w => w |}; try done.
  - intros w. cbn. by intros ->.
  - intros w. cbn. intros ->. by exists w.
  - intros w w'. cbn. destruct (enabled w), (running w); by intros [= <-].
  - intros w. cbn. intros -> ->. by eexists.
Defined.

(** A run of case 2: five steps, ten interrupts. *)
Definition example_start : flih lines := mkFlih Dispatch 0x200 7 off.
Definition example_moves : list bool := replicate 5 false ++ replicate 10 true.

Lemma flih_service_safe_witness : exists n, flih_reach 16 TFM_FLIH_TEST_CASE_2 example_start n
    (foldl (flih_move 16 TFM_FLIH_TEST_CASE_2) example_start example_moves) /\
  f_pc (foldl (flih_move 16 TFM_FLIH_TEST_CASE_2) example_start example_moves) <> Panicked.
Proof.
  destruct (flih_run_reach (SIG := 16) TFM_FLIH_TEST_CASE_2 example_moves example_start 0 example_start (flih_start _ _ _)) as (n & Hn & H).
  exists n. split; [exact H|]. cbn [length example_moves replicate app] in Hn.
  apply (flih_service_safe (IL := ref_irq_laws) TFM_FLIH_TEST_CASE_2 example_start n _ (or_intror eq_refl) (conj eq_refl eq_refl) H). lia.
Defined.

(** Two interrupts and two steps, again and again. *)
Definition example_fair : list bool := concat (replicate 25 [true; true; false; false]).

Lemma example_fair_ok : fair 3 example_fair.
Proof. apply fairb_fair; [cbn; lia | by vm_compute]. Qed.

Lemma flih_service_completes_witness :
  f_pc (foldl (flih_move 16 TFM_FLIH_TEST_CASE_1) (mkFlih Dispatch 0x200 7 off) example_fair) = Replied PSA_SUCCESS.
Proof.
  apply (flih_service_completes (IL := ref_irq_laws) TFM_FLIH_TEST_CASE_1 (mkFlih Dispatch 0x200 7 off) 0
    (mkFlih Dispatch 0x200 7 off) 3 example_fair (or_introl eq_refl) (conj eq_refl eq_refl) (flih_start _ _ _) ltac:(lia)
    example_fair_ok); vm_compute; (done || lia).
Defined.

Lemma slih_service_correct_witness :
  (foldl (slih_move 16 TFM_SLIH_TEST_CASE_1) (SDispatch, off) example_fair).1 = SReplied PSA_SUCCESS.
Proof.
  destruct (slih_service_correct (IL := ref_irq_laws) off (SDispatch, off) 3 example_fair eq_refl (slih_start _ _ _)) as (_ & _ & H).
  apply H; [lia | exact example_fair_ok | vm_compute; lia].
Defined.
End reference_platform.
