(* ===== verification/IrqSuite.v ===== *)
(** * The interrupt suite of the SPM

    The entry points of the two partitions, each with its thread run under a
    schedule of interrupts, and suites/spm/irq/non_secure with the tests of
    suites/spm/common/suites/irq_test.c that call them. *)

From S2P Require Import Prelude LogRaw TestFramework TestProg Fair Ffm IpcTests IpcSuites SpmRules FfmRef IrqTests.
Local Open Scope Z_scope.

(** ** The partitions under a schedule *)

(** What the partitions keep between messages: the variables of the FLIH
    service, and the platform. *)
Record irq_data (V : Type) := mkIrqData { d_test_type : Z; d_triggered : Z; d_platform : V }.
Arguments mkIrqData {V} _ _ _.
Arguments d_test_type {V} _.
Arguments d_triggered {V} _.
Arguments d_platform {V} _.

Definition flih_partition : nat := 4.
Definition slih_partition : nat := 5.

Section partitions.
  Context {FC : FfmConsts} {MF : Manifest} {W V : Type} {FW : Framework W} {IP : IrqPlatform V}.
  Variable TFM_TIMER0_IRQ_SIGNAL : Z.
  (** Which moves are made while a partition works on a message of a type:
      [true] is an interrupt, [false] a step of the thread.  A move that is not
      possible is not made. *)
  Variable schedule : Z -> irq_data V -> list bool.

Definition flih_run (t : Z) (d : irq_data V) : flih V :=
  foldl (flih_move TFM_TIMER0_IRQ_SIGNAL t) (mkFlih Dispatch (d_test_type d) (d_triggered d) (d_platform d)) (schedule t d).

Definition slih_run (t : Z) (d : irq_data V) : slih_pc * V :=
  foldl (slih_move TFM_TIMER0_IRQ_SIGNAL t) (SDispatch, d_platform d) (schedule t d).

Abbreviation SV := (SP (W * irq_data V)).

Definition flih_test_handle_msg (msg : psa_msg_t) : SV Z :=
  d ← get_data;
  let s := flih_run (m_type msg) d in
  put_data (mkIrqData (test_type s) (flih_timer_triggered s) (f_world s));;
  match f_pc s with
  | Replied status => mret status
  | Panicked => psa_panic
  | _ => hangs
  end.

Definition slih_test_handle_msg (msg : psa_msg_t) : SV Z :=
  d ← get_data;
  let s := slih_run (m_type msg) d in
  put_data (mkIrqData (d_test_type d) (d_triggered d) s.2);;
  match s.1 with
  | SReplied status => mret status
  | SPanicked => psa_panic
  | _ => hangs
  end.

(** [flih_test_get_msg], [slih_test_get_msg] *)
Definition get_msg (p : nat) (s : service) : SV psa_msg_t :=
  '(status, msg) ← on_spm (psa_get p (signal (sv_sid s)));
  if negb (status =? PSA_SUCCESS) then psa_panic else mret msg.

(** A turn of the loop of the entry points. *)
Definition service_entry (p : nat) (s : service) (handle_msg : psa_msg_t -> SV Z) : SV unit :=
  signals ← on_spm (psa_wait p PSA_WAIT_ANY PSA_BLOCK);
  if asserted signals s then
    msg ← get_msg p s;
    status ← handle_msg msg;
    on_spm (psa_reply p (m_handle msg) status)
  else mret tt.

Definition tfm_flih_test_service_entry : SV unit := service_entry flih_partition TFM_FLIH_TEST_CASE flih_test_handle_msg.
Definition tfm_slih_test_service_entry : SV unit := service_entry slih_partition TFM_SLIH_TEST_CASE slih_test_handle_msg.

Definition irq_code (p : nat) : SV unit :=
  if decide (p = flih_partition) then tfm_flih_test_service_entry
  else if decide (p = slih_partition) then tfm_slih_test_service_entry
  else s_undefined.

(** ** irq_test.c and irq_testsuite.c *)

Variables (c : Z) (irq_test_c : string) (TEST_NS_SLIH_IRQ TEST_NS_FLIH_IRQ : bool).

(** A call without vectors, and the message and line of its failure. *)
Definition irq_case (t : Z) (ln : Z) (msg : string) (handle : Z) : P (W * irq_data V) unit :=
  '(status, _, _) ← request_of (psa_call irq_code c handle t [] []);
  fail_if irq_test_c ln (negb (status =? PSA_SUCCESS)) (msg ++ cr ++ lf);;
  ret_val TEST_PASSED.

Definition irq_test_slih_case_1 := irq_case TFM_SLIH_TEST_CASE_1 23 "TFM_NS_IRQ_TEST_SLIH_HANDLING FAILED".
Definition irq_test_flih_case_1 := irq_case TFM_FLIH_TEST_CASE_1 39 "TFM_NS_IRQ_TEST_FLIH not returning signal, FAILED".
Definition irq_test_flih_case_2 := irq_case TFM_FLIH_TEST_CASE_2 52 "TFM_NS_IRQ_TEST_FLIH returning signal FAILED".

Definition tfm_irq_test_slih_case_1 := irq_test_slih_case_1 (stateless_handle (sv_sid TFM_SLIH_TEST_CASE)).
Definition tfm_irq_test_flih_case_1 := irq_test_flih_case_1 (stateless_handle (sv_sid TFM_FLIH_TEST_CASE)).
Definition tfm_irq_test_flih_case_2 := irq_test_flih_case_2 (stateless_handle (sv_sid TFM_FLIH_TEST_CASE)).

Definition irq_test_cases : list (test_t (W * irq_data V)) :=
  (if TEST_NS_SLIH_IRQ then [TEST tfm_irq_test_slih_case_1 "TFM_NS_IRQ_TEST_SLIH_1001" "SLIH HANDLING Case 1"] else []) ++
  (if TEST_NS_FLIH_IRQ then
   [TEST tfm_irq_test_flih_case_1 "TFM_NS_IRQ_TEST_FLIH_1101" "FLIH HANDLING not returning signal";
    TEST tfm_irq_test_flih_case_2 "TFM_NS_IRQ_TEST_FLIH_1102" "FLIH HANDLING returning Signal"] else []).

Definition register_testsuite_irq_test : TESTSUITE_REG (W * irq_data V) :=
  register "TFM IRQ Test (TFM_IRQ_TEST_1xxx)" irq_test_cases.
End partitions.

(** ** The suite passes *)

Section proofs.
  Context {FC : FfmConsts} {FCL : FfmConstsLaws} {MF : Manifest}.
  Context {SGF : SignalLaws tfm_flih_test_services} {SGS : SignalLaws tfm_slih_test_services}.
  Context {provides : Z -> option (nat * service)} {msg_handle : Z -> Z}.
  Context {W : Type} {FW : Framework W} {FL : FrameworkLaws provides msg_handle W}.
  Context {V : Type} {IP : IrqPlatform V} {SIG : Z} {IL : IrqLaws V SIG}.
  Variables (schedule : Z -> irq_data V -> list bool) (c : Z) (irq_test_c : string).
  Hypothesis Hflih : provides (sv_sid TFM_FLIH_TEST_CASE) = Some (flih_partition, TFM_FLIH_TEST_CASE).
  Hypothesis Hslih : provides (sv_sid TFM_SLIH_TEST_CASE) = Some (slih_partition, TFM_SLIH_TEST_CASE).

Definition quiet (d : irq_data V) : Prop := lines_of (TFM_TIMER0_IRQ_SIGNAL := SIG) (d_platform d) = off.

(** The schedules are fair, and long enough: while a partition works on a
    message, the timer interrupts it and its thread moves in any [N] moves. *)
Definition fair_schedule (N : nat) : Prop := (0 < N)%nat /\
  forall t d, fair N (schedule t d) /\ (20 * N <= length (schedule t d))%nat /\ Z.of_nat (length (schedule t d)) < 2 ^ 32 - 1.

Context (N : nat) (Hfair : fair_schedule N).

Abbreviation code := (irq_code SIG schedule).

Lemma flih_run_replies t d : known t -> quiet d -> f_pc (flih_run SIG schedule t d) = Replied PSA_SUCCESS /\
  lines_of (TFM_TIMER0_IRQ_SIGNAL := SIG) (f_world (flih_run SIG schedule t d)) = off.
Proof.
  intros Ht Hd. destruct Hfair as [HN Hs]. destruct (Hs t d) as (Hf & Hl & Hb).
  by apply (flih_fair_replies t 0 _ N (schedule t d) Ht).
Qed.

Lemma slih_run_replies d : quiet d -> (slih_run SIG schedule TFM_SLIH_TEST_CASE_1 d).1 = SReplied PSA_SUCCESS /\
  lines_of (TFM_TIMER0_IRQ_SIGNAL := SIG) (slih_run SIG schedule TFM_SLIH_TEST_CASE_1 d).2 = off.
Proof.
  intros Hd. destruct Hfair as [HN Hs]. destruct (Hs TFM_SLIH_TEST_CASE_1 d) as (Hf & Hl & _).
  apply (slih_fair_replies _ N); [exact Hd | done | done | lia].
Qed.

(** A turn of an entry point whose handler replies with SUCCESS. *)
Lemma entry_replies p s handle mh t rh c' f d (Q : unit -> ffm -> irq_data V -> Prop) l : SignalLaws l -> s ∈ l ->
  (forall R : Z -> ffm -> irq_data V -> Prop, (forall d', quiet d' -> R PSA_SUCCESS
      (set_work p (got (new_work (sv_sid s) t mh c' rh [] [])) f) d') ->
    wps ffm_of (handle (mkMsg t mh c' rh (sizes []) (sizes []))) R
      (set_work p (got (new_work (sv_sid s) t mh c' rh [] [])) f) d) ->
  (forall d', quiet d' -> Q tt (set_work p (replied PSA_SUCCESS (got (new_work (sv_sid s) t mh c' rh [] []))) f) d') ->
  wps ffm_of (service_entry p s handle) Q (set_work p (new_work (sv_sid s) t mh c' rh [] []) f) d.
Proof.
  intros HS Hs Hh HQ. unfold service_entry. apply wps_bind, wps_wait; [done|]. cbn [wk_sid new_work].
  rewrite (asserted_iff l), bool_decide_true by done. unfold get_msg. repeat sv_step.
  rewrite Z.eqb_refl. repeat sv_step. apply Hh. intros d' Hd'. repeat sv_step. by apply HQ.
Qed.

Lemma flih_turn mh t rh c' f d (Q : unit -> ffm -> irq_data V -> Prop) : known t -> quiet d ->
  (forall d', quiet d' -> Q tt (set_work flih_partition
     (replied PSA_SUCCESS (got (new_work (sv_sid TFM_FLIH_TEST_CASE) t mh c' rh [] []))) f) d') ->
  wps ffm_of (code flih_partition) Q (set_work flih_partition (new_work (sv_sid TFM_FLIH_TEST_CASE) t mh c' rh [] []) f) d.
Proof.
  intros Ht Hd HQ. eapply (entry_replies _ _ _ _ _ _ _ _ _ _ tfm_flih_test_services); [done | by left | | done]. intros R HR. unfold flih_test_handle_msg. repeat sv_step.
  destruct (flih_run_replies t d Ht Hd) as [-> Hl]. apply wps_ret, HR. exact Hl.
Qed.

Lemma slih_turn mh rh c' f d (Q : unit -> ffm -> irq_data V -> Prop) : quiet d ->
  (forall d', quiet d' -> Q tt (set_work slih_partition
     (replied PSA_SUCCESS (got (new_work (sv_sid TFM_SLIH_TEST_CASE) TFM_SLIH_TEST_CASE_1 mh c' rh [] []))) f) d') ->
  wps ffm_of (code slih_partition) Q
    (set_work slih_partition (new_work (sv_sid TFM_SLIH_TEST_CASE) TFM_SLIH_TEST_CASE_1 mh c' rh [] []) f) d.
Proof.
  intros Hd HQ. eapply (entry_replies _ _ _ _ _ _ _ _ _ _ tfm_slih_test_services); [done | by left | | done]. intros R HR. unfold slih_test_handle_msg. repeat sv_step.
  destruct (slih_run_replies d Hd) as [-> Hl]. apply wps_ret, HR. exact Hl.
Qed.

Definition irq_idle (w : W * irq_data V) : Prop := ffm_of w.1 = idle /\ quiet w.2.

Lemma irq_case_passes t ln msg s p d : provides (sv_sid s) = Some (p, s) -> connection_based s = false -> 0 <= t ->
  (forall mh rh c' f d (Q : unit -> ffm -> irq_data V -> Prop), quiet d ->
    (forall d', quiet d' -> Q tt (set_work p (replied PSA_SUCCESS (got (new_work (sv_sid s) t mh c' rh [] []))) f) d') ->
    wps ffm_of (code p) Q (set_work p (new_work (sv_sid s) t mh c' rh [] []) f) d) ->
  quiet d ->
  twp ffm_of (irq_case SIG schedule c irq_test_c t ln msg (stateless_handle (sv_sid s)))
    (fun _ f1 d1 v => f1 = idle /\ quiet d1 /\ v = TEST_PASSED) idle d TEST_PASSED.
Proof.
  intros Hp Hs Ht Hturn Hd. unfold irq_case. apply twp_bind, twp_request.
  eapply law_call_stateless; [exact Hp | done | done | done | done | cbn; lia |].
  apply Hturn; [done|]. intros d' Hd'. eexists _, _. split; [apply active_set_work|]. split; [done|].
  rewrite end_set_work by done. apply twp_bind, twp_fail_if; [by rewrite Z.eqb_refl|]. by repeat tstep.
Qed.

Lemma irq_step_passes m nm ds ts J :
  (forall d, quiet d -> twp ffm_of m (fun _ f1 d1 v => f1 = idle /\ quiet d1 /\ v = TEST_PASSED) idle d TEST_PASSED) ->
  all_pass ts irq_idle J -> all_pass (TEST m nm ds :: ts) irq_idle J.
Proof.
  intros Hm. apply (all_pass_preset _ m); [done | apply TEST_valid |]. intros ret w Hr [Hf Hd].
  apply (wp_as_test m irq_idle). eapply wp_mono; [by eapply (Hm w.2 Hd)|].
  intros [] s' (? & ? & ? & [Hf' Hd' Hv'] & -> & Hq & ->). split; [done|]. split; [done|]. by rewrite Hd'.
Qed.

Lemma irq_tests_pass slih_on flih_on : all_pass (irq_test_cases SIG schedule c irq_test_c slih_on flih_on) irq_idle irq_idle.
Proof.
  unfold irq_test_cases.
  assert (forall t ln msg d, known t -> quiet d ->
    twp ffm_of (irq_case SIG schedule c irq_test_c t ln msg (stateless_handle (sv_sid TFM_FLIH_TEST_CASE)))
      (fun _ f1 d1 v => f1 = idle /\ quiet d1 /\ v = TEST_PASSED) idle d TEST_PASSED) as Hf.
  { intros t ln msg d Ht Hd. apply (irq_case_passes _ _ _ TFM_FLIH_TEST_CASE flih_partition); try done.
    - by destruct Ht as [-> | ->].
    - intros. by apply flih_turn. }
  eapply all_pass_app with irq_idle.
  - destruct slih_on; [|constructor]. apply irq_step_passes; [|constructor]. intros d Hd.
    apply (irq_case_passes _ _ _ TFM_SLIH_TEST_CASE slih_partition); try done. intros. by apply slih_turn.
  - destruct flih_on; [|constructor]. apply irq_step_passes; [intros d Hd; apply Hf; [by left | done]|].
    apply irq_step_passes; [intros d Hd; apply Hf; [by right | done]|]. constructor.
Qed.

(** C32. The suite passes over every framework and platform that meet their laws,
    under every schedule of the interrupts and of the steps of the partitions
    in which both move in any [N] moves, and which goes on for twenty times as
    many: no such schedule makes a partition hang or panic.  Whatever tests
    are built. *)
Theorem irq_suite_passes slih_on flih_on fs w l : slih_on || flih_on = true -> ffm_of w.1 = idle -> quiet w.2 ->
  exists ts w1 l1,
    run_testsuite (Some (mkSuite (Some (register_testsuite_irq_test SIG schedule c irq_test_c slih_on flih_on)) fs)) (w, l) =
      Some ((TEST_SUITE_ERR_NO_ERROR, Some ts), (w1, l1)) /\
    suite_val (fields ts) = TEST_PASSED /\ ffm_of w1.1 = idle /\ quiet w1.2.
Proof.
  intros Hon Hf Hd.
  destruct (all_pass_run "TFM IRQ Test (TFM_IRQ_TEST_1xxx)" _ _ _ fs w l (irq_tests_pass slih_on flih_on))
    as (ts & w1 & l1 & Hr & Hv & Hf1 & Hd1); [by split | by destruct slih_on, flih_on | by destruct slih_on, flih_on |].
  by exists ts, w1, l1.
Qed.
End proofs.

Section irq_witness.

Definition irq_provides : Z -> option (nat * service) :=
  provides_of [(flih_partition, TFM_FLIH_TEST_CASE); (slih_partition, TFM_SLIH_TEST_CASE)].

#[local] Instance flih_signals : SignalLaws tfm_flih_test_services.
Proof. by apply signals_apart_laws. Qed.

#[local] Instance slih_signals : SignalLaws tfm_slih_test_services.
Proof. by apply signals_apart_laws. Qed.

Definition example_schedule (t : Z) (d : irq_data lines) : list bool := example_fair.

Lemma example_schedule_fair : fair_schedule example_schedule 3.
Proof. split; [lia|]. intros t d. split; [exact example_fair_ok | split; vm_compute; lia || done]. Qed.

Lemma irq_suite_passes_witness : exists ts w1 l1,
  run_testsuite (Some (mkSuite (Some (register_testsuite_irq_test (FW := ref_framework irq_provides) 16 example_schedule (-1)
      "irq_test.c" true true)) (mkFields [] 0 None TEST_PASSED))) ((idle, mkIrqData 0x200 0 off), []) =
    Some ((TEST_SUITE_ERR_NO_ERROR, Some ts), (w1, l1)) /\
  suite_val (fields ts) = TEST_PASSED /\ w1.1 = idle /\ quiet (IL := ref_irq_laws) w1.2.
Proof.
  apply (irq_suite_passes (FL := ref_framework_laws irq_provides) (IL := ref_irq_laws) example_schedule (-1) "irq_test.c"
    eq_refl eq_refl 3 example_schedule_fair true true); done.
Defined.
End irq_witness.
