(* ===== verification/Fwu.v ===== *)
(** * Firmware update

    psa/update.h declares the PSA Firmware Update API that the firmware update
    tests call.  The service is not in the repository: its operations are the
    class [FwuService], and [FwuLaws] is what the API and MCUboot document of
    them, over the state of each component: the point it has reached in its life
    cycle, the image that has been written, the version that runs.  The format
    of an image (header, protected TLV area, dependencies) is that of MCUboot.
    The second half has the rules with which a test runs over the laws; FwuRef
    is a service that meets them. *)

From S2P Require Import Prelude LogRaw TestFramework TestProg.
Local Open Scope Z_scope.

(** ** Versions and images *)

Record psa_fwu_image_version_t := mkVersion { major : Z; minor : Z; patch : Z; build : Z }.

Definition version_ok (v : psa_fwu_image_version_t) : Prop :=
  0 <= major v < 2 ^ 8 /\ 0 <= minor v < 2 ^ 8 /\ 0 <= patch v < 2 ^ 16 /\ 0 <= build v < 2 ^ 32.

(** [n] bytes of [bs] from offset [i]. *)
Definition sub_bytes (i n : Z) (bs : list Z) : list Z := take (Z.to_nat n) (drop (Z.to_nat i) bs).

(** The bytes of the structure, which are those of an image. *)
Definition version_bytes (v : psa_fwu_image_version_t) : list Z :=
  [major v; minor v] ++ le_bytes 2 (patch v) ++ le_bytes 4 (build v).
Definition version_of (bs : list Z) : psa_fwu_image_version_t :=
  mkVersion (le_value (sub_bytes 0 1 bs)) (le_value (sub_bytes 1 1 bs)) (le_value (sub_bytes 2 2 bs)) (le_value (sub_bytes 4 4 bs)).

(** Versions are compared from the major number on. *)
Definition version_key (v : psa_fwu_image_version_t) : Z :=
  ((major v * 2 ^ 8 + minor v) * 2 ^ 16 + patch v) * 2 ^ 32 + build v.

(** The byte at each offset of a slot. *)
Definition image : Type := Z -> Z.

Definition erased : image := fun _ => 255.
Definition read_image (img : image) (off n : Z) : list Z := img <$> seqZ off n.
Definition write_image (off : Z) (bs : list Z) (img : image) : image := fun o =>
  if (off <=? o) && (o <? off + sizeof bs) then default 0 (bs !! Z.to_nat (o - off)) else img o.

(** The header: sizes of header and image in the bytes 8, 9 and 12 to 15, the
    version in the bytes 20 to 27. *)
Definition image_version (img : image) : psa_fwu_image_version_t := version_of (read_image img 20 8).
Definition tlv_offset (img : image) : Z := le_value (read_image img 8 2) + le_value (read_image img 12 4).

Definition IMAGE_TLV_PROT_INFO_MAGIC : Z := 0x6908.
Definition IMAGE_TLV_DEPENDENCY : Z := 0x40.

(** The entries of the protected area, without its magic and size. *)
Definition protected_tlv (img : image) : list Z :=
  let off := tlv_offset img in
  if le_value (read_image img off 2) =? IMAGE_TLV_PROT_INFO_MAGIC then
    read_image img (off + 4) (le_value (read_image img (off + 2) 2) - 4)
  else [].

(** The dependencies among the entries: an image and its least version.  An
    entry takes four bytes at least. *)
Fixpoint dependencies (fuel : nat) (bs : list Z) : list (Z * psa_fwu_image_version_t) :=
  match fuel with
  | O => []
  | S fuel =>
      if sizeof bs <? 4 then []
      else
        let len := le_value (sub_bytes 2 2 bs) in
        (if (le_value (sub_bytes 0 2 bs) =? IMAGE_TLV_DEPENDENCY) && (len =? 12) then
           [(le_value (sub_bytes 4 1 bs), version_of (sub_bytes 8 8 bs))]
         else []) ++
        dependencies fuel (drop (Z.to_nat (4 + len)) bs)
  end.

Definition requires (img : image) : list (Z * psa_fwu_image_version_t) :=
  let area := protected_tlv img in dependencies (length area) area.

(** ** The service *)

Class FwuConsts := {
  PSA_SUCCESS : Z;
  PSA_SUCCESS_REBOOT : Z;
  PSA_ERROR_GENERIC_ERROR : Z;
  PSA_ERROR_NOT_PERMITTED : Z;
  PSA_ERROR_BAD_STATE : Z;
  PSA_ERROR_DOES_NOT_EXIST : Z;
  PSA_ERROR_DEPENDENCY_NEEDED : Z;
  PSA_FWU_READY : Z;
  PSA_FWU_WRITING : Z;
  PSA_FWU_CANDIDATE : Z;
  PSA_FWU_STAGED : Z;
  PSA_FWU_FAILED : Z;
  PSA_FWU_TRIAL : Z;
  PSA_FWU_REJECTED : Z;
  PSA_FWU_UPDATED : Z;
  FWU_COMPONENT_ID_SECURE : Z;
  FWU_COMPONENT_ID_NONSECURE : Z;
  FWU_COMPONENT_ID_FULL : Z;
}.

(** The values of the specification, and the images of MCUboot. *)
Class FwuConstsLaws {FC : FwuConsts} := {
  fwu_success : PSA_SUCCESS = 0;
  fwu_success_reboot : PSA_SUCCESS_REBOOT = 1;
  fwu_generic_error : PSA_ERROR_GENERIC_ERROR = -132;
  fwu_not_permitted : PSA_ERROR_NOT_PERMITTED = -133;
  fwu_bad_state : PSA_ERROR_BAD_STATE = -137;
  fwu_does_not_exist : PSA_ERROR_DOES_NOT_EXIST = -140;
  fwu_dependency_needed : PSA_ERROR_DEPENDENCY_NEEDED = -156;
  fwu_ready : PSA_FWU_READY = 0;
  fwu_writing : PSA_FWU_WRITING = 1;
  fwu_candidate : PSA_FWU_CANDIDATE = 2;
  fwu_staged : PSA_FWU_STAGED = 3;
  fwu_failed : PSA_FWU_FAILED = 4;
  fwu_trial : PSA_FWU_TRIAL = 5;
  fwu_rejected : PSA_FWU_REJECTED = 6;
  fwu_updated : PSA_FWU_UPDATED = 7;
  fwu_secure : FWU_COMPONENT_ID_SECURE = 0;
  fwu_nonsecure : FWU_COMPONENT_ID_NONSECURE = 1;
  fwu_full : FWU_COMPONENT_ID_FULL = 0;
}.

(** The fields of [psa_fwu_component_info_t] that the tests read. *)
Record psa_fwu_component_info_t := mkInfo {
  info_state : Z;
  info_error : Z;
  info_version : psa_fwu_image_version_t;
}.

(** A block is the bytes that are read from it.  [None]: the device restarts. *)
Class FwuService (W : Type) := {
  psa_fwu_query : Z -> W -> (Z * psa_fwu_component_info_t) * W;
  psa_fwu_query_null : Z -> W -> Z * W;
  psa_fwu_start : Z -> W -> Z * W;
  psa_fwu_write : Z -> Z -> list Z -> W -> Z * W;
  psa_fwu_write_null : Z -> Z -> Z -> W -> Z * W;
  psa_fwu_finish : Z -> W -> Z * W;
  psa_fwu_install : W -> Z * W;
  psa_fwu_cancel : Z -> W -> Z * W;
  psa_fwu_clean : Z -> W -> Z * W;
  psa_fwu_reject : Z -> W -> Z * W;
  psa_fwu_accept : W -> Z * W;
  psa_fwu_request_reboot : W -> option (Z * W);
}.

(** ** The abstract state *)

Record component := mkComp {
  cp_state : Z;
  cp_error : Z;
  cp_image : image;
  cp_active : psa_fwu_image_version_t;
}.

Abbreviation fwu := (gmap Z component).

Definition set_state (st : Z) (k : component) : component := mkComp st (cp_error k) (cp_image k) (cp_active k).
Definition set_failed {FC : FwuConsts} (e : Z) (k : component) : component :=
  mkComp PSA_FWU_FAILED e (cp_image k) (cp_active k).
Definition set_image (img : image) (k : component) : component := mkComp (cp_state k) (cp_error k) img (cp_active k).

(** A component is in state [st]. *)
Definition some_in (st : Z) (f : fwu) : Prop := map_Exists (fun _ k => cp_state k = st) f.
(** All components that are in state [st] go on by [g]. *)
Definition all_in (st : Z) (g : component -> component) (f : fwu) : fwu :=
  (fun k => if cp_state k =? st then g k else k) <$> f.

Section dependencies.
  Context {FC : FwuConsts}.

(** The version that will run: that of a candidate, else the one that runs. *)
Definition next_version (k : component) : psa_fwu_image_version_t :=
  if cp_state k =? PSA_FWU_CANDIDATE then image_version (cp_image k) else cp_active k.

Definition satisfied (f : fwu) (d : Z * psa_fwu_image_version_t) : bool :=
  match f !! d.1 with
  | Some k => version_key d.2 <=? version_key (next_version k)
  | None => false
  end.

(** All candidates have what they depend on. *)
Definition candidates_ok (f : fwu) : Prop :=
  map_Forall (fun _ k => cp_state k = PSA_FWU_CANDIDATE -> forallb (satisfied f) (requires (cp_image k)) = true) f.
End dependencies.

(** From every world with the abstract state [f] the operation gives a result
    and an abstract state in [Q]. *)
Definition does {W A} (view : W -> fwu) (op : W -> A * W) (f : fwu) (Q : A -> fwu -> Prop) : Prop :=
  forall w, view w = f -> Q (op w).1 (view (op w).2).

(** The operation fails with [st] and changes nothing. *)
Definition refuses {W} (view : W -> fwu) (op : W -> Z * W) (f : fwu) (st : Z) : Prop :=
  does view op f (fun r f' => r = st /\ f' = f).

(** The largest block, the size of each component, and whether the boot loader
    checks dependencies, which it does when it has several images. *)
Class FwuLaws {FC : FwuConsts} (MAX_WRITE : Z) (capacity : Z -> Z) (checked : bool) (W : Type) {FS : FwuService W} := {
  fwu_of : W -> fwu;

  law_query c k f : f !! c = Some k -> does fwu_of (psa_fwu_query c) f (fun r f' => f' = f /\
    r.1 = PSA_SUCCESS /\ info_state r.2 = cp_state k /\ info_version r.2 = cp_active k /\
    (cp_state k = PSA_FWU_FAILED -> info_error r.2 = cp_error k));
  law_query_null c f : does fwu_of (psa_fwu_query_null c) f (fun r f' => r <> PSA_SUCCESS /\ f' = f);

  (** The life cycle of a component.  What a failed, cancelled or cleaned
      component keeps of image and error is not specified. *)
  law_start c k f : f !! c = Some k -> cp_state k = PSA_FWU_READY ->
    does fwu_of (psa_fwu_start c) f (fun r f' => r = PSA_SUCCESS /\
      exists e img, f' = <[c := mkComp PSA_FWU_WRITING e img (cp_active k)]> f);
  law_write c k off bs f : f !! c = Some k -> cp_state k = PSA_FWU_WRITING ->
    0 <= off -> sizeof bs <= MAX_WRITE -> off + sizeof bs <= capacity c ->
    does fwu_of (psa_fwu_write c off bs) f (fun r f' => r = PSA_SUCCESS /\
      f' = <[c := set_image (write_image off bs (cp_image k)) k]> f);
  law_write_over c k off bs f : f !! c = Some k -> cp_state k = PSA_FWU_WRITING -> capacity c < off + sizeof bs ->
    does fwu_of (psa_fwu_write c off bs) f (fun r f' => r <> PSA_SUCCESS /\ f' = f);
  law_write_null c off n f : 0 < n -> does fwu_of (psa_fwu_write_null c off n) f (fun r f' => r <> PSA_SUCCESS /\ f' = f);
  law_finish c k f : f !! c = Some k -> cp_state k = PSA_FWU_WRITING ->
    does fwu_of (psa_fwu_finish c) f (fun r f' => r = PSA_SUCCESS /\ f' = <[c := set_state PSA_FWU_CANDIDATE k]> f);
  law_cancel c k f : f !! c = Some k -> cp_state k = PSA_FWU_WRITING \/ cp_state k = PSA_FWU_CANDIDATE ->
    does fwu_of (psa_fwu_cancel c) f (fun r f' => r = PSA_SUCCESS /\
      exists e img, f' = <[c := mkComp PSA_FWU_FAILED e img (cp_active k)]> f);
  law_clean c k f : f !! c = Some k ->
    cp_state k = PSA_FWU_REJECTED \/ cp_state k = PSA_FWU_FAILED \/ cp_state k = PSA_FWU_UPDATED ->
    does fwu_of (psa_fwu_clean c) f (fun r f' => r = PSA_SUCCESS /\
      exists e img, f' = <[c := mkComp PSA_FWU_READY e img (cp_active k)]> f);

  (** In another state, and for a component that does not exist. *)
  law_start_bad c k f : f !! c = Some k -> cp_state k <> PSA_FWU_READY -> refuses fwu_of (psa_fwu_start c) f PSA_ERROR_BAD_STATE;
  law_write_bad c k off bs f : f !! c = Some k -> cp_state k <> PSA_FWU_WRITING ->
    refuses fwu_of (psa_fwu_write c off bs) f PSA_ERROR_BAD_STATE;
  law_finish_bad c k f : f !! c = Some k -> cp_state k <> PSA_FWU_WRITING -> refuses fwu_of (psa_fwu_finish c) f PSA_ERROR_BAD_STATE;
  law_cancel_bad c k f : f !! c = Some k -> cp_state k <> PSA_FWU_WRITING -> cp_state k <> PSA_FWU_CANDIDATE ->
    refuses fwu_of (psa_fwu_cancel c) f PSA_ERROR_BAD_STATE;
  law_clean_bad c k f : f !! c = Some k ->
    cp_state k <> PSA_FWU_REJECTED -> cp_state k <> PSA_FWU_FAILED -> cp_state k <> PSA_FWU_UPDATED ->
    refuses fwu_of (psa_fwu_clean c) f PSA_ERROR_BAD_STATE;
  law_query_missing c f : f !! c = None -> does fwu_of (psa_fwu_query c) f (fun r f' => r.1 = PSA_ERROR_DOES_NOT_EXIST /\ f' = f);
  law_start_missing c f : f !! c = None -> refuses fwu_of (psa_fwu_start c) f PSA_ERROR_DOES_NOT_EXIST;
  law_write_missing c off bs f : f !! c = None -> refuses fwu_of (psa_fwu_write c off bs) f PSA_ERROR_DOES_NOT_EXIST;
  law_finish_missing c f : f !! c = None -> refuses fwu_of (psa_fwu_finish c) f PSA_ERROR_DOES_NOT_EXIST;
  law_cancel_missing c f : f !! c = None -> refuses fwu_of (psa_fwu_cancel c) f PSA_ERROR_DOES_NOT_EXIST;
  law_clean_missing c f : f !! c = None -> refuses fwu_of (psa_fwu_clean c) f PSA_ERROR_DOES_NOT_EXIST;

  (** All candidates are staged together, if their dependencies are met. *)
  law_install f : some_in PSA_FWU_CANDIDATE f -> ~ some_in PSA_FWU_STAGED f -> ~ some_in PSA_FWU_TRIAL f ->
    (checked = true -> candidates_ok f) ->
    does fwu_of psa_fwu_install f (fun r f' => r = PSA_SUCCESS_REBOOT /\
      f' = all_in PSA_FWU_CANDIDATE (set_state PSA_FWU_STAGED) f);
  law_install_needs f : some_in PSA_FWU_CANDIDATE f -> ~ some_in PSA_FWU_STAGED f -> ~ some_in PSA_FWU_TRIAL f ->
    checked = true -> ~ candidates_ok f -> refuses fwu_of psa_fwu_install f PSA_ERROR_DEPENDENCY_NEEDED;
  law_install_bad f : ~ some_in PSA_FWU_CANDIDATE f -> refuses fwu_of psa_fwu_install f PSA_ERROR_BAD_STATE;
  law_reject e f : some_in PSA_FWU_STAGED f -> ~ some_in PSA_FWU_TRIAL f ->
    does fwu_of (psa_fwu_reject e) f (fun r f' => r = PSA_SUCCESS /\ f' = all_in PSA_FWU_STAGED (set_failed e) f);
  law_reject_bad e f : ~ some_in PSA_FWU_STAGED f -> ~ some_in PSA_FWU_TRIAL f ->
    refuses fwu_of (psa_fwu_reject e) f PSA_ERROR_BAD_STATE;
  law_accept_bad f : ~ some_in PSA_FWU_TRIAL f -> refuses fwu_of psa_fwu_accept f PSA_ERROR_BAD_STATE;
}.

(** ** Rules *)

Section rules.
  Context {W : Type} (view : W -> fwu).

(** The world of a test has abstract state [f] and [ret->val = v]. *)
Record seen (f : fwu) (v : test_status_t) (s : tstate W) : Prop := {
  seen_fwu : view (t_world s) = f;
  seen_val : val (t_ret s) = v;
}.

Definition fwp {A} (m : P W A) (Q : A -> fwu -> test_status_t -> Prop) f v : Prop :=
  forall s, seen f v s -> wp m (fun a s' => exists f' v', seen f' v' s' /\ Q a f' v') s.

Lemma fwp_ret {A} (a : A) Q f v : Q a f v -> fwp (mret a) Q f v.
Proof. intros HQ s Hs. apply wp_ret. eauto. Qed.

Lemma fwp_bind {A B} (m : P W A) (k : A -> P W B) Q f v :
  fwp m (fun a => fwp (k a) Q) f v -> fwp (m ≫= k) Q f v.
Proof.
  intros Hm s Hs. apply wp_bind. eapply wp_mono; [by apply Hm|]. intros a s' (f' & v' & Hs' & Hk). by apply Hk.
Qed.

Lemma fwp_mono {A} (m : P W A) (Q Q' : A -> fwu -> test_status_t -> Prop) f v :
  fwp m Q f v -> (forall a f' v', Q a f' v' -> Q' a f' v') -> fwp m Q' f v.
Proof.
  intros Hm HQ s Hs. eapply wp_mono; [by apply Hm|]. intros a s' (f' & v' & Hs' & H). eauto.
Qed.

Lemma fwp_call {A} (op : W -> A * W) R (Q : A -> fwu -> test_status_t -> Prop) f v :
  does view op f R -> (forall a f', R a f' -> Q a f' v) -> fwp (call (fun w => Some (op w))) Q f v.
Proof.
  intros Hop HQ s [Hf Hv]. specialize (Hop _ Hf). eapply wp_call; [by rewrite <- surjective_pairing|].
  eexists _, v. split; [split; [reflexivity | done]|]. by apply HQ.
Qed.

Lemma fwp_fail_if file ln c msg Q f v : c = false -> Q tt f v -> fwp (fail_if file ln c msg) Q f v.
Proof. intros -> HQ. by apply fwp_ret. Qed.

Lemma fwp_log fmt args Q f v : Q tt f v -> fwp (test_log fmt args) Q f v.
Proof. intros HQ s [Hf Hv]. apply wp_test_log. eexists _, _. split; [by split | done]. Qed.

Lemma fwp_ret_val v' Q f v : Q tt f v' -> fwp (ret_val v') Q f v.
Proof. intros HQ s [Hf Hv]. apply wp_ret_val. exists f, v'. by split. Qed.

Lemma fwp_call_body m Q f v : fwp m Q f v -> fwp (call_body m) Q f v.
Proof. intros Hm s Hs. apply wp_call_body. by apply Hm. Qed.
End rules.
