(* ===== verification/FwuTests.v ===== *)
(** * The firmware update tests

    suites/fwu/mcuboot: the seven tests of fwu_tests_common.c and the
    non-secure and the secure suite that register them. *)

From S2P Require Import Prelude LogRaw TestFramework TestProg Fwu.
Local Open Scope Z_scope.

(** ** Programs *)

(** [ret->val] *)
Definition get_val {W} : P W test_status_t := fun s => Some (Continue (val (t_ret s)), s).

(** [memcpy(dst + off, src, sizeof(src))] *)
Definition memcpy_at {W} (dst : list Z) (off : Z) (src : list Z) : P W (list Z) :=
  if (0 <=? off) && (off + sizeof src <=? sizeof dst) then mret (splice (Z.to_nat off) src dst) else p_undefined.

(** [if (c) { TEST_LOG(fmt, args); TEST_FAIL(msg); return; }], and without the
    return. *)
Definition log_then_fail {W} (file : string) (c : bool) (fmt : string) (args : list va_arg) (ln : Z) (msg : string) :
    P W unit :=
  if c then (test_log fmt args;; TEST_FAIL file ln msg;; return_) else mret tt.
Definition log_and_fail {W} (file : string) (c : bool) (fmt : string) (args : list va_arg) (ln : Z) (msg : string) :
    P W unit :=
  if c then (test_log fmt args;; TEST_FAIL file ln msg) else mret tt.

Section calls.
  Context {W : Type} {FS : FwuService W}.

Definition query (c : Z) : P W (Z * psa_fwu_component_info_t) := call (fun w => Some (psa_fwu_query c w)).
Definition query_null (c : Z) : P W Z := call (fun w => Some (psa_fwu_query_null c w)).
Definition start (c : Z) : P W Z := call (fun w => Some (psa_fwu_start c w)).
(** [len] bytes of [block] are read. *)
Definition write (c off : Z) (block : list Z) (len : Z) : P W Z :=
  if len <=? sizeof block then call (fun w => Some (psa_fwu_write c off (take (Z.to_nat len) block) w)) else p_undefined.
Definition write_null (c off len : Z) : P W Z := call (fun w => Some (psa_fwu_write_null c off len w)).
Definition finish (c : Z) : P W Z := call (fun w => Some (psa_fwu_finish c w)).
Definition install : P W Z := call (fun w => Some (psa_fwu_install w)).
Definition cancel (c : Z) : P W Z := call (fun w => Some (psa_fwu_cancel c w)).
Definition clean (c : Z) : P W Z := call (fun w => Some (psa_fwu_clean c w)).
Definition reject (e : Z) : P W Z := call (fun w => Some (psa_fwu_reject e w)).
Definition accept : P W Z := call (fun w => Some (psa_fwu_accept w)).
(** It does not return when the device restarts. *)
Definition request_reboot : P W Z := call psa_fwu_request_reboot.
End calls.

(** ** fwu_tests_common.c *)

Section tests.
  Context {FC : FwuConsts} {W : Type} {FS : FwuService W}.
  (** [__FILE__]; the sizes of the platform; the number of images and of
      components; the options of the build. *)
  Variables (__FILE__ : string) (BL2_HEADER_SIZE IMAGE_S_CODE_SIZE IMAGE_NS_CODE_SIZE : Z).
  Variables (MCUBOOT_IMAGE_NUMBER FWU_COMPONENT_NUMBER : Z).
  Variables (FWU_SUPPORT_TRIAL_STATE TFM_FWU_TEST_WRITE_WITH_NULL TFM_FWU_TEST_QUERY_WITH_NULL : bool).
  Variable TFM_FWU_TEST_REQUEST_REBOOT : bool.
  Abbreviation FAIL_IF := (fail_if __FILE__).
  Abbreviation LOG_IF := (log_then_fail __FILE__).
  Abbreviation KEEP_LOG_IF := (log_and_fail __FILE__).

Definition IMAGE_HEADER_SIZE : Z := BL2_HEADER_SIZE.
Definition IMAGE_HEADER_SIZE_LOW : Z := u8 (Z.land IMAGE_HEADER_SIZE 0x000000FF).
Definition IMAGE_HEADER_SIZE_HIGH : Z := u8 (Z.shiftr (Z.land IMAGE_HEADER_SIZE 0x0000FF00) 8).

Definition SECURE_IMAGE_SIZE : Z := IMAGE_S_CODE_SIZE.
Definition SECURE_IMAGE_SIZE_BYTE_0 : Z := u8 (Z.land SECURE_IMAGE_SIZE 0x000000FF).
Definition SECURE_IMAGE_SIZE_BYTE_1 : Z := u8 (Z.shiftr (Z.land SECURE_IMAGE_SIZE 0x0000FF00) 8).
Definition SECURE_IMAGE_SIZE_BYTE_2 : Z := u8 (Z.shiftr (Z.land SECURE_IMAGE_SIZE 0x00FF0000) 16).
Definition SECURE_IMAGE_SIZE_BYTE_3 : Z := u8 (Z.shiftr (Z.land SECURE_IMAGE_SIZE 0xFF000000) 24).
Definition PROTECTED_TLV_OFF_SECURE : Z := IMAGE_HEADER_SIZE + SECURE_IMAGE_SIZE.

Definition NONSECURE_IMAGE_SIZE : Z := IMAGE_NS_CODE_SIZE.
Definition NONSECURE_IMAGE_SIZE_BYTE_0 : Z := u8 (Z.land NONSECURE_IMAGE_SIZE 0x000000FF).
Definition NONSECURE_IMAGE_SIZE_BYTE_1 : Z := u8 (Z.shiftr (Z.land NONSECURE_IMAGE_SIZE 0x0000FF00) 8).
Definition NONSECURE_IMAGE_SIZE_BYTE_2 : Z := u8 (Z.shiftr (Z.land NONSECURE_IMAGE_SIZE 0x00FF0000) 16).
Definition NONSECURE_IMAGE_SIZE_BYTE_3 : Z := u8 (Z.shiftr (Z.land NONSECURE_IMAGE_SIZE 0xFF000000) 24).
Definition PROTECTED_TLV_OFF_NONSECURE : Z := IMAGE_HEADER_SIZE + NONSECURE_IMAGE_SIZE.

Definition dependency_component : Z := FWU_COMPONENT_ID_NONSECURE.
Definition TLV_DEPENDENCY_VERSION_OFF_SECURE : Z := 115.
Definition TLV_DEPENDENCY_VERSION_OFF_NONSECURE : Z := 116.
Definition HEADER_IMAGE_VERSION_OFF : Z := 20.

Definition IMAGE_VERSION_FOR_TEST_MAJOR : Z := 0x09.
Definition IMAGE_VERSION_FOR_TEST_MINOR : Z := 0x09.
Definition IMAGE_VERSION_FOR_TEST_REVISION_LOW : Z := 0x09.
Definition IMAGE_VERSION_FOR_TEST_REVISION_HIGH : Z := 0x00.

Definition test_component : Z := if 1 <? MCUBOOT_IMAGE_NUMBER then FWU_COMPONENT_ID_SECURE else FWU_COMPONENT_ID_FULL.

(** The header of a secure image of version 0.0.0+0. *)
Definition header_test_image_version_zero : list Z := [
    0x3d; 0xb8; 0xf3; 0x96; 0x00; 0x00; 0x00; 0x00; IMAGE_HEADER_SIZE_LOW; IMAGE_HEADER_SIZE_HIGH; 0x7B;
    0x00; SECURE_IMAGE_SIZE_BYTE_0; SECURE_IMAGE_SIZE_BYTE_1; SECURE_IMAGE_SIZE_BYTE_2;
    SECURE_IMAGE_SIZE_BYTE_3; 0x00; 0x00; 0x00; 0x00; 0x00; 0x00; 0x00; 0x00; 0x00; 0x00; 0x00; 0x00].

(** Its protected TLV area and the start of the next: it depends on the
    non-secure image, from version 0.0.0+0 on. *)
Definition tlv_dep_version_zero : list Z := [
    0x08; 0x69; 0x7B; 0x00; 0x50; 0x00; 0x04; 0x00; 0x00; 0x00; 0x03; 0x01; 0x60; 0x00; 0x5b; 0x00; 0xa5;
    0x01; 0x63; 0x53; 0x50; 0x45; 0x04; 0x65; 0x31; 0x2e; 0x33; 0x2e; 0x30; 0x05; 0x58; 0x20; 0xfc; 0x57;
    0x01; 0xdc; 0x61; 0x35; 0xe1; 0x32; 0x38; 0x47; 0xbd; 0xc4; 0x0f; 0x04; 0xd2; 0xe5; 0xbe; 0xe5; 0x83;
    0x3b; 0x23; 0xc2; 0x9f; 0x93; 0x59; 0x3d; 0x00; 0x01; 0x8c; 0xfa; 0x99; 0x94; 0x06; 0x66; 0x53; 0x48;
    0x41; 0x32; 0x35; 0x36; 0x02; 0x58; 0x20] ++
    replicate 32 0x00 ++ [
    0x40; 0x00; 0x0c; 0x00; 0x01; 0x00; 0x00; 0x00; 0x00; 0x00; 0x00; 0x00; 0x00; 0x00; 0x00; 0x00; 0x07;
    0x69; 0x50; 0x01; 0x10].

(** 0: the test goes on; the outcome of the test is set otherwise. *)
Definition test_setup (test_suite_number : Z) : P W Z :=
  '(status, info) ← query test_component;
  if negb (status =? PSA_SUCCESS) then
    test_log "Test: %d setup failed." [VaInt test_suite_number];;
    TEST_FAIL __FILE__ 142 "Query should succeed";;
    mret (-1)
  else if negb (info_state info =? PSA_FWU_READY) then
    test_log "The component isn't in READY state: the device is not ready to run FWU tests, skip FWU test: %d."
      [VaInt test_suite_number];;
    ret_val TEST_PASSED;;
    mret 1
  else mret 0.

(** A wrong state does not end the function. *)
Definition test_tear_down (test_suite_number : Z) : P W unit :=
  let tear_down_failed (c : bool) ln msg :=
    if c then (test_log "Test: %d tear down failed." [VaInt test_suite_number];; TEST_FAIL __FILE__ ln msg;; return_)
    else mret tt in
  let wrong_state (c : bool) fmt info ln :=
    if c then
      test_log fmt [VaInt (info_state info)];;
      test_log "Test: %d tear down failed." [VaInt test_suite_number];;
      TEST_FAIL __FILE__ ln "Wrong component state is returned."
    else mret tt in
  status ← cancel test_component;
  tear_down_failed (negb (status =? PSA_SUCCESS)) 165 "psa_fwu_cancel should succeed";;
  '(status, info) ← query test_component;
  tear_down_failed (negb (status =? PSA_SUCCESS)) 171 "Query should succeed";;
  wrong_state (negb (info_state info =? PSA_FWU_FAILED))
    "The component is expected to be in PSA_FWU_FAILED after psa_fwu_cancel(), actual state is %d" info 180;;
  status ← clean test_component;
  tear_down_failed (negb (status =? PSA_SUCCESS)) 187 "psa_fwu_clean should succeed";;
  '(status, info) ← query test_component;
  tear_down_failed (negb (status =? PSA_SUCCESS)) 195 "Query should succeed";;
  wrong_state (negb (info_state info =? PSA_FWU_READY))
    "The component is expected to be in PSA_FWU_READY after psa_fwu_clean(), actual state is %d" info 204.

Definition tfm_fwu_test_common_001 : P W unit :=
  let test_suite_number := 1 in
  r ← test_setup test_suite_number;
  (if negb (r =? 0) then return_ else mret tt);;
  status ← start test_component;
  FAIL_IF 222 (negb (status =? PSA_SUCCESS))
    "psa_fwu_start fails.";;
  '(status, info) ← query test_component;
  FAIL_IF 229 (negb (status =? PSA_SUCCESS))
    "Query fails";;
  LOG_IF (negb (info_state info =? PSA_FWU_WRITING))
    "The component is expected to be in PSA_FWU_WRITING after psa_fwu_start(), actual state is %d"
    [VaInt (info_state info)] 237 "Wrong component state is returned.";;
  status ← write test_component 0 header_test_image_version_zero (sizeof header_test_image_version_zero);
  FAIL_IF 249 (negb (status =? PSA_SUCCESS))
    "psa_fwu_write should not fail when writing the image header data.";;
  '(status, info) ← query test_component;
  FAIL_IF 256 (negb (status =? PSA_SUCCESS))
    "Query fails";;
  LOG_IF (negb (info_state info =? PSA_FWU_WRITING))
    "The component is expected to be in PSA_FWU_WRITING after psa_fwu_write(), actual state is %d"
    [VaInt (info_state info)] 264 "Wrong component state is returned.";;
  status ← write test_component PROTECTED_TLV_OFF_SECURE tlv_dep_version_zero (sizeof tlv_dep_version_zero);
  FAIL_IF 277 (negb (status =? PSA_SUCCESS))
    "psa_fwu_write should not fail when writing the protected TLV data.";;
  status ← finish test_component;
  FAIL_IF 283 (negb (status =? PSA_SUCCESS))
    "psa_fwu_finish should not fail.";;
  '(status, info) ← query test_component;
  FAIL_IF 290 (negb (status =? PSA_SUCCESS))
    "Query fails";;
  LOG_IF (negb (info_state info =? PSA_FWU_CANDIDATE))
    "The component is expected to be in PSA_FWU_CANDIDATE after psa_fwu_finish(), actual state is %d"
    [VaInt (info_state info)] 298 "Wrong component state is returned.";;
  status ← install;
  FAIL_IF 313 (negb (status =? PSA_SUCCESS_REBOOT))
    "Install should not fail when the image dependency check should pass.";;
  '(status, info) ← query test_component;
  FAIL_IF 319 (negb (status =? PSA_SUCCESS))
    "Query should succeed";;
  LOG_IF (negb (info_state info =? PSA_FWU_STAGED))
    "The component is expected to be in PSA_FWU_STAGED after psa_fwu_install(), actual state is %d"
    [VaInt (info_state info)] 327 "Wrong component state is returned.";;
  status ← reject PSA_ERROR_GENERIC_ERROR;
  LOG_IF (negb (status =? PSA_SUCCESS))
    "PSA_SUCCESS is expected to be return by psa_fwu_reject when component is in STAGED state,                   actual return status is %d"
    [VaInt (status)] 337 "Wrong error code is returned.";;
  '(status, info) ← query test_component;
  FAIL_IF 344 (negb (status =? PSA_SUCCESS))
    "Query should succeed";;
  LOG_IF (negb (info_state info =? PSA_FWU_FAILED))
    "The component is expected to be in PSA_FWU_FAILED after psa_fwu_reject(PSA_ERROR_NOT_PERMITTED), actual state is %d"
    [VaInt (info_state info)] 352 "Wrong component state is returned.";;
  LOG_IF (negb (info_error info =? PSA_ERROR_GENERIC_ERROR))
    "The error is expected to be PSA_ERROR_GENERIC_ERROR, actual error is %x"
    [VaInt (info_error info)] 360 "Wrong info.error is returned.";;
  status ← clean test_component;
  FAIL_IF 367 (negb (status =? PSA_SUCCESS))
    "psa_fwu_clean should succeed";;
  '(status, info) ← query test_component;
  FAIL_IF 374 (negb (status =? PSA_SUCCESS))
    "Query should succeed";;
  LOG_IF (negb (info_state info =? PSA_FWU_READY))
    "The component is expected to be in PSA_FWU_READY after psa_fwu_clean(), actual state is %d"
    [VaInt (info_state info)] 382 "Wrong component state is returned.";;
  status ← start test_component;
  FAIL_IF 389 (negb (status =? PSA_SUCCESS))
    "psa_fwu_start fails.";;
  '(status, info) ← query test_component;
  FAIL_IF 396 (negb (status =? PSA_SUCCESS))
    "Query should succeed";;
  LOG_IF (negb (info_state info =? PSA_FWU_WRITING))
    "The component is expected to be in PSA_FWU_WRITING after psa_fwu_start(), actual state is %d"
    [VaInt (info_state info)] 404 "Wrong component state is returned.";;
  call_body (test_tear_down test_suite_number);;
  v ← get_val;
  (if decide (v = TEST_FAILED) then return_ else mret tt);;
  ret_val TEST_PASSED.

Definition tfm_fwu_test_common_002 : P W unit :=
  let test_suite_number := 2 in
  r ← test_setup test_suite_number;
  (if negb (r =? 0) then return_ else mret tt);;
  status ← start test_component;
  FAIL_IF 433 (negb (status =? PSA_SUCCESS))
    "psa_fwu_start fails.";;
  (if TFM_FWU_TEST_WRITE_WITH_NULL then
    status ← write_null test_component 0 (sizeof header_test_image_version_zero);
    FAIL_IF 444 (status =? PSA_SUCCESS)
      "Write should fail with data block NULL"
   else mret tt);;
  status ← write test_component 0xFFFFFFFF header_test_image_version_zero 0x10;
  FAIL_IF 455 (status =? PSA_SUCCESS)
    "Write should fail with len + image_offset overflow";;
  (if TFM_FWU_TEST_QUERY_WITH_NULL then
    status ← query_null test_component;
    FAIL_IF 463 (status =? PSA_SUCCESS)
      "Query should fail with NULL info"
   else mret tt);;
  call_body (test_tear_down test_suite_number);;
  v ← get_val;
  (if decide (v = TEST_FAILED) then return_ else mret tt);;
  ret_val TEST_PASSED.

Definition tfm_fwu_test_common_003 : P W unit :=
  let test_suite_number := 3 in
  r ← test_setup test_suite_number;
  (if negb (r =? 0) then return_ else mret tt);;
  status ← start FWU_COMPONENT_NUMBER;
  FAIL_IF 500 (negb (status =? PSA_ERROR_DOES_NOT_EXIST))
    "psa_fwu_start with nonexistent component should fail.";;
  status ← start test_component;
  FAIL_IF 507 (negb (status =? PSA_SUCCESS))
    "psa_fwu_start with nonexistent component should fail.";;
  status ← write FWU_COMPONENT_NUMBER 0x0 header_test_image_version_zero (sizeof header_test_image_version_zero);
  FAIL_IF 517 (negb (status =? PSA_ERROR_DOES_NOT_EXIST))
    "Write with nonexistent component should fail.";;
  status ← cancel FWU_COMPONENT_NUMBER;
  FAIL_IF 524 (negb (status =? PSA_ERROR_DOES_NOT_EXIST))
    "Cancel with nonexistent component should fail.";;
  status ← write test_component 0x0 header_test_image_version_zero (sizeof header_test_image_version_zero);
  FAIL_IF 534 (negb (status =? PSA_SUCCESS))
    "psa_fwu_write should not fail.";;
  status ← finish FWU_COMPONENT_NUMBER;
  FAIL_IF 541 (negb (status =? PSA_ERROR_DOES_NOT_EXIST))
    "Finish with nonexistent component should fail.";;
  status ← cancel test_component;
  FAIL_IF 548 (negb (status =? PSA_SUCCESS))
    "psa_fwu_cancel should not fail.";;
  status ← clean FWU_COMPONENT_NUMBER;
  FAIL_IF 555 (negb (status =? PSA_ERROR_DOES_NOT_EXIST))
    "Clean with nonexistent component should fail.";;
  status ← clean test_component;
  FAIL_IF 562 (negb (status =? PSA_SUCCESS))
    "psa_fwu_clean should succeed";;
  '(status, info) ← query FWU_COMPONENT_NUMBER;
  FAIL_IF 569 (negb (status =? PSA_ERROR_DOES_NOT_EXIST))
    "Query should succeed";;
  '(status, info) ← query test_component;
  FAIL_IF 575 (negb (status =? PSA_SUCCESS))
    "Query should succeed";;
  KEEP_LOG_IF (negb (info_state info =? PSA_FWU_READY))
    "The component is expected to be in PSA_FWU_READY after psa_fwu_clean(), actual state is %d"
    [VaInt (info_state info)] 583 "Wrong component state is returned.";;
  ret_val TEST_PASSED.

Definition tfm_fwu_test_common_004 : P W unit :=
  let test_suite_number := 4 in
  r ← test_setup test_suite_number;
  (if negb (r =? 0) then return_ else mret tt);;
  status ← write test_component 0x0 header_test_image_version_zero (sizeof header_test_image_version_zero);
  FAIL_IF 619 (negb (status =? PSA_ERROR_BAD_STATE))
    "psa_fwu_write should fail before start.";;
  status ← finish test_component;
  FAIL_IF 626 (negb (status =? PSA_ERROR_BAD_STATE))
    "psa_fwu_finish should fail before start.";;
  status ← cancel test_component;
  FAIL_IF 633 (negb (status =? PSA_ERROR_BAD_STATE))
    "psa_fwu_cancel should fail.";;
  status ← install;
  FAIL_IF 640 (negb (status =? PSA_ERROR_BAD_STATE))
    "psa_fwu_install should fail before start.";;
  (if FWU_SUPPORT_TRIAL_STATE then
    status ← accept;
    FAIL_IF 648 (negb (status =? PSA_ERROR_BAD_STATE))
      "psa_fwu_accept should fail before start."
   else mret tt);;
  status ← clean test_component;
  FAIL_IF 656 (negb (status =? PSA_ERROR_BAD_STATE))
    "psa_fwu_clean should fail before start.";;
  status ← reject PSA_ERROR_NOT_PERMITTED;
  FAIL_IF 663 (negb (status =? PSA_ERROR_BAD_STATE))
    "psa_fwu_reject should fail before start.";;
  status ← start test_component;
  FAIL_IF 669 (negb (status =? PSA_SUCCESS))
    "psa_fwu_start should not fail.";;
  status ← install;
  FAIL_IF 676 (negb (status =? PSA_ERROR_BAD_STATE))
    "psa_fwu_install should fail after start.";;
  (if FWU_SUPPORT_TRIAL_STATE then
    status ← accept;
    FAIL_IF 684 (negb (status =? PSA_ERROR_BAD_STATE))
      "psa_fwu_accept should fail after start."
   else mret tt);;
  status ← clean test_component;
  FAIL_IF 691 (negb (status =? PSA_ERROR_BAD_STATE))
    "psa_fwu_clean should fail after start.";;
  status ← reject PSA_ERROR_NOT_PERMITTED;
  FAIL_IF 698 (negb (status =? PSA_ERROR_BAD_STATE))
    "psa_fwu_reject should fail after start.";;
  status ← write test_component 0x0 header_test_image_version_zero (sizeof header_test_image_version_zero);
  FAIL_IF 707 (negb (status =? PSA_SUCCESS))
    "psa_fwu_write should not fail.";;
  status ← start test_component;
  FAIL_IF 714 (negb (status =? PSA_ERROR_BAD_STATE))
    "psa_fwu_start should fail after psa_fwu_write().";;
  status ← install;
  FAIL_IF 721 (negb (status =? PSA_ERROR_BAD_STATE))
    "psa_fwu_install should fail after write.";;
  (if FWU_SUPPORT_TRIAL_STATE then
    status ← accept;
    FAIL_IF 729 (negb (status =? PSA_ERROR_BAD_STATE))
      "psa_fwu_accept should fail after write."
   else mret tt);;
  status ← clean test_component;
  FAIL_IF 736 (negb (status =? PSA_ERROR_BAD_STATE))
    "psa_fwu_clean should fail after write.";;
  status ← reject PSA_ERROR_NOT_PERMITTED;
  FAIL_IF 743 (negb (status =? PSA_ERROR_BAD_STATE))
    "psa_fwu_reject should fail after write.";;
  status ← write test_component PROTECTED_TLV_OFF_SECURE tlv_dep_version_zero (sizeof tlv_dep_version_zero);
  FAIL_IF 756 (negb (status =? PSA_SUCCESS))
    "psa_fwu_write should not fail when writing the protected TLV data.";;
  status ← finish test_component;
  FAIL_IF 762 (negb (status =? PSA_SUCCESS))
    "psa_fwu_finish should not fail.";;
  status ← start test_component;
  FAIL_IF 769 (negb (status =? PSA_ERROR_BAD_STATE))
    "psa_fwu_start should fail after psa_fwu_finish().";;
  status ← finish test_component;
  FAIL_IF 776 (negb (status =? PSA_ERROR_BAD_STATE))
    "psa_fwu_finish should fail after finish.";;
  (if FWU_SUPPORT_TRIAL_STATE then
    status ← accept;
    FAIL_IF 784 (negb (status =? PSA_ERROR_BAD_STATE))
      "psa_fwu_accept should fail after finish."
   else mret tt);;
  status ← clean test_component;
  FAIL_IF 791 (negb (status =? PSA_ERROR_BAD_STATE))
    "psa_fwu_clean should fail after finish.";;
  status ← reject PSA_ERROR_NOT_PERMITTED;
  FAIL_IF 798 (negb (status =? PSA_ERROR_BAD_STATE))
    "psa_fwu_reject should fail after finish.";;
  status ← install;
  FAIL_IF 804 (negb (status =? PSA_SUCCESS_REBOOT))
    "psa_fwu_install should not fail.";;
  status ← cancel test_component;
  FAIL_IF 811 (negb (status =? PSA_ERROR_BAD_STATE))
    "psa_fwu_cancel should fail after psa_fwu_install().";;
  status ← start test_component;
  FAIL_IF 818 (negb (status =? PSA_ERROR_BAD_STATE))
    "psa_fwu_start should fail after psa_fwu_install().";;
  status ← write test_component 0x0 header_test_image_version_zero (sizeof header_test_image_version_zero);
  FAIL_IF 828 (negb (status =? PSA_ERROR_BAD_STATE))
    "psa_fwu_write should fail after psa_fwu_install().";;
  status ← finish test_component;
  FAIL_IF 835 (negb (status =? PSA_ERROR_BAD_STATE))
    "psa_fwu_finish should fail after psa_fwu_install().";;
  status ← install;
  FAIL_IF 842 (negb (status =? PSA_ERROR_BAD_STATE))
    "psa_fwu_install should fail after psa_fwu_install().";;
  (if FWU_SUPPORT_TRIAL_STATE then
    status ← accept;
    FAIL_IF 850 (negb (status =? PSA_ERROR_BAD_STATE))
      "psa_fwu_accept should fail after install."
   else mret tt);;
  status ← clean test_component;
  FAIL_IF 857 (negb (status =? PSA_ERROR_BAD_STATE))
    "psa_fwu_clean should fail after install.";;
  status ← reject PSA_ERROR_NOT_PERMITTED;
  FAIL_IF 864 (negb (status =? PSA_SUCCESS))
    "psa_fwu_reject failed after install.";;
  status ← clean test_component;
  FAIL_IF 871 (negb (status =? PSA_SUCCESS))
    "psa_fwu_clean should not fail after reject.";;
  ret_val TEST_PASSED.

(** The arrays of tests 005 and 006: a header of version 9.9.9+0, a protected area
    that asks for the non-secure image; and for the non-secure image a header, and
    a protected area that asks for version 9.9.9+0 of the secure image. *)
Definition header_test_image_version_not_zero : list Z := [
    0x3d; 0xb8; 0xf3; 0x96; 0x00; 0x00; 0x00; 0x00; IMAGE_HEADER_SIZE_LOW; IMAGE_HEADER_SIZE_HIGH; 0x7B;
    0x00; SECURE_IMAGE_SIZE_BYTE_0; SECURE_IMAGE_SIZE_BYTE_1; SECURE_IMAGE_SIZE_BYTE_2;
    SECURE_IMAGE_SIZE_BYTE_3; 0x00; 0x00; 0x00; 0x00; IMAGE_VERSION_FOR_TEST_MAJOR;
    IMAGE_VERSION_FOR_TEST_MINOR; IMAGE_VERSION_FOR_TEST_REVISION_LOW; IMAGE_VERSION_FOR_TEST_REVISION_HIGH;
    0x00; 0x00; 0x00; 0x00].
Definition tlv_data_secure_image : list Z := [
    0x08; 0x69; 0x7B; 0x00; 0x50; 0x00; 0x04; 0x00; 0x00; 0x00; 0x03; 0x01; 0x60; 0x00; 0x5b; 0x00; 0xa5;
    0x01; 0x63; 0x53; 0x50; 0x45; 0x04; 0x65; 0x31; 0x2e; 0x33; 0x2e; 0x30; 0x05; 0x58; 0x20; 0xfc; 0x57;
    0x01; 0xdc; 0x61; 0x35; 0xe1; 0x32; 0x38; 0x47; 0xbd; 0xc4; 0x0f; 0x04; 0xd2; 0xe5; 0xbe; 0xe5; 0x83;
    0x3b; 0x23; 0xc2; 0x9f; 0x93; 0x59; 0x3d; 0x00; 0x01; 0x8c; 0xfa; 0x99; 0x94; 0x06; 0x66; 0x53; 0x48;
    0x41; 0x32; 0x35; 0x36; 0x02; 0x58; 0x20] ++
    replicate 32 0x00 ++ [
    0x40; 0x00; 0x0c; 0x00; 0x01; 0x00; 0x00; 0x00; 0x00; 0x00; 0x00; 0x00; 0x00; 0x00; 0x00; 0x00; 0x07;
    0x69; 0x50; 0x01; 0x10].
Definition header_dep_image_version_not_zero : list Z := [
    0x3d; 0xb8; 0xf3; 0x96; 0x00; 0x00; 0x00; 0x00; IMAGE_HEADER_SIZE_LOW; IMAGE_HEADER_SIZE_HIGH; 0x7C;
    0x00; NONSECURE_IMAGE_SIZE_BYTE_0; NONSECURE_IMAGE_SIZE_BYTE_1; NONSECURE_IMAGE_SIZE_BYTE_2;
    NONSECURE_IMAGE_SIZE_BYTE_3; 0x00; 0x00; 0x00; 0x00; 0x00; 0x00; 0x00; 0x00; 0x00; 0x00; 0x00; 0x00].
Definition tlv_data_nonsecure_image : list Z := [
    0x08; 0x69; 0x7c; 0x00; 0x50; 0x00; 0x04; 0x00; 0x00; 0x00; 0x00; 0x00; 0x60; 0x00; 0x5c; 0x00; 0xa5;
    0x01; 0x64; 0x4e; 0x53; 0x50; 0x45; 0x04; 0x65; 0x30; 0x2e; 0x30; 0x2e; 0x30; 0x05; 0x58; 0x20; 0xe1;
    0x80; 0x15; 0x99; 0x3d; 0x6d; 0x27; 0x60; 0xb4; 0x99; 0x27; 0x4b; 0xae; 0xf2; 0x64; 0xb8; 0x3a; 0xf2;
    0x29; 0xe9; 0xa7; 0x85; 0xf3; 0xd5; 0xbf; 0x00; 0xb9; 0xd3; 0x2c; 0x1f; 0x03; 0x96; 0x06; 0x66; 0x53;
    0x48; 0x41; 0x32; 0x35; 0x36; 0x02; 0x58; 0x20] ++
    replicate 32 0x00 ++ [
    0x40; 0x00; 0x0c; 0x00; 0x00; 0x00; 0x00; 0x00; IMAGE_VERSION_FOR_TEST_MAJOR;
    IMAGE_VERSION_FOR_TEST_MINOR; IMAGE_VERSION_FOR_TEST_REVISION_LOW; IMAGE_VERSION_FOR_TEST_REVISION_HIGH;
    0x00; 0x00; 0x00; 0x00; 0x07; 0x69; 0x50; 0x01].

Definition tfm_fwu_test_common_005 : P W unit :=
  let test_suite_number := 5 in
  r ← test_setup test_suite_number;
  (if negb (r =? 0) then return_ else mret tt);;
  status ← start test_component;
  FAIL_IF 944 (negb (status =? PSA_SUCCESS))
    "psa_fwu_start should not fail.";;
  status ← write test_component 0 header_test_image_version_not_zero (sizeof header_test_image_version_not_zero);
  FAIL_IF 956 (negb (status =? PSA_SUCCESS))
    "psa_fwu_write should not fail when writing the image header data.";;
  status ← write test_component PROTECTED_TLV_OFF_SECURE tlv_data_secure_image (sizeof tlv_data_secure_image);
  FAIL_IF 970 (negb (status =? PSA_SUCCESS))
    "psa_fwu_write should not fail when writing the protected TLV data.";;
  status ← finish test_component;
  FAIL_IF 976 (negb (status =? PSA_SUCCESS))
    "psa_fwu_finish should not fail.";;
  status ← install;
  FAIL_IF 989 (negb (status =? PSA_SUCCESS_REBOOT))
    "Install PSA_SUCCESS_REBOOT should be returned when the image dependency check pass.";;
  status ← reject PSA_ERROR_NOT_PERMITTED;
  FAIL_IF 996 (negb (status =? PSA_SUCCESS))
    "psa_fwu_reject failed after install.";;
  status ← clean test_component;
  FAIL_IF 1003 (negb (status =? PSA_SUCCESS))
    "psa_fwu_clean should not fail after reject.";;
  ret_val TEST_PASSED.

Definition tfm_fwu_test_common_006 : P W unit :=
  let dep_version_in_tlv := mkVersion 0 0 0 0 in
  let test_suite_number := 6 in
  r ← test_setup test_suite_number;
  (if negb (r =? 0) then return_ else mret tt);;
  status ← start test_component;
  FAIL_IF 1100 (negb (status =? PSA_SUCCESS))
    "psa_fwu_start should not fail.";;
  status ← write test_component 0 header_test_image_version_not_zero (sizeof header_test_image_version_not_zero);
  FAIL_IF 1112 (negb (status =? PSA_SUCCESS))
    "psa_fwu_write should not fail when writing the image header data.";;
  '(status, info) ← query dependency_component;
  FAIL_IF 1156 (negb (status =? PSA_SUCCESS))
    "Query should succeed";;
  let dep_version_in_tlv := mkVersion (u8 (major (info_version info) + 1)) (minor dep_version_in_tlv)
    (patch dep_version_in_tlv) (build dep_version_in_tlv) in
  tlv_data_secure_image ←
    memcpy_at tlv_data_secure_image TLV_DEPENDENCY_VERSION_OFF_SECURE (version_bytes dep_version_in_tlv);
  status ← write test_component PROTECTED_TLV_OFF_SECURE tlv_data_secure_image (sizeof tlv_data_secure_image);
  FAIL_IF 1172 (negb (status =? PSA_SUCCESS))
    "psa_fwu_write should not fail when writing the protected TLV data.";;
  status ← finish test_component;
  FAIL_IF 1177 (negb (status =? PSA_SUCCESS))
    "psa_fwu_finish should not fail.";;
  status ← install;
  FAIL_IF 1190 (negb (status =? PSA_ERROR_DEPENDENCY_NEEDED))
    "Install PSA_ERROR_DEPENDENCY_NEEDED should be returned when the image dependency check fails.";;
  '(status, info) ← query test_component;
  FAIL_IF 1197 (negb (status =? PSA_SUCCESS))
    "Query should succeed";;
  FAIL_IF 1203 (negb (info_state info =? PSA_FWU_CANDIDATE))
    "Image should be in CANDIDATE state after install returns PSA_ERROR_DEPENDENCY_NEEDED.";;
  header_dep_image_version_not_zero ←
    memcpy_at header_dep_image_version_not_zero HEADER_IMAGE_VERSION_OFF (version_bytes dep_version_in_tlv);
  status ← start dependency_component;
  FAIL_IF 1218 (negb (status =? PSA_SUCCESS))
    "psa_fwu_start should not fail.";;
  status ← write dependency_component 0 header_dep_image_version_not_zero (sizeof header_dep_image_version_not_zero);
  FAIL_IF 1230 (negb (status =? PSA_SUCCESS))
    "psa_fwu_write should not fail when writing the image header data.";;
  status ← install;
  FAIL_IF 1241 (negb (status =? PSA_ERROR_DEPENDENCY_NEEDED))
    "Install should fail when the boot magic of the dependency image is not good.";;
  status ←
    write dependency_component PROTECTED_TLV_OFF_NONSECURE tlv_data_nonsecure_image (sizeof tlv_data_nonsecure_image);
  FAIL_IF 1256 (negb (status =? PSA_SUCCESS))
    "psa_fwu_write should not fail when writing the protected TLV data.";;
  status ← finish dependency_component;
  FAIL_IF 1261 (negb (status =? PSA_SUCCESS))
    "psa_fwu_finish should not fail.";;
  status ← install;
  FAIL_IF 1280 (negb (status =? PSA_SUCCESS_REBOOT))
    "Install should fail after the dependency image successfully being installed.";;
  '(status, info) ← query test_component;
  FAIL_IF 1287 (negb (status =? PSA_SUCCESS))
    "Query should succeed";;
  LOG_IF (negb (info_state info =? PSA_FWU_STAGED))
    "The component is expected to be in PSA_FWU_STAGED after                   psa_fwu_install(), actual state is %d"
    [VaInt (info_state info)] 1296 "Bad state is returned.";;
  '(status, info) ← query dependency_component;
  FAIL_IF 1303 (negb (status =? PSA_SUCCESS))
    "Query should succeed";;
  LOG_IF (negb (info_state info =? PSA_FWU_STAGED))
    "The dependency component is expected to be in PSA_FWU_STAGED                   after psa_fwu_install(), actual state is %d"
    [VaInt (info_state info)] 1312 "Bad state is returned.";;
  status ← reject PSA_ERROR_NOT_PERMITTED;
  FAIL_IF 1318 (negb (status =? PSA_SUCCESS))
    "psa_fwu_reject should succeed";;
  '(status, info) ← query test_component;
  FAIL_IF 1325 (negb (status =? PSA_SUCCESS))
    "Query should succeed";;
  LOG_IF (negb (info_state info =? PSA_FWU_FAILED))
    "The component is expected to be in PSA_FWU_FAILED after                   psa_fwu_install(), actual state is %d"
    [VaInt (info_state info)] 1334 "Bad state is returned.";;
  '(status, info) ← query dependency_component;
  FAIL_IF 1340 (negb (status =? PSA_SUCCESS))
    "Query should succeed";;
  KEEP_LOG_IF (negb (info_state info =? PSA_FWU_FAILED))
    "The component is expected to be in PSA_FWU_FAILED after psa_fwu_cancel(), actual state is %d"
    [VaInt (info_state info)] 1348 "Wrong component state is returned.";;
  status ← clean test_component;
  FAIL_IF 1355 (negb (status =? PSA_SUCCESS))
    "psa_fwu_clean should succeed";;
  status ← clean dependency_component;
  FAIL_IF 1360 (negb (status =? PSA_SUCCESS))
    "psa_fwu_clean should succeed";;
  ret_val TEST_PASSED.

Definition tfm_fwu_test_common_007 : P W unit :=
  request_reboot;;
  TEST_FAIL __FILE__ 1375 "Request reboot should not fail";;
  ret_val TEST_FAILED.

(** ** The suites *)

Definition psa_fwu_ns_tests : list (test_t W) :=
  [TEST tfm_fwu_test_common_001 "TFM_NS_FWU_TEST_1001" "Functionity test.";
   TEST tfm_fwu_test_common_002 "TFM_NS_FWU_TEST_1002" "Boundary test with invalid arguments.";
   TEST tfm_fwu_test_common_003 "TFM_NS_FWU_TEST_1003" "Boundary test with not supported components.";
   TEST tfm_fwu_test_common_004 "TFM_NS_FWU_TEST_1004" "Component state management test."] ++
  (if 1 <? MCUBOOT_IMAGE_NUMBER then
     [TEST tfm_fwu_test_common_005 "TFM_NS_FWU_TEST_1005" "Dependency pass in multiple components case."] ++
     (if 1 <? FWU_COMPONENT_NUMBER then
        [TEST tfm_fwu_test_common_006 "TFM_NS_FWU_TEST_1006" "Update two components which depends on each other."] else [])
   else []) ++
  (if TFM_FWU_TEST_REQUEST_REBOOT then [TEST tfm_fwu_test_common_007 "TFM_NS_FWU_TEST_1007" "Reboot interface"] else []).

Definition register_testsuite_ns_psa_fwu_interface : TESTSUITE_REG W :=
  register "PSA firmware update NS interface tests (TFM_NS_FWU_TEST_1xxx)" psa_fwu_ns_tests.

Definition psa_fwu_s_tests : list (test_t W) :=
  [TEST tfm_fwu_test_common_001 "TFM_S_FWU_TEST_1001" "Functionity test.";
   TEST tfm_fwu_test_common_002 "TFM_S_FWU_TEST_1002" "Boundary test with invalid arguments.";
   TEST tfm_fwu_test_common_003 "TFM_S_FWU_TEST_1003" "Boundary test with not supported components.";
   TEST tfm_fwu_test_common_004 "TFM_S_FWU_TEST_1004" "Component state management test."] ++
  (if 1 <? MCUBOOT_IMAGE_NUMBER then
     [TEST tfm_fwu_test_common_005 "TFM_S_FWU_TEST_1005" "Dependency pass in multiple components case."] ++
     (if 1 <? FWU_COMPONENT_NUMBER then
        [TEST tfm_fwu_test_common_006 "TFM_S_FWU_TEST_1006" "Update two components which depends on each other."] else [])
   else []) ++
  (if TFM_FWU_TEST_REQUEST_REBOOT then [TEST tfm_fwu_test_common_007 "TFM_S_FWU_TEST_1007" "Reboot interface"] else []).

Definition register_testsuite_s_psa_fwu_interface : TESTSUITE_REG W :=
  register "PSA firmware update interface tests(TFM_S_FWU_TEST_1XXX)" psa_fwu_s_tests.
End tests.
