(* ===== verification/FwuRef.v ===== *)
(** * A firmware update service that meets the laws

    The service whose state is the abstract state: the life cycle of the PSA
    Firmware Update API, with erased slots and with the dependency check of the
    boot loader made at the installation. *)

From S2P Require Import Prelude LogRaw TestFramework TestProg Fwu.
Local Open Scope Z_scope.

#[export] Instance ref_fwu_consts : FwuConsts := {|
  PSA_SUCCESS := 0; PSA_SUCCESS_REBOOT := 1; PSA_ERROR_GENERIC_ERROR := -132; PSA_ERROR_NOT_PERMITTED := -133;
  PSA_ERROR_BAD_STATE := -137; PSA_ERROR_DOES_NOT_EXIST := -140; PSA_ERROR_DEPENDENCY_NEEDED := -156;
  PSA_FWU_READY := 0; PSA_FWU_WRITING := 1; PSA_FWU_CANDIDATE := 2; PSA_FWU_STAGED := 3; PSA_FWU_FAILED := 4;
  PSA_FWU_TRIAL := 5; PSA_FWU_REJECTED := 6; PSA_FWU_UPDATED := 7;
  FWU_COMPONENT_ID_SECURE := 0; FWU_COMPONENT_ID_NONSECURE := 1; FWU_COMPONENT_ID_FULL := 0 |}.

#[export] Instance ref_fwu_consts_laws : FwuConstsLaws.
Proof. by split. Qed.

#[export] Instance some_in_dec st f : Decision (some_in st f).
Proof. unfold some_in. apply _. Defined.

#[export] Instance candidates_ok_dec f : Decision (candidates_ok f).
Proof. unfold candidates_ok. apply _. Defined.

Section reference.
  Variables (MAX_WRITE : Z) (capacity : Z -> Z) (checked : bool).

(** A step of component [c]; [None]: not in its state. *)
Definition on_component (c : Z) (g : component -> option component) (f : fwu) : Z * fwu :=
  match f !! c with
  | None => (PSA_ERROR_DOES_NOT_EXIST, f)
  | Some k => match g k with Some k' => (PSA_SUCCESS, <[c := k']> f) | None => (PSA_ERROR_BAD_STATE, f) end
  end.

Definition ref_write (c off : Z) (bs : list Z) (f : fwu) : Z * fwu :=
  match f !! c with
  | None => (PSA_ERROR_DOES_NOT_EXIST, f)
  | Some k =>
      if negb (cp_state k =? PSA_FWU_WRITING) then (PSA_ERROR_BAD_STATE, f)
      else if (off <? 0) || (MAX_WRITE <? sizeof bs) || (capacity c <? off + sizeof bs) then (-135, f)
      else (PSA_SUCCESS, <[c := set_image (write_image off bs (cp_image k)) k]> f)
  end.

Definition ref_install (f : fwu) : Z * fwu :=
  if negb (bool_decide (some_in PSA_FWU_CANDIDATE f)) || bool_decide (some_in PSA_FWU_STAGED f)
     || bool_decide (some_in PSA_FWU_TRIAL f) then (PSA_ERROR_BAD_STATE, f)
  else if checked && negb (bool_decide (candidates_ok f)) then (PSA_ERROR_DEPENDENCY_NEEDED, f)
  else (PSA_SUCCESS_REBOOT, all_in PSA_FWU_CANDIDATE (set_state PSA_FWU_STAGED) f).

Definition ref_reject (e : Z) (f : fwu) : Z * fwu :=
  if bool_decide (some_in PSA_FWU_TRIAL f) then
    (PSA_SUCCESS_REBOOT, all_in PSA_FWU_TRIAL (set_state PSA_FWU_REJECTED) f)
  else if bool_decide (some_in PSA_FWU_STAGED f) then (PSA_SUCCESS, all_in PSA_FWU_STAGED (set_failed e) f)
  else (PSA_ERROR_BAD_STATE, f).

Definition ref_accept (f : fwu) : Z * fwu :=
  if bool_decide (some_in PSA_FWU_TRIAL f) then (PSA_SUCCESS, all_in PSA_FWU_TRIAL (set_state PSA_FWU_UPDATED) f)
  else (PSA_ERROR_BAD_STATE, f).

Definition when (states : list Z) (g : component -> component) (k : component) : option component :=
  if bool_decide (cp_state k ∈ states) then Some (g k) else None.

#[export] Instance ref_fwu_service : FwuService fwu := {|
  psa_fwu_query c f :=
    match f !! c with
    | Some k => ((PSA_SUCCESS, mkInfo (cp_state k) (cp_error k) (cp_active k)), f)
    | None => ((PSA_ERROR_DOES_NOT_EXIST, mkInfo 0 0 (mkVersion 0 0 0 0)), f)
    end;
  psa_fwu_query_null _ f := (-135, f);
  psa_fwu_start c := on_component c (when [PSA_FWU_READY] (fun k => mkComp PSA_FWU_WRITING 0 erased (cp_active k)));
  psa_fwu_write := ref_write;
  psa_fwu_write_null _ _ _ f := (-135, f);
  psa_fwu_finish c := on_component c (when [PSA_FWU_WRITING] (set_state PSA_FWU_CANDIDATE));
  psa_fwu_install := ref_install;
  psa_fwu_cancel c := on_component c (when [PSA_FWU_WRITING; PSA_FWU_CANDIDATE]
    (fun k => mkComp PSA_FWU_FAILED 0 (cp_image k) (cp_active k)));
  psa_fwu_clean c := on_component c (when [PSA_FWU_REJECTED; PSA_FWU_FAILED; PSA_FWU_UPDATED]
    (fun k => mkComp PSA_FWU_READY 0 erased (cp_active k)));
  psa_fwu_reject := ref_reject;
  psa_fwu_accept := ref_accept;
  psa_fwu_request_reboot _ := None |}.

Abbreviation view := (fun f : fwu => f).

Lemma on_component_when c k states g f : f !! c = Some k -> cp_state k ∈ states ->
  on_component c (when states g) f = (PSA_SUCCESS, <[c := g k]> f).
Proof. intros Hk Hs. unfold on_component, when. by rewrite Hk, bool_decide_true. Qed.

Lemma on_component_bad c k states g f : f !! c = Some k -> cp_state k ∉ states ->
  refuses view (on_component c (when states g)) f PSA_ERROR_BAD_STATE.
Proof. intros Hk Hs w ->. unfold on_component, when. by rewrite Hk, bool_decide_false. Qed.

Lemma on_component_missing c g f : f !! c = None -> refuses view (on_component c g) f PSA_ERROR_DOES_NOT_EXIST.
Proof. intros Hk w ->. unfold on_component. by rewrite Hk. Qed.

Ltac decide_all :=
  repeat first [rewrite bool_decide_true by done | rewrite bool_decide_false by done]; cbn [negb orb andb].

#[export] Instance ref_fwu_laws : FwuLaws MAX_WRITE capacity checked fwu.
Proof.
  refine {| fwu_of := view |}; cbn.
  - intros c k f Hk w ->. by rewrite Hk.
  - by intros c f w ->.
  - intros c k f Hk Hs w ->. rewrite (on_component_when c k) by (done || by rewrite Hs; left). split; [done | by eexists _, _].
  - intros c k off bs f Hk Hs Ho Hm Hc w ->. unfold ref_write.
    rewrite Hk, Hs, (proj2 (Z.ltb_ge off 0)), (proj2 (Z.ltb_ge MAX_WRITE _)), (proj2 (Z.ltb_ge (capacity c) _)) by done. done.
  - intros c k off bs f Hk Hs Hc w ->. unfold ref_write. rewrite Hk, Hs, (proj2 (Z.ltb_lt (capacity c) _)), orb_true_r by done. done.
  - by intros c off n f _ w ->.
  - intros c k f Hk Hs w ->. by rewrite (on_component_when c k) by (done || by rewrite Hs; left).
  - intros c k f Hk Hs w ->. rewrite (on_component_when c k) by (done || by rewrite !elem_of_cons; naive_solver).
    split; [done | by eexists _, _].
  - intros c k f Hk Hs w ->. rewrite (on_component_when c k) by (done || by rewrite !elem_of_cons; naive_solver).
    split; [done | by eexists _, _].
  - intros c k f Hk Hs. apply (on_component_bad c k); [done|]. by intros ?%list_elem_of_singleton.
  - intros c k off bs f Hk Hs w ->. unfold ref_write. rewrite Hk. cbn. by rewrite (proj2 (Z.eqb_neq _ _) Hs).
  - intros c k f Hk Hs. apply (on_component_bad c k); [done|]. by intros ?%list_elem_of_singleton.
  - intros c k f Hk H1 H2. apply (on_component_bad c k); [done|]. by rewrite elem_of_cons, list_elem_of_singleton; intros [|].
  - intros c k f Hk H1 H2 H3. apply (on_component_bad c k); [done|].
    by rewrite !elem_of_cons, elem_of_nil; intros [|[|[|]]].
  - intros c f Hc w ->. by rewrite Hc.
  - intros c f Hc. by apply on_component_missing.
  - intros c off bs f Hc w ->. unfold ref_write. by rewrite Hc.
  - intros c f Hc. by apply on_component_missing.
  - intros c f Hc. by apply on_component_missing.
  - intros c f Hc. by apply on_component_missing.
  - intros f Hc Hs Ht Hok w ->. unfold ref_install. decide_all.
    destruct checked; cbn [andb]; [by rewrite bool_decide_true by auto | done].
  - intros f Hc Hs Ht Hk Hn w ->. unfold ref_install. rewrite Hk. by decide_all.
  - intros f Hc w ->. unfold ref_install. by decide_all.
  - intros e f Hs Ht w ->. unfold ref_reject. by decide_all.
  - intros e f Hs Ht w ->. unfold ref_reject. by decide_all.
  - intros f Ht w ->. unfold ref_accept. by decide_all.
Defined.
End reference.
