(* ===== verification/FwuRules.v ===== *)
(** * Rules for the firmware update tests

    What the images of the tests depend on, the life cycle of one and of two
    components while the others rest, and a rule for each call of a test. *)

From S2P Require Import Prelude LogRaw TestFramework TestProg Fwu FwuTests.
Local Open Scope Z_scope.

(** ** Images *)

Lemma read_image_lookup img off n i : 0 <= n ->
  read_image img off n !! i = if decide (Z.of_nat i < n) then Some (img (off + Z.of_nat i)) else None.
Proof.
  intros Hn. unfold read_image. rewrite list_lookup_fmap. case_decide as Hi.
  - by rewrite lookup_seqZ_lt.
  - by rewrite lookup_seqZ_ge by lia.
Qed.

Lemma sub_bytes_lookup off n bs i : 0 <= off -> 0 <= n ->
  sub_bytes off n bs !! i = if decide (Z.of_nat i < n) then bs !! (Z.to_nat off + i)%nat else None.
Proof.
  intros Ho Hn. unfold sub_bytes. case_decide.
  - by rewrite lookup_take_lt, lookup_drop by lia.
  - by rewrite lookup_take_ge by lia.
Qed.

(** What is read from inside a block that has been written, and beside it. *)
Lemma read_written img off bs o n : off <= o -> 0 <= n -> o + n <= off + sizeof bs ->
  read_image (write_image off bs img) o n = sub_bytes (o - off) n bs.
Proof.
  intros Ho Hn Hb. unfold sizeof in Hb. apply list_eq. intros i. rewrite read_image_lookup, sub_bytes_lookup by lia.
  case_decide as Hi; [|done]. unfold write_image, sizeof.
  rewrite (proj2 (Z.leb_le off _)), (proj2 (Z.ltb_lt (o + Z.of_nat i) _)) by lia. cbn.
  destruct (lookup_lt_is_Some_2 bs (Z.to_nat (o - off) + i)) as [b Hl]; [lia|].
  by replace (Z.to_nat (o + Z.of_nat i - off)) with (Z.to_nat (o - off) + i)%nat by lia; rewrite Hl.
Qed.

Lemma read_beside img off bs o n : 0 <= n -> o + n <= off \/ off + sizeof bs <= o ->
  read_image (write_image off bs img) o n = read_image img o n.
Proof.
  intros Hn Hb. apply list_eq. intros i. rewrite !read_image_lookup by done. case_decide as Hi; [|done].
  unfold write_image. destruct (Z.leb_spec off (o + Z.of_nat i)), (Z.ltb_spec (o + Z.of_nat i) (off + sizeof bs)); cbn; (lia || done).
Qed.

(** An image whose header points to its protected area. *)
Definition test_image (off : Z) (h area : list Z) (img : image) : image := write_image off area (write_image 0 h img).

Lemma test_image_version off h area img : sizeof h = 28 -> 28 <= off ->
  image_version (test_image off h area img) = version_of (sub_bytes 20 8 h).
Proof.
  intros Hh Ho. unfold image_version, test_image. by rewrite read_beside, read_written by (lia || (left; lia)).
Qed.

Lemma test_image_requires off h area img n : sizeof h = 28 -> 28 <= off ->
  le_value (sub_bytes 8 2 h) + le_value (sub_bytes 12 4 h) = off ->
  le_value (sub_bytes 0 2 area) = IMAGE_TLV_PROT_INFO_MAGIC -> le_value (sub_bytes 2 2 area) = n ->
  4 <= n <= sizeof area ->
  requires (test_image off h area img) = dependencies (length (sub_bytes 4 (n - 4) area)) (sub_bytes 4 (n - 4) area).
Proof.
  intros Hh Ho Hoff Hm Hn Hs.
  assert (forall o k, 0 <= o -> 0 <= k -> o + k <= 28 -> read_image (test_image off h area img) o k = sub_bytes o k h) as Hread.
  { intros o k ???. unfold test_image. rewrite read_beside, read_written by (lia || (left; lia)). by rewrite Z.sub_0_r. }
  assert (forall o k, 0 <= o -> 0 <= k -> o + k <= sizeof area -> read_image (test_image off h area img) (off + o) k = sub_bytes o k area) as Harea.
  { intros o k ???. unfold test_image. rewrite read_written by lia. by replace (off + o - off) with o by lia. }
  assert (tlv_offset (test_image off h area img) = off) as Htlv.
  { unfold tlv_offset. by rewrite !Hread by lia. }
  assert (read_image (test_image off h area img) off 2 = sub_bytes 0 2 area) as H0.
  { pose proof (Harea 0 2) as H. rewrite Z.add_0_r in H. apply H; lia. }
  unfold requires, protected_tlv. rewrite Htlv, H0, Hm, Z.eqb_refl, (Harea 2 2), Hn by lia. by rewrite Harea by lia.
Qed.

(** The bytes of a number in a header. *)
Lemma byte_of_mask s (k : Z) : 0 <= k -> u8 (Z.shiftr (Z.land s (Z.shiftl 255 k)) k) = Z.shiftr s k mod 256.
Proof.
  intros Hk. rewrite Z.shiftr_land, Z.shiftr_shiftl_l by lia. replace (k - k) with 0 by lia. rewrite Z.shiftl_0_r.
  change 255 with (Z.ones 8). rewrite Z.land_ones by lia. change (2 ^ 8) with 256.
  apply wrapu_small. change (2 ^ 8) with 256. apply Z.mod_pos_bound. lia.
Qed.

Lemma header_sizes hdr s : 0 <= hdr < 2 ^ 16 -> 0 <= s < 2 ^ 32 ->
  le_value [IMAGE_HEADER_SIZE_LOW hdr; IMAGE_HEADER_SIZE_HIGH hdr] = hdr /\
  le_value [SECURE_IMAGE_SIZE_BYTE_0 s; SECURE_IMAGE_SIZE_BYTE_1 s; SECURE_IMAGE_SIZE_BYTE_2 s; SECURE_IMAGE_SIZE_BYTE_3 s] = s /\
  le_value [NONSECURE_IMAGE_SIZE_BYTE_0 s; NONSECURE_IMAGE_SIZE_BYTE_1 s; NONSECURE_IMAGE_SIZE_BYTE_2 s;
    NONSECURE_IMAGE_SIZE_BYTE_3 s] = s.
Proof.
  intros Hh Hs.
  assert (forall z, u8 (Z.land z 0xFF) = z mod 256) as H0.
  { intros z. pose proof (byte_of_mask z 0 ltac:(done)) as H. by rewrite !Z.shiftr_0_r in H. }
  assert (forall z, u8 (Z.shiftr (Z.land z 0xFF00) 8) = z / 256 mod 256) as H1.
  { intros z. pose proof (byte_of_mask z 8 ltac:(done)) as H. by rewrite (Z.shiftr_div_pow2 z) in H. }
  assert (forall z, u8 (Z.shiftr (Z.land z 0xFF0000) 16) = z / 65536 mod 256) as H2.
  { intros z. pose proof (byte_of_mask z 16 ltac:(done)) as H. by rewrite (Z.shiftr_div_pow2 z) in H. }
  assert (forall z, u8 (Z.shiftr (Z.land z 0xFF000000) 24) = z / 16777216 mod 256) as H3.
  { intros z. pose proof (byte_of_mask z 24 ltac:(done)) as H. by rewrite (Z.shiftr_div_pow2 z) in H. }
  unfold IMAGE_HEADER_SIZE_LOW, IMAGE_HEADER_SIZE_HIGH, IMAGE_HEADER_SIZE, SECURE_IMAGE_SIZE_BYTE_0, SECURE_IMAGE_SIZE_BYTE_1,
    SECURE_IMAGE_SIZE_BYTE_2, SECURE_IMAGE_SIZE_BYTE_3, SECURE_IMAGE_SIZE, NONSECURE_IMAGE_SIZE_BYTE_0,
    NONSECURE_IMAGE_SIZE_BYTE_1, NONSECURE_IMAGE_SIZE_BYTE_2, NONSECURE_IMAGE_SIZE_BYTE_3, NONSECURE_IMAGE_SIZE.
  rewrite !H0, !H1, !H2, !H3. cbn [le_value]. repeat split; Z.div_mod_to_equations; lia.
Qed.

(** ** Components at rest and at work *)

Ltac fwu_consts :=
  rewrite ?fwu_success, ?fwu_success_reboot, ?fwu_generic_error, ?fwu_not_permitted, ?fwu_bad_state, ?fwu_does_not_exist,
    ?fwu_dependency_needed, ?fwu_ready, ?fwu_writing, ?fwu_candidate, ?fwu_staged, ?fwu_failed, ?fwu_trial, ?fwu_rejected,
    ?fwu_updated, ?fwu_secure, ?fwu_nonsecure, ?fwu_full.

(** All components are READY; [vs] are the versions that run. *)
Record resting {FC : FwuConsts} (vs : gmap Z psa_fwu_image_version_t) (f : fwu) : Prop := {
  rest_versions : cp_active <$> f = vs;
  rest_ready : map_Forall (fun _ k => cp_state k = PSA_FWU_READY) f;
}.

Section states.
  Context {FC : FwuConsts} {FCL : FwuConstsLaws} {vs : gmap Z psa_fwu_image_version_t} {f0 : fwu} (Hf : resting vs f0).
  Implicit Types k : component.

Lemma resting_ready c k : f0 !! c = Some k -> cp_state k = 0.
Proof. intros Hk. apply (rest_ready _ _ Hf) in Hk. by rewrite fwu_ready in Hk. Qed.

Lemma resting_lookup c v : vs !! c = Some v -> exists k, f0 !! c = Some k /\ cp_active k = v /\ cp_state k = 0.
Proof.
  intros Hv. rewrite <- (rest_versions _ _ Hf), lookup_fmap in Hv. apply fmap_Some in Hv as (k & Hk & ->).
  exists k. split; [done|]. split; [done|]. by eapply resting_ready.
Qed.

Lemma resting_missing c : vs !! c = None -> f0 !! c = None.
Proof. rewrite <- (rest_versions _ _ Hf), lookup_fmap. apply fmap_None. Qed.

Lemma resting_insert c k v : vs !! c = Some v -> cp_active k = v -> cp_state k = 0 -> resting vs (<[c := k]> f0).
Proof.
  intros Hv Hk Hst. destruct Hf as [Hvs Hr]. split.
  - rewrite fmap_insert, Hvs, Hk. by apply insert_id.
  - apply map_Forall_insert_2; [by rewrite fwu_ready | done].
Qed.

(** One component at work. *)
Lemma some_in_one c k st : st <> 0 -> some_in st (<[c := k]> f0) <-> cp_state k = st.
Proof.
  intros Hst. unfold some_in, map_Exists. split.
  - intros (c' & k' & [[_ ->]|[_ Hl]]%lookup_insert_Some & Hk'); [done|].
    apply resting_ready in Hl. congruence.
  - intros Hk. exists c, k. by rewrite lookup_insert_eq.
Qed.

Lemma all_in_resting st g : st <> 0 -> all_in st g f0 = f0.
Proof.
  intros Hst. unfold all_in. rewrite <- (map_fmap_id f0) at 2. apply map_fmap_ext. intros c k Hk.
  apply resting_ready in Hk. by rewrite Hk, (proj2 (Z.eqb_neq 0 st)).
Qed.

Lemma all_in_one c k st g : st <> 0 -> cp_state k = st -> all_in st g (<[c := k]> f0) = <[c := g k]> f0.
Proof.
  intros Hst Hk. pose proof (all_in_resting st g Hst) as Hr. unfold all_in in *.
  rewrite fmap_insert, Hr. by rewrite Hk, Z.eqb_refl.
Qed.

Lemma candidates_one c k : cp_state k = 2 ->
  candidates_ok (<[c := k]> f0) <-> forallb (satisfied (<[c := k]> f0)) (requires (cp_image k)) = true.
Proof.
  intros Hk. unfold candidates_ok. fwu_consts. split.
  - intros H. apply (map_Forall_insert_1_1 _ _ _ _ H). done.
  - intros H c' k' [[_ <-]|[_ Hl]]%lookup_insert_Some Hst; [done|]. apply resting_ready in Hl. congruence.
Qed.

(** Two components at work. *)
Context (c1 c2 : Z) (k1 k2 : component) (Hne : c1 <> c2).
Abbreviation two := (<[c2 := k2]> (<[c1 := k1]> f0)).

Lemma some_in_two st : st <> 0 -> some_in st two <-> cp_state k1 = st \/ cp_state k2 = st.
Proof.
  intros Hst. unfold some_in, map_Exists. split.
  - intros (c' & k' & [[_ ->]|[_ [[_ ->]|[_ Hl]]%lookup_insert_Some]]%lookup_insert_Some & Hk'); [by right | by left |].
    apply resting_ready in Hl. congruence.
  - intros [Hk|Hk]; [exists c1, k1 | exists c2, k2; by rewrite lookup_insert_eq].
    by rewrite lookup_insert_ne, lookup_insert_eq by done.
Qed.

Lemma all_in_two st g : st <> 0 -> cp_state k1 = st -> cp_state k2 = st -> all_in st g two = <[c2 := g k2]> (<[c1 := g k1]> f0).
Proof.
  intros Hst H1 H2. pose proof (all_in_resting st g Hst) as Hr. unfold all_in in *.
  rewrite !fmap_insert, Hr. by rewrite H1, H2, Z.eqb_refl.
Qed.

Lemma candidates_two : cp_state k1 = 2 ->
  candidates_ok two <-> forallb (satisfied two) (requires (cp_image k1)) = true /\
    (cp_state k2 = 2 -> forallb (satisfied two) (requires (cp_image k2)) = true).
Proof.
  intros Hk. unfold candidates_ok. fwu_consts. split.
  - intros H. split.
    + apply (H c1 k1); [|done]. by rewrite lookup_insert_ne, lookup_insert_eq by done.
    + apply (map_Forall_insert_1_1 _ _ _ _ H).
  - intros [Ha Hb] c' k' [[_ <-]|[_ [[_ <-]|[_ Hl]]%lookup_insert_Some]]%lookup_insert_Some Hst; [by apply Hb | done |].
    apply resting_ready in Hl. congruence.
Qed.
End states.

(** ** The calls of the tests *)

Section calls.
  Context {FC : FwuConsts} {FCL : FwuConstsLaws} {MAX_WRITE : Z} {capacity : Z -> Z} {checked : bool}.
  Context {W : Type} {FS : FwuService W} {FL : FwuLaws MAX_WRITE capacity checked W}.
  Implicit Types (f : fwu) (k : component).

Abbreviation at_ := (fwp fwu_of).

Lemma at_query c k f v Q : f !! c = Some k ->
  (forall info, info_state info = cp_state k -> info_version info = cp_active k ->
     (cp_state k = 4 -> info_error info = cp_error k) -> Q (PSA_SUCCESS, info) f v) -> at_ (query c) Q f v.
Proof.
  intros Hk HQ. eapply fwp_call; [by apply law_query|]. intros [r info] f' (-> & Hr & Hs & Hv & He). cbn in *.
  subst r. apply HQ; [done | done |]. by rewrite fwu_failed in He.
Qed.

Lemma at_query_null c f v Q : (forall r, r <> 0 -> Q r f v) -> at_ (query_null c) Q f v.
Proof. intros HQ. eapply fwp_call; [apply law_query_null|]. intros r f' [Hr ->]. rewrite fwu_success in Hr. by apply HQ. Qed.

Lemma at_start c k f v Q : f !! c = Some k ->
  (if cp_state k =? 0 then forall e img, Q PSA_SUCCESS (<[c := mkComp 1 e img (cp_active k)]> f) v else Q PSA_ERROR_BAD_STATE f v) ->
  at_ (start c) Q f v.
Proof.
  intros Hk. destruct (Z.eqb_spec (cp_state k) 0) as [Hs|Hs]; intros HQ.
  - eapply fwp_call; [by eapply law_start; [done | rewrite fwu_ready]|].
    intros r f' (-> & e & img & ->). rewrite fwu_writing. apply HQ.
  - eapply fwp_call; [by eapply law_start_bad; [done | rewrite fwu_ready]|]. by intros r f' [-> ->].
Qed.

Lemma at_write c k off block len f v Q : f !! c = Some k -> cp_state k = 1 -> len = sizeof block ->
  0 <= off -> sizeof block <= MAX_WRITE -> off + sizeof block <= capacity c ->
  Q PSA_SUCCESS (<[c := set_image (write_image off block (cp_image k)) k]> f) v -> at_ (write c off block len) Q f v.
Proof.
  intros Hk Hs -> Ho Hm Hc HQ. unfold write. rewrite Z.leb_refl. unfold sizeof at 1. rewrite Nat2Z.id, firstn_all.
  eapply fwp_call; [by eapply law_write; [done | rewrite fwu_writing | ..]|]. by intros r f' [-> ->].
Qed.

Lemma at_write_over c k off block len f v Q : f !! c = Some k -> cp_state k = 1 -> 0 <= len <= sizeof block ->
  capacity c < off + len -> (forall r, r <> 0 -> Q r f v) -> at_ (write c off block len) Q f v.
Proof.
  intros Hk Hs Hl Hc HQ. unfold write. rewrite (proj2 (Z.leb_le _ _)) by lia.
  eapply fwp_call; [eapply law_write_over; [done | by rewrite fwu_writing |]|].
  - unfold sizeof in *. rewrite length_take. lia.
  - intros r f' [Hr ->]. rewrite fwu_success in Hr. by apply HQ.
Qed.

Lemma at_write_bad c k off block len f v Q : f !! c = Some k -> cp_state k <> 1 -> len <= sizeof block ->
  Q PSA_ERROR_BAD_STATE f v -> at_ (write c off block len) Q f v.
Proof.
  intros Hk Hs Hl HQ. unfold write. rewrite (proj2 (Z.leb_le _ _)) by done.
  eapply fwp_call; [by eapply law_write_bad; [done | rewrite fwu_writing]|]. by intros r f' [-> ->].
Qed.

Lemma at_write_null c off n f v Q : 0 < n -> (forall r, r <> 0 -> Q r f v) -> at_ (write_null c off n) Q f v.
Proof.
  intros Hn HQ. eapply fwp_call; [by apply law_write_null|]. intros r f' [Hr ->]. rewrite fwu_success in Hr. by apply HQ.
Qed.

Lemma at_finish c k f v Q : f !! c = Some k ->
  (if cp_state k =? 1 then Q PSA_SUCCESS (<[c := set_state 2 k]> f) v else Q PSA_ERROR_BAD_STATE f v) -> at_ (finish c) Q f v.
Proof.
  intros Hk. destruct (Z.eqb_spec (cp_state k) 1) as [Hs|Hs]; intros HQ.
  - eapply fwp_call; [by eapply law_finish; [done | rewrite fwu_writing]|]. intros r f' [-> ->]. by rewrite fwu_candidate.
  - eapply fwp_call; [by eapply law_finish_bad; [done | rewrite fwu_writing]|]. by intros r f' [-> ->].
Qed.

Lemma at_cancel c k f v Q : f !! c = Some k ->
  (if (cp_state k =? 1) || (cp_state k =? 2) then forall e img, Q PSA_SUCCESS (<[c := mkComp 4 e img (cp_active k)]> f) v
   else Q PSA_ERROR_BAD_STATE f v) -> at_ (cancel c) Q f v.
Proof.
  intros Hk. destruct (Z.eqb_spec (cp_state k) 1) as [H1|H1], (Z.eqb_spec (cp_state k) 2) as [H2|H2]; cbn; intros HQ.
  4: { eapply fwp_call; [by eapply law_cancel_bad; [done | rewrite fwu_writing | rewrite fwu_candidate]|]. by intros r f' [-> ->]. }
  all: eapply fwp_call; [eapply law_cancel; [done | by rewrite fwu_writing, fwu_candidate; auto]|];
    intros r f' (-> & e & img & ->); rewrite fwu_failed; apply HQ.
Qed.

Lemma at_clean c k f v Q : f !! c = Some k ->
  (if 4 =? cp_state k then forall e img, Q PSA_SUCCESS (<[c := mkComp 0 e img (cp_active k)]> f) v
   else cp_state k < 6 /\ Q PSA_ERROR_BAD_STATE f v) -> at_ (clean c) Q f v.
Proof.
  intros Hk. destruct (Z.eqb_spec 4 (cp_state k)) as [H4|H4]; intros HQ.
  - eapply fwp_call; [eapply law_clean; [done | by rewrite fwu_failed; auto]|].
    intros r f' (-> & e & img & ->). rewrite fwu_ready. apply HQ.
  - destruct HQ as [Hs HQ].
    eapply fwp_call; [eapply law_clean_bad; [done | rewrite ?fwu_rejected, ?fwu_failed, ?fwu_updated; lia..]|].
    by intros r f' [-> ->].
Qed.

(** A component that does not exist. *)
Lemma at_query_missing c f v Q : f !! c = None -> (forall info, Q (PSA_ERROR_DOES_NOT_EXIST, info) f v) -> at_ (query c) Q f v.
Proof.
  intros Hc HQ. eapply fwp_call; [by apply law_query_missing|]. intros [r info] f' [Hr ->]. cbn in Hr. subst r. apply HQ.
Qed.

Lemma at_start_missing c f v Q : f !! c = None -> Q PSA_ERROR_DOES_NOT_EXIST f v -> at_ (start c) Q f v.
Proof. intros Hc HQ. eapply fwp_call; [by apply law_start_missing|]. by intros r f' [-> ->]. Qed.

Lemma at_write_missing c off block len f v Q : f !! c = None -> len <= sizeof block ->
  Q PSA_ERROR_DOES_NOT_EXIST f v -> at_ (write c off block len) Q f v.
Proof.
  intros Hc Hl HQ. unfold write. rewrite (proj2 (Z.leb_le _ _)) by done.
  eapply fwp_call; [by apply law_write_missing|]. by intros r f' [-> ->].
Qed.

Lemma at_finish_missing c f v Q : f !! c = None -> Q PSA_ERROR_DOES_NOT_EXIST f v -> at_ (finish c) Q f v.
Proof. intros Hc HQ. eapply fwp_call; [by apply law_finish_missing|]. by intros r f' [-> ->]. Qed.

Lemma at_cancel_missing c f v Q : f !! c = None -> Q PSA_ERROR_DOES_NOT_EXIST f v -> at_ (cancel c) Q f v.
Proof. intros Hc HQ. eapply fwp_call; [by apply law_cancel_missing|]. by intros r f' [-> ->]. Qed.

Lemma at_clean_missing c f v Q : f !! c = None -> Q PSA_ERROR_DOES_NOT_EXIST f v -> at_ (clean c) Q f v.
Proof. intros Hc HQ. eapply fwp_call; [by apply law_clean_missing|]. by intros r f' [-> ->]. Qed.

(** Calls about all components, with one at work. *)
Context {vs : gmap Z psa_fwu_image_version_t} {f0 : fwu} (Hf : resting vs f0).

Lemma at_install c k v Q : cp_state k < 5 ->
  (if cp_state k =? 2 then
     (checked = true -> forallb (satisfied (<[c := k]> f0)) (requires (cp_image k)) = true) /\
     Q PSA_SUCCESS_REBOOT (<[c := set_state 3 k]> f0) v
   else Q PSA_ERROR_BAD_STATE (<[c := k]> f0) v) -> at_ install Q (<[c := k]> f0) v.
Proof.
  intros H5. destruct (Z.eqb_spec (cp_state k) 2) as [H2|H2]; intros HQ.
  - destruct HQ as [Hok HQ]. eapply fwp_call; [apply law_install|].
    1-3: fwu_consts; rewrite (some_in_one Hf) by done; lia.
    + intros Hc. by apply (candidates_one Hf c k H2), Hok.
    + intros r f' [-> ->]. rewrite fwu_candidate, fwu_staged, (all_in_one Hf) by done. exact HQ.
  - eapply fwp_call; [apply law_install_bad; fwu_consts; by rewrite (some_in_one Hf)|]. by intros r f' [-> ->].
Qed.

Lemma at_install_needs c k v Q : cp_state k = 2 -> checked = true ->
  forallb (satisfied (<[c := k]> f0)) (requires (cp_image k)) = false ->
  Q PSA_ERROR_DEPENDENCY_NEEDED (<[c := k]> f0) v -> at_ install Q (<[c := k]> f0) v.
Proof.
  intros H2 Hc Hn HQ. eapply fwp_call; [apply law_install_needs|].
  1-3: fwu_consts; rewrite (some_in_one Hf) by done; lia.
  - done.
  - rewrite (candidates_one Hf c k H2). by rewrite Hn.
  - by intros r f' [-> ->].
Qed.

Lemma at_reject e c k v Q : cp_state k < 5 ->
  (if cp_state k =? 3 then Q PSA_SUCCESS (<[c := mkComp 4 e (cp_image k) (cp_active k)]> f0) v else Q PSA_ERROR_BAD_STATE (<[c := k]> f0) v) ->
  at_ (reject e) Q (<[c := k]> f0) v.
Proof.
  intros H5. destruct (Z.eqb_spec (cp_state k) 3) as [H3|H3]; intros HQ.
  - eapply fwp_call; [apply law_reject; fwu_consts; rewrite (some_in_one Hf) by done; lia|].
    intros r f' [-> ->]. rewrite fwu_staged, (all_in_one Hf) by done. unfold set_failed. rewrite fwu_failed. exact HQ.
  - eapply fwp_call; [apply law_reject_bad; fwu_consts; rewrite (some_in_one Hf) by done; lia|]. by intros r f' [-> ->].
Qed.

Lemma at_accept c k v Q : cp_state k < 5 -> Q PSA_ERROR_BAD_STATE (<[c := k]> f0) v -> at_ accept Q (<[c := k]> f0) v.
Proof.
  intros H5 HQ. eapply fwp_call; [apply law_accept_bad; fwu_consts; rewrite (some_in_one Hf) by done; lia|]. by intros r f' [-> ->].
Qed.

(** The same with two. *)
Context (c1 c2 : Z) (k1 k2 : component) (Hne : c1 <> c2).
Abbreviation two := (<[c2 := k2]> (<[c1 := k1]> f0)).

Lemma at_install_needs_two v Q : cp_state k1 = 2 -> cp_state k2 = 1 -> checked = true ->
  forallb (satisfied two) (requires (cp_image k1)) = false ->
  Q PSA_ERROR_DEPENDENCY_NEEDED two v -> at_ install Q two v.
Proof.
  intros H1 H2 Hc Hn HQ. eapply fwp_call; [apply law_install_needs|].
  1-3: fwu_consts; rewrite (some_in_two Hf) by done; lia.
  - done.
  - rewrite (candidates_two Hf) by done. rewrite Hn. by intros [? _].
  - by intros r f' [-> ->].
Qed.

Lemma at_install_two v Q : cp_state k1 = 2 -> cp_state k2 = 2 ->
  forallb (satisfied two) (requires (cp_image k1)) = true -> forallb (satisfied two) (requires (cp_image k2)) = true ->
  Q PSA_SUCCESS_REBOOT (<[c2 := set_state 3 k2]> (<[c1 := set_state 3 k1]> f0)) v -> at_ install Q two v.
Proof.
  intros H1 H2 Ha Hb HQ. eapply fwp_call; [apply law_install|].
  1-3: fwu_consts; rewrite (some_in_two Hf) by done; lia.
  - intros _. by apply (candidates_two Hf).
  - intros r f' [-> ->]. rewrite fwu_candidate, fwu_staged, (all_in_two Hf) by done. exact HQ.
Qed.

Lemma at_reject_two e v Q : cp_state k1 = 3 -> cp_state k2 = 3 ->
  Q PSA_SUCCESS (<[c2 := mkComp 4 e (cp_image k2) (cp_active k2)]> (<[c1 := mkComp 4 e (cp_image k1) (cp_active k1)]> f0)) v ->
  at_ (reject e) Q two v.
Proof.
  intros H1 H2 HQ. eapply fwp_call; [apply law_reject; fwu_consts; rewrite (some_in_two Hf) by done; lia|].
  intros r f' [-> ->]. rewrite fwu_staged, (all_in_two Hf) by done. unfold set_failed. rewrite fwu_failed. exact HQ.
Qed.
End calls.
