(* ===== verification/FwuProofs.v ===== *)
(** * The firmware update suites pass

    Over every service that meets the laws; and a service on which the suites
    are evaluated. *)

From S2P Require Import Prelude LogRaw TestFramework TestProg Fwu FwuTests FwuRef FwuRules.
Local Open Scope Z_scope.

Section images.
  Variables hdr s ns : Z.
  Hypotheses (Hhdr : 28 <= hdr < 2 ^ 16) (Hs : 0 <= s < 2 ^ 32) (Hns : 0 <= ns < 2 ^ 32).

Definition any_version : psa_fwu_image_version_t := mkVersion 0 0 0 0.
Definition version_for_test : psa_fwu_image_version_t := mkVersion 9 9 9 0.

(** The image of tests 001 and 004 asks for some non-secure image. *)
Lemma zero_requires img :
  requires (test_image (hdr + s) (header_test_image_version_zero hdr s) tlv_dep_version_zero img) = [(1, any_version)].
Proof.
  destruct (header_sizes hdr s) as (Hh & Hsz & _); [lia | done |].
  rewrite (test_image_requires _ _ _ _ 123); [reflexivity | reflexivity | lia | | reflexivity | reflexivity | done].
  exact (f_equal2 Z.add Hh Hsz).
Qed.

(** The images of tests 005 and 006. *)
Lemma secure_image_version area img :
  image_version (test_image (hdr + s) (header_test_image_version_not_zero hdr s) area img) = version_for_test.
Proof. rewrite test_image_version by (reflexivity || lia). reflexivity. Qed.

Lemma secure_requires img :
  requires (test_image (hdr + s) (header_test_image_version_not_zero hdr s) tlv_data_secure_image img) = [(1, any_version)].
Proof.
  destruct (header_sizes hdr s) as (Hh & Hsz & _); [lia | done |].
  rewrite (test_image_requires _ _ _ _ 123); [reflexivity | reflexivity | lia | | reflexivity | reflexivity | done].
  exact (f_equal2 Z.add Hh Hsz).
Qed.

Lemma secure_requires_major x img :
  requires (test_image (hdr + s) (header_test_image_version_not_zero hdr s)
    (splice 115 (version_bytes (mkVersion x 0 0 0)) tlv_data_secure_image) img) = [(1, mkVersion x 0 0 0)].
Proof.
  destruct (header_sizes hdr s) as (Hh & Hsz & _); [lia | done |].
  rewrite (test_image_requires _ _ _ _ 123); [ | reflexivity | lia | | reflexivity | reflexivity | done].
  - transitivity [(1, mkVersion (x + 0) 0 0 0)]; [reflexivity | by rewrite Z.add_0_r].
  - exact (f_equal2 Z.add Hh Hsz).
Qed.

Lemma nonsecure_requires x img :
  requires (test_image (hdr + ns) (splice 20 (version_bytes (mkVersion x 0 0 0)) (header_dep_image_version_not_zero hdr ns))
    tlv_data_nonsecure_image img) = [(0, version_for_test)].
Proof.
  destruct (header_sizes hdr ns) as (Hh & _ & Hsz); [lia | done |].
  rewrite (test_image_requires _ _ _ _ 124); [reflexivity | reflexivity | lia | | reflexivity | reflexivity | done].
  exact (f_equal2 Z.add Hh Hsz).
Qed.

Lemma nonsecure_version x area img :
  image_version (test_image (hdr + ns) (splice 20 (version_bytes (mkVersion x 0 0 0)) (header_dep_image_version_not_zero hdr ns))
    area img) = mkVersion x 0 0 0.
Proof.
  rewrite test_image_version by (reflexivity || lia).
  transitivity (mkVersion (x + 0) 0 0 0); [reflexivity | by rewrite Z.add_0_r].
Qed.
End images.

(** ** The tests *)

Lemma fwp_log_then_fail {W} (view : W -> fwu) file c fmt args ln msg Q f v : c = false -> Q tt f v ->
  fwp view (log_then_fail file c fmt args ln msg) Q f v.
Proof. intros -> HQ. by apply fwp_ret. Qed.

Lemma fwp_log_and_fail {W} (view : W -> fwu) file c fmt args ln msg Q f v : c = false -> Q tt f v ->
  fwp view (log_and_fail file c fmt args ln msg) Q f v.
Proof. intros -> HQ. by apply fwp_ret. Qed.

Lemma fwp_else {W A} (view : W -> fwu) (c : bool) (m m' : P W A) Q f v : c = false -> fwp view m' Q f v ->
  fwp view (if c then m else m') Q f v.
Proof. by intros ->. Qed.

Lemma fwp_get_val {W} (view : W -> fwu) Q f v : Q v f v -> fwp view get_val Q f v.
Proof. intros HQ s [Hf Hv]. unfold wp, get_val. exists f, v. split; [by split|]. by rewrite Hv. Qed.

Lemma fwp_memcpy_at {W} (view : W -> fwu) dst off src Q f v : 0 <= off -> off + sizeof src <= sizeof dst ->
  (forall bs, bs = splice (Z.to_nat off) src dst -> sizeof bs = sizeof dst -> Q bs f v) -> fwp view (memcpy_at dst off src) Q f v.
Proof.
  intros Ho Hs HQ. unfold memcpy_at. rewrite (proj2 (Z.leb_le _ _) Ho), (proj2 (Z.leb_le _ _) Hs). apply fwp_ret, HQ; [done|].
  unfold sizeof in *. rewrite splice_length; lia.
Qed.

Section suites.
  Context {FC : FwuConsts} {FCL : FwuConstsLaws} {MAX_WRITE : Z} {capacity : Z -> Z} {checked : bool}.
  Context {W : Type} {FS : FwuService W} {FL : FwuLaws MAX_WRITE capacity checked W}.
  Variables (__FILE__ : string) (hdr s ns images components : Z) (trial write_with_null query_with_null : bool).
  Hypotheses (Hhdr : 28 <= hdr < 2 ^ 16) (Hs : 0 <= s < 2 ^ 32) (Hns : 0 <= ns < 2 ^ 32) (Hmax : 128 <= MAX_WRITE).
  Hypotheses (Hcap : hdr + s + 128 <= capacity 0 <= 2 ^ 32) (Hcap1 : hdr + ns + 128 <= capacity 1).
  Hypothesis Hchecked : checked = (1 <? images).
  (** The versions that run; the last component has number [components - 1]. *)
  Context (vs : gmap Z psa_fwu_image_version_t) (Hvs : map_Forall (fun _ v => version_ok v) vs).
  Context (v0 v1 : psa_fwu_image_version_t) (H0 : vs !! 0 = Some v0) (H1 : 1 < images -> vs !! 1 = Some v1).
  Hypothesis Hmissing : vs !! components = None.

Lemma component_0 : test_component images = 0.
Proof. unfold test_component. fwu_consts. by destruct (1 <? images). Qed.

Lemma component_missing : components <> 0.
Proof. intros ->. by rewrite H0 in Hmissing. Qed.

(** [f] is what the test leaves. *)
Definition test_ok (m : P W unit) : Prop := forall f, resting vs f ->
  fwp fwu_of m (fun _ f' v => resting vs f' /\ v = TEST_PASSED) f TEST_PASSED.

Lemma size_header_zero : sizeof (header_test_image_version_zero hdr s) = 28. Proof. done. Qed.
Lemma size_header : sizeof (header_test_image_version_not_zero hdr s) = 28. Proof. done. Qed.
Lemma size_header_dep : sizeof (header_dep_image_version_not_zero hdr ns) = 28. Proof. done. Qed.
Lemma size_tlv_zero : sizeof tlv_dep_version_zero = 128. Proof. done. Qed.
Lemma size_tlv : sizeof tlv_data_secure_image = 128. Proof. done. Qed.
Lemma size_tlv_nonsecure : sizeof tlv_data_nonsecure_image = 128. Proof. done. Qed.

(** The offset of the protected area. *)
Lemma off_secure : PROTECTED_TLV_OFF_SECURE hdr s = hdr + s. Proof. done. Qed.
Lemma off_nonsecure : PROTECTED_TLV_OFF_NONSECURE hdr ns = hdr + ns. Proof. done. Qed.

Lemma any_version_ok f f' : resting vs f -> 1 < images -> (forall k, f !! 1 = Some k -> f' !! 1 = Some k) ->
  satisfied f' (1, any_version) = true.
Proof.
  intros Hf Hi Hl. destruct (resting_lookup Hf 1 v1 (H1 Hi)) as (k & Hk & Ha & Hst).
  unfold satisfied. cbn [fst snd]. rewrite (Hl k Hk). unfold next_version. fwu_consts. rewrite Hst. cbn [Z.eqb]. rewrite Ha.
  pose proof (Hvs 1 v1 (H1 Hi)) as (? & ? & ? & ?). unfold version_key. cbn. apply Z.leb_le. lia.
Qed.

Ltac sizes := rewrite ?size_header_zero, ?size_header, ?size_header_dep, ?size_tlv_zero, ?size_tlv, ?size_tlv_nonsecure,
  ?off_secure, ?off_nonsecure; lia.

Ltac component :=
  first [ apply lookup_insert_eq | eassumption | rewrite lookup_insert_ne by lia; component ].

Ltac compute_component :=
  cbv beta delta [set_state set_image]; cbn [cp_state cp_error cp_image cp_active Z.eqb Pos.eqb orb];
  rewrite ?insert_insert_eq.

(** A condition that is false. *)
Ltac no_failure := fwu_consts; first [reflexivity | apply Z.eqb_neq; done | apply negb_false_iff, Z.eqb_eq; done].

(** What the call leaves open, or a side condition that holds. *)
Ltac outcome :=
  lazymatch goal with
  | |- forall (_ : Z) (_ : image), _ => intros ? ?; rewrite ?insert_insert_eq
  | |- _ /\ _ => split; [done|]
  | |- _ => idtac
  end.

(** A call whose outcome the state of the component decides. *)
Ltac fwu_call :=
  lazymatch goal with
  | |- fwp _ (query _) _ _ _ =>
      first [ eapply at_query; [component | let st := fresh in let er := fresh in let ve := fresh in let H := fresh in
                intros [st er ve]; cbn [info_state info_error info_version]; compute_component;
                intros -> -> H; first [specialize (H eq_refl); subst er | clear H]]
            | eapply at_query_missing; [component | intros ?] ]
  | |- fwp _ (query_null _) _ _ _ => eapply at_query_null; intros ? ?
  | |- fwp _ (start _) _ _ _ => first [ eapply at_start; [component|] | eapply at_start_missing; [component|] ];
      compute_component; outcome
  | |- fwp _ (write _ _ _ _) _ _ _ =>
      first [ eapply at_write; [component | reflexivity | reflexivity | sizes | sizes | sizes |]
            | eapply at_write_bad; [component | done | sizes |]
            | eapply at_write_missing; [component | sizes |] ]; compute_component
  | |- fwp _ (write_null _ _ _) _ _ _ => eapply at_write_null; [sizes | intros ? ?]
  | |- fwp _ (finish _) _ _ _ => first [ eapply at_finish; [component|] | eapply at_finish_missing; [component|] ]; compute_component
  | |- fwp _ (cancel _) _ _ _ => first [ eapply at_cancel; [component|] | eapply at_cancel_missing; [component|] ];
      compute_component; outcome
  | |- fwp _ (clean _) _ _ _ => first [ eapply at_clean; [component|] | eapply at_clean_missing; [component|] ];
      compute_component; outcome
  | |- fwp _ accept _ _ _ => eapply at_accept; [eassumption | done |]
  | |- fwp _ (reject _) _ _ _ => eapply at_reject; [eassumption | done |]; compute_component
  end.

Ltac fwu_step' :=
  first
    [ apply fwp_bind
    | apply fwp_memcpy_at; [done | done |];
      let bs := fresh "block" in let Hb := fresh "Hblock" in let H := fresh in
      intros bs Hb H; rewrite ?size_header_dep, ?size_tlv in H
    | progress cbv beta iota zeta
    | apply fwp_fail_if; [no_failure|]
    | apply fwp_log_then_fail; [no_failure|]
    | apply fwp_log_and_fail; [no_failure|]
    | apply fwp_else; [no_failure|]
    | apply fwp_ret
    | apply fwp_ret_val
    | apply fwp_get_val
    | fwu_call ].

Ltac fwu_step :=
  first
    [ fwu_step'
    | lazymatch goal with |- fwp _ install _ _ _ => eapply at_install; [eassumption | done |] end;
      compute_component; try (split; [intros Hc|]) ].

(** The component is READY: the test runs. *)
Lemma setup_ready n f k v Q : f !! 0 = Some k -> cp_state k = 0 -> Q 0 f v ->
  fwp fwu_of (test_setup __FILE__ images n) Q f v.
Proof.
  intros Hk Hst HQ. unfold test_setup. rewrite component_0. apply fwp_bind. fwu_call. cbv beta iota.
  fwu_consts. rewrite Hst. cbn. by apply fwp_ret.
Qed.

(** The tear down brings a component that is written back to READY. *)
Lemma tear_down n f e img a Q :
  (forall e img, Q tt (<[0 := mkComp 0 e img a]> f) TEST_PASSED) ->
  fwp fwu_of (test_tear_down __FILE__ images n) Q (<[0 := mkComp 1 e img a]> f) TEST_PASSED.
Proof. intros HQ. unfold test_tear_down. rewrite component_0. repeat fwu_step. apply HQ. Qed.
(** From READY, the rest of a test. *)
Definition from_ready (m : P W unit) : Prop := forall f e img, resting vs f -> f !! 0 = Some (mkComp 0 e img v0) ->
  f !! components = None -> components <> 0 ->
  fwp fwu_of m (fun _ f' v => resting vs f' /\ v = TEST_PASSED) (<[0 := mkComp 0 e img v0]> f) TEST_PASSED.

Lemma test_runs n m : from_ready m ->
  test_ok (r ← test_setup __FILE__ images n; (if negb (r =? 0) then return_ else mret tt);; m).
Proof.
  intros Hm f Hf. destruct (resting_lookup Hf 0 v0 H0) as (k & Hk & Ha & Hst). apply fwp_bind.
  eapply setup_ready; [exact Hk | exact Hst|]. apply fwp_bind, fwp_ret.
  rewrite <- (insert_id f 0 k Hk). destruct k as [st e img a]. cbn in Ha, Hst. subst st a.
  apply Hm; [done | done | by apply (resting_missing Hf) | apply component_missing].
Qed.

Tactic Notation "start_test" reference(test) := unfold test; cbv zeta; apply test_runs; intros f e img Hf Hk Hmiss Hne; rewrite ?component_0.

Ltac rest Hf := rewrite ?insert_insert_eq; split; [apply (resting_insert Hf 0 _ v0); done | done].

(** A candidate that asks for any non-secure image. *)
Lemma met f k reqs : resting vs f -> reqs = [(1, any_version)] -> checked = true ->
  forallb (satisfied (<[0 := k]> f)) reqs = true.
Proof.
  intros Hf -> Hc. rewrite Hchecked in Hc. apply Z.ltb_lt in Hc. cbn [forallb].
  rewrite (any_version_ok f); [done | done | done |]. intros k1 Hk1. by rewrite lookup_insert_ne.
Qed.

Ltac end_test :=
  apply fwp_call_body, tear_down; intros ? ?; repeat fwu_step.

Lemma test_001_ok : test_ok (tfm_fwu_test_common_001 __FILE__ hdr s images).
Proof.
  start_test tfm_fwu_test_common_001. repeat fwu_step.
  - apply (met f); [done | by apply zero_requires | done].
  - end_test. rest Hf.
Qed.

(** A write past the end of the component. *)
Ltac write_over :=
  eapply at_write_over; [component | reflexivity | sizes | lia | intros ? ?].

Lemma test_002_ok : test_ok (tfm_fwu_test_common_002 __FILE__ hdr s images write_with_null query_with_null).
Proof.
  start_test tfm_fwu_test_common_002. destruct write_with_null, query_with_null; repeat fwu_step;
    (write_over; repeat fwu_step; end_test; rest Hf).
Qed.

Lemma test_003_ok : test_ok (tfm_fwu_test_common_003 __FILE__ hdr s images components).
Proof.
  start_test tfm_fwu_test_common_003. repeat fwu_step. rest Hf.
Qed.

Lemma test_004_ok : test_ok (tfm_fwu_test_common_004 __FILE__ hdr s images trial).
Proof.
  start_test tfm_fwu_test_common_004. destruct trial; repeat fwu_step.
  1, 3: apply (met f); [done | by apply zero_requires | done].
  all: rest Hf.
Qed.

Lemma test_005_ok : test_ok (tfm_fwu_test_common_005 __FILE__ hdr s images).
Proof.
  start_test tfm_fwu_test_common_005. repeat fwu_step.
  - apply (met f); [done | by apply secure_requires | done].
  - rest Hf.
Qed.
Lemma satisfied_by f c k v : f !! c = Some k ->
  satisfied f (c, v) = (version_key v <=? version_key (if cp_state k =? 2 then image_version (cp_image k) else cp_active k)).
Proof. intros Hk. unfold satisfied. cbn [fst snd]. rewrite Hk. unfold next_version. by rewrite fwu_candidate. Qed.

(** A component that runs version [v] does not meet the next major one. *)
Lemma next_major_needed f c k v : f !! c = Some k -> cp_state k <> 2 -> cp_active k = v -> version_ok v ->
  forallb (satisfied f) [(c, mkVersion (major v + 1) 0 0 0)] = false.
Proof.
  intros Hk Hst Hv (? & ? & ? & ?). cbn [forallb]. rewrite (satisfied_by f c k) by done.
  rewrite (proj2 (Z.eqb_neq _ _) Hst), Hv, andb_true_r. apply Z.leb_gt. unfold version_key. cbn -[Z.pow Z.mul Z.add]. lia.
Qed.

Lemma candidate_meets f c k v : f !! c = Some k -> cp_state k = 2 -> image_version (cp_image k) = v ->
  forallb (satisfied f) [(c, v)] = true.
Proof.
  intros Hk Hst Hv. cbn [forallb]. rewrite (satisfied_by f c k) by done. by rewrite Hst, Z.eqb_refl, Hv, Z.leb_refl.
Qed.

(** Replaces what an image requires by the lemma on it. *)
Ltac requires lem := etrans; [refine (f_equal (forallb _) _); by apply lem|].

Lemma test_006_ok : 1 < images -> major v1 < 255 ->
  test_ok (tfm_fwu_test_common_006 __FILE__ hdr s ns images).
Proof.
  intros Hi Hmajor. start_test tfm_fwu_test_common_006.
  destruct (resting_lookup Hf 1 v1 (H1 Hi)) as ([st1 e1 img1 a1] & Hk1 & Ha1 & Hst1). cbn in Ha1, Hst1. subst st1 a1.
  assert (version_ok v1) as Hv1 by apply (Hvs 1 v1 (H1 Hi)).
  assert (u8 (major v1 + 1) = major v1 + 1) as Hu by (apply wrapu_small; destruct Hv1; lia).
  assert (checked = true) as Hc by (rewrite Hchecked; by apply Z.ltb_lt).
  unfold dependency_component. rewrite fwu_nonsecure. repeat fwu_step'. rewrite Hu in Hblock.
  eapply (at_install_needs Hf); [done | done | |].
  { rewrite Hblock. requires secure_requires_major. by eapply next_major_needed; [component|..]. }
  repeat fwu_step'. rewrite Hu in Hblock0.
  eapply (at_install_needs_two Hf); [done | done | done | done | |].
  { rewrite Hblock. requires secure_requires_major. by eapply next_major_needed; [component|..]. }
  repeat fwu_step'.
  eapply (at_install_two Hf); [done | done | done | | |].
  { rewrite Hblock. requires secure_requires_major. eapply candidate_meets; [component | done |].
    rewrite Hblock0. by apply nonsecure_version. }
  { rewrite Hblock0. requires nonsecure_requires. eapply candidate_meets; [component | done |].
    by apply secure_image_version. }
  repeat fwu_step'. eapply (at_reject_two Hf); [done | done | done |]. compute_component. repeat fwu_step'.
  rewrite (insert_insert_ne _ 0 1), !insert_insert_eq by done. split; [|done].
  eapply resting_insert; [eapply resting_insert; [exact Hf | exact H0 | done | done] | by apply H1 | done | done].
Qed.

(** ** The suites *)

(** A test of a component that is not READY is skipped. *)
Lemma test_skips n m f k ret w : f !! 0 = Some k -> cp_state k <> 0 -> fwu_of w = f ->
  exists ret' w' l,
    as_test (r ← test_setup __FILE__ images n; (if negb (r =? 0) then return_ else mret tt);; m) ret w = Some (ret', w', l) /\
    val ret' = TEST_PASSED /\ fwu_of w' = f.
Proof.
  intros Hk Hst Hw. pose proof (law_query 0 k f Hk w Hw) as Hq.
  unfold as_test, mbind, P_bind, test_setup, query, call. rewrite component_0. cbn [t_world t_ret t_log].
  destruct (psa_fwu_query 0 w) as [[r [st er ve]] w'] eqn:E. cbn in Hq. destruct Hq as (Hw' & -> & -> & _).
  unfold mbind, P_bind. cbn [t_world t_ret t_log]. rewrite E. fwu_consts.
  cbn [Z.eqb negb info_state]. rewrite (proj2 (Z.eqb_neq _ _) Hst). cbn. by eexists _, w', _.
Qed.

Abbreviation ns_tests := (psa_fwu_ns_tests __FILE__ hdr s ns images components trial write_with_null query_with_null false).
Abbreviation s_tests := (psa_fwu_s_tests __FILE__ hdr s ns images components trial write_with_null query_with_null false).

(** From [I] the test passes, and leaves [I]. *)
Definition passes_from (I : W -> Prop) (m : P W unit) : Prop := forall ret w, val ret = TEST_PASSED -> I w ->
  exists ret' w' l, as_test m ret w = Some (ret', w', l) /\ val ret' = TEST_PASSED /\ I w'.

Lemma suites_pass_from (I : W -> Prop) :
  passes_from I (tfm_fwu_test_common_001 __FILE__ hdr s images) ->
  passes_from I (tfm_fwu_test_common_002 __FILE__ hdr s images write_with_null query_with_null) ->
  passes_from I (tfm_fwu_test_common_003 __FILE__ hdr s images components) ->
  passes_from I (tfm_fwu_test_common_004 __FILE__ hdr s images trial) ->
  (1 < images -> passes_from I (tfm_fwu_test_common_005 __FILE__ hdr s images)) ->
  (1 < images -> 1 < components -> passes_from I (tfm_fwu_test_common_006 __FILE__ hdr s ns images)) ->
  all_pass ns_tests I I /\ all_pass s_tests I I.
Proof.
  intros T1 T2 T3 T4 T5 T6. unfold psa_fwu_ns_tests, psa_fwu_s_tests. rewrite !app_nil_r.
  destruct (Z.ltb_spec 1 images) as [Hi|]; [destruct (Z.ltb_spec 1 components) as [Hc|]|];
    split; cbn [app]; repeat (eapply (all_pass_preset _ _ _ I I); [reflexivity | apply TEST_valid |
      first [exact T1 | exact T2 | exact T3 | exact T4 | exact (T5 Hi) | exact (T6 Hi Hc)] |]); constructor.
Qed.

Lemma test_ok_from m : test_ok m -> passes_from (fun w => resting vs (fwu_of w)) m.
Proof.
  intros Hm ret w Hr Hw. apply (wp_as_test m (fun w => resting vs (fwu_of w))).
  eapply wp_mono; [by eapply (Hm (fwu_of w) Hw)|]. intros [] s' (f' & v & [<- Hv] & Hf & ->). done.
Qed.

Lemma skipped_from n m f k : f !! 0 = Some k -> cp_state k <> 0 ->
  passes_from (fun w => fwu_of w = f) (r ← test_setup __FILE__ images n; (if negb (r =? 0) then return_ else mret tt);; m).
Proof. intros Hk Hst ret w _ Hw. by eapply test_skips. Qed.

Lemma ready_suites_pass : (1 < images -> 1 < components -> major v1 < 255) ->
  all_pass ns_tests (fun w => resting vs (fwu_of w)) (fun w => resting vs (fwu_of w)) /\
  all_pass s_tests (fun w => resting vs (fwu_of w)) (fun w => resting vs (fwu_of w)).
Proof.
  intros Hmajor. apply suites_pass_from; intros; apply test_ok_from.
  - apply test_001_ok.
  - apply test_002_ok.
  - apply test_003_ok.
  - apply test_004_ok.
  - apply test_005_ok.
  - by apply test_006_ok; auto.
Qed.

Lemma skipped_suites_pass f k : f !! 0 = Some k -> cp_state k <> 0 ->
  all_pass ns_tests (fun w => fwu_of w = f) (fun w => fwu_of w = f) /\
  all_pass s_tests (fun w => fwu_of w = f) (fun w => fwu_of w = f).
Proof. intros Hk Hst. apply suites_pass_from; intros; by eapply skipped_from. Qed.

Lemma tests_fit : Z.of_nat (length ns_tests) < 2 ^ 32 /\ Z.of_nat (length s_tests) < 2 ^ 32.
Proof. unfold psa_fwu_ns_tests, psa_fwu_s_tests. by destruct (1 <? images), (1 <? components). Qed.

(** What all tests leave as it is, both suites leave as it is. *)
Lemma suites_run (I : W -> Prop) reg fs w l : all_pass ns_tests I I /\ all_pass s_tests I I -> I w ->
  reg = register_testsuite_ns_psa_fwu_interface __FILE__ hdr s ns images components trial write_with_null query_with_null false \/
  reg = register_testsuite_s_psa_fwu_interface __FILE__ hdr s ns images components trial write_with_null query_with_null false ->
  exists ts w1 l1, run_testsuite (Some (mkSuite (Some reg) fs)) (w, l) = Some ((TEST_SUITE_ERR_NO_ERROR, Some ts), (w1, l1)) /\
    suite_val (fields ts) = TEST_PASSED /\ I w1.
Proof.
  intros [Hns' Hs'] HI Hreg. destruct tests_fit as [Hfn Hfs].
  destruct Hreg as [-> | ->]; (eapply all_pass_run; [first [exact Hns' | exact Hs'] | done | done | done]).
Qed.

(** C33. Both suites, built without TFM_FWU_TEST_REQUEST_REBOOT (test 007 asks
    for a reboot and fails when it comes back, [test_007_fails_when_it_returns]),
    pass over every service that meets the laws, as long as the major version of
    the running non-secure image is below 255 where test 006 runs, with several
    images and components (it asks for that version plus one in a [uint8_t],
    [test_006_wraps]).  When all components are READY they are READY again at the
    end, and the versions that run are the same; when the component of the tests
    is not, the suites leave every component as it is. *)
Theorem fwu_suites_pass reg fs w l : (1 < images -> 1 < components -> major v1 < 255) ->
  reg = register_testsuite_ns_psa_fwu_interface __FILE__ hdr s ns images components trial write_with_null query_with_null false \/
  reg = register_testsuite_s_psa_fwu_interface __FILE__ hdr s ns images components trial write_with_null query_with_null false ->
  resting vs (fwu_of w) \/ (exists k, fwu_of w !! 0 = Some k /\ cp_state k <> PSA_FWU_READY) ->
  exists ts w1 l1, run_testsuite (Some (mkSuite (Some reg) fs)) (w, l) = Some ((TEST_SUITE_ERR_NO_ERROR, Some ts), (w1, l1)) /\
    suite_val (fields ts) = TEST_PASSED /\
    (resting vs (fwu_of w) -> resting vs (fwu_of w1)) /\ (~ resting vs (fwu_of w) -> fwu_of w1 = fwu_of w).
Proof.
  intros Hmajor Hreg [Hrest | (k & Hk & Hst)].
  - destruct (suites_run _ reg fs w l (ready_suites_pass Hmajor) Hrest Hreg) as (ts & w1 & l1 & Hr & Hv & HI).
    by exists ts, w1, l1.
  - rewrite fwu_ready in Hst.
    destruct (suites_run _ reg fs w l (skipped_suites_pass _ k Hk Hst) eq_refl Hreg) as (ts & w1 & l1 & Hr & Hv & HI).
    exists ts, w1, l1. split; [exact Hr | split; [exact Hv | split; [|done]]].
    intros Hf. by apply (resting_ready Hf) in Hk.
Qed.
End suites.

(** ** On a service *)

(** The device with a secure and a non-secure image, of major versions [m0] and [m1]. *)
Definition running (m0 m1 : Z) : gmap Z psa_fwu_image_version_t :=
  <[0 := mkVersion m0 2 3 4]> {[1 := mkVersion m1 2 3 4]}.
Definition device (m0 m1 : Z) : fwu := (fun v => mkComp PSA_FWU_READY 0 erased v) <$> running m0 m1.

Definition device_service : FwuService fwu := ref_fwu_service 1024 (fun _ => 0x100000) true.
Definition device_laws : FwuLaws (FS := device_service) 1024 (fun _ => 0x100000) true fwu :=
  ref_fwu_laws 1024 (fun _ => 0x100000) true.

Lemma running_ok : map_Forall (fun _ v => version_ok v) (running 1 1).
Proof. apply map_Forall_insert_2; [done|]. by apply map_Forall_singleton. Qed.

Lemma device_resting : resting (running 1 1) (device 1 1).
Proof. split; [done|]. intros c k Hk. apply lookup_fmap_Some in Hk. by destruct Hk as (v & <- & _). Qed.

Lemma fwu_suites_pass_witness : exists ts f1 l1,
  run_testsuite (Some (mkSuite (Some (register_testsuite_ns_psa_fwu_interface (FS := device_service)
      "fwu_tests_common.c" 0x400 0x8000 0x8000 2 2 true true true false)) (mkFields [] 0 None TEST_PASSED)))
    (device 1 1, []) = Some ((TEST_SUITE_ERR_NO_ERROR, Some ts), (f1, l1)) /\
  suite_val (fields ts) = TEST_PASSED /\ resting (running 1 1) f1.
Proof.
  destruct (fwu_suites_pass (FS := device_service) (FL := device_laws) "fwu_tests_common.c" 0x400 0x8000 0x8000 2 2 true true true
    ltac:(lia) ltac:(lia) ltac:(lia) ltac:(lia) ltac:(lia) ltac:(lia) eq_refl (running 1 1) running_ok
    (mkVersion 1 2 3 4) (mkVersion 1 2 3 4) eq_refl (fun _ => eq_refl) eq_refl _ (mkFields [] 0 None TEST_PASSED)
    (device 1 1) [] ltac:(done) (or_introl eq_refl) (or_introl device_resting)) as (ts & f1 & l1 & Hr & Hv & Hf & _).
  exists ts, f1, l1. split; [exact Hr | split; [exact Hv | apply Hf, device_resting]].
Defined.

(** ** What the tests do not see *)

(** The outcome of a test, and the state of the secure component after it. *)
Definition outcome_of (m : P fwu unit) (f : fwu) : option (test_status_t * option Z) :=
  match as_test m (mkResult TEST_PASSED None None 0) f with
  | Some (ret, f', _) => Some (val ret, cp_state <$> f' !! 0)
  | None => None
  end.

(** The major version that test 006 asks for wraps: from 255 on any non-secure
    image will do, the installation succeeds and the test fails.  The secure
    component stays STAGED, so that the suite is skipped from then on. *)
Lemma test_006_wraps :
  outcome_of (tfm_fwu_test_common_006 (FS := device_service) "fwu_tests_common.c" 0x400 0x8000 0x8000 2) (device 1 255) =
    Some (TEST_FAILED, Some PSA_FWU_STAGED).
Proof. vm_compute. reflexivity. Qed.

(** Test 007 passes on no service: when the request returns, whatever it returns,
    the test fails; when the device reboots there is no outcome. *)
Lemma test_007_fails_when_it_returns {W} {FS : FwuService W} file (w : W) :
  match psa_fwu_request_reboot w with
  | Some (_, w') => exists m l n,
      as_test (tfm_fwu_test_common_007 file) (mkResult TEST_PASSED None None 0) w =
        Some (mkResult TEST_FAILED (Some m) (Some file) n, w', l)
  | None => as_test (tfm_fwu_test_common_007 file) (mkResult TEST_PASSED None None 0) w = None
  end.
Proof.
  unfold as_test, tfm_fwu_test_common_007, request_reboot, call, mbind, P_bind. cbn [t_world].
  destruct (psa_fwu_request_reboot w) as [[st w']|]; [by do 3 eexists | done].
Qed.

(** A failure after which the test goes on is lost. *)
Lemma kept_failure_lost file fmt args ln msg (s : tstate fwu) : exists s',
  (log_and_fail file true fmt args ln msg;; ret_val TEST_PASSED) s = Some (Continue tt, s') /\ val (t_ret s') = TEST_PASSED.
Proof. by eexists. Qed.

(** With a service whose [psa_fwu_clean] does nothing test 003 passes, although
    the component is FAILED at its last query. *)
Definition lazy_service : FwuService fwu := {|
  psa_fwu_query := psa_fwu_query (FwuService := device_service); psa_fwu_query_null := psa_fwu_query_null (FwuService := device_service);
  psa_fwu_start := psa_fwu_start (FwuService := device_service); psa_fwu_write := psa_fwu_write (FwuService := device_service);
  psa_fwu_write_null := psa_fwu_write_null (FwuService := device_service); psa_fwu_finish := psa_fwu_finish (FwuService := device_service);
  psa_fwu_install := psa_fwu_install (FwuService := device_service); psa_fwu_cancel := psa_fwu_cancel (FwuService := device_service);
  psa_fwu_clean c f := if decide (f !! c = None) then (PSA_ERROR_DOES_NOT_EXIST, f) else (PSA_SUCCESS, f);
  psa_fwu_reject := psa_fwu_reject (FwuService := device_service); psa_fwu_accept := psa_fwu_accept (FwuService := device_service);
  psa_fwu_request_reboot := psa_fwu_request_reboot (FwuService := device_service) |}.

Lemma test_003_passes_lazy :
  outcome_of (tfm_fwu_test_common_003 (FS := lazy_service) "fwu_tests_common.c" 0x400 0x8000 2 2) (device 1 1) =
    Some (TEST_PASSED, Some PSA_FWU_FAILED).
Proof. vm_compute. reflexivity. Qed.
